(* ===== verification/_CoqProject ===== *)
-Q . S2P
Prelude.v
Layout.v
RustStd.v
Common.v
Bitfield.v
Proto.v
Parser.v
Names.v
Answers.v
Decode.v
Policy.v
RingBuffer.v
Ebpf.v
Capture.v
Channels.v
CommitLog.v
Protobuf.v
Topology.v
System.v
Cpus.v
Drain.v
Pipeline.v
Recovery.v
Daemon.v
KernelEnums.v
KernelTypes.v
KernelData.v
Vmlinux.v
KernelLayout.v
