(* ===== verification/Prelude.v ===== *)
(** * Verification of cilium-mini, an eBPF DNS profiler

    The program.  A TC classifier in the kernel copies the DNS responses it
    sees into a ring buffer; a daemon reads the ring, parses the DNS messages,
    adds the addresses of allowed domains to a kernel map and appends every
    response to a log file.

      packet -> dns_tc -> DNS_EVENTS_PIPE -> reader -> channel -> parser
                                                                   |  |
                                  ALLOWED_IP_MAP <- policy engine -+  |
                                        00000001.ldpb <- writer <- channel

    How the model reads.  Rust code that mutates one object and may return
    early is a [prog S E A], a state passing function to an [outcome]: [Ok],
    [Err], or [Fault] for what would be a panic or an undefined access.  The
    judgements [runs] and [yields] say that code does not fault and what holds
    at its two exits.  Integers are [Z] with the width stated where it matters,
    [usize] offsets are [nat] with checked additions ([uadd]), bytes are
    [Byte.byte], strings are lists of bytes.  Loops are structural where the
    code counts and use fuel where it does not; the fuel is one more than the
    length of the input, and the theorems on results show that it never runs
    out, since [OutOfFuel] is a fault.

    Files, in order, with the code they model.
    - Prelude: outcomes, programs, their rules, bytes, buffers, automation.
    - Layout: computed [repr(C)] layout of scalars, pointers, arrays, records,
      packed records and unions on a 64-bit target.
    - RustStd: what the standard library does for the program (ASCII, UTF-8,
      [Display] of numbers and IP addresses, [chunks_exact]).
    - Common: cilium-mini-common/src/lib.rs.  The records shared by kernel and
      daemon, their layout, byte images, [write_to].
    - Bitfield: the bit field units at the head of
      cilium-mini-ebpf/src/vmlinux.rs, both byte orders, by reference and by
      raw pointer.
    - Proto: the message of proto/network_event.proto.
    - Parser: cilium-mini-rs/src/parser.rs, function by function.  Names,
      Answers and Decode hold its theorems: the question's name, the answer
      section, and [parse_dns_into] as a whole.
    - Policy: policy.rs.  [FqdnPolicyEngine] over the interface [BpfHashMap].
    - RingBuffer, Ebpf: cilium-mini-ebpf/src/main.rs over the interfaces
      [RingBuffer] and [NetworkTypes].  Capture: its specification on byte
      lists and the refinement.
    - Channels: the interface [ThingBuf] of the bounded channels.
    - CommitLog: [spawn_file_writer], [BufWriter] and the frames of the log
      over [LogFile] and [Prost].  Protobuf: the proto3 wire format and files
      in memory as instances.
    - Topology: topology.rs, the reader and the parser task.
    - System: [assembly_processing_topology] and the transition system of
      classifier and tasks: a step is one packet or one iteration of one task,
      in any order.
    - Cpus: the same with runs of the classifier on several processors, cut at
      the reservation of their ring entry ([enter], [leave]), so that runs and
      tasks interleave inside a run.
    - Drain: how the tasks come to rest, and what is left when they do.
    - Pipeline: an abstract specification of the whole, three lossy queues and
      the history of what was seen, handled and lost, and the bisimulation
      between it and the system.
    - Recovery: a reader of the log file, and what it finds after a crash and
      after a restart.
    - Daemon: main.rs over the interface [Host]: start, waiting, every exit with
      the drop of the loaded object and of the tokio runtime, and what the end
      of the runtime leaves to the writer thread.
    - KernelEnums, KernelTypes, KernelData: the declarations of vmlinux.rs, one
      definition each: enumerations with their constants; the structures with
      bit fields, the headers of a packet and all they contain by value; all
      other structures, unions and type names.  Vmlinux: the 780 bit fields
      with their accessors and the 235 units they form.  KernelLayout: the
      accessors through a raw pointer to a structure, and what declarations and
      classifier have to do with one another.

    What the theorems show.
    - Drain: the tasks always come to rest.  With the log opened they run for
      ever, and for at most 1000 packets every schedule ends with the same map,
      responses and log, namely those of handling the packets one after the
      other.  With a log that cannot be opened the policy engine sees at most
      one more response.
    - Pipeline: system and specification are bisimilar, step by step; every
      response is handled, on its way or lost at one named place, and lost only
      when a queue is full; under any load the thousand oldest entries get
      through.
    - System: the channels are bounded, and no task panics but the writer
      thread, at its start, on a log that cannot be opened.  With the log
      opened, and as long as no write has failed, it is an ordered subsequence
      of the responses in the packets seen; every new entry of ALLOWED_IP_MAP is
      the first address of a response for an allowed domain; an idle system
      delivers a packet for which ring and map have room to observer, map and
      log.
    - Cpus: what a run that is interrupted between its halves does to the ring;
      runs in progress do not touch each other's entries and no task sees an
      unfinished one; the guarantees on log and policy hold in every
      interleaving.
    - Capture: memory safety and verdict of the classifier, exactly which
      packets give an event and with which contents, and that uncleared ring
      memory is never observable.
    - Decode, Names, Answers: totality, exact panics, independence of the
      reused buffer, round trips with reference encodings, and what the parser
      does with several answers.
    - Policy, Topology, CommitLog: every branch of the handlers, including the
      error exits; the round trip of the log; a torn frame.
    - Recovery: stopped at any moment before the first failed write, the daemon
      leaves a file from which a prefix of the responses is recovered; how much
      can be missing; what a restart behind a torn frame does to the frames that
      follow.
    - Daemon: the state in which [main] waits, and that every exit leaves no
      hook and no task but the writer thread; given the time, that thread
      handles what was queued for it, flushes and ends.
    - Bitfield, Vmlinux, KernelLayout: accessors against arithmetic on the
      whole unit, frame and round trip for every unit; the transmutes are
      between types of one size and give valid values; the accessors through
      raw pointers stay inside the structure and change their field only; the
      headers are where the classifier reads them.

    Interfaces.  Code that is not in the repository is a type class with the
    documented behaviour as laws ([BpfHashMapLaws], [NetworkTypesLaws],
    [ThingBufLaws], [LogFileLaws], [ProstLaws], [HostLaws]; the ring's consumer
    side is [RingReaderLaws], its producer side [RingBufferLaws] for one
    processor and [SharedRingLaws] for several).  Each has an instance on which
    the witnesses evaluate; an instance is an example of what the laws allow,
    and no theorem is about it.  The daemon's own interface is [DnsObserver]:
    the tasks are proved against [DnsObserverLaws], which the policy engine
    discharges.

    Bounds.  A DNS payload has at most 512 bytes, a channel 1000 slots, the
    log buffer 256 KiB and the ring 64 MiB, as in the code; when the kernel
    refuses an entry of ALLOWED_IP_MAP is left to the interface.  Addresses of
    the classifier's packet are at most [isize_max].  The bound of 1000 packets
    in Drain is the channels' capacity: beyond it a channel may be full and what
    it refuses is dropped, so the result depends on the schedule.

    Not modelled: log output ([info!], [debug!], ...), the command line, the
    logger task (it only flushes log lines), the build scripts, the empty
    library of the eBPF crate, epoll readiness beyond "a step is enabled" (an
    error of [readable_mut] is retried without effect), and how long the
    process outlives [main]: the writer thread may be cut off after any number
    of its steps.  The writer thread opens the log when it is spawned; the
    theorem on a log that cannot be opened also covers a later moment.  Of
    vmlinux.rs, which is generated and which the program does not use, the
    derived traits, the types of function pointers (a field holding one has the
    size of a pointer) and the views [__IncompleteArrayField] and
    [__BindgenUnionField] offer on memory behind or under a field.  An iteration
    of a task is one step; a run of the classifier is two, between which the
    ring is the only memory it shares. *)

From Stdlib Require Import Strings.Byte NArith ZArith Lia.
From stdpp Require Import base tactics numbers list strings countable.

Local Open Scope Z_scope.

(** ** Outcomes of Rust code *)

(** Ways in which running code stops without producing a Rust value. *)
Inductive fault :=
  | SliceIndex     (* index or range outside a slice: a Rust panic *)
  | ArithOverflow  (* integer overflow: a panic with overflow checks on *)
  | UnwrapNone     (* [Option::unwrap] on [None] *)
  | BadPointer     (* a raw load or store outside the object it points to *)
  | AssertFailed   (* a [debug_assert!] *)
  | OutOfFuel.     (* the model's fuel was not enough for a loop *)

(** [Result<A, E>] together with the faults. *)
Inductive outcome (E A : Type) : Type :=
  | Ok (a : A)
  | Err (e : E)
  | Fault (f : fault).
Arguments Ok {E A} a.
Arguments Err {E A} e.
Arguments Fault {E A} f.

#[export] Instance fault_eq_dec : EqDecision fault.
Proof. solve_decision. Defined.
#[export] Instance outcome_eq_dec {E A} `{EqDecision E, EqDecision A} :
  EqDecision (outcome E A).
Proof. solve_decision. Defined.

(** Code that may mutate a state [S] and returns with [?] early exits. *)
Definition prog (S E A : Type) : Type := S -> S * outcome E A.

Section Prog.
Context {S E : Type}.

Definition ret {A} (a : A) : prog S E A := fun s => (s, Ok a).
Definition throw {A} (e : E) : prog S E A := fun s => (s, Err e).
Definition crash {A} (f : fault) : prog S E A := fun s => (s, Fault f).
Definition lift {A} (o : outcome E A) : prog S E A := fun s => (s, o).
Definition gets {A} (f : S -> A) : prog S E A := fun s => (s, Ok (f s)).
Definition modify (f : S -> S) : prog S E unit := fun s => (f s, Ok tt).

Definition bind {A B} (m : prog S E A) (k : A -> prog S E B) : prog S E B :=
  fun s => match m s with
           | (s', Ok a) => k a s'
           | (s', Err e) => (s', Err e)
           | (s', Fault f) => (s', Fault f)
           end.

Lemma bind_lift {A B} (o : outcome E A) (k : A -> prog S E B) s :
  bind (lift o) k s = match o with
                      | Ok a => k a s
                      | Err e => (s, Err e)
                      | Fault f => (s, Fault f)
                      end.
Proof. by destruct o. Qed.

(** Run the first part of a sequence whose result is known. *)
Lemma bind_run {A B} (m : prog S E A) (k : A -> prog S E B) s s' a :
  m s = (s', Ok a) -> bind m k s = k a s'.
Proof. unfold bind. by intros ->. Qed.

Lemma bind_modify {A} (f : S -> S) (k : unit -> prog S E A) s :
  bind (modify f) k s = k tt (f s).
Proof. done. Qed.

Lemma bind_assoc {A B C} (m : prog S E A) (k : A -> prog S E B) (h : B -> prog S E C) s :
  bind (bind m k) h s = bind m (fun a => bind (k a) h) s.
Proof. unfold bind. by destruct (m s) as [? []]. Qed.

(** [runs m s Q R]: started in [s], [m] does not fault; it ends with [Q]
    when it returns and with [R] when it exits with an error. *)
Definition runs {A} (m : prog S E A) (s : S)
  (Q : S -> A -> Prop) (R : S -> E -> Prop) : Prop :=
  match m s with
  | (s', Ok a) => Q s' a
  | (s', Err e) => R s' e
  | (_, Fault _) => False
  end.
End Prog.

(** A call that borrows one field of the state mutably. *)
Definition zoom {S T E A} (get : S -> T) (set : T -> S -> S)
  (m : prog T E A) : prog S E A :=
  fun s => let '(t, r) := m (get s) in (set t s, r).

(** Result-only code, without a state. *)
Definition obind {E A B} (o : outcome E A) (k : A -> outcome E B) : outcome E B :=
  match o with
  | Ok a => k a
  | Err e => Err e
  | Fault f => Fault f
  end.

(** [r.map_err(|_| e)] *)
Definition map_err {E E' A} (o : outcome E A) (e : E') : outcome E' A :=
  match o with
  | Ok a => Ok a
  | Err _ => Err e
  | Fault f => Fault f
  end.

(** The same on code with a state. *)
Definition prog_map_err {S E E' A} (m : prog S E A) (e : E') : prog S E' A :=
  fun s => let '(s', o) := m s in (s', map_err o e).

Declare Scope rust_scope.
Delimit Scope rust_scope with rust.
Notation "'let!' x ':=' m 'in' k" := (bind m (fun x => k))
  (at level 10, x pattern, m at level 100, k at level 200)
  : rust_scope.
Notation "'do!' m 'in' k" := (bind m (fun _ => k))
  (at level 10, m at level 100, k at level 200)
  : rust_scope.
Notation "'let?' x ':=' o 'in' k" := (obind o (fun x => k))
  (at level 10, x pattern, o at level 100, k at level 200)
  : rust_scope.
Open Scope rust_scope.

Section RunsRules.
Context {S E : Type}.
Implicit Types (Qu : S -> unit -> Prop) (R : S -> E -> Prop).

Lemma runs_bind {A B} (m : prog S E A) (k : A -> prog S E B) s Q R :
  runs m s (fun s' a => runs (k a) s' Q R) R -> runs (bind m k) s Q R.
Proof. unfold runs, bind. cbv beta. destruct (m s) as [s' [a|e|f]]; auto. Qed.

Lemma runs_mono {A} (m : prog S E A) s (Q Q' : S -> A -> Prop) R R' :
  runs m s Q R ->
  (forall s' a, Q s' a -> Q' s' a) -> (forall s' e, R s' e -> R' s' e) ->
  runs m s Q' R'.
Proof. unfold runs. destruct (m s) as [s' [a|e|f]]; auto. Qed.

Lemma runs_ext {A} (m m' : prog S E A) s Q R : m s = m' s -> runs m' s Q R -> runs m s Q R.
Proof. unfold runs. by intros ->. Qed.

Lemma runs_ret {A} (a : A) s (Q : S -> A -> Prop) R : Q s a -> runs (ret a) s Q R.
Proof. done. Qed.

Lemma runs_throw {A} (e : E) s (Q : S -> A -> Prop) R : R s e -> runs (throw e) s Q R.
Proof. done. Qed.

Lemma runs_modify (f : S -> S) s Qu R : Qu (f s) tt -> runs (modify f) s Qu R.
Proof. done. Qed.

Lemma runs_gets {A} (f : S -> A) s (Q : S -> A -> Prop) R : Q s (f s) -> runs (gets f) s Q R.
Proof. done. Qed.

Lemma runs_lift_ok {A} (o : outcome E A) a s (Q : S -> A -> Prop) R :
  o = Ok a -> Q s a -> runs (lift o) s Q R.
Proof. by intros ->. Qed.

Lemma runs_if {A} (b : bool) (m1 m2 : prog S E A) s Q R :
  (b = true -> runs m1 s Q R) -> (b = false -> runs m2 s Q R) ->
  runs (if b then m1 else m2) s Q R.
Proof. destruct b; auto. Qed.

(** What a triple says of the final configuration. *)
Lemma runs_ok {A} (m : prog S E A) s Q R s' a :
  runs m s Q R -> m s = (s', Ok a) -> Q s' a.
Proof. unfold runs. intros H Hm. by rewrite Hm in H. Qed.

Lemma runs_err {A} (m : prog S E A) s (Q : S -> A -> Prop) R s' e :
  runs m s Q R -> m s = (s', Err e) -> R s' e.
Proof. unfold runs. intros H Hm. by rewrite Hm in H. Qed.

Lemma runs_no_fault {A} (m : prog S E A) s (Q : S -> A -> Prop) R f :
  runs m s Q R -> (m s).2 <> Fault f.
Proof. unfold runs. destruct (m s) as [s' [a|e|f']]; naive_solver. Qed.
End RunsRules.

Lemma runs_zoom {S T E A} (get : S -> T) (set : T -> S -> S) (m : prog T E A) s
  (Q : S -> A -> Prop) (R : S -> E -> Prop) :
  runs m (get s) (fun t a => Q (set t s) a) (fun t e => R (set t s) e) ->
  runs (zoom get set m) s Q R.
Proof. unfold runs, zoom. by destruct (m (get s)) as [t [a|e|f]]. Qed.

Lemma runs_map_err {S E E' A} (m : prog S E A) (e : E') s
  (Q : S -> A -> Prop) (R : S -> E' -> Prop) :
  runs m s Q (fun s' _ => R s' e) -> runs (prog_map_err m e) s Q R.
Proof. unfold runs, prog_map_err. by destruct (m s) as [s' [a|e'|f]]. Qed.

Definition is_ok {E A} (o : outcome E A) : bool :=
  match o with
  | Ok _ => true
  | _ => false
  end.

(** The final configuration of a run that returns; the hypothesis is cheap to
    evaluate because nothing of the state or the error type is read back. *)
Lemma run_returns {S E} (m : prog S E unit) s : is_ok (m s).2 = true -> m s = ((m s).1, Ok tt).
Proof. by destruct (m s) as [s' [[]|e|f]]. Qed.

(** The same judgement for result-only code. *)
Definition yields {E A} (o : outcome E A) (Q : A -> Prop) (R : E -> Prop) : Prop :=
  match o with
  | Ok a => Q a
  | Err e => R e
  | Fault _ => False
  end.

Lemma runs_lift {S E A} (o : outcome E A) s (Q : S -> A -> Prop) (R : S -> E -> Prop) :
  yields o (Q s) (R s) -> runs (lift o) s Q R.
Proof. done. Qed.

Lemma yields_bind {E A B} (o : outcome E A) (k : A -> outcome E B) Q R :
  yields o (fun a => yields (k a) Q R) R -> yields (obind o k) Q R.
Proof. destruct o; simpl; auto. Qed.

Lemma yields_mono {E A} (o : outcome E A) (Q Q' : A -> Prop) (R R' : E -> Prop) :
  yields o Q R -> (forall a, Q a -> Q' a) -> (forall e, R e -> R' e) -> yields o Q' R'.
Proof. destruct o; simpl; auto. Qed.

Lemma yields_ok {E A} (o : outcome E A) (Q : A -> Prop) (R : E -> Prop) a :
  o = Ok a -> Q a -> yields o Q R.
Proof. by intros ->. Qed.

Lemma yields_if {E A} (b : bool) (o1 o2 : outcome E A) Q R :
  (b = true -> yields o1 Q R) -> (b = false -> yields o2 Q R) ->
  yields (if b then o1 else o2) Q R.
Proof. destruct b; auto. Qed.

(** ** Machine integers and bytes *)

(** The numeric value of a [u8]. *)
Definition u8 (b : byte) : Z := Z.of_N (Byte.to_N b).

(** [u8 as usize] *)
Definition usize_of_u8 (b : byte) : nat := N.to_nat (Byte.to_N b).

(** The low eight bits of an integer, as a byte ([as u8]). *)
Definition byte_of_Z (z : Z) : byte :=
  default x00 (Byte.of_N (Z.to_N (z mod 256))).

#[export] Instance byte_eq_dec : EqDecision byte := Byte.byte_eq_dec.
#[export] Instance byte_countable : Countable byte :=
  inj_countable Byte.to_N Byte.of_N Byte.of_to_N.

Definition usize_max : Z := 18446744073709551615.
Definition isize_max : Z := 9223372036854775807.
Definition wrap (w z : Z) : Z := z mod 2 ^ w.

Lemma u8_range b : 0 <= u8 b < 256.
Proof.
  unfold u8. pose proof (Byte.to_N_bounded b). lia.
Qed.

Lemma u8_inj b1 b2 : u8 b1 = u8 b2 -> b1 = b2.
Proof.
  unfold u8. intros H%N2Z.inj.
  pose proof (Byte.of_to_N b1) as E1. pose proof (Byte.of_to_N b2) as E2.
  rewrite H in E1. congruence.
Qed.

Lemma u8_byte_of_Z z : u8 (byte_of_Z z) = z mod 256.
Proof.
  unfold u8, byte_of_Z. pose proof (Z.mod_pos_bound z 256 eq_refl) as Hb.
  destruct (Byte.of_N _) as [b|] eqn:Hn; simpl.
  - apply Byte.to_of_N in Hn. rewrite Hn. lia.
  - apply Byte.of_N_None_iff in Hn. lia.
Qed.

Lemma byte_of_Z_u8 b : byte_of_Z (u8 b) = b.
Proof.
  apply u8_inj. rewrite u8_byte_of_Z. apply Z.mod_small, u8_range.
Qed.

Lemma usize_of_u8_Z b : Z.of_nat (usize_of_u8 b) = u8 b.
Proof. unfold usize_of_u8, u8. lia. Qed.

Lemma usize_of_u8_lt b : (usize_of_u8 b < 256)%nat.
Proof. pose proof (usize_of_u8_Z b). pose proof (u8_range b). lia. Qed.

Lemma usize_of_u8_inj b1 b2 : usize_of_u8 b1 = usize_of_u8 b2 -> b1 = b2.
Proof.
  intros H. apply u8_inj. by rewrite <-!usize_of_u8_Z, H.
Qed.

(** Little- and big-endian images of an unsigned integer of [n] bytes. *)
Fixpoint le_bytes (n : nat) (z : Z) : list byte :=
  match n with
  | O => []
  | S n => byte_of_Z z :: le_bytes n (z / 256)
  end.

Fixpoint le_Z (l : list byte) : Z :=
  match l with
  | [] => 0
  | b :: l => u8 b + 256 * le_Z l
  end.

Definition be_bytes (n : nat) (z : Z) : list byte := rev (le_bytes n z).
Definition be_Z (l : list byte) : Z := le_Z (rev l).

Lemma length_le_bytes n z : length (le_bytes n z) = n.
Proof. revert z. induction n; intros; simpl; auto. Qed.

Lemma length_be_bytes n z : length (be_bytes n z) = n.
Proof. unfold be_bytes. by rewrite length_rev, length_le_bytes. Qed.

Lemma le_Z_range l : 0 <= le_Z l < 256 ^ Z.of_nat (length l).
Proof.
  induction l as [|b l IH]; simpl length; simpl le_Z.
  - rewrite Z.pow_0_r. lia.
  - rewrite Nat2Z.inj_succ, Z.pow_succ_r by lia. pose proof (u8_range b). nia.
Qed.

Lemma be_Z_range l : 0 <= be_Z l < 256 ^ Z.of_nat (length l).
Proof. unfold be_Z. rewrite <-(length_rev l). apply le_Z_range. Qed.

Lemma le_Z_le_bytes n z : le_Z (le_bytes n z) = z mod 256 ^ Z.of_nat n.
Proof.
  revert z. induction n as [|n IH]; intros z.
  - simpl. by rewrite Z.mod_1_r.
  - cbn [le_bytes le_Z]. rewrite IH, u8_byte_of_Z, Nat2Z.inj_succ.
    rewrite Z.pow_succ_r, Z.rem_mul_r by lia. lia.
Qed.

Lemma le_bytes_le_Z l : le_bytes (length l) (le_Z l) = l.
Proof.
  induction l as [|b l IH]; [done|]. cbn [length le_Z le_bytes].
  pose proof (u8_range b). f_equal.
  - apply u8_inj. rewrite u8_byte_of_Z.
    rewrite (Z.mul_comm 256), Z.mod_add by lia. by apply Z.mod_small.
  - rewrite (Z.mul_comm 256), Z.div_add, Z.div_small by lia. apply IH.
Qed.

Lemma le_bytes_le_Z_len n l : length l = n -> le_bytes n (le_Z l) = l.
Proof. intros <-. apply le_bytes_le_Z. Qed.

Lemma le_Z_le_bytes_small n z :
  0 <= z < 256 ^ Z.of_nat n -> le_Z (le_bytes n z) = z.
Proof. intros. rewrite le_Z_le_bytes. by apply Z.mod_small. Qed.

Lemma be_Z_be_bytes_small n z :
  0 <= z < 256 ^ Z.of_nat n -> be_Z (be_bytes n z) = z.
Proof.
  intros. unfold be_Z, be_bytes. rewrite rev_involutive.
  by apply le_Z_le_bytes_small.
Qed.

Lemma be_bytes_be_Z l : be_bytes (length l) (be_Z l) = l.
Proof.
  unfold be_Z, be_bytes. rewrite <-(length_rev l), le_bytes_le_Z.
  apply rev_involutive.
Qed.

(** ** Checked [usize] arithmetic and slices *)

Section Checked.
Context {E : Type}.

(** [a + b] on [usize], overflow checks on. *)
Definition uadd (a b : nat) : outcome E nat :=
  if Z.of_nat a + Z.of_nat b <=? usize_max then Ok (a + b)%nat
  else Fault ArithOverflow.

(** [l[i]] *)
Definition index {A} (l : list A) (i : nat) : outcome E A :=
  match l !! i with
  | Some b => Ok b
  | None => Fault SliceIndex
  end.

(** [&l[a..]] *)
Definition slice_from {A} (l : list A) (a : nat) : outcome E (list A) :=
  if (a <=? length l)%nat then Ok (drop a l) else Fault SliceIndex.

(** [&l[..b]] *)
Definition slice_to {A} (l : list A) (b : nat) : outcome E (list A) :=
  if (b <=? length l)%nat then Ok (take b l) else Fault SliceIndex.

(** [&l[a..b]] *)
Definition slice_range {A} (l : list A) (a b : nat) : outcome E (list A) :=
  if (a <=? b)%nat && (b <=? length l)%nat then Ok (take (b - a) (drop a l))
  else Fault SliceIndex.

Lemma uadd_ok a b :
  Z.of_nat a + Z.of_nat b <= usize_max -> uadd a b = Ok (a + b)%nat.
Proof. intros. unfold uadd. by rewrite (proj2 (Z.leb_le _ _)). Qed.

Lemma index_ok {A} (l : list A) i b : l !! i = Some b -> index l i = Ok b.
Proof. unfold index. by intros ->. Qed.

Lemma index_lt {A} (l : list A) i :
  (i < length l)%nat -> exists b, l !! i = Some b /\ index l i = Ok b.
Proof.
  intros [b Hb]%lookup_lt_is_Some_2. exists b. by rewrite (index_ok _ _ _ Hb).
Qed.

Lemma slice_from_ok {A} (l : list A) a :
  (a <= length l)%nat -> slice_from l a = Ok (drop a l).
Proof. intros. unfold slice_from. by rewrite (proj2 (Nat.leb_le _ _)). Qed.

Lemma slice_to_ok {A} (l : list A) b :
  (b <= length l)%nat -> slice_to l b = Ok (take b l).
Proof. intros. unfold slice_to. by rewrite (proj2 (Nat.leb_le _ _)). Qed.

Lemma slice_range_ok {A} (l : list A) a b :
  (a <= b)%nat -> (b <= length l)%nat ->
  slice_range l a b = Ok (take (b - a) (drop a l)).
Proof.
  intros. unfold slice_range. by rewrite !(proj2 (Nat.leb_le _ _)).
Qed.
End Checked.

(** ** Lists *)

Lemma lookup_drop_head {A} (l : list A) n b l' :
  drop n l = b :: l' -> l !! n = Some b.
Proof.
  intros H. rewrite <-(Nat.add_0_r n), <-lookup_drop, H. done.
Qed.

Lemma drop_lookup_cons {A} (l : list A) n b :
  l !! n = Some b -> drop n l = b :: drop (S n) l.
Proof. apply drop_S. Qed.

Lemma drop_tail {A} (l : list A) n k l1 l2 :
  drop n l = l1 ++ l2 -> k = length l1 -> drop (n + k) l = l2.
Proof. intros H ->. by rewrite <-drop_drop, H, drop_app_length. Qed.

Lemma drop_length_eq {A} (l : list A) n l' :
  drop n l = l' -> (0 < length l')%nat -> length l = (n + length l')%nat.
Proof. intros <-. rewrite length_drop. lia. Qed.

Lemma sublist_skips_l {A} (l k1 k2 : list A) :
  k1 `sublist_of` k2 -> l ++ k1 `sublist_of` l ++ k2.
Proof. by apply sublist_app. Qed.

Lemma sublist_omap {A B} (f : A -> option B) l k :
  l `sublist_of` k -> omap f l `sublist_of` omap f k.
Proof.
  induction 1 as [|x l k Hs IH|x l k Hs IH]; [done|..]; cbn; destruct (f x);
    by repeat constructor.
Qed.

Lemma sublist_Forall {A} (P : A -> Prop) l k : l `sublist_of` k -> Forall P k -> Forall P l.
Proof. induction 1; inversion 1; by auto. Qed.

(** A property of the integers [z], ..., [z + n - 1], checked by evaluation. *)
Fixpoint all_from (f : Z -> bool) (n : nat) (z : Z) : bool :=
  match n with
  | O => true
  | S n => f z && all_from f n (z + 1)
  end.

Lemma all_from_spec f n : forall z y, all_from f n z = true -> z <= y < z + Z.of_nat n -> f y = true.
Proof.
  induction n as [|n IH]; intros z y Hf Hy; [lia|].
  cbn [all_from] in Hf. apply andb_true_iff in Hf as [Hz Hf].
  destruct (Z.eq_dec z y) as [->|]; [done|]. apply (IH (z + 1)); [done|lia].
Qed.

(** ** Byte buffers addressed by offset *)

(** [n] bytes at offset [off]. *)
Definition read {A} (off n : nat) (buf : list A) : list A := take n (drop off buf).

(** Overwrite the bytes at offset [off] with [bs]. *)
Definition put {A} (off : nat) (bs buf : list A) : list A :=
  take off buf ++ bs ++ drop (off + length bs) buf.

(** A raw load or store faults outside the buffer. *)
Definition load {E A} (off n : nat) (buf : list A) : outcome E (list A) :=
  if (off + n <=? length buf)%nat then Ok (read off n buf) else Fault BadPointer.

Definition store {E A} (off : nat) (bs : list A) : prog (list A) E unit :=
  fun buf => if (off + length bs <=? length buf)%nat then (put off bs buf, Ok tt)
             else (buf, Fault BadPointer).

Lemma load_ok {E A} off n (buf : list A) :
  (off + n <= length buf)%nat -> load (E := E) off n buf = Ok (read off n buf).
Proof. intros. unfold load. by rewrite (proj2 (Nat.leb_le _ _)). Qed.

Lemma store_ok {E A} off (bs buf : list A) :
  (off + length bs <= length buf)%nat ->
  store (E := E) off bs buf = (put off bs buf, Ok tt).
Proof. intros. unfold store. by rewrite (proj2 (Nat.leb_le _ _)). Qed.

Lemma length_read {A} off n (buf : list A) :
  (off + n <= length buf)%nat -> length (read off n buf) = n.
Proof. intros. unfold read. rewrite length_take, length_drop. lia. Qed.

Lemma length_put {A} off (bs buf : list A) :
  (off + length bs <= length buf)%nat -> length (put off bs buf) = length buf.
Proof.
  intros. unfold put. rewrite !length_app, length_take, length_drop. lia.
Qed.

Lemma put_nil {A} off (buf : list A) : put off [] buf = buf.
Proof. unfold put. simpl. rewrite Nat.add_0_r. apply take_drop. Qed.

(** Adjacent stores merge. *)
Lemma put_put_app {A} off off' (b1 b2 buf : list A) :
  off' = (off + length b1)%nat -> (off + length b1 + length b2 <= length buf)%nat ->
  put off' b2 (put off b1 buf) = put off (b1 ++ b2) buf.
Proof.
  intros -> H. unfold put. rewrite <-!app_assoc.
  rewrite take_app_ge by (rewrite length_take; lia). rewrite length_take.
  rewrite (take_app_length' b1) by lia. rewrite <-app_assoc. do 3 f_equal.
  rewrite drop_app_ge by (rewrite length_take; lia).
  rewrite drop_app_ge by (rewrite length_take; lia).
  rewrite drop_drop. f_equal. rewrite length_take, length_app. lia.
Qed.

(** Reading a range whose front part was overwritten. *)
Lemma read_put_front {A} off n (bs buf : list A) :
  (length bs <= n)%nat -> (off + n <= length buf)%nat ->
  read off n (put off bs buf) = bs ++ drop (length bs) (read off n buf).
Proof.
  intros Hn Hb. unfold read, put.
  rewrite drop_app_length' by (rewrite length_take; lia).
  rewrite take_app_ge by lia. f_equal.
  rewrite skipn_firstn_comm, drop_drop. done.
Qed.

Lemma read_app_skip {A} off n (l1 l2 : list A) :
  (length l1 <= off)%nat -> read off n (l1 ++ l2) = read (off - length l1) n l2.
Proof. intros. unfold read. by rewrite drop_app_ge. Qed.

Lemma read_app_head {A} n (l1 l2 : list A) : n = length l1 -> read 0 n (l1 ++ l2) = l1.
Proof. intros ->. unfold read. by rewrite drop_0, take_app_length. Qed.

Lemma read_all {A} n (l : list A) : n = length l -> read 0 n l = l.
Proof. intros ->. unfold read. rewrite drop_0. by apply take_ge. Qed.

Lemma read_app {A} a n m b (l : list A) :
  b = (a + n)%nat -> read a n l ++ read b m l = read a (n + m) l.
Proof.
  intros ->. unfold read. rewrite <-drop_drop. generalize (drop a l) as l'. intros l'.
  rewrite <-(take_drop n (take (n + m) l')), take_take, Nat.min_l by lia.
  by rewrite skipn_firstn_comm, Nat.add_comm, Nat.add_sub.
Qed.

Lemma read_put_same {A} off n (bs buf : list A) :
  (off + length bs <= length buf)%nat -> n = length bs -> read off n (put off bs buf) = bs.
Proof.
  intros H ->. unfold read, put.
  rewrite drop_app_length' by (rewrite length_take; lia).
  apply take_app_length.
Qed.

Lemma read_put_before {A} off1 n off2 (bs buf : list A) :
  (off1 + n <= off2)%nat -> (off2 <= length buf)%nat ->
  read off1 n (put off2 bs buf) = read off1 n buf.
Proof.
  intros. unfold read, put.
  rewrite drop_app_le by (rewrite length_take; lia).
  rewrite take_app_le by (rewrite length_drop, length_take; lia).
  rewrite skipn_firstn_comm. rewrite take_take. f_equal. lia.
Qed.

Lemma read_put_after {A} off1 n off2 (bs buf : list A) :
  (off2 + length bs <= off1)%nat -> (off2 + length bs <= length buf)%nat ->
  read off1 n (put off2 bs buf) = read off1 n buf.
Proof.
  intros. unfold read, put. f_equal.
  rewrite app_assoc.
  rewrite drop_app_ge by (rewrite length_app, length_take; lia).
  rewrite drop_drop. f_equal. rewrite length_app, length_take. lia.
Qed.

(** Writes by position. *)
Lemma lookup_put {A} off (bs buf : list A) i :
  (off + length bs <= length buf)%nat ->
  put off bs buf !! i =
  if (off <=? i)%nat && (i <? off + length bs)%nat then bs !! (i - off)%nat else buf !! i.
Proof.
  intros Hl. unfold put. assert (Ht : length (take off buf) = off) by (rewrite length_take; lia).
  destruct (Nat.leb_spec off i) as [H1|H1]; cbn [andb].
  - rewrite lookup_app_r by lia. rewrite Ht.
    destruct (Nat.ltb_spec i (off + length bs)) as [H2|H2].
    + by rewrite lookup_app_l by lia.
    + rewrite lookup_app_r by lia. rewrite lookup_drop. f_equal. lia.
  - rewrite lookup_app_l by lia. by rewrite lookup_take, decide_True.
Qed.

Lemma put_read {A} off n (buf : list A) :
  (off + n <= length buf)%nat -> put off (read off n buf) buf = buf.
Proof.
  intros Hl. apply list_eq. intros i. rewrite lookup_put; rewrite length_read by done; [|done].
  destruct (Nat.leb_spec off i), (Nat.ltb_spec i (off + n)); cbn [andb]; try done.
  unfold read. rewrite lookup_take, decide_True, lookup_drop by lia. f_equal. lia.
Qed.

Lemma put_put_same {A} off (b1 b2 buf : list A) :
  (off + length b1 <= length buf)%nat -> length b2 = length b1 ->
  put off b2 (put off b1 buf) = put off b2 buf.
Proof.
  intros H1 H2. apply list_eq. intros i.
  rewrite !lookup_put, H2 by (rewrite ?length_put; lia).
  by destruct ((off <=? i)%nat && (i <? off + length b1)%nat).
Qed.

(** A one-element write inside a range is an update of that range. *)
Lemma put_insert {A} off n k x (buf : list A) :
  (k < n)%nat -> (off + n <= length buf)%nat ->
  put (off + k) [x] buf = put off (<[k := x]> (read off n buf)) buf.
Proof.
  intros Hk Hl. apply list_eq. intros i.
  rewrite !lookup_put by (rewrite ?length_insert, ?length_read; simpl; lia).
  rewrite length_insert, length_read by done. simpl length.
  destruct (decide (i = off + k)%nat) as [->|Hne].
  - rewrite !(proj2 (Nat.leb_le _ _)), !(proj2 (Nat.ltb_lt _ _)) by lia. cbn [andb].
    rewrite Nat.sub_diag. replace (off + k - off)%nat with k by lia.
    by rewrite list_lookup_insert_eq by (rewrite length_read; lia).
  - destruct (Nat.leb_spec (off + k) i), (Nat.ltb_spec i (off + k + 1)); cbn [andb]; try lia.
    all: destruct (Nat.leb_spec off i), (Nat.ltb_spec i (off + n)); cbn [andb]; try done; try lia.
    all: rewrite list_lookup_insert_ne by lia; unfold read.
    all: rewrite lookup_take, decide_True, lookup_drop by lia; f_equal; lia.
Qed.

(** The bytes of an ASCII literal. *)
Definition bytes_of (s : string) : list byte := String.list_byte_of_string s.

(** ** Automation *)

Create HintDb rust discriminated.
Create Rewrite HintDb rust.
#[export] Hint Rewrite length_le_bytes length_be_bytes : rust.
#[export] Hint Rewrite @length_app @length_take @length_drop @length_cons
  @length_replicate @length_rev : rust.
#[export] Hint Rewrite @length_put @length_read using lia : rust.
#[export] Hint Rewrite @uadd_ok @slice_from_ok @slice_to_ok @slice_range_ok
  using (unfold usize_max, isize_max in *; lia) : rust.
#[export] Hint Resolve runs_ret runs_throw runs_modify runs_gets : rust.

(** Linear arithmetic over lengths. *)
Ltac len_lia :=
  autorewrite with rust in *; unfold usize_max, isize_max in *; simpl length in *; lia.

(** Run one [lift]ed operation of a program applied to a state. *)
Ltac lift_step := rewrite bind_lift; autorewrite with rust; cbv beta iota.

(** Turn boolean tests in the context into propositions. *)
Ltac bools :=
  repeat match goal with
  | H : (_ <? _)%nat = true |- _ => apply Nat.ltb_lt in H
  | H : (_ <? _)%nat = false |- _ => apply Nat.ltb_ge in H
  | H : (_ <=? _)%nat = true |- _ => apply Nat.leb_le in H
  | H : (_ <=? _)%nat = false |- _ => apply Nat.leb_gt in H
  | H : (_ =? _)%nat = true |- _ => apply Nat.eqb_eq in H
  | H : (_ =? _)%nat = false |- _ => apply Nat.eqb_neq in H
  | H : (_ <? _) = true |- _ => apply Z.ltb_lt in H
  | H : (_ <? _) = false |- _ => apply Z.ltb_ge in H
  | H : (_ <=? _) = true |- _ => apply Z.leb_le in H
  | H : (_ <=? _) = false |- _ => apply Z.leb_gt in H
  | H : (_ =? _) = true |- _ => apply Z.eqb_eq in H
  | H : (_ =? _) = false |- _ => apply Z.eqb_neq in H
  | H : negb _ = true |- _ => apply negb_true_iff in H
  | H : negb _ = false |- _ => apply negb_false_iff in H
  | H : _ && _ = true |- _ => apply andb_true_iff in H as [? ?]
  end.

(** Read through a chain of stores into disjoint parts of a buffer. *)
Ltac read_puts :=
  repeat first
    [ rewrite read_put_same by (autorewrite with rust; simpl length; lia)
    | rewrite read_put_before by (autorewrite with rust; simpl length; lia)
    | rewrite read_put_after by (autorewrite with rust; simpl length; lia) ].

(** Read one segment of a concatenation; [H] gives the segments' lengths. *)
Ltac read_apps :=
  repeat (rewrite read_app_skip by len_lia);
  match goal with
  | |- context [read ?o _ _] =>
      replace o with 0%nat by len_lia;
      first [rewrite read_app_head by len_lia | rewrite read_all by len_lia]
  end.

(** One step of symbolic execution of a [yields] goal. *)
Ltac yield_step :=
  match goal with
  | |- yields (obind _ _) _ _ => apply yields_bind
  | |- yields (if _ then _ else _) _ _ => apply yields_if; intros ?; bools
  | |- yields (Ok _) _ _ => cbn [yields]
  | |- yields (Err _) _ _ => cbn [yields]
  | |- yields (uadd _ _) _ _ => eapply yields_ok; [apply uadd_ok; len_lia|]
  | |- yields (slice_from _ _) _ _ => eapply yields_ok; [apply slice_from_ok; len_lia|]
  | |- yields (slice_to _ _) _ _ => eapply yields_ok; [apply slice_to_ok; len_lia|]
  | |- yields (slice_range _ _ _) _ _ => eapply yields_ok; [apply slice_range_ok; len_lia|]
  | |- yields (index ?l ?i) _ _ =>
      let b := fresh "b" in let Hb := fresh "Hb" in
      destruct (lookup_lt_is_Some_2 l i ltac:(len_lia)) as [b Hb];
      eapply yields_ok; [apply index_ok; exact Hb|]
  end.

(** One step of symbolic execution of a [runs] goal. *)
Ltac run_step :=
  match goal with
  | |- runs (bind _ _) _ _ _ => apply runs_bind
  | |- runs (if _ then _ else _) _ _ _ => apply runs_if; intros ?; bools
  | |- runs (zoom _ _ _) _ _ _ => apply runs_zoom
  | |- runs (prog_map_err _ _) _ _ _ => apply runs_map_err
  | |- runs (throw _) _ _ _ => apply runs_throw
  | |- runs (ret _) _ _ _ => apply runs_ret
  | |- runs (modify _) _ _ _ => apply runs_modify
  | |- runs (gets _) _ _ _ => apply runs_gets
  | |- runs (lift _) _ _ _ => apply runs_lift; try yield_step
  end.
