(* ===== verification/Layout.v ===== *)
(** * The memory layout of [repr(C)] types

    How the compiler places the fields of the records that cross the boundary
    between kernel and daemon, and of the kernel types of vmlinux.rs: sizes,
    alignments and offsets on a 64-bit target, and the facts that make raw
    accesses to such records sound. *)

From Stdlib Require Import NArith ZArith Lia.
From stdpp Require Import base tactics numbers list strings.
From S2P Require Import Prelude.

Local Open Scope nat_scope.

(** Integers by their width, pointers (also [Option<fn>]), arrays, structs with
    [align(n)], packed structs and unions. *)
#[warnings="-register-all"]
Inductive ctype :=
  | CU8 | CU16 | CU32 | CU64
  | CPtr
  | CArray (n : nat) (t : ctype)
  | CStruct (align : nat) (fields : list (string * ctype))
  | CPacked (fields : list (string * ctype))
  | CUnion (align : nat) (fields : list (string * ctype)).

Definition align_up (n a : nat) : nat := (n + a - 1) / a * a.

(** Size and alignment of a type.  A struct with [align(n)] has at least that
    alignment, and its size is rounded up to its alignment; a packed struct
    has no padding; the fields of a union start at its address. *)
Fixpoint layout (t : ctype) : nat * nat :=
  match t with
  | CU8 => (1, 1)
  | CU16 => (2, 2)
  | CU32 => (4, 4)
  | CU64 => (8, 8)
  | CPtr => (8, 8)
  | CArray n t => let '(s, a) := layout t in (n * s, a)
  | CStruct align fields =>
      let '(size, a) :=
        fold_left (fun acc f => let '(off, a) := acc in
                                let '(s, fa) := layout f.2 in
                                (align_up off fa + s, Nat.max a fa))
          fields (0, align) in
      (align_up size a, a)
  | CPacked fields =>
      (fold_left (fun off f => off + (layout f.2).1) fields 0, 1)
  | CUnion align fields =>
      let '(size, a) :=
        fold_left (fun acc f => let '(size, a) := acc in
                                let '(s, fa) := layout f.2 in
                                (Nat.max size s, Nat.max a fa))
          fields (0, align) in
      (align_up size a, a)
  end.

Definition size_of (t : ctype) : nat := (layout t).1.
Definition align_of (t : ctype) : nat := (layout t).2.

(** Offset of each field of a struct, in declaration order. *)
Fixpoint offsets_from (off : nat) (fields : list (string * ctype)) : list (string * nat) :=
  match fields with
  | [] => []
  | (name, t) :: fields =>
      let off := align_up off (align_of t) in
      (name, off) :: offsets_from (off + size_of t) fields
  end.

Definition struct_fields (t : ctype) : list (string * ctype) :=
  match t with CStruct _ fields => fields | _ => [] end.

Fixpoint find_offset (name : string) (offs : list (string * nat)) : nat :=
  match offs with
  | [] => 0
  | (n, off) :: offs => if String.eqb n name then off else find_offset name offs
  end.

(** [offset_of!(t, name)] *)
Definition field_offset (t : ctype) (name : string) : nat :=
  find_offset name (offsets_from 0 (struct_fields t)).

(** The fields of any aggregate, and the type of one. *)
Definition members (t : ctype) : list (string * ctype) :=
  match t with
  | CStruct _ fields | CPacked fields | CUnion _ fields => fields
  | _ => []
  end.

Fixpoint find_field (name : string) (fields : list (string * ctype)) : option ctype :=
  match fields with
  | [] => None
  | (n, t) :: fields => if String.eqb n name then Some t else find_field name fields
  end.

Definition field_type (t : ctype) (name : string) : option ctype := find_field name (members t).

(** ** Well-formed types *)

Definition pow2 (a : nat) : bool := (2 ^ Nat.log2 a =? a).

(** Declared alignments are powers of two, as [rustc] demands. *)
Fixpoint well_formed (t : ctype) : bool :=
  match t with
  | CArray _ t => well_formed t
  | CStruct a fields | CUnion a fields =>
      pow2 a && forallb (fun f => well_formed f.2) fields
  | CPacked fields => forallb (fun f => well_formed f.2) fields
  | _ => true
  end.

(** Neither the type nor a part of it is packed. *)
Fixpoint unpacked (t : ctype) : bool :=
  match t with
  | CArray _ t => unpacked t
  | CStruct _ fields | CUnion _ fields => forallb (fun f => unpacked f.2) fields
  | CPacked _ => false
  | _ => true
  end.

(** Neither the type nor a part of it is a union. *)
Fixpoint union_free (t : ctype) : bool :=
  match t with
  | CArray _ t => union_free t
  | CStruct _ fields | CPacked fields => forallb (fun f => union_free f.2) fields
  | CUnion _ _ => false
  | _ => true
  end.

(** ** The scalars of a value *)

Section Place.
Context (sc : nat -> ctype -> list (nat * nat)) (base : nat).

Definition place_struct : nat -> list (string * ctype) -> list (nat * nat) :=
  fix go off fields :=
    match fields with
    | [] => []
    | (_, t) :: fields =>
        sc (base + align_up off (align_of t)) t ++ go (align_up off (align_of t) + size_of t) fields
    end.

Definition place_packed : nat -> list (string * ctype) -> list (nat * nat) :=
  fix go off fields :=
    match fields with
    | [] => []
    | (_, t) :: fields => sc (base + off) t ++ go (off + size_of t) fields
    end.
End Place.

(** Address and width of every integer and pointer in a value at [base]. *)
Fixpoint scalars (base : nat) (t : ctype) : list (nat * nat) :=
  match t with
  | CU8 => [(base, 1)]
  | CU16 => [(base, 2)]
  | CU32 => [(base, 4)]
  | CU64 | CPtr => [(base, 8)]
  | CArray n t => concat ((fun i => scalars (base + i * size_of t) t) <$> seq 0 n)
  | CStruct _ fields => place_struct scalars base 0 fields
  | CPacked fields => place_packed scalars base 0 fields
  | CUnion _ fields => concat ((fun f => scalars base f.2) <$> fields)
  end.

(** ** Induction over types *)

Section Induction.
Context (P : ctype -> Prop).
Context (HU8 : P CU8) (HU16 : P CU16) (HU32 : P CU32) (HU64 : P CU64) (HPtr : P CPtr).
Context (HArray : forall n t, P t -> P (CArray n t)).
Context (HStruct : forall a fs, Forall (fun f => P f.2) fs -> P (CStruct a fs)).
Context (HPacked : forall fs, Forall (fun f => P f.2) fs -> P (CPacked fs)).
Context (HUnion : forall a fs, Forall (fun f => P f.2) fs -> P (CUnion a fs)).

Fixpoint ctype_ind' (t : ctype) : P t :=
  let go := fix go (fs : list (string * ctype)) : Forall (fun f => P f.2) fs :=
    match fs with
    | [] => Forall_nil_2 _
    | f :: fs => Forall_cons_2 _ _ _ (ctype_ind' f.2) (go fs)
    end in
  match t with
  | CU8 => HU8 | CU16 => HU16 | CU32 => HU32 | CU64 => HU64 | CPtr => HPtr
  | CArray n t => HArray n t (ctype_ind' t)
  | CStruct a fs => HStruct a fs (go fs)
  | CPacked fs => HPacked fs (go fs)
  | CUnion a fs => HUnion a fs (go fs)
  end.
End Induction.

(** ** Alignment arithmetic *)

Lemma pow2_spec a : pow2 a = true <-> exists k, a = 2 ^ k.
Proof.
  unfold pow2. rewrite Nat.eqb_eq. split; [by eexists|]. intros [k ->]. by rewrite Nat.log2_pow2 by lia.
Qed.

Lemma pow2_pos a : pow2 a = true -> 0 < a.
Proof. intros [k ->]%pow2_spec. pose proof (Nat.pow_nonzero 2 k). lia. Qed.

Lemma pow2_max a b : pow2 a = true -> pow2 b = true -> pow2 (Nat.max a b) = true.
Proof. intros Ha Hb. by destruct (Nat.max_spec a b) as [[_ ->]|[_ ->]]. Qed.

Lemma pow2_divide a b : pow2 a = true -> pow2 b = true -> a <= b -> (a | b).
Proof.
  intros [j ->]%pow2_spec [k ->]%pow2_spec Hle. apply Nat.pow_le_mono_r_iff in Hle; [|lia].
  exists (2 ^ (k - j)). rewrite <-Nat.pow_add_r. f_equal. lia.
Qed.

Lemma align_up_divide n a : (a | align_up n a).
Proof. by exists ((n + a - 1) / a). Qed.

Lemma align_up_bounds n a : 0 < a -> n <= align_up n a < n + a.
Proof.
  intros Ha. unfold align_up. pose proof (Nat.div_mod_eq (n + a - 1) a) as Hd.
  pose proof (Nat.mod_upper_bound (n + a - 1) a). rewrite Nat.mul_comm. lia.
Qed.

Lemma align_up_aligned n a : 0 < a -> (a | n) -> align_up n a = n.
Proof.
  intros Ha [k ->]. pose proof (align_up_bounds (k * a) a Ha) as Hb.
  destruct (align_up_divide (k * a) a) as [j Hj]. rewrite Hj in *.
  f_equal. assert (j < S k) by (apply (Nat.mul_lt_mono_pos_r a); [done|simpl; lia]).
  assert (k <= j) by (apply (Nat.mul_le_mono_pos_r _ _ a); lia). lia.
Qed.

(** ** Sizes are multiples of alignments *)

Definition struct_acc (acc : nat * nat) (f : string * ctype) : nat * nat :=
  let '(off, a) := acc in (align_up off (align_of f.2) + size_of f.2, Nat.max a (align_of f.2)).

Definition union_acc (acc : nat * nat) (f : string * ctype) : nat * nat :=
  let '(size, a) := acc in (Nat.max size (size_of f.2), Nat.max a (align_of f.2)).

Lemma fold_left_ext {A B} (f g : A -> B -> A) l x :
  (forall a b, f a b = g a b) -> fold_left f l x = fold_left g l x.
Proof. intros H. revert x. induction l as [|b l IH]; intros x; [done|]. cbn. by rewrite H, IH. Qed.

Lemma layout_struct al fs :
  layout (CStruct al fs) =
  (align_up (fold_left struct_acc fs (0, al)).1 (fold_left struct_acc fs (0, al)).2,
   (fold_left struct_acc fs (0, al)).2).
Proof.
  cbn [layout]. rewrite (fold_left_ext _ struct_acc).
  - by destruct (fold_left struct_acc fs (0, al)).
  - intros [off a] [n t]. unfold struct_acc, align_of, size_of. cbn. by destruct (layout t).
Qed.

Lemma layout_union al fs :
  layout (CUnion al fs) =
  (align_up (fold_left union_acc fs (0, al)).1 (fold_left union_acc fs (0, al)).2,
   (fold_left union_acc fs (0, al)).2).
Proof.
  cbn [layout]. rewrite (fold_left_ext _ union_acc).
  - by destruct (fold_left union_acc fs (0, al)).
  - intros [off a] [n t]. unfold union_acc, align_of, size_of. cbn. by destruct (layout t).
Qed.

Lemma layout_array n t : layout (CArray n t) = (n * size_of t, align_of t).
Proof. cbn [layout]. unfold size_of, align_of. by destruct (layout t). Qed.

(** Alignments met so far, for either accumulator. *)
Lemma fold_align (acc : nat * nat -> string * ctype -> nat * nat) fs :
  (forall x f, (acc x f).2 = Nat.max x.2 (align_of f.2)) ->
  Forall (fun f => pow2 (align_of f.2) = true) fs ->
  forall x, pow2 x.2 = true ->
  pow2 (fold_left acc fs x).2 = true /\ x.2 <= (fold_left acc fs x).2 /\
  Forall (fun f => align_of f.2 <= (fold_left acc fs x).2) fs.
Proof.
  intros Hacc. induction 1 as [|f fs Hf _ IH]; intros x Hx; [by split_and!|].
  cbn [fold_left]. destruct (IH (acc x f)) as (H1 & H2 & H3).
  { rewrite Hacc. by apply pow2_max. }
  rewrite Hacc in H2. split_and!; [done|lia|]. constructor; [lia|done].
Qed.

Lemma struct_acc_align x f : (struct_acc x f).2 = Nat.max x.2 (align_of f.2).
Proof. by destruct x. Qed.

Lemma union_acc_align x f : (union_acc x f).2 = Nat.max x.2 (align_of f.2).
Proof. by destruct x. Qed.

Lemma forallb_Forall' {A} (p : A -> bool) (Q : A -> Prop) l :
  Forall (fun x => p x = true -> Q x) l -> forallb p l = true -> Forall Q l.
Proof.
  induction 1 as [|x l Hx _ IH]; [constructor|]. cbn. intros [? ?]%andb_true_iff. auto.
Qed.

Lemma forallb2_Forall {A} (p q : A -> bool) (Q : A -> Prop) l :
  Forall (fun x => p x = true -> q x = true -> Q x) l ->
  forallb p l = true -> forallb q l = true -> Forall Q l.
Proof. intros H Hp Hq. eapply forallb_Forall'; [|exact Hq]. by eapply forallb_Forall'. Qed.

Definition sized_well (t : ctype) : Prop :=
  pow2 (align_of t) = true /\ (align_of t | size_of t).

Lemma layout_sized_well t : well_formed t = true -> sized_well t.
Proof.
  unfold sized_well. induction t as [| | | | |n t IH|al fs IH|fs IH|al fs IH] using ctype_ind';
    cbn [well_formed]; intros Hwf; try (split; [done|by exists 1]).
  - destruct (IH Hwf) as [Hp Hd]. unfold align_of, size_of in *. rewrite layout_array.
    split; [done|]. by apply Nat.divide_mul_r.
  - apply andb_true_iff in Hwf as [Hal Hwf]. apply (forallb_Forall' _ _ _ IH) in Hwf.
    destruct (fold_align struct_acc fs struct_acc_align) with (x := (0, al)) as [Hp _];
      [eapply Forall_impl; [exact Hwf|by intros f [Hf _]]|done|].
    unfold align_of, size_of. rewrite layout_struct. split; [done|]. apply align_up_divide.
  - split; [done|]. apply Nat.divide_1_l.
  - apply andb_true_iff in Hwf as [Hal Hwf]. apply (forallb_Forall' _ _ _ IH) in Hwf.
    destruct (fold_align union_acc fs union_acc_align) with (x := (0, al)) as [Hp _];
      [eapply Forall_impl; [exact Hwf|by intros f [Hf _]]|done|].
    unfold align_of, size_of. rewrite layout_union. split; [done|]. apply align_up_divide.
Qed.

(** ** Where the scalars are *)

Definition within_range (lo hi : nat) (x : nat * nat) : Prop := lo <= x.1 /\ x.1 + x.2 <= hi.

Lemma within_mono lo hi lo' hi' l :
  lo' <= lo -> hi <= hi' -> Forall (within_range lo hi) l -> Forall (within_range lo' hi') l.
Proof. intros H1 H2 Hl. eapply Forall_impl; [exact Hl|]. intros x [? ?]. split; lia. Qed.

Definition inside (t : ctype) : Prop :=
  forall base, Forall (within_range base (base + size_of t)) (scalars base t).

Lemma sized_pos t : sized_well t -> 0 < align_of t.
Proof. intros [Hp _]. by apply pow2_pos. Qed.

Lemma place_struct_within base fs :
  Forall (fun f => sized_well f.2 /\ inside f.2) fs -> forall off a,
  off <= (fold_left struct_acc fs (off, a)).1 /\
  Forall (within_range (base + off) (base + (fold_left struct_acc fs (off, a)).1))
    (place_struct scalars base off fs).
Proof.
  induction 1 as [|[n t] fs [Hs Hi] _ IH]; intros off a; [by split|].
  cbn [fold_left place_struct fst snd]. unfold struct_acc at 2 4. cbn [snd] in *.
  pose proof (align_up_bounds off _ (sized_pos _ Hs)).
  destruct (IH (align_up off (align_of t) + size_of t) (Nat.max a (align_of t))) as [Hle Hl].
  split; [lia|]. apply Forall_app. split; eapply within_mono; [| |apply Hi| | |exact Hl]; lia.
Qed.

Lemma place_packed_within base fs :
  Forall (fun f => inside f.2) fs -> forall off,
  off <= fold_left (fun off f => off + size_of f.2) fs off /\
  Forall (within_range (base + off) (base + fold_left (fun off f => off + size_of f.2) fs off))
    (place_packed scalars base off fs).
Proof.
  induction 1 as [|[n t] fs Hi _ IH]; intros off; [by split|].
  cbn [fold_left place_packed snd] in *. destruct (IH (off + size_of t)) as [Hle Hl].
  split; [lia|]. apply Forall_app. split; eapply within_mono; [| |apply Hi| | |exact Hl]; lia.
Qed.

Lemma union_acc_sizes fs : forall x,
  x.1 <= (fold_left union_acc fs x).1 /\
  Forall (fun f => size_of f.2 <= (fold_left union_acc fs x).1) fs.
Proof.
  induction fs as [|f fs IH]; intros [size a]; [by split|]. cbn [fold_left].
  destruct (IH (union_acc (size, a) f)) as [H1 H2]. unfold union_acc at 1 in H1. cbn [fst] in *.
  split; [lia|]. constructor; [lia|done].
Qed.

Lemma size_of_packed fs :
  size_of (CPacked fs) = fold_left (fun off f => off + size_of f.2) fs 0.
Proof. done. Qed.

(** The fields of an aggregate are well-formed, with the alignment bound. *)
Lemma members_well al (fs : list (string * ctype)) :
  pow2 al && forallb (fun f => well_formed f.2) fs = true ->
  pow2 al = true /\ Forall (fun f => sized_well f.2) fs.
Proof.
  intros [Hal Hwf]%andb_true_iff. split; [done|].
  eapply forallb_Forall'; [|exact Hwf]. apply Forall_forall. intros f _. apply layout_sized_well.
Qed.

Lemma scalars_inside t : well_formed t = true -> inside t.
Proof.
  unfold inside.
  induction t as [| | | | |n t IH|al fs IH|fs IH|al fs IH] using ctype_ind'; cbn [well_formed];
    intros Hwf base; try (apply Forall_singleton; by split).
  - cbn [scalars]. apply Forall_concat, Forall_fmap, Forall_forall. intros i [_ Hi]%elem_of_seq.
    cbn. eapply within_mono; [| |by apply IH]; [lia|].
    change (size_of (CArray n t)) with (layout (CArray n t)).1. rewrite layout_array. cbn [fst]. nia.
  - pose proof (members_well _ _ Hwf) as [Hal Hs]. apply andb_true_iff in Hwf as [_ Hwf].
    apply (forallb_Forall' _ _ _ IH) in Hwf. cbn [scalars].
    destruct (place_struct_within base fs) with (off := 0) (a := al) as [_ Hl].
    { apply Forall_and. by split. }
    eapply within_mono; [| |exact Hl]; [lia|].
    unfold size_of. rewrite layout_struct. cbn [fst].
    assert (Hp : 0 < (fold_left struct_acc fs (0, al)).2).
    { apply pow2_pos. destruct (fold_align struct_acc fs struct_acc_align) with (x := (0, al)); [|done..].
      eapply Forall_impl; [exact Hs|by intros f [Hf _]]. }
    pose proof (align_up_bounds (fold_left struct_acc fs (0, al)).1 _ Hp). lia.
  - apply (forallb_Forall' _ _ _ IH) in Hwf. cbn [scalars].
    destruct (place_packed_within base fs Hwf 0) as [_ Hl]. rewrite size_of_packed.
    eapply within_mono; [| |exact Hl]; lia.
  - pose proof (members_well _ _ Hwf) as [Hal Hs]. apply andb_true_iff in Hwf as [_ Hwf].
    apply (forallb_Forall' _ _ _ IH) in Hwf. cbn [scalars].
    apply Forall_concat, Forall_fmap. destruct (union_acc_sizes fs (0, al)) as [_ Hsz].
    unfold size_of. rewrite layout_union. cbn [fst].
    assert (Hp : 0 < (fold_left union_acc fs (0, al)).2).
    { apply pow2_pos. destruct (fold_align union_acc fs union_acc_align) with (x := (0, al)); [|done..].
      eapply Forall_impl; [exact Hs|by intros f [Hf _]]. }
    pose proof (align_up_bounds (fold_left union_acc fs (0, al)).1 _ Hp).
    eapply Forall_impl; [apply Forall_and; split; [exact Hwf|exact Hsz]|].
    intros f [Hf Hle]. cbn. eapply within_mono; [| |by apply Hf]; lia.
Qed.

(** ** Alignment of the scalars *)

Definition aligned_at (x : nat * nat) : Prop := (x.2 | x.1).

Definition aligned (t : ctype) : Prop :=
  forall base, (align_of t | base) -> Forall aligned_at (scalars base t).

(** A field whose alignment is at most that of the struct. *)
Definition field_ok (a : nat) (f : string * ctype) : Prop :=
  sized_well f.2 /\ aligned f.2 /\ align_of f.2 <= a.

Lemma place_struct_aligned base a fs :
  pow2 a = true -> (a | base) -> Forall (field_ok a) fs ->
  forall off, Forall aligned_at (place_struct scalars base off fs).
Proof.
  intros Ha Hb. induction 1 as [|[n t] fs (Hs & Hal & Hle) _ IH]; intros off; [constructor|].
  cbn [place_struct snd] in *. apply Forall_app. split; [|apply IH]. apply Hal.
  apply Nat.divide_add_r; [|apply align_up_divide].
  etransitivity; [|exact Hb]. apply pow2_divide; [apply Hs|done|done].
Qed.

Lemma fields_ok (acc : nat * nat -> string * ctype -> nat * nat) al fs :
  (forall x f, (acc x f).2 = Nat.max x.2 (align_of f.2)) ->
  pow2 al = true -> Forall (fun f => sized_well f.2) fs -> Forall (fun f => aligned f.2) fs ->
  pow2 (fold_left acc fs (0, al)).2 = true /\ Forall (field_ok (fold_left acc fs (0, al)).2) fs.
Proof.
  intros Hacc Hal Hs Ha. destruct (fold_align acc fs Hacc) with (x := (0, al)) as (Hp & _ & Hle).
  - eapply Forall_impl; [exact Hs|by intros f [Hf _]].
  - done.
  - split; [done|]. unfold field_ok.
    apply Forall_and. split; [done|]. apply Forall_and. by split.
Qed.

Lemma scalars_aligned t : well_formed t = true -> unpacked t = true -> aligned t.
Proof.
  unfold aligned.
  induction t as [| | | | |n t IH|al fs IH|fs IH|al fs IH] using ctype_ind';
    cbn [well_formed unpacked]; intros Hwf Hup base Hb;
    try (apply Forall_singleton; exact Hb); [| |done|].
  - cbn [scalars]. apply Forall_concat, Forall_fmap, Forall_forall. intros i _. cbn.
    destruct (layout_sized_well _ Hwf) as [_ Hd].
    unfold align_of in Hb. rewrite layout_array in Hb. apply IH; [done|done|].
    apply Nat.divide_add_r; [done|]. by apply Nat.divide_mul_r.
  - pose proof (members_well _ _ Hwf) as [Hal Hs]. apply andb_true_iff in Hwf as [_ Hwf].
    assert (Ha : Forall (fun f : string * ctype => aligned f.2) fs)
      by exact (forallb2_Forall _ _ _ _ IH Hwf Hup).
    destruct (fields_ok struct_acc al fs struct_acc_align Hal Hs Ha) as [Hp Hok].
    cbn [scalars]. eapply place_struct_aligned; [exact Hp| |exact Hok].
    unfold align_of in Hb. by rewrite layout_struct in Hb.
  - pose proof (members_well _ _ Hwf) as [Hal Hs]. apply andb_true_iff in Hwf as [_ Hwf].
    assert (Ha : Forall (fun f : string * ctype => aligned f.2) fs)
      by exact (forallb2_Forall _ _ _ _ IH Hwf Hup).
    destruct (fields_ok union_acc al fs union_acc_align Hal Hs Ha) as [Hp Hok].
    unfold align_of in Hb. rewrite layout_union in Hb. cbn [scalars].
    apply Forall_concat, Forall_fmap. eapply Forall_impl; [exact Hok|].
    intros f (Hsf & Haf & Hle). apply Haf.
    etransitivity; [|exact Hb]. apply pow2_divide; [apply Hsf|done|done].
Qed.

(** ** Disjointness of the scalars *)

Fixpoint apart (l : list (nat * nat)) : Prop :=
  match l with
  | [] => True
  | x :: l => Forall (fun y => x.1 + x.2 <= y.1) l /\ apart l
  end.

Lemma apart_app l1 l2 m :
  apart l1 -> apart l2 -> Forall (fun x => x.1 + x.2 <= m) l1 -> Forall (fun y => m <= y.1) l2 ->
  apart (l1 ++ l2).
Proof.
  induction l1 as [|x l1 IH]; [done|]. cbn. intros [Hx H1] H2 [Hm Hl1]%Forall_cons Hl2.
  split; [|by apply IH]. apply Forall_app. split; [done|].
  eapply Forall_impl; [exact Hl2|]. cbn. intros y Hy. lia.
Qed.

Lemma apart_within l1 l2 lo m hi :
  apart l1 -> apart l2 -> Forall (within_range lo m) l1 -> Forall (within_range m hi) l2 ->
  apart (l1 ++ l2).
Proof.
  intros H1 H2 Hl1 Hl2. apply (apart_app _ _ m); [done|done| |];
    (eapply Forall_impl; [eassumption|]; intros x [? ?]; cbn; lia).
Qed.

(** The elements of an array, from the [i]-th on. *)
Lemma array_within base n t : forall i, inside t ->
  Forall (within_range (base + i * size_of t) (base + (i + n) * size_of t))
    (concat ((fun i => scalars (base + i * size_of t) t) <$> seq i n)).
Proof.
  intros i Hi. apply Forall_concat, Forall_fmap, Forall_forall. intros j Hj%elem_of_seq.
  cbn. eapply within_mono; [| |apply Hi]; nia.
Qed.

Lemma scalars_apart t :
  well_formed t = true -> union_free t = true -> forall base, apart (scalars base t).
Proof.
  induction t as [| | | | |n t IH|al fs IH|fs IH|al fs IH] using ctype_ind';
    cbn [well_formed union_free]; intros Hwf Huf base; try (by split); [| | |done].
  - cbn [scalars]. pose proof (scalars_inside _ Hwf) as Hi. generalize 0 as i.
    induction n as [|n IHn]; intros i; [done|]. cbn [seq fmap list_fmap concat].
    eapply (apart_within _ _ _ (base + S i * size_of t)); [by apply IH|apply IHn| |].
    + eapply within_mono; [| |apply Hi]; [reflexivity|nia].
    + apply (array_within base n t (S i) Hi).
  - pose proof (members_well _ _ Hwf) as [Hal Hs]. apply andb_true_iff in Hwf as [_ Hwf].
    assert (Hi : Forall (fun f : string * ctype => sized_well f.2 /\ inside f.2 /\
                           forall base, apart (scalars base f.2)) fs).
    { refine (forallb2_Forall _ _ _ _ _ Hwf Huf).
      eapply Forall_impl; [exact IH|]. intros f Hf H1 H2.
      split_and!; [by apply layout_sized_well|by apply scalars_inside|by apply Hf]. }
    cbn [scalars]. generalize 0 as off. clear Hs Hwf Huf IH.
    induction Hi as [|[n t] fs (Hsz & Hin & Hap) Hfs IHfs]; intros off; [done|].
    cbn [place_struct snd] in *. pose proof (align_up_bounds off _ (sized_pos _ Hsz)).
    destruct (place_struct_within base fs) with (off := align_up off (align_of t) + size_of t)
      (a := 0) as [_ Hl]; [eapply Forall_impl; [exact Hfs|by intros f (? & ? & _)]|].
    eapply apart_within; [apply Hap|apply IHfs| |exact Hl].
    eapply within_mono; [| |apply Hin]; [reflexivity|lia].
  - assert (Hi : Forall (fun f : string * ctype => inside f.2 /\
                           forall base, apart (scalars base f.2)) fs).
    { refine (forallb2_Forall _ _ _ _ _ Hwf Huf).
      eapply Forall_impl; [exact IH|]. intros f Hf H1 H2. split; [by apply scalars_inside|by apply Hf]. }
    cbn [scalars]. generalize 0 as off. clear Hwf Huf IH.
    induction Hi as [|[n t] fs (Hin & Hap) Hfs IHfs]; intros off; [done|].
    cbn [place_packed snd] in *.
    destruct (place_packed_within base fs) with (off := off + size_of t) as [_ Hl];
      [eapply Forall_impl; [exact Hfs|by intros f (? & _)]|].
    eapply apart_within; [apply Hap|apply IHfs| |exact Hl].
    eapply within_mono; [| |apply Hin]; [reflexivity|lia].
Qed.

(** What a correct layout guarantees: the size is a multiple of the alignment;
    in a value at an aligned address every scalar is inside the value, aligned
    when nothing is packed, and apart from the others when nothing is a
    union. *)
Definition laid_out (t : ctype) : Prop :=
  (align_of t | size_of t) /\
  forall base, (align_of t | base) ->
    Forall (within_range base (base + size_of t)) (scalars base t) /\
    (unpacked t = true -> Forall aligned_at (scalars base t)) /\
    (union_free t = true -> apart (scalars base t)).

Lemma well_formed_laid_out t : well_formed t = true -> laid_out t.
Proof.
  intros Hwf. split; [by apply layout_sized_well|]. intros base Hb.
  split_and!; [by apply scalars_inside|intros; by apply scalars_aligned|
    intros; by apply scalars_apart].
Qed.
