(* ===== verification/RustStd.v ===== *)
(** * The Rust standard library, as far as the program uses it

    ASCII and UTF-8 tests on byte slices, [Display] for unsigned integers,
    [Ipv4Addr] and [Ipv6Addr], and [chunks_exact].  A [String] is the list of
    its UTF-8 bytes; [write!] to a [String] never fails. *)

From Stdlib Require Import Strings.Byte NArith ZArith Lia Wf_nat.
From Stdlib Require Import HexadecimalString HexadecimalN DecimalString DecimalN.
From stdpp Require Import base tactics numbers list strings.
From S2P Require Import Prelude.

Local Open Scope Z_scope.

(** ** Bytes and strings *)

(** [<[u8]>::is_ascii] *)
Definition is_ascii (l : list byte) : bool := forallb (fun b => u8 b <? 128) l.

(** A UTF-8 continuation byte. *)
Definition is_cont (b : byte) : bool := (128 <=? u8 b) && (u8 b <? 192).

Definition in_range (b : byte) (lo hi : Z) : bool := (lo <=? u8 b) && (u8 b <=? hi).

(** Well-formed UTF-8 (the table [core::str::from_utf8] checks). *)
Fixpoint utf8_valid (l : list byte) : bool :=
  match l with
  | [] => true
  | b0 :: l0 =>
      if u8 b0 <? 128 then utf8_valid l0
      else match l0 with
      | [] => false
      | b1 :: l1 =>
          if in_range b0 194 223 then is_cont b1 && utf8_valid l1
          else match l1 with
          | [] => false
          | b2 :: l2 =>
              if u8 b0 =? 224 then in_range b1 160 191 && is_cont b2 && utf8_valid l2
              else if u8 b0 =? 237 then in_range b1 128 159 && is_cont b2 && utf8_valid l2
              else if in_range b0 225 239 then is_cont b1 && is_cont b2 && utf8_valid l2
              else match l2 with
              | [] => false
              | b3 :: l3 =>
                  if u8 b0 =? 240 then
                    in_range b1 144 191 && is_cont b2 && is_cont b3 && utf8_valid l3
                  else if in_range b0 241 243 then
                    is_cont b1 && is_cont b2 && is_cont b3 && utf8_valid l3
                  else if u8 b0 =? 244 then
                    in_range b1 128 143 && is_cont b2 && is_cont b3 && utf8_valid l3
                  else false
              end
          end
      end
  end.

(** [str::from_utf8]; the error carries nothing the program reads. *)
Definition from_utf8 (l : list byte) : outcome unit (list byte) :=
  if utf8_valid l then Ok l else Err tt.

(** [write!(out, "{text}")] to a [String]: appends and never fails. *)
Definition write_str (text : list byte) : prog (list byte) unit unit :=
  modify (fun out => out ++ text).

(** [c.chunks_exact(n).next()] *)
Definition first_chunk_exact {A} (n : nat) (l : list A) : option (list A) :=
  if (n <=? length l)%nat then Some (take n l) else None.

(** [Option::unwrap] *)
Definition unwrap {E A} (o : option A) : outcome E A :=
  match o with
  | Some a => Ok a
  | None => Fault UnwrapNone
  end.

(** [<[u8; N]>::try_from(slice)] *)
Definition try_into_array {A} (n : nat) (l : list A) : outcome unit (list A) :=
  if (length l =? n)%nat then Ok l else Err tt.

Lemma is_ascii_utf8_valid l : is_ascii l = true -> utf8_valid l = true.
Proof.
  induction l as [|b l IH]; [done|]. simpl.
  intros [Hb Hl]%andb_true_iff. rewrite Hb. auto.
Qed.

Lemma from_utf8_ascii l : is_ascii l = true -> from_utf8 l = Ok l.
Proof. intros H. unfold from_utf8. by rewrite is_ascii_utf8_valid. Qed.

(** ** Integers *)

(** [Display] of an unsigned integer. *)
Definition dec (z : Z) : list byte :=
  bytes_of (NilZero.string_of_uint (N.to_uint (Z.to_N z))).

(** [LowerHex] of an unsigned integer. *)
Definition hex (z : Z) : list byte :=
  bytes_of (HexadecimalString.NilZero.string_of_uint (N.to_hex_uint (Z.to_N z))).

(** Reading a decimal numeral back. *)
Definition undec (l : list byte) : option Z :=
  d ← NilZero.uint_of_string (String.string_of_list_byte l);
  Some (Z.of_N (N.of_uint d)).

(** ** IP addresses *)

Definition dot : byte := x2e.
Definition colon : byte := x3a.

(** [Display for Ipv4Addr] *)
Definition ipv4_display (a b c d : byte) : list byte :=
  dec (u8 a) ++ [dot] ++ dec (u8 b) ++ [dot] ++ dec (u8 c) ++ [dot] ++ dec (u8 d).

(** [Ipv6Addr::segments] of [Ipv6Addr::from([u8; 16])]. *)
Fixpoint segments (l : list byte) : list Z :=
  match l with
  | a :: b :: l => be_Z [a; b] :: segments l
  | _ => []
  end.

(** A run of zero segments: start and length. *)
Record Span := { start : nat; len : nat }.

Definition no_span : Span := {| start := 0; len := 0 |}.

(** One iteration of the loop that finds the longest run of zeros. *)
Definition span_step (acc : Span * Span) (i : nat) (segment : Z) : Span * Span :=
  let '(longest, current) := acc in
  if segment =? 0 then
    let current := {| start := if (len current =? 0)%nat then i else start current;
                      len := S (len current) |} in
    (if (len longest <? len current)%nat then current else longest, current)
  else (longest, no_span).

Fixpoint longest_zeros (i : nat) (segs : list Z) (acc : Span * Span) : Span :=
  match segs with
  | [] => acc.1
  | s :: segs => longest_zeros (S i) segs (span_step acc i s)
  end.

(** [fmt_subslice]: hexadecimal segments separated by colons. *)
Fixpoint fmt_subslice (segs : list Z) : list byte :=
  match segs with
  | [] => []
  | [s] => hex s
  | s :: segs => hex s ++ [colon] ++ fmt_subslice segs
  end.

(** [Display for Ipv6Addr]: IPv4-mapped addresses in mixed notation, else the
    longest run of at least two zero segments compressed to ["::"]. *)
Definition ipv6_display (octets : list byte) : list byte :=
  let segs := segments octets in
  match bool_decide (take 12 octets = replicate 10 x00 ++ [xff; xff]), drop 12 octets with
  | true, [a; b; c; d] => bytes_of "::ffff:" ++ ipv4_display a b c d
  | _, _ =>
      let zeroes := longest_zeros 0 segs (no_span, no_span) in
      if (1 <? len zeroes)%nat then
        fmt_subslice (take (start zeroes) segs) ++ [colon; colon] ++
        fmt_subslice (drop (start zeroes + len zeroes) segs)
      else fmt_subslice segs
  end.

(** ** Reading a dotted quad back *)

(** [l.split('.')] *)
Fixpoint split_on (c : byte) (l : list byte) : list (list byte) :=
  match l with
  | [] => [[]]
  | b :: l =>
      if Byte.eqb b c then [] :: split_on c l
      else match split_on c l with
           | [] => [[b]]
           | w :: ws => (b :: w) :: ws
           end
  end.

(** A reference reader for the text [ipv4_display] writes. *)
Definition read_ipv4 (l : list byte) : option (list byte) :=
  ns ← mapM undec (split_on dot l); Some (byte_of_Z <$> ns).

Lemma split_on_none c w : c ∉ w -> split_on c w = [w].
Proof.
  induction w as [|b w IH]; [done|]. intros [Hb Hw]%not_elem_of_cons. simpl.
  rewrite IH by done. destruct (Byte.eqb b c) eqn:Hc; [|done].
  by apply Byte.byte_dec_bl in Hc.
Qed.

Lemma split_on_app c w l : c ∉ w -> split_on c (w ++ c :: l) = w :: split_on c l.
Proof.
  induction w as [|b w IH]; intros Hw; simpl.
  - by rewrite (Byte.byte_dec_lb eq_refl).
  - apply not_elem_of_cons in Hw as [Hb Hw]. rewrite IH by done.
    destruct (Byte.eqb b c) eqn:Hc; [|done]. by apply Byte.byte_dec_bl in Hc.
Qed.

Lemma string_of_uint_no_dot d : dot ∉ bytes_of (NilEmpty.string_of_uint d).
Proof. by induction d; [apply not_elem_of_nil|..]; apply not_elem_of_cons. Qed.

Lemma dec_no_dot z : dot ∉ dec z.
Proof.
  unfold dec, NilZero.string_of_uint.
  destruct (N.to_uint _); [|apply string_of_uint_no_dot..].
  by apply not_elem_of_cons; split; [|apply not_elem_of_nil].
Qed.

Lemma undec_dec z : 0 <= z -> undec (dec z) = Some z.
Proof.
  intros Hz. unfold undec, dec, bytes_of.
  rewrite String.string_of_list_byte_of_string.
  assert (Hn : N.to_uint (Z.to_N z) <> Decimal.Nil).
  { destruct (Z.to_N z); [done|]. apply DecimalPos.Unsigned.to_uint_nonnil. }
  rewrite NilZero.usu by done. simpl. rewrite DecimalN.Unsigned.of_to.
  f_equal. lia.
Qed.

Lemma read_ipv4_display a b c d : read_ipv4 (ipv4_display a b c d) = Some [a; b; c; d].
Proof.
  unfold read_ipv4, ipv4_display. cbn [app].
  rewrite !split_on_app, split_on_none by apply dec_no_dot. simpl.
  pose proof (u8_range a). pose proof (u8_range b).
  pose proof (u8_range c). pose proof (u8_range d).
  rewrite !undec_dec by lia. simpl. by rewrite !byte_of_Z_u8.
Qed.

Lemma dec_u8_length b : (1 <= length (dec (u8 b)) <= 3)%nat.
Proof. by destruct b; vm_compute; repeat constructor. Qed.

Lemma ipv4_display_length a b c d : (7 <= length (ipv4_display a b c d) <= 15)%nat.
Proof.
  unfold ipv4_display. pose proof (dec_u8_length a). pose proof (dec_u8_length b).
  pose proof (dec_u8_length c). pose proof (dec_u8_length d). len_lia.
Qed.

Lemma hex_u16_length z : 0 <= z < 65536 -> (length (hex z) <= 4)%nat.
Proof.
  intros Hz. apply Nat.leb_le.
  apply (all_from_spec (fun z => length (hex z) <=? 4)%nat (Z.to_nat 65536) 0); [|lia].
  vm_cast_no_check (eq_refl true).
Qed.

Lemma segments_u16 l : Forall (fun z => 0 <= z < 65536) (segments l).
Proof.
  induction l as [l IH] using (induction_ltof1 _ length); unfold ltof in IH.
  destruct l as [|a [|b l]]; [constructor..|]. cbn [segments]. constructor.
  - unfold be_Z. simpl. pose proof (u8_range a). pose proof (u8_range b). lia.
  - apply IH. simpl. lia.
Qed.

Lemma length_segments l : (length (segments l) <= length l / 2)%nat.
Proof.
  induction l as [l IH] using (induction_ltof1 _ length); unfold ltof in IH.
  destruct l as [|a [|b l]]; [done..|]. cbn [segments length].
  specialize (IH l ltac:(simpl; lia)).
  change (S (S (length l))) with (1 * 2 + length l)%nat. rewrite Nat.div_add_l by lia. lia.
Qed.

Lemma fmt_subslice_length segs :
  Forall (fun z => 0 <= z < 65536) segs -> (length (fmt_subslice segs) <= 5 * length segs)%nat.
Proof.
  induction 1 as [|s segs Hs Hsegs IH]; [done|].
  apply hex_u16_length in Hs. cbn [fmt_subslice].
  destruct segs; simpl length in *; rewrite ?length_app in *; simpl in *; lia.
Qed.

Lemma ipv6_display_length octets :
  length octets = 16%nat -> (length (ipv6_display octets) <= 42)%nat.
Proof.
  intros Hl. pose proof (length_segments octets) as Hs. rewrite Hl in Hs.
  change (16 / 2)%nat with 8%nat in Hs. pose proof (segments_u16 octets) as Hr.
  assert (H : (length (let zeroes := longest_zeros 0 (segments octets) (no_span, no_span) in
    if (1 <? len zeroes)%nat then
      fmt_subslice (take (start zeroes) (segments octets)) ++ [colon; colon] ++
      fmt_subslice (drop (start zeroes + len zeroes) (segments octets))
    else fmt_subslice (segments octets)) <= 42)%nat).
  { cbv zeta. set (z := longest_zeros _ _ _). destruct (Nat.ltb_spec 1 (len z)).
    - pose proof (fmt_subslice_length _ (Forall_take _ (start z) _ Hr)) as H1.
      pose proof (fmt_subslice_length _ (Forall_drop _ (start z + len z) _ Hr)) as H2.
      len_lia.
    - pose proof (fmt_subslice_length _ Hr). lia. }
  unfold ipv6_display. case_bool_decide; [|exact H].
  destruct (drop 12 octets) as [|a [|b [|c [|d [|]]]]]; try exact H.
  pose proof (ipv4_display_length a b c d). rewrite length_app.
  change (length (bytes_of "::ffff:")) with 7%nat. lia.
Qed.

(** The texts of numbers and addresses are ASCII. *)
Lemma is_ascii_app l1 l2 : is_ascii (l1 ++ l2) = is_ascii l1 && is_ascii l2.
Proof. apply forallb_app. Qed.

Lemma is_ascii_cons b l : is_ascii (b :: l) = (u8 b <? 128) && is_ascii l.
Proof. done. Qed.

Lemma uint_ascii d : is_ascii (bytes_of (NilEmpty.string_of_uint d)) = true.
Proof. by induction d. Qed.

Lemma hex_uint_ascii d : is_ascii (bytes_of (HexadecimalString.NilEmpty.string_of_uint d)) = true.
Proof. by induction d. Qed.

Lemma dec_ascii z : is_ascii (dec z) = true.
Proof.
  unfold dec, NilZero.string_of_uint. by destruct (N.to_uint _); [|apply uint_ascii..].
Qed.

Lemma hex_ascii z : is_ascii (hex z) = true.
Proof.
  unfold hex, HexadecimalString.NilZero.string_of_uint.
  by destruct (N.to_hex_uint _); [|apply hex_uint_ascii..].
Qed.

Lemma ipv4_display_ascii a b c d : is_ascii (ipv4_display a b c d) = true.
Proof. unfold ipv4_display. by rewrite !is_ascii_app, !dec_ascii. Qed.

Lemma fmt_subslice_ascii segs : is_ascii (fmt_subslice segs) = true.
Proof.
  induction segs as [|s segs IH]; [done|]. cbn [fmt_subslice].
  destruct segs; [apply hex_ascii|]. by rewrite !is_ascii_app, hex_ascii, IH.
Qed.

Lemma ipv6_display_ascii octets : is_ascii (ipv6_display octets) = true.
Proof.
  unfold ipv6_display. cbv zeta.
  assert (H : forall z, is_ascii (if (1 <? len z)%nat then
      fmt_subslice (take (start z) (segments octets)) ++ [colon; colon] ++
      fmt_subslice (drop (start z + len z) (segments octets))
    else fmt_subslice (segments octets)) = true).
  { intros z. destruct (1 <? len z)%nat; rewrite ?is_ascii_app, ?fmt_subslice_ascii; done. }
  case_bool_decide; [|apply H].
  destruct (drop 12 octets) as [|a [|b [|c [|d [|]]]]]; try apply H.
  by rewrite is_ascii_app, ipv4_display_ascii.
Qed.

Lemma first_chunk_exact_some {A} n (l : list A) :
  (n <= length l)%nat -> first_chunk_exact n l = Some (take n l).
Proof. intros. unfold first_chunk_exact. by rewrite (proj2 (Nat.leb_le _ _)). Qed.

Lemma try_into_array_ok {A} n (l : list A) : length l = n -> try_into_array n l = Ok l.
Proof. intros <-. unfold try_into_array. by rewrite Nat.eqb_refl. Qed.

#[export] Hint Resolve dec_no_dot : rust.
#[export] Hint Rewrite from_utf8_ascii using done : rust.

Example display_v4 : ipv4_display xc0 xa8 x00 x01 = bytes_of "192.168.0.1".
Proof. reflexivity. Qed.
Example display_v6 :
  ipv6_display [x20; x01; x0d; xb8; x00; x00; x00; x00; x00; x00; x00; x00; x00; x00; x00; x01]
  = bytes_of "2001:db8::1".
Proof. reflexivity. Qed.
Example display_v6_loopback : ipv6_display (replicate 15 x00 ++ [x01]) = bytes_of "::1".
Proof. reflexivity. Qed.
Example display_v6_mapped :
  ipv6_display (replicate 10 x00 ++ [xff; xff; x0a; x00; x00; x01]) = bytes_of "::ffff:10.0.0.1".
Proof. reflexivity. Qed.
