(* ===== verification/Common.v ===== *)
(** * cilium-mini-common: the records shared by kernel and user space

    [src/cilium-mini-common/src/lib.rs]: the constants, [RawIpAddr] and
    [RawDnsEvent] with their constructors, their [repr(C, align(8))] memory
    layout and byte images, and [RawIpAddr::write_to]. *)

From Stdlib Require Import Strings.Byte NArith ZArith Lia.
From stdpp Require Import base tactics numbers list strings countable.
From S2P Require Import Prelude.
From S2P Require Export Layout.

Local Open Scope Z_scope.

(** ** Constants *)

Definition RING_BUF_NAME : string := "DNS_EVENTS_PIPE".
Definition HASH_MAP_NAME : string := "ALLOWED_IP_MAP".
Definition AF_INET : Z := 2.
Definition AF_INET6 : Z := 10.
Definition MAX_DNS_PAYLOAD_SIZE : nat := 512.

(** ** Memory layout *)

Definition RawIpAddr_layout : ctype :=
  CStruct 8 [("bytes", CArray 16 CU8); ("family", CU32); ("_pad", CU32)]%string.

Definition RawDnsEvent_layout : ctype :=
  CStruct 8 [("src_ip", RawIpAddr_layout); ("dst_ip", RawIpAddr_layout);
             ("src_port", CU16); ("dst_port", CU16); ("_pad", CU16);
             ("payload_len", CU16); ("timestamp_ns", CU64);
             ("payload", CArray MAX_DNS_PAYLOAD_SIZE CU8)]%string.

(** ** RawIpAddr *)

Record RawIpAddr := { bytes : list byte; family : Z; ip_pad : Z }.

#[export] Instance RawIpAddr_eq_dec : EqDecision RawIpAddr.
Proof. solve_decision. Defined.

#[export] Instance RawIpAddr_countable : Countable RawIpAddr :=
  inj_countable' (fun ip => (bytes ip, family ip, ip_pad ip))
    (fun '(b, f, p) => {| bytes := b; family := f; ip_pad := p |})
    ltac:(by intros []).

Definition RawIpAddr_default : RawIpAddr :=
  {| bytes := replicate 16 x00; family := 0; ip_pad := 0 |}.

(** [RawIpAddr::from_ipv4]: [addr] is a [[u8; 4]]. *)
Definition from_ipv4 {E} (addr : list byte) : outcome E RawIpAddr :=
  let? a0 := index addr 0 in let? a1 := index addr 1 in
  let? a2 := index addr 2 in let? a3 := index addr 3 in
  Ok {| bytes := [a0; a1; a2; a3; x00; x00; x00; x00; x00; x00; x00; x00; x00; x00; x00; x00];
        family := AF_INET; ip_pad := 0 |}.

(** [RawIpAddr::from_ipv6]: [addr] is a [[u8; 16]]. *)
Definition from_ipv6 (addr : list byte) : RawIpAddr :=
  {| bytes := addr; family := AF_INET6; ip_pad := 0 |}.

Lemma from_ipv4_ok {E} addr :
  length addr = 4%nat ->
  from_ipv4 (E := E) addr =
  Ok {| bytes := addr ++ replicate 12 x00; family := AF_INET; ip_pad := 0 |}.
Proof. by destruct addr as [|a [|b [|c [|d []]]]]. Qed.

(** The 24 bytes of the record in memory (a little-endian target). *)
Definition encode_ip (ip : RawIpAddr) : list byte :=
  bytes ip ++ le_bytes 4 (family ip) ++ le_bytes 4 (ip_pad ip).

Definition decode_ip (buf : list byte) : RawIpAddr :=
  {| bytes := read (field_offset RawIpAddr_layout "bytes") 16 buf;
     family := le_Z (read (field_offset RawIpAddr_layout "family") 4 buf);
     ip_pad := le_Z (read (field_offset RawIpAddr_layout "_pad") 4 buf) |}.

(** The values a [RawIpAddr] can hold. *)
Definition ip_ok (ip : RawIpAddr) : Prop :=
  length (bytes ip) = 16%nat /\ 0 <= family ip < 2 ^ 32 /\ 0 <= ip_pad ip < 2 ^ 32.

(** [*d.add(i) = *s.add(i)] on [u64] pointers. *)
Definition copy_word (s : list byte) (dst i : nat) : prog (list byte) unit unit :=
  let! w := lift (load (8 * i) 8 s) in
  store (dst + 8 * i) (le_bytes 8 (le_Z w)).

(** [RawIpAddr::write_to]: three word copies to offset [dst] of the
    destination buffer. *)
Definition write_to (self : RawIpAddr) (dst : nat) : prog (list byte) unit unit :=
  let s := encode_ip self in
  do! copy_word s dst 0 in
  do! copy_word s dst 1 in
  copy_word s dst 2.

(** ** RawDnsEvent *)

Record RawDnsEvent := {
  ev_src_ip : RawIpAddr;
  ev_dst_ip : RawIpAddr;
  ev_src_port : Z;
  ev_dst_port : Z;
  ev_pad : Z;
  payload_len : Z;
  ev_timestamp_ns : Z;
  payload : list byte
}.

Definition RawDnsEvent_default : RawDnsEvent :=
  {| ev_src_ip := RawIpAddr_default; ev_dst_ip := RawIpAddr_default;
     ev_src_port := 0; ev_dst_port := 0; ev_pad := 0; payload_len := 0;
     ev_timestamp_ns := 0; payload := replicate MAX_DNS_PAYLOAD_SIZE x00 |}.

Definition event_ok (ev : RawDnsEvent) : Prop :=
  ip_ok (ev_src_ip ev) /\ ip_ok (ev_dst_ip ev) /\
  0 <= ev_src_port ev < 2 ^ 16 /\ 0 <= ev_dst_port ev < 2 ^ 16 /\
  0 <= ev_pad ev < 2 ^ 16 /\ 0 <= payload_len ev < 2 ^ 16 /\
  0 <= ev_timestamp_ns ev < 2 ^ 64 /\ length (payload ev) = MAX_DNS_PAYLOAD_SIZE.

(** [size_of::<RawDnsEvent>()] *)
Definition EVENT_SIZE : nat := size_of RawDnsEvent_layout.

Definition ev_field (name : string) (n : nat) (buf : list byte) : list byte :=
  read (field_offset RawDnsEvent_layout name) n buf.

(** The record in memory, and [ptr::read_unaligned] of it. *)
Definition encode_event (ev : RawDnsEvent) : list byte :=
  encode_ip (ev_src_ip ev) ++ encode_ip (ev_dst_ip ev) ++
  le_bytes 2 (ev_src_port ev) ++ le_bytes 2 (ev_dst_port ev) ++
  le_bytes 2 (ev_pad ev) ++ le_bytes 2 (payload_len ev) ++
  le_bytes 8 (ev_timestamp_ns ev) ++ payload ev.

Definition decode_event (buf : list byte) : RawDnsEvent :=
  {| ev_src_ip := decode_ip (ev_field "src_ip" 24 buf);
     ev_dst_ip := decode_ip (ev_field "dst_ip" 24 buf);
     ev_src_port := le_Z (ev_field "src_port" 2 buf);
     ev_dst_port := le_Z (ev_field "dst_port" 2 buf);
     ev_pad := le_Z (ev_field "_pad" 2 buf);
     payload_len := le_Z (ev_field "payload_len" 2 buf);
     ev_timestamp_ns := le_Z (ev_field "timestamp_ns" 8 buf);
     payload := ev_field "payload" MAX_DNS_PAYLOAD_SIZE buf |}.

(** ** Layout facts *)

(** Evaluate the offsets of the two records. *)
Lemma ip_offsets :
  (field_offset RawIpAddr_layout "bytes", field_offset RawIpAddr_layout "family",
   field_offset RawIpAddr_layout "_pad") = (0, 16, 20)%nat.
Proof. reflexivity. Qed.

(** The compiler lays [RawIpAddr] out in 24 bytes and [RawDnsEvent] in
    576 bytes, both aligned to 8, with every field directly after the one
    before it: the explicit padding fields leave no hidden padding. *)
Theorem event_layout :
  layout RawIpAddr_layout = (24, 8)%nat /\
  layout RawDnsEvent_layout = (576, 8)%nat /\
  offsets_from 0 (struct_fields RawIpAddr_layout) =
    [("bytes", 0); ("family", 16); ("_pad", 20)]%string%nat /\
  offsets_from 0 (struct_fields RawDnsEvent_layout) =
    [("src_ip", 0); ("dst_ip", 24); ("src_port", 48); ("dst_port", 50); ("_pad", 52);
     ("payload_len", 54); ("timestamp_ns", 56); ("payload", 64)]%string%nat.
Proof. repeat split. Qed.

Lemma length_encode_ip ip : ip_ok ip -> length (encode_ip ip) = 24%nat.
Proof. intros [H _]. unfold encode_ip. len_lia. Qed.

Lemma length_encode_event ev : event_ok ev -> length (encode_event ev) = EVENT_SIZE.
Proof.
  intros (? & ? & _ & _ & _ & _ & _ & ?). unfold encode_event.
  rewrite !length_app, !length_encode_ip by done.
  rewrite !length_le_bytes, H1. done.
Qed.

Lemma decode_encode_ip ip : ip_ok ip -> decode_ip (encode_ip ip) = ip.
Proof.
  intros (Hb & Hf & Hp). unfold decode_ip, encode_ip.
  change (field_offset RawIpAddr_layout "bytes") with 0%nat.
  change (field_offset RawIpAddr_layout "family") with 16%nat.
  change (field_offset RawIpAddr_layout "_pad") with 20%nat.
  destruct ip as [bs f p]; cbn [bytes family ip_pad] in *. f_equal; read_apps; [done|..].
  all: by apply le_Z_le_bytes_small.
Qed.

Lemma ev_field_offsets name buf n :
  ev_field name n buf = read (find_offset name
    [("src_ip", 0); ("dst_ip", 24); ("src_port", 48); ("dst_port", 50); ("_pad", 52);
     ("payload_len", 54); ("timestamp_ns", 56); ("payload", 64)]%string%nat) n buf.
Proof. reflexivity. Qed.

Lemma event_roundtrip ev : event_ok ev -> decode_event (encode_event ev) = ev.
Proof.
  intros (Hs & Hd & ? & ? & ? & ? & ? & Hp).
  pose proof (length_encode_ip _ Hs). pose proof (length_encode_ip _ Hd).
  unfold decode_event, encode_event. rewrite !ev_field_offsets. simpl find_offset.
  destruct ev as [s d sp dp pad n ts p].
  cbn [ev_src_ip ev_dst_ip ev_src_port ev_dst_port ev_pad payload_len
       ev_timestamp_ns payload] in *. unfold MAX_DNS_PAYLOAD_SIZE in *.
  f_equal; read_apps.
  all: first [by apply decode_encode_ip | by apply le_Z_le_bytes_small | done].
Qed.

(** Reading the record back with [ptr::read_unaligned] inverts writing it
    to memory, so the kernel and the daemon agree on every field. *)
Theorem decode_encode_event ev : event_ok ev -> decode_event (encode_event ev) = ev.
Proof. apply event_roundtrip. Qed.

(** ** write_to *)

Lemma copy_word_ok s dst i buf :
  (8 * i + 8 <= length s)%nat -> (dst + 8 * i + 8 <= length buf)%nat ->
  copy_word s dst i buf = (put (dst + 8 * i) (read (8 * i) 8 s) buf, Ok tt).
Proof.
  intros Hs Hb. unfold copy_word, bind, lift. rewrite load_ok by lia.
  assert (Hl : length (read (8 * i) 8 s) = 8%nat) by (apply length_read; lia).
  rewrite le_bytes_le_Z_len by done. apply store_ok. lia.
Qed.

Ltac puts_lia Hr :=
  repeat first [rewrite length_app | rewrite length_put | rewrite Hr]; lia.

Lemma write_to_ok ip dst buf :
  ip_ok ip -> (dst + 24 <= length buf)%nat ->
  write_to ip dst buf = (put dst (encode_ip ip) buf, Ok tt).
Proof.
  intros Hip Hb. pose proof (length_encode_ip _ Hip) as Hl.
  assert (Hr : forall i, (i < 3)%nat -> length (read (8 * i) 8 (encode_ip ip)) = 8%nat)
    by (intros; apply length_read; lia).
  unfold write_to, bind.
  do 3 (rewrite copy_word_ok by puts_lia Hr; cbv beta iota).
  rewrite !put_put_app by puts_lia Hr.
  rewrite Nat.add_0_r, !read_app by lia. by rewrite read_all.
Qed.

(** The three word copies of [write_to] store exactly the 24 bytes of the
    record, address, family and padding, at the destination and nothing
    else. *)
Theorem write_to_spec ip dst buf :
  ip_ok ip -> (dst + 24 <= length buf)%nat ->
  write_to ip dst buf = (put dst (encode_ip ip) buf, Ok tt).
Proof. apply write_to_ok. Qed.

Lemma write_to_spec_witness :
  write_to (from_ipv6 (replicate 16 x07)) 3 (replicate 30 x00) =
  (replicate 3 x00 ++ replicate 16 x07 ++ [x0a] ++ replicate 10 x00, Ok tt).
Proof.
  rewrite write_to_spec; [reflexivity|repeat split; done|simpl; lia].
Defined.

Lemma decode_encode_event_witness :
  decode_event (encode_event RawDnsEvent_default) = RawDnsEvent_default.
Proof. apply decode_encode_event. repeat split; done. Defined.
