(* ===== verification/Bitfield.v ===== *)
(** * Bindgen's bit field units

    [__BindgenBitfieldUnit] at the head of
    [src/cilium-mini-ebpf/src/vmlinux.rs]: a byte array in which bit fields
    are read and written bit by bit, by reference ([get], [set]) or through a
    raw pointer ([raw_get], [raw_set]).  [cfg!(target_endian = "big")] is the
    variable [big_endian], so both targets are covered. *)

From Stdlib Require Import Strings.Byte NArith ZArith Lia.
From stdpp Require Import base tactics numbers list strings.
From S2P Require Import Prelude.

Local Open Scope Z_scope.

Section Unit.
Context (big_endian : bool) {E : Type}.

(** ** Single bits *)

Definition bit_index (idx : nat) : Z :=
  if big_endian then 7 - Z.of_nat (idx mod 8) else Z.of_nat (idx mod 8).

Definition extract_bit (byte : byte) (idx : nat) : bool :=
  let mask := Z.shiftl 1 (bit_index idx) in
  Z.land (u8 byte) mask =? mask.

Definition get_bit (storage : list byte) (idx : nat) : outcome E bool :=
  if negb (idx / 8 <? length storage)%nat then Fault AssertFailed
  else
  let byte_index := (idx / 8)%nat in
  let? byte := index storage byte_index in
  Ok (extract_bit byte idx).

(** [this] is the unit's offset in memory, [size] is [size_of::<Storage>()]. *)
Definition raw_get_bit (mem : list byte) (this size idx : nat) : outcome E bool :=
  if negb (idx / 8 <? size)%nat then Fault AssertFailed
  else
  let byte_index := (idx / 8)%nat in
  let? bs := load (this + byte_index) 1 mem in
  let? byte := index bs 0 in
  Ok (extract_bit byte idx).

Definition change_bit (byte : byte) (idx : nat) (val : bool) : Byte.byte :=
  let mask := Z.shiftl 1 (bit_index idx) in
  byte_of_Z (if val then Z.lor (u8 byte) mask else Z.land (u8 byte) (Z.lxor mask 255)).

Definition set_bit (idx : nat) (val : bool) : prog (list byte) E unit :=
  fun storage =>
  if negb (idx / 8 <? length storage)%nat then (storage, Fault AssertFailed)
  else
  let byte_index := (idx / 8)%nat in
  match storage !! byte_index with
  | Some byte => (<[byte_index := change_bit byte idx val]> storage, Ok tt)
  | None => (storage, Fault SliceIndex)
  end.

Definition raw_set_bit (this size idx : nat) (val : bool) : prog (list byte) E unit :=
  if negb (idx / 8 <? size)%nat then crash AssertFailed
  else
  let byte_index := (idx / 8)%nat in
  let! bs := (fun mem => lift (load (this + byte_index) 1 mem) mem) in
  let! byte := lift (index bs 0) in
  store (this + byte_index) [change_bit byte idx val].

(** ** Fields *)

(** The loop of [get] and of [raw_get], over their reader of one bit: [n]
    iterations are left, [i] is the index. *)
Fixpoint get_loop (read_bit : nat -> outcome E bool) (bit_offset bit_width n i : nat) (val : Z)
    : outcome E Z :=
  match n with
  | O => Ok val
  | S n =>
      let? pos := uadd i bit_offset in
      let? b := read_bit pos in
      let idx := if big_endian then (bit_width - 1 - i)%nat else i in
      get_loop read_bit bit_offset bit_width n (S i)
        (if b then Z.lor val (Z.shiftl 1 (Z.of_nat idx)) else val)
  end.

(** The loop of [set] and of [raw_set]. *)
Fixpoint set_loop (write_bit : nat -> bool -> prog (list byte) E unit)
    (bit_offset bit_width : nat) (val : Z) (n i : nat) : prog (list byte) E unit :=
  match n with
  | O => ret tt
  | S n =>
      let mask := Z.shiftl 1 (Z.of_nat i) in
      let val_bit_is_set := Z.land val mask =? mask in
      let idx := if big_endian then (bit_width - 1 - i)%nat else i in
      let! pos := lift (uadd idx bit_offset) in
      do! write_bit pos val_bit_is_set in
      set_loop write_bit bit_offset bit_width val n (S i)
  end.

(** The three [debug_assert!]s on a field of a unit of [size] bytes. *)
Definition field_asserts (size bit_offset bit_width : nat) : bool :=
  (bit_width <=? 64)%nat && (bit_offset / 8 <? size)%nat &&
  ((bit_offset + bit_width) / 8 <=? size)%nat.

Definition get (storage : list byte) (bit_offset bit_width : nat) : outcome E Z :=
  if negb (field_asserts (length storage) bit_offset bit_width) then Fault AssertFailed
  else get_loop (get_bit storage) bit_offset bit_width bit_width 0 0.

Definition raw_get (mem : list byte) (this size bit_offset bit_width : nat) : outcome E Z :=
  if negb (field_asserts size bit_offset bit_width) then Fault AssertFailed
  else get_loop (raw_get_bit mem this size) bit_offset bit_width bit_width 0 0.

Definition set (bit_offset bit_width : nat) (val : Z) : prog (list byte) E unit :=
  fun storage =>
  if negb (field_asserts (length storage) bit_offset bit_width)
  then (storage, Fault AssertFailed)
  else set_loop set_bit bit_offset bit_width val bit_width 0 storage.

Definition raw_set (this size bit_offset bit_width : nat) (val : Z) : prog (list byte) E unit :=
  if negb (field_asserts size bit_offset bit_width) then crash AssertFailed
  else set_loop (raw_set_bit this size) bit_offset bit_width val bit_width 0.

(** ** The bits of a unit *)

Lemma bit_index_range idx : 0 <= bit_index idx < 8.
Proof. unfold bit_index. pose proof (Nat.mod_upper_bound idx 8). destruct big_endian; lia. Qed.

Lemma bit_index_inj i j : (i / 8 = j / 8)%nat -> bit_index i = bit_index j -> i = j.
Proof.
  unfold bit_index. intros Hd Hm.
  pose proof (Nat.div_mod_eq i 8). pose proof (Nat.div_mod_eq j 8).
  pose proof (Nat.mod_upper_bound i 8). pose proof (Nat.mod_upper_bound j 8).
  destruct big_endian; lia.
Qed.

(** The mask test is a bit test. *)
Lemma mask_testbit z k : 0 <= k -> (Z.land z (Z.shiftl 1 k) =? Z.shiftl 1 k) = Z.testbit z k.
Proof.
  intros Hk. rewrite Z.shiftl_1_l.
  assert (Hl : Z.land z (2 ^ k) = if Z.testbit z k then 2 ^ k else 0).
  { apply Z.bits_inj'. intros n Hn. rewrite Z.land_spec, Z.pow2_bits_eqb by done.
    destruct (Z.eqb_spec k n) as [<-|Hne].
    - destruct (Z.testbit z k); [by rewrite Z.pow2_bits_true|by rewrite Z.bits_0].
    - rewrite andb_false_r. destruct (Z.testbit z k); [|by rewrite Z.bits_0].
      by rewrite Z.pow2_bits_false. }
  rewrite Hl. assert (0 < 2 ^ k) by (by apply Z.pow_pos_nonneg).
  destruct (Z.testbit z k); [apply Z.eqb_refl|]. apply Z.eqb_neq. lia.
Qed.

Lemma extract_bit_testbit b idx : extract_bit b idx = Z.testbit (u8 b) (bit_index idx).
Proof. apply mask_testbit, bit_index_range. Qed.

Lemma testbit_byte_of_Z z k : 0 <= k < 8 -> Z.testbit (u8 (byte_of_Z z)) k = Z.testbit z k.
Proof. intros Hk. rewrite u8_byte_of_Z. change 256 with (2 ^ 8). apply Z.mod_pow2_bits_low; lia. Qed.

Lemma extract_change_bit b i j v :
  (i / 8 = j / 8)%nat -> extract_bit (change_bit b i v) j = if (i =? j)%nat then v else extract_bit b j.
Proof.
  intros Hd. pose proof (bit_index_range i) as Hi. pose proof (bit_index_range j) as Hj.
  rewrite !extract_bit_testbit. unfold change_bit. rewrite testbit_byte_of_Z by done.
  rewrite Z.shiftl_1_l.
  assert (Hm : Z.testbit (2 ^ bit_index i) (bit_index j) = (i =? j)%nat).
  { rewrite Z.pow2_bits_eqb by lia. destruct (Nat.eqb_spec i j) as [->|Hne]; [apply Z.eqb_refl|].
    apply Z.eqb_neq. intros He. by apply Hne, bit_index_inj. }
  destruct v; rewrite ?Z.lor_spec, ?Z.land_spec, ?Z.lxor_spec, Hm.
  - destruct (i =? j)%nat; [apply orb_true_r|apply orb_false_r].
  - change 255 with (Z.ones 8). rewrite Z.ones_spec_low by lia.
    destruct (i =? j)%nat; [apply andb_false_r|apply andb_true_r].
Qed.

(** The value of a bit. *)
Definition bit (storage : list byte) (i : nat) : bool :=
  match storage !! (i / 8)%nat with
  | Some b => extract_bit b i
  | None => false
  end.

Lemma byte_in_range i n : (i < 8 * n)%nat -> (i / 8 < n)%nat.
Proof. intros. by apply Nat.Div0.div_lt_upper_bound. Qed.

Lemma byte_out_of_range i n : (8 * n <= i)%nat -> (n <= i / 8)%nat.
Proof. intros. by apply Nat.div_le_lower_bound. Qed.

Lemma get_bit_ok st i : (i < 8 * length st)%nat -> get_bit st i = Ok (bit st i).
Proof.
  intros Hi%byte_in_range. unfold get_bit, bit. rewrite (proj2 (Nat.ltb_lt _ _)) by done.
  destruct (lookup_lt_is_Some_2 st (i / 8) Hi) as [b Hb]. cbn [negb].
  by rewrite Hb, (index_ok _ _ _ Hb).
Qed.

Lemma get_bit_fault st i : (8 * length st <= i)%nat -> get_bit st i = Fault AssertFailed.
Proof.
  intros Hi%byte_out_of_range. unfold get_bit. by rewrite (proj2 (Nat.ltb_ge _ _)).
Qed.

Lemma set_bit_ok st i v :
  (i < 8 * length st)%nat ->
  exists st', set_bit i v st = (st', Ok tt) /\ length st' = length st /\
    forall j, (j < 8 * length st)%nat -> bit st' j = if (i =? j)%nat then v else bit st j.
Proof.
  intros Hi%byte_in_range. unfold set_bit. rewrite (proj2 (Nat.ltb_lt _ _)) by done.
  destruct (lookup_lt_is_Some_2 st (i / 8) Hi) as [b Hb]. cbn [negb]. rewrite Hb.
  eexists. split; [done|]. split; [apply length_insert|]. intros j Hj%byte_in_range.
  unfold bit. destruct (decide (i / 8 = j / 8)%nat) as [He|Hne].
  - rewrite <-He, list_lookup_insert_eq, Hb by done. by apply extract_change_bit.
  - rewrite list_lookup_insert_ne by done. destruct (Nat.eqb_spec i j); [by subst|done].
Qed.

(** ** Reading a field *)

(** The position, in a field of [w] bits, that holds bit [k] of its value. *)
Definition pos (w k : nat) : nat := if big_endian then (w - 1 - k)%nat else k.

Lemma pos_lt w k : (k < w)%nat -> (pos w k < w)%nat.
Proof. unfold pos. destruct big_endian; lia. Qed.

Lemma pos_involutive w k : (k < w)%nat -> pos w (pos w k) = k.
Proof. unfold pos. destruct big_endian; lia. Qed.

Lemma pos_inj w j k : (j < w)%nat -> (k < w)%nat -> pos w j = pos w k -> j = k.
Proof. unfold pos. destruct big_endian; lia. Qed.

(** The number with the given bits. *)
Fixpoint of_bits (f : nat -> bool) (n : nat) : Z :=
  match n with
  | O => 0
  | S n => 2 * of_bits (fun k => f (S k)) n + Z.b2z (f 0%nat)
  end.

Lemma of_bits_testbit n : forall f k, Z.testbit (of_bits f n) (Z.of_nat k) = (k <? n)%nat && f k.
Proof.
  induction n as [|n IH]; intros f k; cbn [of_bits]; [apply Z.bits_0|].
  destruct k as [|k]; [apply Z.testbit_0_r|].
  rewrite Nat2Z.inj_succ, Z.testbit_succ_r by lia. exact (IH (fun k => f (S k)) k).
Qed.

Lemma of_bits_nonneg n : forall f, 0 <= of_bits f n.
Proof.
  induction n as [|n IH]; intros f; cbn [of_bits]; [done|].
  specialize (IH (fun k => f (S k))). destruct (f 0%nat); simpl Z.b2z; lia.
Qed.

(** Natural indices are enough to compare numbers. *)
Lemma bits_inj_nat x y :
  (forall k : nat, Z.testbit x (Z.of_nat k) = Z.testbit y (Z.of_nat k)) -> x = y.
Proof.
  intros H. apply Z.bits_inj'. intros n Hn. rewrite <-(Z2Nat.id n) by done. apply H.
Qed.

Lemma of_bits_ext n f g : (forall k, (k < n)%nat -> f k = g k) -> of_bits f n = of_bits g n.
Proof.
  intros H. apply bits_inj_nat. intros k. rewrite !of_bits_testbit.
  destruct (Nat.ltb_spec k n); [|done]. by rewrite H.
Qed.

Lemma of_bits_mod z w : of_bits (fun k => Z.testbit z (Z.of_nat k)) w = z mod 2 ^ Z.of_nat w.
Proof.
  apply bits_inj_nat. intros k. rewrite of_bits_testbit.
  destruct (Nat.ltb_spec k w).
  - by rewrite Z.mod_pow2_bits_low by lia.
  - by rewrite Z.mod_pow2_bits_high by lia.
Qed.

Lemma of_bits_range f n : 0 <= of_bits f n < 2 ^ Z.of_nat n.
Proof.
  rewrite (of_bits_ext n f (fun k => Z.testbit (of_bits f n) (Z.of_nat k))), of_bits_mod.
  - apply Z.mod_pos_bound. by apply Z.pow_pos_nonneg; lia.
  - intros k Hk. by rewrite of_bits_testbit, (proj2 (Nat.ltb_lt _ _)).
Qed.

(** The value a field holds. *)
Definition field_bits (st : list byte) (off w : nat) : Z :=
  of_bits (fun k => bit st (pos w k + off)) w.

Lemma get_loop_ok rb (b : nat -> bool) off w : forall n i val,
  (n + i = w)%nat -> Z.of_nat (off + w) <= usize_max ->
  (forall k, (off <= k < off + w)%nat -> rb k = Ok (b k)) ->
  exists v, get_loop rb off w n i val = Ok v /\
    forall k : nat, Z.testbit v (Z.of_nat k) =
      Z.testbit val (Z.of_nat k) ||
      ((k <? w)%nat && (i <=? pos w k)%nat && b (pos w k + off)%nat).
Proof.
  induction n as [|n IH]; intros i val Hn Hoff Hrb; cbn [get_loop].
  { exists val. split; [done|]. intros k. destruct (Nat.ltb_spec k w) as [Hk|]; [|by rewrite orb_false_r].
    rewrite (proj2 (Nat.leb_gt _ _)) by (pose proof (pos_lt w k Hk); lia).
    by rewrite orb_false_r. }
  rewrite uadd_ok by lia. cbn [obind]. rewrite Hrb by lia. cbn [obind].
  set (val' := if b (i + off)%nat then _ else val).
  destruct (IH (S i) val') as (v & Hv & Hbits); [lia|done|done|].
  exists v. split; [exact Hv|]. intros k. rewrite Hbits.
  assert (Hval' : Z.testbit val' (Z.of_nat k) =
    Z.testbit val (Z.of_nat k) || ((k =? pos w i)%nat && b (i + off)%nat)).
  { subst val'. fold (pos w i). destruct (b (i + off)%nat); [|by rewrite andb_false_r, orb_false_r].
    rewrite Z.lor_spec, Z.shiftl_1_l, Z.pow2_bits_eqb by lia. f_equal.
    rewrite andb_true_r. destruct (Nat.eqb_spec k (pos w i)) as [->|]; [apply Z.eqb_refl|].
    apply Z.eqb_neq. lia. }
  rewrite Hval', <-orb_assoc. f_equal.
  destruct (Nat.ltb_spec k w) as [Hk|Hk]; cbn [andb].
  - pose proof (pos_lt w k Hk). destruct (Nat.eqb_spec k (pos w i)) as [He|He]; cbn [andb].
    + assert (Hp : pos w k = i) by (rewrite He; apply pos_involutive; lia). rewrite Hp.
      rewrite (proj2 (Nat.leb_gt (S i) i)), (proj2 (Nat.leb_le i i)) by lia. apply orb_false_r.
    + cbn [orb]. assert (pos w k <> i) by (intros Hp; apply He; rewrite <-Hp; by rewrite pos_involutive).
      f_equal. destruct (Nat.leb_spec i (pos w k)), (Nat.leb_spec (S i) (pos w k)); done || lia.
  - rewrite orb_false_r. destruct (Nat.eqb_spec k (pos w i)) as [He|]; [|done].
    pose proof (pos_lt w i). lia.
Qed.

(** The asserts and bounds a field in range satisfies. *)
Definition in_unit (size off w : nat) : Prop :=
  (1 <= w <= 64)%nat /\ (off + w <= 8 * size)%nat /\ Z.of_nat (8 * size) <= usize_max.

Lemma in_unit_asserts size off w : in_unit size off w -> field_asserts size off w = true.
Proof.
  intros (Hw & Hs & _). unfold field_asserts.
  rewrite (proj2 (Nat.leb_le w 64)), (proj2 (Nat.ltb_lt _ _)), (proj2 (Nat.leb_le _ size)); [done|..].
  - apply Nat.Div0.div_le_upper_bound. lia.
  - apply byte_in_range. lia.
  - lia.
Qed.

Lemma get_loop_value rb (b : nat -> bool) off w :
  Z.of_nat (off + w) <= usize_max ->
  (forall k, (off <= k < off + w)%nat -> rb k = Ok (b k)) ->
  get_loop rb off w w 0 0 = Ok (of_bits (fun k => b (pos w k + off)%nat) w).
Proof.
  intros Hoff Hrb. destruct (get_loop_ok rb b off w w 0 0) as (v & -> & Hv); [lia|done|done|].
  f_equal. apply bits_inj_nat. intros k. rewrite Hv, of_bits_testbit, Z.bits_0. cbn [orb].
  by rewrite (proj2 (Nat.leb_le 0 _)), andb_true_r by lia.
Qed.

Lemma get_ok st off w :
  in_unit (length st) off w -> get st off w = Ok (field_bits st off w).
Proof.
  intros Hin. unfold get. rewrite in_unit_asserts by done. destruct Hin as (Hw & Hs & Hmax).
  cbn [negb]. apply get_loop_value; [lia|]. intros k Hk. apply get_bit_ok. lia.
Qed.

(** ** Writing a field *)

Lemma set_loop_ok off w val : forall n i st,
  (n + i = w)%nat -> (off + w <= 8 * length st)%nat -> Z.of_nat (8 * length st) <= usize_max ->
  exists st', set_loop set_bit off w val n i st = (st', Ok tt) /\ length st' = length st /\
    forall j, (j < 8 * length st)%nat ->
      bit st' j = if (off <=? j)%nat && (j <? off + w)%nat && (i <=? pos w (j - off))%nat
                  then Z.testbit val (Z.of_nat (pos w (j - off))) else bit st j.
Proof.
  induction n as [|n IH]; intros i st Hn Hs Hmax; cbn [set_loop].
  { exists st. split_and!; [done..|]. intros j Hj.
    destruct (Nat.leb_spec off j); [|done]. destruct (Nat.ltb_spec j (off + w)); [|done].
    pose proof (pos_lt w (j - off)). cbn [andb]. by rewrite (proj2 (Nat.leb_gt _ _)) by lia. }
  fold (pos w i). pose proof (pos_lt w i) as Hp.
  rewrite bind_lift, uadd_ok by lia. cbv beta iota.
  destruct (set_bit_ok st (pos w i + off) (Z.testbit val (Z.of_nat i))) as (st1 & H1 & Hl1 & Hb1);
    [lia|].
  rewrite mask_testbit by lia. erewrite bind_run by exact H1. rewrite <-Hl1 in Hs, Hmax.
  destruct (IH (S i) st1) as (st' & H2 & Hl2 & Hb2); [lia|done|done|].
  exists st'. split; [exact H2|]. split; [congruence|]. intros j Hj.
  rewrite Hb2, Hb1 by congruence.
  destruct (Nat.leb_spec off j) as [H3|H3]; cbn [andb].
  2: { rewrite (proj2 (Nat.eqb_neq _ _)) by lia. done. }
  destruct (Nat.ltb_spec j (off + w)) as [H4|H4]; cbn [andb].
  2: { rewrite (proj2 (Nat.eqb_neq _ _)) by lia. done. }
  destruct (Nat.eqb_spec (pos w i + off) j) as [He|He].
  - assert (Hpi : pos w (j - off) = i).
    { rewrite <-He, Nat.add_sub. apply pos_involutive. lia. }
    rewrite Hpi, (proj2 (Nat.leb_gt (S i) i)), (proj2 (Nat.leb_le i i)) by lia. done.
  - assert (Hpi : pos w (j - off) <> i).
    { intros Hpi. apply He. rewrite <-Hpi, pos_involutive by lia. lia. }
    destruct (Nat.leb_spec (S i) (pos w (j - off))), (Nat.leb_spec i (pos w (j - off)));
      done || lia.
Qed.

Lemma set_ok st off w val :
  in_unit (length st) off w ->
  exists st', set off w val st = (st', Ok tt) /\ length st' = length st /\
    forall j, (j < 8 * length st)%nat ->
      bit st' j = if (off <=? j)%nat && (j <? off + w)%nat
                  then Z.testbit val (Z.of_nat (pos w (j - off))) else bit st j.
Proof.
  intros Hin. unfold set. rewrite in_unit_asserts by done. destruct Hin as (Hw & Hs & Hmax).
  destruct (set_loop_ok off w val w 0 st) as (st' & H1 & Hl & Hb); [lia|lia|lia|].
  exists st'. split_and!; [done..|]. intros j Hj. by rewrite Hb, andb_true_r by done.
Qed.

(** What is read back after a write. *)
Lemma field_bits_set st st' off w val :
  in_unit (length st) off w -> set off w val st = (st', Ok tt) ->
  field_bits st' off w = val mod 2 ^ Z.of_nat w.
Proof.
  intros Hin Hs. pose proof Hin as (Hw & Hsz & _).
  destruct (set_ok st off w val Hin) as (st2 & H2 & Hl & Hb). rewrite Hs in H2. injection H2 as <-.
  rewrite <-of_bits_mod. apply of_bits_ext. intros k Hk. pose proof (pos_lt w k Hk).
  rewrite Hb by lia. rewrite (proj2 (Nat.leb_le _ _)), (proj2 (Nat.ltb_lt _ _)) by lia. cbn [andb].
  by rewrite Nat.add_sub, pos_involutive.
Qed.

Definition disjoint_fields (off w off' w' : nat) : Prop := (off + w <= off' \/ off' + w' <= off)%nat.

Lemma field_bits_other st st' off w val off' w' :
  in_unit (length st) off w -> in_unit (length st) off' w' -> disjoint_fields off w off' w' ->
  set off w val st = (st', Ok tt) -> field_bits st' off' w' = field_bits st off' w'.
Proof.
  intros Hin Hin' Hd Hs. pose proof Hin' as (Hw & Hsz & _). unfold disjoint_fields in Hd.
  destruct (set_ok st off w val Hin) as (st2 & H2 & Hl & Hb). rewrite Hs in H2. injection H2 as <-.
  apply of_bits_ext. intros k Hk. pose proof (pos_lt w' k Hk). rewrite Hb by lia.
  destruct (Nat.leb_spec off (pos w' k + off')), (Nat.ltb_spec (pos w' k + off') (off + w));
    done || lia.
Qed.

(** ** Through a raw pointer *)

(** The unit at offset [this] of a memory. *)
Lemma raw_get_bit_eq mem this size i :
  (this + size <= length mem)%nat ->
  raw_get_bit mem this size i = get_bit (read this size mem) i.
Proof.
  intros Hm. unfold raw_get_bit, get_bit. rewrite length_read by done.
  destruct (Nat.ltb_spec (i / 8) size) as [Hi|]; [|done]. cbn [negb].
  rewrite load_ok by lia. cbn [obind].
  destruct (lookup_lt_is_Some_2 mem (this + i / 8) ltac:(lia)) as [b Hb].
  unfold read at 1. rewrite (drop_lookup_cons _ _ _ Hb). cbn [take]. rewrite firstn_O.
  unfold index, read. rewrite lookup_take, decide_True by done. by rewrite lookup_drop, Hb.
Qed.

Lemma get_loop_ext rb rb' off w n : forall i val,
  (forall k, rb k = rb' k) -> get_loop rb off w n i val = get_loop rb' off w n i val.
Proof.
  induction n as [|n IH]; intros i val H; [done|]. cbn [get_loop].
  destruct (uadd i off) as [p|e|f]; [|done..]. cbn [obind]. rewrite H.
  destruct (rb' p); [|done..]. cbn [obind]. by apply IH.
Qed.

Lemma raw_get_eq mem this size off w :
  (this + size <= length mem)%nat ->
  raw_get mem this size off w = get (read this size mem) off w.
Proof.
  intros Hm. unfold raw_get, get. rewrite length_read by done.
  destruct (field_asserts _ _ _); [|done]. cbn [negb].
  apply get_loop_ext. intros k. by apply raw_get_bit_eq.
Qed.

Lemma raw_set_bit_eq mem this size i v :
  (this + size <= length mem)%nat ->
  raw_set_bit this size i v mem =
  (let '(st, r) := set_bit i v (read this size mem) in (put this st mem, r)) /\
  length (set_bit i v (read this size mem)).1 = size.
Proof.
  intros Hm. unfold raw_set_bit, set_bit. rewrite length_read by done.
  destruct (Nat.ltb_spec (i / 8) size) as [Hi|].
  2: { cbn [negb]. rewrite put_read by done. split; [done|by apply length_read]. }
  cbn [negb]. destruct (lookup_lt_is_Some_2 mem (this + i / 8) ltac:(lia)) as [b Hb].
  unfold bind at 1, lift at 1. rewrite load_ok by lia.
  assert (Hr : read this size mem !! (i / 8)%nat = Some b).
  { unfold read. by rewrite lookup_take, decide_True, lookup_drop. }
  rewrite Hr. rewrite bind_lift.
  unfold read at 1. rewrite (drop_lookup_cons _ _ _ Hb). cbn [take]. rewrite firstn_O.
  change (index [b] 0) with (@Ok E Byte.byte b). cbv beta iota.
  rewrite store_ok by (cbn [length]; lia). split.
  - f_equal. by apply put_insert.
  - cbn [fst]. by rewrite length_insert, length_read.
Qed.

Lemma set_bit_length i v st : length (set_bit i v st).1 = length st.
Proof.
  unfold set_bit. destruct (negb _); [done|]. destruct (st !! _); [|done]. apply length_insert.
Qed.

Lemma set_loop_length off w val n : forall i st,
  length (set_loop set_bit off w val n i st).1 = length st.
Proof.
  induction n as [|n IH]; intros i st; [done|]. cbn [set_loop]. rewrite bind_lift.
  destruct (uadd _ off) as [p|e|f]; [|done..]. set (v := Z.land _ _ =? _).
  pose proof (set_bit_length p v st) as Hl. unfold bind. revert Hl.
  destruct (set_bit p v st) as [st1 [[]|e|f]]; cbn [fst]; [|done..]. intros <-. apply IH.
Qed.

Lemma raw_set_loop_eq this size off w val n : forall i mem,
  (this + size <= length mem)%nat ->
  set_loop (raw_set_bit this size) off w val n i mem =
  (let '(st, r) := set_loop set_bit off w val n i (read this size mem) in (put this st mem, r)).
Proof.
  induction n as [|n IH]; intros i mem Hm; cbn [set_loop].
  { unfold ret. by rewrite put_read. }
  rewrite !bind_lift. destruct (uadd _ off) as [p|e|f]; [|by rewrite put_read..].
  set (v := Z.land _ _ =? _).
  destruct (raw_set_bit_eq mem this size p v Hm) as [H1 Hl]. unfold bind. rewrite H1. revert Hl.
  destruct (set_bit p v (read this size mem)) as [st1 [[]|e|f]]; cbn [fst]; intros Hl; [|done..].
  rewrite IH by (rewrite length_put; lia). rewrite read_put_same by lia.
  pose proof (set_loop_length off w val n (S i) st1) as Hl2. revert Hl2.
  destruct (set_loop _ off w val n (S i) st1) as [st2 r]; cbn [fst]; intros Hl2.
  by rewrite put_put_same by lia.
Qed.

Lemma raw_set_eq mem this size off w val :
  (this + size <= length mem)%nat ->
  raw_set this size off w val mem =
  (let '(st, r) := set off w val (read this size mem) in (put this st mem, r)).
Proof.
  intros Hm. unfold raw_set, set. rewrite length_read by done.
  destruct (field_asserts _ _ _); cbn [negb]; [by apply raw_set_loop_eq|].
  unfold crash. by rewrite put_read.
Qed.

(** ** When an access panics *)

Lemma get_loop_fault rb off w n : forall i val k,
  (i <= k < i + n)%nat -> Z.of_nat (off + w) <= usize_max -> (i + n <= w)%nat ->
  (forall j, (i <= j < k)%nat -> exists b, rb (j + off)%nat = Ok b) ->
  rb (k + off)%nat = Fault AssertFailed ->
  get_loop rb off w n i val = Fault AssertFailed.
Proof.
  induction n as [|n IH]; intros i val k Hk Hmax Hin Hok Hf; [lia|]. cbn [get_loop].
  rewrite uadd_ok by lia. cbn [obind].
  destruct (decide (i = k)) as [->|Hne]; [by rewrite Hf|].
  destruct (Hok i) as [b ->]; [lia|]. cbn [obind].
  apply (IH (S i) _ k); try lia; [|done]. intros j Hj. apply Hok. lia.
Qed.

Lemma get_ok_range st off w :
  Z.of_nat (off + w) <= usize_max -> (1 <= w)%nat ->
  (exists v, get st off w = Ok v) -> (w <= 64)%nat /\ (off + w <= 8 * length st)%nat.
Proof.
  intros Hmax Hw [v Hv]. unfold get in Hv.
  destruct (field_asserts (length st) off w) eqn:Ha; cbn [negb] in Hv; [|done].
  unfold field_asserts in Ha. bools.
  split; [done|]. destruct (Nat.le_gt_cases (off + w) (8 * length st)) as [|Hgt]; [done|exfalso].
  assert (Hoff : (off < 8 * length st)%nat).
  { apply Nat.nle_gt. intros Hle%byte_out_of_range. lia. }
  rewrite (get_loop_fault _ off w w 0 0 (8 * length st - off)) in Hv; try done; try lia.
  - intros j Hj. exists (bit st (j + off)). apply get_bit_ok. lia.
  - apply get_bit_fault. lia.
Qed.
End Unit.

(** ** The little-endian value of a unit *)

Lemma testbit_le_Z l : forall i,
  Z.testbit (le_Z l) (Z.of_nat i) = bit false l i.
Proof.
  induction l as [|b l IH]; intros i; cbn [le_Z]; unfold bit.
  { rewrite Z.bits_0. by rewrite lookup_nil. }
  pose proof (u8_range b) as Hb.
  destruct (Nat.lt_ge_cases i 8) as [Hi|Hi].
  - rewrite (Nat.div_small i 8) by done. cbn [lookup list_lookup].
    rewrite extract_bit_testbit. unfold bit_index. rewrite (Nat.mod_small i 8) by done.
    rewrite <-(Z.mod_small (u8 b) (2 ^ 8)) at 2 by (change (2 ^ 8) with 256; lia).
    rewrite <-(Z.mod_pow2_bits_low _ 8) by lia. f_equal.
    change (2 ^ 8) with 256. rewrite Z.mul_comm. apply Z.mod_add. lia.
  - assert (Hd : (i / 8 = S ((i - 8) / 8))%nat).
    { replace i with (1 * 8 + (i - 8))%nat at 1 by lia. by rewrite Nat.div_add_l by lia. }
    assert (Hm : (i mod 8 = (i - 8) mod 8)%nat).
    { replace i with (i - 8 + 1 * 8)%nat at 1 by lia. by rewrite Nat.Div0.mod_add. }
    rewrite Hd. cbn [lookup list_lookup].
    replace (Z.of_nat i) with (Z.of_nat (i - 8) + 8) by lia.
    rewrite <-Z.div_pow2_bits by lia. change (2 ^ 8) with 256.
    rewrite (Z.mul_comm 256), Z.div_add, Z.div_small by lia. cbn [Z.add]. rewrite IH. unfold bit.
    destruct (l !! _); [|done]. unfold extract_bit, bit_index. by rewrite Hm.
Qed.

Lemma field_bits_le st off w :
  field_bits false st off w = le_Z st / 2 ^ Z.of_nat off mod 2 ^ Z.of_nat w.
Proof.
  apply bits_inj_nat. intros k. unfold field_bits. rewrite of_bits_testbit. cbn [pos].
  destruct (Nat.ltb_spec k w) as [Hk|Hk]; cbn [andb].
  - rewrite Z.mod_pow2_bits_low, Z.div_pow2_bits by lia.
    by rewrite <-testbit_le_Z, Nat2Z.inj_add.
  - by rewrite Z.mod_pow2_bits_high by lia.
Qed.

(** ** Accessors *)

(** What bindgen generates for one C bit field: [f], [set_f], [f_raw] and
    [set_f_raw] on the bits [bf_offset, bf_offset + bf_width) of the unit, with
    a value of [bf_bits] bits. *)
Record Bitfield := {
  bf_name : string;
  bf_offset : nat;
  bf_width : nat;
  bf_bits : nat
}.

(** [_bitfield_N : __BindgenBitfieldUnit<[u8; bu_size]>] and its fields. *)
Record BitUnit := { bu_size : nat; bu_fields : list Bitfield }.

#[export] Instance Bitfield_eq_dec : EqDecision Bitfield.
Proof. solve_decision. Defined.
#[export] Instance BitUnit_eq_dec : EqDecision BitUnit.
Proof. solve_decision. Defined.

Section Accessors.
Context (big_endian : bool) {E : Type}.

(** [transmute(self._bitfield_1.get(offset, width) as uN)] *)
Definition bf_get (f : Bitfield) (storage : list byte) : outcome E Z :=
  let? v := get big_endian storage (bf_offset f) (bf_width f) in
  Ok (wrap (Z.of_nat (bf_bits f)) v).

Definition bf_set (f : Bitfield) (val : Z) : prog (list byte) E unit :=
  set big_endian (bf_offset f) (bf_width f) val.

Definition bf_get_raw (f : Bitfield) (size : nat) (mem : list byte) (this : nat) : outcome E Z :=
  let? v := raw_get big_endian mem this size (bf_offset f) (bf_width f) in
  Ok (wrap (Z.of_nat (bf_bits f)) v).

Definition bf_set_raw (f : Bitfield) (size this : nat) (val : Z) : prog (list byte) E unit :=
  raw_set big_endian this size (bf_offset f) (bf_width f) val.

(** The sequence of [set]s of [new_bitfield_N]. *)
Fixpoint set_all (fs : list Bitfield) (vals : list Z) : prog (list byte) E unit :=
  match fs, vals with
  | f :: fs, v :: vals => do! bf_set f v in set_all fs vals
  | _, _ => ret tt
  end.

Definition new_bitfield (u : BitUnit) (vals : list Z) : outcome E (list byte) :=
  let '(storage, r) := set_all (bu_fields u) vals (replicate (bu_size u) x00) in
  let? _ := r in Ok storage.

(** Fields in ascending order that do not overlap, inside the unit, each no
    wider than the integer that carries it. *)
Fixpoint fields_ok (size lo : nat) (fs : list Bitfield) : bool :=
  match fs with
  | [] => true
  | f :: fs =>
      (lo <=? bf_offset f)%nat && (1 <=? bf_width f)%nat && (bf_width f <=? bf_bits f)%nat &&
      (bf_bits f <=? 64)%nat && (bf_offset f + bf_width f <=? 8 * size)%nat &&
      fields_ok size (bf_offset f + bf_width f) fs
  end.

Definition unit_ok (u : BitUnit) : bool :=
  (bu_size u <=? 1024)%nat && fields_ok (bu_size u) 0 (bu_fields u).

Definition field_ok (size : nat) (f : Bitfield) : Prop :=
  in_unit size (bf_offset f) (bf_width f) /\ (bf_width f <= bf_bits f)%nat.

Lemma fields_ok_spec size fs : forall lo,
  (size <= 1024)%nat -> fields_ok size lo fs = true ->
  Forall (fun f => field_ok size f /\ (lo <= bf_offset f)%nat) fs.
Proof.
  induction fs as [|f fs IH]; intros lo Hsize Hok; [constructor|]. cbn [fields_ok] in Hok.
  repeat (apply andb_true_iff in Hok as [Hok ?]). bools. constructor.
  - split; [|done]. split; [|done]. unfold in_unit, usize_max. lia.
  - eapply Forall_impl; [by apply IH|]. intros g [Hg Hlo]. cbv beta in *. split; [done|]. lia.
Qed.

Lemma bf_get_ok f st :
  field_ok (length st) f ->
  bf_get f st = Ok (field_bits big_endian st (bf_offset f) (bf_width f)).
Proof.
  intros [Hin Hw]. unfold bf_get. rewrite get_ok by done. cbn [obind]. f_equal. unfold wrap.
  apply Z.mod_small. pose proof (of_bits_range (fun k => bit big_endian st
    (pos big_endian (bf_width f) k + bf_offset f)) (bf_width f)) as Hr.
  unfold field_bits. split; [lia|]. eapply Z.lt_le_trans; [apply Hr|].
  apply Z.pow_le_mono_r; lia.
Qed.

Lemma fields_ok_disjoint size fs : forall lo i j f g,
  (size <= 1024)%nat -> fields_ok size lo fs = true -> (i < j)%nat ->
  fs !! i = Some f -> fs !! j = Some g -> (bf_offset f + bf_width f <= bf_offset g)%nat.
Proof.
  induction fs as [|f0 fs IH]; intros lo i j f g Hsize Hok Hij Hf Hg; [done|].
  cbn [fields_ok] in Hok. apply andb_true_iff in Hok as [_ Hok].
  destruct j as [|j]; [lia|]. cbn [lookup list_lookup] in Hg.
  destruct i as [|i]; [|apply (IH _ i j f g Hsize Hok); [lia|done|done]].
  injection Hf as ->. pose proof (fields_ok_spec _ _ _ Hsize Hok) as Hfs.
  rewrite Forall_lookup in Hfs. by destruct (Hfs j g Hg).
Qed.

(** Setting the fields of a list: each then holds the low bits of its value
    and all bits before the first field are kept. *)
Lemma set_all_ok size fs : forall lo vals st,
  (size <= 1024)%nat -> fields_ok size lo fs = true -> length vals = length fs ->
  length st = size ->
  exists st', set_all fs vals st = (st', Ok tt) /\ length st' = size /\
    (forall off w, in_unit size off w -> (off + w <= lo)%nat ->
       field_bits big_endian st' off w = field_bits big_endian st off w) /\
    forall i f v, fs !! i = Some f -> vals !! i = Some v ->
      field_bits big_endian st' (bf_offset f) (bf_width f) = v mod 2 ^ Z.of_nat (bf_width f).
Proof.
  induction fs as [|f fs IH]; intros lo vals st Hsize Hok Hlen Hst.
  { destruct vals; [|done]. by exists st. }
  destruct vals as [|v vals]; [done|]. injection Hlen as Hlen.
  pose proof (fields_ok_spec _ _ _ Hsize Hok) as Hfs. apply Forall_cons in Hfs as [[Hf Hlo] _].
  cbn [fields_ok] in Hok. apply andb_true_iff in Hok as [_ Hok].
  destruct Hf as [Hin _]. rewrite <-Hst in Hin.
  destruct (set_ok big_endian (E := E) st (bf_offset f) (bf_width f) v Hin) as (st1 & H1 & Hl1 & _).
  destruct (IH _ vals st1 Hsize Hok Hlen) as (st' & H2 & Hl2 & Hkeep & Hget); [congruence|].
  exists st'. cbn [set_all]. split; [erewrite bind_run by exact H1; exact H2|].
  split; [done|]. rewrite Hst in Hin. split.
  - intros off w Hoff Hle. rewrite Hkeep by (done || lia).
    apply (field_bits_other big_endian (E := E) st st1 (bf_offset f) (bf_width f) v);
      rewrite ?Hst; try done. right. lia.
  - intros [|i] g x Hg Hx; [|by apply (Hget i)]. injection Hg as <-. injection Hx as <-.
    rewrite Hkeep by (done || lia).
    by apply (field_bits_set big_endian (E := E) st st1); rewrite ?Hst.
Qed.
(** What [unit_ok] means for the fields of a unit. *)
Lemma unit_field_ok u i f :
  unit_ok u = true -> bu_fields u !! i = Some f -> field_ok (bu_size u) f.
Proof.
  intros Hu Hf. unfold unit_ok in Hu. apply andb_true_iff in Hu as [Hsize Hok]. bools.
  pose proof (fields_ok_spec _ _ _ Hsize Hok) as Hfs. rewrite Forall_lookup in Hfs.
  by destruct (Hfs i f Hf).
Qed.

Lemma unit_disjoint u i j f g :
  unit_ok u = true -> i <> j -> bu_fields u !! i = Some f -> bu_fields u !! j = Some g ->
  disjoint_fields (bf_offset f) (bf_width f) (bf_offset g) (bf_width g).
Proof.
  intros Hu Hij Hf Hg. unfold unit_ok in Hu. apply andb_true_iff in Hu as [Hsize Hok]. bools.
  unfold disjoint_fields. destruct (Nat.lt_gt_cases i j) as [Hc _].
  destruct (Hc Hij); [left|right]; by eapply fields_ok_disjoint.
Qed.
End Accessors.

(** ** Properties *)

Section Properties.
Context (big_endian : bool) {E : Type}.

Lemma bf_set_spec f g val st :
  field_ok (length st) f -> field_ok (length st) g ->
  exists st', bf_set big_endian (E := E) f val st = (st', Ok tt) /\
    length st' = length st /\
    bf_get big_endian (E := E) f st' = Ok (val mod 2 ^ Z.of_nat (bf_width f)) /\
    (disjoint_fields (bf_offset f) (bf_width f) (bf_offset g) (bf_width g) ->
     bf_get big_endian (E := E) g st' = bf_get big_endian (E := E) g st).
Proof.
  intros Hf Hg.
  destruct (set_ok big_endian (E := E) st (bf_offset f) (bf_width f) val (proj1 Hf))
    as (st' & Hs & Hl & _).
  exists st'. split; [exact Hs|]. split; [done|]. split.
  - rewrite bf_get_ok by (by rewrite Hl). f_equal. eapply field_bits_set; [apply Hf|exact Hs].
  - intros Hd. rewrite !bf_get_ok by (by rewrite ?Hl). f_equal.
    eapply field_bits_other; [apply Hf|apply Hg|exact Hd|exact Hs].
Qed.

(** The accessors through a raw pointer do to the unit in memory what the
    ones by reference do to the unit, faults included, and touch nothing
    else. *)
Theorem raw_accessors_agree f mem this size val :
  (this + size <= length mem)%nat ->
  bf_get_raw big_endian (E := E) f size mem this = bf_get big_endian f (read this size mem) /\
  bf_set_raw big_endian (E := E) f size this val mem =
  (let '(st, r) := bf_set big_endian f val (read this size mem) in (put this st mem, r)).
Proof.
  intros Hm. unfold bf_get_raw, bf_get, bf_set_raw, bf_set.
  split; [by rewrite raw_get_eq|by apply raw_set_eq].
Qed.

(** [get] succeeds exactly when the field has at most 64 bits and lies in
    the unit; its three asserts alone would let a field run past the last
    byte, and then the assert of [get_bit] panics. *)
Theorem get_succeeds_iff st off w :
  (1 <= w)%nat -> Z.of_nat (off + w) <= usize_max -> Z.of_nat (8 * length st) <= usize_max ->
  (exists v, get big_endian (E := E) st off w = Ok v) <->
  (w <= 64)%nat /\ (off + w <= 8 * length st)%nat.
Proof.
  intros Hw Hmax Hlen. split; [by apply get_ok_range|].
  intros [H1 H2]. eexists. apply get_ok. unfold in_unit. lia.
Qed.

Lemma new_bitfield_values u vals :
  unit_ok u = true -> length vals = length (bu_fields u) ->
  exists st, new_bitfield big_endian (E := E) u vals = Ok st /\ length st = bu_size u /\
    forall i f v, bu_fields u !! i = Some f -> vals !! i = Some v ->
      bf_get big_endian (E := E) f st = Ok (v mod 2 ^ Z.of_nat (bf_width f)).
Proof.
  intros Hu Hlen. unfold unit_ok in Hu. apply andb_true_iff in Hu as [Hsize Hok]. bools.
  destruct (set_all_ok big_endian (E := E) (bu_size u) (bu_fields u) 0 vals
    (replicate (bu_size u) x00) Hsize Hok Hlen) as (st & Hs & Hl & _ & Hget);
    [apply length_replicate|].
  exists st. unfold new_bitfield. rewrite Hs. split; [done|]. split; [done|].
  intros i f v Hf Hv. pose proof (fields_ok_spec _ _ _ Hsize Hok) as Hfs.
  rewrite Forall_lookup in Hfs. destruct (Hfs i f Hf) as [Hfok _].
  rewrite bf_get_ok by (by rewrite Hl). f_equal. by apply (Hget i).
Qed.
End Properties.

(** C40: on the little-endian target [get] is a shift and a mask of the unit
    read as one little-endian integer. *)
Theorem get_little_endian {E} st off w :
  in_unit (length st) off w ->
  get false (E := E) st off w = Ok (le_Z st / 2 ^ Z.of_nat off mod 2 ^ Z.of_nat w).
Proof. intros Hin. rewrite get_ok by done. by rewrite field_bits_le. Qed.

(** ** Witnesses *)

Definition example_field (off w : nat) : Bitfield :=
  {| bf_name := "f"; bf_offset := off; bf_width := w; bf_bits := 8 |}.

Lemma raw_accessors_agree_witness :
  bf_get_raw true (E := unit) (example_field 2 4) 1 [x00; x3c; x00] 1 = Ok 15.
Proof.
  rewrite (proj1 (raw_accessors_agree true (example_field 2 4) [x00; x3c; x00] 1 1 0
    ltac:(simpl; lia))).
  reflexivity.
Defined.

Lemma get_succeeds_iff_witness : exists v, get false (E := unit) [xff; x01] 4 5 = Ok v.
Proof. apply get_succeeds_iff; unfold usize_max; simpl; lia. Defined.

Lemma get_little_endian_witness : get false (E := unit) [xff; x01] 4 5 = Ok 31.
Proof.
  rewrite get_little_endian; [reflexivity|]. repeat split; unfold usize_max; simpl; lia.
Defined.
