(* ===== verification/Proto.v ===== *)
(** * The [DnsResponse] message

    [src/proto/network_event.proto]: the record prost generates for the
    message, its [Default] (every field empty or zero) and one field update
    per field that the parser writes. *)

From Stdlib Require Import Strings.Byte ZArith.
From stdpp Require Import base list.
From S2P Require Import Prelude.

Local Open Scope Z_scope.

(** [string] fields are Rust [String]s, [bytes] fields [Vec<u8>]s. *)
Record DnsResponse := {
  src_ip : list byte;
  dst_ip : list byte;
  src_port : Z;
  dst_port : Z;
  timestamp_ns : Z;
  domain_name : list byte;
  resolved_ip : list byte;
  resolved_ip_raw : list byte;
  ip_family : Z
}.

#[export] Instance DnsResponse_eq_dec : EqDecision DnsResponse.
Proof. solve_decision. Defined.

Definition DnsResponse_default : DnsResponse :=
  {| src_ip := []; dst_ip := []; src_port := 0; dst_port := 0; timestamp_ns := 0;
     domain_name := []; resolved_ip := []; resolved_ip_raw := []; ip_family := 0 |}.

Definition set_src_ip v (r : DnsResponse) :=
  {| src_ip := v; dst_ip := dst_ip r; src_port := src_port r; dst_port := dst_port r;
     timestamp_ns := timestamp_ns r; domain_name := domain_name r;
     resolved_ip := resolved_ip r; resolved_ip_raw := resolved_ip_raw r;
     ip_family := ip_family r |}.
Definition set_dst_ip v (r : DnsResponse) :=
  {| src_ip := src_ip r; dst_ip := v; src_port := src_port r; dst_port := dst_port r;
     timestamp_ns := timestamp_ns r; domain_name := domain_name r;
     resolved_ip := resolved_ip r; resolved_ip_raw := resolved_ip_raw r;
     ip_family := ip_family r |}.
Definition set_src_port v (r : DnsResponse) :=
  {| src_ip := src_ip r; dst_ip := dst_ip r; src_port := v; dst_port := dst_port r;
     timestamp_ns := timestamp_ns r; domain_name := domain_name r;
     resolved_ip := resolved_ip r; resolved_ip_raw := resolved_ip_raw r;
     ip_family := ip_family r |}.
Definition set_dst_port v (r : DnsResponse) :=
  {| src_ip := src_ip r; dst_ip := dst_ip r; src_port := src_port r; dst_port := v;
     timestamp_ns := timestamp_ns r; domain_name := domain_name r;
     resolved_ip := resolved_ip r; resolved_ip_raw := resolved_ip_raw r;
     ip_family := ip_family r |}.
Definition set_timestamp_ns v (r : DnsResponse) :=
  {| src_ip := src_ip r; dst_ip := dst_ip r; src_port := src_port r; dst_port := dst_port r;
     timestamp_ns := v; domain_name := domain_name r;
     resolved_ip := resolved_ip r; resolved_ip_raw := resolved_ip_raw r;
     ip_family := ip_family r |}.
Definition set_domain_name v (r : DnsResponse) :=
  {| src_ip := src_ip r; dst_ip := dst_ip r; src_port := src_port r; dst_port := dst_port r;
     timestamp_ns := timestamp_ns r; domain_name := v;
     resolved_ip := resolved_ip r; resolved_ip_raw := resolved_ip_raw r;
     ip_family := ip_family r |}.
Definition set_resolved_ip v (r : DnsResponse) :=
  {| src_ip := src_ip r; dst_ip := dst_ip r; src_port := src_port r; dst_port := dst_port r;
     timestamp_ns := timestamp_ns r; domain_name := domain_name r;
     resolved_ip := v; resolved_ip_raw := resolved_ip_raw r;
     ip_family := ip_family r |}.
Definition set_resolved_ip_raw v (r : DnsResponse) :=
  {| src_ip := src_ip r; dst_ip := dst_ip r; src_port := src_port r; dst_port := dst_port r;
     timestamp_ns := timestamp_ns r; domain_name := domain_name r;
     resolved_ip := resolved_ip r; resolved_ip_raw := v;
     ip_family := ip_family r |}.
Definition set_ip_family v (r : DnsResponse) :=
  {| src_ip := src_ip r; dst_ip := dst_ip r; src_port := src_port r; dst_port := dst_port r;
     timestamp_ns := timestamp_ns r; domain_name := domain_name r;
     resolved_ip := resolved_ip r; resolved_ip_raw := resolved_ip_raw r;
     ip_family := v |}.
