(* ===== verification/Parser.v ===== *)
(** * The DNS wire parser

    [src/cilium-mini-rs/src/parser.rs]: every function of the file, with its
    early returns in the order of the code.  Slices and [usize] additions are
    checked ([Fault] is a Rust panic); the [while] loops run on fuel and
    running out of it is a fault too, so "does not fault" includes
    termination.  The log macros are not modelled. *)

From Stdlib Require Import Strings.Byte NArith ZArith Lia.
From stdpp Require Import base tactics numbers list strings.
From S2P Require Import Prelude RustStd Common Proto.

Local Open Scope Z_scope.

(** ** Errors *)

Inductive DnsParseError :=
  | UnexpectedEndOfPayload
  | InvalidLabelLength (len : nat)
  | LabelExceedsMaxLen
  | NonAsciiDomainName
  | UnsupportedAddressFamily (af : Z)
  | FormatError.

#[export] Instance DnsParseError_eq_dec : EqDecision DnsParseError.
Proof. solve_decision. Defined.

(** [impl fmt::Display for DnsParseError] *)
Definition DnsParseError_fmt (e : DnsParseError) : list byte :=
  match e with
  | UnexpectedEndOfPayload => bytes_of "Unexpected end of DNS payload (truncated packet)"
  | InvalidLabelLength len =>
      bytes_of "Invalid label length: " ++ dec (Z.of_nat len) ++ bytes_of " (> 63)"
  | LabelExceedsMaxLen => bytes_of "Label exceeds maximum domain length (255)"
  | NonAsciiDomainName => bytes_of "Non-ASCII character in domain name"
  | UnsupportedAddressFamily af => bytes_of "Unsupported address family: " ++ dec af
  | FormatError => bytes_of "Failed to format IP address string"
  end.

(** ** The DNS header *)

Record DnsHdr := {
  transaction_id : Z;
  flags : Z;
  questions : Z;
  answer_rrs : Z;
  authority_rrs : Z;
  additional_rrs : Z
}.

(** [DnsHdr::LEN = mem::size_of::<Self>()] *)
Definition DnsHdr_LEN : nat :=
  size_of (CStruct 1 [("transaction_id", CU16); ("flags", CU16); ("questions", CU16);
                      ("answer_rrs", CU16); ("authority_rrs", CU16);
                      ("additional_rrs", CU16)]%string).

(** [u16::from_be_bytes([l[i], l[i + 1]])] *)
Definition u16_at (l : list byte) (i : nat) : outcome DnsParseError Z :=
  let? hi := index l i in
  let? j := uadd i 1 in
  let? lo := index l j in
  Ok (be_Z [hi; lo]).

Definition DnsHdr_from (payload : list byte) : outcome DnsParseError DnsHdr :=
  if (length payload <? DnsHdr_LEN)%nat then Err UnexpectedEndOfPayload
  else
    let? transaction_id := u16_at payload 0 in
    let? flags := u16_at payload 2 in
    let? questions := u16_at payload 4 in
    let? answer_rrs := u16_at payload 6 in
    let? authority_rrs := u16_at payload 8 in
    let? additional_rrs := u16_at payload 10 in
    Ok {| transaction_id := transaction_id; flags := flags; questions := questions;
          answer_rrs := answer_rrs; authority_rrs := authority_rrs;
          additional_rrs := additional_rrs |}.

(** ** Record types *)

Inductive RecordType :=
  | RT_A
  | RT_CNAME
  | RT_AAAA
  | RT_UNSUPPORTED (other : Z).

(** [impl TryFrom<u16> for RecordType] *)
Definition RecordType_try_from (val : Z) : outcome DnsParseError RecordType :=
  if val =? 1 then Ok RT_A
  else if val =? 5 then Ok RT_CNAME
  else if val =? 28 then Ok RT_AAAA
  else Ok (RT_UNSUPPORTED val).

(** ** The slot *)

Definition reset_slot (slot : DnsResponse) : DnsResponse :=
  let slot := set_src_ip [] slot in
  let slot := set_dst_ip [] slot in
  let slot := set_domain_name [] slot in
  let slot := set_resolved_ip [] slot in
  let slot := set_resolved_ip_raw [] slot in
  let slot := set_src_port 0 slot in
  let slot := set_dst_port 0 slot in
  let slot := set_ip_family 0 slot in
  set_timestamp_ns 0 slot.

(** [write!(out, ...).map_err(|_| FormatError)] *)
Definition write_fmt (text : list byte) : prog (list byte) DnsParseError unit :=
  prog_map_err (write_str text) FormatError.

(** ** Addresses *)

Definition parse_ip (raw_ip : RawIpAddr) : prog (list byte) DnsParseError unit :=
  if family raw_ip =? AF_INET then
    let! b0 := lift (index (bytes raw_ip) 0) in
    let! b1 := lift (index (bytes raw_ip) 1) in
    let! b2 := lift (index (bytes raw_ip) 2) in
    let! b3 := lift (index (bytes raw_ip) 3) in
    do! write_fmt (ipv4_display b0 b1 b2 b3) in
    ret tt
  else if family raw_ip =? AF_INET6 then
    do! write_fmt (ipv6_display (bytes raw_ip)) in
    ret tt
  else throw (UnsupportedAddressFamily (family raw_ip)).

(** ** QNAME *)

(** [while offset < payload.len() { ... } Err(UnexpectedEndOfPayload)] *)
Fixpoint parse_qname_loop (fuel : nat) (payload : list byte)
    (offset total_domain_len : nat) : prog (list byte) DnsParseError nat :=
  match fuel with
  | O => crash OutOfFuel
  | S fuel =>
    if (offset <? length payload)%nat then
      let! b := lift (index payload offset) in
      let label_len := usize_of_u8 b in
      if (label_len =? 0)%nat then lift (uadd offset 1)
      else if (63 <? label_len)%nat then throw (InvalidLabelLength label_len)
      else
      let! label_start := lift (uadd offset 1) in
      let! label_end := lift (uadd label_start label_len) in
      if (length payload <? label_end)%nat then throw UnexpectedEndOfPayload
      else
      let! added := lift (uadd label_len 1) in
      let! total_domain_len := lift (uadd total_domain_len added) in
      if (255 <? total_domain_len)%nat then throw LabelExceedsMaxLen
      else
      let! label_bytes := lift (slice_range payload label_start label_end) in
      if negb (is_ascii label_bytes) then throw NonAsciiDomainName
      else
      let! out := gets id in
      do! (if bool_decide (out = []) then ret tt
           else modify (fun out => out ++ [dot])) in
      let! label_str := lift (map_err (from_utf8 label_bytes) NonAsciiDomainName) in
      do! modify (fun out => out ++ label_str) in
      parse_qname_loop fuel payload label_end total_domain_len
    else throw UnexpectedEndOfPayload
  end.

Definition parse_qname (payload : list byte) : prog (list byte) DnsParseError nat :=
  if bool_decide (payload = []) then throw UnexpectedEndOfPayload
  else parse_qname_loop (S (length payload)) payload 0 0.

(** ** Answer records *)

Definition COMPRESSION_MASK : Z := 192.

Fixpoint skip_name_loop (fuel : nat) (payload : list byte) (offset : nat)
    : outcome DnsParseError nat :=
  match fuel with
  | O => Fault OutOfFuel
  | S fuel =>
    if (offset <? length payload)%nat then
      let? b := index payload offset in
      if Z.land (u8 b) COMPRESSION_MASK =? COMPRESSION_MASK then
        let? next := uadd offset 2 in
        if (length payload <? next)%nat then Err UnexpectedEndOfPayload
        else uadd offset 2
      else if u8 b =? 0 then uadd offset 1
      else if u8 b <=? 63 then
        let label_len := usize_of_u8 b in
        let? o := uadd offset 1 in
        let? next_offset := uadd o label_len in
        if (length payload <? next_offset)%nat then Err UnexpectedEndOfPayload
        else skip_name_loop fuel payload next_offset
      else Err (InvalidLabelLength (usize_of_u8 b))
    else Err UnexpectedEndOfPayload
  end.

Definition skip_name (payload : list byte) : outcome DnsParseError nat :=
  skip_name_loop (S (length payload)) payload 0.

Definition RR_FIXED_HDR_LEN : nat := 10.

(** The [match rtype] of one answer record. *)
Definition parse_rr_data (rtype : RecordType) (rdlength : nat) (rdata : list byte)
    : prog DnsResponse DnsParseError unit :=
  match rtype with
  | RT_A =>
      if negb (rdlength =? 4)%nat then throw UnexpectedEndOfPayload
      else
      let! b0 := lift (index rdata 0) in
      let! b1 := lift (index rdata 1) in
      let! b2 := lift (index rdata 2) in
      let! b3 := lift (index rdata 3) in
      do! zoom resolved_ip set_resolved_ip (write_fmt (ipv4_display b0 b1 b2 b3)) in
      let! head := lift (slice_to rdata 4) in
      do! modify (fun slot => set_resolved_ip_raw (resolved_ip_raw slot ++ head) slot) in
      modify (set_ip_family AF_INET)
  | RT_AAAA =>
      if negb (rdlength =? 16)%nat then throw UnexpectedEndOfPayload
      else
      (* copy_from_slice panics on a length mismatch *)
      let! octets := (if (length rdata =? 16)%nat then ret rdata else crash SliceIndex) in
      do! zoom resolved_ip set_resolved_ip (write_fmt (ipv6_display octets)) in
      do! modify (fun slot => set_resolved_ip_raw (resolved_ip_raw slot ++ octets) slot) in
      modify (set_ip_family AF_INET6)
  | RT_CNAME => ret tt
  | RT_UNSUPPORTED _ => ret tt
  end.

(** [for _ in 0..anscount { ... }]: [n] is the number of iterations left. *)
Fixpoint parse_rdata_loop (n : nat) (payload : list byte) (offset : nat)
    : prog DnsResponse DnsParseError unit :=
  match n with
  | O => ret tt
  | S n =>
    if (length payload <=? offset)%nat then throw UnexpectedEndOfPayload
    else
    let! rest := lift (slice_from payload offset) in
    let! offset := lift (skip_name rest) in
    let! fixed_end := lift (uadd offset RR_FIXED_HDR_LEN) in
    if (length payload <? fixed_end)%nat then throw UnexpectedEndOfPayload
    else
    let! rtype_val := lift (u16_at payload offset) in
    let! rtype := lift (RecordType_try_from rtype_val) in
    let! o8 := lift (uadd offset 8) in
    let! rdlength_val := lift (u16_at payload o8) in
    let rdlength := Z.to_nat rdlength_val in
    let! offset := lift (uadd offset RR_FIXED_HDR_LEN) in
    let! data_end := lift (uadd offset rdlength) in
    if (length payload <? data_end)%nat then throw UnexpectedEndOfPayload
    else
    let! rdata := lift (slice_range payload offset data_end) in
    do! parse_rr_data rtype rdlength rdata in
    let! offset := lift (uadd offset rdlength) in
    parse_rdata_loop n payload offset
  end.

Definition parse_rdata (payload : list byte) (anscount : Z)
    : prog DnsResponse DnsParseError unit :=
  if bool_decide (payload = []) then throw UnexpectedEndOfPayload
  else parse_rdata_loop (Z.to_nat anscount) payload 0.

(** ** The entry point *)

Definition parse_dns_into (raw_event : RawDnsEvent) : prog DnsResponse DnsParseError unit :=
  do! modify reset_slot in
  do! zoom src_ip set_src_ip (parse_ip (ev_src_ip raw_event)) in
  do! zoom dst_ip set_dst_ip (parse_ip (ev_dst_ip raw_event)) in
  do! modify (set_src_port (ev_src_port raw_event)) in
  do! modify (set_dst_port (ev_dst_port raw_event)) in
  do! modify (set_timestamp_ns (ev_timestamp_ns raw_event)) in
  let total_len := Z.to_nat (payload_len raw_event) in
  if (total_len <? DnsHdr_LEN)%nat then throw UnexpectedEndOfPayload
  else
  let! dns_payload := lift (slice_to (payload raw_event) total_len) in
  let! qname_payload := lift (slice_from dns_payload DnsHdr_LEN) in
  let! qname_len := zoom domain_name set_domain_name (parse_qname qname_payload) in
  let! hdr := lift (DnsHdr_from dns_payload) in
  let anscount := answer_rrs hdr in
  let! o := lift (uadd DnsHdr_LEN qname_len) in
  let! rdata_offset := lift (uadd o 4) in
  if (total_len <? rdata_offset)%nat then throw UnexpectedEndOfPayload
  else
  let! rdata_payload := lift (slice_from dns_payload rdata_offset) in
  do! parse_rdata rdata_payload anscount in
  ret tt.

(** ** Automation *)

Lemma runs_write_fmt text out (Q : list byte -> unit -> Prop) R :
  Q (out ++ text) tt -> runs (write_fmt text) out Q R.
Proof. done. Qed.

(** [run_step] extended to the formatting of this file. *)
Ltac parser_step := first [apply runs_write_fmt | run_step].
