(* ===== verification/Names.v ===== *)
(** * Domain names on the wire

    A reference encoder for label sequences and the correctness of the two
    name readers of [parser.rs] against it: [parse_qname], which decodes the
    question name, and [skip_name], which measures an answer name. *)

From Stdlib Require Import Strings.Byte NArith ZArith Lia.
From stdpp Require Import base tactics numbers list strings.
From S2P Require Import Prelude RustStd Common Proto Parser.

Local Open Scope Z_scope.

(** ** Reference encoding (RFC 1035, 3.1) *)

(** A label is preceded by its length. *)
Definition encode_label (l : list byte) : list byte :=
  byte_of_Z (Z.of_nat (length l)) :: l.

Definition encode_labels (ls : list (list byte)) : list byte := concat (encode_label <$> ls).

(** A name ends with the root's empty label. *)
Definition encode_name (ls : list (list byte)) : list byte := encode_labels ls ++ [x00].

(** Labels a resolver may send: 1 to 63 bytes. *)
Definition label_ok (l : list byte) : Prop := (1 <= length l <= 63)%nat.

(** Labels [parse_qname] accepts. *)
Definition qlabel_ok (l : list byte) : Prop := label_ok l /\ is_ascii l = true.

(** The text of a name: its labels separated by dots. *)
Fixpoint join_dots (ls : list (list byte)) : list byte :=
  match ls with
  | [] => []
  | [l] => l
  | l :: ls => l ++ dot :: join_dots ls
  end.

(** One iteration's effect on the output string. *)
Definition push_label (out l : list byte) : list byte :=
  (if bool_decide (out = []) then out else out ++ [dot]) ++ l.

(** Why reading stops after [used] bytes of labels, at the bytes [rest]. *)
Inductive name_end (used : nat) : list byte -> outcome DnsParseError unit -> Prop :=
  | end_root rest : name_end used (x00 :: rest) (Ok tt)
  | end_cut : name_end used [] (Err UnexpectedEndOfPayload)
  | end_long_label b rest :
      (63 < usize_of_u8 b)%nat ->
      name_end used (b :: rest) (Err (InvalidLabelLength (usize_of_u8 b)))
  | end_cut_label b rest :
      (1 <= usize_of_u8 b <= 63)%nat -> (length rest < usize_of_u8 b)%nat ->
      name_end used (b :: rest) (Err UnexpectedEndOfPayload)
  | end_too_long l rest :
      label_ok l -> (255 < used + S (length l))%nat ->
      name_end used (encode_label l ++ rest) (Err LabelExceedsMaxLen)
  | end_non_ascii l rest :
      label_ok l -> (used + S (length l) <= 255)%nat -> is_ascii l = false ->
      name_end used (encode_label l ++ rest) (Err NonAsciiDomainName).

(** ** Helper lemmas *)

Lemma usize_of_byte_of_Z n : (n < 256)%nat -> usize_of_u8 (byte_of_Z (Z.of_nat n)) = n.
Proof.
  intros. apply Nat2Z.inj. rewrite usize_of_u8_Z, u8_byte_of_Z, Z.mod_small; lia.
Qed.

Lemma usize_of_u8_0 b : usize_of_u8 b = 0%nat -> b = x00.
Proof. intros H. by apply usize_of_u8_inj. Qed.

Lemma encode_label_app l rest :
  encode_label l ++ rest = byte_of_Z (Z.of_nat (length l)) :: (l ++ rest).
Proof. done. Qed.

Lemma encode_labels_cons l ls : encode_labels (l :: ls) = encode_label l ++ encode_labels ls.
Proof. done. Qed.

Lemma encode_labels_snoc ls l : encode_labels (ls ++ [l]) = encode_labels ls ++ encode_label l.
Proof. unfold encode_labels. rewrite fmap_app, concat_app. simpl. by rewrite app_nil_r. Qed.

Lemma length_encode_label l : length (encode_label l) = S (length l).
Proof. done. Qed.

Lemma length_encode_name ls : length (encode_name ls) = S (length (encode_labels ls)).
Proof. unfold encode_name. len_lia. Qed.

#[export] Hint Rewrite length_encode_label length_encode_name : rust.

(** The label count is below the encoded length, so fuel is enough. *)
Lemma length_labels_le ls : (length ls <= length (encode_labels ls))%nat.
Proof.
  induction ls as [|l ls IH]; [done|]. rewrite encode_labels_cons. len_lia.
Qed.

(** A suffix that starts with a length byte. *)
Lemma label_at payload off l rest :
  label_ok l -> drop off payload = encode_label l ++ rest ->
  (off + S (length l) <= length payload)%nat /\
  payload !! off = Some (byte_of_Z (Z.of_nat (length l))) /\
  take (off + 1 + length l - (off + 1)) (drop (off + 1) payload) = l /\
  drop (off + S (length l)) payload = rest.
Proof.
  intros Hl Hd.
  assert (Hlen : length payload = (off + length (encode_label l ++ rest))%nat)
    by (apply drop_length_eq; [done|len_lia]).
  pose proof (drop_tail _ _ _ _ _ Hd eq_refl) as Hrest.
  assert (H1 : drop (off + 1) payload = l ++ rest)
    by (apply (drop_tail payload off 1 [byte_of_Z (Z.of_nat (length l))]); done).
  split_and!; [len_lia| |by rewrite H1, take_app_length' by lia|done].
  by apply lookup_drop_head in Hd.
Qed.

Lemma push_label_join ls out :
  Forall label_ok ls -> out <> [] ->
  foldl push_label out ls = out ++ concat ((fun l => dot :: l) <$> ls).
Proof.
  intros Hls. revert out. induction Hls as [|l ls Hl _ IH]; intros out Hout; simpl.
  - by rewrite app_nil_r.
  - assert (Hp : push_label out l = out ++ dot :: l).
    { unfold push_label. rewrite bool_decide_eq_false_2 by done. by rewrite <-app_assoc. }
    rewrite Hp, IH by (by destruct out). by rewrite <-app_assoc.
Qed.

Lemma join_dots_cons l ls : join_dots (l :: ls) = l ++ concat ((fun l => dot :: l) <$> ls).
Proof.
  revert l. induction ls as [|l' ls IH]; intros l; [by rewrite app_nil_r|].
  change (join_dots (l :: l' :: ls)) with (l ++ dot :: join_dots (l' :: ls)).
  by rewrite IH.
Qed.

(** The loop's string is the dotted text of the name. *)
Lemma foldl_push_label ls : Forall label_ok ls -> foldl push_label [] ls = join_dots ls.
Proof.
  intros Hls. destruct Hls as [|l ls Hl Hls]; [done|].
  rewrite join_dots_cons. simpl. unfold push_label at 2. simpl.
  apply push_label_join; [done|]. destruct l; [unfold label_ok in Hl; simpl in Hl; lia|done].
Qed.

Lemma qlabel_label ls : Forall qlabel_ok ls -> Forall label_ok ls.
Proof. intros H. eapply Forall_impl; [done|]. by intros ? []. Qed.

(** ** [parse_qname] *)

Section Qname.
Context (payload : list byte).
Hypothesis Hsize : Z.of_nat (length payload) <= isize_max.

(** One iteration of the loop, without the checked operations. *)
Lemma qname_unfold fuel off used out b rest :
  drop off payload = b :: rest -> (used <= 255)%nat ->
  parse_qname_loop (S fuel) payload off used out =
  (let n := usize_of_u8 b in
   if (n =? 0)%nat then (out, Ok (off + 1)%nat)
   else if (63 <? n)%nat then (out, Err (InvalidLabelLength n))
   else if (length rest <? n)%nat then (out, Err UnexpectedEndOfPayload)
   else if (255 <? used + S n)%nat then (out, Err LabelExceedsMaxLen)
   else if is_ascii (take n rest) then
     parse_qname_loop fuel payload (off + S n) (used + S n) (push_label out (take n rest))
   else (out, Err NonAsciiDomainName)).
Proof.
  intros Hd Hused. assert (Hlen : length payload = (off + S (length rest))%nat)
    by (apply drop_length_eq in Hd; simpl in *; lia).
  pose proof (usize_of_u8_lt b) as Hb.
  cbn [parse_qname_loop]. rewrite (proj2 (Nat.ltb_lt _ _)) by lia.
  unfold bind, lift, gets, ret, modify.
  rewrite (index_ok _ _ _ (lookup_drop_head _ _ _ _ Hd)). cbv zeta.
  destruct (usize_of_u8 b =? 0)%nat; [by autorewrite with rust|].
  destruct (63 <? usize_of_u8 b)%nat; [done|].
  autorewrite with rust.
  replace (off + 1 + usize_of_u8 b)%nat with (off + S (usize_of_u8 b))%nat by lia.
  destruct (Nat.ltb_spec (length payload) (off + S (usize_of_u8 b)));
    destruct (Nat.ltb_spec (length rest) (usize_of_u8 b)); [done|lia|lia|].
  autorewrite with rust.
  replace (usize_of_u8 b + 1)%nat with (S (usize_of_u8 b)) by lia.
  destruct (255 <? used + S (usize_of_u8 b))%nat; [done|].
  autorewrite with rust.
  rewrite (drop_tail payload off 1 [b] rest) by done.
  replace (off + S (usize_of_u8 b) - (off + 1))%nat with (usize_of_u8 b) by lia.
  destruct (is_ascii _) eqn:Ha; [|done].
  rewrite from_utf8_ascii by done. cbn [negb map_err]. unfold push_label, id.
  by case_bool_decide.
Qed.

Lemma qname_unfold_end fuel off used out :
  drop off payload = [] ->
  parse_qname_loop (S fuel) payload off used out = (out, Err UnexpectedEndOfPayload).
Proof.
  intros Hd%(f_equal length). rewrite length_drop in Hd. cbn [parse_qname_loop].
  by rewrite (proj2 (Nat.ltb_ge _ _)) by (simpl in Hd; lia).
Qed.

(** One iteration over a well-formed label. *)
Lemma qname_step fuel off used out l rest :
  qlabel_ok l -> drop off payload = encode_label l ++ rest ->
  (used + S (length l) <= 255)%nat ->
  parse_qname_loop (S fuel) payload off used out =
  parse_qname_loop fuel payload (off + S (length l)) (used + S (length l)) (push_label out l).
Proof.
  intros [Hl Ha] Hd Hused. unfold label_ok in Hl. rewrite encode_label_app in Hd.
  rewrite (qname_unfold _ _ _ _ _ _ Hd) by lia. cbv zeta.
  rewrite usize_of_byte_of_Z by lia. rewrite take_app_length, Ha.
  rewrite (proj2 (Nat.eqb_neq _ _)), !(proj2 (Nat.ltb_ge _ _)) by len_lia. done.
Qed.

(** Running through a sequence of labels. *)
Lemma qname_labels ls : forall fuel off used out rest,
  Forall qlabel_ok ls -> drop off payload = encode_labels ls ++ rest ->
  (used + length (encode_labels ls) <= 255)%nat ->
  parse_qname_loop (length ls + fuel) payload off used out =
  parse_qname_loop fuel payload (off + length (encode_labels ls))
    (used + length (encode_labels ls)) (foldl push_label out ls).
Proof.
  induction ls as [|l ls IH]; intros fuel off used out rest Hls Hd Hused.
  - cbn [length encode_labels fmap list_fmap concat foldl Nat.add]. by rewrite !Nat.add_0_r.
  - apply Forall_cons in Hls as [Hl Hls].
    rewrite encode_labels_cons in *. rewrite <-app_assoc in Hd.
    cbn [length Nat.add foldl]. autorewrite with rust in *.
    rewrite (qname_step _ _ _ _ _ _ Hl Hd) by lia.
    rewrite (IH _ _ _ _ rest); [f_equal; lia|done| |lia].
    by eapply drop_tail.
Qed.

(** The iteration that stops. *)
Lemma qname_end fuel off used out rest r :
  name_end used rest r -> drop off payload = rest -> (used <= 255)%nat ->
  parse_qname_loop (S fuel) payload off used out =
  (out, obind r (fun _ => Ok (off + 1)%nat)).
Proof.
  intros Hend Hd Hused.
  destruct Hend as [rest| |b rest Hb|b rest Hb Hr|l rest Hl Hlong|l rest Hl Hshort Ha];
    [|by apply qname_unfold_end|..];
    rewrite ?encode_label_app in Hd;
    rewrite (qname_unfold _ _ _ _ _ _ Hd) by lia; cbv zeta; unfold label_ok in *;
    rewrite ?usize_of_byte_of_Z by lia; rewrite ?take_app_length.
  - done.
  - by rewrite (proj2 (Nat.eqb_neq _ _)), (proj2 (Nat.ltb_lt _ _)) by lia.
  - by rewrite (proj2 (Nat.eqb_neq _ _)), (proj2 (Nat.ltb_ge _ _)),
      (proj2 (Nat.ltb_lt _ _)) by lia.
  - rewrite (proj2 (Nat.eqb_neq _ _)), !(proj2 (Nat.ltb_ge _ _)) by len_lia.
    by rewrite (proj2 (Nat.ltb_lt _ _)) by lia.
  - rewrite (proj2 (Nat.eqb_neq _ _)), !(proj2 (Nat.ltb_ge _ _)) by len_lia. by rewrite Ha.
Qed.
End Qname.

(** The whole function on a decomposed input. *)
Lemma parse_qname_run ls rest r :
  Z.of_nat (length (encode_labels ls ++ rest)) <= isize_max ->
  Forall qlabel_ok ls -> (length (encode_labels ls) <= 255)%nat ->
  name_end (length (encode_labels ls)) rest r ->
  parse_qname (encode_labels ls ++ rest) [] =
  (join_dots ls, obind r (fun _ => Ok (length (encode_name ls)))).
Proof.
  intros Hsize Hls Hlen Hend. unfold parse_qname.
  case_bool_decide as Hnil.
  { apply app_nil in Hnil as [Hnil ->]. inversion Hend; subst.
    by destruct ls; [|rewrite encode_labels_cons in Hnil]. }
  set (p := encode_labels ls ++ rest) in *.
  assert (Hfuel : (S (length p) = length ls + S (length p - length ls))%nat).
  { pose proof (length_labels_le ls). subst p. len_lia. }
  rewrite Hfuel, (qname_labels p Hsize ls _ 0 0 [] rest) by done.
  rewrite (qname_end p Hsize _ _ _ _ rest r) by
    (done || by apply (drop_tail p 0 _ (encode_labels ls))).
  rewrite foldl_push_label by (by apply qlabel_label). f_equal.
  destruct r as [[]|e|f]; [|done..]. simpl. f_equal. len_lia.
Qed.

(** Every byte string is labels followed by a reason to stop. *)
Lemma name_decompose : forall n p used,
  (length p <= n)%nat -> (used <= 255)%nat ->
  exists ls rest r, Forall qlabel_ok ls /\ (used + length (encode_labels ls) <= 255)%nat /\
    p = encode_labels ls ++ rest /\ name_end (used + length (encode_labels ls)) rest r.
Proof.
  induction n as [|n IH]; intros p used Hn Hused.
  { destruct p; [|simpl in Hn; lia]. exists [], [], (Err UnexpectedEndOfPayload).
    split_and!; [done|simpl; lia|done|constructor]. }
  assert (Hstop : forall rest r, name_end used rest r -> exists ls rest' r',
    Forall qlabel_ok ls /\ (used + length (encode_labels ls) <= 255)%nat /\
    rest = encode_labels ls ++ rest' /\ name_end (used + length (encode_labels ls)) rest' r').
  { intros rest r Hr. exists [], rest, r. simpl. rewrite Nat.add_0_r. by split_and!. }
  destruct p as [|b p]; [eapply Hstop, end_cut|]. simpl in Hn.
  destruct (decide (usize_of_u8 b = 0%nat)) as [Hb0|Hb0].
  { rewrite (usize_of_u8_0 b Hb0). eapply Hstop, end_root. }
  destruct (decide (63 < usize_of_u8 b)%nat); [by eapply Hstop, end_long_label|].
  destruct (decide (length p < usize_of_u8 b)%nat).
  { eapply Hstop, end_cut_label; lia. }
  set (l := take (usize_of_u8 b) p) in *.
  assert (Hlen : length l = usize_of_u8 b) by (subst l; rewrite length_take; lia).
  assert (Hp : b :: p = encode_label l ++ drop (usize_of_u8 b) p).
  { rewrite encode_label_app, Hlen, usize_of_u8_Z, byte_of_Z_u8. subst l.
    by rewrite take_drop. }
  assert (Hl : label_ok l) by (unfold label_ok; lia).
  rewrite Hp.
  destruct (decide (255 < used + S (length l))%nat); [by eapply Hstop, end_too_long|].
  destruct (is_ascii l) eqn:Ha; [|eapply Hstop, end_non_ascii; [done|lia|done]].
  destruct (IH (drop (usize_of_u8 b) p) (used + S (length l))%nat)
    as (ls & rest & r & Hls & Hused' & Hrest & Hend); [rewrite length_drop; lia|lia|].
  exists (l :: ls), rest, r. rewrite encode_labels_cons. autorewrite with rust.
  rewrite Nat.add_assoc. split_and!; [by constructor|done| |done].
  by rewrite Hrest, <-app_assoc.
Qed.

Lemma parse_qname_run_name ls rest :
  Z.of_nat (length (encode_name ls ++ rest)) <= isize_max ->
  Forall qlabel_ok ls -> (length (encode_labels ls) <= 255)%nat ->
  parse_qname (encode_name ls ++ rest) [] = (join_dots ls, Ok (length (encode_name ls))).
Proof.
  unfold encode_name at 1 2. rewrite <-app_assoc. intros ? ? ?.
  by rewrite (parse_qname_run ls _ (Ok tt)) by (done || constructor).
Qed.

(** Reading a well-formed question name (labels of 1 to 63 ASCII bytes, at
    most 255 bytes of labels) yields its dotted text and consumes exactly the
    name, whatever follows it. *)
Theorem parse_qname_encode ls rest :
  Z.of_nat (length (encode_name ls ++ rest)) <= isize_max ->
  Forall qlabel_ok ls -> (length (encode_labels ls) <= 255)%nat ->
  parse_qname (encode_name ls ++ rest) [] = (join_dots ls, Ok (length (encode_name ls))).
Proof. apply parse_qname_run_name. Qed.

(** Inverting a call of [parse_qname]. *)
Lemma parse_qname_inv p out r :
  Z.of_nat (length p) <= isize_max -> parse_qname p [] = (out, r) ->
  exists ls rest r', Forall qlabel_ok ls /\ (length (encode_labels ls) <= 255)%nat /\
    p = encode_labels ls ++ rest /\ name_end (length (encode_labels ls)) rest r' /\
    out = join_dots ls /\ r = obind r' (fun _ => Ok (length (encode_name ls))).
Proof.
  intros Hsize Hp.
  destruct (name_decompose (length p) p 0) as (ls & rest & r' & ? & ? & -> & ?); [lia..|].
  exists ls, rest, r'. rewrite (parse_qname_run ls rest r') in Hp by done. by simplify_eq.
Qed.

(** Lengths of what an accepted name yields. *)
Lemma parse_qname_lengths p out n :
  Z.of_nat (length p) <= isize_max -> parse_qname p [] = (out, Ok n) ->
  (length out <= 254)%nat /\ (1 <= n <= 256)%nat /\ (n <= length p)%nat.
Proof.
  intros Hsize Hp. apply parse_qname_inv in Hp; [|done].
  destruct Hp as (ls & rest & r' & Hls & Hlen & -> & Hend & -> & Hr).
  inversion Hend; subst; simpl in Hr; try discriminate. injection Hr as ->.
  split_and!; [|len_lia..].
  destruct Hls as [|l ls Hl Hls]; [simpl; lia|].
  assert (Hc : forall ks : list (list byte),
    length (concat ((fun l => dot :: l) <$> ks)) = length (encode_labels ks)).
  { induction ks as [|k ks IH]; [done|]. rewrite encode_labels_cons. cbn. len_lia. }
  rewrite join_dots_cons, length_app, Hc. rewrite encode_labels_cons in Hlen. len_lia.
Qed.

(** C24: complete specification of [parse_qname] on every branch: its result
    is determined by how far the input is a sequence of acceptable labels and
    by what stops it there, and the output string always holds the labels read
    so far. *)
Theorem parse_qname_iff p out r :
  Z.of_nat (length p) <= isize_max ->
  parse_qname p [] = (out, r) <->
  exists ls rest r', Forall qlabel_ok ls /\ (length (encode_labels ls) <= 255)%nat /\
    p = encode_labels ls ++ rest /\ name_end (length (encode_labels ls)) rest r' /\
    out = join_dots ls /\ r = obind r' (fun _ => Ok (length (encode_name ls))).
Proof.
  intros Hsize. split; [by apply parse_qname_inv|].
  intros (ls & rest & r' & ? & ? & -> & ? & -> & ->). by apply parse_qname_run.
Qed.

(** An accepted name has a text of at most 254 characters but may take
    256 octets on the wire, one more than RFC 1035 allows: the limit of 255
    does not count the root's length byte. *)
Theorem parse_qname_bounds :
  (forall p out n, Z.of_nat (length p) <= isize_max -> parse_qname p [] = (out, Ok n) ->
    (length out <= 254)%nat /\ (1 <= n <= 256)%nat /\ (n <= length p)%nat) /\
  exists p out, length p = 256%nat /\ parse_qname p [] = (out, Ok 256%nat).
Proof.
  split; [apply parse_qname_lengths|].
  set (ls := replicate 3 (replicate 63 x61) ++ [replicate 62 x61]).
  exists (encode_name ls), (join_dots ls). split; [reflexivity|].
  vm_compute. reflexivity.
Qed.

(** ** [skip_name] *)

(** How a name in an answer record ends: the root, or a pointer of two bytes
    whose top two bits are set (RFC 1035, 4.1.4). *)
Inductive name_tail : list byte -> Prop :=
  | tail_root : name_tail [x00]
  | tail_pointer p1 p2 : 192 <= u8 p1 -> name_tail [p1; p2].

Definition wire_name (w : list byte) : Prop :=
  exists ls t, Forall label_ok ls /\ name_tail t /\ w = encode_labels ls ++ t.

Lemma is_pointer b : (Z.land (u8 b) COMPRESSION_MASK =? COMPRESSION_MASK) = (192 <=? u8 b).
Proof. by destruct b. Qed.

Lemma wire_name_length w : wire_name w -> (1 <= length w)%nat.
Proof. intros (ls & t & _ & Ht & ->). destruct Ht; len_lia. Qed.

Lemma wire_name_label l w : label_ok l -> wire_name w -> wire_name (encode_label l ++ w).
Proof.
  intros Hl (ls & t & Hls & Ht & ->). exists (l :: ls), t.
  rewrite encode_labels_cons, <-app_assoc. split_and!; [by constructor|done..].
Qed.

(** Truncation, or a label type RFC 1035 reserves. *)
Definition name_error (e : DnsParseError) : Prop :=
  e = UnexpectedEndOfPayload \/ exists n, e = InvalidLabelLength n.

Section SkipName.
Context (payload : list byte).
Hypothesis Hsize : Z.of_nat (length payload) <= isize_max.

Lemma skip_unfold fuel off b rest :
  drop off payload = b :: rest ->
  skip_name_loop (S fuel) payload off =
  (let n := usize_of_u8 b in
   if 192 <=? u8 b then
     if (length rest <? 1)%nat then Err UnexpectedEndOfPayload else Ok (off + 2)%nat
   else if (n =? 0)%nat then Ok (off + 1)%nat
   else if (n <=? 63)%nat then
     if (length rest <? n)%nat then Err UnexpectedEndOfPayload
     else skip_name_loop fuel payload (off + S n)
   else Err (InvalidLabelLength n)).
Proof.
  intros Hd. assert (Hlen : length payload = (off + S (length rest))%nat)
    by (apply drop_length_eq in Hd; simpl in *; lia).
  pose proof (usize_of_u8_lt b) as Hb. pose proof (usize_of_u8_Z b) as Hz.
  cbn [skip_name_loop]. rewrite (proj2 (Nat.ltb_lt _ _)) by lia.
  rewrite (index_ok _ _ _ (lookup_drop_head _ _ _ _ Hd)). cbn [obind]. cbv zeta.
  rewrite is_pointer. autorewrite with rust. cbn [obind].
  destruct (192 <=? u8 b).
  { by destruct (Nat.ltb_spec (length payload) (off + 2));
      destruct (Nat.ltb_spec (length rest) 1); try lia. }
  destruct (Z.eqb_spec (u8 b) 0); destruct (Nat.eqb_spec (usize_of_u8 b) 0);
    [done|lia|lia|].
  destruct (Z.leb_spec (u8 b) 63); destruct (Nat.leb_spec (usize_of_u8 b) 63);
    [|lia|lia|done].
  autorewrite with rust. cbn [obind].
  replace (off + 1 + usize_of_u8 b)%nat with (off + S (usize_of_u8 b))%nat by lia.
  by destruct (Nat.ltb_spec (length payload) (off + S (usize_of_u8 b)));
    destruct (Nat.ltb_spec (length rest) (usize_of_u8 b)); try lia.
Qed.

Lemma skip_labels ls : forall fuel off rest,
  Forall label_ok ls -> drop off payload = encode_labels ls ++ rest ->
  skip_name_loop (length ls + fuel) payload off =
  skip_name_loop fuel payload (off + length (encode_labels ls)).
Proof.
  induction ls as [|l ls IH]; intros fuel off rest Hls Hd; [by rewrite Nat.add_0_r|].
  apply Forall_cons in Hls as [Hl Hls].
  rewrite encode_labels_cons in *. rewrite <-app_assoc in Hd.
  pose proof (drop_tail _ _ _ _ _ Hd eq_refl) as Hd'.
  rewrite encode_label_app in Hd. cbn [length Nat.add].
  rewrite (skip_unfold _ _ _ _ Hd). cbv zeta. unfold label_ok in Hl.
  rewrite usize_of_byte_of_Z, u8_byte_of_Z, Z.mod_small by lia.
  rewrite (proj2 (Z.leb_gt _ _)), (proj2 (Nat.eqb_neq _ _)), (proj2 (Nat.leb_le _ _)),
    (proj2 (Nat.ltb_ge _ _)) by len_lia.
  rewrite (IH _ _ _ Hls Hd'). f_equal. len_lia.
Qed.

Lemma skip_tail fuel off t rest :
  name_tail t -> drop off payload = t ++ rest ->
  skip_name_loop (S fuel) payload off = Ok (off + length t)%nat.
Proof.
  intros Ht Hd. destruct Ht as [|p1 p2 Hp]; rewrite (skip_unfold _ _ _ _ Hd); [done|].
  cbv zeta. by rewrite (proj2 (Z.leb_le _ _)).
Qed.

Lemma skip_sound : forall fuel off,
  (length payload - off < fuel)%nat ->
  yields (skip_name_loop fuel payload off)
    (fun n => exists w rest, drop off payload = w ++ rest /\ wire_name w /\
                             n = (off + length w)%nat)
    name_error.
Proof.
  induction fuel as [|fuel IH]; intros off Hfuel; [lia|].
  destruct (drop off payload) as [|b rest] eqn:Hd.
  { cbn [skip_name_loop]. apply (f_equal length) in Hd. rewrite length_drop in Hd.
    rewrite (proj2 (Nat.ltb_ge _ _)) by (simpl in Hd; lia). by left. }
  assert (Hlen : length payload = (off + S (length rest))%nat)
    by (apply drop_length_eq in Hd; simpl in *; lia).
  rewrite (skip_unfold _ _ _ _ Hd). cbv zeta.
  repeat (apply yields_if; intros ?; bools); cbn [yields]; try (by left); try (by right; eexists).
  - destruct rest as [|p2 rest]; [simpl in *; lia|]. exists [b; p2], rest.
    split_and!; [done| |done]. exists [], [b; p2]. split_and!; [done|by constructor|done].
  - exists [b], rest. rewrite (usize_of_u8_0 b) by done. split_and!; [done| |done].
    exists [], [x00]. split_and!; [done|constructor|done].
  - eapply yields_mono; [apply IH; lia| |done].
    intros n (w & rest' & Hrest & Hw & ->).
    set (l := take (usize_of_u8 b) rest).
    assert (Hl : length l = usize_of_u8 b) by (subst l; rewrite length_take; lia).
    exists (encode_label l ++ w), rest'. split_and!; [|apply wire_name_label|].
    + rewrite <-drop_drop, Hd in Hrest. simpl in Hrest.
      rewrite <-app_assoc, <-Hrest, encode_label_app, Hl, usize_of_u8_Z, byte_of_Z_u8.
      f_equal. symmetry. apply take_drop.
    + unfold label_ok. lia.
    + done.
    + len_lia.
Qed.
End SkipName.

(** [skip_name] always returns, and either measures a name or reports
    truncation or a reserved label type. *)
Lemma skip_name_yields p :
  Z.of_nat (length p) <= isize_max ->
  yields (skip_name p)
    (fun n => exists w rest, p = w ++ rest /\ wire_name w /\ n = length w)
    name_error.
Proof.
  intros Hsize. eapply yields_mono; [apply skip_sound; [done|lia]|simpl|done].
  intros n (w & rest & H & Hw & ->). by exists w, rest.
Qed.

Lemma skip_name_wire w rest :
  Z.of_nat (length (w ++ rest)) <= isize_max -> wire_name w ->
  skip_name (w ++ rest) = Ok (length w).
Proof.
  intros Hsize (ls & t & Hls & Ht & ->). unfold skip_name.
  set (p := (encode_labels ls ++ t) ++ rest) in *.
  assert (Hd : drop 0 p = encode_labels ls ++ t ++ rest) by (subst p; by rewrite <-app_assoc).
  assert (Hfuel : (S (length p) = length ls + S (length p - length ls))%nat).
  { pose proof (length_labels_le ls). subst p. len_lia. }
  rewrite Hfuel, (skip_labels p Hsize _ _ _ _ Hls Hd).
  rewrite (skip_tail p Hsize _ _ t rest Ht) by (by apply (drop_tail p 0 _ (encode_labels ls))).
  f_equal. len_lia.
Qed.

Lemma skip_name_inv p n :
  Z.of_nat (length p) <= isize_max -> skip_name p = Ok n ->
  exists w rest, p = w ++ rest /\ wire_name w /\ n = length w.
Proof.
  intros Hsize Hp. pose proof (skip_name_yields p Hsize) as H. by rewrite Hp in H.
Qed.

(** C25: [skip_name] returns [n] exactly when its input starts with an encoded
    name (labels, then the root or a compression pointer) of [n] bytes. *)
Theorem skip_name_iff p n :
  Z.of_nat (length p) <= isize_max ->
  skip_name p = Ok n <-> exists w rest, p = w ++ rest /\ wire_name w /\ n = length w.
Proof.
  intros Hsize. split.
  - by apply skip_name_inv.
  - intros (w & rest & -> & Hw & ->). by apply skip_name_wire.
Qed.

(** ** Witnesses *)

Definition example_labels : list (list byte) := bytes_of <$> ["leetcode"; "com"]%string.

Lemma parse_qname_encode_witness :
  parse_qname (encode_name example_labels ++ [x00; x01]) [] = (bytes_of "leetcode.com", Ok 14%nat).
Proof.
  apply (parse_qname_encode example_labels [x00; x01]); [done| |simpl; lia].
  repeat constructor; simpl; lia.
Defined.

Lemma parse_qname_iff_witness :
  exists ls rest r', Forall qlabel_ok ls /\ (length (encode_labels ls) <= 255)%nat /\
    [x01; x61; xc0; x0c] = encode_labels ls ++ rest /\
    name_end (length (encode_labels ls)) rest r' /\ [x61] = join_dots ls /\
    Err (InvalidLabelLength 192) = obind r' (fun _ => Ok (length (encode_name ls))).
Proof. apply parse_qname_iff; [done|reflexivity]. Defined.

Lemma skip_name_iff_witness :
  exists w rest, [x01; x61; xc0; x0c; x00] = w ++ rest /\ wire_name w /\ 4%nat = length w.
Proof. apply skip_name_iff; [done|reflexivity]. Defined.
