(* ===== verification/Answers.v ===== *)
(** * The answer section

    A reference encoder for resource records and what [parse_rdata] does with
    encoded records: it reads a single record correctly, and it reads the
    first record again where it should read the next one. *)

From Stdlib Require Import Strings.Byte NArith ZArith Lia.
From stdpp Require Import base tactics numbers list strings.
From S2P Require Import Prelude RustStd Common Proto Parser Names.

Local Open Scope Z_scope.

(** ** Reference encoding (RFC 1035, 4.1.3) *)

Record rr := {
  rr_name : list byte;
  rr_type : Z;
  rr_class : Z;
  rr_ttl : Z;
  rr_data : list byte
}.

Definition rr_ok (r : rr) : Prop :=
  wire_name (rr_name r) /\ 0 <= rr_type r < 2 ^ 16 /\ 0 <= rr_class r < 2 ^ 16 /\
  0 <= rr_ttl r < 2 ^ 32 /\ Z.of_nat (length (rr_data r)) < 2 ^ 16.

(** TYPE, CLASS, TTL, RDLENGTH *)
Definition encode_rr_fixed (r : rr) : list byte :=
  be_bytes 2 (rr_type r) ++ be_bytes 2 (rr_class r) ++ be_bytes 4 (rr_ttl r) ++
  be_bytes 2 (Z.of_nat (length (rr_data r))).

Definition encode_rr (r : rr) : list byte := rr_name r ++ encode_rr_fixed r ++ rr_data r.

(** What one record should do to the slot. *)
Definition rr_effect (r : rr) : prog DnsResponse DnsParseError unit :=
  let! t := lift (RecordType_try_from (rr_type r)) in
  parse_rr_data t (length (rr_data r)) (rr_data r).

(** [n] times the same step. *)
Fixpoint repeat_prog {S E} (n : nat) (m : prog S E unit) : prog S E unit :=
  match n with
  | O => ret tt
  | Datatypes.S n => do! m in repeat_prog n m
  end.

(** Adding one address to a response. *)
Definition add_address (text raw : list byte) (af : Z) (r : DnsResponse) : DnsResponse :=
  set_ip_family af
    (set_resolved_ip_raw (resolved_ip_raw r ++ raw)
      (set_resolved_ip (resolved_ip r ++ text) r)).

Lemma length_encode_rr_fixed r : length (encode_rr_fixed r) = 10%nat.
Proof. reflexivity. Qed.
#[export] Hint Rewrite length_encode_rr_fixed : rust.

(** ** Helper lemmas *)

Lemma u16_at_read l i :
  (i + 2 <= length l)%nat -> Z.of_nat (length l) <= isize_max ->
  u16_at l i = Ok (be_Z (read i 2 l)).
Proof.
  intros Hi Hsize. unfold u16_at.
  destruct (lookup_lt_is_Some_2 l i ltac:(lia)) as [hi Hhi].
  destruct (lookup_lt_is_Some_2 l (i + 1) ltac:(lia)) as [lo Hlo].
  rewrite (index_ok _ _ _ Hhi). cbn [obind]. autorewrite with rust. cbn [obind].
  rewrite (index_ok _ _ _ Hlo). cbn [obind]. do 2 f_equal. unfold read.
  rewrite (drop_lookup_cons _ _ _ Hhi).
  rewrite Nat.add_1_r in Hlo. by rewrite (drop_lookup_cons _ _ _ Hlo).
Qed.

Lemma be_Z_2_range l : length l = 2%nat -> 0 <= be_Z l < 65536.
Proof. intros Hl. pose proof (be_Z_range l) as H. by rewrite Hl in H. Qed.

Lemma read_drop {A} a b n (l : list A) : read a n (drop b l) = read (b + a) n l.
Proof. unfold read. by rewrite drop_drop. Qed.

(** ** What one record does *)

Lemma rr_effect_A a b c d nm cl ttl slot :
  rr_effect {| rr_name := nm; rr_type := 1; rr_class := cl; rr_ttl := ttl;
               rr_data := [a; b; c; d] |} slot =
  (add_address (ipv4_display a b c d) [a; b; c; d] AF_INET slot, Ok tt).
Proof. reflexivity. Qed.

Lemma rr_effect_AAAA octets nm cl ttl slot :
  length octets = 16%nat ->
  rr_effect {| rr_name := nm; rr_type := 28; rr_class := cl; rr_ttl := ttl;
               rr_data := octets |} slot =
  (add_address (ipv6_display octets) octets AF_INET6 slot, Ok tt).
Proof.
  intros Hl. unfold rr_effect, lift, bind. cbn -[ipv6_display]. by rewrite !Hl.
Qed.

Lemma rr_effect_other r slot :
  rr_type r <> 1 -> rr_type r <> 28 -> rr_effect r slot = (slot, Ok tt).
Proof.
  intros H1 H28. unfold rr_effect, lift, bind, RecordType_try_from.
  rewrite (proj2 (Z.eqb_neq _ _)) by done.
  destruct (rr_type r =? 5); [done|]. by rewrite (proj2 (Z.eqb_neq _ _)).
Qed.

Lemma RecordType_try_from_total v : exists t, RecordType_try_from v = Ok t.
Proof. unfold RecordType_try_from. repeat case_match; eauto. Qed.

(** ** One iteration *)

(** The record body at offset [o]: its type selects what is done with the
    [rdlength] bytes after the fixed part. *)
Definition rr_at (p : list byte) (o : nat) : prog DnsResponse DnsParseError nat :=
  if (length p <? o + 10)%nat then throw UnexpectedEndOfPayload
  else
    let rdlength := Z.to_nat (be_Z (read (o + 8) 2 p)) in
    if (length p <? o + 10 + rdlength)%nat then throw UnexpectedEndOfPayload
    else
      let! t := lift (RecordType_try_from (be_Z (read o 2 p))) in
      do! parse_rr_data t rdlength (read (o + 10) rdlength p) in
      ret (o + 10 + rdlength)%nat.

Section Rdata.
Context (p : list byte).
Hypothesis Hsize : Z.of_nat (length p) <= isize_max.

Lemma skip_name_drop_bound off o :
  skip_name (drop off p) = Ok o -> (1 <= o)%nat /\ (off + o <= length p)%nat.
Proof.
  intros H. apply skip_name_inv in H as (w & rest & Hd & Hw & ->); [|len_lia].
  apply wire_name_length in Hw. apply (f_equal length) in Hd.
  rewrite length_drop, length_app in Hd. lia.
Qed.

(** An iteration that starts at [off] skips the name there, but then reads
    the body at the name's length from the start of the section. *)
Lemma rdata_unfold n off slot :
  (off < length p)%nat ->
  parse_rdata_loop (S n) p off slot =
  (let! o := lift (skip_name (drop off p)) in
   let! next := rr_at p o in
   parse_rdata_loop n p next) slot.
Proof.
  intros Hoff. cbn [parse_rdata_loop]. rewrite (proj2 (Nat.leb_gt _ _)) by lia.
  lift_step. rewrite !bind_lift.
  destruct (skip_name (drop off p)) as [o|e|f] eqn:Hskip; [|done..].
  apply skip_name_drop_bound in Hskip as Ho.
  unfold rr_at, RR_FIXED_HDR_LEN. lift_step.
  destruct (Nat.ltb_spec (length p) (o + 10)) as [|Hfix]; [done|].
  rewrite bind_lift, u16_at_read by lia.
  destruct (RecordType_try_from_total (be_Z (read o 2 p))) as [t Ht].
  rewrite bind_lift, Ht. lift_step. rewrite bind_lift, u16_at_read by lia.
  pose proof (be_Z_2_range (read (o + 8) 2 p) ltac:(apply length_read; lia)) as Hrdl.
  set (rdl := Z.to_nat (be_Z (read (o + 8) 2 p))) in *.
  lift_step. lift_step. cbv zeta.
  destruct (Nat.ltb_spec (length p) (o + 10 + rdl)) as [|Hend]; [done|].
  lift_step. replace (o + 10 + rdl - (o + 10))%nat with rdl by lia.
  rewrite !bind_assoc, bind_lift. cbv beta iota. rewrite bind_assoc.
  unfold bind. fold (read (o + 10) rdl p).
  destruct (parse_rr_data _ _ _ _) as [slot' [[]|e|f]]; [|done..].
  unfold lift, ret. by autorewrite with rust.
Qed.
End Rdata.

(** Reading the body of an encoded record. *)
Lemma rr_at_encoded p o r rest slot :
  rr_ok r -> drop o p = encode_rr_fixed r ++ rr_data r ++ rest ->
  rr_at p o slot =
  (do! rr_effect r in ret (o + 10 + length (rr_data r))%nat) slot.
Proof.
  intros (_ & Ht & _ & _ & Hl) Hd.
  assert (Hlen : length p = (o + length (encode_rr_fixed r ++ rr_data r ++ rest))%nat)
    by (apply drop_length_eq; [done|len_lia]).
  autorewrite with rust in Hlen.
  assert (Htype : be_Z (read o 2 p) = rr_type r).
  { rewrite <-(Nat.add_0_r o), <-read_drop, Hd. unfold encode_rr_fixed.
    rewrite <-!app_assoc. read_apps. by apply be_Z_be_bytes_small. }
  assert (Hrdl : be_Z (read (o + 8) 2 p) = Z.of_nat (length (rr_data r))).
  { rewrite <-read_drop, Hd. unfold encode_rr_fixed.
    rewrite <-!app_assoc. read_apps. apply be_Z_be_bytes_small; lia. }
  assert (Hdata : read (o + 10) (length (rr_data r)) p = rr_data r).
  { rewrite <-read_drop, Hd. by read_apps. }
  unfold rr_at. rewrite (proj2 (Nat.ltb_ge _ _)) by lia. cbv zeta.
  rewrite Htype, Hrdl, Nat2Z.id, (proj2 (Nat.ltb_ge _ _)), Hdata by lia.
  unfold rr_effect. by rewrite !bind_assoc.
Qed.

Lemma rdata_single r rest slot :
  rr_ok r -> Z.of_nat (length (encode_rr r ++ rest)) <= isize_max ->
  parse_rdata (encode_rr r ++ rest) 1 slot = rr_effect r slot.
Proof.
  intros Hr Hsize. assert (Hn := wire_name_length _ (proj1 Hr)).
  unfold encode_rr in *. rewrite <-!app_assoc in *.
  unfold parse_rdata. rewrite bool_decide_eq_false_2.
  2:{ intros H%(f_equal length). revert H. len_lia. }
  change (Z.to_nat 1) with 1%nat.
  rewrite rdata_unfold by (done || len_lia).
  rewrite bind_lift, drop_0, skip_name_wire by (done || apply Hr).
  unfold bind at 1. rewrite (rr_at_encoded _ _ r rest) by (done || by rewrite drop_app_length).
  unfold bind. by destruct (rr_effect r slot) as [slot' [[]|e|f]].
Qed.

(** A section that starts with one encoded record is read as that record
    when one answer is expected: its name is skipped, plain or compressed, an
    A or AAAA address is added to the response and any other type ignored. *)
Theorem parse_rdata_single r rest slot :
  rr_ok r -> Z.of_nat (length (encode_rr r ++ rest)) <= isize_max ->
  parse_rdata (encode_rr r ++ rest) 1 slot = rr_effect r slot.
Proof. apply rdata_single. Qed.

(** After the first record the loop is always back at that record's end, so
    that every later iteration reads the first record's body. *)
Lemma parse_rdata_loop_rereads r1 r2 rest n slot :
  let p := encode_rr r1 ++ encode_rr r2 ++ rest in
  rr_ok r1 -> rr_ok r2 -> length (rr_name r2) = length (rr_name r1) ->
  Z.of_nat (length p) <= isize_max ->
  parse_rdata_loop n p (length (encode_rr r1)) slot = repeat_prog n (rr_effect r1) slot.
Proof.
  intros p H1 H2 Heq Hsize. revert slot. induction n as [|n IH]; intros slot; [done|].
  assert (Hn := wire_name_length _ (proj1 H2)).
  assert (Hp : p = encode_rr r1 ++ rr_name r2 ++ (encode_rr_fixed r2 ++ rr_data r2) ++ rest).
  { subst p. unfold encode_rr. by rewrite <-!app_assoc. }
  rewrite rdata_unfold by (done || (rewrite Hp; len_lia)).
  assert (Hd : drop (length (encode_rr r1)) p =
               rr_name r2 ++ (encode_rr_fixed r2 ++ rr_data r2) ++ rest)
    by (rewrite Hp; apply drop_app_length).
  rewrite bind_lift, Hd, skip_name_wire by
    (apply H2 || (rewrite <-Hd, length_drop; unfold isize_max in *; lia)).
  unfold bind at 1. rewrite Heq.
  rewrite (rr_at_encoded _ _ r1 (encode_rr r2 ++ rest)); [|done|].
  2:{ subst p. unfold encode_rr. rewrite <-!app_assoc. apply drop_app_length. }
  cbn [repeat_prog]. unfold bind.
  destruct (rr_effect r1 slot) as [slot' [[]|e|f]]; [|done..].
  cbn [ret]. rewrite <-IH. f_equal. unfold encode_rr. len_lia.
Qed.

Lemma rdata_rereads r1 r2 rest k slot :
  rr_ok r1 -> rr_ok r2 -> length (rr_name r2) = length (rr_name r1) ->
  Z.of_nat (length (encode_rr r1 ++ encode_rr r2 ++ rest)) <= isize_max -> 0 <= k ->
  parse_rdata (encode_rr r1 ++ encode_rr r2 ++ rest) k slot =
  repeat_prog (Z.to_nat k) (rr_effect r1) slot.
Proof.
  intros H1 H2 Heq Hsize Hk. assert (Hn := wire_name_length _ (proj1 H1)).
  assert (Hp : encode_rr r1 ++ encode_rr r2 ++ rest =
               rr_name r1 ++ (encode_rr_fixed r1 ++ rr_data r1) ++ encode_rr r2 ++ rest)
    by (unfold encode_rr; by rewrite <-!app_assoc).
  unfold parse_rdata. rewrite bool_decide_eq_false_2.
  2:{ rewrite Hp. intros H%(f_equal length). revert H. len_lia. }
  destruct (Z.to_nat k) as [|n]; [done|].
  rewrite rdata_unfold by (done || (rewrite Hp; len_lia)).
  rewrite bind_lift, drop_0, Hp, skip_name_wire by (by rewrite <-Hp || apply H1).
  rewrite <-Hp. unfold bind at 1.
  rewrite (rr_at_encoded _ _ r1 (encode_rr r2 ++ rest)); [|done|].
  2:{ rewrite Hp, <-app_assoc. apply drop_app_length. }
  cbn [repeat_prog]. unfold bind.
  destruct (rr_effect r1 slot) as [slot' [[]|e|f]]; [|done..].
  cbn [ret]. rewrite <-(parse_rdata_loop_rereads r1 r2 rest) by done. f_equal.
  unfold encode_rr. len_lia.
Qed.

(** C27: with [k] answers announced and the names of the first two records of
    the same wire length, as when both are compression pointers, the parser
    handles the first record [k] times and no other record at all. *)
Theorem parse_rdata_rereads r1 r2 rest k slot :
  rr_ok r1 -> rr_ok r2 -> length (rr_name r2) = length (rr_name r1) ->
  Z.of_nat (length (encode_rr r1 ++ encode_rr r2 ++ rest)) <= isize_max -> 0 <= k ->
  parse_rdata (encode_rr r1 ++ encode_rr r2 ++ rest) k slot =
  repeat_prog (Z.to_nat k) (rr_effect r1) slot.
Proof. apply rdata_rereads. Qed.

Lemma repeat_add_address n text raw af slot :
  repeat_prog (E := DnsParseError) n (modify (add_address text raw af)) slot =
  (Nat.iter n (add_address text raw af) slot, Ok tt).
Proof.
  revert slot. induction n as [|n IH]; intros slot; [done|].
  cbn [repeat_prog]. rewrite bind_modify, IH. by rewrite Nat.iter_succ_r.
Qed.

(** ** Answers with several addresses *)

(** The pointer to the question name that resolvers put in answers. *)
Definition pointer_name : list byte := [xc0; x0c].

Definition a_record (ttl : Z) (q : byte * byte * byte * byte) : rr :=
  let '(a, b, c, d) := q in
  {| rr_name := pointer_name; rr_type := 1; rr_class := 1; rr_ttl := ttl;
     rr_data := [a; b; c; d] |}.

Definition quad_bytes (q : byte * byte * byte * byte) : list byte :=
  let '(a, b, c, d) := q in [a; b; c; d].

Definition quad_text (q : byte * byte * byte * byte) : list byte :=
  let '(a, b, c, d) := q in ipv4_display a b c d.

Lemma pointer_name_ok : wire_name pointer_name.
Proof. exists [], pointer_name. split_and!; [done|by constructor|done]. Qed.

Lemma a_record_ok ttl q : 0 <= ttl < 2 ^ 32 -> rr_ok (a_record ttl q).
Proof.
  destruct q as [[[a b] c] d]. intros. unfold rr_ok. cbn -[Z.pow].
  split_and!; solve [lia | apply pointer_name_ok].
Qed.

Lemma iter_add_address n text raw af r :
  let r' := Nat.iter n (add_address text raw af) r in
  resolved_ip_raw r' = resolved_ip_raw r ++ concat (replicate n raw) /\
  resolved_ip r' = resolved_ip r ++ concat (replicate n text) /\
  ip_family r' = (if (n =? 0)%nat then ip_family r else af) /\
  domain_name r' = domain_name r.
Proof.
  simpl. induction n as [|n (IH1 & IH2 & _ & IH4)]; [simpl; by rewrite !app_nil_r|].
  rewrite Nat.iter_succ. cbn [add_address set_ip_family set_resolved_ip_raw set_resolved_ip
    resolved_ip_raw resolved_ip ip_family domain_name].
  rewrite IH1, IH2, IH4, !replicate_S_end, !concat_app, <-!app_assoc. simpl.
  by rewrite !app_nil_r.
Qed.

Lemma rdata_addresses ttl q1 q2 qs rest slot :
  let n := length (q1 :: q2 :: qs) in
  let section := concat (encode_rr ∘ a_record ttl <$> q1 :: q2 :: qs) ++ rest in
  0 <= ttl < 2 ^ 32 -> Z.of_nat (length section) <= isize_max ->
  exists slot', parse_rdata section (Z.of_nat n) slot = (slot', Ok tt) /\
    resolved_ip_raw slot' = resolved_ip_raw slot ++ concat (replicate n (quad_bytes q1)) /\
    resolved_ip slot' = resolved_ip slot ++ concat (replicate n (quad_text q1)) /\
    ip_family slot' = AF_INET /\ domain_name slot' = domain_name slot.
Proof.
  intros n section Httl Hsize.
  assert (Hs : section = encode_rr (a_record ttl q1) ++ encode_rr (a_record ttl q2) ++
                         concat (encode_rr ∘ a_record ttl <$> qs) ++ rest)
    by (subst section; cbn; by rewrite <-!app_assoc).
  rewrite Hs in *. exists (Nat.iter n (add_address (quad_text q1) (quad_bytes q1) AF_INET) slot).
  rewrite rdata_rereads; [|by apply a_record_ok..|by destruct q1 as [[[]]], q2 as [[[]]]
                                |done|lia].
  destruct (iter_add_address n (quad_text q1) (quad_bytes q1) AF_INET slot)
    as (? & ? & Hf & ?).
  split_and!; [|done..]. rewrite Nat2Z.id. destruct q1 as [[[a b] c] d].
  apply repeat_add_address.
Qed.

(** For a response with two or more A records, as round-robin DNS sends
    them, the parser succeeds but reports the first address once per record:
    the other addresses are never read, and the text is the repeated address
    without a separator. *)
Theorem parse_rdata_addresses ttl q1 q2 qs rest slot :
  let n := length (q1 :: q2 :: qs) in
  let section := concat (encode_rr ∘ a_record ttl <$> q1 :: q2 :: qs) ++ rest in
  0 <= ttl < 2 ^ 32 -> Z.of_nat (length section) <= isize_max ->
  exists slot', parse_rdata section (Z.of_nat n) slot = (slot', Ok tt) /\
    resolved_ip_raw slot' = resolved_ip_raw slot ++ concat (replicate n (quad_bytes q1)) /\
    resolved_ip slot' = resolved_ip slot ++ concat (replicate n (quad_text q1)) /\
    ip_family slot' = AF_INET /\ domain_name slot' = domain_name slot.
Proof. apply rdata_addresses. Qed.

(** A chain that starts with a CNAME record, the usual answer for an
    alias, leaves the response without any address even though an A record
    follows. *)
Theorem parse_rdata_cname_chain cname q ttl rest slot :
  rr_ok cname -> rr_type cname = 5 -> rr_name cname = pointer_name -> 0 <= ttl < 2 ^ 32 ->
  Z.of_nat (length (encode_rr cname ++ encode_rr (a_record ttl q) ++ rest)) <= isize_max ->
  parse_rdata (encode_rr cname ++ encode_rr (a_record ttl q) ++ rest) 2 slot = (slot, Ok tt).
Proof.
  intros Hc Ht Hn Httl Hsize.
  rewrite rdata_rereads; [|done|by apply a_record_ok|by rewrite Hn; destruct q as [[[]]]
                                |done|lia].
  change (Z.to_nat 2) with 2%nat. cbn [repeat_prog]. unfold bind.
  by do 2 (rewrite rr_effect_other by (by rewrite Ht); cbv beta iota).
Qed.

(** ** No faults, and what holds of every parsed response *)

(** The address family announced and the bytes collected agree far enough for
    the policy engine: at least one address of that family is there. *)
Definition addr_ok (r : DnsResponse) : Prop :=
  ip_family r = 0 \/
  (ip_family r = AF_INET /\ (4 <= length (resolved_ip_raw r))%nat) \/
  (ip_family r = AF_INET6 /\ (16 <= length (resolved_ip_raw r))%nat).

(** The fields of a response that [parse_rdata] leaves alone. *)
Definition same_head (r r' : DnsResponse) : Prop :=
  src_ip r' = src_ip r /\ dst_ip r' = dst_ip r /\ src_port r' = src_port r /\
  dst_port r' = dst_port r /\ timestamp_ns r' = timestamp_ns r /\
  domain_name r' = domain_name r.

Lemma parse_rr_data_runs t data slot :
  runs (parse_rr_data t (length data) data) slot
    (fun slot' _ => same_head slot slot' /\
       (slot' = slot \/ exists text raw af, slot' = add_address text raw af slot /\ is_ascii text = true /\
          ((af = AF_INET /\ length raw = 4%nat /\ (length text <= 15)%nat) \/
           (af = AF_INET6 /\ length raw = 16%nat /\ text = ipv6_display raw))))
    (fun slot' e => slot' = slot /\ name_error e).
Proof.
  destruct t; cbn [parse_rr_data].
  - apply runs_if; intros Hl; bools; [by split; [|left]|].
    repeat parser_step. cbn [yields].
    split; [done|]. right. do 3 eexists. split; [done|].
    split; [apply ipv4_display_ascii|left]. split; [done|].
    rewrite length_take, Hl. split; [done|]. apply ipv4_display_length.
  - by split; [|left].
  - apply runs_if; intros Hl; bools; [by split; [|left]|].
    rewrite Hl. cbn [Nat.eqb]. repeat parser_step.
    split; [done|]. right. do 3 eexists. split; [done|].
    split; [apply ipv6_display_ascii|]. by right.
  - by split; [|left].
Qed.

(** [n] records add at most [n] addresses. *)
Definition grows (n : nat) (r r' : DnsResponse) : Prop :=
  (length (resolved_ip_raw r') <= length (resolved_ip_raw r) + 16 * n)%nat /\
  (length (resolved_ip r') <= length (resolved_ip r) + 42 * n)%nat.

(** One record preserves the invariant. *)
Definition rdata_inv (n : nat) (r r' : DnsResponse) : Prop :=
  (addr_ok r -> addr_ok r') /\ same_head r r' /\ grows n r r' /\
  (is_ascii (resolved_ip r) = true -> is_ascii (resolved_ip r') = true).

Lemma rdata_inv_refl r : rdata_inv 0 r r.
Proof. split_and!; [done|done| |done]. unfold grows. lia. Qed.

Lemma rdata_inv_trans m n r1 r2 r3 :
  rdata_inv m r1 r2 -> rdata_inv n r2 r3 -> rdata_inv (m + n) r1 r3.
Proof.
  intros (Ha1 & H1 & G1 & A1) (Ha2 & H2 & G2 & A2).
  split_and!; [tauto| |unfold grows in *; lia|tauto].
  unfold same_head in *. destruct H1 as (? & ? & ? & ? & ? & ?). intuition congruence.
Qed.

Lemma rdata_inv_weaken m n r r' : (m <= n)%nat -> rdata_inv m r r' -> rdata_inv n r r'.
Proof. intros ? (? & ? & ? & ?). split_and!; try done. unfold grows in *. lia. Qed.

Lemma parse_rr_data_inv t data slot :
  runs (parse_rr_data t (length data) data) slot
    (fun slot' _ => rdata_inv 1 slot slot') (fun slot' e => slot' = slot /\ name_error e).
Proof.
  eapply runs_mono; [apply parse_rr_data_runs| |done].
  intros slot' _ (Hh & [->|(text & raw & af & -> & Hasc & Haf)]).
  { eapply (rdata_inv_weaken 0); [lia|apply rdata_inv_refl]. }
  split_and!; [|done| |by cbn; intros Ha; rewrite is_ascii_app, Ha, Hasc].
  - intros _. destruct Haf as [(-> & Hl & _)|(-> & Hl & _)];
      [right; left|right; right]; (split; [done|]); cbn; len_lia.
  - unfold grows. cbn. destruct Haf as [(-> & Hl & Ht)|(-> & Hl & ->)].
    + len_lia.
    + pose proof (ipv6_display_length raw Hl). len_lia.
Qed.

Lemma rr_at_runs p o slot :
  Z.of_nat (length p) <= isize_max ->
  runs (rr_at p o) slot (fun slot' _ => rdata_inv 1 slot slot')
    (fun slot' e => slot' = slot /\ name_error e).
Proof.
  intros Hsize. unfold rr_at. apply runs_if; intros Ho; bools; [by split; [|left]|].
  cbv zeta. set (n := Z.to_nat _). apply runs_if; intros Hn; bools; [by split; [|left]|].
  destruct (RecordType_try_from_total (be_Z (read o 2 p))) as [t Ht].
  apply runs_bind, (runs_lift_ok _ t); [done|].
  apply runs_bind. rewrite <-(length_read (o + 10) n p) at 1 by lia.
  eapply runs_mono; [apply parse_rr_data_inv| |done]. by intros slot' ? Hinv.
Qed.

Lemma parse_rdata_loop_runs p n :
  Z.of_nat (length p) <= isize_max -> forall off slot,
  runs (parse_rdata_loop n p off) slot
    (fun slot' _ => rdata_inv n slot slot')
    (fun slot' e => rdata_inv n slot slot' /\ name_error e).
Proof.
  intros Hsize. induction n as [|n IH]; intros off slot; [apply rdata_inv_refl|].
  destruct (Nat.le_gt_cases (length p) off) as [Hoff|Hoff].
  { cbn [parse_rdata_loop]. rewrite (proj2 (Nat.leb_le _ _)) by done.
    split; [|by left]. eapply (rdata_inv_weaken 0); [lia|apply rdata_inv_refl]. }
  apply (runs_ext _ (let! o := lift (skip_name (drop off p)) in let! next := rr_at p o in
                     parse_rdata_loop n p next)); [by apply rdata_unfold|].
  assert (H0 : rdata_inv (S n) slot slot)
    by (eapply (rdata_inv_weaken 0); [lia|apply rdata_inv_refl]).
  apply runs_bind, runs_lift.
  eapply yields_mono; [apply skip_name_yields; len_lia| |done].
  intros o _. apply runs_bind.
  eapply runs_mono; [by apply rr_at_runs| |]; cbv beta.
  - intros slot' next Hinv. eapply runs_mono; [apply IH| |]; cbv beta.
    + intros s' ? Hs'. eapply (rdata_inv_trans 1 n); eassumption.
    + intros s' e [Hs' He]. split; [|done]. eapply (rdata_inv_trans 1 n); eassumption.
  - by intros s' e [-> He].
Qed.

(** [parse_rdata] never faults: every index, slice and addition is in range
    and the loops end. *)
Lemma parse_rdata_runs p k slot :
  Z.of_nat (length p) <= isize_max ->
  runs (parse_rdata p k) slot
    (fun slot' _ => rdata_inv (Z.to_nat k) slot slot')
    (fun slot' e => rdata_inv (Z.to_nat k) slot slot' /\ name_error e).
Proof.
  intros Hsize. unfold parse_rdata. apply runs_if; intros _; [|by apply parse_rdata_loop_runs].
  split; [|by left]. eapply (rdata_inv_weaken 0); [lia|apply rdata_inv_refl].
Qed.

(** ** Witnesses *)

Definition example_a1 : rr := a_record 60 (x0a, x00, x00, x01).
Definition example_a2 : rr := a_record 60 (x0a, x00, x00, x02).
Definition example_cname : rr :=
  {| rr_name := pointer_name; rr_type := 5; rr_class := 1; rr_ttl := 60;
     rr_data := encode_name [bytes_of "www"] |}.

Lemma example_a_ok : rr_ok example_a1 /\ rr_ok example_a2.
Proof. split; by apply a_record_ok. Qed.

Lemma example_cname_ok : rr_ok example_cname.
Proof.
  unfold rr_ok, example_cname; cbn -[Z.pow].
  split_and!; solve [lia | apply pointer_name_ok].
Qed.

Lemma parse_rdata_single_witness :
  parse_rdata (encode_rr example_a1 ++ [x00]) 1 DnsResponse_default =
  (add_address (bytes_of "10.0.0.1") [x0a; x00; x00; x01] AF_INET DnsResponse_default, Ok tt).
Proof.
  rewrite parse_rdata_single; [reflexivity|apply example_a_ok|vm_compute; discriminate].
Defined.

Lemma parse_rdata_rereads_witness :
  resolved_ip_raw (parse_rdata (encode_rr example_a1 ++ encode_rr example_a2 ++ []) 2
                     DnsResponse_default).1 =
  [x0a; x00; x00; x01; x0a; x00; x00; x01].
Proof.
  rewrite parse_rdata_rereads; [reflexivity|apply example_a_ok..|reflexivity
                               |vm_compute; discriminate|lia].
Defined.

Lemma parse_rdata_addresses_witness :
  exists slot', parse_rdata (encode_rr example_a1 ++ encode_rr example_a2) 2
                  DnsResponse_default = (slot', Ok tt) /\
    resolved_ip slot' = bytes_of "10.0.0.110.0.0.1".
Proof.
  destruct (parse_rdata_addresses 60 (x0a, x00, x00, x01) (x0a, x00, x00, x02) [] []
              DnsResponse_default) as (slot' & H & _ & Ht & _);
    [lia|vm_compute; discriminate|].
  exists slot'. split; [exact H|]. rewrite Ht. reflexivity.
Defined.

Lemma parse_rdata_cname_chain_witness :
  parse_rdata (encode_rr example_cname ++ encode_rr example_a1 ++ []) 2 DnsResponse_default =
  (DnsResponse_default, Ok tt).
Proof.
  apply (parse_rdata_cname_chain example_cname (x0a, x00, x00, x01) 60 []);
    [apply example_cname_ok|reflexivity..|lia|vm_compute; discriminate].
Defined.
