(* ===== verification/Decode.v ===== *)
(** * [parse_dns_into]: from a raw event to a response

    Totality and panics of the entry point, its independence of the reused
    slot and of the bytes after the payload, and its result on encoded DNS
    messages. *)

From Stdlib Require Import Strings.Byte NArith ZArith Lia.
From stdpp Require Import base tactics numbers list strings.
From S2P Require Import Prelude RustStd Common Proto Parser Names Answers.

Local Open Scope Z_scope.

(** ** Reference encoding of a message (RFC 1035, 4.1) *)

Definition encode_header (h : DnsHdr) : list byte :=
  be_bytes 2 (transaction_id h) ++ be_bytes 2 (flags h) ++ be_bytes 2 (questions h) ++
  be_bytes 2 (answer_rrs h) ++ be_bytes 2 (authority_rrs h) ++ be_bytes 2 (additional_rrs h).

Definition header_ok (h : DnsHdr) : Prop :=
  Forall (fun z => 0 <= z < 2 ^ 16)
    [transaction_id h; flags h; questions h; answer_rrs h; authority_rrs h; additional_rrs h].

(** Header, one question, then the answer section and whatever follows. *)
Definition encode_message (h : DnsHdr) (ls : list (list byte)) (qtype qclass : Z)
    (section : list byte) : list byte :=
  encode_header h ++ encode_name ls ++ be_bytes 2 qtype ++ be_bytes 2 qclass ++ section.

(** ** Events the daemon may see *)

(** The array lengths Rust's types guarantee. *)
Definition arrays_ok (ev : RawDnsEvent) : Prop :=
  length (bytes (ev_src_ip ev)) = 16%nat /\ length (bytes (ev_dst_ip ev)) = 16%nat /\
  length (payload ev) = MAX_DNS_PAYLOAD_SIZE.

Definition family_ok (ip : RawIpAddr) : Prop := family ip = AF_INET \/ family ip = AF_INET6.

(** The payload bytes that belong to the message. *)
Definition ev_message (ev : RawDnsEvent) : list byte :=
  take (Z.to_nat (payload_len ev)) (payload ev).

(** ** Addresses *)

Definition ip_text (ip : RawIpAddr) : list byte :=
  if family ip =? AF_INET then
    match bytes ip with
    | a :: b :: c :: d :: _ => ipv4_display a b c d
    | _ => []
    end
  else ipv6_display (bytes ip).

Lemma parse_ip_ok ip out :
  length (bytes ip) = 16%nat -> family_ok ip -> parse_ip ip out = (out ++ ip_text ip, Ok tt).
Proof.
  intros Hl [Hf|Hf]; unfold parse_ip, ip_text; rewrite Hf; [|done].
  by destruct (bytes ip) as [|a [|b [|c [|d l]]]].
Qed.

Lemma parse_ip_unsupported ip out :
  ~ family_ok ip -> parse_ip ip out = (out, Err (UnsupportedAddressFamily (family ip))).
Proof.
  intros Hf. unfold parse_ip.
  by rewrite !(proj2 (Z.eqb_neq _ _)) by (intros H; apply Hf; unfold family_ok; auto).
Qed.

Lemma family_ok_dec ip : {family_ok ip} + {~ family_ok ip}.
Proof. unfold family_ok. apply (decide (family ip = AF_INET \/ family ip = AF_INET6)). Qed.

Lemma ip_text_ascii ip : is_ascii (ip_text ip) = true.
Proof.
  unfold ip_text. destruct (family ip =? AF_INET); [|apply ipv6_display_ascii].
  destruct (bytes ip) as [|a [|b [|c [|d l]]]]; [done..|]. apply ipv4_display_ascii.
Qed.

Lemma join_dots_ascii ls : Forall qlabel_ok ls -> is_ascii (join_dots ls) = true.
Proof.
  destruct 1 as [|l ls [_ Hl] Hls]; [done|]. rewrite join_dots_cons, is_ascii_app, Hl.
  cbn [andb]. induction Hls as [|k ks [_ Hk] Hks IH]; [done|].
  cbn [fmap list_fmap concat] in *. by rewrite is_ascii_app, is_ascii_cons, Hk, IH.
Qed.

Lemma ip_text_length ip :
  length (bytes ip) = 16%nat -> (length (ip_text ip) <= 42)%nat.
Proof.
  intros Hl. unfold ip_text. destruct (family ip =? AF_INET); [|by apply ipv6_display_length].
  destruct (bytes ip) as [|a [|b [|c [|d l]]]]; try (simpl; lia).
  pose proof (ipv4_display_length a b c d). lia.
Qed.

(** ** The function after its address and port fields *)

(** What follows the copy of the event's fields: [msg] is [dns_payload]. *)
Definition dns_body (msg : list byte) : prog DnsResponse DnsParseError unit :=
  if (length msg <? DnsHdr_LEN)%nat then throw UnexpectedEndOfPayload
  else
  let! n := zoom domain_name set_domain_name (parse_qname (drop DnsHdr_LEN msg)) in
  let! hdr := lift (DnsHdr_from msg) in
  if (length msg <? DnsHdr_LEN + n + 4)%nat then throw UnexpectedEndOfPayload
  else parse_rdata (drop (DnsHdr_LEN + n + 4) msg) (answer_rrs hdr).

(** The response before the message is looked at. *)
Definition head_response (ev : RawDnsEvent) : DnsResponse :=
  {| src_ip := ip_text (ev_src_ip ev); dst_ip := ip_text (ev_dst_ip ev);
     src_port := ev_src_port ev; dst_port := ev_dst_port ev;
     timestamp_ns := ev_timestamp_ns ev; domain_name := []; resolved_ip := [];
     resolved_ip_raw := []; ip_family := 0 |}.

Lemma reset_slot_default slot : reset_slot slot = DnsResponse_default.
Proof. reflexivity. Qed.

Lemma bind_ret_tt {S E} (m : prog S E unit) s : bind m (fun _ => ret tt) s = m s.
Proof. unfold bind. by destruct (m s) as [s' [[]|e|f]]. Qed.

Lemma bind_ext {S E A B} (m : prog S E A) (k k' : A -> prog S E B) s :
  (forall a s', m s = (s', Ok a) -> k a s' = k' a s') -> bind m k s = bind m k' s.
Proof. intros H. unfold bind. destruct (m s) as [s' [a|e|f]]; auto. Qed.

Lemma zoom_ok {S T E A} (get : S -> T) set (m : prog T E A) s s' a :
  zoom get set m s = (s', Ok a) -> exists t, m (get s) = (t, Ok a).
Proof. unfold zoom. destruct (m (get s)) as [t [a'|e|f]]; naive_solver. Qed.

(** Both addresses supported and the payload inside the array: the function
    is [dns_body] on the message, from the head response. *)
Lemma parse_dns_into_body ev slot :
  arrays_ok ev -> family_ok (ev_src_ip ev) -> family_ok (ev_dst_ip ev) ->
  0 <= payload_len ev <= 512 ->
  parse_dns_into ev slot = dns_body (ev_message ev) (head_response ev).
Proof.
  intros (Hs & Hd & Hp) Hfs Hfd Hlen. unfold parse_dns_into.
  rewrite bind_modify, reset_slot_default.
  unfold bind at 1, zoom at 1. rewrite parse_ip_ok by done. cbv beta iota.
  unfold bind at 1, zoom at 1. rewrite parse_ip_ok by done. cbv beta iota.
  rewrite !bind_modify. change (set_timestamp_ns _ _) with (head_response ev).
  unfold MAX_DNS_PAYLOAD_SIZE in Hp.
  assert (Hm : length (ev_message ev) = Z.to_nat (payload_len ev))
    by (unfold ev_message; rewrite length_take; lia).
  unfold dns_body. rewrite Hm. cbv zeta.
  destruct (Nat.ltb_spec (Z.to_nat (payload_len ev)) DnsHdr_LEN) as [|Hhdr]; [done|].
  lift_step. fold (ev_message ev). lift_step.
  apply bind_ext. intros n slot' Hq. apply zoom_ok in Hq as [out Hq].
  apply parse_qname_lengths in Hq as (_ & Hn1 & Hn2); [|unfold isize_max; len_lia].
  rewrite !bind_lift. destruct (DnsHdr_from (ev_message ev)) as [hdr|e|f]; [|done..].
  change DnsHdr_LEN with 12%nat in *. lift_step. lift_step.
  destruct (_ <? _)%nat eqn:Hn; [done|]. bools. lift_step. apply bind_ret_tt.
Qed.

(** ** Totality, panics and errors *)

Lemma DnsHdr_from_yields msg :
  Z.of_nat (length msg) <= isize_max ->
  yields (DnsHdr_from msg) (fun h => header_ok h) (fun e => e = UnexpectedEndOfPayload).
Proof.
  intros Hsize. unfold DnsHdr_from. apply yields_if; intros Hl; bools; [done|].
  change DnsHdr_LEN with 12%nat in Hl.
  assert (Hu : forall i, (i + 2 <= 12)%nat -> exists v, u16_at msg i = Ok v /\ 0 <= v < 2 ^ 16).
  { intros i Hi. exists (be_Z (read i 2 msg)). split; [apply u16_at_read; lia|].
    apply be_Z_2_range, length_read. lia. }
  destruct (Hu 0%nat ltac:(lia)) as (v0 & -> & ?).
  destruct (Hu 2%nat ltac:(lia)) as (v2 & -> & ?).
  destruct (Hu 4%nat ltac:(lia)) as (v4 & -> & ?).
  destruct (Hu 6%nat ltac:(lia)) as (v6 & -> & ?).
  destruct (Hu 8%nat ltac:(lia)) as (v8 & -> & ?).
  destruct (Hu 10%nat ltac:(lia)) as (v10 & -> & ?).
  cbn [obind yields]. unfold header_ok. by rewrite !Forall_cons.
Qed.

(** What a successfully parsed response satisfies. *)
Definition response_ok (ev : RawDnsEvent) (r : DnsResponse) : Prop :=
  addr_ok r /\ same_head (set_domain_name (domain_name r) (head_response ev)) r /\
  (length (domain_name r) <= 254)%nat /\
  Z.of_nat (length (resolved_ip_raw r)) <= 16 * 65535 /\
  Z.of_nat (length (resolved_ip r)) <= 42 * 65535 /\
  is_ascii (domain_name r) = true /\ is_ascii (resolved_ip r) = true.

(** The errors a malformed message can cause. *)
Definition message_error (e : DnsParseError) : Prop :=
  name_error e \/ e = LabelExceedsMaxLen \/ e = NonAsciiDomainName.

Lemma parse_qname_runs p :
  Z.of_nat (length p) <= isize_max ->
  runs (parse_qname p) []
    (fun out n => (length out <= 254)%nat /\ (n <= 256)%nat /\ is_ascii out = true)
    (fun _ e => message_error e).
Proof.
  intros Hsize. unfold runs. destruct (parse_qname p []) as [out r] eqn:Hp.
  pose proof Hp as Hp'. apply parse_qname_inv in Hp; [|done].
  destruct Hp as (ls & rest & r' & Hls & _ & _ & Hend & -> & ->).
  destruct Hend; simpl; unfold message_error, name_error; try naive_solver.
  simpl in Hp'. destruct (parse_qname_lengths p _ _ Hsize Hp') as (? & ? & ?).
  split_and!; [done|lia|by apply join_dots_ascii].
Qed.

Lemma dns_body_runs ev msg :
  Z.of_nat (length msg) <= isize_max ->
  runs (dns_body msg) (head_response ev) (fun r _ => response_ok ev r)
    (fun _ e => message_error e).
Proof.
  intros Hsize. unfold dns_body. apply runs_if; intros Hl; bools; [by left; left|].
  change DnsHdr_LEN with 12%nat in *.
  apply runs_bind, runs_zoom. eapply runs_mono; [apply parse_qname_runs; len_lia| |done].
  intros out n (Hout & Hn & Hasc). cbv beta. apply runs_bind, runs_lift.
  eapply yields_mono; [by apply DnsHdr_from_yields| |by intros e ->; left; left].
  intros h Hh. cbv beta. apply runs_if; intros Hr; bools; [by left; left|].
  eapply runs_mono; [apply parse_rdata_runs; len_lia| |]; cbv beta.
  - intros r _ (Ha & Hhead & Hg & Hres). unfold header_ok in Hh.
    rewrite !Forall_cons in Hh. destruct Hh as (_ & _ & _ & Han & _).
    unfold response_ok, grows in *. simpl in Hg.
    destruct Hhead as (? & ? & ? & ? & ? & Hdom). simpl in Hdom.
    split_and!; [by apply Ha; left| |by rewrite Hdom|lia|lia|by rewrite Hdom|by apply Hres].
    rewrite Hdom. by split_and!.
  - intros r e [_ He]. by left.
Qed.

Lemma parse_dns_into_runs ev slot :
  arrays_ok ev -> 0 <= payload_len ev <= 512 ->
  runs (parse_dns_into ev) slot (fun r _ => response_ok ev r)
    (fun _ e => message_error e \/ exists af, af <> AF_INET /\ af <> AF_INET6 /\
                                               e = UnsupportedAddressFamily af).
Proof.
  intros Harr Hlen. pose proof Harr as (Hs & Hd & Hp).
  assert (Hun : forall ip, ~ family_ok ip -> exists af, af <> AF_INET /\ af <> AF_INET6 /\
    UnsupportedAddressFamily (family ip) = UnsupportedAddressFamily af).
  { intros ip Hf. exists (family ip). unfold family_ok in Hf. tauto. }
  destruct (family_ok_dec (ev_src_ip ev)) as [Hfs|Hfs].
  2:{ unfold runs, parse_dns_into. rewrite bind_modify. unfold bind, zoom.
      rewrite parse_ip_unsupported by done. right. by apply Hun. }
  destruct (family_ok_dec (ev_dst_ip ev)) as [Hfd|Hfd].
  2:{ unfold runs, parse_dns_into. rewrite bind_modify. unfold bind, zoom.
      rewrite parse_ip_ok, parse_ip_unsupported by done. right. by apply Hun. }
  apply (runs_ext _ (fun _ => dns_body (ev_message ev) (head_response ev)));
    [by apply parse_dns_into_body|].
  eapply runs_mono; [apply (dns_body_runs ev); unfold ev_message, isize_max; len_lia|done|].
  intros s' e He. by left.
Qed.

(** C9: on an event whose payload length fits the payload array, parsing
    neither panics nor loops.  It either succeeds with a response that carries
    the event's addresses, ports and time, whose announced family is backed by
    the bytes of at least one address, and whose texts are bounded and ASCII; or it
    fails with an error that names an unsupported family or a malformed
    message, never with [FormatError]. *)
Theorem parse_dns_into_total ev slot :
  arrays_ok ev -> 0 <= payload_len ev <= 512 ->
  runs (parse_dns_into ev) slot (fun r _ => response_ok ev r)
    (fun _ e => message_error e \/ exists af, af <> AF_INET /\ af <> AF_INET6 /\
                                               e = UnsupportedAddressFamily af).
Proof. apply parse_dns_into_runs. Qed.

(** C35: the parser panics exactly when both addresses have a supported family
    and the announced payload length exceeds the 512-byte array: the length
    is used as a slice bound without a check. *)
Theorem parse_dns_into_panics_iff ev slot :
  arrays_ok ev -> 0 <= payload_len ev ->
  (exists slot' f, parse_dns_into ev slot = (slot', Fault f)) <->
  family_ok (ev_src_ip ev) /\ family_ok (ev_dst_ip ev) /\ 512 < payload_len ev.
Proof.
  intros Harr Hlen. pose proof Harr as (Hs & Hd & Hp). split.
  - intros (slot' & f & Hf).
    destruct (Z.le_gt_cases (payload_len ev) 512) as [Hle|Hgt].
    { pose proof (parse_dns_into_runs ev slot Harr (conj Hlen Hle)) as H.
      unfold runs in H. by rewrite Hf in H. }
    revert Hf. unfold parse_dns_into. rewrite bind_modify.
    destruct (family_ok_dec (ev_src_ip ev)) as [Hfs|Hfs].
    2:{ unfold bind, zoom. by rewrite parse_ip_unsupported by done. }
    destruct (family_ok_dec (ev_dst_ip ev)) as [Hfd|Hfd]; [done|].
    unfold bind, zoom. by rewrite parse_ip_ok, parse_ip_unsupported by done.
  - intros (Hfs & Hfd & Hgt). unfold MAX_DNS_PAYLOAD_SIZE in Hp.
    exists (head_response ev), SliceIndex. unfold parse_dns_into.
    rewrite bind_modify, reset_slot_default.
    unfold bind at 1, zoom at 1. rewrite parse_ip_ok by done. cbv beta iota.
    unfold bind at 1, zoom at 1. rewrite parse_ip_ok by done. cbv beta iota.
    rewrite !bind_modify. change (set_timestamp_ns _ _) with (head_response ev). cbv zeta.
    change DnsHdr_LEN with 12%nat. rewrite (proj2 (Nat.ltb_ge _ _)) by lia.
    rewrite bind_lift. unfold slice_to. by rewrite (proj2 (Nat.leb_gt _ _)) by lia.
Qed.

(** ** What the result depends on *)

(** Two events that agree on everything the program is meant to look at: they
    may differ in padding and in the payload bytes after the message. *)
Definition same_event (ev ev' : RawDnsEvent) : Prop :=
  bytes (ev_src_ip ev) = bytes (ev_src_ip ev') /\
  family (ev_src_ip ev) = family (ev_src_ip ev') /\
  bytes (ev_dst_ip ev) = bytes (ev_dst_ip ev') /\
  family (ev_dst_ip ev) = family (ev_dst_ip ev') /\
  ev_src_port ev = ev_src_port ev' /\ ev_dst_port ev = ev_dst_port ev' /\
  ev_timestamp_ns ev = ev_timestamp_ns ev' /\ payload_len ev = payload_len ev' /\
  ev_message ev = ev_message ev'.

Lemma parse_dns_into_bad_src ev slot :
  ~ family_ok (ev_src_ip ev) ->
  parse_dns_into ev slot =
  (DnsResponse_default, Err (UnsupportedAddressFamily (family (ev_src_ip ev)))).
Proof.
  intros Hf. unfold parse_dns_into. rewrite bind_modify, reset_slot_default.
  unfold bind, zoom. by rewrite parse_ip_unsupported.
Qed.

Lemma parse_dns_into_bad_dst ev slot :
  arrays_ok ev -> family_ok (ev_src_ip ev) -> ~ family_ok (ev_dst_ip ev) ->
  parse_dns_into ev slot =
  (set_src_ip (ip_text (ev_src_ip ev)) DnsResponse_default,
   Err (UnsupportedAddressFamily (family (ev_dst_ip ev)))).
Proof.
  intros (Hs & _) Hfs Hf. unfold parse_dns_into. rewrite bind_modify, reset_slot_default.
  unfold bind, zoom. by rewrite parse_ip_ok, parse_ip_unsupported.
Qed.

Lemma parse_dns_into_same ev ev' slot slot' :
  arrays_ok ev -> arrays_ok ev' -> 0 <= payload_len ev <= 512 -> same_event ev ev' ->
  parse_dns_into ev slot = parse_dns_into ev' slot'.
Proof.
  intros Ha Ha' Hlen (Hsb & Hsf & Hdb & Hdf & Hsp & Hdp & Hts & Hpl & Hm).
  assert (Ht : head_response ev = head_response ev').
  { unfold head_response, ip_text. by rewrite Hsb, Hsf, Hdb, Hdf, Hsp, Hdp, Hts. }
  assert (Hfs : family_ok (ev_src_ip ev) <-> family_ok (ev_src_ip ev'))
    by (unfold family_ok; by rewrite Hsf).
  assert (Hfd : family_ok (ev_dst_ip ev) <-> family_ok (ev_dst_ip ev'))
    by (unfold family_ok; by rewrite Hdf).
  destruct (family_ok_dec (ev_src_ip ev)) as [H1|H1].
  2:{ rewrite !parse_dns_into_bad_src by tauto. by rewrite Hsf. }
  destruct (family_ok_dec (ev_dst_ip ev)) as [H2|H2].
  2:{ rewrite !parse_dns_into_bad_dst by tauto. unfold ip_text. by rewrite Hsb, Hsf, Hdf. }
  rewrite !parse_dns_into_body by (tauto || lia). by rewrite Hm, Ht.
Qed.

(** The result and the final slot are a function of the event's
    addresses, ports, time and message alone: nothing of the response that was
    in the reused slot survives, and neither padding nor the stale bytes behind
    the message are ever looked at. *)
Theorem parse_dns_into_pure ev ev' slot slot' :
  arrays_ok ev -> arrays_ok ev' -> 0 <= payload_len ev <= 512 -> same_event ev ev' ->
  parse_dns_into ev slot = parse_dns_into ev' slot'.
Proof. apply parse_dns_into_same. Qed.

(** ** Encoded messages *)

Lemma length_encode_header h : length (encode_header h) = 12%nat.
Proof. reflexivity. Qed.
#[export] Hint Rewrite length_encode_header : rust.

Lemma DnsHdr_from_encoded h rest :
  header_ok h -> Z.of_nat (length rest) <= isize_max - 12 ->
  DnsHdr_from (encode_header h ++ rest) = Ok h.
Proof.
  intros Hh Hsize. unfold header_ok in Hh. rewrite !Forall_cons in Hh.
  destruct Hh as (? & ? & ? & ? & ? & ? & _).
  unfold DnsHdr_from. change DnsHdr_LEN with 12%nat.
  rewrite (proj2 (Nat.ltb_ge _ _)) by len_lia.
  rewrite !u16_at_read by len_lia. cbn [obind].
  unfold encode_header. rewrite <-!app_assoc.
  destruct h as [h1 h2 h3 h4 h5 h6]; cbn [transaction_id flags questions answer_rrs authority_rrs additional_rrs] in *.
  do 2 f_equal; read_apps; by apply be_Z_be_bytes_small.
Qed.

Lemma dns_body_message h ls qtype qclass section r :
  header_ok h -> Forall qlabel_ok ls -> (length (encode_labels ls) <= 255)%nat ->
  Z.of_nat (length (encode_message h ls qtype qclass section)) <= 512 ->
  domain_name r = [] ->
  dns_body (encode_message h ls qtype qclass section) r =
  parse_rdata section (answer_rrs h) (set_domain_name (join_dots ls) r).
Proof.
  intros Hh Hls Hlen Hsize Hr. unfold dns_body, encode_message in *.
  change DnsHdr_LEN with 12%nat. autorewrite with rust in Hsize.
  rewrite (proj2 (Nat.ltb_ge _ _)) by len_lia.
  assert (Hn : length (encode_name ls) = S (length (encode_labels ls))) by len_lia.
  change 12%nat with (length (encode_header h)) at 1. rewrite drop_app_length.
  unfold bind at 1, zoom. rewrite Hr.
  rewrite parse_qname_run_name by (done || (unfold isize_max; len_lia)). cbv beta iota.
  rewrite bind_lift, DnsHdr_from_encoded by (done || (unfold isize_max; len_lia)).
  rewrite (proj2 (Nat.ltb_ge _ _)) by len_lia. do 2 f_equal.
  rewrite <-!drop_drop. change 12%nat with (length (encode_header h)).
  rewrite drop_app_length, drop_app_length. rewrite app_assoc. by rewrite drop_app_length'.
Qed.

(** The event that carries a message. *)
Definition carries (ev : RawDnsEvent) (msg : list byte) : Prop :=
  arrays_ok ev /\ family_ok (ev_src_ip ev) /\ family_ok (ev_dst_ip ev) /\
  0 <= payload_len ev <= 512 /\ ev_message ev = msg.

(** Parsing a message is parsing its answer section into the response that
    names the question. *)
Lemma parse_dns_into_section ev slot h ls qtype qclass section :
  carries ev (encode_message h ls qtype qclass section) ->
  header_ok h -> Forall qlabel_ok ls -> (length (encode_labels ls) <= 255)%nat ->
  parse_dns_into ev slot =
  parse_rdata section (answer_rrs h) (set_domain_name (join_dots ls) (head_response ev)).
Proof.
  intros (Ha & Hs & Hd & Hl & Hm) Hh Hls Hlen.
  rewrite parse_dns_into_body, Hm by done. apply dns_body_message; try done.
  rewrite <-Hm. unfold ev_message. len_lia.
Qed.

Lemma parse_A_response ev slot h ls qtype qclass nm cl ttl a b c d rest :
  let r := {| rr_name := nm; rr_type := 1; rr_class := cl; rr_ttl := ttl;
              rr_data := [a; b; c; d] |} in
  carries ev (encode_message h ls qtype qclass (encode_rr r ++ rest)) ->
  header_ok h -> answer_rrs h = 1 -> Forall qlabel_ok ls ->
  (length (encode_labels ls) <= 255)%nat -> rr_ok r ->
  exists resp, parse_dns_into ev slot = (resp, Ok tt) /\
    domain_name resp = join_dots ls /\ ip_family resp = AF_INET /\
    resolved_ip_raw resp = [a; b; c; d] /\
    read_ipv4 (resolved_ip resp) = Some [a; b; c; d] /\
    src_ip resp = ip_text (ev_src_ip ev) /\ dst_ip resp = ip_text (ev_dst_ip ev) /\
    src_port resp = ev_src_port ev /\ dst_port resp = ev_dst_port ev /\
    timestamp_ns resp = ev_timestamp_ns ev.
Proof.
  intros r Hc Hh Han Hls Hlen Hr.
  rewrite (parse_dns_into_section ev slot _ _ _ _ _ Hc Hh Hls Hlen), Han.
  assert (Hsize : Z.of_nat (length (encode_rr r ++ rest)) <= isize_max).
  { destruct Hc as (_ & _ & _ & Hl & Hm). apply (f_equal length) in Hm.
    unfold ev_message, encode_message in Hm. unfold isize_max. len_lia. }
  rewrite rdata_single by done. subst r. rewrite rr_effect_A.
  eexists. split; [done|]. cbn -[ipv4_display read_ipv4]. by rewrite read_ipv4_display.
Qed.

(** C18: round trip for a response with one A record, its owner name plain or
    compressed: the parser recovers the question's dotted name and the four
    address bytes, raw and as a text from which they can be read back, next to
    the event's own fields. *)
Theorem parse_dns_into_A ev slot h ls qtype qclass nm cl ttl a b c d rest :
  let r := {| rr_name := nm; rr_type := 1; rr_class := cl; rr_ttl := ttl;
              rr_data := [a; b; c; d] |} in
  carries ev (encode_message h ls qtype qclass (encode_rr r ++ rest)) ->
  header_ok h -> answer_rrs h = 1 -> Forall qlabel_ok ls ->
  (length (encode_labels ls) <= 255)%nat -> rr_ok r ->
  exists resp, parse_dns_into ev slot = (resp, Ok tt) /\
    domain_name resp = join_dots ls /\ ip_family resp = AF_INET /\
    resolved_ip_raw resp = [a; b; c; d] /\
    read_ipv4 (resolved_ip resp) = Some [a; b; c; d] /\
    src_ip resp = ip_text (ev_src_ip ev) /\ dst_ip resp = ip_text (ev_dst_ip ev) /\
    src_port resp = ev_src_port ev /\ dst_port resp = ev_dst_port ev /\
    timestamp_ns resp = ev_timestamp_ns ev.
Proof. apply parse_A_response. Qed.

(** C36: a response without answers is accepted, without an address, when
    other records follow the question; when nothing follows it the complete
    message is rejected as a truncated one. *)
Theorem parse_dns_into_no_answer ev slot h ls qtype qclass section :
  carries ev (encode_message h ls qtype qclass section) ->
  header_ok h -> answer_rrs h = 0 -> Forall qlabel_ok ls ->
  (length (encode_labels ls) <= 255)%nat ->
  parse_dns_into ev slot =
  (set_domain_name (join_dots ls) (head_response ev),
   if bool_decide (section = []) then Err UnexpectedEndOfPayload else Ok tt).
Proof.
  intros Hc Hh Han Hls Hlen.
  rewrite (parse_dns_into_section ev slot _ _ _ _ _ Hc Hh Hls Hlen), Han.
  unfold parse_rdata. by case_bool_decide.
Qed.

(** ** Witnesses *)

Definition example_header (answers : Z) : DnsHdr :=
  {| transaction_id := 4660; flags := 33152; questions := 1; answer_rrs := answers;
     authority_rrs := 0; additional_rrs := 0 |}.

Definition example_message (answers : Z) (section : list byte) : list byte :=
  encode_message (example_header answers) example_labels 1 1 section.

(** A message in an event whose remaining payload bytes are all [fill]. *)
Definition event_with (fill : byte) (len : Z) (msg : list byte) : RawDnsEvent :=
  {| ev_src_ip := {| bytes := [x08; x08; x08; x08] ++ replicate 12 x00;
                     family := AF_INET; ip_pad := 0 |};
     ev_dst_ip := {| bytes := [xc0; xa8; x00; x02] ++ replicate 12 x00;
                     family := AF_INET; ip_pad := 0 |};
     ev_src_port := 53; ev_dst_port := 40000; ev_pad := 0; payload_len := len;
     ev_timestamp_ns := 7; payload := msg ++ replicate (512 - length msg) fill |}.

Definition example_event (fill : byte) : RawDnsEvent :=
  let msg := example_message 1 (encode_rr example_a1) in
  event_with fill (Z.of_nat (length msg)) msg.

Lemma example_event_carries fill :
  carries (example_event fill) (example_message 1 (encode_rr example_a1)).
Proof. repeat split; try (by left); vm_compute; done || by destruct fill. Qed.

Lemma example_labels_ok :
  Forall qlabel_ok example_labels /\ (length (encode_labels example_labels) <= 255)%nat.
Proof. split; [repeat constructor; simpl; lia|simpl; lia]. Qed.

Lemma example_header_ok n : 0 <= n < 2 ^ 16 -> header_ok (example_header n).
Proof. intros. unfold header_ok. cbn -[Z.pow]. repeat constructor; lia. Qed.

Lemma parse_dns_into_total_witness :
  runs (parse_dns_into (example_event xff)) DnsResponse_default
    (fun r _ => response_ok (example_event xff) r)
    (fun _ e => message_error e \/ exists af, af <> AF_INET /\ af <> AF_INET6 /\
                                               e = UnsupportedAddressFamily af).
Proof.
  apply parse_dns_into_total; destruct (example_event_carries xff) as (? & _ & _ & ? & _); done.
Defined.

Lemma parse_dns_into_panics_iff_witness :
  exists slot' f, parse_dns_into (event_with x00 513 []) DnsResponse_default = (slot', Fault f).
Proof. apply parse_dns_into_panics_iff; [done|done|split_and!; [by left|by left|done]]. Defined.

Lemma parse_dns_into_pure_witness :
  parse_dns_into (example_event x00) DnsResponse_default =
  parse_dns_into (example_event xff) (set_resolved_ip_raw [x01] DnsResponse_default).
Proof.
  apply parse_dns_into_pure; [apply example_event_carries..|].
  unfold same_event. by split_and!.
Defined.

Lemma parse_dns_into_A_witness :
  exists resp, parse_dns_into (example_event x00) DnsResponse_default = (resp, Ok tt) /\
    domain_name resp = bytes_of "leetcode.com" /\
    resolved_ip_raw resp = [x0a; x00; x00; x01].
Proof.
  destruct (parse_dns_into_A (example_event x00) DnsResponse_default (example_header 1)
    example_labels 1 1 pointer_name 1 60 x0a x00 x00 x01 [])
    as (resp & H & Hd & _ & Hr & _).
  - rewrite app_nil_r. apply example_event_carries.
  - by apply example_header_ok.
  - reflexivity.
  - apply example_labels_ok.
  - apply example_labels_ok.
  - apply example_a_ok.
  - exists resp. split; [exact H|]. split; [rewrite Hd; reflexivity|exact Hr].
Defined.

Definition empty_event : RawDnsEvent :=
  event_with x00 (Z.of_nat (length (example_message 0 []))) (example_message 0 []).

Lemma parse_dns_into_no_answer_witness :
  (parse_dns_into empty_event DnsResponse_default).2 = Err UnexpectedEndOfPayload.
Proof.
  rewrite (parse_dns_into_no_answer empty_event _ (example_header 0) example_labels 1 1 []).
  - reflexivity.
  - repeat split; try (by left); vm_compute; done.
  - by apply example_header_ok.
  - reflexivity.
  - apply example_labels_ok.
  - apply example_labels_ok.
Defined.
