(* ===== verification/Policy.v ===== *)
(** * The FQDN policy engine

    [src/cilium-mini-rs/src/policy.rs]: the observer that adds the address of
    an allowed domain to the kernel's ALLOWED_IP_MAP.  The BPF hash map is
    code of the aya crate and the kernel: it is a parameter, described by the
    interface [BpfHashMap] and the documented behaviour of its operations.
    Every theorem is about any such map; [BoundedMap] is only an example of
    one, on which the witnesses evaluate. *)

From Stdlib Require Import Strings.Byte NArith ZArith Lia.
From stdpp Require Import base tactics numbers list strings gmap.
From S2P Require Import Prelude RustStd Common Proto Parser Names Answers Decode.

Local Open Scope Z_scope.

(** ** The BPF hash map *)

(** Operations of [aya::maps::HashMap<MapData, RawIpAddr, u8>]. *)
Class BpfHashMap (M : Type) := {
  MapError : Type;
  (** [insert(key, value, flags)] *)
  map_insert : RawIpAddr -> Z -> Z -> M -> outcome MapError M;
  (** what a lookup of a key finds *)
  map_lookup : M -> RawIpAddr -> option Z
}.

(** [bpf_map_update_elem] with flags 0 (BPF_ANY) binds the key and leaves the
    other keys alone, or fails; it never panics. *)
Class BpfHashMapLaws (M : Type) `{BpfHashMap M} := {
  map_insert_same k v m m' : map_insert k v 0 m = Ok m' -> map_lookup m' k = Some v;
  map_insert_other k k' v m m' :
    map_insert k v 0 m = Ok m' -> k <> k' -> map_lookup m' k' = map_lookup m k';
  map_insert_no_fault k v m f : map_insert k v 0 m <> Fault f
}.

(** ** The engine *)

(** The observer interface of the pipeline ([trait DnsObserver]). *)
Class DnsObserver (O E : Type) := {
  update : DnsResponse -> prog O E unit
}.

Section Engine.
Context {M : Type} `{!BpfHashMap M}.

Record FqdnPolicyEngine := {
  allowed_ip_map : M;
  allowed_domains : gset (list byte)
}.

(** The [anyhow] errors of [update]. *)
Inductive PolicyError :=
  | Expected4Bytes (got : nat)
  | Expected16Bytes (got : nat)
  | FamilyNotParsed
  | MapInsert (e : MapError).

(** [self.allowed_ip_map.insert(ip_addr, 0, 0)?] *)
Definition insert_ip (ip_addr : RawIpAddr) : prog FqdnPolicyEngine PolicyError unit :=
  fun self => match map_insert ip_addr 0 0 (allowed_ip_map self) with
              | Ok m => ({| allowed_ip_map := m; allowed_domains := allowed_domains self |}, Ok tt)
              | Err e => (self, Err (MapInsert e))
              | Fault f => (self, Fault f)
              end.

(** [impl DnsObserver for FqdnPolicyEngine] *)
Definition engine_update (dns_response : DnsResponse) : prog FqdnPolicyEngine PolicyError unit :=
  let! domains := gets allowed_domains in
  if negb (bool_decide (domain_name dns_response ∈ domains)) then ret tt
  else
    let raw := resolved_ip_raw dns_response in
    let! ip_addr :=
      (if ip_family dns_response =? AF_INET then
         let! chunk := lift (unwrap (first_chunk_exact 4 raw)) in
         let! addr := lift (map_err (try_into_array 4 chunk) (Expected4Bytes (length raw))) in
         lift (from_ipv4 addr)
       else if ip_family dns_response =? AF_INET6 then
         let! chunk := lift (unwrap (first_chunk_exact 16 raw)) in
         let! addr := lift (map_err (try_into_array 16 chunk) (Expected16Bytes (length raw))) in
         ret (from_ipv6 addr)
       else throw FamilyNotParsed) in
    insert_ip ip_addr.

#[export] Instance engine_observer : DnsObserver FqdnPolicyEngine PolicyError :=
  {| update := engine_update |}.

(** [FqdnPolicyEngine::new]: [try_from] is [HashMap::try_from] on the loaded
    map. *)
Definition engine_new {Map} (try_from : Map -> outcome unit M) (ebpf_map : Map)
    (domains : gset (list byte)) : outcome unit FqdnPolicyEngine :=
  let? m := try_from ebpf_map in
  Ok {| allowed_ip_map := m; allowed_domains := domains |}.

(** ** The address a response authorises *)

(** The first [n] bytes of the collected addresses, by announced family. *)
Definition first_address (r : DnsResponse) : RawIpAddr :=
  if ip_family r =? AF_INET then
    {| bytes := take 4 (resolved_ip_raw r) ++ replicate 12 x00; family := AF_INET; ip_pad := 0 |}
  else from_ipv6 (take 16 (resolved_ip_raw r)).

(** The bytes the announced family needs are there. *)
Definition enough_bytes (r : DnsResponse) : Prop :=
  (ip_family r = AF_INET -> (4 <= length (resolved_ip_raw r))%nat) /\
  (ip_family r = AF_INET6 -> (16 <= length (resolved_ip_raw r))%nat).

Definition known_family (r : DnsResponse) : Prop :=
  ip_family r = AF_INET \/ ip_family r = AF_INET6.

Lemma addr_ok_enough r : addr_ok r -> enough_bytes r.
Proof.
  unfold addr_ok, enough_bytes, AF_INET, AF_INET6.
  intros [H|[[H ?]|[H ?]]]; split; intros H'; by (done || congruence).
Qed.

(** What [update] does, branch by branch. *)
Lemma update_skip r eng :
  domain_name r ∉ allowed_domains eng -> engine_update r eng = (eng, Ok tt).
Proof.
  intros H. unfold engine_update, bind at 1, gets. by rewrite bool_decide_eq_false_2.
Qed.

Lemma update_insert r eng :
  domain_name r ∈ allowed_domains eng -> known_family r -> enough_bytes r ->
  engine_update r eng = insert_ip (first_address r) eng.
Proof.
  intros Hd Hf [H4 H16]. unfold engine_update, bind at 1, gets.
  rewrite bool_decide_eq_true_2 by done. unfold first_address. cbn [negb].
  destruct Hf as [Hf|Hf]; rewrite Hf; cbn [Z.eqb AF_INET AF_INET6 Pos.eqb].
  - rewrite bind_assoc, bind_lift, first_chunk_exact_some by auto. cbn [unwrap].
    rewrite bind_assoc, bind_lift, try_into_array_ok by (rewrite length_take; specialize (H4 Hf); lia).
    cbn [map_err]. rewrite bind_lift, from_ipv4_ok; [done|].
    rewrite length_take. specialize (H4 Hf). lia.
  - rewrite bind_assoc, bind_lift, first_chunk_exact_some by auto. cbn [unwrap].
    rewrite bind_assoc, bind_lift, try_into_array_ok by (rewrite length_take; specialize (H16 Hf); lia).
    done.
Qed.

Lemma update_no_family r eng :
  domain_name r ∈ allowed_domains eng -> ~ known_family r ->
  engine_update r eng = (eng, Err FamilyNotParsed).
Proof.
  intros Hd Hf. unfold known_family in Hf. unfold engine_update, bind at 1, gets.
  rewrite bool_decide_eq_true_2 by done. cbn [negb].
  by rewrite !(proj2 (Z.eqb_neq _ _)) by tauto.
Qed.

Lemma known_family_dec r : {known_family r} + {~ known_family r}.
Proof. apply (decide (ip_family r = AF_INET \/ ip_family r = AF_INET6)). Qed.

(** ** Results of [update] *)

Context `{!BpfHashMapLaws M}.

Lemma insert_ip_runs ip eng :
  runs (insert_ip ip) eng
    (fun eng' _ => map_lookup (allowed_ip_map eng') ip = Some 0 /\
       (forall k, k <> ip -> map_lookup (allowed_ip_map eng') k =
                             map_lookup (allowed_ip_map eng) k) /\
       allowed_domains eng' = allowed_domains eng)
    (fun eng' e => eng' = eng /\ exists me, e = MapInsert me).
Proof.
  unfold runs, insert_ip. destruct (map_insert _ _ _ _) as [m|e|f] eqn:Hm; simpl.
  - split_and!; [by eapply map_insert_same| |done].
    intros k Hk. by eapply map_insert_other.
  - eauto.
  - by apply map_insert_no_fault in Hm.
Qed.

(** The branch taken, with the state it leaves. *)
Lemma engine_update_runs r eng :
  enough_bytes r ->
  runs (engine_update r) eng
    (fun eng' _ => allowed_domains eng' = allowed_domains eng /\
       ((domain_name r ∉ allowed_domains eng /\ eng' = eng) \/
        (domain_name r ∈ allowed_domains eng /\ known_family r /\
         map_lookup (allowed_ip_map eng') (first_address r) = Some 0 /\
         forall k, k <> first_address r ->
           map_lookup (allowed_ip_map eng') k = map_lookup (allowed_ip_map eng) k)))
    (fun eng' e => eng' = eng /\ domain_name r ∈ allowed_domains eng /\
       ((e = FamilyNotParsed /\ ~ known_family r) \/
        (known_family r /\ exists me, e = MapInsert me))).
Proof.
  intros Henough.
  destruct (decide (domain_name r ∈ allowed_domains eng)) as [Hd|Hd].
  2:{ unfold runs. rewrite update_skip by done. auto. }
  destruct (known_family_dec r) as [Hf|Hf].
  2:{ unfold runs. rewrite update_no_family by done. auto. }
  eapply runs_ext; [by apply update_insert|].
  eapply runs_mono; [apply insert_ip_runs| |]; cbv beta.
  - intros eng' _ (H1 & H2 & H3). split; [done|]. right. by split_and!.
  - intros eng' e [-> He]. split_and!; [done..|]. by right.
Qed.
End Engine.

Arguments FqdnPolicyEngine M : clear implicits.
Arguments PolicyError M {_}.

(** ** An example of such a map *)

(** The number of entries the program declares. *)
Definition ALLOWED_IP_MAP_ENTRIES : nat := 1024.

(** A map that refuses a new key when it has that many; an instance of the
    interface for the witnesses, not a model of the kernel's map. *)
Record BoundedMap := { entries : gmap RawIpAddr Z }.

Inductive BpfError := E2BIG.

#[export] Instance bounded_map : BpfHashMap BoundedMap :=
  {| MapError := BpfError;
     map_insert k v _ m :=
       if bool_decide (is_Some (entries m !! k)) ||
          (size (entries m) <? ALLOWED_IP_MAP_ENTRIES)%nat
       then Ok {| entries := <[k := v]> (entries m) |} else Err E2BIG;
     map_lookup m k := entries m !! k |}.

#[export] Instance bounded_map_laws : BpfHashMapLaws BoundedMap.
Proof.
  split; cbn.
  - intros k v m m'. case_match; [|done]. intros [= <-]. apply lookup_insert_eq.
  - intros k k' v m m'. case_match; [|done]. intros [= <-] ?. by apply lookup_insert_ne.
  - intros k v m f. by case_match.
Qed.

(** ** Properties *)

Section Properties.
Context {M : Type} `{!BpfHashMap M} `{!BpfHashMapLaws M}.

(** C23: specification of [update] on a response whose announced family is
    backed by enough bytes.  It never panics; the allowed domains never
    change; an unknown domain changes nothing; for an allowed domain exactly
    the first collected address is bound to 0 and every other key of the map
    keeps its binding; on an error, an unparsed family or a refused insertion,
    the engine is unchanged and the length errors cannot occur. *)
Theorem update_spec r (eng : FqdnPolicyEngine M) :
  enough_bytes r ->
  runs (update r) eng
    (fun eng' _ => allowed_domains eng' = allowed_domains eng /\
       ((domain_name r ∉ allowed_domains eng /\ eng' = eng) \/
        (domain_name r ∈ allowed_domains eng /\ known_family r /\
         map_lookup (allowed_ip_map eng') (first_address r) = Some 0 /\
         forall k, k <> first_address r ->
           map_lookup (allowed_ip_map eng') k = map_lookup (allowed_ip_map eng) k)))
    (fun eng' e => eng' = eng /\ domain_name r ∈ allowed_domains eng /\
       ((e = FamilyNotParsed /\ ~ known_family r) \/
        (known_family r /\ exists me, e = MapInsert me))).
Proof. apply engine_update_runs. Qed.

(** C33: [update] panics exactly when an allowed domain comes with a family
    whose address does not fit in the collected bytes. *)
Theorem update_panics_iff r (eng : FqdnPolicyEngine M) :
  (exists eng' f, update r eng = (eng', Fault f)) <->
  domain_name r ∈ allowed_domains eng /\ ~ enough_bytes r.
Proof.
  split.
  - intros (eng' & f & Hf). change (update r eng) with (engine_update r eng) in Hf.
    assert (Hn : ~ enough_bytes r).
    { intros H. apply (engine_update_runs r eng) in H. unfold runs in H. by rewrite Hf in H. }
    split; [|done]. destruct (decide (domain_name r ∈ allowed_domains eng)); [done|].
    by rewrite update_skip in Hf.
  - intros [Hd Hn]. exists eng, UnwrapNone. change (update r eng) with (engine_update r eng). unfold engine_update, bind at 1, gets.
    rewrite bool_decide_eq_true_2 by done. cbn [negb].
    unfold enough_bytes in Hn.
    destruct (Z.eqb_spec (ip_family r) AF_INET) as [H4|H4].
    + rewrite bind_assoc, bind_lift. unfold first_chunk_exact.
      destruct (Nat.leb_spec 4 (length (resolved_ip_raw r))); [|done].
      destruct Hn. split; [done|]. rewrite H4. discriminate.
    + destruct (Z.eqb_spec (ip_family r) AF_INET6) as [H6|H6]; [|by destruct Hn].
      rewrite bind_assoc, bind_lift. unfold first_chunk_exact.
      destruct (Nat.leb_spec 16 (length (resolved_ip_raw r))); [|done].
      by destruct Hn.
Qed.

(** The map key of an IPv4 address. *)
Definition v4_key (q : byte * byte * byte * byte) : RawIpAddr :=
  {| bytes := quad_bytes q ++ replicate 12 x00; family := AF_INET; ip_pad := 0 |}.

Lemma first_address_v4 r q l :
  ip_family r = AF_INET -> resolved_ip_raw r = quad_bytes q ++ l -> first_address r = v4_key q.
Proof.
  intros Hf Hr. unfold first_address, v4_key. rewrite Hf, Hr.
  by destruct q as [[[a b] c] d].
Qed.

(** C34: when the response for an allowed domain lists several A records, the
    map ends up with the first address only; any other address keeps the
    binding it had, so a connection to it is not authorised. *)
Theorem other_addresses_not_authorised ev slot h ls qtype qclass ttl q1 q2 qs rest
    (eng : FqdnPolicyEngine M) :
  carries ev (encode_message h ls qtype qclass
                (concat (encode_rr ∘ a_record ttl <$> q1 :: q2 :: qs) ++ rest)) ->
  header_ok h -> answer_rrs h = Z.of_nat (length (q1 :: q2 :: qs)) ->
  Forall qlabel_ok ls -> (length (encode_labels ls) <= 255)%nat -> 0 <= ttl < 2 ^ 32 ->
  join_dots ls ∈ allowed_domains eng ->
  exists r, parse_dns_into ev slot = (r, Ok tt) /\
    forall eng', update r eng = (eng', Ok tt) ->
      map_lookup (allowed_ip_map eng') (v4_key q1) = Some 0 /\
      forall q, q <> q1 -> map_lookup (allowed_ip_map eng') (v4_key q) =
                           map_lookup (allowed_ip_map eng) (v4_key q).
Proof.
  intros Hc Hh Han Hls Hlen Httl Hdom.
  pose proof Hc as (_ & _ & _ & Hl & Hm). apply (f_equal length) in Hm.
  rewrite (parse_dns_into_section ev slot _ _ _ _ _ Hc Hh Hls Hlen), Han.
  destruct (rdata_addresses ttl q1 q2 qs rest
              (set_domain_name (join_dots ls) (head_response ev)))
    as (r & Hr & Hraw & _ & Hf & Hdn);
    [done|unfold ev_message, encode_message, isize_max in *; len_lia|].
  exists r. split; [done|]. intros eng' Hu. cbn in Hraw, Hdn. rewrite <-Hdn in Hdom.
  assert (Hfa : first_address r = v4_key q1).
  { eapply first_address_v4; [done|]. by rewrite Hraw. }
  assert (He : enough_bytes r).
  { split; [|by rewrite Hf]. intros _. rewrite Hraw. destruct q1 as [[[]]]. cbn. lia. }
  pose proof (runs_ok _ _ _ _ _ _ (engine_update_runs r eng He) Hu)
    as (_ & [[Hnd _]|(_ & _ & H1 & H2)]); [done|].
  rewrite Hfa in H1, H2. split; [done|]. intros q Hq. apply H2.
  intros Heq. apply Hq. destruct q as [[[]]], q1 as [[[]]]. by injection Heq as -> -> -> ->.
Qed.
End Properties.

(** ** Witnesses *)

Definition example_engine : FqdnPolicyEngine BoundedMap :=
  {| allowed_ip_map := {| entries := ∅ |}; allowed_domains := {[ bytes_of "leetcode.com" ]} |}.

Definition example_response : DnsResponse :=
  (parse_dns_into (example_event x00) DnsResponse_default).1.

Lemma example_response_parsed :
  parse_dns_into (example_event x00) DnsResponse_default = (example_response, Ok tt).
Proof. vm_compute. reflexivity. Qed.

Lemma update_spec_witness :
  enough_bytes example_response /\
  map_lookup (allowed_ip_map (update example_response example_engine).1)
    (v4_key (x0a, x00, x00, x01)) = Some 0.
Proof.
  assert (He : enough_bytes example_response) by (split; vm_compute; intros; lia || done).
  split; [exact He|].
  assert (Hu : update example_response example_engine =
               ((update example_response example_engine).1, Ok tt))
    by (apply run_returns; vm_compute; reflexivity).
  destruct (runs_ok _ _ _ _ _ _ (update_spec example_response example_engine He) Hu)
    as (_ & [[Hd _]|(_ & _ & H & _)]).
  - destruct Hd. vm_compute. reflexivity.
  - exact H.
Defined.

(** A response with the A records 10.0.0.1 and 10.0.0.2. *)
Definition two_answers_event : RawDnsEvent :=
  let msg := example_message 2 (encode_rr example_a1 ++ encode_rr example_a2) in
  event_with x00 (Z.of_nat (length msg)) msg.

Lemma other_addresses_not_authorised_witness :
  exists r, parse_dns_into two_answers_event DnsResponse_default = (r, Ok tt) /\
    map_lookup (allowed_ip_map (update r example_engine).1) (v4_key (x0a, x00, x00, x01)) = Some 0 /\
    map_lookup (allowed_ip_map (update r example_engine).1) (v4_key (x0a, x00, x00, x02)) = None.
Proof.
  destruct (other_addresses_not_authorised two_answers_event DnsResponse_default
    (example_header 2) example_labels 1 1 60 (x0a, x00, x00, x01) (x0a, x00, x00, x02) [] []
    example_engine) as (r & Hr & H).
  - repeat split; try (by left); vm_compute; done.
  - by apply example_header_ok.
  - reflexivity.
  - apply example_labels_ok.
  - apply example_labels_ok.
  - lia.
  - vm_compute. reflexivity.
  - exists r. split; [exact Hr|].
    assert (Hr' : r = (parse_dns_into two_answers_event DnsResponse_default).1) by (by rewrite Hr).
    destruct (H (update r example_engine).1) as [H1 H2].
    { apply run_returns. rewrite Hr'. vm_compute. reflexivity. }
    split; [exact H1|]. by apply H2.
Defined.

(** A response that announces IPv4 and carries no address. *)
Lemma update_panics_iff_witness :
  exists eng' f, update (set_ip_family AF_INET (set_domain_name (bytes_of "leetcode.com")
    DnsResponse_default)) example_engine = (eng', Fault f).
Proof.
  apply update_panics_iff. split; [vm_compute; reflexivity|].
  intros [H _]. specialize (H eq_refl). cbn in H. lia.
Defined.
