(* ===== verification/RingBuffer.v ===== *)
(** * The BPF ring buffer between kernel and daemon

    DNS_EVENTS_PIPE as both sides use it ([aya_ebpf::btf_maps::RingBuf] in the
    program, [aya::maps::RingBuf] in the daemon).  The buffer itself is kernel
    and library code, so it is an interface with the documented laws; [Fifo]
    is an implementation with the capacity the program declares. *)

From Stdlib Require Import Strings.Byte NArith ZArith Lia.
From stdpp Require Import base tactics numbers list.
From S2P Require Import Prelude Common.

Local Open Scope Z_scope.

(** The consumer's side. *)
Class RingReader (R : Type) := {
  (** [next()]: the oldest entry, when it is submitted *)
  rb_next : R -> option (list byte * R);
  (** the entries [next] hands out before it waits, oldest first *)
  rb_items : R -> list (list byte)
}.

Class RingReaderLaws (R : Type) `{!RingReader R} := {
  rb_next_some r e r' : rb_next r = Some (e, r') -> rb_items r = e :: rb_items r';
  rb_next_none r : rb_next r = None -> rb_items r = []
}.

(** The producer's side, as one run of the program sees it when no other run
    has an entry reserved; Cpus.v has the ring several runs share. *)
Class RingBuffer (R : Type) := {
  rb_reader :: RingReader R;
  (** [reserve(0)]: an entry of the event's size with unspecified bytes, or
      nothing when the buffer is full *)
  rb_reserve : R -> option (R * list byte);
  (** [submit(0)] of the reserved entry *)
  rb_submit : list byte -> R -> R
}.

Class RingBufferLaws (R : Type) `{!RingBuffer R} := {
  rb_reader_laws :: RingReaderLaws R;
  rb_reserve_spec r r' e :
    rb_reserve r = Some (r', e) -> rb_items r' = rb_items r /\ length e = EVENT_SIZE;
  rb_submit_spec e r : rb_items (rb_submit e r) = rb_items r ++ [e]
}.

(** [RingBuf<RawDnsEvent, 67108864, 0>]; the kernel puts a header of 8 bytes
    in front of every entry. *)
Definition DNS_EVENTS_PIPE_BYTES : Z := 67108864.
Definition RING_HEADER_BYTES : Z := 8.

Record Fifo := { fifo_items : list (list byte); fifo_fill : byte }.

Definition fifo_room (r : Fifo) : bool :=
  (Z.of_nat (length (fifo_items r)) + 1) * (Z.of_nat EVENT_SIZE + RING_HEADER_BYTES)
    <=? DNS_EVENTS_PIPE_BYTES.

#[export] Instance fifo_ring : RingBuffer Fifo :=
  {| rb_reader :=
       {| rb_next r := match fifo_items r with
                       | [] => None
                       | e :: es => Some (e, {| fifo_items := es; fifo_fill := fifo_fill r |})
                       end;
          rb_items := fifo_items |};
     rb_reserve r := if fifo_room r then Some (r, replicate EVENT_SIZE (fifo_fill r)) else None;
     rb_submit e r := {| fifo_items := fifo_items r ++ [e]; fifo_fill := fifo_fill r |} |}.

#[export] Instance fifo_ring_laws : RingBufferLaws Fifo.
Proof.
  split; [split|..]; cbn [rb_reserve rb_submit rb_next rb_items rb_reader fifo_ring].
  - intros [[|e' es] b] e r'; [done|]. cbn. by intros [= <- <-].
  - by intros [[|e' es] b].
  - intros r r' e. case_match; [|done]. generalize EVENT_SIZE as n. intros n. intros [= <- <-]. split; [done|].
    apply length_replicate.
  - done.
Qed.
