(* ===== verification/Ebpf.v ===== *)
(** * The eBPF classifier

    [src/cilium-mini-ebpf/src/main.rs]: [dns_tc] and everything it calls.
    Packet memory is the byte range [data, data_end) of the context; a load
    outside it is a fault, and so is an overflow of an address computation.
    The header types of the network_types crate are a parameter, the class
    [NetworkTypes]; the clock readings of [bpf_ktime_get_ns] are arguments;
    the ring buffer is the interface of RingBuffer.v. *)

From Stdlib Require Import Strings.Byte NArith ZArith Lia.
From stdpp Require Import base tactics numbers list strings.
From S2P Require Import Prelude Common RingBuffer.

Local Open Scope Z_scope.

Definition DNS_PORT : Z := 53.
Definition IPV4_MIN_HDR_LEN : nat := 20.
Definition IPV4_MAX_HDR_LEN : nat := 60.

(** ** The network_types crate *)

(** The cases of the crate's enums that the program distinguishes. *)
Inductive EtherType := EtherIpv4 | EtherIpv6 | EtherOther.
Inductive IpProto := ProtoUdp | ProtoOther.

(** Header sizes and accessors; an accessor reads the header's bytes, and
    [None] is the crate's error for an unknown code. *)
Class NetworkTypes := {
  EthHdr_LEN : nat;
  Ipv4Hdr_LEN : nat;
  Ipv6Hdr_LEN : nat;
  UdpHdr_LEN : nat;
  ether_type : list byte -> option EtherType;
  ipv4_src_addr : list byte -> list byte;
  ipv4_dst_addr : list byte -> list byte;
  ipv4_ihl : list byte -> nat;
  ipv4_proto : list byte -> option IpProto;
  ipv6_src_addr : list byte -> list byte;
  ipv6_dst_addr : list byte -> list byte;
  ipv6_next_hdr : list byte -> option IpProto;
  udp_src_port : list byte -> Z;
  udp_dst_port : list byte -> Z
}.

(** Address and port fields have the width of their types; the headers have
    the sizes of the wire format. *)
Class NetworkTypesLaws `{NetworkTypes} := {
  EthHdr_size : EthHdr_LEN = 14%nat;
  Ipv4Hdr_size : Ipv4Hdr_LEN = 20%nat;
  Ipv6Hdr_size : Ipv6Hdr_LEN = 40%nat;
  UdpHdr_size : UdpHdr_LEN = 8%nat;
  ipv4_src_width h : length h = Ipv4Hdr_LEN -> length (ipv4_src_addr h) = 4%nat;
  ipv4_dst_width h : length h = Ipv4Hdr_LEN -> length (ipv4_dst_addr h) = 4%nat;
  ipv6_src_width h : length h = Ipv6Hdr_LEN -> length (ipv6_src_addr h) = 16%nat;
  ipv6_dst_width h : length h = Ipv6Hdr_LEN -> length (ipv6_dst_addr h) = 16%nat;
  udp_src_width h : length h = UdpHdr_LEN -> 0 <= udp_src_port h < 2 ^ 16;
  udp_dst_width h : length h = UdpHdr_LEN -> 0 <= udp_dst_port h < 2 ^ 16
}.

(** ** The context *)

(** [ctx.data()], [ctx.data_end()] and the bytes between them. *)
Record TcContext := { data : Z; data_end : Z; packet : list byte }.

Definition ctx_ok (ctx : TcContext) : Prop :=
  0 <= data ctx /\ data_end ctx = data ctx + Z.of_nat (length (packet ctx)) /\
  data_end ctx <= isize_max.

Section Program.
Context `{!NetworkTypes}.
(** [aya_ebpf::bindings::TC_ACT_OK] *)
Context (TC_ACT_OK : Z).

(** [a + b] on [usize] addresses. *)
Definition addr_add (a b : Z) : outcome unit Z :=
  if a + b <=? usize_max then Ok (a + b) else Fault ArithOverflow.

(** [*p] for a value of [size] bytes. *)
Definition deref (ctx : TcContext) (p : Z) (size : nat) : outcome unit (list byte) :=
  if (data ctx <=? p) && (p + Z.of_nat size <=? data_end ctx) then
    Ok (read (Z.to_nat (p - data ctx)) size (packet ctx))
  else Fault BadPointer.

(** [ptr_at::<T>(ctx, offset)], [len] being [size_of::<T>()]. *)
Definition ptr_at (ctx : TcContext) (offset : nat) (len : nat) : outcome unit Z :=
  let start := data ctx in
  let end_ := data_end ctx in
  let? p := addr_add start (Z.of_nat offset) in
  let? q := addr_add p (Z.of_nat len) in
  if end_ <? q then Err tt else addr_add start (Z.of_nat offset).

(** [get_ipv4_header_len]: [hdr] is what [ipv4hdr] points to. *)
Definition get_ipv4_header_len (hdr : list byte) : outcome unit nat :=
  let hdr_len := ipv4_ihl hdr in
  if (hdr_len <? IPV4_MIN_HDR_LEN)%nat || (IPV4_MAX_HDR_LEN <? hdr_len)%nat then Err tt
  else Ok hdr_len.

(** The loop [for i in 0..MAX_DNS_PAYLOAD_SIZE] with its break: [n] iterations
    are left, [i] is the index, the state is the reserved entry. *)
Fixpoint copy_loop (ctx : TcContext) (payload_offset : nat) (n i : nat) (copied_len : Z)
    : prog (list byte) unit Z :=
  match n with
  | O => ret copied_len
  | S n =>
      let! cur_offset := lift (addr_add (Z.of_nat payload_offset) (Z.of_nat i)) in
      let! p := lift (addr_add (data ctx) cur_offset) in
      let! q := lift (addr_add p 1) in
      if data_end ctx <? q then ret copied_len
      else
      let! b := lift (deref ctx p 1) in
      (* dst_payload[i] = ..., a bounds-checked array store *)
      do! (if (i <? MAX_DNS_PAYLOAD_SIZE)%nat
           then store (field_offset RawDnsEvent_layout "payload" + i) b
           else crash SliceIndex) in
      let! copied_len := lift (if copied_len + 1 <? 2 ^ 16 then Ok (copied_len + 1)
                               else Fault ArithOverflow) in
      copy_loop ctx payload_offset n (S i) copied_len
  end.

(** The body of [if let Some(mut ring_buf) = ...]: fills the reserved entry. *)
Definition fill_event (ctx : TcContext) (payload_offset : nat) (src_ip dst_ip : RawIpAddr)
    (src_port dst_port : Z) (end_ts : Z) : prog (list byte) unit unit :=
  do! write_to src_ip (field_offset RawDnsEvent_layout "src_ip") in
  do! write_to dst_ip (field_offset RawDnsEvent_layout "dst_ip") in
  do! store (field_offset RawDnsEvent_layout "src_port") (le_bytes 2 src_port) in
  do! store (field_offset RawDnsEvent_layout "dst_port") (le_bytes 2 dst_port) in
  let! copied_len := copy_loop ctx payload_offset MAX_DNS_PAYLOAD_SIZE 0 0 in
  do! store (field_offset RawDnsEvent_layout "payload_len") (le_bytes 2 copied_len) in
  store (field_offset RawDnsEvent_layout "timestamp_ns") (le_bytes 8 end_ts).

(** What [parse_udp] does with a datagram that passes the filter: the payload's
    offset, the addresses and the ports.  The program's own is [emit] below;
    Cpus.v cuts it at the reservation. *)
Definition emission (S : Type) : Type :=
  nat -> RawIpAddr -> RawIpAddr -> Z -> Z -> prog S unit Z.

Definition parse_udp {S} (k : emission S) (ctx : TcContext) (offset : nat)
    (src_ip dst_ip : RawIpAddr) : prog S unit Z :=
  let! udphdr := lift (ptr_at ctx offset UdpHdr_LEN) in
  let! hdr := lift (deref ctx udphdr UdpHdr_LEN) in
  let src_port := udp_src_port hdr in
  let dst_port := udp_dst_port hdr in
  if negb (src_port =? DNS_PORT) then ret TC_ACT_OK
  else
  let! payload_offset := lift (uadd offset UdpHdr_LEN) in
  let data_start := data ctx in
  let! p := lift (addr_add data_start (Z.of_nat payload_offset)) in
  let available_len := Z.max 0 (data_end ctx - p) in
  if available_len =? 0 then ret TC_ACT_OK
  else k payload_offset src_ip dst_ip src_port dst_port.

(** [map_err(|_| ())?] *)
Definition ok_or_unit {A} (o : option A) : outcome unit A :=
  match o with
  | Some a => Ok a
  | None => Err tt
  end.

Definition try_dns_tc {S} (k : emission S) (ctx : TcContext) : prog S unit Z :=
  let! ethhdr := lift (ptr_at ctx 0 EthHdr_LEN) in
  let! eth := lift (deref ctx ethhdr EthHdr_LEN) in
  match ether_type eth with
  | Some EtherIpv4 =>
      let! ipv4hdr := lift (ptr_at ctx EthHdr_LEN Ipv4Hdr_LEN) in
      let! hdr := lift (deref ctx ipv4hdr Ipv4Hdr_LEN) in
      let! src_ip := lift (from_ipv4 (ipv4_src_addr hdr)) in
      let! dst_ip := lift (from_ipv4 (ipv4_dst_addr hdr)) in
      let! ip_hdr_len := lift (get_ipv4_header_len hdr) in
      let! proto := lift (ok_or_unit (ipv4_proto hdr)) in
      match proto with
      | ProtoUdp =>
          let! off := lift (uadd EthHdr_LEN ip_hdr_len) in
          do! parse_udp k ctx off src_ip dst_ip in
          ret TC_ACT_OK
      | ProtoOther => ret TC_ACT_OK
      end
  | Some EtherIpv6 =>
      let! ipv6hdr := lift (ptr_at ctx EthHdr_LEN Ipv6Hdr_LEN) in
      let! hdr := lift (deref ctx ipv6hdr Ipv6Hdr_LEN) in
      let src_ip := from_ipv6 (ipv6_src_addr hdr) in
      let dst_ip := from_ipv6 (ipv6_dst_addr hdr) in
      let! proto := lift (ok_or_unit (ipv6_next_hdr hdr)) in
      match proto with
      | ProtoUdp =>
          let! off := lift (uadd EthHdr_LEN Ipv6Hdr_LEN) in
          do! parse_udp k ctx off src_ip dst_ip in
          ret TC_ACT_OK
      | ProtoOther => ret TC_ACT_OK
      end
  | _ => ret TC_ACT_OK
  end.

(** The entry point's [match]: an [Err] passes the packet too. *)
Definition classifier {S} (m : prog S unit Z) : prog S unit Z :=
  fun s => match m s with
           | (s, Ok r) => (s, Ok r)
           | (s, Err _) => (s, Ok TC_ACT_OK)
           | (s, Fault f) => (s, Fault f)
           end.

Context {R : Type} `{!RingBuffer R}.

(** [if let Some(mut ring_buf) = DNS_EVENTS_PIPE.reserve(0)] to the end of
    [parse_udp]. *)
Definition emit (ctx : TcContext) (end_ts : Z) : emission R :=
  fun payload_offset src_ip dst_ip src_port dst_port ring =>
    match rb_reserve ring with
    | None => (ring, Ok TC_ACT_OK)
    | Some (ring, entry) =>
        match fill_event ctx payload_offset src_ip dst_ip src_port dst_port end_ts entry with
        | (entry, Ok _) => (rb_submit entry ring, Ok TC_ACT_OK)
        | (_, Err e) => (ring, Err e)
        | (_, Fault f) => (ring, Fault f)
        end
    end.

Definition dns_tc (ctx : TcContext) (end_ts : Z) : prog R unit Z :=
  classifier (try_dns_tc (emit ctx end_ts) ctx).
End Program.
