(* ===== verification/Capture.v ===== *)
(** * What the classifier captures

    An abstract specification of [dns_tc], as a function from a packet to the
    DNS response it carries, and the proof that the program implements it:
    memory safety, the verdict, which packets produce an event and what the
    event contains. *)

From Stdlib Require Import Strings.Byte NArith ZArith Lia.
From stdpp Require Import base tactics numbers list strings.
From S2P Require Import Prelude Common Proto Parser Answers Decode RingBuffer Ebpf.

Local Open Scope Z_scope.

(** ** Packet accesses *)

Lemma addr_add_ok a b : a + b <= usize_max -> addr_add a b = Ok (a + b).
Proof. intros. unfold addr_add. by rewrite (proj2 (Z.leb_le _ _)). Qed.

Section Access.
Context (ctx : TcContext) (Hctx : ctx_ok ctx).

Lemma deref_ok off n :
  (off + n <= length (packet ctx))%nat ->
  deref ctx (data ctx + Z.of_nat off) n = Ok (read off n (packet ctx)).
Proof.
  intros H. destruct Hctx as (H1 & H2 & H3). unfold deref.
  rewrite !(proj2 (Z.leb_le _ _)) by lia. cbn [andb]. do 3 f_equal. lia.
Qed.

Lemma ptr_at_eq offset len :
  Z.of_nat offset + Z.of_nat len <= isize_max ->
  ptr_at ctx offset len =
  (if (length (packet ctx) <? offset + len)%nat then Err tt
   else Ok (data ctx + Z.of_nat offset)).
Proof.
  intros H. destruct Hctx as (H1 & H2 & H3). unfold ptr_at, isize_max in *.
  rewrite !addr_add_ok by (unfold usize_max; lia). cbn [obind].
  rewrite addr_add_ok by (unfold usize_max; lia). cbn [obind].
  destruct (Z.ltb_spec (data_end ctx) (data ctx + Z.of_nat offset + Z.of_nat len));
    destruct (Nat.ltb_spec (length (packet ctx)) (offset + len)); done || lia.
Qed.

(** The bounded copy loop stores the next bytes of the packet, at most [n]. *)
Lemma copy_loop_ok po n : forall i c buf,
  (i + n <= MAX_DNS_PAYLOAD_SIZE)%nat -> (64 + i + n <= length buf)%nat ->
  Z.of_nat po <= isize_max - 1024 -> 0 <= c -> c + Z.of_nat n < 2 ^ 16 ->
  copy_loop ctx po n i c buf =
  (put (64 + i) (take n (drop (po + i) (packet ctx))) buf,
   Ok (c + Z.of_nat (length (take n (drop (po + i) (packet ctx)))))).
Proof.
  destruct Hctx as (H1 & H2 & H3). unfold isize_max, MAX_DNS_PAYLOAD_SIZE in *.
  induction n as [|n IH]; intros i c buf Hi Hbuf Hpo Hc Hn; cbn [copy_loop].
  { rewrite firstn_O, put_nil. unfold ret. simpl length. by rewrite Z.add_0_r. }
  do 3 (rewrite bind_lift, addr_add_ok by (unfold usize_max; lia); cbv beta iota).
  destruct (Z.ltb_spec (data_end ctx) (data ctx + (Z.of_nat po + Z.of_nat i) + 1)) as [He|He].
  { rewrite drop_ge by lia. rewrite take_nil, put_nil. simpl. by rewrite Z.add_0_r. }
  destruct (lookup_lt_is_Some_2 (packet ctx) (po + i) ltac:(lia)) as [b Hb].
  rewrite bind_lift, <-Nat2Z.inj_add, deref_ok by lia. cbv beta iota.
  unfold read. rewrite (drop_lookup_cons _ _ _ Hb). cbn [take].
  rewrite firstn_O, (proj2 (Nat.ltb_lt _ _)) by (unfold MAX_DNS_PAYLOAD_SIZE; lia).
  change (field_offset RawDnsEvent_layout "payload") with 64%nat.
  erewrite bind_run by (apply store_ok; simpl; lia).
  rewrite bind_lift, (proj2 (Z.ltb_lt _ _)) by lia. cbv beta iota.
  rewrite IH by (rewrite ?length_put; simpl; lia).
  rewrite (Nat.add_succ_r po i). f_equal.
  - rewrite put_put_app; [done|simpl; lia|]. rewrite length_take. simpl. lia.
  - f_equal. simpl length. lia.
Qed.
End Access.

(** ** The reserved entry *)

(** The event the program writes over an entry whose bytes were [stale]. *)
Definition captured (stale : list byte) (src dst : RawIpAddr) (sport dport : Z)
    (body : list byte) (ts : Z) : RawDnsEvent :=
  let msg := take MAX_DNS_PAYLOAD_SIZE body in
  {| ev_src_ip := src; ev_dst_ip := dst; ev_src_port := sport; ev_dst_port := dport;
     ev_pad := le_Z (read 52 2 stale);
     payload_len := Z.of_nat (length msg);
     ev_timestamp_ns := ts;
     payload := msg ++ drop (length msg) (read 64 MAX_DNS_PAYLOAD_SIZE stale) |}.

(** The bytes of the entry after [fill_event]. *)
Definition filled (stale : list byte) (src dst : RawIpAddr) (sport dport : Z)
    (body : list byte) (ts : Z) : list byte :=
  let msg := take MAX_DNS_PAYLOAD_SIZE body in
  put 56 (le_bytes 8 ts) (put 54 (le_bytes 2 (Z.of_nat (length msg)))
    (put 64 msg (put 50 (le_bytes 2 dport) (put 48 (le_bytes 2 sport)
      (put 24 (encode_ip dst) (put 0 (encode_ip src) stale)))))).

(** Arithmetic over the lengths of stacked stores. *)
Ltac puts_lia :=
  lazymatch goal with
  | |- context [length (put _ _ _)] => rewrite length_put by puts_lia; puts_lia
  | _ => rewrite ?length_le_bytes; lia
  end.

Lemma fill_event_ok ctx po src dst sport dport ts stale :
  ctx_ok ctx -> ip_ok src -> ip_ok dst -> length stale = EVENT_SIZE ->
  Z.of_nat po <= isize_max - 1024 ->
  fill_event ctx po src dst sport dport ts stale =
  (filled stale src dst sport dport (drop po (packet ctx)) ts, Ok tt).
Proof.
  intros Hctx Hs Hd Hlen Hpo. change EVENT_SIZE with 576%nat in Hlen.
  pose proof (length_encode_ip _ Hs). pose proof (length_encode_ip _ Hd).
  unfold fill_event, filled.
  change (field_offset RawDnsEvent_layout "src_ip") with 0%nat.
  change (field_offset RawDnsEvent_layout "dst_ip") with 24%nat.
  change (field_offset RawDnsEvent_layout "src_port") with 48%nat.
  change (field_offset RawDnsEvent_layout "dst_port") with 50%nat.
  change (field_offset RawDnsEvent_layout "payload_len") with 54%nat.
  change (field_offset RawDnsEvent_layout "timestamp_ns") with 56%nat.
  do 2 (erewrite bind_run by (apply write_to_ok; [done|puts_lia])).
  do 2 (erewrite bind_run by (apply store_ok; puts_lia)).
  erewrite bind_run
    by (apply copy_loop_ok; try done; unfold MAX_DNS_PAYLOAD_SIZE; puts_lia).
  rewrite Nat.add_0_r, Z.add_0_l.
  pose proof (length_take (drop po (packet ctx)) MAX_DNS_PAYLOAD_SIZE) as Hm.
  unfold MAX_DNS_PAYLOAD_SIZE at 2 in Hm.
  erewrite bind_run by (apply store_ok; puts_lia).
  apply store_ok. puts_lia.
Qed.

Lemma length_filled stale src dst sport dport body ts :
  ip_ok src -> ip_ok dst -> length stale = EVENT_SIZE ->
  length (filled stale src dst sport dport body ts) = EVENT_SIZE.
Proof.
  intros Hs Hd Hl. change EVENT_SIZE with 576%nat in *. unfold filled.
  pose proof (length_encode_ip _ Hs). pose proof (length_encode_ip _ Hd).
  pose proof (length_take body MAX_DNS_PAYLOAD_SIZE).
  unfold MAX_DNS_PAYLOAD_SIZE in *. puts_lia.
Qed.

(** Read one field through the stores of [fill_event]. *)
Ltac read_fill :=
  repeat first
    [ rewrite read_put_same by puts_lia
    | rewrite read_put_before by puts_lia
    | rewrite read_put_after by puts_lia ].

Lemma decode_filled stale src dst sport dport body ts :
  ip_ok src -> ip_ok dst -> length stale = EVENT_SIZE ->
  0 <= sport < 2 ^ 16 -> 0 <= dport < 2 ^ 16 -> 0 <= ts < 2 ^ 64 ->
  decode_event (filled stale src dst sport dport body ts) =
  captured stale src dst sport dport body ts.
Proof.
  intros Hs Hd Hl Hsp Hdp Hts. change EVENT_SIZE with 576%nat in *.
  pose proof (length_encode_ip _ Hs). pose proof (length_encode_ip _ Hd).
  unfold decode_event, filled, captured. rewrite !ev_field_offsets. simpl find_offset.
  unfold MAX_DNS_PAYLOAD_SIZE.
  pose proof (length_take body 512) as Hm. set (msg := take 512 body) in *.
  f_equal; read_fill.
  - exact (decode_encode_ip _ Hs).
  - exact (decode_encode_ip _ Hd).
  - apply le_Z_le_bytes_small. exact Hsp.
  - apply le_Z_le_bytes_small. exact Hdp.
  - reflexivity.
  - apply le_Z_le_bytes_small. change (256 ^ Z.of_nat 2) with (2 ^ 16). lia.
  - apply le_Z_le_bytes_small. exact Hts.
  - rewrite read_put_front by puts_lia. by read_fill.
Qed.

Lemma captured_ok stale src dst sport dport body ts :
  ip_ok src -> ip_ok dst -> length stale = EVENT_SIZE ->
  0 <= sport < 2 ^ 16 -> 0 <= dport < 2 ^ 16 -> 0 <= ts < 2 ^ 64 ->
  event_ok (captured stale src dst sport dport body ts).
Proof.
  intros Hs Hd Hl Hsp Hdp Hts. change EVENT_SIZE with 576%nat in Hl.
  pose proof (length_take body 512) as Hm.
  unfold event_ok, captured, MAX_DNS_PAYLOAD_SIZE.
  cbn [ev_src_ip ev_dst_ip ev_src_port ev_dst_port ev_pad payload_len ev_timestamp_ns payload].
  split_and!; try done; try lia.
  1-2: pose proof (le_Z_range (read 52 2 stale)) as Hr; rewrite length_read in Hr by lia;
    change (256 ^ Z.of_nat 2) with (2 ^ 16) in Hr; lia.
  rewrite length_app, length_drop, length_read by lia. lia.
Qed.

(** The daemon's view of the captured message is the start of the body. *)
Lemma captured_message stale src dst sport dport body ts :
  take (Z.to_nat (payload_len (captured stale src dst sport dport body ts)))
    (payload (captured stale src dst sport dport body ts)) = take MAX_DNS_PAYLOAD_SIZE body.
Proof. cbn [payload_len payload captured]. by rewrite Nat2Z.id, take_app_length. Qed.

(** ** Abstract specification *)

(** A DNS response found in a packet. *)
Record Datagram := {
  dg_src : RawIpAddr;
  dg_dst : RawIpAddr;
  dg_src_port : Z;
  dg_dst_port : Z;
  dg_body : list byte
}.

Section Spec.
Context `{!NetworkTypes}.

(** Addresses and offset of the UDP header, for a UDP packet over IP. *)
Definition udp_part (p : list byte) : option (RawIpAddr * RawIpAddr * nat) :=
  if (length p <? 14)%nat then None else
  match ether_type (read 0 14 p) with
  | Some EtherIpv4 =>
      if (length p <? 34)%nat then None else
      let h := read 14 20 p in
      match ipv4_proto h with
      | Some ProtoUdp =>
          if (ipv4_ihl h <? 20)%nat || (60 <? ipv4_ihl h)%nat then None
          else Some ({| bytes := ipv4_src_addr h ++ replicate 12 x00; family := AF_INET; ip_pad := 0 |},
                     {| bytes := ipv4_dst_addr h ++ replicate 12 x00; family := AF_INET; ip_pad := 0 |},
                     14 + ipv4_ihl h)%nat
      | _ => None
      end
  | Some EtherIpv6 =>
      if (length p <? 54)%nat then None else
      let h := read 14 40 p in
      match ipv6_next_hdr h with
      | Some ProtoUdp => Some (from_ipv6 (ipv6_src_addr h), from_ipv6 (ipv6_dst_addr h), 54)%nat
      | _ => None
      end
  | _ => None
  end.

(** The datagram from the DNS port, when it has a body. *)
Definition udp_datagram (p : list byte) (src dst : RawIpAddr) (off : nat) : option Datagram :=
  if (length p <? off + 8)%nat then None else
  let h := read off 8 p in
  if negb (udp_src_port h =? DNS_PORT) then None else
  if (length p =? off + 8)%nat then None
  else Some {| dg_src := src; dg_dst := dst; dg_src_port := udp_src_port h;
               dg_dst_port := udp_dst_port h; dg_body := drop (off + 8) p |}.

Definition dns_datagram (p : list byte) : option Datagram :=
  match udp_part p with
  | Some (src, dst, off) => udp_datagram p src dst off
  | None => None
  end.

Definition event_of (stale : list byte) (d : Datagram) (ts : Z) : RawDnsEvent :=
  captured stale (dg_src d) (dg_dst d) (dg_src_port d) (dg_dst_port d) (dg_body d) ts.

Definition entry_of (stale : list byte) (d : Datagram) (ts : Z) : list byte :=
  filled stale (dg_src d) (dg_dst d) (dg_src_port d) (dg_dst_port d) (dg_body d) ts.

(** What the classifier does to the ring for a datagram it recognised. *)
Definition capture {R} `{!RingBuffer R} (od : option Datagram) (ts : Z) (ring : R) : R :=
  match od with
  | None => ring
  | Some d => match rb_reserve ring with
              | None => ring
              | Some (ring, stale) => rb_submit (entry_of stale d ts) ring
              end
  end.
End Spec.

(** ** The program implements the specification *)

Section Refinement.
Context `{!NetworkTypes} `{!NetworkTypesLaws} (TC_ACT_OK : Z).
Context (ctx : TcContext) (Hctx : ctx_ok ctx).
Local Notation p := (packet ctx).

(** Loading a header of [n] bytes behind its bounds check. *)
Lemma header_step {S A} off n (k : list byte -> prog S unit A) s :
  Z.of_nat off + Z.of_nat n <= 1024 ->
  bind (lift (ptr_at ctx off n)) (fun q => bind (lift (deref ctx q n)) k) s =
  (if (length p <? off + n)%nat then (s, Err tt) else k (read off n p) s).
Proof.
  intros Hn. rewrite bind_lift, ptr_at_eq by (done || (unfold isize_max; lia)).
  destruct (Nat.ltb_spec (length p) (off + n)) as [|Hl]; [done|].
  by rewrite bind_lift, deref_ok.
Qed.

Section Emission.
Context {S : Type} (k : emission S) (act : Datagram -> S -> S) (s : S).

(** On every datagram of the packet the emission passes the packet and acts
    on the state as [act] says. *)
Definition emits : Prop := forall off d,
  ip_ok (dg_src d) -> ip_ok (dg_dst d) -> (off <= 82)%nat -> (off < length p)%nat ->
  dg_body d = drop off p ->
  k off (dg_src d) (dg_dst d) (dg_src_port d) (dg_dst_port d) s = (act d s, Ok TC_ACT_OK).

Definition acted (od : option Datagram) : S :=
  match od with None => s | Some d => act d s end.

Lemma parse_udp_spec off src dst :
  emits -> ip_ok src -> ip_ok dst -> (off <= 74)%nat ->
  exists s' r, parse_udp TC_ACT_OK k ctx off src dst s = (s', r) /\
    s' = acted (udp_datagram p src dst off) /\
    r = (if (length p <? off + 8)%nat then Err tt else Ok TC_ACT_OK).
Proof.
  intros Hk Hs Hd Hoff. destruct Hctx as (H1 & H2 & H3). unfold isize_max in H3.
  unfold parse_udp, udp_datagram.
  rewrite header_step by (rewrite UdpHdr_size; lia). rewrite UdpHdr_size.
  destruct (Nat.ltb_spec (length p) (off + 8)) as [|Hl]; [by repeat eexists|].
  cbv zeta. destruct (negb _); [by repeat eexists|].
  rewrite bind_lift, uadd_ok by (unfold usize_max; lia). cbv beta iota.
  rewrite bind_lift, addr_add_ok by (unfold usize_max; lia). cbv beta iota.
  destruct (Nat.eqb_spec (length p) (off + 8)) as [He|He].
  { rewrite (proj2 (Z.eqb_eq _ _)) by lia. by repeat eexists. }
  rewrite (proj2 (Z.eqb_neq _ _)) by lia. cbn [acted].
  do 2 eexists. split; [|by split].
  apply (Hk (off + 8)%nat (Build_Datagram src dst _ _ (drop (off + 8) p))); cbn; done || lia.
Qed.

Lemma v4_addr_ok a :
  length a = 4%nat -> ip_ok {| bytes := a ++ replicate 12 x00; family := AF_INET; ip_pad := 0 |}.
Proof. intros Ha. unfold ip_ok, AF_INET. cbn. len_lia. Qed.

Lemma v6_addr_ok a : length a = 16%nat -> ip_ok (from_ipv6 a).
Proof. intros Ha. by split_and!. Qed.

(** Every exit of [try_dns_tc]: the state is what the specification says, and
    the result is the pass verdict or an error. *)
Lemma try_dns_tc_spec :
  emits ->
  exists r, try_dns_tc TC_ACT_OK k ctx s = (acted (dns_datagram p), r) /\
    (r = Ok TC_ACT_OK \/ r = Err tt).
Proof.
  intros Hk.
  unfold try_dns_tc, dns_datagram, udp_part.
  rewrite header_step by (rewrite EthHdr_size; lia). rewrite EthHdr_size.
  change (0 + 14)%nat with 14%nat.
  destruct (Nat.ltb_spec (length p) 14) as [|Hl]; [by eauto|].
  destruct (ether_type _) as [[]|]; [| |by eauto..].
  - rewrite header_step by (rewrite Ipv4Hdr_size; lia). rewrite Ipv4Hdr_size.
    change (14 + 20)%nat with 34%nat.
  destruct (Nat.ltb_spec (length p) 34) as [|Hl4]; [by eauto|].
      assert (Hh : length (read 14 20 p) = 20%nat) by (apply length_read; lia).
    pose proof (ipv4_src_width _ (eq_trans Hh (eq_sym Ipv4Hdr_size))) as Hs.
    pose proof (ipv4_dst_width _ (eq_trans Hh (eq_sym Ipv4Hdr_size))) as Hd.
    do 2 (rewrite bind_lift, from_ipv4_ok by done; cbv beta iota).
    rewrite bind_lift. unfold get_ipv4_header_len, IPV4_MIN_HDR_LEN, IPV4_MAX_HDR_LEN.
    destruct (orb _ _) eqn:Hihl.
    { destruct (ipv4_proto _) as [[]|]; eauto. }
    apply orb_false_iff in Hihl as [Hi1 Hi2]. bools.
    rewrite bind_lift. destruct (ipv4_proto _) as [[]|]; cbn [ok_or_unit]; [|by eauto..].
    rewrite bind_lift, uadd_ok by (unfold usize_max; lia). cbv beta iota.
    destruct (parse_udp_spec (14 + ipv4_ihl (read 14 20 p)) _ _ Hk
                (v4_addr_ok _ Hs) (v4_addr_ok _ Hd) ltac:(lia)) as (s' & r & Hp & -> & ->).
    unfold bind. rewrite Hp. destruct (_ <? _)%nat; eauto.
  - rewrite header_step by (rewrite Ipv6Hdr_size; lia). rewrite Ipv6Hdr_size.
    change (14 + 40)%nat with 54%nat.
  destruct (Nat.ltb_spec (length p) 54) as [|Hl6]; [by eauto|].
      assert (Hh : length (read 14 40 p) = 40%nat) by (apply length_read; lia).
    pose proof (ipv6_src_width _ (eq_trans Hh (eq_sym Ipv6Hdr_size))) as Hs.
    pose proof (ipv6_dst_width _ (eq_trans Hh (eq_sym Ipv6Hdr_size))) as Hd.
    cbv zeta. rewrite bind_lift.
    destruct (ipv6_next_hdr _) as [[]|]; cbn [ok_or_unit]; [|by eauto..].
    rewrite bind_lift, uadd_ok by (unfold usize_max; lia). cbv beta iota.
    change (14 + 40)%nat with 54%nat.
    destruct (parse_udp_spec 54 _ _ Hk
                (v6_addr_ok _ Hs) (v6_addr_ok _ Hd) ltac:(lia)) as (s' & r & Hp & -> & ->).
    unfold bind. rewrite Hp. destruct (_ <? _)%nat; eauto.
Qed.

Lemma classifier_spec :
  emits ->
  classifier TC_ACT_OK (try_dns_tc TC_ACT_OK k ctx) s = (acted (dns_datagram p), Ok TC_ACT_OK).
Proof.
  intros Hk. unfold classifier. destruct (try_dns_tc_spec Hk) as (r & -> & [-> | ->]); done.
Qed.
End Emission.

Context {R : Type} `{!RingBuffer R} `{!RingBufferLaws R}.

Lemma dns_tc_capture ts (ring : R) :
  dns_tc TC_ACT_OK ctx ts ring = (capture (dns_datagram p) ts ring, Ok TC_ACT_OK).
Proof.
  unfold dns_tc.
  rewrite (classifier_spec _ (fun d r => capture (Some d) ts r)).
  - by destruct (dns_datagram p).
  - intros off d Hs Hd Hoff Hlt Hb. unfold emit, capture.
    destruct (rb_reserve ring) as [[ring' stale]|] eqn:Hr; [|done].
    apply rb_reserve_spec in Hr as [_ Hstale]. destruct Hctx as (H1 & H2 & H3).
    rewrite fill_event_ok by (done || (unfold isize_max in *; lia)).
    unfold entry_of. by rewrite Hb.
Qed.

(** A recognised datagram has fields of their machine widths. *)
Lemma dns_datagram_ok d :
  dns_datagram p = Some d ->
  ip_ok (dg_src d) /\ ip_ok (dg_dst d) /\ family_ok (dg_src d) /\ family_ok (dg_dst d) /\
  dg_src_port d = DNS_PORT /\ 0 <= dg_dst_port d < 2 ^ 16 /\
  (0 < length (dg_body d))%nat.
Proof.
  assert (Hdg : forall src dst off, udp_datagram p src dst off = Some d ->
    dg_src d = src /\ dg_dst d = dst /\ dg_src_port d = DNS_PORT /\
    0 <= dg_dst_port d < 2 ^ 16 /\ (0 < length (dg_body d))%nat).
  { intros src dst off. unfold udp_datagram.
    destruct (Nat.ltb_spec (length p) (off + 8)); [done|]. cbv zeta.
    destruct (negb _) eqn:Hport; [done|]. bools.
    destruct (Nat.eqb_spec (length p) (off + 8)); [done|]. intros [= <-].
    cbn [dg_src dg_dst dg_src_port dg_dst_port dg_body].
    assert (Hw : length (read off 8 p) = UdpHdr_LEN)
      by (rewrite UdpHdr_size; apply length_read; lia).
    apply udp_dst_width in Hw. rewrite length_drop. split_and!; done || lia. }
  unfold dns_datagram, udp_part.
  destruct (Nat.ltb_spec (length p) 14); [done|].
  destruct (ether_type _) as [[]|]; [| |done..].
  - destruct (Nat.ltb_spec (length p) 34); [done|]. cbv zeta.
    assert (Hh : length (read 14 20 p) = Ipv4Hdr_LEN)
      by (rewrite Ipv4Hdr_size; apply length_read; lia).
    destruct (ipv4_proto _) as [[]|]; [|done..]. destruct (orb _ _); [done|].
    intros (-> & -> & ? & ? & ?)%Hdg.
    pose proof (v4_addr_ok _ (ipv4_src_width _ Hh)).
    pose proof (v4_addr_ok _ (ipv4_dst_width _ Hh)).
    split_and!; done || lia || by left.
  - destruct (Nat.ltb_spec (length p) 54); [done|]. cbv zeta.
    assert (Hh : length (read 14 40 p) = Ipv6Hdr_LEN)
      by (rewrite Ipv6Hdr_size; apply length_read; lia).
    destruct (ipv6_next_hdr _) as [[]|]; [|done..].
    intros (-> & -> & ? & ? & ?)%Hdg.
    pose proof (v6_addr_ok _ (ipv6_src_width _ Hh)).
    pose proof (v6_addr_ok _ (ipv6_dst_width _ Hh)).
    split_and!; done || lia || by right.
Qed.
End Refinement.

(** ** What the daemon receives *)

(** The entries of the ring the daemon can rely on. *)
Definition entry_ok (e : list byte) : Prop :=
  length e = EVENT_SIZE /\
  let ev := decode_event e in
  event_ok ev /\ family_ok (ev_src_ip ev) /\ family_ok (ev_dst_ip ev) /\
  ev_src_port ev = DNS_PORT /\ 0 < payload_len ev <= 512.

(** The part of an event the datagram determines. *)
Definition carries_datagram (ev : RawDnsEvent) (d : Datagram) (ts : Z) : Prop :=
  ev_src_ip ev = dg_src d /\ ev_dst_ip ev = dg_dst d /\
  ev_src_port ev = dg_src_port d /\ ev_dst_port ev = dg_dst_port d /\
  ev_timestamp_ns ev = ts /\ ev_message ev = take MAX_DNS_PAYLOAD_SIZE (dg_body d) /\
  payload_len ev = Z.of_nat (length (take MAX_DNS_PAYLOAD_SIZE (dg_body d))).

Definition datagram_ok (d : Datagram) : Prop :=
  ip_ok (dg_src d) /\ ip_ok (dg_dst d) /\ family_ok (dg_src d) /\ family_ok (dg_dst d) /\
  dg_src_port d = DNS_PORT /\ 0 <= dg_dst_port d < 2 ^ 16 /\
  (0 < length (dg_body d))%nat.

Lemma dns_port_width : 0 <= DNS_PORT < 2 ^ 16.
Proof. unfold DNS_PORT. lia. Qed.

Lemma entry_of_decodes stale d ts :
  datagram_ok d -> length stale = EVENT_SIZE -> 0 <= ts < 2 ^ 64 ->
  decode_event (entry_of stale d ts) = event_of stale d ts.
Proof.
  intros (Hs & Hd & _ & _ & Hp & Hq & _) Hl Hts. unfold entry_of, event_of.
  rewrite Hp. exact (decode_filled _ _ _ _ _ _ _ Hs Hd Hl dns_port_width Hq Hts).
Qed.

Lemma event_of_carries stale d ts : carries_datagram (event_of stale d ts) d ts.
Proof. unfold carries_datagram. split_and!; try done. apply captured_message. Qed.

Lemma entry_of_ok stale d ts :
  datagram_ok d -> length stale = EVENT_SIZE -> 0 <= ts < 2 ^ 64 ->
  entry_ok (entry_of stale d ts).
Proof.
  intros Hdg Hl Hts. pose proof Hdg as (Hs & Hd & Hfs & Hfd & Hp & Hq & Hb).
  split; [exact (length_filled _ _ _ _ _ _ _ Hs Hd Hl)|]. cbv zeta.
  rewrite entry_of_decodes by assumption. unfold event_of.
  split; [rewrite Hp; exact (captured_ok _ _ _ _ _ _ _ Hs Hd Hl dns_port_width Hq Hts)|].
  do 3 (split; [assumption|]). cbn [payload_len captured].
  pose proof (length_take (dg_body d) 512). unfold MAX_DNS_PAYLOAD_SIZE. lia.
Qed.

(** An event with 512 readable payload bytes is safe to parse. *)
Lemma entry_ok_parses e :
  entry_ok e -> arrays_ok (decode_event e) /\ 0 <= payload_len (decode_event e) <= 512.
Proof.
  intros (_ & ((Hs & _) & (Hd & _) & _ & _ & _ & _ & _ & Hp) & _ & _ & _ & Hl).
  split; [done|lia].
Qed.

Lemma entry_parse_stale stale stale' d ts slot slot' :
  datagram_ok d -> length stale = EVENT_SIZE -> length stale' = EVENT_SIZE ->
  0 <= ts < 2 ^ 64 ->
  parse_dns_into (decode_event (entry_of stale d ts)) slot =
  parse_dns_into (decode_event (entry_of stale' d ts)) slot'.
Proof.
  intros Hd Hl Hl' Hts.
  destruct (entry_ok_parses _ (entry_of_ok stale d ts Hd Hl Hts)) as [Ha Hp].
  destruct (entry_ok_parses _ (entry_of_ok stale' d ts Hd Hl' Hts)) as [Ha' _].
  apply parse_dns_into_same; [assumption..|]. rewrite !entry_of_decodes by assumption.
  pose proof (event_of_carries stale d ts) as (H1 & H2 & H3 & H4 & H5 & H6 & H7).
  pose proof (event_of_carries stale' d ts) as (H1' & H2' & H3' & H4' & H5' & H6' & H7').
  unfold same_event. rewrite H1, H2, H3, H4, H5, H6, H7, H1', H2', H3', H4', H5', H6', H7'.
  repeat split.
Qed.
Section Properties.
Context `{!NetworkTypes} `{!NetworkTypesLaws} {R : Type} `{!RingBuffer R}.
Context `{!RingBufferLaws R} (TC_ACT_OK : Z).

(** C8: refinement of the classifier.  For every packet and ring it performs no
    access outside the packet or the entry, no arithmetic overflows, the
    packet always gets the verdict TC_ACT_OK, and the ring changes exactly as
    the specification on byte lists says: one entry for a UDP datagram from
    port 53 with a body, when the ring has room, and otherwise nothing. *)
Theorem dns_tc_refines ctx ts (ring : R) :
  ctx_ok ctx ->
  dns_tc TC_ACT_OK ctx ts ring =
  (capture (dns_datagram (packet ctx)) ts ring, Ok TC_ACT_OK).
Proof. intros Hctx. exact (dns_tc_capture TC_ACT_OK ctx Hctx ts ring). Qed.

(** C19: what one run of the classifier adds to the ring.  Nothing, when the
    packet carries no DNS datagram or the ring is full; otherwise one entry of
    the event's size that decodes to a well-formed event with the datagram's
    addresses, ports, capture time and the first 512 bytes of its body. *)
Theorem dns_tc_submits ctx ts (ring : R) :
  ctx_ok ctx -> 0 <= ts < 2 ^ 64 ->
  match dns_datagram (packet ctx), rb_reserve ring with
  | Some d, Some _ =>
      exists e, rb_items (dns_tc TC_ACT_OK ctx ts ring).1 = rb_items ring ++ [e] /\
        entry_ok e /\ carries_datagram (decode_event e) d ts
  | _, _ => rb_items (dns_tc TC_ACT_OK ctx ts ring).1 = rb_items ring
  end.
Proof.
  intros Hctx Hts. rewrite dns_tc_capture by done. unfold capture. cbn [fst].
  destruct (dns_datagram (packet ctx)) as [d|] eqn:Hd; [|done].
  apply dns_datagram_ok in Hd.
  destruct (rb_reserve ring) as [[ring' stale]|] eqn:Hr; [|done].
  apply rb_reserve_spec in Hr as [Hi Hstale].
  exists (entry_of stale d ts). rewrite rb_submit_spec, Hi. split; [done|].
  split; [by apply entry_of_ok|]. rewrite entry_of_decodes by assumption.
  apply event_of_carries.
Qed.

End Properties.

(** ** Witnesses: headers in wire format *)

Definition wire_ether (h : list byte) : option EtherType :=
  match be_Z (read 12 2 h) with
  | 2048 => Some EtherIpv4
  | 34525 => Some EtherIpv6
  | _ => Some EtherOther
  end.

Definition wire_proto (code : list byte) : option IpProto :=
  match code with
  | [x11] => Some ProtoUdp
  | _ => Some ProtoOther
  end.

Definition wire_ihl (h : list byte) : nat :=
  match h with
  | b :: _ => (4 * Z.to_nat (Z.land (u8 b) 15))%nat
  | [] => 0%nat
  end.

#[export] Instance wire_headers : NetworkTypes :=
  {| EthHdr_LEN := 14; Ipv4Hdr_LEN := 20; Ipv6Hdr_LEN := 40; UdpHdr_LEN := 8;
     ether_type := wire_ether;
     ipv4_src_addr := read 12 4; ipv4_dst_addr := read 16 4; ipv4_ihl := wire_ihl;
     ipv4_proto h := wire_proto (read 9 1 h);
     ipv6_src_addr := read 8 16; ipv6_dst_addr := read 24 16;
     ipv6_next_hdr h := wire_proto (read 6 1 h);
     udp_src_port h := be_Z (read 0 2 h); udp_dst_port h := be_Z (read 2 2 h) |}.

Lemma be_Z_read_u16 off h :
  (off + 2 <= length h)%nat -> 0 <= be_Z (read off 2 h) < 2 ^ 16.
Proof.
  intros Hl. pose proof (be_Z_range (read off 2 h)) as Hr. rewrite length_read in Hr by done.
  exact Hr.
Qed.

#[export] Instance wire_headers_laws : NetworkTypesLaws.
Proof.
  split; cbn [EthHdr_LEN Ipv4Hdr_LEN Ipv6Hdr_LEN UdpHdr_LEN wire_headers ipv4_src_addr
    ipv4_dst_addr ipv6_src_addr ipv6_dst_addr udp_src_port udp_dst_port]; try done.
  1-4: intros h Hh; apply length_read; lia.
  all: intros h Hh; apply be_Z_read_u16; lia.
Qed.

(** An Ethernet frame with an IPv4 UDP datagram from 8.8.8.8:53 to
    192.168.0.2:40000. *)
Definition example_packet (body : list byte) : list byte :=
  replicate 12 x00 ++ [x08; x00] ++
  [x45; x00; x00; x00; x00; x00; x00; x00; x40; x11; x00; x00;
   x08; x08; x08; x08; xc0; xa8; x00; x02] ++
  [x00; x35; x9c; x40; x00; x00; x00; x00] ++ body.

Definition packet_ctx (p : list byte) : TcContext :=
  {| data := 4096; data_end := 4096 + Z.of_nat (length p); packet := p |}.

Definition empty_fifo (fill : byte) : Fifo := {| fifo_items := []; fifo_fill := fill |}.

Definition example_datagram (body : list byte) : Datagram :=
  {| dg_src := ev_src_ip (example_event x00); dg_dst := ev_dst_ip (example_event x00);
     dg_src_port := 53; dg_dst_port := 40000; dg_body := body |}.

Definition example_body : list byte := example_message 1 (encode_rr example_a1).

Lemma example_datagram_found :
  dns_datagram (example_packet example_body) = Some (example_datagram example_body).
Proof. vm_compute. reflexivity. Qed.

Lemma example_ctx_ok : ctx_ok (packet_ctx (example_packet example_body)).
Proof. split_and!; vm_compute; done. Qed.

Lemma dns_tc_refines_witness :
  (dns_tc 0 (packet_ctx (example_packet example_body)) 7 (empty_fifo x00)).2 = Ok 0 /\
  length (fifo_items
    (dns_tc 0 (packet_ctx (example_packet example_body)) 7 (empty_fifo x00)).1) = 1%nat.
Proof.
  rewrite dns_tc_refines by apply example_ctx_ok.
  split; [reflexivity|vm_compute; reflexivity].
Defined.

Lemma dns_tc_submits_witness :
  exists e, rb_items (dns_tc 0 (packet_ctx (example_packet example_body)) 7 (empty_fifo xaa)).1
            = [e] /\
    ev_message (decode_event e) = example_body.
Proof.
  pose proof (dns_tc_submits 0 (packet_ctx (example_packet example_body)) 7 (empty_fifo xaa)
    example_ctx_ok ltac:(lia)) as H.
  cbn [packet packet_ctx] in H. rewrite example_datagram_found in H.
  change (rb_reserve (empty_fifo xaa))
    with (Some (empty_fifo xaa, replicate EVENT_SIZE xaa)) in H.
  destruct H as (e & He & _ & _ & _ & _ & _ & _ & Hm & _).
  exists e. split; [exact He|]. rewrite Hm. vm_compute. reflexivity.
Defined.

Lemma example_datagram_ok : datagram_ok (example_datagram example_body).
Proof. unfold datagram_ok, ip_ok. split_and!; vm_compute; done || lia || by left. Qed.

