(* ===== verification/Channels.v ===== *)
(** * The bounded channels between the daemon's tasks

    [thingbuf::mpsc] and [thingbuf::mpsc::blocking] as topology.rs uses them.
    The crate is a parameter: the class [ThingBuf] with its documented
    behaviour.  A channel hands out references to slots, so a sender finds in
    the slot whatever value was left there.  [Chan] is an implementation. *)

From Stdlib Require Import NArith ZArith Lia.
From stdpp Require Import base tactics numbers list.
From S2P Require Import Prelude.

(** The outcomes of [try_send_ref]: the stale value of the reserved slot and
    the channel after a value was written to it, or [TrySendError]. *)
Inductive send_ref (T Q : Type) :=
  | Slot (stale : T) (send : T -> Q)
  | Full
  | Closed.
Arguments Slot {T Q} stale send.
Arguments Full {T Q}.
Arguments Closed {T Q}.

Class ThingBuf (T Q : Type) := {
  (** [channel::<T>(capacity)] *)
  tb_channel : nat -> Q;
  tb_try_send_ref : Q -> send_ref T Q;
  (** [recv_ref]: the oldest value, when there is one *)
  tb_recv_ref : Q -> option (T * Q);
  (** the receiver is dropped *)
  tb_drop_receiver : Q -> Q;
  tb_items : Q -> list T;
  tb_capacity : Q -> nat;
  tb_closed : Q -> bool
}.

Class ThingBufLaws (T Q : Type) `{!ThingBuf T Q} := {
  tb_channel_spec n :
    tb_items (tb_channel n) = [] /\ tb_capacity (tb_channel n) = n /\
    tb_closed (tb_channel n) = false;
  tb_slot q stale send x :
    tb_try_send_ref q = Slot stale send ->
    (length (tb_items q) < tb_capacity q)%nat /\ tb_closed q = false /\
    tb_items (send x) = tb_items q ++ [x] /\ tb_capacity (send x) = tb_capacity q /\
    tb_closed (send x) = false;
  tb_full q : tb_try_send_ref q = Full -> (tb_capacity q <= length (tb_items q))%nat;
  tb_closed_send q : tb_try_send_ref q = Closed -> tb_closed q = true;
  tb_recv_some q x q' :
    tb_recv_ref q = Some (x, q') ->
    tb_items q = x :: tb_items q' /\ tb_capacity q' = tb_capacity q /\
    tb_closed q' = tb_closed q;
  tb_recv_none q : tb_recv_ref q = None -> tb_items q = [];
  tb_dropped q :
    tb_closed (tb_drop_receiver q) = true /\
    tb_capacity (tb_drop_receiver q) = tb_capacity q /\
    tb_items (tb_drop_receiver q) `sublist_of` tb_items q
}.

(** A send never loses or reorders what is queued and respects the bound. *)
Section Laws.
Context {T Q : Type} `{!ThingBuf T Q} `{!ThingBufLaws T Q}.

Definition within (q : Q) : Prop := (length (tb_items q) <= tb_capacity q)%nat.

Lemma slot_within q stale send x :
  tb_try_send_ref q = Slot stale send -> within (send x).
Proof.
  intros (Hl & _ & Hi & Hc & _)%(fun H => tb_slot q stale send x H).
  unfold within. rewrite Hi, Hc, length_app. simpl. lia.
Qed.

Lemma recv_within q x q' : tb_recv_ref q = Some (x, q') -> within q -> within q'.
Proof.
  intros (Hi & Hc & _)%tb_recv_some. unfold within. rewrite Hi, Hc. simpl. lia.
Qed.

Lemma dropped_within q : within q -> within (tb_drop_receiver q).
Proof.
  destruct (tb_dropped q) as (_ & Hc & Hi). unfold within. rewrite Hc.
  apply sublist_length in Hi. lia.
Qed.

(** An open channel with room accepts. *)
Lemma open_slot q :
  tb_closed q = false -> (length (tb_items q) < tb_capacity q)%nat ->
  exists stale send, tb_try_send_ref q = Slot stale send.
Proof.
  intros Hc Hl. destruct (tb_try_send_ref q) as [stale send| |] eqn:Hs.
  - eauto.
  - apply tb_full in Hs. lia.
  - apply tb_closed_send in Hs. congruence.
Qed.
End Laws.

(** ** An implementation *)

Record Chan (T : Type) := {
  ch_items : list T;
  ch_capacity : nat;
  ch_closed : bool;
  ch_spare : T (* the value found in the slots *)
}.
Arguments ch_items {T} c.
Arguments ch_capacity {T} c.
Arguments ch_closed {T} c.
Arguments ch_spare {T} c.
Arguments Build_Chan {T} _ _ _ _.

#[export] Instance chan_thingbuf {T} `{!Inhabited T} : ThingBuf T (Chan T) :=
  {| tb_channel n := Build_Chan [] n false inhabitant;
     tb_try_send_ref q :=
       if ch_closed q then Closed
       else if (length (ch_items q) <? ch_capacity q)%nat then
         Slot (ch_spare q)
           (fun x => Build_Chan (ch_items q ++ [x]) (ch_capacity q) false (ch_spare q))
       else Full;
     tb_recv_ref q :=
       match ch_items q with
       | [] => None
       | x :: l => Some (x, Build_Chan l (ch_capacity q) (ch_closed q) x)
       end;
     tb_drop_receiver q := Build_Chan (ch_items q) (ch_capacity q) true (ch_spare q);
     tb_items := ch_items; tb_capacity := ch_capacity; tb_closed := ch_closed |}.

#[export] Instance chan_laws {T} `{!Inhabited T} : ThingBufLaws T (Chan T).
Proof.
  split; cbn [tb_channel tb_try_send_ref tb_recv_ref tb_drop_receiver tb_items tb_capacity
    tb_closed chan_thingbuf ch_items ch_capacity ch_closed].
  - done.
  - intros q stale send x. destruct (ch_closed q) eqn:Hc; [done|].
    destruct (Nat.ltb_spec (length (ch_items q)) (ch_capacity q)); [|done].
    intros [= <- <-]. by split_and!.
  - intros q. destruct (ch_closed q); [done|].
    by destruct (Nat.ltb_spec (length (ch_items q)) (ch_capacity q)).
  - intros q. destruct (ch_closed q); [done|]. by case_match.
  - intros [[|x l] n c s] y q'; [done|]. cbn. by intros [= <- <-].
  - by intros [[|x l] n c s].
  - done.
Qed.
