(* ===== verification/CommitLog.v ===== *)
(** * The commit log

    [spawn_file_writer] of [src/cilium-mini-rs/src/topology.rs]: every message
    is appended to the log file as a frame, its length in four big-endian
    bytes and then its protobuf encoding.  [BufWriter] is modelled as the
    standard library has it; the file of the operating system ([LogFile]) and
    the code prost generates ([Prost]) are parameters. *)

From Stdlib Require Import Strings.Byte NArith ZArith Lia Wf_nat.
From stdpp Require Import base tactics numbers list strings.
From S2P Require Import Prelude RustStd Proto.

Local Open Scope Z_scope.

(** ** The interfaces *)

Inductive IoError := WriteError (errno : Z) | WriteZero.

(** Writing a buffer to the end of the file: how many of its bytes the system
    accepted before it finished or failed. *)
Class LogFile (F : Type) := {
  file_write : list byte -> F -> F * nat * option IoError;
  file_bytes : F -> list byte
}.

Class LogFileLaws (F : Type) `{!LogFile F} := {
  file_write_ok bs f f' k :
    file_write bs f = (f', k, None) ->
    k = length bs /\ file_bytes f' = file_bytes f ++ bs;
  file_write_err bs f f' k e :
    file_write bs f = (f', k, Some e) ->
    (k < length bs)%nat /\ file_bytes f' = file_bytes f ++ take k bs
}.

Inductive EncodeError := InsufficientCapacity.

(** The generated [Message] implementation: [encode] appends to a [Vec]. *)
Class Prost := {
  prost_encode : DnsResponse -> list byte -> outcome EncodeError (list byte);
  prost_decode : list byte -> option DnsResponse
}.

(** The lengths of the strings and bytes of a message. *)
Definition text_bytes (r : DnsResponse) : nat :=
  (length (src_ip r) + length (dst_ip r) + length (domain_name r) +
   length (resolved_ip r) + length (resolved_ip_raw r))%nat.

(** The values a Rust [DnsResponse] can hold. *)
Definition response_typed (r : DnsResponse) : Prop :=
  Forall (fun s => utf8_valid s = true) [src_ip r; dst_ip r; domain_name r; resolved_ip r] /\
  Forall (fun z => 0 <= z < 2 ^ 32) [src_port r; dst_port r; ip_family r] /\
  0 <= timestamp_ns r < 2 ^ 64 /\ Z.of_nat (text_bytes r) <= isize_max.

(** [Vec] grows as needed, so encoding succeeds; each of the nine fields costs
    at most a tag and a varint of ten bytes next to its contents. *)
Class ProstLaws `{!Prost} := {
  prost_encode_ok r buf :
    exists msg, prost_encode r buf = Ok (buf ++ msg) /\
      (length msg <= 128 + text_bytes r)%nat /\
      (response_typed r -> prost_decode msg = Some r)
}.

(** ** BufWriter *)

Definition LOG_BUFFER_BYTES : nat := 256 * 1024.
#[global] Opaque LOG_BUFFER_BYTES.

Record BufWriter (F : Type) := { bw_buf : list byte; bw_file : F }.
Arguments bw_buf {F} b.
Arguments bw_file {F} b.
Arguments Build_BufWriter {F} _ _.

Section Writer.
Context {F : Type} `{!LogFile F} (capacity : nat).

(** [flush_buf]: what the file did not accept stays in the buffer. *)
Definition flush_buf : prog (BufWriter F) IoError unit :=
  fun w => let '(f, k, e) := file_write (bw_buf w) (bw_file w) in
           (Build_BufWriter (drop k (bw_buf w)) f,
            match e with None => Ok tt | Some e => Err e end).

(** The wrapped writer's own [write_all]. *)
Definition inner_write_all (bs : list byte) : prog (BufWriter F) IoError unit :=
  fun w => let '(f, _, e) := file_write bs (bw_file w) in
           (Build_BufWriter (bw_buf w) f,
            match e with None => Ok tt | Some e => Err e end).

Definition copy_to_buffer (bs : list byte) : prog (BufWriter F) IoError unit :=
  modify (fun w => Build_BufWriter (bw_buf w ++ bs) (bw_file w)).

(** [BufWriter::write_all] *)
Definition write_all (bs : list byte) : prog (BufWriter F) IoError unit :=
  let! used := gets (fun w => length (bw_buf w)) in
  if (length bs <? capacity - used)%nat then copy_to_buffer bs
  else
  do! (if (capacity - used <? length bs)%nat then flush_buf else ret tt) in
  if (capacity <=? length bs)%nat then inner_write_all bs
  else copy_to_buffer bs.

(** Everything accepted so far: what is in the file, then what is buffered. *)
Definition stream (w : BufWriter F) : list byte := file_bytes (bw_file w) ++ bw_buf w.

Definition buffered (w : BufWriter F) : Prop := (length (bw_buf w) <= capacity)%nat.

Context `{!LogFileLaws F}.

Lemma flush_buf_runs w :
  buffered w ->
  runs flush_buf w (fun w' _ => stream w' = stream w /\ bw_buf w' = [])
    (fun w' _ => stream w' = stream w /\ buffered w').
Proof.
  intros Hb. unfold runs, flush_buf, stream, buffered in *.
  destruct (file_write (bw_buf w) (bw_file w)) as [[f k] [e|]] eqn:Hf; cbn [bw_file bw_buf].
  - apply file_write_err in Hf as [Hk ->]. rewrite <-app_assoc, take_drop. split; [done|len_lia].
  - apply file_write_ok in Hf as [-> ->]. by rewrite drop_ge, app_nil_r by done.
Qed.

Lemma inner_write_all_runs bs w :
  buffered w -> bw_buf w = [] ->
  runs (inner_write_all bs) w (fun w' _ => stream w' = stream w ++ bs /\ buffered w')
    (fun w' _ => exists k, (k < length bs)%nat /\ stream w' = stream w ++ take k bs /\
                           buffered w').
Proof.
  intros Hb Hn. unfold runs, inner_write_all, stream, buffered in *. rewrite Hn in *.
  destruct (file_write bs (bw_file w)) as [[f k] [e|]] eqn:Hf; cbn [bw_file bw_buf].
  - apply file_write_err in Hf as [Hk ->]. exists k. by rewrite !app_nil_r.
  - apply file_write_ok in Hf as [_ ->]. by rewrite !app_nil_r.
Qed.

(** [write_all] appends to the stream: all of its argument, or on an error a
    strict prefix. *)
Lemma write_all_runs bs w :
  buffered w ->
  runs (write_all bs) w (fun w' _ => stream w' = stream w ++ bs /\ buffered w')
    (fun w' _ => exists k, (k < length bs)%nat /\ stream w' = stream w ++ take k bs /\
                           buffered w').
Proof.
  intros Hb. unfold write_all. apply runs_bind, runs_gets. apply runs_if; intros H1; bools.
  { unfold copy_to_buffer. apply runs_modify. unfold stream, buffered in *. cbn [bw_file bw_buf].
    rewrite app_assoc. split; [done|len_lia]. }
  apply runs_bind.
  apply (runs_mono _ _ (fun w' _ => stream w' = stream w /\ buffered w' /\
           (bw_buf w' = [] \/ (length (bw_buf w') + length bs <= capacity)%nat))
         _ (fun w' _ => (0 < length bs)%nat /\ stream w' = stream w /\ buffered w')).
  - apply runs_if; intros H2; bools.
    + eapply runs_mono; [by apply flush_buf_runs| |]; cbv beta.
      * intros w' _ [Hs Hw]. unfold buffered in *. rewrite Hw.
        split_and!; [done|simpl; lia|by left].
      * intros w' _ [Hs Hw]. split_and!; [lia|done..].
    + apply runs_ret. unfold buffered in *. split_and!; [done|done|right; lia].
  - intros w' _ (Hs & Hb' & Hroom). apply runs_if; intros H3; bools.
    + assert (Hn : bw_buf w' = []).
      { destruct Hroom as [|Hroom]; [done|]. destruct (bw_buf w'); [done|]. simpl in Hroom. lia. }
      eapply runs_mono; [by apply inner_write_all_runs| |]; cbv beta; rewrite Hs; [done|].
      intros w2 _ (k & Hk & Hs2 & Hb2). exists k. auto.
    + unfold copy_to_buffer. apply runs_modify. unfold stream, buffered in *.
      cbn [bw_file bw_buf]. rewrite app_assoc, Hs. split; [done|].
      destruct Hroom as [Hn|Hroom]; [rewrite Hn|]; len_lia.
  - intros w' _ (Hn & Hs & Hb'). exists 0%nat. by rewrite take_0, app_nil_r.
Qed.
End Writer.

(** ** The writer task *)

Definition frame (msg : list byte) : list byte := be_bytes 4 (Z.of_nat (length msg)) ++ msg.

Record WriterTask (F : Type) := { proto_buffer : list byte; writer : BufWriter F }.
Arguments proto_buffer {F} w.
Arguments writer {F} w.
Arguments Build_WriterTask {F} _ _.

(** What happened to one message; the two failures are logged. *)
Inductive log_result := Written | EncodeFailed (e : EncodeError) | WriteFailed (e : IoError).

Section Task.
Context {F : Type} `{!LogFile F} `{!Prost}.

(** One iteration of [while let Some(dns_event) = dns_rx.recv_ref()]. *)
Definition writer_event (dns_event : DnsResponse) (t : WriterTask F)
    : WriterTask F * outcome Empty_set log_result :=
  (* proto_buffer.clear(); dns_event.encode(&mut proto_buffer) *)
  match prost_encode dns_event [] with
  | Err e => (Build_WriterTask [] (writer t), Ok (EncodeFailed e))
  | Fault f => (t, Fault f)
  | Ok buf =>
      let proto_len := wrap 32 (Z.of_nat (length buf)) in
      match bind (write_all LOG_BUFFER_BYTES (be_bytes 4 proto_len))
                 (fun _ => write_all LOG_BUFFER_BYTES buf) (writer t) with
      | (w, Ok _) => (Build_WriterTask buf w, Ok Written)
      | (w, Err e) => (Build_WriterTask buf w, Ok (WriteFailed e))
      | (w, Fault f) => (Build_WriterTask buf w, Fault f)
      end
  end.

(** The start of the thread: [open] is the result of [OpenOptions::open]. *)
Definition writer_start (open : option F) : outcome Empty_set (WriterTask F) :=
  match open with
  | Some f => Ok (Build_WriterTask [] (Build_BufWriter [] f))
  | None => Fault UnwrapNone (* expect("Failed to open log file") *)
  end.

(** The end of the thread: [let _ = writer.flush()]. *)
Definition writer_end (t : WriterTask F) : WriterTask F :=
  Build_WriterTask (proto_buffer t) (flush_buf (writer t)).1.

Definition task_ok (t : WriterTask F) : Prop := buffered LOG_BUFFER_BYTES (writer t).

Context `{!LogFileLaws F} `{!ProstLaws}.

(** A message that fits a 32-bit length. *)
Definition fits (r : DnsResponse) : Prop := Z.of_nat (text_bytes r) < 2 ^ 32 - 128.

(** Every exit of one iteration. *)
Lemma writer_event_spec r t :
  task_ok t -> fits r ->
  exists msg t' res, writer_event r t = (t', Ok res) /\ task_ok t' /\
    (length msg <= 128 + text_bytes r)%nat /\
    (response_typed r -> prost_decode msg = Some r) /\
    (res = Written /\ stream (writer t') = stream (writer t) ++ frame msg \/
     exists e k, res = WriteFailed e /\ (k < length (frame msg))%nat /\
       stream (writer t') = stream (writer t) ++ take k (frame msg)).
Proof.
  intros Ht Hfit. destruct (prost_encode_ok r []) as (msg & Henc & Hlen & Hdec).
  unfold writer_event. rewrite Henc. cbn [app]. unfold fits in Hfit.
  assert (Hwrap : wrap 32 (Z.of_nat (length msg)) = Z.of_nat (length msg))
    by (apply Z.mod_small; lia).
  rewrite Hwrap. exists msg. unfold bind.
  pose proof (write_all_runs LOG_BUFFER_BYTES (be_bytes 4 (Z.of_nat (length msg))) _ Ht) as H1.
  unfold runs in H1. destruct (write_all _ _ (writer t)) as [w [[]|e|f]]; [| |done].
  - destruct H1 as [Hs Hb]. pose proof (write_all_runs LOG_BUFFER_BYTES msg w Hb) as H2.
    unfold runs in H2. destruct (write_all _ _ w) as [w' [[]|e|f]]; [| |done].
    + destruct H2 as [Hs' Hb']. do 2 eexists. split_and!; [done..|left; split; [done|]].
      cbn [writer]. unfold frame. by rewrite Hs', Hs, app_assoc.
    + destruct H2 as (k & Hk & Hs' & Hb'). do 2 eexists. split_and!; [done..|right].
      exists e, (4 + k)%nat. split; [done|]. cbn [writer]. unfold frame. split; [len_lia|].
      by rewrite Hs', Hs, <-app_assoc, take_app_add' by (by rewrite length_be_bytes).
  - destruct H1 as (k & Hk & Hs & Hb). rewrite length_be_bytes in Hk.
    do 2 eexists. split_and!; [done..|right].
    exists e, k. split; [done|]. cbn [writer]. unfold frame. split; [len_lia|].
    by rewrite Hs, take_app_le by len_lia.
Qed.
End Task.
Arguments proto_buffer {F} w.
Arguments writer {F} w.
Arguments Build_WriterTask {F} _ _.

(** ** Reading the log *)

(** The format's reference reader: a length, then that many bytes. *)
Definition unframe (l : list byte) : option (list byte * list byte) :=
  if (length l <? 4)%nat then None else
  let n := Z.to_nat (be_Z (take 4 l)) in
  if (length (drop 4 l) <? n)%nat then None
  else Some (take n (drop 4 l), drop n (drop 4 l)).

Fixpoint unframes (fuel : nat) (l : list byte) : option (list (list byte)) :=
  match l with
  | [] => Some []
  | _ =>
      match fuel with
      | O => None
      | S fuel => '(msg, rest) ← unframe l; msgs ← unframes fuel rest; Some (msg :: msgs)
      end
  end.

Definition read_log `{!Prost} (l : list byte) : option (list DnsResponse) :=
  msgs ← unframes (length l) l; mapM prost_decode msgs.

Lemma unframe_frame msg rest :
  Z.of_nat (length msg) < 2 ^ 32 -> unframe (frame msg ++ rest) = Some (msg, rest).
Proof.
  intros Hm. unfold unframe, frame. rewrite <-app_assoc.
  rewrite (proj2 (Nat.ltb_ge _ _)) by len_lia.
  rewrite take_app_length', drop_app_length' by (by rewrite length_be_bytes).
  rewrite be_Z_be_bytes_small by (change (256 ^ Z.of_nat 4) with (2 ^ 32); lia).
  rewrite Nat2Z.id, (proj2 (Nat.ltb_ge _ _)) by len_lia.
  by rewrite take_app_length, drop_app_length.
Qed.

Lemma unframes_frames msgs : forall fuel,
  Forall (fun m => Z.of_nat (length m) < 2 ^ 32) msgs -> (length msgs <= fuel)%nat ->
  unframes fuel (concat (frame <$> msgs)) = Some msgs.
Proof.
  induction msgs as [|m msgs IH]; intros fuel Hm Hf; [by destruct fuel|].
  apply Forall_cons in Hm as [H1 H2]. destruct fuel as [|fuel]; [simpl in Hf; lia|].
  cbn [fmap list_fmap concat unframes].
  assert (Hne : exists b l, frame m ++ concat (frame <$> msgs) = b :: l) by (eexists _, _; done).
  destruct Hne as (b & l & Hne). rewrite Hne, <-Hne, unframe_frame by done. cbn [mbind option_bind].
  by rewrite IH by (done || (simpl in Hf; lia)).
Qed.

Lemma length_frames msgs : (length msgs <= length (concat (frame <$> msgs)))%nat.
Proof.
  induction msgs as [|m msgs IH]; [done|]. cbn [fmap list_fmap concat length].
  unfold frame at 1. len_lia.
Qed.

(** A sequence of frames, each holding a decodable response. *)
Definition frames_of `{!Prost} (l : list byte) (rs : list DnsResponse) : Prop :=
  exists msgs, l = concat (frame <$> msgs) /\
    Forall2 (fun m r => Z.of_nat (length m) < 2 ^ 32 /\ prost_decode m = Some r) msgs rs.

Lemma frames_of_nil `{!Prost} : frames_of [] [].
Proof. by exists []. Qed.

Lemma frames_of_snoc `{!Prost} l rs m r :
  frames_of l rs -> Z.of_nat (length m) < 2 ^ 32 -> prost_decode m = Some r ->
  frames_of (l ++ frame m) (rs ++ [r]).
Proof.
  intros (msgs & -> & Hms) Hm Hr. exists (msgs ++ [m]).
  rewrite fmap_app, concat_app. cbn. rewrite app_nil_r. split; [done|].
  apply Forall2_app; [done|]. by repeat constructor.
Qed.

Lemma frames_of_read `{!Prost} l rs : frames_of l rs -> read_log l = Some rs.
Proof.
  intros (msgs & -> & Hms). unfold read_log. rewrite unframes_frames.
  - cbn [mbind option_bind]. apply mapM_Some. eapply Forall2_impl; [done|]. by intros m r [_ Hr].
  - clear -Hms. by induction Hms as [|m r msgs rs [Hm _]]; constructor.
  - apply length_frames.
Qed.

(** ** Logging a sequence of responses *)

Section Log.
Context {F : Type} `{!LogFile F} `{!LogFileLaws F} `{!Prost} `{!ProstLaws}.

(** The loop of the thread over the responses it receives. *)
Fixpoint writer_run (rs : list DnsResponse) (t : WriterTask F)
    : WriterTask F * outcome Empty_set (list log_result) :=
  match rs with
  | [] => (t, Ok [])
  | r :: rs =>
      match writer_event r t with
      | (t, Ok res) => let '(t, o) := writer_run rs t in (t, let? l := o in Ok (res :: l))
      | (t, Err e) => (t, Err e)
      | (t, Fault f) => (t, Fault f)
      end
  end.

Lemma fits_frame (r : DnsResponse) (msg : list byte) :
  fits r -> (length msg <= 128 + text_bytes r)%nat -> Z.of_nat (length msg) < 2 ^ 32.
Proof. unfold fits. lia. Qed.

(** One written response extends the log by one frame. *)
Lemma writer_event_frames r t t' rs :
  task_ok t -> fits r -> response_typed r -> frames_of (stream (writer t)) rs ->
  writer_event r t = (t', Ok Written) ->
  task_ok t' /\ frames_of (stream (writer t')) (rs ++ [r]).
Proof.
  intros Ht Hfit Hty Hrs Hw.
  destruct (writer_event_spec r t Ht Hfit) as (msg & t2 & res & Hw2 & Ht2 & Hlen & Hdec & Hres).
  rewrite Hw in Hw2. injection Hw2 as <- <-. split; [done|].
  destruct Hres as [[_ ->]|(e & k & ? & _)]; [|done].
  apply frames_of_snoc; [done|by eapply fits_frame|by apply Hdec].
Qed.

Lemma writer_run_frames rs : forall t t' rs0,
  task_ok t -> Forall (fun r => fits r /\ response_typed r) rs ->
  frames_of (stream (writer t)) rs0 ->
  writer_run rs t = (t', Ok (replicate (length rs) Written)) ->
  frames_of (stream (writer t')) (rs0 ++ rs).
Proof.
  induction rs as [|r rs IH]; intros t t' rs0 Ht Hrs Hold Hw.
  { injection Hw as <-. by rewrite app_nil_r. }
  apply Forall_cons in Hrs as [[Hfit Hty] Hrs]. cbn [writer_run] in Hw.
  destruct (writer_event r t) as [t1 [res|e|f]] eqn:H1; [|done..].
  destruct (writer_run rs t1) as [t2 o] eqn:H2. injection Hw as <- Ho.
  destruct o as [l|e|f]; try done. injection Ho as -> ->.
  destruct (writer_event_frames _ _ _ _ Ht Hfit Hty Hold H1) as [Ht1 Hf1].
  rewrite (cons_middle r rs0 rs), app_assoc. by apply (IH t1).
Qed.

(** C13: round trip of the commit log.  When every write and the final flush
    succeed, a reader of the file recovers exactly the responses that were in
    the log before, followed by the ones the thread received, in order. *)
Theorem commit_log_roundtrip rs rs0 t t' w :
  task_ok t -> Forall (fun r => fits r /\ response_typed r) rs ->
  frames_of (stream (writer t)) rs0 ->
  writer_run rs t = (t', Ok (replicate (length rs) Written)) ->
  flush_buf (writer t') = (w, Ok tt) ->
  read_log (file_bytes (bw_file w)) = Some (rs0 ++ rs).
Proof.
  intros Ht Hrs Hold Hw Hf. apply frames_of_read.
  pose proof (writer_run_frames rs t t' rs0 Ht Hrs Hold Hw) as Hs.
  revert Hf. unfold flush_buf.
  destruct (file_write (bw_buf (writer t')) (bw_file (writer t'))) as [[f k] [e|]] eqn:Hfw; [done|].
  intros [= <-]. apply file_write_ok in Hfw as [_ Hfw]. cbn [bw_file]. by rewrite Hfw.
Qed.

(** C29: every exit of one iteration of the writer thread.  It never panics.
    Either one whole frame, the length of the encoding and the encoding, has
    been appended to what was accepted before, or the write failed, the error
    is logged, and a strict prefix of the frame has been appended. *)
Theorem writer_event_exits r t :
  task_ok t -> fits r ->
  exists msg t' res, writer_event r t = (t', Ok res) /\ task_ok t' /\
    (length msg <= 128 + text_bytes r)%nat /\
    (response_typed r -> prost_decode msg = Some r) /\
    (res = Written /\ stream (writer t') = stream (writer t) ++ frame msg \/
     exists e k, res = WriteFailed e /\ (k < length (frame msg))%nat /\
       stream (writer t') = stream (writer t) ++ take k (frame msg)).
Proof. apply writer_event_spec. Qed.

(** C30: a failed flush between a frame's length and its body leaves the length
    in the log without the body: the thread only logs the error, and a reader
    then takes the bytes of the following frames for the missing message. *)
Theorem torn_frame r t msg e f k :
  prost_encode r [] = Ok msg -> Z.of_nat (length msg) < 2 ^ 32 ->
  (length (bw_buf (writer t)) + 4 < LOG_BUFFER_BYTES)%nat ->
  (LOG_BUFFER_BYTES < length (bw_buf (writer t)) + 4 + length msg)%nat ->
  file_write (bw_buf (writer t) ++ be_bytes 4 (Z.of_nat (length msg))) (bw_file (writer t)) =
    (f, k, Some e) ->
  exists t', writer_event r t = (t', Ok (WriteFailed e)) /\
    stream (writer t') = stream (writer t) ++ be_bytes 4 (Z.of_nat (length msg)) /\
    forall later, (length msg <= length later)%nat ->
      unframe (be_bytes 4 (Z.of_nat (length msg)) ++ later) =
      Some (take (length msg) later, drop (length msg) later).
Proof.
  intros Henc Hmsg Hroom Hspill Hfail. unfold writer_event. rewrite Henc.
  assert (Hwrap : wrap 32 (Z.of_nat (length msg)) = Z.of_nat (length msg))
    by (apply Z.mod_small; lia).
  rewrite Hwrap. set (hdr := be_bytes 4 _) in *.
  assert (Hhdr : length hdr = 4%nat) by apply length_be_bytes.
  assert (H1 : write_all LOG_BUFFER_BYTES hdr (writer t) =
    (Build_BufWriter (bw_buf (writer t) ++ hdr) (bw_file (writer t)), Ok tt)).
  { unfold write_all, bind at 1, gets. by rewrite (proj2 (Nat.ltb_lt _ _)) by lia. }
  erewrite bind_run by exact H1.
  assert (H2 : write_all LOG_BUFFER_BYTES msg
      (Build_BufWriter (bw_buf (writer t) ++ hdr) (bw_file (writer t))) =
    (Build_BufWriter (drop k (bw_buf (writer t) ++ hdr)) f, Err e)).
  { unfold write_all, bind at 1, gets. cbn [bw_buf].
    rewrite (proj2 (Nat.ltb_ge _ _)), (proj2 (Nat.ltb_lt _ _)) by len_lia.
    unfold bind, flush_buf. cbn [bw_buf bw_file]. by rewrite Hfail. }
  rewrite H2. eexists. split; [done|]. cbn [writer]. split.
  - apply file_write_err in Hfail as [_ Hfail]. unfold stream. cbn [bw_buf bw_file].
    by rewrite Hfail, <-!app_assoc, take_drop.
  - intros later Hl. unfold unframe. rewrite (proj2 (Nat.ltb_ge _ _)) by len_lia.
    rewrite take_app_length', drop_app_length' by done.
    unfold hdr. rewrite be_Z_be_bytes_small by (change (256 ^ Z.of_nat 4) with (2 ^ 32); lia).
    by rewrite Nat2Z.id, (proj2 (Nat.ltb_ge _ _)) by lia.
Qed.
End Log.
