(* ===== verification/Protobuf.v ===== *)
(** * An implementation of the log's interfaces

    The proto3 wire format of [src/proto/network_event.proto] as an instance of
    [Prost], and files in memory as an instance of [LogFile].  They show that
    the hypotheses of the commit log's theorems hold for the documented format
    and serve the witnesses. *)

From Stdlib Require Import Strings.Byte NArith ZArith Lia.
From stdpp Require Import base tactics numbers list strings.
From S2P Require Import Prelude RustStd Proto CommitLog.

Local Open Scope Z_scope.

(** ** Varints *)

Fixpoint varint (fuel : nat) (z : Z) : list byte :=
  match fuel with
  | O => []
  | S fuel => if z <? 128 then [byte_of_Z z]
              else byte_of_Z (128 + z mod 128) :: varint fuel (z / 128)
  end.

Fixpoint read_varint (fuel : nat) (l : list byte) : option (Z * list byte) :=
  match fuel, l with
  | S fuel, b :: l =>
      if u8 b <? 128 then Some (u8 b, l)
      else '(z, l) ← read_varint fuel l; Some (u8 b - 128 + 128 * z, l)
  | _, _ => None
  end.

Lemma read_varint_varint fuel : forall z rest,
  (0 < fuel)%nat -> 0 <= z < 128 ^ Z.of_nat fuel ->
  read_varint fuel (varint fuel z ++ rest) = Some (z, rest).
Proof.
  induction fuel as [|fuel IH]; intros z rest Hfuel Hz; [lia|].
  rewrite Nat2Z.inj_succ, Z.pow_succ_r in Hz by lia. cbn [varint].
  destruct (Z.ltb_spec z 128); cbn [app read_varint]; rewrite u8_byte_of_Z.
  - rewrite Z.mod_small by lia. by rewrite (proj2 (Z.ltb_lt _ _)).
  - pose proof (Z.mod_pos_bound z 128 eq_refl) as Hm.
    rewrite (Z.mod_small (_ + _)), (proj2 (Z.ltb_ge _ _)) by lia.
    rewrite IH; [| |].
    + cbn [mbind option_bind]. do 2 f_equal. pose proof (Z.div_mod z 128). lia.
    + destruct fuel; [simpl in Hz|]; lia.
    + destruct Hz as [Hz1 Hz2]. split; [apply Z.div_pos; lia|].
      by apply Z.div_lt_upper_bound.
Qed.

Lemma length_varint fuel z : (length (varint fuel z) <= fuel)%nat.
Proof.
  revert z. induction fuel as [|fuel IH]; intros z; [done|]. cbn [varint].
  destruct (z <? 128); simpl; [lia|]. specialize (IH (z / 128)). lia.
Qed.

(** ** Fields *)

(** A field's number and contents; a default value is not written. *)
Inductive field := FInt (n z : Z) | FText (n : Z) (s : list byte).

Definition encode_field (f : field) : list byte :=
  match f with
  | FInt n z => if z =? 0 then [] else byte_of_Z (8 * n) :: varint 10 z
  | FText n s => if bool_decide (s = []) then []
                 else byte_of_Z (8 * n + 2) :: varint 10 (Z.of_nat (length s)) ++ s
  end.

Definition fields (r : DnsResponse) : list field :=
  [FText 1 (src_ip r); FText 2 (dst_ip r); FInt 3 (src_port r); FInt 4 (dst_port r);
   FInt 5 (timestamp_ns r); FText 6 (domain_name r); FText 7 (resolved_ip r);
   FText 8 (resolved_ip_raw r); FInt 9 (ip_family r)].

(** The update of a message by a parsed field. *)
Definition set_int (n z : Z) (r : DnsResponse) : option DnsResponse :=
  match n with
  | 3 => Some (set_src_port z r)
  | 4 => Some (set_dst_port z r)
  | 5 => Some (set_timestamp_ns z r)
  | 9 => Some (set_ip_family z r)
  | _ => None
  end.

Definition set_text (n : Z) (s : list byte) (r : DnsResponse) : option DnsResponse :=
  if n =? 8 then Some (set_resolved_ip_raw s r)
  else if negb (utf8_valid s) then None
  else match n with
  | 1 => Some (set_src_ip s r)
  | 2 => Some (set_dst_ip s r)
  | 6 => Some (set_domain_name s r)
  | 7 => Some (set_resolved_ip s r)
  | _ => None
  end.

Definition set_field (f : field) (r : DnsResponse) : option DnsResponse :=
  match f with
  | FInt n z => set_int n z r
  | FText n s => set_text n s r
  end.

(** One field off the front of a message. *)
Definition read_field (l : list byte) : option (field * list byte) :=
  match l with
  | [] => None
  | tag :: l =>
      '(z, l) ← read_varint 10 l;
      let n := u8 tag / 8 in
      match u8 tag mod 8 with
      | 0 => Some (FInt n z, l)
      | 2 => if (length l <? Z.to_nat z)%nat then None
             else Some (FText n (take (Z.to_nat z) l), drop (Z.to_nat z) l)
      | _ => None
      end
  end.

Fixpoint decode_fields (fuel : nat) (l : list byte) (r : DnsResponse) : option DnsResponse :=
  match l with
  | [] => Some r
  | _ =>
      match fuel with
      | O => None
      | S fuel => '(f, l) ← read_field l; r ← set_field f r; decode_fields fuel l r
      end
  end.

#[export] Instance protobuf : Prost :=
  {| prost_encode r buf := Ok (buf ++ concat (encode_field <$> fields r));
     prost_decode l := decode_fields (length l) l DnsResponse_default |}.

(** ** Round trip *)

Definition field_ok (f : field) : Prop :=
  match f with
  | FInt n z => 0 < n < 16 /\ 0 <= z < 2 ^ 64
  | FText n s => 0 < n < 16 /\ Z.of_nat (length s) <= isize_max
  end.

Definition is_default (f : field) : bool :=
  match f with
  | FInt _ z => z =? 0
  | FText _ s => bool_decide (s = [])
  end.

Lemma read_field_encode f rest :
  field_ok f -> is_default f = false ->
  read_field (encode_field f ++ rest) = Some (f, rest).
Proof.
  destruct f as [n z|n s]; cbn [field_ok is_default encode_field]; intros [Hn Hz] Hd;
    rewrite Hd; cbn [app read_field]; rewrite u8_byte_of_Z.
  - rewrite read_varint_varint by (lia || change (128 ^ Z.of_nat 10) with (2 ^ 70); lia).
    cbn [mbind option_bind]. rewrite (Z.mod_small _ 256), Z.mul_comm by lia.
    by rewrite Z.div_mul, Z.mod_mul by lia.
  - rewrite <-app_assoc, read_varint_varint
      by (lia || change (128 ^ Z.of_nat 10) with (2 ^ 70); unfold isize_max in Hz; lia).
    cbn [mbind option_bind]. rewrite (Z.mod_small _ 256), (Z.mul_comm 8), Z.add_comm by lia.
    rewrite Z.div_add, Z.mod_add by lia. change (2 mod 8) with 2. cbv beta iota.
    rewrite Nat2Z.id, (proj2 (Nat.ltb_ge _ _)) by len_lia.
    by rewrite take_app_length, drop_app_length.
Qed.

Lemma encode_field_default f : is_default f = true -> encode_field f = [].
Proof. destruct f; cbn; by intros ->. Qed.

(** Decoding the encoding of a list of fields sets those that are not default,
    in order. *)
Definition set_fields (fs : list field) (r : DnsResponse) : option DnsResponse :=
  foldl (fun acc f => r ← acc; if is_default f then Some r else set_field f r) (Some r) fs.

Lemma set_fields_None fs :
  foldl (fun acc f => r ← acc; if is_default f then Some r else set_field f r) None fs = None.
Proof. by induction fs. Qed.

Lemma decode_fields_encode fs : forall fuel r,
  Forall field_ok fs -> (length (concat (encode_field <$> fs)) <= fuel)%nat ->
  decode_fields fuel (concat (encode_field <$> fs)) r = set_fields fs r.
Proof.
  induction fs as [|f fs IH]; intros fuel r Hok Hfuel; [by destruct fuel|].
  apply Forall_cons in Hok as [Hf Hok]. unfold set_fields.
  cbn [fmap list_fmap concat foldl mbind option_bind] in *.
  destruct (is_default f) eqn:Hd.
  { rewrite encode_field_default in * by done. by apply IH. }
  assert (Hne : exists b l, encode_field f = b :: l).
  { destruct f; cbn in Hd |- *; rewrite Hd; eauto. }
  destruct Hne as (b & l & Hne).
  destruct fuel as [|fuel]; [rewrite Hne in Hfuel; simpl in Hfuel; lia|].
  rewrite Hne at 1. cbn [app decode_fields].
  rewrite app_comm_cons, <-Hne, read_field_encode by done. cbn [mbind option_bind].
  destruct (set_field f r) as [r'|]; [|by rewrite set_fields_None].
  apply IH; [done|]. rewrite Hne in Hfuel. len_lia.
Qed.

(** Decode one field whose slot still has its default value; [H] is the rule
    for the field's kind. *)
Ltac set_one H n v acc r :=
  rewrite (H n v acc r); cbn [mbind option_bind];
  [|cbn; repeat match goal with
                | Hu : utf8_valid _ = true |- _ => rewrite Hu
                end; reflexivity
   |by intros ->].

Lemma set_fields_all r : response_typed r -> set_fields (fields r) DnsResponse_default = Some r.
Proof.
  intros (Htext & _). rewrite !Forall_cons in Htext. destruct Htext as (H1 & H2 & H6 & H7 & _).
  assert (HI : forall n z (acc r' : DnsResponse), set_int n z acc = Some r' -> (z = 0 -> acc = r') ->
    (if z =? 0 then Some acc else set_int n z acc) = Some r').
  { intros n z acc r' Hs H0. destruct (Z.eqb_spec z 0); [by rewrite H0|done]. }
  assert (HT : forall n s (acc r' : DnsResponse), set_text n s acc = Some r' -> (s = [] -> acc = r') ->
    (if bool_decide (s = []) then Some acc else set_text n s acc) = Some r').
  { intros n s acc r' Hs H0. case_bool_decide; [by rewrite H0|done]. }
  unfold set_fields, fields. cbn [foldl mbind option_bind is_default set_field].
  destruct r as [f1 f2 f3 f4 f5 f6 f7 f8 f9].
  cbn [src_ip dst_ip src_port dst_port timestamp_ns domain_name resolved_ip resolved_ip_raw
       ip_family] in *.
  rewrite (HT 1 f1 _ (set_src_ip f1 DnsResponse_default)); cbn [mbind option_bind];
    [|by cbn; rewrite H1|by intros ->].
  repeat match goal with
  | |- context [set_text 2 ?f ?r] => set_one HT 2 f r (set_dst_ip f r)
  | |- context [set_int 3 ?z ?r] => set_one HI 3 z r (set_src_port z r)
  | |- context [set_int 4 ?z ?r] => set_one HI 4 z r (set_dst_port z r)
  | |- context [set_int 5 ?z ?r] => set_one HI 5 z r (set_timestamp_ns z r)
  | |- context [set_text 6 ?f ?r] => set_one HT 6 f r (set_domain_name f r)
  | |- context [set_text 7 ?f ?r] => set_one HT 7 f r (set_resolved_ip f r)
  | |- context [set_text 8 ?f ?r] => set_one HT 8 f r (set_resolved_ip_raw f r)
  | |- context [set_int 9 ?z ?r] => set_one HI 9 z r (set_ip_family z r)
  end.
  done.
Qed.

Lemma length_encode_field f :
  (length (encode_field f) <= 11 + match f with FInt _ _ => 0 | FText _ s => length s end)%nat.
Proof.
  destruct f as [n z|n s]; cbn [encode_field].
  - destruct (z =? 0); cbn [length]; [lia|]. pose proof (length_varint 10 z). lia.
  - case_bool_decide; cbn [length]; [lia|]. rewrite length_app.
    pose proof (length_varint 10 (Z.of_nat (length s))). lia.
Qed.

#[export] Instance protobuf_laws : ProstLaws.
Proof.
  split. intros r buf. exists (concat (encode_field <$> fields r)). split_and!; [done| |].
  - pose proof (length_encode_field (FText 1 (src_ip r))).
    pose proof (length_encode_field (FText 2 (dst_ip r))).
    pose proof (length_encode_field (FInt 3 (src_port r))).
    pose proof (length_encode_field (FInt 4 (dst_port r))).
    pose proof (length_encode_field (FInt 5 (timestamp_ns r))).
    pose proof (length_encode_field (FText 6 (domain_name r))).
    pose proof (length_encode_field (FText 7 (resolved_ip r))).
    pose proof (length_encode_field (FText 8 (resolved_ip_raw r))).
    pose proof (length_encode_field (FInt 9 (ip_family r))).
    unfold text_bytes, fields. cbn [fmap list_fmap concat]. rewrite !length_app, length_nil.
    cbv iota in *. lia.
  - intros Hr. cbn [prost_decode protobuf]. rewrite decode_fields_encode.
    + by apply set_fields_all.
    + destruct Hr as (_ & Hi & Ht & Hl). rewrite !Forall_cons in Hi. unfold text_bytes in Hl.
      unfold fields. repeat constructor; lia.
    + done.
Qed.

(** ** Files in memory *)

(** A file that still accepts [mf_room] bytes; [None] is no limit. *)
Record MemFile := { mf_bytes : list byte; mf_room : option nat }.

Definition ENOSPC : Z := 28.

#[export] Instance mem_file : LogFile MemFile :=
  {| file_write bs f :=
       match mf_room f with
       | None => ({| mf_bytes := mf_bytes f ++ bs; mf_room := None |}, length bs, None)
       | Some n =>
           if (length bs <=? n)%nat then
             ({| mf_bytes := mf_bytes f ++ bs; mf_room := Some (n - length bs)%nat |},
              length bs, None)
           else ({| mf_bytes := mf_bytes f ++ take n bs; mf_room := Some 0%nat |}, n,
                 Some (WriteError ENOSPC))
       end;
     file_bytes := mf_bytes |}.

#[export] Instance mem_file_laws : LogFileLaws MemFile.
Proof.
  split; intros bs [b [n|]] f' k; cbn [file_write file_bytes mem_file mf_bytes mf_room].
  - destruct (Nat.leb_spec (length bs) n); intros [= <- <-]. done.
  - intros [= <- <-]. done.
  - intros e. destruct (Nat.leb_spec (length bs) n); [done|]. intros [= <- <- _]. done.
  - done.
Qed.

Definition empty_file (room : option nat) : WriterTask MemFile :=
  Build_WriterTask [] (Build_BufWriter [] {| mf_bytes := []; mf_room := room |}).

(** ** Witnesses of the commit log's theorems *)

Definition log_example : list DnsResponse :=
  [set_domain_name (bytes_of "leetcode.com") DnsResponse_default;
   set_ip_family 2 (set_resolved_ip_raw [x0a; x00; x00; x01]
     (set_timestamp_ns 300 DnsResponse_default))].

Lemma log_example_fits : Forall (fun r => fits r /\ response_typed r) log_example.
Proof.
  unfold log_example, fits, response_typed. repeat constructor; vm_compute; done.
Qed.

Lemma empty_file_ok room : task_ok (empty_file room).
Proof. unfold task_ok, buffered. simpl. lia. Qed.

Lemma commit_log_roundtrip_witness :
  exists t' w, writer_run log_example (empty_file None) = (t', Ok [Written; Written]) /\
    flush_buf (writer t') = (w, Ok tt) /\
    read_log (file_bytes (bw_file w)) = Some log_example.
Proof.
  destruct (writer_run log_example (empty_file None)) as [t' o] eqn:Hrun.
  assert (Ho : o = Ok [Written; Written]).
  { change o with (t', o).2. rewrite <-Hrun. vm_compute. reflexivity. }
  destruct (flush_buf (writer t')) as [w o'] eqn:Hflush.
  assert (Ho' : o' = Ok tt).
  { change o' with (w, o').2. rewrite <-Hflush. change t' with (t', o).1. rewrite <-Hrun.
    vm_compute. reflexivity. }
  rewrite Ho in Hrun. rewrite Ho' in Hflush. exists t', w.
  split; [rewrite Ho; reflexivity|]. split; [exact Hflush|].
  apply (commit_log_roundtrip log_example [] (empty_file None) t' w);
    [apply empty_file_ok|apply log_example_fits|apply frames_of_nil|exact Hrun|exact Hflush].
Defined.

Lemma writer_event_exits_witness :
  exists (msg : list byte) t' res,
    writer_event DnsResponse_default (empty_file (Some 0%nat)) = (t', Ok res) /\
    (length msg <= 128)%nat.
Proof.
  destruct (writer_event_exits DnsResponse_default (empty_file (Some 0%nat)))
    as (msg & t' & res & Hw & _ & Hl & _).
  - apply empty_file_ok.
  - vm_compute. reflexivity.
  - exists msg, t', res. split; [exact Hw|exact Hl].
Defined.

(** A full disk and a buffer that is full up to a frame's length. *)
Definition torn_task : WriterTask MemFile :=
  Build_WriterTask [] (Build_BufWriter (replicate (LOG_BUFFER_BYTES - 5) x00)
    {| mf_bytes := []; mf_room := Some 0%nat |}).

Definition torn_response : DnsResponse := set_domain_name (bytes_of "a.b") DnsResponse_default.

Lemma log_buffer_large : (5 < LOG_BUFFER_BYTES)%nat.
Proof. apply Nat.ltb_lt. vm_compute. reflexivity. Qed.

Lemma torn_frame_witness :
  exists t', writer_event torn_response torn_task = (t', Ok (WriteFailed (WriteError ENOSPC))).
Proof.
  pose proof log_buffer_large as Hb.
  destruct (torn_frame torn_response torn_task [x32; x03; x61; x2e; x62] (WriteError ENOSPC)
    {| mf_bytes := []; mf_room := Some 0%nat |} 0) as (t' & Ht & _).
  - reflexivity.
  - reflexivity.
  - cbn [torn_task writer bw_buf]. rewrite length_replicate. lia.
  - cbn [torn_task writer bw_buf]. rewrite length_replicate. simpl. lia.
  - cbn [torn_task writer bw_buf bw_file file_write mem_file mf_room mf_bytes].
    rewrite (proj2 (Nat.leb_gt _ _)); [reflexivity|].
    rewrite length_app, length_be_bytes. lia.
  - exists t'. exact Ht.
Defined.
