(* ===== verification/Topology.v ===== *)
(** * The tasks of the processing topology

    [src/cilium-mini-rs/src/topology.rs]: one iteration of the ring buffer
    reader and of the DNS parser as programs on the state they own, and the
    reader's loop over what the ring holds.  The observer is any instance of
    [DnsObserver], the channels any instance of [ThingBuf]. *)

From Stdlib Require Import Strings.Byte NArith ZArith Lia.
From stdpp Require Import base tactics numbers list strings.
From S2P Require Import Prelude RustStd Common Proto Parser Answers Decode Policy.
From S2P Require Import RingBuffer Capture Channels CommitLog.

Local Open Scope Z_scope.

(** How a loop body ends: the next iteration, or [return] from the task. *)
Inductive flow := Continue | Return.

(** ** The reader *)

Section Reader.
Context {R : Type} `{!RingReader R} {Q : Type} `{!ThingBuf RawDnsEvent Q}.

(** The body of [while let Some(item) = rb.next()]; the state is the sender of
    the raw event channel. *)
Definition reader_item (item : list byte) : prog Q Empty_set flow :=
  fun raw_dns_tx =>
    if negb (length item =? EVENT_SIZE)%nat then (raw_dns_tx, Ok Continue)
    else match tb_try_send_ref raw_dns_tx with
         | Slot _ send => (send (decode_event item), Ok Continue)
         | Closed => (raw_dns_tx, Ok Return)
         | Full => (raw_dns_tx, Ok Continue)
         end.

(** The loop over the entries of the ring. *)
Fixpoint reader_drain (fuel : nat) : prog (R * Q) Empty_set flow :=
  match fuel with
  | O => crash OutOfFuel
  | S fuel => fun '(rb, tx) =>
      match rb_next rb with
      | None => ((rb, tx), Ok Continue)
      | Some (item, rb) =>
          match reader_item item tx with
          | (tx, Ok Continue) => reader_drain fuel (rb, tx)
          | (tx, Ok Return) => ((rb, tx), Ok Return)
          | (tx, Err e) => ((rb, tx), Err e)
          | (tx, Fault f) => ((rb, tx), Fault f)
          end
      end
  end.

Context `{!RingReaderLaws R} `{!ThingBufLaws RawDnsEvent Q}.

(** An entry the reader keeps. *)
Definition sized (e : list byte) : bool := (length e =? EVENT_SIZE)%nat.

Definition reads (es : list (list byte)) : list RawDnsEvent :=
  decode_event <$> filter (fun e => sized e = true) es.

(** What one item does to an open channel. *)
Lemma reader_item_open item q :
  tb_closed q = false -> within q ->
  exists q', reader_item item q = (q', Ok Continue) /\ tb_closed q' = false /\
    tb_capacity q' = tb_capacity q /\ within q' /\
    tb_items q' = take (tb_capacity q) (tb_items q ++ reads [item]).
Proof.
  intros Hc Hw. unfold reader_item, reads.
  rewrite filter_cons, filter_nil. unfold within in Hw. fold (sized item).
  destruct (decide (sized item = true)) as [Hs|Hs%not_true_is_false]; rewrite Hs; cbn [negb].
  - cbn [fmap list_fmap].
    destruct (tb_try_send_ref q) as [stale send| |] eqn:Hq.
    + pose proof (slot_within _ _ _ (decode_event item) Hq).
      apply (tb_slot _ _ _ (decode_event item)) in Hq as (Hl & _ & Hi & Hcap & Hcl).
      eexists. split_and!; [done..|]. rewrite take_ge; [done|]. len_lia.
    + apply tb_full in Hq. eexists. split_and!; [done..|].
      rewrite take_app_le by lia. by rewrite take_ge by lia.
    + apply tb_closed_send in Hq. congruence.
  - cbn [fmap list_fmap].
    eexists. split_and!; [done..|]. rewrite app_nil_r. by rewrite take_ge by lia.
Qed.

Lemma reads_cons e es : reads (e :: es) = reads [e] ++ reads es.
Proof. unfold reads. change (e :: es) with ([e] ++ es). by rewrite filter_app, fmap_app. Qed.

Lemma reader_drain_all : forall fuel rb q,
  tb_closed q = false -> within q -> (length (rb_items rb) < fuel)%nat ->
  exists rb' q', reader_drain fuel (rb, q) = ((rb', q'), Ok Continue) /\
    rb_items rb' = [] /\ tb_closed q' = false /\
    tb_items q' = take (tb_capacity q) (tb_items q ++ reads (rb_items rb)).
Proof.
  induction fuel as [|fuel IH]; intros rb q Hc Hw Hf; [lia|]. cbn [reader_drain].
  destruct (rb_next rb) as [[item rb1]|] eqn:Hn.
  - apply rb_next_some in Hn. rewrite Hn in *.
    destruct (reader_item_open item q Hc Hw) as (q1 & -> & Hc1 & Hcap1 & Hw1 & Hi1).
    destruct (IH rb1 q1 Hc1 Hw1) as (rb' & q' & Hd & Hr & Hc' & Hi'); [simpl in Hf; lia|].
    exists rb', q'. split_and!; [done..|].
    rewrite Hi', Hi1, Hcap1, (reads_cons item (rb_items rb1)), app_assoc.
    generalize (tb_items q ++ reads [item]) as l. intros l.
    destruct (Nat.le_gt_cases (length l) (tb_capacity q)) as [Hl|Hl].
    + by rewrite (take_ge l) by lia.
    + rewrite !take_app_le by len_lia. by rewrite take_take, Nat.min_id.
  - exists rb, q. apply rb_next_none in Hn. split_and!; [done..|].
    rewrite Hn. cbn. rewrite app_nil_r. unfold within in Hw. by rewrite take_ge by lia.
Qed.

(** C26: the reader empties the ring and terminates.  Into an open channel it
    appends, in order, the events of all entries of the right size, as many as
    the channel has room for; entries of another size and the newest events
    beyond the capacity are dropped. *)
Theorem reader_drains rb q :
  tb_closed q = false -> within q ->
  exists rb' q', reader_drain (S (length (rb_items rb))) (rb, q) = ((rb', q'), Ok Continue) /\
    rb_items rb' = [] /\ tb_closed q' = false /\
    tb_items q' = take (tb_capacity q) (tb_items q ++ reads (rb_items rb)).
Proof. intros Hc Hw. apply reader_drain_all; [done..|lia]. Qed.
End Reader.

(** ** The parser *)

Record ParserTask (O Q : Type) := {
  dns_obs : O;
  local_dns_response : DnsResponse;
  dns_tx : Q
}.
Arguments dns_obs {O Q} p.
Arguments local_dns_response {O Q} p.
Arguments dns_tx {O Q} p.
Arguments Build_ParserTask {O Q} _ _ _.

(** What an observer promises the parser task: it does not panic on a response
    whose address bytes are complete. *)
Class DnsObserverLaws (O E : Type) `{!DnsObserver O E} := {
  observer_no_fault r o f : addr_ok r -> (update r o).2 <> Fault f
}.

#[export] Instance engine_observer_laws {M} `{!BpfHashMap M} `{!BpfHashMapLaws M} :
  DnsObserverLaws (FqdnPolicyEngine M) (PolicyError M).
Proof.
  split. intros r eng f Hr.
  eapply runs_no_fault, engine_update_runs, addr_ok_enough, Hr.
Qed.

Section ParserTask.
Context {O E : Type} `{!DnsObserver O E} {Q : Type} `{!ThingBuf DnsResponse Q}.

(** The body of [while let Some(raw_dns_event) = raw_dns_rx.recv_ref().await]. *)
Definition parser_event (raw_dns_event : RawDnsEvent)
    : prog (ParserTask O Q) Empty_set flow :=
  fun t =>
    match parse_dns_into raw_dns_event (local_dns_response t) with
    | (local, Ok _) =>
        (* let _ = dns_obs.update(..).inspect_err(..) *)
        match update local (dns_obs t) with
        | (obs, Fault f) => (Build_ParserTask obs local (dns_tx t), Fault f)
        | (obs, _) =>
            match tb_try_send_ref (dns_tx t) with
            | Slot stale send =>
                (* mem::swap(&mut *slot, &mut local_dns_response) *)
                (Build_ParserTask obs stale (send local), Ok Continue)
            | Closed => (Build_ParserTask obs local (dns_tx t), Ok Return)
            | Full => (Build_ParserTask obs local (dns_tx t), Ok Continue)
            end
        end
    | (local, Err _) => (Build_ParserTask (dns_obs t) local (dns_tx t), Ok Continue)
    | (local, Fault f) => (Build_ParserTask (dns_obs t) local (dns_tx t), Fault f)
    end.

(** The response an event stands for, whatever the reused slot holds. *)
Definition parsed (ev : RawDnsEvent) : option DnsResponse :=
  match parse_dns_into ev DnsResponse_default with
  | (r, Ok _) => Some r
  | _ => None
  end.

Definition safe_event (ev : RawDnsEvent) : Prop := arrays_ok ev /\ 0 <= payload_len ev <= 512.

Lemma parse_any_slot ev slot :
  safe_event ev -> parse_dns_into ev slot = parse_dns_into ev DnsResponse_default.
Proof. intros [Ha Hl]. by apply parse_dns_into_same. Qed.

Lemma parsed_ok ev r : safe_event ev -> parsed ev = Some r -> response_ok ev r.
Proof.
  intros [Ha Hl]. unfold parsed.
  pose proof (parse_dns_into_runs ev DnsResponse_default Ha Hl) as Hr. unfold runs in Hr.
  destruct (parse_dns_into ev DnsResponse_default) as [r' [[]|e|f]]; [|done..]. by intros [= ->].
Qed.

(** The task after an event, branch by branch. *)
Definition after_event (ev : RawDnsEvent) (t t' : ParserTask O Q) (fl : flow) : Prop :=
  match parsed ev with
  | None => dns_obs t' = dns_obs t /\ dns_tx t' = dns_tx t /\ fl = Continue
  | Some r =>
      dns_obs t' = (update r (dns_obs t)).1 /\
      match tb_try_send_ref (dns_tx t) with
      | Slot _ send => dns_tx t' = send r /\ fl = Continue
      | Full => dns_tx t' = dns_tx t /\ fl = Continue
      | Closed => dns_tx t' = dns_tx t /\ fl = Return
      end
  end.

(** The case of a parsed event and a channel with room. *)
Lemma after_event_sent ev t t' fl r stale send :
  after_event ev t t' fl -> parsed ev = Some r -> tb_try_send_ref (dns_tx t) = Slot stale send ->
  dns_obs t' = (update r (dns_obs t)).1 /\ dns_tx t' = send r /\ fl = Continue.
Proof. unfold after_event. intros Ha Hp Hs. by rewrite Hp, Hs in Ha. Qed.

Context `{!DnsObserverLaws O E}.

Lemma parser_event_after ev t :
  safe_event ev -> exists t' fl, parser_event ev t = (t', Ok fl) /\ after_event ev t t' fl.
Proof.
  intros Hev. pose proof (parsed_ok ev) as Hok. unfold parser_event, after_event, parsed in *.
  rewrite parse_any_slot by done. destruct Hev as [Ha Hl].
  pose proof (parse_dns_into_runs ev DnsResponse_default Ha Hl) as Hr. unfold runs in Hr.
  destruct (parse_dns_into ev DnsResponse_default) as [r [[]|e|f]]; [| |done].
  - pose proof (observer_no_fault r (dns_obs t)) as Hno.
    destruct (update r (dns_obs t)) as [obs [[]|e|f]]; cbn [fst].
    3: { destruct (Hno f); [apply Hr|done]. }
    all: destruct (tb_try_send_ref (dns_tx t)); by do 2 eexists.
  - by do 2 eexists.
Qed.

(** C22: one iteration of the parser task on an event whose payload length is
    in range.  It never panics; the result does not depend on the response
    left in the reused buffer; a malformed message changes neither observer
    nor channel; otherwise the observer sees the response exactly once, an
    error of it changes nothing for the channel, and the response is sent when
    there is room, dropped when the channel is full, and ends the task when
    the writer is gone. *)
Theorem parser_event_spec ev t :
  safe_event ev -> exists t' fl, parser_event ev t = (t', Ok fl) /\ after_event ev t t' fl.
Proof. apply parser_event_after. Qed.
End ParserTask.

(** ** Responses of the parser are valid log entries *)

Lemma response_ok_logged ev r :
  event_ok ev -> response_ok ev r -> fits r /\ response_typed r.
Proof.
  intros (Hs & Hd & Hsp & Hdp & _ & _ & Hts & _) (Ha & Hh & Hdom & Hraw & Hres & Hda & Hra).
  destruct Hh as (H1 & H2 & H3 & H4 & H5 & _). cbn in H1, H2, H3, H4, H5.
  pose proof (ip_text_length _ (proj1 Hs)) as Hl1. pose proof (ip_text_length _ (proj1 Hd)) as Hl2.
  rewrite <-H1 in Hl1. rewrite <-H2 in Hl2.
  unfold fits, response_typed, text_bytes, isize_max. rewrite !Forall_cons, H3, H4, H5.
  split_and!; try (by constructor); try lia.
  - rewrite H1. apply is_ascii_utf8_valid, ip_text_ascii.
  - rewrite H2. apply is_ascii_utf8_valid, ip_text_ascii.
  - by apply is_ascii_utf8_valid.
  - by apply is_ascii_utf8_valid.
  - destruct Ha as [->|[[-> _]|[-> _]]]; [|unfold AF_INET|unfold AF_INET6]; lia.
  - destruct Ha as [->|[[-> _]|[-> _]]]; [|unfold AF_INET|unfold AF_INET6]; lia.
Qed.

(** ** Witnesses *)

#[export] Instance event_inhabited : Inhabited RawDnsEvent := populate RawDnsEvent_default.
#[export] Instance response_inhabited : Inhabited DnsResponse := populate DnsResponse_default.

(** A ring with two events around an entry of the wrong size. *)
Definition example_ring : Fifo :=
  {| fifo_items := [encode_event (example_event x00); [x01]; encode_event (example_event xff)];
     fifo_fill := x00 |}.

Lemma reader_drains_witness :
  exists rb' q', reader_drain 4 (example_ring, tb_channel 1 : Chan RawDnsEvent) =
      ((rb', q'), Ok Continue) /\
    fifo_items rb' = [] /\ ch_items q' = [decode_event (encode_event (example_event x00))].
Proof.
  destruct (reader_drains example_ring (tb_channel 1 : Chan RawDnsEvent))
    as (rb' & q' & Hd & Hr & _ & Hi).
  - reflexivity.
  - apply Nat.le_0_l.
  - exists rb', q'. split; [exact Hd|]. split; [exact Hr|]. etransitivity; [exact Hi|].
    vm_compute. reflexivity.
Defined.

Definition example_task : ParserTask (FqdnPolicyEngine BoundedMap) (Chan DnsResponse) :=
  Build_ParserTask example_engine DnsResponse_default (tb_channel 1).

Lemma example_event_parsed : parsed (example_event x00) = Some example_response.
Proof. unfold parsed. by rewrite example_response_parsed. Qed.

Lemma example_event_safe : safe_event (example_event x00).
Proof. split; [apply example_event_carries|vm_compute; split; discriminate]. Qed.

Lemma parser_event_spec_witness :
  exists t', parser_event (example_event x00) example_task = (t', Ok Continue) /\
    tb_items (dns_tx t') = [example_response].
Proof.
  destruct (parser_event_spec (example_event x00) example_task example_event_safe)
    as (t' & fl & Ht & Ha).
  destruct (open_slot (dns_tx example_task)) as (stale & send & Hs);
    [reflexivity|apply Nat.lt_0_1|].
  destruct (after_event_sent _ _ _ _ _ _ _ Ha example_event_parsed Hs) as (_ & Htx & Hfl).
  rewrite Hfl in Ht.
  exists t'. split; [exact Ht|]. rewrite Htx.
  apply (tb_slot _ _ _ example_response) in Hs as (_ & _ & Hi & _). exact Hi.
Defined.
