(* ===== verification/System.v ===== *)
(** * The whole system

    Kernel program and daemon together: [assembly_processing_topology] of
    [src/cilium-mini-rs/src/topology.rs] creates the state, and its steps are a
    packet seen by the classifier or one iteration of one of the three tasks,
    in any order.  The invariant relates every reachable state to the packets
    that were seen. *)

From Stdlib Require Import Strings.Byte NArith ZArith Lia.
From stdpp Require Import base tactics numbers list strings gmap.
From S2P Require Import Prelude RustStd Common Proto Parser Names Answers Decode Policy.
From S2P Require Import RingBuffer Ebpf Capture Channels CommitLog Protobuf Topology.

Local Open Scope Z_scope.

(** [mpsc::channel::<RawDnsEvent>(1_000)], [mpsc::blocking::channel(1_000)] *)
Definition CHANNEL_CAPACITY : nat := 1000.

Record Sys (R Q1 O Q2 F : Type) := {
  sys_ring : R;                        (* DNS_EVENTS_PIPE *)
  sys_raw : Q1;                        (* reader to parser *)
  sys_parser : ParserTask O Q2;        (* holds the channel to the writer *)
  sys_writer : option (WriterTask F);  (* none when the log cannot be opened *)
  sys_results : list log_result;       (* what the writer did, in order *)
  reader_up : bool;
  parser_up : bool;
  writer_up : bool;
  sys_panics : list fault
}.
Arguments Build_Sys {R Q1 O Q2 F} _ _ _ _ _ _ _ _ _.
Arguments sys_ring {R Q1 O Q2 F} s.
Arguments sys_raw {R Q1 O Q2 F} s.
Arguments sys_parser {R Q1 O Q2 F} s.
Arguments sys_writer {R Q1 O Q2 F} s.
Arguments sys_results {R Q1 O Q2 F} s.
Arguments reader_up {R Q1 O Q2 F} s.
Arguments parser_up {R Q1 O Q2 F} s.
Arguments writer_up {R Q1 O Q2 F} s.
Arguments sys_panics {R Q1 O Q2 F} s.

Section System.
Context {R : Type} `{!RingReader R}.
Context {Q1 : Type} `{!ThingBuf RawDnsEvent Q1} {Q2 : Type} `{!ThingBuf DnsResponse Q2}.
Context {O E : Type} `{!DnsObserver O E} {F : Type} `{!LogFile F} `{!Prost}.
Local Notation sys := (Sys R Q1 O Q2 F).

(** The parser task's state with another channel to the writer. *)
Definition with_tx (t : ParserTask O Q2) (q : Q2) : ParserTask O Q2 :=
  Build_ParserTask (dns_obs t) (local_dns_response t) q.

(** The state with another ring. *)
Definition with_ring (ring : R) (s : sys) : sys :=
  Build_Sys ring (sys_raw s) (sys_parser s) (sys_writer s) (sys_results s)
    (reader_up s) (parser_up s) (writer_up s) (sys_panics s).

(** ** Start *)

Inductive AssemblyError := RingBufTryFrom | AsyncFdNew.

(** The three spawns of [assembly_processing_topology]. *)
Definition spawn_tasks (ring_buf : R) (dns_obs : O) (open : option F) : sys :=
  let parser := Build_ParserTask dns_obs DnsResponse_default (tb_channel CHANNEL_CAPACITY) in
  match writer_start open with
  | Ok w => Build_Sys ring_buf (tb_channel CHANNEL_CAPACITY) parser (Some w) [] true true true []
  | Err e => match e with end
  | Fault f =>
      Build_Sys ring_buf (tb_channel CHANNEL_CAPACITY)
        (with_tx parser (tb_drop_receiver (dns_tx parser))) None [] true true false [f]
  end.

(** [RingBuf::try_from] and [AsyncFd::new] are library code. *)
Definition assembly_processing_topology {Map} (try_from : Map -> option R)
    (async_fd_new : R -> option R) (ebpf_map : Map) (dns_obs : O) (open : option F)
    : outcome AssemblyError sys :=
  match try_from ebpf_map with
  | None => Err RingBufTryFrom
  | Some ring_buf =>
      match async_fd_new ring_buf with
      | None => Err AsyncFdNew
      | Some async_fd => Ok (spawn_tasks async_fd dns_obs open)
      end
  end.

(** ** Steps *)

(** One item of the ring. *)
Definition sys_reader (s : sys) : option sys :=
  if negb (reader_up s) then None
  else match rb_next (sys_ring s) with
  | None => None
  | Some (item, rb) =>
      let '(q, o) := reader_item item (sys_raw s) in
      let '(up, panics) :=
        match o with
        | Ok Continue => (true, [])
        | Ok Return => (false, [])
        | Err e => match e with end
        | Fault f => (false, [f])
        end in
      Some (Build_Sys rb q (sys_parser s) (sys_writer s) (sys_results s)
              up (parser_up s) (writer_up s) (sys_panics s ++ panics))
  end.

(** One event; a task that ends drops its receiver. *)
Definition sys_parse (s : sys) : option sys :=
  if negb (parser_up s) then None
  else match tb_recv_ref (sys_raw s) with
  | Some (ev, q) =>
      let '(t, o) := parser_event ev (sys_parser s) in
      let '(up, panics) :=
        match o with
        | Ok Continue => (true, [])
        | Ok Return => (false, [])
        | Err e => match e with end
        | Fault f => (false, [f])
        end in
      Some (Build_Sys (sys_ring s) (if up then q else tb_drop_receiver q) t (sys_writer s)
              (sys_results s) (reader_up s) up (writer_up s) (sys_panics s ++ panics))
  | None =>
      if reader_up s then None
      else Some (Build_Sys (sys_ring s) (tb_drop_receiver (sys_raw s)) (sys_parser s)
                   (sys_writer s) (sys_results s) false false (writer_up s) (sys_panics s))
  end.

(** One response. *)
Definition sys_write (s : sys) : option sys :=
  match sys_writer s with
  | Some w =>
      if negb (writer_up s) then None
      else match tb_recv_ref (dns_tx (sys_parser s)) with
      | Some (r, q) =>
          let '(w, o) := writer_event r w in
          let '(up, results, panics) :=
            match o with
            | Ok res => (true, [res], [])
            | Err e => match e with end
            | Fault f => (false, [], [f])
            end in
          Some (Build_Sys (sys_ring s) (sys_raw s)
                  (with_tx (sys_parser s) (if up then q else tb_drop_receiver q)) (Some w)
                  (sys_results s ++ results) (reader_up s) (parser_up s) up
                  (sys_panics s ++ panics))
      | None =>
          if parser_up s then None
          else Some (Build_Sys (sys_ring s) (sys_raw s)
                       (with_tx (sys_parser s) (tb_drop_receiver (dns_tx (sys_parser s))))
                       (Some (writer_end w)) (sys_results s) (reader_up s) false false
                       (sys_panics s))
      end
  | None => None
  end.

Inductive daemon_step (s s' : sys) : Prop :=
  | StepReader : sys_reader s = Some s' -> daemon_step s s'
  | StepParse : sys_parse s = Some s' -> daemon_step s s'
  | StepWrite : sys_write s = Some s' -> daemon_step s s'.

(** ** What a packet stands for *)

Context `{!NetworkTypes}.

(** The entry for a datagram over cleared memory. *)
Definition canonical_entry (d : Datagram) (ts : Z) : list byte :=
  entry_of (replicate EVENT_SIZE x00) d ts.

Definition packet_response (pkt : TcContext * Z) : option DnsResponse :=
  d ← dns_datagram (packet pkt.1); parsed (decode_event (canonical_entry d pkt.2)).

Definition responses (pkts : list (TcContext * Z)) : list DnsResponse :=
  omap packet_response pkts.

(** ** The invariant *)

Definition good_event (ev : RawDnsEvent) : Prop := event_ok ev /\ safe_event ev.
Definition good_response (r : DnsResponse) : Prop := fits r /\ response_typed r.

(** Responses on their way to the log, in the order in which they arrive. *)
Definition in_flight (s : sys) : list DnsResponse :=
  tb_items (dns_tx (sys_parser s)) ++ omap parsed (tb_items (sys_raw s)) ++
  omap (fun e => parsed (decode_event e)) (rb_items (sys_ring s)).

Definition log_agrees (s : sys) (logged : list DnsResponse) : Prop :=
  exists w, sys_writer s = Some w /\ task_ok w /\
    (Forall (fun res => res = Written) (sys_results s) -> frames_of (stream (writer w)) logged).

(** The parts of the invariant that do not speak of the packets. *)
Definition parts_ok (s : sys) : Prop :=
  Forall entry_ok (rb_items (sys_ring s)) /\ Forall good_event (tb_items (sys_raw s)) /\
  Forall good_response (tb_items (dns_tx (sys_parser s))) /\
  within (sys_raw s) /\ within (dns_tx (sys_parser s)) /\
  tb_capacity (sys_raw s) = CHANNEL_CAPACITY /\
  tb_capacity (dns_tx (sys_parser s)) = CHANNEL_CAPACITY.

(** [base] is what the log held at the start. *)
Definition sys_inv (base : list DnsResponse) (pkts : list (TcContext * Z)) (s : sys) : Prop :=
  parts_ok s /\ sys_panics s = [] /\
  exists logged, log_agrees s (base ++ logged) /\
    logged ++ in_flight s `sublist_of` responses pkts.

(** ** Preservation *)

Context `{!NetworkTypesLaws} `{!RingReaderLaws R} `{!ThingBufLaws RawDnsEvent Q1}.
Context `{!ThingBufLaws DnsResponse Q2} `{!DnsObserverLaws O E} `{!LogFileLaws F} `{!ProstLaws}.

Lemma entry_good e : entry_ok e -> good_event (decode_event e).
Proof. intros He. split; [apply He|]. by apply entry_ok_parses. Qed.

Lemma parsed_good ev r : good_event ev -> parsed ev = Some r -> good_response r.
Proof.
  intros [He Hs] Hp. by eapply response_ok_logged, parsed_ok.
Qed.

(** What a step of the daemon leaves alone, apart from the observer. *)
Definition same_log (s s' : sys) : Prop :=
  sys_writer s' = sys_writer s /\ sys_results s' = sys_results s /\
  sys_panics s' = sys_panics s.

Lemma reader_preserves s s' :
  parts_ok s -> sys_reader s = Some s' ->
  parts_ok s' /\ same_log s s' /\ dns_obs (sys_parser s') = dns_obs (sys_parser s) /\
  in_flight s' `sublist_of` in_flight s.
Proof.
  intros (He & Hv & Hr & W1 & W2 & C1 & C2). unfold sys_reader.
  destruct (negb (reader_up s)); [done|].
  destruct (rb_next (sys_ring s)) as [[item rb]|] eqn:Hn; [|done].
  apply rb_next_some in Hn. rewrite Hn in He. apply Forall_cons in He as [Hi He].
  unfold reader_item. rewrite (proj2 (Nat.eqb_eq _ _)) by apply Hi. cbn [negb].
  unfold in_flight, parts_ok. rewrite Hn.
  destruct (tb_try_send_ref (sys_raw s)) as [stale send| |] eqn:Hs; intros [= <-];
    cbn [sys_ring sys_raw sys_parser sys_writer sys_results sys_panics].
  - pose proof (slot_within _ _ _ (decode_event item) Hs).
    apply (tb_slot _ _ _ (decode_event item)) in Hs as (_ & _ & Hit & Hc & _).
    rewrite Hit, Hc, Forall_app, Forall_singleton.
    unfold same_log. cbn. rewrite app_nil_r. split_and!; try done; [by apply entry_good|].
    rewrite omap_app. cbn. apply sublist_skips_l. rewrite <-app_assoc. apply sublist_skips_l.
    by destruct (parsed _).
  - unfold same_log. cbn. rewrite app_nil_r. split_and!; try done.
    do 2 apply sublist_skips_l. destruct (parsed _); [by apply sublist_cons|done].
  - unfold same_log. cbn. rewrite app_nil_r. split_and!; try done.
    do 2 apply sublist_skips_l. destruct (parsed _); [by apply sublist_cons|done].
Qed.

(** The parser's channel after an event: unchanged or extended. *)
Lemma after_event_tx ev t t' fl :
  good_event ev -> after_event ev t t' fl ->
  Forall good_response (tb_items (dns_tx t)) -> within (dns_tx t) ->
  Forall good_response (tb_items (dns_tx t')) /\ within (dns_tx t') /\
  tb_capacity (dns_tx t') = tb_capacity (dns_tx t) /\
  tb_items (dns_tx t') `sublist_of` tb_items (dns_tx t) ++ option_list (parsed ev).
Proof.
  intros Hev Ha Hr Hw. unfold after_event in Ha.
  destruct (parsed ev) as [r|] eqn:Hp; cbn [option_list].
  2: { destruct Ha as (_ & -> & _). rewrite app_nil_r. by split_and!. }
  destruct Ha as [_ Ha]. apply parsed_good in Hp; [|done].
  destruct (tb_try_send_ref (dns_tx t)) as [stale send| |] eqn:Hs; destruct Ha as [-> _].
  - pose proof (slot_within _ _ _ r Hs).
    apply (tb_slot _ _ _ r) in Hs as (_ & _ & Hi & Hc & _).
    rewrite Hi, Hc, Forall_app, Forall_singleton. by split_and!.
  - split_and!; try done. by apply sublist_inserts_r.
  - split_and!; try done. by apply sublist_inserts_r.
Qed.

Lemma parse_preserves s s' :
  parts_ok s -> sys_parse s = Some s' -> parts_ok s' /\ same_log s s' /\
  in_flight s' `sublist_of` in_flight s /\
  (dns_obs (sys_parser s') = dns_obs (sys_parser s) \/
   exists ev r, ev ∈ tb_items (sys_raw s) /\ parsed ev = Some r /\
     dns_obs (sys_parser s') = (update r (dns_obs (sys_parser s))).1).
Proof.
  intros (He & Hv & Hr & W1 & W2 & C1 & C2). unfold sys_parse.
  destruct (negb (parser_up s)); [done|].
  destruct (tb_recv_ref (sys_raw s)) as [[ev q]|] eqn:Hq.
  - pose proof (recv_within _ _ _ Hq W1) as Wq.
    apply tb_recv_some in Hq as (Hi & Hc & _). rewrite Hi in Hv.
    apply Forall_cons in Hv as [Hev Hv].
    destruct (parser_event_after ev (sys_parser s) (proj2 Hev)) as (t' & fl & Ht & Ha).
    rewrite Ht. pose proof (after_event_tx _ _ _ _ Hev Ha Hr W2) as (Hr' & Wt & Ct & Hsub).
    destruct (tb_dropped q) as (_ & Cd & Id).
    assert (Hobs : dns_obs t' = dns_obs (sys_parser s) \/ exists ev0 r,
      ev0 ∈ tb_items (sys_raw s) /\ parsed ev0 = Some r /\
      dns_obs t' = (update r (dns_obs (sys_parser s))).1).
    { unfold after_event in Ha. destruct (parsed ev) as [r|] eqn:Hp; [|by left; apply Ha].
      right. exists ev, r. split_and!; [rewrite Hi; by left|done|apply Ha]. }
    assert (Hfl : forall q', tb_items q' `sublist_of` tb_items q ->
      (tb_items (dns_tx t') ++ omap parsed (tb_items q') ++
        omap (fun e => parsed (decode_event e)) (rb_items (sys_ring s))) `sublist_of` in_flight s).
    { intros q' Hq'. unfold in_flight. rewrite Hi. cbn [omap list_omap].
      etransitivity; [apply sublist_app; [exact Hsub|reflexivity]|].
      rewrite <-app_assoc. apply sublist_skips_l.
      destruct (parsed ev); cbn; [apply sublist_skip|];
        (apply sublist_app; [by apply sublist_omap|done]). }
    destruct fl; intros [= <-]; unfold parts_ok, same_log, in_flight at 1;
      cbn [sys_ring sys_raw sys_parser sys_writer sys_results sys_panics];
      rewrite app_nil_r, ?Cd, ?Hc, ?Ct.
    + split_and!; try done. by apply Hfl.
    + split_and!; try done; [by eapply sublist_Forall|by apply dropped_within|by apply Hfl].
  - destruct (reader_up s); [done|]. intros [= <-].
    destruct (tb_dropped (sys_raw s)) as (_ & Cd & Id).
    unfold parts_ok, same_log, in_flight at 1;
      cbn [sys_ring sys_raw sys_parser sys_writer sys_results sys_panics]. rewrite Cd.
    split_and!; try done; [by eapply sublist_Forall|by apply dropped_within| |by left].
    unfold in_flight. apply sublist_skips_l, sublist_app; [by apply sublist_omap|done].
Qed.

(** What the frames of the log are while no write has failed. *)
Definition log_holds (s : sys) (w : WriterTask F) (logged : list DnsResponse) : Prop :=
  Forall (fun res => res = Written) (sys_results s) -> frames_of (stream (writer w)) logged.

(** A step of the writer takes one response from the channel, or ends. *)
Lemma write_moves s s' w :
  parts_ok s -> sys_writer s = Some w -> task_ok w -> sys_write s = Some s' ->
  parts_ok s' /\ sys_panics s' = sys_panics s /\
  dns_obs (sys_parser s') = dns_obs (sys_parser s) /\
  exists w' new, sys_writer s' = Some w' /\ task_ok w' /\
    new ++ in_flight s' `sublist_of` in_flight s /\
    forall logged, log_holds s w logged -> log_holds s' w' (logged ++ new).
Proof.
  intros (He & Hv & Hr & W1 & W2 & C1 & C2) Hw Hok. unfold sys_write. rewrite Hw.
  destruct (negb (writer_up s)); [done|].
  destruct (tb_recv_ref (dns_tx (sys_parser s))) as [[r q]|] eqn:Hq.
  - pose proof (recv_within _ _ _ Hq W2) as Wq.
    apply tb_recv_some in Hq as (Hi & Hc & _). rewrite Hi in Hr.
    apply Forall_cons in Hr as [[Hfit Hty] Hr].
    destruct (writer_event_spec r w Hok Hfit) as (msg & w' & res & Hwr & Hok' & _).
    rewrite Hwr. intros [= <-]. unfold parts_ok, log_holds, in_flight, with_tx.
    cbn [sys_ring sys_raw sys_parser sys_writer sys_results sys_panics dns_tx dns_obs].
    rewrite app_nil_r, Hc, Hi. split_and!; try done.
    exists w', [r]. split_and!; try done. intros logged Hlog Hall.
    apply Forall_app in Hall as [Hall Hres]. apply Forall_cons in Hres as [-> _].
    eapply writer_event_frames; [exact Hok|exact Hfit|exact Hty|by apply Hlog|exact Hwr].
  - destruct (parser_up s); [done|]. intros [= <-].
    destruct (tb_dropped (dns_tx (sys_parser s))) as (_ & Cd & Id).
    unfold parts_ok, log_holds, in_flight, with_tx.
    cbn [sys_ring sys_raw sys_parser sys_writer sys_results sys_panics dns_tx dns_obs].
    rewrite Cd. split_and!; try done; [by eapply sublist_Forall|by apply dropped_within|].
    exists (writer_end w), []. cbn [app]. unfold task_ok, writer_end. cbn [writer].
    pose proof (flush_buf_runs LOG_BUFFER_BYTES (writer w) Hok) as Hf. unfold runs in Hf.
    assert (Hflush : (length (bw_buf (flush_buf (writer w)).1) <= LOG_BUFFER_BYTES)%nat /\
      stream (flush_buf (writer w)).1 = stream (writer w)).
    { destruct (flush_buf (writer w)) as [w' [[]|e|f]]; cbn [fst]; [| |done].
      - destruct Hf as [Hs Hn]. split; [|exact Hs]. rewrite Hn. apply Nat.le_0_l.
      - destruct Hf as [Hs Hb]. by split. }
    destruct Hflush as [Hb Hs]. rewrite Hs. split_and!; try done; [by apply sublist_app|].
    intros logged Hlog. by rewrite app_nil_r.
Qed.

Lemma write_preserves s s' logged :
  parts_ok s -> log_agrees s logged -> sys_write s = Some s' ->
  parts_ok s' /\ sys_panics s' = sys_panics s /\
  dns_obs (sys_parser s') = dns_obs (sys_parser s) /\
  exists new, log_agrees s' (logged ++ new) /\ new ++ in_flight s' `sublist_of` in_flight s.
Proof.
  intros Hok (w & Hw & Htask & Hlog) Hs.
  destruct (write_moves _ _ _ Hok Hw Htask Hs)
    as (Hok' & Hp & Ho & w' & new & Hw' & Htask' & Hsub & Hl).
  split_and!; try done. exists new. split; [|done]. exists w'. split_and!; try done. by apply Hl.
Qed.

(** ** A packet *)

Lemma datagram_entry ctx ts d :
  dns_datagram (packet ctx) = Some d -> 0 <= ts < 2 ^ 64 ->
  forall stale, length stale = EVENT_SIZE ->
    entry_ok (entry_of stale d ts) /\
    parsed (decode_event (entry_of stale d ts)) = packet_response (ctx, ts).
Proof.
  intros Hd Hts stale Hl. pose proof (dns_datagram_ok ctx d Hd) as Hok.
  split; [by apply entry_of_ok|].
  unfold packet_response. cbn [fst snd]. rewrite Hd. cbn [mbind option_bind].
  unfold parsed, canonical_entry.
  rewrite (entry_parse_stale stale (replicate EVENT_SIZE x00) d ts _ DnsResponse_default);
    [done|done|done|apply length_replicate|done].
Qed.

(** Another ring under the same tasks: [ys] are the responses it has in
    addition, [zs] those of the additional packets. *)
Lemma sys_inv_ring base pkts pkts' s ring ys zs :
  sys_inv base pkts s -> Forall entry_ok (rb_items ring) ->
  omap (fun e => parsed (decode_event e)) (rb_items ring) =
    omap (fun e => parsed (decode_event e)) (rb_items (sys_ring s)) ++ ys ->
  responses pkts' = responses pkts ++ zs -> ys `sublist_of` zs ->
  sys_inv base pkts' (with_ring ring s).
Proof.
  intros ((_ & Hrest) & Hp & logged & Hlog & Hsub) He Hys Hzs Hyz. split; [|split; [done|]].
  - by split.
  - exists logged. split; [exact Hlog|]. unfold in_flight, with_ring in *. cbn.
    rewrite Hys, Hzs, !app_assoc. apply sublist_app; [|done]. by rewrite <-!app_assoc.
Qed.

Lemma step_preserves base pkts s s' :
  sys_inv base pkts s -> daemon_step s s' -> sys_inv base pkts s'.
Proof.
  intros (Hok & Hp & logged & Hlog & Hsub) [Hs|Hs|Hs].
  - destruct (reader_preserves _ _ Hok Hs) as (Hok' & (Hw & Hr & Hp') & _ & Hf).
    split; [done|]. split; [by rewrite Hp'|]. exists logged. unfold log_agrees in *.
    rewrite Hw, Hr. split; [done|]. etransitivity; [by apply sublist_skips_l|done].
  - destruct (parse_preserves _ _ Hok Hs) as (Hok' & (Hw & Hr & Hp') & Hf & _).
    split; [done|]. split; [by rewrite Hp'|]. exists logged. unfold log_agrees in *.
    rewrite Hw, Hr. split; [done|]. etransitivity; [by apply sublist_skips_l|done].
  - destruct (write_preserves _ _ _ Hok Hlog Hs) as (Hok' & Hp' & _ & new & Hlog' & Hf).
    split; [done|]. split; [by rewrite Hp'|]. exists (logged ++ new).
    rewrite <-app_assoc in Hlog'. split; [done|]. rewrite <-app_assoc.
    etransitivity; [by apply sublist_skips_l|done].
Qed.

(** What holds in every state, also without a log: the queues are within
    their bounds, hold well-formed values and are in the order of the packets. *)
Definition steady (panics : list fault) (pkts : list (TcContext * Z)) (s : sys) : Prop :=
  parts_ok s /\ sys_panics s = panics /\ (forall w, sys_writer s = Some w -> task_ok w) /\
  in_flight s `sublist_of` responses pkts.

Lemma step_steady panics pkts s s' :
  steady panics pkts s -> daemon_step s s' -> steady panics pkts s'.
Proof.
  intros (Hok & Hp & Hw & Hsub) [Hs|Hs|Hs].
  - destruct (reader_preserves _ _ Hok Hs) as (Hok' & (Hw' & _ & Hp') & _ & Hf).
    split; [done|]. rewrite Hp', Hw'. split_and!; [done..|by etransitivity].
  - destruct (parse_preserves _ _ Hok Hs) as (Hok' & (Hw' & _ & Hp') & Hf & _).
    split; [done|]. rewrite Hp', Hw'. split_and!; [done..|by etransitivity].
  - destruct (sys_writer s) as [w|] eqn:Hsome; [|unfold sys_write in Hs; by rewrite Hsome in Hs].
    destruct (write_moves _ _ _ Hok Hsome (Hw w eq_refl) Hs)
      as (Hok' & Hp' & _ & w' & new & Hw' & Htask & Hf & _).
    split; [done|]. split; [by rewrite Hp'|]. rewrite Hw'. split; [by intros w0 [= <-]|].
    etransitivity; [|exact Hsub]. etransitivity; [|exact Hf]. by apply sublist_inserts_l.
Qed.

Lemma inv_steady base pkts s : sys_inv base pkts s -> steady [] pkts s.
Proof.
  intros (Hok & Hp & logged & (w & Hw & Ht & _) & Hsub). split_and!; [done..| |].
  - rewrite Hw. by intros w0 [= <-].
  - etransitivity; [|exact Hsub]. by apply sublist_inserts_l.
Qed.

(** The daemon starts with an empty ring and a log of whole frames. *)
Definition start_ok (ring : R) (f : F) (base : list DnsResponse) : Prop :=
  rb_items ring = [] /\ frames_of (file_bytes f) base.

Lemma spawn_inv ring obs f base :
  start_ok ring f base -> sys_inv base [] (spawn_tasks ring obs (Some f)).
Proof.
  intros [Hr Hf]. destruct (tb_channel_spec (Q := Q1) CHANNEL_CAPACITY) as (I1 & C1 & _).
  destruct (tb_channel_spec (Q := Q2) CHANNEL_CAPACITY) as (I2 & C2 & _).
  unfold sys_inv, parts_ok, in_flight, log_agrees, within, spawn_tasks.
  cbn [writer_start sys_ring sys_raw sys_parser sys_writer sys_results sys_panics dns_tx].
  rewrite Hr, I1, I2, C1, C2. split_and!; try (by constructor); try (simpl; lia).
  exists []. split; [|done]. eexists. split; [done|]. split.
  - unfold task_ok, buffered. cbn [writer bw_buf]. simpl. lia.
  - intros _. unfold stream. cbn [writer bw_buf bw_file]. by rewrite !app_nil_r.
Qed.

End System.

Section Execution.
Context `{!NetworkTypes} `{!NetworkTypesLaws} {R : Type} `{!RingBuffer R} `{!RingBufferLaws R}.
Context (TC_ACT_OK : Z).
Context {Q1 : Type} `{!ThingBuf RawDnsEvent Q1} `{!ThingBufLaws RawDnsEvent Q1}.
Context {Q2 : Type} `{!ThingBuf DnsResponse Q2} `{!ThingBufLaws DnsResponse Q2}.
Context {O E : Type} `{!DnsObserver O E} `{!DnsObserverLaws O E}.
Context {F : Type} `{!LogFile F} `{!LogFileLaws F} `{!Prost} `{!ProstLaws}.
Local Notation sys := (Sys R Q1 O Q2 F).

(** The classifier sees a packet. *)
Definition sys_packet (ctx : TcContext) (ts : Z) (s : sys) : sys :=
  with_ring (dns_tc TC_ACT_OK ctx ts (sys_ring s)).1 s.

(** States reachable from [s0] while the classifier saw the packets, each with
    the time of its capture. *)
Inductive exec (s0 : sys) : list (TcContext * Z) -> sys -> Prop :=
  | ExecStart : exec s0 [] s0
  | ExecPacket pkts s ctx ts :
      exec s0 pkts s -> ctx_ok ctx -> 0 <= ts < 2 ^ 64 ->
      exec s0 (pkts ++ [(ctx, ts)]) (sys_packet ctx ts s)
  | ExecStep pkts s s' : exec s0 pkts s -> daemon_step s s' -> exec s0 pkts s'.

(** A packet adds at most its own response to those on their way. *)
Lemma packet_moves s ctx ts :
  ctx_ok ctx -> 0 <= ts < 2 ^ 64 -> parts_ok s ->
  let ring := sys_ring (sys_packet ctx ts s) in
  Forall entry_ok (rb_items ring) /\
  exists ys, ys `sublist_of` option_list (packet_response (ctx, ts)) /\
    omap (fun e => parsed (decode_event e)) (rb_items ring) =
      omap (fun e => parsed (decode_event e)) (rb_items (sys_ring s)) ++ ys.
Proof.
  intros Hctx Hts (He & _). unfold sys_packet, with_ring. cbn [sys_ring].
  rewrite dns_tc_capture by done. cbn [fst]. unfold capture.
  assert (Hskip : exists ys, ys `sublist_of` option_list (packet_response (ctx, ts)) /\
    omap (fun e => parsed (decode_event e)) (rb_items (sys_ring s)) =
      omap (fun e => parsed (decode_event e)) (rb_items (sys_ring s)) ++ ys).
  { exists []. rewrite app_nil_r. split; [apply sublist_nil_l|done]. }
  destruct (dns_datagram (packet ctx)) as [d|] eqn:Hd; [|by split].
  destruct (rb_reserve (sys_ring s)) as [[ring stale]|] eqn:Hr; [|by split].
  clear Hskip. apply rb_reserve_spec in Hr as [Hi Hl].
  destruct (datagram_entry ctx ts d Hd Hts stale Hl) as [Hok Hpar]. rewrite rb_submit_spec, Hi.
  split; [by apply Forall_app_2, Forall_singleton|].
  exists (option_list (packet_response (ctx, ts))). split; [done|].
  rewrite omap_app. f_equal. cbn [omap list_omap]. rewrite Hpar.
  by destruct (packet_response (ctx, ts)).
Qed.

Lemma responses_snoc pkts pkt :
  responses (pkts ++ [pkt]) = responses pkts ++ option_list (packet_response pkt).
Proof.
  unfold responses. rewrite omap_app. cbn [omap list_omap]. by destruct (packet_response pkt).
Qed.

Lemma packet_preserves base pkts s ctx ts :
  ctx_ok ctx -> 0 <= ts < 2 ^ 64 -> sys_inv base pkts s ->
  sys_inv base (pkts ++ [(ctx, ts)]) (sys_packet ctx ts s).
Proof.
  intros Hctx Hts Hinv. pose proof Hinv as (Hok & _).
  destruct (packet_moves s ctx ts Hctx Hts Hok) as (He & ys & Hys & Hitems).
  by apply (sys_inv_ring _ pkts _ s _ ys (option_list (packet_response (ctx, ts))));
    try done; apply responses_snoc.
Qed.

Lemma packet_steady panics pkts s ctx ts :
  ctx_ok ctx -> 0 <= ts < 2 ^ 64 -> steady panics pkts s ->
  steady panics (pkts ++ [(ctx, ts)]) (sys_packet ctx ts s).
Proof.
  intros Hctx Hts (Hok & Hp & Hw & Hsub).
  destruct (packet_moves s ctx ts Hctx Hts Hok) as (He & ys & Hys & Hitems).
  split_and!; [by split; [|apply Hok]|done..|].
  rewrite responses_snoc. unfold in_flight in *. rewrite Hitems, !app_assoc in *.
  by apply sublist_app.
Qed.

(** What the start of the writer thread panics with. *)
Definition open_panics (open : option F) : list fault :=
  match open with Some _ => [] | None => [UnwrapNone] end.

Lemma spawn_steady ring (obs : O) (open : option F) :
  rb_items ring = [] ->
  steady (open_panics open) [] (spawn_tasks (Q1 := Q1) (Q2 := Q2) ring obs open).
Proof.
  intros Hr. destruct (tb_channel_spec (Q := Q1) CHANNEL_CAPACITY) as (I1 & C1 & _).
  destruct (tb_channel_spec (Q := Q2) CHANNEL_CAPACITY) as (I2 & C2 & _).
  destruct (tb_dropped (Q := Q2) (tb_channel CHANNEL_CAPACITY)) as (_ & C3 & I3).
  rewrite I2 in I3. apply sublist_nil_r in I3. rewrite C2 in C3.
  unfold steady, parts_ok, in_flight, within, spawn_tasks. destruct open as [f|];
    cbn [writer_start sys_ring sys_raw sys_parser sys_writer sys_results sys_panics dns_tx with_tx];
    rewrite Hr, I1, C1, ?I2, ?C2, ?I3, ?C3; split_and!; try (by constructor); try (simpl; lia); [|done].
  intros w [= <-]. unfold task_ok, buffered. cbn [writer bw_buf]. simpl. lia.
Qed.

Lemma exec_steady ring obs open pkts s :
  rb_items ring = [] -> exec (spawn_tasks ring obs open) pkts s ->
  steady (open_panics open) pkts s.
Proof.
  intros Hr Hx. induction Hx as [|pkts s ctx ts _ IH Hctx Hts|pkts s s' _ IH Hstep].
  - by apply spawn_steady.
  - by apply packet_steady.
  - by eapply step_steady.
Qed.

(** With the log opened the writer's state is there. *)
Lemma exec_writer ring obs f pkts s :
  rb_items ring = [] -> exec (spawn_tasks ring obs (Some f)) pkts s ->
  exists w, sys_writer s = Some w /\ task_ok w.
Proof.
  intros Hr Hx. induction Hx as [|pkts s ctx ts _ IH _ _|pkts s s' Hx IH Hstep]; [|exact IH|].
  - eexists. split; [done|]. unfold task_ok, buffered. cbn [writer bw_buf]. simpl. lia.
  - destruct (exec_steady _ _ _ _ _ Hr Hx) as (Hok & _). destruct IH as (w & Hw & Htask).
    destruct Hstep as [Hs|Hs|Hs].
    + destruct (reader_preserves _ _ Hok Hs) as (_ & (-> & _) & _). by exists w.
    + destruct (parse_preserves _ _ Hok Hs) as (_ & (-> & _) & _). by exists w.
    + destruct (write_moves _ _ _ Hok Hw Htask Hs) as (_ & _ & _ & w' & _ & Hw' & Htask' & _).
      by exists w'.
Qed.

Lemma exec_inv ring obs f base pkts (s : sys) :
  start_ok ring f base -> exec (spawn_tasks ring obs (Some f)) pkts s -> sys_inv base pkts s.
Proof.
  intros Hs Hx. induction Hx as [|pkts s ctx ts _ IH Hctx Hts|pkts s s' _ IH Hstep].
  - by apply spawn_inv.
  - by apply packet_preserves.
  - by eapply step_preserves.
Qed.
(** ** One packet through a quiet system *)

(** Every task is waiting, nothing is queued and every channel is open. *)
Definition quiet (s : sys) : Prop :=
  rb_items (sys_ring s) = [] /\ tb_items (sys_raw s) = [] /\
  tb_items (dns_tx (sys_parser s)) = [] /\
  tb_closed (sys_raw s) = false /\ tb_closed (dns_tx (sys_parser s)) = false /\
  reader_up s = true /\ parser_up s = true /\ writer_up s = true.

Lemma rb_one (ring : R) e :
  rb_items ring = [e] -> exists ring', rb_next ring = Some (e, ring') /\ rb_items ring' = [].
Proof.
  intros Hi. destruct (rb_next ring) as [[e' ring']|] eqn:Hn.
  - apply rb_next_some in Hn. rewrite Hi in Hn. injection Hn as <- Hn. by exists ring'.
  - apply rb_next_none in Hn. congruence.
Qed.

Lemma tb_one {T Q} `{!ThingBuf T Q} `{!ThingBufLaws T Q} (q : Q) x :
  tb_items q = [x] ->
  exists q', tb_recv_ref q = Some (x, q') /\ tb_items q' = [] /\ tb_closed q' = tb_closed q.
Proof.
  intros Hi. destruct (tb_recv_ref q) as [[x' q']|] eqn:Hn.
  - apply tb_recv_some in Hn as (Hn & _ & Hc). rewrite Hi in Hn. injection Hn as <- Hn.
    by exists q'.
  - apply tb_recv_none in Hn. congruence.
Qed.

Lemma tb_send_one {T Q} `{!ThingBuf T Q} `{!ThingBufLaws T Q} (q : Q) (x : T) :
  tb_items q = [] -> tb_closed q = false -> tb_capacity q = CHANNEL_CAPACITY ->
  exists stale send, tb_try_send_ref q = Slot stale send /\
    tb_items (send x) = [x] /\ tb_closed (send x) = false.
Proof.
  intros Hi Hc Hcap. destruct (open_slot q) as (stale & send & Hs); [done| |].
  - rewrite Hi, Hcap. apply Nat.lt_0_succ.
  - exists stale, send. split; [done|]. apply (tb_slot _ _ _ x) in Hs as (_ & _ & Hi' & _ & Hc').
    by rewrite Hi' , Hi.
Qed.

(** Reader and parser on the only entry of the ring. *)
Lemma quiet_reader (s : sys) (ring : R) e :
  quiet s -> parts_ok s -> rb_items ring = [e] -> entry_ok e ->
  let s0 := Build_Sys ring (sys_raw s) (sys_parser s) (sys_writer s) (sys_results s)
              true true true (sys_panics s) in
  exists s1, sys_reader s0 = Some s1 /\ rb_items (sys_ring s1) = [] /\
    tb_items (sys_raw s1) = [decode_event e] /\ tb_closed (sys_raw s1) = false /\
    sys_parser s1 = sys_parser s /\ sys_writer s1 = sys_writer s /\
    sys_results s1 = sys_results s /\ parser_up s1 = true /\ writer_up s1 = true.
Proof.
  intros (_ & I1 & _ & D1 & _) (_ & _ & _ & _ & _ & C1 & _) Hi He s0.
  destruct (rb_one ring e Hi) as (ring' & Hn & Hi').
  destruct (tb_send_one (sys_raw s) (decode_event e) I1 D1 C1) as (stale & send & Hs & I & D).
  unfold sys_reader, s0. cbn [reader_up negb sys_ring sys_raw]. rewrite Hn.
  unfold reader_item. rewrite (proj2 (Nat.eqb_eq _ _)) by apply He. cbn [negb]. rewrite Hs.
  eexists. split; [done|]. by split_and!.
Qed.

Lemma quiet_parse (s1 : sys) ev r :
  tb_items (sys_raw s1) = [ev] -> good_event ev -> parsed ev = Some r ->
  tb_items (dns_tx (sys_parser s1)) = [] -> tb_closed (dns_tx (sys_parser s1)) = false ->
  tb_capacity (dns_tx (sys_parser s1)) = CHANNEL_CAPACITY -> parser_up s1 = true ->
  exists s2, sys_parse s1 = Some s2 /\ tb_items (sys_raw s2) = [] /\
    sys_ring s2 = sys_ring s1 /\
    tb_items (dns_tx (sys_parser s2)) = [r] /\
    dns_obs (sys_parser s2) = (update r (dns_obs (sys_parser s1))).1 /\
    sys_writer s2 = sys_writer s1 /\ sys_results s2 = sys_results s1 /\
    writer_up s2 = writer_up s1.
Proof.
  intros Hi Hev Hp I2 D2 C2 Hup. destruct (tb_one (sys_raw s1) ev Hi) as (q & Hq & Iq & _).
  destruct (tb_send_one (dns_tx (sys_parser s1)) r I2 D2 C2) as (stale & send & Hs & I & _).
  destruct (parser_event_after ev (sys_parser s1) (proj2 Hev)) as (t' & fl & Ht & Ha).
  destruct (after_event_sent _ _ _ _ _ _ _ Ha Hp Hs) as (Hobs & Htx & ->).
  unfold sys_parse. rewrite Hup, Hq, Ht. cbn [negb]. eexists. split; [done|].
  cbn [sys_ring sys_raw sys_parser sys_writer sys_results writer_up].
  rewrite Htx. by split_and!.
Qed.

Lemma quiet_write (s2 : sys) r w :
  tb_items (dns_tx (sys_parser s2)) = [r] -> sys_writer s2 = Some w -> writer_up s2 = true ->
  task_ok w -> good_response r ->
  exists s3 res w', sys_write s2 = Some s3 /\ sys_ring s3 = sys_ring s2 /\
    sys_raw s3 = sys_raw s2 /\ tb_items (dns_tx (sys_parser s3)) = [] /\
    dns_obs (sys_parser s3) = dns_obs (sys_parser s2) /\ sys_writer s3 = Some w' /\
    sys_results s3 = sys_results s2 ++ [res] /\
    (forall logged, frames_of (stream (writer w)) logged -> res = Written ->
       frames_of (stream (writer w')) (logged ++ [r])).
Proof.
  intros Hi Hw Hup Hok [Hfit Hty]. destruct (tb_one _ r Hi) as (q & Hq & Iq & _).
  destruct (writer_event_spec r w Hok Hfit) as (msg & w' & res & Hwr & _).
  unfold sys_write. rewrite Hw, Hup, Hq, Hwr. cbn [negb].
  eexists _, res, w'. split; [done|].
  cbn [sys_ring sys_raw sys_parser sys_writer sys_results dns_tx dns_obs with_tx].
  split_and!; try done. intros logged Hlog ->. by eapply writer_event_frames.
Qed.

(** The three tasks in turn deliver the response of a packet. *)
Lemma quiet_delivers (s : sys) ctx ts r w :
  quiet s -> parts_ok s -> sys_writer s = Some w -> task_ok w ->
  ctx_ok ctx -> 0 <= ts < 2 ^ 64 -> packet_response (ctx, ts) = Some r ->
  rb_reserve (sys_ring s) <> None ->
  exists s1 s2 s3 res w', sys_reader (sys_packet ctx ts s) = Some s1 /\ sys_parse s1 = Some s2 /\
    sys_write s2 = Some s3 /\ in_flight s3 = [] /\
    dns_obs (sys_parser s3) = (update r (dns_obs (sys_parser s))).1 /\
    sys_writer s3 = Some w' /\ sys_results s3 = sys_results s ++ [res] /\
    (forall logged, frames_of (stream (writer w)) logged -> res = Written ->
       frames_of (stream (writer w')) (logged ++ [r])).
Proof.
  intros Hq Hok Hw Htask Hctx Hts Hr Hroom.
  pose proof Hq as (Ir & _ & I2 & _ & D2 & Hu1 & Hu2 & Hu3).
  destruct (dns_datagram (packet ctx)) as [d|] eqn:Hd;
    [|unfold packet_response in Hr; cbn [fst] in Hr; by rewrite Hd in Hr].
  destruct (rb_reserve (sys_ring s)) as [[ring stale]|] eqn:Hres; [|done].
  pose proof Hres as [Hri Hl]%rb_reserve_spec.
  destruct (datagram_entry ctx ts d Hd Hts stale Hl) as [He Hpar]. rewrite Hr in Hpar.
  assert (Hs0 : sys_packet ctx ts s = Build_Sys (rb_submit (entry_of stale d ts) ring) (sys_raw s)
      (sys_parser s) (sys_writer s) (sys_results s) true true true (sys_panics s)).
  { unfold sys_packet, with_ring. rewrite dns_tc_capture by done. cbn [fst]. unfold capture.
    by rewrite Hd, Hres, Hu1, Hu2, Hu3. }
  rewrite Hs0.
  destruct (quiet_reader s (rb_submit (entry_of stale d ts) ring) (entry_of stale d ts) Hq Hok)
    as (s1 & E1 & Ir1 & Iw1 & _ & Hp1 & Hw1 & Hrs1 & Hup1 & Huw1);
    [by rewrite rb_submit_spec, Hri, Ir|done|].
  destruct (quiet_parse s1 _ r Iw1 (entry_good _ He) Hpar)
    as (s2 & E2 & Iw2 & Hr2 & Id2 & Hobs & Hw2 & Hrs2 & Huw2);
    [by rewrite Hp1..|rewrite Hp1; apply Hok|done|].
  destruct (quiet_write s2 r w Id2)
    as (s3 & res & w' & E3 & Hr3 & Hraw3 & Id3 & Ho3 & Hw3 & Hrs3 & Hlog);
    [congruence|congruence|done|by eapply parsed_good; [apply entry_good|]|].
  exists s1, s2, s3, res, w'. split_and!; try done.
  - unfold in_flight. by rewrite Id3, Hraw3, Iw2, Hr3, Hr2, Ir1.
  - by rewrite Ho3, Hobs, Hp1.
  - by rewrite Hrs3, Hrs2, Hrs1.
Qed.
(** ** Properties of every reachable state *)

(** C6: the panics of the daemon.  Whatever packets arrive and however kernel
    and tasks are interleaved, also after the start with a log that cannot be
    opened, both channels stay within their 1000 slots, and the tasks panic
    exactly where the writer thread finds at its start that the log cannot be
    opened (the [expect] of [spawn_file_writer]): if it can, never. *)
Theorem system_never_panics ring obs open pkts (s : sys) :
  rb_items ring = [] -> exec (spawn_tasks ring obs open) pkts s ->
  sys_panics s = match open with Some _ => [] | None => [UnwrapNone] end /\
  (length (tb_items (sys_raw s)) <= CHANNEL_CAPACITY)%nat /\
  (length (tb_items (dns_tx (sys_parser s))) <= CHANNEL_CAPACITY)%nat.
Proof.
  intros Hr Hx. destruct (exec_steady _ _ _ _ _ Hr Hx) as ((_ & _ & _ & W1 & W2 & C1 & C2) & Hp & _).
  unfold within in *. rewrite C1 in W1. rewrite C2 in W2. done.
Qed.

(** Soundness of the commit log.  In every state reachable from a start with
    the log opened and holding whole frames, in which no write has failed, a
    reader of the log finds the responses it held at the start and then a
    subsequence, in order, of the responses in the packets seen so far; what is
    still queued follows in the same subsequence, so nothing is invented,
    duplicated or reordered. *)
Theorem system_log_sound ring obs f base pkts (s : sys) :
  start_ok ring f base -> exec (spawn_tasks ring obs (Some f)) pkts s ->
  exists w logged, sys_writer s = Some w /\
    logged ++ in_flight s `sublist_of` responses pkts /\
    (Forall (fun res => res = Written) (sys_results s) ->
     read_log (stream (writer w)) = Some (base ++ logged)).
Proof.
  intros Hs Hx.
  destruct (exec_inv _ _ _ _ _ _ Hs Hx) as (_ & _ & logged & (w & Hw & _ & Hlog) & Hsub).
  exists w, logged. split_and!; [done..|]. intros Hall. by apply frames_of_read, Hlog.
Qed.

(** Delivery.  From every state reachable from a start with the log opened and
    holding whole frames, in which the tasks are idle and no write has failed, a
    packet with a well-formed response for which the ring has room is taken
    through the system by one step of each task: the observer sees the response
    once, and unless the write fails the log ends with it. *)
Theorem system_delivers ring obs f base pkts (s : sys) ctx ts r :
  start_ok ring f base -> exec (spawn_tasks ring obs (Some f)) pkts s ->
  quiet s -> Forall (fun res => res = Written) (sys_results s) ->
  ctx_ok ctx -> 0 <= ts < 2 ^ 64 -> packet_response (ctx, ts) = Some r ->
  rb_reserve (sys_ring s) <> None ->
  exists s1 s2 s3 res w logged,
    sys_reader (sys_packet ctx ts s) = Some s1 /\ sys_parse s1 = Some s2 /\
    sys_write s2 = Some s3 /\ in_flight s3 = [] /\
    dns_obs (sys_parser s3) = (update r (dns_obs (sys_parser s))).1 /\
    sys_writer s3 = Some w /\ sys_results s3 = sys_results s ++ [res] /\
    logged `sublist_of` responses pkts /\
    (res = Written -> read_log (stream (writer w)) = Some (base ++ logged ++ [r])).
Proof.
  intros Hs Hx Hq Hall Hctx Hts Hr Hroom.
  destruct (exec_inv _ _ _ _ _ _ Hs Hx) as (Hok & _ & logged & (w & Hw & Htask & Hlog) & Hsub).
  destruct (quiet_delivers s ctx ts r w)
    as (s1 & s2 & s3 & res & w' & E1 & E2 & E3 & Hf & Hobs & Hw3 & Hres & Hfr); try done.
  exists s1, s2, s3, res, w', logged. split_and!; try done.
  - etransitivity; [|exact Hsub]. by apply sublist_inserts_r.
  - intros Hwr. rewrite app_assoc. by apply frames_of_read, Hfr; [apply Hlog|].
Qed.
End Execution.

(** ** The policy engine in the system *)

Section PolicyStep.
Context `{!NetworkTypes} `{!NetworkTypesLaws} {R : Type} `{!RingReader R} `{!RingReaderLaws R}.
Context {Q1 : Type} `{!ThingBuf RawDnsEvent Q1} `{!ThingBufLaws RawDnsEvent Q1}.
Context {Q2 : Type} `{!ThingBuf DnsResponse Q2} `{!ThingBufLaws DnsResponse Q2}.
Context {M : Type} `{!BpfHashMap M} `{!BpfHashMapLaws M}.
Context {F : Type} `{!LogFile F} `{!LogFileLaws F} `{!Prost} `{!ProstLaws}.
Local Notation engine := (FqdnPolicyEngine M).
Local Notation sys := (Sys R Q1 engine Q2 F).

(** The engine of a state. *)
Definition sys_engine (s : sys) : engine := dns_obs (sys_parser s).

(** The binding of [k] is authorised by one of the responses. *)
Definition authorised (eng : engine) (rs : list DnsResponse) (k : RawIpAddr) : Prop :=
  exists r, r ∈ rs /\ domain_name r ∈ allowed_domains eng /\ known_family r /\
    first_address r = k.

(** How an engine can have come from another one. *)
Definition engine_from (eng0 eng : engine) (rs : list DnsResponse) : Prop :=
  allowed_domains eng = allowed_domains eng0 /\
  forall k, map_lookup (allowed_ip_map eng) k = map_lookup (allowed_ip_map eng0) k \/
            (map_lookup (allowed_ip_map eng) k = Some 0 /\ authorised eng0 rs k).

Lemma update_from r (eng : engine) :
  enough_bytes r -> engine_from eng (update r eng).1 [r].
Proof.
  intros He. pose proof (engine_update_runs r eng He) as Hu. unfold runs in Hu.
  change (update r eng) with (engine_update r eng).
  destruct (engine_update r eng) as [eng' [[]|e|f]]; cbn [fst]; [| |done].
  - destruct Hu as [Hd [[_ ->]|(Hdom & Hf & Hk & Hother)]]; (split; [done|]); intros k; [by left|].
    destruct (decide (k = first_address r)) as [->|Hne]; [right|left; by apply Hother].
    split; [done|]. exists r. split_and!; try done. by left.
  - destruct Hu as [-> _]. split; [done|]. by left.
Qed.

Lemma engine_from_trans eng0 eng1 eng2 rs1 rs2 :
  engine_from eng0 eng1 rs1 -> engine_from eng1 eng2 rs2 ->
  engine_from eng0 eng2 (rs1 ++ rs2).
Proof.
  intros [D1 K1] [D2 K2]. split; [congruence|]. intros k.
  destruct (K2 k) as [->|[-> (r & Hr & Hd & Hf & Hk)]].
  - destruct (K1 k) as [->|[-> (r & Hr & Hd & Hf & Hk)]]; [by left|right].
    split; [done|]. exists r. split_and!; try done. apply elem_of_app. by left.
  - right. split; [done|]. exists r. rewrite D1 in Hd. split_and!; try done.
    apply elem_of_app. by right.
Qed.

Lemma engine_from_mono eng0 eng rs rs' :
  (forall r, r ∈ rs -> r ∈ rs') -> engine_from eng0 eng rs -> engine_from eng0 eng rs'.
Proof.
  intros Hsub [D K]. split; [done|]. intros k.
  destruct (K k) as [?|[? (r & Hr & ? & ? & ?)]]; [by left|right].
  split; [done|]. exists r. split_and!; try done. by apply Hsub.
Qed.

Lemma step_engine panics pkts (s s' : sys) :
  steady panics pkts s -> daemon_step (E := PolicyError M) s s' ->
  engine_from (sys_engine s) (sys_engine s') (responses pkts).
Proof.
  intros (Hok & _ & Hw & Hsub) Hstep. unfold sys_engine.
  assert (Hsame : engine_from (dns_obs (sys_parser s)) (dns_obs (sys_parser s)) (responses pkts))
    by (split; [done|]; by left).
  destruct Hstep as [Hs|Hs|Hs].
  - destruct (reader_preserves _ _ Hok Hs) as (_ & _ & -> & _). done.
  - destruct (parse_preserves _ _ Hok Hs) as (_ & _ & _ & [->|(ev & r & Hev & Hp & ->)]); [done|].
    assert (Hgood : good_event ev).
    { destruct Hok as (_ & Hv & _). rewrite Forall_forall in Hv. by apply Hv. }
    eapply engine_from_mono; [|apply update_from].
    + intros r' Hr'%list_elem_of_singleton. subst r'.
      apply (sublist_subseteq _ _ Hsub). unfold in_flight.
      apply elem_of_app. right. apply elem_of_app. left.
      apply list_elem_of_omap. by exists ev.
    + apply addr_ok_enough. exact (proj1 (parsed_ok ev r (proj2 Hgood) Hp)).
  - destruct (sys_writer s) as [w|] eqn:Hsome; [|unfold sys_write in Hs; by rewrite Hsome in Hs].
    by destruct (write_moves _ _ _ Hok Hsome (Hw w eq_refl) Hs) as (_ & _ & -> & _).
Qed.

End PolicyStep.

Section Policy.
Context `{!NetworkTypes} `{!NetworkTypesLaws} {R : Type} `{!RingBuffer R} `{!RingBufferLaws R}.
Context (TC_ACT_OK : Z) {Q1 : Type} `{!ThingBuf RawDnsEvent Q1} `{!ThingBufLaws RawDnsEvent Q1}.
Context {Q2 : Type} `{!ThingBuf DnsResponse Q2} `{!ThingBufLaws DnsResponse Q2}.
Context {M : Type} `{!BpfHashMap M} `{!BpfHashMapLaws M}.
Context {F : Type} `{!LogFile F} `{!LogFileLaws F} `{!Prost} `{!ProstLaws}.
Local Notation engine := (FqdnPolicyEngine M).
Local Notation sys := (Sys R Q1 engine Q2 F).
Local Notation exec := (exec (R := R) (Q1 := Q1) (O := engine) (E := PolicyError M) (Q2 := Q2)
                             (F := F) TC_ACT_OK).

Lemma exec_engine ring (eng : engine) open pkts s :
  rb_items ring = [] -> exec (spawn_tasks ring eng open) pkts s ->
  engine_from eng (sys_engine s) (responses pkts).
Proof.
  intros Hs Hx. induction Hx as [|pkts s ctx ts Hx IH Hctx Hts|pkts s s' Hx IH Hstep].
  - by destruct open; (split; [|left]).
  - eapply engine_from_mono; [|exact IH]. intros r Hr. unfold responses. rewrite omap_app.
    apply elem_of_app. by left.
  - eapply engine_from_mono; [|eapply engine_from_trans; [exact IH|]].
    + intros r [Hr|Hr]%elem_of_app; [exact Hr|exact Hr].
    + exact (step_engine _ _ _ _ (exec_steady _ _ _ _ _ _ Hs Hx) Hstep).
Qed.

(** C2: soundness of the policy.  In every reachable state, whether or not the
    log could be opened, the allowed domains are the configured ones, and an
    address whose entry in ALLOWED_IP_MAP differs from the one at the start is
    bound to 0 and is the first address of a DNS response, in a packet that was
    seen, for an allowed domain. *)
Theorem policy_sound ring eng open pkts s :
  rb_items ring = [] -> exec (spawn_tasks ring eng open) pkts s ->
  allowed_domains (sys_engine s) = allowed_domains eng /\
  forall k, map_lookup (allowed_ip_map (sys_engine s)) k <> map_lookup (allowed_ip_map eng) k ->
    map_lookup (allowed_ip_map (sys_engine s)) k = Some 0 /\
    exists pkt r, pkt ∈ pkts /\ packet_response pkt = Some r /\
      domain_name r ∈ allowed_domains eng /\ known_family r /\ first_address r = k.
Proof.
  intros Hs Hx. destruct (exec_engine _ _ _ _ _ Hs Hx) as [Hd Hk]. split; [done|].
  intros k Hne. destruct (Hk k) as [|[Hz (r & Hr & Hdom & Hf & Ha)]]; [done|].
  split; [done|]. apply list_elem_of_omap in Hr as (pkt & Hpkt & Hr). by exists pkt, r.
Qed.

Lemma exec_more s0 s1 pkts pkts' s :
  exec s0 pkts s1 -> exec s1 pkts' s -> exec s0 (pkts ++ pkts') s.
Proof.
  intros Hx Hx'. induction Hx' as [|pkts' s ctx ts _ IH Hctx Hts|pkts' s s' _ IH Hstep].
  - by rewrite app_nil_r.
  - rewrite app_assoc. by apply ExecPacket.
  - by eapply ExecStep.
Qed.

(** An address stays authorised.  Whatever happens after a reachable state,
    packets and steps in any order, a key that is bound in ALLOWED_IP_MAP stays
    bound: nothing is ever removed, also when the lifetime of the DNS record
    the binding came from has passed. *)
Theorem bindings_persist ring eng open pkts pkts' s s' k :
  rb_items ring = [] -> exec (spawn_tasks ring eng open) pkts s -> exec s pkts' s' ->
  is_Some (map_lookup (allowed_ip_map (sys_engine s)) k) ->
  is_Some (map_lookup (allowed_ip_map (sys_engine s')) k).
Proof.
  intros Hs Hx Hx' Hk. induction Hx' as [|pkts' s' ctx ts _ IH _ _|pkts' s1 s2 Hx' IH Hstep];
    [done|done|].
  destruct (step_engine _ _ _ _ (exec_steady _ _ _ _ _ _ Hs (exec_more _ _ _ _ _ Hx Hx')) Hstep)
    as [_ Hkeys].
  destruct (Hkeys k) as [-> | [-> _]]; [done|by eexists].
Qed.

(** An IPv4 answer in a packet. *)
Definition answers_with (pkt : TcContext * Z) (ls : list (list byte)) (q : list byte) : Prop :=
  exists d h qtype qclass nm cl ttl rest,
    dns_datagram (packet pkt.1) = Some d /\
    dg_body d = encode_message h ls qtype qclass
      (encode_rr {| rr_name := nm; rr_type := 1; rr_class := cl; rr_ttl := ttl; rr_data := q |}
       ++ rest) /\
    (length (dg_body d) <= MAX_DNS_PAYLOAD_SIZE)%nat /\
    header_ok h /\ answer_rrs h = 1 /\
    Forall qlabel_ok ls /\ (length (encode_labels ls) <= 255)%nat /\
    rr_ok {| rr_name := nm; rr_type := 1; rr_class := cl; rr_ttl := ttl; rr_data := q |}.

Lemma answers_with_response ctx ts ls a b c d :
  0 <= ts < 2 ^ 64 -> answers_with (ctx, ts) ls [a; b; c; d] ->
  exists r, packet_response (ctx, ts) = Some r /\ domain_name r = join_dots ls /\
    ip_family r = AF_INET /\ resolved_ip_raw r = [a; b; c; d].
Proof.
  intros Hts (dg & h & qt & qc & nm & cl & ttl & rest & Hd & Hbody & Hlen & Hh & Han & Hls & Hl & Hr).
  unfold packet_response. cbn [fst snd] in *. rewrite Hd. cbn [mbind option_bind].
  unfold parsed, canonical_entry.
  pose proof (dns_datagram_ok ctx dg Hd) as Hok.
  assert (Hb : length (replicate EVENT_SIZE x00) = EVENT_SIZE) by apply length_replicate.
  destruct (entry_of_ok _ dg ts Hok Hb Hts) as (_ & Hev & Hfs & Hfd & _ & Hpl).
  rewrite (entry_of_decodes _ dg ts Hok Hb Hts) in *.
  destruct (event_of_carries (replicate EVENT_SIZE x00) dg ts) as (_ & _ & _ & _ & _ & Hm & _).
  rewrite take_ge in Hm by done.
  destruct (parse_A_response (event_of (replicate EVENT_SIZE x00) dg ts) DnsResponse_default
    h ls qt qc nm cl ttl a b c d rest) as (r & -> & Hdn & Hf & Hraw & _); try done.
  - rewrite <-Hbody, <-Hm. destruct Hev as ((Hs & _) & (Hdst & _) & _ & _ & _ & _ & _ & Hp).
    unfold carries, arrays_ok. split_and!; try done; lia.
  - by exists r.
Qed.

(** C7: a response allows its address, from the packet to the kernel's map.
    Take a state reachable from a start with the log opened in which the daemon
    is idle: the tasks wait, nothing is queued.  A packet from port 53 whose
    response has one A record, its name plain or compressed, for an allowed
    domain, is taken by one step of each task to a state in which its address
    is bound in ALLOWED_IP_MAP, provided the ring has room for the event and
    the map accepts the insertion; earlier failures of the log do not matter. *)
Theorem answer_authorised ring (eng : engine) f pkts (s : sys) ctx ts ls a b c d m :
  rb_items ring = [] -> exec (spawn_tasks ring eng (Some f)) pkts s -> quiet s ->
  ctx_ok ctx -> 0 <= ts < 2 ^ 64 -> answers_with (ctx, ts) ls [a; b; c; d] ->
  rb_reserve (sys_ring s) <> None ->
  join_dots ls ∈ allowed_domains (sys_engine s) ->
  map_insert (v4_key (a, b, c, d)) 0 0 (allowed_ip_map (sys_engine s)) = Ok m ->
  exists s1 s2 s3, sys_reader (sys_packet TC_ACT_OK ctx ts s) = Some s1 /\
    sys_parse (E := PolicyError M) s1 = Some s2 /\ sys_write s2 = Some s3 /\
    map_lookup (allowed_ip_map (sys_engine s3)) (v4_key (a, b, c, d)) = Some 0.
Proof.
  intros Hs Hx Hq Hctx Hts Hans Hroom Hdom Hins.
  destruct (answers_with_response _ _ _ _ _ _ _ Hts Hans) as (r & Hr & Hdn & Hf & Hraw).
  destruct (exec_steady _ _ _ _ _ _ Hs Hx) as (Hok & _).
  destruct (exec_writer _ _ _ _ _ _ Hs Hx) as (w & Hw & Htask).
  destruct (quiet_delivers TC_ACT_OK s ctx ts r w)
    as (s1 & s2 & s3 & _ & _ & E1 & E2 & E3 & _ & Hobs & _); try done.
  exists s1, s2, s3. split_and!; try done. unfold sys_engine in *. rewrite Hobs.
  change (update r (dns_obs (sys_parser s))) with (engine_update r (dns_obs (sys_parser s))).
  assert (Hk : first_address r = v4_key (a, b, c, d)) by (by apply (first_address_v4 r (a, b, c, d) [])).
  rewrite update_insert, Hk.
  - unfold insert_ip. rewrite Hins. cbn [fst allowed_ip_map]. by eapply map_insert_same.
  - by rewrite Hdn.
  - by left.
  - split; [intros _; rewrite Hraw; simpl; lia|by rewrite Hf].
Qed.
End Policy.

(** ** Witnesses *)

Definition Example_sys : Type :=
  Sys Fifo (Chan RawDnsEvent) (FqdnPolicyEngine BoundedMap) (Chan DnsResponse) MemFile.

Definition example_file : MemFile := {| mf_bytes := []; mf_room := None |}.

Definition example_start : Example_sys :=
  spawn_tasks (empty_fifo xaa) example_engine (Some example_file).

Definition example_pkt : TcContext * Z := (packet_ctx (example_packet example_body), 7).

Definition example_pending : Example_sys := sys_packet 0 example_pkt.1 example_pkt.2 example_start.

Definition take_step (f : Example_sys -> option Example_sys) (s : Example_sys) : Example_sys :=
  default s (f s).

Definition example_read : Example_sys := take_step sys_reader example_pending.
Definition example_parsed : Example_sys :=
  take_step (sys_parse (E := PolicyError BoundedMap)) example_read.
Definition example_final : Example_sys := take_step sys_write example_parsed.

Definition enabled (o : option Example_sys) : bool :=
  match o with Some _ => true | None => false end.

Lemma take_step_some f s : enabled (f s) = true -> f s = Some (take_step f s).
Proof. unfold enabled, take_step. by destruct (f s). Qed.

Definition example_exec : list (TcContext * Z) -> Example_sys -> Prop :=
  exec (E := PolicyError BoundedMap) 0 example_start.

Lemma example_pkt_exec : example_exec [example_pkt] example_pending.
Proof.
  apply (ExecPacket 0 example_start []); [apply ExecStart|apply example_ctx_ok|vm_compute; done].
Qed.

Lemma example_parsed_exec : example_exec [example_pkt] example_parsed.
Proof.
  apply (ExecStep _ _ _ example_read).
  - apply (ExecStep _ _ _ example_pending); [apply example_pkt_exec|].
    apply StepReader, take_step_some. vm_compute. reflexivity.
  - apply StepParse, take_step_some. vm_compute. reflexivity.
Qed.

Lemma example_final_exec : example_exec [example_pkt] example_final.
Proof.
  apply (ExecStep _ _ _ example_parsed); [apply example_parsed_exec|].
  apply StepWrite, take_step_some. vm_compute. reflexivity.
Qed.

Lemma example_start_ok : start_ok (empty_fifo xaa) example_file [].
Proof. split; [done|apply frames_of_nil]. Qed.

Lemma example_start_quiet : quiet example_start.
Proof. by split_and!. Qed.

Lemma example_pkt_answers :
  answers_with example_pkt example_labels [x0a; x00; x00; x01].
Proof.
  exists (example_datagram example_body), (example_header 1), 1, 1, pointer_name, 1, 60, [].
  rewrite app_nil_r. split_and!; try apply example_labels_ok.
  - apply example_datagram_found.
  - reflexivity.
  - apply Nat.leb_le. vm_compute. reflexivity.
  - by apply example_header_ok.
  - reflexivity.
  - apply example_a_ok.
Qed.

Lemma system_never_panics_witness : sys_panics example_final = [].
Proof.
  destruct (system_never_panics 0 (empty_fifo xaa) example_engine (Some example_file)
    [example_pkt] example_final (proj1 example_start_ok) example_final_exec) as [H _].
  exact H.
Defined.

Lemma system_log_sound_witness :
  exists logged, logged `sublist_of` responses [example_pkt] /\
    (Forall (fun res => res = Written) (sys_results example_final) ->
     exists w, sys_writer example_final = Some w /\ read_log (stream (writer w)) = Some logged).
Proof.
  destruct (system_log_sound 0 (empty_fifo xaa) example_engine example_file []
    [example_pkt] example_final example_start_ok example_final_exec)
    as (w & logged & Hw & Hsub & Hlog).
  exists logged. split.
  - etransitivity; [|exact Hsub]. apply sublist_inserts_r. reflexivity.
  - intros Hall. exists w. split; [exact Hw|exact (Hlog Hall)].
Defined.

Lemma example_room : rb_reserve (sys_ring example_start) <> None.
Proof. intros H. apply (f_equal (fun o => match o with Some _ => true | None => false end)) in H.
  vm_compute in H. discriminate. Qed.

Lemma system_delivers_witness :
  exists r (s3 : Example_sys) res w, packet_response example_pkt = Some r /\
    sys_writer s3 = Some w /\ sys_results s3 = [res] /\
    (res = Written -> read_log (stream (writer w)) = Some [r]).
Proof.
  destruct (answers_with_response (packet_ctx (example_packet example_body)) 7 example_labels
      x0a x00 x00 x01 ltac:(lia) example_pkt_answers)
    as (r & Hr & _).
  destruct (system_delivers 0 (empty_fifo xaa) example_engine example_file [] []
    example_start example_pkt.1 example_pkt.2 r example_start_ok (ExecStart _ _)
    example_start_quiet) as (s1 & s2 & s3 & res & w & logged & _ & _ & _ & _ & _ & Hw & Hres & Hl & Hlog).
  - constructor.
  - apply example_ctx_ok.
  - cbn [example_pkt snd]. lia.
  - exact Hr.
  - apply example_room.
  - exists r, s3, res, w. apply sublist_nil_r in Hl. subst logged.
    split; [exact Hr|]. split; [exact Hw|]. split; [exact Hres|exact Hlog].
Defined.

Lemma policy_sound_witness :
  exists pkt r, pkt ∈ [example_pkt] /\ packet_response pkt = Some r /\
    first_address r = v4_key (x0a, x00, x00, x01).
Proof.
  destruct (policy_sound 0 (empty_fifo xaa) example_engine (Some example_file)
    [example_pkt] example_final (proj1 example_start_ok) example_final_exec) as [_ H].
  destruct (H (v4_key (x0a, x00, x00, x01))) as (_ & pkt & r & Hp & Hr & _ & _ & Hk).
  - intros Heq. apply (f_equal (fun o => match o with Some _ => true | None => false end)) in Heq.
    vm_compute in Heq. discriminate.
  - exists pkt, r. split; [exact Hp|]. split; [exact Hr|exact Hk].
Defined.

Lemma answer_authorised_witness :
  exists s3 : Example_sys,
    map_lookup (allowed_ip_map (sys_engine s3)) (v4_key (x0a, x00, x00, x01)) = Some 0.
Proof.
  destruct (answer_authorised 0 (empty_fifo xaa) example_engine example_file []
    example_start example_pkt.1 example_pkt.2 example_labels x0a x00 x00 x01
    {| entries := {[ v4_key (x0a, x00, x00, x01) := 0 ]} |} (proj1 example_start_ok) (ExecStart _ _)
    example_start_quiet) as (s1 & s2 & s3 & _ & _ & _ & H).
  - apply example_ctx_ok.
  - cbn [example_pkt snd]. lia.
  - apply example_pkt_answers.
  - apply example_room.
  - vm_compute. reflexivity.
  - reflexivity.
  - exists s3. exact H.
Defined.

Lemma bindings_persist_witness :
  is_Some (map_lookup (allowed_ip_map (sys_engine example_final)) (v4_key (x0a, x00, x00, x01))).
Proof.
  apply (bindings_persist 0 (empty_fifo xaa) example_engine (Some example_file) [example_pkt] []
    example_parsed example_final (v4_key (x0a, x00, x00, x01)) (proj1 example_start_ok)).
  - apply example_parsed_exec.
  - apply (ExecStep _ _ _ example_parsed); [apply ExecStart|].
    apply StepWrite, take_step_some. vm_compute. reflexivity.
  - assert (Hb : map_lookup (allowed_ip_map (sys_engine example_parsed))
        (v4_key (x0a, x00, x00, x01)) = Some 0) by (vm_compute; reflexivity).
    rewrite Hb. eexists. reflexivity.
Defined.
