(* ===== verification/Cpus.v ===== *)
(** * The classifier on several processors

    [dns_tc] runs on every processor that receives a packet, and a run holds
    its entry of the ring from [reserve] to [submit].  Here a run is cut at the
    reservation, so that other runs and the daemon can come in between, and
    the ring is the one several runs share: it hands its entries out in the
    order of their reservation and waits at an entry that is not submitted.
    The daemon's guarantees hold in every such interleaving. *)

From Stdlib Require Import Strings.Byte NArith ZArith Lia.
From stdpp Require Import base tactics numbers list strings gmap.
From S2P Require Import Prelude RustStd Common Proto Parser Names Answers Decode Policy.
From S2P Require Import RingBuffer Ebpf Capture Channels CommitLog Protobuf Topology System.

Local Open Scope Z_scope.

(** ** The shared ring *)

(** A slot: its number, and its entry once that is submitted. *)
Definition slot : Type := nat * option (list byte).

(** What the consumer gets before it has to wait. *)
Fixpoint submitted (l : list slot) : list (list byte) :=
  match l with
  | (_, Some e) :: l => e :: submitted l
  | _ => []
  end.

(** The slot with number [n] gets its entry. *)
Definition fill_slot (n : nat) (e : list byte) (s : slot) : slot :=
  if (s.1 =? n)%nat then (n, Some e) else s.

Class SharedRing (R : Type) := {
  sr_reader :: RingReader R;
  (** [reserve(0)]: the slot's number and the bytes it holds *)
  sr_reserve : R -> option (R * nat * list byte);
  (** [submit(0)] of the entry in a slot *)
  sr_submit : nat -> list byte -> R -> R;
  (** the slots not yet consumed, in the order of their reservation *)
  sr_slots : R -> list slot
}.

(** Documentation/bpf/ringbuf.rst: records are consumed in the order of their
    reservation, and a record that is not committed holds up the later ones. *)
Class SharedRingLaws (R : Type) `{!SharedRing R} := {
  sr_reader_laws :: RingReaderLaws R;
  sr_items r : rb_items r = submitted (sr_slots r);
  sr_next r e r' : rb_next r = Some (e, r') -> exists n, sr_slots r = (n, Some e) :: sr_slots r';
  sr_reserve_spec r r' n e :
    sr_reserve r = Some (r', n, e) ->
    sr_slots r' = sr_slots r ++ [(n, None)] /\ n ∉ (sr_slots r).*1 /\ length e = EVENT_SIZE;
  sr_submit_spec n e r : sr_slots (sr_submit n e r) = fill_slot n e <$> sr_slots r
}.

(** ** A run in two halves *)

(** What a run keeps between its halves: the slot, the bytes of its entry, and
    the values it will write. *)
Record Reservation := {
  rs_slot : nat;
  rs_entry : list byte;
  rs_payload_offset : nat;
  rs_src_ip : RawIpAddr;
  rs_dst_ip : RawIpAddr;
  rs_src_port : Z;
  rs_dst_port : Z
}.

Section Halves.
Context `{!NetworkTypes} {R : Type} `{!SharedRing R} (TC_ACT_OK : Z).

(** Up to and including [DNS_EVENTS_PIPE.reserve(0)]. *)
Definition reserve_only : emission (R * option Reservation) :=
  fun payload_offset src_ip dst_ip src_port dst_port '(ring, _) =>
    match sr_reserve ring with
    | None => ((ring, None), Ok TC_ACT_OK)
    | Some (ring, n, e) =>
        ((ring, Some {| rs_slot := n; rs_entry := e; rs_payload_offset := payload_offset;
                        rs_src_ip := src_ip; rs_dst_ip := dst_ip;
                        rs_src_port := src_port; rs_dst_port := dst_port |}), Ok TC_ACT_OK)
    end.

Definition run_enter (ctx : TcContext) (ring : R)
    : (R * option Reservation) * outcome unit Z :=
  classifier TC_ACT_OK (try_dns_tc TC_ACT_OK reserve_only ctx) (ring, None).

(** From there to the end of [dns_tc]. *)
Definition run_leave (ctx : TcContext) (end_ts : Z) (rsv : Reservation) : prog R unit Z :=
  classifier TC_ACT_OK (fun ring =>
    match fill_event ctx (rs_payload_offset rsv) (rs_src_ip rsv) (rs_dst_ip rsv)
            (rs_src_port rsv) (rs_dst_port rsv) end_ts (rs_entry rsv) with
    | (entry, Ok _) => (sr_submit (rs_slot rsv) entry ring, Ok TC_ACT_OK)
    | (_, Err e) => (ring, Err e)
    | (_, Fault f) => (ring, Fault f)
    end).

(** ** The two halves against the specification *)

(** The reservation for a datagram of a packet. *)
Definition reservation (p : list byte) (d : Datagram) (n : nat) (e : list byte) : Reservation :=
  {| rs_slot := n; rs_entry := e; rs_payload_offset := length p - length (dg_body d);
     rs_src_ip := dg_src d; rs_dst_ip := dg_dst d;
     rs_src_port := dg_src_port d; rs_dst_port := dg_dst_port d |}.

Definition enter_spec (p : list byte) (ring : R) : R * option Reservation :=
  match dns_datagram p with
  | None => (ring, None)
  | Some d => match sr_reserve ring with
              | None => (ring, None)
              | Some (ring, n, e) => (ring, Some (reservation p d n e))
              end
  end.

Context `{!NetworkTypesLaws} `{!SharedRingLaws R}.

Lemma run_enter_eq ctx ring :
  ctx_ok ctx -> run_enter ctx ring = (enter_spec (packet ctx) ring, Ok TC_ACT_OK).
Proof.
  intros Hctx. unfold run_enter, enter_spec.
  rewrite (classifier_spec TC_ACT_OK ctx Hctx _ (fun d '(r, _) =>
    match sr_reserve r with
    | None => (r, None)
    | Some (r, n, e) => (r, Some (reservation (packet ctx) d n e))
    end)).
  - by destruct (dns_datagram (packet ctx)).
  - intros off d _ _ Hoff Hlt Hb. unfold reserve_only.
    destruct (sr_reserve ring) as [[[ring' n] e]|]; [|done].
    unfold reservation. rewrite Hb, length_drop.
    by replace (length (packet ctx) - (length (packet ctx) - off))%nat with off by lia.
Qed.

Lemma datagram_offset ctx d :
  ctx_ok ctx -> dns_datagram (packet ctx) = Some d ->
  drop (length (packet ctx) - length (dg_body d)) (packet ctx) = dg_body d /\
  (length (packet ctx) - length (dg_body d) <= 82)%nat.
Proof.
  intros Hctx Hd.
  assert (Hsuf : exists off, (off <= 82)%nat /\ (off <= length (packet ctx))%nat /\
                             dg_body d = drop off (packet ctx)).
  { revert Hd. unfold dns_datagram. destruct (udp_part (packet ctx)) as [[[src dst] off]|] eqn:Hu; [|done].
    unfold udp_datagram. destruct (Nat.ltb_spec (length (packet ctx)) (off + 8)); [done|].
    cbv zeta. destruct (negb _); [done|]. destruct (_ =? _)%nat; [done|]. intros [= <-].
    exists (off + 8)%nat. split; [|by split].
    revert Hu. unfold udp_part. destruct (_ <? _)%nat; [done|].
    destruct (ether_type _) as [[]|]; [| |done..]; destruct (_ <? _)%nat; try done.
    - cbv zeta. destruct (ipv4_proto _) as [[]|]; try done.
      destruct (orb _ _) eqn:Ho; [done|]. apply orb_false_iff in Ho as [_ Ho]. bools.
      intros [= _ _ <-]. lia.
    - cbv zeta. destruct (ipv6_next_hdr _) as [[]|]; try done. intros [= _ _ <-]. lia. }
  destruct Hsuf as (off & H1 & H2 & Hb). rewrite Hb, length_drop.
  replace (length (packet ctx) - (length (packet ctx) - off))%nat with off by lia. done.
Qed.

Lemma run_leave_eq ctx ts d n e ring :
  ctx_ok ctx -> dns_datagram (packet ctx) = Some d -> length e = EVENT_SIZE ->
  run_leave ctx ts (reservation (packet ctx) d n e) ring =
  (sr_submit n (entry_of e d ts) ring, Ok TC_ACT_OK).
Proof.
  intros Hctx Hd He. destruct (datagram_offset ctx d Hctx Hd) as [Hb Ho].
  pose proof (dns_datagram_ok ctx d Hd) as (Hs & Hdst & _).
  unfold run_leave, classifier. cbn [rs_slot rs_entry rs_payload_offset rs_src_ip rs_dst_ip
    rs_src_port rs_dst_port reservation].
  rewrite fill_event_ok by (done || (unfold isize_max; lia)).
  unfold entry_of. by rewrite Hb.
Qed.
End Halves.

(** ** Processors and daemon *)

(** A run between its halves. *)
Record Run := { run_ctx : TcContext; run_rsv : Reservation }.

Record Machine (R Q1 O Q2 F : Type) := {
  m_sys : Sys R Q1 O Q2 F;
  m_runs : gmap nat Run (* by processor *)
}.
Arguments Build_Machine {R Q1 O Q2 F} _ _.
Arguments m_sys {R Q1 O Q2 F} m.
Arguments m_runs {R Q1 O Q2 F} m.

(** A packet that got a slot, and the capture time once its run is over. *)
Record Arrival := { ar_slot : nat; ar_ctx : TcContext; ar_ts : option Z }.

Definition close (n : nat) (ts : Z) (a : Arrival) : Arrival :=
  match ar_ts a with
  | None => if (ar_slot a =? n)%nat then {| ar_slot := n; ar_ctx := ar_ctx a; ar_ts := Some ts |}
            else a
  | Some _ => a
  end.

(** The packets whose entries the ring has let through: those before the
    oldest run that is still going on. *)
Fixpoint released (l : list Arrival) : list (TcContext * Z) :=
  match l with
  | {| ar_ctx := ctx; ar_ts := Some ts |} :: l => (ctx, ts) :: released l
  | _ => []
  end.

Section Machine.
Context `{!NetworkTypes} {R : Type} `{!SharedRing R} (TC_ACT_OK : Z).
Context {Q1 : Type} `{!ThingBuf RawDnsEvent Q1} {Q2 : Type} `{!ThingBuf DnsResponse Q2}.
Context {O E : Type} `{!DnsObserver O E} {F : Type} `{!LogFile F} `{!Prost}.
Local Notation machine := (Machine R Q1 O Q2 F).
Local Notation ring m := (sys_ring (m_sys m)).

(** A packet arrives at a processor; the run ends at once, or with a slot. *)
Definition enter (cpu : nat) (ctx : TcContext) (m : machine) : machine :=
  let '(r, rsv) := (run_enter TC_ACT_OK ctx (ring m)).1 in
  Build_Machine (with_ring r (m_sys m))
    match rsv with
    | Some rsv => <[cpu := {| run_ctx := ctx; run_rsv := rsv |}]> (m_runs m)
    | None => m_runs m
    end.

Definition arrival (ctx : TcContext) (m : machine) : list Arrival :=
  match (run_enter TC_ACT_OK ctx (ring m)).1.2 with
  | Some rsv => [{| ar_slot := rs_slot rsv; ar_ctx := ctx; ar_ts := None |}]
  | None => []
  end.

(** The run on a processor is completed. *)
Definition leave (cpu : nat) (run : Run) (ts : Z) (m : machine) : machine :=
  Build_Machine
    (with_ring (run_leave TC_ACT_OK (run_ctx run) ts (run_rsv run) (ring m)).1 (m_sys m))
    (delete cpu (m_runs m)).

(** States reachable from a start of the daemon, with the packets that got a
    slot in the order of their slots. *)
Inductive smp (s0 : Sys R Q1 O Q2 F) : list Arrival -> machine -> Prop :=
  | SmpStart : smp s0 [] (Build_Machine s0 ∅)
  | SmpEnter hist m cpu ctx :
      smp s0 hist m -> m_runs m !! cpu = None -> ctx_ok ctx ->
      smp s0 (hist ++ arrival ctx m) (enter cpu ctx m)
  | SmpLeave hist m cpu run ts :
      smp s0 hist m -> m_runs m !! cpu = Some run -> 0 <= ts < 2 ^ 64 ->
      smp s0 (close (rs_slot (run_rsv run)) ts <$> hist) (leave cpu run ts m)
  | SmpStep hist m s' :
      smp s0 hist m -> daemon_step (m_sys m) s' ->
      smp s0 hist (Build_Machine s' (m_runs m)).

(** ** The invariant of the shared ring *)

(** A slot belongs to an arrival. *)
Definition slot_of (s : slot) (a : Arrival) : Prop :=
  s.1 = ar_slot a /\ ctx_ok (ar_ctx a) /\
  match s.2, ar_ts a with
  | None, None => True
  | Some e, Some ts =>
      exists d stale, dns_datagram (packet (ar_ctx a)) = Some d /\
        length stale = EVENT_SIZE /\ 0 <= ts < 2 ^ 64 /\ e = entry_of stale d ts
  | _, _ => False
  end.

(** A run holds the slot of one of the arrivals in the ring. *)
Definition run_of (run : Run) (cur : list Arrival) : Prop :=
  {| ar_slot := rs_slot (run_rsv run); ar_ctx := run_ctx run; ar_ts := None |} ∈ cur /\
  exists d e, dns_datagram (packet (run_ctx run)) = Some d /\ length e = EVENT_SIZE /\
    run_rsv run = reservation (packet (run_ctx run)) d (rs_slot (run_rsv run)) e.

Definition ring_inv (r : R) (runs : gmap nat Run) (cur : list Arrival) : Prop :=
  Forall2 slot_of (sr_slots r) cur /\ NoDup (ar_slot <$> cur) /\
  map_Forall (fun _ run => run_of run cur) runs /\
  (forall cpu cpu' run run', runs !! cpu = Some run -> runs !! cpu' = Some run' ->
     rs_slot (run_rsv run) = rs_slot (run_rsv run') -> cpu = cpu') /\
  (forall a, a ∈ cur -> ar_ts a = None ->
     exists cpu run, runs !! cpu = Some run /\ rs_slot (run_rsv run) = ar_slot a).

Definition closed (a : Arrival) : Prop := is_Some (ar_ts a).

Definition machine_inv (base : list DnsResponse) (hist : list Arrival) (m : machine) : Prop :=
  sys_inv base (released hist) (m_sys m) /\
  exists gone cur, hist = gone ++ cur /\ Forall closed gone /\
    ring_inv (ring m) (m_runs m) cur.
End Machine.

(** ** Slots, arrivals and released packets *)

Lemma released_app gone cur :
  Forall closed gone -> released (gone ++ cur) = released gone ++ released cur.
Proof.
  induction 1 as [|[n ctx ts] l [ts' Hts] _ IH]; [done|]. cbn in Hts. subst ts.
  cbn. by rewrite IH.
Qed.

Lemma released_open l n ctx :
  released (l ++ [{| ar_slot := n; ar_ctx := ctx; ar_ts := None |}]) = released l.
Proof. induction l as [|[n' ctx' [ts|]] l IH]; [done| |done]. cbn in *. by rewrite IH. Qed.

Lemma released_close n ts (l : list Arrival) : exists ys, released (close n ts <$> l) = released l ++ ys.
Proof.
  induction l as [|[n' ctx [ts'|]] l [ys IH]]; [by exists []| |by eexists].
  exists ys. cbn in *. by rewrite IH.
Qed.

Lemma close_closed n ts (l : list Arrival) : Forall closed l -> close n ts <$> l = l.
Proof.
  induction 1 as [|[n' ctx ts'] l [t Ht] _ IH]; [done|]. cbn in *. subst ts'. by rewrite IH.
Qed.

Lemma close_slot n ts a : ar_slot (close n ts a) = ar_slot a.
Proof.
  unfold close. destruct (ar_ts a); [done|]. by destruct (Nat.eqb_spec (ar_slot a) n).
Qed.

Lemma close_slots n ts (l : list Arrival) : ar_slot <$> (close n ts <$> l) = ar_slot <$> l.
Proof. rewrite <-list_fmap_compose. apply list_fmap_ext. intros i a _. apply close_slot. Qed.

(** Closing leaves the arrivals of other slots alone. *)
Lemma close_other n ts a : ar_slot a <> n -> close n ts a = a.
Proof.
  intros Hn. unfold close. destruct (ar_ts a); [done|]. by rewrite (proj2 (Nat.eqb_neq _ _)).
Qed.

Lemma close_open n ts a : ar_ts (close n ts a) = None -> close n ts a = a /\ ar_slot a <> n.
Proof.
  unfold close. destruct (ar_ts a) eqn:Ha; [by rewrite Ha|].
  destruct (Nat.eqb_spec (ar_slot a) n); done.
Qed.

Lemma submitted_open l n : submitted (l ++ [(n, None)]) = submitted l.
Proof. induction l as [|[n' [e|]] l IH]; [done| |done]. cbn. by rewrite IH. Qed.

Lemma same_arrival (l : list Arrival) a b :
  NoDup (ar_slot <$> l) -> a ∈ l -> b ∈ l -> ar_slot a = ar_slot b -> a = b.
Proof.
  intros Hnd (i & Hi)%list_elem_of_lookup (j & Hj)%list_elem_of_lookup Hs.
  enough (i = j) by congruence.
  eapply NoDup_lookup; [exact Hnd| |].
  - rewrite list_lookup_fmap, Hi. reflexivity.
  - rewrite list_lookup_fmap, Hj. cbn. by rewrite Hs.
Qed.

Section Slots.
Context `{!NetworkTypes} `{!NetworkTypesLaws}.

(** The entries the ring hands out are the responses of the released packets. *)
Lemma slots_released slots cur :
  Forall2 slot_of slots cur ->
  Forall entry_ok (submitted slots) /\
  omap (fun e => parsed (decode_event e)) (submitted slots) = responses (released cur).
Proof.
  induction 1 as [|[n oe] [n' ctx ots] slots cur (_ & Hctx & Hs) _ [IH1 IH2]]; [done|].
  cbn [snd ar_ctx ar_ts] in *. destruct oe as [e|], ots as [ts|]; try done.
  destruct Hs as (d & stale & Hd & Hl & Hts & ->).
  destruct (datagram_entry ctx ts d Hd Hts stale Hl) as [He Hpar].
  cbn [submitted released]. split; [by constructor|].
  unfold responses in *. cbn [omap list_omap]. by rewrite Hpar, IH2.
Qed.

(** Submitting the entry of an open arrival. *)
Lemma slots_fill slots cur n ctx ts d stale :
  Forall2 slot_of slots cur -> NoDup (ar_slot <$> cur) ->
  {| ar_slot := n; ar_ctx := ctx; ar_ts := None |} ∈ cur ->
  dns_datagram (packet ctx) = Some d -> length stale = EVENT_SIZE -> 0 <= ts < 2 ^ 64 ->
  Forall2 slot_of (fill_slot n (entry_of stale d ts) <$> slots) (close n ts <$> cur).
Proof.
  intros Hs Hnd Hin Hd Hl Hts. apply Forall2_fmap, Forall2_same_length_lookup_2.
  { by eapply Forall2_length. }
  intros i [m oe] a Hi Ha. pose proof (Forall2_lookup_lr _ _ _ _ _ _ Hs Hi Ha) as (Hn & Hctx & Hv).
  cbn [fst snd] in *. subst m. unfold fill_slot. cbn [fst].
  destruct (Nat.eqb_spec (ar_slot a) n) as [<-|Hne].
  - assert (a = {| ar_slot := ar_slot a; ar_ctx := ctx; ar_ts := None |}) as Heq.
    { apply (same_arrival cur); try done. by eapply list_elem_of_lookup_2. }
    rewrite Heq in *. unfold close. cbn [ar_ts ar_slot]. rewrite Nat.eqb_refl.
    split; [done|]. split; [done|]. cbn. by exists d, stale.
  - by rewrite close_other.
Qed.
End Slots.

(** ** Preservation *)

Section Preservation.
Context `{!NetworkTypes} `{!NetworkTypesLaws} {R : Type} `{!SharedRing R} `{!SharedRingLaws R}.
Context (TC_ACT_OK : Z).
Context {Q1 : Type} `{!ThingBuf RawDnsEvent Q1} `{!ThingBufLaws RawDnsEvent Q1}.
Context {Q2 : Type} `{!ThingBuf DnsResponse Q2} `{!ThingBufLaws DnsResponse Q2}.
Context {O E : Type} `{!DnsObserver O E} `{!DnsObserverLaws O E}.
Context {F : Type} `{!LogFile F} `{!LogFileLaws F} `{!Prost} `{!ProstLaws}.
Local Notation machine := (Machine R Q1 O Q2 F).
Local Notation sys := (Sys R Q1 O Q2 F).
Local Notation ring m := (sys_ring (m_sys m)).
Local Notation smp := (smp (R := R) (Q1 := Q1) (O := O) (E := E) (Q2 := Q2) (F := F) TC_ACT_OK).

(** A ring with the same entries to read. *)
Lemma sys_inv_same base pkts (s : sys) r :
  sys_inv base pkts s -> rb_items r = rb_items (sys_ring s) ->
  sys_inv base pkts (with_ring r s).
Proof.
  intros Hinv Hi. pose proof Hinv as ((He & _) & _).
  apply (sys_inv_ring _ pkts _ s _ [] []); try done; rewrite ?Hi, ?app_nil_r; done.
Qed.

Lemma enter_inv base hist (m : machine) cpu ctx :
  m_runs m !! cpu = None -> ctx_ok ctx -> machine_inv base hist m ->
  machine_inv base (hist ++ arrival TC_ACT_OK ctx m) (enter TC_ACT_OK cpu ctx m).
Proof.
  intros Hcpu Hctx (Hsys & gone & cur & -> & Hgone & Hring).
  unfold arrival, enter. rewrite run_enter_eq by done. cbn [fst]. unfold enter_spec.
  assert (Hstay : machine_inv base ((gone ++ cur) ++ [])
    (Build_Machine (with_ring (ring m) (m_sys m)) (m_runs m))).
  { rewrite app_nil_r. split; [by apply sys_inv_same|]. by exists gone, cur. }
  destruct (dns_datagram (packet ctx)) as [d|] eqn:Hd; [|exact Hstay].
  destruct (sr_reserve (ring m)) as [[[r n] e]|] eqn:Hr; [|exact Hstay].
  clear Hstay. apply sr_reserve_spec in Hr as (Hslots & Hfresh & Hlen).
  destruct Hring as (Hs & Hnd & Hruns & Hinj & Hopen). cbn [snd rs_slot reservation].
  assert (Hn : n ∉ ar_slot <$> cur).
  { replace (ar_slot <$> cur) with ((sr_slots (ring m)).*1); [done|].
    clear -Hs. induction Hs as [|s a ss l (Hn & _) _ IH]; [done|]. cbn. by rewrite Hn, IH. }
  assert (Hother : forall c run, m_runs m !! c = Some run -> rs_slot (run_rsv run) <> n).
  { intros c run Hc Heq. apply Hn. destruct (Hruns c run Hc) as [Hin _].
    rewrite <-Heq. apply list_elem_of_fmap. eexists. split; [|exact Hin]. done. }
  split; [cbn; rewrite released_open; apply sys_inv_same; [done|]|].
  { by rewrite !sr_items, Hslots, submitted_open. }
  exists gone, (cur ++ [{| ar_slot := n; ar_ctx := ctx; ar_ts := None |}]).
  rewrite app_assoc. split; [done|]. split; [done|]. cbn [m_sys m_runs sys_ring with_ring].
  unfold ring_inv. rewrite Hslots. split_and!.
  - apply Forall2_app; [done|]. constructor; [by split_and!|constructor].
  - rewrite fmap_app. apply NoDup_app. split_and!; [done| |apply NoDup_singleton].
    intros x Hx ->%list_elem_of_singleton. done.
  - intros c run [[<- <-]|[_ Hc]]%lookup_insert_Some.
    + split; [apply elem_of_app; right; by apply list_elem_of_singleton|]. by exists d, e.
    + destruct (Hruns c run Hc) as [Hin Hrest]. split; [|done]. apply elem_of_app. by left.
  - intros c1 c2 r1 r2 [[<- <-]|[_ Hc1]]%lookup_insert_Some [[<- <-]|[_ Hc2]]%lookup_insert_Some Heq;
      cbn [run_rsv rs_slot reservation] in Heq; [done| | |by eapply Hinj].
    + by destruct (Hother _ _ Hc2).
    + by destruct (Hother _ _ Hc1).
  - intros a [Ha| ->%list_elem_of_singleton]%elem_of_app Hts.
    + destruct (Hopen a Ha Hts) as (c & run & Hc & Hrun). exists c, run.
      split; [|done]. rewrite lookup_insert_ne; [done|]. intros <-. congruence.
    + exists cpu. eexists. split; [apply lookup_insert_eq|done].
Qed.

Lemma leave_inv base hist (m : machine) cpu run ts :
  m_runs m !! cpu = Some run -> 0 <= ts < 2 ^ 64 -> machine_inv base hist m ->
  machine_inv base (close (rs_slot (run_rsv run)) ts <$> hist) (leave TC_ACT_OK cpu run ts m).
Proof.
  intros Hcpu Hts (Hsys & gone & cur & -> & Hgone & Hs & Hnd & Hruns & Hinj & Hopen).
  destruct (Hruns cpu run Hcpu) as (Hin & d & e & Hd & Hlen & Hrsv).
  assert (Hctx : ctx_ok (run_ctx run)).
  { apply list_elem_of_lookup in Hin as [i Hi].
    destruct (Forall2_lookup_r _ _ _ _ _ Hs Hi) as (s & _ & _ & Hc & _). exact Hc. }
  unfold leave. set (n := rs_slot (run_rsv run)) in *. rewrite Hrsv.
  rewrite run_leave_eq by done. cbn [fst].
  pose proof (slots_fill _ _ _ _ ts _ _ Hs Hnd Hin Hd Hlen Hts) as Hs'.
  rewrite fmap_app, close_closed by done.
  destruct (slots_released _ _ Hs) as [_ Hpar]. destruct (slots_released _ _ Hs') as [Hok' Hpar'].
  destruct (released_close n ts cur) as [ys Hys]. split.
  - cbn [m_sys]. apply (sys_inv_ring _ (released (gone ++ cur)) _ _ _ (responses ys) (responses ys));
      try done; rewrite ?sr_items, ?sr_submit_spec.
    + done.
    + rewrite Hpar', Hpar, Hys. unfold responses. by rewrite omap_app.
    + rewrite !released_app, Hys by done. unfold responses. by rewrite !omap_app, app_assoc.
  - exists gone, (close n ts <$> cur). split; [done|]. split; [done|].
    cbn [m_sys m_runs sys_ring with_ring]. unfold ring_inv. rewrite sr_submit_spec, close_slots.
    split_and!; [done|done| | |].
    + intros c run' [Hne Hc]%lookup_delete_Some. destruct (Hruns c run' Hc) as [Hin' Hrest].
      split; [|done]. apply list_elem_of_fmap. eexists. split; [|exact Hin'].
      rewrite close_other; [done|]. cbn. intros Heq. apply Hne. by eapply Hinj.
    + intros c1 c2 r1 r2 [_ Hc1]%lookup_delete_Some [_ Hc2]%lookup_delete_Some. by eapply Hinj.
    + intros a (b & -> & Hb)%list_elem_of_fmap Hnone.
      destruct (close_open _ _ _ Hnone) as [Hcl Hne]. rewrite Hcl in Hnone |- *.
      destruct (Hopen b Hb Hnone) as (c & run' & Hc & Hrun). exists c, run'.
      split; [|done]. rewrite lookup_delete_ne; [done|]. intros <-.
      rewrite Hcpu in Hc. injection Hc as <-. by apply Hne.
Qed.

Lemma parse_ring (s s' : sys) : sys_parse s = Some s' -> sys_ring s' = sys_ring s.
Proof.
  unfold sys_parse. destruct (negb _); [done|].
  destruct (tb_recv_ref (sys_raw s)) as [[ev q]|].
  - destruct (parser_event ev (sys_parser s)) as [t [[]|[]|f]]; by intros [= <-].
  - destruct (reader_up s); [done|]. by intros [= <-].
Qed.

Lemma write_ring (s s' : sys) : sys_write s = Some s' -> sys_ring s' = sys_ring s.
Proof.
  unfold sys_write. destruct (sys_writer s) as [w|]; [|done]. destruct (negb _); [done|].
  destruct (tb_recv_ref (dns_tx (sys_parser s))) as [[r q]|].
  - destruct (writer_event r w) as [w' [res|[]|f]]; by intros [= <-].
  - destruct (parser_up s); [done|]. by intros [= <-].
Qed.

Lemma reader_ring (s s' : sys) :
  sys_reader s = Some s' -> exists e, rb_next (sys_ring s) = Some (e, sys_ring s').
Proof.
  unfold sys_reader. destruct (negb _); [done|].
  destruct (rb_next (sys_ring s)) as [[item rb]|]; [|done].
  destruct (reader_item item (sys_raw s)) as [q [[]|[]|f]]; intros [= <-]; by exists item.
Qed.

Lemma machine_step base hist (m : machine) s' :
  daemon_step (m_sys m) s' -> machine_inv base hist m ->
  machine_inv base hist (Build_Machine s' (m_runs m)).
Proof.
  intros Hstep (Hsys & gone & cur & -> & Hgone & Hring).
  split; [by eapply step_preserves|]. cbn [m_sys m_runs].
  destruct Hstep as [Hr|Hp|Hw];
    [|by rewrite (parse_ring _ _ Hp); exists gone, cur|by rewrite (write_ring _ _ Hw); exists gone, cur].
  destruct (reader_ring _ _ Hr) as (e & (n & Hslots)%sr_next).
  destruct Hring as (Hs & Hnd & Hruns & Hinj & Hopen). rewrite Hslots in Hs.
  apply Forall2_cons_inv_l in Hs as (a & cur' & (_ & _ & Ha) & Hs & ->).
  apply NoDup_cons in Hnd as [_ Hnd].
  cbn [snd] in Ha. destruct (ar_ts a) as [ts|] eqn:Hts; [|done].
  assert (Hin : forall b, b ∈ a :: cur' -> ar_ts b = None -> b ∈ cur').
  { intros b [-> |]%elem_of_cons Hb; [congruence|done]. }
  exists (gone ++ [a]), cur'. rewrite <-app_assoc. split; [done|].
  split; [by apply Forall_app_2, Forall_singleton; [|exists ts]|].
  split_and!; [done..| |done|].
  - intros c run Hc. destruct (Hruns c run Hc) as [Hrun Hrest]. split; [|done]. by apply Hin.
  - intros b Hb. apply Hopen. by right.
Qed.

Lemma smp_inv r obs f base hist (m : machine) :
  start_ok r f base -> sr_slots r = [] -> smp (spawn_tasks r obs (Some f)) hist m ->
  machine_inv base hist m.
Proof.
  intros Hs Hempty. induction 1 as [|hist m cpu ctx _ IH Hcpu Hctx|hist m cpu run ts _ IH Hcpu Hts
    |hist m s' _ IH Hstep].
  - split; [by apply spawn_inv|]. exists [], []. split_and!; [done|done|].
    unfold ring_inv. cbn. rewrite Hempty. split_and!; [constructor|constructor|done|done|].
    intros a []%elem_of_nil.
  - by apply enter_inv.
  - by apply leave_inv.
  - by apply machine_step.
Qed.
End Preservation.

(** ** Properties *)

Section Properties.
Context `{!NetworkTypes} `{!NetworkTypesLaws} {R : Type} `{!SharedRing R} `{!SharedRingLaws R}.
Context (TC_ACT_OK : Z).

(** C17: a run of the classifier that others interrupt.  Up to the reservation
    it faults nowhere, gives the verdict TC_ACT_OK and, for a packet without a
    DNS datagram or a ring without room, leaves the ring as it was and holds
    nothing.  Otherwise it holds the slot it reserved, and however the ring has
    changed until it goes on, it completes without a fault, with the verdict
    TC_ACT_OK, by submitting exactly this slot, with an entry of the event's
    size that decodes to the addresses, ports and capture time and the first
    512 bytes of the body of the datagram in the packet. *)
Theorem interrupted_run ctx (ring : R) :
  ctx_ok ctx ->
  exists ring' rsv, run_enter TC_ACT_OK ctx ring = ((ring', rsv), Ok TC_ACT_OK) /\
    match dns_datagram (packet ctx), sr_reserve ring with
    | Some d, Some (reserved, n, _) =>
        ring' = reserved /\
        exists r, rsv = Some r /\ rs_slot r = n /\
          forall ts later, 0 <= ts < 2 ^ 64 ->
            exists e, run_leave TC_ACT_OK ctx ts r later = (sr_submit n e later, Ok TC_ACT_OK) /\
              entry_ok e /\ carries_datagram (decode_event e) d ts
    | _, _ => ring' = ring /\ rsv = None
    end.
Proof.
  intros Hctx. rewrite run_enter_eq by done. unfold enter_spec.
  destruct (dns_datagram (packet ctx)) as [d|] eqn:Hd; [|by exists ring, None].
  destruct (sr_reserve ring) as [[[r n] stale]|] eqn:Hr; [|by exists ring, None].
  apply sr_reserve_spec in Hr as (_ & _ & Hl). eexists _, _. split; [done|]. split; [done|].
  eexists. split; [done|]. split; [done|]. intros ts later Hts. exists (entry_of stale d ts).
  rewrite run_leave_eq by done. pose proof (dns_datagram_ok ctx d Hd) as Hok.
  split; [done|]. split; [by apply entry_of_ok|]. rewrite entry_of_decodes by done.
  apply event_of_carries.
Qed.

Context {Q1 : Type} `{!ThingBuf RawDnsEvent Q1} `{!ThingBufLaws RawDnsEvent Q1}.
Context {Q2 : Type} `{!ThingBuf DnsResponse Q2} `{!ThingBufLaws DnsResponse Q2}.
Context {F : Type} `{!LogFile F} `{!LogFileLaws F} `{!Prost} `{!ProstLaws}.

Section Observer.
Context {O E : Type} `{!DnsObserver O E} `{!DnsObserverLaws O E}.
Local Notation smp := (smp (R := R) (Q1 := Q1) (O := O) (E := E) (Q2 := Q2) (F := F) TC_ACT_OK).

(** C5: the daemon with concurrent runs of the classifier.  After a start with
    the log opened and holding whole frames, however the halves of the runs on
    the processors and the steps of the tasks are interleaved, nothing panics, and the responses that
    are queued are an ordered subsequence of those in the packets the ring has
    let through, in the order of their reservations.  As long as no write has
    failed, a reader of the log finds its old contents and then the responses
    that come before the queued ones in that same subsequence. *)
Theorem concurrent_log_sound r obs f base hist (m : Machine R Q1 O Q2 F) :
  start_ok r f base -> sr_slots r = [] -> smp (spawn_tasks r obs (Some f)) hist m ->
  sys_panics (m_sys m) = [] /\
  exists w logged, sys_writer (m_sys m) = Some w /\
    logged ++ in_flight (m_sys m) `sublist_of` responses (released hist) /\
    (Forall (fun res => res = Written) (sys_results (m_sys m)) ->
     read_log (stream (writer w)) = Some (base ++ logged)).
Proof.
  intros Hs He Hx.
  destruct (smp_inv _ _ _ _ _ _ _ Hs He Hx) as ((_ & Hp & logged & (w & Hw & _ & Hlog) & Hsub) & _).
  split; [done|]. exists w, logged. split_and!; [done..|].
  intros Hall. by apply frames_of_read, Hlog.
Qed.

(** C16: runs do not disturb one another, in any state reachable from a start
    with the log opened and holding whole frames.  Two runs in progress never hold the same slot; a run's slot stays unsubmitted until the run itself completes;
    and once no run is in progress every packet that got a slot has been let
    through, and the ring hands out all its entries. *)
Theorem runs_isolated r obs f base hist (m : Machine R Q1 O Q2 F) :
  start_ok r f base -> sr_slots r = [] -> smp (spawn_tasks r obs (Some f)) hist m ->
  (forall cpu cpu' run run', m_runs m !! cpu = Some run -> m_runs m !! cpu' = Some run' ->
     cpu <> cpu' -> rs_slot (run_rsv run) <> rs_slot (run_rsv run')) /\
  (forall cpu run, m_runs m !! cpu = Some run ->
     (rs_slot (run_rsv run), None) ∈ sr_slots (sys_ring (m_sys m))) /\
  (m_runs m = ∅ ->
     (fun p => (p.1, Some p.2)) <$> released hist = (fun a => (ar_ctx a, ar_ts a)) <$> hist /\
     Some <$> rb_items (sys_ring (m_sys m)) = (sr_slots (sys_ring (m_sys m))).*2).
Proof.
  intros Hs He Hx.
  destruct (smp_inv _ _ _ _ _ _ _ Hs He Hx)
    as (_ & gone & cur & -> & Hgone & Hsl & Hnd & Hruns & Hinj & Hopen).
  split_and!.
  - intros cpu cpu' run run' Hc1 Hc2 Hne Heq. apply Hne. by eapply Hinj.
  - intros cpu run Hc. destruct (Hruns cpu run Hc) as [Hin _].
    apply list_elem_of_lookup in Hin as [i Hi].
    destruct (Forall2_lookup_r _ _ _ _ _ Hsl Hi) as ([n [e|]] & Hi' & Hn & _ & Hv); [done|].
    cbn in Hn. subst n. by eapply list_elem_of_lookup_2.
  - intros Hnone. assert (Hcl : Forall closed cur).
    { apply Forall_forall. intros a Ha. destruct (ar_ts a) as [ts|] eqn:Hts; [by exists ts|].
      destruct (Hopen a Ha Hts) as (cpu & run & Hc & _). by rewrite Hnone in Hc. }
    split.
    + assert (Hall : Forall closed (gone ++ cur)) by by apply Forall_app.
      clear -Hall. induction Hall as [|[n ctx ts] l [ts' Hts] _ IH]; [done|].
      cbn in Hts. subst ts. cbn. by rewrite IH.
    + rewrite sr_items. clear -Hsl Hcl. induction Hsl as [|[n oe] a ss l (_ & _ & Hv) _ IH]; [done|].
      apply Forall_cons in Hcl as [[ts Hts] Hcl]. rewrite Hts in Hv. destruct oe as [e|]; [|done].
      cbn. by rewrite IH.
Qed.
End Observer.

Context {M : Type} `{!BpfHashMap M} `{!BpfHashMapLaws M}.
Local Notation engine := (FqdnPolicyEngine M).
Local Notation smp := (smp (R := R) (Q1 := Q1) (O := engine) (E := PolicyError M) (Q2 := Q2)
                           (F := F) TC_ACT_OK).

Lemma smp_engine r (eng : engine) f base hist m :
  start_ok r f base -> sr_slots r = [] -> smp (spawn_tasks r eng (Some f)) hist m ->
  engine_from eng (sys_engine (m_sys m)) (responses (released hist)).
Proof.
  intros Hs He Hx. induction Hx as [|hist m cpu ctx Hx IH Hcpu Hctx|hist m cpu run ts Hx IH Hcpu Hts
    |hist m s' Hx IH Hstep].
  - by split; [|left].
  - unfold enter, arrival. rewrite run_enter_eq by done. cbn [fst].
    destruct (enter_spec (packet ctx) (sys_ring (m_sys m))) as [r' [rsv|]]; cbn [snd];
      [by rewrite released_open|by rewrite app_nil_r].
  - destruct (released_close (rs_slot (run_rsv run)) ts hist) as [ys ->].
    eapply engine_from_mono; [|exact IH]. intros x Hx'. unfold responses in *.
    rewrite omap_app. apply elem_of_app. by left.
  - eapply engine_from_mono; [|eapply engine_from_trans; [exact IH|]].
    + intros x [Hx'|Hx']%elem_of_app; [exact Hx'|exact Hx'].
    + cbn [m_sys]. eapply (step_engine []); [|exact Hstep].
      destruct (smp_inv _ _ _ _ _ _ _ Hs He Hx) as [Hinv _]. by eapply inv_steady.
Qed.

(** Soundness of the policy with concurrent runs.  An address whose entry
    in ALLOWED_IP_MAP differs from the one at the start is the first address of
    a response for an allowed domain, in a packet whose run has completed. *)
Theorem concurrent_policy_sound r (eng : engine) f base hist m k :
  start_ok r f base -> sr_slots r = [] -> smp (spawn_tasks r eng (Some f)) hist m ->
  map_lookup (allowed_ip_map (sys_engine (m_sys m))) k <> map_lookup (allowed_ip_map eng) k ->
  exists pkt resp, pkt ∈ released hist /\ packet_response pkt = Some resp /\
    domain_name resp ∈ allowed_domains eng /\ known_family resp /\ first_address resp = k.
Proof.
  intros Hs He Hx Hne. destruct (smp_engine _ _ _ _ _ _ Hs He Hx) as [_ Hk].
  destruct (Hk k) as [|[_ (resp & Hr & Hdom & Hf & Ha)]]; [done|].
  apply list_elem_of_omap in Hr as (pkt & Hpkt & Hr). by exists pkt, resp.
Qed.
End Properties.

(** ** An implementation of the shared ring *)

Record SlotRing := { sl_slots : list slot; sl_fill : byte }.

Definition with_slots (l : list slot) (r : SlotRing) : SlotRing :=
  {| sl_slots := l; sl_fill := sl_fill r |}.

Definition fresh_slot (l : list slot) : nat := S (max_list l.*1).

Definition slots_room (l : list slot) : bool :=
  (Z.of_nat (length l) + 1) * (Z.of_nat EVENT_SIZE + RING_HEADER_BYTES) <=? DNS_EVENTS_PIPE_BYTES.

#[export] Instance slot_ring : SharedRing SlotRing :=
  {| sr_reader :=
       {| rb_next r := match sl_slots r with
                       | (_, Some e) :: l => Some (e, with_slots l r)
                       | _ => None
                       end;
          rb_items r := submitted (sl_slots r) |};
     sr_reserve r :=
       if slots_room (sl_slots r) then
         let n := fresh_slot (sl_slots r) in
         Some (with_slots (sl_slots r ++ [(n, None)]) r, n, replicate EVENT_SIZE (sl_fill r))
       else None;
     sr_submit n e r := with_slots (fill_slot n e <$> sl_slots r) r;
     sr_slots := sl_slots |}.

#[export] Instance slot_ring_laws : SharedRingLaws SlotRing.
Proof.
  split; [split|..];
    cbn [sr_reserve sr_submit sr_slots rb_next rb_items sr_reader slot_ring with_slots sl_slots].
  - intros [[|[n [e'|]] l] b] e r'; cbn; [done| |done]. by intros [= <- <-].
  - intros [[|[n [e'|]] l] b]; cbn; done.
  - done.
  - intros [[|[n [e'|]] l] b] e r'; cbn; [done| |done]. intros [= <- <-]. by exists n.
  - intros r r' n e. destruct (slots_room (sl_slots r)); [|done]. cbv zeta.
    generalize EVENT_SIZE as k. intros k [= <- <- <-]. split; [done|].
    split; [|apply length_replicate]. intros Hin%max_list_elem_of_le. unfold fresh_slot in Hin. lia.
  - done.
Qed.

(** ** Witnesses *)

Definition Example_machine : Type :=
  Machine SlotRing (Chan RawDnsEvent) (FqdnPolicyEngine BoundedMap) (Chan DnsResponse) MemFile.

Definition empty_slots : SlotRing := {| sl_slots := []; sl_fill := xaa |}.

Definition smp_start : Example_machine :=
  Build_Machine (spawn_tasks empty_slots example_engine (Some example_file)) ∅.

Definition example_smp : list Arrival -> Example_machine -> Prop :=
  smp (R := SlotRing) (E := PolicyError BoundedMap) 0 (m_sys smp_start).

(** Two processors, both with a packet. *)
Definition smp_first : Example_machine := enter 0 0 example_pkt.1 smp_start.
Definition smp_both : Example_machine := enter 0 1 example_pkt.1 smp_first.

Definition the_run (cpu : nat) (m : Example_machine) : Run :=
  default {| run_ctx := example_pkt.1; run_rsv := reservation [] (example_datagram []) 0 [] |}
    (m_runs m !! cpu).

(** The second one is done first, and the reader has to wait. *)
Definition smp_second_done : Example_machine := leave 0 1 (the_run 1 smp_both) 9 smp_both.
Definition smp_all_done : Example_machine :=
  leave 0 0 (the_run 0 smp_second_done) 11 smp_second_done.

Definition running (cpu : nat) (m : Example_machine) : bool :=
  match m_runs m !! cpu with Some _ => true | None => false end.

Lemma running_the_run cpu m : running cpu m = true -> m_runs m !! cpu = Some (the_run cpu m).
Proof. unfold running, the_run. by destruct (m_runs m !! cpu). Qed.

Lemma not_running cpu m : running cpu m = false -> m_runs m !! cpu = None.
Proof. unfold running. by destruct (m_runs m !! cpu). Qed.

Definition hist_both : list Arrival :=
  ([] ++ arrival 0 example_pkt.1 smp_start) ++ arrival 0 example_pkt.1 smp_first.

Definition hist_done : list Arrival :=
  close (rs_slot (run_rsv (the_run 0 smp_second_done))) 11 <$>
    (close (rs_slot (run_rsv (the_run 1 smp_both))) 9 <$> hist_both).

Lemma smp_second_exec :
  example_smp (close (rs_slot (run_rsv (the_run 1 smp_both))) 9 <$> hist_both) smp_second_done.
Proof.
  apply SmpLeave.
  - apply SmpEnter; [|apply not_running; vm_compute; reflexivity|apply example_ctx_ok].
    apply SmpEnter; [apply SmpStart|apply not_running; vm_compute; reflexivity|].
    apply example_ctx_ok.
  - apply running_the_run. vm_compute. reflexivity.
  - lia.
Qed.

Lemma smp_all_exec : example_smp hist_done smp_all_done.
Proof.
  apply SmpLeave; [apply smp_second_exec| |lia].
  apply running_the_run. vm_compute. reflexivity.
Qed.

Lemma empty_slots_ok : start_ok empty_slots example_file [].
Proof. split; [done|apply frames_of_nil]. Qed.

(** One entry is submitted, none can be read. *)
Example second_waits :
  length (filter (fun s : slot => is_Some s.2) (sl_slots (sys_ring (m_sys smp_second_done)))) = 1%nat /\
  rb_items (sys_ring (m_sys smp_second_done)) = [].
Proof. split; vm_compute; reflexivity. Qed.

(** A run that completes after the reader has emptied the ring. *)
Lemma interrupted_run_witness :
  exists ring r e, run_enter 0 example_pkt.1 empty_slots = ((ring, Some r), Ok 0) /\
    run_leave 0 example_pkt.1 9 r empty_slots = (sr_submit (rs_slot r) e empty_slots, Ok 0) /\
    ev_message (decode_event e) = example_body.
Proof.
  destruct (interrupted_run 0 example_pkt.1 empty_slots example_ctx_ok) as (ring & rsv & He & H).
  change (packet example_pkt.1) with (example_packet example_body) in H.
  rewrite example_datagram_found in H.
  destruct (sr_reserve empty_slots) as [[[reserved n] stale]|] eqn:Hr; [|by vm_compute in Hr].
  destruct H as (_ & r & -> & Hn & H). destruct (H 9 empty_slots ltac:(lia)) as (e & Hl & _ & Hc).
  exists ring, r, e. split; [exact He|]. rewrite Hn. split; [exact Hl|].
  destruct Hc as (_ & _ & _ & _ & _ & Hm & _). rewrite Hm. vm_compute. reflexivity.
Defined.

Lemma concurrent_log_sound_witness :
  sys_panics (m_sys smp_all_done) = [] /\ length (released hist_done) = 2%nat.
Proof.
  destruct (concurrent_log_sound 0 empty_slots example_engine example_file [] hist_done
    smp_all_done empty_slots_ok eq_refl smp_all_exec) as [H _].
  split; [exact H|vm_compute; reflexivity].
Defined.

Lemma runs_isolated_witness :
  (rs_slot (run_rsv (the_run 0 smp_second_done)), None)
    ∈ sl_slots (sys_ring (m_sys smp_second_done)).
Proof.
  destruct (runs_isolated 0 empty_slots example_engine example_file [] _
    smp_second_done empty_slots_ok eq_refl smp_second_exec) as (_ & H & _).
  apply (H 0%nat). apply running_the_run. vm_compute. reflexivity.
Defined.

(** The reader and the parser after both runs. *)
Definition smp_parsed : Example_machine :=
  Build_Machine
    (default (m_sys smp_all_done)
       (s ← sys_reader (m_sys smp_all_done); sys_parse (E := PolicyError BoundedMap) s))
    (m_runs smp_all_done).

Lemma smp_parsed_exec : example_smp hist_done smp_parsed.
Proof.
  unfold smp_parsed.
  destruct (sys_reader (m_sys smp_all_done)) as [s1|] eqn:H1; [|apply smp_all_exec].
  cbn [mbind option_bind].
  destruct (sys_parse s1) as [s2|] eqn:H2; [|apply smp_all_exec]. cbn [default].
  change (m_runs smp_all_done) with (m_runs (Build_Machine s1 (m_runs smp_all_done))).
  apply SmpStep; [apply SmpStep; [apply smp_all_exec|by apply StepReader]|by apply StepParse].
Qed.

Lemma concurrent_policy_sound_witness :
  exists pkt resp, pkt ∈ released hist_done /\ packet_response pkt = Some resp /\
    first_address resp = v4_key (x0a, x00, x00, x01).
Proof.
  destruct (concurrent_policy_sound 0 empty_slots example_engine example_file [] hist_done
    smp_parsed (v4_key (x0a, x00, x00, x01)) empty_slots_ok eq_refl smp_parsed_exec)
    as (pkt & resp & Hp & Hr & _ & _ & Hk).
  - intros Heq. apply (f_equal (fun o => match o with Some _ => true | None => false end)) in Heq.
    vm_compute in Heq. discriminate.
  - exists pkt, resp. split; [exact Hp|]. split; [exact Hr|exact Hk].
Defined.
