(* ===== verification/Drain.v ===== *)
(** * Termination and scheduling of the daemon

    What the daemon does with the events it was given, whatever the order in
    which its tasks run: every sequence of steps ends, and as long as no more
    events are on their way than a channel has slots, all sequences end in the
    same policy state and the same log, those of processing the packets one
    after the other.  That the tasks run for ever with the log opened, and how
    soon policy enforcement ends without it. *)

From Stdlib Require Import Strings.Byte NArith ZArith Lia Wf_nat.
From stdpp Require Import base tactics numbers list strings relations gmap.
From S2P Require Import Prelude RustStd Common Proto Parser Names Answers Decode Policy.
From S2P Require Import RingBuffer Ebpf Capture Channels CommitLog Protobuf Topology System.

Local Open Scope nat_scope.


Section Drain.
Context {R : Type} `{!RingReader R} `{!RingReaderLaws R}.
Context {Q1 : Type} `{!ThingBuf RawDnsEvent Q1} `{!ThingBufLaws RawDnsEvent Q1}.
Context {Q2 : Type} `{!ThingBuf DnsResponse Q2} `{!ThingBufLaws DnsResponse Q2}.
Context {O E : Type} `{!DnsObserver O E} {F : Type} `{!LogFile F} `{!Prost}.
Local Notation sys := (Sys R Q1 O Q2 F).
Local Notation step := (daemon_step (R := R) (Q1 := Q1) (O := O) (E := E) (Q2 := Q2) (F := F)).
Local Notation ring_items s := (rb_items (sys_ring s)).
Local Notation raw_items s := (tb_items (sys_raw s)).
Local Notation tx_items s := (tb_items (dns_tx (sys_parser s))).

(** ** Every sequence of steps ends *)

(** An event costs three steps, and a task can end once. *)
Definition work (s : sys) : nat :=
  3 * length (ring_items s) + 2 * length (raw_items s) + length (tx_items s) +
  (if parser_up s then 1 else 0) + (if writer_up s then 1 else 0).

Lemma reader_item_adds item (q q' : Q1) o :
  reader_item item q = (q', o) -> length (tb_items q') <= S (length (tb_items q)).
Proof.
  unfold reader_item. destruct (negb _); [intros [= <- _]; lia|].
  destruct (tb_try_send_ref q) as [stale send| |] eqn:Hs; intros [= <- _]; [|lia..].
  apply (tb_slot _ _ _ (decode_event item)) in Hs as (_ & _ & -> & _). len_lia.
Qed.

Lemma parser_event_adds ev (t t' : ParserTask O Q2) o :
  parser_event ev t = (t', o) ->
  length (tb_items (dns_tx t')) <= S (length (tb_items (dns_tx t))).
Proof.
  unfold parser_event. destruct (parse_dns_into _ _) as [local [[]|e|f]];
    [|intros [= <- _]; cbn; lia..].
  destruct (update local (dns_obs t)) as [obs [[]|e|f]]; [| |intros [= <- _]; cbn; lia].
  all: destruct (tb_try_send_ref (dns_tx t)) as [stale send| |] eqn:Hs; intros [= <- _];
    cbn [dns_tx]; [|lia..];
    apply (tb_slot _ _ _ local) in Hs as (_ & _ & -> & _); len_lia.
Qed.

Lemma dropped_shrinks {T Q} `{!ThingBuf T Q} `{!ThingBufLaws T Q} (q : Q) :
  length (tb_items (tb_drop_receiver q)) <= length (tb_items q).
Proof. apply sublist_length, tb_dropped. Qed.

Lemma step_works s s' : step s s' -> work s' < work s.
Proof.
  intros [Hs|Hs|Hs]; revert Hs; unfold work.
  - unfold sys_reader. destruct (negb _); [done|].
    destruct (rb_next _) as [[item rb]|] eqn:Hn; [|done]. apply rb_next_some in Hn as ->.
    destruct (reader_item item (sys_raw s)) as [q o] eqn:Hr. apply reader_item_adds in Hr.
    destruct o as [[]|[]|f]; intros [= <-]; cbn; lia.
  - unfold sys_parse. destruct (parser_up s); [cbn [negb]|done].
    destruct (tb_recv_ref (sys_raw s)) as [[ev q]|] eqn:Hn.
    + apply tb_recv_some in Hn as [-> _].
      destruct (parser_event ev (sys_parser s)) as [t o] eqn:Hr.
      apply parser_event_adds in Hr. pose proof (dropped_shrinks q).
      destruct o as [[]|[]|f]; intros [= <-]; cbn; lia.
    + destruct (reader_up s); [done|]. intros [= <-]. cbn.
      pose proof (dropped_shrinks (sys_raw s)). lia.
  - unfold sys_write. destruct (sys_writer s) as [w|]; [|done].
    destruct (writer_up s); [cbn [negb]|done].
    destruct (tb_recv_ref (dns_tx (sys_parser s))) as [[r q]|] eqn:Hn.
    + apply tb_recv_some in Hn as [-> _].
      destruct (writer_event r w) as [w' o]. pose proof (dropped_shrinks q).
      destruct o as [res|[]|f]; intros [= <-]; cbn; lia.
    + destruct (parser_up s); [done|]. intros [= <-]. cbn.
      pose proof (dropped_shrinks (dns_tx (sys_parser s))). lia.
Qed.

Lemma steps_wf : well_founded (fun s' s => step s s').
Proof.
  apply (wf_projected lt work); [|apply lt_wf]. intros s' s. apply step_works.
Qed.

(** No task has anything to do. *)
Definition stuck (s : sys) : Prop :=
  sys_reader s = None /\ sys_parse s = None /\ sys_write s = None.

Lemma settles s : exists s', rtc step s s' /\ stuck s'.
Proof.
  induction s as [s IH] using (well_founded_ind steps_wf).
  assert (Hgo : forall s1, step s s1 -> exists s', rtc step s s' /\ stuck s').
  { intros s1 Hs1. destruct (IH s1 Hs1) as (s' & Hr & Hst).
    exists s'. split; [by eapply rtc_l|done]. }
  destruct (sys_reader s) eqn:H1; [by eapply Hgo, StepReader|].
  destruct (sys_parse s) eqn:H2; [by eapply Hgo, StepParse|].
  destruct (sys_write s) eqn:H3; [by eapply Hgo, StepWrite|].
  by exists s.
Qed.

(** ** Below the capacity nothing is lost *)

(** Every task runs, every channel is open and the log is. *)
Definition flowing (s : sys) : Prop :=
  parts_ok s /\ reader_up s = true /\ parser_up s = true /\ writer_up s = true /\
  tb_closed (sys_raw s) = false /\ tb_closed (dns_tx (sys_parser s)) = false /\
  exists w, sys_writer s = Some w /\ task_ok w.

(** The events and responses on their way. *)
Definition load (s : sys) : nat :=
  length (ring_items s) + length (raw_items s) + length (tx_items s).

(** The responses the observer has not seen yet. *)
Definition unobserved (s : sys) : list DnsResponse :=
  omap parsed (raw_items s) ++ omap (fun e => parsed (decode_event e)) (ring_items s).

(** The observer after a sequence of responses. *)
Definition observe (o : O) (rs : list DnsResponse) : O :=
  foldl (fun o r => (update r o).1) o rs.

Lemma observe_app o rs1 rs2 : observe o (rs1 ++ rs2) = observe (observe o rs1) rs2.
Proof. apply foldl_app. Qed.

(** [s'] is [s] after some responses went to the log, none was lost and what
    the observer has still to see leads to the same end. *)
Definition progress (s s' : sys) : Prop :=
  sys_panics s' = sys_panics s /\
  observe (dns_obs (sys_parser s')) (unobserved s') =
    observe (dns_obs (sys_parser s)) (unobserved s) /\
  exists done w w' res, sys_writer s = Some w /\ sys_writer s' = Some w' /\
    in_flight s = done ++ in_flight s' /\ writer_run done w = (w', Ok res) /\
    sys_results s' = sys_results s ++ res.

Lemma in_flight_split s : in_flight s = tx_items s ++ unobserved s.
Proof. done. Qed.

Lemma writer_run_app rs1 rs2 (w w1 w2 : WriterTask F) res1 res2 :
  writer_run rs1 w = (w1, Ok res1) -> writer_run rs2 w1 = (w2, Ok res2) ->
  writer_run (rs1 ++ rs2) w = (w2, Ok (res1 ++ res2)).
Proof.
  revert w res1. induction rs1 as [|r rs1 IH]; intros w res1; cbn [app writer_run].
  - by intros [= -> <-] ->.
  - destruct (writer_event r w) as [w' [res|[]|f]]; [|done].
    destruct (writer_run rs1 w') as [w'' [l|[]|f]] eqn:H1; [|done].
    intros [= -> <-] H2. by rewrite (IH _ _ H1 H2).
Qed.

Lemma progress_refl s : flowing s -> progress s s.
Proof.
  intros (_ & _ & _ & _ & _ & _ & w & Hw & _). split_and!; [done..|].
  exists [], w, w, []. by rewrite app_nil_r.
Qed.

Lemma progress_trans s1 s2 s3 : progress s1 s2 -> progress s2 s3 -> progress s1 s3.
Proof.
  intros (P1 & O1 & d1 & w1 & w2 & r1 & W1 & W2 & F1 & R1 & L1)
         (P2 & O2 & d2 & w2' & w3 & r2 & W2' & W3 & F2 & R2 & L2).
  rewrite W2 in W2'. injection W2' as <-. split_and!; [congruence..|].
  exists (d1 ++ d2), w1, w3, (r1 ++ r2).
  rewrite F1, F2, L2, L1, !app_assoc. split_and!; try done. by eapply writer_run_app.
Qed.

(** A step that neither writes nor logs. *)
Lemma progress_quietly s s' w :
  sys_writer s = Some w -> sys_writer s' = Some w -> sys_results s' = sys_results s ->
  sys_panics s' = sys_panics s -> in_flight s' = in_flight s ->
  observe (dns_obs (sys_parser s')) (unobserved s') =
    observe (dns_obs (sys_parser s)) (unobserved s) ->
  progress s s'.
Proof.
  intros Hw Hw' Hr Hp Hf Ho. split_and!; [done..|].
  exists [], w, w, []. by rewrite app_nil_r.
Qed.

Context `{!DnsObserverLaws O E} `{!LogFileLaws F} `{!ProstLaws}.

(** No task ever ends: each return is for a closed channel, and a channel is
    closed only when the task behind it has ended. *)
Lemma reader_flowing s s' : flowing s -> sys_reader s = Some s' -> flowing s'.
Proof.
  intros (Hok & U1 & U2 & U3 & D1 & D2 & Hw) Hs.
  pose proof (reader_preserves _ _ Hok Hs) as (Hok' & _).
  pose proof Hok as (He & _). revert Hok'. revert Hs. unfold sys_reader. rewrite U1. cbn [negb].
  destruct (rb_next (sys_ring s)) as [[item rb]|] eqn:Hn; [|done].
  apply rb_next_some in Hn. rewrite Hn in He. apply Forall_cons in He as [Hi _].
  unfold reader_item. rewrite (proj2 (Nat.eqb_eq _ _)) by apply Hi. cbn [negb].
  destruct (tb_try_send_ref (sys_raw s)) as [stale send| |] eqn:Hs.
  - apply (tb_slot _ _ _ (decode_event item)) in Hs as (_ & _ & _ & _ & Hcl).
    intros [= <-] Hok'. by split_and!.
  - intros [= <-] Hok'. by split_and!.
  - apply tb_closed_send in Hs. congruence.
Qed.

Lemma parse_flowing s s' : flowing s -> sys_parse s = Some s' -> flowing s'.
Proof.
  intros (Hok & U1 & U2 & U3 & D1 & D2 & Hw) Hs.
  pose proof (parse_preserves _ _ Hok Hs) as (Hok' & _).
  pose proof Hok as (_ & Hv & _). revert Hok'. revert Hs.
  unfold sys_parse. rewrite U2, U1. cbn [negb].
  destruct (tb_recv_ref (sys_raw s)) as [[ev q]|] eqn:Hq; [|done].
  apply tb_recv_some in Hq as (Hi & _ & Hcl). rewrite Hi in Hv.
  apply Forall_cons in Hv as [[_ Hev] _].
  destruct (parser_event_after ev (sys_parser s) Hev) as (t' & fl & -> & Ha).
  assert (Hfl : fl = Continue /\ tb_closed (dns_tx t') = false).
  { unfold after_event in Ha. destruct (parsed ev) as [r|]; [|by destruct Ha as (_ & -> & ->)].
    destruct Ha as [_ Ha].
    destruct (tb_try_send_ref (dns_tx (sys_parser s))) as [stale send| |] eqn:Hs;
      destruct Ha as [-> ->]; [|done|apply tb_closed_send in Hs; congruence].
    by apply (tb_slot _ _ _ r) in Hs as (_ & _ & _ & _ & Hc'). }
  destruct Hfl as [-> Ht]. intros [= <-] Hok'. rewrite <-Hcl in D1. by split_and!.
Qed.

Lemma write_flowing s s' : flowing s -> sys_write s = Some s' -> flowing s'.
Proof.
  intros (Hok & U1 & U2 & U3 & D1 & D2 & w & Hw & Htask). unfold sys_write.
  rewrite Hw, U3, U2. cbn [negb].
  destruct (tb_recv_ref (dns_tx (sys_parser s))) as [[r q]|] eqn:Hq; [|done].
  destruct Hok as (He & Hv & Hr & W1 & W2 & C1 & C2).
  pose proof (recv_within _ _ _ Hq W2) as Wq.
  apply tb_recv_some in Hq as (Hi & Hc & Hcl). rewrite Hi in Hr.
  apply Forall_cons in Hr as [[Hfit _] Hr].
  destruct (writer_event_spec r w Htask Hfit) as (_ & w' & res & -> & Htask' & _).
  intros [= <-]. unfold flowing, parts_ok. cbn. rewrite Hc.
  split_and!; try done; [congruence|by exists w'].
Qed.

Lemma step_flowing s s' : flowing s -> step s s' -> flowing s'.
Proof.
  intros Hf [Hs|Hs|Hs]; [by eapply reader_flowing|by eapply parse_flowing|by eapply write_flowing].
Qed.

Lemma steps_flowing s s' : rtc step s s' -> flowing s -> flowing s'.
Proof. induction 1 as [|s1 s2 s3 Hs _ IH]; [done|]. intros Hf. by eapply IH, step_flowing. Qed.

Lemma reader_progress s s' :
  flowing s -> load s <= CHANNEL_CAPACITY -> sys_reader s = Some s' ->
  load s' <= load s /\ progress s s'.
Proof.
  intros (Hok & U1 & U2 & U3 & D1 & D2 & w & Hw & Htask) Hload.
  pose proof Hok as (He & _ & _ & _ & _ & C1 & _).
  unfold sys_reader, load in *. rewrite U1. cbn [negb].
  destruct (rb_next (sys_ring s)) as [[item rb]|] eqn:Hn; [|done].
  apply rb_next_some in Hn. rewrite Hn in He, Hload. apply Forall_cons in He as [Hi _].
  unfold reader_item. rewrite (proj2 (Nat.eqb_eq _ _)) by apply Hi. cbn [negb].
  destruct (open_slot (sys_raw s)) as (stale & send & Hsend); [done|cbn in Hload; lia|].
  rewrite Hsend. apply (tb_slot _ _ _ (decode_event item)) in Hsend as (_ & _ & Hit & _ & Hcl).
  intros [= <-]. cbn [sys_ring sys_raw sys_parser]. rewrite Hn, Hit.
  split; [len_lia|].
  - apply (progress_quietly _ _ w); try done; cbn [sys_panics sys_parser sys_ring sys_raw].
    + apply app_nil_r.
    + unfold in_flight. cbn [sys_parser sys_raw sys_ring]. rewrite Hn, Hit, omap_app, <-app_assoc.
      cbn. by destruct (parsed (decode_event item)).
    + unfold unobserved. cbn [sys_raw sys_ring]. rewrite Hn, Hit, omap_app, <-app_assoc.
      cbn. by destruct (parsed (decode_event item)).
Qed.

Lemma parse_progress s s' :
  flowing s -> load s <= CHANNEL_CAPACITY -> sys_parse s = Some s' ->
  load s' <= load s /\ progress s s'.
Proof.
  intros (Hok & U1 & U2 & U3 & D1 & D2 & w & Hw & Htask) Hload.
  pose proof Hok as (_ & Hv & _ & _ & _ & _ & C2).
  unfold sys_parse, load in *. rewrite U2, U1. cbn [negb].
  destruct (tb_recv_ref (sys_raw s)) as [[ev q]|] eqn:Hq; [|done].
  apply tb_recv_some in Hq as (Hi & _ & Hcl). rewrite Hi in Hv, Hload.
  apply Forall_cons in Hv as [[_ Hev] _].
  destruct (parser_event_after ev (sys_parser s) Hev) as (t' & fl & -> & Ha).
  destruct (open_slot (dns_tx (sys_parser s))) as (stale & send & Hsend);
    [done|cbn in Hload; lia|].
  unfold after_event in Ha. rewrite Hsend in Ha.
  assert (Hobs : forall o, observe o (unobserved s) =
    observe (match parsed ev with Some r => (update r o).1 | None => o end)
      (omap parsed (tb_items q) ++ omap (fun e => parsed (decode_event e)) (ring_items s))).
  { intros o. unfold unobserved. rewrite Hi. cbn. by destruct (parsed ev). }
  assert (Hfl : in_flight s = tx_items s ++ option_list (parsed ev) ++
      omap parsed (tb_items q) ++ omap (fun e => parsed (decode_event e)) (ring_items s)).
  { unfold in_flight. rewrite Hi. cbn. by destruct (parsed ev). }
  destruct (parsed ev) as [r|].
  - destruct Ha as (Ho & Htx & ->).
    apply (tb_slot _ _ _ r) in Hsend as (_ & _ & Hit & _ & Hc'). rewrite <-Htx in Hit, Hc'.
    intros [= <-]. split.
    + cbn. rewrite Hit, Hi. len_lia.
    + apply (progress_quietly _ _ w); try done; cbn [sys_panics sys_parser sys_ring sys_raw].
      * apply app_nil_r.
      * rewrite Hfl. unfold in_flight. cbn [sys_parser sys_raw sys_ring].
        by rewrite Hit, <-app_assoc.
      * by rewrite Hobs, Ho.
  - destruct Ha as (Ho & Htx & ->). intros [= <-]. split.
    + cbn. rewrite Htx, Hi. len_lia.
    + apply (progress_quietly _ _ w); try done; cbn [sys_panics sys_parser sys_ring sys_raw].
      * apply app_nil_r.
      * rewrite Hfl. unfold in_flight. cbn [sys_parser sys_raw sys_ring]. by rewrite Htx.
      * by rewrite Hobs, Ho.
Qed.

Lemma write_progress s s' :
  flowing s -> sys_write s = Some s' -> load s' <= load s /\ progress s s'.
Proof.
  intros (Hok & U1 & U2 & U3 & D1 & D2 & w & Hw & Htask). unfold sys_write, load.
  rewrite Hw, U3, U2. cbn [negb].
  destruct (tb_recv_ref (dns_tx (sys_parser s))) as [[r q]|] eqn:Hq; [|done].
  destruct Hok as (_ & _ & Hr & _). apply tb_recv_some in Hq as (Hi & _). rewrite Hi in Hr.
  apply Forall_cons in Hr as [[Hfit _] _].
  destruct (writer_event_spec r w Htask Hfit) as (_ & w' & res & Hwr & _).
  rewrite Hwr. intros [= <-]. split.
  - cbn. rewrite Hi. len_lia.
  - unfold progress. cbn. split_and!; [apply app_nil_r|done|].
    exists [r], w, w', [res]. rewrite in_flight_split, Hi. cbn. by rewrite Hwr.
Qed.

Lemma step_progress s s' :
  flowing s -> load s <= CHANNEL_CAPACITY -> step s s' -> load s' <= load s /\ progress s s'.
Proof.
  intros Hf Hl [Hs|Hs|Hs];
    [by apply reader_progress|by apply parse_progress|by apply write_progress].
Qed.

Lemma steps_progress s s' :
  rtc step s s' -> flowing s -> load s <= CHANNEL_CAPACITY -> flowing s' /\ progress s s'.
Proof.
  induction 1 as [s|s1 s2 s3 Hs _ IH]; intros Hf Hl; [by split; [|apply progress_refl]|].
  destruct (step_progress _ _ Hf Hl Hs) as (Hl2 & Hp). pose proof (step_flowing _ _ Hf Hs) as Hf2.
  destruct (IH Hf2) as [Hf3 Hp3]; [lia|]. split; [done|by eapply progress_trans].
Qed.

(** A flowing system stops only when everything has been delivered. *)
Lemma stuck_empty s : flowing s -> stuck s -> in_flight s = [] /\ unobserved s = [].
Proof.
  intros (_ & U1 & U2 & U3 & _ & _ & w & Hw & _) (H1 & H2 & H3). revert H1 H2 H3.
  unfold sys_reader, sys_parse, sys_write. rewrite U1, U2, U3, Hw. cbn [negb].
  destruct (rb_next (sys_ring s)) as [[item rb]|] eqn:E1.
  { destruct (reader_item item (sys_raw s)) as [q [[]|[]|f]]; done. }
  destruct (tb_recv_ref (sys_raw s)) as [[ev q]|] eqn:E2.
  { destruct (parser_event ev (sys_parser s)) as [t [[]|[]|f]]; done. }
  destruct (tb_recv_ref (dns_tx (sys_parser s))) as [[r q]|] eqn:E3.
  { destruct (writer_event r w) as [w' [res|[]|f]]; done. }
  intros _ _ _. rewrite in_flight_split. unfold unobserved.
  by rewrite (rb_next_none _ E1), (tb_recv_none _ E2), (tb_recv_none _ E3).
Qed.

(** What is left when a flowing system has come to rest. *)
Lemma rest_state s s' :
  flowing s -> load s <= CHANNEL_CAPACITY -> rtc step s s' -> stuck s' ->
  sys_panics s' = sys_panics s /\
  dns_obs (sys_parser s') = observe (dns_obs (sys_parser s)) (unobserved s) /\
  exists w w' res, sys_writer s = Some w /\ sys_writer s' = Some w' /\
    writer_run (in_flight s) w = (w', Ok res) /\ sys_results s' = sys_results s ++ res.
Proof.
  intros Hf Hl Hr Hst. destruct (steps_progress _ _ Hr Hf Hl) as [Hf' (Hp & Ho & Hw)].
  destruct (stuck_empty _ Hf' Hst) as [Hn Hu]. rewrite Hu in Ho. split_and!; [done..|].
  destruct Hw as (d & w & w' & res & W & W' & Hd & Hrun & Hres).
  rewrite Hn, app_nil_r in Hd. subst d. by exists w, w', res.
Qed.
End Drain.

(** ** Executions from the start *)

Section Batch.
Context `{!NetworkTypes} `{!NetworkTypesLaws} {R : Type} `{!RingBuffer R} `{!RingBufferLaws R}.
Context (TC_ACT_OK : Z).
Context {Q1 : Type} `{!ThingBuf RawDnsEvent Q1} `{!ThingBufLaws RawDnsEvent Q1}.
Context {Q2 : Type} `{!ThingBuf DnsResponse Q2} `{!ThingBufLaws DnsResponse Q2}.
Context {O E : Type} `{!DnsObserver O E} `{!DnsObserverLaws O E}.
Context {F : Type} `{!LogFile F} `{!LogFileLaws F} `{!Prost} `{!ProstLaws}.
Local Notation sys := (Sys R Q1 O Q2 F).
Local Notation step := (daemon_step (R := R) (Q1 := Q1) (O := O) (E := E) (Q2 := Q2) (F := F)).
Local Notation exec := (exec (R := R) (Q1 := Q1) (O := O) (E := E) (Q2 := Q2) (F := F) TC_ACT_OK).

Lemma exec_flowing ring obs f pkts (s : sys) :
  rb_items ring = [] -> exec (spawn_tasks ring obs (Some f)) pkts s -> flowing s.
Proof.
  intros Hs Hx. induction Hx as [|pkts s ctx ts Hx IH Hctx Hts|pkts s s' Hx IH Hstep].
  - destruct (tb_channel_spec (Q := Q1) CHANNEL_CAPACITY) as (_ & _ & D1).
    destruct (tb_channel_spec (Q := Q2) CHANNEL_CAPACITY) as (_ & _ & D2).
    destruct (spawn_steady (Q1 := Q1) (Q2 := Q2) ring obs (Some f) Hs) as (Hok & _ & Hw & _).
    split_and!; try done. eexists. split; [done|by apply Hw].
  - pose proof (exec_steady _ _ _ _ _ _ Hs (ExecPacket _ _ _ _ _ _ Hx Hctx Hts)) as [Hok _].
    destruct IH as (_ & IH). by split.
  - by eapply step_flowing.
Qed.

(** The writer task as [spawn_file_writer] starts it. *)
Definition first_writer (f : F) : WriterTask F := Build_WriterTask [] (Build_BufWriter [] f).

(** The ring has room for as many entries as a channel has slots. *)
Definition roomy : Prop :=
  forall r : R, length (rb_items r) < CHANNEL_CAPACITY -> rb_reserve r <> None.

(** The packets so far, exactly: which responses are logged, and where the
    others are. *)
Definition batch_inv (obs : O) (f : F) (pkts : list (TcContext * Z)) (s : sys) : Prop :=
  load s <= length pkts /\
  observe (dns_obs (sys_parser s)) (unobserved s) = observe obs (responses pkts) /\
  exists done w, sys_writer s = Some w /\ responses pkts = done ++ in_flight s /\
    writer_run done (first_writer f) = (w, Ok (sys_results s)).

Lemma packet_items ctx ts (s : sys) :
  roomy -> ctx_ok ctx -> (0 <= ts < 2 ^ 64)%Z -> load s < CHANNEL_CAPACITY ->
  exists new, rb_items (sys_ring (sys_packet TC_ACT_OK ctx ts s)) = rb_items (sys_ring s) ++ new /\
    length new <= 1 /\
    omap (fun e => parsed (decode_event e)) new = option_list (packet_response (ctx, ts)).
Proof.
  intros Hroom Hctx Hts Hload. unfold sys_packet, with_ring. cbn [sys_ring].
  rewrite dns_tc_capture by done. cbn [fst]. unfold capture.
  destruct (dns_datagram (packet ctx)) as [d|] eqn:Hd.
  - destruct (rb_reserve (sys_ring s)) as [[ring stale]|] eqn:Hr.
    + apply rb_reserve_spec in Hr as [Hi Hl].
      destruct (datagram_entry ctx ts d Hd Hts stale Hl) as [_ Hpar].
      exists [entry_of stale d ts]. rewrite rb_submit_spec, Hi. split_and!; [done..|].
      cbn [omap list_omap]. rewrite Hpar. by destruct (packet_response (ctx, ts)).
    + destruct (Hroom (sys_ring s)); [unfold load in Hload; lia|done].
  - exists []. rewrite app_nil_r. split_and!; [done|simpl; lia|].
    unfold packet_response. cbn [fst]. by rewrite Hd.
Qed.

Lemma exec_batch ring obs f base pkts (s : sys) :
  roomy -> start_ok ring f base -> exec (spawn_tasks ring obs (Some f)) pkts s ->
  length pkts <= CHANNEL_CAPACITY -> batch_inv obs f pkts s.
Proof.
  intros Hroom Hs Hx. induction Hx as [|pkts s ctx ts Hx IH Hctx Hts|pkts s s' Hx IH Hstep].
  - intros _. destruct Hs as [Hr _].
    destruct (tb_channel_spec (Q := Q1) CHANNEL_CAPACITY) as (I1 & _).
    destruct (tb_channel_spec (Q := Q2) CHANNEL_CAPACITY) as (I2 & _).
    unfold batch_inv, load, unobserved, in_flight, spawn_tasks. cbn. rewrite Hr, I1, I2.
    split_and!; [done..|]. by exists [], (first_writer f).
  - rewrite length_app. intros Hlen. cbn in Hlen. destruct IH as (Hl & Ho & d & w & Hw & Hf & Hrun); [lia|].
    destruct (packet_items ctx ts s Hroom Hctx Hts) as (new & Hitems & Hn & Hpar); [lia|].
    assert (Hresp : responses (pkts ++ [(ctx, ts)]) =
                    responses pkts ++ option_list (packet_response (ctx, ts))).
    { unfold responses. rewrite omap_app. cbn [omap list_omap].
      by destruct (packet_response (ctx, ts)). }
    unfold batch_inv, load, unobserved, in_flight. rewrite Hitems, Hresp, omap_app, Hpar.
    split_and!.
    + unfold load in Hl. cbn. len_lia.
    + rewrite (observe_app obs), <-Ho, <-observe_app. unfold unobserved. by rewrite <-app_assoc.
    + exists d, w. split_and!; [done| |done]. rewrite Hf. unfold in_flight. by rewrite <-!app_assoc.
  - intros Hlen. destruct (IH Hlen) as (Hl & Ho & d & w & Hw & Hf & Hrun).
    pose proof (exec_flowing _ _ _ _ _ (proj1 Hs) Hx) as Hflow.
    destruct (step_progress _ _ Hflow ltac:(lia) Hstep)
      as (Hl' & _ & Ho' & d' & w1 & w' & res & Hw1 & Hw' & Hf' & Hrun' & Hres).
    rewrite Hw in Hw1. injection Hw1 as <-. split_and!; [lia|congruence|].
    exists (d ++ d'), w'. rewrite Hf, Hf', app_assoc, Hres. split_and!; [done..|].
    by eapply writer_run_app.
Qed.

Lemma exec_responses_good s0 pkts (s : sys) :
  exec s0 pkts s -> Forall good_response (responses pkts).
Proof.
  induction 1 as [|pkts s ctx ts _ IH Hctx Hts|pkts s s' _ IH _]; [constructor| |done].
  unfold responses in *. rewrite omap_app. apply Forall_app. split; [done|].
  cbn [omap list_omap]. destruct (packet_response (ctx, ts)) as [r|] eqn:Hr; [|done].
  apply Forall_singleton.
  destruct (dns_datagram (packet ctx)) as [d|] eqn:Hd;
    [|unfold packet_response in Hr; cbn [fst] in Hr; by rewrite Hd in Hr].
  destruct (datagram_entry ctx ts d Hd Hts _ (length_replicate EVENT_SIZE x00)) as [He Hpar].
  eapply parsed_good; [by apply entry_good|by rewrite Hpar].
Qed.

Lemma writer_run_length rs : forall (w w' : WriterTask F) res,
  writer_run rs w = (w', Ok res) -> length res = length rs.
Proof.
  induction rs as [|r rs IH]; intros w w' res; cbn [writer_run]; [by intros [= _ <-]|].
  destruct (writer_event r w) as [w1 [x|[]|f]]; [|done].
  destruct (writer_run rs w1) as [w2 [l|[]|f]] eqn:Hr; [|done].
  intros [= _ <-]. cbn. by rewrite (IH _ _ _ Hr).
Qed.

(** A run in which every write succeeded leaves the responses in the log. *)
Lemma writer_run_log rs f base (w : WriterTask F) res :
  frames_of (file_bytes f) base -> Forall good_response rs ->
  writer_run rs (first_writer f) = (w, Ok res) -> Forall (fun x => x = Written) res ->
  read_log (stream (writer w)) = Some (base ++ rs).
Proof.
  intros Hf Hg Hr Hall. apply frames_of_read. apply (writer_run_frames rs (first_writer f) w); [|done| |].
  - apply Nat.le_0_l.
  - unfold stream. cbn [first_writer writer bw_buf bw_file]. by rewrite app_nil_r.
  - rewrite Hr. f_equal. f_equal. rewrite <-(writer_run_length _ _ _ _ Hr).
    clear -Hall. induction Hall as [|x l -> _ IH]; [done|]. cbn. by f_equal.
Qed.

(** C1: end-to-end correctness under every schedule.  Let the daemon have been
    started with the log opened and holding whole frames, let the ring have room
    for as many entries as a channel has slots, let at most 1000 packets have
    arrived, in any interleaving with any steps of the three tasks, and let no
    task have anything left to do.  Then nothing has panicked; the policy engine is in
    the state of processing the responses in the packets one after the other;
    the writer has handled exactly these responses, each once and in the order
    of the packets; and if no write failed, the log is its old contents
    followed by all of them. *)
Theorem batch_complete ring obs f base pkts (s : sys) :
  roomy -> start_ok ring f base -> exec (spawn_tasks ring obs (Some f)) pkts s ->
  length pkts <= CHANNEL_CAPACITY -> stuck s ->
  sys_panics s = [] /\
  dns_obs (sys_parser s) = observe obs (responses pkts) /\
  exists w, sys_writer s = Some w /\
    writer_run (responses pkts) (first_writer f) = (w, Ok (sys_results s)) /\
    (Forall (fun res => res = Written) (sys_results s) ->
     read_log (stream (writer w)) = Some (base ++ responses pkts)).
Proof.
  intros Hroom Hs Hx Hlen Hst.
  destruct (exec_inv _ _ _ _ _ _ _ Hs Hx) as (_ & Hp & _).
  destruct (stuck_empty _ (exec_flowing _ _ _ _ _ (proj1 Hs) Hx) Hst) as [Hn Hu].
  destruct (exec_batch _ _ _ _ _ _ Hroom Hs Hx Hlen) as (_ & Ho & d & w & Hw & Hd & Hrun).
  rewrite Hu in Ho. rewrite Hn, app_nil_r in Hd. subst d. split_and!; [done..|].
  exists w. split_and!; [done..|]. intros Hall.
  eapply writer_run_log; [apply Hs|by eapply exec_responses_good|done..].
Qed.

(** C20: with its log opened the daemon runs for ever.  In every state
    reachable from a start at which the log file could be opened, all three
    tasks are up and both channels are open, so none of their [return]s is ever
    taken; and when none of them has anything to do, nothing is queued
    anywhere. *)
Theorem tasks_never_stop ring obs f pkts (s : sys) :
  rb_items ring = [] -> exec (spawn_tasks ring obs (Some f)) pkts s ->
  reader_up s = true /\ parser_up s = true /\ writer_up s = true /\
  tb_closed (sys_raw s) = false /\ tb_closed (dns_tx (sys_parser s)) = false /\
  (stuck s -> in_flight s = []).
Proof.
  intros Hs Hx. pose proof (exec_flowing _ _ _ _ _ Hs Hx) as Hf.
  pose proof Hf as (_ & ? & ? & ? & ? & ? & _). split_and!; [done..|].
  intros Hst. by apply stuck_empty.
Qed.

(** ** Without a log *)

(** The writer thread has panicked at its start; reader and parser run. *)
Definition log_lost (s : sys) : Prop :=
  parts_ok s /\ sys_writer s = None /\ reader_up s = true /\ parser_up s = true /\
  tb_closed (sys_raw s) = false /\ tb_closed (dns_tx (sys_parser s)) = true /\
  length (tb_items (dns_tx (sys_parser s))) < CHANNEL_CAPACITY.

(** Until the parser task has met its first response it does nothing, and
    then it ends. *)
Definition logless (s0 : sys) (rs : list DnsResponse) (s : sys) : Prop :=
  parts_ok s /\ sys_writer s = None /\ sys_results s = sys_results s0 /\
  tb_closed (dns_tx (sys_parser s)) = true /\
  length (tb_items (dns_tx (sys_parser s))) < CHANNEL_CAPACITY /\ unobserved s ⊆ rs /\
  if parser_up s
  then reader_up s = true /\ tb_closed (sys_raw s) = false /\
       dns_obs (sys_parser s) = dns_obs (sys_parser s0)
  else tb_closed (sys_raw s) = true /\
       exists r, r ∈ rs /\ dns_obs (sys_parser s) = (update r (dns_obs (sys_parser s0))).1.

Lemma spawn_lost ring obs :
  rb_items ring = [] -> log_lost (spawn_tasks (F := F) ring obs None).
Proof.
  intros Hr. destruct (spawn_steady (Q1 := Q1) (Q2 := Q2) (F := F) ring obs None Hr) as [Hok _].
  destruct (tb_channel_spec (Q := Q1) CHANNEL_CAPACITY) as (_ & _ & D1).
  destruct (tb_channel_spec (Q := Q2) CHANNEL_CAPACITY) as (I2 & _ & _).
  destruct (tb_dropped (Q := Q2) (tb_channel CHANNEL_CAPACITY)) as (D3 & _ & I3).
  rewrite I2 in I3. apply sublist_nil_r in I3. unfold log_lost. split; [exact Hok|]. cbn.
  rewrite I3. split_and!; try done. apply Nat.lt_0_succ.
Qed.

Lemma reader_logless s0 rs s s' :
  logless s0 rs s -> sys_reader s = Some s' -> logless s0 rs s'.
Proof.
  intros (Hok & Hw & Hres & Htx & Hlen & Hun & Hup) Hs.
  pose proof (reader_preserves _ _ Hok Hs) as (Hok' & (Hw' & Hres' & _) & _ & Hsub).
  assert (Hkeep : sys_parser s' = sys_parser s /\ parser_up s' = parser_up s /\
    tb_closed (sys_raw s') = tb_closed (sys_raw s) /\
    (tb_closed (sys_raw s) = false -> reader_up s = true -> reader_up s' = true)).
  { revert Hs. unfold sys_reader. destruct (negb (reader_up s)); [done|].
    destruct (rb_next (sys_ring s)) as [[item rb]|]; [|done]. unfold reader_item.
    destruct (negb _); [by intros [= <-]|].
    destruct (tb_try_send_ref (sys_raw s)) as [stale send| |] eqn:Hsend; intros [= <-]; try done.
    - apply (tb_slot _ _ _ (decode_event item)) in Hsend as (_ & Hc & _ & _ & Hc'). cbn.
      by rewrite Hc, Hc'.
    - apply tb_closed_send in Hsend. cbn. rewrite Hsend. done. }
  destruct Hkeep as (Hp & Hpu & Hcl & Hru).
  rewrite !in_flight_split, Hp in Hsub. apply sublist_app_inv_l, sublist_subseteq in Hsub.
  unfold logless. rewrite Hp, Hpu, Hcl, Hw', Hres'. split_and!; try done; [by etransitivity|].
  destruct (parser_up s); [|done]. destruct Hup as (U1 & U2 & U3). split_and!; try done.
  by apply Hru.
Qed.

Lemma parse_logless s0 rs s s' :
  logless s0 rs s -> sys_parse s = Some s' -> logless s0 rs s'.
Proof.
  intros (Hok & Hw & Hres & Htx & Hlen & Hun & Hup) Hs.
  pose proof (parse_preserves _ _ Hok Hs) as (Hok' & (Hw' & Hres' & _) & _ & _).
  unfold logless. rewrite Hw', Hres'. revert Hs Hok'. unfold sys_parse.
  destruct (parser_up s) eqn:Hpu; [|done]. destruct Hup as (Hru & Hcl & Hobs). cbn [negb].
  destruct (tb_recv_ref (sys_raw s)) as [[ev q]|] eqn:Hq; [|by rewrite Hru].
  apply tb_recv_some in Hq as (Hi & _ & Hc). pose proof Hok as (_ & Hv & _ & _ & _ & _ & Hcap).
  rewrite Hi in Hv. apply Forall_cons in Hv as [[_ Hev] _].
  destruct (parser_event_after ev (sys_parser s) Hev) as (t' & fl & -> & Ha).
  unfold unobserved in *. rewrite Hi in Hun. cbn [omap list_omap] in Hun. unfold after_event in Ha.
  destruct (parsed ev) as [r|] eqn:Hp.
  - destruct Ha as [Ho Ha].
    destruct (tb_try_send_ref (dns_tx (sys_parser s))) as [stale send| |] eqn:Hsend.
    + apply (tb_slot _ _ _ r) in Hsend as (_ & Hc' & _). congruence.
    + apply tb_full in Hsend. lia.
    + destruct Ha as [Ht ->]. intros [= <-] Hok'. destruct (tb_dropped q) as (Dc & _ & Di).
      cbn [sys_raw sys_parser sys_ring parser_up]. rewrite Ht. split_and!; try done.
      * etransitivity; [|exact Hun]. apply sublist_subseteq, sublist_cons.
        apply sublist_app; [by apply sublist_omap|done].
      * exists r. split; [apply Hun; by left|by rewrite Ho, Hobs].
  - destruct Ha as (Ho & Ht & ->). intros [= <-] Hok'.
    cbn [sys_raw sys_parser sys_ring parser_up reader_up]. rewrite Hc, Ho, Ht. by split_and!.
Qed.

Lemma packet_logless s0 rs s ctx ts :
  ctx_ok ctx -> (0 <= ts < 2 ^ 64)%Z -> logless s0 rs s ->
  logless s0 (rs ++ option_list (packet_response (ctx, ts))) (sys_packet TC_ACT_OK ctx ts s).
Proof.
  intros Hctx Hts (Hok & Hw & Hres & Htx & Hlen & Hun & Hup).
  destruct (packet_moves TC_ACT_OK s ctx ts Hctx Hts Hok) as (He & ys & Hys & Hitems).
  split_and!; try done; [by split; [|apply Hok]| |].
  - unfold unobserved. rewrite Hitems. change (sys_raw (sys_packet TC_ACT_OK ctx ts s)) with (sys_raw s).
    rewrite app_assoc. apply list_subseteq_app_iff_l. split.
    + etransitivity; [exact Hun|apply list_subseteq_app_l, reflexivity].
    + apply sublist_subseteq in Hys. etransitivity; [exact Hys|].
      apply list_subseteq_app_r. reflexivity.
  - change (parser_up (sys_packet TC_ACT_OK ctx ts s)) with (parser_up s).
    destruct (parser_up s); [exact Hup|]. destruct Hup as (Hc & r & Hr & Ho).
    split; [exact Hc|]. exists r. split; [apply elem_of_app; by left|exact Ho].
Qed.

Lemma exec_logless s0 pkts s :
  log_lost s0 -> exec s0 pkts s -> logless s0 (unobserved s0 ++ responses pkts) s.
Proof.
  intros (Hok & Hw & U1 & U2 & D1 & D2 & Hlen) Hx.
  induction Hx as [|pkts s ctx ts _ IH Hctx Hts|pkts s s' _ IH Hstep].
  - unfold logless. rewrite U2. split_and!; try done. apply list_subseteq_app_l. reflexivity.
  - rewrite responses_snoc, app_assoc. by apply packet_logless.
  - destruct Hstep as [Hs|Hs|Hs]; [by eapply reader_logless|by eapply parse_logless|].
    destruct IH as (_ & Hnone & _). unfold sys_write in Hs. by rewrite Hnone in Hs.
Qed.

(** C21: without a log there is no policy.  The writer thread that cannot
    open the log file panics at its start, which closes the channel to it.
    From then on, whatever packets arrive and however the tasks are
    interleaved, nothing is logged and at most one more response reaches the
    policy engine: with the first one the parser task finds the channel closed
    and returns, its own channel is closed too, and the engine stays for ever
    as that one response left it. *)
Theorem log_unopened ring obs :
  rb_items ring = [] ->
  log_lost (spawn_tasks (Q1 := Q1) (Q2 := Q2) (F := F) ring obs None) /\
  forall (s0 : sys) pkts s, log_lost s0 -> exec s0 pkts s ->
    sys_writer s = None /\ sys_results s = sys_results s0 /\
    tb_closed (dns_tx (sys_parser s)) = true /\
    if parser_up s then dns_obs (sys_parser s) = dns_obs (sys_parser s0)
    else tb_closed (sys_raw s) = true /\
         exists r, r ∈ unobserved s0 ++ responses pkts /\
           dns_obs (sys_parser s) = (update r (dns_obs (sys_parser s0))).1.
Proof.
  intros Hr. split; [by apply spawn_lost|]. intros s0 pkts s Hl Hx.
  destruct (exec_logless _ _ _ Hl Hx) as (_ & Hw & Hres & Htx & _ & _ & Hup).
  split_and!; try done. destruct (parser_up s); [apply Hup|exact Hup].
Qed.
End Batch.

Section Schedules.
Context {R : Type} `{!RingReader R} `{!RingReaderLaws R}.
Context {Q1 : Type} `{!ThingBuf RawDnsEvent Q1} `{!ThingBufLaws RawDnsEvent Q1}.
Context {Q2 : Type} `{!ThingBuf DnsResponse Q2} `{!ThingBufLaws DnsResponse Q2}.
Context {O E : Type} `{!DnsObserver O E} {F : Type} `{!LogFile F} `{!Prost}.
Local Notation sys := (Sys R Q1 O Q2 F).
Local Notation step := (daemon_step (R := R) (Q1 := Q1) (O := O) (E := E) (Q2 := Q2) (F := F)).

(** C11: without new packets the daemon comes to rest.  From any state, also an
    unreachable one, there is no infinite sequence of steps, and some sequence
    ends in a state in which no task has anything to do. *)
Theorem daemon_terminates (s : sys) :
  Acc (fun s' s => step s s') s /\ exists s', rtc step s s' /\ stuck s'.
Proof. split; [apply steps_wf|apply settles]. Qed.

Context `{!DnsObserverLaws O E} `{!LogFileLaws F} `{!ProstLaws}.

(** C10: the schedule does not matter.  From a state with running tasks and at
    most 1000 events and responses on their way, any two schedules that come
    to rest leave the same observer, the same log and the same results of the
    writes. *)
Theorem schedule_independent (s s1 s2 : sys) :
  flowing s -> load s <= CHANNEL_CAPACITY ->
  rtc step s s1 -> stuck s1 -> rtc step s s2 -> stuck s2 ->
  dns_obs (sys_parser s1) = dns_obs (sys_parser s2) /\
  sys_writer s1 = sys_writer s2 /\ sys_results s1 = sys_results s2 /\
  sys_panics s1 = sys_panics s2.
Proof.
  intros Hf Hl R1 S1 R2 S2.
  destruct (rest_state _ _ Hf Hl R1 S1) as (P1 & O1 & w & w1 & res1 & W & W1 & L1 & A1).
  destruct (rest_state _ _ Hf Hl R2 S2) as (P2 & O2 & w' & w2 & res2 & W' & W2 & L2 & A2).
  rewrite W in W'. injection W' as <-. rewrite L1 in L2. injection L2 as <- <-.
  split_and!; congruence.
Qed.
End Schedules.

(** ** Witnesses *)

Lemma fifo_roomy : roomy (R := Fifo).
Proof.
  intros r. cbn [rb_items rb_reserve rb_reader fifo_ring]. unfold CHANNEL_CAPACITY. intros Hl.
  unfold fifo_room. rewrite (proj2 (Z.leb_le _ _)); [done|].
  change (Z.of_nat EVENT_SIZE + RING_HEADER_BYTES)%Z with 584%Z. unfold DNS_EVENTS_PIPE_BYTES. lia.
Qed.

Inductive task := TaskReader | TaskParser | TaskWriter.

Definition task_step (t : task) : Example_sys -> option Example_sys :=
  match t with
  | TaskReader => sys_reader
  | TaskParser => sys_parse (E := PolicyError BoundedMap)
  | TaskWriter => sys_write
  end.

(** A schedule; a task that has nothing to do is skipped. *)
Definition run_schedule (ts : list task) (s : Example_sys) : Example_sys :=
  foldl (fun s t => take_step (task_step t) s) s ts.

Local Notation example_step := (daemon_step (R := Fifo) (E := PolicyError BoundedMap)).

Lemma run_schedule_steps ts : forall s, rtc example_step s (run_schedule ts s).
Proof.
  induction ts as [|t ts IH]; intros s; [apply rtc_refl|]. cbn. etransitivity; [|apply IH].
  unfold take_step. destruct (task_step t s) as [s'|] eqn:Ht; [|apply rtc_refl].
  apply rtc_once. destruct t; [by apply StepReader|by apply StepParse|by apply StepWrite].
Qed.

Lemma exec_rtc s0 pkts (s s' : Example_sys) :
  exec (E := PolicyError BoundedMap) 0 s0 pkts s -> rtc example_step s s' ->
  exec (E := PolicyError BoundedMap) 0 s0 pkts s'.
Proof. intros Hx Hr. induction Hr as [|s1 s2 s3 Hs _ IH]; [done|]. apply IH. by eapply ExecStep. Qed.

Definition at_rest (s : Example_sys) : bool :=
  negb (enabled (sys_reader s) || enabled (sys_parse (E := PolicyError BoundedMap) s) ||
        enabled (sys_write s)).

Lemma at_rest_stuck s : at_rest s = true -> stuck (E := PolicyError BoundedMap) s.
Proof.
  unfold at_rest, enabled, stuck.
  destruct (sys_reader s), (sys_parse s), (sys_write s); done.
Qed.

(** Two packets, and two schedules for them. *)
Definition example_two : Example_sys :=
  sys_packet 0 example_pkt.1 example_pkt.2 example_pending.

Definition stage_by_stage : list task :=
  [TaskReader; TaskReader; TaskParser; TaskParser; TaskWriter; TaskWriter].
Definition one_by_one : list task :=
  [TaskReader; TaskParser; TaskWriter; TaskReader; TaskParser; TaskWriter].

Lemma example_two_exec : example_exec [example_pkt; example_pkt] example_two.
Proof.
  apply (ExecPacket 0 example_start [example_pkt]); [apply example_pkt_exec| |vm_compute; done].
  apply example_ctx_ok.
Qed.

Lemma example_two_rests ts :
  ts = stage_by_stage \/ ts = one_by_one ->
  stuck (E := PolicyError BoundedMap) (run_schedule ts example_two).
Proof. intros [-> | ->]; apply at_rest_stuck; vm_compute; reflexivity. Qed.

Lemma batch_complete_witness :
  let s := run_schedule one_by_one example_two in
  sys_panics s = [] /\ exists w, sys_writer s = Some w /\
    writer_run (responses [example_pkt; example_pkt]) (first_writer example_file) =
      (w, Ok (sys_results s)).
Proof.
  destruct (batch_complete 0 (empty_fifo xaa) example_engine example_file []
    [example_pkt; example_pkt] (run_schedule one_by_one example_two) fifo_roomy example_start_ok)
    as (H & _ & w & Hw & Hr & _).
  - exact (exec_rtc _ _ _ _ example_two_exec (run_schedule_steps _ _)).
  - apply Nat.leb_le. vm_compute. reflexivity.
  - apply example_two_rests. right. reflexivity.
  - split; [exact H|]. exists w. split; [exact Hw|exact Hr].
Defined.

Lemma tasks_never_stop_witness : parser_up example_final = true.
Proof.
  destruct (tasks_never_stop 0 (empty_fifo xaa) example_engine example_file
    [example_pkt] example_final (proj1 example_start_ok) example_final_exec) as (_ & H & _).
  exact H.
Defined.

(** Two packets and no log: the parser ends with the first response. *)
Definition lost_start : Example_sys := spawn_tasks (empty_fifo xaa) example_engine None.

Definition lost_pending : Example_sys :=
  sys_packet 0 example_pkt.1 example_pkt.2 (sys_packet 0 example_pkt.1 example_pkt.2 lost_start).

Lemma lost_pending_exec :
  exec (E := PolicyError BoundedMap) 0 lost_start [example_pkt; example_pkt] lost_pending.
Proof.
  apply (ExecPacket 0 lost_start [example_pkt]); [|apply example_ctx_ok|vm_compute; done].
  apply (ExecPacket 0 lost_start []); [apply ExecStart|apply example_ctx_ok|vm_compute; done].
Qed.

Lemma log_unopened_witness :
  let s := run_schedule [TaskReader; TaskReader; TaskParser; TaskParser] lost_pending in
  parser_up s = false /\ tb_closed (sys_raw s) = true.
Proof.
  cbv zeta. set (ts := [TaskReader; TaskReader; TaskParser; TaskParser]).
  assert (Hdown : parser_up (run_schedule ts lost_pending) = false) by (vm_compute; reflexivity).
  split; [exact Hdown|].
  destruct (log_unopened 0 (E := PolicyError BoundedMap) (empty_fifo xaa) example_engine
    (proj1 example_start_ok)) as [Hlost H].
  destruct (H lost_start [example_pkt; example_pkt] (run_schedule ts lost_pending) Hlost)
    as (_ & _ & _ & Hup).
  - exact (exec_rtc _ _ _ _ lost_pending_exec (run_schedule_steps ts lost_pending)).
  - rewrite Hdown in Hup. destruct Hup as [Hup _]. exact Hup.
Defined.

Lemma daemon_terminates_witness :
  exists s' : Example_sys, rtc example_step example_two s' /\
    stuck (E := PolicyError BoundedMap) s'.
Proof.
  destruct (daemon_terminates (E := PolicyError BoundedMap) example_two) as [_ H]. exact H.
Defined.

Lemma schedule_independent_witness :
  sys_results (run_schedule stage_by_stage example_two) =
  sys_results (run_schedule one_by_one example_two).
Proof.
  destruct (schedule_independent (E := PolicyError BoundedMap) example_two
    (run_schedule stage_by_stage example_two) (run_schedule one_by_one example_two))
    as (_ & _ & H & _).
  - exact (exec_flowing _ _ _ _ _ _ (proj1 example_start_ok) example_two_exec).
  - apply Nat.leb_le. vm_compute. reflexivity.
  - apply run_schedule_steps.
  - apply example_two_rests. left. reflexivity.
  - apply run_schedule_steps.
  - apply example_two_rests. right. reflexivity.
  - exact H.
Defined.
