(* ===== verification/Pipeline.v ===== *)
(** * The lossy pipeline the daemon implements

    An abstract specification of classifier, ring and tasks: three queues of
    responses, a history of what the observer saw, what the writer handled and
    what was lost at which place.  The system of System.v is bisimilar to it,
    step by step, and what the pipeline loses under overload follows from the
    specification. *)

From Stdlib Require Import Strings.Byte NArith ZArith Lia List.
From stdpp Require Import base tactics numbers list strings option gmap.
From S2P Require Import Prelude RustStd Common Proto Parser Names Answers Decode Policy.
From S2P Require Import RingBuffer Ebpf Capture Channels CommitLog Protobuf Topology System Drain.

Local Open Scope nat_scope.

(** ** The specification *)

(** An entry is the response it stands for; a malformed message is none. *)
Record Line := {
  ln_ring : list (option DnsResponse);  (* DNS_EVENTS_PIPE *)
  ln_raw : list (option DnsResponse);   (* reader to parser *)
  ln_out : list DnsResponse;            (* parser to writer *)
  ln_seen : list DnsResponse;           (* handed to the observer *)
  ln_done : list DnsResponse;           (* handled by the writer *)
  lost_ring : list DnsResponse;         (* dropped because the ring was full *)
  lost_raw : list DnsResponse;          (* dropped by the reader *)
  lost_out : list DnsResponse           (* dropped by the parser *)
}.

(** An entry arrives, and the ring takes it or not. *)
Definition line_arrive (x : option DnsResponse) (l : Line) : Line :=
  Build_Line (ln_ring l ++ [x]) (ln_raw l) (ln_out l) (ln_seen l) (ln_done l)
    (lost_ring l) (lost_raw l) (lost_out l).
Definition line_refuse (x : option DnsResponse) (l : Line) : Line :=
  Build_Line (ln_ring l) (ln_raw l) (ln_out l) (ln_seen l) (ln_done l)
    (lost_ring l ++ option_list x) (lost_raw l) (lost_out l).

(** The reader moves an entry on, or drops it when the channel is full. *)
Definition line_reader (l : Line) : option Line :=
  match ln_ring l with
  | [] => None
  | x :: ring =>
      Some (if length (ln_raw l) <? CHANNEL_CAPACITY
            then Build_Line ring (ln_raw l ++ [x]) (ln_out l) (ln_seen l) (ln_done l)
                   (lost_ring l) (lost_raw l) (lost_out l)
            else Build_Line ring (ln_raw l) (ln_out l) (ln_seen l) (ln_done l)
                   (lost_ring l) (lost_raw l ++ option_list x) (lost_out l))
  end.

(** The parser shows a response to the observer first and then sends it. *)
Definition line_parser (l : Line) : option Line :=
  match ln_raw l with
  | [] => None
  | None :: raw =>
      Some (Build_Line (ln_ring l) raw (ln_out l) (ln_seen l) (ln_done l)
              (lost_ring l) (lost_raw l) (lost_out l))
  | Some r :: raw =>
      Some (if length (ln_out l) <? CHANNEL_CAPACITY
            then Build_Line (ln_ring l) raw (ln_out l ++ [r]) (ln_seen l ++ [r]) (ln_done l)
                   (lost_ring l) (lost_raw l) (lost_out l)
            else Build_Line (ln_ring l) raw (ln_out l) (ln_seen l ++ [r]) (ln_done l)
                   (lost_ring l) (lost_raw l) (lost_out l ++ [r]))
  end.

Definition line_writer (l : Line) : option Line :=
  match ln_out l with
  | [] => None
  | r :: out =>
      Some (Build_Line (ln_ring l) (ln_raw l) out (ln_seen l) (ln_done l ++ [r])
              (lost_ring l) (lost_raw l) (lost_out l))
  end.

Inductive line_step (l l' : Line) : Prop :=
  | LineReader : line_reader l = Some l' -> line_step l l'
  | LineParser : line_parser l = Some l' -> line_step l l'
  | LineWriter : line_writer l = Some l' -> line_step l l'.

(** Lines reachable while the entries [xs] arrived; the ring refuses none as
    long as it holds fewer than [n]. *)
Inductive line_exec (n : nat) (l0 : Line) : list (option DnsResponse) -> Line -> Prop :=
  | LineStart : line_exec n l0 [] l0
  | LineArrive xs l x : line_exec n l0 xs l -> line_exec n l0 (xs ++ [x]) (line_arrive x l)
  | LineRefuse xs l x :
      line_exec n l0 xs l -> n <= length (ln_ring l) ->
      line_exec n l0 (xs ++ [x]) (line_refuse x l)
  | LineStep xs l l' : line_exec n l0 xs l -> line_step l l' -> line_exec n l0 xs l'.

Definition empty_line : Line := Build_Line [] [] [] [] [] [] [] [].

(** ** What the specification promises *)

(** Everything on its way, oldest first. *)
Definition line_items (l : Line) : list (option DnsResponse) :=
  (Some <$> ln_out l) ++ ln_raw l ++ ln_ring l.

Lemma length_omap_le {A B} (f : A -> option B) (l : list A) : length (omap f l) <= length l.
Proof. induction l as [|x l IH]; [done|]. cbn. destruct (f x); cbn; lia. Qed.

Lemma omap_id_fmap {A B} (f : A -> option B) (l : list A) : omap id (f <$> l) = omap f l.
Proof. induction l as [|x l IH]; [done|]. cbn. by rewrite IH. Qed.

Lemma option_Forall2_some {A B} (P : A -> B -> Prop) x my :
  option_Forall2 P (Some x) my -> exists y, my = Some y /\ P x y.
Proof. inversion 1; eauto. Qed.

Lemma option_Forall2_none {A B} (P : A -> B -> Prop) mx my :
  option_Forall2 P mx my -> my = None -> mx = None.
Proof. by destruct 1. Qed.

Lemma list_fmap_one {A B} (f : A -> B) x : f <$> [x] = [f x].
Proof. done. Qed.

Lemma omap_id_some {A} (l : list A) : omap id (Some <$> l) = l.
Proof. induction l as [|x l IH]; [done|]. cbn. by rewrite IH. Qed.

Lemma omap_id_items l :
  omap id (line_items l) = ln_out l ++ omap id (ln_raw l) ++ omap id (ln_ring l).
Proof. unfold line_items. by rewrite !omap_app, omap_id_some. Qed.

Lemma omap_id_cons {A} (x : option A) l : omap id (x :: l) = option_list x ++ omap id l.
Proof. by destruct x. Qed.

(** Every response is handled, on its way or lost at one place; the observer
    has seen what was handled, what is on its way to the writer and what the
    parser dropped; and nothing overtakes. *)
Record accounted (xs : list (option DnsResponse)) (l : Line) : Prop := {
  acc_responses : omap id xs ≡ₚ ln_done l ++ omap id (line_items l) ++
                    lost_ring l ++ lost_raw l ++ lost_out l;
  acc_seen : ln_seen l ≡ₚ ln_done l ++ ln_out l ++ lost_out l;
  acc_order : ln_done l ++ ln_out l `sublist_of` ln_seen l;
  acc_arrived : ln_seen l ++ omap id (ln_raw l ++ ln_ring l) `sublist_of` omap id xs
}.

(** Permutations by counting. *)
Lemma permutation_counts (l1 l2 : list DnsResponse) :
  l1 ≡ₚ l2 <-> forall r, count_occ DnsResponse_eq_dec l1 r = count_occ DnsResponse_eq_dec l2 r.
Proof. apply (Permutation_count_occ DnsResponse_eq_dec). Qed.

Ltac by_counting :=
  rewrite permutation_counts in *;
  let r := fresh "r" in intros r;
  repeat match goal with H : forall _ : DnsResponse, _ = _ |- _ => specialize (H r) end;
  rewrite ?count_occ_app in *; lia.

(** The goals of [accounted] on explicit lists. *)
Ltac accounts :=
  split; rewrite ?omap_id_items in *; unfold line_arrive, line_refuse in *;
  cbn [ln_ring ln_raw ln_out ln_seen ln_done lost_ring lost_raw lost_out] in *;
  rewrite ?omap_app, ?omap_id_cons, ?app_nil_r in *; cbn [option_list omap list_omap] in *;
  rewrite ?app_nil_r in *.

Lemma accounted_start : accounted [] empty_line.
Proof. by split. Qed.

Lemma accounted_arrive xs l x : accounted xs l -> accounted (xs ++ [x]) (line_arrive x l).
Proof.
  intros [H1 H2 H3 H4]. accounts.
  - by_counting.
  - done.
  - done.
  - rewrite !app_assoc in *. by apply sublist_app.
Qed.

Lemma accounted_refuse xs l x : accounted xs l -> accounted (xs ++ [x]) (line_refuse x l).
Proof.
  intros [H1 H2 H3 H4]. accounts.
  - by_counting.
  - done.
  - done.
  - by apply sublist_inserts_r.
Qed.

Lemma accounted_step xs l l' : accounted xs l -> line_step l l' -> accounted xs l'.
Proof.
  intros [H1 H2 H3 H4] [Hs|Hs|Hs]; revert Hs.
  - unfold line_reader. destruct (ln_ring l) as [|x ring] eqn:E; [done|].
    case_match; intros [= <-]; accounts; rewrite ?E, ?omap_id_cons in *; try done.
    + by_counting.
    + by rewrite <-!app_assoc in *.
    + by_counting.
    + etransitivity; [|exact H4]. apply sublist_app; [done|].
      apply sublist_app; [done|]. by apply sublist_inserts_l.
  - unfold line_parser. destruct (ln_raw l) as [|[r|] raw] eqn:E; [done| |].
    + case_match; intros [= <-]; accounts; rewrite ?E, ?omap_id_cons in *;
        change (option_list (Some r)) with [r] in *.
      * by_counting.
      * by_counting.
      * rewrite app_assoc. by apply sublist_app.
      * by rewrite <-!app_assoc in *.
      * by_counting.
      * by_counting.
      * by apply sublist_inserts_r.
      * by rewrite <-!app_assoc in *.
    + intros [= <-]; accounts; by rewrite ?E, ?omap_id_cons in *.
  - unfold line_writer. destruct (ln_out l) as [|r out] eqn:E; [done|].
    intros [= <-]; accounts; rewrite ?E in *; change (r :: out) with ([r] ++ out) in *; try done.
    + by_counting.
    + by_counting.
    + by rewrite <-!app_assoc in *.
Qed.

Lemma line_accounted n xs l : line_exec n empty_line xs l -> accounted xs l.
Proof.
  induction 1; [apply accounted_start|by apply accounted_arrive|by apply accounted_refuse|].
  by eapply accounted_step.
Qed.

(** Nothing is counted twice, and a loss means that a queue was full. *)
Record counted (n : nat) (xs : list (option DnsResponse)) (l : Line) : Prop := {
  cnt_total : length (ln_done l) + length (line_items l) + length (lost_ring l) +
                length (lost_raw l) + length (lost_out l) <= length xs;
  cnt_ring : lost_ring l <> [] -> n < length xs;
  cnt_channels : lost_raw l ++ lost_out l <> [] -> CHANNEL_CAPACITY < length xs
}.

Lemma length_option_list {A} (x : option A) : length (option_list x) <= 1.
Proof. destruct x; cbn; lia. Qed.

Ltac counts :=
  unfold line_items, line_arrive, line_refuse in *;
  cbn [ln_ring ln_raw ln_out ln_seen ln_done lost_ring lost_raw lost_out] in *;
  rewrite ?length_app, ?length_fmap in *; cbn [length] in *;
  repeat match goal with
    |- context [option_list ?x] =>
      lazymatch goal with
      | _ : length (option_list x) <= 1 |- _ => fail
      | _ => pose proof (length_option_list x)
      end
  end; try lia.

Lemma counted_step n xs l l' : counted n xs l -> line_step l l' -> counted n xs l'.
Proof.
  intros [C1 C2 C3] [Hs|Hs|Hs]; revert Hs.
  - unfold line_reader. destruct (ln_ring l) as [|x ring] eqn:E; [done|].
    case_match eqn:Hc; intros [= <-]; bools; split; counts; rewrite ?E in *; counts; try done.
  - unfold line_parser. destruct (ln_raw l) as [|[r|] raw] eqn:E; [done| |].
    + case_match eqn:Hc; intros [= <-]; bools; split; counts; rewrite ?E in *; counts; try done.
      + intros [= <-]. split; counts; rewrite ?E in *; counts; done.
  - unfold line_writer. destruct (ln_out l) as [|r out] eqn:E; [done|].
    intros [= <-]. split; counts; rewrite ?E in *; counts; done.
Qed.

Lemma line_counted n xs l : line_exec n empty_line xs l -> counted n xs l.
Proof.
  induction 1 as [|xs l x _ [C1 C2 C3]|xs l x _ [C1 C2 C3] Hn|xs l l' _ IH Hs].
  - by split.
  - split; counts; intros Hl; [specialize (C2 Hl)|specialize (C3 Hl)]; lia.
  - split; counts; intros Hl; specialize (C3 Hl); lia.
  - by eapply counted_step.
Qed.

(** ** The oldest entries are safe *)

Lemma app_within {A} (a b p t : list A) :
  a ++ b = p ++ t -> length p <= length a -> exists a', a = p ++ a' /\ t = a' ++ b.
Proof.
  intros H Hl. exists (drop (length p) a). split.
  - rewrite <-(take_drop (length p) a) at 1. f_equal.
    apply (f_equal (take (length p))) in H.
    by rewrite take_app_length, take_app_le in H by done.
  - apply (f_equal (drop (length p))) in H.
    by rewrite drop_app_length, drop_app_le in H by done.
Qed.

(** Of the responses [guarded], those the writer has not handled are in front
    of everything else, and there are at most as many as a channel holds. *)
Definition guards (guarded : list DnsResponse) (l : Line) : Prop :=
  exists front rest, line_items l = front ++ rest /\ length front <= CHANNEL_CAPACITY /\
    (guarded = ln_done l ++ omap id front \/ front = [] /\ guarded `prefix_of` ln_done l).

(** A step that leaves the handled responses alone and drops an entry, if any,
    behind as many as a channel holds. *)
Lemma guards_drop guarded l l' a x b :
  guards guarded l -> line_items l = a ++ x ++ b -> line_items l' = a ++ b ->
  CHANNEL_CAPACITY <= length a -> ln_done l' = ln_done l -> guards guarded l'.
Proof.
  intros (front & rest & Hi & Hl & Hg) Ha Ha' Hc Hd. rewrite Hi in Ha. symmetry in Ha.
  destruct (app_within _ _ _ _ Ha) as (a' & -> & ->); [lia|].
  exists front, (a' ++ b). by rewrite Hd, Ha', app_assoc.
Qed.

Lemma guards_same guarded l l' :
  guards guarded l -> line_items l' = line_items l -> ln_done l' = ln_done l ->
  guards guarded l'.
Proof. unfold guards. by intros Hg -> ->. Qed.

Lemma guards_reader guarded l l' : guards guarded l -> line_reader l = Some l' -> guards guarded l'.
Proof.
  unfold line_reader. destruct (ln_ring l) as [|x ring] eqn:E; [done|]. intros Hg.
  case_match eqn:Hc; intros [= <-]; bools.
  - eapply guards_same; [exact Hg| |done]. unfold line_items. cbn.
    by rewrite E, <-app_assoc.
  - apply (guards_drop _ _ _ ((Some <$> ln_out l) ++ ln_raw l) [x] ring Hg); unfold line_items; cbn.
    + by rewrite E, <-app_assoc.
    + by rewrite <-app_assoc.
    + len_lia.
    + done.
Qed.

(** A malformed entry disappears wherever it is. *)
Lemma guards_skip guarded l l' a b :
  guards guarded l -> line_items l = a ++ [None] ++ b -> line_items l' = a ++ b ->
  ln_done l' = ln_done l -> guards guarded l'.
Proof.
  intros (front & rest & Hi & Hl & Hg) Ha Ha' Hd. rewrite Hi in Ha.
  destruct (Nat.le_gt_cases (length front) (length a)) as [Hlt|Hgt].
  - symmetry in Ha. destruct (app_within _ _ _ _ Ha Hlt) as (a' & -> & _).
    exists front, (a' ++ b). by rewrite Hd, Ha', app_assoc.
  - rewrite app_assoc in Ha.
    destruct (app_within _ _ _ _ Ha) as (f & -> & Hb); [len_lia|].
    exists (a ++ f), rest. rewrite Hd, Ha', Hb, <-app_assoc. rewrite !length_app in *.
    split_and!; [done|lia|]. destruct Hg as [->|[Hn _]]; [left|by destruct a].
    rewrite !omap_app. cbn. by rewrite app_nil_r.
Qed.

Lemma guards_parser guarded l l' : guards guarded l -> line_parser l = Some l' -> guards guarded l'.
Proof.
  unfold line_parser. destruct (ln_raw l) as [|[r|] raw] eqn:E; [done| |]; intros Hg.
  - case_match eqn:Hc; intros [= <-]; bools.
    + eapply guards_same; [exact Hg| |done]. unfold line_items. cbn.
      by rewrite E, fmap_app, <-app_assoc.
    + apply (guards_drop _ _ _ (Some <$> ln_out l) [Some r] (raw ++ ln_ring l) Hg);
        unfold line_items; cbn; [by rewrite E|done|by rewrite length_fmap|done].
  - intros [= <-]. apply (guards_skip _ _ _ (Some <$> ln_out l) (raw ++ ln_ring l) Hg);
      unfold line_items; cbn; [by rewrite E|done|done].
Qed.

Lemma guards_writer guarded l l' : guards guarded l -> line_writer l = Some l' -> guards guarded l'.
Proof.
  unfold line_writer. destruct (ln_out l) as [|r out] eqn:E; [done|].
  intros (front & rest & Hi & Hl & Hg) [= <-]. unfold guards, line_items in *. rewrite E in Hi.
  cbn in Hi |- *. destruct front as [|x front].
  - exists [], ((Some <$> out) ++ ln_raw l ++ ln_ring l). split_and!; [done|simpl; lia|right].
    split; [done|]. destruct Hg as [->|[_ Hg]]; [cbn; rewrite app_nil_r; by apply prefix_app_r|].
    by apply prefix_app_r.
  - injection Hi as <- Hi. exists front, rest. split_and!; [done|simpl in Hl; lia|left].
    destruct Hg as [->|[Hn _]]; [|done]. cbn. by rewrite <-app_assoc.
Qed.

Lemma line_guards n guarded l0 xs l :
  line_exec n l0 xs l -> guards guarded l0 -> guards guarded l.
Proof.
  intros Hx Hg. induction Hx as [|xs l x _ IH|xs l x _ IH _|xs l l' _ IH [Hs|Hs|Hs]].
  - done.
  - destruct IH as (front & rest & Hi & Hl & Hd). exists front, (rest ++ [x]). split; [|done].
    unfold line_items in *. cbn. by rewrite !app_assoc, <-Hi, <-!app_assoc.
  - by eapply guards_same.
  - by eapply guards_reader.
  - by eapply guards_parser.
  - by eapply guards_writer.
Qed.

Lemma guards_start l :
  ln_done l = [] -> guards (omap id (take CHANNEL_CAPACITY (line_items l))) l.
Proof.
  intros Hd. exists (take CHANNEL_CAPACITY (line_items l)), (drop CHANNEL_CAPACITY (line_items l)).
  rewrite take_drop, Hd. split_and!; [done|apply firstn_le_length|by left].
Qed.

(** ** The daemon implements the specification *)

Section Bisimulation.
Context `{!NetworkTypes} `{!NetworkTypesLaws} {R : Type} `{!RingBuffer R} `{!RingBufferLaws R}.
Context (TC_ACT_OK : Z).
Context {Q1 : Type} `{!ThingBuf RawDnsEvent Q1} `{!ThingBufLaws RawDnsEvent Q1}.
Context {Q2 : Type} `{!ThingBuf DnsResponse Q2} `{!ThingBufLaws DnsResponse Q2}.
Context {O E : Type} `{!DnsObserver O E} `{!DnsObserverLaws O E}.
Context {F : Type} `{!LogFile F} `{!LogFileLaws F} `{!Prost} `{!ProstLaws}.
Local Notation sys := (Sys R Q1 O Q2 F).
Local Notation exec := (exec (R := R) (Q1 := Q1) (O := O) (E := E) (Q2 := Q2) (F := F) TC_ACT_OK).
Local Notation ring_items s := (rb_items (sys_ring s)).
Local Notation raw_items s := (tb_items (sys_raw s)).
Local Notation tx_items s := (tb_items (dns_tx (sys_parser s))).

Definition entry_response (e : list byte) : option DnsResponse := parsed (decode_event e).

(** The entry a packet stands for, if it is a DNS datagram. *)
Definition arrival (pkt : TcContext * Z) : option (option DnsResponse) :=
  (fun d => parsed (decode_event (canonical_entry d pkt.2))) <$> dns_datagram (packet pkt.1).

Lemma packet_response_datagram ctx ts d :
  dns_datagram (packet ctx) = Some d ->
  packet_response (ctx, ts) = parsed (decode_event (canonical_entry d ts)).
Proof. unfold packet_response. cbn [fst snd]. by intros ->. Qed.

Lemma arrivals_responses pkts : omap id (omap arrival pkts) = responses pkts.
Proof.
  unfold responses. induction pkts as [|[ctx ts] pkts IH]; [done|]. cbn [omap list_omap].
  unfold arrival at 1. cbn [fst snd]. destruct (dns_datagram (packet ctx)) as [d|] eqn:Hd.
  - cbn [fmap option_fmap option_map]. rewrite omap_id_cons, IH.
    rewrite (packet_response_datagram ctx ts d Hd). by destruct (parsed _).
  - cbn [fmap option_fmap option_map]. rewrite IH. unfold packet_response. cbn [fst].
    by rewrite Hd.
Qed.

Definition line_packet (accepted : bool) (x : option (option DnsResponse)) (l : Line) : Line :=
  match x with
  | None => l
  | Some x => if accepted then line_arrive x l else line_refuse x l
  end.

Definition room (s : sys) : bool :=
  match rb_reserve (sys_ring s) with Some _ => true | None => false end.

(** The line [l] shows what happened to the system since it was in [s0]. *)
Definition tracks (s0 s : sys) (l : Line) : Prop :=
  flowing s /\ sys_panics s = sys_panics s0 /\
  dns_obs (sys_parser s) = observe (dns_obs (sys_parser s0)) (ln_seen l) /\
  ln_ring l = entry_response <$> ring_items s /\ ln_raw l = parsed <$> raw_items s /\
  ln_out l = tx_items s /\
  exists w0 w res, sys_writer s0 = Some w0 /\ sys_writer s = Some w /\
    writer_run (ln_done l) w0 = (w, Ok res) /\ sys_results s = sys_results s0 ++ res.

(** The queues of the system and no history. *)
Definition view (s : sys) : Line :=
  Build_Line (entry_response <$> ring_items s) (parsed <$> raw_items s) (tx_items s)
    [] [] [] [] [].

Lemma tracks_view s : flowing s -> tracks s s (view s).
Proof.
  intros Hf. pose proof Hf as (_ & _ & _ & _ & _ & _ & w & Hw & _).
  split_and!; try done. exists w, w, []. by rewrite app_nil_r.
Qed.

Local Ltac tracked Hflow :=
  split; [by apply Hflow|];
  cbn [sys_ring sys_raw sys_parser sys_writer sys_results sys_panics dns_obs dns_tx with_tx
       ln_ring ln_raw ln_out ln_seen ln_done].

Lemma tracks_reader s0 s l :
  tracks s0 s l -> option_Forall2 (tracks s0) (sys_reader s) (line_reader l).
Proof.
  intros (Hf & Hp & Ho & Eg & Er & Et & Hw). pose proof (reader_flowing s) as Hflow.
  pose proof Hf as ((He & _ & _ & _ & _ & C1 & _) & U1 & _ & _ & D1 & _).
  unfold line_reader. revert Hflow. unfold sys_reader. rewrite U1, Eg, Er. cbn [negb].
  destruct (rb_next (sys_ring s)) as [[item rb]|] eqn:Hn.
  2: { intros _. rewrite (rb_next_none _ Hn). constructor. }
  apply rb_next_some in Hn. rewrite Hn in He |- *. apply Forall_cons in He as [Hi _].
  unfold reader_item. rewrite (proj2 (Nat.eqb_eq _ _)) by apply Hi. cbn [negb fmap list_fmap].
  rewrite length_fmap, <-C1.
  destruct (tb_try_send_ref (sys_raw s)) as [stale send| |] eqn:Hs; intros Hflow.
  - apply (tb_slot _ _ _ (decode_event item)) in Hs as (Hl & _ & Hit & _).
    rewrite (proj2 (Nat.ltb_lt _ _)) by done. constructor.
    tracked Hflow. rewrite Hit, fmap_app, app_nil_r. by split_and!.
  - apply tb_full in Hs. rewrite (proj2 (Nat.ltb_ge _ _)) by done. constructor.
    tracked Hflow. rewrite app_nil_r. by split_and!.
  - apply tb_closed_send in Hs. congruence.
Qed.

Lemma tracks_parser s0 s l :
  tracks s0 s l -> option_Forall2 (tracks s0) (sys_parse s) (line_parser l).
Proof.
  intros (Hf & Hp & Ho & Eg & Er & Et & Hw). pose proof (parse_flowing s) as Hflow.
  pose proof Hf as ((_ & Hv & _ & _ & _ & _ & C2) & U1 & U2 & _ & _ & D2 & _).
  unfold line_parser. revert Hflow. unfold sys_parse. rewrite U1, U2, Er. cbn [negb].
  destruct (tb_recv_ref (sys_raw s)) as [[ev q]|] eqn:Hq.
  2: { intros _. rewrite (tb_recv_none _ Hq). constructor. }
  apply tb_recv_some in Hq as (Hi & _). rewrite Hi in Hv |- *.
  apply Forall_cons in Hv as [[_ Hev] _]. cbn [fmap list_fmap].
  destruct (parser_event_after ev (sys_parser s) Hev) as (t' & fl & -> & Ha).
  unfold after_event in Ha. destruct (parsed ev) as [r|].
  2: { destruct Ha as (Ha1 & Ha2 & ->). intros Hflow. constructor.
       tracked Hflow. rewrite Ha1, Ha2, app_nil_r. by split_and!. }
  destruct Ha as [Ha1 Ha]. rewrite Et, <-C2.
  destruct (tb_try_send_ref (dns_tx (sys_parser s))) as [stale send| |] eqn:Hs;
    destruct Ha as [Ha2 ->]; intros Hflow.
  - apply (tb_slot _ _ _ r) in Hs as (Hl & _ & Hit & _).
    rewrite (proj2 (Nat.ltb_lt _ _)) by done. constructor. tracked Hflow.
    rewrite Ha1, Ha2, Hit, observe_app, <-Ho, app_nil_r. by split_and!.
  - apply tb_full in Hs. rewrite (proj2 (Nat.ltb_ge _ _)) by done. constructor.
    tracked Hflow.
    rewrite Ha1, Ha2, observe_app, <-Ho, app_nil_r. by split_and!.
  - apply tb_closed_send in Hs. congruence.
Qed.

Lemma tracks_writer s0 s l :
  tracks s0 s l -> option_Forall2 (tracks s0) (sys_write s) (line_writer l).
Proof.
  intros (Hf & Hp & Ho & Eg & Er & Et & w0 & w & res & Hw0 & Hw & Hrun & Hres).
  pose proof (write_flowing s) as Hflow.
  pose proof Hf as ((_ & _ & Hr & _) & _ & U2 & U3 & _ & _ & w' & Hw' & Htask).
  rewrite Hw in Hw'. injection Hw' as <-.
  unfold line_writer. revert Hflow. unfold sys_write. rewrite Hw, U2, U3, Et. cbn [negb].
  destruct (tb_recv_ref (dns_tx (sys_parser s))) as [[r q]|] eqn:Hq.
  2: { intros _. rewrite (tb_recv_none _ Hq). constructor. }
  apply tb_recv_some in Hq as (Hi & _). rewrite Hi in Hr |- *.
  apply Forall_cons in Hr as [[Hfit _] _].
  destruct (writer_event_spec r w Htask Hfit) as (_ & w' & x & Hev & _).
  rewrite Hev. intros Hflow. constructor. tracked Hflow.
  rewrite app_nil_r. split_and!; try done. exists w0, w', (res ++ [x]).
  rewrite Hres, app_assoc. split_and!; try done.
  eapply writer_run_app; [exact Hrun|]. cbn. by rewrite Hev.
Qed.

(** Another ring under the same tasks. *)
Lemma tracks_ring s0 s l ring xs l' :
  tracks s0 s l -> Forall entry_ok (rb_items ring) ->
  entry_response <$> rb_items ring = ln_ring l ++ xs ->
  ln_ring l' = ln_ring l ++ xs -> ln_raw l' = ln_raw l -> ln_out l' = ln_out l ->
  ln_seen l' = ln_seen l -> ln_done l' = ln_done l ->
  tracks s0 (with_ring ring s) l'.
Proof.
  intros (((_ & Hok) & Hf) & Hp & Ho & Eg & Er & Et & Hw) He Hx L1 L2 L3 L4 L5.
  unfold tracks. rewrite L1, L2, L3, L4, L5. by split_and!.
Qed.

Lemma tracks_packet s0 s l ctx ts :
  ctx_ok ctx -> (0 <= ts < 2 ^ 64)%Z -> tracks s0 s l ->
  tracks s0 (sys_packet TC_ACT_OK ctx ts s) (line_packet (room s) (arrival (ctx, ts)) l).
Proof.
  intros Hctx Hts Htr. pose proof Htr as (((He & _) & _) & _ & _ & Eg & _).
  assert (Hsame : tracks s0 (with_ring (sys_ring s) s) l).
  { apply (tracks_ring _ _ _ _ [] _ Htr); try done; by rewrite app_nil_r. }
  unfold sys_packet. rewrite dns_tc_capture by done. cbn [fst].
  unfold capture, room, arrival. cbn [fst snd].
  destruct (dns_datagram (packet ctx)) as [d|] eqn:Hd; [cbn [fmap option_fmap option_map]|done].
  destruct (rb_reserve (sys_ring s)) as [[ring stale]|] eqn:Hr; cbn [line_packet].
  - apply rb_reserve_spec in Hr as [Hi Hl].
    destruct (datagram_entry ctx ts d Hd Hts stale Hl) as [Hok Hpar].
    eapply (tracks_ring _ _ _ _ [_] _ Htr); try done; rewrite rb_submit_spec, Hi.
    + by apply Forall_app_2, Forall_singleton.
    + rewrite fmap_app, Eg, list_fmap_one. apply f_equal, f_equal2; [|reflexivity].
      unfold entry_response. rewrite Hpar. by apply packet_response_datagram.
  - apply (tracks_ring _ _ _ _ [] _ Htr); try done; cbn; by rewrite ?app_nil_r.
Qed.

(** C3: classifier and daemon implement the pipeline, step by step.  In related
    states a task has something to do exactly when the specification says so;
    its step leads to the state the specification gives, with the observer
    having seen the responses of the specification's history and the writer
    having handled those it lists, in order, without a panic; and a packet is an
    arrival that is accepted exactly when the ring has room. *)
Theorem daemon_implements_pipeline s0 s l :
  tracks s0 s l ->
  option_Forall2 (tracks s0) (sys_reader s) (line_reader l) /\
  option_Forall2 (tracks s0) (sys_parse s) (line_parser l) /\
  option_Forall2 (tracks s0) (sys_write s) (line_writer l) /\
  forall ctx ts, ctx_ok ctx -> (0 <= ts < 2 ^ 64)%Z ->
    tracks s0 (sys_packet TC_ACT_OK ctx ts s) (line_packet (room s) (arrival (ctx, ts)) l).
Proof.
  intros Ht. split_and!; [by apply tracks_reader|by apply tracks_parser|by apply tracks_writer|].
  intros ctx ts Hctx Hts. by apply tracks_packet.
Qed.

(** The ring refuses nothing while it holds fewer than [n] entries. *)
Definition ring_holds (n : nat) : Prop :=
  forall r : R, length (rb_items r) < n -> rb_reserve r <> None.

Lemma tracks_step s0 s s' l :
  tracks s0 s l -> daemon_step (E := E) s s' -> exists l', line_step l l' /\ tracks s0 s' l'.
Proof.
  intros Ht [Hs|Hs|Hs];
    [pose proof (tracks_reader _ _ _ Ht) as Hb|pose proof (tracks_parser _ _ _ Ht) as Hb
    |pose proof (tracks_writer _ _ _ Ht) as Hb];
    rewrite Hs in Hb; apply option_Forall2_some in Hb as (l' & Hl & Hb); exists l'; (split; [|done]).
  - by apply LineReader.
  - by apply LineParser.
  - by apply LineWriter.
Qed.

Lemma exec_line n s0 pkts s :
  ring_holds n -> flowing s0 -> exec s0 pkts s ->
  exists l, line_exec n (view s0) (omap arrival pkts) l /\ tracks s0 s l.
Proof.
  intros Hn Hf Hx. induction Hx as [|pkts s ctx ts _ IH Hctx Hts|pkts s s' _ IH Hs].
  - exists (view s0). split; [apply LineStart|by apply tracks_view].
  - destruct IH as (l & Hl & Ht). pose proof (tracks_packet _ _ _ _ _ Hctx Hts Ht) as Ht'.
    eexists. split; [|exact Ht']. rewrite omap_app. cbn [omap list_omap].
    destruct (arrival (ctx, ts)) as [x|]; [|by rewrite app_nil_r]. cbn [line_packet].
    destruct (room s) eqn:Hr; [by apply LineArrive|]. apply LineRefuse; [done|].
    destruct Ht as (_ & _ & _ & -> & _). rewrite length_fmap.
    destruct (Nat.le_gt_cases n (length (ring_items s))) as [|Hlt]; [done|].
    unfold room in Hr. by destruct (rb_reserve (sys_ring s)) eqn:E1; [|destruct (Hn _ Hlt)].
  - destruct IH as (l & Hl & Ht). destruct (tracks_step _ _ _ _ Ht Hs) as (l' & Hs' & Ht').
    exists l'. split; [by eapply LineStep|done].
Qed.

Lemma stuck_line s0 s l : tracks s0 s l -> stuck (E := E) s -> line_items l = [].
Proof.
  intros Ht (S1 & S2 & S3).
  pose proof (tracks_reader _ _ _ Ht) as B1. pose proof (tracks_parser _ _ _ Ht) as B2.
  pose proof (tracks_writer _ _ _ Ht) as B3. rewrite S1 in B1. rewrite S2 in B2. rewrite S3 in B3.
  inversion B1 as [|L1]. inversion B2 as [|L2]. inversion B3 as [|L3].
  unfold line_items, line_reader, line_parser, line_writer in *.
  destruct (ln_ring l), (ln_raw l) as [|[]], (ln_out l); try done.
Qed.

Lemma view_spawn ring obs f :
  rb_items ring = [] -> view (spawn_tasks ring obs (Some f)) = empty_line.
Proof.
  intros Hr. destruct (tb_channel_spec (Q := Q1) CHANNEL_CAPACITY) as (I1 & _).
  destruct (tb_channel_spec (Q := Q2) CHANNEL_CAPACITY) as (I2 & _).
  unfold view, spawn_tasks. cbn. by rewrite Hr, I1, I2.
Qed.

(** The queues of the line are those of the system. *)
Lemma tracks_queues s0 s l :
  tracks s0 s l ->
  omap id (line_items l) = in_flight s /\ omap id (ln_raw l ++ ln_ring l) = unobserved s.
Proof.
  intros (_ & _ & _ & Eg & Er & Et & _). unfold in_flight, unobserved.
  rewrite omap_id_items, omap_app, Eg, Er, Et.
  by rewrite !omap_id_fmap.
Qed.

(** C4: every response is accounted for.  In every state reachable from a start
    with the log opened the responses in the packets seen are exactly those the
    writer has handled, those on their way, those the full ring refused and
    those the reader and the parser dropped at a full channel, each once.  The
    policy engine has seen what was handled, what waits for the writer and what
    the parser dropped, nothing twice and nothing else, in the order of the
    packets; so a logged response has always been shown to it first.  The ring refuses a
    response only after more packets than it is known to hold, the channels
    only after more than 1000. *)
Theorem losses_accounted n ring obs f pkts s :
  ring_holds n -> rb_items ring = [] -> exec (spawn_tasks ring obs (Some f)) pkts s ->
  exists w handled seen at_ring at_raw at_out,
    sys_writer s = Some w /\ writer_run handled (first_writer f) = (w, Ok (sys_results s)) /\
    responses pkts ≡ₚ handled ++ in_flight s ++ at_ring ++ at_raw ++ at_out /\
    dns_obs (sys_parser s) = observe obs seen /\
    seen ≡ₚ handled ++ tx_items s ++ at_out /\ handled ++ tx_items s `sublist_of` seen /\
    seen ++ unobserved s `sublist_of` responses pkts /\
    (at_ring <> [] -> n < length pkts) /\
    (at_raw ++ at_out <> [] -> CHANNEL_CAPACITY < length pkts).
Proof.
  intros Hn Hs Hx. pose proof (exec_flowing TC_ACT_OK _ obs f [] _ Hs (ExecStart _ _)) as Hf.
  destruct (exec_line n _ _ _ Hn Hf Hx) as (l & Hl & Ht).
  rewrite (view_spawn _ _ _ Hs) in Hl.
  pose proof (line_accounted _ _ _ Hl) as [A1 A2 A3 A4].
  pose proof (line_counted _ _ _ Hl) as [_ C2 C3].
  destruct (tracks_queues _ _ _ Ht) as [Hfl Hun].
  destruct Ht as (_ & _ & Ho & _ & _ & Et & w0 & w & res & Hw0 & Hw & Hrun & Hres).
  injection Hw0 as <-. rewrite arrivals_responses, Hfl in A1. rewrite arrivals_responses, Hun in A4.
  rewrite Et in A2, A3. pose proof (length_omap_le arrival pkts) as Hlen.
  exists w, (ln_done l), (ln_seen l), (lost_ring l), (lost_raw l), (lost_out l).
  split_and!; try done.
  - unfold first_writer. by rewrite Hrun, Hres.
  - intros Hne. specialize (C2 Hne). lia.
  - intros Hne. specialize (C3 Hne). lia.
Qed.

(** C12: the oldest thousand survive any overload.  Take any state reachable
    from a start with the log opened, whatever is queued in it, and let any
    number of packets arrive and the tasks run in any order until they come to
    rest.  Then the responses of the thousand oldest entries that were queued
    have been handled by the writer, in order and before everything else: only
    newer ones can be lost. *)
Theorem oldest_survive ring obs f pkts s pkts' s' :
  rb_items ring = [] -> exec (spawn_tasks ring obs (Some f)) pkts s ->
  exec s pkts' s' -> stuck (E := E) s' ->
  exists w w' handled res, sys_writer s = Some w /\ sys_writer s' = Some w' /\
    writer_run handled w = (w', Ok res) /\ sys_results s' = sys_results s ++ res /\
    omap id (take CHANNEL_CAPACITY (line_items (view s))) `prefix_of` handled.
Proof.
  intros Hs Hx Hx' Hst. pose proof (exec_flowing TC_ACT_OK _ _ _ _ _ Hs Hx) as Hf.
  destruct (exec_line 0 _ _ _ ltac:(intros r Hr; lia) Hf Hx') as (l & Hl & Ht).
  pose proof (line_guards _ _ _ _ _ Hl (guards_start (view s) eq_refl)) as (fr & rest & Hi & _ & Hg).
  rewrite (stuck_line _ _ _ Ht Hst) in Hi. symmetry in Hi. apply app_nil in Hi as [-> _].
  destruct Ht as (_ & _ & _ & _ & _ & _ & w0 & w & res & Hw0 & Hw & Hrun & Hres).
  exists w0, w, (ln_done l), res. split_and!; try done.
  destruct Hg as [->|[_ Hg]]; [|done]. cbn. by rewrite app_nil_r.
Qed.
End Bisimulation.

(** ** The bound is sharp *)

(** When the reader runs alone over a long queue, everything behind the first
    thousand entries is lost. *)
Lemma reader_first xs : forall raw lost,
  length raw <= CHANNEL_CAPACITY ->
  rtc line_step (Build_Line xs raw [] [] [] [] lost [])
    (Build_Line [] (take CHANNEL_CAPACITY (raw ++ xs)) [] [] [] []
       (lost ++ omap id (drop CHANNEL_CAPACITY (raw ++ xs))) []).
Proof.
  induction xs as [|x xs IH]; intros raw lost Hl.
  - rewrite app_nil_r, take_ge, drop_ge, app_nil_r by lia. apply rtc_refl.
  - eapply rtc_l; [by apply LineReader|].
    cbn [ln_ring ln_raw ln_out ln_seen ln_done lost_ring lost_raw lost_out].
    case_match eqn:Hc; bools.
    + rewrite (cons_middle x raw xs), app_assoc. apply IH. len_lia.
    + assert (Hraw : length raw = CHANNEL_CAPACITY) by lia.
      pose proof (IH raw (lost ++ option_list x) Hl) as Hr.
      rewrite take_app_length', drop_app_length' in * by done.
      by rewrite <-app_assoc, <-omap_id_cons in Hr.
Qed.

(** ** Witnesses *)

Lemma example_two_flowing : flowing example_two.
Proof. exact (exec_flowing _ _ _ _ _ _ (proj1 example_start_ok) example_two_exec). Qed.

(** Two packets wait in the ring: the reader has a step, the parser has none. *)
Lemma daemon_implements_pipeline_witness :
  exists s l, sys_reader example_two = Some s /\ line_reader (view example_two) = Some l /\
    ln_raw l = parsed <$> tb_items (sys_raw s) /\
    sys_parse (E := PolicyError BoundedMap) example_two = None.
Proof.
  destruct (daemon_implements_pipeline (E := PolicyError BoundedMap) 0 example_two example_two
    (view example_two) (tracks_view _ example_two_flowing)) as (Hr & Hp & _).
  assert (He : enabled (sys_reader example_two) = true) by (vm_compute; reflexivity).
  rewrite (take_step_some _ _ He) in Hr |- *.
  destruct (option_Forall2_some _ _ _ Hr) as (l & Hl & Ht).
  exists (take_step sys_reader example_two), l. split; [reflexivity|]. split; [exact Hl|]. split.
  - apply Ht.
  - apply (option_Forall2_none _ _ _ Hp). reflexivity.
Defined.

Lemma losses_accounted_witness :
  exists handled, length handled = 1 /\ responses [example_pkt] ≡ₚ handled.
Proof.
  destruct (losses_accounted (E := PolicyError BoundedMap) 0 CHANNEL_CAPACITY (empty_fifo xaa)
    example_engine example_file [example_pkt] example_final fifo_roomy (proj1 example_start_ok)
    example_final_exec) as (w & handled & seen & l1 & l2 & l3 & _ & Hrun & Hperm & _ & _ & _ & _ & H1 & H2).
  assert (Hone : forall l : list DnsResponse, (l <> [] -> CHANNEL_CAPACITY < 1) -> l = []).
  { intros [|r l] Hl; [reflexivity|]. assert (Hc : CHANNEL_CAPACITY < 1) by (apply Hl; discriminate).
    apply Nat.ltb_lt in Hc. vm_compute in Hc. discriminate. }
  apply Hone in H1. apply Hone in H2. apply app_eq_nil in H2. destruct H2 as [-> ->]. subst l1.
  assert (Hq : in_flight example_final = []) by (vm_compute; reflexivity).
  rewrite Hq, !app_nil_r in Hperm. exists handled. split; [|exact Hperm].
  pose proof (writer_run_length _ _ _ _ Hrun) as Hlen. rewrite <-Hlen. vm_compute. reflexivity.
Defined.

(** Both packets are handled, though nothing is known about the schedule. *)
Lemma oldest_survive_witness :
  exists handled, [example_response; example_response] `prefix_of` handled /\
    length handled = length (sys_results (run_schedule one_by_one example_two)).
Proof.
  destruct (oldest_survive (E := PolicyError BoundedMap) 0 (empty_fifo xaa) example_engine
    example_file [example_pkt; example_pkt] example_two []
    (run_schedule one_by_one example_two) (proj1 example_start_ok) example_two_exec)
    as (w & w' & handled & res & _ & _ & Hrun & Hres & Hp).
  - exact (exec_rtc _ _ _ _ (ExecStart _ _) (run_schedule_steps _ _)).
  - apply example_two_rests. right. reflexivity.
  - exists handled. split.
    + assert (Hv : omap id (take CHANNEL_CAPACITY (line_items (view example_two))) =
        [example_response; example_response]) by (vm_compute; reflexivity).
      rewrite Hv in Hp. exact Hp.
    + rewrite Hres, length_app, (writer_run_length _ _ _ _ Hrun). reflexivity.
Defined.
