(* ===== verification/Recovery.v ===== *)
(** * What a crash leaves of the commit log

    The writer thread holds up to 256 KiB of the log in its buffer, and
    nothing waits for its last flush when the process ends.  Here: what a
    reader recovers from the file when the daemon is stopped at an arbitrary
    moment, how long responses stay out of the file, and what a restart makes
    of a torn frame. *)

From Stdlib Require Import Strings.Byte NArith ZArith Lia Wf_nat.
From stdpp Require Import base tactics numbers list strings gmap.
From S2P Require Import Prelude RustStd Common Proto Parser Names Answers Decode Policy.
From S2P Require Import RingBuffer Ebpf Capture Channels CommitLog Protobuf Topology System Drain.

Local Open Scope nat_scope.

(** ** A reader that tolerates a torn end *)

(** The whole frames at the start of a file. *)
Fixpoint whole_frames (fuel : nat) (l : list byte) : list (list byte) :=
  match fuel with
  | O => []
  | S fuel => match unframe l with
              | None => []
              | Some (msg, rest) => msg :: whole_frames fuel rest
              end
  end.

(** The frames of a file, with enough fuel. *)
Definition file_frames (l : list byte) : list (list byte) := whole_frames (length l) l.

(** The responses in them, up to one that does not decode. *)
Fixpoint decoded `{!Prost} (msgs : list (list byte)) : list DnsResponse :=
  match msgs with
  | [] => []
  | m :: msgs => match prost_decode m with
                 | None => []
                 | Some r => r :: decoded msgs
                 end
  end.

Definition recover `{!Prost} (l : list byte) : list DnsResponse :=
  decoded (file_frames l).

Definition small (m : list byte) : Prop := (Z.of_nat (length m) < 2 ^ 32)%Z.

Lemma length_frame m : length (frame m) = 4 + length m.
Proof. unfold frame. by rewrite length_app, length_be_bytes. Qed.

(** The length at the head of what is left of a frame. *)
Lemma torn_header m l :
  small m -> l `prefix_of` frame m -> 4 <= length l ->
  Z.to_nat (be_Z (take 4 l)) = length m.
Proof.
  intros Hm [k Hk] H4.
  assert (Hhdr : take 4 l = be_bytes 4 (Z.of_nat (length m))).
  { apply (f_equal (take 4)) in Hk. unfold frame in Hk.
    rewrite take_app_length' in Hk by (by rewrite length_be_bytes).
    by rewrite take_app_le in Hk by lia. }
  rewrite Hhdr, be_Z_be_bytes_small
    by (unfold small in Hm; change (256 ^ Z.of_nat 4)%Z with (2 ^ 32)%Z; lia).
  apply Nat2Z.id.
Qed.

(** Such a rest and the bytes that follow it are read as one message. *)
Lemma unframe_rest m torn later :
  small m -> torn `prefix_of` frame m -> 4 <= length torn < length (frame m) ->
  unframe (torn ++ later) =
  let missing := length (frame m) - length torn in
  if length later <? missing then None
  else Some (drop 4 torn ++ take missing later, drop missing later).
Proof.
  intros Hm Hp Hl. cbv zeta. rewrite length_frame in *. unfold unframe.
  rewrite (proj2 (Nat.ltb_ge _ _)) by len_lia.
  rewrite take_app_le, drop_app_le by lia. rewrite (torn_header m torn) by (done || lia).
  rewrite length_app, length_drop.
  destruct (Nat.ltb_spec (length later) (4 + length m - length torn)).
  - by rewrite (proj2 (Nat.ltb_lt _ _)) by lia.
  - rewrite (proj2 (Nat.ltb_ge _ _)) by lia.
    rewrite take_app_ge, drop_app_ge by (rewrite length_drop; lia). rewrite length_drop.
    replace (length m - (length torn - 4)) with (4 + length m - length torn) by lia. done.
Qed.

(** A strict prefix of a frame is not one. *)
Lemma unframe_torn m l :
  small m -> l `prefix_of` frame m -> length l < length (frame m) -> unframe l = None.
Proof.
  intros Hm Hp Hl. destruct (Nat.lt_ge_cases (length l) 4) as [H4|H4].
  - unfold unframe. by rewrite (proj2 (Nat.ltb_lt _ _)).
  - rewrite <-(app_nil_r l), (unframe_rest m) by done. cbv zeta.
    by rewrite (proj2 (Nat.ltb_lt _ _)) by (cbn [length]; lia).
Qed.

(** A prefix of a sequence of frames holds a prefix of the messages. *)
Lemma whole_frames_prefix msgs : forall fuel l,
  Forall small msgs -> l `prefix_of` concat (frame <$> msgs) -> length l <= fuel ->
  exists n, whole_frames fuel l = take n msgs /\
    (length (concat (frame <$> take n msgs)) <= length l) /\
    (n < length msgs -> length l < length (concat (frame <$> take (S n) msgs))).
Proof.
  induction msgs as [|m msgs IH]; intros fuel l Hm Hp Hf.
  { apply prefix_nil_inv in Hp as ->. exists 0. split; [|simpl; split; lia].
    by destruct fuel. }
  apply Forall_cons in Hm as [Hm Hms]. cbn [fmap list_fmap concat] in Hp.
  destruct (Nat.lt_ge_cases (length l) (length (frame m))) as [Hlt|Hge].
  - exists 0. split; [|cbn; rewrite app_nil_r; split; [lia|done]]. destruct fuel as [|fuel]; [done|].
    cbn. rewrite (unframe_torn m); [done|done| |done].
    destruct (prefix_weak_total l (frame m) _ Hp) as [Hp'|Hp']; [by apply prefix_app_r|done|].
    apply prefix_length in Hp'. lia.
  - assert (exists l', l = frame m ++ l' /\ l' `prefix_of` concat (frame <$> msgs)) as (l' & -> & Hp').
    { destruct Hp as [k Hk]. exists (drop (length (frame m)) l). split.
      - rewrite <-(take_drop (length (frame m)) l) at 1. f_equal.
        apply (f_equal (take (length (frame m)))) in Hk.
        by rewrite take_app_length, take_app_le in Hk by done.
      - exists k. apply (f_equal (drop (length (frame m)))) in Hk.
        by rewrite drop_app_length, drop_app_le in Hk by done. }
    destruct fuel as [|fuel]; [unfold frame in Hf; len_lia|].
    destruct (IH fuel l' Hms Hp') as (n & Hw & Hn1 & Hn2).
    { unfold frame in Hf. rewrite !length_app, length_be_bytes in Hf. lia. }
    exists (S n). cbn [whole_frames]. rewrite unframe_frame by done. rewrite Hw.
    cbn [take fmap list_fmap concat length] in *. rewrite !length_app in *.
    split; [done|]. split; [lia|]. intros Hlt. specialize (Hn2 ltac:(lia)). lia.
Qed.

Lemma unframe_shorter l m rest : unframe l = Some (m, rest) -> length rest < length l.
Proof.
  unfold unframe. case_match eqn:H1; [done|]. case_match eqn:H2; [done|].
  intros [= _ <-]. bools. rewrite !length_drop. lia.
Qed.

Lemma whole_frames_fuel l : forall fuel fuel',
  length l <= fuel -> length l <= fuel' -> whole_frames fuel l = whole_frames fuel' l.
Proof.
  induction l as [l IH] using (induction_ltof1 _ length). unfold ltof in IH.
  intros [|fuel] [|fuel'] Hf Hf'; try done.
  1-2: by destruct l; [|simpl in *; lia].
  cbn. destruct (unframe l) as [[m rest]|] eqn:Hu; [|done]. apply unframe_shorter in Hu.
  f_equal. apply IH; lia.
Qed.

Lemma file_frames_step l :
  file_frames l = match unframe l with
                  | None => []
                  | Some (m, rest) => m :: file_frames rest
                  end.
Proof.
  unfold file_frames. destruct l as [|b l]; [done|]. cbn [length whole_frames].
  destruct (unframe (b :: l)) as [[m rest]|] eqn:Hu; [|done]. apply unframe_shorter in Hu.
  f_equal. apply whole_frames_fuel; simpl in Hu; lia.
Qed.

Lemma file_frames_app msgs l :
  Forall small msgs -> file_frames (concat (frame <$> msgs) ++ l) = msgs ++ file_frames l.
Proof.
  induction 1 as [|m msgs Hm _ IH]; [done|]. cbn [fmap list_fmap concat app].
  rewrite <-app_assoc, file_frames_step, unframe_frame by done. by rewrite IH.
Qed.

Section Recover.
Context `{!Prost}.

Lemma decoded_take msgs rs n :
  Forall2 (fun m r => (Z.of_nat (length m) < 2 ^ 32)%Z /\ prost_decode m = Some r) msgs rs ->
  decoded (take n msgs) = take n rs.
Proof.
  intros Hms. revert n. induction Hms as [|m r msgs rs [_ Hd] _ IH]; intros [|n]; [done..|].
  cbn. by rewrite Hd, IH.
Qed.

(** A log and a file that lost the end of it: [n] is the number of responses
    whose frames are whole. *)
Definition recovers (l file : list byte) (rs : list DnsResponse) (n : nat) : Prop :=
  exists msgs, l = concat (frame <$> msgs) /\ length msgs = length rs /\
    recover file = take n rs /\ length (concat (frame <$> take n msgs)) <= length file /\
    (n < length rs -> length file < length (concat (frame <$> take (S n) msgs))).

Lemma recover_prefix l file rs :
  frames_of l rs -> file `prefix_of` l -> exists n, recovers l file rs n.
Proof.
  intros (msgs & -> & Hms) Hp.
  destruct (whole_frames_prefix msgs (length file) file) as (n & Hw & Hn1 & Hn2); [|done|done|].
  { clear -Hms. by induction Hms as [|m r msgs rs [Hm _]]; constructor. }
  exists n, msgs. rewrite <-(Forall2_length _ _ _ Hms). split_and!; try done.
  unfold recover, file_frames. rewrite Hw. by apply decoded_take.
Qed.
End Recover.

(** ** How long the file lags behind *)

Section Lag.
Context {F : Type} `{!LogFile F} `{!LogFileLaws F} `{!Prost} `{!ProstLaws}.

(** An upper bound of the frame of a response. *)
Definition frame_bound (r : DnsResponse) : nat := 132 + text_bytes r.

Lemma write_all_buffers bs (w : BufWriter F) :
  length (bw_buf w) + length bs < LOG_BUFFER_BYTES ->
  write_all LOG_BUFFER_BYTES bs w = (Build_BufWriter (bw_buf w ++ bs) (bw_file w), Ok tt).
Proof.
  intros Hl. unfold write_all, bind at 1, gets. by rewrite (proj2 (Nat.ltb_lt _ _)) by lia.
Qed.

Lemma writer_event_buffers r (t : WriterTask F) :
  fits r -> length (bw_buf (writer t)) + frame_bound r < LOG_BUFFER_BYTES ->
  exists t', writer_event r t = (t', Ok Written) /\ bw_file (writer t') = bw_file (writer t) /\
    length (bw_buf (writer t')) <= length (bw_buf (writer t)) + frame_bound r.
Proof.
  intros Hfit Hroom. destruct (prost_encode_ok r []) as (msg & Henc & Hlen & _).
  unfold writer_event. rewrite Henc. cbn [app]. unfold frame_bound in *. unfold bind.
  set (hdr := be_bytes 4 _). assert (length hdr = 4) by apply length_be_bytes.
  rewrite write_all_buffers by lia.
  rewrite write_all_buffers by (cbn [bw_buf]; len_lia).
  eexists. split; [done|]. cbn [writer bw_file bw_buf]. split; [done|len_lia].
Qed.

Lemma writer_run_buffers rs : forall (t : WriterTask F),
  Forall fits rs ->
  length (bw_buf (writer t)) + sum_list (frame_bound <$> rs) < LOG_BUFFER_BYTES ->
  exists t', writer_run rs t = (t', Ok (replicate (length rs) Written)) /\
    bw_file (writer t') = bw_file (writer t).
Proof.
  induction rs as [|r rs IH]; intros t Hfit Hroom; [by exists t|].
  apply Forall_cons in Hfit as [Hr Hrs].
  change (sum_list (frame_bound <$> r :: rs))
    with (frame_bound r + sum_list (frame_bound <$> rs)) in Hroom.
  destruct (writer_event_buffers r t Hr) as (t1 & H1 & Hf1 & Hb1); [lia|].
  destruct (IH t1 Hrs) as (t2 & H2 & Hf2); [lia|].
  exists t2. cbn [writer_run length replicate]. rewrite H1, H2. split; [done|congruence].
Qed.

(** The log lags behind by up to a whole buffer.  Responses whose frames
    together fit the free part of the 256 KiB buffer are all reported as
    written, while the file does not change at all. *)
Theorem log_file_lags rs (t : WriterTask F) :
  Forall fits rs ->
  length (bw_buf (writer t)) + sum_list (frame_bound <$> rs) < LOG_BUFFER_BYTES ->
  exists t', writer_run rs t = (t', Ok (replicate (length rs) Written)) /\
    bw_file (writer t') = bw_file (writer t).
Proof. apply writer_run_buffers. Qed.
End Lag.

(** ** A restart after a crash *)

Section Restart.
Context {F : Type} `{!LogFile F} `{!LogFileLaws F} `{!Prost} `{!ProstLaws}.

Lemma writer_run_appends rs : forall (t t' : WriterTask F),
  task_ok t -> Forall good_response rs ->
  writer_run rs t = (t', Ok (replicate (length rs) Written)) ->
  exists new, stream (writer t') = stream (writer t) ++ new /\ frames_of new rs.
Proof.
  induction rs as [|r rs IH]; intros t t' Ht Hrs Hw.
  { injection Hw as <-. exists []. rewrite app_nil_r. split; [done|apply frames_of_nil]. }
  apply Forall_cons in Hrs as [[Hfit Hty] Hrs]. cbn [writer_run] in Hw.
  destruct (writer_event_spec r t Ht Hfit) as (m & t1 & res & Hev & Ht1 & Hlen & Hdec & Hres).
  rewrite Hev in Hw. destruct (writer_run rs t1) as [t2 o] eqn:Hrun. injection Hw as <- Ho.
  destruct o as [l|e|fl]; try done. injection Ho as -> ->.
  destruct Hres as [[_ Hs]|(e & k & Hbad & _)]; [|done].
  destruct (IH t1 t2 Ht1 Hrs Hrun) as (new & Hs2 & msgs & -> & Hms).
  exists (frame m ++ concat (frame <$> msgs)). rewrite Hs2, Hs, app_assoc. split; [done|].
  exists (m :: msgs). split; [done|]. constructor; [|done].
  split; [by eapply fits_frame|by apply Hdec].
Qed.

(** C15: a restart after a crash.  Let a crash have left whole frames and a
    part of another one in the file, its length complete.  The restarted daemon
    appends behind it and writes everything without an error.  A reader then
    takes the bytes that are missing of the torn frame from the new session: as
    long as that is shorter, none of it is visible, and afterwards the reader
    goes on in the middle of it, not at a boundary of the daemon's frames. *)
Theorem restart_misframes msgs m torn rs f (t' : WriterTask F) :
  Forall small msgs -> small m -> torn `prefix_of` frame m ->
  4 <= length torn < length (frame m) ->
  file_bytes f = concat (frame <$> msgs) ++ torn -> Forall good_response rs ->
  writer_run rs (first_writer f) = (t', Ok (replicate (length rs) Written)) ->
  exists new, frames_of new rs /\ stream (writer t') = file_bytes f ++ new /\
    let missing := length (frame m) - length torn in
    file_frames (stream (writer t')) =
      if length new <? missing then msgs
      else msgs ++ (drop 4 torn ++ take missing new) :: file_frames (drop missing new).
Proof.
  intros Hms Hm Hp Hl Hf Hrs Hw.
  destruct (writer_run_appends rs (first_writer f) t') as (new & Hs & Hnew); [|done..|].
  { apply Nat.le_0_l. }
  exists new. unfold stream at 2 in Hs. cbn [first_writer writer bw_buf bw_file] in Hs.
  rewrite app_nil_r in Hs. split; [done|]. split; [done|]. cbv zeta.
  rewrite Hs, Hf, <-app_assoc, file_frames_app by done.
  rewrite file_frames_step, (unframe_rest m) by done. cbv zeta.
  destruct (_ <? _); [apply app_nil_r|done].
Qed.
End Restart.

(** ** A crash of the running daemon *)

Section Crash.
Context `{!NetworkTypes} `{!NetworkTypesLaws} {R : Type} `{!RingBuffer R} `{!RingBufferLaws R}.
Context (TC_ACT_OK : Z).
Context {Q1 : Type} `{!ThingBuf RawDnsEvent Q1} `{!ThingBufLaws RawDnsEvent Q1}.
Context {Q2 : Type} `{!ThingBuf DnsResponse Q2} `{!ThingBufLaws DnsResponse Q2}.
Context {O E : Type} `{!DnsObserver O E} `{!DnsObserverLaws O E}.
Context {F : Type} `{!LogFile F} `{!LogFileLaws F} `{!Prost} `{!ProstLaws}.
Local Notation exec := (exec (R := R) (Q1 := Q1) (O := O) (E := E) (Q2 := Q2) (F := F) TC_ACT_OK).

(** C14: crash recovery.  When the daemon, started with the log opened and
    holding whole frames, is stopped in any reachable state in which no write has failed, a reader that stops at the first incomplete
    frame recovers from the file a prefix of the old log and an ordered
    subsequence of the responses in the packets seen: exactly the responses
    whose frames are whole.  At most the 256 KiB of the buffer are missing. *)
Theorem crash_recovers_prefix ring obs f base pkts (s : Sys R Q1 O Q2 F) :
  start_ok ring f base -> exec (spawn_tasks ring obs (Some f)) pkts s ->
  Forall (fun res => res = Written) (sys_results s) ->
  exists w logged n, sys_writer s = Some w /\
    logged ++ in_flight s `sublist_of` responses pkts /\
    recovers (stream (writer w)) (file_bytes (bw_file (writer w))) (base ++ logged) n /\
    length (stream (writer w)) <=
      length (file_bytes (bw_file (writer w))) + LOG_BUFFER_BYTES.
Proof.
  intros Hs Hx Hall.
  destruct (exec_inv _ _ _ _ _ _ _ Hs Hx) as (_ & _ & logged & (w & Hw & Htask & Hlog) & Hsub).
  destruct (recover_prefix _ (file_bytes (bw_file (writer w))) _ (Hlog Hall)) as [n Hn].
  { by exists (bw_buf (writer w)). }
  exists w, logged, n. split_and!; [done..|].
  unfold stream, task_ok, buffered in *. rewrite length_app. lia.
Qed.
End Crash.

(** ** Witnesses *)

Lemma log_file_lags_witness :
  exists t', writer_run [example_response] (first_writer example_file) = (t', Ok [Written]) /\
    mf_bytes (bw_file (writer t')) = [].
Proof.
  destruct (log_file_lags [example_response] (first_writer example_file)) as (t' & Hr & Hf).
  - apply Forall_singleton. unfold fits. vm_compute. reflexivity.
  - apply Nat.ltb_lt. vm_compute. reflexivity.
  - exists t'. split; [exact Hr|]. rewrite Hf. reflexivity.
Defined.

(** The response has been delivered to the log, and a crash loses it. *)
Lemma crash_recovers_prefix_witness :
  exists w n, sys_writer example_final = Some w /\
    recover (file_bytes (bw_file (writer w))) = take n (recover (stream (writer w))) /\
    file_bytes (bw_file (writer w)) = [].
Proof.
  destruct (crash_recovers_prefix 0 (empty_fifo xaa) example_engine example_file []
    [example_pkt] example_final example_start_ok example_final_exec)
    as (w & logged & n & Hw & _ & (msgs & _ & _ & Hrec & _) & _).
  - vm_compute. repeat constructor.
  - exists w, 0%nat. split; [exact Hw|].
    assert (Hfile : file_bytes (bw_file (writer w)) = []).
    { apply (f_equal (option_map (fun w => file_bytes (bw_file (writer w))))) in Hw.
      vm_compute in Hw. injection Hw as Hw. symmetry. exact Hw. }
    split; [|exact Hfile]. rewrite Hfile. reflexivity.
Defined.

(** A message of three bytes whose last two a crash has cut off. *)
Definition torn_file : MemFile :=
  {| mf_bytes := take 5 (frame [x01; x02; x03]); mf_room := None |}.

Definition restarted : WriterTask MemFile :=
  (writer_run log_example (first_writer torn_file)).1.

(** The reader completes it with the length of the next response. *)
Lemma restart_misframes_witness :
  exists rest, file_frames (stream (writer restarted)) = [x01; x00; x00] :: rest.
Proof.
  destruct (restart_misframes [] [x01; x02; x03] (take 5 (frame [x01; x02; x03]))
    log_example torn_file restarted) as (new & _ & Hs & Hframes).
  - constructor.
  - unfold small. vm_compute. reflexivity.
  - exists [x02; x03]. vm_compute. reflexivity.
  - split; apply Nat.leb_le; vm_compute; reflexivity.
  - reflexivity.
  - exact log_example_fits.
  - vm_compute. reflexivity.
  - assert (Hn : new = drop 5 (stream (writer restarted))) by (rewrite Hs; reflexivity).
    rewrite Hframes, Hn. vm_compute. eexists. reflexivity.
Defined.
