(* ===== verification/Daemon.v ===== *)
(** * The daemon's life

    [src/cilium-mini-rs/src/main.rs]: [main] and the functions it calls, as a
    program over the calls to the operating system and to the aya crate, which
    are the interface [Host].  Which failures end the daemon, which are only
    logged, in which state it then waits, and what every exit leaves behind
    once the locals of [main] and the tokio runtime have been dropped. *)

From Stdlib Require Import Strings.Byte NArith ZArith Lia.
From stdpp Require Import base tactics numbers list strings gmap.
From S2P Require Import Prelude RustStd Common Proto Parser Decode Policy.
From S2P Require Import RingBuffer Ebpf Capture Channels CommitLog Protobuf Topology System Drain.

Local Open Scope Z_scope.

Inductive TcAttachType := Ingress | Egress.

(** A hook: program, interface, direction. *)
Definition hook : Type := string * string * TcAttachType.

(** The calls [main] makes; [true] is success. *)
Class Host (W Map : Type) := {
  (** [libc::setrlimit(RLIMIT_MEMLOCK, infinity)] *)
  setrlimit_memlock : W -> W * Z;
  ebpf_load : W -> W * bool;
  logger_init : W -> W * bool;
  logger_async_fd : W -> W * bool;
  qdisc_add_clsact : string -> W -> W * bool;
  program_mut : string -> W -> bool;
  is_classifier : string -> W -> bool;
  program_load : string -> W -> W * bool;
  program_attach : string -> string -> TcAttachType -> W -> W * bool;
  take_map : string -> W -> W * option Map;
  ctrl_c : W -> W * bool;
  (** the [Ebpf] object goes out of scope *)
  drop_ebpf : W -> W;
  (** the hooks in the kernel: those behind the links the [Ebpf] object holds,
      and all others *)
  own_hooks : W -> list hook;
  other_hooks : W -> list hook
}.

(** The same hooks are installed. *)
Definition same_hooks {W Map} `{!Host W Map} (w w' : W) : Prop :=
  own_hooks w' = own_hooks w /\ other_hooks w' = other_hooks w.

(** Only a successful attach installs a hook, and its link belongs to the
    object; an object that is dropped detaches its links. *)
Class HostLaws (W Map : Type) `{!Host W Map} := {
  hooks_setrlimit w : same_hooks w (setrlimit_memlock w).1;
  hooks_load w : same_hooks w (ebpf_load w).1;
  hooks_logger w : same_hooks w (logger_init w).1;
  hooks_logger_fd w : same_hooks w (logger_async_fd w).1;
  hooks_qdisc i w : same_hooks w (qdisc_add_clsact i w).1;
  hooks_program_load p w : same_hooks w (program_load p w).1;
  hooks_attach p i t w :
    own_hooks (program_attach p i t w).1 =
      own_hooks w ++ (if (program_attach p i t w).2 then [(p, i, t)] else []) /\
    other_hooks (program_attach p i t w).1 = other_hooks w;
  hooks_take_map m w : same_hooks w (take_map m w).1;
  hooks_ctrl_c w : same_hooks w (ctrl_c w).1;
  hooks_drop w : own_hooks (drop_ebpf w) = [] /\ other_hooks (drop_ebpf w) = other_hooks w
}.

(** The [anyhow] errors of [main], in the order of its stages. *)
Inductive MainError :=
  | Rlimit | LoadObject | NoProgram | CastProgram | LoadProgram | AttachIngress
  | NoMap (name : string) | HashMapTryFrom | CtrlC.

(** What [main] only logs. *)
Inductive warning := LoggerWarning | IngestorWarning.

(** ** Scopes *)

(** A value that is dropped at every exit of a scope, by [?] as well. *)
Definition finally {S E A} (body : prog S E A) (drop : S -> S) : prog S E A :=
  fun s => let '(s, o) := body s in (drop s, o).

Lemma runs_finally {S E A} (body : prog S E A) drop s (Q : S -> A -> Prop) R :
  runs body s (fun s' a => Q (drop s') a) (fun s' e => R (drop s') e) ->
  runs (finally body drop) s Q R.
Proof. unfold runs, finally. by destruct (body s) as [s' [a|e|f]]. Qed.

(** ** The end of the runtime *)

Section Shutdown.
Context {R : Type} `{!RingReader R} `{!RingReaderLaws R}.
Context {Q1 : Type} `{!ThingBuf RawDnsEvent Q1} `{!ThingBufLaws RawDnsEvent Q1}.
Context {Q2 : Type} `{!ThingBuf DnsResponse Q2} `{!ThingBufLaws DnsResponse Q2}.
Context {O E : Type} `{!DnsObserver O E} {F : Type} `{!LogFile F} `{!Prost}.
Local Notation sys := (Sys R Q1 O Q2 F).
Local Notation step := (daemon_step (R := R) (Q1 := Q1) (O := O) (E := E) (Q2 := Q2) (F := F)).
Local Notation tx_items s := (tb_items (dns_tx (sys_parser s))).

(** Reader and parser are cancelled and drop their ends of the channels; the
    writer is a thread of its own. *)
Definition cancel_tasks (t : sys) : sys :=
  Build_Sys (sys_ring t) (tb_drop_receiver (sys_raw t)) (sys_parser t) (sys_writer t)
    (sys_results t) false false (writer_up t) (sys_panics t).

Context `{!LogFileLaws F} `{!ProstLaws}.

(** The writer thread has handled some of the responses that were queued when
    the runtime ended, or all of them and has flushed and ended. *)
Definition draining (s0 s : sys) (w0 : WriterTask F) : Prop :=
  reader_up s = false /\ parser_up s = false /\ parts_ok s /\
  dns_obs (sys_parser s) = dns_obs (sys_parser s0) /\
  exists handled w res, writer_run handled w0 = (w, Ok res) /\ task_ok w /\
    sys_results s = sys_results s0 ++ res /\ tx_items s0 = handled ++ tx_items s /\
    if writer_up s then sys_writer s = Some w
    else sys_writer s = Some (writer_end w) /\ tx_items s = [].

Lemma write_draining s0 s s' w0 :
  draining s0 s w0 -> sys_write s = Some s' -> draining s0 s' w0.
Proof.
  intros (U1 & U2 & Hok & Hobs & handled & w & res & Hrun & Htask & Hres & Htx & Hup) Hs.
  revert Hs. unfold sys_write. destruct (writer_up s) eqn:U3.
  2: { destruct Hup as [-> _]. done. }
  rewrite Hup. cbn [negb]. pose proof Hok as (He & Hv & Hr & W1 & W2 & C1 & C2).
  destruct (tb_recv_ref (dns_tx (sys_parser s))) as [[r q]|] eqn:Hq.
  - pose proof (recv_within _ _ _ Hq W2) as Wq.
    apply tb_recv_some in Hq as (Hi & Hc & _). rewrite Hi in Hr, Htx.
    apply Forall_cons in Hr as [[Hfit _] Hr].
    destruct (writer_event_spec r w Htask Hfit) as (_ & w' & x & Hwr & Htask' & _).
    rewrite Hwr. intros [= <-]. split_and!; try done.
    + unfold parts_ok. cbn. rewrite Hc. by split_and!.
    + exists (handled ++ [r]), w', (res ++ [x]). cbn. rewrite Hres, <-!app_assoc, Htx.
      split_and!; try done. eapply writer_run_app; [exact Hrun|]. cbn. by rewrite Hwr.
  - apply tb_recv_none in Hq as Hi. rewrite U2. intros [= <-].
    destruct (tb_dropped (dns_tx (sys_parser s))) as (_ & Cd & Id).
    pose proof (dropped_within _ W2) as Wd.
    rewrite Hi in Id, Htx. apply sublist_nil_r in Id. split_and!; try done.
    + unfold parts_ok. cbn. rewrite Cd, Id. split_and!; try done.
    + exists handled, w, res. cbn. rewrite Id. by split_and!.
Qed.

Lemma steps_draining s0 s s' w0 : rtc step s s' -> draining s0 s w0 -> draining s0 s' w0.
Proof.
  induction 1 as [|s s1 s2 Hs _ IH]; [done|]. intros Hd. apply IH.
  pose proof Hd as (U1 & U2 & _). destruct Hs as [Hs|Hs|Hs].
  - unfold sys_reader in Hs. by rewrite U1 in Hs.
  - unfold sys_parse in Hs. by rewrite U2 in Hs.
  - by eapply write_draining.
Qed.

(** A writer that can do nothing more has ended. *)
Lemma drained_end s0 s w0 : draining s0 s w0 -> sys_write s = None -> writer_up s = false.
Proof.
  intros (_ & U2 & _ & _ & _ & w & _ & _ & _ & _ & _ & Hup). unfold sys_write.
  destruct (writer_up s); [|done]. rewrite Hup, U2. cbn [negb].
  destruct (tb_recv_ref (dns_tx (sys_parser s))) as [[r q]|]; [|done].
  by destruct (writer_event r w) as [w' [x|[]|f]].
Qed.

Lemma cancel_draining s w :
  parts_ok s -> sys_writer s = Some w -> task_ok w -> writer_up s = true ->
  draining s (cancel_tasks s) w.
Proof.
  intros (He & Hv & Hr & W1 & W2 & C1 & C2) Hw Ht U3.
  destruct (tb_dropped (sys_raw s)) as (_ & Cd & Id). split_and!; try done.
  - unfold parts_ok. cbn. rewrite Cd. split_and!; try done;
      [by eapply sublist_Forall|by apply dropped_within].
  - exists [], w, []. cbn. rewrite U3, app_nil_r. by split_and!.
Qed.

(** The last flush moves the buffer to the file or fails. *)
Lemma writer_end_stream (w : WriterTask F) :
  task_ok w -> stream (writer (writer_end w)) = stream (writer w).
Proof.
  intros Ht. unfold writer_end. cbn [writer].
  pose proof (flush_buf_runs LOG_BUFFER_BYTES (writer w) Ht) as Hf. unfold runs in Hf.
  destruct (flush_buf (writer w)) as [w' [[]|e|f]]; cbn [fst]; [| |done]; apply Hf.
Qed.
End Shutdown.

Section Goodbye.
Context `{!NetworkTypes} `{!NetworkTypesLaws} {R : Type} `{!RingBuffer R} `{!RingBufferLaws R}.
Context (TC_ACT_OK : Z).
Context {Q1 : Type} `{!ThingBuf RawDnsEvent Q1} `{!ThingBufLaws RawDnsEvent Q1}.
Context {Q2 : Type} `{!ThingBuf DnsResponse Q2} `{!ThingBufLaws DnsResponse Q2}.
Context {O E : Type} `{!DnsObserver O E} `{!DnsObserverLaws O E}.
Context {F : Type} `{!LogFile F} `{!LogFileLaws F} `{!Prost} `{!ProstLaws}.
Local Notation sys := (Sys R Q1 O Q2 F).
Local Notation step := (daemon_step (R := R) (Q1 := Q1) (O := O) (E := E) (Q2 := Q2) (F := F)).
Local Notation exec := (exec (R := R) (Q1 := Q1) (O := O) (E := E) (Q2 := Q2) (F := F) TC_ACT_OK).

End Goodbye.

Section Main.
Context {W Map : Type} `{!Host W Map}.
Context {R : Type} `{!RingReader R} {M : Type} `{!BpfHashMap M}.
Context {Q1 : Type} `{!ThingBuf RawDnsEvent Q1} {Q2 : Type} `{!ThingBuf DnsResponse Q2}.
Context {F : Type} `{!LogFile F} `{!Prost}.
(** [HashMap::try_from], [RingBuf::try_from], [AsyncFd::new] and the result of
    opening the log file. *)
Context (hash_map_try_from : Map -> outcome unit M).
Context (ring_buf_try_from : Map -> option R) (async_fd_new : R -> option R).
Context (log_file : option F).
Local Notation tasks := (Sys R Q1 (FqdnPolicyEngine M) Q2 F).
(** What the tasks do while [main] waits. *)
Context (meanwhile : tasks -> tasks).

(** The process: the host, the spawned tasks and the log. *)
Record Process := {
  host : W;
  logger_running : bool;
  topology : option tasks;
  warnings : list warning
}.

Definition set_host (w : W) (p : Process) : Process :=
  {| host := w; logger_running := logger_running p; topology := topology p;
     warnings := warnings p |}.

Definition warn (x : warning) : prog Process MainError unit :=
  modify (fun p => {| host := host p; logger_running := logger_running p;
                      topology := topology p; warnings := warnings p ++ [x] |}).

(** A call that fails with [e]: [call().context(..)?] *)
Definition call (f : W -> W * bool) (e : MainError) : prog Process MainError unit :=
  fun p => let '(w, ok) := f (host p) in
           (set_host w p, if ok then Ok tt else Err e).

(** [let _ = call()] *)
Definition call_ignored (f : W -> W * bool) : prog Process MainError unit :=
  fun p => let '(w, _) := f (host p) in (set_host w p, Ok tt).

Definition bump_memlock_rlimit : prog Process MainError unit :=
  fun p => let '(w, r) := setrlimit_memlock (host p) in
           (set_host w p, if negb (r =? 0) then Err Rlimit else Ok tt).

Definition load_ebpf : prog Process MainError unit := call ebpf_load LoadObject.

(** [if let Err(e) = setup_ebpf_logging(&mut ebpf) { warn!(..) }] *)
Definition setup_ebpf_logging : prog Process MainError unit :=
  fun p =>
    let '(w, ok) := logger_init (host p) in
    if negb ok then warn LoggerWarning (set_host w p)
    else
    let '(w, ok) := logger_async_fd w in
    if negb ok then warn LoggerWarning (set_host w p)
    else ({| host := w; logger_running := true; topology := topology p;
             warnings := warnings p |}, Ok tt).

Definition attach_dns_hook (iface : string) : prog Process MainError unit :=
  do! call_ignored (qdisc_add_clsact iface) in
  let! w := gets host in
  if negb (program_mut "dns_tc" w) then throw NoProgram
  else if negb (is_classifier "dns_tc" w) then throw CastProgram
  else
  do! call (program_load "dns_tc") LoadProgram in
  call (program_attach "dns_tc" iface Ingress) AttachIngress.

Definition main_take_map (name : string) : prog Process MainError Map :=
  fun p => let '(w, m) := take_map name (host p) in
           (set_host w p, match m with Some m => Ok m | None => Err (NoMap name) end).

Definition allowed : gset (list byte) := {[ bytes_of "leetcode.com" ]}.

(** [if let Err(e) = topology::assembly_processing_topology(..) { warn!(..) }] *)
Definition start_topology (ring_buf : Map) (fqdn_policy : FqdnPolicyEngine M)
    : prog Process MainError unit :=
  fun p =>
    match assembly_processing_topology ring_buf_try_from async_fd_new ring_buf fqdn_policy
            log_file with
    | Ok t => ({| host := host p; logger_running := logger_running p; topology := Some t;
                  warnings := warnings p |}, Ok tt)
    | Err _ => warn IngestorWarning p
    | Fault f => (p, Fault f)
    end.

(** From the loaded object to the state in which [main] waits. *)
Definition main_start (iface : string) : prog Process MainError unit :=
  do! setup_ebpf_logging in
  do! attach_dns_hook iface in
  let! hash_map := main_take_map HASH_MAP_NAME in
  let! fqdn_policy := lift (map_err (engine_new hash_map_try_from hash_map allowed)
                                    HashMapTryFrom) in
  let! ring_buf := main_take_map RING_BUF_NAME in
  start_topology ring_buf fqdn_policy.

(** [signal::ctrl_c().await?], while the tasks run *)
Definition wait_ctrl_c : prog Process MainError unit :=
  do! modify (fun p => {| host := host p; logger_running := logger_running p;
                          topology := meanwhile <$> topology p; warnings := warnings p |}) in
  call ctrl_c CtrlC.

(** The local [ebpf] goes out of scope. *)
Definition drop_local_ebpf (p : Process) : Process := set_host (drop_ebpf (host p)) p.

(** The runtime of [#[tokio::main]] is dropped, and with it all it runs. *)
Definition shutdown_runtime (p : Process) : Process :=
  {| host := host p; logger_running := false; topology := cancel_tasks <$> topology p;
     warnings := warnings p |}.

Definition main (iface : string) : prog Process MainError unit :=
  finally
    (do! bump_memlock_rlimit in
     do! load_ebpf in
     finally (do! main_start iface in wait_ctrl_c) drop_local_ebpf)
    shutdown_runtime.

(** ** Results *)

Context `{!HostLaws W Map}.

(** The process a run starts as. *)
Definition process_of (w : W) : Process :=
  {| host := w; logger_running := false; topology := None; warnings := [] |}.

(** The hooks are the given ones. *)
Definition hooked (own other : list hook) (p : Process) : Prop :=
  own_hooks (host p) = own /\ other_hooks (host p) = other.

(** They are, and no task has been started. *)
Definition idle (own other : list hook) (p : Process) : Prop :=
  hooked own other p /\ topology p = None.

Lemma idle_same own other p w (p' : Process) :
  idle own other p -> same_hooks (host p) w -> host p' = w -> topology p' = topology p ->
  idle own other p'.
Proof. intros [[H1' H2'] H3'] [E1 E2] <- Ht. unfold idle, hooked. by rewrite E1, E2, Ht. Qed.

Lemma call_runs f e own other p :
  (forall w, same_hooks w (f w).1) -> idle own other p ->
  runs (call f e) p (fun p' _ => idle own other p') (fun p' e' => idle own other p' /\ e' = e).
Proof.
  intros Hf Hp. unfold runs, call. specialize (Hf (host p)).
  destruct (f (host p)) as [w []]; cbn [fst] in Hf; [|split; [|done]];
    by apply (idle_same _ _ p w).
Qed.

Lemma bump_runs own other p :
  idle own other p -> runs bump_memlock_rlimit p (fun p' _ => idle own other p')
    (fun p' e => idle own other p' /\ e = Rlimit).
Proof.
  intros Hp. unfold runs, bump_memlock_rlimit. pose proof (hooks_setrlimit (host p)) as Hf.
  destruct (setrlimit_memlock (host p)) as [w r]. cbn [fst] in Hf.
  destruct (negb _); [split; [|done]|]; by apply (idle_same _ _ p w).
Qed.

Lemma logging_runs own other p :
  idle own other p ->
  runs setup_ebpf_logging p (fun p' _ => idle own other p') (fun _ _ => False).
Proof.
  intros Hp. unfold runs, setup_ebpf_logging.
  pose proof (hooks_logger (host p)) as E1.
  destruct (logger_init (host p)) as [w1 []]; cbn [fst negb] in *; [|by apply (idle_same _ _ p w1)].
  assert (Hp1 : idle own other (set_host w1 p)) by by apply (idle_same _ _ p w1).
  pose proof (hooks_logger_fd w1) as E2.
  destruct (logger_async_fd w1) as [w2 []]; cbn [fst negb] in *;
    by apply (idle_same _ _ (set_host w1 p) w2).
Qed.

(** The one hook of the daemon. *)
Definition dns_hook (iface : string) : hook := ("dns_tc", iface, Ingress)%string.

Lemma attach_runs iface other p :
  idle [] other p ->
  runs (attach_dns_hook iface) p (fun p' _ => idle [dns_hook iface] other p')
    (fun p' _ => idle [] other p').
Proof.
  intros Hp. unfold attach_dns_hook. apply runs_bind.
  apply (runs_mono _ _ (fun p' _ => idle [] other p') _ (fun _ _ => False));
    [|clear p Hp; intros p _ Hp|done].
  { unfold runs, call_ignored. pose proof (hooks_qdisc iface (host p)) as Hq.
    destruct (qdisc_add_clsact iface (host p)) as [w b]. by apply (idle_same _ _ p w). }
  apply runs_bind, runs_gets. repeat (apply runs_if; intros _; [done|]).
  apply runs_bind.
  eapply runs_mono; [apply (call_runs _ _ [] other); [apply hooks_program_load|done]| |];
    cbv beta; [|by intros ? ? [? _]].
  clear p Hp. intros p _ [[Ho Hr] Ht]. unfold runs, call.
  destruct (hooks_attach "dns_tc" iface Ingress (host p)) as [E1 E2].
  destruct (program_attach _ iface Ingress (host p)) as [w []]; cbn [fst snd] in E1, E2;
    unfold idle, hooked; cbn [host set_host topology]; by rewrite E1, E2, Ho.
Qed.

Lemma take_map_runs name own other p :
  idle own other p -> runs (main_take_map name) p (fun p' _ => idle own other p')
    (fun p' _ => idle own other p').
Proof.
  intros Hp. unfold runs, main_take_map. pose proof (hooks_take_map name (host p)) as Hm.
  destruct (take_map name (host p)) as [w [m|]]; by apply (idle_same _ _ p w).
Qed.

(** ** The state in which the daemon waits *)

(** The tasks have been started on maps of the loaded object, or nothing has
    been started and a warning was logged. *)
Definition started (p : Process) : Prop :=
  match topology p with
  | Some t => exists m ring_map ring fd,
      ring_buf_try_from ring_map = Some ring /\ async_fd_new ring = Some fd /\
      t = spawn_tasks fd {| allowed_ip_map := m; allowed_domains := allowed |} log_file
  | None => IngestorWarning ∈ warnings p
  end.

Definition waiting (iface : string) (other : list hook) (p : Process) : Prop :=
  hooked [dns_hook iface] other p /\ started p.

Lemma topology_runs ring_buf m own other p :
  idle own other p ->
  runs (start_topology ring_buf {| allowed_ip_map := m; allowed_domains := allowed |}) p
    (fun p' _ => hooked own other p' /\ started p') (fun _ _ => False).
Proof.
  intros [Hh Ht]. unfold runs, start_topology, assembly_processing_topology, started.
  assert (Hw : IngestorWarning ∈ warnings p ++ [IngestorWarning])
    by (apply elem_of_app; right; by left).
  destruct (ring_buf_try_from ring_buf) as [ring|] eqn:R1; [|cbn; by rewrite Ht].
  destruct (async_fd_new ring) as [fd|] eqn:R2; cbn; [|by rewrite Ht].
  split; [done|]. by exists m, ring_buf, ring, fd.
Qed.

Context (try_from_no_fault : forall m f, hash_map_try_from m <> Fault f).

Lemma start_runs iface other p :
  idle [] other p ->
  runs (main_start iface) p (fun p' _ => waiting iface other p')
    (fun p' _ => exists own, idle own other p').
Proof.
  intros Hp. unfold main_start. apply runs_bind.
  eapply runs_mono; [by apply logging_runs| |]; cbv beta; [|done].
  clear p Hp. intros p _ Hp. apply runs_bind.
  eapply runs_mono; [by apply attach_runs| |]; cbv beta; [|by eauto].
  clear p Hp. intros p _ Hp. apply runs_bind.
  eapply runs_mono; [by apply take_map_runs| |]; cbv beta; [|by eauto].
  clear p Hp. intros p hash_map Hp. apply runs_bind, runs_lift. unfold engine_new.
  destruct (hash_map_try_from hash_map) as [m|e|f] eqn:Hm; cbn [obind map_err yields]; [|by eauto|].
  2: { by apply try_from_no_fault in Hm. }
  apply runs_bind. eapply runs_mono; [by apply take_map_runs| |]; cbv beta; [|by eauto].
  clear p Hp. intros p ring_buf Hp.
  eapply runs_mono; [by apply topology_runs| |]; cbv beta; done.
Qed.

(** ** The exits *)

(** What an exit leaves: no hook of the daemon, the other hooks as they were,
    and no task but perhaps the writer thread. *)
Definition left_behind (other : list hook) (p : Process) : Prop :=
  hooked [] other p /\ logger_running p = false /\
  match topology p with
  | Some t => reader_up t = false /\ parser_up t = false /\ tb_closed (sys_raw t) = true
  | None => True
  end.

(** The exit of a process that was waiting. *)
Definition exit_of (p p' : Process) : Prop :=
  warnings p' = warnings p /\
  topology p' = (cancel_tasks ∘ meanwhile) <$> topology p.

Context `{!ThingBufLaws RawDnsEvent Q1}.

Lemma dropped_left own other p :
  hooked own other p -> left_behind other (shutdown_runtime (drop_local_ebpf p)).
Proof.
  intros [_ Ho]. destruct (hooks_drop (host p)) as [D1 D2]. split_and!.
  - split; [exact D1|]. etransitivity; [exact D2|exact Ho].
  - done.
  - cbn. destruct (topology p) as [t|]; [|done]. cbn. split_and!; try done. apply tb_dropped.
Qed.

Lemma wait_runs iface other p :
  waiting iface other p ->
  let leaves p' := left_behind other (shutdown_runtime (drop_local_ebpf p')) /\
                   exit_of p (shutdown_runtime (drop_local_ebpf p')) in
  runs wait_ctrl_c p (fun p' _ => leaves p') (fun p' e => leaves p' /\ e = CtrlC).
Proof.
  intros [[Ho Hr] _] leaves. unfold wait_ctrl_c. apply runs_bind, runs_modify. unfold runs, call.
  cbn [host]. destruct (hooks_ctrl_c (host p)) as [E1 E2].
  destruct (ctrl_c (host p)) as [w b]. cbn [fst] in E1, E2.
  enough (Hl : leaves (set_host w {| host := host p; logger_running := logger_running p;
                          topology := meanwhile <$> topology p; warnings := warnings p |}))
    by (destruct b; [exact Hl|by split]).
  split.
  - eapply dropped_left. split; cbn [host set_host]; [rewrite E1; exact Ho|by rewrite E2].
  - split; [done|]. cbn. by destruct (topology p).
Qed.

Lemma main_runs iface w :
  own_hooks w = [] ->
  runs (main iface) (process_of w)
    (fun p' _ => left_behind (other_hooks w) p' /\
       exists p, waiting iface (other_hooks w) p /\ exit_of p p')
    (fun p' e => left_behind (other_hooks w) p' /\
       (topology p' = None \/
        e = CtrlC /\ exists p, waiting iface (other_hooks w) p /\ exit_of p p')).
Proof.
  intros Hown. unfold main. apply runs_finally.
  assert (Hp : idle [] (other_hooks w) (process_of w)) by done. revert Hp.
  generalize (process_of w) as p. generalize (other_hooks w) as other. intros other p Hp.
  assert (Hearly : forall p', idle [] other p' ->
    left_behind other (shutdown_runtime p') /\ topology (shutdown_runtime p') = None).
  { intros p' [Hh Ht]. unfold left_behind, shutdown_runtime, hooked in *. cbn. by rewrite Ht. }
  apply runs_bind. eapply runs_mono; [by apply bump_runs| |]; cbv beta.
  2: { intros p' e [Hi _]. apply Hearly in Hi as [? ?]. by auto. }
  clear p Hp. intros p _ Hp. apply runs_bind.
  eapply runs_mono; [apply call_runs; [apply hooks_load|exact Hp]| |]; cbv beta.
  2: { intros p' e [Hi _]. apply Hearly in Hi as [? ?]. by auto. }
  clear p Hp. intros p _ Hp. apply runs_finally, runs_bind.
  eapply runs_mono; [by apply start_runs| |]; cbv beta.
  2: { intros p' e (own & Hi). split; [eapply dropped_left, Hi|]. left. cbn.
       by rewrite (proj2 Hi). }
  clear p Hp. intros p _ Hp. eapply runs_mono; [by apply (wait_runs iface other)| |]; cbv beta.
  - intros p' _ [Hl Hx]. split; [exact Hl|]. by exists p.
  - intros p' e [[Hl Hx] ->]. split; [exact Hl|]. right. split; [done|]. by exists p.
Qed.

(** C31: every exit of [main], started with no hook of its own, however the
    calls to the host turn out and whatever the tasks do while it waits.  It
    never panics, given that [HashMap::try_from] does not.  Each exit, a success or any error,
    leaves no hook of the daemon and the other hooks as they were: the program
    is detached with the local [ebpf]; the logger task, the reader and the
    parser are gone with the runtime.  A success, or a failure while waiting
    for ctrl-c, comes after a state in which exactly [dns_tc] was attached, on
    ingress of the interface, and the tasks had been started on maps of the
    loaded object with "leetcode.com" as the only allowed domain, or had not
    and this was only logged as a warning.  Any other error comes before a
    task of the topology was started. *)
Theorem main_exits iface w :
  own_hooks w = [] ->
  runs (main iface) (process_of w)
    (fun p' _ => left_behind (other_hooks w) p' /\
       exists p, waiting iface (other_hooks w) p /\ exit_of p p')
    (fun p' e => left_behind (other_hooks w) p' /\
       (topology p' = None \/
        e = CtrlC /\ exists p, waiting iface (other_hooks w) p /\ exit_of p p')).
Proof. apply main_runs. Qed.

(** Without the event pipeline the daemon keeps running: when the ring
    buffer cannot be opened, [main] still waits for ctrl-c, with the classifier
    attached and no task to drain the ring, and then returns successfully. *)
Theorem main_survives_topology iface w p' :
  own_hooks w = [] -> (forall m, ring_buf_try_from m = None) ->
  main iface (process_of w) = (p', Ok tt) ->
  IngestorWarning ∈ warnings p' /\
  exists p, waiting iface (other_hooks w) p /\ topology p = None.
Proof.
  intros Hown Hnone Hmain.
  destruct (runs_ok _ _ _ _ _ _ (main_runs iface w Hown) Hmain) as (_ & p & Hw & Hwarn & _).
  pose proof Hw as [_ Hs]. unfold started in Hs. destruct (topology p) as [t|] eqn:Ht.
  - destruct Hs as (m & rm & ring & fd & Hr & _). by rewrite Hnone in Hr.
  - rewrite Hwarn. split; [exact Hs|]. by exists p.
Qed.
End Main.

(** ** Witnesses *)

(** A response is queued for the writer when the runtime ends. *)
Definition drained : Example_sys :=
  run_schedule [TaskWriter; TaskWriter] (cancel_tasks example_parsed).

Lemma sublist_fills {A} (l1 l2 l3 l4 : list A) :
  l1 ++ l2 ++ l3 `sublist_of` l4 -> length l2 = length l4 -> l1 = [].
Proof. intros Hs%sublist_length Hl. apply nil_length_inv. rewrite !length_app in Hs. lia. Qed.

Lemma drained_stuck : stuck (E := PolicyError BoundedMap) drained.
Proof. apply at_rest_stuck. vm_compute. reflexivity. Qed.


(** A host on which every call succeeds. *)
Record TestHost := { test_own : list hook; test_other : list hook }.

#[export] Instance test_host : Host TestHost string :=
  {| setrlimit_memlock w := (w, 0);
     ebpf_load w := (w, true);
     logger_init w := (w, true);
     logger_async_fd w := (w, false);
     qdisc_add_clsact _ w := (w, false);
     program_mut _ _ := true;
     is_classifier _ _ := true;
     program_load _ w := (w, true);
     program_attach p i t w :=
       ({| test_own := test_own w ++ [(p, i, t)]; test_other := test_other w |}, true);
     take_map name w := (w, Some name);
     ctrl_c w := (w, true);
     drop_ebpf w := {| test_own := []; test_other := test_other w |};
     own_hooks := test_own;
     other_hooks := test_other |}.

#[export] Instance test_host_laws : HostLaws TestHost string.
Proof. by split. Qed.

(** Another program's hook. *)
Definition test_world : TestHost := {| test_own := []; test_other := [("xdp", "wlan0", Egress)]%string |}.

(** While it waits the reader takes one step. *)
Definition test_main (ring_buf_try_from : string -> option Fifo) :=
  main (Map := string) (R := Fifo) (M := BoundedMap) (Q1 := Chan RawDnsEvent)
    (Q2 := Chan DnsResponse) (F := MemFile)
    (fun _ => Ok {| entries := ∅ |}) ring_buf_try_from Some (Some example_file)
    (take_step sys_reader) "wlan0".

Definition test_process :=
  process_of (R := Fifo) (M := BoundedMap) (Q1 := Chan RawDnsEvent)
    (Q2 := Chan DnsResponse) (F := MemFile) test_world.

Lemma main_exits_witness :
  let p' := (test_main (fun _ => Some (empty_fifo x00)) test_process).1 in
  own_hooks (host p') = [] /\ other_hooks (host p') = [("xdp", "wlan0", Egress)]%string /\
  (parser_up <$> topology p') = Some false.
Proof.
  pose proof (main_exits (R := Fifo) (M := BoundedMap) (Q1 := Chan RawDnsEvent)
    (Q2 := Chan DnsResponse) (F := MemFile) (fun _ => Ok {| entries := ∅ |})
    (fun _ : string => Some (empty_fifo x00)) Some (Some example_file) (take_step sys_reader)
    ltac:(discriminate) "wlan0" test_world eq_refl) as H.
  assert (Hr : test_main (fun _ => Some (empty_fifo x00)) test_process =
    ((test_main (fun _ => Some (empty_fifo x00)) test_process).1, Ok tt))
    by (apply run_returns; vm_compute; reflexivity).
  destruct (runs_ok _ _ _ _ _ _ H Hr) as [[[Ho Hx] [_ Ht]] _].
  split; [exact Ho|]. split; [exact Hx|].
  assert (Hs : (fun _ => tt) <$> topology (test_main (fun _ => Some (empty_fifo x00)) test_process).1
               = Some tt) by (vm_compute; reflexivity).
  destruct (topology _) as [t|]; [|discriminate Hs]. destruct Ht as (_ & Hp & _).
  cbn. rewrite Hp. reflexivity.
Defined.

Lemma main_survives_topology_witness :
  warnings (test_main (fun _ => None) test_process).1 = [LoggerWarning; IngestorWarning] /\
  IngestorWarning ∈ warnings (test_main (fun _ => None) test_process).1.
Proof.
  split; [vm_compute; reflexivity|].
  apply (main_survives_topology (fun _ : string => Ok {| entries := ∅ |})
    (fun _ : string => None) Some (Some example_file) (take_step sys_reader)
    ltac:(discriminate) "wlan0" test_world (test_main (fun _ => None) test_process).1).
  - reflexivity.
  - reflexivity.
  - apply run_returns. vm_compute. reflexivity.
Defined.
