(* ===== verification/KernelEnums.v ===== *)
(** * The enumerations of the program's bindings

    [src/cilium-mini-ebpf/src/vmlinux.rs]: the types bindgen itself defines, the
    C types of a 64-bit target, and the enumerations.  Bindgen declares an
    enumeration as a module with an integer type and one constant per
    enumerator. *)

From Stdlib Require Import NArith ZArith.
From stdpp Require Import base list strings.
From S2P Require Import Prelude Layout.

Local Open Scope string_scope.
Local Open Scope nat_scope.

(** ** The types bindgen itself defines *)

Definition __BindgenBitfieldUnit (n : nat) : ctype := CStruct 1 [("storage", CArray n CU8)].
Definition __IncompleteArrayField (T : ctype) : ctype :=
  CStruct 1 [("0", CStruct 1 []); ("1", CArray 0 T)].
Definition __BindgenUnionField (T : ctype) : ctype := CStruct 1 [("0", CStruct 1 [])].

(** ** The C types of a 64-bit target *)

Definition c_char : ctype := CU8.
Definition c_schar : ctype := CU8.
Definition c_uchar : ctype := CU8.
Definition c_short : ctype := CU16.
Definition c_ushort : ctype := CU16.
Definition c_int : ctype := CU32.
Definition c_uint : ctype := CU32.
Definition c_long : ctype := CU64.
Definition c_ulong : ctype := CU64.
Definition c_longlong : ctype := CU64.
Definition c_ulonglong : ctype := CU64.

(** ** Enumerations *)

Local Open Scope Z_scope.

(** An enumeration: whether its integer type is signed, the type, and the
    constants. *)
Record Enumeration := {
  en_signed : bool;
  en_type : ctype;
  en_constants : list (string * Z)
}.

Definition phy_interface_t__Type : ctype := c_uint.
Definition phy_interface_t : Enumeration := Build_Enumeration false phy_interface_t__Type
  [("PHY_INTERFACE_MODE_NA", 0); ("PHY_INTERFACE_MODE_INTERNAL", 1); ("PHY_INTERFACE_MODE_MII",
  2); ("PHY_INTERFACE_MODE_GMII", 3); ("PHY_INTERFACE_MODE_SGMII", 4);
  ("PHY_INTERFACE_MODE_TBI", 5); ("PHY_INTERFACE_MODE_REVMII", 6); ("PHY_INTERFACE_MODE_RMII",
  7); ("PHY_INTERFACE_MODE_REVRMII", 8); ("PHY_INTERFACE_MODE_RGMII", 9);
  ("PHY_INTERFACE_MODE_RGMII_ID", 10); ("PHY_INTERFACE_MODE_RGMII_RXID", 11);
  ("PHY_INTERFACE_MODE_RGMII_TXID", 12); ("PHY_INTERFACE_MODE_RTBI", 13);
  ("PHY_INTERFACE_MODE_SMII", 14); ("PHY_INTERFACE_MODE_XGMII", 15);
  ("PHY_INTERFACE_MODE_XLGMII", 16); ("PHY_INTERFACE_MODE_MOCA", 17);
  ("PHY_INTERFACE_MODE_PSGMII", 18); ("PHY_INTERFACE_MODE_QSGMII", 19);
  ("PHY_INTERFACE_MODE_TRGMII", 20); ("PHY_INTERFACE_MODE_100BASEX", 21);
  ("PHY_INTERFACE_MODE_1000BASEX", 22); ("PHY_INTERFACE_MODE_2500BASEX", 23);
  ("PHY_INTERFACE_MODE_5GBASER", 24); ("PHY_INTERFACE_MODE_RXAUI", 25);
  ("PHY_INTERFACE_MODE_XAUI", 26); ("PHY_INTERFACE_MODE_10GBASER", 27);
  ("PHY_INTERFACE_MODE_25GBASER", 28); ("PHY_INTERFACE_MODE_USXGMII", 29);
  ("PHY_INTERFACE_MODE_10GKR", 30); ("PHY_INTERFACE_MODE_QUSGMII", 31);
  ("PHY_INTERFACE_MODE_1000BASEKX", 32); ("PHY_INTERFACE_MODE_10G_QXGMII", 33);
  ("PHY_INTERFACE_MODE_50GBASER", 34); ("PHY_INTERFACE_MODE_LAUI", 35);
  ("PHY_INTERFACE_MODE_100GBASEP", 36); ("PHY_INTERFACE_MODE_MIILITE", 37);
  ("PHY_INTERFACE_MODE_MAX", 38)].

Definition socket_state__Type : ctype := c_uint.
Definition socket_state : Enumeration := Build_Enumeration false socket_state__Type [("SS_FREE",
  0); ("SS_UNCONNECTED", 1); ("SS_CONNECTING", 2); ("SS_CONNECTED", 3); ("SS_DISCONNECTING",
  4)].

Definition audit_mode__Type : ctype := c_uint.
Definition audit_mode : Enumeration := Build_Enumeration false audit_mode__Type
  [("AUDIT_NORMAL", 0); ("AUDIT_QUIET_DENIED", 1); ("AUDIT_QUIET", 2); ("AUDIT_NOQUIET", 3);
  ("AUDIT_ALL", 4)].

Definition audit_state__Type : ctype := c_uint.
Definition audit_state : Enumeration := Build_Enumeration false audit_state__Type
  [("AUDIT_STATE_DISABLED", 0); ("AUDIT_STATE_BUILD", 1); ("AUDIT_STATE_RECORD", 2)].

Definition blk_crypto_key_type__Type : ctype := c_uint.
Definition blk_crypto_key_type : Enumeration := Build_Enumeration false
  blk_crypto_key_type__Type [("BLK_CRYPTO_KEY_TYPE_RAW", 1); ("BLK_CRYPTO_KEY_TYPE_HW_WRAPPED",
  2)].

Definition blk_crypto_mode_num__Type : ctype := c_uint.
Definition blk_crypto_mode_num : Enumeration := Build_Enumeration false
  blk_crypto_mode_num__Type [("BLK_ENCRYPTION_MODE_INVALID", 0);
  ("BLK_ENCRYPTION_MODE_AES_256_XTS", 1); ("BLK_ENCRYPTION_MODE_AES_128_CBC_ESSIV", 2);
  ("BLK_ENCRYPTION_MODE_ADIANTUM", 3); ("BLK_ENCRYPTION_MODE_SM4_XTS", 4);
  ("BLK_ENCRYPTION_MODE_MAX", 5)].

Definition blk_eh_timer_return__Type : ctype := c_uint.
Definition blk_eh_timer_return : Enumeration := Build_Enumeration false
  blk_eh_timer_return__Type [("BLK_EH_DONE", 0); ("BLK_EH_RESET_TIMER", 1)].

Definition blk_integrity_checksum__Type : ctype := c_schar.
Definition blk_integrity_checksum : Enumeration := Build_Enumeration true
  blk_integrity_checksum__Type [("BLK_INTEGRITY_CSUM_NONE", 0); ("BLK_INTEGRITY_CSUM_IP", 1);
  ("BLK_INTEGRITY_CSUM_CRC", 2); ("BLK_INTEGRITY_CSUM_CRC64", 3)].

Definition blk_unique_id__Type : ctype := c_uint.
Definition blk_unique_id : Enumeration := Build_Enumeration false blk_unique_id__Type
  [("BLK_UID_T10", 1); ("BLK_UID_EUI64", 2); ("BLK_UID_NAA", 3)].

Definition bpf_access_type__Type : ctype := c_uint.
Definition bpf_access_type : Enumeration := Build_Enumeration false bpf_access_type__Type
  [("BPF_READ", 1); ("BPF_WRITE", 2)].

Definition bpf_arg_type__Type : ctype := c_uint.
Definition bpf_arg_type : Enumeration := Build_Enumeration false bpf_arg_type__Type
  [("ARG_DONTCARE", 0); ("ARG_CONST_MAP_PTR", 1); ("ARG_PTR_TO_MAP_KEY", 2);
  ("ARG_PTR_TO_MAP_VALUE", 3); ("ARG_PTR_TO_MEM", 4); ("ARG_PTR_TO_ARENA", 5);
  ("ARG_CONST_SIZE", 6); ("ARG_CONST_SIZE_OR_ZERO", 7); ("ARG_PTR_TO_CTX", 8); ("ARG_ANYTHING",
  9); ("ARG_PTR_TO_SPIN_LOCK", 10); ("ARG_PTR_TO_SOCK_COMMON", 11); ("ARG_PTR_TO_SOCKET", 12);
  ("ARG_PTR_TO_BTF_ID", 13); ("ARG_PTR_TO_RINGBUF_MEM", 14); ("ARG_CONST_ALLOC_SIZE_OR_ZERO",
  15); ("ARG_PTR_TO_BTF_ID_SOCK_COMMON", 16); ("ARG_PTR_TO_PERCPU_BTF_ID", 17);
  ("ARG_PTR_TO_FUNC", 18); ("ARG_PTR_TO_STACK", 19); ("ARG_PTR_TO_CONST_STR", 20);
  ("ARG_PTR_TO_TIMER", 21); ("ARG_KPTR_XCHG_DEST", 22); ("ARG_PTR_TO_DYNPTR", 23);
  ("__BPF_ARG_TYPE_MAX", 24); ("ARG_PTR_TO_MAP_VALUE_OR_NULL", 259); ("ARG_PTR_TO_MEM_OR_NULL",
  260); ("ARG_PTR_TO_CTX_OR_NULL", 264); ("ARG_PTR_TO_SOCKET_OR_NULL", 268);
  ("ARG_PTR_TO_STACK_OR_NULL", 275); ("ARG_PTR_TO_BTF_ID_OR_NULL", 269);
  ("ARG_PTR_TO_UNINIT_MEM", 67141636); ("ARG_PTR_TO_FIXED_SIZE_MEM", 262148);
  ("__BPF_ARG_TYPE_LIMIT", 536870911)].

Definition bpf_attach_type__Type : ctype := c_uint.
Definition bpf_attach_type : Enumeration := Build_Enumeration false bpf_attach_type__Type
  [("BPF_CGROUP_INET_INGRESS", 0); ("BPF_CGROUP_INET_EGRESS", 1);
  ("BPF_CGROUP_INET_SOCK_CREATE", 2); ("BPF_CGROUP_SOCK_OPS", 3); ("BPF_SK_SKB_STREAM_PARSER",
  4); ("BPF_SK_SKB_STREAM_VERDICT", 5); ("BPF_CGROUP_DEVICE", 6); ("BPF_SK_MSG_VERDICT", 7);
  ("BPF_CGROUP_INET4_BIND", 8); ("BPF_CGROUP_INET6_BIND", 9); ("BPF_CGROUP_INET4_CONNECT", 10);
  ("BPF_CGROUP_INET6_CONNECT", 11); ("BPF_CGROUP_INET4_POST_BIND", 12);
  ("BPF_CGROUP_INET6_POST_BIND", 13); ("BPF_CGROUP_UDP4_SENDMSG", 14);
  ("BPF_CGROUP_UDP6_SENDMSG", 15); ("BPF_LIRC_MODE2", 16); ("BPF_FLOW_DISSECTOR", 17);
  ("BPF_CGROUP_SYSCTL", 18); ("BPF_CGROUP_UDP4_RECVMSG", 19); ("BPF_CGROUP_UDP6_RECVMSG", 20);
  ("BPF_CGROUP_GETSOCKOPT", 21); ("BPF_CGROUP_SETSOCKOPT", 22); ("BPF_TRACE_RAW_TP", 23);
  ("BPF_TRACE_FENTRY", 24); ("BPF_TRACE_FEXIT", 25); ("BPF_MODIFY_RETURN", 26); ("BPF_LSM_MAC",
  27); ("BPF_TRACE_ITER", 28); ("BPF_CGROUP_INET4_GETPEERNAME", 29);
  ("BPF_CGROUP_INET6_GETPEERNAME", 30); ("BPF_CGROUP_INET4_GETSOCKNAME", 31);
  ("BPF_CGROUP_INET6_GETSOCKNAME", 32); ("BPF_XDP_DEVMAP", 33); ("BPF_CGROUP_INET_SOCK_RELEASE",
  34); ("BPF_XDP_CPUMAP", 35); ("BPF_SK_LOOKUP", 36); ("BPF_XDP", 37); ("BPF_SK_SKB_VERDICT",
  38); ("BPF_SK_REUSEPORT_SELECT", 39); ("BPF_SK_REUSEPORT_SELECT_OR_MIGRATE", 40);
  ("BPF_PERF_EVENT", 41); ("BPF_TRACE_KPROBE_MULTI", 42); ("BPF_LSM_CGROUP", 43);
  ("BPF_STRUCT_OPS", 44); ("BPF_NETFILTER", 45); ("BPF_TCX_INGRESS", 46); ("BPF_TCX_EGRESS",
  47); ("BPF_TRACE_UPROBE_MULTI", 48); ("BPF_CGROUP_UNIX_CONNECT", 49);
  ("BPF_CGROUP_UNIX_SENDMSG", 50); ("BPF_CGROUP_UNIX_RECVMSG", 51);
  ("BPF_CGROUP_UNIX_GETPEERNAME", 52); ("BPF_CGROUP_UNIX_GETSOCKNAME", 53);
  ("BPF_NETKIT_PRIMARY", 54); ("BPF_NETKIT_PEER", 55); ("BPF_TRACE_KPROBE_SESSION", 56);
  ("BPF_TRACE_UPROBE_SESSION", 57); ("BPF_TRACE_FSESSION", 58); ("__MAX_BPF_ATTACH_TYPE", 59)].

Definition bpf_cgroup_iter_order__Type : ctype := c_uint.
Definition bpf_cgroup_iter_order : Enumeration := Build_Enumeration false
  bpf_cgroup_iter_order__Type [("BPF_CGROUP_ITER_ORDER_UNSPEC", 0);
  ("BPF_CGROUP_ITER_SELF_ONLY", 1); ("BPF_CGROUP_ITER_DESCENDANTS_PRE", 2);
  ("BPF_CGROUP_ITER_DESCENDANTS_POST", 3); ("BPF_CGROUP_ITER_ANCESTORS_UP", 4);
  ("BPF_CGROUP_ITER_CHILDREN", 5)].

Definition bpf_dynptr_type__Type : ctype := c_uint.
Definition bpf_dynptr_type : Enumeration := Build_Enumeration false bpf_dynptr_type__Type
  [("BPF_DYNPTR_TYPE_INVALID", 0); ("BPF_DYNPTR_TYPE_LOCAL", 1); ("BPF_DYNPTR_TYPE_RINGBUF", 2);
  ("BPF_DYNPTR_TYPE_SKB", 3); ("BPF_DYNPTR_TYPE_XDP", 4); ("BPF_DYNPTR_TYPE_SKB_META", 5);
  ("BPF_DYNPTR_TYPE_FILE", 6)].

Definition bpf_func_id__Type : ctype := c_uint.
Definition bpf_func_id : Enumeration := Build_Enumeration false bpf_func_id__Type
  [("BPF_FUNC_unspec", 0); ("BPF_FUNC_map_lookup_elem", 1); ("BPF_FUNC_map_update_elem", 2);
  ("BPF_FUNC_map_delete_elem", 3); ("BPF_FUNC_probe_read", 4); ("BPF_FUNC_ktime_get_ns", 5);
  ("BPF_FUNC_trace_printk", 6); ("BPF_FUNC_get_prandom_u32", 7);
  ("BPF_FUNC_get_smp_processor_id", 8); ("BPF_FUNC_skb_store_bytes", 9);
  ("BPF_FUNC_l3_csum_replace", 10); ("BPF_FUNC_l4_csum_replace", 11); ("BPF_FUNC_tail_call",
  12); ("BPF_FUNC_clone_redirect", 13); ("BPF_FUNC_get_current_pid_tgid", 14);
  ("BPF_FUNC_get_current_uid_gid", 15); ("BPF_FUNC_get_current_comm", 16);
  ("BPF_FUNC_get_cgroup_classid", 17); ("BPF_FUNC_skb_vlan_push", 18); ("BPF_FUNC_skb_vlan_pop",
  19); ("BPF_FUNC_skb_get_tunnel_key", 20); ("BPF_FUNC_skb_set_tunnel_key", 21);
  ("BPF_FUNC_perf_event_read", 22); ("BPF_FUNC_redirect", 23); ("BPF_FUNC_get_route_realm", 24);
  ("BPF_FUNC_perf_event_output", 25); ("BPF_FUNC_skb_load_bytes", 26); ("BPF_FUNC_get_stackid",
  27); ("BPF_FUNC_csum_diff", 28); ("BPF_FUNC_skb_get_tunnel_opt", 29);
  ("BPF_FUNC_skb_set_tunnel_opt", 30); ("BPF_FUNC_skb_change_proto", 31);
  ("BPF_FUNC_skb_change_type", 32); ("BPF_FUNC_skb_under_cgroup", 33);
  ("BPF_FUNC_get_hash_recalc", 34); ("BPF_FUNC_get_current_task", 35);
  ("BPF_FUNC_probe_write_user", 36); ("BPF_FUNC_current_task_under_cgroup", 37);
  ("BPF_FUNC_skb_change_tail", 38); ("BPF_FUNC_skb_pull_data", 39); ("BPF_FUNC_csum_update",
  40); ("BPF_FUNC_set_hash_invalid", 41); ("BPF_FUNC_get_numa_node_id", 42);
  ("BPF_FUNC_skb_change_head", 43); ("BPF_FUNC_xdp_adjust_head", 44);
  ("BPF_FUNC_probe_read_str", 45); ("BPF_FUNC_get_socket_cookie", 46);
  ("BPF_FUNC_get_socket_uid", 47); ("BPF_FUNC_set_hash", 48); ("BPF_FUNC_setsockopt", 49);
  ("BPF_FUNC_skb_adjust_room", 50); ("BPF_FUNC_redirect_map", 51); ("BPF_FUNC_sk_redirect_map",
  52); ("BPF_FUNC_sock_map_update", 53); ("BPF_FUNC_xdp_adjust_meta", 54);
  ("BPF_FUNC_perf_event_read_value", 55); ("BPF_FUNC_perf_prog_read_value", 56);
  ("BPF_FUNC_getsockopt", 57); ("BPF_FUNC_override_return", 58);
  ("BPF_FUNC_sock_ops_cb_flags_set", 59); ("BPF_FUNC_msg_redirect_map", 60);
  ("BPF_FUNC_msg_apply_bytes", 61); ("BPF_FUNC_msg_cork_bytes", 62); ("BPF_FUNC_msg_pull_data",
  63); ("BPF_FUNC_bind", 64); ("BPF_FUNC_xdp_adjust_tail", 65); ("BPF_FUNC_skb_get_xfrm_state",
  66); ("BPF_FUNC_get_stack", 67); ("BPF_FUNC_skb_load_bytes_relative", 68);
  ("BPF_FUNC_fib_lookup", 69); ("BPF_FUNC_sock_hash_update", 70); ("BPF_FUNC_msg_redirect_hash",
  71); ("BPF_FUNC_sk_redirect_hash", 72); ("BPF_FUNC_lwt_push_encap", 73);
  ("BPF_FUNC_lwt_seg6_store_bytes", 74); ("BPF_FUNC_lwt_seg6_adjust_srh", 75);
  ("BPF_FUNC_lwt_seg6_action", 76); ("BPF_FUNC_rc_repeat", 77); ("BPF_FUNC_rc_keydown", 78);
  ("BPF_FUNC_skb_cgroup_id", 79); ("BPF_FUNC_get_current_cgroup_id", 80);
  ("BPF_FUNC_get_local_storage", 81); ("BPF_FUNC_sk_select_reuseport", 82);
  ("BPF_FUNC_skb_ancestor_cgroup_id", 83); ("BPF_FUNC_sk_lookup_tcp", 84);
  ("BPF_FUNC_sk_lookup_udp", 85); ("BPF_FUNC_sk_release", 86); ("BPF_FUNC_map_push_elem", 87);
  ("BPF_FUNC_map_pop_elem", 88); ("BPF_FUNC_map_peek_elem", 89); ("BPF_FUNC_msg_push_data", 90);
  ("BPF_FUNC_msg_pop_data", 91); ("BPF_FUNC_rc_pointer_rel", 92); ("BPF_FUNC_spin_lock", 93);
  ("BPF_FUNC_spin_unlock", 94); ("BPF_FUNC_sk_fullsock", 95); ("BPF_FUNC_tcp_sock", 96);
  ("BPF_FUNC_skb_ecn_set_ce", 97); ("BPF_FUNC_get_listener_sock", 98);
  ("BPF_FUNC_skc_lookup_tcp", 99); ("BPF_FUNC_tcp_check_syncookie", 100);
  ("BPF_FUNC_sysctl_get_name", 101); ("BPF_FUNC_sysctl_get_current_value", 102);
  ("BPF_FUNC_sysctl_get_new_value", 103); ("BPF_FUNC_sysctl_set_new_value", 104);
  ("BPF_FUNC_strtol", 105); ("BPF_FUNC_strtoul", 106); ("BPF_FUNC_sk_storage_get", 107);
  ("BPF_FUNC_sk_storage_delete", 108); ("BPF_FUNC_send_signal", 109);
  ("BPF_FUNC_tcp_gen_syncookie", 110); ("BPF_FUNC_skb_output", 111);
  ("BPF_FUNC_probe_read_user", 112); ("BPF_FUNC_probe_read_kernel", 113);
  ("BPF_FUNC_probe_read_user_str", 114); ("BPF_FUNC_probe_read_kernel_str", 115);
  ("BPF_FUNC_tcp_send_ack", 116); ("BPF_FUNC_send_signal_thread", 117); ("BPF_FUNC_jiffies64",
  118); ("BPF_FUNC_read_branch_records", 119); ("BPF_FUNC_get_ns_current_pid_tgid", 120);
  ("BPF_FUNC_xdp_output", 121); ("BPF_FUNC_get_netns_cookie", 122);
  ("BPF_FUNC_get_current_ancestor_cgroup_id", 123); ("BPF_FUNC_sk_assign", 124);
  ("BPF_FUNC_ktime_get_boot_ns", 125); ("BPF_FUNC_seq_printf", 126); ("BPF_FUNC_seq_write",
  127); ("BPF_FUNC_sk_cgroup_id", 128); ("BPF_FUNC_sk_ancestor_cgroup_id", 129);
  ("BPF_FUNC_ringbuf_output", 130); ("BPF_FUNC_ringbuf_reserve", 131);
  ("BPF_FUNC_ringbuf_submit", 132); ("BPF_FUNC_ringbuf_discard", 133);
  ("BPF_FUNC_ringbuf_query", 134); ("BPF_FUNC_csum_level", 135); ("BPF_FUNC_skc_to_tcp6_sock",
  136); ("BPF_FUNC_skc_to_tcp_sock", 137); ("BPF_FUNC_skc_to_tcp_timewait_sock", 138);
  ("BPF_FUNC_skc_to_tcp_request_sock", 139); ("BPF_FUNC_skc_to_udp6_sock", 140);
  ("BPF_FUNC_get_task_stack", 141); ("BPF_FUNC_load_hdr_opt", 142); ("BPF_FUNC_store_hdr_opt",
  143); ("BPF_FUNC_reserve_hdr_opt", 144); ("BPF_FUNC_inode_storage_get", 145);
  ("BPF_FUNC_inode_storage_delete", 146); ("BPF_FUNC_d_path", 147); ("BPF_FUNC_copy_from_user",
  148); ("BPF_FUNC_snprintf_btf", 149); ("BPF_FUNC_seq_printf_btf", 150);
  ("BPF_FUNC_skb_cgroup_classid", 151); ("BPF_FUNC_redirect_neigh", 152);
  ("BPF_FUNC_per_cpu_ptr", 153); ("BPF_FUNC_this_cpu_ptr", 154); ("BPF_FUNC_redirect_peer",
  155); ("BPF_FUNC_task_storage_get", 156); ("BPF_FUNC_task_storage_delete", 157);
  ("BPF_FUNC_get_current_task_btf", 158); ("BPF_FUNC_bprm_opts_set", 159);
  ("BPF_FUNC_ktime_get_coarse_ns", 160); ("BPF_FUNC_ima_inode_hash", 161);
  ("BPF_FUNC_sock_from_file", 162); ("BPF_FUNC_check_mtu", 163); ("BPF_FUNC_for_each_map_elem",
  164); ("BPF_FUNC_snprintf", 165); ("BPF_FUNC_sys_bpf", 166);
  ("BPF_FUNC_btf_find_by_name_kind", 167); ("BPF_FUNC_sys_close", 168); ("BPF_FUNC_timer_init",
  169); ("BPF_FUNC_timer_set_callback", 170); ("BPF_FUNC_timer_start", 171);
  ("BPF_FUNC_timer_cancel", 172); ("BPF_FUNC_get_func_ip", 173); ("BPF_FUNC_get_attach_cookie",
  174); ("BPF_FUNC_task_pt_regs", 175); ("BPF_FUNC_get_branch_snapshot", 176);
  ("BPF_FUNC_trace_vprintk", 177); ("BPF_FUNC_skc_to_unix_sock", 178);
  ("BPF_FUNC_kallsyms_lookup_name", 179); ("BPF_FUNC_find_vma", 180); ("BPF_FUNC_loop", 181);
  ("BPF_FUNC_strncmp", 182); ("BPF_FUNC_get_func_arg", 183); ("BPF_FUNC_get_func_ret", 184);
  ("BPF_FUNC_get_func_arg_cnt", 185); ("BPF_FUNC_get_retval", 186); ("BPF_FUNC_set_retval",
  187); ("BPF_FUNC_xdp_get_buff_len", 188); ("BPF_FUNC_xdp_load_bytes", 189);
  ("BPF_FUNC_xdp_store_bytes", 190); ("BPF_FUNC_copy_from_user_task", 191);
  ("BPF_FUNC_skb_set_tstamp", 192); ("BPF_FUNC_ima_file_hash", 193); ("BPF_FUNC_kptr_xchg",
  194); ("BPF_FUNC_map_lookup_percpu_elem", 195); ("BPF_FUNC_skc_to_mptcp_sock", 196);
  ("BPF_FUNC_dynptr_from_mem", 197); ("BPF_FUNC_ringbuf_reserve_dynptr", 198);
  ("BPF_FUNC_ringbuf_submit_dynptr", 199); ("BPF_FUNC_ringbuf_discard_dynptr", 200);
  ("BPF_FUNC_dynptr_read", 201); ("BPF_FUNC_dynptr_write", 202); ("BPF_FUNC_dynptr_data", 203);
  ("BPF_FUNC_tcp_raw_gen_syncookie_ipv4", 204); ("BPF_FUNC_tcp_raw_gen_syncookie_ipv6", 205);
  ("BPF_FUNC_tcp_raw_check_syncookie_ipv4", 206); ("BPF_FUNC_tcp_raw_check_syncookie_ipv6",
  207); ("BPF_FUNC_ktime_get_tai_ns", 208); ("BPF_FUNC_user_ringbuf_drain", 209);
  ("BPF_FUNC_cgrp_storage_get", 210); ("BPF_FUNC_cgrp_storage_delete", 211);
  ("__BPF_FUNC_MAX_ID", 212)].

Definition bpf_iter_state__Type : ctype := c_uint.
Definition bpf_iter_state : Enumeration := Build_Enumeration false bpf_iter_state__Type
  [("BPF_ITER_STATE_INVALID", 0); ("BPF_ITER_STATE_ACTIVE", 1); ("BPF_ITER_STATE_DRAINED", 2)].

Definition bpf_iter_task_type__Type : ctype := c_uint.
Definition bpf_iter_task_type : Enumeration := Build_Enumeration false bpf_iter_task_type__Type
  [("BPF_TASK_ITER_ALL", 0); ("BPF_TASK_ITER_TID", 1); ("BPF_TASK_ITER_TGID", 2)].

Definition bpf_link_type__Type : ctype := c_uint.
Definition bpf_link_type : Enumeration := Build_Enumeration false bpf_link_type__Type
  [("BPF_LINK_TYPE_UNSPEC", 0); ("BPF_LINK_TYPE_RAW_TRACEPOINT", 1); ("BPF_LINK_TYPE_TRACING",
  2); ("BPF_LINK_TYPE_CGROUP", 3); ("BPF_LINK_TYPE_ITER", 4); ("BPF_LINK_TYPE_NETNS", 5);
  ("BPF_LINK_TYPE_XDP", 6); ("BPF_LINK_TYPE_PERF_EVENT", 7); ("BPF_LINK_TYPE_KPROBE_MULTI", 8);
  ("BPF_LINK_TYPE_STRUCT_OPS", 9); ("BPF_LINK_TYPE_NETFILTER", 10); ("BPF_LINK_TYPE_TCX", 11);
  ("BPF_LINK_TYPE_UPROBE_MULTI", 12); ("BPF_LINK_TYPE_NETKIT", 13); ("BPF_LINK_TYPE_SOCKMAP",
  14); ("__MAX_BPF_LINK_TYPE", 15)].

Definition bpf_map_type__Type : ctype := c_uint.
Definition bpf_map_type : Enumeration := Build_Enumeration false bpf_map_type__Type
  [("BPF_MAP_TYPE_UNSPEC", 0); ("BPF_MAP_TYPE_HASH", 1); ("BPF_MAP_TYPE_ARRAY", 2);
  ("BPF_MAP_TYPE_PROG_ARRAY", 3); ("BPF_MAP_TYPE_PERF_EVENT_ARRAY", 4);
  ("BPF_MAP_TYPE_PERCPU_HASH", 5); ("BPF_MAP_TYPE_PERCPU_ARRAY", 6);
  ("BPF_MAP_TYPE_STACK_TRACE", 7); ("BPF_MAP_TYPE_CGROUP_ARRAY", 8); ("BPF_MAP_TYPE_LRU_HASH",
  9); ("BPF_MAP_TYPE_LRU_PERCPU_HASH", 10); ("BPF_MAP_TYPE_LPM_TRIE", 11);
  ("BPF_MAP_TYPE_ARRAY_OF_MAPS", 12); ("BPF_MAP_TYPE_HASH_OF_MAPS", 13); ("BPF_MAP_TYPE_DEVMAP",
  14); ("BPF_MAP_TYPE_SOCKMAP", 15); ("BPF_MAP_TYPE_CPUMAP", 16); ("BPF_MAP_TYPE_XSKMAP", 17);
  ("BPF_MAP_TYPE_SOCKHASH", 18); ("BPF_MAP_TYPE_CGROUP_STORAGE_DEPRECATED", 19);
  ("BPF_MAP_TYPE_CGROUP_STORAGE", 19); ("BPF_MAP_TYPE_REUSEPORT_SOCKARRAY", 20);
  ("BPF_MAP_TYPE_PERCPU_CGROUP_STORAGE_DEPRECATED", 21); ("BPF_MAP_TYPE_PERCPU_CGROUP_STORAGE",
  21); ("BPF_MAP_TYPE_QUEUE", 22); ("BPF_MAP_TYPE_STACK", 23); ("BPF_MAP_TYPE_SK_STORAGE", 24);
  ("BPF_MAP_TYPE_DEVMAP_HASH", 25); ("BPF_MAP_TYPE_STRUCT_OPS", 26); ("BPF_MAP_TYPE_RINGBUF",
  27); ("BPF_MAP_TYPE_INODE_STORAGE", 28); ("BPF_MAP_TYPE_TASK_STORAGE", 29);
  ("BPF_MAP_TYPE_BLOOM_FILTER", 30); ("BPF_MAP_TYPE_USER_RINGBUF", 31);
  ("BPF_MAP_TYPE_CGRP_STORAGE", 32); ("BPF_MAP_TYPE_ARENA", 33); ("BPF_MAP_TYPE_INSN_ARRAY",
  34); ("__MAX_BPF_MAP_TYPE", 35)].

Definition bpf_netdev_command__Type : ctype := c_uint.
Definition bpf_netdev_command : Enumeration := Build_Enumeration false bpf_netdev_command__Type
  [("XDP_SETUP_PROG", 0); ("XDP_SETUP_PROG_HW", 1); ("BPF_OFFLOAD_MAP_ALLOC", 2);
  ("BPF_OFFLOAD_MAP_FREE", 3); ("XDP_SETUP_XSK_POOL", 4)].

Definition bpf_prog_type__Type : ctype := c_uint.
Definition bpf_prog_type : Enumeration := Build_Enumeration false bpf_prog_type__Type
  [("BPF_PROG_TYPE_UNSPEC", 0); ("BPF_PROG_TYPE_SOCKET_FILTER", 1); ("BPF_PROG_TYPE_KPROBE", 2);
  ("BPF_PROG_TYPE_SCHED_CLS", 3); ("BPF_PROG_TYPE_SCHED_ACT", 4); ("BPF_PROG_TYPE_TRACEPOINT",
  5); ("BPF_PROG_TYPE_XDP", 6); ("BPF_PROG_TYPE_PERF_EVENT", 7); ("BPF_PROG_TYPE_CGROUP_SKB",
  8); ("BPF_PROG_TYPE_CGROUP_SOCK", 9); ("BPF_PROG_TYPE_LWT_IN", 10); ("BPF_PROG_TYPE_LWT_OUT",
  11); ("BPF_PROG_TYPE_LWT_XMIT", 12); ("BPF_PROG_TYPE_SOCK_OPS", 13); ("BPF_PROG_TYPE_SK_SKB",
  14); ("BPF_PROG_TYPE_CGROUP_DEVICE", 15); ("BPF_PROG_TYPE_SK_MSG", 16);
  ("BPF_PROG_TYPE_RAW_TRACEPOINT", 17); ("BPF_PROG_TYPE_CGROUP_SOCK_ADDR", 18);
  ("BPF_PROG_TYPE_LWT_SEG6LOCAL", 19); ("BPF_PROG_TYPE_LIRC_MODE2", 20);
  ("BPF_PROG_TYPE_SK_REUSEPORT", 21); ("BPF_PROG_TYPE_FLOW_DISSECTOR", 22);
  ("BPF_PROG_TYPE_CGROUP_SYSCTL", 23); ("BPF_PROG_TYPE_RAW_TRACEPOINT_WRITABLE", 24);
  ("BPF_PROG_TYPE_CGROUP_SOCKOPT", 25); ("BPF_PROG_TYPE_TRACING", 26);
  ("BPF_PROG_TYPE_STRUCT_OPS", 27); ("BPF_PROG_TYPE_EXT", 28); ("BPF_PROG_TYPE_LSM", 29);
  ("BPF_PROG_TYPE_SK_LOOKUP", 30); ("BPF_PROG_TYPE_SYSCALL", 31); ("BPF_PROG_TYPE_NETFILTER",
  32); ("__MAX_BPF_PROG_TYPE", 33)].

Definition bpf_reg_type__Type : ctype := c_uint.
Definition bpf_reg_type : Enumeration := Build_Enumeration false bpf_reg_type__Type
  [("NOT_INIT", 0); ("SCALAR_VALUE", 1); ("PTR_TO_CTX", 2); ("CONST_PTR_TO_MAP", 3);
  ("PTR_TO_MAP_VALUE", 4); ("PTR_TO_MAP_KEY", 5); ("PTR_TO_STACK", 6); ("PTR_TO_PACKET_META",
  7); ("PTR_TO_PACKET", 8); ("PTR_TO_PACKET_END", 9); ("PTR_TO_FLOW_KEYS", 10);
  ("PTR_TO_SOCKET", 11); ("PTR_TO_SOCK_COMMON", 12); ("PTR_TO_TCP_SOCK", 13);
  ("PTR_TO_TP_BUFFER", 14); ("PTR_TO_XDP_SOCK", 15); ("PTR_TO_BTF_ID", 16); ("PTR_TO_MEM", 17);
  ("PTR_TO_ARENA", 18); ("PTR_TO_BUF", 19); ("PTR_TO_FUNC", 20); ("PTR_TO_INSN", 21);
  ("CONST_PTR_TO_DYNPTR", 22); ("__BPF_REG_TYPE_MAX", 23); ("PTR_TO_MAP_VALUE_OR_NULL", 260);
  ("PTR_TO_SOCKET_OR_NULL", 267); ("PTR_TO_SOCK_COMMON_OR_NULL", 268);
  ("PTR_TO_TCP_SOCK_OR_NULL", 269); ("PTR_TO_BTF_ID_OR_NULL", 272); ("__BPF_REG_TYPE_LIMIT",
  536870911)].

Definition bpf_return_type__Type : ctype := c_uint.
Definition bpf_return_type : Enumeration := Build_Enumeration false bpf_return_type__Type
  [("RET_INTEGER", 0); ("RET_VOID", 1); ("RET_PTR_TO_MAP_VALUE", 2); ("RET_PTR_TO_SOCKET", 3);
  ("RET_PTR_TO_TCP_SOCK", 4); ("RET_PTR_TO_SOCK_COMMON", 5); ("RET_PTR_TO_MEM", 6);
  ("RET_PTR_TO_MEM_OR_BTF_ID", 7); ("RET_PTR_TO_BTF_ID", 8); ("__BPF_RET_TYPE_MAX", 9);
  ("RET_PTR_TO_MAP_VALUE_OR_NULL", 258); ("RET_PTR_TO_SOCKET_OR_NULL", 259);
  ("RET_PTR_TO_TCP_SOCK_OR_NULL", 260); ("RET_PTR_TO_SOCK_COMMON_OR_NULL", 261);
  ("RET_PTR_TO_RINGBUF_MEM_OR_NULL", 1286); ("RET_PTR_TO_DYNPTR_MEM_OR_NULL", 262);
  ("RET_PTR_TO_BTF_ID_OR_NULL", 264); ("RET_PTR_TO_BTF_ID_TRUSTED", 1048584);
  ("__BPF_RET_TYPE_LIMIT", 536870911)].

Definition btf_field_type__Type : ctype := c_uint.
Definition btf_field_type : Enumeration := Build_Enumeration false btf_field_type__Type
  [("BPF_SPIN_LOCK", 1); ("BPF_TIMER", 2); ("BPF_KPTR_UNREF", 4); ("BPF_KPTR_REF", 8);
  ("BPF_KPTR_PERCPU", 16); ("BPF_KPTR", 28); ("BPF_LIST_HEAD", 32); ("BPF_LIST_NODE", 64);
  ("BPF_RB_ROOT", 128); ("BPF_RB_NODE", 256); ("BPF_GRAPH_NODE", 320); ("BPF_GRAPH_ROOT", 160);
  ("BPF_REFCOUNT", 512); ("BPF_WORKQUEUE", 1024); ("BPF_UPTR", 2048); ("BPF_RES_SPIN_LOCK",
  4096); ("BPF_TASK_WORK", 8192)].

Definition cfg80211_signal_type__Type : ctype := c_uint.
Definition cfg80211_signal_type : Enumeration := Build_Enumeration false
  cfg80211_signal_type__Type [("CFG80211_SIGNAL_TYPE_NONE", 0); ("CFG80211_SIGNAL_TYPE_MBM", 1);
  ("CFG80211_SIGNAL_TYPE_UNSPEC", 2)].

Definition class_map_type__Type : ctype := c_uint.
Definition class_map_type : Enumeration := Build_Enumeration false class_map_type__Type
  [("DD_CLASS_TYPE_DISJOINT_BITS", 0); ("DD_CLASS_TYPE_LEVEL_NUM", 1);
  ("DD_CLASS_TYPE_DISJOINT_NAMES", 2); ("DD_CLASS_TYPE_LEVEL_NAMES", 3)].

Definition d_real_type__Type : ctype := c_uint.
Definition d_real_type : Enumeration := Build_Enumeration false d_real_type__Type
  [("D_REAL_DATA", 0); ("D_REAL_METADATA", 1)].

Definition dax_access_mode__Type : ctype := c_uint.
Definition dax_access_mode : Enumeration := Build_Enumeration false dax_access_mode__Type
  [("DAX_ACCESS", 0); ("DAX_RECOVERY_WRITE", 1)].

Definition dev_dma_attr__Type : ctype := c_uint.
Definition dev_dma_attr : Enumeration := Build_Enumeration false dev_dma_attr__Type
  [("DEV_DMA_NOT_SUPPORTED", 0); ("DEV_DMA_NON_COHERENT", 1); ("DEV_DMA_COHERENT", 2)].

Definition dev_pm_qos_req_type__Type : ctype := c_uint.
Definition dev_pm_qos_req_type : Enumeration := Build_Enumeration false
  dev_pm_qos_req_type__Type [("DEV_PM_QOS_RESUME_LATENCY", 1); ("DEV_PM_QOS_LATENCY_TOLERANCE",
  2); ("DEV_PM_QOS_MIN_FREQUENCY", 3); ("DEV_PM_QOS_MAX_FREQUENCY", 4); ("DEV_PM_QOS_FLAGS",
  5)].

Definition device_link_state__Type : ctype := c_int.
Definition device_link_state : Enumeration := Build_Enumeration true device_link_state__Type
  [("DL_STATE_NONE", (-1)); ("DL_STATE_DORMANT", 0); ("DL_STATE_AVAILABLE", 1);
  ("DL_STATE_CONSUMER_PROBE", 2); ("DL_STATE_ACTIVE", 3); ("DL_STATE_SUPPLIER_UNBIND", 4)].

Definition device_physical_location_horizontal_position__Type : ctype := c_uint.
Definition device_physical_location_horizontal_position : Enumeration := Build_Enumeration false
  device_physical_location_horizontal_position__Type [("DEVICE_HORI_POS_LEFT", 0);
  ("DEVICE_HORI_POS_CENTER", 1); ("DEVICE_HORI_POS_RIGHT", 2)].

Definition device_physical_location_panel__Type : ctype := c_uint.
Definition device_physical_location_panel : Enumeration := Build_Enumeration false
  device_physical_location_panel__Type [("DEVICE_PANEL_TOP", 0); ("DEVICE_PANEL_BOTTOM", 1);
  ("DEVICE_PANEL_LEFT", 2); ("DEVICE_PANEL_RIGHT", 3); ("DEVICE_PANEL_FRONT", 4);
  ("DEVICE_PANEL_BACK", 5); ("DEVICE_PANEL_UNKNOWN", 6)].

Definition device_physical_location_vertical_position__Type : ctype := c_uint.
Definition device_physical_location_vertical_position : Enumeration := Build_Enumeration false
  device_physical_location_vertical_position__Type [("DEVICE_VERT_POS_UPPER", 0);
  ("DEVICE_VERT_POS_CENTER", 1); ("DEVICE_VERT_POS_LOWER", 2)].

Definition device_removable__Type : ctype := c_uint.
Definition device_removable : Enumeration := Build_Enumeration false device_removable__Type
  [("DEVICE_REMOVABLE_NOT_SUPPORTED", 0); ("DEVICE_REMOVABLE_UNKNOWN", 1); ("DEVICE_FIXED", 2);
  ("DEVICE_REMOVABLE", 3)].

Definition devlink_dpipe_field_mapping_type__Type : ctype := c_uint.
Definition devlink_dpipe_field_mapping_type : Enumeration := Build_Enumeration false
  devlink_dpipe_field_mapping_type__Type [("DEVLINK_DPIPE_FIELD_MAPPING_TYPE_NONE", 0);
  ("DEVLINK_DPIPE_FIELD_MAPPING_TYPE_IFINDEX", 1)].

Definition devlink_eswitch_encap_mode__Type : ctype := c_uint.
Definition devlink_eswitch_encap_mode : Enumeration := Build_Enumeration false
  devlink_eswitch_encap_mode__Type [("DEVLINK_ESWITCH_ENCAP_MODE_NONE", 0);
  ("DEVLINK_ESWITCH_ENCAP_MODE_BASIC", 1)].

Definition devlink_info_version_type__Type : ctype := c_uint.
Definition devlink_info_version_type : Enumeration := Build_Enumeration false
  devlink_info_version_type__Type [("DEVLINK_INFO_VERSION_TYPE_NONE", 0);
  ("DEVLINK_INFO_VERSION_TYPE_COMPONENT", 1)].

Definition devlink_linecard_state__Type : ctype := c_uint.
Definition devlink_linecard_state : Enumeration := Build_Enumeration false
  devlink_linecard_state__Type [("DEVLINK_LINECARD_STATE_UNSPEC", 0);
  ("DEVLINK_LINECARD_STATE_UNPROVISIONED", 1); ("DEVLINK_LINECARD_STATE_UNPROVISIONING", 2);
  ("DEVLINK_LINECARD_STATE_PROVISIONING", 3); ("DEVLINK_LINECARD_STATE_PROVISIONING_FAILED", 4);
  ("DEVLINK_LINECARD_STATE_PROVISIONED", 5); ("DEVLINK_LINECARD_STATE_ACTIVE", 6);
  ("__DEVLINK_LINECARD_STATE_MAX", 7); ("DEVLINK_LINECARD_STATE_MAX", 6)].

Definition devlink_param_cmode__Type : ctype := c_uint.
Definition devlink_param_cmode : Enumeration := Build_Enumeration false
  devlink_param_cmode__Type [("DEVLINK_PARAM_CMODE_RUNTIME", 0);
  ("DEVLINK_PARAM_CMODE_DRIVERINIT", 1); ("DEVLINK_PARAM_CMODE_PERMANENT", 2);
  ("__DEVLINK_PARAM_CMODE_MAX", 3); ("DEVLINK_PARAM_CMODE_MAX", 2)].

Definition devlink_port_flavour__Type : ctype := c_uint.
Definition devlink_port_flavour : Enumeration := Build_Enumeration false
  devlink_port_flavour__Type [("DEVLINK_PORT_FLAVOUR_PHYSICAL", 0); ("DEVLINK_PORT_FLAVOUR_CPU",
  1); ("DEVLINK_PORT_FLAVOUR_DSA", 2); ("DEVLINK_PORT_FLAVOUR_PCI_PF", 3);
  ("DEVLINK_PORT_FLAVOUR_PCI_VF", 4); ("DEVLINK_PORT_FLAVOUR_VIRTUAL", 5);
  ("DEVLINK_PORT_FLAVOUR_UNUSED", 6); ("DEVLINK_PORT_FLAVOUR_PCI_SF", 7)].

Definition devlink_port_fn_opstate__Type : ctype := c_uint.
Definition devlink_port_fn_opstate : Enumeration := Build_Enumeration false
  devlink_port_fn_opstate__Type [("DEVLINK_PORT_FN_OPSTATE_DETACHED", 0);
  ("DEVLINK_PORT_FN_OPSTATE_ATTACHED", 1)].

Definition devlink_port_fn_state__Type : ctype := c_uint.
Definition devlink_port_fn_state : Enumeration := Build_Enumeration false
  devlink_port_fn_state__Type [("DEVLINK_PORT_FN_STATE_INACTIVE", 0);
  ("DEVLINK_PORT_FN_STATE_ACTIVE", 1)].

Definition devlink_port_type__Type : ctype := c_uint.
Definition devlink_port_type : Enumeration := Build_Enumeration false devlink_port_type__Type
  [("DEVLINK_PORT_TYPE_NOTSET", 0); ("DEVLINK_PORT_TYPE_AUTO", 1); ("DEVLINK_PORT_TYPE_ETH", 2);
  ("DEVLINK_PORT_TYPE_IB", 3)].

Definition devlink_rate_type__Type : ctype := c_uint.
Definition devlink_rate_type : Enumeration := Build_Enumeration false devlink_rate_type__Type
  [("DEVLINK_RATE_TYPE_LEAF", 0); ("DEVLINK_RATE_TYPE_NODE", 1)].

Definition devlink_reload_action__Type : ctype := c_uint.
Definition devlink_reload_action : Enumeration := Build_Enumeration false
  devlink_reload_action__Type [("DEVLINK_RELOAD_ACTION_UNSPEC", 0);
  ("DEVLINK_RELOAD_ACTION_DRIVER_REINIT", 1); ("DEVLINK_RELOAD_ACTION_FW_ACTIVATE", 2);
  ("__DEVLINK_RELOAD_ACTION_MAX", 3); ("DEVLINK_RELOAD_ACTION_MAX", 2)].

Definition devlink_reload_limit__Type : ctype := c_uint.
Definition devlink_reload_limit : Enumeration := Build_Enumeration false
  devlink_reload_limit__Type [("DEVLINK_RELOAD_LIMIT_UNSPEC", 0);
  ("DEVLINK_RELOAD_LIMIT_NO_RESET", 1); ("__DEVLINK_RELOAD_LIMIT_MAX", 2);
  ("DEVLINK_RELOAD_LIMIT_MAX", 1)].

Definition devlink_sb_pool_type__Type : ctype := c_uint.
Definition devlink_sb_pool_type : Enumeration := Build_Enumeration false
  devlink_sb_pool_type__Type [("DEVLINK_SB_POOL_TYPE_INGRESS", 0);
  ("DEVLINK_SB_POOL_TYPE_EGRESS", 1)].

Definition devlink_sb_threshold_type__Type : ctype := c_uint.
Definition devlink_sb_threshold_type : Enumeration := Build_Enumeration false
  devlink_sb_threshold_type__Type [("DEVLINK_SB_THRESHOLD_TYPE_STATIC", 0);
  ("DEVLINK_SB_THRESHOLD_TYPE_DYNAMIC", 1)].

Definition devlink_selftest_status__Type : ctype := c_uint.
Definition devlink_selftest_status : Enumeration := Build_Enumeration false
  devlink_selftest_status__Type [("DEVLINK_SELFTEST_STATUS_SKIP", 0);
  ("DEVLINK_SELFTEST_STATUS_PASS", 1); ("DEVLINK_SELFTEST_STATUS_FAIL", 2)].

Definition devlink_trap_action__Type : ctype := c_uint.
Definition devlink_trap_action : Enumeration := Build_Enumeration false
  devlink_trap_action__Type [("DEVLINK_TRAP_ACTION_DROP", 0); ("DEVLINK_TRAP_ACTION_TRAP", 1);
  ("DEVLINK_TRAP_ACTION_MIRROR", 2)].

Definition devlink_trap_type__Type : ctype := c_uint.
Definition devlink_trap_type : Enumeration := Build_Enumeration false devlink_trap_type__Type
  [("DEVLINK_TRAP_TYPE_DROP", 0); ("DEVLINK_TRAP_TYPE_EXCEPTION", 1);
  ("DEVLINK_TRAP_TYPE_CONTROL", 2)].

Definition dl_dev_state__Type : ctype := c_uint.
Definition dl_dev_state : Enumeration := Build_Enumeration false dl_dev_state__Type
  [("DL_DEV_NO_DRIVER", 0); ("DL_DEV_PROBING", 1); ("DL_DEV_DRIVER_BOUND", 2);
  ("DL_DEV_UNBINDING", 3)].

Definition dma_data_direction__Type : ctype := c_uint.
Definition dma_data_direction : Enumeration := Build_Enumeration false dma_data_direction__Type
  [("DMA_BIDIRECTIONAL", 0); ("DMA_TO_DEVICE", 1); ("DMA_FROM_DEVICE", 2); ("DMA_NONE", 3)].

Definition dpll_pin_type__Type : ctype := c_uint.
Definition dpll_pin_type : Enumeration := Build_Enumeration false dpll_pin_type__Type
  [("DPLL_PIN_TYPE_MUX", 1); ("DPLL_PIN_TYPE_EXT", 2); ("DPLL_PIN_TYPE_SYNCE_ETH_PORT", 3);
  ("DPLL_PIN_TYPE_INT_OSCILLATOR", 4); ("DPLL_PIN_TYPE_GNSS", 5); ("__DPLL_PIN_TYPE_MAX", 6);
  ("DPLL_PIN_TYPE_MAX", 5)].

Definition dsa_db_type__Type : ctype := c_uint.
Definition dsa_db_type : Enumeration := Build_Enumeration false dsa_db_type__Type
  [("DSA_DB_PORT", 0); ("DSA_DB_LAG", 1); ("DSA_DB_BRIDGE", 2)].

Definition dsa_tag_protocol__Type : ctype := c_uint.
Definition dsa_tag_protocol : Enumeration := Build_Enumeration false dsa_tag_protocol__Type
  [("DSA_TAG_PROTO_NONE", 0); ("DSA_TAG_PROTO_BRCM", 1); ("DSA_TAG_PROTO_BRCM_LEGACY", 22);
  ("DSA_TAG_PROTO_BRCM_LEGACY_FCS", 29); ("DSA_TAG_PROTO_BRCM_PREPEND", 2);
  ("DSA_TAG_PROTO_DSA", 3); ("DSA_TAG_PROTO_EDSA", 4); ("DSA_TAG_PROTO_GSWIP", 5);
  ("DSA_TAG_PROTO_KSZ9477", 6); ("DSA_TAG_PROTO_KSZ9893", 7); ("DSA_TAG_PROTO_LAN9303", 8);
  ("DSA_TAG_PROTO_MTK", 9); ("DSA_TAG_PROTO_QCA", 10); ("DSA_TAG_PROTO_TRAILER", 11);
  ("DSA_TAG_PROTO_8021Q", 12); ("DSA_TAG_PROTO_SJA1105", 13); ("DSA_TAG_PROTO_KSZ8795", 14);
  ("DSA_TAG_PROTO_OCELOT", 15); ("DSA_TAG_PROTO_AR9331", 16); ("DSA_TAG_PROTO_RTL4_A", 17);
  ("DSA_TAG_PROTO_HELLCREEK", 18); ("DSA_TAG_PROTO_XRS700X", 19); ("DSA_TAG_PROTO_OCELOT_8021Q",
  20); ("DSA_TAG_PROTO_SEVILLE", 21); ("DSA_TAG_PROTO_SJA1110", 23); ("DSA_TAG_PROTO_RTL8_4",
  24); ("DSA_TAG_PROTO_RTL8_4T", 25); ("DSA_TAG_PROTO_RZN1_A5PSW", 26);
  ("DSA_TAG_PROTO_LAN937X", 27); ("DSA_TAG_PROTO_VSC73XX_8021Q", 28); ("DSA_TAG_PROTO_YT921X",
  30); ("DSA_TAG_PROTO_MXL_GSW1XX", 31); ("DSA_TAG_PROTO_MXL862", 32)].

Definition elv_merge__Type : ctype := c_uint.
Definition elv_merge : Enumeration := Build_Enumeration false elv_merge__Type
  [("ELEVATOR_NO_MERGE", 0); ("ELEVATOR_FRONT_MERGE", 1); ("ELEVATOR_BACK_MERGE", 2);
  ("ELEVATOR_DISCARD_MERGE", 3)].

Definition environment_cap__Type : ctype := c_uint.
Definition environment_cap : Enumeration := Build_Enumeration false environment_cap__Type
  [("ENVIRON_ANY", 0); ("ENVIRON_INDOOR", 1); ("ENVIRON_OUTDOOR", 2)].

Definition ethtool_c33_pse_admin_state__Type : ctype := c_uint.
Definition ethtool_c33_pse_admin_state : Enumeration := Build_Enumeration false
  ethtool_c33_pse_admin_state__Type [("ETHTOOL_C33_PSE_ADMIN_STATE_UNKNOWN", 1);
  ("ETHTOOL_C33_PSE_ADMIN_STATE_DISABLED", 2); ("ETHTOOL_C33_PSE_ADMIN_STATE_ENABLED", 3)].

Definition ethtool_c33_pse_ext_state__Type : ctype := c_uint.
Definition ethtool_c33_pse_ext_state : Enumeration := Build_Enumeration false
  ethtool_c33_pse_ext_state__Type [("ETHTOOL_C33_PSE_EXT_STATE_ERROR_CONDITION", 1);
  ("ETHTOOL_C33_PSE_EXT_STATE_MR_MPS_VALID", 2); ("ETHTOOL_C33_PSE_EXT_STATE_MR_PSE_ENABLE", 3);
  ("ETHTOOL_C33_PSE_EXT_STATE_OPTION_DETECT_TED", 4);
  ("ETHTOOL_C33_PSE_EXT_STATE_OPTION_VPORT_LIM", 5); ("ETHTOOL_C33_PSE_EXT_STATE_OVLD_DETECTED",
  6); ("ETHTOOL_C33_PSE_EXT_STATE_PD_DLL_POWER_TYPE", 7);
  ("ETHTOOL_C33_PSE_EXT_STATE_POWER_NOT_AVAILABLE", 8);
  ("ETHTOOL_C33_PSE_EXT_STATE_SHORT_DETECTED", 9)].

Definition ethtool_c33_pse_ext_substate_error_condition__Type : ctype := c_uint.
Definition ethtool_c33_pse_ext_substate_error_condition : Enumeration := Build_Enumeration false
  ethtool_c33_pse_ext_substate_error_condition__Type
  [("ETHTOOL_C33_PSE_EXT_SUBSTATE_ERROR_CONDITION_NON_EXISTING_PORT", 1);
  ("ETHTOOL_C33_PSE_EXT_SUBSTATE_ERROR_CONDITION_UNDEFINED_PORT", 2);
  ("ETHTOOL_C33_PSE_EXT_SUBSTATE_ERROR_CONDITION_INTERNAL_HW_FAULT", 3);
  ("ETHTOOL_C33_PSE_EXT_SUBSTATE_ERROR_CONDITION_COMM_ERROR_AFTER_FORCE_ON", 4);
  ("ETHTOOL_C33_PSE_EXT_SUBSTATE_ERROR_CONDITION_UNKNOWN_PORT_STATUS", 5);
  ("ETHTOOL_C33_PSE_EXT_SUBSTATE_ERROR_CONDITION_HOST_CRASH_TURN_OFF", 6);
  ("ETHTOOL_C33_PSE_EXT_SUBSTATE_ERROR_CONDITION_HOST_CRASH_FORCE_SHUTDOWN", 7);
  ("ETHTOOL_C33_PSE_EXT_SUBSTATE_ERROR_CONDITION_CONFIG_CHANGE", 8);
  ("ETHTOOL_C33_PSE_EXT_SUBSTATE_ERROR_CONDITION_DETECTED_OVER_TEMP", 9)].

Definition ethtool_c33_pse_ext_substate_mr_pse_enable__Type : ctype := c_uint.
Definition ethtool_c33_pse_ext_substate_mr_pse_enable : Enumeration := Build_Enumeration false
  ethtool_c33_pse_ext_substate_mr_pse_enable__Type
  [("ETHTOOL_C33_PSE_EXT_SUBSTATE_MR_PSE_ENABLE_DISABLE_PIN_ACTIVE", 1)].

Definition ethtool_c33_pse_ext_substate_option_detect_ted__Type : ctype := c_uint.
Definition ethtool_c33_pse_ext_substate_option_detect_ted : Enumeration := Build_Enumeration
  false ethtool_c33_pse_ext_substate_option_detect_ted__Type
  [("ETHTOOL_C33_PSE_EXT_SUBSTATE_OPTION_DETECT_TED_DET_IN_PROCESS", 1);
  ("ETHTOOL_C33_PSE_EXT_SUBSTATE_OPTION_DETECT_TED_CONNECTION_CHECK_ERROR", 2)].

Definition ethtool_c33_pse_ext_substate_option_vport_lim__Type : ctype := c_uint.
Definition ethtool_c33_pse_ext_substate_option_vport_lim : Enumeration := Build_Enumeration
  false ethtool_c33_pse_ext_substate_option_vport_lim__Type
  [("ETHTOOL_C33_PSE_EXT_SUBSTATE_OPTION_VPORT_LIM_HIGH_VOLTAGE", 1);
  ("ETHTOOL_C33_PSE_EXT_SUBSTATE_OPTION_VPORT_LIM_LOW_VOLTAGE", 2);
  ("ETHTOOL_C33_PSE_EXT_SUBSTATE_OPTION_VPORT_LIM_VOLTAGE_INJECTION", 3)].

Definition ethtool_c33_pse_ext_substate_ovld_detected__Type : ctype := c_uint.
Definition ethtool_c33_pse_ext_substate_ovld_detected : Enumeration := Build_Enumeration false
  ethtool_c33_pse_ext_substate_ovld_detected__Type
  [("ETHTOOL_C33_PSE_EXT_SUBSTATE_OVLD_DETECTED_OVERLOAD", 1)].

Definition ethtool_c33_pse_ext_substate_power_not_available__Type : ctype := c_uint.
Definition ethtool_c33_pse_ext_substate_power_not_available : Enumeration := Build_Enumeration
  false ethtool_c33_pse_ext_substate_power_not_available__Type
  [("ETHTOOL_C33_PSE_EXT_SUBSTATE_POWER_NOT_AVAILABLE_BUDGET_EXCEEDED", 1);
  ("ETHTOOL_C33_PSE_EXT_SUBSTATE_POWER_NOT_AVAILABLE_PORT_PW_LIMIT_EXCEEDS_CONTROLLER_BUDGET",
  2); ("ETHTOOL_C33_PSE_EXT_SUBSTATE_POWER_NOT_AVAILABLE_PD_REQUEST_EXCEEDS_PORT_LIMIT", 3);
  ("ETHTOOL_C33_PSE_EXT_SUBSTATE_POWER_NOT_AVAILABLE_HW_PW_LIMIT", 4)].

Definition ethtool_c33_pse_ext_substate_short_detected__Type : ctype := c_uint.
Definition ethtool_c33_pse_ext_substate_short_detected : Enumeration := Build_Enumeration false
  ethtool_c33_pse_ext_substate_short_detected__Type
  [("ETHTOOL_C33_PSE_EXT_SUBSTATE_SHORT_DETECTED_SHORT_CONDITION", 1)].

Definition ethtool_c33_pse_pw_d_status__Type : ctype := c_uint.
Definition ethtool_c33_pse_pw_d_status : Enumeration := Build_Enumeration false
  ethtool_c33_pse_pw_d_status__Type [("ETHTOOL_C33_PSE_PW_D_STATUS_UNKNOWN", 1);
  ("ETHTOOL_C33_PSE_PW_D_STATUS_DISABLED", 2); ("ETHTOOL_C33_PSE_PW_D_STATUS_SEARCHING", 3);
  ("ETHTOOL_C33_PSE_PW_D_STATUS_DELIVERING", 4); ("ETHTOOL_C33_PSE_PW_D_STATUS_TEST", 5);
  ("ETHTOOL_C33_PSE_PW_D_STATUS_FAULT", 6); ("ETHTOOL_C33_PSE_PW_D_STATUS_OTHERFAULT", 7)].

Definition ethtool_link_ext_state__Type : ctype := c_uint.
Definition ethtool_link_ext_state : Enumeration := Build_Enumeration false
  ethtool_link_ext_state__Type [("ETHTOOL_LINK_EXT_STATE_AUTONEG", 0);
  ("ETHTOOL_LINK_EXT_STATE_LINK_TRAINING_FAILURE", 1);
  ("ETHTOOL_LINK_EXT_STATE_LINK_LOGICAL_MISMATCH", 2);
  ("ETHTOOL_LINK_EXT_STATE_BAD_SIGNAL_INTEGRITY", 3); ("ETHTOOL_LINK_EXT_STATE_NO_CABLE", 4);
  ("ETHTOOL_LINK_EXT_STATE_CABLE_ISSUE", 5); ("ETHTOOL_LINK_EXT_STATE_EEPROM_ISSUE", 6);
  ("ETHTOOL_LINK_EXT_STATE_CALIBRATION_FAILURE", 7);
  ("ETHTOOL_LINK_EXT_STATE_POWER_BUDGET_EXCEEDED", 8); ("ETHTOOL_LINK_EXT_STATE_OVERHEAT", 9);
  ("ETHTOOL_LINK_EXT_STATE_MODULE", 10); ("ETHTOOL_LINK_EXT_STATE_OTP_SPEED_VIOLATION", 11);
  ("ETHTOOL_LINK_EXT_STATE_BMC_REQUEST_DOWN", 12)].

Definition ethtool_link_ext_substate_autoneg__Type : ctype := c_uint.
Definition ethtool_link_ext_substate_autoneg : Enumeration := Build_Enumeration false
  ethtool_link_ext_substate_autoneg__Type [("ETHTOOL_LINK_EXT_SUBSTATE_AN_NO_PARTNER_DETECTED",
  1); ("ETHTOOL_LINK_EXT_SUBSTATE_AN_ACK_NOT_RECEIVED", 2);
  ("ETHTOOL_LINK_EXT_SUBSTATE_AN_NEXT_PAGE_EXCHANGE_FAILED", 3);
  ("ETHTOOL_LINK_EXT_SUBSTATE_AN_NO_PARTNER_DETECTED_FORCE_MODE", 4);
  ("ETHTOOL_LINK_EXT_SUBSTATE_AN_FEC_MISMATCH_DURING_OVERRIDE", 5);
  ("ETHTOOL_LINK_EXT_SUBSTATE_AN_NO_HCD", 6)].

Definition ethtool_link_ext_substate_bad_signal_integrity__Type : ctype := c_uint.
Definition ethtool_link_ext_substate_bad_signal_integrity : Enumeration := Build_Enumeration
  false ethtool_link_ext_substate_bad_signal_integrity__Type
  [("ETHTOOL_LINK_EXT_SUBSTATE_BSI_LARGE_NUMBER_OF_PHYSICAL_ERRORS", 1);
  ("ETHTOOL_LINK_EXT_SUBSTATE_BSI_UNSUPPORTED_RATE", 2);
  ("ETHTOOL_LINK_EXT_SUBSTATE_BSI_SERDES_REFERENCE_CLOCK_LOST", 3);
  ("ETHTOOL_LINK_EXT_SUBSTATE_BSI_SERDES_ALOS", 4)].

Definition ethtool_link_ext_substate_cable_issue__Type : ctype := c_uint.
Definition ethtool_link_ext_substate_cable_issue : Enumeration := Build_Enumeration false
  ethtool_link_ext_substate_cable_issue__Type
  [("ETHTOOL_LINK_EXT_SUBSTATE_CI_UNSUPPORTED_CABLE", 1);
  ("ETHTOOL_LINK_EXT_SUBSTATE_CI_CABLE_TEST_FAILURE", 2)].

Definition ethtool_link_ext_substate_link_logical_mismatch__Type : ctype := c_uint.
Definition ethtool_link_ext_substate_link_logical_mismatch : Enumeration := Build_Enumeration
  false ethtool_link_ext_substate_link_logical_mismatch__Type
  [("ETHTOOL_LINK_EXT_SUBSTATE_LLM_PCS_DID_NOT_ACQUIRE_BLOCK_LOCK", 1);
  ("ETHTOOL_LINK_EXT_SUBSTATE_LLM_PCS_DID_NOT_ACQUIRE_AM_LOCK", 2);
  ("ETHTOOL_LINK_EXT_SUBSTATE_LLM_PCS_DID_NOT_GET_ALIGN_STATUS", 3);
  ("ETHTOOL_LINK_EXT_SUBSTATE_LLM_FC_FEC_IS_NOT_LOCKED", 4);
  ("ETHTOOL_LINK_EXT_SUBSTATE_LLM_RS_FEC_IS_NOT_LOCKED", 5)].

Definition ethtool_link_ext_substate_link_training__Type : ctype := c_uint.
Definition ethtool_link_ext_substate_link_training : Enumeration := Build_Enumeration false
  ethtool_link_ext_substate_link_training__Type
  [("ETHTOOL_LINK_EXT_SUBSTATE_LT_KR_FRAME_LOCK_NOT_ACQUIRED", 1);
  ("ETHTOOL_LINK_EXT_SUBSTATE_LT_KR_LINK_INHIBIT_TIMEOUT", 2);
  ("ETHTOOL_LINK_EXT_SUBSTATE_LT_KR_LINK_PARTNER_DID_NOT_SET_RECEIVER_READY", 3);
  ("ETHTOOL_LINK_EXT_SUBSTATE_LT_REMOTE_FAULT", 4)].

Definition ethtool_link_ext_substate_module__Type : ctype := c_uint.
Definition ethtool_link_ext_substate_module : Enumeration := Build_Enumeration false
  ethtool_link_ext_substate_module__Type [("ETHTOOL_LINK_EXT_SUBSTATE_MODULE_CMIS_NOT_READY",
  1)].

Definition ethtool_mac_stats_src__Type : ctype := c_uint.
Definition ethtool_mac_stats_src : Enumeration := Build_Enumeration false
  ethtool_mac_stats_src__Type [("ETHTOOL_MAC_STATS_SRC_AGGREGATE", 0);
  ("ETHTOOL_MAC_STATS_SRC_EMAC", 1); ("ETHTOOL_MAC_STATS_SRC_PMAC", 2)].

Definition ethtool_mm_verify_status__Type : ctype := c_uint.
Definition ethtool_mm_verify_status : Enumeration := Build_Enumeration false
  ethtool_mm_verify_status__Type [("ETHTOOL_MM_VERIFY_STATUS_UNKNOWN", 0);
  ("ETHTOOL_MM_VERIFY_STATUS_INITIAL", 1); ("ETHTOOL_MM_VERIFY_STATUS_VERIFYING", 2);
  ("ETHTOOL_MM_VERIFY_STATUS_SUCCEEDED", 3); ("ETHTOOL_MM_VERIFY_STATUS_FAILED", 4);
  ("ETHTOOL_MM_VERIFY_STATUS_DISABLED", 5)].

Definition ethtool_module_power_mode__Type : ctype := c_uint.
Definition ethtool_module_power_mode : Enumeration := Build_Enumeration false
  ethtool_module_power_mode__Type [("ETHTOOL_MODULE_POWER_MODE_LOW", 1);
  ("ETHTOOL_MODULE_POWER_MODE_HIGH", 2)].

Definition ethtool_module_power_mode_policy__Type : ctype := c_uint.
Definition ethtool_module_power_mode_policy : Enumeration := Build_Enumeration false
  ethtool_module_power_mode_policy__Type [("ETHTOOL_MODULE_POWER_MODE_POLICY_HIGH", 1);
  ("ETHTOOL_MODULE_POWER_MODE_POLICY_AUTO", 2)].

Definition ethtool_phys_id_state__Type : ctype := c_uint.
Definition ethtool_phys_id_state : Enumeration := Build_Enumeration false
  ethtool_phys_id_state__Type [("ETHTOOL_ID_INACTIVE", 0); ("ETHTOOL_ID_ACTIVE", 1);
  ("ETHTOOL_ID_ON", 2); ("ETHTOOL_ID_OFF", 3)].

Definition ethtool_podl_pse_admin_state__Type : ctype := c_uint.
Definition ethtool_podl_pse_admin_state : Enumeration := Build_Enumeration false
  ethtool_podl_pse_admin_state__Type [("ETHTOOL_PODL_PSE_ADMIN_STATE_UNKNOWN", 1);
  ("ETHTOOL_PODL_PSE_ADMIN_STATE_DISABLED", 2); ("ETHTOOL_PODL_PSE_ADMIN_STATE_ENABLED", 3)].

Definition ethtool_podl_pse_pw_d_status__Type : ctype := c_uint.
Definition ethtool_podl_pse_pw_d_status : Enumeration := Build_Enumeration false
  ethtool_podl_pse_pw_d_status__Type [("ETHTOOL_PODL_PSE_PW_D_STATUS_UNKNOWN", 1);
  ("ETHTOOL_PODL_PSE_PW_D_STATUS_DISABLED", 2); ("ETHTOOL_PODL_PSE_PW_D_STATUS_SEARCHING", 3);
  ("ETHTOOL_PODL_PSE_PW_D_STATUS_DELIVERING", 4); ("ETHTOOL_PODL_PSE_PW_D_STATUS_SLEEP", 5);
  ("ETHTOOL_PODL_PSE_PW_D_STATUS_IDLE", 6); ("ETHTOOL_PODL_PSE_PW_D_STATUS_ERROR", 7)].

Definition ethtool_pse_types__Type : ctype := c_uint.
Definition ethtool_pse_types : Enumeration := Build_Enumeration false ethtool_pse_types__Type
  [("ETHTOOL_PSE_UNKNOWN", 1); ("ETHTOOL_PSE_PODL", 2); ("ETHTOOL_PSE_C33", 4)].

Definition fault_flag__Type : ctype := c_uint.
Definition fault_flag : Enumeration := Build_Enumeration false fault_flag__Type
  [("FAULT_FLAG_WRITE", 1); ("FAULT_FLAG_MKWRITE", 2); ("FAULT_FLAG_ALLOW_RETRY", 4);
  ("FAULT_FLAG_RETRY_NOWAIT", 8); ("FAULT_FLAG_KILLABLE", 16); ("FAULT_FLAG_TRIED", 32);
  ("FAULT_FLAG_USER", 64); ("FAULT_FLAG_REMOTE", 128); ("FAULT_FLAG_INSTRUCTION", 256);
  ("FAULT_FLAG_INTERRUPTIBLE", 512); ("FAULT_FLAG_UNSHARE", 1024); ("FAULT_FLAG_ORIG_PTE_VALID",
  2048); ("FAULT_FLAG_VMA_LOCK", 4096)].

Definition filter_pred_fn__Type : ctype := c_uint.
Definition filter_pred_fn : Enumeration := Build_Enumeration false filter_pred_fn__Type
  [("FILTER_PRED_FN_NOP", 0); ("FILTER_PRED_FN_64", 1); ("FILTER_PRED_FN_64_CPUMASK", 2);
  ("FILTER_PRED_FN_S64", 3); ("FILTER_PRED_FN_U64", 4); ("FILTER_PRED_FN_32", 5);
  ("FILTER_PRED_FN_32_CPUMASK", 6); ("FILTER_PRED_FN_S32", 7); ("FILTER_PRED_FN_U32", 8);
  ("FILTER_PRED_FN_16", 9); ("FILTER_PRED_FN_16_CPUMASK", 10); ("FILTER_PRED_FN_S16", 11);
  ("FILTER_PRED_FN_U16", 12); ("FILTER_PRED_FN_8", 13); ("FILTER_PRED_FN_8_CPUMASK", 14);
  ("FILTER_PRED_FN_S8", 15); ("FILTER_PRED_FN_U8", 16); ("FILTER_PRED_FN_COMM", 17);
  ("FILTER_PRED_FN_STRING", 18); ("FILTER_PRED_FN_STRLOC", 19); ("FILTER_PRED_FN_STRRELLOC",
  20); ("FILTER_PRED_FN_PCHAR_USER", 21); ("FILTER_PRED_FN_PCHAR", 22); ("FILTER_PRED_FN_CPU",
  23); ("FILTER_PRED_FN_CPU_CPUMASK", 24); ("FILTER_PRED_FN_CPUMASK", 25);
  ("FILTER_PRED_FN_CPUMASK_CPU", 26); ("FILTER_PRED_FN_FUNCTION", 27); ("FILTER_PRED_FN_", 28);
  ("FILTER_PRED_TEST_VISITED", 29)].

Definition flow_action_hw_stats__Type : ctype := c_uint.
Definition flow_action_hw_stats : Enumeration := Build_Enumeration false
  flow_action_hw_stats__Type [("FLOW_ACTION_HW_STATS_IMMEDIATE", 1);
  ("FLOW_ACTION_HW_STATS_DELAYED", 2); ("FLOW_ACTION_HW_STATS_ANY", 3);
  ("FLOW_ACTION_HW_STATS_DISABLED", 4); ("FLOW_ACTION_HW_STATS_DONT_CARE", 7)].

Definition flow_action_id__Type : ctype := c_uint.
Definition flow_action_id : Enumeration := Build_Enumeration false flow_action_id__Type
  [("FLOW_ACTION_ACCEPT", 0); ("FLOW_ACTION_DROP", 1); ("FLOW_ACTION_TRAP", 2);
  ("FLOW_ACTION_GOTO", 3); ("FLOW_ACTION_REDIRECT", 4); ("FLOW_ACTION_MIRRED", 5);
  ("FLOW_ACTION_REDIRECT_INGRESS", 6); ("FLOW_ACTION_MIRRED_INGRESS", 7);
  ("FLOW_ACTION_VLAN_PUSH", 8); ("FLOW_ACTION_VLAN_POP", 9); ("FLOW_ACTION_VLAN_MANGLE", 10);
  ("FLOW_ACTION_TUNNEL_ENCAP", 11); ("FLOW_ACTION_TUNNEL_DECAP", 12); ("FLOW_ACTION_MANGLE",
  13); ("FLOW_ACTION_ADD", 14); ("FLOW_ACTION_CSUM", 15); ("FLOW_ACTION_MARK", 16);
  ("FLOW_ACTION_PTYPE", 17); ("FLOW_ACTION_PRIORITY", 18); ("FLOW_ACTION_RX_QUEUE_MAPPING", 19);
  ("FLOW_ACTION_WAKE", 20); ("FLOW_ACTION_QUEUE", 21); ("FLOW_ACTION_SAMPLE", 22);
  ("FLOW_ACTION_POLICE", 23); ("FLOW_ACTION_CT", 24); ("FLOW_ACTION_CT_METADATA", 25);
  ("FLOW_ACTION_MPLS_PUSH", 26); ("FLOW_ACTION_MPLS_POP", 27); ("FLOW_ACTION_MPLS_MANGLE", 28);
  ("FLOW_ACTION_GATE", 29); ("FLOW_ACTION_PPPOE_PUSH", 30); ("FLOW_ACTION_JUMP", 31);
  ("FLOW_ACTION_PIPE", 32); ("FLOW_ACTION_VLAN_PUSH_ETH", 33); ("FLOW_ACTION_VLAN_POP_ETH", 34);
  ("FLOW_ACTION_CONTINUE", 35); ("NUM_FLOW_ACTIONS", 36)].

Definition flow_action_mangle_base__Type : ctype := c_uint.
Definition flow_action_mangle_base : Enumeration := Build_Enumeration false
  flow_action_mangle_base__Type [("FLOW_ACT_MANGLE_UNSPEC", 0); ("FLOW_ACT_MANGLE_HDR_TYPE_ETH",
  1); ("FLOW_ACT_MANGLE_HDR_TYPE_IP4", 2); ("FLOW_ACT_MANGLE_HDR_TYPE_IP6", 3);
  ("FLOW_ACT_MANGLE_HDR_TYPE_TCP", 4); ("FLOW_ACT_MANGLE_HDR_TYPE_UDP", 5)].

Definition flow_cls_command__Type : ctype := c_uint.
Definition flow_cls_command : Enumeration := Build_Enumeration false flow_cls_command__Type
  [("FLOW_CLS_REPLACE", 0); ("FLOW_CLS_DESTROY", 1); ("FLOW_CLS_STATS", 2);
  ("FLOW_CLS_TMPLT_CREATE", 3); ("FLOW_CLS_TMPLT_DESTROY", 4)].

Definition freeze_holder__Type : ctype := c_uint.
Definition freeze_holder : Enumeration := Build_Enumeration false freeze_holder__Type
  [("FREEZE_HOLDER_KERNEL", 1); ("FREEZE_HOLDER_USERSPACE", 2); ("FREEZE_MAY_NEST", 4);
  ("FREEZE_EXCL", 8)].

Definition freq_qos_req_type__Type : ctype := c_uint.
Definition freq_qos_req_type : Enumeration := Build_Enumeration false freq_qos_req_type__Type
  [("FREQ_QOS_MIN", 1); ("FREQ_QOS_MAX", 2)].

Definition fs_context_phase__Type : ctype := c_uint.
Definition fs_context_phase : Enumeration := Build_Enumeration false fs_context_phase__Type
  [("FS_CONTEXT_CREATE_PARAMS", 0); ("FS_CONTEXT_CREATING", 1); ("FS_CONTEXT_AWAITING_MOUNT",
  2); ("FS_CONTEXT_AWAITING_RECONF", 3); ("FS_CONTEXT_RECONF_PARAMS", 4);
  ("FS_CONTEXT_RECONFIGURING", 5); ("FS_CONTEXT_FAILED", 6)].

Definition fs_context_purpose__Type : ctype := c_uint.
Definition fs_context_purpose : Enumeration := Build_Enumeration false fs_context_purpose__Type
  [("FS_CONTEXT_FOR_MOUNT", 0); ("FS_CONTEXT_FOR_SUBMOUNT", 1); ("FS_CONTEXT_FOR_RECONFIGURE",
  2)].

Definition fs_update_time__Type : ctype := c_uint.
Definition fs_update_time : Enumeration := Build_Enumeration false fs_update_time__Type
  [("FS_UPD_ATIME", 0); ("FS_UPD_CMTIME", 1)].

Definition fs_value_type__Type : ctype := c_uint.
Definition fs_value_type : Enumeration := Build_Enumeration false fs_value_type__Type
  [("fs_value_is_undefined", 0); ("fs_value_is_flag", 1); ("fs_value_is_string", 2);
  ("fs_value_is_blob", 3); ("fs_value_is_filename", 4); ("fs_value_is_file", 5)].

Definition fserror_type__Type : ctype := c_uint.
Definition fserror_type : Enumeration := Build_Enumeration false fserror_type__Type
  [("FSERR_BUFFERED_READ", 0); ("FSERR_BUFFERED_WRITE", 1); ("FSERR_DIRECTIO_READ", 2);
  ("FSERR_DIRECTIO_WRITE", 3); ("FSERR_DATA_LOST", 4); ("FSERR_METADATA", 5)].

Definition fsnotify_group_prio__Type : ctype := c_uint.
Definition fsnotify_group_prio : Enumeration := Build_Enumeration false
  fsnotify_group_prio__Type [("FSNOTIFY_PRIO_NORMAL", 0); ("FSNOTIFY_PRIO_CONTENT", 1);
  ("FSNOTIFY_PRIO_PRE_CONTENT", 2); ("__FSNOTIFY_PRIO_NUM", 3)].

Definition ftrace_ops_cmd__Type : ctype := c_uint.
Definition ftrace_ops_cmd : Enumeration := Build_Enumeration false ftrace_ops_cmd__Type
  [("FTRACE_OPS_CMD_ENABLE_SHARE_IPMODIFY_SELF", 0);
  ("FTRACE_OPS_CMD_ENABLE_SHARE_IPMODIFY_PEER", 1);
  ("FTRACE_OPS_CMD_DISABLE_SHARE_IPMODIFY_PEER", 2)].

Definition handle_to_path_flags__Type : ctype := c_uint.
Definition handle_to_path_flags : Enumeration := Build_Enumeration false
  handle_to_path_flags__Type [("HANDLE_CHECK_PERMS", 1); ("HANDLE_CHECK_SUBTREE", 2)].

Definition hprobe_state__Type : ctype := c_uint.
Definition hprobe_state : Enumeration := Build_Enumeration false hprobe_state__Type
  [("HPROBE_LEASED", 0); ("HPROBE_STABLE", 1); ("HPROBE_GONE", 2); ("HPROBE_CONSUMED", 3)].

Definition hrtimer_restart__Type : ctype := c_uint.
Definition hrtimer_restart : Enumeration := Build_Enumeration false hrtimer_restart__Type
  [("HRTIMER_NORESTART", 0); ("HRTIMER_RESTART", 1)].

Definition hwtstamp_provider_qualifier__Type : ctype := c_uint.
Definition hwtstamp_provider_qualifier : Enumeration := Build_Enumeration false
  hwtstamp_provider_qualifier__Type [("HWTSTAMP_PROVIDER_QUALIFIER_PRECISE", 0);
  ("HWTSTAMP_PROVIDER_QUALIFIER_APPROX", 1); ("HWTSTAMP_PROVIDER_QUALIFIER_CNT", 2)].

Definition hwtstamp_source__Type : ctype := c_uint.
Definition hwtstamp_source : Enumeration := Build_Enumeration false hwtstamp_source__Type
  [("HWTSTAMP_SOURCE_NETDEV", 1); ("HWTSTAMP_SOURCE_PHYLIB", 2)].

Definition ib_atomic_cap__Type : ctype := c_uint.
Definition ib_atomic_cap : Enumeration := Build_Enumeration false ib_atomic_cap__Type
  [("IB_ATOMIC_NONE", 0); ("IB_ATOMIC_HCA", 1); ("IB_ATOMIC_GLOB", 2)].

Definition ib_cq_notify_flags__Type : ctype := c_uint.
Definition ib_cq_notify_flags : Enumeration := Build_Enumeration false ib_cq_notify_flags__Type
  [("IB_CQ_SOLICITED", 1); ("IB_CQ_NEXT_COMP", 2); ("IB_CQ_SOLICITED_MASK", 3);
  ("IB_CQ_REPORT_MISSED_EVENTS", 4)].

Definition ib_event_type__Type : ctype := c_uint.
Definition ib_event_type : Enumeration := Build_Enumeration false ib_event_type__Type
  [("IB_EVENT_CQ_ERR", 0); ("IB_EVENT_QP_FATAL", 1); ("IB_EVENT_QP_REQ_ERR", 2);
  ("IB_EVENT_QP_ACCESS_ERR", 3); ("IB_EVENT_COMM_EST", 4); ("IB_EVENT_SQ_DRAINED", 5);
  ("IB_EVENT_PATH_MIG", 6); ("IB_EVENT_PATH_MIG_ERR", 7); ("IB_EVENT_DEVICE_FATAL", 8);
  ("IB_EVENT_PORT_ACTIVE", 9); ("IB_EVENT_PORT_ERR", 10); ("IB_EVENT_LID_CHANGE", 11);
  ("IB_EVENT_PKEY_CHANGE", 12); ("IB_EVENT_SM_CHANGE", 13); ("IB_EVENT_SRQ_ERR", 14);
  ("IB_EVENT_SRQ_LIMIT_REACHED", 15); ("IB_EVENT_QP_LAST_WQE_REACHED", 16);
  ("IB_EVENT_CLIENT_REREGISTER", 17); ("IB_EVENT_GID_CHANGE", 18); ("IB_EVENT_WQ_FATAL", 19);
  ("IB_EVENT_DEVICE_SPEED_CHANGE", 20)].

Definition ib_flow_action_type__Type : ctype := c_uint.
Definition ib_flow_action_type : Enumeration := Build_Enumeration false
  ib_flow_action_type__Type [("IB_FLOW_ACTION_UNSPECIFIED", 0); ("IB_FLOW_ACTION_ESP", 1)].

Definition ib_flow_attr_type__Type : ctype := c_uint.
Definition ib_flow_attr_type : Enumeration := Build_Enumeration false ib_flow_attr_type__Type
  [("IB_FLOW_ATTR_NORMAL", 0); ("IB_FLOW_ATTR_ALL_DEFAULT", 1); ("IB_FLOW_ATTR_MC_DEFAULT", 2);
  ("IB_FLOW_ATTR_SNIFFER", 3)].

Definition ib_flow_spec_type__Type : ctype := c_uint.
Definition ib_flow_spec_type : Enumeration := Build_Enumeration false ib_flow_spec_type__Type
  [("IB_FLOW_SPEC_ETH", 32); ("IB_FLOW_SPEC_IB", 34); ("IB_FLOW_SPEC_IPV4", 48);
  ("IB_FLOW_SPEC_IPV6", 49); ("IB_FLOW_SPEC_ESP", 52); ("IB_FLOW_SPEC_TCP", 64);
  ("IB_FLOW_SPEC_UDP", 65); ("IB_FLOW_SPEC_VXLAN_TUNNEL", 80); ("IB_FLOW_SPEC_GRE", 81);
  ("IB_FLOW_SPEC_MPLS", 96); ("IB_FLOW_SPEC_INNER", 256); ("IB_FLOW_SPEC_ACTION_TAG", 4096);
  ("IB_FLOW_SPEC_ACTION_DROP", 4097); ("IB_FLOW_SPEC_ACTION_HANDLE", 4098);
  ("IB_FLOW_SPEC_ACTION_COUNT", 4099)].

Definition ib_gid_type__Type : ctype := c_uint.
Definition ib_gid_type : Enumeration := Build_Enumeration false ib_gid_type__Type
  [("IB_GID_TYPE_IB", 0); ("IB_GID_TYPE_ROCE", 1); ("IB_GID_TYPE_ROCE_UDP_ENCAP", 2);
  ("IB_GID_TYPE_SIZE", 3)].

Definition ib_mig_state__Type : ctype := c_uint.
Definition ib_mig_state : Enumeration := Build_Enumeration false ib_mig_state__Type
  [("IB_MIG_MIGRATED", 0); ("IB_MIG_REARM", 1); ("IB_MIG_ARMED", 2)].

Definition ib_mr_type__Type : ctype := c_uint.
Definition ib_mr_type : Enumeration := Build_Enumeration false ib_mr_type__Type
  [("IB_MR_TYPE_MEM_REG", 0); ("IB_MR_TYPE_SG_GAPS", 1); ("IB_MR_TYPE_DM", 2);
  ("IB_MR_TYPE_USER", 3); ("IB_MR_TYPE_DMA", 4); ("IB_MR_TYPE_INTEGRITY", 5)].

Definition ib_mtu__Type : ctype := c_uint.
Definition ib_mtu : Enumeration := Build_Enumeration false ib_mtu__Type [("IB_MTU_256", 1);
  ("IB_MTU_512", 2); ("IB_MTU_1024", 3); ("IB_MTU_2048", 4); ("IB_MTU_4096", 5)].

Definition ib_mw_type__Type : ctype := c_uint.
Definition ib_mw_type : Enumeration := Build_Enumeration false ib_mw_type__Type
  [("IB_MW_TYPE_1", 1); ("IB_MW_TYPE_2", 2)].

Definition ib_poll_context__Type : ctype := c_uint.
Definition ib_poll_context : Enumeration := Build_Enumeration false ib_poll_context__Type
  [("IB_POLL_SOFTIRQ", 0); ("IB_POLL_WORKQUEUE", 1); ("IB_POLL_UNBOUND_WORKQUEUE", 2);
  ("IB_POLL_LAST_POOL_TYPE", 2); ("IB_POLL_DIRECT", 3)].

Definition ib_port_state__Type : ctype := c_uint.
Definition ib_port_state : Enumeration := Build_Enumeration false ib_port_state__Type
  [("IB_PORT_NOP", 0); ("IB_PORT_DOWN", 1); ("IB_PORT_INIT", 2); ("IB_PORT_ARMED", 3);
  ("IB_PORT_ACTIVE", 4); ("IB_PORT_ACTIVE_DEFER", 5)].

Definition ib_qp_state__Type : ctype := c_uint.
Definition ib_qp_state : Enumeration := Build_Enumeration false ib_qp_state__Type
  [("IB_QPS_RESET", 0); ("IB_QPS_INIT", 1); ("IB_QPS_RTR", 2); ("IB_QPS_RTS", 3); ("IB_QPS_SQD",
  4); ("IB_QPS_SQE", 5); ("IB_QPS_ERR", 6)].

Definition ib_qp_type__Type : ctype := c_uint.
Definition ib_qp_type : Enumeration := Build_Enumeration false ib_qp_type__Type [("IB_QPT_SMI",
  0); ("IB_QPT_GSI", 1); ("IB_QPT_RC", 2); ("IB_QPT_UC", 3); ("IB_QPT_UD", 4);
  ("IB_QPT_RAW_IPV6", 5); ("IB_QPT_RAW_ETHERTYPE", 6); ("IB_QPT_RAW_PACKET", 8);
  ("IB_QPT_XRC_INI", 9); ("IB_QPT_XRC_TGT", 10); ("IB_QPT_MAX", 11); ("IB_QPT_DRIVER", 255);
  ("IB_QPT_RESERVED1", 4096); ("IB_QPT_RESERVED2", 4097); ("IB_QPT_RESERVED3", 4098);
  ("IB_QPT_RESERVED4", 4099); ("IB_QPT_RESERVED5", 4100); ("IB_QPT_RESERVED6", 4101);
  ("IB_QPT_RESERVED7", 4102); ("IB_QPT_RESERVED8", 4103); ("IB_QPT_RESERVED9", 4104);
  ("IB_QPT_RESERVED10", 4105)].

Definition ib_sig_err_type__Type : ctype := c_uint.
Definition ib_sig_err_type : Enumeration := Build_Enumeration false ib_sig_err_type__Type
  [("IB_SIG_BAD_GUARD", 0); ("IB_SIG_BAD_REFTAG", 1); ("IB_SIG_BAD_APPTAG", 2)].

Definition ib_sig_type__Type : ctype := c_uint.
Definition ib_sig_type : Enumeration := Build_Enumeration false ib_sig_type__Type
  [("IB_SIGNAL_ALL_WR", 0); ("IB_SIGNAL_REQ_WR", 1)].

Definition ib_signature_type__Type : ctype := c_uint.
Definition ib_signature_type : Enumeration := Build_Enumeration false ib_signature_type__Type
  [("IB_SIG_TYPE_NONE", 0); ("IB_SIG_TYPE_T10_DIF", 1)].

Definition ib_srq_attr_mask__Type : ctype := c_uint.
Definition ib_srq_attr_mask : Enumeration := Build_Enumeration false ib_srq_attr_mask__Type
  [("IB_SRQ_MAX_WR", 1); ("IB_SRQ_LIMIT", 2)].

Definition ib_srq_type__Type : ctype := c_uint.
Definition ib_srq_type : Enumeration := Build_Enumeration false ib_srq_type__Type
  [("IB_SRQT_BASIC", 0); ("IB_SRQT_XRC", 1); ("IB_SRQT_TM", 2)].

Definition ib_t10_dif_bg_type__Type : ctype := c_uint.
Definition ib_t10_dif_bg_type : Enumeration := Build_Enumeration false ib_t10_dif_bg_type__Type
  [("IB_T10DIF_CRC", 0); ("IB_T10DIF_CSUM", 1)].

Definition ib_uverbs_advise_mr_advice__Type : ctype := c_uint.
Definition ib_uverbs_advise_mr_advice : Enumeration := Build_Enumeration false
  ib_uverbs_advise_mr_advice__Type [("IB_UVERBS_ADVISE_MR_ADVICE_PREFETCH", 0);
  ("IB_UVERBS_ADVISE_MR_ADVICE_PREFETCH_WRITE", 1);
  ("IB_UVERBS_ADVISE_MR_ADVICE_PREFETCH_NO_FAULT", 2)].

Definition ib_wc_opcode__Type : ctype := c_uint.
Definition ib_wc_opcode : Enumeration := Build_Enumeration false ib_wc_opcode__Type
  [("IB_WC_SEND", 0); ("IB_WC_RDMA_WRITE", 1); ("IB_WC_RDMA_READ", 2); ("IB_WC_COMP_SWAP", 3);
  ("IB_WC_FETCH_ADD", 4); ("IB_WC_BIND_MW", 5); ("IB_WC_LOCAL_INV", 6); ("IB_WC_LSO", 7);
  ("IB_WC_ATOMIC_WRITE", 9); ("IB_WC_REG_MR", 10); ("IB_WC_MASKED_COMP_SWAP", 11);
  ("IB_WC_MASKED_FETCH_ADD", 12); ("IB_WC_FLUSH", 8); ("IB_WC_RECV", 128);
  ("IB_WC_RECV_RDMA_WITH_IMM", 129)].

Definition ib_wc_status__Type : ctype := c_uint.
Definition ib_wc_status : Enumeration := Build_Enumeration false ib_wc_status__Type
  [("IB_WC_SUCCESS", 0); ("IB_WC_LOC_LEN_ERR", 1); ("IB_WC_LOC_QP_OP_ERR", 2);
  ("IB_WC_LOC_EEC_OP_ERR", 3); ("IB_WC_LOC_PROT_ERR", 4); ("IB_WC_WR_FLUSH_ERR", 5);
  ("IB_WC_MW_BIND_ERR", 6); ("IB_WC_BAD_RESP_ERR", 7); ("IB_WC_LOC_ACCESS_ERR", 8);
  ("IB_WC_REM_INV_REQ_ERR", 9); ("IB_WC_REM_ACCESS_ERR", 10); ("IB_WC_REM_OP_ERR", 11);
  ("IB_WC_RETRY_EXC_ERR", 12); ("IB_WC_RNR_RETRY_EXC_ERR", 13); ("IB_WC_LOC_RDD_VIOL_ERR", 14);
  ("IB_WC_REM_INV_RD_REQ_ERR", 15); ("IB_WC_REM_ABORT_ERR", 16); ("IB_WC_INV_EECN_ERR", 17);
  ("IB_WC_INV_EEC_STATE_ERR", 18); ("IB_WC_FATAL_ERR", 19); ("IB_WC_RESP_TIMEOUT_ERR", 20);
  ("IB_WC_GENERAL_ERR", 21)].

Definition ib_wq_state__Type : ctype := c_uint.
Definition ib_wq_state : Enumeration := Build_Enumeration false ib_wq_state__Type
  [("IB_WQS_RESET", 0); ("IB_WQS_RDY", 1); ("IB_WQS_ERR", 2)].

Definition ib_wq_type__Type : ctype := c_uint.
Definition ib_wq_type : Enumeration := Build_Enumeration false ib_wq_type__Type [("IB_WQT_RQ",
  0)].

Definition ib_wr_opcode__Type : ctype := c_uint.
Definition ib_wr_opcode : Enumeration := Build_Enumeration false ib_wr_opcode__Type
  [("IB_WR_RDMA_WRITE", 0); ("IB_WR_RDMA_WRITE_WITH_IMM", 1); ("IB_WR_SEND", 2);
  ("IB_WR_SEND_WITH_IMM", 3); ("IB_WR_RDMA_READ", 4); ("IB_WR_ATOMIC_CMP_AND_SWP", 5);
  ("IB_WR_ATOMIC_FETCH_AND_ADD", 6); ("IB_WR_BIND_MW", 8); ("IB_WR_LSO", 10);
  ("IB_WR_SEND_WITH_INV", 9); ("IB_WR_RDMA_READ_WITH_INV", 11); ("IB_WR_LOCAL_INV", 7);
  ("IB_WR_MASKED_ATOMIC_CMP_AND_SWP", 12); ("IB_WR_MASKED_ATOMIC_FETCH_AND_ADD", 13);
  ("IB_WR_FLUSH", 14); ("IB_WR_ATOMIC_WRITE", 15); ("IB_WR_REG_MR", 32);
  ("IB_WR_REG_MR_INTEGRITY", 33); ("IB_WR_RESERVED1", 240); ("IB_WR_RESERVED2", 241);
  ("IB_WR_RESERVED3", 242); ("IB_WR_RESERVED4", 243); ("IB_WR_RESERVED5", 244);
  ("IB_WR_RESERVED6", 245); ("IB_WR_RESERVED7", 246); ("IB_WR_RESERVED8", 247);
  ("IB_WR_RESERVED9", 248); ("IB_WR_RESERVED10", 249)].

Definition ieee80211_bss_type__Type : ctype := c_uint.
Definition ieee80211_bss_type : Enumeration := Build_Enumeration false ieee80211_bss_type__Type
  [("IEEE80211_BSS_TYPE_ESS", 0); ("IEEE80211_BSS_TYPE_PBSS", 1); ("IEEE80211_BSS_TYPE_IBSS",
  2); ("IEEE80211_BSS_TYPE_MBSS", 3); ("IEEE80211_BSS_TYPE_ANY", 4)].

Definition ieee80211_edmg_bw_config__Type : ctype := c_uint.
Definition ieee80211_edmg_bw_config : Enumeration := Build_Enumeration false
  ieee80211_edmg_bw_config__Type [("IEEE80211_EDMG_BW_CONFIG_4", 4);
  ("IEEE80211_EDMG_BW_CONFIG_5", 5); ("IEEE80211_EDMG_BW_CONFIG_6", 6);
  ("IEEE80211_EDMG_BW_CONFIG_7", 7); ("IEEE80211_EDMG_BW_CONFIG_8", 8);
  ("IEEE80211_EDMG_BW_CONFIG_9", 9); ("IEEE80211_EDMG_BW_CONFIG_10", 10);
  ("IEEE80211_EDMG_BW_CONFIG_11", 11); ("IEEE80211_EDMG_BW_CONFIG_12", 12);
  ("IEEE80211_EDMG_BW_CONFIG_13", 13); ("IEEE80211_EDMG_BW_CONFIG_14", 14);
  ("IEEE80211_EDMG_BW_CONFIG_15", 15)].

Definition ieee802154_filtering_level__Type : ctype := c_uint.
Definition ieee802154_filtering_level : Enumeration := Build_Enumeration false
  ieee802154_filtering_level__Type [("IEEE802154_FILTERING_NONE", 0);
  ("IEEE802154_FILTERING_1_FCS", 1); ("IEEE802154_FILTERING_2_PROMISCUOUS", 2);
  ("IEEE802154_FILTERING_3_SCAN", 3); ("IEEE802154_FILTERING_4_FRAME_FIELDS", 4)].

Definition inode_state_flags_enum__Type : ctype := c_uint.
Definition inode_state_flags_enum : Enumeration := Build_Enumeration false
  inode_state_flags_enum__Type [("I_NEW", 1); ("I_SYNC", 2); ("I_LRU_ISOLATING", 4);
  ("I_DIRTY_SYNC", 16); ("I_DIRTY_DATASYNC", 32); ("I_DIRTY_PAGES", 64); ("I_WILL_FREE", 128);
  ("I_FREEING", 256); ("I_CLEAR", 512); ("I_REFERENCED", 1024); ("I_LINKABLE", 2048);
  ("I_DIRTY_TIME", 4096); ("I_WB_SWITCH", 8192); ("I_OVL_INUSE", 16384); ("I_CREATING", 32768);
  ("I_DONTCACHE", 65536); ("I_SYNC_QUEUED", 131072); ("I_PINNING_NETFS_WB", 262144)].

Definition iommu_cap__Type : ctype := c_uint.
Definition iommu_cap : Enumeration := Build_Enumeration false iommu_cap__Type
  [("IOMMU_CAP_CACHE_COHERENCY", 0); ("IOMMU_CAP_NOEXEC", 1); ("IOMMU_CAP_PRE_BOOT_PROTECTION",
  2); ("IOMMU_CAP_ENFORCE_CACHE_COHERENCY", 3); ("IOMMU_CAP_DEFERRED_FLUSH", 4);
  ("IOMMU_CAP_DIRTY_TRACKING", 5)].

Definition iommu_dma_queue_type__Type : ctype := c_uint.
Definition iommu_dma_queue_type : Enumeration := Build_Enumeration false
  iommu_dma_queue_type__Type [("IOMMU_DMA_OPTS_PER_CPU_QUEUE", 0);
  ("IOMMU_DMA_OPTS_SINGLE_QUEUE", 1)].

Definition iommu_domain_cookie_type__Type : ctype := c_uint.
Definition iommu_domain_cookie_type : Enumeration := Build_Enumeration false
  iommu_domain_cookie_type__Type [("IOMMU_COOKIE_NONE", 0); ("IOMMU_COOKIE_DMA_IOVA", 1);
  ("IOMMU_COOKIE_DMA_MSI", 2); ("IOMMU_COOKIE_FAULT_HANDLER", 3); ("IOMMU_COOKIE_SVA", 4);
  ("IOMMU_COOKIE_IOMMUFD", 5)].

Definition iommu_hw_info_type__Type : ctype := c_uint.
Definition iommu_hw_info_type : Enumeration := Build_Enumeration false iommu_hw_info_type__Type
  [("IOMMU_HW_INFO_TYPE_NONE", 0); ("IOMMU_HW_INFO_TYPE_DEFAULT", 0);
  ("IOMMU_HW_INFO_TYPE_INTEL_VTD", 1); ("IOMMU_HW_INFO_TYPE_ARM_SMMUV3", 2);
  ("IOMMU_HW_INFO_TYPE_TEGRA241_CMDQV", 3); ("IOMMU_HW_INFO_TYPE_AMD", 4)].

Definition iommu_hw_queue_type__Type : ctype := c_uint.
Definition iommu_hw_queue_type : Enumeration := Build_Enumeration false
  iommu_hw_queue_type__Type [("IOMMU_HW_QUEUE_TYPE_DEFAULT", 0);
  ("IOMMU_HW_QUEUE_TYPE_TEGRA241_CMDQV", 1)].

Definition iommu_viommu_type__Type : ctype := c_uint.
Definition iommu_viommu_type : Enumeration := Build_Enumeration false iommu_viommu_type__Type
  [("IOMMU_VIOMMU_TYPE_DEFAULT", 0); ("IOMMU_VIOMMU_TYPE_ARM_SMMUV3", 1);
  ("IOMMU_VIOMMU_TYPE_TEGRA241_CMDQV", 2)].

Definition iommufd_object_type__Type : ctype := c_uint.
Definition iommufd_object_type : Enumeration := Build_Enumeration false
  iommufd_object_type__Type [("IOMMUFD_OBJ_NONE", 0); ("IOMMUFD_OBJ_ANY", 0);
  ("IOMMUFD_OBJ_DEVICE", 1); ("IOMMUFD_OBJ_HWPT_PAGING", 2); ("IOMMUFD_OBJ_HWPT_NESTED", 3);
  ("IOMMUFD_OBJ_IOAS", 4); ("IOMMUFD_OBJ_ACCESS", 5); ("IOMMUFD_OBJ_FAULT", 6);
  ("IOMMUFD_OBJ_VIOMMU", 7); ("IOMMUFD_OBJ_VDEVICE", 8); ("IOMMUFD_OBJ_VEVENTQ", 9);
  ("IOMMUFD_OBJ_HW_QUEUE", 10); ("IOMMUFD_OBJ_MAX", 11)].

Definition ip_conntrack_dir__Type : ctype := c_uint.
Definition ip_conntrack_dir : Enumeration := Build_Enumeration false ip_conntrack_dir__Type
  [("IP_CT_DIR_ORIGINAL", 0); ("IP_CT_DIR_REPLY", 1); ("IP_CT_DIR_MAX", 2)].

Definition irq_alloc_type__Type : ctype := c_uint.
Definition irq_alloc_type : Enumeration := Build_Enumeration false irq_alloc_type__Type
  [("X86_IRQ_ALLOC_TYPE_IOAPIC", 1); ("X86_IRQ_ALLOC_TYPE_HPET", 2);
  ("X86_IRQ_ALLOC_TYPE_PCI_MSI", 3); ("X86_IRQ_ALLOC_TYPE_PCI_MSIX", 4);
  ("X86_IRQ_ALLOC_TYPE_DMAR", 5); ("X86_IRQ_ALLOC_TYPE_AMDVI", 6); ("X86_IRQ_ALLOC_TYPE_UV",
  7)].

Definition irq_domain_bus_token__Type : ctype := c_uint.
Definition irq_domain_bus_token : Enumeration := Build_Enumeration false
  irq_domain_bus_token__Type [("DOMAIN_BUS_ANY", 0); ("DOMAIN_BUS_WIRED", 1);
  ("DOMAIN_BUS_GENERIC_MSI", 2); ("DOMAIN_BUS_PCI_MSI", 3); ("DOMAIN_BUS_PLATFORM_MSI", 4);
  ("DOMAIN_BUS_NEXUS", 5); ("DOMAIN_BUS_IPI", 6); ("DOMAIN_BUS_FSL_MC_MSI", 7);
  ("DOMAIN_BUS_TI_SCI_INTA_MSI", 8); ("DOMAIN_BUS_WAKEUP", 9); ("DOMAIN_BUS_VMD_MSI", 10);
  ("DOMAIN_BUS_PCI_DEVICE_MSI", 11); ("DOMAIN_BUS_PCI_DEVICE_MSIX", 12); ("DOMAIN_BUS_DMAR",
  13); ("DOMAIN_BUS_AMDVI", 14); ("DOMAIN_BUS_DEVICE_MSI", 15); ("DOMAIN_BUS_WIRED_TO_MSI",
  16)].

Definition irq_gc_flags__Type : ctype := c_uint.
Definition irq_gc_flags : Enumeration := Build_Enumeration false irq_gc_flags__Type
  [("IRQ_GC_INIT_MASK_CACHE", 1); ("IRQ_GC_INIT_NESTED_LOCK", 2); ("IRQ_GC_MASK_CACHE_PER_TYPE",
  4); ("IRQ_GC_NO_MASK", 8); ("IRQ_GC_BE_IO", 16)].

Definition irqchip_irq_state__Type : ctype := c_uint.
Definition irqchip_irq_state : Enumeration := Build_Enumeration false irqchip_irq_state__Type
  [("IRQCHIP_STATE_PENDING", 0); ("IRQCHIP_STATE_ACTIVE", 1); ("IRQCHIP_STATE_MASKED", 2);
  ("IRQCHIP_STATE_LINE_LEVEL", 3)].

Definition irqreturn__Type : ctype := c_uint.
Definition irqreturn : Enumeration := Build_Enumeration false irqreturn__Type [("IRQ_NONE", 0);
  ("IRQ_HANDLED", 1); ("IRQ_WAKE_THREAD", 2)].

Definition kernel_pkey_operation__Type : ctype := c_uint.
Definition kernel_pkey_operation : Enumeration := Build_Enumeration false
  kernel_pkey_operation__Type [("kernel_pkey_encrypt", 0); ("kernel_pkey_decrypt", 1);
  ("kernel_pkey_sign", 2); ("kernel_pkey_verify", 3)].

Definition kobj_ns_type__Type : ctype := c_uint.
Definition kobj_ns_type : Enumeration := Build_Enumeration false kobj_ns_type__Type
  [("KOBJ_NS_TYPE_NONE", 0); ("KOBJ_NS_TYPE_NET", 1); ("KOBJ_NS_TYPES", 2)].

Definition led_brightness__Type : ctype := c_uint.
Definition led_brightness : Enumeration := Build_Enumeration false led_brightness__Type
  [("LED_OFF", 0); ("LED_ON", 1); ("LED_HALF", 127); ("LED_FULL", 255)].

Definition macsec_offload__Type : ctype := c_uint.
Definition macsec_offload : Enumeration := Build_Enumeration false macsec_offload__Type
  [("MACSEC_OFFLOAD_OFF", 0); ("MACSEC_OFFLOAD_PHY", 1); ("MACSEC_OFFLOAD_MAC", 2);
  ("__MACSEC_OFFLOAD_END", 3); ("MACSEC_OFFLOAD_MAX", 2)].

Definition macsec_validation_type__Type : ctype := c_uint.
Definition macsec_validation_type : Enumeration := Build_Enumeration false
  macsec_validation_type__Type [("MACSEC_VALIDATE_DISABLED", 0); ("MACSEC_VALIDATE_CHECK", 1);
  ("MACSEC_VALIDATE_STRICT", 2); ("__MACSEC_VALIDATE_END", 3); ("MACSEC_VALIDATE_MAX", 2)].

Definition mctp_phys_binding__Type : ctype := c_uint.
Definition mctp_phys_binding : Enumeration := Build_Enumeration false mctp_phys_binding__Type
  [("MCTP_PHYS_BINDING_UNSPEC", 0); ("MCTP_PHYS_BINDING_SMBUS", 1);
  ("MCTP_PHYS_BINDING_PCIE_VDM", 2); ("MCTP_PHYS_BINDING_USB", 3); ("MCTP_PHYS_BINDING_KCS", 4);
  ("MCTP_PHYS_BINDING_SERIAL", 5); ("MCTP_PHYS_BINDING_I3C", 6); ("MCTP_PHYS_BINDING_MMBI", 7);
  ("MCTP_PHYS_BINDING_PCC", 8); ("MCTP_PHYS_BINDING_UCIE", 9); ("MCTP_PHYS_BINDING_VENDOR",
  255)].

Definition memory_type__Type : ctype := c_uint.
Definition memory_type : Enumeration := Build_Enumeration false memory_type__Type
  [("MEMORY_DEVICE_PRIVATE", 1); ("MEMORY_DEVICE_COHERENT", 2); ("MEMORY_DEVICE_FS_DAX", 3);
  ("MEMORY_DEVICE_GENERIC", 4); ("MEMORY_DEVICE_PCI_P2PDMA", 5)].

Definition metadata_type__Type : ctype := c_uint.
Definition metadata_type : Enumeration := Build_Enumeration false metadata_type__Type
  [("METADATA_IP_TUNNEL", 0); ("METADATA_HW_PORT_MUX", 1); ("METADATA_MACSEC", 2);
  ("METADATA_XFRM", 3)].

Definition migrate_mode__Type : ctype := c_uint.
Definition migrate_mode : Enumeration := Build_Enumeration false migrate_mode__Type
  [("MIGRATE_ASYNC", 0); ("MIGRATE_SYNC_LIGHT", 1); ("MIGRATE_SYNC", 2)].

Definition mmap_action_type__Type : ctype := c_uint.
Definition mmap_action_type : Enumeration := Build_Enumeration false mmap_action_type__Type
  [("MMAP_NOTHING", 0); ("MMAP_REMAP_PFN", 1); ("MMAP_IO_REMAP_PFN", 2)].

Definition module_state__Type : ctype := c_uint.
Definition module_state : Enumeration := Build_Enumeration false module_state__Type
  [("MODULE_STATE_LIVE", 0); ("MODULE_STATE_COMING", 1); ("MODULE_STATE_GOING", 2);
  ("MODULE_STATE_UNFORMED", 3)].

Definition mq_rq_state__Type : ctype := c_uint.
Definition mq_rq_state : Enumeration := Build_Enumeration false mq_rq_state__Type
  [("MQ_RQ_IDLE", 0); ("MQ_RQ_IN_FLIGHT", 1); ("MQ_RQ_COMPLETE", 2)].

Definition net_device_path_type__Type : ctype := c_uint.
Definition net_device_path_type : Enumeration := Build_Enumeration false
  net_device_path_type__Type [("DEV_PATH_ETHERNET", 0); ("DEV_PATH_VLAN", 1);
  ("DEV_PATH_BRIDGE", 2); ("DEV_PATH_PPPOE", 3); ("DEV_PATH_DSA", 4); ("DEV_PATH_MTK_WDMA", 5);
  ("DEV_PATH_TUN", 6)].

Definition net_shaper_binding_type__Type : ctype := c_uint.
Definition net_shaper_binding_type : Enumeration := Build_Enumeration false
  net_shaper_binding_type__Type [("NET_SHAPER_BINDING_TYPE_NETDEV", 0)].

Definition net_shaper_metric__Type : ctype := c_uint.
Definition net_shaper_metric : Enumeration := Build_Enumeration false net_shaper_metric__Type
  [("NET_SHAPER_METRIC_BPS", 0); ("NET_SHAPER_METRIC_PPS", 1)].

Definition net_shaper_scope__Type : ctype := c_uint.
Definition net_shaper_scope : Enumeration := Build_Enumeration false net_shaper_scope__Type
  [("NET_SHAPER_SCOPE_UNSPEC", 0); ("NET_SHAPER_SCOPE_NETDEV", 1); ("NET_SHAPER_SCOPE_QUEUE",
  2); ("NET_SHAPER_SCOPE_NODE", 3); ("__NET_SHAPER_SCOPE_MAX", 4); ("NET_SHAPER_SCOPE_MAX", 3)].

Definition netdev_lag_hash__Type : ctype := c_uint.
Definition netdev_lag_hash : Enumeration := Build_Enumeration false netdev_lag_hash__Type
  [("NETDEV_LAG_HASH_NONE", 0); ("NETDEV_LAG_HASH_L2", 1); ("NETDEV_LAG_HASH_L34", 2);
  ("NETDEV_LAG_HASH_L23", 3); ("NETDEV_LAG_HASH_E23", 4); ("NETDEV_LAG_HASH_E34", 5);
  ("NETDEV_LAG_HASH_VLAN_SRCMAC", 6); ("NETDEV_LAG_HASH_UNKNOWN", 7)].

Definition netdev_lag_tx_type__Type : ctype := c_uint.
Definition netdev_lag_tx_type : Enumeration := Build_Enumeration false netdev_lag_tx_type__Type
  [("NETDEV_LAG_TX_TYPE_UNKNOWN", 0); ("NETDEV_LAG_TX_TYPE_RANDOM", 1);
  ("NETDEV_LAG_TX_TYPE_BROADCAST", 2); ("NETDEV_LAG_TX_TYPE_ROUNDROBIN", 3);
  ("NETDEV_LAG_TX_TYPE_ACTIVEBACKUP", 4); ("NETDEV_LAG_TX_TYPE_HASH", 5)].

Definition netdev_ml_priv_type__Type : ctype := c_uint.
Definition netdev_ml_priv_type : Enumeration := Build_Enumeration false
  netdev_ml_priv_type__Type [("ML_PRIV_NONE", 0); ("ML_PRIV_CAN", 1)].

Definition netdev_stat_type__Type : ctype := c_uint.
Definition netdev_stat_type : Enumeration := Build_Enumeration false netdev_stat_type__Type
  [("NETDEV_PCPU_STAT_NONE", 0); ("NETDEV_PCPU_STAT_LSTATS", 1); ("NETDEV_PCPU_STAT_TSTATS", 2);
  ("NETDEV_PCPU_STAT_DSTATS", 3)].

Definition netdev_tx__Type : ctype := c_int.
Definition netdev_tx : Enumeration := Build_Enumeration true netdev_tx__Type
  [("__NETDEV_TX_MIN", (-2147483648)); ("NETDEV_TX_OK", 0); ("NETDEV_TX_BUSY", 16)].

Definition nf_log_type__Type : ctype := c_uint.
Definition nf_log_type : Enumeration := Build_Enumeration false nf_log_type__Type
  [("NF_LOG_TYPE_LOG", 0); ("NF_LOG_TYPE_ULOG", 1); ("NF_LOG_TYPE_MAX", 2)].

Definition nfs3_stable_how__Type : ctype := c_int.
Definition nfs3_stable_how : Enumeration := Build_Enumeration true nfs3_stable_how__Type
  [("NFS_UNSTABLE", 0); ("NFS_DATA_SYNC", 1); ("NFS_FILE_SYNC", 2); ("NFS_INVALID_STABLE_HOW",
  (-1))].

Definition nfs4_change_attr_type__Type : ctype := c_uint.
Definition nfs4_change_attr_type : Enumeration := Build_Enumeration false
  nfs4_change_attr_type__Type [("NFS4_CHANGE_TYPE_IS_MONOTONIC_INCR", 0);
  ("NFS4_CHANGE_TYPE_IS_VERSION_COUNTER", 1); ("NFS4_CHANGE_TYPE_IS_VERSION_COUNTER_NOPNFS", 2);
  ("NFS4_CHANGE_TYPE_IS_TIME_METADATA", 3); ("NFS4_CHANGE_TYPE_IS_UNDEFINED", 4)].

Definition nl80211_auth_type__Type : ctype := c_uint.
Definition nl80211_auth_type : Enumeration := Build_Enumeration false nl80211_auth_type__Type
  [("NL80211_AUTHTYPE_OPEN_SYSTEM", 0); ("NL80211_AUTHTYPE_SHARED_KEY", 1);
  ("NL80211_AUTHTYPE_FT", 2); ("NL80211_AUTHTYPE_NETWORK_EAP", 3); ("NL80211_AUTHTYPE_SAE", 4);
  ("NL80211_AUTHTYPE_FILS_SK", 5); ("NL80211_AUTHTYPE_FILS_SK_PFS", 6);
  ("NL80211_AUTHTYPE_FILS_PK", 7); ("NL80211_AUTHTYPE_EPPKE", 8); ("__NL80211_AUTHTYPE_NUM", 9);
  ("NL80211_AUTHTYPE_MAX", 8); ("NL80211_AUTHTYPE_AUTOMATIC", 9)].

Definition nl80211_band__Type : ctype := c_uint.
Definition nl80211_band : Enumeration := Build_Enumeration false nl80211_band__Type
  [("NL80211_BAND_2GHZ", 0); ("NL80211_BAND_5GHZ", 1); ("NL80211_BAND_60GHZ", 2);
  ("NL80211_BAND_6GHZ", 3); ("NL80211_BAND_S1GHZ", 4); ("NL80211_BAND_LC", 5);
  ("NUM_NL80211_BANDS", 6)].

Definition nl80211_bss_select_attr__Type : ctype := c_uint.
Definition nl80211_bss_select_attr : Enumeration := Build_Enumeration false
  nl80211_bss_select_attr__Type [("__NL80211_BSS_SELECT_ATTR_INVALID", 0);
  ("NL80211_BSS_SELECT_ATTR_RSSI", 1); ("NL80211_BSS_SELECT_ATTR_BAND_PREF", 2);
  ("NL80211_BSS_SELECT_ATTR_RSSI_ADJUST", 3); ("__NL80211_BSS_SELECT_ATTR_AFTER_LAST", 4);
  ("NL80211_BSS_SELECT_ATTR_MAX", 3)].

Definition nl80211_chan_width__Type : ctype := c_uint.
Definition nl80211_chan_width : Enumeration := Build_Enumeration false nl80211_chan_width__Type
  [("NL80211_CHAN_WIDTH_20_NOHT", 0); ("NL80211_CHAN_WIDTH_20", 1); ("NL80211_CHAN_WIDTH_40",
  2); ("NL80211_CHAN_WIDTH_80", 3); ("NL80211_CHAN_WIDTH_80P80", 4); ("NL80211_CHAN_WIDTH_160",
  5); ("NL80211_CHAN_WIDTH_5", 6); ("NL80211_CHAN_WIDTH_10", 7); ("NL80211_CHAN_WIDTH_1", 8);
  ("NL80211_CHAN_WIDTH_2", 9); ("NL80211_CHAN_WIDTH_4", 10); ("NL80211_CHAN_WIDTH_8", 11);
  ("NL80211_CHAN_WIDTH_16", 12); ("NL80211_CHAN_WIDTH_320", 13)].

Definition nl80211_dfs_regions__Type : ctype := c_uint.
Definition nl80211_dfs_regions : Enumeration := Build_Enumeration false
  nl80211_dfs_regions__Type [("NL80211_DFS_UNSET", 0); ("NL80211_DFS_FCC", 1);
  ("NL80211_DFS_ETSI", 2); ("NL80211_DFS_JP", 3)].

Definition nl80211_dfs_state__Type : ctype := c_uint.
Definition nl80211_dfs_state : Enumeration := Build_Enumeration false nl80211_dfs_state__Type
  [("NL80211_DFS_USABLE", 0); ("NL80211_DFS_UNAVAILABLE", 1); ("NL80211_DFS_AVAILABLE", 2)].

Definition nl80211_iftype__Type : ctype := c_uint.
Definition nl80211_iftype : Enumeration := Build_Enumeration false nl80211_iftype__Type
  [("NL80211_IFTYPE_UNSPECIFIED", 0); ("NL80211_IFTYPE_ADHOC", 1); ("NL80211_IFTYPE_STATION",
  2); ("NL80211_IFTYPE_AP", 3); ("NL80211_IFTYPE_AP_VLAN", 4); ("NL80211_IFTYPE_WDS", 5);
  ("NL80211_IFTYPE_MONITOR", 6); ("NL80211_IFTYPE_MESH_POINT", 7); ("NL80211_IFTYPE_P2P_CLIENT",
  8); ("NL80211_IFTYPE_P2P_GO", 9); ("NL80211_IFTYPE_P2P_DEVICE", 10); ("NL80211_IFTYPE_OCB",
  11); ("NL80211_IFTYPE_NAN", 12); ("NUM_NL80211_IFTYPES", 13); ("NL80211_IFTYPE_MAX", 12)].

Definition nl80211_key_mode__Type : ctype := c_uint.
Definition nl80211_key_mode : Enumeration := Build_Enumeration false nl80211_key_mode__Type
  [("NL80211_KEY_RX_TX", 0); ("NL80211_KEY_NO_TX", 1); ("NL80211_KEY_SET_TX", 2)].

Definition nl80211_mfp__Type : ctype := c_uint.
Definition nl80211_mfp : Enumeration := Build_Enumeration false nl80211_mfp__Type
  [("NL80211_MFP_NO", 0); ("NL80211_MFP_REQUIRED", 1); ("NL80211_MFP_OPTIONAL", 2)].

Definition nl80211_reg_initiator__Type : ctype := c_uint.
Definition nl80211_reg_initiator : Enumeration := Build_Enumeration false
  nl80211_reg_initiator__Type [("NL80211_REGDOM_SET_BY_CORE", 0); ("NL80211_REGDOM_SET_BY_USER",
  1); ("NL80211_REGDOM_SET_BY_DRIVER", 2); ("NL80211_REGDOM_SET_BY_COUNTRY_IE", 3)].

Definition nl80211_sae_pwe_mechanism__Type : ctype := c_uint.
Definition nl80211_sae_pwe_mechanism : Enumeration := Build_Enumeration false
  nl80211_sae_pwe_mechanism__Type [("NL80211_SAE_PWE_UNSPECIFIED", 0);
  ("NL80211_SAE_PWE_HUNT_AND_PECK", 1); ("NL80211_SAE_PWE_HASH_TO_ELEMENT", 2);
  ("NL80211_SAE_PWE_BOTH", 3)].

Definition nl80211_sar_type__Type : ctype := c_uint.
Definition nl80211_sar_type : Enumeration := Build_Enumeration false nl80211_sar_type__Type
  [("NL80211_SAR_TYPE_POWER", 0); ("NUM_NL80211_SAR_TYPE", 1)].

Definition nl80211_user_reg_hint_type__Type : ctype := c_uint.
Definition nl80211_user_reg_hint_type : Enumeration := Build_Enumeration false
  nl80211_user_reg_hint_type__Type [("NL80211_USER_REG_HINT_USER", 0);
  ("NL80211_USER_REG_HINT_CELL_BASE", 1); ("NL80211_USER_REG_HINT_INDOOR", 2)].

Definition nl802154_cca_modes__Type : ctype := c_uint.
Definition nl802154_cca_modes : Enumeration := Build_Enumeration false nl802154_cca_modes__Type
  [("__NL802154_CCA_INVALID", 0); ("NL802154_CCA_ENERGY", 1); ("NL802154_CCA_CARRIER", 2);
  ("NL802154_CCA_ENERGY_CARRIER", 3); ("NL802154_CCA_ALOHA", 4); ("NL802154_CCA_UWB_SHR", 5);
  ("NL802154_CCA_UWB_MULTIPLEXED", 6); ("__NL802154_CCA_ATTR_AFTER_LAST", 7);
  ("NL802154_CCA_ATTR_MAX", 6)].

Definition nl802154_cca_opts__Type : ctype := c_uint.
Definition nl802154_cca_opts : Enumeration := Build_Enumeration false nl802154_cca_opts__Type
  [("NL802154_CCA_OPT_ENERGY_CARRIER_AND", 0); ("NL802154_CCA_OPT_ENERGY_CARRIER_OR", 1);
  ("__NL802154_CCA_OPT_ATTR_AFTER_LAST", 2); ("NL802154_CCA_OPT_ATTR_MAX", 1)].

Definition nl802154_supported_bool_states__Type : ctype := c_uint.
Definition nl802154_supported_bool_states : Enumeration := Build_Enumeration false
  nl802154_supported_bool_states__Type [("NL802154_SUPPORTED_BOOL_FALSE", 0);
  ("NL802154_SUPPORTED_BOOL_TRUE", 1); ("__NL802154_SUPPORTED_BOOL_INVALD", 2);
  ("NL802154_SUPPORTED_BOOL_BOTH", 3); ("__NL802154_SUPPORTED_BOOL_AFTER_LAST", 4);
  ("NL802154_SUPPORTED_BOOL_MAX", 3)].

Definition perf_event_state__Type : ctype := c_int.
Definition perf_event_state : Enumeration := Build_Enumeration true perf_event_state__Type
  [("PERF_EVENT_STATE_DEAD", (-5)); ("PERF_EVENT_STATE_REVOKED", (-4));
  ("PERF_EVENT_STATE_EXIT", (-3)); ("PERF_EVENT_STATE_ERROR", (-2)); ("PERF_EVENT_STATE_OFF",
  (-1)); ("PERF_EVENT_STATE_INACTIVE", 0); ("PERF_EVENT_STATE_ACTIVE", 1)].

Definition phy_mse_channel__Type : ctype := c_uint.
Definition phy_mse_channel : Enumeration := Build_Enumeration false phy_mse_channel__Type
  [("PHY_MSE_CHANNEL_A", 0); ("PHY_MSE_CHANNEL_B", 1); ("PHY_MSE_CHANNEL_C", 2);
  ("PHY_MSE_CHANNEL_D", 3); ("PHY_MSE_CHANNEL_WORST", 4); ("PHY_MSE_CHANNEL_LINK", 5)].

Definition phy_state__Type : ctype := c_uint.
Definition phy_state : Enumeration := Build_Enumeration false phy_state__Type [("PHY_DOWN", 0);
  ("PHY_READY", 1); ("PHY_HALTED", 2); ("PHY_ERROR", 3); ("PHY_UP", 4); ("PHY_RUNNING", 5);
  ("PHY_NOLINK", 6); ("PHY_CABLETEST", 7)].

Definition phylink_op_type__Type : ctype := c_uint.
Definition phylink_op_type : Enumeration := Build_Enumeration false phylink_op_type__Type
  [("PHYLINK_NETDEV", 0); ("PHYLINK_DEV", 1)].

Definition pid_type__Type : ctype := c_uint.
Definition pid_type : Enumeration := Build_Enumeration false pid_type__Type [("PIDTYPE_PID", 0);
  ("PIDTYPE_TGID", 1); ("PIDTYPE_PGID", 2); ("PIDTYPE_SID", 3); ("PIDTYPE_MAX", 4)].

Definition pm_qos_type__Type : ctype := c_uint.
Definition pm_qos_type : Enumeration := Build_Enumeration false pm_qos_type__Type
  [("PM_QOS_UNITIALIZED", 0); ("PM_QOS_MAX", 1); ("PM_QOS_MIN", 2)].

Definition port_pkey_state__Type : ctype := c_uint.
Definition port_pkey_state : Enumeration := Build_Enumeration false port_pkey_state__Type
  [("IB_PORT_PKEY_NOT_VALID", 0); ("IB_PORT_PKEY_VALID", 1); ("IB_PORT_PKEY_LISTED", 2)].

Definition pr_type__Type : ctype := c_uint.
Definition pr_type : Enumeration := Build_Enumeration false pr_type__Type
  [("PR_WRITE_EXCLUSIVE", 1); ("PR_EXCLUSIVE_ACCESS", 2); ("PR_WRITE_EXCLUSIVE_REG_ONLY", 3);
  ("PR_EXCLUSIVE_ACCESS_REG_ONLY", 4); ("PR_WRITE_EXCLUSIVE_ALL_REGS", 5);
  ("PR_EXCLUSIVE_ACCESS_ALL_REGS", 6)].

Definition print_line_t__Type : ctype := c_uint.
Definition print_line_t : Enumeration := Build_Enumeration false print_line_t__Type
  [("TRACE_TYPE_PARTIAL_LINE", 0); ("TRACE_TYPE_HANDLED", 1); ("TRACE_TYPE_UNHANDLED", 2);
  ("TRACE_TYPE_NO_CONSUME", 3)].

Definition priv_stack_mode__Type : ctype := c_uint.
Definition priv_stack_mode : Enumeration := Build_Enumeration false priv_stack_mode__Type
  [("PRIV_STACK_UNKNOWN", 0); ("NO_PRIV_STACK", 1); ("PRIV_STACK_ADAPTIVE", 2)].

Definition probe_type__Type : ctype := c_uint.
Definition probe_type : Enumeration := Build_Enumeration false probe_type__Type
  [("PROBE_DEFAULT_STRATEGY", 0); ("PROBE_PREFER_ASYNCHRONOUS", 1); ("PROBE_FORCE_SYNCHRONOUS",
  2)].

Definition pse_pi_pairset_pinout__Type : ctype := c_uint.
Definition pse_pi_pairset_pinout : Enumeration := Build_Enumeration false
  pse_pi_pairset_pinout__Type [("ALTERNATIVE_A", 0); ("ALTERNATIVE_B", 1)].

Definition quota_type__Type : ctype := c_uint.
Definition quota_type : Enumeration := Build_Enumeration false quota_type__Type [("USRQUOTA",
  0); ("GRPQUOTA", 1); ("PRJQUOTA", 2)].

Definition rdma_ah_attr_type__Type : ctype := c_uint.
Definition rdma_ah_attr_type : Enumeration := Build_Enumeration false rdma_ah_attr_type__Type
  [("RDMA_AH_ATTR_TYPE_UNDEFINED", 0); ("RDMA_AH_ATTR_TYPE_IB", 1); ("RDMA_AH_ATTR_TYPE_ROCE",
  2); ("RDMA_AH_ATTR_TYPE_OPA", 3)].

Definition rdma_driver_id__Type : ctype := c_uint.
Definition rdma_driver_id : Enumeration := Build_Enumeration false rdma_driver_id__Type
  [("RDMA_DRIVER_UNKNOWN", 0); ("RDMA_DRIVER_MLX5", 1); ("RDMA_DRIVER_MLX4", 2);
  ("RDMA_DRIVER_CXGB3", 3); ("RDMA_DRIVER_CXGB4", 4); ("RDMA_DRIVER_MTHCA", 5);
  ("RDMA_DRIVER_BNXT_RE", 6); ("RDMA_DRIVER_OCRDMA", 7); ("RDMA_DRIVER_NES", 8);
  ("RDMA_DRIVER_I40IW", 9); ("RDMA_DRIVER_IRDMA", 9); ("RDMA_DRIVER_VMW_PVRDMA", 10);
  ("RDMA_DRIVER_QEDR", 11); ("RDMA_DRIVER_HNS", 12); ("RDMA_DRIVER_USNIC", 13);
  ("RDMA_DRIVER_RXE", 14); ("RDMA_DRIVER_HFI1", 15); ("RDMA_DRIVER_QIB", 16);
  ("RDMA_DRIVER_EFA", 17); ("RDMA_DRIVER_SIW", 18); ("RDMA_DRIVER_ERDMA", 19);
  ("RDMA_DRIVER_MANA", 20); ("RDMA_DRIVER_IONIC", 21)].

Definition rdma_link_layer__Type : ctype := c_uint.
Definition rdma_link_layer : Enumeration := Build_Enumeration false rdma_link_layer__Type
  [("IB_LINK_LAYER_UNSPECIFIED", 0); ("IB_LINK_LAYER_INFINIBAND", 1); ("IB_LINK_LAYER_ETHERNET",
  2)].

Definition rdma_netdev_t__Type : ctype := c_uint.
Definition rdma_netdev_t : Enumeration := Build_Enumeration false rdma_netdev_t__Type
  [("RDMA_NETDEV_OPA_VNIC", 0); ("RDMA_NETDEV_IPOIB", 1)].

Definition rdma_nl_counter_mask__Type : ctype := c_uint.
Definition rdma_nl_counter_mask : Enumeration := Build_Enumeration false
  rdma_nl_counter_mask__Type [("RDMA_COUNTER_MASK_QP_TYPE", 1); ("RDMA_COUNTER_MASK_PID", 2)].

Definition rdma_nl_counter_mode__Type : ctype := c_uint.
Definition rdma_nl_counter_mode : Enumeration := Build_Enumeration false
  rdma_nl_counter_mode__Type [("RDMA_COUNTER_MODE_NONE", 0); ("RDMA_COUNTER_MODE_AUTO", 1);
  ("RDMA_COUNTER_MODE_MANUAL", 2); ("RDMA_COUNTER_MODE_MAX", 3)].

Definition rdma_nl_dev_type__Type : ctype := c_uint.
Definition rdma_nl_dev_type : Enumeration := Build_Enumeration false rdma_nl_dev_type__Type
  [("RDMA_DEVICE_TYPE_SMI", 1)].

Definition rdma_nl_name_assign_type__Type : ctype := c_uint.
Definition rdma_nl_name_assign_type : Enumeration := Build_Enumeration false
  rdma_nl_name_assign_type__Type [("RDMA_NAME_ASSIGN_TYPE_UNKNOWN", 0);
  ("RDMA_NAME_ASSIGN_TYPE_USER", 1)].

Definition rdma_restrack_type__Type : ctype := c_uint.
Definition rdma_restrack_type : Enumeration := Build_Enumeration false rdma_restrack_type__Type
  [("RDMA_RESTRACK_PD", 0); ("RDMA_RESTRACK_CQ", 1); ("RDMA_RESTRACK_QP", 2);
  ("RDMA_RESTRACK_CM_ID", 3); ("RDMA_RESTRACK_MR", 4); ("RDMA_RESTRACK_CTX", 5);
  ("RDMA_RESTRACK_COUNTER", 6); ("RDMA_RESTRACK_SRQ", 7); ("RDMA_RESTRACK_DMAH", 8);
  ("RDMA_RESTRACK_MAX", 9)].

Definition ref_state_type__Type : ctype := c_uint.
Definition ref_state_type : Enumeration := Build_Enumeration false ref_state_type__Type
  [("REF_TYPE_PTR", 2); ("REF_TYPE_IRQ", 4); ("REF_TYPE_LOCK", 8); ("REF_TYPE_RES_LOCK", 16);
  ("REF_TYPE_RES_LOCK_IRQ", 32); ("REF_TYPE_LOCK_MASK", 56)].

Definition reftype__Type : ctype := c_uint.
Definition reftype : Enumeration := Build_Enumeration false reftype__Type [("REF_NS", 0);
  ("REF_PROXY", 1); ("REF_RAWDATA", 2)].

Definition regcache_type__Type : ctype := c_uint.
Definition regcache_type : Enumeration := Build_Enumeration false regcache_type__Type
  [("REGCACHE_NONE", 0); ("REGCACHE_RBTREE", 1); ("REGCACHE_FLAT", 2); ("REGCACHE_MAPLE", 3);
  ("REGCACHE_FLAT_S", 4)].

Definition regmap_endian__Type : ctype := c_uint.
Definition regmap_endian : Enumeration := Build_Enumeration false regmap_endian__Type
  [("REGMAP_ENDIAN_DEFAULT", 0); ("REGMAP_ENDIAN_BIG", 1); ("REGMAP_ENDIAN_LITTLE", 2);
  ("REGMAP_ENDIAN_NATIVE", 3)].

Definition regulator_type__Type : ctype := c_uint.
Definition regulator_type : Enumeration := Build_Enumeration false regulator_type__Type
  [("REGULATOR_VOLTAGE", 0); ("REGULATOR_CURRENT", 1)].

Definition rpm_request__Type : ctype := c_uint.
Definition rpm_request : Enumeration := Build_Enumeration false rpm_request__Type
  [("RPM_REQ_NONE", 0); ("RPM_REQ_IDLE", 1); ("RPM_REQ_SUSPEND", 2); ("RPM_REQ_AUTOSUSPEND", 3);
  ("RPM_REQ_RESUME", 4)].

Definition rpm_status__Type : ctype := c_int.
Definition rpm_status : Enumeration := Build_Enumeration true rpm_status__Type [("RPM_INVALID",
  (-1)); ("RPM_ACTIVE", 0); ("RPM_RESUMING", 1); ("RPM_SUSPENDED", 2); ("RPM_SUSPENDING", 3);
  ("RPM_BLOCKED", 4)].

Definition rq_end_io_ret__Type : ctype := c_uint.
Definition rq_end_io_ret : Enumeration := Build_Enumeration false rq_end_io_ret__Type
  [("RQ_END_IO_NONE", 0); ("RQ_END_IO_FREE", 1)].

Definition rq_qos_id__Type : ctype := c_uint.
Definition rq_qos_id : Enumeration := Build_Enumeration false rq_qos_id__Type [("RQ_QOS_WBT",
  0); ("RQ_QOS_LATENCY", 1); ("RQ_QOS_COST", 2)].

Definition rw_hint__Type : ctype := c_schar.
Definition rw_hint : Enumeration := Build_Enumeration true rw_hint__Type [("WRITE_LIFE_NOT_SET",
  0); ("WRITE_LIFE_NONE", 1); ("WRITE_LIFE_SHORT", 2); ("WRITE_LIFE_MEDIUM", 3);
  ("WRITE_LIFE_LONG", 4); ("WRITE_LIFE_EXTREME", 5); ("WRITE_LIFE_HINT_NR", 6)].

Definition rx_handler_result__Type : ctype := c_uint.
Definition rx_handler_result : Enumeration := Build_Enumeration false rx_handler_result__Type
  [("RX_HANDLER_CONSUMED", 0); ("RX_HANDLER_ANOTHER", 1); ("RX_HANDLER_EXACT", 2);
  ("RX_HANDLER_PASS", 3)].

Definition sctp_conntrack__Type : ctype := c_uint.
Definition sctp_conntrack : Enumeration := Build_Enumeration false sctp_conntrack__Type
  [("SCTP_CONNTRACK_NONE", 0); ("SCTP_CONNTRACK_CLOSED", 1); ("SCTP_CONNTRACK_COOKIE_WAIT", 2);
  ("SCTP_CONNTRACK_COOKIE_ECHOED", 3); ("SCTP_CONNTRACK_ESTABLISHED", 4);
  ("SCTP_CONNTRACK_SHUTDOWN_SENT", 5); ("SCTP_CONNTRACK_SHUTDOWN_RECD", 6);
  ("SCTP_CONNTRACK_SHUTDOWN_ACK_SENT", 7); ("SCTP_CONNTRACK_HEARTBEAT_SENT", 8);
  ("SCTP_CONNTRACK_HEARTBEAT_ACKED", 9); ("SCTP_CONNTRACK_MAX", 10)].

Definition sk_rst_reason__Type : ctype := c_uint.
Definition sk_rst_reason : Enumeration := Build_Enumeration false sk_rst_reason__Type
  [("SK_RST_REASON_NOT_SPECIFIED", 0); ("SK_RST_REASON_NO_SOCKET", 1);
  ("SK_RST_REASON_TCP_INVALID_ACK_SEQUENCE", 2); ("SK_RST_REASON_TCP_RFC7323_PAWS", 3);
  ("SK_RST_REASON_TCP_TOO_OLD_ACK", 4); ("SK_RST_REASON_TCP_ACK_UNSENT_DATA", 5);
  ("SK_RST_REASON_TCP_FLAGS", 6); ("SK_RST_REASON_TCP_OLD_ACK", 7);
  ("SK_RST_REASON_TCP_ABORT_ON_DATA", 8); ("SK_RST_REASON_TCP_TIMEWAIT_SOCKET", 9);
  ("SK_RST_REASON_INVALID_SYN", 10); ("SK_RST_REASON_TCP_ABORT_ON_CLOSE", 11);
  ("SK_RST_REASON_TCP_ABORT_ON_LINGER", 12); ("SK_RST_REASON_TCP_ABORT_ON_MEMORY", 13);
  ("SK_RST_REASON_TCP_STATE", 14); ("SK_RST_REASON_TCP_KEEPALIVE_TIMEOUT", 15);
  ("SK_RST_REASON_TCP_DISCONNECT_WITH_DATA", 16); ("SK_RST_REASON_MPTCP_RST_EUNSPEC", 17);
  ("SK_RST_REASON_MPTCP_RST_EMPTCP", 18); ("SK_RST_REASON_MPTCP_RST_ERESOURCE", 19);
  ("SK_RST_REASON_MPTCP_RST_EPROHIBIT", 20); ("SK_RST_REASON_MPTCP_RST_EWQ2BIG", 21);
  ("SK_RST_REASON_MPTCP_RST_EBADPERF", 22); ("SK_RST_REASON_MPTCP_RST_EMIDDLEBOX", 23);
  ("SK_RST_REASON_ERROR", 24); ("SK_RST_REASON_MAX", 25)].

Definition svc_auth_status__Type : ctype := c_uint.
Definition svc_auth_status : Enumeration := Build_Enumeration false svc_auth_status__Type
  [("SVC_GARBAGE", 1); ("SVC_VALID", 2); ("SVC_NEGATIVE", 3); ("SVC_OK", 4); ("SVC_DROP", 5);
  ("SVC_CLOSE", 6); ("SVC_DENIED", 7); ("SVC_PENDING", 8); ("SVC_COMPLETE", 9)].

Definition switchdev_obj_id__Type : ctype := c_uint.
Definition switchdev_obj_id : Enumeration := Build_Enumeration false switchdev_obj_id__Type
  [("SWITCHDEV_OBJ_ID_UNDEFINED", 0); ("SWITCHDEV_OBJ_ID_PORT_VLAN", 1);
  ("SWITCHDEV_OBJ_ID_PORT_MDB", 2); ("SWITCHDEV_OBJ_ID_HOST_MDB", 3); ("SWITCHDEV_OBJ_ID_MRP",
  4); ("SWITCHDEV_OBJ_ID_RING_TEST_MRP", 5); ("SWITCHDEV_OBJ_ID_RING_ROLE_MRP", 6);
  ("SWITCHDEV_OBJ_ID_RING_STATE_MRP", 7); ("SWITCHDEV_OBJ_ID_IN_TEST_MRP", 8);
  ("SWITCHDEV_OBJ_ID_IN_ROLE_MRP", 9); ("SWITCHDEV_OBJ_ID_IN_STATE_MRP", 10)].

Definition task_work_notify_mode__Type : ctype := c_uint.
Definition task_work_notify_mode : Enumeration := Build_Enumeration false
  task_work_notify_mode__Type [("TWA_NONE", 0); ("TWA_RESUME", 1); ("TWA_SIGNAL", 2);
  ("TWA_SIGNAL_NO_IPI", 3); ("TWA_NMI_CURRENT", 4)].

Definition tc_setup_type__Type : ctype := c_uint.
Definition tc_setup_type : Enumeration := Build_Enumeration false tc_setup_type__Type
  [("TC_QUERY_CAPS", 0); ("TC_SETUP_QDISC_MQPRIO", 1); ("TC_SETUP_CLSU32", 2);
  ("TC_SETUP_CLSFLOWER", 3); ("TC_SETUP_CLSMATCHALL", 4); ("TC_SETUP_CLSBPF", 5);
  ("TC_SETUP_BLOCK", 6); ("TC_SETUP_QDISC_CBS", 7); ("TC_SETUP_QDISC_RED", 8);
  ("TC_SETUP_QDISC_PRIO", 9); ("TC_SETUP_QDISC_MQ", 10); ("TC_SETUP_QDISC_ETF", 11);
  ("TC_SETUP_ROOT_QDISC", 12); ("TC_SETUP_QDISC_GRED", 13); ("TC_SETUP_QDISC_TAPRIO", 14);
  ("TC_SETUP_FT", 15); ("TC_SETUP_QDISC_ETS", 16); ("TC_SETUP_QDISC_TBF", 17);
  ("TC_SETUP_QDISC_FIFO", 18); ("TC_SETUP_QDISC_HTB", 19); ("TC_SETUP_ACT", 20)].

Definition tca_id__Type : ctype := c_uint.
Definition tca_id : Enumeration := Build_Enumeration false tca_id__Type [("TCA_ID_UNSPEC", 0);
  ("TCA_ID_POLICE", 1); ("TCA_ID_GACT", 5); ("TCA_ID_IPT", 6); ("TCA_ID_PEDIT", 7);
  ("TCA_ID_MIRRED", 8); ("TCA_ID_NAT", 9); ("TCA_ID_XT", 10); ("TCA_ID_SKBEDIT", 11);
  ("TCA_ID_VLAN", 12); ("TCA_ID_BPF", 13); ("TCA_ID_CONNMARK", 14); ("TCA_ID_SKBMOD", 15);
  ("TCA_ID_CSUM", 16); ("TCA_ID_TUNNEL_KEY", 17); ("TCA_ID_SIMP", 22); ("TCA_ID_IFE", 25);
  ("TCA_ID_SAMPLE", 26); ("TCA_ID_CTINFO", 27); ("TCA_ID_MPLS", 28); ("TCA_ID_CT", 29);
  ("TCA_ID_GATE", 30); ("__TCA_ID_MAX", 255)].

Definition tcp_ca_event__Type : ctype := c_uint.
Definition tcp_ca_event : Enumeration := Build_Enumeration false tcp_ca_event__Type
  [("CA_EVENT_TX_START", 0); ("CA_EVENT_CWND_RESTART", 1); ("CA_EVENT_COMPLETE_CWR", 2);
  ("CA_EVENT_LOSS", 3); ("CA_EVENT_ECN_NO_CE", 4); ("CA_EVENT_ECN_IS_CE", 5)].

Definition timespec_type__Type : ctype := c_uint.
Definition timespec_type : Enumeration := Build_Enumeration false timespec_type__Type
  [("TT_NONE", 0); ("TT_NATIVE", 1); ("TT_COMPAT", 2)].

Definition tk_offsets__Type : ctype := c_uint.
Definition tk_offsets : Enumeration := Build_Enumeration false tk_offsets__Type
  [("TK_OFFS_REAL", 0); ("TK_OFFS_BOOT", 1); ("TK_OFFS_TAI", 2); ("TK_OFFS_MAX", 3)].

Definition tls_offload_ctx_dir__Type : ctype := c_uint.
Definition tls_offload_ctx_dir : Enumeration := Build_Enumeration false
  tls_offload_ctx_dir__Type [("TLS_OFFLOAD_CTX_DIR_RX", 0); ("TLS_OFFLOAD_CTX_DIR_TX", 1)].

Definition tph_mem_type__Type : ctype := c_uint.
Definition tph_mem_type : Enumeration := Build_Enumeration false tph_mem_type__Type
  [("TPH_MEM_TYPE_VM", 0); ("TPH_MEM_TYPE_PM", 1)].

Definition trace_reg__Type : ctype := c_uint.
Definition trace_reg : Enumeration := Build_Enumeration false trace_reg__Type
  [("TRACE_REG_REGISTER", 0); ("TRACE_REG_UNREGISTER", 1); ("TRACE_REG_PERF_REGISTER", 2);
  ("TRACE_REG_PERF_UNREGISTER", 3); ("TRACE_REG_PERF_OPEN", 4); ("TRACE_REG_PERF_CLOSE", 5);
  ("TRACE_REG_PERF_ADD", 6); ("TRACE_REG_PERF_DEL", 7)].

Definition tty_driver_subtype__Type : ctype := c_uint.
Definition tty_driver_subtype : Enumeration := Build_Enumeration false tty_driver_subtype__Type
  [("SYSTEM_TYPE_TTY", 1); ("SYSTEM_TYPE_CONSOLE", 2); ("SYSTEM_TYPE_SYSCONS", 3);
  ("SYSTEM_TYPE_SYSPTMX", 4); ("PTY_TYPE_MASTER", 1); ("PTY_TYPE_SLAVE", 2);
  ("SERIAL_TYPE_NORMAL", 1)].

Definition tty_driver_type__Type : ctype := c_uint.
Definition tty_driver_type : Enumeration := Build_Enumeration false tty_driver_type__Type
  [("TTY_DRIVER_TYPE_SYSTEM", 0); ("TTY_DRIVER_TYPE_CONSOLE", 1); ("TTY_DRIVER_TYPE_SERIAL", 2);
  ("TTY_DRIVER_TYPE_PTY", 3); ("TTY_DRIVER_TYPE_SCC", 4); ("TTY_DRIVER_TYPE_SYSCONS", 5)].

Definition uprobe_task_state__Type : ctype := c_uint.
Definition uprobe_task_state : Enumeration := Build_Enumeration false uprobe_task_state__Type
  [("UTASK_RUNNING", 0); ("UTASK_SSTEP", 1); ("UTASK_SSTEP_ACK", 2); ("UTASK_SSTEP_TRAPPED",
  3)].

Definition vsock_net_mode__Type : ctype := c_uint.
Definition vsock_net_mode : Enumeration := Build_Enumeration false vsock_net_mode__Type
  [("VSOCK_NET_MODE_GLOBAL", 0); ("VSOCK_NET_MODE_LOCAL", 1)].

Definition vtime_state__Type : ctype := c_uint.
Definition vtime_state : Enumeration := Build_Enumeration false vtime_state__Type
  [("VTIME_INACTIVE", 0); ("VTIME_IDLE", 1); ("VTIME_SYS", 2); ("VTIME_USER", 3);
  ("VTIME_GUEST", 4)].

Definition watch_notification_type__Type : ctype := c_uint.
Definition watch_notification_type : Enumeration := Build_Enumeration false
  watch_notification_type__Type [("WATCH_TYPE_META", 0); ("WATCH_TYPE_KEY_NOTIFY", 1);
  ("WATCH_TYPE__NR", 2)].

Definition wb_reason__Type : ctype := c_uint.
Definition wb_reason : Enumeration := Build_Enumeration false wb_reason__Type
  [("WB_REASON_BACKGROUND", 0); ("WB_REASON_VMSCAN", 1); ("WB_REASON_SYNC", 2);
  ("WB_REASON_PERIODIC", 3); ("WB_REASON_FS_FREE_SPACE", 4); ("WB_REASON_FORKER_THREAD", 5);
  ("WB_REASON_FOREIGN_FLUSH", 6); ("WB_REASON_MAX", 7)].

Definition wq_affn_scope__Type : ctype := c_uint.
Definition wq_affn_scope : Enumeration := Build_Enumeration false wq_affn_scope__Type
  [("WQ_AFFN_DFL", 0); ("WQ_AFFN_CPU", 1); ("WQ_AFFN_SMT", 2); ("WQ_AFFN_CACHE", 3);
  ("WQ_AFFN_NUMA", 4); ("WQ_AFFN_SYSTEM", 5); ("WQ_AFFN_NR_TYPES", 6)].

Definition writeback_sync_modes__Type : ctype := c_uint.
Definition writeback_sync_modes : Enumeration := Build_Enumeration false
  writeback_sync_modes__Type [("WB_SYNC_NONE", 0); ("WB_SYNC_ALL", 1)].

Definition xdp_mem_type__Type : ctype := c_uint.
Definition xdp_mem_type : Enumeration := Build_Enumeration false xdp_mem_type__Type
  [("MEM_TYPE_PAGE_SHARED", 0); ("MEM_TYPE_PAGE_ORDER0", 1); ("MEM_TYPE_PAGE_POOL", 2);
  ("MEM_TYPE_XSK_BUFF_POOL", 3); ("MEM_TYPE_MAX", 4)].

Definition xdp_rss_hash_type__Type : ctype := c_uint.
Definition xdp_rss_hash_type : Enumeration := Build_Enumeration false xdp_rss_hash_type__Type
  [("XDP_RSS_L3_IPV4", 1); ("XDP_RSS_L3_IPV6", 2); ("XDP_RSS_L3_DYNHDR", 4); ("XDP_RSS_L4", 8);
  ("XDP_RSS_L4_TCP", 16); ("XDP_RSS_L4_UDP", 32); ("XDP_RSS_L4_SCTP", 64); ("XDP_RSS_L4_IPSEC",
  128); ("XDP_RSS_L4_ICMP", 256); ("XDP_RSS_TYPE_NONE", 0); ("XDP_RSS_TYPE_L2", 0);
  ("XDP_RSS_TYPE_L3_IPV4", 1); ("XDP_RSS_TYPE_L3_IPV6", 2); ("XDP_RSS_TYPE_L3_IPV4_OPT", 5);
  ("XDP_RSS_TYPE_L3_IPV6_EX", 6); ("XDP_RSS_TYPE_L4_ANY", 8); ("XDP_RSS_TYPE_L4_IPV4_TCP", 25);
  ("XDP_RSS_TYPE_L4_IPV4_UDP", 41); ("XDP_RSS_TYPE_L4_IPV4_SCTP", 73);
  ("XDP_RSS_TYPE_L4_IPV4_IPSEC", 137); ("XDP_RSS_TYPE_L4_IPV4_ICMP", 265);
  ("XDP_RSS_TYPE_L4_IPV6_TCP", 26); ("XDP_RSS_TYPE_L4_IPV6_UDP", 42);
  ("XDP_RSS_TYPE_L4_IPV6_SCTP", 74); ("XDP_RSS_TYPE_L4_IPV6_IPSEC", 138);
  ("XDP_RSS_TYPE_L4_IPV6_ICMP", 266); ("XDP_RSS_TYPE_L4_IPV6_TCP_EX", 30);
  ("XDP_RSS_TYPE_L4_IPV6_UDP_EX", 46); ("XDP_RSS_TYPE_L4_IPV6_SCTP_EX", 78)].

Definition xfrm_replay_mode__Type : ctype := c_uint.
Definition xfrm_replay_mode : Enumeration := Build_Enumeration false xfrm_replay_mode__Type
  [("XFRM_REPLAY_MODE_LEGACY", 0); ("XFRM_REPLAY_MODE_BMP", 1); ("XFRM_REPLAY_MODE_ESN", 2)].

Definition xprtsec_policies__Type : ctype := c_uint.
Definition xprtsec_policies : Enumeration := Build_Enumeration false xprtsec_policies__Type
  [("RPC_XPRTSEC_NONE", 0); ("RPC_XPRTSEC_TLS_ANON", 1); ("RPC_XPRTSEC_TLS_X509", 2)].

Definition zone_type__Type : ctype := c_uint.
Definition zone_type : Enumeration := Build_Enumeration false zone_type__Type [("ZONE_DMA", 0);
  ("ZONE_DMA32", 1); ("ZONE_NORMAL", 2); ("ZONE_MOVABLE", 3); ("ZONE_DEVICE", 4);
  ("__MAX_NR_ZONES", 5)].

Definition audit_context__bindgen_ty_1__Type : ctype := c_uint.
Definition audit_context__bindgen_ty_1 : Enumeration := Build_Enumeration false
  audit_context__bindgen_ty_1__Type [("AUDIT_CTX_UNUSED", 0); ("AUDIT_CTX_SYSCALL", 1);
  ("AUDIT_CTX_URING", 2)].

Definition bpf_reg_state__bindgen_ty_1__bindgen_ty_6__bindgen_ty_1__Type : ctype := c_uint.
Definition bpf_reg_state__bindgen_ty_1__bindgen_ty_6__bindgen_ty_1 : Enumeration :=
  Build_Enumeration false bpf_reg_state__bindgen_ty_1__bindgen_ty_6__bindgen_ty_1__Type
  [("IRQ_NATIVE_KFUNC", 0); ("IRQ_LOCK_KFUNC", 1)].

Definition ctl_table_header__bindgen_ty_2__Type : ctype := c_uint.
Definition ctl_table_header__bindgen_ty_2 : Enumeration := Build_Enumeration false
  ctl_table_header__bindgen_ty_2__Type [("SYSCTL_TABLE_TYPE_DEFAULT", 0);
  ("SYSCTL_TABLE_TYPE_PERMANENTLY_EMPTY", 1)].

Definition dsa_port__bindgen_ty_2__Type : ctype := c_uint.
Definition dsa_port__bindgen_ty_2 : Enumeration := Build_Enumeration false
  dsa_port__bindgen_ty_2__Type [("DSA_PORT_TYPE_UNUSED", 0); ("DSA_PORT_TYPE_CPU", 1);
  ("DSA_PORT_TYPE_DSA", 2); ("DSA_PORT_TYPE_USER", 3)].

Definition mii_bus__bindgen_ty_1__Type : ctype := c_uint.
Definition mii_bus__bindgen_ty_1 : Enumeration := Build_Enumeration false
  mii_bus__bindgen_ty_1__Type [("MDIOBUS_ALLOCATED", 1); ("MDIOBUS_REGISTERED", 2);
  ("MDIOBUS_UNREGISTERED", 3); ("MDIOBUS_RELEASED", 4)].

Definition net_device_path__bindgen_ty_1__bindgen_ty_3__bindgen_ty_1__Type : ctype := c_uint.
Definition net_device_path__bindgen_ty_1__bindgen_ty_3__bindgen_ty_1 : Enumeration :=
  Build_Enumeration false net_device_path__bindgen_ty_1__bindgen_ty_3__bindgen_ty_1__Type
  [("DEV_PATH_BR_VLAN_KEEP", 0); ("DEV_PATH_BR_VLAN_TAG", 1); ("DEV_PATH_BR_VLAN_UNTAG", 2);
  ("DEV_PATH_BR_VLAN_UNTAG_HW", 3)].

Definition nfs4_stateid_struct__bindgen_ty_2__Type : ctype := c_uint.
Definition nfs4_stateid_struct__bindgen_ty_2 : Enumeration := Build_Enumeration false
  nfs4_stateid_struct__bindgen_ty_2__Type [("NFS4_INVALID_STATEID_TYPE", 0);
  ("NFS4_SPECIAL_STATEID_TYPE", 1); ("NFS4_OPEN_STATEID_TYPE", 2); ("NFS4_LOCK_STATEID_TYPE",
  3); ("NFS4_DELEGATION_STATEID_TYPE", 4); ("NFS4_LAYOUT_STATEID_TYPE", 5);
  ("NFS4_PNFS_DS_STATEID_TYPE", 6); ("NFS4_REVOKED_STATEID_TYPE", 7);
  ("NFS4_FREED_STATEID_TYPE", 8)].

(** The enumerations above. *)
Definition kernel_enums : list (string * Enumeration) := [
  ("phy_interface_t", phy_interface_t);
  ("socket_state", socket_state);
  ("audit_mode", audit_mode);
  ("audit_state", audit_state);
  ("blk_crypto_key_type", blk_crypto_key_type);
  ("blk_crypto_mode_num", blk_crypto_mode_num);
  ("blk_eh_timer_return", blk_eh_timer_return);
  ("blk_integrity_checksum", blk_integrity_checksum);
  ("blk_unique_id", blk_unique_id);
  ("bpf_access_type", bpf_access_type);
  ("bpf_arg_type", bpf_arg_type);
  ("bpf_attach_type", bpf_attach_type);
  ("bpf_cgroup_iter_order", bpf_cgroup_iter_order);
  ("bpf_dynptr_type", bpf_dynptr_type);
  ("bpf_func_id", bpf_func_id);
  ("bpf_iter_state", bpf_iter_state);
  ("bpf_iter_task_type", bpf_iter_task_type);
  ("bpf_link_type", bpf_link_type);
  ("bpf_map_type", bpf_map_type);
  ("bpf_netdev_command", bpf_netdev_command);
  ("bpf_prog_type", bpf_prog_type);
  ("bpf_reg_type", bpf_reg_type);
  ("bpf_return_type", bpf_return_type);
  ("btf_field_type", btf_field_type);
  ("cfg80211_signal_type", cfg80211_signal_type);
  ("class_map_type", class_map_type);
  ("d_real_type", d_real_type);
  ("dax_access_mode", dax_access_mode);
  ("dev_dma_attr", dev_dma_attr);
  ("dev_pm_qos_req_type", dev_pm_qos_req_type);
  ("device_link_state", device_link_state);
  ("device_physical_location_horizontal_position", device_physical_location_horizontal_position);
  ("device_physical_location_panel", device_physical_location_panel);
  ("device_physical_location_vertical_position", device_physical_location_vertical_position);
  ("device_removable", device_removable);
  ("devlink_dpipe_field_mapping_type", devlink_dpipe_field_mapping_type);
  ("devlink_eswitch_encap_mode", devlink_eswitch_encap_mode);
  ("devlink_info_version_type", devlink_info_version_type);
  ("devlink_linecard_state", devlink_linecard_state);
  ("devlink_param_cmode", devlink_param_cmode);
  ("devlink_port_flavour", devlink_port_flavour);
  ("devlink_port_fn_opstate", devlink_port_fn_opstate);
  ("devlink_port_fn_state", devlink_port_fn_state);
  ("devlink_port_type", devlink_port_type);
  ("devlink_rate_type", devlink_rate_type);
  ("devlink_reload_action", devlink_reload_action);
  ("devlink_reload_limit", devlink_reload_limit);
  ("devlink_sb_pool_type", devlink_sb_pool_type);
  ("devlink_sb_threshold_type", devlink_sb_threshold_type);
  ("devlink_selftest_status", devlink_selftest_status);
  ("devlink_trap_action", devlink_trap_action);
  ("devlink_trap_type", devlink_trap_type);
  ("dl_dev_state", dl_dev_state);
  ("dma_data_direction", dma_data_direction);
  ("dpll_pin_type", dpll_pin_type);
  ("dsa_db_type", dsa_db_type);
  ("dsa_tag_protocol", dsa_tag_protocol);
  ("elv_merge", elv_merge);
  ("environment_cap", environment_cap);
  ("ethtool_c33_pse_admin_state", ethtool_c33_pse_admin_state);
  ("ethtool_c33_pse_ext_state", ethtool_c33_pse_ext_state);
  ("ethtool_c33_pse_ext_substate_error_condition", ethtool_c33_pse_ext_substate_error_condition);
  ("ethtool_c33_pse_ext_substate_mr_pse_enable", ethtool_c33_pse_ext_substate_mr_pse_enable);
  ("ethtool_c33_pse_ext_substate_option_detect_ted", ethtool_c33_pse_ext_substate_option_detect_ted);
  ("ethtool_c33_pse_ext_substate_option_vport_lim", ethtool_c33_pse_ext_substate_option_vport_lim);
  ("ethtool_c33_pse_ext_substate_ovld_detected", ethtool_c33_pse_ext_substate_ovld_detected);
  ("ethtool_c33_pse_ext_substate_power_not_available", ethtool_c33_pse_ext_substate_power_not_available);
  ("ethtool_c33_pse_ext_substate_short_detected", ethtool_c33_pse_ext_substate_short_detected);
  ("ethtool_c33_pse_pw_d_status", ethtool_c33_pse_pw_d_status);
  ("ethtool_link_ext_state", ethtool_link_ext_state);
  ("ethtool_link_ext_substate_autoneg", ethtool_link_ext_substate_autoneg);
  ("ethtool_link_ext_substate_bad_signal_integrity", ethtool_link_ext_substate_bad_signal_integrity);
  ("ethtool_link_ext_substate_cable_issue", ethtool_link_ext_substate_cable_issue);
  ("ethtool_link_ext_substate_link_logical_mismatch", ethtool_link_ext_substate_link_logical_mismatch);
  ("ethtool_link_ext_substate_link_training", ethtool_link_ext_substate_link_training);
  ("ethtool_link_ext_substate_module", ethtool_link_ext_substate_module);
  ("ethtool_mac_stats_src", ethtool_mac_stats_src);
  ("ethtool_mm_verify_status", ethtool_mm_verify_status);
  ("ethtool_module_power_mode", ethtool_module_power_mode);
  ("ethtool_module_power_mode_policy", ethtool_module_power_mode_policy);
  ("ethtool_phys_id_state", ethtool_phys_id_state);
  ("ethtool_podl_pse_admin_state", ethtool_podl_pse_admin_state);
  ("ethtool_podl_pse_pw_d_status", ethtool_podl_pse_pw_d_status);
  ("ethtool_pse_types", ethtool_pse_types);
  ("fault_flag", fault_flag);
  ("filter_pred_fn", filter_pred_fn);
  ("flow_action_hw_stats", flow_action_hw_stats);
  ("flow_action_id", flow_action_id);
  ("flow_action_mangle_base", flow_action_mangle_base);
  ("flow_cls_command", flow_cls_command);
  ("freeze_holder", freeze_holder);
  ("freq_qos_req_type", freq_qos_req_type);
  ("fs_context_phase", fs_context_phase);
  ("fs_context_purpose", fs_context_purpose);
  ("fs_update_time", fs_update_time);
  ("fs_value_type", fs_value_type);
  ("fserror_type", fserror_type);
  ("fsnotify_group_prio", fsnotify_group_prio);
  ("ftrace_ops_cmd", ftrace_ops_cmd);
  ("handle_to_path_flags", handle_to_path_flags);
  ("hprobe_state", hprobe_state);
  ("hrtimer_restart", hrtimer_restart);
  ("hwtstamp_provider_qualifier", hwtstamp_provider_qualifier);
  ("hwtstamp_source", hwtstamp_source);
  ("ib_atomic_cap", ib_atomic_cap);
  ("ib_cq_notify_flags", ib_cq_notify_flags);
  ("ib_event_type", ib_event_type);
  ("ib_flow_action_type", ib_flow_action_type);
  ("ib_flow_attr_type", ib_flow_attr_type);
  ("ib_flow_spec_type", ib_flow_spec_type);
  ("ib_gid_type", ib_gid_type);
  ("ib_mig_state", ib_mig_state);
  ("ib_mr_type", ib_mr_type);
  ("ib_mtu", ib_mtu);
  ("ib_mw_type", ib_mw_type);
  ("ib_poll_context", ib_poll_context);
  ("ib_port_state", ib_port_state);
  ("ib_qp_state", ib_qp_state);
  ("ib_qp_type", ib_qp_type);
  ("ib_sig_err_type", ib_sig_err_type);
  ("ib_sig_type", ib_sig_type);
  ("ib_signature_type", ib_signature_type);
  ("ib_srq_attr_mask", ib_srq_attr_mask);
  ("ib_srq_type", ib_srq_type);
  ("ib_t10_dif_bg_type", ib_t10_dif_bg_type);
  ("ib_uverbs_advise_mr_advice", ib_uverbs_advise_mr_advice);
  ("ib_wc_opcode", ib_wc_opcode);
  ("ib_wc_status", ib_wc_status);
  ("ib_wq_state", ib_wq_state);
  ("ib_wq_type", ib_wq_type);
  ("ib_wr_opcode", ib_wr_opcode);
  ("ieee80211_bss_type", ieee80211_bss_type);
  ("ieee80211_edmg_bw_config", ieee80211_edmg_bw_config);
  ("ieee802154_filtering_level", ieee802154_filtering_level);
  ("inode_state_flags_enum", inode_state_flags_enum);
  ("iommu_cap", iommu_cap);
  ("iommu_dma_queue_type", iommu_dma_queue_type);
  ("iommu_domain_cookie_type", iommu_domain_cookie_type);
  ("iommu_hw_info_type", iommu_hw_info_type);
  ("iommu_hw_queue_type", iommu_hw_queue_type);
  ("iommu_viommu_type", iommu_viommu_type);
  ("iommufd_object_type", iommufd_object_type);
  ("ip_conntrack_dir", ip_conntrack_dir);
  ("irq_alloc_type", irq_alloc_type);
  ("irq_domain_bus_token", irq_domain_bus_token);
  ("irq_gc_flags", irq_gc_flags);
  ("irqchip_irq_state", irqchip_irq_state);
  ("irqreturn", irqreturn);
  ("kernel_pkey_operation", kernel_pkey_operation);
  ("kobj_ns_type", kobj_ns_type);
  ("led_brightness", led_brightness);
  ("macsec_offload", macsec_offload);
  ("macsec_validation_type", macsec_validation_type);
  ("mctp_phys_binding", mctp_phys_binding);
  ("memory_type", memory_type);
  ("metadata_type", metadata_type);
  ("migrate_mode", migrate_mode);
  ("mmap_action_type", mmap_action_type);
  ("module_state", module_state);
  ("mq_rq_state", mq_rq_state);
  ("net_device_path_type", net_device_path_type);
  ("net_shaper_binding_type", net_shaper_binding_type);
  ("net_shaper_metric", net_shaper_metric);
  ("net_shaper_scope", net_shaper_scope);
  ("netdev_lag_hash", netdev_lag_hash);
  ("netdev_lag_tx_type", netdev_lag_tx_type);
  ("netdev_ml_priv_type", netdev_ml_priv_type);
  ("netdev_stat_type", netdev_stat_type);
  ("netdev_tx", netdev_tx);
  ("nf_log_type", nf_log_type);
  ("nfs3_stable_how", nfs3_stable_how);
  ("nfs4_change_attr_type", nfs4_change_attr_type);
  ("nl80211_auth_type", nl80211_auth_type);
  ("nl80211_band", nl80211_band);
  ("nl80211_bss_select_attr", nl80211_bss_select_attr);
  ("nl80211_chan_width", nl80211_chan_width);
  ("nl80211_dfs_regions", nl80211_dfs_regions);
  ("nl80211_dfs_state", nl80211_dfs_state);
  ("nl80211_iftype", nl80211_iftype);
  ("nl80211_key_mode", nl80211_key_mode);
  ("nl80211_mfp", nl80211_mfp);
  ("nl80211_reg_initiator", nl80211_reg_initiator);
  ("nl80211_sae_pwe_mechanism", nl80211_sae_pwe_mechanism);
  ("nl80211_sar_type", nl80211_sar_type);
  ("nl80211_user_reg_hint_type", nl80211_user_reg_hint_type);
  ("nl802154_cca_modes", nl802154_cca_modes);
  ("nl802154_cca_opts", nl802154_cca_opts);
  ("nl802154_supported_bool_states", nl802154_supported_bool_states);
  ("perf_event_state", perf_event_state);
  ("phy_mse_channel", phy_mse_channel);
  ("phy_state", phy_state);
  ("phylink_op_type", phylink_op_type);
  ("pid_type", pid_type);
  ("pm_qos_type", pm_qos_type);
  ("port_pkey_state", port_pkey_state);
  ("pr_type", pr_type);
  ("print_line_t", print_line_t);
  ("priv_stack_mode", priv_stack_mode);
  ("probe_type", probe_type);
  ("pse_pi_pairset_pinout", pse_pi_pairset_pinout);
  ("quota_type", quota_type);
  ("rdma_ah_attr_type", rdma_ah_attr_type);
  ("rdma_driver_id", rdma_driver_id);
  ("rdma_link_layer", rdma_link_layer);
  ("rdma_netdev_t", rdma_netdev_t);
  ("rdma_nl_counter_mask", rdma_nl_counter_mask);
  ("rdma_nl_counter_mode", rdma_nl_counter_mode);
  ("rdma_nl_dev_type", rdma_nl_dev_type);
  ("rdma_nl_name_assign_type", rdma_nl_name_assign_type);
  ("rdma_restrack_type", rdma_restrack_type);
  ("ref_state_type", ref_state_type);
  ("reftype", reftype);
  ("regcache_type", regcache_type);
  ("regmap_endian", regmap_endian);
  ("regulator_type", regulator_type);
  ("rpm_request", rpm_request);
  ("rpm_status", rpm_status);
  ("rq_end_io_ret", rq_end_io_ret);
  ("rq_qos_id", rq_qos_id);
  ("rw_hint", rw_hint);
  ("rx_handler_result", rx_handler_result);
  ("sctp_conntrack", sctp_conntrack);
  ("sk_rst_reason", sk_rst_reason);
  ("svc_auth_status", svc_auth_status);
  ("switchdev_obj_id", switchdev_obj_id);
  ("task_work_notify_mode", task_work_notify_mode);
  ("tc_setup_type", tc_setup_type);
  ("tca_id", tca_id);
  ("tcp_ca_event", tcp_ca_event);
  ("timespec_type", timespec_type);
  ("tk_offsets", tk_offsets);
  ("tls_offload_ctx_dir", tls_offload_ctx_dir);
  ("tph_mem_type", tph_mem_type);
  ("trace_reg", trace_reg);
  ("tty_driver_subtype", tty_driver_subtype);
  ("tty_driver_type", tty_driver_type);
  ("uprobe_task_state", uprobe_task_state);
  ("vsock_net_mode", vsock_net_mode);
  ("vtime_state", vtime_state);
  ("watch_notification_type", watch_notification_type);
  ("wb_reason", wb_reason);
  ("wq_affn_scope", wq_affn_scope);
  ("writeback_sync_modes", writeback_sync_modes);
  ("xdp_mem_type", xdp_mem_type);
  ("xdp_rss_hash_type", xdp_rss_hash_type);
  ("xfrm_replay_mode", xfrm_replay_mode);
  ("xprtsec_policies", xprtsec_policies);
  ("zone_type", zone_type);
  ("audit_context__bindgen_ty_1", audit_context__bindgen_ty_1);
  ("bpf_reg_state__bindgen_ty_1__bindgen_ty_6__bindgen_ty_1", bpf_reg_state__bindgen_ty_1__bindgen_ty_6__bindgen_ty_1);
  ("ctl_table_header__bindgen_ty_2", ctl_table_header__bindgen_ty_2);
  ("dsa_port__bindgen_ty_2", dsa_port__bindgen_ty_2);
  ("mii_bus__bindgen_ty_1", mii_bus__bindgen_ty_1);
  ("net_device_path__bindgen_ty_1__bindgen_ty_3__bindgen_ty_1", net_device_path__bindgen_ty_1__bindgen_ty_3__bindgen_ty_1);
  ("nfs4_stateid_struct__bindgen_ty_2", nfs4_stateid_struct__bindgen_ty_2)].

(** ** Every constant is a value of its type *)

Definition constant_fits (e : Enumeration) (v : Z) : bool :=
  let bits := 8 * Z.of_nat (size_of (en_type e)) in
  if en_signed e then (- 2 ^ (bits - 1) <=? v) && (v <? 2 ^ (bits - 1))
  else (0 <=? v) && (v <? 2 ^ bits).

Lemma kernel_enums_fit :
  forallb (fun e => forallb (fun c => constant_fits e.2 c.2) (en_constants e.2)) kernel_enums = true.
Proof. vm_compute. reflexivity. Qed.
