(* ===== verification/KernelTypes.v ===== *)
(** * The kernel types of the program's bindings

    [src/cilium-mini-ebpf/src/vmlinux.rs]: the Ethernet and IPv4 headers, every
    structure with bit field accessors, and everything these contain by value,
    as bindgen declares them: one definition per type, a structure after the
    ones it contains.  Fields that are pointers or function pointers have the
    size of a pointer. *)

From Stdlib Require Import NArith ZArith.
From stdpp Require Import base list strings.
From S2P Require Import Prelude Layout KernelEnums.

Local Open Scope string_scope.
Local Open Scope nat_scope.

Definition sockptr_t__bindgen_ty_1 : ctype := CUnion 1 [("kernel", CPtr); ("user", CPtr)].

Definition sockptr_t : ctype := CStruct 1 [("__bindgen_anon_1", sockptr_t__bindgen_ty_1);
  ("_bitfield_align_1", CArray 0 CU8); ("_bitfield_1", __BindgenBitfieldUnit 1);
  ("__bindgen_padding_0", CArray 7 CU8)].

Definition __u32 : ctype := c_uint.

Definition u32_ : ctype := __u32.

Definition hlist_node : ctype := CStruct 1 [("next", CPtr); ("pprev", CPtr)].

Definition atomic_t : ctype := CStruct 1 [("counter", c_int)].

Definition refcount_struct : ctype := CStruct 1 [("refs", atomic_t)].

Definition refcount_t : ctype := refcount_struct.

Definition __u8 : ctype := c_uchar.

Definition sk_buff_head__bindgen_ty_1__bindgen_ty_1 : ctype := CStruct 1 [("next", CPtr);
  ("prev", CPtr)].

Definition sk_buff_list : ctype := CStruct 1 [("next", CPtr); ("prev", CPtr)].

Definition sk_buff_head__bindgen_ty_1 : ctype := CUnion 1 [("__bindgen_anon_1",
  sk_buff_head__bindgen_ty_1__bindgen_ty_1); ("list", sk_buff_list)].

Definition u8_ : ctype := __u8.

Definition qspinlock__bindgen_ty_1__bindgen_ty_1 : ctype := CStruct 1 [("locked", u8_);
  ("pending", u8_)].

Definition __u16 : ctype := c_ushort.

Definition u16_ : ctype := __u16.

Definition qspinlock__bindgen_ty_1__bindgen_ty_2 : ctype := CStruct 1 [("locked_pending", u16_);
  ("tail", u16_)].

Definition qspinlock__bindgen_ty_1 : ctype := CUnion 1 [("val", atomic_t); ("__bindgen_anon_1",
  qspinlock__bindgen_ty_1__bindgen_ty_1); ("__bindgen_anon_2",
  qspinlock__bindgen_ty_1__bindgen_ty_2)].

Definition qspinlock : ctype := CStruct 1 [("__bindgen_anon_1", qspinlock__bindgen_ty_1)].

Definition arch_spinlock_t : ctype := qspinlock.

Definition raw_spinlock : ctype := CStruct 1 [("raw_lock", arch_spinlock_t)].

Definition spinlock__bindgen_ty_1 : ctype := CUnion 1 [("rlock", raw_spinlock)].

Definition spinlock : ctype := CStruct 1 [("__bindgen_anon_1", spinlock__bindgen_ty_1)].

Definition spinlock_t : ctype := spinlock.

Definition sk_buff_head : ctype := CStruct 1 [("__bindgen_anon_1", sk_buff_head__bindgen_ty_1);
  ("qlen", __u32); ("lock", spinlock_t)].

Definition qdisc_skb_head : ctype := CStruct 1 [("head", CPtr); ("tail", CPtr); ("qlen", __u32);
  ("lock", spinlock_t)].

Definition __s64 : ctype := c_longlong.

Definition s64 : ctype := __s64.

Definition atomic64_t : ctype := CStruct 1 [("counter", s64)].

Definition atomic_long_t : ctype := atomic64_t.

Definition local_t : ctype := CStruct 1 [("a", atomic_long_t)].

Definition local64_t : ctype := CStruct 1 [("a", local_t)].

Definition u64_stats_t : ctype := CStruct 1 [("v", local64_t)].

Definition u64_stats_sync : ctype := CStruct 1 [].

Definition gnet_stats_basic_sync : ctype := CStruct 1 [("bytes", u64_stats_t); ("packets",
  u64_stats_t); ("syncp", u64_stats_sync)].

Definition bool_ : ctype := CU8.

Definition gnet_stats_queue : ctype := CStruct 1 [("qlen", __u32); ("backlog", __u32); ("drops",
  __u32); ("requeues", __u32); ("overlimits", __u32)].

Definition llist_head : ctype := CStruct 1 [("first", CPtr)].

Definition callback_head : ctype := CStruct 1 [("next", CPtr); ("func", CPtr)].

Definition netdevice_tracker : ctype := CStruct 1 [].

Definition lock_class_key : ctype := CStruct 1 [].

Definition Qdisc : ctype := CStruct 1 [("enqueue", CPtr); ("dequeue", CPtr); ("flags", c_uint);
  ("limit", u32_); ("ops", CPtr); ("stab", CPtr); ("hash", hlist_node); ("handle", u32_);
  ("parent", u32_); ("dev_queue", CPtr); ("rate_est", CPtr); ("cpu_bstats", CPtr);
  ("cpu_qstats", CPtr); ("pad", c_int); ("refcnt", refcount_t); ("_bitfield_align_1", CArray 0
  CU8); ("_bitfield_1", __BindgenBitfieldUnit 24);
  ("__cacheline_group_begin__Qdisc_read_mostly", __IncompleteArrayField __u8); ("gso_skb",
  sk_buff_head); ("next_sched", CPtr); ("skb_bad_txq", sk_buff_head);
  ("__cacheline_group_end__Qdisc_read_mostly", __IncompleteArrayField __u8);
  ("_bitfield_align_2", CArray 0 CU8); ("_bitfield_2", __BindgenBitfieldUnit 8);
  ("__cacheline_group_begin__Qdisc_write", __IncompleteArrayField __u8); ("q", qdisc_skb_head);
  ("state", c_ulong); ("bstats", gnet_stats_basic_sync); ("running", bool_); ("qstats",
  gnet_stats_queue); ("to_free", CPtr); ("__cacheline_group_end__Qdisc_write",
  __IncompleteArrayField __u8); ("_bitfield_align_3", CArray 0 CU8); ("_bitfield_3",
  __BindgenBitfieldUnit 48); ("defer_count", atomic_long_t); ("defer_list", llist_head);
  ("seqlock", spinlock_t); ("rcu", callback_head); ("dev_tracker", netdevice_tracker);
  ("root_lock_key", lock_class_key); ("_bitfield_align_4", CArray 0 CU8); ("_bitfield_4",
  __BindgenBitfieldUnit 24); ("privdata", __IncompleteArrayField c_long)].

Definition list_head : ctype := CStruct 1 [("next", CPtr); ("prev", CPtr)].

Definition kref : ctype := CStruct 1 [("refcount", refcount_t)].

Definition kobject : ctype := CStruct 1 [("name", CPtr); ("entry", list_head); ("parent", CPtr);
  ("kset", CPtr); ("ktype", CPtr); ("sd", CPtr); ("kref", kref); ("_bitfield_align_1", CArray 0
  CU8); ("_bitfield_1", __BindgenBitfieldUnit 1); ("__bindgen_padding_0", CArray 3 CU8)].

Definition pm_message : ctype := CStruct 1 [("event", c_int)].

Definition pm_message_t : ctype := pm_message.

Definition raw_spinlock_t : ctype := raw_spinlock.

Definition swait_queue_head : ctype := CStruct 1 [("lock", raw_spinlock_t); ("task_list",
  list_head)].

Definition completion : ctype := CStruct 1 [("done", c_uint); ("wait", swait_queue_head)].

Definition rb_node : ctype := CStruct 1 [("__rb_parent_color", c_ulong); ("rb_right", CPtr);
  ("rb_left", CPtr)].

Definition ktime_t : ctype := s64.

Definition timerqueue_node : ctype := CStruct 1 [("node", rb_node); ("expires", ktime_t)].

Definition hrtimer : ctype := CStruct 1 [("node", timerqueue_node); ("_softexpires", ktime_t);
  ("function", CPtr); ("base", CPtr); ("state", u8_); ("is_rel", u8_); ("is_soft", u8_);
  ("is_hard", u8_)].

Definition __u64 : ctype := c_ulonglong.

Definition u64_ : ctype := __u64.

Definition work_func_t : ctype := CPtr.

Definition work_struct : ctype := CStruct 1 [("data", atomic_long_t); ("entry", list_head);
  ("func", work_func_t)].

Definition wait_queue_head : ctype := CStruct 1 [("lock", spinlock_t); ("head", list_head)].

Definition wait_queue_head_t : ctype := wait_queue_head.

Definition dev_pm_info : ctype := CStruct 1 [("power_state", pm_message_t);
  ("_bitfield_align_1", CArray 0 CU8); ("_bitfield_1", __BindgenBitfieldUnit 2);
  ("driver_flags", u32_); ("lock", spinlock_t); ("entry", list_head); ("completion",
  completion); ("wakeup", CPtr); ("work_in_progress", bool_); ("_bitfield_align_2", CArray 0
  CU8); ("_bitfield_2", __BindgenBitfieldUnit 1); ("suspend_timer", hrtimer); ("timer_expires",
  u64_); ("work", work_struct); ("wait_queue", wait_queue_head_t); ("wakeirq", CPtr);
  ("usage_count", atomic_t); ("child_count", atomic_t); ("_bitfield_align_3", CArray 0 CU8);
  ("_bitfield_3", __BindgenBitfieldUnit 2); ("links_count", c_uint); ("request",
  rpm_request__Type); ("runtime_status", rpm_status__Type); ("last_status", rpm_status__Type);
  ("runtime_error", c_int); ("autosuspend_delay", c_int); ("last_busy", u64_); ("active_time",
  u64_); ("suspended_time", u64_); ("accounting_timestamp", u64_); ("subsys_data", CPtr);
  ("set_latency_tolerance", CPtr); ("qos", CPtr); ("_bitfield_align_4", CArray 0 CU8);
  ("_bitfield_4", __BindgenBitfieldUnit 1); ("__bindgen_padding_0", CArray 7 CU8)].

Definition device__bindgen_ty_1 : ctype := CStruct 1 [("name", CPtr); ("lock", spinlock_t)].

Definition optimistic_spin_queue : ctype := CStruct 1 [("tail", atomic_t)].

Definition mutex : ctype := CStruct 1 [("owner", atomic_long_t); ("wait_lock", raw_spinlock_t);
  ("osq", optimistic_spin_queue); ("wait_list", list_head)].

Definition dev_links_info : ctype := CStruct 1 [("suppliers", list_head); ("consumers",
  list_head); ("defer_sync", list_head); ("status", dl_dev_state__Type)].

Definition dev_msi_info : ctype := CStruct 1 [("domain", CPtr); ("data", CPtr)].

Definition dev_archdata : ctype := CStruct 1 [].

Definition __kernel_dev_t : ctype := u32_.

Definition dev_t : ctype := __kernel_dev_t.

Definition device : ctype := CStruct 1 [("kobj", kobject); ("parent", CPtr); ("p", CPtr);
  ("init_name", CPtr); ("type_", CPtr); ("bus", CPtr); ("driver", CPtr); ("platform_data",
  CPtr); ("driver_data", CPtr); ("driver_override", device__bindgen_ty_1); ("mutex", mutex);
  ("links", dev_links_info); ("power", dev_pm_info); ("pm_domain", CPtr); ("em_pd", CPtr);
  ("pins", CPtr); ("msi", dev_msi_info); ("dma_ops", CPtr); ("dma_mask", CPtr);
  ("coherent_dma_mask", u64_); ("bus_dma_limit", u64_); ("dma_range_map", CPtr); ("dma_parms",
  CPtr); ("dma_pools", list_head); ("cma_area", CPtr); ("dma_io_tlb_mem", CPtr); ("archdata",
  dev_archdata); ("of_node", CPtr); ("fwnode", CPtr); ("numa_node", c_int); ("devt", dev_t);
  ("id", u32_); ("devres_lock", spinlock_t); ("devres_head", list_head); ("class", CPtr);
  ("groups", CPtr); ("release", CPtr); ("iommu_group", CPtr); ("iommu", CPtr);
  ("physical_location", CPtr); ("removable", device_removable__Type); ("_bitfield_align_1",
  CArray 0 CU8); ("_bitfield_1", __BindgenBitfieldUnit 1); ("flags", CArray 1 c_ulong)].

Definition fred_cs : ctype := CStruct 8 [("_bitfield_align_1", CArray 0 CU16); ("_bitfield_1",
  __BindgenBitfieldUnit 3); ("__bindgen_padding_0", CArray 5 CU8)].

Definition fred_ss : ctype := CStruct 8 [("_bitfield_align_1", CArray 0 CU16); ("_bitfield_1",
  __BindgenBitfieldUnit 8)].

Definition static_key__bindgen_ty_1 : ctype := CUnion 1 [("type_", c_ulong); ("entries", CPtr);
  ("next", CPtr)].

Definition static_key : ctype := CStruct 1 [("enabled", atomic_t); ("__bindgen_anon_1",
  static_key__bindgen_ty_1)].

Definition static_key_true : ctype := CStruct 1 [("key", static_key)].

Definition static_key_false : ctype := CStruct 1 [("key", static_key)].

Definition _ddebug__bindgen_ty_1 : ctype := CUnion 1 [("dd_key_true", static_key_true);
  ("dd_key_false", static_key_false)].

Definition _ddebug : ctype := CStruct 1 [("modname", CPtr); ("function", CPtr); ("filename",
  CPtr); ("format", CPtr); ("_bitfield_align_1", CArray 0 CU32); ("_bitfield_1",
  __BindgenBitfieldUnit 4); ("key", _ddebug__bindgen_ty_1)].

Definition x86_msi_addr_lo__bindgen_ty_1__bindgen_ty_1 : ctype := CStruct 4
  [("_bitfield_align_1", CArray 0 CU16); ("_bitfield_1", __BindgenBitfieldUnit 4)].

Definition x86_msi_addr_lo__bindgen_ty_1__bindgen_ty_2 : ctype := CStruct 4
  [("_bitfield_align_1", CArray 0 CU16); ("_bitfield_1", __BindgenBitfieldUnit 4)].

Definition x86_msi_addr_hi : ctype := CStruct 1 [("_bitfield_align_1", CArray 0 CU32);
  ("_bitfield_1", __BindgenBitfieldUnit 4)].

Definition x86_msi_data__bindgen_ty_1__bindgen_ty_1 : ctype := CStruct 4 [("_bitfield_align_1",
  CArray 0 CU8); ("_bitfield_1", __BindgenBitfieldUnit 2); ("__bindgen_padding_0", CU16)].

Definition blk_status_t : ctype := u8_.

Definition blk_flush_queue : ctype := CStruct 1 [("mq_flush_lock", spinlock_t);
  ("_bitfield_align_1", CArray 0 CU8); ("_bitfield_1", __BindgenBitfieldUnit 1); ("rq_status",
  blk_status_t); ("flush_pending_since", c_ulong); ("flush_queue", CArray 2 list_head);
  ("flush_data_in_flight", c_ulong); ("flush_rq", CPtr); ("callback_head", callback_head)].

Definition blk_mq_ctx__bindgen_ty_1 : ctype := CStruct 1 [("lock", spinlock_t); ("rq_lists",
  CArray 3 list_head); ("_bitfield_align_1", CArray 0 CU8); ("_bitfield_1",
  __BindgenBitfieldUnit 8)].

Definition blk_mq_ctx : ctype := CStruct 1 [("__bindgen_anon_1", blk_mq_ctx__bindgen_ty_1);
  ("cpu", c_uint); ("index_hw", CArray 3 c_ushort); ("hctxs", CArray 3 CPtr); ("queue", CPtr);
  ("ctxs", CPtr); ("kobj", kobject); ("_bitfield_align_1", CArray 0 CU8); ("_bitfield_1",
  __BindgenBitfieldUnit 8)].

Definition blk_mq_hw_ctx__bindgen_ty_1 : ctype := CStruct 1 [("lock", spinlock_t); ("dispatch",
  list_head); ("state", c_ulong); ("_bitfield_align_1", CArray 0 CU8); ("_bitfield_1",
  __BindgenBitfieldUnit 32)].

Definition timer_list : ctype := CStruct 1 [("entry", hlist_node); ("expires", c_ulong);
  ("function", CPtr); ("flags", u32_)].

Definition delayed_work : ctype := CStruct 1 [("work", work_struct); ("timer", timer_list);
  ("wq", CPtr); ("cpu", c_int)].

Definition cpumask_var_t : ctype := CPtr.

Definition sbitmap : ctype := CStruct 1 [("depth", c_uint); ("shift", c_uint); ("map_nr",
  c_uint); ("round_robin", bool_); ("map", CPtr); ("alloc_hint", CPtr)].

Definition wait_queue_func_t : ctype := CPtr.

Definition wait_queue_entry : ctype := CStruct 1 [("flags", c_uint); ("private", CPtr); ("func",
  wait_queue_func_t); ("entry", list_head)].

Definition wait_queue_entry_t : ctype := wait_queue_entry.

Definition blk_mq_hw_ctx : ctype := CStruct 1 [("__bindgen_anon_1",
  blk_mq_hw_ctx__bindgen_ty_1); ("run_work", delayed_work); ("cpumask", cpumask_var_t);
  ("next_cpu", c_int); ("next_cpu_batch", c_int); ("flags", c_ulong); ("sched_data", CPtr);
  ("queue", CPtr); ("fq", CPtr); ("driver_data", CPtr); ("ctx_map", sbitmap); ("dispatch_from",
  CPtr); ("dispatch_busy", c_uint); ("type_", c_ushort); ("nr_ctx", c_ushort); ("ctxs", CPtr);
  ("dispatch_wait_lock", spinlock_t); ("dispatch_wait", wait_queue_entry_t); ("wait_index",
  atomic_t); ("tags", CPtr); ("sched_tags", CPtr); ("numa_node", c_uint); ("queue_num", c_uint);
  ("nr_active", atomic_t); ("cpuhp_online", hlist_node); ("cpuhp_dead", hlist_node); ("kobj",
  kobject); ("debugfs_dir", CPtr); ("sched_debugfs_dir", CPtr); ("hctx_list", list_head);
  ("_bitfield_align_1", CArray 0 CU8); ("_bitfield_1", __BindgenBitfieldUnit 32)].

Definition sk_buff__bindgen_ty_1__bindgen_ty_1__bindgen_ty_1 : ctype := CUnion 1 [("dev", CPtr);
  ("dev_scratch", c_ulong)].

Definition sk_buff__bindgen_ty_1__bindgen_ty_1 : ctype := CStruct 1 [("next", CPtr); ("prev",
  CPtr); ("__bindgen_anon_1", sk_buff__bindgen_ty_1__bindgen_ty_1__bindgen_ty_1)].

Definition llist_node : ctype := CStruct 1 [("next", CPtr)].

Definition sk_buff__bindgen_ty_1 : ctype := CUnion 1 [("__bindgen_anon_1",
  sk_buff__bindgen_ty_1__bindgen_ty_1); ("rbnode", rb_node); ("list", list_head); ("ll_node",
  llist_node)].

Definition sk_buff__bindgen_ty_2 : ctype := CUnion 1 [("tstamp", ktime_t); ("skb_mstamp_ns",
  u64_)].

Definition sk_buff__bindgen_ty_3__bindgen_ty_1 : ctype := CStruct 1 [("_skb_refdst", c_ulong);
  ("destructor", CPtr)].

Definition sk_buff__bindgen_ty_3 : ctype := CUnion 1 [("__bindgen_anon_1",
  sk_buff__bindgen_ty_3__bindgen_ty_1); ("tcp_tsorted_anchor", list_head); ("_sk_redir",
  c_ulong)].

Definition __wsum : ctype := __u32.

Definition sk_buff__bindgen_ty_4__bindgen_ty_1__bindgen_ty_1__bindgen_ty_1 : ctype := CStruct 1
  [("csum_start", __u16); ("csum_offset", __u16)].

Definition sk_buff__bindgen_ty_4__bindgen_ty_1__bindgen_ty_1 : ctype := CUnion 1 [("csum",
  __wsum); ("__bindgen_anon_1",
  sk_buff__bindgen_ty_4__bindgen_ty_1__bindgen_ty_1__bindgen_ty_1)].

Definition __be16 : ctype := __u16.

Definition sk_buff__bindgen_ty_4__bindgen_ty_1__bindgen_ty_2__bindgen_ty_1 : ctype := CStruct 1
  [("vlan_proto", __be16); ("vlan_tci", __u16)].

Definition sk_buff__bindgen_ty_4__bindgen_ty_1__bindgen_ty_2 : ctype := CUnion 1 [("vlan_all",
  u32_); ("__bindgen_anon_1", sk_buff__bindgen_ty_4__bindgen_ty_1__bindgen_ty_2__bindgen_ty_1)].

Definition sk_buff__bindgen_ty_4__bindgen_ty_1__bindgen_ty_3 : ctype := CUnion 1 [("napi_id",
  c_uint); ("sender_cpu", c_uint)].

Definition sk_buff__bindgen_ty_4__bindgen_ty_1__bindgen_ty_4 : ctype := CUnion 1 [("mark",
  __u32); ("reserved_tailroom", __u32)].

Definition sk_buff__bindgen_ty_4__bindgen_ty_1__bindgen_ty_5 : ctype := CUnion 1
  [("inner_protocol", __be16); ("inner_ipproto", __u8)].

Definition sk_buff__bindgen_ty_4__bindgen_ty_1 : ctype := CStruct 1 [("__pkt_type_offset",
  __IncompleteArrayField __u8); ("_bitfield_align_1", CArray 0 CU8); ("_bitfield_1",
  __BindgenBitfieldUnit 1); ("__mono_tc_offset", __IncompleteArrayField __u8);
  ("_bitfield_align_2", CArray 0 CU8); ("_bitfield_2", __BindgenBitfieldUnit 4); ("tc_index",
  __u16); ("alloc_cpu", u16_); ("__bindgen_anon_1",
  sk_buff__bindgen_ty_4__bindgen_ty_1__bindgen_ty_1); ("priority", __u32); ("skb_iif", c_int);
  ("hash", __u32); ("__bindgen_anon_2", sk_buff__bindgen_ty_4__bindgen_ty_1__bindgen_ty_2);
  ("__bindgen_anon_3", sk_buff__bindgen_ty_4__bindgen_ty_1__bindgen_ty_3); ("secmark", __u32);
  ("__bindgen_anon_4", sk_buff__bindgen_ty_4__bindgen_ty_1__bindgen_ty_4); ("__bindgen_anon_5",
  sk_buff__bindgen_ty_4__bindgen_ty_1__bindgen_ty_5); ("inner_transport_header", __u16);
  ("inner_network_header", __u16); ("inner_mac_header", __u16); ("protocol", __be16);
  ("transport_header", __u16); ("network_header", __u16); ("mac_header", __u16)].

Definition sk_buff__bindgen_ty_4__bindgen_ty_2__bindgen_ty_1__bindgen_ty_1 : ctype := CStruct 1
  [("csum_start", __u16); ("csum_offset", __u16)].

Definition sk_buff__bindgen_ty_4__bindgen_ty_2__bindgen_ty_1 : ctype := CUnion 1 [("csum",
  __wsum); ("__bindgen_anon_1",
  sk_buff__bindgen_ty_4__bindgen_ty_2__bindgen_ty_1__bindgen_ty_1)].

Definition sk_buff__bindgen_ty_4__bindgen_ty_2__bindgen_ty_2__bindgen_ty_1 : ctype := CStruct 1
  [("vlan_proto", __be16); ("vlan_tci", __u16)].

Definition sk_buff__bindgen_ty_4__bindgen_ty_2__bindgen_ty_2 : ctype := CUnion 1 [("vlan_all",
  u32_); ("__bindgen_anon_1", sk_buff__bindgen_ty_4__bindgen_ty_2__bindgen_ty_2__bindgen_ty_1)].

Definition sk_buff__bindgen_ty_4__bindgen_ty_2__bindgen_ty_3 : ctype := CUnion 1 [("napi_id",
  c_uint); ("sender_cpu", c_uint)].

Definition sk_buff__bindgen_ty_4__bindgen_ty_2__bindgen_ty_4 : ctype := CUnion 1 [("mark",
  __u32); ("reserved_tailroom", __u32)].

Definition sk_buff__bindgen_ty_4__bindgen_ty_2__bindgen_ty_5 : ctype := CUnion 1
  [("inner_protocol", __be16); ("inner_ipproto", __u8)].

Definition sk_buff__bindgen_ty_4__bindgen_ty_2 : ctype := CStruct 1 [("__pkt_type_offset",
  __IncompleteArrayField __u8); ("_bitfield_align_1", CArray 0 CU8); ("_bitfield_1",
  __BindgenBitfieldUnit 1); ("__mono_tc_offset", __IncompleteArrayField __u8);
  ("_bitfield_align_2", CArray 0 CU8); ("_bitfield_2", __BindgenBitfieldUnit 4); ("tc_index",
  __u16); ("alloc_cpu", u16_); ("__bindgen_anon_1",
  sk_buff__bindgen_ty_4__bindgen_ty_2__bindgen_ty_1); ("priority", __u32); ("skb_iif", c_int);
  ("hash", __u32); ("__bindgen_anon_2", sk_buff__bindgen_ty_4__bindgen_ty_2__bindgen_ty_2);
  ("__bindgen_anon_3", sk_buff__bindgen_ty_4__bindgen_ty_2__bindgen_ty_3); ("secmark", __u32);
  ("__bindgen_anon_4", sk_buff__bindgen_ty_4__bindgen_ty_2__bindgen_ty_4); ("__bindgen_anon_5",
  sk_buff__bindgen_ty_4__bindgen_ty_2__bindgen_ty_5); ("inner_transport_header", __u16);
  ("inner_network_header", __u16); ("inner_mac_header", __u16); ("protocol", __be16);
  ("transport_header", __u16); ("network_header", __u16); ("mac_header", __u16)].

Definition sk_buff__bindgen_ty_4 : ctype := CStruct 1 [("__bindgen_anon_1", __BindgenUnionField
  sk_buff__bindgen_ty_4__bindgen_ty_1); ("headers", __BindgenUnionField
  sk_buff__bindgen_ty_4__bindgen_ty_2); ("bindgen_union_field", CArray 15 CU32)].

Definition sk_buff_data_t : ctype := c_uint.

Definition sk_buff : ctype := CStruct 1 [("__bindgen_anon_1", sk_buff__bindgen_ty_1); ("sk",
  CPtr); ("__bindgen_anon_2", sk_buff__bindgen_ty_2); ("cb", CArray 48 c_char);
  ("__bindgen_anon_3", sk_buff__bindgen_ty_3); ("_nfct", c_ulong); ("len", c_uint); ("data_len",
  c_uint); ("mac_len", __u16); ("hdr_len", __u16); ("queue_mapping", __u16); ("__cloned_offset",
  __IncompleteArrayField __u8); ("_bitfield_align_1", CArray 0 CU8); ("_bitfield_1",
  __BindgenBitfieldUnit 1); ("active_extensions", __u8); ("__bindgen_anon_4",
  sk_buff__bindgen_ty_4); ("tail", sk_buff_data_t); ("end", sk_buff_data_t); ("head", CPtr);
  ("data", CPtr); ("truesize", c_uint); ("users", refcount_t); ("extensions", CPtr)].

Definition __addrpair : ctype := __u64.

Definition __be32 : ctype := __u32.

Definition sock_common__bindgen_ty_1__bindgen_ty_1 : ctype := CStruct 1 [("skc_daddr", __be32);
  ("skc_rcv_saddr", __be32)].

Definition sock_common__bindgen_ty_1 : ctype := CUnion 1 [("skc_addrpair", __addrpair);
  ("__bindgen_anon_1", sock_common__bindgen_ty_1__bindgen_ty_1)].

Definition sock_common__bindgen_ty_2 : ctype := CUnion 1 [("skc_hash", c_uint);
  ("skc_u16hashes", CArray 2 __u16)].

Definition __portpair : ctype := __u32.

Definition sock_common__bindgen_ty_3__bindgen_ty_1 : ctype := CStruct 1 [("skc_dport", __be16);
  ("skc_num", __u16)].

Definition sock_common__bindgen_ty_3 : ctype := CUnion 1 [("skc_portpair", __portpair);
  ("__bindgen_anon_1", sock_common__bindgen_ty_3__bindgen_ty_1)].

Definition sock_common__bindgen_ty_4 : ctype := CUnion 1 [("skc_bind_node", hlist_node);
  ("skc_portaddr_node", hlist_node)].

Definition possible_net_t : ctype := CStruct 1 [("net", CPtr)].

Definition in6_addr__bindgen_ty_1 : ctype := CUnion 1 [("u6_addr8", CArray 16 __u8);
  ("u6_addr16", CArray 8 __be16); ("u6_addr32", CArray 4 __be32)].

Definition in6_addr : ctype := CStruct 1 [("in6_u", in6_addr__bindgen_ty_1)].

Definition sock_common__bindgen_ty_5 : ctype := CUnion 1 [("skc_flags", c_ulong);
  ("skc_listener", CPtr); ("skc_tw_dr", CPtr)].

Definition hlist_nulls_node : ctype := CStruct 1 [("next", CPtr); ("pprev", CPtr)].

Definition sock_common__bindgen_ty_6 : ctype := CUnion 1 [("skc_node", hlist_node);
  ("skc_nulls_node", hlist_nulls_node)].

Definition sock_common__bindgen_ty_7 : ctype := CUnion 1 [("skc_incoming_cpu", c_int);
  ("skc_rcv_wnd", u32_); ("skc_tw_rcv_nxt", u32_)].

Definition sock_common__bindgen_ty_8 : ctype := CUnion 1 [("skc_rxhash", u32_);
  ("skc_window_clamp", u32_); ("skc_tw_snd_nxt", u32_)].

Definition sock_common : ctype := CStruct 1 [("__bindgen_anon_1", sock_common__bindgen_ty_1);
  ("__bindgen_anon_2", sock_common__bindgen_ty_2); ("__bindgen_anon_3",
  sock_common__bindgen_ty_3); ("skc_family", c_ushort); ("skc_state", c_uchar);
  ("_bitfield_align_1", CArray 0 CU8); ("_bitfield_1", __BindgenBitfieldUnit 1);
  ("skc_bound_dev_if", c_int); ("__bindgen_anon_4", sock_common__bindgen_ty_4); ("skc_prot",
  CPtr); ("skc_net", possible_net_t); ("skc_v6_daddr", in6_addr); ("skc_v6_rcv_saddr",
  in6_addr); ("skc_cookie", atomic64_t); ("__bindgen_anon_5", sock_common__bindgen_ty_5);
  ("skc_dontcopy_begin", __IncompleteArrayField c_int); ("__bindgen_anon_6",
  sock_common__bindgen_ty_6); ("skc_tx_queue_mapping", c_ushort); ("skc_rx_queue_mapping",
  c_ushort); ("__bindgen_anon_7", sock_common__bindgen_ty_7); ("skc_refcnt", refcount_t);
  ("skc_dontcopy_end", __IncompleteArrayField c_int); ("__bindgen_anon_8",
  sock_common__bindgen_ty_8)].

Definition __s32 : ctype := c_int.

Definition sock__bindgen_ty_1 : ctype := CStruct 1 [("rmem_alloc", atomic_t); ("len", c_int);
  ("head", CPtr); ("tail", CPtr)].

Definition sock__bindgen_ty_2 : ctype := CUnion 1 [("sk_wq", CPtr); ("sk_wq_raw", CPtr)].

Definition socket_lock_t : ctype := CStruct 1 [("slock", spinlock_t); ("owned", c_int); ("wq",
  wait_queue_head_t)].

Definition rb_root : ctype := CStruct 1 [("rb_node", CPtr)].

Definition sock__bindgen_ty_3 : ctype := CUnion 1 [("sk_send_head", CPtr); ("tcp_rtx_queue",
  rb_root)].

Definition page_frag : ctype := CStruct 1 [("page", CPtr); ("offset", __u32); ("size", __u32)].

Definition sock__bindgen_ty_4 : ctype := CUnion 1 [("sk_timer", timer_list);
  ("tcp_retransmit_timer", timer_list); ("mptcp_retransmit_timer", timer_list)].

Definition __kernel_uid32_t : ctype := c_uint.

Definition uid_t : ctype := __kernel_uid32_t.

Definition kuid_t : ctype := CStruct 1 [("val", uid_t)].

Definition netdev_features_t : ctype := u64_.

Definition gfp_t : ctype := c_uint.

Definition qrwlock__bindgen_ty_1__bindgen_ty_1 : ctype := CStruct 1 [("wlocked", u8_);
  ("__lstate", CArray 3 u8_)].

Definition qrwlock__bindgen_ty_1 : ctype := CUnion 1 [("cnts", atomic_t); ("__bindgen_anon_1",
  qrwlock__bindgen_ty_1__bindgen_ty_1)].

Definition qrwlock : ctype := CStruct 1 [("__bindgen_anon_1", qrwlock__bindgen_ty_1);
  ("wait_lock", arch_spinlock_t)].

Definition arch_rwlock_t : ctype := qrwlock.

Definition rwlock : ctype := CStruct 1 [("raw_lock", arch_rwlock_t)].

Definition rwlock_t : ctype := rwlock.

Definition sock__bindgen_ty_5__bindgen_ty_1 : ctype := CStruct 1 [("_bitfield_align_1", CArray 0
  CU8); ("_bitfield_1", __BindgenBitfieldUnit 1)].

Definition sock__bindgen_ty_5 : ctype := CUnion 1 [("sk_txrehash", u8_); ("sk_scm_recv_flags",
  u8_); ("__bindgen_anon_1", sock__bindgen_ty_5__bindgen_ty_1)].

Definition sock_cgroup_data : ctype := CStruct 1 [("cgroup", CPtr); ("classid", u32_);
  ("prioidx", u16_)].

Definition freeptr_t : ctype := CStruct 1 [("v", c_ulong)].

Definition sock__bindgen_ty_6 : ctype := CUnion 1 [("sk_rcu", callback_head); ("sk_freeptr",
  freeptr_t)].

Definition netns_tracker : ctype := CStruct 1 [].

Definition xarray : ctype := CStruct 1 [("xa_lock", spinlock_t); ("xa_flags", gfp_t);
  ("xa_head", CPtr)].

Definition sock : ctype := CStruct 1 [("__sk_common", sock_common);
  ("__cacheline_group_begin__sock_write_rx", __IncompleteArrayField __u8); ("sk_drops",
  atomic_t); ("sk_peek_off", __s32); ("sk_error_queue", sk_buff_head); ("sk_receive_queue",
  sk_buff_head); ("sk_backlog", sock__bindgen_ty_1); ("__cacheline_group_end__sock_write_rx",
  __IncompleteArrayField __u8); ("__cacheline_group_begin__sock_read_rx", __IncompleteArrayField
  __u8); ("sk_rx_dst", CPtr); ("sk_rx_dst_ifindex", c_int); ("sk_rx_dst_cookie", u32_);
  ("sk_ll_usec", c_uint); ("sk_napi_id", c_uint); ("sk_busy_poll_budget", u16_);
  ("sk_prefer_busy_poll", u8_); ("sk_userlocks", u8_); ("sk_rcvbuf", c_int); ("sk_filter",
  CPtr); ("__bindgen_anon_1", sock__bindgen_ty_2); ("sk_data_ready", CPtr); ("sk_rcvtimeo",
  c_long); ("sk_rcvlowat", c_int); ("__cacheline_group_end__sock_read_rx",
  __IncompleteArrayField __u8); ("__cacheline_group_begin__sock_read_rxtx",
  __IncompleteArrayField __u8); ("sk_err", c_int); ("sk_socket", CPtr); ("sk_memcg", CPtr);
  ("sk_policy", CArray 2 CPtr); ("psp_assoc", CPtr); ("__cacheline_group_end__sock_read_rxtx",
  __IncompleteArrayField __u8); ("__cacheline_group_begin__sock_write_rxtx",
  __IncompleteArrayField __u8); ("sk_lock", socket_lock_t); ("sk_reserved_mem", u32_);
  ("sk_forward_alloc", c_int); ("sk_tsflags", u32_); ("__cacheline_group_end__sock_write_rxtx",
  __IncompleteArrayField __u8); ("__cacheline_group_begin__sock_write_tx",
  __IncompleteArrayField __u8); ("sk_write_pending", c_int); ("sk_omem_alloc", atomic_t);
  ("sk_err_soft", c_int); ("sk_wmem_queued", c_int); ("sk_wmem_alloc", refcount_t);
  ("sk_tsq_flags", c_ulong); ("__bindgen_anon_2", sock__bindgen_ty_3); ("sk_write_queue",
  sk_buff_head); ("sk_frag", page_frag); ("__bindgen_anon_3", sock__bindgen_ty_4);
  ("sk_pacing_rate", c_ulong); ("sk_zckey", atomic_t); ("sk_tskey", atomic_t);
  ("sk_tx_queue_mapping_jiffies", c_ulong); ("__cacheline_group_end__sock_write_tx",
  __IncompleteArrayField __u8); ("__cacheline_group_begin__sock_read_tx", __IncompleteArrayField
  __u8); ("sk_dst_pending_confirm", u32_); ("sk_pacing_status", u32_); ("sk_max_pacing_rate",
  c_ulong); ("sk_sndtimeo", c_long); ("sk_priority", u32_); ("sk_mark", u32_); ("sk_uid",
  kuid_t); ("sk_protocol", u16_); ("sk_type", u16_); ("sk_dst_cache", CPtr); ("sk_route_caps",
  netdev_features_t); ("sk_validate_xmit_skb", CPtr); ("sk_gso_type", u16_); ("sk_gso_max_segs",
  u16_); ("sk_gso_max_size", c_uint); ("sk_allocation", gfp_t); ("sk_txhash", u32_);
  ("sk_sndbuf", c_int); ("sk_pacing_shift", u8_); ("sk_use_task_frag", bool_);
  ("__cacheline_group_end__sock_read_tx", __IncompleteArrayField __u8); ("_bitfield_align_1",
  CArray 0 CU8); ("_bitfield_1", __BindgenBitfieldUnit 1); ("sk_shutdown", u8_);
  ("sk_lingertime", c_ulong); ("sk_prot_creator", CPtr); ("sk_callback_lock", rwlock_t);
  ("sk_ack_backlog", u32_); ("sk_max_ack_backlog", u32_); ("sk_ino", c_ulong); ("sk_peer_lock",
  spinlock_t); ("sk_bind_phc", c_int); ("sk_peer_pid", CPtr); ("sk_peer_cred", CPtr);
  ("sk_stamp", ktime_t); ("sk_disconnects", c_int); ("__bindgen_anon_4", sock__bindgen_ty_5);
  ("sk_clockid", u8_); ("_bitfield_align_2", CArray 0 CU8); ("_bitfield_2",
  __BindgenBitfieldUnit 1); ("sk_bpf_cb_flags", u8_); ("sk_user_data", CPtr); ("sk_security",
  CPtr); ("sk_cgrp_data", sock_cgroup_data); ("sk_state_change", CPtr); ("sk_write_space",
  CPtr); ("sk_error_report", CPtr); ("sk_backlog_rcv", CPtr); ("sk_destruct", CPtr);
  ("sk_reuseport_cb", CPtr); ("sk_bpf_storage", CPtr); ("sk_drop_counters", CPtr);
  ("__bindgen_anon_5", sock__bindgen_ty_6); ("ns_tracker", netns_tracker); ("sk_user_frags",
  xarray)].

Definition bpf_func_info_aux : ctype := CStruct 1 [("linkage", u16_); ("unreliable", bool_);
  ("_bitfield_align_1", CArray 0 CU8); ("_bitfield_1", __BindgenBitfieldUnit 1)].

Definition bpf_reg_state__bindgen_ty_1__bindgen_ty_5 : ctype := CStruct 1 [("btf", CPtr);
  ("btf_id", u32_); ("_bitfield_align_1", CArray 0 CU32); ("_bitfield_1", __BindgenBitfieldUnit
  4)].

Definition __s16 : ctype := c_short.

Definition bpf_insn : ctype := CStruct 1 [("code", __u8); ("_bitfield_align_1", CArray 0 CU8);
  ("_bitfield_1", __BindgenBitfieldUnit 1); ("off", __s16); ("imm", __s32)].

Definition bpf_loop_inline_state : ctype := CStruct 1 [("_bitfield_align_1", CArray 0 CU8);
  ("_bitfield_1", __BindgenBitfieldUnit 1); ("callback_subprogno", u32_)].

Definition bpf_map_ptr_state : ctype := CStruct 1 [("map_ptr", CPtr); ("poison", bool_);
  ("unpriv", bool_)].

Definition s32 : ctype := __s32.

Definition bpf_insn_aux_data__bindgen_ty_1__bindgen_ty_1 : ctype := CStruct 1 [("map_index",
  u32_); ("map_off", u32_)].

Definition bpf_insn_aux_data__bindgen_ty_1__bindgen_ty_2__bindgen_ty_1__bindgen_ty_1 : ctype :=
  CStruct 1 [("btf", CPtr); ("btf_id", u32_)].

Definition bpf_insn_aux_data__bindgen_ty_1__bindgen_ty_2__bindgen_ty_1 : ctype := CUnion 1
  [("__bindgen_anon_1",
  bpf_insn_aux_data__bindgen_ty_1__bindgen_ty_2__bindgen_ty_1__bindgen_ty_1); ("mem_size",
  u32_)].

Definition bpf_insn_aux_data__bindgen_ty_1__bindgen_ty_2 : ctype := CStruct 1 [("reg_type",
  bpf_reg_type__Type); ("__bindgen_anon_1",
  bpf_insn_aux_data__bindgen_ty_1__bindgen_ty_2__bindgen_ty_1)].

Definition bpf_insn_aux_data__bindgen_ty_1 : ctype := CUnion 1 [("ptr_type",
  bpf_reg_type__Type); ("map_ptr_state", bpf_map_ptr_state); ("call_imm", s32); ("alu_limit",
  u32_); ("__bindgen_anon_1", bpf_insn_aux_data__bindgen_ty_1__bindgen_ty_1); ("btf_var",
  bpf_insn_aux_data__bindgen_ty_1__bindgen_ty_2); ("loop_inline_state", bpf_loop_inline_state)].

Definition bpf_insn_aux_data__bindgen_ty_2 : ctype := CUnion 1 [("obj_new_size", u64_);
  ("insert_off", u64_)].

Definition bpf_insn_aux_data : ctype := CStruct 1 [("__bindgen_anon_1",
  bpf_insn_aux_data__bindgen_ty_1); ("__bindgen_anon_2", bpf_insn_aux_data__bindgen_ty_2);
  ("jt", CPtr); ("kptr_struct_meta", CPtr); ("map_key_state", u64_); ("ctx_field_size", c_int);
  ("seen", u32_); ("nospec", bool_); ("nospec_result", bool_); ("zext_dst", bool_);
  ("needs_zext", bool_); ("non_sleepable", bool_); ("is_iter_next", bool_);
  ("call_with_percpu_alloc_ptr", bool_); ("alu_state", u8_); ("_bitfield_align_1", CArray 0
  CU8); ("_bitfield_1", __BindgenBitfieldUnit 1); ("orig_idx", c_uint); ("jmp_point", bool_);
  ("prune_point", bool_); ("force_checkpoint", bool_); ("calls_callback", bool_); ("scc", u32_);
  ("live_regs_before", u16_)].

Definition bpf_jmp_history_entry : ctype := CStruct 1 [("idx", u32_); ("_bitfield_align_1",
  CArray 0 CU32); ("_bitfield_1", __BindgenBitfieldUnit 4); ("linked_regs", u64_)].

Definition bpf_prog__bindgen_ty_1 : ctype := CUnion 1 [("digest", CArray 32 u8_); ("tag", CArray
  8 u8_)].

Definition bpf_prog__bindgen_ty_2__bindgen_ty_1__bindgen_ty_1 : ctype := CStruct 1 [].

Definition sock_filter : ctype := CStruct 1 [("code", __u16); ("jt", __u8); ("jf", __u8); ("k",
  __u32)].

Definition bpf_prog__bindgen_ty_2__bindgen_ty_1 : ctype := CStruct 1 [("__empty_insns",
  bpf_prog__bindgen_ty_2__bindgen_ty_1__bindgen_ty_1); ("insns", __IncompleteArrayField
  sock_filter)].

Definition bpf_prog__bindgen_ty_2__bindgen_ty_2__bindgen_ty_1 : ctype := CStruct 1 [].

Definition bpf_prog__bindgen_ty_2__bindgen_ty_2 : ctype := CStruct 1 [("__empty_insnsi",
  bpf_prog__bindgen_ty_2__bindgen_ty_2__bindgen_ty_1); ("insnsi", __IncompleteArrayField
  bpf_insn)].

Definition bpf_prog__bindgen_ty_2 : ctype := CStruct 1 [("__bindgen_anon_1", __BindgenUnionField
  bpf_prog__bindgen_ty_2__bindgen_ty_1); ("__bindgen_anon_2", __BindgenUnionField
  bpf_prog__bindgen_ty_2__bindgen_ty_2); ("bindgen_union_field", CArray 0 CU32)].

Definition bpf_prog : ctype := CStruct 1 [("pages", u16_); ("_bitfield_align_1", CArray 0 CU8);
  ("_bitfield_1", __BindgenBitfieldUnit 2); ("type_", bpf_prog_type__Type);
  ("expected_attach_type", bpf_attach_type__Type); ("len", u32_); ("jited_len", u32_);
  ("__bindgen_anon_1", bpf_prog__bindgen_ty_1); ("stats", CPtr); ("active", CPtr); ("bpf_func",
  CPtr); ("aux", CPtr); ("orig_prog", CPtr); ("__bindgen_anon_2", bpf_prog__bindgen_ty_2)].

Definition bpf_prog_stats : ctype := CStruct 1 [("cnt", u64_stats_t); ("nsecs", u64_stats_t);
  ("misses", u64_stats_t); ("syncp", u64_stats_sync); ("_bitfield_align_1", CArray 0 CU8);
  ("_bitfield_1", __BindgenBitfieldUnit 8)].

Definition bpf_raw_event_map : ctype := CStruct 1 [("tp", CPtr); ("bpf_func", CPtr);
  ("num_args", u32_); ("writable_size", u32_); ("_bitfield_align_1", CArray 0 CU8);
  ("_bitfield_1", __BindgenBitfieldUnit 8)].

Definition s16 : ctype := __s16.

Definition bpf_subprog_arg_info__bindgen_ty_1 : ctype := CUnion 1 [("mem_size", u32_);
  ("btf_id", u32_)].

Definition bpf_subprog_arg_info : ctype := CStruct 1 [("arg_type", bpf_arg_type__Type);
  ("__bindgen_anon_1", bpf_subprog_arg_info__bindgen_ty_1)].

Definition bpf_subprog_info : ctype := CStruct 1 [("start", u32_); ("linfo_idx", u32_);
  ("postorder_start", u32_); ("exit_idx", u32_); ("stack_depth", u16_); ("stack_extra", u16_);
  ("fastcall_stack_off", s16); ("_bitfield_align_1", CArray 0 CU8); ("_bitfield_1",
  __BindgenBitfieldUnit 2); ("priv_stack_mode", priv_stack_mode__Type); ("args", CArray 5
  bpf_subprog_arg_info)].

Definition perf_mem_data_src__bindgen_ty_1 : ctype := CStruct 8 [("_bitfield_align_1", CArray 0
  CU16); ("_bitfield_1", __BindgenBitfieldUnit 8)].

Definition perf_sample_data__bindgen_ty_1 : ctype := CStruct 1 [("pid", u32_); ("tid", u32_)].

Definition perf_sample_data__bindgen_ty_2 : ctype := CStruct 1 [("cpu", u32_); ("reserved",
  u32_)].

Definition perf_sample_weight__bindgen_ty_1 : ctype := CStruct 1 [("var1_dw", __u32); ("var2_w",
  __u16); ("var3_w", __u16)].

Definition perf_sample_weight : ctype := CUnion 1 [("full", __u64); ("__bindgen_anon_1",
  perf_sample_weight__bindgen_ty_1)].

Definition perf_mem_data_src : ctype := CUnion 1 [("val", __u64); ("__bindgen_anon_1",
  perf_mem_data_src__bindgen_ty_1)].

Definition perf_regs : ctype := CStruct 1 [("abi", __u64); ("regs", CPtr)].

Definition perf_sample_data : ctype := CStruct 1 [("sample_flags", u64_); ("period", u64_);
  ("dyn_size", u64_); ("type_", u64_); ("tid_entry", perf_sample_data__bindgen_ty_1); ("time",
  u64_); ("id", u64_); ("cpu_entry", perf_sample_data__bindgen_ty_2); ("ip", u64_);
  ("callchain", CPtr); ("raw", CPtr); ("br_stack", CPtr); ("br_stack_cntr", CPtr); ("weight",
  perf_sample_weight); ("data_src", perf_mem_data_src); ("txn", u64_); ("regs_user", perf_regs);
  ("regs_intr", perf_regs); ("stack_user_size", u64_); ("stream_id", u64_); ("cgroup", u64_);
  ("addr", u64_); ("phys_addr", u64_); ("data_page_size", u64_); ("code_page_size", u64_);
  ("aux_size", u64_); ("_bitfield_align_1", CArray 0 CU8); ("_bitfield_1", __BindgenBitfieldUnit
  32)].

Definition perf_output_handle__bindgen_ty_1__bindgen_ty_1 : ctype := CStruct 8
  [("_bitfield_align_1", CArray 0 CU8); ("_bitfield_1", __BindgenBitfieldUnit 1);
  ("__bindgen_padding_0", CArray 7 CU8)].

Definition lockdep_map : ctype := CStruct 1 [].

Definition bucket_table : ctype := CStruct 1 [("size", c_uint); ("nest", c_uint); ("hash_rnd",
  u32_); ("walkers", list_head); ("rcu", callback_head); ("future_tbl", CPtr); ("dep_map",
  lockdep_map); ("_bitfield_align_1", CArray 0 CU8); ("_bitfield_1", __BindgenBitfieldUnit 8);
  ("buckets", __IncompleteArrayField CPtr)].

Definition buffer_page : ctype := CStruct 1 [("list", list_head); ("write", local_t); ("read",
  c_uint); ("entries", local_t); ("real_end", c_ulong); ("order", c_uint); ("_bitfield_align_1",
  CArray 0 CU32); ("_bitfield_1", __BindgenBitfieldUnit 4); ("page", CPtr)].

Definition cdrom_device_info : ctype := CStruct 1 [("ops", CPtr); ("list", list_head); ("disk",
  CPtr); ("handle", CPtr); ("mask", c_int); ("speed", c_int); ("capacity", c_int);
  ("_bitfield_align_1", CArray 0 CU32); ("_bitfield_1", __BindgenBitfieldUnit 4); ("vfs_events",
  c_uint); ("ioctl_events", c_uint); ("use_count", c_int); ("name", CArray 20 c_char);
  ("_bitfield_align_2", CArray 0 CU8); ("_bitfield_2", __BindgenBitfieldUnit 1); ("cdda_method",
  c_int); ("last_sense", __u8); ("media_written", __u8); ("mmc3_profile", c_ushort);
  ("mrw_mode_page", c_int); ("opened_for_data", bool_); ("last_media_change_ms", __s64)].

Definition __s8 : ctype := c_schar.

Definition s8 : ctype := __s8.

Definition cfg80211_pmsr_capabilities__bindgen_ty_1 : ctype := CStruct 1 [("preambles", u32_);
  ("bandwidths", u32_); ("max_bursts_exponent", s8); ("max_ftms_per_burst", u8_);
  ("_bitfield_align_1", CArray 0 CU8); ("_bitfield_1", __BindgenBitfieldUnit 1);
  ("max_tx_ltf_rep", u8_); ("max_rx_ltf_rep", u8_); ("max_tx_sts", u8_); ("max_rx_sts", u8_);
  ("max_total_ltf_tx", u8_); ("max_total_ltf_rx", u8_); ("_bitfield_align_2", CArray 0 CU8);
  ("_bitfield_2", __BindgenBitfieldUnit 1); ("__bindgen_padding_0", CU16)].

Definition cfg80211_pmsr_capabilities : ctype := CStruct 1 [("max_peers", c_uint);
  ("_bitfield_align_1", CArray 0 CU8); ("_bitfield_1", __BindgenBitfieldUnit 1); ("ftm",
  cfg80211_pmsr_capabilities__bindgen_ty_1)].

Definition load_weight : ctype := CStruct 1 [("weight", c_ulong); ("inv_weight", u32_)].

Definition rb_root_cached : ctype := CStruct 1 [("rb_root", rb_root); ("rb_leftmost", CPtr)].

Definition sched_avg : ctype := CStruct 1 [("last_update_time", u64_); ("load_sum", u64_);
  ("runnable_sum", u64_); ("util_sum", u32_); ("period_contrib", u32_); ("load_avg", c_ulong);
  ("runnable_avg", c_ulong); ("util_avg", c_ulong); ("util_est", c_uint)].

Definition cfs_rq__bindgen_ty_1 : ctype := CStruct 1 [("lock", raw_spinlock_t); ("nr", c_int);
  ("load_avg", c_ulong); ("util_avg", c_ulong); ("runnable_avg", c_ulong); ("_bitfield_align_1",
  CArray 0 CU8); ("_bitfield_1", __BindgenBitfieldUnit 32)].

Definition cfs_rq : ctype := CStruct 1 [("load", load_weight); ("nr_queued", c_uint);
  ("h_nr_queued", c_uint); ("h_nr_runnable", c_uint); ("h_nr_idle", c_uint); ("sum_w_vruntime",
  s64); ("sum_weight", u64_); ("zero_vruntime", u64_); ("forceidle_seq", c_uint);
  ("zero_vruntime_fi", u64_); ("tasks_timeline", rb_root_cached); ("curr", CPtr); ("next",
  CPtr); ("_bitfield_align_1", CArray 0 CU8); ("_bitfield_1", __BindgenBitfieldUnit 24); ("avg",
  sched_avg); ("removed", cfs_rq__bindgen_ty_1); ("last_update_tg_load_avg", u64_);
  ("tg_load_avg_contrib", c_ulong); ("propagate", c_long); ("prop_runnable_sum", c_long);
  ("h_load", c_ulong); ("last_h_load_update", u64_); ("h_load_next", CPtr); ("rq", CPtr);
  ("on_list", c_int); ("leaf_cfs_rq_list", list_head); ("tg", CPtr); ("idle", c_int);
  ("runtime_enabled", c_int); ("runtime_remaining", s64); ("throttled_pelt_idle", u64_);
  ("throttled_clock", u64_); ("throttled_clock_pelt", u64_); ("throttled_clock_pelt_time",
  u64_); ("throttled_clock_self", u64_); ("throttled_clock_self_time", u64_);
  ("_bitfield_align_2", CArray 0 CU8); ("_bitfield_2", __BindgenBitfieldUnit 1);
  ("throttle_count", c_int); ("throttled_list", list_head); ("throttled_csd_list", list_head);
  ("throttled_limbo_list", list_head); ("_bitfield_align_3", CArray 0 CU8); ("_bitfield_3",
  __BindgenBitfieldUnit 40)].

Definition percpu_ref : ctype := CStruct 1 [("percpu_count_ptr", c_ulong); ("data", CPtr)].

Definition rcu_work : ctype := CStruct 1 [("work", work_struct); ("rcu", callback_head); ("wq",
  CPtr)].

Definition cgroup_subsys_state : ctype := CStruct 1 [("cgroup", CPtr); ("ss", CPtr); ("refcnt",
  percpu_ref); ("rstat_cpu", CPtr); ("sibling", list_head); ("children", list_head); ("id",
  c_int); ("flags", c_uint); ("serial_nr", u64_); ("online_cnt", atomic_t); ("destroy_work",
  work_struct); ("destroy_rwork", rcu_work); ("parent", CPtr); ("nr_descendants", c_int);
  ("rstat_flush_next", CPtr)].

Definition cgroup_file : ctype := CStruct 1 [("kn", CPtr); ("notified_at", c_ulong);
  ("notify_timer", timer_list)].

Definition cacheline_padding : ctype := CStruct 1 [("x", __IncompleteArrayField c_char)].

Definition task_cputime : ctype := CStruct 1 [("stime", u64_); ("utime", u64_);
  ("sum_exec_runtime", c_ulonglong)].

Definition cgroup_base_stat : ctype := CStruct 1 [("cputime", task_cputime); ("forceidle_sum",
  u64_); ("ntime", u64_)].

Definition prev_cputime : ctype := CStruct 1 [("utime", u64_); ("stime", u64_); ("lock",
  raw_spinlock_t)].

Definition hlist_head : ctype := CStruct 1 [("first", CPtr)].

Definition cgroup_bpf : ctype := CStruct 1 [("effective", CArray 38 CPtr); ("progs", CArray 38
  hlist_head); ("flags", CArray 38 u8_); ("revisions", CArray 38 u64_); ("storages", list_head);
  ("inactive", CPtr); ("refcnt", percpu_ref); ("release_work", work_struct)].

Definition seqcount : ctype := CStruct 1 [("sequence", c_uint)].

Definition seqcount_t : ctype := seqcount.

Definition seqcount_spinlock : ctype := CStruct 1 [("seqcount", seqcount_t)].

Definition seqcount_spinlock_t : ctype := seqcount_spinlock.

Definition cgroup_freezer_state : ctype := CStruct 1 [("freeze", bool_); ("e_freeze", bool_);
  ("nr_frozen_descendants", c_int); ("nr_frozen_tasks", c_int); ("freeze_seq",
  seqcount_spinlock_t); ("freeze_start_nsec", u64_); ("frozen_nsec", u64_)].

Definition cgroup__bindgen_ty_1__bindgen_ty_1__bindgen_ty_1 : ctype := CStruct 1 [].

Definition cgroup__bindgen_ty_1__bindgen_ty_1 : ctype := CStruct 1 [("__empty_ancestors",
  cgroup__bindgen_ty_1__bindgen_ty_1__bindgen_ty_1); ("ancestors", __IncompleteArrayField
  CPtr)].

Definition cgroup__bindgen_ty_1__bindgen_ty_2__bindgen_ty_1__bindgen_ty_1 : ctype := CStruct 1
  [].

Definition cgroup__bindgen_ty_1__bindgen_ty_2__bindgen_ty_1 : ctype := CStruct 1
  [("__empty__low_ancestors", cgroup__bindgen_ty_1__bindgen_ty_2__bindgen_ty_1__bindgen_ty_1);
  ("_low_ancestors", __IncompleteArrayField CPtr)].

Definition cgroup__bindgen_ty_1__bindgen_ty_2 : ctype := CStruct 1 [("_root_ancestor", CPtr);
  ("__bindgen_anon_1", cgroup__bindgen_ty_1__bindgen_ty_2__bindgen_ty_1)].

Definition cgroup__bindgen_ty_1 : ctype := CStruct 1 [("__bindgen_anon_1", __BindgenUnionField
  cgroup__bindgen_ty_1__bindgen_ty_1); ("__bindgen_anon_2", __BindgenUnionField
  cgroup__bindgen_ty_1__bindgen_ty_2); ("bindgen_union_field", CU64)].

Definition cgroup : ctype := CStruct 1 [("self_", cgroup_subsys_state); ("flags", c_ulong);
  ("level", c_int); ("max_depth", c_int); ("nr_descendants", c_int); ("nr_dying_descendants",
  c_int); ("max_descendants", c_int); ("nr_populated_csets", c_int);
  ("nr_populated_domain_children", c_int); ("nr_populated_threaded_children", c_int);
  ("nr_threaded_children", c_int); ("kill_seq", c_uint); ("kn", CPtr); ("procs_file",
  cgroup_file); ("events_file", cgroup_file); ("psi_files", CArray 4 cgroup_file);
  ("subtree_control", u32_); ("subtree_ss_mask", u32_); ("old_subtree_control", u32_);
  ("old_subtree_ss_mask", u32_); ("subsys", CArray 15 CPtr); ("nr_dying_subsys", CArray 15
  c_int); ("root", CPtr); ("cset_links", list_head); ("e_csets", CArray 15 list_head);
  ("dom_cgrp", CPtr); ("old_dom_cgrp", CPtr); ("rstat_base_cpu", CPtr); ("_pad_",
  cacheline_padding); ("last_bstat", cgroup_base_stat); ("bstat", cgroup_base_stat);
  ("prev_cputime", prev_cputime); ("pidlists", list_head); ("pidlist_mutex", mutex);
  ("offline_waitq", wait_queue_head_t); ("finish_destroy_work", work_struct);
  ("release_agent_work", work_struct); ("psi", CPtr); ("bpf", cgroup_bpf); ("freezer",
  cgroup_freezer_state); ("bpf_cgrp_storage", CPtr); ("__bindgen_anon_1", cgroup__bindgen_ty_1);
  ("_bitfield_align_1", CArray 0 CU8); ("_bitfield_1", __BindgenBitfieldUnit 24)].

Definition cgroup_root : ctype := CStruct 1 [("kf_root", CPtr); ("subsys_mask", c_uint);
  ("hierarchy_id", c_int); ("root_list", list_head); ("rcu", callback_head); ("nr_cgrps",
  atomic_t); ("flags", c_uint); ("release_agent_path", CArray 4096 c_char); ("name", CArray 64
  c_char); ("_bitfield_align_1", CArray 0 CU8); ("_bitfield_1", __BindgenBitfieldUnit 8);
  ("cgrp", cgroup)].

Definition idr : ctype := CStruct 1 [("idr_rt", xarray); ("idr_base", c_uint); ("idr_next",
  c_uint)].

Definition cgroup_subsys : ctype := CStruct 1 [("css_alloc", CPtr); ("css_online", CPtr);
  ("css_offline", CPtr); ("css_released", CPtr); ("css_free", CPtr); ("css_reset", CPtr);
  ("css_killed", CPtr); ("css_rstat_flush", CPtr); ("css_extra_stat_show", CPtr);
  ("css_local_stat_show", CPtr); ("can_attach", CPtr); ("cancel_attach", CPtr); ("attach",
  CPtr); ("can_fork", CPtr); ("cancel_fork", CPtr); ("fork", CPtr); ("exit", CPtr); ("release",
  CPtr); ("bind", CPtr); ("_bitfield_align_1", CArray 0 CU8); ("_bitfield_1",
  __BindgenBitfieldUnit 1); ("id", c_int); ("name", CPtr); ("legacy_name", CPtr); ("root",
  CPtr); ("css_idr", idr); ("cfts", list_head); ("dfl_cftypes", CPtr); ("legacy_cftypes", CPtr);
  ("depends_on", c_uint); ("rstat_ss_lock", spinlock_t); ("lhead", CPtr)].

Definition ethhdr : ctype := CStruct 1 [("h_dest", CArray 6 c_uchar); ("h_source", CArray 6
  c_uchar); ("h_proto", __be16)].

Definition perf_branch_entry : ctype := CStruct 1 [("from", __u64); ("to", __u64);
  ("_bitfield_align_1", CArray 0 CU32); ("_bitfield_1", __BindgenBitfieldUnit 8)].

Definition cpuidle_state_usage : ctype := CStruct 1 [("disable", c_ulonglong); ("usage",
  c_ulonglong); ("time_ns", u64_); ("above", c_ulonglong); ("below", c_ulonglong); ("rejected",
  c_ulonglong); ("s2idle_usage", c_ulonglong); ("s2idle_time", c_ulonglong)].

Definition cpuidle_device : ctype := CStruct 1 [("_bitfield_align_1", CArray 0 CU8);
  ("_bitfield_1", __BindgenBitfieldUnit 1); ("cpu", c_uint); ("next_hrtimer", ktime_t);
  ("last_state_idx", c_int); ("last_residency_ns", u64_); ("poll_limit_ns", u64_);
  ("forced_idle_latency_limit_ns", u64_); ("states_usage", CArray 10 cpuidle_state_usage);
  ("kobjs", CArray 10 CPtr); ("kobj_driver", CPtr); ("kobj_dev", CPtr); ("device_list",
  list_head)].

Definition cpuidle_state : ctype := CStruct 1 [("name", CArray 16 c_char); ("desc", CArray 32
  c_char); ("exit_latency_ns", s64); ("target_residency_ns", s64); ("flags", c_uint);
  ("exit_latency", c_uint); ("power_usage", c_int); ("target_residency", c_uint); ("enter",
  CPtr); ("enter_dead", CPtr); ("enter_s2idle", CPtr)].

Definition cpuidle_driver : ctype := CStruct 1 [("name", CPtr); ("owner", CPtr);
  ("_bitfield_align_1", CArray 0 CU8); ("_bitfield_1", __BindgenBitfieldUnit 1); ("states",
  CArray 10 cpuidle_state); ("state_count", c_int); ("safe_state_index", c_int); ("cpumask",
  CPtr); ("governor", CPtr)].

Definition tty_buffer__bindgen_ty_1 : ctype := CUnion 1 [("next", CPtr); ("free", llist_node)].

Definition tty_buffer : ctype := CStruct 1 [("__bindgen_anon_1", tty_buffer__bindgen_ty_1);
  ("used", c_uint); ("size", c_uint); ("commit", c_uint); ("lookahead", c_uint); ("read",
  c_uint); ("flags", bool_); ("__bindgen_padding_0", CArray 3 CU8); ("data",
  __IncompleteArrayField u8_)].

Definition tty_bufhead : ctype := CStruct 1 [("head", CPtr); ("work", work_struct); ("lock",
  mutex); ("priority", atomic_t); ("sentinel", tty_buffer); ("free", llist_head); ("mem_used",
  atomic_t); ("mem_limit", c_int); ("tail", CPtr)].

Definition __kfifo : ctype := CStruct 1 [("in_", c_uint); ("out", c_uint); ("mask", c_uint);
  ("esize", c_uint); ("data", CPtr)].

Definition tty_port__bindgen_ty_1__bindgen_ty_1 : ctype := CUnion 1 [("kfifo", __kfifo);
  ("type_", CPtr); ("const_type", CPtr); ("rectype", CPtr); ("ptr", CPtr); ("ptr_const", CPtr)].

Definition tty_port__bindgen_ty_1 : ctype := CStruct 1 [("__bindgen_anon_1",
  tty_port__bindgen_ty_1__bindgen_ty_1); ("buf", __IncompleteArrayField u8_)].

Definition tty_port : ctype := CStruct 1 [("buf", tty_bufhead); ("tty", CPtr); ("itty", CPtr);
  ("ops", CPtr); ("client_ops", CPtr); ("lock", spinlock_t); ("blocked_open", c_int); ("count",
  c_int); ("open_wait", wait_queue_head_t); ("delta_msr_wait", wait_queue_head_t); ("flags",
  c_ulong); ("iflags", c_ulong); ("_bitfield_align_1", CArray 0 CU8); ("_bitfield_1",
  __BindgenBitfieldUnit 1); ("mutex", mutex); ("buf_mutex", mutex); ("xmit_buf", CPtr);
  ("xmit_fifo", tty_port__bindgen_ty_1); ("close_delay", c_uint); ("closing_wait", c_uint);
  ("drain_delay", c_int); ("kref", kref); ("client_data", CPtr)].

Definition dentry_operations : ctype := CStruct 1 [("d_revalidate", CPtr); ("d_weak_revalidate",
  CPtr); ("d_hash", CPtr); ("d_compare", CPtr); ("d_delete", CPtr); ("d_init", CPtr);
  ("d_release", CPtr); ("d_prune", CPtr); ("d_iput", CPtr); ("d_dname", CPtr); ("d_automount",
  CPtr); ("d_manage", CPtr); ("d_real", CPtr); ("d_unalias_trylock", CPtr); ("d_unalias_unlock",
  CPtr); ("_bitfield_align_1", CArray 0 CU8); ("_bitfield_1", __BindgenBitfieldUnit 8)].

Definition desc_struct : ctype := CStruct 1 [("limit0", u16_); ("base0", u16_);
  ("_bitfield_align_1", CArray 0 CU8); ("_bitfield_1", __BindgenBitfieldUnit 4)].

Definition dev_iommu : ctype := CStruct 1 [("lock", mutex); ("fault_param", CPtr); ("fwspec",
  CPtr); ("iommu_dev", CPtr); ("priv_", CPtr); ("max_pasids", u32_); ("_bitfield_align_1",
  CArray 0 CU8); ("_bitfield_1", __BindgenBitfieldUnit 1); ("__bindgen_padding_0", CArray 3
  CU8)].

Definition klist : ctype := CStruct 1 [("k_lock", spinlock_t); ("k_list", list_head); ("get",
  CPtr); ("put", CPtr)].

Definition klist_node : ctype := CStruct 1 [("n_klist", CPtr); ("n_node", list_head); ("n_ref",
  kref)].

Definition driver_type : ctype := CStruct 1 [("id", CArray 16 u8_)].

Definition device_private : ctype := CStruct 1 [("klist_children", klist); ("knode_parent",
  klist_node); ("knode_driver", klist_node); ("knode_bus", klist_node); ("knode_class",
  klist_node); ("deferred_probe", list_head); ("async_driver", CPtr); ("deferred_probe_reason",
  CPtr); ("device", CPtr); ("driver_type", driver_type); ("_bitfield_align_1", CArray 0 CU8);
  ("_bitfield_1", __BindgenBitfieldUnit 1); ("__bindgen_padding_0", CArray 7 CU8)].

Definition devlink_dev_stats : ctype := CStruct 1 [("reload_stats", CArray 6 u32_);
  ("remote_reload_stats", CArray 6 u32_)].

Definition devlink : ctype := CStruct 1 [("index", u32_); ("ports", xarray); ("rate_list",
  list_head); ("sb_list", list_head); ("dpipe_table_list", list_head); ("resource_list",
  list_head); ("params", xarray); ("region_list", list_head); ("reporter_list", list_head);
  ("dpipe_headers", CPtr); ("trap_list", list_head); ("trap_group_list", list_head);
  ("trap_policer_list", list_head); ("linecard_list", list_head); ("ops", CPtr);
  ("snapshot_ids", xarray); ("stats", devlink_dev_stats); ("dev", CPtr); ("_net",
  possible_net_t); ("lock", mutex); ("lock_key", lock_class_key); ("_bitfield_align_1", CArray 0
  CU8); ("_bitfield_1", __BindgenBitfieldUnit 1); ("refcount", refcount_t); ("rwork", rcu_work);
  ("rel", CPtr); ("nested_rels", xarray); ("priv_", __IncompleteArrayField c_char)].

Definition devlink_port_pci_pf_attrs : ctype := CStruct 1 [("controller", u32_); ("pf", u16_);
  ("_bitfield_align_1", CArray 0 CU8); ("_bitfield_1", __BindgenBitfieldUnit 1);
  ("__bindgen_padding_0", CU8)].

Definition devlink_port_pci_vf_attrs : ctype := CStruct 1 [("controller", u32_); ("pf", u16_);
  ("vf", u16_); ("_bitfield_align_1", CArray 0 CU8); ("_bitfield_1", __BindgenBitfieldUnit 1);
  ("__bindgen_padding_0", CArray 3 CU8)].

Definition devlink_port_pci_sf_attrs : ctype := CStruct 1 [("controller", u32_); ("sf", u32_);
  ("pf", u16_); ("_bitfield_align_1", CArray 0 CU8); ("_bitfield_1", __BindgenBitfieldUnit 1);
  ("__bindgen_padding_0", CU8)].

Definition netdev_phys_item_id : ctype := CStruct 1 [("id", CArray 32 c_uchar); ("id_len",
  c_uchar)].

Definition devlink_port_phys_attrs : ctype := CStruct 1 [("port_number", u32_);
  ("split_subport_number", u32_)].

Definition devlink_port_attrs__bindgen_ty_1 : ctype := CUnion 1 [("phys",
  devlink_port_phys_attrs); ("pci_pf", devlink_port_pci_pf_attrs); ("pci_vf",
  devlink_port_pci_vf_attrs); ("pci_sf", devlink_port_pci_sf_attrs)].

Definition devlink_port_attrs : ctype := CStruct 1 [("_bitfield_align_1", CArray 0 CU8);
  ("_bitfield_1", __BindgenBitfieldUnit 1); ("lanes", u32_); ("flavour",
  devlink_port_flavour__Type); ("switch_id", netdev_phys_item_id); ("__bindgen_anon_1",
  devlink_port_attrs__bindgen_ty_1)].

Definition devlink_port__bindgen_ty_1__bindgen_ty_1 : ctype := CStruct 1 [("netdev", CPtr);
  ("ifindex", c_int); ("ifname", CArray 16 c_char)].

Definition devlink_port__bindgen_ty_1__bindgen_ty_2 : ctype := CStruct 1 [("ibdev", CPtr)].

Definition devlink_port__bindgen_ty_1 : ctype := CUnion 1 [("type_eth",
  devlink_port__bindgen_ty_1__bindgen_ty_1); ("type_ib",
  devlink_port__bindgen_ty_1__bindgen_ty_2)].

Definition devlink_port : ctype := CStruct 1 [("list", list_head); ("region_list", list_head);
  ("devlink", CPtr); ("ops", CPtr); ("index", c_uint); ("type_lock", spinlock_t); ("type_",
  devlink_port_type__Type); ("desired_type", devlink_port_type__Type); ("__bindgen_anon_1",
  devlink_port__bindgen_ty_1); ("attrs", devlink_port_attrs); ("_bitfield_align_1", CArray 0
  CU8); ("_bitfield_1", __BindgenBitfieldUnit 1); ("type_warn_dw", delayed_work);
  ("reporter_list", list_head); ("devlink_rate", CPtr); ("linecard", CPtr); ("rel_index",
  u32_)].

Definition devlink_port_new_attrs : ctype := CStruct 1 [("flavour", devlink_port_flavour__Type);
  ("port_index", c_uint); ("controller", u32_); ("sfnum", u32_); ("pfnum", u16_);
  ("_bitfield_align_1", CArray 0 CU8); ("_bitfield_1", __BindgenBitfieldUnit 1);
  ("__bindgen_padding_0", CU8)].

Definition page_counter : ctype := CStruct 1 [("usage", atomic_long_t); ("failcnt", c_ulong);
  ("_bitfield_align_1", CArray 0 CU8); ("_bitfield_1", __BindgenBitfieldUnit 48); ("_pad1_",
  cacheline_padding); ("emin", c_ulong); ("min_usage", atomic_long_t); ("children_min_usage",
  atomic_long_t); ("elow", c_ulong); ("low_usage", atomic_long_t); ("children_low_usage",
  atomic_long_t); ("watermark", c_ulong); ("local_watermark", c_ulong); ("_pad2_",
  cacheline_padding); ("protection_support", bool_); ("track_failcnt", bool_); ("min", c_ulong);
  ("low", c_ulong); ("high", c_ulong); ("max", c_ulong); ("parent", CPtr); ("_bitfield_align_2",
  CArray 0 CU8); ("_bitfield_2", __BindgenBitfieldUnit 16)].

Definition dql : ctype := CStruct 1 [("num_queued", c_uint); ("adj_limit", c_uint);
  ("last_obj_cnt", c_uint); ("stall_thrs", c_ushort); ("history_head", c_ulong); ("history",
  CArray 4 c_ulong); ("_bitfield_align_1", CArray 0 CU8); ("_bitfield_1", __BindgenBitfieldUnit
  8); ("limit", c_uint); ("num_completed", c_uint); ("prev_ovlimit", c_uint);
  ("prev_num_queued", c_uint); ("prev_last_obj_cnt", c_uint); ("lowest_slack", c_uint);
  ("slack_start_time", c_ulong); ("max_limit", c_uint); ("min_limit", c_uint);
  ("slack_hold_time", c_uint); ("stall_max", c_ushort); ("last_reap", c_ulong); ("stall_cnt",
  c_ulong)].

Definition dsa_port__bindgen_ty_1 : ctype := CUnion 1 [("conduit", CPtr); ("user", CPtr)].

Definition phylink_config : ctype := CStruct 1 [("dev", CPtr); ("type_", phylink_op_type__Type);
  ("poll_fixed_state", bool_); ("mac_managed_pm", bool_); ("mac_requires_rxc", bool_);
  ("default_an_inband", bool_); ("eee_rx_clk_stop_enable", bool_); ("get_fixed_state", CPtr);
  ("supported_interfaces", CArray 1 c_ulong); ("lpi_interfaces", CArray 1 c_ulong);
  ("mac_capabilities", c_ulong); ("lpi_capabilities", c_ulong); ("lpi_timer_default", u32_);
  ("eee_enabled_default", bool_); ("wol_phy_legacy", bool_); ("wol_phy_speed_ctrl", bool_);
  ("wol_mac_support", u32_)].

Definition dsa_port__bindgen_ty_3 : ctype := CUnion 1 [("vlans", list_head); ("user_vlans",
  list_head)].

Definition dsa_port : ctype := CStruct 1 [("__bindgen_anon_1", dsa_port__bindgen_ty_1);
  ("tag_ops", CPtr); ("dst", CPtr); ("rcv", CPtr); ("ds", CPtr); ("index", c_uint); ("type_",
  dsa_port__bindgen_ty_2__Type); ("name", CPtr); ("cpu_dp", CPtr); ("mac", CArray 6 u8_);
  ("stp_state", u8_); ("_bitfield_align_1", CArray 0 CU8); ("_bitfield_1", __BindgenBitfieldUnit
  1); ("dn", CPtr); ("ageing_time", c_uint); ("bridge", CPtr); ("devlink_port", devlink_port);
  ("pl", CPtr); ("pl_config", phylink_config); ("conduit_tracker", netdevice_tracker); ("lag",
  CPtr); ("hsr_dev", CPtr); ("list", list_head); ("orig_ethtool_ops", CPtr); ("addr_lists_lock",
  mutex); ("fdbs", list_head); ("mdbs", list_head); ("vlans_lock", mutex); ("__bindgen_anon_2",
  dsa_port__bindgen_ty_3)].

Definition notifier_fn_t : ctype := CPtr.

Definition notifier_block : ctype := CStruct 1 [("notifier_call", notifier_fn_t); ("next",
  CPtr); ("priority", c_int)].

Definition dsa_switch : ctype := CStruct 1 [("dev", CPtr); ("dst", CPtr); ("index", c_uint);
  ("_bitfield_align_1", CArray 0 CU8); ("_bitfield_1", __BindgenBitfieldUnit 2); ("nb",
  notifier_block); ("priv_", CPtr); ("tagger_data", CPtr); ("cd", CPtr); ("ops", CPtr);
  ("phylink_mac_ops", CPtr); ("phys_mii_mask", u32_); ("user_mii_bus", CPtr);
  ("ageing_time_min", c_uint); ("ageing_time_max", c_uint); ("tag_8021q_ctx", CPtr); ("devlink",
  CPtr); ("num_tx_queues", c_uint); ("num_lag_ids", c_uint); ("max_num_bridges", c_uint);
  ("num_ports", c_uint)].

Definition percpu_counter : ctype := CStruct 1 [("lock", raw_spinlock_t); ("count", s64);
  ("list", list_head); ("counters", CPtr)].

Definition dst_ops : ctype := CStruct 1 [("family", c_ushort); ("gc_thresh", c_uint); ("gc",
  CPtr); ("check", CPtr); ("default_advmss", CPtr); ("mtu", CPtr); ("cow_metrics", CPtr);
  ("destroy", CPtr); ("ifdown", CPtr); ("negative_advice", CPtr); ("link_failure", CPtr);
  ("update_pmtu", CPtr); ("redirect", CPtr); ("local_out", CPtr); ("neigh_lookup", CPtr);
  ("confirm_neigh", CPtr); ("kmem_cachep", CPtr); ("pcpuc_entries", percpu_counter);
  ("_bitfield_align_1", CArray 0 CU8); ("_bitfield_1", __BindgenBitfieldUnit 24)].

Definition strp_stats : ctype := CStruct 1 [("msgs", c_ulonglong); ("bytes", c_ulonglong);
  ("mem_fail", c_uint); ("need_more_hdr", c_uint); ("msg_too_big", c_uint); ("msg_timeouts",
  c_uint); ("bad_hdr_len", c_uint)].

Definition strp_callbacks : ctype := CStruct 1 [("parse_msg", CPtr); ("rcv_msg", CPtr);
  ("read_sock", CPtr); ("read_sock_done", CPtr); ("abort_parser", CPtr); ("lock", CPtr);
  ("unlock", CPtr)].

Definition strparser : ctype := CStruct 1 [("sk", CPtr); ("_bitfield_align_1", CArray 0 CU8);
  ("_bitfield_1", __BindgenBitfieldUnit 1); ("skb_nextp", CPtr); ("skb_head", CPtr);
  ("need_bytes", c_uint); ("msg_timer_work", delayed_work); ("work", work_struct); ("stats",
  strp_stats); ("cb", strp_callbacks)].

Definition ethtool_netdev_state : ctype := CStruct 1 [("rss_ctx", xarray); ("rss_lock", mutex);
  ("_bitfield_align_1", CArray 0 CU8); ("_bitfield_1", __BindgenBitfieldUnit 1);
  ("__bindgen_padding_0", CArray 7 CU8)].

Definition ethtool_ops : ctype := CStruct 1 [("_bitfield_align_1", CArray 0 CU8);
  ("_bitfield_1", __BindgenBitfieldUnit 2); ("rxfh_indir_space", u32_); ("rxfh_key_space",
  u16_); ("rxfh_priv_size", u16_); ("rxfh_max_num_contexts", u32_);
  ("supported_coalesce_params", u32_); ("supported_ring_params", u32_);
  ("supported_hwtstamp_qualifiers", u32_); ("get_drvinfo", CPtr); ("get_regs_len", CPtr);
  ("get_regs", CPtr); ("get_wol", CPtr); ("set_wol", CPtr); ("get_msglevel", CPtr);
  ("set_msglevel", CPtr); ("nway_reset", CPtr); ("get_link", CPtr); ("get_link_ext_state",
  CPtr); ("get_link_ext_stats", CPtr); ("get_eeprom_len", CPtr); ("get_eeprom", CPtr);
  ("set_eeprom", CPtr); ("get_coalesce", CPtr); ("set_coalesce", CPtr); ("get_ringparam", CPtr);
  ("set_ringparam", CPtr); ("get_pause_stats", CPtr); ("get_pauseparam", CPtr);
  ("set_pauseparam", CPtr); ("self_test", CPtr); ("get_strings", CPtr); ("set_phys_id", CPtr);
  ("get_ethtool_stats", CPtr); ("begin", CPtr); ("complete", CPtr); ("get_priv_flags", CPtr);
  ("set_priv_flags", CPtr); ("get_sset_count", CPtr); ("get_rxnfc", CPtr); ("set_rxnfc", CPtr);
  ("flash_device", CPtr); ("reset", CPtr); ("get_rx_ring_count", CPtr); ("get_rxfh_key_size",
  CPtr); ("get_rxfh_indir_size", CPtr); ("get_rxfh", CPtr); ("set_rxfh", CPtr);
  ("get_rxfh_fields", CPtr); ("set_rxfh_fields", CPtr); ("create_rxfh_context", CPtr);
  ("modify_rxfh_context", CPtr); ("remove_rxfh_context", CPtr); ("get_channels", CPtr);
  ("set_channels", CPtr); ("get_dump_flag", CPtr); ("get_dump_data", CPtr); ("set_dump", CPtr);
  ("get_ts_info", CPtr); ("get_ts_stats", CPtr); ("get_module_info", CPtr);
  ("get_module_eeprom", CPtr); ("get_eee", CPtr); ("set_eee", CPtr); ("get_tunable", CPtr);
  ("set_tunable", CPtr); ("get_per_queue_coalesce", CPtr); ("set_per_queue_coalesce", CPtr);
  ("get_link_ksettings", CPtr); ("set_link_ksettings", CPtr); ("get_fec_stats", CPtr);
  ("get_fecparam", CPtr); ("set_fecparam", CPtr); ("get_ethtool_phy_stats", CPtr);
  ("get_phy_tunable", CPtr); ("set_phy_tunable", CPtr); ("get_module_eeprom_by_page", CPtr);
  ("set_module_eeprom_by_page", CPtr); ("get_eth_phy_stats", CPtr); ("get_eth_mac_stats", CPtr);
  ("get_eth_ctrl_stats", CPtr); ("get_rmon_stats", CPtr); ("get_module_power_mode", CPtr);
  ("set_module_power_mode", CPtr); ("get_mm", CPtr); ("set_mm", CPtr); ("get_mm_stats", CPtr)].

Definition ethtool_rxfh_context : ctype := CStruct 1 [("indir_size", u32_); ("key_size", u32_);
  ("priv_size", u16_); ("hfunc", u8_); ("input_xfrm", u8_); ("_bitfield_align_1", CArray 0 CU8);
  ("_bitfield_1", __BindgenBitfieldUnit 1); ("key_off", u32_); ("__bindgen_padding_0", CArray 4
  CU8); ("data", __IncompleteArrayField u8_)].

Definition eventfs_inode__bindgen_ty_1 : ctype := CUnion 1 [("list", list_head); ("rcu",
  callback_head)].

Definition __kernel_gid32_t : ctype := c_uint.

Definition gid_t : ctype := __kernel_gid32_t.

Definition kgid_t : ctype := CStruct 1 [("val", gid_t)].

Definition eventfs_attr : ctype := CStruct 1 [("mode", c_int); ("uid", kuid_t); ("gid",
  kgid_t)].

Definition eventfs_inode : ctype := CStruct 1 [("__bindgen_anon_1",
  eventfs_inode__bindgen_ty_1); ("children", list_head); ("entries", CPtr); ("name", CPtr);
  ("entry_attrs", CPtr); ("data", CPtr); ("attr", eventfs_attr); ("kref", kref);
  ("_bitfield_align_1", CArray 0 CU32); ("_bitfield_1", __BindgenBitfieldUnit 4); ("ino",
  c_uint)].

Definition fib6_info__bindgen_ty_1 : ctype := CUnion 1 [("fib6_siblings", list_head);
  ("nh_list", list_head)].

Definition rt6key : ctype := CStruct 1 [("addr", in6_addr); ("plen", c_int)].

Definition fib_nh_common__bindgen_ty_1 : ctype := CUnion 1 [("ipv4", __be32); ("ipv6",
  in6_addr)].

Definition fib_nh_common : ctype := CStruct 1 [("nhc_dev", CPtr); ("nhc_dev_tracker",
  netdevice_tracker); ("nhc_oif", c_int); ("nhc_scope", c_uchar); ("nhc_family", u8_);
  ("nhc_gw_family", u8_); ("nhc_flags", c_uchar); ("nhc_lwtstate", CPtr); ("nhc_gw",
  fib_nh_common__bindgen_ty_1); ("nhc_weight", c_int); ("nhc_upper_bound", atomic_t);
  ("nhc_pcpu_rth_output", CPtr); ("nhc_rth_input", CPtr); ("nhc_exceptions", CPtr)].

Definition fib6_nh : ctype := CStruct 1 [("nh_common", fib_nh_common); ("last_probe", c_ulong);
  ("rt6i_pcpu", CPtr); ("rt6i_exception_bucket", CPtr)].

Definition fib6_info : ctype := CStruct 1 [("fib6_table", CPtr); ("fib6_next", CPtr);
  ("fib6_node", CPtr); ("__bindgen_anon_1", fib6_info__bindgen_ty_1); ("fib6_nsiblings",
  c_uint); ("fib6_ref", refcount_t); ("expires", c_ulong); ("gc_link", hlist_node);
  ("fib6_metrics", CPtr); ("fib6_dst", rt6key); ("fib6_flags", u32_); ("fib6_src", rt6key);
  ("fib6_prefsrc", rt6key); ("fib6_metric", u32_); ("fib6_protocol", u8_); ("fib6_type", u8_);
  ("offload", u8_); ("trap", u8_); ("offload_failed", u8_); ("_bitfield_align_1", CArray 0 CU8);
  ("_bitfield_1", __BindgenBitfieldUnit 1); ("purge_link", list_head); ("rcu", callback_head);
  ("nh", CPtr); ("fib6_nh", __IncompleteArrayField fib6_nh)].

Definition file_kattr : ctype := CStruct 1 [("flags", u32_); ("fsx_xflags", u32_);
  ("fsx_extsize", u32_); ("fsx_nextents", u32_); ("fsx_projid", u32_); ("fsx_cowextsize", u32_);
  ("_bitfield_align_1", CArray 0 CU8); ("_bitfield_1", __BindgenBitfieldUnit 1);
  ("__bindgen_padding_0", CArray 3 CU8)].

Definition fdtable : ctype := CStruct 1 [("max_fds", c_uint); ("fd", CPtr); ("close_on_exec",
  CPtr); ("open_fds", CPtr); ("full_fds_bits", CPtr); ("rcu", callback_head)].

Definition files_struct : ctype := CStruct 1 [("count", atomic_t); ("resize_in_progress",
  bool_); ("resize_wait", wait_queue_head_t); ("fdt", CPtr); ("fdtab", fdtable);
  ("_bitfield_align_1", CArray 0 CU8); ("_bitfield_1", __BindgenBitfieldUnit 32); ("file_lock",
  spinlock_t); ("next_fd", c_uint); ("close_on_exec_init", CArray 1 c_ulong); ("open_fds_init",
  CArray 1 c_ulong); ("full_fds_bits_init", CArray 1 c_ulong); ("fd_array", CArray 64 CPtr);
  ("_bitfield_align_2", CArray 0 CU8); ("_bitfield_2", __BindgenBitfieldUnit 32)].

Definition regulator_state : ctype := CStruct 1 [("uV", c_int); ("min_uV", c_int); ("max_uV",
  c_int); ("mode", c_uint); ("enabled", c_int); ("changeable", bool_)].

Definition notification_limit : ctype := CStruct 1 [("prot", c_int); ("err", c_int); ("warn",
  c_int)].

Definition suspend_state_t : ctype := c_int.

Definition regulation_constraints : ctype := CStruct 1 [("name", CPtr); ("min_uV", c_int);
  ("max_uV", c_int); ("uV_offset", c_int); ("min_uA", c_int); ("max_uA", c_int); ("ilim_uA",
  c_int); ("pw_budget_mW", c_int); ("system_load", c_int); ("max_spread", CPtr); ("max_uV_step",
  c_int); ("valid_modes_mask", c_uint); ("valid_ops_mask", c_uint); ("input_uV", c_int);
  ("state_disk", regulator_state); ("state_mem", regulator_state); ("state_standby",
  regulator_state); ("over_curr_limits", notification_limit); ("over_voltage_limits",
  notification_limit); ("under_voltage_limits", notification_limit); ("temp_limits",
  notification_limit); ("initial_state", suspend_state_t); ("initial_mode", c_uint);
  ("ramp_delay", c_uint); ("settling_time", c_uint); ("settling_time_up", c_uint);
  ("settling_time_down", c_uint); ("enable_time", c_uint); ("uv_less_critical_window_ms",
  c_uint); ("active_discharge", c_uint); ("_bitfield_align_1", CArray 0 CU8); ("_bitfield_1",
  __BindgenBitfieldUnit 2); ("__bindgen_padding_0", CU16)].

Definition rht_hashfn_t : ctype := CPtr.

Definition rht_obj_hashfn_t : ctype := CPtr.

Definition rht_obj_cmpfn_t : ctype := CPtr.

Definition rhashtable_params : ctype := CStruct 1 [("nelem_hint", u16_); ("key_len", u16_);
  ("key_offset", u16_); ("head_offset", u16_); ("max_size", c_uint); ("min_size", u16_);
  ("automatic_shrinking", bool_); ("hashfn", rht_hashfn_t); ("obj_hashfn", rht_obj_hashfn_t);
  ("obj_cmpfn", rht_obj_cmpfn_t)].

Definition rhashtable : ctype := CStruct 1 [("tbl", CPtr); ("key_len", c_uint); ("max_elems",
  c_uint); ("p", rhashtable_params); ("rhlist", bool_); ("run_work", work_struct); ("mutex",
  mutex); ("lock", spinlock_t); ("nelems", atomic_t)].

Definition fqdir : ctype := CStruct 1 [("high_thresh", c_long); ("low_thresh", c_long);
  ("timeout", c_int); ("max_dist", c_int); ("f", CPtr); ("net", CPtr); ("dead", bool_);
  ("_bitfield_align_1", CArray 0 CU8); ("_bitfield_1", __BindgenBitfieldUnit 16); ("rhashtable",
  rhashtable); ("_bitfield_align_2", CArray 0 CU8); ("_bitfield_2", __BindgenBitfieldUnit 56);
  ("mem", atomic_long_t); ("destroy_work", work_struct); ("free_list", llist_node);
  ("_bitfield_align_3", CArray 0 CU8); ("_bitfield_3", __BindgenBitfieldUnit 16)].

Definition p_log : ctype := CStruct 1 [("prefix", CPtr); ("log", CPtr)].

Definition fs_context : ctype := CStruct 1 [("ops", CPtr); ("uapi_mutex", mutex); ("fs_type",
  CPtr); ("fs_private", CPtr); ("sget_key", CPtr); ("root", CPtr); ("user_ns", CPtr); ("net_ns",
  CPtr); ("cred", CPtr); ("log", p_log); ("source", CPtr); ("security", CPtr); ("s_fs_info",
  CPtr); ("sb_flags", c_uint); ("sb_flags_mask", c_uint); ("s_iflags", c_uint);
  ("_bitfield_align_1", CArray 0 CU8); ("_bitfield_1", __BindgenBitfieldUnit 3);
  ("__bindgen_padding_0", CU8)].

Definition fs_parameter__bindgen_ty_1 : ctype := CUnion 1 [("string", CPtr); ("blob", CPtr);
  ("name", CPtr); ("file", CPtr)].

Definition fs_parameter : ctype := CStruct 1 [("key", CPtr); ("_bitfield_align_1", CArray 0
  CU8); ("_bitfield_1", __BindgenBitfieldUnit 1); ("__bindgen_anon_1",
  fs_parameter__bindgen_ty_1); ("size", CU64); ("dirfd", c_int)].

Definition fscrypt_operations : ctype := CStruct 1 [("inode_info_offs", CU64);
  ("_bitfield_align_1", CArray 0 CU8); ("_bitfield_1", __BindgenBitfieldUnit 1);
  ("legacy_key_prefix", CPtr); ("get_context", CPtr); ("set_context", CPtr);
  ("get_dummy_policy", CPtr); ("empty_dir", CPtr); ("has_stable_inodes", CPtr); ("get_devices",
  CPtr)].

Definition ftrace_event_field : ctype := CStruct 1 [("link", list_head); ("name", CPtr);
  ("type_", CPtr); ("filter_type", c_int); ("offset", c_int); ("size", c_int);
  ("_bitfield_align_1", CArray 0 CU8); ("_bitfield_1", __BindgenBitfieldUnit 1); ("len",
  c_int)].

Definition plist_head : ctype := CStruct 1 [("node_list", list_head)].

Definition futex_hash_bucket : ctype := CStruct 1 [("waiters", atomic_t); ("lock", spinlock_t);
  ("chain", plist_head); ("priv_", CPtr); ("_bitfield_align_1", CArray 0 CU8); ("_bitfield_1",
  __BindgenBitfieldUnit 32)].

Definition futex_private_hash : ctype := CStruct 1 [("state", c_int); ("hash_mask", c_uint);
  ("rcu", callback_head); ("mm", CPtr); ("custom", bool_); ("_bitfield_align_1", CArray 0 CU8);
  ("_bitfield_1", __BindgenBitfieldUnit 24); ("queues", __IncompleteArrayField
  futex_hash_bucket)].

Definition ioapic_alloc_info : ctype := CStruct 1 [("pin", c_int); ("node", c_int);
  ("_bitfield_align_1", CArray 0 CU8); ("_bitfield_1", __BindgenBitfieldUnit 1);
  ("__bindgen_padding_0", CArray 3 CU8)].

Definition __kernel_clockid_t : ctype := c_int.

Definition clockid_t : ctype := __kernel_clockid_t.

Definition seqcount_raw_spinlock : ctype := CStruct 1 [("seqcount", seqcount_t)].

Definition seqcount_raw_spinlock_t : ctype := seqcount_raw_spinlock.

Definition timerqueue_head : ctype := CStruct 1 [("rb_root", rb_root_cached)].

Definition hrtimer_clock_base : ctype := CStruct 1 [("cpu_base", CPtr); ("index", c_uint);
  ("clockid", clockid_t); ("seq", seqcount_raw_spinlock_t); ("running", CPtr); ("active",
  timerqueue_head); ("offset", ktime_t); ("_bitfield_align_1", CArray 0 CU8); ("_bitfield_1",
  __BindgenBitfieldUnit 8)].

Definition __call_single_node__bindgen_ty_1 : ctype := CUnion 1 [("u_flags", c_uint);
  ("a_flags", atomic_t)].

Definition __call_single_node : ctype := CStruct 1 [("llist", llist_node); ("__bindgen_anon_1",
  __call_single_node__bindgen_ty_1); ("src", u16_); ("dst", u16_)].

Definition smp_call_func_t : ctype := CPtr.

Definition __call_single_data : ctype := CStruct 1 [("node", __call_single_node); ("func",
  smp_call_func_t); ("info", CPtr)].

Definition call_single_data_t : ctype := __call_single_data.

Definition hrtimer_cpu_base : ctype := CStruct 1 [("lock", raw_spinlock_t); ("cpu", c_uint);
  ("active_bases", c_uint); ("clock_was_set_seq", c_uint); ("_bitfield_align_1", CArray 0 CU8);
  ("_bitfield_1", __BindgenBitfieldUnit 1); ("nr_events", c_uint); ("nr_retries", c_ushort);
  ("nr_hangs", c_ushort); ("max_hang_time", c_uint); ("expires_next", ktime_t); ("next_timer",
  CPtr); ("softirq_expires_next", ktime_t); ("softirq_next_timer", CPtr); ("clock_base", CArray
  8 hrtimer_clock_base); ("csd", call_single_data_t); ("_bitfield_align_2", CArray 0 CU8);
  ("_bitfield_2", __BindgenBitfieldUnit 32)].

Definition rdma_restrack_entry : ctype := CStruct 1 [("valid", bool_); ("_bitfield_align_1",
  CArray 0 CU8); ("_bitfield_1", __BindgenBitfieldUnit 1); ("kref", kref); ("comp", completion);
  ("task", CPtr); ("kern_name", CPtr); ("type_", rdma_restrack_type__Type); ("user", bool_);
  ("id", u32_)].

Definition ib_comp_handler : ctype := CPtr.

Definition irq_poll_fn : ctype := CPtr.

Definition irq_poll : ctype := CStruct 1 [("list", list_head); ("state", c_ulong); ("weight",
  c_int); ("poll", irq_poll_fn)].

Definition ib_cq__bindgen_ty_1 : ctype := CUnion 1 [("iop", irq_poll); ("work", work_struct)].

Definition ib_cq : ctype := CStruct 1 [("device", CPtr); ("uobject", CPtr); ("comp_handler",
  ib_comp_handler); ("event_handler", CPtr); ("cq_context", CPtr); ("cqe", c_int); ("cqe_used",
  c_uint); ("usecnt", atomic_t); ("poll_ctx", ib_poll_context__Type); ("wc", CPtr);
  ("pool_entry", list_head); ("__bindgen_anon_1", ib_cq__bindgen_ty_1); ("comp_wq", CPtr);
  ("dim", CPtr); ("timestamp", ktime_t); ("_bitfield_align_1", CArray 0 CU8); ("_bitfield_1",
  __BindgenBitfieldUnit 1); ("comp_vector", c_uint); ("res", rdma_restrack_entry)].

Definition ib_device_ops : ctype := CStruct 1 [("owner", CPtr); ("driver_id",
  rdma_driver_id__Type); ("uverbs_abi_ver", u32_); ("_bitfield_align_1", CArray 0 CU8);
  ("_bitfield_1", __BindgenBitfieldUnit 1); ("device_group", CPtr); ("port_groups", CPtr);
  ("post_send", CPtr); ("post_recv", CPtr); ("drain_rq", CPtr); ("drain_sq", CPtr); ("poll_cq",
  CPtr); ("peek_cq", CPtr); ("req_notify_cq", CPtr); ("post_srq_recv", CPtr); ("process_mad",
  CPtr); ("query_device", CPtr); ("modify_device", CPtr); ("get_dev_fw_str", CPtr);
  ("get_vector_affinity", CPtr); ("query_port", CPtr); ("query_port_speed", CPtr);
  ("modify_port", CPtr); ("get_port_immutable", CPtr); ("get_link_layer", CPtr); ("get_netdev",
  CPtr); ("alloc_rdma_netdev", CPtr); ("rdma_netdev_get_params", CPtr); ("query_gid", CPtr);
  ("add_gid", CPtr); ("del_gid", CPtr); ("query_pkey", CPtr); ("alloc_ucontext", CPtr);
  ("dealloc_ucontext", CPtr); ("mmap", CPtr); ("mmap_free", CPtr); ("mmap_get_pfns", CPtr);
  ("pgoff_to_mmap_entry", CPtr); ("disassociate_ucontext", CPtr); ("alloc_pd", CPtr);
  ("dealloc_pd", CPtr); ("create_ah", CPtr); ("create_user_ah", CPtr); ("modify_ah", CPtr);
  ("query_ah", CPtr); ("destroy_ah", CPtr); ("create_srq", CPtr); ("modify_srq", CPtr);
  ("query_srq", CPtr); ("destroy_srq", CPtr); ("create_qp", CPtr); ("modify_qp", CPtr);
  ("query_qp", CPtr); ("destroy_qp", CPtr); ("create_cq", CPtr); ("create_cq_umem", CPtr);
  ("modify_cq", CPtr); ("destroy_cq", CPtr); ("resize_cq", CPtr); ("pre_destroy_cq", CPtr);
  ("post_destroy_cq", CPtr); ("get_dma_mr", CPtr); ("reg_user_mr", CPtr); ("reg_user_mr_dmabuf",
  CPtr); ("rereg_user_mr", CPtr); ("dereg_mr", CPtr); ("alloc_mr", CPtr); ("alloc_mr_integrity",
  CPtr); ("advise_mr", CPtr); ("map_mr_sg", CPtr); ("check_mr_status", CPtr); ("alloc_mw",
  CPtr); ("dealloc_mw", CPtr); ("attach_mcast", CPtr); ("detach_mcast", CPtr); ("alloc_xrcd",
  CPtr); ("dealloc_xrcd", CPtr); ("create_flow", CPtr); ("destroy_flow", CPtr);
  ("destroy_flow_action", CPtr); ("set_vf_link_state", CPtr); ("get_vf_config", CPtr);
  ("get_vf_stats", CPtr); ("get_vf_guid", CPtr); ("set_vf_guid", CPtr); ("create_wq", CPtr);
  ("destroy_wq", CPtr); ("modify_wq", CPtr); ("create_rwq_ind_table", CPtr);
  ("destroy_rwq_ind_table", CPtr); ("alloc_dm", CPtr); ("dealloc_dm", CPtr); ("alloc_dmah",
  CPtr); ("dealloc_dmah", CPtr); ("reg_dm_mr", CPtr); ("create_counters", CPtr);
  ("destroy_counters", CPtr); ("read_counters", CPtr); ("map_mr_sg_pi", CPtr);
  ("alloc_hw_device_stats", CPtr); ("alloc_hw_port_stats", CPtr); ("get_hw_stats", CPtr);
  ("modify_hw_stat", CPtr); ("fill_res_mr_entry", CPtr); ("fill_res_mr_entry_raw", CPtr);
  ("fill_res_cq_entry", CPtr); ("fill_res_cq_entry_raw", CPtr); ("fill_res_qp_entry", CPtr);
  ("fill_res_qp_entry_raw", CPtr); ("fill_res_cm_id_entry", CPtr); ("fill_res_srq_entry", CPtr);
  ("fill_res_srq_entry_raw", CPtr); ("enable_driver", CPtr); ("dealloc_driver", CPtr);
  ("iw_add_ref", CPtr); ("iw_rem_ref", CPtr); ("iw_get_qp", CPtr); ("iw_connect", CPtr);
  ("iw_accept", CPtr); ("iw_reject", CPtr); ("iw_create_listen", CPtr); ("iw_destroy_listen",
  CPtr); ("counter_bind_qp", CPtr); ("counter_unbind_qp", CPtr); ("counter_dealloc", CPtr);
  ("counter_alloc_stats", CPtr); ("counter_update_stats", CPtr); ("counter_init", CPtr);
  ("fill_stat_mr_entry", CPtr); ("query_ucontext", CPtr); ("get_numa_node", CPtr);
  ("add_sub_dev", CPtr); ("del_sub_dev", CPtr); ("ufile_hw_cleanup", CPtr);
  ("report_port_event", CPtr); ("size_ib_ah", CU64); ("size_ib_counters", CU64); ("size_ib_cq",
  CU64); ("size_ib_dmah", CU64); ("size_ib_mw", CU64); ("size_ib_pd", CU64); ("size_ib_qp",
  CU64); ("size_ib_rwq_ind_table", CU64); ("size_ib_srq", CU64); ("size_ib_ucontext", CU64);
  ("size_ib_xrcd", CU64); ("size_rdma_counter", CU64)].

Definition rw_semaphore : ctype := CStruct 1 [("count", atomic_long_t); ("owner",
  atomic_long_t); ("osq", optimistic_spin_queue); ("wait_lock", raw_spinlock_t); ("wait_list",
  list_head)].

Definition ib_core_device : ctype := CStruct 1 [("dev", device); ("rdma_net", possible_net_t);
  ("ports_kobj", CPtr); ("port_list", list_head); ("owner", CPtr)].

Definition ib_device__bindgen_ty_1 : ctype := CUnion 1 [("dev", device); ("coredev",
  ib_core_device)].

Definition __be64 : ctype := __u64.

Definition ib_odp_caps__bindgen_ty_1 : ctype := CStruct 1 [("rc_odp_caps", CU32);
  ("uc_odp_caps", CU32); ("ud_odp_caps", CU32); ("xrc_odp_caps", CU32)].

Definition ib_odp_caps : ctype := CStruct 1 [("general_caps", CU64); ("per_transport_caps",
  ib_odp_caps__bindgen_ty_1)].

Definition ib_rss_caps : ctype := CStruct 1 [("supported_qpts", u32_);
  ("max_rwq_indirection_tables", u32_); ("max_rwq_indirection_table_size", u32_)].

Definition ib_tm_caps : ctype := CStruct 1 [("max_rndv_hdr_size", u32_); ("max_num_tags", u32_);
  ("flags", u32_); ("max_ops", u32_); ("max_sge", u32_)].

Definition ib_cq_caps : ctype := CStruct 1 [("max_cq_moderation_count", u16_);
  ("max_cq_moderation_period", u16_)].

Definition ib_device_attr : ctype := CStruct 1 [("fw_ver", u64_); ("sys_image_guid", __be64);
  ("max_mr_size", u64_); ("page_size_cap", u64_); ("vendor_id", u32_); ("vendor_part_id", u32_);
  ("hw_ver", u32_); ("max_qp", c_int); ("max_qp_wr", c_int); ("device_cap_flags", u64_);
  ("kernel_cap_flags", u64_); ("max_send_sge", c_int); ("max_recv_sge", c_int); ("max_sge_rd",
  c_int); ("max_cq", c_int); ("max_cqe", c_int); ("max_mr", c_int); ("max_pd", c_int);
  ("max_qp_rd_atom", c_int); ("max_ee_rd_atom", c_int); ("max_res_rd_atom", c_int);
  ("max_qp_init_rd_atom", c_int); ("max_ee_init_rd_atom", c_int); ("atomic_cap",
  ib_atomic_cap__Type); ("masked_atomic_cap", ib_atomic_cap__Type); ("max_ee", c_int);
  ("max_rdd", c_int); ("max_mw", c_int); ("max_raw_ipv6_qp", c_int); ("max_raw_ethy_qp", c_int);
  ("max_mcast_grp", c_int); ("max_mcast_qp_attach", c_int); ("max_total_mcast_qp_attach",
  c_int); ("max_ah", c_int); ("max_srq", c_int); ("max_srq_wr", c_int); ("max_srq_sge", c_int);
  ("max_fast_reg_page_list_len", c_uint); ("max_pi_fast_reg_page_list_len", c_uint);
  ("max_pkeys", u16_); ("local_ca_ack_delay", u8_); ("sig_prot_cap", c_int); ("sig_guard_cap",
  c_int); ("odp_caps", ib_odp_caps); ("timestamp_mask", CU64); ("hca_core_clock", CU64);
  ("rss_caps", ib_rss_caps); ("max_wq_type_rq", u32_); ("raw_packet_caps", u32_); ("tm_caps",
  ib_tm_caps); ("cq_caps", ib_cq_caps); ("max_dm_size", u64_); ("max_sgl_rd", u32_)].

Definition rdmacg_device : ctype := CStruct 1 [("dev_node", list_head); ("rpools", list_head);
  ("name", CPtr)].

Definition ib_device : ctype := CStruct 1 [("dma_device", CPtr); ("ops", ib_device_ops);
  ("name", CArray 64 c_char); ("callback_head", callback_head); ("event_handler_list",
  list_head); ("event_handler_rwsem", rw_semaphore); ("qp_open_list_lock", spinlock_t);
  ("client_data_rwsem", rw_semaphore); ("client_data", xarray); ("unregistration_lock", mutex);
  ("cache_lock", rwlock_t); ("port_data", CPtr); ("num_comp_vectors", c_int);
  ("__bindgen_anon_1", ib_device__bindgen_ty_1); ("groups", CArray 4 CPtr);
  ("hw_stats_attr_index", u8_); ("uverbs_cmd_mask", u64_); ("node_desc", CArray 64 c_char);
  ("node_guid", __be64); ("local_dma_lkey", u32_); ("_bitfield_align_1", CArray 0 CU8);
  ("_bitfield_1", __BindgenBitfieldUnit 1); ("node_type", u8_); ("phys_port_cnt", u32_);
  ("attrs", ib_device_attr); ("hw_stats_data", CPtr); ("cg_device", rdmacg_device); ("index",
  u32_); ("cq_pools_lock", spinlock_t); ("cq_pools", CArray 3 list_head); ("res", CPtr);
  ("driver_def", CPtr); ("refcount", refcount_t); ("unreg_completion", completion);
  ("unregistration_work", work_struct); ("link_ops", CPtr); ("compat_devs_mutex", mutex);
  ("compat_devs", xarray); ("iw_ifname", CArray 16 c_char); ("iw_driver_flags", u32_);
  ("lag_flags", u32_); ("subdev_lock", mutex); ("subdev_list_head", list_head); ("type_",
  rdma_nl_dev_type__Type); ("parent", CPtr); ("subdev_list", list_head); ("name_assign_type",
  rdma_nl_name_assign_type__Type)].

Definition ib_port_attr : ctype := CStruct 1 [("subnet_prefix", u64_); ("state",
  ib_port_state__Type); ("max_mtu", ib_mtu__Type); ("active_mtu", ib_mtu__Type); ("phys_mtu",
  u32_); ("gid_tbl_len", c_int); ("_bitfield_align_1", CArray 0 CU8); ("_bitfield_1",
  __BindgenBitfieldUnit 1); ("port_cap_flags", u32_); ("max_msg_sz", u32_); ("bad_pkey_cntr",
  u32_); ("qkey_viol_cntr", u32_); ("pkey_tbl_len", u16_); ("sm_lid", u32_); ("lid", u32_);
  ("lmc", u8_); ("max_vl_num", u8_); ("sm_sl", u8_); ("subnet_timeout", u8_);
  ("init_type_reply", u8_); ("active_width", u8_); ("active_speed", u16_); ("phys_state", u8_);
  ("port_cap_flags2", u16_)].

Definition ip_options : ctype := CStruct 1 [("faddr", __be32); ("nexthop", __be32); ("optlen",
  c_uchar); ("srr", c_uchar); ("rr", c_uchar); ("ts", c_uchar); ("_bitfield_align_1", CArray 0
  CU8); ("_bitfield_1", __BindgenBitfieldUnit 1); ("router_alert", c_uchar); ("cipso", c_uchar);
  ("__pad2", c_uchar); ("__data", __IncompleteArrayField c_uchar)].

Definition inet6_cork : ctype := CStruct 1 [("opt", CPtr); ("hop_limit", u8_); ("tclass", u8_);
  ("_bitfield_align_1", CArray 0 CU8); ("_bitfield_1", __BindgenBitfieldUnit 1);
  ("__bindgen_padding_0", CArray 5 CU8)].

Definition inet_cork : ctype := CStruct 1 [("flags", c_uint); ("addr", __be32); ("opt", CPtr);
  ("fragsize", c_uint); ("length", c_int); ("dst", CPtr); ("tx_flags", u8_); ("ttl", __u8);
  ("tos", __s16); ("priority", u32_); ("gso_size", __u16); ("ts_opt_id", u32_);
  ("transmit_time", u64_); ("mark", u32_)].

Definition dscp_t : ctype := u8_.

Definition flowi_tunnel : ctype := CStruct 1 [("tun_id", __be64)].

Definition flowi_common : ctype := CStruct 1 [("flowic_oif", c_int); ("flowic_iif", c_int);
  ("flowic_l3mdev", c_int); ("flowic_mark", __u32); ("flowic_dscp", dscp_t); ("flowic_scope",
  __u8); ("flowic_proto", __u8); ("flowic_flags", __u8); ("flowic_secid", __u32); ("flowic_uid",
  kuid_t); ("flowic_multipath_hash", __u32); ("flowic_tun_key", flowi_tunnel)].

Definition flowi_uli__bindgen_ty_1 : ctype := CStruct 1 [("dport", __be16); ("sport", __be16)].

Definition flowi_uli__bindgen_ty_2 : ctype := CStruct 1 [("type_", __u8); ("code", __u8)].

Definition flowi_uli__bindgen_ty_3 : ctype := CStruct 1 [("type_", __u8)].

Definition flowi_uli : ctype := CUnion 1 [("ports", flowi_uli__bindgen_ty_1); ("icmpt",
  flowi_uli__bindgen_ty_2); ("gre_key", __be32); ("mht", flowi_uli__bindgen_ty_3)].

Definition flowi4 : ctype := CStruct 1 [("__fl_common", flowi_common); ("saddr", __be32);
  ("daddr", __be32); ("uli", flowi_uli)].

Definition flowi6 : ctype := CStruct 1 [("__fl_common", flowi_common); ("daddr", in6_addr);
  ("saddr", in6_addr); ("flowlabel", __be32); ("uli", flowi_uli); ("mp_hash", __u32)].

Definition flowi__bindgen_ty_1 : ctype := CUnion 1 [("__fl_common", flowi_common); ("ip4",
  flowi4); ("ip6", flowi6)].

Definition flowi : ctype := CStruct 1 [("u", flowi__bindgen_ty_1)].

Definition inet_cork_full : ctype := CStruct 1 [("base", inet_cork); ("fl", flowi); ("base6",
  inet6_cork)].

Definition inet_sock : ctype := CStruct 1 [("sk", sock); ("pinet6", CPtr); ("ipv6_fl_list",
  CPtr); ("inet_flags", c_ulong); ("inet_saddr", __be32); ("uc_ttl", __s16); ("inet_sport",
  __be16); ("inet_opt", CPtr); ("inet_id", atomic_t); ("tos", __u8); ("min_ttl", __u8);
  ("mc_ttl", __u8); ("pmtudisc", __u8); ("rcv_tos", __u8); ("convert_csum", __u8); ("uc_index",
  c_int); ("mc_index", c_int); ("mc_addr", __be32); ("local_port_range", u32_); ("mc_list",
  CPtr); ("cork", inet_cork_full)].

Definition fastopen_queue : ctype := CStruct 1 [("rskq_rst_head", CPtr); ("rskq_rst_tail",
  CPtr); ("lock", spinlock_t); ("qlen", c_int); ("max_qlen", c_int); ("ctx", CPtr)].

Definition request_sock_queue : ctype := CStruct 1 [("rskq_lock", spinlock_t);
  ("rskq_defer_accept", u8_); ("synflood_warned", u8_); ("qlen", atomic_t); ("young", atomic_t);
  ("rskq_accept_head", CPtr); ("rskq_accept_tail", CPtr); ("fastopenq", fastopen_queue)].

Definition inet_connection_sock__bindgen_ty_1 : ctype := CUnion 1 [("icsk_keepalive_timer",
  timer_list); ("mptcp_tout_timer", timer_list)].

Definition inet_connection_sock__bindgen_ty_2 : ctype := CStruct 1 [("pending", __u8); ("quick",
  __u8); ("pingpong", __u8); ("retry", __u8); ("_bitfield_align_1", CArray 0 CU32);
  ("_bitfield_1", __BindgenBitfieldUnit 4); ("lrcvtime", __u32); ("last_seg_size", __u16);
  ("rcv_mss", __u16)].

Definition inet_connection_sock__bindgen_ty_3 : ctype := CStruct 1 [("search_high", c_int);
  ("search_low", c_int); ("_bitfield_align_1", CArray 0 CU32); ("_bitfield_1",
  __BindgenBitfieldUnit 4); ("probe_timestamp", u32_)].

Definition inet_connection_sock : ctype := CStruct 1 [("icsk_inet", inet_sock);
  ("icsk_accept_queue", request_sock_queue); ("icsk_bind_hash", CPtr); ("icsk_bind2_hash",
  CPtr); ("icsk_delack_timer", timer_list); ("__bindgen_anon_1",
  inet_connection_sock__bindgen_ty_1); ("icsk_rto", __u32); ("icsk_rto_min", __u32);
  ("icsk_rto_max", u32_); ("icsk_delack_max", __u32); ("icsk_pmtu_cookie", __u32);
  ("icsk_ca_ops", CPtr); ("icsk_af_ops", CPtr); ("icsk_ulp_ops", CPtr); ("icsk_ulp_data", CPtr);
  ("icsk_sync_mss", CPtr); ("_bitfield_align_1", CArray 0 CU8); ("_bitfield_1",
  __BindgenBitfieldUnit 1); ("icsk_retransmits", __u8); ("icsk_pending", __u8); ("icsk_backoff",
  __u8); ("icsk_syn_retries", __u8); ("icsk_probes_out", __u8); ("icsk_ext_hdr_len", __u16);
  ("icsk_ack", inet_connection_sock__bindgen_ty_2); ("icsk_mtup",
  inet_connection_sock__bindgen_ty_3); ("icsk_probes_tstamp", u32_); ("icsk_user_timeout",
  u32_); ("icsk_ca_priv", CArray 13 u64_)].

Definition request_sock : ctype := CStruct 1 [("__req_common", sock_common); ("dl_next", CPtr);
  ("mss", u16_); ("num_retrans", u8_); ("_bitfield_align_1", CArray 0 CU8); ("_bitfield_1",
  __BindgenBitfieldUnit 1); ("ts_recent", u32_); ("rsk_timer", timer_list); ("rsk_ops", CPtr);
  ("sk", CPtr); ("saved_syn", CPtr); ("secid", u32_); ("peer_secid", u32_); ("timeout", u32_)].

Definition inet_request_sock__bindgen_ty_1__bindgen_ty_1 : ctype := CStruct 1 [("ipv6_opt",
  CPtr); ("pktopts", CPtr)].

Definition inet_request_sock__bindgen_ty_1 : ctype := CUnion 1 [("ireq_opt", CPtr);
  ("__bindgen_anon_1", inet_request_sock__bindgen_ty_1__bindgen_ty_1)].

Definition inet_request_sock : ctype := CStruct 1 [("req", request_sock); ("_bitfield_align_1",
  CArray 0 CU8); ("_bitfield_1", __BindgenBitfieldUnit 2); ("ir_mark", u32_);
  ("__bindgen_anon_1", inet_request_sock__bindgen_ty_1)].

Definition __kernel_ulong_t : ctype := c_ulong.

Definition __kernel_size_t : ctype := __kernel_ulong_t.

Definition iovec : ctype := CStruct 1 [("iov_base", CPtr); ("iov_len", __kernel_size_t)].

Definition iov_iter__bindgen_ty_1__bindgen_ty_1__bindgen_ty_1 : ctype := CUnion 1 [("__iov",
  CPtr); ("kvec", CPtr); ("bvec", CPtr); ("folioq", CPtr); ("xarray", CPtr); ("ubuf", CPtr)].

Definition iov_iter__bindgen_ty_1__bindgen_ty_1 : ctype := CStruct 1 [("__bindgen_anon_1",
  iov_iter__bindgen_ty_1__bindgen_ty_1__bindgen_ty_1); ("count", CU64)].

Definition iov_iter__bindgen_ty_1 : ctype := CUnion 1 [("__ubuf_iovec", iovec);
  ("__bindgen_anon_1", iov_iter__bindgen_ty_1__bindgen_ty_1)].

Definition __kernel_loff_t : ctype := c_longlong.

Definition loff_t : ctype := __kernel_loff_t.

Definition iov_iter__bindgen_ty_2 : ctype := CUnion 1 [("nr_segs", c_ulong); ("folioq_slot",
  u8_); ("xarray_start", loff_t)].

Definition iov_iter : ctype := CStruct 1 [("iter_type", u8_); ("nofault", bool_);
  ("data_source", bool_); ("iov_offset", CU64); ("__bindgen_anon_1", iov_iter__bindgen_ty_1);
  ("__bindgen_anon_2", iov_iter__bindgen_ty_2)].

Definition msghdr__bindgen_ty_1 : ctype := CUnion 1 [("msg_control", CPtr); ("msg_control_user",
  CPtr)].

Definition msghdr : ctype := CStruct 1 [("msg_name", CPtr); ("msg_namelen", c_int); ("msg_inq",
  c_int); ("msg_iter", iov_iter); ("__bindgen_anon_1", msghdr__bindgen_ty_1);
  ("_bitfield_align_1", CArray 0 CU8); ("_bitfield_1", __BindgenBitfieldUnit 1); ("msg_flags",
  c_uint); ("msg_controllen", __kernel_size_t); ("msg_iocb", CPtr); ("msg_ubuf", CPtr);
  ("sg_from_iter", CPtr)].

Definition io_ring_ctx__bindgen_ty_1 : ctype := CStruct 1 [("flags", c_uint);
  ("_bitfield_align_1", CArray 0 CU8); ("_bitfield_1", __BindgenBitfieldUnit 2);
  ("submitter_task", CPtr); ("rings", CPtr); ("bpf_filters", CPtr); ("refs", percpu_ref);
  ("clockid", clockid_t); ("clock_offset", tk_offsets__Type); ("notify_method",
  task_work_notify_mode__Type); ("sq_thread_idle", c_uint)].

Definition io_rsrc_data : ctype := CStruct 1 [("nr", c_uint); ("nodes", CPtr)].

Definition io_file_table : ctype := CStruct 1 [("data", io_rsrc_data); ("bitmap", CPtr);
  ("alloc_hint", c_uint)].

Definition io_alloc_cache : ctype := CStruct 1 [("entries", CPtr); ("nr_cached", c_uint);
  ("max_cached", c_uint); ("elem_size", c_uint); ("init_clear", c_uint)].

Definition io_wq_work_node : ctype := CStruct 1 [("next", CPtr)].

Definition io_wq_work_list : ctype := CStruct 1 [("first", CPtr); ("last", CPtr)].

Definition io_submit_link : ctype := CStruct 1 [("head", CPtr); ("last", CPtr)].

Definition rq_list : ctype := CStruct 1 [("head", CPtr); ("tail", CPtr)].

Definition blk_plug : ctype := CStruct 1 [("mq_list", rq_list); ("cached_rqs", rq_list);
  ("cur_ktime", u64_); ("nr_ios", c_ushort); ("rq_count", c_ushort); ("multiple_queues", bool_);
  ("has_elevator", bool_); ("cb_list", list_head)].

Definition io_submit_state : ctype := CStruct 1 [("free_list", io_wq_work_node); ("compl_reqs",
  io_wq_work_list); ("link", io_submit_link); ("plug_started", bool_); ("need_plug", bool_);
  ("cq_flush", bool_); ("submit_nr", c_ushort); ("plug", blk_plug)].

Definition io_hash_table : ctype := CStruct 1 [("hbs", CPtr); ("hash_bits", c_uint)].

Definition io_ring_ctx__bindgen_ty_2 : ctype := CStruct 1 [("uring_lock", mutex); ("sq_array",
  CPtr); ("sq_sqes", CPtr); ("cached_sq_head", c_uint); ("sq_entries", c_uint); ("cancel_seq",
  atomic_t); ("poll_multi_queue", bool_); ("iopoll_list", list_head); ("file_table",
  io_file_table); ("buf_table", io_rsrc_data); ("node_cache", io_alloc_cache); ("imu_cache",
  io_alloc_cache); ("submit_state", io_submit_state); ("io_bl_xa", xarray); ("cancel_table",
  io_hash_table); ("apoll_cache", io_alloc_cache); ("netmsg_cache", io_alloc_cache);
  ("rw_cache", io_alloc_cache); ("cmd_cache", io_alloc_cache); ("cancelable_uring_cmd",
  hlist_head); ("hybrid_poll_time", u64_); ("_bitfield_align_1", CArray 0 CU8); ("_bitfield_1",
  __BindgenBitfieldUnit 16)].

Definition io_ring_ctx__bindgen_ty_3 : ctype := CStruct 1 [("cqe_cached", CPtr);
  ("cqe_sentinel", CPtr); ("cached_cq_tail", c_uint); ("cq_entries", c_uint); ("io_ev_fd",
  CPtr); ("cq_wait_arg", CPtr); ("cq_wait_size", CU64); ("_bitfield_align_1", CArray 0 CU8);
  ("_bitfield_1", __BindgenBitfieldUnit 16)].

Definition io_ring_ctx__bindgen_ty_5 : ctype := CStruct 1 [("timeout_lock", raw_spinlock_t);
  ("timeout_list", list_head); ("ltimeout_list", list_head); ("cq_last_tm_flush", c_uint);
  ("_bitfield_align_1", CArray 0 CU8); ("_bitfield_1", __BindgenBitfieldUnit 16);
  ("__bindgen_padding_0", CU32)].

Definition io_uring : ctype := CStruct 1 [("head", u32_); ("tail", u32_)].

Definition io_uring_cqe : ctype := CStruct 1 [("user_data", __u64); ("res", __s32); ("flags",
  __u32); ("big_cqe", __IncompleteArrayField __u64)].

Definition io_rings : ctype := CStruct 1 [("sq", io_uring); ("cq", io_uring); ("sq_ring_mask",
  u32_); ("cq_ring_mask", u32_); ("sq_ring_entries", u32_); ("cq_ring_entries", u32_);
  ("sq_dropped", u32_); ("sq_flags", atomic_t); ("cq_flags", u32_); ("cq_overflow", u32_);
  ("_bitfield_align_1", CArray 0 CU8); ("_bitfield_1", __BindgenBitfieldUnit 16); ("cqes",
  __IncompleteArrayField io_uring_cqe)].

Definition io_uring_task__bindgen_ty_1 : ctype := CStruct 1 [("task_list", llist_head);
  ("task_work", callback_head); ("_bitfield_align_1", CArray 0 CU8); ("_bitfield_1",
  __BindgenBitfieldUnit 40)].

Definition io_uring_task : ctype := CStruct 1 [("cached_refs", c_int); ("last", CPtr); ("task",
  CPtr); ("io_wq", CPtr); ("registered_rings", CArray 16 CPtr); ("xa", xarray); ("wait",
  wait_queue_head); ("in_cancel", atomic_t); ("inflight_tracked", atomic_t); ("inflight",
  percpu_counter); ("_bitfield_align_1", CArray 0 CU8); ("_bitfield_1", __BindgenBitfieldUnit
  8); ("__bindgen_anon_1", io_uring_task__bindgen_ty_1)].

Definition iommu_ops : ctype := CStruct 1 [("capable", CPtr); ("hw_info", CPtr);
  ("domain_alloc_identity", CPtr); ("domain_alloc_paging_flags", CPtr); ("domain_alloc_paging",
  CPtr); ("domain_alloc_sva", CPtr); ("domain_alloc_nested", CPtr); ("probe_device", CPtr);
  ("release_device", CPtr); ("probe_finalize", CPtr); ("device_group", CPtr);
  ("get_resv_regions", CPtr); ("of_xlate", CPtr); ("is_attach_deferred", CPtr);
  ("page_response", CPtr); ("def_domain_type", CPtr); ("get_viommu_size", CPtr); ("viommu_init",
  CPtr); ("default_domain_ops", CPtr); ("owner", CPtr); ("identity_domain", CPtr);
  ("blocked_domain", CPtr); ("release_domain", CPtr); ("default_domain", CPtr);
  ("_bitfield_align_1", CArray 0 CU8); ("_bitfield_1", __BindgenBitfieldUnit 1);
  ("__bindgen_padding_0", CArray 7 CU8)].

Definition iommufd_access_ops : ctype := CStruct 1 [("_bitfield_align_1", CArray 0 CU8);
  ("_bitfield_1", __BindgenBitfieldUnit 1); ("unmap", CPtr)].

Definition iommufd_object : ctype := CStruct 1 [("wait_cnt", refcount_t); ("users", refcount_t);
  ("type_", iommufd_object_type__Type); ("id", c_uint)].

Definition iommufd_hw_pagetable : ctype := CStruct 1 [("obj", iommufd_object); ("domain", CPtr);
  ("fault", CPtr); ("_bitfield_align_1", CArray 0 CU8); ("_bitfield_1", __BindgenBitfieldUnit
  1); ("__bindgen_padding_0", CArray 7 CU8)].

Definition iommufd_sw_msi_maps : ctype := CStruct 1 [("bitmap", CArray 1 c_ulong)].

Definition iommufd_hwpt_paging : ctype := CStruct 1 [("common", iommufd_hw_pagetable); ("ioas",
  CPtr); ("_bitfield_align_1", CArray 0 CU8); ("_bitfield_1", __BindgenBitfieldUnit 1);
  ("hwpt_item", list_head); ("present_sw_msi", iommufd_sw_msi_maps)].

Definition __sum16 : ctype := __u16.

Definition iphdr__bindgen_ty_1__bindgen_ty_1 : ctype := CStruct 1 [("saddr", __be32); ("daddr",
  __be32)].

Definition iphdr__bindgen_ty_1__bindgen_ty_2 : ctype := CStruct 1 [("saddr", __be32); ("daddr",
  __be32)].

Definition iphdr__bindgen_ty_1 : ctype := CUnion 1 [("__bindgen_anon_1",
  iphdr__bindgen_ty_1__bindgen_ty_1); ("addrs", iphdr__bindgen_ty_1__bindgen_ty_2)].

Definition iphdr : ctype := CStruct 1 [("_bitfield_align_1", CArray 0 CU8); ("_bitfield_1",
  __BindgenBitfieldUnit 1); ("tos", __u8); ("tot_len", __be16); ("id", __be16); ("frag_off",
  __be16); ("ttl", __u8); ("protocol", __u8); ("check", __sum16); ("__bindgen_anon_1",
  iphdr__bindgen_ty_1)].

Definition ipc_ids : ctype := CStruct 1 [("in_use", c_int); ("seq", c_ushort); ("rwsem",
  rw_semaphore); ("ipcs_idr", idr); ("max_idx", c_int); ("last_idx", c_int); ("next_id", c_int);
  ("key_ht", rhashtable)].

Definition ctl_table_header__bindgen_ty_1__bindgen_ty_1 : ctype := CStruct 1 [("ctl_table",
  CPtr); ("ctl_table_size", c_int); ("used", c_int); ("count", c_int); ("nreg", c_int)].

Definition ctl_table_header__bindgen_ty_1 : ctype := CUnion 1 [("__bindgen_anon_1",
  ctl_table_header__bindgen_ty_1__bindgen_ty_1); ("rcu", callback_head)].

Definition ctl_table_header : ctype := CStruct 1 [("__bindgen_anon_1",
  ctl_table_header__bindgen_ty_1); ("unregistering", CPtr); ("ctl_table_arg", CPtr); ("root",
  CPtr); ("set", CPtr); ("parent", CPtr); ("node", CPtr); ("inodes", hlist_head); ("type_",
  ctl_table_header__bindgen_ty_2__Type)].

Definition ctl_dir : ctype := CStruct 1 [("header", ctl_table_header); ("root", rb_root)].

Definition ctl_table_set : ctype := CStruct 1 [("is_seen", CPtr); ("dir", ctl_dir)].

Definition ns_common__bindgen_ty_1 : ctype := CStruct 1 [("__ns_ref", refcount_t);
  ("_bitfield_align_1", CArray 0 CU8); ("_bitfield_1", __BindgenBitfieldUnit 56);
  ("__bindgen_padding_0", CU32)].

Definition ns_common__bindgen_ty_2 : ctype := CUnion 1 [("ns_rcu", callback_head)].

Definition ns_common : ctype := CStruct 1 [("__bindgen_anon_1", ns_common__bindgen_ty_1);
  ("ns_type", u32_); ("stashed", CPtr); ("ops", CPtr); ("inum", c_uint); ("__bindgen_anon_2",
  ns_common__bindgen_ty_2)].

Definition ipc_namespace : ctype := CStruct 1 [("ids", CArray 3 ipc_ids); ("sem_ctls", CArray 4
  c_int); ("used_sems", c_int); ("msg_ctlmax", c_uint); ("msg_ctlmnb", c_uint); ("msg_ctlmni",
  c_uint); ("percpu_msg_bytes", percpu_counter); ("percpu_msg_hdrs", percpu_counter);
  ("shm_ctlmax", CU64); ("shm_ctlall", CU64); ("shm_tot", c_ulong); ("shm_ctlmni", c_int);
  ("shm_rmid_forced", c_int); ("ipcns_nb", notifier_block); ("mq_mnt", CPtr);
  ("mq_queues_count", c_uint); ("mq_queues_max", c_uint); ("mq_msg_max", c_uint);
  ("mq_msgsize_max", c_uint); ("mq_msg_default", c_uint); ("mq_msgsize_default", c_uint);
  ("mq_set", ctl_table_set); ("mq_sysctls", CPtr); ("ipc_set", ctl_table_set); ("ipc_sysctls",
  CPtr); ("user_ns", CPtr); ("ucounts", CPtr); ("mnt_llist", llist_node); ("_bitfield_align_1",
  CArray 0 CU8); ("_bitfield_1", __BindgenBitfieldUnit 32); ("ns", ns_common)].

Definition ipv6_pinfo__bindgen_ty_2__bindgen_ty_1 : ctype := CStruct 2 [("_bitfield_align_1",
  CArray 0 CU8); ("_bitfield_1", __BindgenBitfieldUnit 2)].

Definition cpumask : ctype := CStruct 1 [("bits", CArray 128 c_ulong)].

Definition irq_affinity_desc : ctype := CStruct 1 [("mask", cpumask); ("_bitfield_align_1",
  CArray 0 CU8); ("_bitfield_1", __BindgenBitfieldUnit 1); ("__bindgen_padding_0", CArray 7
  CU8)].

Definition irq_handler_t : ctype := CPtr.

Definition irqaction__bindgen_ty_1 : ctype := CUnion 1 [("dev_id", CPtr); ("percpu_dev_id",
  CPtr)].

Definition irqaction : ctype := CStruct 1 [("handler", irq_handler_t); ("__bindgen_anon_1",
  irqaction__bindgen_ty_1); ("affinity", CPtr); ("next", CPtr); ("thread_fn", irq_handler_t);
  ("thread", CPtr); ("secondary", CPtr); ("irq", c_uint); ("flags", c_uint); ("thread_flags",
  c_ulong); ("thread_mask", c_ulong); ("name", CPtr); ("dir", CPtr); ("_bitfield_align_1",
  CArray 0 CU8); ("_bitfield_1", __BindgenBitfieldUnit 32)].

Definition kernel_pkey_params__bindgen_ty_1 : ctype := CUnion 1 [("out_len", __u32); ("in2_len",
  __u32)].

Definition kernel_pkey_params : ctype := CStruct 1 [("key", CPtr); ("encoding", CPtr);
  ("hash_algo", CPtr); ("info", CPtr); ("in_len", __u32); ("__bindgen_anon_1",
  kernel_pkey_params__bindgen_ty_1); ("_bitfield_align_1", CArray 0 CU8); ("_bitfield_1",
  __BindgenBitfieldUnit 1); ("__bindgen_padding_0", CArray 7 CU8)].

Definition kernfs_open_file : ctype := CStruct 1 [("kn", CPtr); ("file", CPtr); ("seq_file",
  CPtr); ("priv_", CPtr); ("mutex", mutex); ("prealloc_mutex", mutex); ("event", c_int);
  ("list", list_head); ("prealloc_buf", CPtr); ("atomic_write_len", CU64); ("_bitfield_align_1",
  CArray 0 CU8); ("_bitfield_1", __BindgenBitfieldUnit 1); ("vm_ops", CPtr)].

Definition kioctx__bindgen_ty_1 : ctype := CStruct 1 [("reqs_available", atomic_t);
  ("_bitfield_align_1", CArray 0 CU8); ("_bitfield_1", __BindgenBitfieldUnit 56);
  ("__bindgen_padding_0", CU32)].

Definition kioctx__bindgen_ty_2 : ctype := CStruct 1 [("ctx_lock", spinlock_t); ("active_reqs",
  list_head); ("_bitfield_align_1", CArray 0 CU8); ("_bitfield_1", __BindgenBitfieldUnit 40)].

Definition kioctx__bindgen_ty_3 : ctype := CStruct 1 [("ring_lock", mutex); ("wait",
  wait_queue_head_t); ("_bitfield_align_1", CArray 0 CU8); ("_bitfield_1", __BindgenBitfieldUnit
  8)].

Definition kioctx__bindgen_ty_4 : ctype := CStruct 1 [("tail", c_uint); ("completed_events",
  c_uint); ("completion_lock", spinlock_t); ("_bitfield_align_1", CArray 0 CU8); ("_bitfield_1",
  __BindgenBitfieldUnit 48); ("__bindgen_padding_0", CU32)].

Definition kioctx : ctype := CStruct 1 [("users", percpu_ref); ("dead", atomic_t); ("reqs",
  percpu_ref); ("user_id", c_ulong); ("cpu", CPtr); ("req_batch", c_uint); ("max_reqs", c_uint);
  ("nr_events", c_uint); ("mmap_base", c_ulong); ("mmap_size", c_ulong); ("ring_folios", CPtr);
  ("nr_pages", c_long); ("free_rwork", rcu_work); ("rq_wait", CPtr); ("_bitfield_align_1",
  CArray 0 CU8); ("_bitfield_1", __BindgenBitfieldUnit 24); ("__bindgen_anon_1",
  kioctx__bindgen_ty_1); ("__bindgen_anon_2", kioctx__bindgen_ty_2); ("__bindgen_anon_3",
  kioctx__bindgen_ty_3); ("__bindgen_anon_4", kioctx__bindgen_ty_4); ("internal_folios", CArray
  8 CPtr); ("aio_ring_file", CPtr); ("id", c_uint); ("_bitfield_align_2", CArray 0 CU8);
  ("_bitfield_2", __BindgenBitfieldUnit 48); ("__bindgen_padding_0", CU32)].

Definition rlimit : ctype := CStruct 1 [("rlim_cur", __kernel_ulong_t); ("rlim_max",
  __kernel_ulong_t)].

Definition linux_binprm : ctype := CStruct 1 [("vma", CPtr); ("vma_pages", c_ulong); ("argmin",
  c_ulong); ("mm", CPtr); ("p", c_ulong); ("_bitfield_align_1", CArray 0 CU8); ("_bitfield_1",
  __BindgenBitfieldUnit 1); ("executable", CPtr); ("interpreter", CPtr); ("file", CPtr);
  ("cred", CPtr); ("unsafe_", c_int); ("per_clear", c_uint); ("argc", c_int); ("envc", c_int);
  ("filename", CPtr); ("interp", CPtr); ("fdpath", CPtr); ("interp_flags", c_uint); ("execfd",
  c_int); ("exec", c_ulong); ("rlim_stack", rlimit); ("buf", CArray 256 c_char)].

Definition list_lru_one : ctype := CStruct 1 [("list", list_head); ("nr_items", c_long);
  ("lock", spinlock_t)].

Definition list_lru_node : ctype := CStruct 1 [("lru", list_lru_one); ("nr_items",
  atomic_long_t); ("_bitfield_align_1", CArray 0 CU8); ("_bitfield_1", __BindgenBitfieldUnit
  24)].

Definition lru_gen_folio : ctype := CStruct 1 [("max_seq", c_ulong); ("min_seq", CArray 2
  c_ulong); ("timestamps", CArray 4 c_ulong); ("folios", CArray 40 list_head); ("nr_pages",
  CArray 40 c_long); ("avg_refaulted", CArray 8 c_ulong); ("avg_total", CArray 8 c_ulong);
  ("protected", CArray 8 c_ulong); ("evicted", CArray 8 atomic_long_t); ("refaulted", CArray 8
  atomic_long_t); ("enabled", bool_); ("gen_", u8_); ("seg", u8_); ("list", hlist_nulls_node)].

Definition lru_gen_mm_state : ctype := CStruct 1 [("seq", c_ulong); ("head", CPtr); ("tail",
  CPtr); ("filters", CArray 2 CPtr); ("stats", CArray 4 c_ulong)].

Definition zswap_lruvec_state : ctype := CStruct 1 [("nr_disk_swapins", atomic_long_t)].

Definition lruvec : ctype := CStruct 1 [("lists", CArray 5 list_head); ("lru_lock", spinlock_t);
  ("anon_cost", c_ulong); ("file_cost", c_ulong); ("nonresident_age", atomic_long_t);
  ("refaults", CArray 2 c_ulong); ("flags", c_ulong); ("lrugen", lru_gen_folio); ("mm_state",
  lru_gen_mm_state); ("pgdat", CPtr); ("zswap_lruvec_state", zswap_lruvec_state)].

Definition mem_cgroup_reclaim_iter : ctype := CStruct 1 [("position", CPtr); ("generation",
  atomic_t)].

Definition mem_cgroup_per_node : ctype := CStruct 1 [("memcg", CPtr); ("lruvec_stats_percpu",
  CPtr); ("lruvec_stats", CPtr); ("shrinker_info", CPtr); ("_bitfield_align_1", CArray 0 CU8);
  ("_bitfield_1", __BindgenBitfieldUnit 32); ("_pad1_", cacheline_padding); ("lruvec", lruvec);
  ("_bitfield_align_2", CArray 0 CU8); ("_bitfield_2", __BindgenBitfieldUnit 16); ("_pad2_",
  cacheline_padding); ("lru_zone_size", CArray 25 c_ulong); ("iter", mem_cgroup_reclaim_iter);
  ("_bitfield_align_3", CArray 0 CU8); ("_bitfield_3", __BindgenBitfieldUnit 40)].

Definition memcg_vmstats_percpu : ctype := CStruct 1 [("stats_updates", c_uint); ("parent_pcpu",
  CPtr); ("vmstats", CPtr); ("state", CArray 40 c_long); ("events", CArray 29 c_ulong);
  ("state_prev", CArray 40 c_long); ("events_prev", CArray 29 c_ulong); ("_bitfield_align_1",
  CArray 0 CU8); ("_bitfield_1", __BindgenBitfieldUnit 24)].

Definition mm_struct__bindgen_ty_1__bindgen_ty_1 : ctype := CStruct 1 [("mm_count", atomic_t);
  ("_bitfield_align_1", CArray 0 CU8); ("_bitfield_1", __BindgenBitfieldUnit 56);
  ("__bindgen_padding_0", CU32)].

Definition maple_tree__bindgen_ty_1 : ctype := CUnion 1 [("ma_lock", spinlock_t)].

Definition maple_tree : ctype := CStruct 1 [("__bindgen_anon_1", maple_tree__bindgen_ty_1);
  ("ma_flags", c_uint); ("ma_root", CPtr)].

Definition rcuwait : ctype := CStruct 1 [("task", CPtr)].

Definition irq_work : ctype := CStruct 1 [("node", __call_single_node); ("func", CPtr);
  ("irqwait", rcuwait)].

Definition mm_mm_cid : ctype := CStruct 1 [("pcpu", CPtr); ("mode", c_uint); ("max_cids",
  c_uint); ("irq_work", irq_work); ("work", work_struct); ("lock", raw_spinlock_t); ("mutex",
  mutex); ("user_list", hlist_head); ("nr_cpus_allowed", c_uint); ("users", c_uint);
  ("pcpu_thrs", c_uint); ("update_deferred", c_uint); ("_bitfield_align_1", CArray 0 CU8);
  ("_bitfield_1", __BindgenBitfieldUnit 48)].

Definition vm_flags_t : ctype := c_ulong.

Definition mm_context_t : ctype := CStruct 1 [("ctx_id", u64_); ("tlb_gen", atomic64_t);
  ("next_trim_cpumask", c_ulong); ("ldt_usr_sem", rw_semaphore); ("ldt", CPtr); ("flags",
  c_ulong); ("lock", mutex); ("vdso", CPtr); ("vdso_image", CPtr); ("perf_rdpmc_allowed",
  atomic_t); ("pkey_allocation_map", u16_); ("execute_only_pkey", s16); ("global_asid", u16_);
  ("asid_transition", bool_)].

Definition mm_flags_t : ctype := CStruct 1 [("__mm_flags", CArray 1 c_ulong)].

Definition uprobes_state : ctype := CStruct 1 [("xol_area", CPtr); ("head_tramps", hlist_head)].

Definition mm_struct__bindgen_ty_1__bindgen_ty_2 : ctype := CStruct 1 [("list", list_head);
  ("bitmap", c_ulong); ("memcg", CPtr)].

Definition mm_id_t : ctype := c_uint.

Definition mm_struct__bindgen_ty_1 : ctype := CStruct 1 [("__bindgen_anon_1",
  mm_struct__bindgen_ty_1__bindgen_ty_1); ("mm_mt", maple_tree); ("mmap_base", c_ulong);
  ("mmap_legacy_base", c_ulong); ("mmap_compat_base", c_ulong); ("mmap_compat_legacy_base",
  c_ulong); ("task_size", c_ulong); ("pgd", CPtr); ("membarrier_state", atomic_t); ("mm_users",
  atomic_t); ("_bitfield_align_1", CArray 0 CU8); ("_bitfield_1", __BindgenBitfieldUnit 56);
  ("mm_cid", mm_mm_cid); ("pgtables_bytes", atomic_long_t); ("map_count", c_int);
  ("page_table_lock", spinlock_t); ("mmap_lock", rw_semaphore); ("mmlist", list_head);
  ("vma_writer_wait", rcuwait); ("mm_lock_seq", seqcount_t); ("futex_hash_lock", mutex);
  ("futex_phash", CPtr); ("futex_phash_new", CPtr); ("futex_batches", c_ulong); ("futex_rcu",
  callback_head); ("futex_atomic", atomic_long_t); ("futex_ref", CPtr); ("hiwater_rss",
  c_ulong); ("hiwater_vm", c_ulong); ("total_vm", c_ulong); ("locked_vm", c_ulong);
  ("pinned_vm", atomic64_t); ("data_vm", c_ulong); ("exec_vm", c_ulong); ("stack_vm", c_ulong);
  ("def_flags", vm_flags_t); ("write_protect_seq", seqcount_t); ("arg_lock", spinlock_t);
  ("start_code", c_ulong); ("end_code", c_ulong); ("start_data", c_ulong); ("end_data",
  c_ulong); ("start_brk", c_ulong); ("brk", c_ulong); ("start_stack", c_ulong); ("arg_start",
  c_ulong); ("arg_end", c_ulong); ("env_start", c_ulong); ("env_end", c_ulong); ("saved_auxv",
  CArray 56 c_ulong); ("rss_stat", CArray 4 percpu_counter); ("binfmt", CPtr); ("context",
  mm_context_t); ("flags", mm_flags_t); ("ioctx_lock", spinlock_t); ("ioctx_table", CPtr);
  ("owner", CPtr); ("user_ns", CPtr); ("exe_file", CPtr); ("notifier_subscriptions", CPtr);
  ("numa_next_scan", c_ulong); ("numa_scan_offset", c_ulong); ("numa_scan_seq", c_int);
  ("tlb_flush_pending", atomic_t); ("tlb_flush_batched", atomic_t); ("uprobes_state",
  uprobes_state); ("hugetlb_usage", atomic_long_t); ("async_put_work", work_struct);
  ("iommu_mm", CPtr); ("ksm_merging_pages", c_ulong); ("ksm_rmap_items", c_ulong);
  ("ksm_zero_pages", atomic_long_t); ("lru_gen", mm_struct__bindgen_ty_1__bindgen_ty_2);
  ("mm_id", mm_id_t); ("_bitfield_align_2", CArray 0 CU8); ("_bitfield_2", __BindgenBitfieldUnit
  24); ("__bindgen_padding_0", CU32)].

Definition pgprotval_t : ctype := c_ulong.

Definition pgprot : ctype := CStruct 1 [("pgprot", pgprotval_t)].

Definition pgprot_t : ctype := pgprot.

Definition mmap_action__bindgen_ty_1__bindgen_ty_1 : ctype := CStruct 1 [("start", c_ulong);
  ("start_pfn", c_ulong); ("size", c_ulong); ("pgprot", pgprot_t)].

Definition mmap_action__bindgen_ty_1 : ctype := CUnion 1 [("remap",
  mmap_action__bindgen_ty_1__bindgen_ty_1)].

Definition mmap_action : ctype := CStruct 1 [("__bindgen_anon_1", mmap_action__bindgen_ty_1);
  ("type_", mmap_action_type__Type); ("success_hook", CPtr); ("error_hook", CPtr);
  ("_bitfield_align_1", CArray 0 CU8); ("_bitfield_1", __BindgenBitfieldUnit 1);
  ("__bindgen_padding_0", CArray 7 CU8)].

Definition mnt_namespace__bindgen_ty_1 : ctype := CStruct 1 [("mounts", rb_root);
  ("mnt_last_node", CPtr); ("mnt_first_node", CPtr)].

Definition mnt_namespace : ctype := CStruct 1 [("ns", ns_common); ("root", CPtr);
  ("__bindgen_anon_1", mnt_namespace__bindgen_ty_1); ("user_ns", CPtr); ("ucounts", CPtr);
  ("poll", wait_queue_head_t); ("seq_origin", u64_); ("event", u64_); ("n_fsnotify_mask",
  __u32); ("n_fsnotify_marks", CPtr); ("nr_mounts", c_uint); ("pending_mounts", c_uint);
  ("passive", refcount_t); ("is_anon", bool_); ("_bitfield_align_1", CArray 0 CU8);
  ("_bitfield_1", __BindgenBitfieldUnit 8); ("__bindgen_padding_0", CArray 3 CU8)].

Definition module_kobject : ctype := CStruct 1 [("kobj", kobject); ("mod_", CPtr);
  ("drivers_dir", CPtr); ("mp", CPtr); ("kobj_completion", CPtr)].

Definition latch_tree_node : ctype := CStruct 1 [("node", CArray 2 rb_node)].

Definition mod_tree_node : ctype := CStruct 1 [("mod_", CPtr); ("node", latch_tree_node)].

Definition module_memory : ctype := CStruct 1 [("base", CPtr); ("is_rox", bool_); ("size",
  c_uint); ("mtn", mod_tree_node)].

Definition its_array : ctype := CStruct 1 [("pages", CPtr); ("num", c_int)].

Definition mod_arch_specific : ctype := CStruct 1 [("num_orcs", c_uint); ("orc_unwind_ip",
  CPtr); ("orc_unwind", CPtr); ("its_pages", its_array)].

Definition mod_kallsyms : ctype := CStruct 1 [("symtab", CPtr); ("num_symtab", c_uint);
  ("strtab", CPtr); ("typetab", CPtr)].

Definition _ddebug_info : ctype := CStruct 1 [("descs", CPtr); ("classes", CPtr); ("num_descs",
  c_uint); ("num_classes", c_uint)].

Definition module : ctype := CStruct 1 [("state", module_state__Type); ("list", list_head);
  ("name", CArray 56 c_char); ("build_id", CArray 20 c_uchar); ("mkobj", module_kobject);
  ("modinfo_attrs", CPtr); ("version", CPtr); ("srcversion", CPtr); ("holders_dir", CPtr);
  ("syms", CPtr); ("crcs", CPtr); ("num_syms", c_uint); ("param_lock", mutex); ("kp", CPtr);
  ("num_kp", c_uint); ("num_gpl_syms", c_uint); ("gpl_syms", CPtr); ("gpl_crcs", CPtr);
  ("using_gplonly_symbols", bool_); ("sig_ok", bool_); ("async_probe_requested", bool_);
  ("num_exentries", c_uint); ("extable", CPtr); ("init", CPtr); ("_bitfield_align_1", CArray 0
  CU8); ("_bitfield_1", __BindgenBitfieldUnit 40); ("mem", CArray 7 module_memory); ("arch",
  mod_arch_specific); ("taints", c_ulong); ("num_bugs", c_uint); ("bug_list", list_head);
  ("bug_table", CPtr); ("kallsyms", CPtr); ("core_kallsyms", mod_kallsyms); ("sect_attrs",
  CPtr); ("notes_attrs", CPtr); ("args", CPtr); ("percpu", CPtr); ("percpu_size", c_uint);
  ("noinstr_text_start", CPtr); ("noinstr_text_size", c_uint); ("num_tracepoints", c_uint);
  ("tracepoints_ptrs", CPtr); ("num_srcu_structs", c_uint); ("srcu_struct_ptrs", CPtr);
  ("num_bpf_raw_events", c_uint); ("bpf_raw_events", CPtr); ("btf_data_size", c_uint);
  ("btf_base_data_size", c_uint); ("btf_data", CPtr); ("btf_base_data", CPtr); ("jump_entries",
  CPtr); ("num_jump_entries", c_uint); ("num_trace_bprintk_fmt", c_uint);
  ("trace_bprintk_fmt_start", CPtr); ("trace_events", CPtr); ("num_trace_events", c_uint);
  ("trace_evals", CPtr); ("num_trace_evals", c_uint); ("num_ftrace_callsites", c_uint);
  ("ftrace_callsites", CPtr); ("kprobes_text_start", CPtr); ("kprobes_text_size", c_uint);
  ("kprobe_blacklist", CPtr); ("num_kprobe_blacklist", c_uint); ("num_static_call_sites",
  c_int); ("static_call_sites", CPtr); ("printk_index_size", c_uint); ("printk_index_start",
  CPtr); ("source_list", list_head); ("target_list", list_head); ("exit", CPtr); ("refcnt",
  atomic_t); ("ei_funcs", CPtr); ("num_ei_funcs", c_uint); ("dyndbg_info", _ddebug_info);
  ("_bitfield_align_2", CArray 0 CU8); ("_bitfield_2", __BindgenBitfieldUnit 8)].

Definition pci_msi_desc__bindgen_ty_2 : ctype := CStruct 1 [("_bitfield_align_1", CArray 0 CU8);
  ("_bitfield_1", __BindgenBitfieldUnit 2); ("default_irq", c_uint)].

Definition netns_sysctl_ipv6 : ctype := CStruct 1 [("hdr", CPtr); ("route_hdr", CPtr);
  ("icmp_hdr", CPtr); ("frags_hdr", CPtr); ("xfrm6_hdr", CPtr); ("flush_delay", c_int);
  ("ip6_rt_max_size", c_int); ("ip6_rt_gc_min_interval", c_int); ("ip6_rt_gc_timeout", c_int);
  ("ip6_rt_gc_interval", c_int); ("ip6_rt_gc_elasticity", c_int); ("ip6_rt_mtu_expires", c_int);
  ("ip6_rt_min_advmss", c_int); ("multipath_hash_fields", u32_); ("multipath_hash_policy", u8_);
  ("__cacheline_group_begin__sysctl_ipv6_flowlabel", __IncompleteArrayField __u8);
  ("flowlabel_consistency", u8_); ("auto_flowlabels", u8_); ("flowlabel_state_ranges", u8_);
  ("__cacheline_group_end__sysctl_ipv6_flowlabel", __IncompleteArrayField __u8);
  ("icmpv6_echo_ignore_all", u8_); ("icmpv6_echo_ignore_multicast", u8_);
  ("icmpv6_echo_ignore_anycast", u8_); ("icmpv6_time", c_int); ("icmpv6_ratemask", CArray 4
  c_ulong); ("icmpv6_ratemask_ptr", CPtr); ("anycast_src_echo_reply", u8_); ("bindv6only", u8_);
  ("ip_nonlocal_bind", u8_); ("fwmark_reflect", u8_); ("idgen_retries", c_int); ("idgen_delay",
  c_int); ("flowlabel_reflect", c_int); ("max_dst_opts_cnt", c_int); ("max_hbh_opts_cnt",
  c_int); ("max_dst_opts_len", c_int); ("max_hbh_opts_len", c_int); ("seg6_flowlabel", c_int);
  ("ioam6_id", u32_); ("ioam6_id_wide", u64_); ("skip_notify_on_dev_down", u8_);
  ("fib_notify_on_flag_change", u8_); ("icmpv6_error_anycast_as_unicast", u8_);
  ("icmpv6_errors_extension_mask", u8_)].

Definition netns_ipv6__bindgen_ty_1 : ctype := CStruct 1 [("head", hlist_head); ("lock",
  spinlock_t); ("seq", u32_)].

Definition netns_ipv6 : ctype := CStruct 1 [("ip6_dst_ops", dst_ops); ("sysctl",
  netns_sysctl_ipv6); ("devconf_all", CPtr); ("devconf_dflt", CPtr); ("peers", CPtr); ("fqdir",
  CPtr); ("fib6_null_entry", CPtr); ("ip6_null_entry", CPtr); ("rt6_stats", CPtr);
  ("ip6_fib_timer", timer_list); ("fib_table_hash", CPtr); ("fib_table_hash_lock", spinlock_t);
  ("fib6_main_tbl", CPtr); ("fib6_walkers", list_head); ("fib6_walker_lock", rwlock_t);
  ("fib6_gc_lock", spinlock_t); ("ip6_rt_gc_expire", atomic_t); ("ip6_rt_last_gc", c_ulong);
  ("flowlabel_has_excl", c_uchar); ("fib6_has_custom_rules", bool_);
  ("fib6_rules_require_fldissect", c_uint); ("fib6_routes_require_src", c_uint);
  ("ip6_prohibit_entry", CPtr); ("ip6_blk_hole_entry", CPtr); ("fib6_local_tbl", CPtr);
  ("fib6_rules_ops", CPtr); ("ndisc_sk", CPtr); ("tcp_sk", CPtr); ("igmp_sk", CPtr);
  ("mc_autojoin_sk", CPtr); ("inet6_addr_lst", CPtr); ("addrconf_hash_lock", spinlock_t);
  ("addr_chk_work", delayed_work); ("mr6_tables", list_head); ("mr6_rules_ops", CPtr);
  ("dev_addr_genid", atomic_t); ("fib6_sernum", atomic_t); ("seg6_data", CPtr); ("notifier_ops",
  CPtr); ("ip6mr_notifier_ops", CPtr); ("ipmr_seq", c_uint); ("ip6addrlbl_table",
  netns_ipv6__bindgen_ty_1); ("ioam6_data", CPtr); ("_bitfield_align_1", CArray 0 CU8);
  ("_bitfield_1", __BindgenBitfieldUnit 24)].

Definition ref_tracker_dir : ctype := CStruct 1 [].

Definition raw_notifier_head : ctype := CStruct 1 [("head", CPtr)].

Definition netns_core : ctype := CStruct 1 [("sysctl_hdr", CPtr); ("sysctl_somaxconn", c_int);
  ("sysctl_txq_reselection", c_int); ("sysctl_optmem_max", c_int); ("sysctl_txrehash", u8_);
  ("sysctl_tstamp_allow_data", u8_); ("sysctl_bypass_prot_mem", u8_); ("prot_inuse", CPtr);
  ("rps_default_mask", CPtr)].

Definition netns_mib : ctype := CStruct 1 [("ip_statistics", CPtr); ("ipv6_statistics", CPtr);
  ("tcp_statistics", CPtr); ("net_statistics", CPtr); ("udp_statistics", CPtr);
  ("udp_stats_in6", CPtr); ("xfrm_statistics", CPtr); ("tls_statistics", CPtr);
  ("mptcp_statistics", CPtr); ("udplite_statistics", CPtr); ("udplite_stats_in6", CPtr);
  ("icmp_statistics", CPtr); ("icmpmsg_statistics", CPtr); ("icmpv6_statistics", CPtr);
  ("icmpv6msg_statistics", CPtr); ("proc_net_devsnmp6", CPtr)].

Definition netns_packet : ctype := CStruct 1 [("sklist_lock", mutex); ("sklist", hlist_head)].

Definition unix_table : ctype := CStruct 1 [("locks", CPtr); ("buckets", CPtr)].

Definition netns_unix : ctype := CStruct 1 [("table", unix_table); ("sysctl_max_dgram_qlen",
  c_int); ("ctl", CPtr)].

Definition blocking_notifier_head : ctype := CStruct 1 [("rwsem", rw_semaphore); ("head",
  CPtr)].

Definition netns_nexthop : ctype := CStruct 1 [("rb_root", rb_root); ("devhash", CPtr); ("seq",
  c_uint); ("last_id_allocated", u32_); ("notifier_chain", blocking_notifier_head)].

Definition netns_ipv4__bindgen_ty_1 : ctype := CStruct 1 [].

Definition inet_timewait_death_row : ctype := CStruct 1 [("tw_refcount", refcount_t);
  ("_bitfield_align_1", CArray 0 CU8); ("_bitfield_1", __BindgenBitfieldUnit 56); ("hashinfo",
  CPtr); ("sysctl_max_tw_buckets", c_int); ("_bitfield_align_2", CArray 0 CU8); ("_bitfield_2",
  __BindgenBitfieldUnit 48); ("__bindgen_padding_0", CU32)].

Definition udp_tunnel_gro : ctype := CStruct 1 [("sk", CPtr); ("list", hlist_head)].

Definition local_ports : ctype := CStruct 1 [("range", u32_); ("warned", bool_)].

Definition seqlock : ctype := CStruct 1 [("seqcount", seqcount_spinlock_t); ("lock",
  spinlock_t)].

Definition seqlock_t : ctype := seqlock.

Definition ping_group_range : ctype := CStruct 1 [("lock", seqlock_t); ("range", CArray 2
  kgid_t)].

Definition sysctl_fib_multipath_hash_seed : ctype := CStruct 1 [("user_seed", u32_); ("mp_seed",
  u32_)].

Definition siphash_key_t : ctype := CStruct 1 [("key", CArray 2 u64_)].

Definition netns_ipv4 : ctype := CStruct 1 [("__cacheline_group_begin__netns_ipv4_read_tx",
  __IncompleteArrayField __u8); ("sysctl_tcp_early_retrans", u8_);
  ("sysctl_tcp_tso_win_divisor", u8_); ("sysctl_tcp_tso_rtt_log", u8_);
  ("sysctl_tcp_autocorking", u8_); ("sysctl_tcp_min_snd_mss", c_int);
  ("sysctl_tcp_notsent_lowat", c_uint); ("sysctl_tcp_limit_output_bytes", c_int);
  ("sysctl_tcp_min_rtt_wlen", c_int); ("sysctl_tcp_wmem", CArray 3 c_int);
  ("sysctl_ip_fwd_use_pmtu", u8_); ("__cacheline_group_end__netns_ipv4_read_tx",
  __IncompleteArrayField __u8); ("__cacheline_group_begin__netns_ipv4_read_txrx",
  __IncompleteArrayField __u8); ("__cacheline_group_end__netns_ipv4_read_txrx",
  __IncompleteArrayField __u8); ("__cacheline_group_begin__netns_ipv4_read_rx",
  __IncompleteArrayField __u8); ("sysctl_tcp_moderate_rcvbuf", u8_); ("sysctl_ip_early_demux",
  u8_); ("sysctl_tcp_early_demux", u8_); ("sysctl_tcp_l3mdev_accept", u8_);
  ("sysctl_tcp_reordering", c_int); ("sysctl_tcp_rmem", CArray 3 c_int);
  ("sysctl_tcp_rcvbuf_low_rtt", c_int); ("__cacheline_group_end__netns_ipv4_read_rx",
  __IncompleteArrayField __u8); ("__bindgen_padding_0", CArray 4 CU8);
  ("__cacheline_group_begin__icmp", __IncompleteArrayField __u8); ("icmp_global_credit",
  atomic_t); ("icmp_global_stamp", u32_); ("__cacheline_group_end__icmp", __IncompleteArrayField
  __u8); ("_bitfield_align_1", CArray 0 CU8); ("_bitfield_1", __BindgenBitfieldUnit 56);
  ("__cacheline_group_pad__icmp", netns_ipv4__bindgen_ty_1); ("tcp_death_row",
  inet_timewait_death_row); ("udp_table", CPtr); ("udp_tunnel_gro", CArray 2 udp_tunnel_gro);
  ("forw_hdr", CPtr); ("frags_hdr", CPtr); ("ipv4_hdr", CPtr); ("route_hdr", CPtr);
  ("xfrm4_hdr", CPtr); ("devconf_all", CPtr); ("devconf_dflt", CPtr); ("ra_chain", CPtr);
  ("ra_mutex", mutex); ("rules_ops", CPtr); ("fib_main", CPtr); ("fib_default", CPtr);
  ("fib_rules_require_fldissect", c_uint); ("fib_has_custom_rules", bool_);
  ("fib_has_custom_local_routes", bool_); ("fib_offload_disabled", bool_);
  ("sysctl_tcp_shrink_window", u8_); ("fib_num_tclassid_users", atomic_t); ("fib_table_hash",
  CPtr); ("fibnl", CPtr); ("fib_info_hash", CPtr); ("fib_info_hash_bits", c_uint);
  ("fib_info_cnt", c_uint); ("mc_autojoin_sk", CPtr); ("peers", CPtr); ("fqdir", CPtr);
  ("sysctl_icmp_echo_ignore_all", u8_); ("sysctl_icmp_echo_enable_probe", u8_);
  ("sysctl_icmp_echo_ignore_broadcasts", u8_); ("sysctl_icmp_ignore_bogus_error_responses",
  u8_); ("sysctl_icmp_errors_use_inbound_ifaddr", u8_); ("sysctl_icmp_errors_extension_mask",
  u8_); ("sysctl_icmp_ratelimit", c_int); ("sysctl_icmp_ratemask", c_int);
  ("sysctl_icmp_msgs_per_sec", c_int); ("sysctl_icmp_msgs_burst", c_int); ("ip_rt_min_pmtu",
  u32_); ("ip_rt_mtu_expires", c_int); ("ip_rt_min_advmss", c_int); ("ip_local_ports",
  local_ports); ("sysctl_tcp_ecn", u8_); ("sysctl_tcp_ecn_option", u8_);
  ("sysctl_tcp_ecn_option_beacon", u8_); ("sysctl_tcp_ecn_fallback", u8_);
  ("sysctl_ip_default_ttl", u8_); ("sysctl_ip_no_pmtu_disc", u8_);
  ("sysctl_ip_fwd_update_priority", u8_); ("sysctl_ip_nonlocal_bind", u8_);
  ("sysctl_ip_autobind_reuse", u8_); ("sysctl_ip_dynaddr", u8_); ("sysctl_raw_l3mdev_accept",
  u8_); ("sysctl_udp_early_demux", u8_); ("sysctl_nexthop_compat_mode", u8_);
  ("sysctl_fwmark_reflect", u8_); ("sysctl_tcp_fwmark_accept", u8_); ("sysctl_tcp_mtu_probing",
  u8_); ("sysctl_tcp_mtu_probe_floor", c_int); ("sysctl_tcp_base_mss", c_int);
  ("sysctl_tcp_probe_threshold", c_int); ("sysctl_tcp_probe_interval", u32_);
  ("sysctl_tcp_keepalive_time", c_int); ("sysctl_tcp_keepalive_intvl", c_int);
  ("sysctl_tcp_keepalive_probes", u8_); ("sysctl_tcp_syn_retries", u8_);
  ("sysctl_tcp_synack_retries", u8_); ("sysctl_tcp_syncookies", u8_); ("sysctl_tcp_migrate_req",
  u8_); ("sysctl_tcp_comp_sack_nr", u8_); ("sysctl_tcp_backlog_ack_defer", u8_);
  ("sysctl_tcp_pingpong_thresh", u8_); ("sysctl_tcp_retries1", u8_); ("sysctl_tcp_retries2",
  u8_); ("sysctl_tcp_orphan_retries", u8_); ("sysctl_tcp_tw_reuse", u8_);
  ("sysctl_tcp_tw_reuse_delay", c_uint); ("sysctl_tcp_fin_timeout", c_int); ("sysctl_tcp_sack",
  u8_); ("sysctl_tcp_window_scaling", u8_); ("sysctl_tcp_timestamps", u8_);
  ("sysctl_tcp_rto_min_us", c_int); ("sysctl_tcp_rto_max_ms", c_int); ("sysctl_tcp_recovery",
  u8_); ("sysctl_tcp_thin_linear_timeouts", u8_); ("sysctl_tcp_slow_start_after_idle", u8_);
  ("sysctl_tcp_retrans_collapse", u8_); ("sysctl_tcp_stdurg", u8_); ("sysctl_tcp_rfc1337", u8_);
  ("sysctl_tcp_abort_on_overflow", u8_); ("sysctl_tcp_fack", u8_); ("sysctl_tcp_max_reordering",
  c_int); ("sysctl_tcp_adv_win_scale", c_int); ("sysctl_tcp_dsack", u8_); ("sysctl_tcp_app_win",
  u8_); ("sysctl_tcp_frto", u8_); ("sysctl_tcp_nometrics_save", u8_);
  ("sysctl_tcp_no_ssthresh_metrics_save", u8_); ("sysctl_tcp_workaround_signed_windows", u8_);
  ("sysctl_tcp_challenge_ack_limit", c_int); ("sysctl_tcp_min_tso_segs", u8_);
  ("sysctl_tcp_reflect_tos", u8_); ("sysctl_tcp_invalid_ratelimit", c_int);
  ("sysctl_tcp_pacing_ss_ratio", c_int); ("sysctl_tcp_pacing_ca_ratio", c_int);
  ("sysctl_tcp_child_ehash_entries", c_uint); ("sysctl_tcp_comp_sack_rtt_percent", c_int);
  ("sysctl_tcp_comp_sack_delay_ns", c_ulong); ("sysctl_tcp_comp_sack_slack_ns", c_ulong);
  ("sysctl_max_syn_backlog", c_int); ("sysctl_tcp_fastopen", c_int); ("tcp_congestion_control",
  CPtr); ("tcp_fastopen_ctx", CPtr); ("sysctl_tcp_fastopen_blackhole_timeout", c_uint);
  ("tfo_active_disable_times", atomic_t); ("tfo_active_disable_stamp", c_ulong);
  ("tcp_challenge_timestamp", u32_); ("tcp_challenge_count", u32_); ("sysctl_tcp_plb_enabled",
  u8_); ("sysctl_tcp_plb_idle_rehash_rounds", u8_); ("sysctl_tcp_plb_rehash_rounds", u8_);
  ("sysctl_tcp_plb_suspend_rto_sec", u8_); ("sysctl_tcp_plb_cong_thresh", c_int);
  ("sysctl_udp_wmem_min", c_int); ("sysctl_udp_rmem_min", c_int);
  ("sysctl_fib_notify_on_flag_change", u8_); ("sysctl_tcp_syn_linear_timeouts", u8_);
  ("sysctl_udp_l3mdev_accept", u8_); ("sysctl_igmp_llm_reports", u8_);
  ("sysctl_igmp_max_memberships", c_int); ("sysctl_igmp_max_msf", c_int); ("sysctl_igmp_qrv",
  c_int); ("ping_group_range", ping_group_range); ("ping_port_rover", u16_); ("dev_addr_genid",
  atomic_t); ("sysctl_udp_child_hash_entries", c_uint); ("sysctl_local_reserved_ports", CPtr);
  ("sysctl_ip_prot_sock", c_int); ("mr_tables", list_head); ("mr_rules_ops", CPtr);
  ("sysctl_fib_multipath_hash_seed", sysctl_fib_multipath_hash_seed);
  ("sysctl_fib_multipath_hash_fields", u32_); ("sysctl_fib_multipath_use_neigh", u8_);
  ("sysctl_fib_multipath_hash_policy", u8_); ("notifier_ops", CPtr); ("fib_seq", c_uint);
  ("ipmr_notifier_ops", CPtr); ("ipmr_seq", c_uint); ("rt_genid", atomic_t); ("ip_id_key",
  siphash_key_t); ("inet_addr_lst", CPtr); ("addr_chk_work", delayed_work);
  ("_bitfield_align_2", CArray 0 CU8); ("_bitfield_2", __BindgenBitfieldUnit 40)].

Definition netns_sysctl_lowpan : ctype := CStruct 1 [("frags_hdr", CPtr)].

Definition netns_ieee802154_lowpan : ctype := CStruct 1 [("sysctl", netns_sysctl_lowpan);
  ("fqdir", CPtr)].

Definition netns_sctp : ctype := CStruct 1 [("sctp_statistics", CPtr); ("proc_net_sctp", CPtr);
  ("sysctl_header", CPtr); ("ctl_sock", CPtr); ("udp4_sock", CPtr); ("udp6_sock", CPtr);
  ("udp_port", c_int); ("encap_port", c_int); ("local_addr_list", list_head); ("addr_waitq",
  list_head); ("addr_wq_timer", timer_list); ("auto_asconf_splist", list_head); ("addr_wq_lock",
  spinlock_t); ("local_addr_lock", spinlock_t); ("rto_initial", c_uint); ("rto_min", c_uint);
  ("rto_max", c_uint); ("rto_alpha", c_int); ("rto_beta", c_int); ("max_burst", c_int);
  ("cookie_preserve_enable", c_int); ("cookie_auth_enable", c_int); ("valid_cookie_life",
  c_uint); ("sack_timeout", c_uint); ("hb_interval", c_uint); ("probe_interval", c_uint);
  ("max_retrans_association", c_int); ("max_retrans_path", c_int); ("max_retrans_init", c_int);
  ("pf_retrans", c_int); ("ps_retrans", c_int); ("pf_enable", c_int); ("pf_expose", c_int);
  ("sndbuf_policy", c_int); ("rcvbuf_policy", c_int); ("default_auto_asconf", c_int);
  ("addip_enable", c_int); ("addip_noauth", c_int); ("prsctp_enable", c_int); ("reconf_enable",
  c_int); ("auth_enable", c_int); ("intl_enable", c_int); ("ecn_enable", c_int);
  ("scope_policy", c_int); ("rwnd_upd_shift", c_int); ("max_autoclose", c_ulong);
  ("l3mdev_accept", c_int)].

Definition netns_nf : ctype := CStruct 1 [("proc_netfilter", CPtr); ("nf_loggers", CArray 11
  CPtr); ("nf_log_dir_header", CPtr); ("nf_lwtnl_dir_header", CPtr); ("hooks_ipv4", CArray 5
  CPtr); ("hooks_ipv6", CArray 5 CPtr); ("hooks_arp", CArray 3 CPtr); ("hooks_bridge", CArray 5
  CPtr); ("defrag_ipv4_users", c_uint); ("defrag_ipv6_users", c_uint)].

Definition nf_generic_net : ctype := CStruct 1 [("timeout", c_uint)].

Definition nf_tcp_net : ctype := CStruct 1 [("timeouts", CArray 14 c_uint); ("tcp_loose", u8_);
  ("tcp_be_liberal", u8_); ("tcp_max_retrans", u8_); ("tcp_ignore_invalid_rst", u8_);
  ("offload_timeout", c_uint)].

Definition nf_udp_net : ctype := CStruct 1 [("timeouts", CArray 2 c_uint); ("offload_timeout",
  c_uint)].

Definition nf_icmp_net : ctype := CStruct 1 [("timeout", c_uint)].

Definition nf_sctp_net : ctype := CStruct 1 [("timeouts", CArray 10 c_uint)].

Definition nf_gre_net : ctype := CStruct 1 [("keymap_list", list_head); ("timeouts", CArray 2
  c_uint)].

Definition nf_ip_net : ctype := CStruct 1 [("generic", nf_generic_net); ("tcp", nf_tcp_net);
  ("udp", nf_udp_net); ("icmp", nf_icmp_net); ("icmpv6", nf_icmp_net); ("sctp", nf_sctp_net);
  ("gre", nf_gre_net)].

Definition netns_ct : ctype := CStruct 1 [("ecache_dwork_pending", bool_);
  ("sysctl_log_invalid", u8_); ("sysctl_events", u8_); ("sysctl_acct", u8_); ("sysctl_tstamp",
  u8_); ("sysctl_checksum", u8_); ("stat", CPtr); ("nf_conntrack_event_cb", CPtr);
  ("nf_ct_proto", nf_ip_net); ("labels_used", atomic_t)].

Definition netns_nftables : ctype := CStruct 1 [("base_seq", c_uint); ("gencursor", u8_)].

Definition netns_ft : ctype := CStruct 1 [("stat", CPtr)].

Definition netns_bpf : ctype := CStruct 1 [("run_array", CArray 2 CPtr); ("progs", CArray 2
  CPtr); ("links", CArray 2 list_head)].

Definition xfrm_policy_hash : ctype := CStruct 1 [("table", CPtr); ("hmask", c_uint); ("dbits4",
  u8_); ("sbits4", u8_); ("dbits6", u8_); ("sbits6", u8_)].

Definition xfrm_policy_hthresh : ctype := CStruct 1 [("work", work_struct); ("lock", seqlock_t);
  ("lbits4", u8_); ("rbits4", u8_); ("lbits6", u8_); ("rbits6", u8_)].

Definition netns_xfrm : ctype := CStruct 1 [("state_all", list_head); ("state_bydst", CPtr);
  ("state_bysrc", CPtr); ("state_byspi", CPtr); ("state_byseq", CPtr); ("state_cache_input",
  CPtr); ("state_hmask", c_uint); ("state_num", c_uint); ("state_hash_work", work_struct);
  ("policy_all", list_head); ("policy_byidx", CPtr); ("policy_idx_hmask", c_uint);
  ("idx_generator", c_uint); ("policy_bydst", CArray 3 xfrm_policy_hash); ("policy_count",
  CArray 6 c_uint); ("policy_hash_work", work_struct); ("policy_hthresh", xfrm_policy_hthresh);
  ("inexact_bins", list_head); ("nlsk", CPtr); ("nlsk_stash", CPtr); ("sysctl_aevent_etime",
  u32_); ("sysctl_aevent_rseqth", u32_); ("sysctl_larval_drop", c_int); ("sysctl_acq_expires",
  u32_); ("policy_default", CArray 3 u8_); ("sysctl_hdr", CPtr); ("_bitfield_align_1", CArray 0
  CU8); ("_bitfield_1", __BindgenBitfieldUnit 40); ("xfrm4_dst_ops", dst_ops); ("xfrm6_dst_ops",
  dst_ops); ("xfrm_state_lock", spinlock_t); ("xfrm_state_hash_generation",
  seqcount_spinlock_t); ("xfrm_policy_hash_generation", seqcount_spinlock_t);
  ("xfrm_policy_lock", spinlock_t); ("xfrm_cfg_mutex", mutex); ("nat_keepalive_work",
  delayed_work); ("_bitfield_align_2", CArray 0 CU8); ("_bitfield_2", __BindgenBitfieldUnit
  56)].

Definition seqcount_mutex : ctype := CStruct 1 [("seqcount", seqcount_t)].

Definition seqcount_mutex_t : ctype := seqcount_mutex.

Definition netns_mpls : ctype := CStruct 1 [("ip_ttl_propagate", c_int); ("default_ttl", c_int);
  ("platform_labels", CU64); ("platform_label", CPtr); ("platform_mutex", mutex);
  ("platform_label_seq", seqcount_mutex_t); ("ctl", CPtr)].

Definition netns_can : ctype := CStruct 1 [("proc_dir", CPtr); ("pde_stats", CPtr);
  ("pde_reset_stats", CPtr); ("pde_rcvlist_all", CPtr); ("pde_rcvlist_fil", CPtr);
  ("pde_rcvlist_inv", CPtr); ("pde_rcvlist_sff", CPtr); ("pde_rcvlist_eff", CPtr);
  ("pde_rcvlist_err", CPtr); ("bcmproc_dir", CPtr); ("rx_alldev_list", CPtr); ("rcvlists_lock",
  spinlock_t); ("stattimer", timer_list); ("pkg_stats", CPtr); ("rcv_lists_stats", CPtr);
  ("cgw_list", hlist_head)].

Definition netns_xdp : ctype := CStruct 1 [("lock", mutex); ("list", hlist_head)].

Definition netns_mctp : ctype := CStruct 1 [("routes", list_head); ("bind_lock", mutex);
  ("binds", CArray 128 hlist_head); ("keys_lock", spinlock_t); ("keys", hlist_head);
  ("default_net", c_uint); ("neigh_lock", mutex); ("neighbours", list_head)].

Definition netns_smc : ctype := CStruct 1 [("smc_stats", CPtr); ("mutex_fback_rsn", mutex);
  ("fback_rsn", CPtr); ("limit_smc_hs", bool_); ("smc_hdr", CPtr); ("hs_ctrl", CPtr);
  ("sysctl_autocorking_size", c_uint); ("sysctl_smcr_buf_type", c_uint);
  ("sysctl_smcr_testlink_time", c_int); ("sysctl_wmem", c_int); ("sysctl_rmem", c_int);
  ("sysctl_max_links_per_lgr", c_int); ("sysctl_max_conns_per_lgr", c_int);
  ("sysctl_smcr_max_send_wr", c_uint); ("sysctl_smcr_max_recv_wr", c_uint)].

Definition netns_vsock : ctype := CStruct 1 [("sysctl_hdr", CPtr); ("port", u32_); ("mode",
  vsock_net_mode__Type); ("child_ns_mode", vsock_net_mode__Type); ("child_ns_mode_locked",
  c_int)].

Definition net : ctype := CStruct 1 [("passive", refcount_t); ("rules_mod_lock", spinlock_t);
  ("dev_base_seq", c_uint); ("ifindex", u32_); ("nsid_lock", spinlock_t); ("fnhe_genid",
  atomic_t); ("list", list_head); ("exit_list", list_head); ("defer_free_list", llist_node);
  ("cleanup_list", llist_node); ("ptype_all", list_head); ("ptype_specific", list_head);
  ("key_domain", CPtr); ("user_ns", CPtr); ("ucounts", CPtr); ("netns_ids", idr);
  ("_bitfield_align_1", CArray 0 CU8); ("_bitfield_1", __BindgenBitfieldUnit 40); ("ns",
  ns_common); ("refcnt_tracker", ref_tracker_dir); ("notrefcnt_tracker", ref_tracker_dir);
  ("dev_base_head", list_head); ("proc_net", CPtr); ("proc_net_stat", CPtr); ("sysctls",
  ctl_table_set); ("rtnl", CPtr); ("genl_sock", CPtr); ("uevent_sock", CPtr); ("dev_name_head",
  CPtr); ("dev_index_head", CPtr); ("dev_by_index", xarray); ("netdev_chain",
  raw_notifier_head); ("hash_mix", u32_); ("is_dying", bool_); ("loopback_dev", CPtr);
  ("rules_ops", list_head); ("core", netns_core); ("mib", netns_mib); ("packet", netns_packet);
  ("unx", netns_unix); ("nexthop", netns_nexthop); ("_bitfield_align_2", CArray 0 CU8);
  ("_bitfield_2", __BindgenBitfieldUnit 32); ("ipv4", netns_ipv4); ("ipv6", netns_ipv6);
  ("ieee802154_lowpan", netns_ieee802154_lowpan); ("sctp", netns_sctp); ("nf", netns_nf); ("ct",
  netns_ct); ("nft", netns_nftables); ("ft", netns_ft); ("wext_nlevents", sk_buff_head);
  ("gen_", CPtr); ("bpf", netns_bpf); ("_bitfield_align_3", CArray 0 CU8); ("_bitfield_3",
  __BindgenBitfieldUnit 24); ("xfrm", netns_xfrm); ("net_cookie", u64_); ("ipvs", CPtr);
  ("mpls", netns_mpls); ("can", netns_can); ("xdp", netns_xdp); ("mctp", netns_mctp);
  ("crypto_nlsk", CPtr); ("diag_nlsk", CPtr); ("smc", netns_smc); ("vsock", netns_vsock);
  ("_bitfield_align_4", CArray 0 CU8); ("_bitfield_4", __BindgenBitfieldUnit 16)].

Definition dst_entry__bindgen_ty_1 : ctype := CUnion 1 [("dev", CPtr); ("dev_rcu", CPtr)].

Definition rcuref_t : ctype := CStruct 1 [("refcnt", atomic_t)].

Definition dst_entry : ctype := CStruct 1 [("__bindgen_anon_1", dst_entry__bindgen_ty_1);
  ("ops", CPtr); ("_metrics", c_ulong); ("expires", c_ulong); ("xfrm", CPtr); ("input", CPtr);
  ("output", CPtr); ("flags", c_ushort); ("obsolete", c_short); ("header_len", c_ushort);
  ("trailer_len", c_ushort); ("__rcuref", rcuref_t); ("__use", c_int); ("lastuse", c_ulong);
  ("callback_head", callback_head); ("error", c_short); ("__pad", c_short); ("tclassid", __u32);
  ("dev_tracker", netdevice_tracker); ("rt_uncached", list_head); ("rt_uncached_list", CPtr);
  ("lwtstate", CPtr)].

Definition rtable__bindgen_ty_1 : ctype := CUnion 1 [("rt_gw4", __be32); ("rt_gw6", in6_addr)].

Definition rtable : ctype := CStruct 1 [("dst", dst_entry); ("rt_genid", c_int); ("rt_flags",
  c_uint); ("rt_type", __u16); ("rt_is_input", __u8); ("rt_uses_gateway", __u8); ("rt_iif",
  c_int); ("rt_gw_family", u8_); ("__bindgen_anon_1", rtable__bindgen_ty_1);
  ("_bitfield_align_1", CArray 0 CU32); ("_bitfield_1", __BindgenBitfieldUnit 4)].

Definition net_device__bindgen_ty_1__bindgen_ty_1 : ctype := CStruct 8 [("_bitfield_align_1",
  CArray 0 CU32); ("_bitfield_1", __BindgenBitfieldUnit 5)].

Definition net_device__bindgen_ty_1__bindgen_ty_2 : ctype := CStruct 8 [("_bitfield_align_1",
  CArray 0 CU32); ("_bitfield_1", __BindgenBitfieldUnit 5)].

Definition net_device__bindgen_ty_1 : ctype := CUnion 1 [("__bindgen_anon_1",
  net_device__bindgen_ty_1__bindgen_ty_1); ("priv_flags_fast",
  net_device__bindgen_ty_1__bindgen_ty_2)].

Definition netdev_tc_txq : ctype := CStruct 1 [("count", u16_); ("offset", u16_)].

Definition net_device__bindgen_ty_2 : ctype := CUnion 1 [("lstats", CPtr); ("tstats", CPtr);
  ("dstats", CPtr)].

Definition rx_handler_func_t : ctype := CPtr.

Definition net_device__bindgen_ty_3 : ctype := CStruct 1 [("upper", list_head); ("lower",
  list_head)].

Definition xdp_features_t : ctype := u32_.

Definition net_device_stats__bindgen_ty_1 : ctype := CUnion 1 [("rx_packets", c_ulong);
  ("__rx_packets", atomic_long_t)].

Definition net_device_stats__bindgen_ty_2 : ctype := CUnion 1 [("tx_packets", c_ulong);
  ("__tx_packets", atomic_long_t)].

Definition net_device_stats__bindgen_ty_3 : ctype := CUnion 1 [("rx_bytes", c_ulong);
  ("__rx_bytes", atomic_long_t)].

Definition net_device_stats__bindgen_ty_4 : ctype := CUnion 1 [("tx_bytes", c_ulong);
  ("__tx_bytes", atomic_long_t)].

Definition net_device_stats__bindgen_ty_5 : ctype := CUnion 1 [("rx_errors", c_ulong);
  ("__rx_errors", atomic_long_t)].

Definition net_device_stats__bindgen_ty_6 : ctype := CUnion 1 [("tx_errors", c_ulong);
  ("__tx_errors", atomic_long_t)].

Definition net_device_stats__bindgen_ty_7 : ctype := CUnion 1 [("rx_dropped", c_ulong);
  ("__rx_dropped", atomic_long_t)].

Definition net_device_stats__bindgen_ty_8 : ctype := CUnion 1 [("tx_dropped", c_ulong);
  ("__tx_dropped", atomic_long_t)].

Definition net_device_stats__bindgen_ty_9 : ctype := CUnion 1 [("multicast", c_ulong);
  ("__multicast", atomic_long_t)].

Definition net_device_stats__bindgen_ty_10 : ctype := CUnion 1 [("collisions", c_ulong);
  ("__collisions", atomic_long_t)].

Definition net_device_stats__bindgen_ty_11 : ctype := CUnion 1 [("rx_length_errors", c_ulong);
  ("__rx_length_errors", atomic_long_t)].

Definition net_device_stats__bindgen_ty_12 : ctype := CUnion 1 [("rx_over_errors", c_ulong);
  ("__rx_over_errors", atomic_long_t)].

Definition net_device_stats__bindgen_ty_13 : ctype := CUnion 1 [("rx_crc_errors", c_ulong);
  ("__rx_crc_errors", atomic_long_t)].

Definition net_device_stats__bindgen_ty_14 : ctype := CUnion 1 [("rx_frame_errors", c_ulong);
  ("__rx_frame_errors", atomic_long_t)].

Definition net_device_stats__bindgen_ty_15 : ctype := CUnion 1 [("rx_fifo_errors", c_ulong);
  ("__rx_fifo_errors", atomic_long_t)].

Definition net_device_stats__bindgen_ty_16 : ctype := CUnion 1 [("rx_missed_errors", c_ulong);
  ("__rx_missed_errors", atomic_long_t)].

Definition net_device_stats__bindgen_ty_17 : ctype := CUnion 1 [("tx_aborted_errors", c_ulong);
  ("__tx_aborted_errors", atomic_long_t)].

Definition net_device_stats__bindgen_ty_18 : ctype := CUnion 1 [("tx_carrier_errors", c_ulong);
  ("__tx_carrier_errors", atomic_long_t)].

Definition net_device_stats__bindgen_ty_19 : ctype := CUnion 1 [("tx_fifo_errors", c_ulong);
  ("__tx_fifo_errors", atomic_long_t)].

Definition net_device_stats__bindgen_ty_20 : ctype := CUnion 1 [("tx_heartbeat_errors",
  c_ulong); ("__tx_heartbeat_errors", atomic_long_t)].

Definition net_device_stats__bindgen_ty_21 : ctype := CUnion 1 [("tx_window_errors", c_ulong);
  ("__tx_window_errors", atomic_long_t)].

Definition net_device_stats__bindgen_ty_22 : ctype := CUnion 1 [("rx_compressed", c_ulong);
  ("__rx_compressed", atomic_long_t)].

Definition net_device_stats__bindgen_ty_23 : ctype := CUnion 1 [("tx_compressed", c_ulong);
  ("__tx_compressed", atomic_long_t)].

Definition net_device_stats : ctype := CStruct 1 [("__bindgen_anon_1",
  net_device_stats__bindgen_ty_1); ("__bindgen_anon_2", net_device_stats__bindgen_ty_2);
  ("__bindgen_anon_3", net_device_stats__bindgen_ty_3); ("__bindgen_anon_4",
  net_device_stats__bindgen_ty_4); ("__bindgen_anon_5", net_device_stats__bindgen_ty_5);
  ("__bindgen_anon_6", net_device_stats__bindgen_ty_6); ("__bindgen_anon_7",
  net_device_stats__bindgen_ty_7); ("__bindgen_anon_8", net_device_stats__bindgen_ty_8);
  ("__bindgen_anon_9", net_device_stats__bindgen_ty_9); ("__bindgen_anon_10",
  net_device_stats__bindgen_ty_10); ("__bindgen_anon_11", net_device_stats__bindgen_ty_11);
  ("__bindgen_anon_12", net_device_stats__bindgen_ty_12); ("__bindgen_anon_13",
  net_device_stats__bindgen_ty_13); ("__bindgen_anon_14", net_device_stats__bindgen_ty_14);
  ("__bindgen_anon_15", net_device_stats__bindgen_ty_15); ("__bindgen_anon_16",
  net_device_stats__bindgen_ty_16); ("__bindgen_anon_17", net_device_stats__bindgen_ty_17);
  ("__bindgen_anon_18", net_device_stats__bindgen_ty_18); ("__bindgen_anon_19",
  net_device_stats__bindgen_ty_19); ("__bindgen_anon_20", net_device_stats__bindgen_ty_20);
  ("__bindgen_anon_21", net_device_stats__bindgen_ty_21); ("__bindgen_anon_22",
  net_device_stats__bindgen_ty_22); ("__bindgen_anon_23", net_device_stats__bindgen_ty_23)].

Definition netdev_hw_addr_list : ctype := CStruct 1 [("list", list_head); ("count", c_int);
  ("tree", rb_root)].

Definition bpf_xdp_entity : ctype := CStruct 1 [("prog", CPtr); ("link", CPtr)].

Definition net_device : ctype := CStruct 1 [("__cacheline_group_begin__net_device_read_tx",
  __IncompleteArrayField __u8); ("__bindgen_anon_1", net_device__bindgen_ty_1); ("netdev_ops",
  CPtr); ("header_ops", CPtr); ("_tx", CPtr); ("gso_partial_features", netdev_features_t);
  ("real_num_tx_queues", c_uint); ("gso_max_size", c_uint); ("gso_ipv4_max_size", c_uint);
  ("gso_max_segs", u16_); ("num_tc", s16); ("mtu", c_uint); ("needed_headroom", c_ushort);
  ("tc_to_txq", CArray 16 netdev_tc_txq); ("xps_maps", CArray 2 CPtr); ("nf_hooks_egress",
  CPtr); ("tcx_egress", CPtr); ("__cacheline_group_end__net_device_read_tx",
  __IncompleteArrayField __u8); ("__cacheline_group_begin__net_device_read_txrx",
  __IncompleteArrayField __u8); ("__bindgen_anon_2", net_device__bindgen_ty_2); ("state",
  c_ulong); ("flags", c_uint); ("hard_header_len", c_ushort); ("_bitfield_align_1", CArray 0
  CU8); ("_bitfield_1", __BindgenBitfieldUnit 1); ("features", netdev_features_t); ("ip6_ptr",
  CPtr); ("__cacheline_group_end__net_device_read_txrx", __IncompleteArrayField __u8);
  ("__cacheline_group_begin__net_device_read_rx", __IncompleteArrayField __u8); ("xdp_prog",
  CPtr); ("ptype_specific", list_head); ("ifindex", c_int); ("real_num_rx_queues", c_uint);
  ("_rx", CPtr); ("gro_max_size", c_uint); ("gro_ipv4_max_size", c_uint); ("rx_handler",
  rx_handler_func_t); ("rx_handler_data", CPtr); ("nd_net", possible_net_t); ("npinfo", CPtr);
  ("tcx_ingress", CPtr); ("__cacheline_group_end__net_device_read_rx", __IncompleteArrayField
  __u8); ("name", CArray 16 c_char); ("name_node", CPtr); ("ifalias", CPtr); ("mem_end",
  c_ulong); ("mem_start", c_ulong); ("base_addr", c_ulong); ("dev_list", list_head);
  ("napi_list", list_head); ("unreg_list", list_head); ("close_list", list_head); ("ptype_all",
  list_head); ("adj_list", net_device__bindgen_ty_3); ("xdp_features", xdp_features_t);
  ("xdp_metadata_ops", CPtr); ("xsk_tx_metadata_ops", CPtr); ("gflags", c_ushort);
  ("needed_tailroom", c_ushort); ("hw_features", netdev_features_t); ("wanted_features",
  netdev_features_t); ("vlan_features", netdev_features_t); ("hw_enc_features",
  netdev_features_t); ("mpls_features", netdev_features_t); ("mangleid_features",
  netdev_features_t); ("min_mtu", c_uint); ("max_mtu", c_uint); ("type_", c_ushort);
  ("min_header_len", c_uchar); ("name_assign_type", c_uchar); ("group", c_int); ("stats",
  net_device_stats); ("core_stats", CPtr); ("carrier_up_count", atomic_t);
  ("carrier_down_count", atomic_t); ("wireless_handlers", CPtr); ("ethtool_ops", CPtr);
  ("l3mdev_ops", CPtr); ("ndisc_ops", CPtr); ("xfrmdev_ops", CPtr); ("tlsdev_ops", CPtr);
  ("operstate", c_uint); ("link_mode", c_uchar); ("if_port", c_uchar); ("dma", c_uchar);
  ("perm_addr", CArray 32 c_uchar); ("addr_assign_type", c_uchar); ("addr_len", c_uchar);
  ("upper_level", c_uchar); ("lower_level", c_uchar); ("threaded", u8_); ("neigh_priv_len",
  c_ushort); ("dev_id", c_ushort); ("dev_port", c_ushort); ("irq", c_int); ("priv_len", u32_);
  ("addr_list_lock", spinlock_t); ("uc", netdev_hw_addr_list); ("mc", netdev_hw_addr_list);
  ("dev_addrs", netdev_hw_addr_list); ("queues_kset", CPtr); ("promiscuity", c_uint);
  ("allmulti", c_uint); ("uc_promisc", bool_); ("ip_ptr", CPtr); ("fib_nh_head", hlist_head);
  ("vlan_info", CPtr); ("dsa_ptr", CPtr); ("tipc_ptr", CPtr); ("atalk_ptr", CPtr); ("ax25_ptr",
  CPtr); ("ieee80211_ptr", CPtr); ("ieee802154_ptr", CPtr); ("mpls_ptr", CPtr); ("mctp_ptr",
  CPtr); ("psp_dev", CPtr); ("dev_addr", CPtr); ("num_rx_queues", c_uint); ("xdp_zc_max_segs",
  c_uint); ("ingress_queue", CPtr); ("nf_hooks_ingress", CPtr); ("broadcast", CArray 32
  c_uchar); ("rx_cpu_rmap", CPtr); ("index_hlist", hlist_node); ("num_tx_queues", c_uint);
  ("qdisc", CPtr); ("tx_queue_len", c_uint); ("tx_global_lock", spinlock_t); ("xdp_bulkq",
  CPtr); ("qdisc_hash", CArray 16 hlist_head); ("watchdog_timer", timer_list);
  ("watchdog_timeo", c_int); ("proto_down_reason", u32_); ("todo_list", list_head);
  ("pcpu_refcnt", CPtr); ("refcnt_tracker", ref_tracker_dir); ("link_watch_list", list_head);
  ("reg_state", u8_); ("dismantle", bool_); ("moving_ns", bool_); ("rtnl_link_initializing",
  bool_); ("needs_free_netdev", bool_); ("priv_destructor", CPtr); ("ml_priv", CPtr);
  ("ml_priv_type", netdev_ml_priv_type__Type); ("garp_port", CPtr); ("mrp_port", CPtr);
  ("dm_private", CPtr); ("dev", device); ("sysfs_groups", CArray 5 CPtr);
  ("sysfs_rx_queue_group", CPtr); ("rtnl_link_ops", CPtr); ("stat_ops", CPtr);
  ("queue_mgmt_ops", CPtr); ("tso_max_size", c_uint); ("tso_max_segs", u16_); ("dcbnl_ops",
  CPtr); ("prio_tc_map", CArray 16 u8_); ("fcoe_ddp_xid", c_uint); ("priomap", CPtr);
  ("link_topo", CPtr); ("phydev", CPtr); ("sfp_bus", CPtr); ("qdisc_tx_busylock", CPtr);
  ("proto_down", bool_); ("irq_affinity_auto", bool_); ("rx_cpu_rmap_auto", bool_);
  ("_bitfield_align_2", CArray 0 CU8); ("_bitfield_2", __BindgenBitfieldUnit 1);
  ("net_notifier_list", list_head); ("macsec_ops", CPtr); ("udp_tunnel_nic_info", CPtr);
  ("udp_tunnel_nic", CPtr); ("cfg", CPtr); ("cfg_pending", CPtr); ("ethtool", CPtr);
  ("xdp_state", CArray 3 bpf_xdp_entity); ("dev_addr_shadow", CArray 32 u8_);
  ("linkwatch_dev_tracker", netdevice_tracker); ("watchdog_dev_tracker", netdevice_tracker);
  ("dev_registered_tracker", netdevice_tracker); ("offload_xstats_l3", CPtr); ("devlink_port",
  CPtr); ("dpll_pin", CPtr); ("page_pools", hlist_head); ("irq_moder", CPtr);
  ("max_pacing_offload_horizon", u64_); ("napi_config", CPtr); ("num_napi_configs", u32_);
  ("napi_defer_hard_irqs", u32_); ("gro_flush_timeout", c_ulong); ("up", bool_);
  ("request_ops_lock", bool_); ("lock", mutex); ("net_shaper_hierarchy", CPtr); ("neighbours",
  CArray 2 hlist_head); ("hwprov", CPtr); ("_bitfield_align_3", CArray 0 CU8); ("_bitfield_3",
  __BindgenBitfieldUnit 48); ("priv_", __IncompleteArrayField u8_)].

Definition netdev_queue : ctype := CStruct 1 [("dev", CPtr); ("dev_tracker", netdevice_tracker);
  ("qdisc", CPtr); ("qdisc_sleeping", CPtr); ("kobj", kobject); ("groups", CPtr); ("tx_maxrate",
  c_ulong); ("trans_timeout", atomic_long_t); ("sb_dev", CPtr); ("pool", CPtr); ("dql", dql);
  ("_xmit_lock", spinlock_t); ("xmit_lock_owner", c_int); ("trans_start", c_ulong); ("state",
  c_ulong); ("napi", CPtr); ("numa_node", c_int); ("_bitfield_align_1", CArray 0 CU8);
  ("_bitfield_1", __BindgenBitfieldUnit 24); ("__bindgen_padding_0", CU32)].

Definition xdp_mem_info : ctype := CStruct 1 [("type_", u32_); ("id", u32_)].

Definition xdp_rxq_info : ctype := CStruct 1 [("dev", CPtr); ("queue_index", u32_);
  ("reg_state", u32_); ("mem", xdp_mem_info); ("frag_size", u32_); ("_bitfield_align_1", CArray
  0 CU8); ("_bitfield_1", __BindgenBitfieldUnit 32); ("__bindgen_padding_0", CU32)].

Definition nfs4_sequence_args : ctype := CStruct 1 [("sa_slot", CPtr); ("_bitfield_align_1",
  CArray 0 CU8); ("_bitfield_1", __BindgenBitfieldUnit 1); ("__bindgen_padding_0", CArray 7
  CU8)].

Definition __kernel_sa_family_t : ctype := c_ushort.

Definition __kernel_sockaddr_storage__bindgen_ty_1__bindgen_ty_1 : ctype := CStruct 1
  [("ss_family", __kernel_sa_family_t); ("__data", CArray 126 c_char)].

Definition __kernel_sockaddr_storage__bindgen_ty_1 : ctype := CUnion 1 [("__bindgen_anon_1",
  __kernel_sockaddr_storage__bindgen_ty_1__bindgen_ty_1); ("__align", CPtr)].

Definition __kernel_sockaddr_storage : ctype := CStruct 1 [("__bindgen_anon_1",
  __kernel_sockaddr_storage__bindgen_ty_1)].

Definition key_serial_t : ctype := CU32.

Definition xprtsec_parms : ctype := CStruct 1 [("policy", xprtsec_policies__Type);
  ("cert_serial", key_serial_t); ("privkey_serial", key_serial_t)].

Definition nfs4_verifier : ctype := CStruct 1 [("data", CArray 8 c_char)].

Definition rpc_timer : ctype := CStruct 1 [("list", list_head); ("expires", c_ulong); ("dwork",
  delayed_work)].

Definition rpc_wait_queue : ctype := CStruct 1 [("lock", spinlock_t); ("tasks", CArray 4
  list_head); ("maxpriority", c_uchar); ("priority", c_uchar); ("nr", c_uchar); ("qlen",
  c_uint); ("timer_list", rpc_timer); ("name", CPtr)].

Definition time64_t : ctype := __s64.

Definition timespec64 : ctype := CStruct 1 [("tv_sec", time64_t); ("tv_nsec", c_long)].

Definition uuid_t : ctype := CStruct 1 [("b", CArray 16 __u8)].

Definition nfs_uuid_t : ctype := CStruct 1 [("uuid", uuid_t); ("nfs3_localio_probe_count",
  c_uint); ("_bitfield_align_1", CArray 0 CU8); ("_bitfield_1", __BindgenBitfieldUnit 40);
  ("__bindgen_padding_0", CU32); ("lock", spinlock_t); ("list", list_head); ("list_lock", CPtr);
  ("net", CPtr); ("dom", CPtr); ("files", list_head)].

Definition nfs_client : ctype := CStruct 1 [("cl_count", refcount_t); ("cl_mds_count",
  atomic_t); ("cl_cons_state", c_int); ("cl_res_state", c_ulong); ("cl_flags", c_ulong);
  ("cl_addr", __kernel_sockaddr_storage); ("cl_addrlen", CU64); ("cl_hostname", CPtr);
  ("cl_acceptor", CPtr); ("cl_share_link", list_head); ("cl_superblocks", list_head);
  ("cl_rpcclient", CPtr); ("rpc_ops", CPtr); ("cl_proto", c_int); ("cl_nfs_mod", CPtr);
  ("cl_minorversion", u32_); ("cl_nconnect", c_uint); ("cl_max_connect", c_uint);
  ("cl_principal", CPtr); ("cl_xprtsec", xprtsec_parms); ("cl_ds_clients", list_head);
  ("cl_clientid", u64_); ("cl_confirm", nfs4_verifier); ("cl_state", c_ulong); ("cl_lock",
  spinlock_t); ("cl_lease_time", c_ulong); ("cl_last_renewal", c_ulong); ("cl_renewd",
  delayed_work); ("cl_rpcwaitq", rpc_wait_queue); ("cl_idmap", CPtr); ("cl_owner_id", CPtr);
  ("cl_cb_ident", u32_); ("cl_mvops", CPtr); ("cl_mig_gen", c_ulong); ("cl_slot_tbl", CPtr);
  ("cl_seqid", u32_); ("cl_exchange_flags", u32_); ("cl_session", CPtr); ("cl_preserve_clid",
  bool_); ("cl_serverowner", CPtr); ("cl_serverscope", CPtr); ("cl_implid", CPtr);
  ("cl_sp4_flags", c_ulong); ("cl_lock_waitq", wait_queue_head_t); ("cl_ipaddr", CArray 48
  c_char); ("cl_net", CPtr); ("cl_ns_tracker", netns_tracker); ("pending_cb_stateids",
  list_head); ("rcu", callback_head); ("cl_nfssvc_boot", timespec64); ("cl_boot_lock",
  seqlock_t); ("_bitfield_align_1", CArray 0 CU8); ("_bitfield_1", __BindgenBitfieldUnit 16);
  ("cl_uuid", nfs_uuid_t); ("cl_local_probe_work", work_struct); ("_bitfield_align_2", CArray 0
  CU8); ("_bitfield_2", __BindgenBitfieldUnit 32)].

Definition rpc_wait : ctype := CStruct 1 [("list", list_head); ("links", list_head);
  ("timer_list", list_head)].

Definition rpc_task__bindgen_ty_1 : ctype := CUnion 1 [("tk_work", work_struct); ("tk_wait",
  rpc_wait)].

Definition rpc_message : ctype := CStruct 1 [("rpc_proc", CPtr); ("rpc_argp", CPtr);
  ("rpc_resp", CPtr); ("rpc_cred", CPtr)].

Definition __kernel_pid_t : ctype := c_int.

Definition pid_t : ctype := __kernel_pid_t.

Definition rpc_task : ctype := CStruct 1 [("tk_count", atomic_t); ("tk_status", c_int);
  ("tk_task", list_head); ("tk_callback", CPtr); ("tk_action", CPtr); ("tk_timeout", c_ulong);
  ("tk_runstate", c_ulong); ("tk_waitqueue", CPtr); ("u", rpc_task__bindgen_ty_1); ("tk_msg",
  rpc_message); ("tk_calldata", CPtr); ("tk_ops", CPtr); ("tk_client", CPtr); ("tk_xprt", CPtr);
  ("tk_op_cred", CPtr); ("tk_rqstp", CPtr); ("tk_workqueue", CPtr); ("tk_start", ktime_t);
  ("tk_owner", pid_t); ("tk_rpc_status", c_int); ("tk_flags", c_ushort); ("tk_timeouts",
  c_ushort); ("tk_pid", c_ushort); ("_bitfield_align_1", CArray 0 CU8); ("_bitfield_1",
  __BindgenBitfieldUnit 1); ("__bindgen_padding_0", CU8)].

Definition orc_entry : ctype := CPacked [("sp_offset", s16); ("bp_offset", s16);
  ("_bitfield_align_1", CArray 0 CU8); ("_bitfield_1", __BindgenBitfieldUnit 2)].

Definition page_pool_params_fast : ctype := CStruct 1 [("order", c_uint); ("pool_size", c_uint);
  ("nid", c_int); ("dev", CPtr); ("napi", CPtr); ("dma_dir", dma_data_direction__Type);
  ("max_len", c_uint); ("offset", c_uint)].

Definition netmem_ref : ctype := c_ulong.

Definition page_pool__bindgen_ty_1 : ctype := CStruct 1 [].

Definition page_pool_alloc_stats : ctype := CStruct 1 [("fast", u64_); ("slow", u64_);
  ("slow_high_order", u64_); ("empty", u64_); ("refill", u64_); ("waive", u64_)].

Definition pp_alloc_cache : ctype := CStruct 1 [("count", u32_); ("cache", CArray 128
  netmem_ref)].

Definition ptr_ring : ctype := CStruct 1 [("producer", c_int); ("producer_lock", spinlock_t);
  ("_bitfield_align_1", CArray 0 CU8); ("_bitfield_1", __BindgenBitfieldUnit 56);
  ("consumer_head", c_int); ("consumer_tail", c_int); ("consumer_lock", spinlock_t);
  ("_bitfield_align_2", CArray 0 CU8); ("_bitfield_2", __BindgenBitfieldUnit 48);
  ("__bindgen_padding_0", CU32); ("size", c_int); ("batch", c_int); ("queue", CPtr);
  ("_bitfield_align_3", CArray 0 CU8); ("_bitfield_3", __BindgenBitfieldUnit 48)].

Definition page_pool_params_slow : ctype := CStruct 1 [("netdev", CPtr); ("queue_idx", c_uint);
  ("flags", c_uint); ("init_callback", CPtr); ("init_arg", CPtr)].

Definition page_pool__bindgen_ty_2 : ctype := CStruct 1 [("list", hlist_node); ("detach_time",
  ktime_t); ("id", u32_)].

Definition page_pool : ctype := CStruct 1 [("p", page_pool_params_fast); ("cpuid", c_int);
  ("pages_state_hold_cnt", u32_); ("_bitfield_align_1", CArray 0 CU8); ("_bitfield_1",
  __BindgenBitfieldUnit 8); ("__cacheline_group_begin__frag", __IncompleteArrayField __u8);
  ("frag_users", c_long); ("frag_page", netmem_ref); ("frag_offset", c_uint);
  ("__bindgen_padding_0", CArray 4 CU8); ("__cacheline_group_end__frag", __IncompleteArrayField
  __u8); ("_bitfield_align_2", CArray 0 CU8); ("_bitfield_2", __BindgenBitfieldUnit 8);
  ("__cacheline_group_pad__frag", page_pool__bindgen_ty_1); ("release_dw", delayed_work);
  ("disconnect", CPtr); ("defer_start", c_ulong); ("defer_warn", c_ulong); ("alloc_stats",
  page_pool_alloc_stats); ("xdp_mem_id", u32_); ("_bitfield_align_3", CArray 0 CU8);
  ("_bitfield_3", __BindgenBitfieldUnit 56); ("alloc", pp_alloc_cache); ("_bitfield_align_4",
  CArray 0 CU8); ("_bitfield_4", __BindgenBitfieldUnit 56); ("ring", ptr_ring); ("mp_priv",
  CPtr); ("mp_ops", CPtr); ("dma_mapped", xarray); ("recycle_stats", CPtr);
  ("pages_state_release_cnt", atomic_t); ("user_cnt", refcount_t); ("destroy_cnt", u64_);
  ("slow", page_pool_params_slow); ("user", page_pool__bindgen_ty_2); ("_bitfield_align_5",
  CArray 0 CU8); ("_bitfield_5", __BindgenBitfieldUnit 8)].

Definition pcpu_dstats : ctype := CStruct 1 [("rx_packets", u64_stats_t); ("rx_bytes",
  u64_stats_t); ("tx_packets", u64_stats_t); ("tx_bytes", u64_stats_t); ("rx_drops",
  u64_stats_t); ("tx_drops", u64_stats_t); ("syncp", u64_stats_sync); ("_bitfield_align_1",
  CArray 0 CU8); ("_bitfield_1", __BindgenBitfieldUnit 16)].

Definition percpu_ref_func_t : ctype := CPtr.

Definition percpu_ref_data : ctype := CStruct 1 [("count", atomic_long_t); ("release",
  percpu_ref_func_t); ("confirm_switch", percpu_ref_func_t); ("_bitfield_align_1", CArray 0
  CU8); ("_bitfield_1", __BindgenBitfieldUnit 1); ("rcu", callback_head); ("ref_", CPtr)].

Definition perf_event_pmu_context : ctype := CStruct 1 [("pmu", CPtr); ("ctx", CPtr);
  ("pmu_ctx_entry", list_head); ("pinned_active", list_head); ("flexible_active", list_head);
  ("_bitfield_align_1", CArray 0 CU8); ("_bitfield_1", __BindgenBitfieldUnit 1); ("nr_events",
  c_uint); ("nr_cgroups", c_uint); ("nr_freq", c_uint); ("refcount", atomic_t);
  ("callback_head", callback_head); ("rotate_necessary", c_int)].

Definition perf_event_attr__bindgen_ty_1 : ctype := CUnion 1 [("sample_period", __u64);
  ("sample_freq", __u64)].

Definition perf_event_attr__bindgen_ty_2 : ctype := CUnion 1 [("wakeup_events", __u32);
  ("wakeup_watermark", __u32)].

Definition perf_event_attr__bindgen_ty_3 : ctype := CUnion 1 [("bp_addr", __u64);
  ("kprobe_func", __u64); ("uprobe_path", __u64); ("config1", __u64)].

Definition perf_event_attr__bindgen_ty_4 : ctype := CUnion 1 [("bp_len", __u64); ("kprobe_addr",
  __u64); ("probe_offset", __u64); ("config2", __u64)].

Definition perf_event_attr__bindgen_ty_5__bindgen_ty_1 : ctype := CStruct 1
  [("_bitfield_align_1", CArray 0 CU32); ("_bitfield_1", __BindgenBitfieldUnit 4)].

Definition perf_event_attr__bindgen_ty_5 : ctype := CUnion 1 [("aux_action", __u32);
  ("__bindgen_anon_1", perf_event_attr__bindgen_ty_5__bindgen_ty_1)].

Definition perf_event_attr : ctype := CStruct 1 [("type_", __u32); ("size", __u32); ("config",
  __u64); ("__bindgen_anon_1", perf_event_attr__bindgen_ty_1); ("sample_type", __u64);
  ("read_format", __u64); ("_bitfield_align_1", CArray 0 CU32); ("_bitfield_1",
  __BindgenBitfieldUnit 8); ("__bindgen_anon_2", perf_event_attr__bindgen_ty_2); ("bp_type",
  __u32); ("__bindgen_anon_3", perf_event_attr__bindgen_ty_3); ("__bindgen_anon_4",
  perf_event_attr__bindgen_ty_4); ("branch_sample_type", __u64); ("sample_regs_user", __u64);
  ("sample_stack_user", __u32); ("clockid", __s32); ("sample_regs_intr", __u64);
  ("aux_watermark", __u32); ("sample_max_stack", __u16); ("__reserved_2", __u16);
  ("aux_sample_size", __u32); ("__bindgen_anon_5", perf_event_attr__bindgen_ty_5); ("sig_data",
  __u64); ("config3", __u64); ("config4", __u64)].

Definition perf_event_mmap_page__bindgen_ty_1__bindgen_ty_1 : ctype := CStruct 1
  [("_bitfield_align_1", CArray 0 CU64); ("_bitfield_1", __BindgenBitfieldUnit 8)].

Definition free_area : ctype := CStruct 1 [("free_list", CArray 6 list_head); ("nr_free",
  c_ulong)].

Definition zone : ctype := CStruct 1 [("_watermark", CArray 4 c_ulong); ("watermark_boost",
  c_ulong); ("nr_reserved_highatomic", c_ulong); ("nr_free_highatomic", c_ulong);
  ("lowmem_reserve", CArray 5 c_long); ("node", c_int); ("zone_pgdat", CPtr);
  ("per_cpu_pageset", CPtr); ("per_cpu_zonestats", CPtr); ("pageset_high_min", c_int);
  ("pageset_high_max", c_int); ("pageset_batch", c_int); ("zone_start_pfn", c_ulong);
  ("managed_pages", atomic_long_t); ("spanned_pages", c_ulong); ("present_pages", c_ulong);
  ("present_early_pages", c_ulong); ("cma_pages", c_ulong); ("name", CPtr);
  ("nr_isolate_pageblock", c_ulong); ("span_seqlock", seqlock_t); ("initialized", c_int);
  ("_bitfield_align_1", CArray 0 CU8); ("_bitfield_1", __BindgenBitfieldUnit 32);
  ("__bindgen_padding_0", CArray 4 CU8); ("_pad1_", cacheline_padding); ("free_area", CArray 11
  free_area); ("unaccepted_pages", list_head); ("unaccepted_cleanup", work_struct); ("flags",
  c_ulong); ("lock", spinlock_t); ("trylock_free_pages", llist_head); ("_pad2_",
  cacheline_padding); ("percpu_drift_mark", c_ulong); ("compact_cached_free_pfn", c_ulong);
  ("compact_cached_migrate_pfn", CArray 2 c_ulong); ("compact_init_migrate_pfn", c_ulong);
  ("compact_init_free_pfn", c_ulong); ("compact_considered", c_uint); ("compact_defer_shift",
  c_uint); ("compact_order_failed", c_int); ("compact_blockskip_flush", bool_); ("contiguous",
  bool_); ("__bindgen_padding_1", CArray 2 CU8); ("_pad3_", cacheline_padding); ("vm_stat",
  CArray 12 atomic_long_t); ("vm_numa_event", CArray 6 atomic_long_t); ("_bitfield_align_2",
  CArray 0 CU8); ("_bitfield_2", __BindgenBitfieldUnit 48)].

Definition zoneref : ctype := CStruct 1 [("zone", CPtr); ("zone_idx", c_int)].

Definition zonelist : ctype := CStruct 1 [("_zonerefs", CArray 5121 zoneref)].

Definition deferred_split : ctype := CStruct 1 [("split_queue_lock", spinlock_t);
  ("split_queue", list_head); ("split_queue_len", c_ulong)].

Definition lru_gen_mm_walk : ctype := CStruct 1 [("lruvec", CPtr); ("seq", c_ulong);
  ("next_addr", c_ulong); ("nr_pages", CArray 40 c_int); ("mm_stats", CArray 4 c_int);
  ("batched", c_int); ("swappiness", c_int); ("force_scan", bool_)].

Definition hlist_nulls_head : ctype := CStruct 1 [("first", CPtr)].

Definition lru_gen_memcg : ctype := CStruct 1 [("seq", c_ulong); ("nr_memcgs", CArray 3
  c_ulong); ("fifo", CArray 24 hlist_nulls_head); ("lock", spinlock_t)].

Definition memory_failure_stats : ctype := CStruct 1 [("total", c_ulong); ("ignored", c_ulong);
  ("failed", c_ulong); ("delayed", c_ulong); ("recovered", c_ulong)].

Definition pglist_data : ctype := CStruct 1 [("node_zones", CArray 5 zone); ("node_zonelists",
  CArray 2 zonelist); ("nr_zones", c_int); ("node_size_lock", spinlock_t); ("node_start_pfn",
  c_ulong); ("node_present_pages", c_ulong); ("node_spanned_pages", c_ulong); ("node_id",
  c_int); ("kswapd_wait", wait_queue_head_t); ("pfmemalloc_wait", wait_queue_head_t);
  ("reclaim_wait", CArray 4 wait_queue_head_t); ("nr_writeback_throttled", atomic_t);
  ("nr_reclaim_start", c_ulong); ("kswapd_lock", mutex); ("kswapd", CPtr); ("kswapd_order",
  c_int); ("kswapd_highest_zoneidx", zone_type__Type); ("kswapd_failures", atomic_t);
  ("kcompactd_max_order", c_int); ("kcompactd_highest_zoneidx", zone_type__Type);
  ("kcompactd_wait", wait_queue_head_t); ("kcompactd", CPtr); ("proactive_compact_trigger",
  bool_); ("totalreserve_pages", c_ulong); ("min_unmapped_pages", c_ulong); ("min_slab_pages",
  c_ulong); ("_bitfield_align_1", CArray 0 CU8); ("_bitfield_1", __BindgenBitfieldUnit 24);
  ("_pad1_", cacheline_padding); ("deferred_split_queue", deferred_split); ("nbp_rl_start",
  c_uint); ("nbp_rl_nr_cand", c_ulong); ("nbp_threshold", c_uint); ("nbp_th_start", c_uint);
  ("nbp_th_nr_cand", c_ulong); ("__lruvec", lruvec); ("flags", c_ulong); ("mm_walk",
  lru_gen_mm_walk); ("memcg_lru", lru_gen_memcg); ("_bitfield_align_2", CArray 0 CU8);
  ("_bitfield_2", __BindgenBitfieldUnit 8); ("_pad2_", cacheline_padding); ("per_cpu_nodestats",
  CPtr); ("vm_stat", CArray 51 atomic_long_t); ("memtier", CPtr); ("mf_stats",
  memory_failure_stats); ("_bitfield_align_3", CArray 0 CU8); ("_bitfield_3",
  __BindgenBitfieldUnit 48)].

Definition mdio_device : ctype := CStruct 1 [("dev", device); ("bus", CPtr); ("bus_match",
  CPtr); ("device_free", CPtr); ("device_remove", CPtr); ("addr", c_int); ("flags", c_int);
  ("reset_state", c_int); ("reset_gpio", CPtr); ("reset_ctrl", CPtr); ("reset_assert_delay",
  c_uint); ("reset_deassert_delay", c_uint)].

Definition phy_c45_device_ids : ctype := CStruct 1 [("devices_in_package", u32_);
  ("mmds_present", u32_); ("device_ids", CArray 32 u32_)].

Definition eee_config : ctype := CStruct 1 [("tx_lpi_timer", u32_); ("tx_lpi_enabled", bool_);
  ("eee_enabled", bool_)].

Definition phy_oatc14_sqi_capability : ctype := CStruct 1 [("updated", bool_); ("sqi_max",
  c_int); ("sqiplus_bits", u8_)].

Definition phy_device : ctype := CStruct 1 [("mdio", mdio_device); ("drv", CPtr); ("devlink",
  CPtr); ("phyindex", u32_); ("phy_id", u32_); ("c45_ids", phy_c45_device_ids);
  ("_bitfield_align_1", CArray 0 CU8); ("_bitfield_1", __BindgenBitfieldUnit 3);
  ("rate_matching", c_int); ("state", phy_state__Type); ("dev_flags", u32_); ("interface",
  phy_interface_t__Type); ("possible_interfaces", CArray 1 c_ulong); ("speed", c_int);
  ("duplex", c_int); ("port", c_int); ("master_slave_get", u8_); ("master_slave_set", u8_);
  ("master_slave_state", u8_); ("supported", CArray 2 c_ulong); ("advertising", CArray 2
  c_ulong); ("lp_advertising", CArray 2 c_ulong); ("adv_old", CArray 2 c_ulong);
  ("supported_eee", CArray 2 c_ulong); ("advertising_eee", CArray 2 c_ulong);
  ("eee_disabled_modes", CArray 2 c_ulong); ("enable_tx_lpi", bool_); ("eee_active", bool_);
  ("eee_cfg", eee_config); ("host_interfaces", CArray 1 c_ulong); ("phy_led_triggers", CPtr);
  ("phy_num_led_triggers", c_uint); ("last_triggered", CPtr); ("led_link_trigger", CPtr);
  ("leds", list_head); ("irq", c_int); ("priv_", CPtr); ("shared", CPtr); ("skb", CPtr);
  ("ehdr", CPtr); ("nest", CPtr); ("state_queue", delayed_work); ("lock", mutex);
  ("sfp_bus_attached", bool_); ("sfp_bus", CPtr); ("phylink", CPtr); ("attached_dev", CPtr);
  ("mii_ts", CPtr); ("psec", CPtr); ("ports", list_head); ("n_ports", c_int); ("max_n_ports",
  c_int); ("mdix", u8_); ("mdix_ctrl", u8_); ("pma_extable", c_int); ("link_down_events",
  c_uint); ("phy_link_change", CPtr); ("adjust_link", CPtr); ("macsec_ops", CPtr);
  ("oatc14_sqi_capability", phy_oatc14_sqi_capability)].

Definition phylink_link_state : ctype := CStruct 1 [("advertising", CArray 2 c_ulong);
  ("lp_advertising", CArray 2 c_ulong); ("interface", phy_interface_t__Type); ("speed", c_int);
  ("duplex", c_int); ("pause", c_int); ("rate_matching", c_int); ("_bitfield_align_1", CArray 0
  CU8); ("_bitfield_1", __BindgenBitfieldUnit 1); ("__bindgen_padding_0", CArray 3 CU8)].

Definition pid_namespace : ctype := CStruct 1 [("idr", idr); ("rcu", callback_head);
  ("pid_allocated", c_uint); ("memfd_noexec_scope", c_int); ("set", ctl_table_set); ("sysctls",
  CPtr); ("child_reaper", CPtr); ("pid_cachep", CPtr); ("level", c_uint); ("pid_max", c_int);
  ("parent", CPtr); ("bacct", CPtr); ("user_ns", CPtr); ("ucounts", CPtr); ("reboot", c_int);
  ("_bitfield_align_1", CArray 0 CU8); ("_bitfield_1", __BindgenBitfieldUnit 32); ("ns",
  ns_common); ("work", work_struct); ("_bitfield_align_2", CArray 0 CU8); ("_bitfield_2",
  __BindgenBitfieldUnit 32)].

Definition prefix_info__bindgen_ty_1__bindgen_ty_1 : ctype := CStruct 1 [("_bitfield_align_1",
  CArray 0 CU8); ("_bitfield_1", __BindgenBitfieldUnit 1)].

Definition rchan_buf_stats : ctype := CStruct 1 [("full_count", c_uint); ("big_count", c_uint)].

Definition rchan_buf : ctype := CStruct 1 [("start", CPtr); ("data", CPtr); ("offset", CU64);
  ("subbufs_produced", CU64); ("subbufs_consumed", CU64); ("chan", CPtr); ("read_wait",
  wait_queue_head_t); ("wakeup_work", irq_work); ("dentry", CPtr); ("kref", kref); ("stats",
  rchan_buf_stats); ("page_array", CPtr); ("page_count", c_uint); ("finalized", c_uint);
  ("padding", CPtr); ("bytes_consumed", CU64); ("early_bytes", CU64); ("cpu", c_uint);
  ("_bitfield_align_1", CArray 0 CU8); ("_bitfield_1", __BindgenBitfieldUnit 16);
  ("__bindgen_padding_0", CU32)].

Definition regulator_voltage : ctype := CStruct 1 [("min_uV", c_int); ("max_uV", c_int)].

Definition umode_t : ctype := c_ushort.

Definition attribute : ctype := CStruct 1 [("name", CPtr); ("mode", umode_t)].

Definition device_attribute : ctype := CStruct 1 [("attr", attribute); ("show", CPtr); ("store",
  CPtr)].

Definition regulator : ctype := CStruct 1 [("dev", CPtr); ("list", list_head);
  ("_bitfield_align_1", CArray 0 CU8); ("_bitfield_1", __BindgenBitfieldUnit 1); ("uA_load",
  c_int); ("enable_count", c_uint); ("deferred_disables", c_uint); ("voltage", CArray 5
  regulator_voltage); ("supply_name", CPtr); ("dev_attr", device_attribute); ("rdev", CPtr);
  ("debugfs", CPtr)].

Definition regulator_desc : ctype := CStruct 1 [("name", CPtr); ("supply_name", CPtr);
  ("of_match", CPtr); ("of_match_full_name", bool_); ("regulators_node", CPtr); ("of_parse_cb",
  CPtr); ("init_cb", CPtr); ("id", c_int); ("_bitfield_align_1", CArray 0 CU8); ("_bitfield_1",
  __BindgenBitfieldUnit 1); ("n_voltages", c_uint); ("n_current_limits", c_uint); ("ops", CPtr);
  ("irq", c_int); ("type_", regulator_type__Type); ("owner", CPtr); ("min_uV", c_uint);
  ("uV_step", c_uint); ("linear_min_sel", c_uint); ("fixed_uV", c_int); ("ramp_delay", c_uint);
  ("min_dropout_uV", c_int); ("linear_ranges", CPtr); ("linear_range_selectors_bitfield", CPtr);
  ("n_linear_ranges", c_int); ("volt_table", CPtr); ("curr_table", CPtr); ("vsel_range_reg",
  c_uint); ("vsel_range_mask", c_uint); ("range_applied_by_vsel", bool_); ("vsel_reg", c_uint);
  ("vsel_mask", c_uint); ("vsel_step", c_uint); ("csel_reg", c_uint); ("csel_mask", c_uint);
  ("apply_reg", c_uint); ("apply_bit", c_uint); ("enable_reg", c_uint); ("enable_mask", c_uint);
  ("enable_val", c_uint); ("disable_val", c_uint); ("enable_is_inverted", bool_); ("bypass_reg",
  c_uint); ("bypass_mask", c_uint); ("bypass_val_on", c_uint); ("bypass_val_off", c_uint);
  ("active_discharge_on", c_uint); ("active_discharge_off", c_uint); ("active_discharge_mask",
  c_uint); ("active_discharge_reg", c_uint); ("soft_start_reg", c_uint); ("soft_start_mask",
  c_uint); ("soft_start_val_on", c_uint); ("pull_down_reg", c_uint); ("pull_down_mask", c_uint);
  ("pull_down_val_on", c_uint); ("ramp_reg", c_uint); ("ramp_mask", c_uint);
  ("ramp_delay_table", CPtr); ("n_ramp_values", c_uint); ("enable_time", c_uint);
  ("off_on_delay", c_uint); ("poll_enabled_time", c_uint); ("of_map_mode", CPtr)].

Definition coupling_desc : ctype := CStruct 1 [("coupled_rdevs", CPtr); ("coupler", CPtr);
  ("n_resolved", c_int); ("n_coupled", c_int)].

Definition ww_mutex : ctype := CStruct 1 [("base", mutex); ("ctx", CPtr)].

Definition regulator_dev : ctype := CStruct 1 [("desc", CPtr); ("exclusive", c_int);
  ("use_count", u32_); ("open_count", u32_); ("bypass_count", u32_); ("list", list_head);
  ("consumer_list", list_head); ("coupling_desc", coupling_desc); ("notifier",
  blocking_notifier_head); ("mutex", ww_mutex); ("mutex_owner", CPtr); ("ref_cnt", c_int);
  ("owner", CPtr); ("dev", device); ("bdev", device); ("constraints", CPtr); ("supply", CPtr);
  ("supply_name", CPtr); ("regmap", CPtr); ("disable_work", delayed_work); ("reg_data", CPtr);
  ("debugfs", CPtr); ("ena_pin", CPtr); ("_bitfield_align_1", CArray 0 CU8); ("_bitfield_1",
  __BindgenBitfieldUnit 1); ("last_off", ktime_t); ("cached_err", c_int); ("use_cached_err",
  bool_); ("err_lock", spinlock_t); ("pw_requested_mW", c_int); ("supply_fwd_nb",
  notifier_block)].

Definition hprobe : ctype := CStruct 1 [("state", hprobe_state__Type); ("srcu_idx", c_int);
  ("uprobe", CPtr)].

Definition return_consumer : ctype := CStruct 1 [("cookie", __u64); ("id", __u64)].

Definition return_instance : ctype := CStruct 1 [("hprobe", hprobe); ("func", c_ulong);
  ("stack", c_ulong); ("orig_ret_vaddr", c_ulong); ("chained", bool_); ("cons_cnt", c_int);
  ("next", CPtr); ("rcu", callback_head); ("consumer", return_consumer); ("extra_consumers",
  CPtr); ("_bitfield_align_1", CArray 0 CU8); ("_bitfield_1", __BindgenBitfieldUnit 32)].

Definition ring_buffer_event : ctype := CStruct 1 [("_bitfield_align_1", CArray 0 CU32);
  ("_bitfield_1", __BindgenBitfieldUnit 4); ("array", __IncompleteArrayField u32_)].

Definition rpc_pipe_dir_head : ctype := CStruct 1 [("pdh_entries", list_head); ("pdh_dentry",
  CPtr)].

Definition rpc_rtt : ctype := CStruct 1 [("timeo", c_ulong); ("srtt", CArray 5 c_ulong);
  ("sdrtt", CArray 5 c_ulong); ("ntimeouts", CArray 5 c_int)].

Definition rpc_timeout : ctype := CStruct 1 [("to_initval", c_ulong); ("to_maxval", c_ulong);
  ("to_increment", c_ulong); ("to_retries", c_uint); ("to_exponential", c_uchar)].

Definition rpc_xprt_iter : ctype := CStruct 1 [("xpi_xpswitch", CPtr); ("xpi_cursor", CPtr);
  ("xpi_ops", CPtr)].

Definition rpc_clnt__bindgen_ty_1 : ctype := CUnion 1 [("cl_xpi", rpc_xprt_iter); ("cl_work",
  work_struct)].

Definition rpc_clnt : ctype := CStruct 1 [("cl_count", refcount_t); ("cl_clid", c_uint);
  ("cl_clients", list_head); ("cl_tasks", list_head); ("cl_pid", atomic_t); ("cl_lock",
  spinlock_t); ("cl_xprt", CPtr); ("cl_procinfo", CPtr); ("cl_prog", u32_); ("cl_vers", u32_);
  ("cl_maxproc", u32_); ("cl_auth", CPtr); ("cl_stats", CPtr); ("cl_metrics", CPtr);
  ("_bitfield_align_1", CArray 0 CU8); ("_bitfield_1", __BindgenBitfieldUnit 1); ("cl_xprtsec",
  xprtsec_parms); ("cl_rtt", CPtr); ("cl_timeout", CPtr); ("cl_swapper", atomic_t);
  ("cl_nodelen", c_int); ("cl_nodename", CArray 65 c_char); ("cl_pipedir_objects",
  rpc_pipe_dir_head); ("cl_parent", CPtr); ("cl_rtt_default", rpc_rtt); ("cl_timeout_default",
  rpc_timeout); ("cl_program", CPtr); ("cl_principal", CPtr); ("cl_debugfs", CPtr); ("cl_sysfs",
  CPtr); ("__bindgen_anon_1", rpc_clnt__bindgen_ty_1); ("cl_cred", CPtr); ("cl_max_connect",
  c_uint); ("pipefs_sb", CPtr); ("cl_task_count", atomic_t)].

Definition rpc_xprt__bindgen_ty_1 : ctype := CStruct 1 [("bind_count", c_ulong);
  ("connect_count", c_ulong); ("connect_start", c_ulong); ("connect_time", c_ulong); ("sends",
  c_ulong); ("recvs", c_ulong); ("bad_xids", c_ulong); ("max_slots", c_ulong); ("req_u",
  c_ulonglong); ("bklog_u", c_ulonglong); ("sending_u", c_ulonglong); ("pending_u",
  c_ulonglong)].

Definition rpc_xprt : ctype := CStruct 1 [("kref", kref); ("ops", CPtr); ("id", c_uint);
  ("timeout", CPtr); ("addr", __kernel_sockaddr_storage); ("addrlen", CU64); ("prot", c_int);
  ("cong", c_ulong); ("cwnd", c_ulong); ("max_payload", CU64); ("binding", rpc_wait_queue);
  ("sending", rpc_wait_queue); ("pending", rpc_wait_queue); ("backlog", rpc_wait_queue);
  ("free", list_head); ("max_reqs", c_uint); ("min_reqs", c_uint); ("num_reqs", c_uint);
  ("state", c_ulong); ("_bitfield_align_1", CArray 0 CU8); ("_bitfield_1", __BindgenBitfieldUnit
  1); ("swapper", atomic_t); ("bind_index", c_uint); ("xprt_switch", list_head);
  ("bind_timeout", c_ulong); ("reestablish_timeout", c_ulong); ("xprtsec", xprtsec_parms);
  ("connect_cookie", c_uint); ("task_cleanup", work_struct); ("timer", timer_list);
  ("last_used", c_ulong); ("idle_timeout", c_ulong); ("connect_timeout", c_ulong);
  ("max_reconnect_timeout", c_ulong); ("queuelen", atomic_long_t); ("transport_lock",
  spinlock_t); ("reserve_lock", spinlock_t); ("queue_lock", spinlock_t); ("xid", u32_);
  ("snd_task", CPtr); ("xmit_queue", list_head); ("xmit_queuelen", atomic_long_t); ("bc_xprt",
  CPtr); ("bc_serv", CPtr); ("bc_alloc_max", c_uint); ("bc_alloc_count", c_uint);
  ("bc_slot_count", atomic_t); ("bc_pa_lock", spinlock_t); ("bc_pa_list", list_head);
  ("recv_queue", rb_root); ("stat", rpc_xprt__bindgen_ty_1); ("xprt_net", CPtr); ("ns_tracker",
  netns_tracker); ("servername", CPtr); ("address_strings", CArray 6 CPtr); ("debugfs", CPtr);
  ("rcu", callback_head); ("xprt_class", CPtr); ("xprt_sysfs", CPtr); ("main", bool_)].

Definition uclamp_bucket : ctype := CStruct 1 [("_bitfield_align_1", CArray 0 CU64);
  ("_bitfield_1", __BindgenBitfieldUnit 8)].

Definition dl_server_pick_f : ctype := CPtr.

Definition sched_dl_entity : ctype := CStruct 1 [("rb_node", rb_node); ("dl_runtime", u64_);
  ("dl_deadline", u64_); ("dl_period", u64_); ("dl_bw", u64_); ("dl_density", u64_); ("runtime",
  s64); ("deadline", u64_); ("flags", c_uint); ("_bitfield_align_1", CArray 0 CU8);
  ("_bitfield_1", __BindgenBitfieldUnit 2); ("dl_timer", hrtimer); ("inactive_timer", hrtimer);
  ("rq", CPtr); ("server_pick_task", dl_server_pick_f); ("pi_se", CPtr)].

Definition rq__bindgen_ty_1 : ctype := CUnion 1 [("donor", CPtr); ("curr", CPtr)].

Definition uclamp_rq : ctype := CStruct 1 [("value", c_uint); ("bucket", CArray 5
  uclamp_bucket)].

Definition rt_prio_array : ctype := CStruct 1 [("bitmap", CArray 2 c_ulong); ("queue", CArray
  100 list_head)].

Definition rt_rq__bindgen_ty_1 : ctype := CStruct 1 [("curr", c_int); ("next", c_int)].

Definition rt_rq : ctype := CStruct 1 [("active", rt_prio_array); ("rt_nr_running", c_uint);
  ("rr_nr_running", c_uint); ("highest_prio", rt_rq__bindgen_ty_1); ("overloaded", bool_);
  ("pushable_tasks", plist_head); ("rt_queued", c_int); ("tg", CPtr)].

Definition dl_rq__bindgen_ty_1 : ctype := CStruct 1 [("curr", u64_); ("next", u64_)].

Definition dl_rq : ctype := CStruct 1 [("root", rb_root_cached); ("dl_nr_running", c_uint);
  ("earliest_dl", dl_rq__bindgen_ty_1); ("overloaded", bool_); ("pushable_dl_tasks_root",
  rb_root_cached); ("running_bw", u64_); ("this_bw", u64_); ("extra_bw", u64_); ("max_bw",
  u64_); ("bw_ratio", u64_)].

Definition rhash_head : ctype := CStruct 1 [("next", CPtr)].

Definition scx_dispatch_q : ctype := CStruct 1 [("lock", raw_spinlock_t); ("first_task", CPtr);
  ("list", list_head); ("priq", rb_root); ("nr", u32_); ("seq", u32_); ("id", u64_);
  ("hash_node", rhash_head); ("free_node", llist_node); ("rcu", callback_head)].

Definition balance_callback : ctype := CStruct 1 [("next", CPtr); ("func", CPtr)].

Definition scx_rq : ctype := CStruct 1 [("local_dsq", scx_dispatch_q); ("runnable_list",
  list_head); ("ddsp_deferred_locals", list_head); ("ops_qseq", c_ulong); ("extra_enq_flags",
  u64_); ("nr_running", u32_); ("cpuperf_target", u32_); ("cpu_released", bool_); ("flags",
  u32_); ("clock", u64_); ("cpus_to_kick", cpumask_var_t); ("cpus_to_kick_if_idle",
  cpumask_var_t); ("cpus_to_preempt", cpumask_var_t); ("cpus_to_wait", cpumask_var_t);
  ("cpus_to_sync", cpumask_var_t); ("kick_sync_pending", bool_); ("kick_sync", c_ulong);
  ("reenq_local_deferred", local_t); ("deferred_bal_cb", balance_callback); ("kick_sync_bal_cb",
  balance_callback); ("deferred_irq_work", irq_work); ("kick_cpus_irq_work", irq_work);
  ("bypass_dsq", scx_dispatch_q)].

Definition cpu_stop_fn_t : ctype := CPtr.

Definition cpu_stop_work : ctype := CStruct 1 [("list", list_head); ("fn_", cpu_stop_fn_t);
  ("caller", c_ulong); ("arg", CPtr); ("done", CPtr)].

Definition sched_info : ctype := CStruct 1 [("pcount", c_ulong); ("run_delay", c_ulonglong);
  ("max_run_delay", c_ulonglong); ("min_run_delay", c_ulonglong); ("last_arrival", c_ulonglong);
  ("last_queued", c_ulonglong); ("max_run_delay_ts", timespec64)].

Definition rq : ctype := CStruct 1 [("nr_running", c_uint); ("nr_numa_running", c_uint);
  ("nr_preferred_running", c_uint); ("ttwu_pending", c_uint); ("cpu_capacity", c_ulong);
  ("__bindgen_anon_1", rq__bindgen_ty_1); ("idle", CPtr); ("_bitfield_align_1", CArray 0 CU8);
  ("_bitfield_1", __BindgenBitfieldUnit 24); ("nr_switches", u64_); ("__lock", raw_spinlock_t);
  ("nohz_tick_stopped", c_uint); ("nohz_flags", atomic_t); ("has_blocked_load", c_uint);
  ("last_blocked_load_update_tick", c_ulong); ("nohz_csd", call_single_data_t); ("uclamp",
  CArray 2 uclamp_rq); ("uclamp_flags", c_uint); ("_bitfield_align_2", CArray 0 CU8);
  ("_bitfield_2", __BindgenBitfieldUnit 24); ("cfs", cfs_rq); ("rt", rt_rq); ("dl", dl_rq);
  ("scx", scx_rq); ("ext_server", sched_dl_entity); ("fair_server", sched_dl_entity);
  ("leaf_cfs_rq_list", list_head); ("tmp_alone_branch", CPtr); ("numa_migrate_on", c_uint);
  ("nr_uninterruptible", c_ulong); ("dl_server", CPtr); ("stop", CPtr); ("next_class", CPtr);
  ("next_balance", c_ulong); ("prev_mm", CPtr); ("_bitfield_align_3", CArray 0 CU8);
  ("_bitfield_3", __BindgenBitfieldUnit 8); ("clock_task", u64_); ("clock_pelt", u64_);
  ("clock", u64_); ("lost_idle_time", c_ulong); ("clock_update_flags", c_uint);
  ("clock_pelt_idle", u64_); ("clock_idle", u64_); ("last_seen_need_resched_ns", u64_);
  ("ticks_without_resched", c_int); ("membarrier_state", c_int); ("rd", CPtr); ("sd", CPtr);
  ("balance_callback", CPtr); ("nohz_idle_balance", c_uchar); ("idle_balance", c_uchar);
  ("misfit_task_load", c_ulong); ("active_balance", c_int); ("push_cpu", c_int);
  ("active_balance_work", cpu_stop_work); ("cpu", c_int); ("online", c_int); ("cfs_tasks",
  list_head); ("avg_rt", sched_avg); ("avg_dl", sched_avg); ("avg_irq", sched_avg);
  ("idle_stamp", u64_); ("avg_idle", u64_); ("max_idle_balance_cost", u64_); ("hotplug_wait",
  rcuwait); ("prev_irq_time", u64_); ("psi_irq_time", u64_); ("prev_steal_time", u64_);
  ("prev_steal_time_rq", u64_); ("calc_load_update", c_ulong); ("calc_load_active", c_long);
  ("_bitfield_align_4", CArray 0 CU8); ("_bitfield_4", __BindgenBitfieldUnit 16); ("hrtick_csd",
  call_single_data_t); ("hrtick_timer", hrtimer); ("hrtick_time", ktime_t); ("rq_sched_info",
  sched_info); ("rq_cpu_time", c_ulonglong); ("yld_count", c_uint); ("sched_count", c_uint);
  ("sched_goidle", c_uint); ("ttwu_count", c_uint); ("ttwu_local", c_uint); ("idle_state",
  CPtr); ("nr_pinned", c_uint); ("push_busy", c_uint); ("push_work", cpu_stop_work); ("core",
  CPtr); ("core_pick", CPtr); ("core_dl_server", CPtr); ("core_enabled", c_uint);
  ("core_sched_seq", c_uint); ("core_tree", rb_root); ("core_task_seq", c_uint);
  ("core_pick_seq", c_uint); ("core_cookie", c_ulong); ("core_forceidle_count", c_uint);
  ("core_forceidle_seq", c_uint); ("core_forceidle_occupation", c_uint);
  ("core_forceidle_start", u64_); ("scratch_mask", cpumask_var_t); ("cfsb_csd",
  call_single_data_t); ("cfsb_csd_list", list_head); ("nr_iowait", atomic_t);
  ("_bitfield_align_5", CArray 0 CU8); ("_bitfield_5", __BindgenBitfieldUnit 8);
  ("__bindgen_padding_0", CU32)].

Definition rseq_slice_ctrl__bindgen_ty_1__bindgen_ty_1 : ctype := CStruct 1 [("request", __u8);
  ("granted", __u8); ("__reserved", __u16)].

Definition rseq_slice_ctrl__bindgen_ty_1 : ctype := CUnion 1 [("all", __u32);
  ("__bindgen_anon_1", rseq_slice_ctrl__bindgen_ty_1__bindgen_ty_1)].

Definition rseq_slice_ctrl : ctype := CStruct 1 [("__bindgen_anon_1",
  rseq_slice_ctrl__bindgen_ty_1)].

Definition rseq : ctype := CStruct 1 [("cpu_id_start", __u32); ("cpu_id", __u32); ("rseq_cs",
  __u64); ("flags", __u32); ("node_id", __u32); ("mm_cid", __u32); ("slice_ctrl",
  rseq_slice_ctrl); ("__reserved", __u8); ("end", __IncompleteArrayField c_char);
  ("_bitfield_align_1", CArray 0 CU8); ("_bitfield_1", __BindgenBitfieldUnit 24);
  ("__bindgen_padding_0", CArray 7 CU8)].

Definition sched_statistics : ctype := CStruct 1 [("wait_start", u64_); ("wait_max", u64_);
  ("wait_count", u64_); ("wait_sum", u64_); ("iowait_count", u64_); ("iowait_sum", u64_);
  ("sleep_start", u64_); ("sleep_max", u64_); ("sum_sleep_runtime", s64); ("block_start", u64_);
  ("block_max", u64_); ("sum_block_runtime", s64); ("exec_max", s64); ("slice_max", u64_);
  ("nr_migrations_cold", u64_); ("nr_failed_migrations_affine", u64_);
  ("nr_failed_migrations_running", u64_); ("nr_failed_migrations_hot", u64_);
  ("nr_forced_migrations", u64_); ("nr_wakeups", u64_); ("nr_wakeups_sync", u64_);
  ("nr_wakeups_migrate", u64_); ("nr_wakeups_local", u64_); ("nr_wakeups_remote", u64_);
  ("nr_wakeups_affine", u64_); ("nr_wakeups_affine_attempts", u64_); ("nr_wakeups_passive",
  u64_); ("nr_wakeups_idle", u64_); ("core_forceidle_sum", u64_); ("_bitfield_align_1", CArray 0
  CU8); ("_bitfield_1", __BindgenBitfieldUnit 24)].

Definition sfp_eeprom_base__bindgen_ty_1__bindgen_ty_1 : ctype := CStruct 1
  [("_bitfield_align_1", CArray 0 CU8); ("_bitfield_1", __BindgenBitfieldUnit 2)].

Definition sfp_eeprom_base__bindgen_ty_1__bindgen_ty_2 : ctype := CStruct 1
  [("_bitfield_align_1", CArray 0 CU8); ("_bitfield_1", __BindgenBitfieldUnit 2)].

Definition sfp_eeprom_base__bindgen_ty_1 : ctype := CUnion 1 [("optical_wavelength", __be16);
  ("cable_compliance", __be16); ("passive", sfp_eeprom_base__bindgen_ty_1__bindgen_ty_1);
  ("active", sfp_eeprom_base__bindgen_ty_1__bindgen_ty_2)].

Definition sfp_eeprom_base : ctype := CStruct 1 [("phys_id", u8_); ("phys_ext_id", u8_);
  ("connector", u8_); ("_bitfield_align_1", CArray 0 CU8); ("_bitfield_1", __BindgenBitfieldUnit
  8); ("encoding", u8_); ("br_nominal", u8_); ("rate_id", u8_); ("link_len", CArray 6 u8_);
  ("vendor_name", CArray 16 c_char); ("extended_cc", u8_); ("vendor_oui", CArray 3 c_char);
  ("vendor_pn", CArray 16 c_char); ("vendor_rev", CArray 4 c_char); ("__bindgen_anon_1",
  sfp_eeprom_base__bindgen_ty_1); ("reserved62", u8_); ("cc_base", u8_)].

Definition sigset_t : ctype := CStruct 1 [("sig", CArray 1 c_ulong)].

Definition sigpending : ctype := CStruct 1 [("list", list_head); ("signal", sigset_t)].

Definition cpu_itimer : ctype := CStruct 1 [("expires", u64_); ("incr", u64_)].

Definition task_cputime_atomic : ctype := CStruct 1 [("utime", atomic64_t); ("stime",
  atomic64_t); ("sum_exec_runtime", atomic64_t)].

Definition thread_group_cputimer : ctype := CStruct 1 [("cputime_atomic", task_cputime_atomic)].

Definition posix_cputimer_base : ctype := CStruct 1 [("nextevt", u64_); ("tqhead",
  timerqueue_head)].

Definition posix_cputimers : ctype := CStruct 1 [("bases", CArray 3 posix_cputimer_base);
  ("timers_active", c_uint); ("expiry_active", c_uint)].

Definition task_io_accounting : ctype := CStruct 1 [("rchar", u64_); ("wchar", u64_); ("syscr",
  u64_); ("syscw", u64_); ("read_bytes", u64_); ("write_bytes", u64_); ("cancelled_write_bytes",
  u64_)].

Definition pacct_struct : ctype := CStruct 1 [("ac_flag", c_int); ("ac_exitcode", c_long);
  ("ac_mem", c_ulong); ("ac_utime", u64_); ("ac_stime", u64_); ("ac_minflt", c_ulong);
  ("ac_majflt", c_ulong)].

Definition signal_struct : ctype := CStruct 1 [("sigcnt", refcount_t); ("live", atomic_t);
  ("nr_threads", c_int); ("quick_threads", c_int); ("thread_head", list_head); ("wait_chldexit",
  wait_queue_head_t); ("curr_target", CPtr); ("shared_pending", sigpending); ("multiprocess",
  hlist_head); ("group_exit_code", c_int); ("notify_count", c_int); ("group_exec_task", CPtr);
  ("group_stop_count", c_int); ("flags", c_uint); ("core_state", CPtr); ("_bitfield_align_1",
  CArray 0 CU8); ("_bitfield_1", __BindgenBitfieldUnit 1); ("next_posix_timer_id", atomic_t);
  ("posix_timers", hlist_head); ("ignored_posix_timers", hlist_head); ("real_timer", hrtimer);
  ("it_real_incr", ktime_t); ("it", CArray 2 cpu_itimer); ("cputimer", thread_group_cputimer);
  ("posix_cputimers", posix_cputimers); ("pids", CArray 4 CPtr); ("tick_dep_mask", atomic_t);
  ("tty_old_pgrp", CPtr); ("leader", c_int); ("tty", CPtr); ("autogroup", CPtr); ("stats_lock",
  seqlock_t); ("utime", u64_); ("stime", u64_); ("cutime", u64_); ("cstime", u64_); ("gtime",
  u64_); ("cgtime", u64_); ("prev_cputime", prev_cputime); ("nvcsw", c_ulong); ("nivcsw",
  c_ulong); ("cnvcsw", c_ulong); ("cnivcsw", c_ulong); ("min_flt", c_ulong); ("maj_flt",
  c_ulong); ("cmin_flt", c_ulong); ("cmaj_flt", c_ulong); ("inblock", c_ulong); ("oublock",
  c_ulong); ("cinblock", c_ulong); ("coublock", c_ulong); ("maxrss", c_ulong); ("cmaxrss",
  c_ulong); ("ioac", task_io_accounting); ("sum_sched_runtime", c_ulonglong); ("rlim", CArray 16
  rlimit); ("pacct", pacct_struct); ("stats", CPtr); ("audit_tty", c_uint); ("tty_audit_buf",
  CPtr); ("cgroup_threadgroup_rwsem", rw_semaphore); ("oom_flag_origin", bool_);
  ("oom_score_adj", c_short); ("oom_score_adj_min", c_short); ("oom_mm", CPtr);
  ("cred_guard_mutex", mutex); ("exec_update_lock", rw_semaphore)].

Definition sock_reuseport : ctype := CStruct 1 [("rcu", callback_head); ("max_socks", u16_);
  ("num_socks", u16_); ("num_closed_socks", u16_); ("incoming_cpu", u16_); ("synq_overflow_ts",
  c_uint); ("reuseport_id", c_uint); ("_bitfield_align_1", CArray 0 CU8); ("_bitfield_1",
  __BindgenBitfieldUnit 1); ("prog", CPtr); ("socks", __IncompleteArrayField CPtr)].

Definition socket_wq : ctype := CStruct 1 [("wait", wait_queue_head_t); ("fasync_list", CPtr);
  ("flags", c_ulong); ("rcu", callback_head); ("_bitfield_align_1", CArray 0 CU8);
  ("_bitfield_1", __BindgenBitfieldUnit 8)].

Definition socket : ctype := CStruct 1 [("state", socket_state__Type); ("type_", c_short);
  ("flags", c_ulong); ("file", CPtr); ("sk", CPtr); ("ops", CPtr); ("_bitfield_align_1", CArray
  0 CU8); ("_bitfield_1", __BindgenBitfieldUnit 24); ("wq", socket_wq)].

Definition srcu_ctr : ctype := CStruct 1 [("srcu_locks", atomic_long_t); ("srcu_unlocks",
  atomic_long_t)].

Definition rcu_segcblist : ctype := CStruct 1 [("head", CPtr); ("tails", CArray 4 CPtr);
  ("gp_seq", CArray 4 c_ulong); ("len", atomic_long_t); ("seglen", CArray 4 c_long); ("flags",
  u8_)].

Definition srcu_data : ctype := CStruct 1 [("srcu_ctrs", CArray 2 srcu_ctr);
  ("srcu_reader_flavor", c_int); ("_bitfield_align_1", CArray 0 CU8); ("_bitfield_1",
  __BindgenBitfieldUnit 24); ("__bindgen_padding_0", CU32); ("lock", raw_spinlock_t);
  ("srcu_cblist", rcu_segcblist); ("srcu_gp_seq_needed", c_ulong); ("srcu_gp_seq_needed_exp",
  c_ulong); ("srcu_cblist_invoking", bool_); ("delay_work", timer_list); ("work", work_struct);
  ("srcu_barrier_head", callback_head); ("srcu_ec_head", callback_head); ("srcu_ec_state",
  c_int); ("mynode", CPtr); ("grpmask", c_ulong); ("cpu", c_int); ("ssp", CPtr);
  ("_bitfield_align_2", CArray 0 CU8); ("_bitfield_2", __BindgenBitfieldUnit 24)].

Definition hlist_bl_head : ctype := CStruct 1 [("first", CPtr)].

Definition qsize_t : ctype := c_longlong.

Definition mem_dqinfo : ctype := CStruct 1 [("dqi_format", CPtr); ("dqi_fmt_id", c_int);
  ("dqi_dirty_list", list_head); ("dqi_flags", c_ulong); ("dqi_bgrace", c_uint); ("dqi_igrace",
  c_uint); ("dqi_max_spc_limit", qsize_t); ("dqi_max_ino_limit", qsize_t); ("dqi_priv", CPtr)].

Definition quota_info : ctype := CStruct 1 [("flags", c_uint); ("dqio_sem", rw_semaphore);
  ("files", CArray 3 CPtr); ("info", CArray 3 mem_dqinfo); ("ops", CArray 3 CPtr)].

Definition rcu_sync : ctype := CStruct 1 [("gp_state", c_int); ("gp_count", c_int); ("gp_wait",
  wait_queue_head_t); ("cb_head", callback_head)].

Definition percpu_rw_semaphore : ctype := CStruct 1 [("rss", rcu_sync); ("read_count", CPtr);
  ("writer", rcuwait); ("waiters", wait_queue_head_t); ("block", atomic_t)].

Definition sb_writers : ctype := CStruct 1 [("frozen", c_ushort); ("freeze_kcount", c_int);
  ("freeze_ucount", c_int); ("freeze_owner", CPtr); ("rw_sem", CArray 3 percpu_rw_semaphore)].

Definition errseq_t : ctype := u32_.

Definition list_lru : ctype := CStruct 1 [("node", CPtr); ("list", list_head); ("shrinker_id",
  c_int); ("memcg_aware", bool_); ("xa", xarray)].

Definition super_block : ctype := CStruct 1 [("s_list", list_head); ("s_dev", dev_t);
  ("s_blocksize_bits", c_uchar); ("s_blocksize", c_ulong); ("s_maxbytes", loff_t); ("s_type",
  CPtr); ("s_op", CPtr); ("dq_op", CPtr); ("s_qcop", CPtr); ("s_export_op", CPtr); ("s_flags",
  c_ulong); ("s_iflags", c_ulong); ("s_magic", c_ulong); ("s_root", CPtr); ("s_umount",
  rw_semaphore); ("s_count", c_int); ("s_active", atomic_t); ("s_security", CPtr); ("s_xattr",
  CPtr); ("s_cop", CPtr); ("s_master_keys", CPtr); ("s_vop", CPtr); ("s_encoding", CPtr);
  ("s_encoding_flags", __u16); ("s_roots", hlist_bl_head); ("s_mounts", CPtr); ("s_bdev", CPtr);
  ("s_bdev_file", CPtr); ("s_bdi", CPtr); ("s_mtd", CPtr); ("s_instances", hlist_node);
  ("s_quota_types", c_uint); ("s_dquot", quota_info); ("s_writers", sb_writers); ("s_fs_info",
  CPtr); ("s_time_gran", u32_); ("s_time_min", time64_t); ("s_time_max", time64_t);
  ("s_fsnotify_mask", u32_); ("s_fsnotify_info", CPtr); ("s_id", CArray 32 c_char); ("s_uuid",
  uuid_t); ("s_uuid_len", u8_); ("s_sysfs_name", CArray 37 c_char); ("s_max_links", c_uint);
  ("s_d_flags", c_uint); ("s_vfs_rename_mutex", mutex); ("s_subtype", CPtr); ("__s_d_op", CPtr);
  ("s_shrink", CPtr); ("s_remove_count", atomic_long_t); ("s_readonly_remount", c_int);
  ("s_wb_err", errseq_t); ("s_dio_done_wq", CPtr); ("s_pins", hlist_head); ("s_user_ns", CPtr);
  ("s_dentry_lru", list_lru); ("s_inode_lru", list_lru); ("rcu", callback_head);
  ("destroy_work", work_struct); ("s_sync_lock", mutex); ("s_stack_depth", c_int);
  ("_bitfield_align_1", CArray 0 CU8); ("_bitfield_1", __BindgenBitfieldUnit 8);
  ("__bindgen_padding_0", CU32); ("s_inode_list_lock", spinlock_t); ("s_inodes", list_head);
  ("s_inode_wblist_lock", spinlock_t); ("s_inodes_wb", list_head); ("s_min_writeback_pages",
  c_long); ("s_pending_errors", refcount_t)].

Definition uclamp_se : ctype := CStruct 4 [("_bitfield_align_1", CArray 0 CU16); ("_bitfield_1",
  __BindgenBitfieldUnit 2); ("__bindgen_padding_0", CU16)].

Definition scx_task_group : ctype := CStruct 1 [("flags", u32_); ("weight", u32_);
  ("bw_period_us", u64_); ("bw_quota_us", u64_); ("bw_burst_us", u64_); ("idle", bool_)].

Definition cfs_bandwidth : ctype := CStruct 1 [("lock", raw_spinlock_t); ("period", ktime_t);
  ("quota", u64_); ("runtime", u64_); ("burst", u64_); ("runtime_snap", u64_);
  ("hierarchical_quota", s64); ("idle", u8_); ("period_active", u8_); ("slack_started", u8_);
  ("period_timer", hrtimer); ("slack_timer", hrtimer); ("throttled_cfs_rq", list_head);
  ("nr_periods", c_int); ("nr_throttled", c_int); ("nr_burst", c_int); ("throttled_time", u64_);
  ("burst_time", u64_)].

Definition task_group : ctype := CStruct 1 [("css", cgroup_subsys_state); ("idle", c_int);
  ("se", CPtr); ("cfs_rq", CPtr); ("shares", c_ulong); ("_bitfield_align_1", CArray 0 CU8);
  ("_bitfield_1", __BindgenBitfieldUnit 16); ("load_avg", atomic_long_t); ("scx",
  scx_task_group); ("rcu", callback_head); ("list", list_head); ("parent", CPtr); ("siblings",
  list_head); ("children", list_head); ("autogroup", CPtr); ("cfs_bandwidth", cfs_bandwidth);
  ("uclamp_pct", CArray 2 c_uint); ("uclamp_req", CArray 2 uclamp_se); ("uclamp", CArray 2
  uclamp_se); ("_bitfield_align_2", CArray 0 CU8); ("_bitfield_2", __BindgenBitfieldUnit 56)].

Definition thread_shstk : ctype := CStruct 1 [("base", u64_); ("size", u64_)].

Definition thread_struct : ctype := CStruct 1 [("tls_array", CArray 3 desc_struct); ("sp",
  c_ulong); ("es", c_ushort); ("ds", c_ushort); ("fsindex", c_ushort); ("gsindex", c_ushort);
  ("fsbase", c_ulong); ("gsbase", c_ulong); ("ptrace_bps", CArray 4 CPtr); ("virtual_dr6",
  c_ulong); ("ptrace_dr7", c_ulong); ("cr2", c_ulong); ("trap_nr", c_ulong); ("error_code",
  c_ulong); ("io_bitmap", CPtr); ("iopl_emul", c_ulong); ("_bitfield_align_1", CArray 0 CU8);
  ("_bitfield_1", __BindgenBitfieldUnit 1); ("pkru", u32_); ("features", c_ulong);
  ("features_locked", c_ulong); ("shstk", thread_shstk)].

Definition thread_info : ctype := CStruct 1 [("flags", c_ulong); ("syscall_work", c_ulong);
  ("status", u32_); ("cpu", u32_)].

Definition sched_entity : ctype := CStruct 1 [("load", load_weight); ("run_node", rb_node);
  ("deadline", u64_); ("min_vruntime", u64_); ("min_slice", u64_); ("max_slice", u64_);
  ("group_node", list_head); ("on_rq", c_uchar); ("sched_delayed", c_uchar); ("rel_deadline",
  c_uchar); ("custom_slice", c_uchar); ("exec_start", u64_); ("sum_exec_runtime", u64_);
  ("prev_sum_exec_runtime", u64_); ("vruntime", u64_); ("vlag", s64); ("vprot", u64_); ("slice",
  u64_); ("nr_migrations", u64_); ("depth", c_int); ("parent", CPtr); ("cfs_rq", CPtr); ("my_q",
  CPtr); ("runnable_weight", c_ulong); ("_bitfield_align_1", CArray 0 CU8); ("_bitfield_1",
  __BindgenBitfieldUnit 56); ("avg", sched_avg)].

Definition sched_rt_entity : ctype := CStruct 1 [("run_list", list_head); ("timeout", c_ulong);
  ("watchdog_stamp", c_ulong); ("time_slice", c_uint); ("on_rq", c_ushort); ("on_list",
  c_ushort); ("back", CPtr)].

Definition scx_dsq_list_node : ctype := CStruct 1 [("node", list_head); ("flags", u32_);
  ("priv_", u32_)].

Definition sched_ext_entity : ctype := CStruct 1 [("dsq", CPtr); ("dsq_list",
  scx_dsq_list_node); ("dsq_priq", rb_node); ("dsq_seq", u32_); ("dsq_flags", u32_); ("flags",
  u32_); ("weight", u32_); ("sticky_cpu", s32); ("holding_cpu", s32); ("selected_cpu", s32);
  ("kf_mask", u32_); ("kf_tasks", CArray 2 CPtr); ("ops_state", atomic_long_t);
  ("runnable_node", list_head); ("runnable_at", c_ulong); ("core_sched_at", u64_);
  ("ddsp_dsq_id", u64_); ("ddsp_enq_flags", u64_); ("slice", u64_); ("dsq_vtime", u64_);
  ("disallow", bool_); ("cgrp_moving_from", CPtr); ("tasks_node", list_head)].

Definition cpumask_t : ctype := cpumask.

Definition rcu_special__bindgen_ty_1 : ctype := CStruct 1 [("blocked", u8_); ("need_qs", u8_);
  ("exp_hint", u8_); ("need_mb", u8_)].

Definition rcu_special : ctype := CUnion 1 [("b", rcu_special__bindgen_ty_1); ("s", u32_)].

Definition plist_node : ctype := CStruct 1 [("prio", c_int); ("prio_list", list_head);
  ("node_list", list_head)].

Definition restart_block__bindgen_ty_1__bindgen_ty_1 : ctype := CStruct 1 [("uaddr", CPtr);
  ("val", u32_); ("flags", u32_); ("bitset", u32_); ("time", ktime_t); ("uaddr2", CPtr)].

Definition restart_block__bindgen_ty_1__bindgen_ty_2__bindgen_ty_1 : ctype := CUnion 1 [("rmtp",
  CPtr); ("compat_rmtp", CPtr)].

Definition restart_block__bindgen_ty_1__bindgen_ty_2 : ctype := CStruct 1 [("clockid",
  clockid_t); ("type_", timespec_type__Type); ("__bindgen_anon_1",
  restart_block__bindgen_ty_1__bindgen_ty_2__bindgen_ty_1); ("expires", ktime_t)].

Definition restart_block__bindgen_ty_1__bindgen_ty_3 : ctype := CStruct 1 [("ufds", CPtr);
  ("nfds", c_int); ("has_timeout", c_int); ("end_time", timespec64)].

Definition restart_block__bindgen_ty_1 : ctype := CUnion 1 [("futex",
  restart_block__bindgen_ty_1__bindgen_ty_1); ("nanosleep",
  restart_block__bindgen_ty_1__bindgen_ty_2); ("poll",
  restart_block__bindgen_ty_1__bindgen_ty_3)].

Definition restart_block : ctype := CStruct 1 [("arch_data", c_ulong); ("fn_", CPtr);
  ("__bindgen_anon_1", restart_block__bindgen_ty_1)].

Definition vtime : ctype := CStruct 1 [("seqcount", seqcount_t); ("starttime", c_ulonglong);
  ("state", vtime_state__Type); ("cpu", c_uint); ("utime", u64_); ("stime", u64_); ("gtime",
  u64_)].

Definition posix_cputimers_work : ctype := CStruct 1 [("work", callback_head); ("mutex", mutex);
  ("scheduled", c_uint)].

Definition sysv_sem : ctype := CStruct 1 [("undo_list", CPtr)].

Definition sysv_shm : ctype := CStruct 1 [("shm_clist", list_head)].

Definition seccomp : ctype := CStruct 1 [("mode", c_int); ("filter_count", atomic_t); ("filter",
  CPtr)].

Definition syscall_user_dispatch : ctype := CStruct 1 [("selector", CPtr); ("offset", c_ulong);
  ("len", c_ulong); ("on_dispatch", bool_)].

Definition wake_q_node : ctype := CStruct 1 [("next", CPtr)].

Definition nodemask_t : ctype := CStruct 1 [("bits", CArray 16 c_ulong)].

Definition rseq_event__bindgen_ty_1__bindgen_ty_1__bindgen_ty_1__bindgen_ty_1 : ctype := CStruct
  1 [("sched_switch", u8_); ("ids_changed", u8_); ("user_irq", u8_)].

Definition rseq_event__bindgen_ty_1__bindgen_ty_1__bindgen_ty_1 : ctype := CUnion 1 [("events",
  u32_); ("__bindgen_anon_1",
  rseq_event__bindgen_ty_1__bindgen_ty_1__bindgen_ty_1__bindgen_ty_1)].

Definition rseq_event__bindgen_ty_1__bindgen_ty_1__bindgen_ty_2__bindgen_ty_1 : ctype := CStruct
  1 [("fatal", u8_); ("slowpath", u8_)].

Definition rseq_event__bindgen_ty_1__bindgen_ty_1__bindgen_ty_2 : ctype := CUnion 1 [("error",
  u16_); ("__bindgen_anon_1",
  rseq_event__bindgen_ty_1__bindgen_ty_1__bindgen_ty_2__bindgen_ty_1)].

Definition rseq_event__bindgen_ty_1__bindgen_ty_1 : ctype := CStruct 1 [("__bindgen_anon_1",
  rseq_event__bindgen_ty_1__bindgen_ty_1__bindgen_ty_1); ("has_rseq", u8_); ("__pad", u8_);
  ("__bindgen_anon_2", rseq_event__bindgen_ty_1__bindgen_ty_1__bindgen_ty_2)].

Definition rseq_event__bindgen_ty_1 : ctype := CUnion 1 [("all", u64_); ("__bindgen_anon_1",
  rseq_event__bindgen_ty_1__bindgen_ty_1)].

Definition rseq_event : ctype := CStruct 1 [("__bindgen_anon_1", rseq_event__bindgen_ty_1)].

Definition rseq_ids__bindgen_ty_1__bindgen_ty_1 : ctype := CStruct 1 [("cpu_id", u32_);
  ("mm_cid", u32_)].

Definition rseq_ids__bindgen_ty_1 : ctype := CUnion 1 [("cpu_cid", u64_); ("__bindgen_anon_1",
  rseq_ids__bindgen_ty_1__bindgen_ty_1)].

Definition rseq_ids : ctype := CStruct 1 [("__bindgen_anon_1", rseq_ids__bindgen_ty_1);
  ("node_id", u32_)].

Definition rseq_slice_state__bindgen_ty_1 : ctype := CStruct 1 [("enabled", u8_); ("granted",
  u8_)].

Definition rseq_slice_state : ctype := CUnion 1 [("state", u16_); ("__bindgen_anon_1",
  rseq_slice_state__bindgen_ty_1)].

Definition rseq_slice : ctype := CStruct 1 [("state", rseq_slice_state); ("expires", u64_);
  ("yielded", u8_)].

Definition rseq_data : ctype := CStruct 1 [("usrptr", CPtr); ("len", u32_); ("sig", u32_);
  ("event", rseq_event); ("ids", rseq_ids); ("slice", rseq_slice)].

Definition sched_mm_cid : ctype := CStruct 1 [("active", c_uint); ("cid", c_uint); ("node",
  hlist_node)].

Definition arch_tlbflush_unmap_batch : ctype := CStruct 1 [("cpumask", cpumask);
  ("unmapped_pages", bool_)].

Definition tlbflush_unmap_batch : ctype := CStruct 1 [("arch", arch_tlbflush_unmap_batch);
  ("flush_required", bool_); ("writable", bool_)].

Definition lazy_mmu_state : ctype := CStruct 1 [("enable_count", u8_); ("pause_count", u8_)].

Definition kmap_ctrl : ctype := CStruct 1 [].

Definition unwind_task_id__bindgen_ty_1 : ctype := CStruct 1 [("cpu", u32_); ("cnt", u32_)].

Definition unwind_task_id : ctype := CUnion 1 [("__bindgen_anon_1",
  unwind_task_id__bindgen_ty_1); ("id", u64_)].

Definition unwind_task_info : ctype := CStruct 1 [("unwind_mask", atomic_long_t); ("cache",
  CPtr); ("work", callback_head); ("id", unwind_task_id)].

Definition task_struct : ctype := CStruct 1 [("thread_info", thread_info); ("__state", c_uint);
  ("saved_state", c_uint); ("stack", CPtr); ("usage", refcount_t); ("flags", c_uint); ("ptrace",
  c_uint); ("on_cpu", c_int); ("wake_entry", __call_single_node); ("wakee_flips", c_uint);
  ("wakee_flip_decay_ts", c_ulong); ("last_wakee", CPtr); ("recent_used_cpu", c_int);
  ("wake_cpu", c_int); ("on_rq", c_int); ("prio", c_int); ("static_prio", c_int);
  ("normal_prio", c_int); ("rt_priority", c_uint); ("se", sched_entity); ("rt",
  sched_rt_entity); ("dl", sched_dl_entity); ("dl_server", CPtr); ("scx", sched_ext_entity);
  ("sched_class", CPtr); ("core_node", rb_node); ("core_cookie", c_ulong); ("core_occupation",
  c_uint); ("sched_task_group", CPtr); ("sched_throttle_work", callback_head); ("throttle_node",
  list_head); ("throttled", bool_); ("uclamp_req", CArray 2 uclamp_se); ("uclamp", CArray 2
  uclamp_se); ("_bitfield_align_1", CArray 0 CU8); ("_bitfield_1", __BindgenBitfieldUnit 24);
  ("stats", sched_statistics); ("preempt_notifiers", hlist_head); ("btrace_seq", c_uint);
  ("policy", c_uint); ("max_allowed_capacity", c_ulong); ("nr_cpus_allowed", c_int);
  ("cpus_ptr", CPtr); ("user_cpus_ptr", CPtr); ("cpus_mask", cpumask_t); ("migration_pending",
  CPtr); ("migration_disabled", c_ushort); ("migration_flags", c_ushort);
  ("rcu_read_lock_nesting", c_int); ("rcu_read_unlock_special", rcu_special); ("rcu_node_entry",
  list_head); ("rcu_blocked_node", CPtr); ("rcu_tasks_nvcsw", c_ulong); ("rcu_tasks_holdout",
  u8_); ("rcu_tasks_idx", u8_); ("rcu_tasks_idle_cpu", c_int); ("rcu_tasks_holdout_list",
  list_head); ("rcu_tasks_exit_cpu", c_int); ("rcu_tasks_exit_list", list_head);
  ("trc_reader_nesting", c_int); ("trc_reader_scp", CPtr); ("sched_info", sched_info); ("tasks",
  list_head); ("pushable_tasks", plist_node); ("pushable_dl_tasks", rb_node); ("mm", CPtr);
  ("active_mm", CPtr); ("exit_state", c_int); ("exit_code", c_int); ("exit_signal", c_int);
  ("pdeath_signal", c_int); ("jobctl", c_ulong); ("personality", c_uint); ("_bitfield_align_2",
  CArray 0 CU8); ("_bitfield_2", __BindgenBitfieldUnit 6); ("atomic_flags", c_ulong);
  ("restart_block", restart_block); ("pid", pid_t); ("tgid", pid_t); ("stack_canary", c_ulong);
  ("real_parent", CPtr); ("parent", CPtr); ("children", list_head); ("sibling", list_head);
  ("group_leader", CPtr); ("ptraced", list_head); ("ptrace_entry", list_head); ("thread_pid",
  CPtr); ("pid_links", CArray 4 hlist_node); ("thread_node", list_head); ("vfork_done", CPtr);
  ("set_child_tid", CPtr); ("clear_child_tid", CPtr); ("worker_private", CPtr); ("utime", u64_);
  ("stime", u64_); ("gtime", u64_); ("prev_cputime", prev_cputime); ("vtime", vtime);
  ("tick_dep_mask", atomic_t); ("nvcsw", c_ulong); ("nivcsw", c_ulong); ("start_time", u64_);
  ("start_boottime", u64_); ("min_flt", c_ulong); ("maj_flt", c_ulong); ("posix_cputimers",
  posix_cputimers); ("posix_cputimers_work", posix_cputimers_work); ("ptracer_cred", CPtr);
  ("real_cred", CPtr); ("cred", CPtr); ("cached_requested_key", CPtr); ("comm", CArray 16
  c_char); ("nameidata", CPtr); ("sysvsem", sysv_sem); ("sysvshm", sysv_shm);
  ("last_switch_count", c_ulong); ("last_switch_time", c_ulong); ("fs", CPtr); ("files", CPtr);
  ("io_uring", CPtr); ("io_uring_restrict", CPtr); ("nsproxy", CPtr); ("signal", CPtr);
  ("sighand", CPtr); ("blocked", sigset_t); ("real_blocked", sigset_t); ("saved_sigmask",
  sigset_t); ("pending", sigpending); ("sas_ss_sp", c_ulong); ("sas_ss_size", CU64);
  ("sas_ss_flags", c_uint); ("task_works", CPtr); ("audit_context", CPtr); ("loginuid", kuid_t);
  ("sessionid", c_uint); ("seccomp", seccomp); ("syscall_dispatch", syscall_user_dispatch);
  ("parent_exec_id", u64_); ("self_exec_id", u64_); ("alloc_lock", spinlock_t); ("pi_lock",
  raw_spinlock_t); ("wake_q", wake_q_node); ("pi_waiters", rb_root_cached); ("pi_top_task",
  CPtr); ("pi_blocked_on", CPtr); ("blocked_on", CPtr); ("blocker", c_ulong); ("journal_info",
  CPtr); ("bio_list", CPtr); ("plug", CPtr); ("reclaim_state", CPtr); ("io_context", CPtr);
  ("capture_control", CPtr); ("ptrace_message", c_ulong); ("last_siginfo", CPtr); ("ioac",
  task_io_accounting); ("psi_flags", c_uint); ("acct_rss_mem1", u64_); ("acct_vm_mem1", u64_);
  ("acct_timexpd", u64_); ("mems_allowed", nodemask_t); ("mems_allowed_seq",
  seqcount_spinlock_t); ("cpuset_mem_spread_rotor", c_int); ("cgroups", CPtr); ("cg_list",
  list_head); ("closid", u32_); ("rmid", u32_); ("robust_list", CPtr); ("compat_robust_list",
  CPtr); ("pi_state_list", list_head); ("pi_state_cache", CPtr); ("futex_exit_mutex", mutex);
  ("futex_state", c_uint); ("perf_recursion", CArray 4 u8_); ("perf_event_ctxp", CPtr);
  ("perf_event_mutex", mutex); ("perf_event_list", list_head); ("perf_ctx_data", CPtr);
  ("mempolicy", CPtr); ("il_prev", c_short); ("il_weight", u8_); ("pref_node_fork", c_short);
  ("numa_scan_seq", c_int); ("numa_scan_period", c_uint); ("numa_scan_period_max", c_uint);
  ("numa_preferred_nid", c_int); ("numa_migrate_retry", c_ulong); ("node_stamp", u64_);
  ("last_task_numa_placement", u64_); ("last_sum_exec_runtime", u64_); ("numa_work",
  callback_head); ("numa_group", CPtr); ("numa_faults", CPtr); ("total_numa_faults", c_ulong);
  ("numa_faults_locality", CArray 3 c_ulong); ("numa_pages_migrated", c_ulong); ("rseq",
  rseq_data); ("mm_cid", sched_mm_cid); ("tlb_ubc", tlbflush_unmap_batch); ("splice_pipe",
  CPtr); ("task_frag", page_frag); ("lazy_mmu_state", lazy_mmu_state); ("delays", CPtr);
  ("nr_dirtied", c_int); ("nr_dirtied_pause", c_int); ("dirty_paused_when", c_ulong);
  ("timer_slack_ns", u64_); ("default_timer_slack_ns", u64_); ("curr_ret_stack", c_int);
  ("curr_ret_depth", c_int); ("ret_stack", CPtr); ("ftrace_timestamp", c_ulonglong);
  ("ftrace_sleeptime", c_ulonglong); ("trace_overrun", atomic_t); ("tracing_graph_pause",
  atomic_t); ("trace_recursion", c_ulong); ("memcg_nr_pages_over_high", c_uint);
  ("active_memcg", CPtr); ("objcg", CPtr); ("throttle_disk", CPtr); ("utask", CPtr);
  ("sequential_io", c_uint); ("sequential_io_avg", c_uint); ("kmap_ctrl", kmap_ctrl); ("rcu",
  callback_head); ("rcu_users", refcount_t); ("pagefault_disabled", c_int); ("oom_reaper_list",
  CPtr); ("oom_reaper_timer", timer_list); ("stack_vm_area", CPtr); ("stack_refcount",
  refcount_t); ("security", CPtr); ("bpf_storage", CPtr); ("bpf_ctx", CPtr); ("bpf_net_context",
  CPtr); ("kstack_offset", u32_); ("mce_vaddr", CPtr); ("mce_kflags", __u64); ("mce_addr",
  u64_); ("_bitfield_align_3", CArray 0 CU64); ("_bitfield_3", __BindgenBitfieldUnit 8);
  ("mce_kill_me", callback_head); ("mce_count", c_int); ("kretprobe_instances", llist_head);
  ("rethooks", llist_head); ("l1d_flush_kill", callback_head); ("user_event_mm", CPtr);
  ("unwind_info", unwind_task_info); ("thread", thread_struct); ("_bitfield_align_4", CArray 0
  CU8); ("_bitfield_4", __BindgenBitfieldUnit 48)].

Definition tcf_t : ctype := CStruct 1 [("install", __u64); ("lastuse", __u64); ("expires",
  __u64); ("firstuse", __u64)].

Definition tc_action : ctype := CStruct 1 [("ops", CPtr); ("type_", __u32); ("idrinfo", CPtr);
  ("tcfa_index", u32_); ("tcfa_refcnt", refcount_t); ("tcfa_bindcnt", atomic_t); ("tcfa_action",
  c_int); ("tcfa_tm", tcf_t); ("_bitfield_align_1", CArray 0 CU8); ("_bitfield_1",
  __BindgenBitfieldUnit 8); ("tcfa_bstats", gnet_stats_basic_sync); ("tcfa_bstats_hw",
  gnet_stats_basic_sync); ("tcfa_drops", atomic_t); ("tcfa_overlimits", atomic_t);
  ("tcfa_rate_est", CPtr); ("tcfa_lock", spinlock_t); ("cpu_bstats", CPtr); ("cpu_bstats_hw",
  CPtr); ("cpu_qstats", CPtr); ("user_cookie", CPtr); ("goto_chain", CPtr); ("tcfa_flags",
  u32_); ("hw_stats", u8_); ("used_hw_stats", u8_); ("used_hw_stats_valid", bool_);
  ("in_hw_count", u32_)].

Definition tcp_options_received : ctype := CStruct 1 [("ts_recent_stamp", c_int); ("ts_recent",
  u32_); ("rcv_tsval", u32_); ("rcv_tsecr", u32_); ("_bitfield_align_1", CArray 0 CU8);
  ("_bitfield_1", __BindgenBitfieldUnit 3); ("num_sacks", u8_); ("user_mss", u16_);
  ("mss_clamp", u16_)].

Definition tcp_rack : ctype := CStruct 1 [("mstamp", u64_); ("rtt_us", u32_); ("end_seq", u32_);
  ("last_delivered", u32_); ("reo_wnd_steps", u8_); ("_bitfield_align_1", CArray 0 CU8);
  ("_bitfield_1", __BindgenBitfieldUnit 1); ("__bindgen_padding_0", CU16)].

Definition minmax_sample : ctype := CStruct 1 [("t", u32_); ("v", u32_)].

Definition minmax : ctype := CStruct 1 [("s", CArray 3 minmax_sample)].

Definition tcp_sock__bindgen_ty_1 : ctype := CStruct 1 [("rtt_us", u32_); ("seq", u32_);
  ("time", u64_)].

Definition tcp_sock__bindgen_ty_2 : ctype := CStruct 1 [("space", c_int); ("seq", u32_);
  ("time", u64_)].

Definition tcp_sack_block : ctype := CStruct 1 [("start_seq", u32_); ("end_seq", u32_)].

Definition tcp_sock__bindgen_ty_3 : ctype := CStruct 1 [("probe_seq_start", u32_);
  ("probe_seq_end", u32_)].

Definition tcp_sock : ctype := CStruct 1 [("inet_conn", inet_connection_sock);
  ("__cacheline_group_begin__tcp_sock_read_tx", __IncompleteArrayField __u8); ("max_window",
  u32_); ("rcv_ssthresh", u32_); ("reordering", u32_); ("notsent_lowat", u32_); ("gso_segs",
  u16_); ("retransmit_skb_hint", CPtr); ("tcp_clean_acked", CPtr);
  ("__cacheline_group_end__tcp_sock_read_tx", __IncompleteArrayField __u8);
  ("__cacheline_group_begin__tcp_sock_read_txrx", __IncompleteArrayField __u8); ("tsoffset",
  u32_); ("snd_wnd", u32_); ("mss_cache", u32_); ("snd_cwnd", u32_); ("prr_out", u32_);
  ("lost_out", u32_); ("sacked_out", u32_); ("tcp_header_len", u16_); ("scaling_ratio", u8_);
  ("_bitfield_align_1", CArray 0 CU8); ("_bitfield_1", __BindgenBitfieldUnit 1);
  ("__cacheline_group_end__tcp_sock_read_txrx", __IncompleteArrayField __u8);
  ("__cacheline_group_begin__tcp_sock_read_rx", __IncompleteArrayField __u8); ("copied_seq",
  u32_); ("snd_wl1", u32_); ("tlp_high_seq", u32_); ("rttvar_us", u32_); ("retrans_out", u32_);
  ("advmss", u16_); ("urg_data", u16_); ("lost", u32_); ("snd_ssthresh", u32_); ("rtt_min",
  minmax); ("out_of_order_queue", rb_root); ("__cacheline_group_end__tcp_sock_read_rx",
  __IncompleteArrayField __u8); ("_bitfield_align_2", CArray 0 CU8); ("_bitfield_2",
  __BindgenBitfieldUnit 24); ("__cacheline_group_begin__tcp_sock_write_tx",
  __IncompleteArrayField __u8); ("segs_out", u32_); ("data_segs_out", u32_); ("bytes_sent",
  u64_); ("snd_sml", u32_); ("chrono_type", u8_); ("chrono_start", u32_); ("chrono_stat", CArray
  3 u32_); ("write_seq", u32_); ("pushed_seq", u32_); ("lsndtime", u32_); ("mdev_us", u32_);
  ("rtt_seq", u32_); ("tcp_wstamp_ns", u64_); ("accecn_opt_tstamp", u64_);
  ("tsorted_sent_queue", list_head); ("highest_sack", CPtr); ("ecn_flags", u8_);
  ("__cacheline_group_end__tcp_sock_write_tx", __IncompleteArrayField __u8);
  ("__cacheline_group_begin__tcp_sock_write_txrx", __IncompleteArrayField __u8);
  ("_bitfield_align_3", CArray 0 CU8); ("_bitfield_3", __BindgenBitfieldUnit 3); ("pred_flags",
  __be32); ("tcp_clock_cache", u64_); ("tcp_mstamp", u64_); ("rcv_nxt", u32_); ("snd_nxt",
  u32_); ("snd_una", u32_); ("window_clamp", u32_); ("srtt_us", u32_); ("packets_out", u32_);
  ("snd_up", u32_); ("delivered", u32_); ("delivered_ce", u32_); ("received_ce", u32_);
  ("received_ecn_bytes", CArray 3 u32_); ("app_limited", u32_); ("rcv_wnd", u32_);
  ("rcv_tstamp", u32_); ("rx_opt", tcp_options_received);
  ("__cacheline_group_end__tcp_sock_write_txrx", __IncompleteArrayField __u8);
  ("__cacheline_group_begin__tcp_sock_write_rx", __IncompleteArrayField __u8);
  ("bytes_received", u64_); ("segs_in", u32_); ("data_segs_in", u32_); ("rcv_wup", u32_);
  ("max_packets_out", u32_); ("cwnd_usage_seq", u32_); ("rate_delivered", u32_);
  ("rate_interval_us", u32_); ("rcv_rtt_last_tsecr", u32_); ("delivered_ecn_bytes", CArray 3
  u32_); ("pkts_acked_ewma", u16_); ("first_tx_mstamp", u64_); ("delivered_mstamp", u64_);
  ("bytes_acked", u64_); ("rcv_rtt_est", tcp_sock__bindgen_ty_1); ("rcvq_space",
  tcp_sock__bindgen_ty_2); ("__cacheline_group_end__tcp_sock_write_rx", __IncompleteArrayField
  __u8); ("dsack_dups", u32_); ("compressed_ack_rcv_nxt", u32_); ("tsq_node", list_head);
  ("rack", tcp_rack); ("compressed_ack", u8_); ("_bitfield_align_4", CArray 0 CU8);
  ("_bitfield_4", __BindgenBitfieldUnit 2); ("repair_queue", u8_); ("_bitfield_align_5", CArray
  0 CU8); ("_bitfield_5", __BindgenBitfieldUnit 1); ("keepalive_probes", u8_);
  ("_bitfield_align_6", CArray 0 CU8); ("_bitfield_6", __BindgenBitfieldUnit 1);
  ("tcp_tx_delay", u32_); ("mdev_max_us", u32_); ("reord_seen", u32_); ("snd_cwnd_cnt", u32_);
  ("snd_cwnd_clamp", u32_); ("snd_cwnd_used", u32_); ("snd_cwnd_stamp", u32_); ("prior_cwnd",
  u32_); ("prr_delivered", u32_); ("last_oow_ack_time", u32_); ("pacing_timer", hrtimer);
  ("compressed_ack_timer", hrtimer); ("ooo_last_skb", CPtr); ("duplicate_sack", CArray 1
  tcp_sack_block); ("selective_acks", CArray 4 tcp_sack_block); ("recv_sack_cache", CArray 4
  tcp_sack_block); ("prior_ssthresh", u32_); ("high_seq", u32_); ("retrans_stamp", u32_);
  ("undo_marker", u32_); ("undo_retrans", c_int); ("mtu_info", u32_); ("bytes_retrans", u64_);
  ("total_retrans", u32_); ("rto_stamp", u32_); ("total_rto", u16_); ("total_rto_recoveries",
  u16_); ("total_rto_time", u32_); ("urg_seq", u32_); ("keepalive_time", c_uint);
  ("keepalive_intvl", c_uint); ("linger2", c_int); ("bpf_sock_ops_cb_flags", u8_);
  ("_bitfield_align_7", CArray 0 CU8); ("_bitfield_7", __BindgenBitfieldUnit 1);
  ("timeout_rehash", u16_); ("rcv_ooopack", u32_); ("mtu_probe", tcp_sock__bindgen_ty_3);
  ("plb_rehash", u32_); ("is_mptcp", bool_); ("syn_smc", bool_); ("smc_hs_congested", CPtr);
  ("af_specific", CPtr); ("md5sig_info", CPtr); ("ao_info", CPtr); ("fastopen_req", CPtr);
  ("fastopen_rsk", CPtr); ("saved_syn", CPtr); ("_bitfield_align_8", CArray 0 CU8);
  ("_bitfield_8", __BindgenBitfieldUnit 56)].

Definition tcp_ao_counters : ctype := CStruct 1 [("pkt_good", atomic64_t); ("pkt_bad",
  atomic64_t); ("key_not_found", atomic64_t); ("ao_required", atomic64_t); ("dropped_icmp",
  atomic64_t)].

Definition tcp_ao_info : ctype := CStruct 1 [("head", hlist_head); ("current_key", CPtr);
  ("rnext_key", CPtr); ("counters", tcp_ao_counters); ("_bitfield_align_1", CArray 0 CU32);
  ("_bitfield_1", __BindgenBitfieldUnit 4); ("lisn", __be32); ("risn", __be32); ("snd_sne",
  u32_); ("rcv_sne", u32_); ("refcnt", refcount_t)].

Definition timens_offsets : ctype := CStruct 1 [("monotonic", timespec64); ("boottime",
  timespec64)].

Definition time_namespace : ctype := CStruct 1 [("user_ns", CPtr); ("ucounts", CPtr);
  ("_bitfield_align_1", CArray 0 CU8); ("_bitfield_1", __BindgenBitfieldUnit 48); ("ns",
  ns_common); ("offsets", timens_offsets); ("vvar_page", CPtr); ("frozen_offsets", bool_);
  ("_bitfield_align_2", CArray 0 CU8); ("_bitfield_2", __BindgenBitfieldUnit 16);
  ("__bindgen_padding_0", CArray 7 CU8)].

Definition tls_prot_info : ctype := CStruct 1 [("version", u16_); ("cipher_type", u16_);
  ("prepend_size", u16_); ("tag_size", u16_); ("overhead_size", u16_); ("iv_size", u16_);
  ("salt_size", u16_); ("rec_seq_size", u16_); ("aad_size", u16_); ("tail_size", u16_)].

Definition cipher_context : ctype := CStruct 1 [("iv", CArray 20 c_char); ("rec_seq", CArray 8
  c_char)].

Definition tls_crypto_info : ctype := CStruct 1 [("version", __u16); ("cipher_type", __u16)].

Definition tls12_crypto_info_aes_gcm_128 : ctype := CStruct 1 [("info", tls_crypto_info); ("iv",
  CArray 8 c_uchar); ("key", CArray 16 c_uchar); ("salt", CArray 4 c_uchar); ("rec_seq", CArray
  8 c_uchar)].

Definition tls12_crypto_info_aes_gcm_256 : ctype := CStruct 1 [("info", tls_crypto_info); ("iv",
  CArray 8 c_uchar); ("key", CArray 32 c_uchar); ("salt", CArray 4 c_uchar); ("rec_seq", CArray
  8 c_uchar)].

Definition tls12_crypto_info_chacha20_poly1305 : ctype := CStruct 1 [("info", tls_crypto_info);
  ("iv", CArray 12 c_uchar); ("key", CArray 32 c_uchar); ("salt", __IncompleteArrayField
  c_uchar); ("rec_seq", CArray 8 c_uchar)].

Definition tls12_crypto_info_sm4_gcm : ctype := CStruct 1 [("info", tls_crypto_info); ("iv",
  CArray 8 c_uchar); ("key", CArray 16 c_uchar); ("salt", CArray 4 c_uchar); ("rec_seq", CArray
  8 c_uchar)].

Definition tls12_crypto_info_sm4_ccm : ctype := CStruct 1 [("info", tls_crypto_info); ("iv",
  CArray 8 c_uchar); ("key", CArray 16 c_uchar); ("salt", CArray 4 c_uchar); ("rec_seq", CArray
  8 c_uchar)].

Definition tls_crypto_context__bindgen_ty_1 : ctype := CStruct 1 [("aes_gcm_128",
  __BindgenUnionField tls12_crypto_info_aes_gcm_128); ("aes_gcm_256", __BindgenUnionField
  tls12_crypto_info_aes_gcm_256); ("chacha20_poly1305", __BindgenUnionField
  tls12_crypto_info_chacha20_poly1305); ("sm4_gcm", __BindgenUnionField
  tls12_crypto_info_sm4_gcm); ("sm4_ccm", __BindgenUnionField tls12_crypto_info_sm4_ccm);
  ("bindgen_union_field", CArray 28 CU16)].

Definition tls_crypto_context : ctype := CStruct 1 [("info", __BindgenUnionField
  tls_crypto_info); ("__bindgen_anon_1", __BindgenUnionField tls_crypto_context__bindgen_ty_1);
  ("bindgen_union_field", CArray 28 CU16)].

Definition tls_context : ctype := CStruct 1 [("prot_info", tls_prot_info); ("_bitfield_align_1",
  CArray 0 CU8); ("_bitfield_1", __BindgenBitfieldUnit 1); ("tx_max_payload_len", u16_);
  ("push_pending_record", CPtr); ("sk_write_space", CPtr); ("priv_ctx_tx", CPtr);
  ("priv_ctx_rx", CPtr); ("netdev", CPtr); ("tx", cipher_context); ("rx", cipher_context);
  ("partially_sent_record", CPtr); ("partially_sent_offset", u16_); ("splicing_pages", bool_);
  ("pending_open_record_frags", bool_); ("tx_lock", mutex); ("flags", c_ulong); ("sk_proto",
  CPtr); ("sk", CPtr); ("sk_destruct", CPtr); ("crypto_send", tls_crypto_context);
  ("crypto_recv", tls_crypto_context); ("list", list_head); ("refcount", refcount_t); ("rcu",
  callback_head)].

Definition trace_event_fields__bindgen_ty_1__bindgen_ty_1 : ctype := CStruct 1 [("name", CPtr);
  ("size", c_int); ("align", c_int); ("_bitfield_align_1", CArray 0 CU8); ("_bitfield_1",
  __BindgenBitfieldUnit 1); ("filter_type", c_int); ("len", c_int)].

Definition tracepoint_ext : ctype := CStruct 1 [("regfunc", CPtr); ("unregfunc", CPtr);
  ("_bitfield_align_1", CArray 0 CU8); ("_bitfield_1", __BindgenBitfieldUnit 1);
  ("__bindgen_padding_0", CArray 7 CU8)].

Definition udp_hslot__bindgen_ty_1 : ctype := CUnion 1 [("head", hlist_head); ("nulls_head",
  hlist_nulls_head)].

Definition udp_hslot : ctype := CStruct 1 [("__bindgen_anon_1", udp_hslot__bindgen_ty_1);
  ("count", c_int); ("lock", spinlock_t)].

Definition udp_hslot_main : ctype := CStruct 1 [("hslot", udp_hslot); ("hash4_cnt", u32_);
  ("_bitfield_align_1", CArray 0 CU8); ("_bitfield_1", __BindgenBitfieldUnit 8);
  ("__bindgen_padding_0", CU32)].

Definition uid_gid_extent : ctype := CStruct 1 [("first", u32_); ("lower_first", u32_);
  ("count", u32_)].

Definition uid_gid_map__bindgen_ty_1__bindgen_ty_1 : ctype := CStruct 1 [("extent", CArray 5
  uid_gid_extent); ("nr_extents", u32_)].

Definition uid_gid_map__bindgen_ty_1__bindgen_ty_2 : ctype := CStruct 1 [("forward", CPtr);
  ("reverse", CPtr)].

Definition uid_gid_map__bindgen_ty_1 : ctype := CUnion 1 [("__bindgen_anon_1",
  uid_gid_map__bindgen_ty_1__bindgen_ty_1); ("__bindgen_anon_2",
  uid_gid_map__bindgen_ty_1__bindgen_ty_2)].

Definition uid_gid_map : ctype := CStruct 1 [("__bindgen_anon_1", uid_gid_map__bindgen_ty_1)].

Definition user_namespace : ctype := CStruct 1 [("uid_map", uid_gid_map); ("gid_map",
  uid_gid_map); ("projid_map", uid_gid_map); ("parent", CPtr); ("level", c_int); ("owner",
  kuid_t); ("group", kgid_t); ("_bitfield_align_1", CArray 0 CU8); ("_bitfield_1",
  __BindgenBitfieldUnit 40); ("ns", ns_common); ("flags", c_ulong); ("parent_could_setfcap",
  bool_); ("keyring_name_list", list_head); ("user_keyring_register", CPtr); ("keyring_sem",
  rw_semaphore); ("persistent_keyring_register", CPtr); ("work", work_struct); ("set",
  ctl_table_set); ("sysctls", CPtr); ("ucounts", CPtr); ("ucount_max", CArray 12 c_long);
  ("rlimit_max", CArray 4 c_long); ("binfmt_misc", CPtr); ("_bitfield_align_2", CArray 0 CU8);
  ("_bitfield_2", __BindgenBitfieldUnit 8)].

Definition wakeup_source : ctype := CStruct 1 [("name", CPtr); ("id", c_int); ("entry",
  list_head); ("lock", spinlock_t); ("wakeirq", CPtr); ("timer", timer_list); ("timer_expires",
  c_ulong); ("total_time", ktime_t); ("max_time", ktime_t); ("last_time", ktime_t);
  ("start_prevent_time", ktime_t); ("prevent_sleep_time", ktime_t); ("event_count", c_ulong);
  ("active_count", c_ulong); ("relax_count", c_ulong); ("expire_count", c_ulong);
  ("wakeup_count", c_ulong); ("dev", CPtr); ("_bitfield_align_1", CArray 0 CU8); ("_bitfield_1",
  __BindgenBitfieldUnit 1); ("__bindgen_padding_0", CArray 7 CU8)].

Definition wiphy_nan_capa : ctype := CStruct 1 [("flags", u32_); ("op_mode", u8_);
  ("n_antennas", u8_); ("max_channel_switch_time", u16_); ("dev_capabilities", u8_)].

Definition wiphy__bindgen_ty_1 : ctype := CStruct 1 [("peer", u64_); ("vif", u64_);
  ("max_retry", u8_)].

Definition wiphy : ctype := CStruct 1 [("mtx", mutex); ("perm_addr", CArray 6 u8_);
  ("addr_mask", CArray 6 u8_); ("addresses", CPtr); ("mgmt_stypes", CPtr);
  ("iface_combinations", CPtr); ("n_iface_combinations", c_int); ("software_iftypes", u16_);
  ("n_addresses", u16_); ("interface_modes", u16_); ("max_acl_mac_addrs", u16_); ("flags",
  u32_); ("regulatory_flags", u32_); ("features", u32_); ("ext_features", CArray 9 u8_);
  ("ap_sme_capa", u32_); ("signal_type", cfg80211_signal_type__Type); ("bss_priv_size", c_int);
  ("max_scan_ssids", u8_); ("max_sched_scan_reqs", u8_); ("max_sched_scan_ssids", u8_);
  ("max_match_sets", u8_); ("max_scan_ie_len", u16_); ("max_sched_scan_ie_len", u16_);
  ("max_sched_scan_plans", u32_); ("max_sched_scan_plan_interval", u32_);
  ("max_sched_scan_plan_iterations", u32_); ("n_cipher_suites", c_int); ("cipher_suites", CPtr);
  ("n_akm_suites", c_int); ("akm_suites", CPtr); ("iftype_akm_suites", CPtr);
  ("num_iftype_akm_suites", c_uint); ("retry_short", u8_); ("retry_long", u8_);
  ("frag_threshold", u32_); ("rts_threshold", u32_); ("coverage_class", u8_); ("fw_version",
  CArray 32 c_char); ("hw_version", u32_); ("wowlan", CPtr); ("wowlan_config", CPtr);
  ("max_remain_on_channel_duration", u16_); ("max_num_pmkids", u8_); ("available_antennas_tx",
  u32_); ("available_antennas_rx", u32_); ("probe_resp_offload", u32_);
  ("extended_capabilities", CPtr); ("extended_capabilities_mask", CPtr);
  ("extended_capabilities_len", u8_); ("iftype_ext_capab", CPtr); ("num_iftype_ext_capab",
  c_uint); ("privid", CPtr); ("bands", CArray 6 CPtr); ("reg_notifier", CPtr); ("radio_cfg",
  CPtr); ("regd", CPtr); ("dev", device); ("registered", bool_); ("debugfsdir", CPtr);
  ("ht_capa_mod_mask", CPtr); ("vht_capa_mod_mask", CPtr); ("wdev_list", list_head); ("_net",
  possible_net_t); ("wext", CPtr); ("coalesce", CPtr); ("vendor_commands", CPtr);
  ("vendor_events", CPtr); ("n_vendor_commands", c_int); ("n_vendor_events", c_int);
  ("max_ap_assoc_sta", u16_); ("max_num_csa_counters", u8_); ("bss_param_support", u32_);
  ("bss_select_support", u32_); ("nan_supported_bands", u8_); ("nan_capa", wiphy_nan_capa);
  ("txq_limit", u32_); ("txq_memory_limit", u32_); ("txq_quantum", u32_); ("tx_queue_len",
  c_ulong); ("_bitfield_align_1", CArray 0 CU8); ("_bitfield_1", __BindgenBitfieldUnit 1);
  ("pmsr_capa", CPtr); ("tid_config_support", wiphy__bindgen_ty_1); ("max_data_retry_count",
  u8_); ("sar_capa", CPtr); ("rfkill", CPtr); ("mbssid_max_interfaces", u8_);
  ("ema_max_profile_periodicity", u8_); ("max_num_akm_suites", u16_); ("hw_timestamp_max_peers",
  u16_); ("n_radio", c_int); ("radio", CPtr); ("_bitfield_align_2", CArray 0 CU8);
  ("_bitfield_2", __BindgenBitfieldUnit 8); ("priv_", __IncompleteArrayField c_char)].

Definition ieee80211_edmg : ctype := CStruct 1 [("channels", u8_); ("bw_config",
  ieee80211_edmg_bw_config__Type)].

Definition cfg80211_chan_def : ctype := CStruct 1 [("chan", CPtr); ("width",
  nl80211_chan_width__Type); ("center_freq1", u32_); ("center_freq2", u32_); ("edmg",
  ieee80211_edmg); ("freq1_offset", u16_); ("punctured", u16_); ("s1g_primary_2mhz", bool_)].

Definition __le16 : ctype := __u16.

Definition ieee80211_mcs_info : ctype := CStruct 1 [("rx_mask", CArray 10 u8_); ("rx_highest",
  __le16); ("tx_params", u8_); ("reserved", CArray 3 u8_)].

Definition __le32 : ctype := __u32.

Definition ieee80211_ht_cap : ctype := CPacked [("cap_info", __le16); ("ampdu_params_info",
  u8_); ("mcs", ieee80211_mcs_info); ("extended_ht_cap_info", __le16); ("tx_BF_cap_info",
  __le32); ("antenna_selection_info", u8_)].

Definition cfg80211_ibss_params : ctype := CStruct 1 [("ssid", CPtr); ("bssid", CPtr);
  ("chandef", cfg80211_chan_def); ("ie", CPtr); ("ssid_len", u8_); ("ie_len", u8_);
  ("beacon_interval", u16_); ("basic_rates", u32_); ("channel_fixed", bool_); ("privacy",
  bool_); ("control_port", bool_); ("control_port_over_nl80211", bool_);
  ("userspace_handles_dfs", bool_); ("mcast_rate", CArray 6 c_int); ("ht_capa",
  ieee80211_ht_cap); ("ht_capa_mask", ieee80211_ht_cap); ("wep_keys", CPtr); ("wep_tx_key",
  c_int)].

Definition cfg80211_crypto_settings : ctype := CStruct 1 [("wpa_versions", u32_);
  ("cipher_group", u32_); ("n_ciphers_pairwise", c_int); ("ciphers_pairwise", CArray 5 u32_);
  ("n_akm_suites", c_int); ("akm_suites", CArray 10 u32_); ("control_port", bool_);
  ("control_port_ethertype", __be16); ("control_port_no_encrypt", bool_);
  ("control_port_over_nl80211", bool_); ("control_port_no_preauth", bool_); ("psk", CPtr);
  ("sae_pwd", CPtr); ("sae_pwd_len", u8_); ("sae_pwe", nl80211_sae_pwe_mechanism__Type)].

Definition ieee80211_vht_mcs_info : ctype := CStruct 1 [("rx_mcs_map", __le16); ("rx_highest",
  __le16); ("tx_mcs_map", __le16); ("tx_highest", __le16)].

Definition ieee80211_vht_cap : ctype := CStruct 1 [("vht_cap_info", __le32); ("supp_mcs",
  ieee80211_vht_mcs_info)].

Definition cfg80211_bss_select_adjust : ctype := CStruct 1 [("band", nl80211_band__Type);
  ("delta", s8)].

Definition cfg80211_bss_selection__bindgen_ty_1 : ctype := CUnion 1 [("band_pref",
  nl80211_band__Type); ("adjust", cfg80211_bss_select_adjust)].

Definition cfg80211_bss_selection : ctype := CStruct 1 [("behaviour",
  nl80211_bss_select_attr__Type); ("param", cfg80211_bss_selection__bindgen_ty_1)].

Definition cfg80211_connect_params : ctype := CStruct 1 [("channel", CPtr); ("channel_hint",
  CPtr); ("bssid", CPtr); ("bssid_hint", CPtr); ("ssid", CPtr); ("ssid_len", CU64);
  ("auth_type", nl80211_auth_type__Type); ("ie", CPtr); ("ie_len", CU64); ("privacy", bool_);
  ("mfp", nl80211_mfp__Type); ("crypto", cfg80211_crypto_settings); ("key", CPtr); ("key_len",
  u8_); ("key_idx", u8_); ("flags", u32_); ("bg_scan_period", c_int); ("ht_capa",
  ieee80211_ht_cap); ("ht_capa_mask", ieee80211_ht_cap); ("vht_capa", ieee80211_vht_cap);
  ("vht_capa_mask", ieee80211_vht_cap); ("pbss", bool_); ("bss_select", cfg80211_bss_selection);
  ("prev_bssid", CPtr); ("fils_erp_username", CPtr); ("fils_erp_username_len", CU64);
  ("fils_erp_realm", CPtr); ("fils_erp_realm_len", CU64); ("fils_erp_next_seq_num", u16_);
  ("fils_erp_rrk", CPtr); ("fils_erp_rrk_len", CU64); ("want_1x", bool_); ("edmg",
  ieee80211_edmg)].

Definition wireless_dev__bindgen_ty_1 : ctype := CStruct 1 [("ibss", cfg80211_ibss_params);
  ("connect", cfg80211_connect_params); ("keys", CPtr); ("ie", CPtr); ("ie_len", CU64);
  ("bssid", CArray 6 u8_); ("prev_bssid", CArray 6 u8_); ("ssid", CArray 32 u8_);
  ("default_key", s8); ("default_mgmt_key", s8); ("prev_bssid_valid", bool_)].

Definition wiphy_work_func_t : ctype := CPtr.

Definition wiphy_work : ctype := CStruct 1 [("entry", list_head); ("func", wiphy_work_func_t)].

Definition wireless_dev__bindgen_ty_2__bindgen_ty_1 : ctype := CStruct 1 [("connected_addr",
  CArray 6 u8_); ("ssid", CArray 32 u8_); ("ssid_len", u8_); ("__bindgen_padding_0", CU8)].

Definition wireless_dev__bindgen_ty_2__bindgen_ty_2 : ctype := CStruct 1 [("beacon_interval",
  c_int); ("preset_chandef", cfg80211_chan_def); ("chandef", cfg80211_chan_def); ("id", CArray
  32 u8_); ("id_len", u8_); ("id_up_len", u8_)].

Definition wireless_dev__bindgen_ty_2__bindgen_ty_3 : ctype := CStruct 1 [("preset_chandef",
  cfg80211_chan_def); ("ssid", CArray 32 u8_); ("ssid_len", u8_)].

Definition wireless_dev__bindgen_ty_2__bindgen_ty_4 : ctype := CStruct 1 [("current_bss", CPtr);
  ("chandef", cfg80211_chan_def); ("beacon_interval", c_int); ("ssid", CArray 32 u8_);
  ("ssid_len", u8_)].

Definition wireless_dev__bindgen_ty_2__bindgen_ty_5 : ctype := CStruct 1 [("chandef",
  cfg80211_chan_def)].

Definition wireless_dev__bindgen_ty_2__bindgen_ty_6 : ctype := CStruct 1 [("cluster_id", CArray
  6 u8_)].

Definition wireless_dev__bindgen_ty_2 : ctype := CUnion 1 [("client",
  wireless_dev__bindgen_ty_2__bindgen_ty_1); ("mesh", wireless_dev__bindgen_ty_2__bindgen_ty_2);
  ("ap", wireless_dev__bindgen_ty_2__bindgen_ty_3); ("ibss",
  wireless_dev__bindgen_ty_2__bindgen_ty_4); ("ocb", wireless_dev__bindgen_ty_2__bindgen_ty_5);
  ("nan", wireless_dev__bindgen_ty_2__bindgen_ty_6)].

Definition wireless_dev__bindgen_ty_3__bindgen_ty_1__bindgen_ty_1 : ctype := CStruct 1
  [("beacon_interval", c_uint); ("chandef", cfg80211_chan_def)].

Definition wireless_dev__bindgen_ty_3__bindgen_ty_1__bindgen_ty_2 : ctype := CStruct 1
  [("current_bss", CPtr)].

Definition wireless_dev__bindgen_ty_3__bindgen_ty_1 : ctype := CUnion 1 [("ap",
  wireless_dev__bindgen_ty_3__bindgen_ty_1__bindgen_ty_1); ("client",
  wireless_dev__bindgen_ty_3__bindgen_ty_1__bindgen_ty_2)].

Definition wireless_dev__bindgen_ty_3 : ctype := CStruct 1 [("addr", CArray 6 u8_);
  ("__bindgen_anon_1", wireless_dev__bindgen_ty_3__bindgen_ty_1); ("cac_started", bool_);
  ("cac_start_time", c_ulong); ("cac_time_ms", c_uint)].

Definition wireless_dev : ctype := CStruct 1 [("wiphy", CPtr); ("iftype", nl80211_iftype__Type);
  ("list", list_head); ("netdev", CPtr); ("identifier", u32_); ("mgmt_registrations",
  list_head); ("_bitfield_align_1", CArray 0 CU8); ("_bitfield_1", __BindgenBitfieldUnit 1);
  ("use_4addr", bool_); ("is_running", bool_); ("registered", bool_); ("registering", bool_);
  ("__bindgen_padding_0", CU8); ("address", CArray 6 u8_); ("conn", CPtr); ("connect_keys",
  CPtr); ("conn_bss_type", ieee80211_bss_type__Type); ("conn_owner_nlportid", u32_);
  ("disconnect_wk", work_struct); ("disconnect_bssid", CArray 6 u8_); ("event_list", list_head);
  ("event_lock", spinlock_t); ("_bitfield_align_2", CArray 0 CU8); ("_bitfield_2",
  __BindgenBitfieldUnit 1); ("ps", bool_); ("ps_timeout", c_int); ("ap_unexpected_nlportid",
  u32_); ("owner_nlportid", u32_); ("nl_owner_dead", bool_); ("wext",
  wireless_dev__bindgen_ty_1); ("cqm_rssi_work", wiphy_work); ("cqm_config", CPtr);
  ("pmsr_list", list_head); ("pmsr_lock", spinlock_t); ("pmsr_free_wk", work_struct);
  ("unprot_beacon_reported", c_ulong); ("u", wireless_dev__bindgen_ty_2); ("links", CArray 15
  wireless_dev__bindgen_ty_3); ("valid_links", u16_); ("radio_mask", u32_)].

Definition workqueue_struct : ctype := CStruct 1 [("pwqs", list_head); ("list", list_head);
  ("mutex", mutex); ("work_color", c_int); ("flush_color", c_int); ("nr_pwqs_to_flush",
  atomic_t); ("first_flusher", CPtr); ("flusher_queue", list_head); ("flusher_overflow",
  list_head); ("maydays", list_head); ("rescuer", CPtr); ("nr_drainers", c_int); ("max_active",
  c_int); ("min_active", c_int); ("saved_max_active", c_int); ("saved_min_active", c_int);
  ("unbound_attrs", CPtr); ("dfl_pwq", CPtr); ("wq_dev", CPtr); ("name", CArray 32 c_char);
  ("rcu", callback_head); ("_bitfield_align_1", CArray 0 CU8); ("_bitfield_1",
  __BindgenBitfieldUnit 16); ("flags", c_uint); ("cpu_pwq", CPtr); ("node_nr_active",
  __IncompleteArrayField CPtr); ("_bitfield_align_2", CArray 0 CU8); ("_bitfield_2",
  __BindgenBitfieldUnit 48)].

Definition folio_batch : ctype := CStruct 1 [("nr", c_uchar); ("i", c_uchar);
  ("percpu_pvec_drained", bool_); ("folios", CArray 31 CPtr)].

Definition writeback_control : ctype := CStruct 1 [("nr_to_write", c_long); ("pages_skipped",
  c_long); ("range_start", loff_t); ("range_end", loff_t); ("sync_mode",
  writeback_sync_modes__Type); ("_bitfield_align_1", CArray 0 CU8); ("_bitfield_1",
  __BindgenBitfieldUnit 1); ("fbatch", folio_batch); ("index", c_ulong); ("saved_err", c_int);
  ("wb", CPtr); ("inode", CPtr); ("wb_id", c_int); ("wb_lcand_id", c_int); ("wb_tcand_id",
  c_int); ("wb_bytes", CU64); ("wb_lcand_bytes", CU64); ("wb_tcand_bytes", CU64)].

Definition xdp_buff__bindgen_ty_1__bindgen_ty_1 : ctype := CStruct 1 [("frame_sz", u32_);
  ("flags", u32_)].

Definition xdp_buff__bindgen_ty_1 : ctype := CUnion 1 [("__bindgen_anon_1",
  xdp_buff__bindgen_ty_1__bindgen_ty_1); ("frame_sz_flags_init", u64_)].

Definition xdp_buff : ctype := CStruct 1 [("data", CPtr); ("data_end", CPtr); ("data_meta",
  CPtr); ("data_hard_start", CPtr); ("rxq", CPtr); ("txq", CPtr); ("__bindgen_anon_1",
  xdp_buff__bindgen_ty_1)].

Definition dma_addr_t : ctype := u64_.

Definition xdp_buff_xsk : ctype := CStruct 1 [("xdp", xdp_buff); ("cb", CArray 24 u8_); ("dma",
  dma_addr_t); ("frame_dma", dma_addr_t); ("pool", CPtr); ("list_node", list_head);
  ("_bitfield_align_1", CArray 0 CU8); ("_bitfield_1", __BindgenBitfieldUnit 8)].

Definition xdp_frame : ctype := CStruct 1 [("data", CPtr); ("len", u32_); ("headroom", u32_);
  ("metasize", u32_); ("_bitfield_align_1", CArray 0 CU32); ("_bitfield_1",
  __BindgenBitfieldUnit 4); ("dev_rx", CPtr); ("frame_sz", u32_); ("flags", u32_)].

Definition xfrm_dev_offload : ctype := CStruct 1 [("dev", CPtr); ("dev_tracker",
  netdevice_tracker); ("real_dev", CPtr); ("offload_handle", c_ulong); ("_bitfield_align_1",
  CArray 0 CU8); ("_bitfield_1", __BindgenBitfieldUnit 1); ("__bindgen_padding_0", CArray 7
  CU8)].

Definition xsk_buff_pool : ctype := CStruct 1 [("dev", CPtr); ("netdev", CPtr); ("xsk_tx_list",
  list_head); ("xsk_tx_list_lock", spinlock_t); ("users", refcount_t); ("umem", CPtr); ("work",
  work_struct); ("rx_lock", spinlock_t); ("free_list", list_head); ("xskb_list", list_head);
  ("heads_cnt", u32_); ("queue_id", u16_); ("fq", CPtr); ("cq", CPtr); ("dma_pages", CPtr);
  ("heads", CPtr); ("tx_descs", CPtr); ("chunk_mask", u64_); ("addrs_cnt", u64_);
  ("free_list_cnt", u32_); ("dma_pages_cnt", u32_); ("free_heads_cnt", u32_); ("headroom",
  u32_); ("chunk_size", u32_); ("chunk_shift", u32_); ("frame_len", u32_); ("xdp_zc_max_segs",
  u32_); ("tx_metadata_len", u8_); ("cached_need_wakeup", u8_); ("uses_need_wakeup", bool_);
  ("unaligned", bool_); ("tx_sw_csum", bool_); ("addrs", CPtr); ("cq_prod_lock", spinlock_t);
  ("free_heads", __IncompleteArrayField CPtr); ("_bitfield_align_1", CArray 0 CU8);
  ("_bitfield_1", __BindgenBitfieldUnit 16)].

(** The structures and unions above. *)
Definition kernel_types : list (string * ctype) := [
  ("sockptr_t__bindgen_ty_1", sockptr_t__bindgen_ty_1);
  ("sockptr_t", sockptr_t);
  ("hlist_node", hlist_node);
  ("atomic_t", atomic_t);
  ("refcount_struct", refcount_struct);
  ("sk_buff_head__bindgen_ty_1__bindgen_ty_1", sk_buff_head__bindgen_ty_1__bindgen_ty_1);
  ("sk_buff_list", sk_buff_list);
  ("sk_buff_head__bindgen_ty_1", sk_buff_head__bindgen_ty_1);
  ("qspinlock__bindgen_ty_1__bindgen_ty_1", qspinlock__bindgen_ty_1__bindgen_ty_1);
  ("qspinlock__bindgen_ty_1__bindgen_ty_2", qspinlock__bindgen_ty_1__bindgen_ty_2);
  ("qspinlock__bindgen_ty_1", qspinlock__bindgen_ty_1);
  ("qspinlock", qspinlock);
  ("raw_spinlock", raw_spinlock);
  ("spinlock__bindgen_ty_1", spinlock__bindgen_ty_1);
  ("spinlock", spinlock);
  ("sk_buff_head", sk_buff_head);
  ("qdisc_skb_head", qdisc_skb_head);
  ("atomic64_t", atomic64_t);
  ("local_t", local_t);
  ("local64_t", local64_t);
  ("u64_stats_t", u64_stats_t);
  ("u64_stats_sync", u64_stats_sync);
  ("gnet_stats_basic_sync", gnet_stats_basic_sync);
  ("gnet_stats_queue", gnet_stats_queue);
  ("llist_head", llist_head);
  ("callback_head", callback_head);
  ("netdevice_tracker", netdevice_tracker);
  ("lock_class_key", lock_class_key);
  ("Qdisc", Qdisc);
  ("list_head", list_head);
  ("kref", kref);
  ("kobject", kobject);
  ("pm_message", pm_message);
  ("swait_queue_head", swait_queue_head);
  ("completion", completion);
  ("rb_node", rb_node);
  ("timerqueue_node", timerqueue_node);
  ("hrtimer", hrtimer);
  ("work_struct", work_struct);
  ("wait_queue_head", wait_queue_head);
  ("dev_pm_info", dev_pm_info);
  ("device__bindgen_ty_1", device__bindgen_ty_1);
  ("optimistic_spin_queue", optimistic_spin_queue);
  ("mutex", mutex);
  ("dev_links_info", dev_links_info);
  ("dev_msi_info", dev_msi_info);
  ("dev_archdata", dev_archdata);
  ("device", device);
  ("fred_cs", fred_cs);
  ("fred_ss", fred_ss);
  ("static_key__bindgen_ty_1", static_key__bindgen_ty_1);
  ("static_key", static_key);
  ("static_key_true", static_key_true);
  ("static_key_false", static_key_false);
  ("_ddebug__bindgen_ty_1", _ddebug__bindgen_ty_1);
  ("_ddebug", _ddebug);
  ("x86_msi_addr_lo__bindgen_ty_1__bindgen_ty_1", x86_msi_addr_lo__bindgen_ty_1__bindgen_ty_1);
  ("x86_msi_addr_lo__bindgen_ty_1__bindgen_ty_2", x86_msi_addr_lo__bindgen_ty_1__bindgen_ty_2);
  ("x86_msi_addr_hi", x86_msi_addr_hi);
  ("x86_msi_data__bindgen_ty_1__bindgen_ty_1", x86_msi_data__bindgen_ty_1__bindgen_ty_1);
  ("blk_flush_queue", blk_flush_queue);
  ("blk_mq_ctx__bindgen_ty_1", blk_mq_ctx__bindgen_ty_1);
  ("blk_mq_ctx", blk_mq_ctx);
  ("blk_mq_hw_ctx__bindgen_ty_1", blk_mq_hw_ctx__bindgen_ty_1);
  ("timer_list", timer_list);
  ("delayed_work", delayed_work);
  ("sbitmap", sbitmap);
  ("wait_queue_entry", wait_queue_entry);
  ("blk_mq_hw_ctx", blk_mq_hw_ctx);
  ("sk_buff__bindgen_ty_1__bindgen_ty_1__bindgen_ty_1", sk_buff__bindgen_ty_1__bindgen_ty_1__bindgen_ty_1);
  ("sk_buff__bindgen_ty_1__bindgen_ty_1", sk_buff__bindgen_ty_1__bindgen_ty_1);
  ("llist_node", llist_node);
  ("sk_buff__bindgen_ty_1", sk_buff__bindgen_ty_1);
  ("sk_buff__bindgen_ty_2", sk_buff__bindgen_ty_2);
  ("sk_buff__bindgen_ty_3__bindgen_ty_1", sk_buff__bindgen_ty_3__bindgen_ty_1);
  ("sk_buff__bindgen_ty_3", sk_buff__bindgen_ty_3);
  ("sk_buff__bindgen_ty_4__bindgen_ty_1__bindgen_ty_1__bindgen_ty_1", sk_buff__bindgen_ty_4__bindgen_ty_1__bindgen_ty_1__bindgen_ty_1);
  ("sk_buff__bindgen_ty_4__bindgen_ty_1__bindgen_ty_1", sk_buff__bindgen_ty_4__bindgen_ty_1__bindgen_ty_1);
  ("sk_buff__bindgen_ty_4__bindgen_ty_1__bindgen_ty_2__bindgen_ty_1", sk_buff__bindgen_ty_4__bindgen_ty_1__bindgen_ty_2__bindgen_ty_1);
  ("sk_buff__bindgen_ty_4__bindgen_ty_1__bindgen_ty_2", sk_buff__bindgen_ty_4__bindgen_ty_1__bindgen_ty_2);
  ("sk_buff__bindgen_ty_4__bindgen_ty_1__bindgen_ty_3", sk_buff__bindgen_ty_4__bindgen_ty_1__bindgen_ty_3);
  ("sk_buff__bindgen_ty_4__bindgen_ty_1__bindgen_ty_4", sk_buff__bindgen_ty_4__bindgen_ty_1__bindgen_ty_4);
  ("sk_buff__bindgen_ty_4__bindgen_ty_1__bindgen_ty_5", sk_buff__bindgen_ty_4__bindgen_ty_1__bindgen_ty_5);
  ("sk_buff__bindgen_ty_4__bindgen_ty_1", sk_buff__bindgen_ty_4__bindgen_ty_1);
  ("sk_buff__bindgen_ty_4__bindgen_ty_2__bindgen_ty_1__bindgen_ty_1", sk_buff__bindgen_ty_4__bindgen_ty_2__bindgen_ty_1__bindgen_ty_1);
  ("sk_buff__bindgen_ty_4__bindgen_ty_2__bindgen_ty_1", sk_buff__bindgen_ty_4__bindgen_ty_2__bindgen_ty_1);
  ("sk_buff__bindgen_ty_4__bindgen_ty_2__bindgen_ty_2__bindgen_ty_1", sk_buff__bindgen_ty_4__bindgen_ty_2__bindgen_ty_2__bindgen_ty_1);
  ("sk_buff__bindgen_ty_4__bindgen_ty_2__bindgen_ty_2", sk_buff__bindgen_ty_4__bindgen_ty_2__bindgen_ty_2);
  ("sk_buff__bindgen_ty_4__bindgen_ty_2__bindgen_ty_3", sk_buff__bindgen_ty_4__bindgen_ty_2__bindgen_ty_3);
  ("sk_buff__bindgen_ty_4__bindgen_ty_2__bindgen_ty_4", sk_buff__bindgen_ty_4__bindgen_ty_2__bindgen_ty_4);
  ("sk_buff__bindgen_ty_4__bindgen_ty_2__bindgen_ty_5", sk_buff__bindgen_ty_4__bindgen_ty_2__bindgen_ty_5);
  ("sk_buff__bindgen_ty_4__bindgen_ty_2", sk_buff__bindgen_ty_4__bindgen_ty_2);
  ("sk_buff__bindgen_ty_4", sk_buff__bindgen_ty_4);
  ("sk_buff", sk_buff);
  ("sock_common__bindgen_ty_1__bindgen_ty_1", sock_common__bindgen_ty_1__bindgen_ty_1);
  ("sock_common__bindgen_ty_1", sock_common__bindgen_ty_1);
  ("sock_common__bindgen_ty_2", sock_common__bindgen_ty_2);
  ("sock_common__bindgen_ty_3__bindgen_ty_1", sock_common__bindgen_ty_3__bindgen_ty_1);
  ("sock_common__bindgen_ty_3", sock_common__bindgen_ty_3);
  ("sock_common__bindgen_ty_4", sock_common__bindgen_ty_4);
  ("possible_net_t", possible_net_t);
  ("in6_addr__bindgen_ty_1", in6_addr__bindgen_ty_1);
  ("in6_addr", in6_addr);
  ("sock_common__bindgen_ty_5", sock_common__bindgen_ty_5);
  ("hlist_nulls_node", hlist_nulls_node);
  ("sock_common__bindgen_ty_6", sock_common__bindgen_ty_6);
  ("sock_common__bindgen_ty_7", sock_common__bindgen_ty_7);
  ("sock_common__bindgen_ty_8", sock_common__bindgen_ty_8);
  ("sock_common", sock_common);
  ("sock__bindgen_ty_1", sock__bindgen_ty_1);
  ("sock__bindgen_ty_2", sock__bindgen_ty_2);
  ("socket_lock_t", socket_lock_t);
  ("rb_root", rb_root);
  ("sock__bindgen_ty_3", sock__bindgen_ty_3);
  ("page_frag", page_frag);
  ("sock__bindgen_ty_4", sock__bindgen_ty_4);
  ("kuid_t", kuid_t);
  ("qrwlock__bindgen_ty_1__bindgen_ty_1", qrwlock__bindgen_ty_1__bindgen_ty_1);
  ("qrwlock__bindgen_ty_1", qrwlock__bindgen_ty_1);
  ("qrwlock", qrwlock);
  ("rwlock", rwlock);
  ("sock__bindgen_ty_5__bindgen_ty_1", sock__bindgen_ty_5__bindgen_ty_1);
  ("sock__bindgen_ty_5", sock__bindgen_ty_5);
  ("sock_cgroup_data", sock_cgroup_data);
  ("freeptr_t", freeptr_t);
  ("sock__bindgen_ty_6", sock__bindgen_ty_6);
  ("netns_tracker", netns_tracker);
  ("xarray", xarray);
  ("sock", sock);
  ("bpf_func_info_aux", bpf_func_info_aux);
  ("bpf_reg_state__bindgen_ty_1__bindgen_ty_5", bpf_reg_state__bindgen_ty_1__bindgen_ty_5);
  ("bpf_insn", bpf_insn);
  ("bpf_loop_inline_state", bpf_loop_inline_state);
  ("bpf_map_ptr_state", bpf_map_ptr_state);
  ("bpf_insn_aux_data__bindgen_ty_1__bindgen_ty_1", bpf_insn_aux_data__bindgen_ty_1__bindgen_ty_1);
  ("bpf_insn_aux_data__bindgen_ty_1__bindgen_ty_2__bindgen_ty_1__bindgen_ty_1", bpf_insn_aux_data__bindgen_ty_1__bindgen_ty_2__bindgen_ty_1__bindgen_ty_1);
  ("bpf_insn_aux_data__bindgen_ty_1__bindgen_ty_2__bindgen_ty_1", bpf_insn_aux_data__bindgen_ty_1__bindgen_ty_2__bindgen_ty_1);
  ("bpf_insn_aux_data__bindgen_ty_1__bindgen_ty_2", bpf_insn_aux_data__bindgen_ty_1__bindgen_ty_2);
  ("bpf_insn_aux_data__bindgen_ty_1", bpf_insn_aux_data__bindgen_ty_1);
  ("bpf_insn_aux_data__bindgen_ty_2", bpf_insn_aux_data__bindgen_ty_2);
  ("bpf_insn_aux_data", bpf_insn_aux_data);
  ("bpf_jmp_history_entry", bpf_jmp_history_entry);
  ("bpf_prog__bindgen_ty_1", bpf_prog__bindgen_ty_1);
  ("bpf_prog__bindgen_ty_2__bindgen_ty_1__bindgen_ty_1", bpf_prog__bindgen_ty_2__bindgen_ty_1__bindgen_ty_1);
  ("sock_filter", sock_filter);
  ("bpf_prog__bindgen_ty_2__bindgen_ty_1", bpf_prog__bindgen_ty_2__bindgen_ty_1);
  ("bpf_prog__bindgen_ty_2__bindgen_ty_2__bindgen_ty_1", bpf_prog__bindgen_ty_2__bindgen_ty_2__bindgen_ty_1);
  ("bpf_prog__bindgen_ty_2__bindgen_ty_2", bpf_prog__bindgen_ty_2__bindgen_ty_2);
  ("bpf_prog__bindgen_ty_2", bpf_prog__bindgen_ty_2);
  ("bpf_prog", bpf_prog);
  ("bpf_prog_stats", bpf_prog_stats);
  ("bpf_raw_event_map", bpf_raw_event_map);
  ("bpf_subprog_arg_info__bindgen_ty_1", bpf_subprog_arg_info__bindgen_ty_1);
  ("bpf_subprog_arg_info", bpf_subprog_arg_info);
  ("bpf_subprog_info", bpf_subprog_info);
  ("perf_mem_data_src__bindgen_ty_1", perf_mem_data_src__bindgen_ty_1);
  ("perf_sample_data__bindgen_ty_1", perf_sample_data__bindgen_ty_1);
  ("perf_sample_data__bindgen_ty_2", perf_sample_data__bindgen_ty_2);
  ("perf_sample_weight__bindgen_ty_1", perf_sample_weight__bindgen_ty_1);
  ("perf_sample_weight", perf_sample_weight);
  ("perf_mem_data_src", perf_mem_data_src);
  ("perf_regs", perf_regs);
  ("perf_sample_data", perf_sample_data);
  ("perf_output_handle__bindgen_ty_1__bindgen_ty_1", perf_output_handle__bindgen_ty_1__bindgen_ty_1);
  ("lockdep_map", lockdep_map);
  ("bucket_table", bucket_table);
  ("buffer_page", buffer_page);
  ("cdrom_device_info", cdrom_device_info);
  ("cfg80211_pmsr_capabilities__bindgen_ty_1", cfg80211_pmsr_capabilities__bindgen_ty_1);
  ("cfg80211_pmsr_capabilities", cfg80211_pmsr_capabilities);
  ("load_weight", load_weight);
  ("rb_root_cached", rb_root_cached);
  ("sched_avg", sched_avg);
  ("cfs_rq__bindgen_ty_1", cfs_rq__bindgen_ty_1);
  ("cfs_rq", cfs_rq);
  ("percpu_ref", percpu_ref);
  ("rcu_work", rcu_work);
  ("cgroup_subsys_state", cgroup_subsys_state);
  ("cgroup_file", cgroup_file);
  ("cacheline_padding", cacheline_padding);
  ("task_cputime", task_cputime);
  ("cgroup_base_stat", cgroup_base_stat);
  ("prev_cputime", prev_cputime);
  ("hlist_head", hlist_head);
  ("cgroup_bpf", cgroup_bpf);
  ("seqcount", seqcount);
  ("seqcount_spinlock", seqcount_spinlock);
  ("cgroup_freezer_state", cgroup_freezer_state);
  ("cgroup__bindgen_ty_1__bindgen_ty_1__bindgen_ty_1", cgroup__bindgen_ty_1__bindgen_ty_1__bindgen_ty_1);
  ("cgroup__bindgen_ty_1__bindgen_ty_1", cgroup__bindgen_ty_1__bindgen_ty_1);
  ("cgroup__bindgen_ty_1__bindgen_ty_2__bindgen_ty_1__bindgen_ty_1", cgroup__bindgen_ty_1__bindgen_ty_2__bindgen_ty_1__bindgen_ty_1);
  ("cgroup__bindgen_ty_1__bindgen_ty_2__bindgen_ty_1", cgroup__bindgen_ty_1__bindgen_ty_2__bindgen_ty_1);
  ("cgroup__bindgen_ty_1__bindgen_ty_2", cgroup__bindgen_ty_1__bindgen_ty_2);
  ("cgroup__bindgen_ty_1", cgroup__bindgen_ty_1);
  ("cgroup", cgroup);
  ("cgroup_root", cgroup_root);
  ("idr", idr);
  ("cgroup_subsys", cgroup_subsys);
  ("ethhdr", ethhdr);
  ("perf_branch_entry", perf_branch_entry);
  ("cpuidle_state_usage", cpuidle_state_usage);
  ("cpuidle_device", cpuidle_device);
  ("cpuidle_state", cpuidle_state);
  ("cpuidle_driver", cpuidle_driver);
  ("tty_buffer__bindgen_ty_1", tty_buffer__bindgen_ty_1);
  ("tty_buffer", tty_buffer);
  ("tty_bufhead", tty_bufhead);
  ("__kfifo", __kfifo);
  ("tty_port__bindgen_ty_1__bindgen_ty_1", tty_port__bindgen_ty_1__bindgen_ty_1);
  ("tty_port__bindgen_ty_1", tty_port__bindgen_ty_1);
  ("tty_port", tty_port);
  ("dentry_operations", dentry_operations);
  ("desc_struct", desc_struct);
  ("dev_iommu", dev_iommu);
  ("klist", klist);
  ("klist_node", klist_node);
  ("driver_type", driver_type);
  ("device_private", device_private);
  ("devlink_dev_stats", devlink_dev_stats);
  ("devlink", devlink);
  ("devlink_port_pci_pf_attrs", devlink_port_pci_pf_attrs);
  ("devlink_port_pci_vf_attrs", devlink_port_pci_vf_attrs);
  ("devlink_port_pci_sf_attrs", devlink_port_pci_sf_attrs);
  ("netdev_phys_item_id", netdev_phys_item_id);
  ("devlink_port_phys_attrs", devlink_port_phys_attrs);
  ("devlink_port_attrs__bindgen_ty_1", devlink_port_attrs__bindgen_ty_1);
  ("devlink_port_attrs", devlink_port_attrs);
  ("devlink_port__bindgen_ty_1__bindgen_ty_1", devlink_port__bindgen_ty_1__bindgen_ty_1);
  ("devlink_port__bindgen_ty_1__bindgen_ty_2", devlink_port__bindgen_ty_1__bindgen_ty_2);
  ("devlink_port__bindgen_ty_1", devlink_port__bindgen_ty_1);
  ("devlink_port", devlink_port);
  ("devlink_port_new_attrs", devlink_port_new_attrs);
  ("page_counter", page_counter);
  ("dql", dql);
  ("dsa_port__bindgen_ty_1", dsa_port__bindgen_ty_1);
  ("phylink_config", phylink_config);
  ("dsa_port__bindgen_ty_3", dsa_port__bindgen_ty_3);
  ("dsa_port", dsa_port);
  ("notifier_block", notifier_block);
  ("dsa_switch", dsa_switch);
  ("percpu_counter", percpu_counter);
  ("dst_ops", dst_ops);
  ("strp_stats", strp_stats);
  ("strp_callbacks", strp_callbacks);
  ("strparser", strparser);
  ("ethtool_netdev_state", ethtool_netdev_state);
  ("ethtool_ops", ethtool_ops);
  ("ethtool_rxfh_context", ethtool_rxfh_context);
  ("eventfs_inode__bindgen_ty_1", eventfs_inode__bindgen_ty_1);
  ("kgid_t", kgid_t);
  ("eventfs_attr", eventfs_attr);
  ("eventfs_inode", eventfs_inode);
  ("fib6_info__bindgen_ty_1", fib6_info__bindgen_ty_1);
  ("rt6key", rt6key);
  ("fib_nh_common__bindgen_ty_1", fib_nh_common__bindgen_ty_1);
  ("fib_nh_common", fib_nh_common);
  ("fib6_nh", fib6_nh);
  ("fib6_info", fib6_info);
  ("file_kattr", file_kattr);
  ("fdtable", fdtable);
  ("files_struct", files_struct);
  ("regulator_state", regulator_state);
  ("notification_limit", notification_limit);
  ("regulation_constraints", regulation_constraints);
  ("rhashtable_params", rhashtable_params);
  ("rhashtable", rhashtable);
  ("fqdir", fqdir);
  ("p_log", p_log);
  ("fs_context", fs_context);
  ("fs_parameter__bindgen_ty_1", fs_parameter__bindgen_ty_1);
  ("fs_parameter", fs_parameter);
  ("fscrypt_operations", fscrypt_operations);
  ("ftrace_event_field", ftrace_event_field);
  ("plist_head", plist_head);
  ("futex_hash_bucket", futex_hash_bucket);
  ("futex_private_hash", futex_private_hash);
  ("ioapic_alloc_info", ioapic_alloc_info);
  ("seqcount_raw_spinlock", seqcount_raw_spinlock);
  ("timerqueue_head", timerqueue_head);
  ("hrtimer_clock_base", hrtimer_clock_base);
  ("__call_single_node__bindgen_ty_1", __call_single_node__bindgen_ty_1);
  ("__call_single_node", __call_single_node);
  ("__call_single_data", __call_single_data);
  ("hrtimer_cpu_base", hrtimer_cpu_base);
  ("rdma_restrack_entry", rdma_restrack_entry);
  ("irq_poll", irq_poll);
  ("ib_cq__bindgen_ty_1", ib_cq__bindgen_ty_1);
  ("ib_cq", ib_cq);
  ("ib_device_ops", ib_device_ops);
  ("rw_semaphore", rw_semaphore);
  ("ib_core_device", ib_core_device);
  ("ib_device__bindgen_ty_1", ib_device__bindgen_ty_1);
  ("ib_odp_caps__bindgen_ty_1", ib_odp_caps__bindgen_ty_1);
  ("ib_odp_caps", ib_odp_caps);
  ("ib_rss_caps", ib_rss_caps);
  ("ib_tm_caps", ib_tm_caps);
  ("ib_cq_caps", ib_cq_caps);
  ("ib_device_attr", ib_device_attr);
  ("rdmacg_device", rdmacg_device);
  ("ib_device", ib_device);
  ("ib_port_attr", ib_port_attr);
  ("ip_options", ip_options);
  ("inet6_cork", inet6_cork);
  ("inet_cork", inet_cork);
  ("flowi_tunnel", flowi_tunnel);
  ("flowi_common", flowi_common);
  ("flowi_uli__bindgen_ty_1", flowi_uli__bindgen_ty_1);
  ("flowi_uli__bindgen_ty_2", flowi_uli__bindgen_ty_2);
  ("flowi_uli__bindgen_ty_3", flowi_uli__bindgen_ty_3);
  ("flowi_uli", flowi_uli);
  ("flowi4", flowi4);
  ("flowi6", flowi6);
  ("flowi__bindgen_ty_1", flowi__bindgen_ty_1);
  ("flowi", flowi);
  ("inet_cork_full", inet_cork_full);
  ("inet_sock", inet_sock);
  ("fastopen_queue", fastopen_queue);
  ("request_sock_queue", request_sock_queue);
  ("inet_connection_sock__bindgen_ty_1", inet_connection_sock__bindgen_ty_1);
  ("inet_connection_sock__bindgen_ty_2", inet_connection_sock__bindgen_ty_2);
  ("inet_connection_sock__bindgen_ty_3", inet_connection_sock__bindgen_ty_3);
  ("inet_connection_sock", inet_connection_sock);
  ("request_sock", request_sock);
  ("inet_request_sock__bindgen_ty_1__bindgen_ty_1", inet_request_sock__bindgen_ty_1__bindgen_ty_1);
  ("inet_request_sock__bindgen_ty_1", inet_request_sock__bindgen_ty_1);
  ("inet_request_sock", inet_request_sock);
  ("iovec", iovec);
  ("iov_iter__bindgen_ty_1__bindgen_ty_1__bindgen_ty_1", iov_iter__bindgen_ty_1__bindgen_ty_1__bindgen_ty_1);
  ("iov_iter__bindgen_ty_1__bindgen_ty_1", iov_iter__bindgen_ty_1__bindgen_ty_1);
  ("iov_iter__bindgen_ty_1", iov_iter__bindgen_ty_1);
  ("iov_iter__bindgen_ty_2", iov_iter__bindgen_ty_2);
  ("iov_iter", iov_iter);
  ("msghdr__bindgen_ty_1", msghdr__bindgen_ty_1);
  ("msghdr", msghdr);
  ("io_ring_ctx__bindgen_ty_1", io_ring_ctx__bindgen_ty_1);
  ("io_rsrc_data", io_rsrc_data);
  ("io_file_table", io_file_table);
  ("io_alloc_cache", io_alloc_cache);
  ("io_wq_work_node", io_wq_work_node);
  ("io_wq_work_list", io_wq_work_list);
  ("io_submit_link", io_submit_link);
  ("rq_list", rq_list);
  ("blk_plug", blk_plug);
  ("io_submit_state", io_submit_state);
  ("io_hash_table", io_hash_table);
  ("io_ring_ctx__bindgen_ty_2", io_ring_ctx__bindgen_ty_2);
  ("io_ring_ctx__bindgen_ty_3", io_ring_ctx__bindgen_ty_3);
  ("io_ring_ctx__bindgen_ty_5", io_ring_ctx__bindgen_ty_5);
  ("io_uring", io_uring);
  ("io_uring_cqe", io_uring_cqe);
  ("io_rings", io_rings);
  ("io_uring_task__bindgen_ty_1", io_uring_task__bindgen_ty_1);
  ("io_uring_task", io_uring_task);
  ("iommu_ops", iommu_ops);
  ("iommufd_access_ops", iommufd_access_ops);
  ("iommufd_object", iommufd_object);
  ("iommufd_hw_pagetable", iommufd_hw_pagetable);
  ("iommufd_sw_msi_maps", iommufd_sw_msi_maps);
  ("iommufd_hwpt_paging", iommufd_hwpt_paging);
  ("iphdr__bindgen_ty_1__bindgen_ty_1", iphdr__bindgen_ty_1__bindgen_ty_1);
  ("iphdr__bindgen_ty_1__bindgen_ty_2", iphdr__bindgen_ty_1__bindgen_ty_2);
  ("iphdr__bindgen_ty_1", iphdr__bindgen_ty_1);
  ("iphdr", iphdr);
  ("ipc_ids", ipc_ids);
  ("ctl_table_header__bindgen_ty_1__bindgen_ty_1", ctl_table_header__bindgen_ty_1__bindgen_ty_1);
  ("ctl_table_header__bindgen_ty_1", ctl_table_header__bindgen_ty_1);
  ("ctl_table_header", ctl_table_header);
  ("ctl_dir", ctl_dir);
  ("ctl_table_set", ctl_table_set);
  ("ns_common__bindgen_ty_1", ns_common__bindgen_ty_1);
  ("ns_common__bindgen_ty_2", ns_common__bindgen_ty_2);
  ("ns_common", ns_common);
  ("ipc_namespace", ipc_namespace);
  ("ipv6_pinfo__bindgen_ty_2__bindgen_ty_1", ipv6_pinfo__bindgen_ty_2__bindgen_ty_1);
  ("cpumask", cpumask);
  ("irq_affinity_desc", irq_affinity_desc);
  ("irqaction__bindgen_ty_1", irqaction__bindgen_ty_1);
  ("irqaction", irqaction);
  ("kernel_pkey_params__bindgen_ty_1", kernel_pkey_params__bindgen_ty_1);
  ("kernel_pkey_params", kernel_pkey_params);
  ("kernfs_open_file", kernfs_open_file);
  ("kioctx__bindgen_ty_1", kioctx__bindgen_ty_1);
  ("kioctx__bindgen_ty_2", kioctx__bindgen_ty_2);
  ("kioctx__bindgen_ty_3", kioctx__bindgen_ty_3);
  ("kioctx__bindgen_ty_4", kioctx__bindgen_ty_4);
  ("kioctx", kioctx);
  ("rlimit", rlimit);
  ("linux_binprm", linux_binprm);
  ("list_lru_one", list_lru_one);
  ("list_lru_node", list_lru_node);
  ("lru_gen_folio", lru_gen_folio);
  ("lru_gen_mm_state", lru_gen_mm_state);
  ("zswap_lruvec_state", zswap_lruvec_state);
  ("lruvec", lruvec);
  ("mem_cgroup_reclaim_iter", mem_cgroup_reclaim_iter);
  ("mem_cgroup_per_node", mem_cgroup_per_node);
  ("memcg_vmstats_percpu", memcg_vmstats_percpu);
  ("mm_struct__bindgen_ty_1__bindgen_ty_1", mm_struct__bindgen_ty_1__bindgen_ty_1);
  ("maple_tree__bindgen_ty_1", maple_tree__bindgen_ty_1);
  ("maple_tree", maple_tree);
  ("rcuwait", rcuwait);
  ("irq_work", irq_work);
  ("mm_mm_cid", mm_mm_cid);
  ("mm_context_t", mm_context_t);
  ("mm_flags_t", mm_flags_t);
  ("uprobes_state", uprobes_state);
  ("mm_struct__bindgen_ty_1__bindgen_ty_2", mm_struct__bindgen_ty_1__bindgen_ty_2);
  ("mm_struct__bindgen_ty_1", mm_struct__bindgen_ty_1);
  ("pgprot", pgprot);
  ("mmap_action__bindgen_ty_1__bindgen_ty_1", mmap_action__bindgen_ty_1__bindgen_ty_1);
  ("mmap_action__bindgen_ty_1", mmap_action__bindgen_ty_1);
  ("mmap_action", mmap_action);
  ("mnt_namespace__bindgen_ty_1", mnt_namespace__bindgen_ty_1);
  ("mnt_namespace", mnt_namespace);
  ("module_kobject", module_kobject);
  ("latch_tree_node", latch_tree_node);
  ("mod_tree_node", mod_tree_node);
  ("module_memory", module_memory);
  ("its_array", its_array);
  ("mod_arch_specific", mod_arch_specific);
  ("mod_kallsyms", mod_kallsyms);
  ("_ddebug_info", _ddebug_info);
  ("module", module);
  ("pci_msi_desc__bindgen_ty_2", pci_msi_desc__bindgen_ty_2);
  ("netns_sysctl_ipv6", netns_sysctl_ipv6);
  ("netns_ipv6__bindgen_ty_1", netns_ipv6__bindgen_ty_1);
  ("netns_ipv6", netns_ipv6);
  ("ref_tracker_dir", ref_tracker_dir);
  ("raw_notifier_head", raw_notifier_head);
  ("netns_core", netns_core);
  ("netns_mib", netns_mib);
  ("netns_packet", netns_packet);
  ("unix_table", unix_table);
  ("netns_unix", netns_unix);
  ("blocking_notifier_head", blocking_notifier_head);
  ("netns_nexthop", netns_nexthop);
  ("netns_ipv4__bindgen_ty_1", netns_ipv4__bindgen_ty_1);
  ("inet_timewait_death_row", inet_timewait_death_row);
  ("udp_tunnel_gro", udp_tunnel_gro);
  ("local_ports", local_ports);
  ("seqlock", seqlock);
  ("ping_group_range", ping_group_range);
  ("sysctl_fib_multipath_hash_seed", sysctl_fib_multipath_hash_seed);
  ("siphash_key_t", siphash_key_t);
  ("netns_ipv4", netns_ipv4);
  ("netns_sysctl_lowpan", netns_sysctl_lowpan);
  ("netns_ieee802154_lowpan", netns_ieee802154_lowpan);
  ("netns_sctp", netns_sctp);
  ("netns_nf", netns_nf);
  ("nf_generic_net", nf_generic_net);
  ("nf_tcp_net", nf_tcp_net);
  ("nf_udp_net", nf_udp_net);
  ("nf_icmp_net", nf_icmp_net);
  ("nf_sctp_net", nf_sctp_net);
  ("nf_gre_net", nf_gre_net);
  ("nf_ip_net", nf_ip_net);
  ("netns_ct", netns_ct);
  ("netns_nftables", netns_nftables);
  ("netns_ft", netns_ft);
  ("netns_bpf", netns_bpf);
  ("xfrm_policy_hash", xfrm_policy_hash);
  ("xfrm_policy_hthresh", xfrm_policy_hthresh);
  ("netns_xfrm", netns_xfrm);
  ("seqcount_mutex", seqcount_mutex);
  ("netns_mpls", netns_mpls);
  ("netns_can", netns_can);
  ("netns_xdp", netns_xdp);
  ("netns_mctp", netns_mctp);
  ("netns_smc", netns_smc);
  ("netns_vsock", netns_vsock);
  ("net", net);
  ("dst_entry__bindgen_ty_1", dst_entry__bindgen_ty_1);
  ("rcuref_t", rcuref_t);
  ("dst_entry", dst_entry);
  ("rtable__bindgen_ty_1", rtable__bindgen_ty_1);
  ("rtable", rtable);
  ("net_device__bindgen_ty_1__bindgen_ty_1", net_device__bindgen_ty_1__bindgen_ty_1);
  ("net_device__bindgen_ty_1__bindgen_ty_2", net_device__bindgen_ty_1__bindgen_ty_2);
  ("net_device__bindgen_ty_1", net_device__bindgen_ty_1);
  ("netdev_tc_txq", netdev_tc_txq);
  ("net_device__bindgen_ty_2", net_device__bindgen_ty_2);
  ("net_device__bindgen_ty_3", net_device__bindgen_ty_3);
  ("net_device_stats__bindgen_ty_1", net_device_stats__bindgen_ty_1);
  ("net_device_stats__bindgen_ty_2", net_device_stats__bindgen_ty_2);
  ("net_device_stats__bindgen_ty_3", net_device_stats__bindgen_ty_3);
  ("net_device_stats__bindgen_ty_4", net_device_stats__bindgen_ty_4);
  ("net_device_stats__bindgen_ty_5", net_device_stats__bindgen_ty_5);
  ("net_device_stats__bindgen_ty_6", net_device_stats__bindgen_ty_6);
  ("net_device_stats__bindgen_ty_7", net_device_stats__bindgen_ty_7);
  ("net_device_stats__bindgen_ty_8", net_device_stats__bindgen_ty_8);
  ("net_device_stats__bindgen_ty_9", net_device_stats__bindgen_ty_9);
  ("net_device_stats__bindgen_ty_10", net_device_stats__bindgen_ty_10);
  ("net_device_stats__bindgen_ty_11", net_device_stats__bindgen_ty_11);
  ("net_device_stats__bindgen_ty_12", net_device_stats__bindgen_ty_12);
  ("net_device_stats__bindgen_ty_13", net_device_stats__bindgen_ty_13);
  ("net_device_stats__bindgen_ty_14", net_device_stats__bindgen_ty_14);
  ("net_device_stats__bindgen_ty_15", net_device_stats__bindgen_ty_15);
  ("net_device_stats__bindgen_ty_16", net_device_stats__bindgen_ty_16);
  ("net_device_stats__bindgen_ty_17", net_device_stats__bindgen_ty_17);
  ("net_device_stats__bindgen_ty_18", net_device_stats__bindgen_ty_18);
  ("net_device_stats__bindgen_ty_19", net_device_stats__bindgen_ty_19);
  ("net_device_stats__bindgen_ty_20", net_device_stats__bindgen_ty_20);
  ("net_device_stats__bindgen_ty_21", net_device_stats__bindgen_ty_21);
  ("net_device_stats__bindgen_ty_22", net_device_stats__bindgen_ty_22);
  ("net_device_stats__bindgen_ty_23", net_device_stats__bindgen_ty_23);
  ("net_device_stats", net_device_stats);
  ("netdev_hw_addr_list", netdev_hw_addr_list);
  ("bpf_xdp_entity", bpf_xdp_entity);
  ("net_device", net_device);
  ("netdev_queue", netdev_queue);
  ("xdp_mem_info", xdp_mem_info);
  ("xdp_rxq_info", xdp_rxq_info);
  ("nfs4_sequence_args", nfs4_sequence_args);
  ("__kernel_sockaddr_storage__bindgen_ty_1__bindgen_ty_1", __kernel_sockaddr_storage__bindgen_ty_1__bindgen_ty_1);
  ("__kernel_sockaddr_storage__bindgen_ty_1", __kernel_sockaddr_storage__bindgen_ty_1);
  ("__kernel_sockaddr_storage", __kernel_sockaddr_storage);
  ("xprtsec_parms", xprtsec_parms);
  ("nfs4_verifier", nfs4_verifier);
  ("rpc_timer", rpc_timer);
  ("rpc_wait_queue", rpc_wait_queue);
  ("timespec64", timespec64);
  ("uuid_t", uuid_t);
  ("nfs_uuid_t", nfs_uuid_t);
  ("nfs_client", nfs_client);
  ("rpc_wait", rpc_wait);
  ("rpc_task__bindgen_ty_1", rpc_task__bindgen_ty_1);
  ("rpc_message", rpc_message);
  ("rpc_task", rpc_task);
  ("orc_entry", orc_entry);
  ("page_pool_params_fast", page_pool_params_fast);
  ("page_pool__bindgen_ty_1", page_pool__bindgen_ty_1);
  ("page_pool_alloc_stats", page_pool_alloc_stats);
  ("pp_alloc_cache", pp_alloc_cache);
  ("ptr_ring", ptr_ring);
  ("page_pool_params_slow", page_pool_params_slow);
  ("page_pool__bindgen_ty_2", page_pool__bindgen_ty_2);
  ("page_pool", page_pool);
  ("pcpu_dstats", pcpu_dstats);
  ("percpu_ref_data", percpu_ref_data);
  ("perf_event_pmu_context", perf_event_pmu_context);
  ("perf_event_attr__bindgen_ty_1", perf_event_attr__bindgen_ty_1);
  ("perf_event_attr__bindgen_ty_2", perf_event_attr__bindgen_ty_2);
  ("perf_event_attr__bindgen_ty_3", perf_event_attr__bindgen_ty_3);
  ("perf_event_attr__bindgen_ty_4", perf_event_attr__bindgen_ty_4);
  ("perf_event_attr__bindgen_ty_5__bindgen_ty_1", perf_event_attr__bindgen_ty_5__bindgen_ty_1);
  ("perf_event_attr__bindgen_ty_5", perf_event_attr__bindgen_ty_5);
  ("perf_event_attr", perf_event_attr);
  ("perf_event_mmap_page__bindgen_ty_1__bindgen_ty_1", perf_event_mmap_page__bindgen_ty_1__bindgen_ty_1);
  ("free_area", free_area);
  ("zone", zone);
  ("zoneref", zoneref);
  ("zonelist", zonelist);
  ("deferred_split", deferred_split);
  ("lru_gen_mm_walk", lru_gen_mm_walk);
  ("hlist_nulls_head", hlist_nulls_head);
  ("lru_gen_memcg", lru_gen_memcg);
  ("memory_failure_stats", memory_failure_stats);
  ("pglist_data", pglist_data);
  ("mdio_device", mdio_device);
  ("phy_c45_device_ids", phy_c45_device_ids);
  ("eee_config", eee_config);
  ("phy_oatc14_sqi_capability", phy_oatc14_sqi_capability);
  ("phy_device", phy_device);
  ("phylink_link_state", phylink_link_state);
  ("pid_namespace", pid_namespace);
  ("prefix_info__bindgen_ty_1__bindgen_ty_1", prefix_info__bindgen_ty_1__bindgen_ty_1);
  ("rchan_buf_stats", rchan_buf_stats);
  ("rchan_buf", rchan_buf);
  ("regulator_voltage", regulator_voltage);
  ("attribute", attribute);
  ("device_attribute", device_attribute);
  ("regulator", regulator);
  ("regulator_desc", regulator_desc);
  ("coupling_desc", coupling_desc);
  ("ww_mutex", ww_mutex);
  ("regulator_dev", regulator_dev);
  ("hprobe", hprobe);
  ("return_consumer", return_consumer);
  ("return_instance", return_instance);
  ("ring_buffer_event", ring_buffer_event);
  ("rpc_pipe_dir_head", rpc_pipe_dir_head);
  ("rpc_rtt", rpc_rtt);
  ("rpc_timeout", rpc_timeout);
  ("rpc_xprt_iter", rpc_xprt_iter);
  ("rpc_clnt__bindgen_ty_1", rpc_clnt__bindgen_ty_1);
  ("rpc_clnt", rpc_clnt);
  ("rpc_xprt__bindgen_ty_1", rpc_xprt__bindgen_ty_1);
  ("rpc_xprt", rpc_xprt);
  ("uclamp_bucket", uclamp_bucket);
  ("sched_dl_entity", sched_dl_entity);
  ("rq__bindgen_ty_1", rq__bindgen_ty_1);
  ("uclamp_rq", uclamp_rq);
  ("rt_prio_array", rt_prio_array);
  ("rt_rq__bindgen_ty_1", rt_rq__bindgen_ty_1);
  ("rt_rq", rt_rq);
  ("dl_rq__bindgen_ty_1", dl_rq__bindgen_ty_1);
  ("dl_rq", dl_rq);
  ("rhash_head", rhash_head);
  ("scx_dispatch_q", scx_dispatch_q);
  ("balance_callback", balance_callback);
  ("scx_rq", scx_rq);
  ("cpu_stop_work", cpu_stop_work);
  ("sched_info", sched_info);
  ("rq", rq);
  ("rseq_slice_ctrl__bindgen_ty_1__bindgen_ty_1", rseq_slice_ctrl__bindgen_ty_1__bindgen_ty_1);
  ("rseq_slice_ctrl__bindgen_ty_1", rseq_slice_ctrl__bindgen_ty_1);
  ("rseq_slice_ctrl", rseq_slice_ctrl);
  ("rseq", rseq);
  ("sched_statistics", sched_statistics);
  ("sfp_eeprom_base__bindgen_ty_1__bindgen_ty_1", sfp_eeprom_base__bindgen_ty_1__bindgen_ty_1);
  ("sfp_eeprom_base__bindgen_ty_1__bindgen_ty_2", sfp_eeprom_base__bindgen_ty_1__bindgen_ty_2);
  ("sfp_eeprom_base__bindgen_ty_1", sfp_eeprom_base__bindgen_ty_1);
  ("sfp_eeprom_base", sfp_eeprom_base);
  ("sigset_t", sigset_t);
  ("sigpending", sigpending);
  ("cpu_itimer", cpu_itimer);
  ("task_cputime_atomic", task_cputime_atomic);
  ("thread_group_cputimer", thread_group_cputimer);
  ("posix_cputimer_base", posix_cputimer_base);
  ("posix_cputimers", posix_cputimers);
  ("task_io_accounting", task_io_accounting);
  ("pacct_struct", pacct_struct);
  ("signal_struct", signal_struct);
  ("sock_reuseport", sock_reuseport);
  ("socket_wq", socket_wq);
  ("socket", socket);
  ("srcu_ctr", srcu_ctr);
  ("rcu_segcblist", rcu_segcblist);
  ("srcu_data", srcu_data);
  ("hlist_bl_head", hlist_bl_head);
  ("mem_dqinfo", mem_dqinfo);
  ("quota_info", quota_info);
  ("rcu_sync", rcu_sync);
  ("percpu_rw_semaphore", percpu_rw_semaphore);
  ("sb_writers", sb_writers);
  ("list_lru", list_lru);
  ("super_block", super_block);
  ("uclamp_se", uclamp_se);
  ("scx_task_group", scx_task_group);
  ("cfs_bandwidth", cfs_bandwidth);
  ("task_group", task_group);
  ("thread_shstk", thread_shstk);
  ("thread_struct", thread_struct);
  ("thread_info", thread_info);
  ("sched_entity", sched_entity);
  ("sched_rt_entity", sched_rt_entity);
  ("scx_dsq_list_node", scx_dsq_list_node);
  ("sched_ext_entity", sched_ext_entity);
  ("rcu_special__bindgen_ty_1", rcu_special__bindgen_ty_1);
  ("rcu_special", rcu_special);
  ("plist_node", plist_node);
  ("restart_block__bindgen_ty_1__bindgen_ty_1", restart_block__bindgen_ty_1__bindgen_ty_1);
  ("restart_block__bindgen_ty_1__bindgen_ty_2__bindgen_ty_1", restart_block__bindgen_ty_1__bindgen_ty_2__bindgen_ty_1);
  ("restart_block__bindgen_ty_1__bindgen_ty_2", restart_block__bindgen_ty_1__bindgen_ty_2);
  ("restart_block__bindgen_ty_1__bindgen_ty_3", restart_block__bindgen_ty_1__bindgen_ty_3);
  ("restart_block__bindgen_ty_1", restart_block__bindgen_ty_1);
  ("restart_block", restart_block);
  ("vtime", vtime);
  ("posix_cputimers_work", posix_cputimers_work);
  ("sysv_sem", sysv_sem);
  ("sysv_shm", sysv_shm);
  ("seccomp", seccomp);
  ("syscall_user_dispatch", syscall_user_dispatch);
  ("wake_q_node", wake_q_node);
  ("nodemask_t", nodemask_t);
  ("rseq_event__bindgen_ty_1__bindgen_ty_1__bindgen_ty_1__bindgen_ty_1", rseq_event__bindgen_ty_1__bindgen_ty_1__bindgen_ty_1__bindgen_ty_1);
  ("rseq_event__bindgen_ty_1__bindgen_ty_1__bindgen_ty_1", rseq_event__bindgen_ty_1__bindgen_ty_1__bindgen_ty_1);
  ("rseq_event__bindgen_ty_1__bindgen_ty_1__bindgen_ty_2__bindgen_ty_1", rseq_event__bindgen_ty_1__bindgen_ty_1__bindgen_ty_2__bindgen_ty_1);
  ("rseq_event__bindgen_ty_1__bindgen_ty_1__bindgen_ty_2", rseq_event__bindgen_ty_1__bindgen_ty_1__bindgen_ty_2);
  ("rseq_event__bindgen_ty_1__bindgen_ty_1", rseq_event__bindgen_ty_1__bindgen_ty_1);
  ("rseq_event__bindgen_ty_1", rseq_event__bindgen_ty_1);
  ("rseq_event", rseq_event);
  ("rseq_ids__bindgen_ty_1__bindgen_ty_1", rseq_ids__bindgen_ty_1__bindgen_ty_1);
  ("rseq_ids__bindgen_ty_1", rseq_ids__bindgen_ty_1);
  ("rseq_ids", rseq_ids);
  ("rseq_slice_state__bindgen_ty_1", rseq_slice_state__bindgen_ty_1);
  ("rseq_slice_state", rseq_slice_state);
  ("rseq_slice", rseq_slice);
  ("rseq_data", rseq_data);
  ("sched_mm_cid", sched_mm_cid);
  ("arch_tlbflush_unmap_batch", arch_tlbflush_unmap_batch);
  ("tlbflush_unmap_batch", tlbflush_unmap_batch);
  ("lazy_mmu_state", lazy_mmu_state);
  ("kmap_ctrl", kmap_ctrl);
  ("unwind_task_id__bindgen_ty_1", unwind_task_id__bindgen_ty_1);
  ("unwind_task_id", unwind_task_id);
  ("unwind_task_info", unwind_task_info);
  ("task_struct", task_struct);
  ("tcf_t", tcf_t);
  ("tc_action", tc_action);
  ("tcp_options_received", tcp_options_received);
  ("tcp_rack", tcp_rack);
  ("minmax_sample", minmax_sample);
  ("minmax", minmax);
  ("tcp_sock__bindgen_ty_1", tcp_sock__bindgen_ty_1);
  ("tcp_sock__bindgen_ty_2", tcp_sock__bindgen_ty_2);
  ("tcp_sack_block", tcp_sack_block);
  ("tcp_sock__bindgen_ty_3", tcp_sock__bindgen_ty_3);
  ("tcp_sock", tcp_sock);
  ("tcp_ao_counters", tcp_ao_counters);
  ("tcp_ao_info", tcp_ao_info);
  ("timens_offsets", timens_offsets);
  ("time_namespace", time_namespace);
  ("tls_prot_info", tls_prot_info);
  ("cipher_context", cipher_context);
  ("tls_crypto_info", tls_crypto_info);
  ("tls12_crypto_info_aes_gcm_128", tls12_crypto_info_aes_gcm_128);
  ("tls12_crypto_info_aes_gcm_256", tls12_crypto_info_aes_gcm_256);
  ("tls12_crypto_info_chacha20_poly1305", tls12_crypto_info_chacha20_poly1305);
  ("tls12_crypto_info_sm4_gcm", tls12_crypto_info_sm4_gcm);
  ("tls12_crypto_info_sm4_ccm", tls12_crypto_info_sm4_ccm);
  ("tls_crypto_context__bindgen_ty_1", tls_crypto_context__bindgen_ty_1);
  ("tls_crypto_context", tls_crypto_context);
  ("tls_context", tls_context);
  ("trace_event_fields__bindgen_ty_1__bindgen_ty_1", trace_event_fields__bindgen_ty_1__bindgen_ty_1);
  ("tracepoint_ext", tracepoint_ext);
  ("udp_hslot__bindgen_ty_1", udp_hslot__bindgen_ty_1);
  ("udp_hslot", udp_hslot);
  ("udp_hslot_main", udp_hslot_main);
  ("uid_gid_extent", uid_gid_extent);
  ("uid_gid_map__bindgen_ty_1__bindgen_ty_1", uid_gid_map__bindgen_ty_1__bindgen_ty_1);
  ("uid_gid_map__bindgen_ty_1__bindgen_ty_2", uid_gid_map__bindgen_ty_1__bindgen_ty_2);
  ("uid_gid_map__bindgen_ty_1", uid_gid_map__bindgen_ty_1);
  ("uid_gid_map", uid_gid_map);
  ("user_namespace", user_namespace);
  ("wakeup_source", wakeup_source);
  ("wiphy_nan_capa", wiphy_nan_capa);
  ("wiphy__bindgen_ty_1", wiphy__bindgen_ty_1);
  ("wiphy", wiphy);
  ("ieee80211_edmg", ieee80211_edmg);
  ("cfg80211_chan_def", cfg80211_chan_def);
  ("ieee80211_mcs_info", ieee80211_mcs_info);
  ("ieee80211_ht_cap", ieee80211_ht_cap);
  ("cfg80211_ibss_params", cfg80211_ibss_params);
  ("cfg80211_crypto_settings", cfg80211_crypto_settings);
  ("ieee80211_vht_mcs_info", ieee80211_vht_mcs_info);
  ("ieee80211_vht_cap", ieee80211_vht_cap);
  ("cfg80211_bss_select_adjust", cfg80211_bss_select_adjust);
  ("cfg80211_bss_selection__bindgen_ty_1", cfg80211_bss_selection__bindgen_ty_1);
  ("cfg80211_bss_selection", cfg80211_bss_selection);
  ("cfg80211_connect_params", cfg80211_connect_params);
  ("wireless_dev__bindgen_ty_1", wireless_dev__bindgen_ty_1);
  ("wiphy_work", wiphy_work);
  ("wireless_dev__bindgen_ty_2__bindgen_ty_1", wireless_dev__bindgen_ty_2__bindgen_ty_1);
  ("wireless_dev__bindgen_ty_2__bindgen_ty_2", wireless_dev__bindgen_ty_2__bindgen_ty_2);
  ("wireless_dev__bindgen_ty_2__bindgen_ty_3", wireless_dev__bindgen_ty_2__bindgen_ty_3);
  ("wireless_dev__bindgen_ty_2__bindgen_ty_4", wireless_dev__bindgen_ty_2__bindgen_ty_4);
  ("wireless_dev__bindgen_ty_2__bindgen_ty_5", wireless_dev__bindgen_ty_2__bindgen_ty_5);
  ("wireless_dev__bindgen_ty_2__bindgen_ty_6", wireless_dev__bindgen_ty_2__bindgen_ty_6);
  ("wireless_dev__bindgen_ty_2", wireless_dev__bindgen_ty_2);
  ("wireless_dev__bindgen_ty_3__bindgen_ty_1__bindgen_ty_1", wireless_dev__bindgen_ty_3__bindgen_ty_1__bindgen_ty_1);
  ("wireless_dev__bindgen_ty_3__bindgen_ty_1__bindgen_ty_2", wireless_dev__bindgen_ty_3__bindgen_ty_1__bindgen_ty_2);
  ("wireless_dev__bindgen_ty_3__bindgen_ty_1", wireless_dev__bindgen_ty_3__bindgen_ty_1);
  ("wireless_dev__bindgen_ty_3", wireless_dev__bindgen_ty_3);
  ("wireless_dev", wireless_dev);
  ("workqueue_struct", workqueue_struct);
  ("folio_batch", folio_batch);
  ("writeback_control", writeback_control);
  ("xdp_buff__bindgen_ty_1__bindgen_ty_1", xdp_buff__bindgen_ty_1__bindgen_ty_1);
  ("xdp_buff__bindgen_ty_1", xdp_buff__bindgen_ty_1);
  ("xdp_buff", xdp_buff);
  ("xdp_buff_xsk", xdp_buff_xsk);
  ("xdp_frame", xdp_frame);
  ("xfrm_dev_offload", xfrm_dev_offload);
  ("xsk_buff_pool", xsk_buff_pool)].
