(* ===== verification/KernelData.v ===== *)
(** * The remaining kernel types of the program's bindings

    [src/cilium-mini-ebpf/src/vmlinux.rs]: the structures and unions without bit
    fields that none of KernelTypes.v contains, and the type names only they or
    nobody uses. *)

From Stdlib Require Import NArith ZArith.
From stdpp Require Import base list strings.
From S2P Require Import Prelude Layout KernelEnums KernelTypes.

Local Open Scope string_scope.
Local Open Scope nat_scope.

Definition __kernel_fsid_t : ctype := CStruct 1 [("val", CArray 2 c_int)].

Definition ax25_dama_info : ctype := CStruct 1 [("slave", c_char); ("slave_timer", timer_list);
  ("slave_timeout", c_ushort)].

Definition cisco_proto : ctype := CStruct 1 [("interval", c_uint); ("timeout", c_uint)].

Definition pin_cookie : ctype := CStruct 1 [].

Definition rq_flags : ctype := CStruct 1 [("flags", c_ulong); ("cookie", pin_cookie);
  ("clock_update_flags", c_uint)].

Definition file_ref_t : ctype := CStruct 1 [("refcnt", atomic64_t)].

Definition fr_proto : ctype := CStruct 1 [("t391", c_uint); ("t392", c_uint); ("n391", c_uint);
  ("n392", c_uint); ("n393", c_uint); ("lmi", c_ushort); ("dce", c_ushort)].

Definition fr_proto_pvc : ctype := CStruct 1 [("dlci", c_uint)].

Definition fr_proto_pvc_info : ctype := CStruct 1 [("dlci", c_uint); ("master", CArray 16
  c_char)].

Definition kernel_cap_t : ctype := CStruct 1 [("val", u64_)].

Definition projid_t : ctype := __kernel_uid32_t.

Definition kprojid_t : ctype := CStruct 1 [("val", projid_t)].

Definition memdesc_flags_t : ctype := CStruct 1 [("f", c_ulong)].

Definition pgdval_t : ctype := c_ulong.

Definition pgd_t : ctype := CStruct 1 [("pgd", pgdval_t)].

Definition pmdval_t : ctype := c_ulong.

Definition pmd_t : ctype := CStruct 1 [("pmd", pmdval_t)].

Definition pteval_t : ctype := c_ulong.

Definition pte_t : ctype := CStruct 1 [("pte", pteval_t)].

Definition pudval_t : ctype := c_ulong.

Definition pud_t : ctype := CStruct 1 [("pud", pudval_t)].

Definition raw_hdlc_proto : ctype := CStruct 1 [("encoding", c_ushort); ("parity", c_ushort)].

Definition read_descriptor_t__bindgen_ty_1 : ctype := CUnion 1 [("buf", CPtr); ("data", CPtr)].

Definition read_descriptor_t : ctype := CStruct 1 [("written", CU64); ("count", CU64); ("arg",
  read_descriptor_t__bindgen_ty_1); ("error", c_int)].

Definition swp_entry_t : ctype := CStruct 1 [("val", c_ulong)].

Definition sync_serial_settings : ctype := CStruct 1 [("clock_rate", c_uint); ("clock_type",
  c_uint); ("loopback", c_ushort)].

Definition te1_settings : ctype := CStruct 1 [("clock_rate", c_uint); ("clock_type", c_uint);
  ("loopback", c_ushort); ("slot_map", c_uint)].

Definition vfsgid_t : ctype := CStruct 1 [("val", gid_t)].

Definition vfsuid_t : ctype := CStruct 1 [("val", uid_t)].

Definition vma_flags_t : ctype := CStruct 1 [("__vma_flags", CArray 1 c_ulong)].

Definition x25_hdlc_proto : ctype := CStruct 1 [("dce", c_ushort); ("modulo", c_uint);
  ("window", c_uint); ("t1", c_uint); ("t2", c_uint); ("n2", c_uint)].

Definition xfrm_address_t : ctype := CUnion 1 [("a4", __be32); ("a6", CArray 4 __be32); ("in6",
  in6_addr)].

Definition Qdisc_class_ops : ctype := CStruct 1 [("flags", c_uint); ("select_queue", CPtr);
  ("graft", CPtr); ("leaf", CPtr); ("qlen_notify", CPtr); ("find", CPtr); ("change", CPtr);
  ("delete", CPtr); ("walk", CPtr); ("tcf_block", CPtr); ("bind_tcf", CPtr); ("unbind_tcf",
  CPtr); ("dump", CPtr); ("dump_stats", CPtr)].

Definition Qdisc_ops : ctype := CStruct 1 [("next", CPtr); ("cl_ops", CPtr); ("id", CArray 16
  c_char); ("priv_size", c_int); ("static_flags", c_uint); ("enqueue", CPtr); ("dequeue", CPtr);
  ("peek", CPtr); ("init", CPtr); ("reset", CPtr); ("destroy", CPtr); ("change", CPtr);
  ("attach", CPtr); ("change_tx_queue_len", CPtr); ("change_real_num_tx", CPtr); ("dump", CPtr);
  ("dump_stats", CPtr); ("ingress_block_set", CPtr); ("egress_block_set", CPtr);
  ("ingress_block_get", CPtr); ("egress_block_get", CPtr); ("owner", CPtr)].

Definition blk_mq_queue_map : ctype := CStruct 1 [("mq_map", CPtr); ("nr_queues", c_uint);
  ("queue_offset", c_uint)].

Definition srcu_struct : ctype := CStruct 1 [("srcu_ctrp", CPtr); ("sda", CPtr);
  ("srcu_reader_flavor", u8_); ("dep_map", lockdep_map); ("srcu_sup", CPtr)].

Definition blk_mq_tag_set : ctype := CStruct 1 [("ops", CPtr); ("map", CArray 3
  blk_mq_queue_map); ("nr_maps", c_uint); ("nr_hw_queues", c_uint); ("queue_depth", c_uint);
  ("reserved_tags", c_uint); ("cmd_size", c_uint); ("numa_node", c_int); ("timeout", c_uint);
  ("flags", c_uint); ("driver_data", CPtr); ("tags", CPtr); ("shared_tags", CPtr);
  ("tag_list_lock", mutex); ("tag_list", list_head); ("srcu", CPtr); ("tags_srcu", srcu_struct);
  ("update_nr_hwq_lock", rw_semaphore)].

Definition pt_regs__bindgen_ty_1 : ctype := CUnion 1 [("cs", u16_); ("csx", u64_); ("fred_cs",
  fred_cs)].

Definition pt_regs__bindgen_ty_2 : ctype := CUnion 1 [("ss", u16_); ("ssx", u64_); ("fred_ss",
  fred_ss)].

Definition pt_regs : ctype := CStruct 1 [("r15", c_ulong); ("r14", c_ulong); ("r13", c_ulong);
  ("r12", c_ulong); ("bp", c_ulong); ("bx", c_ulong); ("r11", c_ulong); ("r10", c_ulong); ("r9",
  c_ulong); ("r8", c_ulong); ("ax", c_ulong); ("cx", c_ulong); ("dx", c_ulong); ("si", c_ulong);
  ("di", c_ulong); ("orig_ax", c_ulong); ("ip", c_ulong); ("__bindgen_anon_1",
  pt_regs__bindgen_ty_1); ("flags", c_ulong); ("sp", c_ulong); ("__bindgen_anon_2",
  pt_regs__bindgen_ty_2)].

Definition __kernel_time64_t : ctype := c_longlong.

Definition __kernel_timespec : ctype := CStruct 1 [("tv_sec", __kernel_time64_t); ("tv_nsec",
  c_longlong)].

Definition sigval : ctype := CUnion 1 [("sival_int", c_int); ("sival_ptr", CPtr)].

Definition __sifields__bindgen_ty_1 : ctype := CStruct 1 [("_pid", __kernel_pid_t); ("_uid",
  __kernel_uid32_t)].

Definition __kernel_timer_t : ctype := c_int.

Definition sigval_t : ctype := sigval.

Definition __sifields__bindgen_ty_2 : ctype := CStruct 1 [("_tid", __kernel_timer_t);
  ("_overrun", c_int); ("_sigval", sigval_t); ("_sys_private", c_int)].

Definition __sifields__bindgen_ty_3 : ctype := CStruct 1 [("_pid", __kernel_pid_t); ("_uid",
  __kernel_uid32_t); ("_sigval", sigval_t)].

Definition __kernel_long_t : ctype := c_long.

Definition __kernel_clock_t : ctype := __kernel_long_t.

Definition __sifields__bindgen_ty_4 : ctype := CStruct 1 [("_pid", __kernel_pid_t); ("_uid",
  __kernel_uid32_t); ("_status", c_int); ("_utime", __kernel_clock_t); ("_stime",
  __kernel_clock_t)].

Definition __sifields__bindgen_ty_5__bindgen_ty_1__bindgen_ty_1 : ctype := CStruct 1
  [("_dummy_bnd", CArray 8 c_char); ("_lower", CPtr); ("_upper", CPtr)].

Definition __sifields__bindgen_ty_5__bindgen_ty_1__bindgen_ty_2 : ctype := CStruct 1
  [("_dummy_pkey", CArray 8 c_char); ("_pkey", __u32)].

Definition __sifields__bindgen_ty_5__bindgen_ty_1__bindgen_ty_3 : ctype := CStruct 1 [("_data",
  c_ulong); ("_type", __u32); ("_flags", __u32)].

Definition __sifields__bindgen_ty_5__bindgen_ty_1 : ctype := CUnion 1 [("_trapno", c_int);
  ("_addr_lsb", c_short); ("_addr_bnd", __sifields__bindgen_ty_5__bindgen_ty_1__bindgen_ty_1);
  ("_addr_pkey", __sifields__bindgen_ty_5__bindgen_ty_1__bindgen_ty_2); ("_perf",
  __sifields__bindgen_ty_5__bindgen_ty_1__bindgen_ty_3)].

Definition __sifields__bindgen_ty_5 : ctype := CStruct 1 [("_addr", CPtr); ("__bindgen_anon_1",
  __sifields__bindgen_ty_5__bindgen_ty_1)].

Definition __sifields__bindgen_ty_6 : ctype := CStruct 1 [("_band", c_long); ("_fd", c_int)].

Definition __sifields__bindgen_ty_7 : ctype := CStruct 1 [("_call_addr", CPtr); ("_syscall",
  c_int); ("_arch", c_uint)].

Definition __sifields : ctype := CUnion 1 [("_kill", __sifields__bindgen_ty_1); ("_timer",
  __sifields__bindgen_ty_2); ("_rt", __sifields__bindgen_ty_3); ("_sigchld",
  __sifields__bindgen_ty_4); ("_sigfault", __sifields__bindgen_ty_5); ("_sigpoll",
  __sifields__bindgen_ty_6); ("_sigsys", __sifields__bindgen_ty_7)].

Definition aa_attachment : ctype := CStruct 1 [("xmatch_str", CPtr); ("xmatch", CPtr);
  ("xmatch_len", c_uint); ("xattr_count", c_int); ("xattrs", CPtr)].

Definition aa_caps : ctype := CStruct 1 [("allow", kernel_cap_t); ("audit", kernel_cap_t);
  ("denied", kernel_cap_t); ("quiet", kernel_cap_t); ("kill", kernel_cap_t); ("extended",
  kernel_cap_t)].

Definition aa_common_ref : ctype := CStruct 1 [("count", kref); ("reftype", reftype__Type)].

Definition aa_dfa : ctype := CStruct 1 [("count", kref); ("flags", u16_); ("max_oob", u32_);
  ("tables", CArray 8 CPtr)].

Definition aa_label__bindgen_ty_1__bindgen_ty_1__bindgen_ty_1__bindgen_ty_1 : ctype := CStruct 1
  [].

Definition aa_label__bindgen_ty_1__bindgen_ty_1__bindgen_ty_1 : ctype := CStruct 1
  [("__empty_rules", aa_label__bindgen_ty_1__bindgen_ty_1__bindgen_ty_1__bindgen_ty_1);
  ("rules", __IncompleteArrayField CPtr)].

Definition aa_label__bindgen_ty_1__bindgen_ty_1 : ctype := CStruct 1 [("profile", CArray 2
  CPtr); ("__bindgen_anon_1", aa_label__bindgen_ty_1__bindgen_ty_1__bindgen_ty_1)].

Definition aa_label__bindgen_ty_1__bindgen_ty_2__bindgen_ty_1 : ctype := CStruct 1 [].

Definition aa_label__bindgen_ty_1__bindgen_ty_2 : ctype := CStruct 1 [("__empty_vec",
  aa_label__bindgen_ty_1__bindgen_ty_2__bindgen_ty_1); ("vec", __IncompleteArrayField CPtr)].

Definition aa_label__bindgen_ty_1 : ctype := CStruct 1 [("__bindgen_anon_1", __BindgenUnionField
  aa_label__bindgen_ty_1__bindgen_ty_1); ("__bindgen_anon_2", __BindgenUnionField
  aa_label__bindgen_ty_1__bindgen_ty_2); ("bindgen_union_field", CArray 2 CU64)].

Definition aa_label : ctype := CStruct 1 [("count", aa_common_ref); ("node", rb_node); ("rcu",
  callback_head); ("proxy", CPtr); ("hname", CPtr); ("flags", c_long); ("secid", u32_); ("size",
  c_int); ("mediates", u64_); ("__bindgen_anon_1", aa_label__bindgen_ty_1)].

Definition aa_labelset : ctype := CStruct 1 [("lock", rwlock_t); ("root", rb_root)].

Definition aa_loaddata : ctype := CStruct 1 [("count", aa_common_ref); ("pcount", kref);
  ("list", list_head); ("work", work_struct); ("dents", CArray 6 CPtr); ("ns", CPtr); ("name",
  CPtr); ("size", CU64); ("compressed_size", CU64); ("revision", c_long); ("abi", c_int);
  ("hash", CPtr); ("data", CPtr)].

Definition aa_policy : ctype := CStruct 1 [("name", CPtr); ("hname", CPtr); ("list", list_head);
  ("profiles", list_head)].

Definition aa_ns_acct : ctype := CStruct 1 [("max_size", c_int); ("max_count", c_int); ("size",
  c_int); ("count", c_int)].

Definition aa_ns : ctype := CStruct 1 [("base", aa_policy); ("parent", CPtr); ("lock", mutex);
  ("acct", aa_ns_acct); ("unconfined", CPtr); ("sub_ns", list_head); ("uniq_null", atomic_t);
  ("uniq_id", c_long); ("level", c_int); ("revision", c_long); ("wait", wait_queue_head_t);
  ("labels", aa_labelset); ("rawdata_list", list_head); ("dents", CArray 13 CPtr)].

Definition aa_perms : ctype := CStruct 1 [("allow", u32_); ("deny", u32_); ("subtree", u32_);
  ("cond", u32_); ("kill", u32_); ("complain", u32_); ("prompt", u32_); ("audit", u32_);
  ("quiet", u32_); ("hide", u32_); ("xindex", u32_); ("tag", u32_); ("label", u32_)].

Definition aa_str_table : ctype := CStruct 1 [("size", c_int); ("table", CPtr)].

Definition aa_tags_struct__bindgen_ty_1 : ctype := CStruct 1 [("size", u32_); ("table", CPtr)].

Definition aa_tags_struct__bindgen_ty_2 : ctype := CStruct 1 [("size", u32_); ("table", CPtr)].

Definition aa_tags_struct : ctype := CStruct 1 [("sets", aa_tags_struct__bindgen_ty_1); ("hdrs",
  aa_tags_struct__bindgen_ty_2); ("strs", aa_str_table)].

Definition aa_policydb__bindgen_ty_1 : ctype := CStruct 1 [("perms", CPtr); ("size", u32_)].

Definition aa_policydb : ctype := CStruct 1 [("count", kref); ("dfa", CPtr);
  ("__bindgen_anon_1", aa_policydb__bindgen_ty_1); ("trans", aa_str_table); ("tags",
  aa_tags_struct); ("start", CArray 33 c_uint)].

Definition aa_profile : ctype := CStruct 1 [("base", aa_policy); ("parent", CPtr); ("ns", CPtr);
  ("rename", CPtr); ("audit", audit_mode__Type); ("mode", c_long); ("path_flags", u32_);
  ("signal", c_int); ("disconnected", CPtr); ("attach", aa_attachment); ("rawdata", CPtr);
  ("hash", CPtr); ("dirname", CPtr); ("dents", CArray 9 CPtr); ("data", CPtr); ("n_rules",
  c_int); ("label", aa_label)].

Definition aa_proxy : ctype := CStruct 1 [("count", aa_common_ref); ("label", CPtr)].

Definition aa_rlimit : ctype := CStruct 1 [("mask", c_uint); ("limits", CArray 16 rlimit)].

Definition aa_ruleset : ctype := CStruct 1 [("size", c_int); ("policy", CPtr); ("file", CPtr);
  ("caps", aa_caps); ("rlimits", aa_rlimit); ("secmark_count", c_int); ("secmark", CPtr)].

Definition aa_secmark : ctype := CStruct 1 [("audit", u8_); ("deny", u8_); ("secid", u32_);
  ("label", CPtr)].

Definition aa_str_table_ent : ctype := CStruct 1 [("count", c_int); ("size", c_int); ("strs",
  CPtr)].

Definition aa_tags_header : ctype := CStruct 1 [("mask", u32_); ("count", u32_); ("size", u32_);
  ("tags", u32_)].

Definition ack_sample : ctype := CStruct 1 [("pkts_acked", u32_); ("rtt_us", s32); ("in_flight",
  u32_)].

Definition cipher_alg : ctype := CStruct 1 [("cia_min_keysize", c_uint); ("cia_max_keysize",
  c_uint); ("cia_setkey", CPtr); ("cia_encrypt", CPtr); ("cia_decrypt", CPtr)].

Definition crypto_alg__bindgen_ty_1 : ctype := CUnion 1 [("cipher", cipher_alg)].

Definition crypto_alg : ctype := CStruct 1 [("cra_list", list_head); ("cra_users", list_head);
  ("cra_flags", u32_); ("cra_blocksize", c_uint); ("cra_ctxsize", c_uint); ("cra_alignmask",
  c_uint); ("cra_reqsize", c_uint); ("cra_priority", c_int); ("cra_refcnt", refcount_t);
  ("cra_name", CArray 128 c_char); ("cra_driver_name", CArray 128 c_char); ("cra_type", CPtr);
  ("cra_u", crypto_alg__bindgen_ty_1); ("cra_init", CPtr); ("cra_exit", CPtr); ("cra_destroy",
  CPtr); ("cra_module", CPtr)].

Definition scatterlist : ctype := CStruct 1 [("page_link", c_ulong); ("offset", c_uint);
  ("length", c_uint); ("dma_address", dma_addr_t); ("dma_length", c_uint); ("dma_flags",
  c_uint)].

Definition bin_attribute : ctype := CStruct 1 [("attr", attribute); ("size", CU64); ("private",
  CPtr); ("f_mapping", CPtr); ("read", CPtr); ("write", CPtr); ("llseek", CPtr); ("mmap",
  CPtr)].

Definition fwnode_handle : ctype := CStruct 1 [("secondary", CPtr); ("ops", CPtr); ("dev",
  CPtr); ("suppliers", list_head); ("consumers", list_head); ("flags", c_ulong)].

Definition kernel_ulong_t : ctype := c_ulong.

Definition acpi_device_id : ctype := CStruct 1 [("id", CArray 16 __u8); ("driver_data",
  kernel_ulong_t); ("cls", __u32); ("cls_msk", __u32)].

Definition ida : ctype := CStruct 1 [("xa", xarray)].

Definition device_driver__bindgen_ty_1 : ctype := CStruct 1 [("post_unbind_rust", CPtr)].

Definition device_driver : ctype := CStruct 1 [("name", CPtr); ("bus", CPtr); ("owner", CPtr);
  ("mod_name", CPtr); ("suppress_bind_attrs", bool_); ("probe_type", probe_type__Type);
  ("of_match_table", CPtr); ("acpi_match_table", CPtr); ("probe", CPtr); ("sync_state", CPtr);
  ("remove", CPtr); ("shutdown", CPtr); ("suspend", CPtr); ("resume", CPtr); ("groups", CPtr);
  ("dev_groups", CPtr); ("pm", CPtr); ("coredump", CPtr); ("p", CPtr); ("p_cb",
  device_driver__bindgen_ty_1)].

Definition freq_qos_request : ctype := CStruct 1 [("type_", freq_qos_req_type__Type); ("pnode",
  plist_node); ("qos", CPtr)].

Definition action_cache : ctype := CStruct 1 [("allow_native", CArray 8 c_ulong);
  ("allow_compat", CArray 8 c_ulong)].

Definition action_gate_entry : ctype := CStruct 1 [("gate_state", u8_); ("interval", u32_);
  ("ipv", s32); ("maxoctets", s32)].

Definition address_space : ctype := CStruct 1 [("host", CPtr); ("i_pages", xarray);
  ("invalidate_lock", rw_semaphore); ("gfp_mask", gfp_t); ("i_mmap_writable", atomic_t);
  ("nr_thps", atomic_t); ("i_mmap", rb_root_cached); ("nrpages", c_ulong); ("writeback_index",
  c_ulong); ("a_ops", CPtr); ("flags", c_ulong); ("wb_err", errseq_t); ("i_private_lock",
  spinlock_t); ("i_private_list", list_head); ("i_mmap_rwsem", rw_semaphore); ("i_private_data",
  CPtr)].

Definition address_space_operations : ctype := CStruct 1 [("read_folio", CPtr); ("writepages",
  CPtr); ("dirty_folio", CPtr); ("readahead", CPtr); ("write_begin", CPtr); ("write_end", CPtr);
  ("bmap", CPtr); ("invalidate_folio", CPtr); ("release_folio", CPtr); ("free_folio", CPtr);
  ("direct_IO", CPtr); ("migrate_folio", CPtr); ("launder_folio", CPtr);
  ("is_partially_uptodate", CPtr); ("is_dirty_writeback", CPtr); ("error_remove_folio", CPtr);
  ("swap_activate", CPtr); ("swap_deactivate", CPtr); ("swap_rw", CPtr)].

Definition audit_ntp_val : ctype := CStruct 1 [("oldval", c_longlong); ("newval", c_longlong)].

Definition audit_ntp_data : ctype := CStruct 1 [("vals", CArray 6 audit_ntp_val)].

Definition crypto_instance__bindgen_ty_1 : ctype := CUnion 1 [("list", hlist_node); ("spawns",
  CPtr)].

Definition crypto_instance : ctype := CStruct 1 [("alg", crypto_alg); ("tmpl", CPtr);
  ("__bindgen_anon_1", crypto_instance__bindgen_ty_1); ("__ctx", __IncompleteArrayField CPtr)].

Definition ratelimit_state : ctype := CStruct 1 [("lock", raw_spinlock_t); ("interval", c_int);
  ("burst", c_int); ("rs_n_left", atomic_t); ("missed", atomic_t); ("flags", c_uint); ("begin",
  c_ulong)].

Definition affinity_context : ctype := CStruct 1 [("new_mask", CPtr); ("user_mask", CPtr);
  ("flags", c_uint)].

Definition kiocb : ctype := CStruct 1 [("ki_filp", CPtr); ("ki_pos", loff_t); ("ki_complete",
  CPtr); ("private", CPtr); ("ki_flags", c_int); ("ki_ioprio", u16_); ("ki_write_stream", u8_);
  ("ki_waitq", CPtr)].

Definition poll_queue_proc : ctype := CPtr.

Definition __poll_t : ctype := c_uint.

Definition poll_table_struct : ctype := CStruct 1 [("_qproc", poll_queue_proc); ("_key",
  __poll_t)].

Definition irq_domain_ops : ctype := CStruct 1 [("match_", CPtr); ("select", CPtr); ("map",
  CPtr); ("unmap", CPtr); ("xlate", CPtr); ("alloc", CPtr); ("free", CPtr); ("activate", CPtr);
  ("deactivate", CPtr); ("translate", CPtr); ("get_fwspec_info", CPtr)].

Definition irq_flow_handler_t : ctype := CPtr.

Definition gpio_irq_chip__bindgen_ty_1 : ctype := CUnion 1 [("parent_handler_data", CPtr);
  ("parent_handler_data_array", CPtr)].

Definition gpio_irq_chip : ctype := CStruct 1 [("chip", CPtr); ("domain", CPtr); ("fwnode",
  CPtr); ("parent_domain", CPtr); ("child_to_parent_hwirq", CPtr); ("populate_parent_alloc_arg",
  CPtr); ("child_offset_to_irq", CPtr); ("child_irq_domain_ops", irq_domain_ops); ("handler",
  irq_flow_handler_t); ("default_type", c_uint); ("lock_key", CPtr); ("request_key", CPtr);
  ("parent_handler", irq_flow_handler_t); ("__bindgen_anon_1", gpio_irq_chip__bindgen_ty_1);
  ("num_parents", c_uint); ("parents", CPtr); ("map", CPtr); ("threaded", bool_);
  ("per_parent_data", bool_); ("initialized", bool_); ("domain_is_allocated_externally", bool_);
  ("init_hw", CPtr); ("init_valid_mask", CPtr); ("valid_mask", CPtr); ("first", c_uint);
  ("irq_enable", CPtr); ("irq_disable", CPtr); ("irq_unmask", CPtr); ("irq_mask", CPtr)].

Definition gpio_chip : ctype := CStruct 1 [("label", CPtr); ("gpiodev", CPtr); ("parent", CPtr);
  ("fwnode", CPtr); ("owner", CPtr); ("request", CPtr); ("free", CPtr); ("get_direction", CPtr);
  ("direction_input", CPtr); ("direction_output", CPtr); ("get", CPtr); ("get_multiple", CPtr);
  ("set", CPtr); ("set_multiple", CPtr); ("set_config", CPtr); ("to_irq", CPtr); ("dbg_show",
  CPtr); ("init_valid_mask", CPtr); ("add_pin_ranges", CPtr); ("en_hw_timestamp", CPtr);
  ("dis_hw_timestamp", CPtr); ("base", c_int); ("ngpio", u16_); ("offset", u16_); ("names",
  CPtr); ("can_sleep", bool_); ("irq", gpio_irq_chip)].

Definition iommu_device : ctype := CStruct 1 [("list", list_head); ("ops", CPtr); ("fwnode",
  CPtr); ("dev", CPtr); ("singleton_group", CPtr); ("max_pasids", u32_); ("ready", bool_)].

Definition iommufd_viommu : ctype := CStruct 1 [("obj", iommufd_object); ("ictx", CPtr);
  ("iommu_dev", CPtr); ("hwpt", CPtr); ("ops", CPtr); ("vdevs", xarray); ("veventqs",
  list_head); ("veventqs_rwsem", rw_semaphore); ("type_", iommu_viommu_type__Type)].

Definition x86_msi_addr_lo__bindgen_ty_1 : ctype := CUnion 1 [("__bindgen_anon_1",
  x86_msi_addr_lo__bindgen_ty_1__bindgen_ty_1); ("__bindgen_anon_2",
  x86_msi_addr_lo__bindgen_ty_1__bindgen_ty_2)].

Definition x86_msi_addr_lo : ctype := CStruct 1 [("__bindgen_anon_1",
  x86_msi_addr_lo__bindgen_ty_1)].

Definition x86_msi_data__bindgen_ty_1 : ctype := CUnion 1 [("__bindgen_anon_1",
  x86_msi_data__bindgen_ty_1__bindgen_ty_1); ("dmar_subhandle", u32_)].

Definition x86_msi_data : ctype := CStruct 1 [("__bindgen_anon_1", x86_msi_data__bindgen_ty_1)].

Definition arch_msi_msg_addr_lo_t : ctype := x86_msi_addr_lo.

Definition msi_msg__bindgen_ty_1 : ctype := CUnion 1 [("address_lo", u32_); ("arch_addr_lo",
  arch_msi_msg_addr_lo_t)].

Definition arch_msi_msg_addr_hi_t : ctype := x86_msi_addr_hi.

Definition msi_msg__bindgen_ty_2 : ctype := CUnion 1 [("address_hi", u32_); ("arch_addr_hi",
  arch_msi_msg_addr_hi_t)].

Definition arch_msi_msg_data_t : ctype := x86_msi_data.

Definition msi_msg__bindgen_ty_3 : ctype := CUnion 1 [("data", u32_); ("arch_data",
  arch_msi_msg_data_t)].

Definition msi_msg : ctype := CStruct 1 [("__bindgen_anon_1", msi_msg__bindgen_ty_1);
  ("__bindgen_anon_2", msi_msg__bindgen_ty_2); ("__bindgen_anon_3", msi_msg__bindgen_ty_3)].

Definition class : ctype := CStruct 1 [("name", CPtr); ("class_groups", CPtr); ("dev_groups",
  CPtr); ("dev_uevent", CPtr); ("devnode", CPtr); ("class_release", CPtr); ("dev_release",
  CPtr); ("shutdown_pre", CPtr); ("ns_type", CPtr); ("namespace", CPtr); ("get_ownership",
  CPtr); ("pm", CPtr)].

Definition anon_vma : ctype := CStruct 1 [("root", CPtr); ("rwsem", rw_semaphore); ("refcount",
  atomic_t); ("num_children", c_ulong); ("num_active_vmas", c_ulong); ("parent", CPtr);
  ("rb_root", rb_root_cached)].

Definition anon_vma_name : ctype := CStruct 1 [("kref", kref); ("name", __IncompleteArrayField
  c_char)].

Definition path : ctype := CStruct 1 [("mnt", CPtr); ("dentry", CPtr)].

Definition arch_hw_breakpoint : ctype := CStruct 1 [("address", c_ulong); ("mask", c_ulong);
  ("len", u8_); ("type_", u8_)].

Definition arch_uprobe__bindgen_ty_1 : ctype := CUnion 1 [("insn", CArray 16 u8_); ("ixol",
  CArray 16 u8_)].

Definition arch_uprobe__bindgen_ty_2__bindgen_ty_1 : ctype := CStruct 1 [("offs", s32); ("ilen",
  u8_); ("opc1", u8_)].

Definition arch_uprobe__bindgen_ty_2__bindgen_ty_2 : ctype := CStruct 1 [("fixups", u8_);
  ("ilen", u8_)].

Definition arch_uprobe__bindgen_ty_2__bindgen_ty_3 : ctype := CStruct 1 [("reg_offset", u8_);
  ("ilen", u8_)].

Definition arch_uprobe__bindgen_ty_2 : ctype := CUnion 1 [("branch",
  arch_uprobe__bindgen_ty_2__bindgen_ty_1); ("defparam",
  arch_uprobe__bindgen_ty_2__bindgen_ty_2); ("push", arch_uprobe__bindgen_ty_2__bindgen_ty_3)].

Definition arch_uprobe : ctype := CStruct 1 [("__bindgen_anon_1", arch_uprobe__bindgen_ty_1);
  ("ops", CPtr); ("__bindgen_anon_2", arch_uprobe__bindgen_ty_2); ("flags", c_ulong)].

Definition arch_uprobe_task : ctype := CStruct 1 [("saved_scratch_register", c_ulong);
  ("saved_trap_nr", c_uint); ("saved_tf", c_uint)].

Definition sa_family_t : ctype := __kernel_sa_family_t.

Definition sockaddr : ctype := CStruct 1 [("sa_family", sa_family_t); ("sa_data", CArray 14
  c_char)].

Definition array_buffer : ctype := CStruct 1 [("tr", CPtr); ("buffer", CPtr); ("data", CPtr);
  ("time_start", u64_); ("cpu", c_int)].

Definition assoc_array_ptr : ctype := CStruct 1 [("_unused", CArray 0 CU8)].

Definition assoc_array : ctype := CStruct 1 [("root", CPtr); ("nr_leaves_on_tree", c_ulong)].

Definition io_poll : ctype := CStruct 1 [("file", CPtr); ("head", CPtr); ("events", __poll_t);
  ("retries", c_int); ("wait", wait_queue_entry)].

Definition async_poll : ctype := CStruct 1 [("poll", io_poll); ("double_poll", CPtr)].

Definition attribute_group__bindgen_ty_1 : ctype := CUnion 1 [("is_visible", CPtr);
  ("is_visible_const", CPtr)].

Definition attribute_group__bindgen_ty_2 : ctype := CUnion 1 [("attrs", CPtr); ("attrs_const",
  CPtr)].

Definition attribute_group : ctype := CStruct 1 [("name", CPtr); ("__bindgen_anon_1",
  attribute_group__bindgen_ty_1); ("is_bin_visible", CPtr); ("bin_size", CPtr);
  ("__bindgen_anon_2", attribute_group__bindgen_ty_2); ("bin_attrs", CPtr)].

Definition audit_aux_data : ctype := CStruct 1 [("next", CPtr); ("type_", c_int)].

Definition audit_cap_data__bindgen_ty_1 : ctype := CUnion 1 [("fE", c_uint); ("effective",
  kernel_cap_t)].

Definition audit_cap_data : ctype := CStruct 1 [("permitted", kernel_cap_t); ("inheritable",
  kernel_cap_t); ("__bindgen_anon_1", audit_cap_data__bindgen_ty_1); ("ambient", kernel_cap_t);
  ("rootid", kuid_t)].

Definition lsm_prop_selinux : ctype := CStruct 1 [("secid", u32_)].

Definition lsm_prop_smack : ctype := CStruct 1 [("skp", CPtr)].

Definition lsm_prop_apparmor : ctype := CStruct 1 [("label", CPtr)].

Definition lsm_prop_bpf : ctype := CStruct 1 [("secid", u32_)].

Definition lsm_prop : ctype := CStruct 1 [("selinux", lsm_prop_selinux); ("smack",
  lsm_prop_smack); ("apparmor", lsm_prop_apparmor); ("bpf", lsm_prop_bpf)].

Definition audit_stamp : ctype := CStruct 1 [("ctime", timespec64); ("serial", c_uint)].

Definition audit_node : ctype := CStruct 1 [("list", list_head); ("owner", CPtr); ("index",
  c_uint)].

Definition audit_chunk : ctype := CStruct 1 [("hash", list_head); ("key", c_ulong); ("mark",
  CPtr); ("trees", list_head); ("count", c_int); ("refs", atomic_long_t); ("head",
  callback_head); ("owners", __IncompleteArrayField audit_node)].

Definition audit_names : ctype := CStruct 1 [("list", list_head); ("name", CPtr); ("name_len",
  c_int); ("hidden", bool_); ("ino", c_ulong); ("dev", dev_t); ("mode", umode_t); ("uid",
  kuid_t); ("gid", kgid_t); ("rdev", dev_t); ("oprop", lsm_prop); ("fcap", audit_cap_data);
  ("fcap_ver", c_uint); ("type_", c_uchar); ("should_free", bool_)].

Definition mq_attr : ctype := CStruct 1 [("mq_flags", __kernel_long_t); ("mq_maxmsg",
  __kernel_long_t); ("mq_msgsize", __kernel_long_t); ("mq_curmsgs", __kernel_long_t);
  ("__reserved", CArray 4 __kernel_long_t)].

Definition open_how : ctype := CStruct 1 [("flags", __u64); ("mode", __u64); ("resolve",
  __u64)].

Definition audit_proctitle : ctype := CStruct 1 [("len", c_int); ("value", CPtr)].

Definition audit_context__bindgen_ty_2__bindgen_ty_1 : ctype := CStruct 1 [("nargs", c_int);
  ("args", CArray 6 c_long)].

Definition audit_context__bindgen_ty_2__bindgen_ty_2 : ctype := CStruct 1 [("uid", kuid_t);
  ("gid", kgid_t); ("mode", umode_t); ("oprop", lsm_prop); ("has_perm", c_int); ("perm_uid",
  uid_t); ("perm_gid", gid_t); ("perm_mode", umode_t); ("qbytes", c_ulong)].

Definition __kernel_mqd_t : ctype := c_int.

Definition mqd_t : ctype := __kernel_mqd_t.

Definition audit_context__bindgen_ty_2__bindgen_ty_3 : ctype := CStruct 1 [("mqdes", mqd_t);
  ("mqstat", mq_attr)].

Definition audit_context__bindgen_ty_2__bindgen_ty_4 : ctype := CStruct 1 [("mqdes", mqd_t);
  ("sigev_signo", c_int)].

Definition audit_context__bindgen_ty_2__bindgen_ty_5 : ctype := CStruct 1 [("mqdes", mqd_t);
  ("msg_len", CU64); ("msg_prio", c_uint); ("abs_timeout", timespec64)].

Definition audit_context__bindgen_ty_2__bindgen_ty_6 : ctype := CStruct 1 [("oflag", c_int);
  ("mode", umode_t); ("attr", mq_attr)].

Definition audit_context__bindgen_ty_2__bindgen_ty_7 : ctype := CStruct 1 [("pid", pid_t);
  ("cap", audit_cap_data)].

Definition audit_context__bindgen_ty_2__bindgen_ty_8 : ctype := CStruct 1 [("fd", c_int);
  ("flags", c_int)].

Definition audit_context__bindgen_ty_2__bindgen_ty_9 : ctype := CStruct 1 [("argc", c_int)].

Definition audit_context__bindgen_ty_2__bindgen_ty_10 : ctype := CStruct 1 [("name", CPtr)].

Definition audit_context__bindgen_ty_2__bindgen_ty_11 : ctype := CStruct 1 [("ntp_data",
  audit_ntp_data); ("tk_injoffset", timespec64)].

Definition audit_context__bindgen_ty_2 : ctype := CUnion 1 [("socketcall",
  audit_context__bindgen_ty_2__bindgen_ty_1); ("ipc",
  audit_context__bindgen_ty_2__bindgen_ty_2); ("mq_getsetattr",
  audit_context__bindgen_ty_2__bindgen_ty_3); ("mq_notify",
  audit_context__bindgen_ty_2__bindgen_ty_4); ("mq_sendrecv",
  audit_context__bindgen_ty_2__bindgen_ty_5); ("mq_open",
  audit_context__bindgen_ty_2__bindgen_ty_6); ("capset",
  audit_context__bindgen_ty_2__bindgen_ty_7); ("mmap",
  audit_context__bindgen_ty_2__bindgen_ty_8); ("openat2", open_how); ("execve",
  audit_context__bindgen_ty_2__bindgen_ty_9); ("module",
  audit_context__bindgen_ty_2__bindgen_ty_10); ("time",
  audit_context__bindgen_ty_2__bindgen_ty_11)].

Definition audit_context : ctype := CStruct 1 [("dummy", c_int); ("context",
  audit_context__bindgen_ty_1__Type); ("state", audit_state__Type); ("current_state",
  audit_state__Type); ("stamp", audit_stamp); ("major", c_int); ("uring_op", c_int); ("argv",
  CArray 4 c_ulong); ("return_code", c_long); ("prio", u64_); ("return_valid", c_int);
  ("preallocated_names", CArray 5 audit_names); ("name_count", c_int); ("names_list",
  list_head); ("filterkey", CPtr); ("pwd", path); ("aux", CPtr); ("aux_pids", CPtr);
  ("sockaddr", CPtr); ("sockaddr_len", CU64); ("ppid", pid_t); ("uid", kuid_t); ("euid",
  kuid_t); ("suid", kuid_t); ("fsuid", kuid_t); ("gid", kgid_t); ("egid", kgid_t); ("sgid",
  kgid_t); ("fsgid", kgid_t); ("personality", c_ulong); ("arch", c_int); ("target_pid", pid_t);
  ("target_auid", kuid_t); ("target_uid", kuid_t); ("target_sessionid", c_uint); ("target_ref",
  lsm_prop); ("target_comm", CArray 16 c_char); ("trees", CPtr); ("first_trees", CPtr);
  ("killed_trees", list_head); ("tree_count", c_int); ("type_", c_int); ("__bindgen_anon_1",
  audit_context__bindgen_ty_2); ("fds", CArray 2 c_int); ("proctitle", audit_proctitle)].

Definition fsnotify_mark : ctype := CStruct 1 [("mask", __u32); ("refcnt", refcount_t);
  ("group", CPtr); ("g_list", list_head); ("lock", spinlock_t); ("obj_list", hlist_node);
  ("connector", CPtr); ("ignore_mask", __u32); ("flags", c_uint)].

Definition audit_tree : ctype := CStruct 1 [("count", refcount_t); ("goner", c_int); ("root",
  CPtr); ("chunks", list_head); ("rules", list_head); ("list", list_head); ("same_root",
  list_head); ("head", callback_head); ("pathname", __IncompleteArrayField c_char)].

Definition audit_tree_refs : ctype := CStruct 1 [("next", CPtr); ("c", CArray 31 CPtr)].

Definition auth_cred : ctype := CStruct 1 [("cred", CPtr); ("principal", CPtr)].

Definition auth_domain : ctype := CStruct 1 [("ref_", kref); ("hash", hlist_node); ("name",
  CPtr); ("flavour", CPtr); ("callback_head", callback_head)].

Definition auth_ops : ctype := CStruct 1 [("name", CPtr); ("owner", CPtr); ("flavour", c_int);
  ("accept", CPtr); ("release", CPtr); ("domain_release", CPtr); ("set_client", CPtr);
  ("pseudoflavor", CPtr)].

Definition auto_mode_param : ctype := CStruct 1 [("qp_type", c_int)].

Definition qstr__bindgen_ty_1__bindgen_ty_1 : ctype := CStruct 1 [("hash", u32_); ("len",
  u32_)].

Definition qstr__bindgen_ty_1 : ctype := CUnion 1 [("__bindgen_anon_1",
  qstr__bindgen_ty_1__bindgen_ty_1); ("hash_len", u64_)].

Definition qstr : ctype := CStruct 1 [("__bindgen_anon_1", qstr__bindgen_ty_1); ("name", CPtr)].

Definition autogroup : ctype := CStruct 1 [("kref", kref); ("tg", CPtr); ("lock", rw_semaphore);
  ("id", c_ulong); ("nice", c_int)].

Definition ax25_dev : ctype := CStruct 1 [("list", list_head); ("dev", CPtr); ("dev_tracker",
  netdevice_tracker); ("forward", CPtr); ("sysheader", CPtr); ("values", CArray 14 c_int);
  ("dama", ax25_dama_info); ("refcount", refcount_t); ("device_up", bool_); ("rcu",
  callback_head)].

Definition fprop_local_percpu : ctype := CStruct 1 [("events", percpu_counter); ("period",
  c_uint); ("lock", raw_spinlock_t)].

Definition bdi_writeback__bindgen_ty_1 : ctype := CUnion 1 [("release_work", work_struct);
  ("rcu", callback_head)].

Definition bdi_writeback : ctype := CStruct 1 [("bdi", CPtr); ("state", c_ulong);
  ("last_old_flush", c_ulong); ("b_dirty", list_head); ("b_io", list_head); ("b_more_io",
  list_head); ("b_dirty_time", list_head); ("list_lock", spinlock_t); ("writeback_inodes",
  atomic_t); ("stat", CArray 4 percpu_counter); ("bw_time_stamp", c_ulong); ("dirtied_stamp",
  c_ulong); ("written_stamp", c_ulong); ("write_bandwidth", c_ulong); ("avg_write_bandwidth",
  c_ulong); ("dirty_ratelimit", c_ulong); ("balanced_dirty_ratelimit", c_ulong); ("completions",
  fprop_local_percpu); ("dirty_exceeded", c_int); ("start_all_reason", wb_reason__Type);
  ("work_lock", spinlock_t); ("work_list", list_head); ("dwork", delayed_work); ("bw_dwork",
  delayed_work); ("bdi_node", list_head); ("refcnt", percpu_ref); ("memcg_completions",
  fprop_local_percpu); ("memcg_css", CPtr); ("blkcg_css", CPtr); ("memcg_node", list_head);
  ("blkcg_node", list_head); ("b_attached", list_head); ("offline_node", list_head);
  ("switch_work", work_struct); ("switch_wbs_ctxs", llist_head); ("__bindgen_anon_1",
  bdi_writeback__bindgen_ty_1)].

Definition backing_dev_info : ctype := CStruct 1 [("id", u64_); ("rb_node", rb_node);
  ("bdi_list", list_head); ("ra_pages", c_ulong); ("io_pages", c_ulong); ("refcnt", kref);
  ("capabilities", c_uint); ("min_ratio", c_uint); ("max_ratio", c_uint); ("max_prop_frac",
  c_uint); ("tot_write_bandwidth", atomic_long_t); ("last_bdp_sleep", c_ulong); ("wb",
  bdi_writeback); ("wb_list", list_head); ("cgwb_tree", xarray); ("cgwb_release_mutex", mutex);
  ("wb_switch_rwsem", rw_semaphore); ("wb_waitq", wait_queue_head_t); ("dev", CPtr);
  ("dev_name", CArray 64 c_char); ("owner", CPtr); ("debug_dir", CPtr)].

Definition file_ra_state : ctype := CStruct 1 [("start", c_ulong); ("size", c_uint);
  ("async_size", c_uint); ("ra_pages", c_uint); ("order", c_ushort); ("mmap_miss", c_ushort);
  ("prev_pos", loff_t)].

Definition fmode_t : ctype := c_uint.

Definition file__bindgen_ty_1 : ctype := CUnion 1 [("f_path", path); ("__f_path", path)].

Definition file__bindgen_ty_2 : ctype := CUnion 1 [("f_pos_lock", mutex); ("f_pipe", u64_)].

Definition file__bindgen_ty_3 : ctype := CUnion 1 [("f_task_work", callback_head); ("f_llist",
  llist_node); ("f_ra", file_ra_state); ("f_freeptr", freeptr_t)].

Definition file : ctype := CStruct 1 [("f_lock", spinlock_t); ("f_mode", fmode_t); ("f_op",
  CPtr); ("f_mapping", CPtr); ("private_data", CPtr); ("f_inode", CPtr); ("f_flags", c_uint);
  ("f_iocb_flags", c_uint); ("f_cred", CPtr); ("f_owner", CPtr); ("__bindgen_anon_1",
  file__bindgen_ty_1); ("__bindgen_anon_2", file__bindgen_ty_2); ("f_pos", loff_t);
  ("f_security", CPtr); ("f_wb_err", errseq_t); ("f_sb_err", errseq_t); ("f_ep", CPtr);
  ("__bindgen_anon_3", file__bindgen_ty_3); ("f_ref", file_ref_t)].

Definition backtrack_state : ctype := CStruct 1 [("env", CPtr); ("frame", u32_); ("reg_masks",
  CArray 8 u32_); ("stack_masks", CArray 8 u64_)].

Definition sector_t : ctype := u64_.

Definition badblocks : ctype := CStruct 1 [("dev", CPtr); ("count", c_int); ("unacked_exist",
  c_int); ("shift", c_int); ("page", CPtr); ("changed", c_int); ("lock", seqlock_t); ("sector",
  sector_t); ("size", sector_t)].

Definition local_lock : ctype := CStruct 1 [].

Definition block_device : ctype := CStruct 1 [("bd_start_sect", sector_t); ("bd_nr_sectors",
  sector_t); ("bd_disk", CPtr); ("bd_queue", CPtr); ("bd_stats", CPtr); ("bd_stamp", c_ulong);
  ("__bd_flags", atomic_t); ("bd_dev", dev_t); ("bd_mapping", CPtr); ("bd_openers", atomic_t);
  ("bd_size_lock", spinlock_t); ("bd_claiming", CPtr); ("bd_holder", CPtr); ("bd_holder_ops",
  CPtr); ("bd_holder_lock", mutex); ("bd_holders", c_int); ("bd_holder_dir", CPtr);
  ("bd_fsfreeze_count", atomic_t); ("bd_fsfreeze_mutex", mutex); ("bd_meta_info", CPtr);
  ("bd_writers", c_int); ("bd_security", CPtr); ("bd_device", device)].

Definition inode_state_flags : ctype := CStruct 1 [("__state", inode_state_flags_enum__Type)].

Definition inode__bindgen_ty_1 : ctype := CUnion 1 [("i_nlink", c_uint); ("__i_nlink", c_uint)].

Definition blkcnt_t : ctype := u64_.

Definition inode__bindgen_ty_2 : ctype := CUnion 1 [("i_dentry", hlist_head); ("i_rcu",
  callback_head)].

Definition inode__bindgen_ty_3 : ctype := CUnion 1 [("i_fop", CPtr); ("free_inode", CPtr)].

Definition inode__bindgen_ty_4 : ctype := CUnion 1 [("i_devices", list_head); ("i_linklen",
  c_int)].

Definition inode__bindgen_ty_5 : ctype := CUnion 1 [("i_pipe", CPtr); ("i_cdev", CPtr);
  ("i_link", CPtr); ("i_dir_seq", c_uint)].

Definition inode : ctype := CStruct 1 [("i_mode", umode_t); ("i_opflags", c_ushort); ("i_flags",
  c_uint); ("i_acl", CPtr); ("i_default_acl", CPtr); ("i_uid", kuid_t); ("i_gid", kgid_t);
  ("i_op", CPtr); ("i_sb", CPtr); ("i_mapping", CPtr); ("i_security", CPtr); ("i_ino", c_ulong);
  ("__bindgen_anon_1", inode__bindgen_ty_1); ("i_rdev", dev_t); ("i_size", loff_t);
  ("i_atime_sec", time64_t); ("i_mtime_sec", time64_t); ("i_ctime_sec", time64_t);
  ("i_atime_nsec", u32_); ("i_mtime_nsec", u32_); ("i_ctime_nsec", u32_); ("i_generation",
  u32_); ("i_lock", spinlock_t); ("i_bytes", c_ushort); ("i_blkbits", u8_); ("i_write_hint",
  rw_hint__Type); ("i_blocks", blkcnt_t); ("i_state", inode_state_flags); ("i_rwsem",
  rw_semaphore); ("dirtied_when", c_ulong); ("dirtied_time_when", c_ulong); ("i_hash",
  hlist_node); ("i_io_list", list_head); ("i_wb", CPtr); ("i_wb_frn_winner", c_int);
  ("i_wb_frn_avg_time", u16_); ("i_wb_frn_history", u16_); ("i_lru", list_head); ("i_sb_list",
  list_head); ("i_wb_list", list_head); ("__bindgen_anon_2", inode__bindgen_ty_2); ("i_version",
  atomic64_t); ("i_sequence", atomic64_t); ("i_count", atomic_t); ("i_dio_count", atomic_t);
  ("i_writecount", atomic_t); ("i_readcount", atomic_t); ("__bindgen_anon_3",
  inode__bindgen_ty_3); ("i_flctx", CPtr); ("i_data", address_space); ("__bindgen_anon_4",
  inode__bindgen_ty_4); ("__bindgen_anon_5", inode__bindgen_ty_5); ("i_fsnotify_mask", __u32);
  ("i_fsnotify_marks", CPtr); ("i_private", CPtr)].

Definition blk_independent_access_range : ctype := CStruct 1 [("kobj", kobject); ("sector",
  sector_t); ("nr_sectors", sector_t)].

Definition blkg_policy_data : ctype := CStruct 1 [("blkg", CPtr); ("plid", c_int); ("online",
  bool_)].

Definition blkcg_policy_data : ctype := CStruct 1 [("blkcg", CPtr); ("plid", c_int)].

Definition io_cq__bindgen_ty_1 : ctype := CUnion 1 [("q_node", list_head); ("__rcu_icq_cache",
  CPtr)].

Definition io_cq__bindgen_ty_2 : ctype := CUnion 1 [("ioc_node", hlist_node); ("__rcu_head",
  callback_head)].

Definition io_cq : ctype := CStruct 1 [("q", CPtr); ("ioc", CPtr); ("__bindgen_anon_1",
  io_cq__bindgen_ty_1); ("__bindgen_anon_2", io_cq__bindgen_ty_2); ("flags", c_uint)].

Definition binfmt_misc : ctype := CStruct 1 [("entries", list_head); ("entries_lock", rwlock_t);
  ("enabled", bool_)].

Definition bvec_iter : ctype := CPacked [("bi_sector", sector_t); ("bi_size", c_uint);
  ("bi_idx", c_uint); ("bi_bvec_done", c_uint)].

Definition blk_opf_t : ctype := __u32.

Definition blk_qc_t : ctype := c_uint.

Definition bio__bindgen_ty_1 : ctype := CUnion 1 [("bi_cookie", blk_qc_t); ("__bi_nr_segments",
  c_uint)].

Definition bio_end_io_t : ctype := CPtr.

Definition bio : ctype := CStruct 1 [("bi_next", CPtr); ("bi_bdev", CPtr); ("bi_opf",
  blk_opf_t); ("bi_flags", c_ushort); ("bi_ioprio", c_ushort); ("bi_write_hint", rw_hint__Type);
  ("bi_write_stream", u8_); ("bi_status", blk_status_t); ("bi_bvec_gap_bit", u8_);
  ("__bi_remaining", atomic_t); ("bi_io_vec", CPtr); ("bi_iter", bvec_iter);
  ("__bindgen_anon_1", bio__bindgen_ty_1); ("bi_end_io", bio_end_io_t); ("bi_private", CPtr);
  ("bi_blkg", CPtr); ("issue_time_ns", u64_); ("bi_iocost_cost", u64_); ("bi_crypt_context",
  CPtr); ("bi_integrity", CPtr); ("bi_vcnt", c_ushort); ("bi_max_vecs", c_ushort); ("__bi_cnt",
  atomic_t); ("bi_pool", CPtr)].

Definition bio_alloc_cache : ctype := CStruct 1 [("free_list", CPtr); ("free_list_irq", CPtr);
  ("nr", c_uint); ("nr_irq", c_uint)].

Definition bio_crypt_ctx : ctype := CStruct 1 [("bc_key", CPtr); ("bc_dun", CArray 4 u64_)].

Definition bio_integrity_payload : ctype := CStruct 1 [("bip_iter", bvec_iter); ("bip_vcnt",
  c_ushort); ("bip_max_vcnt", c_ushort); ("bip_flags", c_ushort); ("app_tag", u16_); ("bip_vec",
  CPtr)].

Definition bio_vec : ctype := CStruct 1 [("bv_page", CPtr); ("bv_len", c_uint); ("bv_offset",
  c_uint)].

Definition bio_list : ctype := CStruct 1 [("head", CPtr); ("tail", CPtr)].

Definition mempool_alloc_t : ctype := CPtr.

Definition mempool_free_t : ctype := CPtr.

Definition mempool : ctype := CStruct 1 [("lock", spinlock_t); ("min_nr", c_int); ("curr_nr",
  c_int); ("elements", CPtr); ("pool_data", CPtr); ("alloc", mempool_alloc_t); ("free",
  mempool_free_t); ("wait", wait_queue_head_t)].

Definition mempool_t : ctype := mempool.

Definition bio_set : ctype := CStruct 1 [("bio_slab", CPtr); ("front_pad", c_uint); ("cache",
  CPtr); ("bio_pool", mempool_t); ("bvec_pool", mempool_t); ("back_pad", c_uint);
  ("rescue_lock", spinlock_t); ("rescue_list", bio_list); ("rescue_work", work_struct);
  ("rescue_workqueue", CPtr); ("cpuhp_dead", hlist_node)].

Definition blk_crypto_config : ctype := CStruct 1 [("crypto_mode", blk_crypto_mode_num__Type);
  ("data_unit_size", c_uint); ("dun_bytes", c_uint); ("key_type", blk_crypto_key_type__Type)].

Definition blk_crypto_key : ctype := CStruct 1 [("crypto_cfg", blk_crypto_config);
  ("data_unit_size_bits", c_uint); ("size", c_uint); ("bytes", CArray 128 u8_)].

Definition blk_crypto_keyslot : ctype := CStruct 1 [("slot_refs", atomic_t); ("idle_slot_node",
  list_head); ("hash_node", hlist_node); ("key", CPtr); ("profile", CPtr)].

Definition blk_crypto_ll_ops : ctype := CStruct 1 [("keyslot_program", CPtr); ("keyslot_evict",
  CPtr); ("derive_sw_secret", CPtr); ("import_key", CPtr); ("generate_key", CPtr);
  ("prepare_key", CPtr)].

Definition blk_crypto_profile : ctype := CStruct 1 [("ll_ops", blk_crypto_ll_ops);
  ("max_dun_bytes_supported", c_uint); ("key_types_supported", c_uint); ("modes_supported",
  CArray 5 c_uint); ("dev", CPtr); ("num_slots", c_uint); ("lock", rw_semaphore);
  ("lockdep_key", lock_class_key); ("idle_slots_wait_queue", wait_queue_head_t); ("idle_slots",
  list_head); ("idle_slots_lock", spinlock_t); ("slot_hashtable", CPtr); ("log_slot_ht_size",
  c_uint); ("slots", CPtr)].

Definition blk_holder_ops : ctype := CStruct 1 [("mark_dead", CPtr); ("sync", CPtr); ("freeze",
  CPtr); ("thaw", CPtr)].

Definition blk_independent_access_ranges : ctype := CStruct 1 [("kobj", kobject);
  ("sysfs_registered", bool_); ("nr_ia_ranges", c_uint); ("ia_range", __IncompleteArrayField
  blk_independent_access_range)].

Definition blk_integrity : ctype := CStruct 1 [("flags", c_uchar); ("csum_type",
  blk_integrity_checksum__Type); ("metadata_size", c_uchar); ("pi_offset", c_uchar);
  ("interval_exp", c_uchar); ("tag_size", c_uchar); ("pi_tuple_size", c_uchar)].

Definition rq_qos : ctype := CStruct 1 [("ops", CPtr); ("disk", CPtr); ("id", rq_qos_id__Type);
  ("next", CPtr); ("debugfs_dir", CPtr)].

Definition blk_mq_req_flags_t : ctype := __u32.

Definition req_flags_t : ctype := __u32.

Definition blk_mq_alloc_data : ctype := CStruct 1 [("q", CPtr); ("flags", blk_mq_req_flags_t);
  ("shallow_depth", c_uint); ("cmd_flags", blk_opf_t); ("rq_flags", req_flags_t); ("nr_tags",
  c_uint); ("cached_rqs", CPtr); ("ctx", CPtr); ("hctx", CPtr)].

Definition blk_mq_ctxs : ctype := CStruct 1 [("kobj", kobject); ("queue_ctx", CPtr)].

Definition blk_mq_debugfs_attr : ctype := CStruct 1 [("name", CPtr); ("mode", umode_t); ("show",
  CPtr); ("write", CPtr); ("seq_ops", CPtr)].

Definition blk_mq_ops : ctype := CStruct 1 [("queue_rq", CPtr); ("commit_rqs", CPtr);
  ("queue_rqs", CPtr); ("get_budget", CPtr); ("put_budget", CPtr); ("set_rq_budget_token",
  CPtr); ("get_rq_budget_token", CPtr); ("timeout", CPtr); ("poll", CPtr); ("complete", CPtr);
  ("init_hctx", CPtr); ("exit_hctx", CPtr); ("init_request", CPtr); ("exit_request", CPtr);
  ("cleanup_rq", CPtr); ("busy", CPtr); ("map_queues", CPtr); ("show_rq", CPtr)].

Definition blk_mq_queue_data : ctype := CStruct 1 [("rq", CPtr); ("last", bool_)].

Definition sbitmap_queue : ctype := CStruct 1 [("sb", sbitmap); ("wake_batch", c_uint);
  ("wake_index", atomic_t); ("ws", CPtr); ("ws_active", atomic_t); ("min_shallow_depth",
  c_uint); ("completion_cnt", atomic_t); ("wakeup_cnt", atomic_t)].

Definition blk_mq_tags : ctype := CStruct 1 [("nr_tags", c_uint); ("nr_reserved_tags", c_uint);
  ("active_queues", c_uint); ("bitmap_tags", sbitmap_queue); ("breserved_tags", sbitmap_queue);
  ("rqs", CPtr); ("static_rqs", CPtr); ("page_list", list_head); ("lock", spinlock_t);
  ("callback_head", callback_head)].

Definition blk_queue_stats : ctype := CStruct 1 [("callbacks", list_head); ("lock", spinlock_t);
  ("accounting", c_int)].

Definition report_zones_cb : ctype := CPtr.

Definition blk_report_zones_args : ctype := CStruct 1 [("cb", report_zones_cb); ("data", CPtr);
  ("report_active", bool_)].

Definition blk_trace : ctype := CStruct 1 [("version", c_int); ("trace_state", c_int); ("rchan",
  CPtr); ("sequence", CPtr); ("msg_data", CPtr); ("act_mask", u64_); ("start_lba", u64_);
  ("end_lba", u64_); ("pid", u32_); ("dev", u32_); ("dir", CPtr); ("running_list", list_head);
  ("dropped", atomic_t)].

Definition blk_zone : ctype := CStruct 1 [("start", __u64); ("len", __u64); ("wp", __u64);
  ("type_", __u8); ("cond", __u8); ("non_seq", __u8); ("reset", __u8); ("resv", CArray 4 __u8);
  ("capacity", __u64); ("reserved", CArray 24 __u8)].

Definition blkcg : ctype := CStruct 1 [("css", cgroup_subsys_state); ("lock", spinlock_t);
  ("online_pin", refcount_t); ("congestion_count", atomic_t); ("blkg_tree", xarray);
  ("blkg_hint", CPtr); ("blkg_list", hlist_head); ("cpd", CArray 6 CPtr); ("all_blkcgs_node",
  list_head); ("lhead", CPtr); ("fc_app_id", CArray 129 c_char); ("cgwb_list", list_head)].

Definition blkg_iostat : ctype := CStruct 1 [("bytes", CArray 3 u64_); ("ios", CArray 3 u64_)].

Definition blkg_iostat_set : ctype := CStruct 1 [("sync", u64_stats_sync); ("blkg", CPtr);
  ("lnode", llist_node); ("lqueued", c_int); ("cur", blkg_iostat); ("last", blkg_iostat)].

Definition blkcg_gq__bindgen_ty_1 : ctype := CUnion 1 [("async_bio_work", work_struct);
  ("free_work", work_struct)].

Definition blkcg_gq : ctype := CStruct 1 [("q", CPtr); ("q_node", list_head); ("blkcg_node",
  hlist_node); ("blkcg", CPtr); ("parent", CPtr); ("refcnt", percpu_ref); ("online", bool_);
  ("iostat_cpu", CPtr); ("iostat", blkg_iostat_set); ("pd", CArray 6 CPtr); ("async_bio_lock",
  spinlock_t); ("async_bios", bio_list); ("__bindgen_anon_1", blkcg_gq__bindgen_ty_1);
  ("use_delay", atomic_t); ("delay_nsec", atomic64_t); ("delay_start", atomic64_t);
  ("last_delay", u64_); ("last_use", c_int); ("callback_head", callback_head)].

Definition block_device_operations : ctype := CStruct 1 [("submit_bio", CPtr); ("poll_bio",
  CPtr); ("open", CPtr); ("release", CPtr); ("ioctl", CPtr); ("compat_ioctl", CPtr);
  ("check_events", CPtr); ("unlock_native_capacity", CPtr); ("getgeo", CPtr); ("set_read_only",
  CPtr); ("free_disk", CPtr); ("swap_slot_free_notify", CPtr); ("report_zones", CPtr);
  ("devnode", CPtr); ("get_unique_id", CPtr); ("owner", CPtr); ("pr_ops", CPtr);
  ("alternative_gpt_sector", CPtr)].

Definition bpf_map__bindgen_ty_1 : ctype := CUnion 1 [("work", work_struct); ("rcu",
  callback_head)].

Definition bpf_map : ctype := CStruct 1 [("sha", CArray 32 u8_); ("ops", CPtr);
  ("inner_map_meta", CPtr); ("security", CPtr); ("map_type", bpf_map_type__Type); ("key_size",
  u32_); ("value_size", u32_); ("max_entries", u32_); ("map_extra", u64_); ("map_flags", u32_);
  ("id", u32_); ("record", CPtr); ("numa_node", c_int); ("btf_key_type_id", u32_);
  ("btf_value_type_id", u32_); ("btf_vmlinux_value_type_id", u32_); ("btf", CPtr); ("objcg",
  CPtr); ("name", CArray 16 c_char); ("freeze_mutex", mutex); ("refcnt", atomic64_t);
  ("usercnt", atomic64_t); ("__bindgen_anon_1", bpf_map__bindgen_ty_1); ("writecnt",
  atomic64_t); ("owner_lock", spinlock_t); ("owner", CPtr); ("bypass_spec_v1", bool_);
  ("frozen", bool_); ("free_after_mult_rcu_gp", bool_); ("free_after_rcu_gp", bool_);
  ("sleepable_refcnt", atomic64_t); ("elem_count", CPtr); ("cookie", u64_); ("excl_prog_sha",
  CPtr)].

Definition range_tree : ctype := CStruct 1 [("it_root", rb_root_cached); ("range_size_root",
  rb_root_cached)].

Definition rqspinlock_t : ctype := qspinlock.

Definition bpf_arena : ctype := CStruct 1 [("map", bpf_map); ("user_vm_start", u64_);
  ("user_vm_end", u64_); ("kern_vm", CPtr); ("rt", range_tree); ("spinlock", rqspinlock_t);
  ("vma_list", list_head); ("lock", mutex); ("free_irq", irq_work); ("free_work", work_struct);
  ("free_spans", llist_head)].

Definition btf_func_model : ctype := CStruct 1 [("ret_size", u8_); ("ret_flags", u8_);
  ("nr_args", u8_); ("arg_size", CArray 12 u8_); ("arg_flags", CArray 12 u8_)].

Definition bpf_attr__bindgen_ty_1 : ctype := CStruct 1 [("map_type", __u32); ("key_size",
  __u32); ("value_size", __u32); ("max_entries", __u32); ("map_flags", __u32); ("inner_map_fd",
  __u32); ("numa_node", __u32); ("map_name", CArray 16 c_char); ("map_ifindex", __u32);
  ("btf_fd", __u32); ("btf_key_type_id", __u32); ("btf_value_type_id", __u32);
  ("btf_vmlinux_value_type_id", __u32); ("map_extra", __u64); ("value_type_btf_obj_fd", __s32);
  ("map_token_fd", __s32); ("excl_prog_hash", __u64); ("excl_prog_hash_size", __u32)].

Definition bpf_attr__bindgen_ty_2__bindgen_ty_1 : ctype := CUnion 1 [("value", __u64);
  ("next_key", __u64)].

Definition bpf_attr__bindgen_ty_2 : ctype := CStruct 1 [("map_fd", __u32); ("key", __u64);
  ("__bindgen_anon_1", bpf_attr__bindgen_ty_2__bindgen_ty_1); ("flags", __u64)].

Definition bpf_attr__bindgen_ty_3 : ctype := CStruct 1 [("in_batch", __u64); ("out_batch",
  __u64); ("keys", __u64); ("values", __u64); ("count", __u32); ("map_fd", __u32);
  ("elem_flags", __u64); ("flags", __u64)].

Definition bpf_attr__bindgen_ty_4__bindgen_ty_1 : ctype := CUnion 1 [("attach_prog_fd", __u32);
  ("attach_btf_obj_fd", __u32)].

Definition bpf_attr__bindgen_ty_4 : ctype := CStruct 1 [("prog_type", __u32); ("insn_cnt",
  __u32); ("insns", __u64); ("license", __u64); ("log_level", __u32); ("log_size", __u32);
  ("log_buf", __u64); ("kern_version", __u32); ("prog_flags", __u32); ("prog_name", CArray 16
  c_char); ("prog_ifindex", __u32); ("expected_attach_type", __u32); ("prog_btf_fd", __u32);
  ("func_info_rec_size", __u32); ("func_info", __u64); ("func_info_cnt", __u32);
  ("line_info_rec_size", __u32); ("line_info", __u64); ("line_info_cnt", __u32);
  ("attach_btf_id", __u32); ("__bindgen_anon_1", bpf_attr__bindgen_ty_4__bindgen_ty_1);
  ("core_relo_cnt", __u32); ("fd_array", __u64); ("core_relos", __u64); ("core_relo_rec_size",
  __u32); ("log_true_size", __u32); ("prog_token_fd", __s32); ("fd_array_cnt", __u32);
  ("signature", __u64); ("signature_size", __u32); ("keyring_id", __s32)].

Definition bpf_attr__bindgen_ty_5 : ctype := CStruct 1 [("pathname", __u64); ("bpf_fd", __u32);
  ("file_flags", __u32); ("path_fd", __s32)].

Definition bpf_attr__bindgen_ty_6__bindgen_ty_1 : ctype := CUnion 1 [("target_fd", __u32);
  ("target_ifindex", __u32)].

Definition bpf_attr__bindgen_ty_6__bindgen_ty_2 : ctype := CUnion 1 [("relative_fd", __u32);
  ("relative_id", __u32)].

Definition bpf_attr__bindgen_ty_6 : ctype := CStruct 1 [("__bindgen_anon_1",
  bpf_attr__bindgen_ty_6__bindgen_ty_1); ("attach_bpf_fd", __u32); ("attach_type", __u32);
  ("attach_flags", __u32); ("replace_bpf_fd", __u32); ("__bindgen_anon_2",
  bpf_attr__bindgen_ty_6__bindgen_ty_2); ("expected_revision", __u64)].

Definition bpf_attr__bindgen_ty_7 : ctype := CStruct 1 [("prog_fd", __u32); ("retval", __u32);
  ("data_size_in", __u32); ("data_size_out", __u32); ("data_in", __u64); ("data_out", __u64);
  ("repeat", __u32); ("duration", __u32); ("ctx_size_in", __u32); ("ctx_size_out", __u32);
  ("ctx_in", __u64); ("ctx_out", __u64); ("flags", __u32); ("cpu", __u32); ("batch_size",
  __u32)].

Definition bpf_attr__bindgen_ty_8__bindgen_ty_1 : ctype := CUnion 1 [("start_id", __u32);
  ("prog_id", __u32); ("map_id", __u32); ("btf_id", __u32); ("link_id", __u32)].

Definition bpf_attr__bindgen_ty_8 : ctype := CStruct 1 [("__bindgen_anon_1",
  bpf_attr__bindgen_ty_8__bindgen_ty_1); ("next_id", __u32); ("open_flags", __u32);
  ("fd_by_id_token_fd", __s32)].

Definition bpf_attr__bindgen_ty_9 : ctype := CStruct 1 [("bpf_fd", __u32); ("info_len", __u32);
  ("info", __u64)].

Definition bpf_attr__bindgen_ty_10__bindgen_ty_1 : ctype := CUnion 1 [("target_fd", __u32);
  ("target_ifindex", __u32)].

Definition bpf_attr__bindgen_ty_10__bindgen_ty_2 : ctype := CUnion 1 [("prog_cnt", __u32);
  ("count", __u32)].

Definition bpf_attr__bindgen_ty_10 : ctype := CStruct 1 [("__bindgen_anon_1",
  bpf_attr__bindgen_ty_10__bindgen_ty_1); ("attach_type", __u32); ("query_flags", __u32);
  ("attach_flags", __u32); ("prog_ids", __u64); ("__bindgen_anon_2",
  bpf_attr__bindgen_ty_10__bindgen_ty_2); ("prog_attach_flags", __u64); ("link_ids", __u64);
  ("link_attach_flags", __u64); ("revision", __u64)].

Definition bpf_attr__bindgen_ty_11 : ctype := CStruct 1 [("name", __u64); ("prog_fd", __u32);
  ("cookie", __u64)].

Definition bpf_attr__bindgen_ty_12 : ctype := CStruct 1 [("btf", __u64); ("btf_log_buf", __u64);
  ("btf_size", __u32); ("btf_log_size", __u32); ("btf_log_level", __u32); ("btf_log_true_size",
  __u32); ("btf_flags", __u32); ("btf_token_fd", __s32)].

Definition bpf_attr__bindgen_ty_13 : ctype := CStruct 1 [("pid", __u32); ("fd", __u32);
  ("flags", __u32); ("buf_len", __u32); ("buf", __u64); ("prog_id", __u32); ("fd_type", __u32);
  ("probe_offset", __u64); ("probe_addr", __u64)].

Definition bpf_attr__bindgen_ty_14__bindgen_ty_1 : ctype := CUnion 1 [("prog_fd", __u32);
  ("map_fd", __u32)].

Definition bpf_attr__bindgen_ty_14__bindgen_ty_2 : ctype := CUnion 1 [("target_fd", __u32);
  ("target_ifindex", __u32)].

Definition bpf_attr__bindgen_ty_14__bindgen_ty_3__bindgen_ty_1 : ctype := CStruct 1
  [("iter_info", __u64); ("iter_info_len", __u32)].

Definition bpf_attr__bindgen_ty_14__bindgen_ty_3__bindgen_ty_2 : ctype := CStruct 1
  [("bpf_cookie", __u64)].

Definition bpf_attr__bindgen_ty_14__bindgen_ty_3__bindgen_ty_3 : ctype := CStruct 1 [("flags",
  __u32); ("cnt", __u32); ("syms", __u64); ("addrs", __u64); ("cookies", __u64)].

Definition bpf_attr__bindgen_ty_14__bindgen_ty_3__bindgen_ty_4 : ctype := CStruct 1
  [("target_btf_id", __u32); ("cookie", __u64)].

Definition bpf_attr__bindgen_ty_14__bindgen_ty_3__bindgen_ty_5 : ctype := CStruct 1 [("pf",
  __u32); ("hooknum", __u32); ("priority", __s32); ("flags", __u32)].

Definition bpf_attr__bindgen_ty_14__bindgen_ty_3__bindgen_ty_6__bindgen_ty_1 : ctype := CUnion 1
  [("relative_fd", __u32); ("relative_id", __u32)].

Definition bpf_attr__bindgen_ty_14__bindgen_ty_3__bindgen_ty_6 : ctype := CStruct 1
  [("__bindgen_anon_1", bpf_attr__bindgen_ty_14__bindgen_ty_3__bindgen_ty_6__bindgen_ty_1);
  ("expected_revision", __u64)].

Definition bpf_attr__bindgen_ty_14__bindgen_ty_3__bindgen_ty_7 : ctype := CStruct 1 [("path",
  __u64); ("offsets", __u64); ("ref_ctr_offsets", __u64); ("cookies", __u64); ("cnt", __u32);
  ("flags", __u32); ("pid", __u32)].

Definition bpf_attr__bindgen_ty_14__bindgen_ty_3__bindgen_ty_8__bindgen_ty_1 : ctype := CUnion 1
  [("relative_fd", __u32); ("relative_id", __u32)].

Definition bpf_attr__bindgen_ty_14__bindgen_ty_3__bindgen_ty_8 : ctype := CStruct 1
  [("__bindgen_anon_1", bpf_attr__bindgen_ty_14__bindgen_ty_3__bindgen_ty_8__bindgen_ty_1);
  ("expected_revision", __u64)].

Definition bpf_attr__bindgen_ty_14__bindgen_ty_3__bindgen_ty_9__bindgen_ty_1 : ctype := CUnion 1
  [("relative_fd", __u32); ("relative_id", __u32)].

Definition bpf_attr__bindgen_ty_14__bindgen_ty_3__bindgen_ty_9 : ctype := CStruct 1
  [("__bindgen_anon_1", bpf_attr__bindgen_ty_14__bindgen_ty_3__bindgen_ty_9__bindgen_ty_1);
  ("expected_revision", __u64)].

Definition bpf_attr__bindgen_ty_14__bindgen_ty_3 : ctype := CUnion 1 [("target_btf_id", __u32);
  ("__bindgen_anon_1", bpf_attr__bindgen_ty_14__bindgen_ty_3__bindgen_ty_1); ("perf_event",
  bpf_attr__bindgen_ty_14__bindgen_ty_3__bindgen_ty_2); ("kprobe_multi",
  bpf_attr__bindgen_ty_14__bindgen_ty_3__bindgen_ty_3); ("tracing",
  bpf_attr__bindgen_ty_14__bindgen_ty_3__bindgen_ty_4); ("netfilter",
  bpf_attr__bindgen_ty_14__bindgen_ty_3__bindgen_ty_5); ("tcx",
  bpf_attr__bindgen_ty_14__bindgen_ty_3__bindgen_ty_6); ("uprobe_multi",
  bpf_attr__bindgen_ty_14__bindgen_ty_3__bindgen_ty_7); ("netkit",
  bpf_attr__bindgen_ty_14__bindgen_ty_3__bindgen_ty_8); ("cgroup",
  bpf_attr__bindgen_ty_14__bindgen_ty_3__bindgen_ty_9)].

Definition bpf_attr__bindgen_ty_14 : ctype := CStruct 1 [("__bindgen_anon_1",
  bpf_attr__bindgen_ty_14__bindgen_ty_1); ("__bindgen_anon_2",
  bpf_attr__bindgen_ty_14__bindgen_ty_2); ("attach_type", __u32); ("flags", __u32);
  ("__bindgen_anon_3", bpf_attr__bindgen_ty_14__bindgen_ty_3)].

Definition bpf_attr__bindgen_ty_15__bindgen_ty_1 : ctype := CUnion 1 [("new_prog_fd", __u32);
  ("new_map_fd", __u32)].

Definition bpf_attr__bindgen_ty_15__bindgen_ty_2 : ctype := CUnion 1 [("old_prog_fd", __u32);
  ("old_map_fd", __u32)].

Definition bpf_attr__bindgen_ty_15 : ctype := CStruct 1 [("link_fd", __u32);
  ("__bindgen_anon_1", bpf_attr__bindgen_ty_15__bindgen_ty_1); ("flags", __u32);
  ("__bindgen_anon_2", bpf_attr__bindgen_ty_15__bindgen_ty_2)].

Definition bpf_attr__bindgen_ty_16 : ctype := CStruct 1 [("link_fd", __u32)].

Definition bpf_attr__bindgen_ty_17 : ctype := CStruct 1 [("type_", __u32)].

Definition bpf_attr__bindgen_ty_18 : ctype := CStruct 1 [("link_fd", __u32); ("flags", __u32)].

Definition bpf_attr__bindgen_ty_19 : ctype := CStruct 1 [("prog_fd", __u32); ("map_fd", __u32);
  ("flags", __u32)].

Definition bpf_attr__bindgen_ty_20 : ctype := CStruct 1 [("flags", __u32); ("bpffs_fd", __u32)].

Definition bpf_attr__bindgen_ty_21 : ctype := CStruct 1 [("stream_buf", __u64);
  ("stream_buf_len", __u32); ("stream_id", __u32); ("prog_fd", __u32)].

Definition bpf_attr__bindgen_ty_22 : ctype := CStruct 1 [("map_fd", __u32); ("prog_fd", __u32);
  ("flags", __u32)].

Definition bpf_attr : ctype := CUnion 1 [("__bindgen_anon_1", bpf_attr__bindgen_ty_1);
  ("__bindgen_anon_2", bpf_attr__bindgen_ty_2); ("batch", bpf_attr__bindgen_ty_3);
  ("__bindgen_anon_3", bpf_attr__bindgen_ty_4); ("__bindgen_anon_4", bpf_attr__bindgen_ty_5);
  ("__bindgen_anon_5", bpf_attr__bindgen_ty_6); ("test", bpf_attr__bindgen_ty_7);
  ("__bindgen_anon_6", bpf_attr__bindgen_ty_8); ("info", bpf_attr__bindgen_ty_9); ("query",
  bpf_attr__bindgen_ty_10); ("raw_tracepoint", bpf_attr__bindgen_ty_11); ("__bindgen_anon_7",
  bpf_attr__bindgen_ty_12); ("task_fd_query", bpf_attr__bindgen_ty_13); ("link_create",
  bpf_attr__bindgen_ty_14); ("link_update", bpf_attr__bindgen_ty_15); ("link_detach",
  bpf_attr__bindgen_ty_16); ("enable_stats", bpf_attr__bindgen_ty_17); ("iter_create",
  bpf_attr__bindgen_ty_18); ("prog_bind_map", bpf_attr__bindgen_ty_19); ("token_create",
  bpf_attr__bindgen_ty_20); ("prog_stream_read", bpf_attr__bindgen_ty_21);
  ("prog_assoc_struct_ops", bpf_attr__bindgen_ty_22)].

Definition bpf_run_ctx : ctype := CStruct 1 [].

Definition bpf_link__bindgen_ty_1 : ctype := CUnion 1 [("rcu", callback_head); ("work",
  work_struct)].

Definition bpf_link : ctype := CStruct 1 [("refcnt", atomic64_t); ("id", u32_); ("type_",
  bpf_link_type__Type); ("ops", CPtr); ("prog", CPtr); ("flags", u32_); ("attach_type",
  bpf_attach_type__Type); ("__bindgen_anon_1", bpf_link__bindgen_ty_1); ("sleepable", bool_)].

Definition bpf_cgroup_storage_key : ctype := CStruct 1 [("cgroup_inode_id", __u64);
  ("attach_type", __u32)].

Definition bpf_cgroup_storage__bindgen_ty_1 : ctype := CUnion 1 [("buf", CPtr); ("percpu_buf",
  CPtr)].

Definition bpf_cgroup_storage : ctype := CStruct 1 [("__bindgen_anon_1",
  bpf_cgroup_storage__bindgen_ty_1); ("map", CPtr); ("key", bpf_cgroup_storage_key);
  ("list_map", list_head); ("list_cg", list_head); ("node", rb_node); ("rcu", callback_head)].

Definition bpf_cgroup_storage_map : ctype := CStruct 1 [("map", bpf_map); ("lock", spinlock_t);
  ("root", rb_root); ("list", list_head)].

Definition gro_list : ctype := CStruct 1 [("list", list_head); ("count", c_int)].

Definition gro_node : ctype := CStruct 1 [("bitmask", c_ulong); ("hash", CArray 8 gro_list);
  ("rx_list", list_head); ("rx_count", u32_); ("cached_napi_id", u32_)].

Definition bpf_ctx_arg_aux : ctype := CStruct 1 [("offset", u32_); ("reg_type",
  bpf_reg_type__Type); ("btf", CPtr); ("btf_id", u32_); ("ref_obj_id", u32_); ("refcounted",
  bool_)].

Definition xdp_md : ctype := CStruct 1 [("data", __u32); ("data_end", __u32); ("data_meta",
  __u32); ("ingress_ifindex", __u32); ("rx_queue_index", __u32); ("egress_ifindex", __u32)].

Definition sk_msg_sg : ctype := CStruct 1 [("start", u32_); ("curr", u32_); ("end", u32_);
  ("size", u32_); ("copybreak", u32_); ("copy", CArray 1 c_ulong); ("data", CArray 19
  scatterlist)].

Definition sk_msg : ctype := CStruct 1 [("sg", sk_msg_sg); ("data", CPtr); ("data_end", CPtr);
  ("apply_bytes", u32_); ("cork_bytes", u32_); ("flags", u32_); ("skb", CPtr); ("sk_redir",
  CPtr); ("sk", CPtr); ("list", list_head)].

Definition bpf_ksym : ctype := CStruct 1 [("start", c_ulong); ("end", c_ulong); ("name", CArray
  512 c_char); ("lnode", list_head); ("tnode", latch_tree_node); ("prog", bool_); ("fp_start",
  u32_); ("fp_end", u32_)].

Definition bpf_prog_array_item__bindgen_ty_1 : ctype := CUnion 1 [("cgroup_storage", CArray 2
  CPtr); ("bpf_cookie", u64_)].

Definition bpf_prog_array_item : ctype := CStruct 1 [("prog", CPtr); ("__bindgen_anon_1",
  bpf_prog_array_item__bindgen_ty_1)].

Definition bpf_prog_array : ctype := CStruct 1 [("rcu", callback_head); ("items",
  __IncompleteArrayField bpf_prog_array_item)].

Definition bpf_func_info : ctype := CStruct 1 [("insn_off", __u32); ("type_id", __u32)].

Definition bpf_func_proto__bindgen_ty_1__bindgen_ty_1 : ctype := CStruct 1 [("arg1_type",
  bpf_arg_type__Type); ("arg2_type", bpf_arg_type__Type); ("arg3_type", bpf_arg_type__Type);
  ("arg4_type", bpf_arg_type__Type); ("arg5_type", bpf_arg_type__Type)].

Definition bpf_func_proto__bindgen_ty_1 : ctype := CUnion 1 [("__bindgen_anon_1",
  bpf_func_proto__bindgen_ty_1__bindgen_ty_1); ("arg_type", CArray 5 bpf_arg_type__Type)].

Definition bpf_func_proto__bindgen_ty_2__bindgen_ty_1 : ctype := CStruct 1 [("arg1_btf_id",
  CPtr); ("arg2_btf_id", CPtr); ("arg3_btf_id", CPtr); ("arg4_btf_id", CPtr); ("arg5_btf_id",
  CPtr)].

Definition bpf_func_proto__bindgen_ty_2__bindgen_ty_2 : ctype := CStruct 1 [("arg1_size", CU64);
  ("arg2_size", CU64); ("arg3_size", CU64); ("arg4_size", CU64); ("arg5_size", CU64)].

Definition bpf_func_proto__bindgen_ty_2 : ctype := CUnion 1 [("__bindgen_anon_1",
  bpf_func_proto__bindgen_ty_2__bindgen_ty_1); ("arg_btf_id", CArray 5 CPtr);
  ("__bindgen_anon_2", bpf_func_proto__bindgen_ty_2__bindgen_ty_2); ("arg_size", CArray 5
  CU64)].

Definition bpf_func_proto : ctype := CStruct 1 [("func", CPtr); ("gpl_only", bool_);
  ("pkt_access", bool_); ("might_sleep", bool_); ("allow_fastcall", bool_); ("ret_type",
  bpf_return_type__Type); ("__bindgen_anon_1", bpf_func_proto__bindgen_ty_1);
  ("__bindgen_anon_2", bpf_func_proto__bindgen_ty_2); ("ret_btf_id", CPtr); ("allowed", CPtr)].

Definition tnum : ctype := CStruct 1 [("value", u64_); ("mask", u64_)].

Definition bpf_reg_state__bindgen_ty_1__bindgen_ty_1 : ctype := CStruct 1 [("map_ptr", CPtr);
  ("map_uid", u32_)].

Definition bpf_reg_state__bindgen_ty_1__bindgen_ty_2 : ctype := CStruct 1 [("btf", CPtr);
  ("btf_id", u32_)].

Definition bpf_reg_state__bindgen_ty_1__bindgen_ty_3 : ctype := CStruct 1 [("mem_size", u32_);
  ("dynptr_id", u32_)].

Definition bpf_reg_state__bindgen_ty_1__bindgen_ty_4 : ctype := CStruct 1 [("type_",
  bpf_dynptr_type__Type); ("first_slot", bool_)].

Definition bpf_reg_state__bindgen_ty_1__bindgen_ty_6 : ctype := CStruct 1 [("kfunc_class",
  bpf_reg_state__bindgen_ty_1__bindgen_ty_6__bindgen_ty_1__Type)].

Definition bpf_reg_state__bindgen_ty_1__bindgen_ty_7 : ctype := CStruct 1 [("raw1", c_ulong);
  ("raw2", c_ulong)].

Definition bpf_reg_state__bindgen_ty_1 : ctype := CUnion 1 [("range", c_int);
  ("__bindgen_anon_1", bpf_reg_state__bindgen_ty_1__bindgen_ty_1); ("__bindgen_anon_2",
  bpf_reg_state__bindgen_ty_1__bindgen_ty_2); ("__bindgen_anon_3",
  bpf_reg_state__bindgen_ty_1__bindgen_ty_3); ("dynptr",
  bpf_reg_state__bindgen_ty_1__bindgen_ty_4); ("iter",
  bpf_reg_state__bindgen_ty_1__bindgen_ty_5); ("irq",
  bpf_reg_state__bindgen_ty_1__bindgen_ty_6); ("raw",
  bpf_reg_state__bindgen_ty_1__bindgen_ty_7); ("subprogno", u32_)].

Definition bpf_reg_state : ctype := CStruct 1 [("type_", bpf_reg_type__Type); ("off", s32);
  ("__bindgen_anon_1", bpf_reg_state__bindgen_ty_1); ("var_off", tnum); ("smin_value", s64);
  ("smax_value", s64); ("umin_value", u64_); ("umax_value", u64_); ("s32_min_value", s32);
  ("s32_max_value", s32); ("u32_min_value", u32_); ("u32_max_value", u32_); ("id", u32_);
  ("ref_obj_id", u32_); ("frameno", u32_); ("subreg_def", s32); ("precise", bool_)].

Definition bpf_retval_range : ctype := CStruct 1 [("minval", s32); ("maxval", s32)].

Definition bpf_func_state : ctype := CStruct 1 [("regs", CArray 11 bpf_reg_state); ("callsite",
  c_int); ("frameno", u32_); ("subprogno", u32_); ("async_entry_cnt", u32_);
  ("callback_ret_range", bpf_retval_range); ("in_callback_fn", bool_); ("in_async_callback_fn",
  bool_); ("in_exception_callback_fn", bool_); ("callback_depth", u32_); ("stack", CPtr);
  ("allocated_stack", c_int)].

Definition bpf_iarray : ctype := CStruct 1 [("cnt", c_int); ("items", __IncompleteArrayField
  u32_)].

Definition bpf_id_pair : ctype := CStruct 1 [("old", u32_); ("cur", u32_)].

Definition bpf_idmap : ctype := CStruct 1 [("tmp_id_gen", u32_); ("cnt", u32_); ("map", CArray
  600 bpf_id_pair)].

Definition bpf_idset__bindgen_ty_1 : ctype := CStruct 1 [("id", u32_); ("cnt", u32_)].

Definition bpf_idset : ctype := CStruct 1 [("num_ids", u32_); ("entries", CArray 600
  bpf_idset__bindgen_ty_1)].

Definition bpf_insn_access_aux__bindgen_ty_1__bindgen_ty_1 : ctype := CStruct 1 [("btf", CPtr);
  ("btf_id", u32_); ("ref_obj_id", u32_)].

Definition bpf_insn_access_aux__bindgen_ty_1 : ctype := CUnion 1 [("ctx_field_size", c_int);
  ("__bindgen_anon_1", bpf_insn_access_aux__bindgen_ty_1__bindgen_ty_1)].

Definition bpf_insn_access_aux : ctype := CStruct 1 [("reg_type", bpf_reg_type__Type);
  ("is_ldsx", bool_); ("__bindgen_anon_1", bpf_insn_access_aux__bindgen_ty_1); ("log", CPtr);
  ("is_retval", bool_)].

Definition bpf_iter_aux_info__bindgen_ty_1 : ctype := CStruct 1 [("start", CPtr); ("order",
  bpf_cgroup_iter_order__Type)].

Definition bpf_iter_aux_info__bindgen_ty_2 : ctype := CStruct 1 [("type_",
  bpf_iter_task_type__Type); ("pid", u32_)].

Definition bpf_iter_aux_info : ctype := CStruct 1 [("map", CPtr); ("cgroup",
  bpf_iter_aux_info__bindgen_ty_1); ("task", bpf_iter_aux_info__bindgen_ty_2)].

Definition bpf_iter_init_seq_priv_t : ctype := CPtr.

Definition bpf_iter_fini_seq_priv_t : ctype := CPtr.

Definition bpf_iter_seq_info : ctype := CStruct 1 [("seq_ops", CPtr); ("init_seq_private",
  bpf_iter_init_seq_priv_t); ("fini_seq_private", bpf_iter_fini_seq_priv_t); ("seq_priv_size",
  u32_)].

Definition vm_userfaultfd_ctx : ctype := CStruct 1 [("ctx", CPtr)].

Definition vm_area_struct__bindgen_ty_1__bindgen_ty_1 : ctype := CStruct 1 [("vm_start",
  c_ulong); ("vm_end", c_ulong)].

Definition vm_area_struct__bindgen_ty_1 : ctype := CUnion 1 [("__bindgen_anon_1",
  vm_area_struct__bindgen_ty_1__bindgen_ty_1); ("vm_freeptr", freeptr_t)].

Definition vm_area_struct__bindgen_ty_2 : ctype := CUnion 1 [("vm_flags", vm_flags_t); ("flags",
  vma_flags_t)].

Definition vm_area_struct__bindgen_ty_3 : ctype := CStruct 1 [("rb", rb_node);
  ("rb_subtree_last", c_ulong)].

Definition vm_area_struct : ctype := CStruct 1 [("__bindgen_anon_1",
  vm_area_struct__bindgen_ty_1); ("vm_mm", CPtr); ("vm_page_prot", pgprot_t);
  ("__bindgen_anon_2", vm_area_struct__bindgen_ty_2); ("vm_lock_seq", c_uint);
  ("anon_vma_chain", list_head); ("anon_vma", CPtr); ("vm_ops", CPtr); ("vm_pgoff", c_ulong);
  ("vm_file", CPtr); ("vm_private_data", CPtr); ("swap_readahead_info", atomic_long_t);
  ("vm_policy", CPtr); ("numab_state", CPtr); ("vm_refcnt", refcount_t); ("shared",
  vm_area_struct__bindgen_ty_3); ("anon_name", CPtr); ("vm_userfaultfd_ctx",
  vm_userfaultfd_ctx); ("pfnmap_track_ctx", CPtr)].

Definition bpf_jit_poke_descriptor__bindgen_ty_1__bindgen_ty_1 : ctype := CStruct 1 [("map",
  CPtr); ("key", u32_)].

Definition bpf_jit_poke_descriptor__bindgen_ty_1 : ctype := CUnion 1 [("tail_call",
  bpf_jit_poke_descriptor__bindgen_ty_1__bindgen_ty_1)].

Definition bpf_jit_poke_descriptor : ctype := CStruct 1 [("tailcall_target", CPtr);
  ("tailcall_bypass", CPtr); ("bypass_addr", CPtr); ("aux", CPtr); ("__bindgen_anon_1",
  bpf_jit_poke_descriptor__bindgen_ty_1); ("tailcall_target_stable", bool_); ("adj_off", u8_);
  ("reason", u16_); ("insn_idx", u32_)].

Definition bpf_kfunc_btf : ctype := CStruct 1 [("btf", CPtr); ("module", CPtr); ("offset",
  u16_)].

Definition bpf_kfunc_btf_tab : ctype := CStruct 1 [("descs", CArray 256 bpf_kfunc_btf);
  ("nr_descs", u32_)].

Definition bpf_kfunc_desc : ctype := CStruct 1 [("func_model", btf_func_model); ("func_id",
  u32_); ("imm", s32); ("offset", u16_); ("addr", c_ulong)].

Definition bpf_kfunc_desc_tab : ctype := CStruct 1 [("descs", CArray 256 bpf_kfunc_desc);
  ("nr_descs", u32_)].

Definition bpf_line_info : ctype := CStruct 1 [("insn_off", __u32); ("file_name_off", __u32);
  ("line_off", __u32); ("line_col", __u32)].

Definition bpf_link_info__bindgen_ty_1__bindgen_ty_1 : ctype := CStruct 1 [("tp_name", __u64);
  ("tp_name_len", __u32); ("cookie", __u64)].

Definition bpf_link_info__bindgen_ty_1__bindgen_ty_2 : ctype := CStruct 1 [("attach_type",
  __u32); ("target_obj_id", __u32); ("target_btf_id", __u32); ("cookie", __u64)].

Definition bpf_link_info__bindgen_ty_1__bindgen_ty_3 : ctype := CStruct 1 [("cgroup_id", __u64);
  ("attach_type", __u32)].

Definition bpf_link_info__bindgen_ty_1__bindgen_ty_4__bindgen_ty_1__bindgen_ty_1 : ctype :=
  CStruct 1 [("map_id", __u32)].

Definition bpf_link_info__bindgen_ty_1__bindgen_ty_4__bindgen_ty_1 : ctype := CUnion 1 [("map",
  bpf_link_info__bindgen_ty_1__bindgen_ty_4__bindgen_ty_1__bindgen_ty_1)].

Definition bpf_link_info__bindgen_ty_1__bindgen_ty_4__bindgen_ty_2__bindgen_ty_1 : ctype :=
  CStruct 1 [("cgroup_id", __u64); ("order", __u32)].

Definition bpf_link_info__bindgen_ty_1__bindgen_ty_4__bindgen_ty_2__bindgen_ty_2 : ctype :=
  CStruct 1 [("tid", __u32); ("pid", __u32)].

Definition bpf_link_info__bindgen_ty_1__bindgen_ty_4__bindgen_ty_2 : ctype := CUnion 1
  [("cgroup", bpf_link_info__bindgen_ty_1__bindgen_ty_4__bindgen_ty_2__bindgen_ty_1); ("task",
  bpf_link_info__bindgen_ty_1__bindgen_ty_4__bindgen_ty_2__bindgen_ty_2)].

Definition bpf_link_info__bindgen_ty_1__bindgen_ty_4 : ctype := CStruct 1 [("target_name",
  __u64); ("target_name_len", __u32); ("__bindgen_anon_1",
  bpf_link_info__bindgen_ty_1__bindgen_ty_4__bindgen_ty_1); ("__bindgen_anon_2",
  bpf_link_info__bindgen_ty_1__bindgen_ty_4__bindgen_ty_2)].

Definition bpf_link_info__bindgen_ty_1__bindgen_ty_5 : ctype := CStruct 1 [("netns_ino", __u32);
  ("attach_type", __u32)].

Definition bpf_link_info__bindgen_ty_1__bindgen_ty_6 : ctype := CStruct 1 [("ifindex", __u32)].

Definition bpf_link_info__bindgen_ty_1__bindgen_ty_7 : ctype := CStruct 1 [("map_id", __u32)].

Definition bpf_link_info__bindgen_ty_1__bindgen_ty_8 : ctype := CStruct 1 [("pf", __u32);
  ("hooknum", __u32); ("priority", __s32); ("flags", __u32)].

Definition bpf_link_info__bindgen_ty_1__bindgen_ty_9 : ctype := CStruct 1 [("addrs", __u64);
  ("count", __u32); ("flags", __u32); ("missed", __u64); ("cookies", __u64)].

Definition bpf_link_info__bindgen_ty_1__bindgen_ty_10 : ctype := CStruct 1 [("path", __u64);
  ("offsets", __u64); ("ref_ctr_offsets", __u64); ("cookies", __u64); ("path_size", __u32);
  ("count", __u32); ("flags", __u32); ("pid", __u32)].

Definition bpf_link_info__bindgen_ty_1__bindgen_ty_11__bindgen_ty_1__bindgen_ty_1 : ctype :=
  CStruct 1 [("file_name", __u64); ("name_len", __u32); ("offset", __u32); ("cookie", __u64);
  ("ref_ctr_offset", __u64)].

Definition bpf_link_info__bindgen_ty_1__bindgen_ty_11__bindgen_ty_1__bindgen_ty_2 : ctype :=
  CStruct 1 [("func_name", __u64); ("name_len", __u32); ("offset", __u32); ("addr", __u64);
  ("missed", __u64); ("cookie", __u64)].

Definition bpf_link_info__bindgen_ty_1__bindgen_ty_11__bindgen_ty_1__bindgen_ty_3 : ctype :=
  CStruct 1 [("tp_name", __u64); ("name_len", __u32); ("cookie", __u64)].

Definition bpf_link_info__bindgen_ty_1__bindgen_ty_11__bindgen_ty_1__bindgen_ty_4 : ctype :=
  CStruct 1 [("config", __u64); ("type_", __u32); ("cookie", __u64)].

Definition bpf_link_info__bindgen_ty_1__bindgen_ty_11__bindgen_ty_1 : ctype := CUnion 1
  [("uprobe", bpf_link_info__bindgen_ty_1__bindgen_ty_11__bindgen_ty_1__bindgen_ty_1);
  ("kprobe", bpf_link_info__bindgen_ty_1__bindgen_ty_11__bindgen_ty_1__bindgen_ty_2);
  ("tracepoint", bpf_link_info__bindgen_ty_1__bindgen_ty_11__bindgen_ty_1__bindgen_ty_3);
  ("event", bpf_link_info__bindgen_ty_1__bindgen_ty_11__bindgen_ty_1__bindgen_ty_4)].

Definition bpf_link_info__bindgen_ty_1__bindgen_ty_11 : ctype := CStruct 1 [("type_", __u32);
  ("__bindgen_anon_1", bpf_link_info__bindgen_ty_1__bindgen_ty_11__bindgen_ty_1)].

Definition bpf_link_info__bindgen_ty_1__bindgen_ty_12 : ctype := CStruct 1 [("ifindex", __u32);
  ("attach_type", __u32)].

Definition bpf_link_info__bindgen_ty_1__bindgen_ty_13 : ctype := CStruct 1 [("ifindex", __u32);
  ("attach_type", __u32)].

Definition bpf_link_info__bindgen_ty_1__bindgen_ty_14 : ctype := CStruct 1 [("map_id", __u32);
  ("attach_type", __u32)].

Definition bpf_link_info__bindgen_ty_1 : ctype := CUnion 1 [("raw_tracepoint",
  bpf_link_info__bindgen_ty_1__bindgen_ty_1); ("tracing",
  bpf_link_info__bindgen_ty_1__bindgen_ty_2); ("cgroup",
  bpf_link_info__bindgen_ty_1__bindgen_ty_3); ("iter",
  bpf_link_info__bindgen_ty_1__bindgen_ty_4); ("netns",
  bpf_link_info__bindgen_ty_1__bindgen_ty_5); ("xdp",
  bpf_link_info__bindgen_ty_1__bindgen_ty_6); ("struct_ops",
  bpf_link_info__bindgen_ty_1__bindgen_ty_7); ("netfilter",
  bpf_link_info__bindgen_ty_1__bindgen_ty_8); ("kprobe_multi",
  bpf_link_info__bindgen_ty_1__bindgen_ty_9); ("uprobe_multi",
  bpf_link_info__bindgen_ty_1__bindgen_ty_10); ("perf_event",
  bpf_link_info__bindgen_ty_1__bindgen_ty_11); ("tcx",
  bpf_link_info__bindgen_ty_1__bindgen_ty_12); ("netkit",
  bpf_link_info__bindgen_ty_1__bindgen_ty_13); ("sockmap",
  bpf_link_info__bindgen_ty_1__bindgen_ty_14)].

Definition bpf_link_info : ctype := CStruct 1 [("type_", __u32); ("id", __u32); ("prog_id",
  __u32); ("__bindgen_anon_1", bpf_link_info__bindgen_ty_1)].

Definition bpf_link_ops : ctype := CStruct 1 [("release", CPtr); ("dealloc", CPtr);
  ("dealloc_deferred", CPtr); ("detach", CPtr); ("update_prog", CPtr); ("show_fdinfo", CPtr);
  ("fill_link_info", CPtr); ("update_map", CPtr); ("poll", CPtr)].

Definition live_stack_query : ctype := CStruct 1 [("instances", CArray 8 CPtr); ("curframe",
  u32_); ("insn_idx", u32_)].

Definition bpf_liveness : ctype := CStruct 1 [("func_instances", CArray 256 hlist_head);
  ("live_stack_query", live_stack_query); ("cur_instance", CPtr); ("write_masks_acc", CArray 8
  u64_); ("write_insn_idx", u32_)].

Definition bpf_local_storage : ctype := CStruct 1 [("cache", CArray 16 CPtr); ("list",
  hlist_head); ("owner", CPtr); ("rcu", callback_head); ("lock", rqspinlock_t); ("mem_charge",
  u64_); ("owner_refcnt", refcount_t); ("use_kmalloc_nolock", bool_)].

Definition bpf_local_storage_data : ctype := CStruct 1 [("smap", CPtr); ("data",
  __IncompleteArrayField u8_)].

Definition bpf_local_storage_map : ctype := CStruct 1 [("map", bpf_map); ("buckets", CPtr);
  ("bucket_log", u32_); ("elem_size", u16_); ("cache_idx", u16_); ("use_kmalloc_nolock",
  bool_)].

Definition bpf_local_storage_map_bucket : ctype := CStruct 1 [("list", hlist_head); ("lock",
  rqspinlock_t)].

Definition bpf_map_dev_ops : ctype := CStruct 1 [("map_get_next_key", CPtr); ("map_lookup_elem",
  CPtr); ("map_update_elem", CPtr); ("map_delete_elem", CPtr)].

Definition bpf_map_ops : ctype := CStruct 1 [("map_alloc_check", CPtr); ("map_alloc", CPtr);
  ("map_release", CPtr); ("map_free", CPtr); ("map_get_next_key", CPtr); ("map_release_uref",
  CPtr); ("map_lookup_elem_sys_only", CPtr); ("map_lookup_batch", CPtr);
  ("map_lookup_and_delete_elem", CPtr); ("map_lookup_and_delete_batch", CPtr);
  ("map_update_batch", CPtr); ("map_delete_batch", CPtr); ("map_lookup_elem", CPtr);
  ("map_update_elem", CPtr); ("map_delete_elem", CPtr); ("map_push_elem", CPtr);
  ("map_pop_elem", CPtr); ("map_peek_elem", CPtr); ("map_lookup_percpu_elem", CPtr);
  ("map_get_hash", CPtr); ("map_fd_get_ptr", CPtr); ("map_fd_put_ptr", CPtr); ("map_gen_lookup",
  CPtr); ("map_fd_sys_lookup_elem", CPtr); ("map_seq_show_elem", CPtr); ("map_check_btf", CPtr);
  ("map_poke_track", CPtr); ("map_poke_untrack", CPtr); ("map_poke_run", CPtr);
  ("map_direct_value_addr", CPtr); ("map_direct_value_meta", CPtr); ("map_mmap", CPtr);
  ("map_poll", CPtr); ("map_get_unmapped_area", CPtr); ("map_local_storage_charge", CPtr);
  ("map_local_storage_uncharge", CPtr); ("map_owner_storage_ptr", CPtr); ("map_redirect", CPtr);
  ("map_meta_equal", CPtr); ("map_set_for_each_callback_args", CPtr); ("map_for_each_callback",
  CPtr); ("map_mem_usage", CPtr); ("map_btf_id", CPtr); ("iter_seq_info", CPtr)].

Definition bpf_map_owner : ctype := CStruct 1 [("type_", bpf_prog_type__Type); ("jited", bool_);
  ("xdp_has_frags", bool_); ("sleepable", bool_); ("storage_cookie", CArray 2 u64_);
  ("attach_func_proto", CPtr); ("expected_attach_type", bpf_attach_type__Type)].

Definition bpf_mprog_fp : ctype := CStruct 1 [("prog", CPtr)].

Definition bpf_mprog_entry : ctype := CStruct 1 [("fp_items", CArray 64 bpf_mprog_fp);
  ("parent", CPtr)].

Definition bpf_mprog_cp : ctype := CStruct 1 [("link", CPtr)].

Definition bpf_mprog_bundle : ctype := CStruct 1 [("a", bpf_mprog_entry); ("b",
  bpf_mprog_entry); ("cp_items", CArray 64 bpf_mprog_cp); ("ref_", CPtr); ("revision",
  atomic64_t); ("count", u32_)].

Definition bpf_nh_params__bindgen_ty_1 : ctype := CUnion 1 [("ipv4_nh", u32_); ("ipv6_nh",
  in6_addr)].

Definition bpf_nh_params : ctype := CStruct 1 [("nh_family", u32_); ("__bindgen_anon_1",
  bpf_nh_params__bindgen_ty_1)].

Definition bpf_redirect_info : ctype := CStruct 1 [("tgt_index", u64_); ("tgt_value", CPtr);
  ("map", CPtr); ("flags", u32_); ("map_id", u32_); ("map_type", bpf_map_type__Type); ("nh",
  bpf_nh_params); ("kern_flags", u32_)].

Definition bpf_net_context : ctype := CStruct 1 [("ri", bpf_redirect_info);
  ("cpu_map_flush_list", list_head); ("dev_map_flush_list", list_head);
  ("xskmap_map_flush_list", list_head)].

Definition bpf_offload_dev : ctype := CStruct 1 [("ops", CPtr); ("netdevs", list_head);
  ("priv_", CPtr)].

Definition bpf_offloaded_map : ctype := CStruct 1 [("map", bpf_map); ("netdev", CPtr);
  ("dev_ops", CPtr); ("dev_priv", CPtr); ("offloads", list_head)].

Definition bpf_stream : ctype := CStruct 1 [("capacity", atomic_t); ("log", llist_head);
  ("lock", mutex); ("backlog_head", CPtr); ("backlog_tail", CPtr)].

Definition bpf_prog_aux__bindgen_ty_1 : ctype := CUnion 1 [("work", work_struct); ("rcu",
  callback_head)].

Definition bpf_prog_aux : ctype := CStruct 1 [("refcnt", atomic64_t); ("used_map_cnt", u32_);
  ("used_btf_cnt", u32_); ("max_ctx_offset", u32_); ("max_pkt_offset", u32_); ("max_tp_access",
  u32_); ("stack_depth", u32_); ("id", u32_); ("func_cnt", u32_); ("real_func_cnt", u32_);
  ("func_idx", u32_); ("attach_btf_id", u32_); ("attach_st_ops_member_off", u32_);
  ("ctx_arg_info_size", u32_); ("max_rdonly_access", u32_); ("max_rdwr_access", u32_);
  ("subprog_start", u32_); ("attach_btf", CPtr); ("ctx_arg_info", CPtr); ("priv_stack_ptr",
  CPtr); ("dst_mutex", mutex); ("dst_prog", CPtr); ("dst_trampoline", CPtr);
  ("saved_dst_prog_type", bpf_prog_type__Type); ("saved_dst_attach_type",
  bpf_attach_type__Type); ("verifier_zext", bool_); ("dev_bound", bool_); ("offload_requested",
  bool_); ("attach_btf_trace", bool_); ("attach_tracing_prog", bool_); ("func_proto_unreliable",
  bool_); ("tail_call_reachable", bool_); ("xdp_has_frags", bool_); ("exception_cb", bool_);
  ("exception_boundary", bool_); ("is_extended", bool_); ("jits_use_priv_stack", bool_);
  ("priv_stack_requested", bool_); ("changes_pkt_data", bool_); ("might_sleep", bool_);
  ("kprobe_write_ctx", bool_); ("prog_array_member_cnt", u64_); ("ext_mutex", mutex); ("arena",
  CPtr); ("recursion_detected", CPtr); ("attach_func_proto", CPtr); ("attach_func_name", CPtr);
  ("func", CPtr); ("main_prog_aux", CPtr); ("jit_data", CPtr); ("poke_tab", CPtr); ("kfunc_tab",
  CPtr); ("kfunc_btf_tab", CPtr); ("size_poke_tab", u32_); ("ksym", bpf_ksym); ("ops", CPtr);
  ("st_ops", CPtr); ("used_maps", CPtr); ("used_maps_mutex", mutex); ("used_btfs", CPtr);
  ("prog", CPtr); ("user", CPtr); ("load_time", u64_); ("verified_insns", u32_);
  ("cgroup_atype", c_int); ("cgroup_storage", CArray 2 CPtr); ("name", CArray 16 c_char);
  ("bpf_exception_cb", CPtr); ("security", CPtr); ("token", CPtr); ("offload", CPtr); ("btf",
  CPtr); ("func_info", CPtr); ("func_info_aux", CPtr); ("linfo", CPtr); ("jited_linfo", CPtr);
  ("func_info_cnt", u32_); ("nr_linfo", u32_); ("linfo_idx", u32_); ("mod_", CPtr);
  ("num_exentries", u32_); ("extable", CPtr); ("__bindgen_anon_1", bpf_prog_aux__bindgen_ty_1);
  ("stream", CArray 2 bpf_stream); ("st_ops_assoc_mutex", mutex); ("st_ops_assoc", CPtr)].

Definition bpf_prog_offload : ctype := CStruct 1 [("prog", CPtr); ("netdev", CPtr); ("offdev",
  CPtr); ("dev_priv", CPtr); ("offloads", list_head); ("dev_state", bool_); ("opt_failed",
  bool_); ("jited_image", CPtr); ("jited_len", u32_)].

Definition bpf_prog_offload_ops : ctype := CStruct 1 [("insn_hook", CPtr); ("finalize", CPtr);
  ("replace_insn", CPtr); ("remove_insns", CPtr); ("prepare", CPtr); ("translate", CPtr);
  ("destroy", CPtr)].

Definition bpf_prog_ops : ctype := CStruct 1 [("test_run", CPtr)].

Definition bpf_reference_state : ctype := CStruct 1 [("type_", ref_state_type__Type); ("id",
  c_int); ("insn_idx", c_int); ("ptr", CPtr)].

Definition bpf_verifier_state : ctype := CStruct 1 [("frame", CArray 8 CPtr); ("parent", CPtr);
  ("refs", CPtr); ("branches", u32_); ("insn_idx", u32_); ("curframe", u32_); ("acquired_refs",
  u32_); ("active_locks", u32_); ("active_preempt_locks", u32_); ("active_irq_id", u32_);
  ("active_lock_id", u32_); ("active_lock_ptr", CPtr); ("active_rcu_locks", u32_);
  ("speculative", bool_); ("in_sleepable", bool_); ("cleaned", bool_); ("first_insn_idx", u32_);
  ("last_insn_idx", u32_); ("equal_state", CPtr); ("jmp_history", CPtr); ("jmp_history_cnt",
  u32_); ("dfs_depth", u32_); ("callback_unroll_depth", u32_); ("may_goto_depth", u32_)].

Definition bpf_scc_backedge : ctype := CStruct 1 [("next", CPtr); ("state",
  bpf_verifier_state)].

Definition bpf_scc_callchain : ctype := CStruct 1 [("callsites", CArray 7 u32_); ("scc", u32_)].

Definition bpf_scc_visit : ctype := CStruct 1 [("callchain", bpf_scc_callchain); ("entry_state",
  CPtr); ("backedges", CPtr); ("num_backedges", u32_)].

Definition bpf_scc_info : ctype := CStruct 1 [("num_visits", u32_); ("visits",
  __IncompleteArrayField bpf_scc_visit)].

Definition sk_psock_progs : ctype := CStruct 1 [("msg_parser", CPtr); ("stream_parser", CPtr);
  ("stream_verdict", CPtr); ("skb_verdict", CPtr); ("msg_parser_link", CPtr);
  ("stream_parser_link", CPtr); ("stream_verdict_link", CPtr); ("skb_verdict_link", CPtr)].

Definition bpf_stack_state : ctype := CStruct 1 [("spilled_ptr", bpf_reg_state); ("slot_type",
  CArray 8 u8_)].

Definition bpf_storage_buffer : ctype := CStruct 1 [("rcu", callback_head); ("data",
  __IncompleteArrayField c_char)].

Definition bpf_struct_ops : ctype := CStruct 1 [("verifier_ops", CPtr); ("init", CPtr);
  ("check_member", CPtr); ("init_member", CPtr); ("reg", CPtr); ("unreg", CPtr); ("update",
  CPtr); ("validate", CPtr); ("cfi_stubs", CPtr); ("owner", CPtr); ("name", CPtr);
  ("func_models", CArray 64 btf_func_model)].

Definition bpf_struct_ops_arg_info : ctype := CStruct 1 [("info", CPtr); ("cnt", u32_)].

Definition bpf_struct_ops_desc : ctype := CStruct 1 [("st_ops", CPtr); ("type_", CPtr);
  ("value_type", CPtr); ("type_id", u32_); ("value_id", u32_); ("arg_info", CPtr)].

Definition tcp_congestion_ops : ctype := CStruct 1 [("cong_avoid", CPtr); ("cong_control",
  CPtr); ("ssthresh", CPtr); ("set_state", CPtr); ("cwnd_event", CPtr); ("in_ack_event", CPtr);
  ("pkts_acked", CPtr); ("min_tso_segs", CPtr); ("undo_cwnd", CPtr); ("sndbuf_expand", CPtr);
  ("get_info", CPtr); ("name", CArray 16 c_char); ("owner", CPtr); ("list", list_head); ("key",
  u32_); ("flags", u32_); ("init", CPtr); ("release", CPtr); ("_bitfield_align_1", CArray 0
  CU8); ("_bitfield_1", __BindgenBitfieldUnit 40)].

Definition bpf_token : ctype := CStruct 1 [("work", work_struct); ("refcnt", atomic64_t);
  ("userns", CPtr); ("allowed_cmds", u64_); ("allowed_maps", u64_); ("allowed_progs", u64_);
  ("allowed_attachs", u64_); ("security", CPtr)].

Definition bpf_tramp_image__bindgen_ty_1 : ctype := CUnion 1 [("rcu", callback_head); ("work",
  work_struct)].

Definition bpf_tramp_image : ctype := CStruct 1 [("image", CPtr); ("size", c_int); ("ksym",
  bpf_ksym); ("pcref", percpu_ref); ("ip_after_call", CPtr); ("ip_epilogue", CPtr);
  ("__bindgen_anon_1", bpf_tramp_image__bindgen_ty_1)].

Definition bpf_trampoline__bindgen_ty_1 : ctype := CStruct 1 [("model", btf_func_model);
  ("addr", CPtr); ("ftrace_managed", bool_)].

Definition bpf_trampoline : ctype := CStruct 1 [("hlist_key", hlist_node); ("hlist_ip",
  hlist_node); ("fops", CPtr); ("mutex", mutex); ("refcnt", refcount_t); ("flags", u32_);
  ("key", u64_); ("ip", c_ulong); ("func", bpf_trampoline__bindgen_ty_1); ("extension_prog",
  CPtr); ("progs_hlist", CArray 3 hlist_head); ("progs_cnt", CArray 3 c_int); ("cur_image",
  CPtr)].

Definition btf_mod_pair : ctype := CStruct 1 [("btf", CPtr); ("module", CPtr)].

Definition bpf_verifier_log : ctype := CStruct 1 [("start_pos", u64_); ("end_pos", u64_);
  ("ubuf", CPtr); ("level", u32_); ("len_total", u32_); ("len_max", u32_); ("kbuf", CArray 1024
  c_char)].

Definition bpf_verifier_env__bindgen_ty_1 : ctype := CUnion 1 [("idmap_scratch", bpf_idmap);
  ("idset_scratch", bpf_idset)].

Definition bpf_verifier_env__bindgen_ty_2 : ctype := CStruct 1 [("insn_state", CPtr);
  ("insn_stack", CPtr); ("insn_postorder", CPtr); ("cur_stack", c_int); ("cur_postorder",
  c_int)].

Definition bpfptr_t : ctype := sockptr_t.

Definition bpf_verifier_env : ctype := CStruct 1 [("insn_idx", u32_); ("prev_insn_idx", u32_);
  ("prog", CPtr); ("ops", CPtr); ("attach_btf_mod", CPtr); ("head", CPtr); ("stack_size",
  c_int); ("strict_alignment", bool_); ("test_state_freq", bool_); ("test_reg_invariants",
  bool_); ("cur_state", CPtr); ("explored_states", CPtr); ("free_list", list_head);
  ("used_maps", CArray 64 CPtr); ("used_btfs", CArray 64 btf_mod_pair); ("insn_array_maps",
  CArray 64 CPtr); ("used_map_cnt", u32_); ("used_btf_cnt", u32_); ("insn_array_map_cnt", u32_);
  ("id_gen", u32_); ("hidden_subprog_cnt", u32_); ("exception_callback_subprog", c_int);
  ("explore_alu_limits", bool_); ("allow_ptr_leaks", bool_); ("allow_uninit_stack", bool_);
  ("bpf_capable", bool_); ("bypass_spec_v1", bool_); ("bypass_spec_v4", bool_);
  ("seen_direct_write", bool_); ("seen_exception", bool_); ("insn_aux_data", CPtr);
  ("prev_linfo", CPtr); ("log", bpf_verifier_log); ("subprog_info", CArray 258
  bpf_subprog_info); ("__bindgen_anon_1", bpf_verifier_env__bindgen_ty_1); ("cfg",
  bpf_verifier_env__bindgen_ty_2); ("bt", backtrack_state); ("cur_hist_ent", CPtr); ("pass_cnt",
  u32_); ("subprog_cnt", u32_); ("prev_insn_processed", u32_); ("insn_processed", u32_);
  ("prev_jmps_processed", u32_); ("jmps_processed", u32_); ("verification_time", u64_);
  ("max_states_per_insn", u32_); ("total_states", u32_); ("peak_states", u32_);
  ("longest_mark_read_walk", u32_); ("free_list_size", u32_); ("explored_states_size", u32_);
  ("num_backedges", u32_); ("fd_array", bpfptr_t); ("scratched_regs", u32_);
  ("scratched_stack_slots", u64_); ("prev_log_pos", u64_); ("prev_insn_print_pos", u64_);
  ("fake_reg", CArray 2 bpf_reg_state); ("tmp_str_buf", CArray 320 c_char); ("insn_buf", CArray
  32 bpf_insn); ("epilogue_buf", CArray 32 bpf_insn); ("callchain_buf", bpf_scc_callchain);
  ("liveness", CPtr); ("scc_info", CPtr); ("scc_cnt", u32_); ("succ", CPtr); ("gotox_tmp_buf",
  CPtr)].

Definition bpf_verifier_ops : ctype := CStruct 1 [("get_func_proto", CPtr); ("is_valid_access",
  CPtr); ("gen_prologue", CPtr); ("gen_epilogue", CPtr); ("gen_ld_abs", CPtr);
  ("convert_ctx_access", CPtr); ("btf_struct_access", CPtr)].

Definition bpf_verifier_stack_elem : ctype := CStruct 1 [("st", bpf_verifier_state);
  ("insn_idx", c_int); ("prev_insn_idx", c_int); ("next", CPtr); ("log_pos", u32_)].

Definition bpf_xdp_link : ctype := CStruct 1 [("link", bpf_link); ("dev", CPtr); ("flags",
  c_int)].

Definition trace_entry : ctype := CStruct 1 [("type_", c_ushort); ("flags", c_uchar);
  ("preempt_count", c_uchar); ("pid", c_int)].

Definition fs_pin : ctype := CStruct 1 [("wait", wait_queue_head_t); ("done", c_int); ("s_list",
  hlist_node); ("m_list", hlist_node); ("kill", CPtr)].

Definition cdev : ctype := CStruct 1 [("kobj", kobject); ("owner", CPtr); ("ops", CPtr);
  ("list", list_head); ("dev", dev_t); ("count", c_uint)].

Definition btf_header : ctype := CStruct 1 [("magic", __u16); ("version", __u8); ("flags",
  __u8); ("hdr_len", __u32); ("type_off", __u32); ("type_len", __u32); ("str_off", __u32);
  ("str_len", __u32)].

Definition btf : ctype := CStruct 1 [("data", CPtr); ("types", CPtr); ("resolved_ids", CPtr);
  ("resolved_sizes", CPtr); ("strings", CPtr); ("nohdr_data", CPtr); ("hdr", btf_header);
  ("nr_types", u32_); ("named_start_id", u32_); ("types_size", u32_); ("data_size", u32_);
  ("refcnt", refcount_t); ("id", u32_); ("rcu", callback_head); ("kfunc_set_tab", CPtr);
  ("dtor_kfunc_tab", CPtr); ("struct_meta_tab", CPtr); ("struct_ops_tab", CPtr); ("base_btf",
  CPtr); ("start_id", u32_); ("start_str_off", u32_); ("name", CArray 56 c_char); ("kernel_btf",
  bool_); ("base_id_map", CPtr)].

Definition btf_dtor_kfunc_t : ctype := CPtr.

Definition btf_field_kptr : ctype := CStruct 1 [("btf", CPtr); ("module", CPtr); ("dtor",
  btf_dtor_kfunc_t); ("btf_id", u32_)].

Definition btf_field_graph_root : ctype := CStruct 1 [("btf", CPtr); ("value_btf_id", u32_);
  ("node_offset", u32_); ("value_rec", CPtr)].

Definition btf_field__bindgen_ty_1 : ctype := CUnion 1 [("kptr", btf_field_kptr); ("graph_root",
  btf_field_graph_root)].

Definition btf_field : ctype := CStruct 1 [("offset", u32_); ("size", u32_); ("type_",
  btf_field_type__Type); ("__bindgen_anon_1", btf_field__bindgen_ty_1)].

Definition btf_id_dtor_kfunc : ctype := CStruct 1 [("btf_id", u32_); ("kfunc_btf_id", u32_)].

Definition btf_id_dtor_kfunc_tab : ctype := CStruct 1 [("cnt", u32_); ("dtors",
  __IncompleteArrayField btf_id_dtor_kfunc)].

Definition btf_id_set8__bindgen_ty_1 : ctype := CStruct 1 [("id", u32_); ("flags", u32_)].

Definition btf_id_set8 : ctype := CStruct 1 [("cnt", u32_); ("flags", u32_); ("pairs",
  __IncompleteArrayField btf_id_set8__bindgen_ty_1)].

Definition btf_kfunc_filter_t : ctype := CPtr.

Definition btf_kfunc_hook_filter : ctype := CStruct 1 [("filters", CArray 16
  btf_kfunc_filter_t); ("nr_filters", u32_)].

Definition btf_kfunc_set_tab : ctype := CStruct 1 [("sets", CArray 14 CPtr); ("hook_filters",
  CArray 14 btf_kfunc_hook_filter)].

Definition btf_member : ctype := CStruct 1 [("name_off", __u32); ("type_", __u32); ("offset",
  __u32)].

Definition btf_record : ctype := CStruct 1 [("cnt", u32_); ("field_mask", u32_);
  ("spin_lock_off", c_int); ("res_spin_lock_off", c_int); ("timer_off", c_int); ("wq_off",
  c_int); ("refcount_off", c_int); ("task_work_off", c_int); ("fields", __IncompleteArrayField
  btf_field)].

Definition btf_struct_meta : ctype := CStruct 1 [("btf_id", u32_); ("record", CPtr)].

Definition btf_struct_metas : ctype := CStruct 1 [("cnt", u32_); ("types",
  __IncompleteArrayField btf_struct_meta)].

Definition btf_struct_ops_tab : ctype := CStruct 1 [("cnt", u32_); ("capacity", u32_); ("ops",
  __IncompleteArrayField bpf_struct_ops_desc)].

Definition btf_type__bindgen_ty_1 : ctype := CUnion 1 [("size", __u32); ("type_", __u32)].

Definition btf_type : ctype := CStruct 1 [("name_off", __u32); ("info", __u32);
  ("__bindgen_anon_1", btf_type__bindgen_ty_1)].

Definition semaphore : ctype := CStruct 1 [("lock", raw_spinlock_t); ("count", c_uint);
  ("wait_list", list_head); ("last_holder", c_ulong)].

Definition blk_features_t : ctype := c_uint.

Definition blk_flags_t : ctype := c_uint.

Definition queue_limits : ctype := CStruct 1 [("features", blk_features_t); ("flags",
  blk_flags_t); ("seg_boundary_mask", c_ulong); ("virt_boundary_mask", c_ulong);
  ("max_hw_sectors", c_uint); ("max_dev_sectors", c_uint); ("chunk_sectors", c_uint);
  ("max_sectors", c_uint); ("max_user_sectors", c_uint); ("max_segment_size", c_uint);
  ("max_fast_segment_size", c_uint); ("physical_block_size", c_uint); ("logical_block_size",
  c_uint); ("alignment_offset", c_uint); ("io_min", c_uint); ("io_opt", c_uint);
  ("max_discard_sectors", c_uint); ("max_hw_discard_sectors", c_uint);
  ("max_user_discard_sectors", c_uint); ("max_secure_erase_sectors", c_uint);
  ("max_write_zeroes_sectors", c_uint); ("max_wzeroes_unmap_sectors", c_uint);
  ("max_hw_wzeroes_unmap_sectors", c_uint); ("max_user_wzeroes_unmap_sectors", c_uint);
  ("max_hw_zone_append_sectors", c_uint); ("max_zone_append_sectors", c_uint);
  ("discard_granularity", c_uint); ("discard_alignment", c_uint); ("zone_write_granularity",
  c_uint); ("atomic_write_hw_max", c_uint); ("atomic_write_max_sectors", c_uint);
  ("atomic_write_hw_boundary", c_uint); ("atomic_write_boundary_sectors", c_uint);
  ("atomic_write_hw_unit_min", c_uint); ("atomic_write_unit_min", c_uint);
  ("atomic_write_hw_unit_max", c_uint); ("atomic_write_unit_max", c_uint); ("max_segments",
  c_ushort); ("max_integrity_segments", c_ushort); ("max_discard_segments", c_ushort);
  ("max_write_streams", c_ushort); ("write_stream_granularity", c_uint); ("max_open_zones",
  c_uint); ("max_active_zones", c_uint); ("dma_alignment", c_uint); ("dma_pad_mask", c_uint);
  ("integrity", blk_integrity)].

Definition perf_output_handle__bindgen_ty_1 : ctype := CUnion 1 [("flags", u64_); ("aux_flags",
  u64_); ("__bindgen_anon_1", perf_output_handle__bindgen_ty_1__bindgen_ty_1)].

Definition perf_output_handle__bindgen_ty_2 : ctype := CUnion 1 [("addr", CPtr); ("head",
  c_ulong)].

Definition perf_output_handle : ctype := CStruct 1 [("event", CPtr); ("rb", CPtr); ("wakeup",
  c_ulong); ("size", c_ulong); ("__bindgen_anon_1", perf_output_handle__bindgen_ty_1);
  ("__bindgen_anon_2", perf_output_handle__bindgen_ty_2); ("page", c_int)].

Definition buffer_data_page : ctype := CStruct 1 [("time_stamp", u64_); ("commit", local_t);
  ("data", __IncompleteArrayField c_uchar)].

Definition bug_entry : ctype := CStruct 1 [("bug_addr_disp", c_int); ("format_disp", c_int);
  ("file_disp", c_int); ("line", c_ushort); ("flags", c_ushort)].

Definition phys_addr_t : ctype := u64_.

Definition bus_dma_region : ctype := CStruct 1 [("cpu_start", phys_addr_t); ("dma_start",
  dma_addr_t); ("size", u64_)].

Definition bus_type : ctype := CStruct 1 [("name", CPtr); ("dev_name", CPtr); ("bus_groups",
  CPtr); ("dev_groups", CPtr); ("drv_groups", CPtr); ("match_", CPtr); ("uevent", CPtr);
  ("probe", CPtr); ("sync_state", CPtr); ("remove", CPtr); ("shutdown", CPtr);
  ("irq_get_affinity", CPtr); ("online", CPtr); ("offline", CPtr); ("suspend", CPtr); ("resume",
  CPtr); ("num_vf", CPtr); ("dma_configure", CPtr); ("dma_cleanup", CPtr); ("pm", CPtr);
  ("driver_override", bool_); ("need_parent_lock", bool_)].

Definition cache_deferred_req : ctype := CStruct 1 [("hash", hlist_node); ("recent", list_head);
  ("item", CPtr); ("owner", CPtr); ("revisit", CPtr)].

Definition cache_head : ctype := CStruct 1 [("cache_list", hlist_node); ("expiry_time",
  time64_t); ("last_refresh", time64_t); ("ref_", kref); ("flags", c_ulong)].

Definition cache_req : ctype := CStruct 1 [("defer", CPtr); ("thread_wait", c_ulong)].

Definition callchain : ctype := CStruct 1 [("callsites", CArray 8 u32_); ("sp_starts", CArray 8
  u32_); ("curframe", u32_)].

Definition capture_control : ctype := CStruct 1 [("cc", CPtr); ("page", CPtr)].

Definition cdrom_msf0 : ctype := CStruct 1 [("minute", __u8); ("second", __u8); ("frame",
  __u8)].

Definition cdrom_addr : ctype := CUnion 1 [("msf", cdrom_msf0); ("lba", c_int)].

Definition cdrom_device_ops : ctype := CStruct 1 [("open", CPtr); ("release", CPtr);
  ("drive_status", CPtr); ("check_events", CPtr); ("tray_move", CPtr); ("lock_door", CPtr);
  ("select_speed", CPtr); ("get_last_session", CPtr); ("get_mcn", CPtr); ("reset", CPtr);
  ("audio_ioctl", CPtr); ("generic_packet", CPtr); ("read_cdda_bpc", CPtr); ("capability",
  c_int)].

Definition cdrom_mcn : ctype := CStruct 1 [("medium_catalog_number", CArray 14 __u8)].

Definition cdrom_multisession : ctype := CStruct 1 [("addr", cdrom_addr); ("xa_flag", __u8);
  ("addr_format", __u8)].

Definition cee_pfc : ctype := CStruct 1 [("willing", __u8); ("error", __u8); ("pfc_en", __u8);
  ("tcs_supported", __u8)].

Definition cee_pg : ctype := CStruct 1 [("willing", __u8); ("error", __u8); ("pg_en", __u8);
  ("tcs_supported", __u8); ("pg_bw", CArray 8 __u8); ("prio_pg", CArray 8 __u8)].

Definition cfg80211_ssid : ctype := CStruct 1 [("ssid", CArray 32 u8_); ("ssid_len", u8_)].

Definition cfg80211_match_set : ctype := CStruct 1 [("ssid", cfg80211_ssid); ("bssid", CArray 6
  u8_); ("rssi_thold", s32)].

Definition cfg80211_pkt_pattern : ctype := CStruct 1 [("mask", CPtr); ("pattern", CPtr);
  ("pattern_len", c_int); ("pkt_offset", c_int)].

Definition cfg80211_sar_capa : ctype := CStruct 1 [("type_", nl80211_sar_type__Type);
  ("num_freq_ranges", u32_); ("freq_ranges", CPtr)].

Definition cfg80211_sar_freq_ranges : ctype := CStruct 1 [("start_freq", u32_); ("end_freq",
  u32_)].

Definition cfg80211_sched_scan_plan : ctype := CStruct 1 [("interval", u32_); ("iterations",
  u32_)].

Definition cfg80211_sched_scan_request : ctype := CStruct 1 [("reqid", u64_); ("ssids", CPtr);
  ("n_ssids", c_int); ("n_channels", u32_); ("ie", CPtr); ("ie_len", CU64); ("flags", u32_);
  ("match_sets", CPtr); ("n_match_sets", c_int); ("min_rssi_thold", s32); ("delay", u32_);
  ("scan_plans", CPtr); ("n_scan_plans", c_int); ("mac_addr", CArray 6 u8_); ("mac_addr_mask",
  CArray 6 u8_); ("relative_rssi_set", bool_); ("relative_rssi", s8); ("rssi_adjust",
  cfg80211_bss_select_adjust); ("wiphy", CPtr); ("dev", CPtr); ("scan_start", c_ulong);
  ("report_results", bool_); ("callback_head", callback_head); ("owner_nlportid", u32_);
  ("nl_owner_dead", bool_); ("list", list_head); ("channels", __IncompleteArrayField CPtr)].

Definition cfg80211_wowlan : ctype := CStruct 1 [("any", bool_); ("disconnect", bool_);
  ("magic_pkt", bool_); ("gtk_rekey_failure", bool_); ("eap_identity_req", bool_);
  ("four_way_handshake", bool_); ("rfkill_release", bool_); ("patterns", CPtr); ("tcp", CPtr);
  ("n_patterns", c_int); ("nd_config", CPtr)].

Definition nl80211_wowlan_tcp_data_seq : ctype := CStruct 1 [("start", __u32); ("offset",
  __u32); ("len", __u32)].

Definition nl80211_wowlan_tcp_data_token : ctype := CStruct 1 [("offset", __u32); ("len",
  __u32); ("token_stream", __IncompleteArrayField __u8)].

Definition cfg80211_wowlan_tcp : ctype := CStruct 1 [("sock", CPtr); ("src", __be32); ("dst",
  __be32); ("src_port", u16_); ("dst_port", u16_); ("dst_mac", CArray 6 u8_); ("payload_len",
  c_int); ("payload", CPtr); ("payload_seq", nl80211_wowlan_tcp_data_seq); ("data_interval",
  u32_); ("wake_len", u32_); ("wake_data", CPtr); ("wake_mask", CPtr); ("tokens_size", u32_);
  ("payload_tok", nl80211_wowlan_tcp_data_token)].

Definition cftype : ctype := CStruct 1 [("name", CArray 64 c_char); ("private", c_ulong);
  ("max_write_len", CU64); ("flags", c_uint); ("file_offset", c_uint); ("ss", CPtr); ("node",
  list_head); ("kf_ops", CPtr); ("open", CPtr); ("release", CPtr); ("read_u64", CPtr);
  ("read_s64", CPtr); ("seq_show", CPtr); ("seq_start", CPtr); ("seq_next", CPtr); ("seq_stop",
  CPtr); ("write_u64", CPtr); ("write_s64", CPtr); ("write", CPtr); ("poll", CPtr);
  ("lockdep_key", lock_class_key)].

Definition cgroup_taskset : ctype := CStruct 1 [("src_csets", list_head); ("dst_csets",
  list_head); ("nr_tasks", c_int); ("ssid", c_int); ("csets", CPtr); ("cur_cset", CPtr);
  ("cur_task", CPtr)].

Definition cgroup_namespace : ctype := CStruct 1 [("ns", ns_common); ("user_ns", CPtr);
  ("ucounts", CPtr); ("root_cset", CPtr); ("_bitfield_align_1", CArray 0 CU8); ("_bitfield_1",
  __BindgenBitfieldUnit 40)].

Definition cgroup_rstat_base_cpu : ctype := CStruct 1 [("bsync", u64_stats_sync); ("bstat",
  cgroup_base_stat); ("last_bstat", cgroup_base_stat); ("subtree_bstat", cgroup_base_stat);
  ("last_subtree_bstat", cgroup_base_stat)].

Definition ethtool_channels : ctype := CStruct 1 [("cmd", __u32); ("max_rx", __u32); ("max_tx",
  __u32); ("max_other", __u32); ("max_combined", __u32); ("rx_count", __u32); ("tx_count",
  __u32); ("other_count", __u32); ("combined_count", __u32)].

Definition qdisc_walker : ctype := CStruct 1 [("stop", c_int); ("skip", c_int); ("count",
  c_int); ("fn_", CPtr)].

Definition srcu_usage : ctype := CStruct 1 [("node", CPtr); ("level", CArray 4 CPtr);
  ("srcu_size_state", c_int); ("srcu_cb_mutex", mutex); ("lock", raw_spinlock_t);
  ("srcu_gp_mutex", mutex); ("srcu_gp_seq", c_ulong); ("srcu_gp_seq_needed", c_ulong);
  ("srcu_gp_seq_needed_exp", c_ulong); ("srcu_gp_start", c_ulong); ("srcu_last_gp_end",
  c_ulong); ("srcu_size_jiffies", c_ulong); ("srcu_n_lock_retries", c_ulong);
  ("srcu_n_exp_nodelay", c_ulong); ("sda_is_static", bool_); ("srcu_barrier_seq", c_ulong);
  ("srcu_barrier_mutex", mutex); ("srcu_barrier_completion", completion);
  ("srcu_barrier_cpu_cnt", atomic_t); ("reschedule_jiffies", c_ulong); ("reschedule_count",
  c_ulong); ("work", delayed_work); ("irq_work", irq_work); ("srcu_ssp", CPtr)].

Definition debugfs_u32_array : ctype := CStruct 1 [("array", CPtr); ("n_elements", u32_)].

Definition cma_memrange__bindgen_ty_1 : ctype := CUnion 1 [("early_pfn", c_ulong); ("bitmap",
  CPtr)].

Definition cma_memrange : ctype := CStruct 1 [("base_pfn", c_ulong); ("count", c_ulong);
  ("__bindgen_anon_1", cma_memrange__bindgen_ty_1); ("dfs_bitmap", debugfs_u32_array)].

Definition cma : ctype := CStruct 1 [("count", c_ulong); ("available_count", c_ulong);
  ("order_per_bit", c_uint); ("lock", spinlock_t); ("alloc_mutex", mutex); ("mem_head",
  hlist_head); ("mem_head_lock", spinlock_t); ("name", CArray 64 c_char); ("nranges", c_int);
  ("ranges", CArray 8 cma_memrange); ("nr_pages_succeeded", atomic64_t); ("nr_pages_failed",
  atomic64_t); ("nr_pages_released", atomic64_t); ("cma_kobj", CPtr); ("flags", c_ulong);
  ("nid", c_int)].

Definition cma_kobject : ctype := CStruct 1 [("kobj", kobject); ("cma", CPtr)].

Definition ethtool_coalesce : ctype := CStruct 1 [("cmd", __u32); ("rx_coalesce_usecs", __u32);
  ("rx_max_coalesced_frames", __u32); ("rx_coalesce_usecs_irq", __u32);
  ("rx_max_coalesced_frames_irq", __u32); ("tx_coalesce_usecs", __u32);
  ("tx_max_coalesced_frames", __u32); ("tx_coalesce_usecs_irq", __u32);
  ("tx_max_coalesced_frames_irq", __u32); ("stats_block_coalesce_usecs", __u32);
  ("use_adaptive_rx_coalesce", __u32); ("use_adaptive_tx_coalesce", __u32); ("pkt_rate_low",
  __u32); ("rx_coalesce_usecs_low", __u32); ("rx_max_coalesced_frames_low", __u32);
  ("tx_coalesce_usecs_low", __u32); ("tx_max_coalesced_frames_low", __u32); ("pkt_rate_high",
  __u32); ("rx_coalesce_usecs_high", __u32); ("rx_max_coalesced_frames_high", __u32);
  ("tx_coalesce_usecs_high", __u32); ("tx_max_coalesced_frames_high", __u32);
  ("rate_sample_interval", __u32)].

Definition kernel_ethtool_coalesce : ctype := CStruct 1 [("use_cqe_mode_tx", u8_);
  ("use_cqe_mode_rx", u8_); ("tx_aggr_max_bytes", u32_); ("tx_aggr_max_frames", u32_);
  ("tx_aggr_time_usecs", u32_)].

Definition compact_control : ctype := CStruct 1 [("freepages", CArray 11 list_head);
  ("migratepages", list_head); ("nr_freepages", c_uint); ("nr_migratepages", c_uint);
  ("free_pfn", c_ulong); ("migrate_pfn", c_ulong); ("fast_start_pfn", c_ulong); ("zone", CPtr);
  ("total_migrate_scanned", c_ulong); ("total_free_scanned", c_ulong); ("fast_search_fail",
  c_ushort); ("search_order", c_short); ("gfp_mask", gfp_t); ("order", c_int); ("migratetype",
  c_int); ("alloc_flags", c_uint); ("highest_zoneidx", c_int); ("mode", migrate_mode__Type);
  ("ignore_skip_hint", bool_); ("no_set_skip_hint", bool_); ("ignore_block_suitable", bool_);
  ("direct_compaction", bool_); ("proactive_compaction", bool_); ("whole_zone", bool_);
  ("contended", bool_); ("finish_pageblock", bool_); ("alloc_contig", bool_)].

Definition ethtool_tcpip4_spec : ctype := CStruct 1 [("ip4src", __be32); ("ip4dst", __be32);
  ("psrc", __be16); ("pdst", __be16); ("tos", __u8)].

Definition ethtool_ah_espip4_spec : ctype := CStruct 1 [("ip4src", __be32); ("ip4dst", __be32);
  ("spi", __be32); ("tos", __u8)].

Definition ethtool_usrip4_spec : ctype := CStruct 1 [("ip4src", __be32); ("ip4dst", __be32);
  ("l4_4_bytes", __be32); ("tos", __u8); ("ip_ver", __u8); ("proto", __u8)].

Definition ethtool_tcpip6_spec : ctype := CStruct 1 [("ip6src", CArray 4 __be32); ("ip6dst",
  CArray 4 __be32); ("psrc", __be16); ("pdst", __be16); ("tclass", __u8)].

Definition ethtool_ah_espip6_spec : ctype := CStruct 1 [("ip6src", CArray 4 __be32); ("ip6dst",
  CArray 4 __be32); ("spi", __be32); ("tclass", __u8)].

Definition ethtool_usrip6_spec : ctype := CStruct 1 [("ip6src", CArray 4 __be32); ("ip6dst",
  CArray 4 __be32); ("l4_4_bytes", __be32); ("tclass", __u8); ("l4_proto", __u8)].

Definition ethtool_flow_union : ctype := CUnion 1 [("tcp_ip4_spec", ethtool_tcpip4_spec);
  ("udp_ip4_spec", ethtool_tcpip4_spec); ("sctp_ip4_spec", ethtool_tcpip4_spec); ("ah_ip4_spec",
  ethtool_ah_espip4_spec); ("esp_ip4_spec", ethtool_ah_espip4_spec); ("usr_ip4_spec",
  ethtool_usrip4_spec); ("tcp_ip6_spec", ethtool_tcpip6_spec); ("udp_ip6_spec",
  ethtool_tcpip6_spec); ("sctp_ip6_spec", ethtool_tcpip6_spec); ("ah_ip6_spec",
  ethtool_ah_espip6_spec); ("esp_ip6_spec", ethtool_ah_espip6_spec); ("usr_ip6_spec",
  ethtool_usrip6_spec); ("ether_spec", ethhdr); ("hdata", CArray 52 __u8)].

Definition ethtool_flow_ext : ctype := CStruct 1 [("padding", CArray 2 __u8); ("h_dest", CArray
  6 c_uchar); ("vlan_etype", __be16); ("vlan_tci", __be16); ("data", CArray 2 __be32)].

Definition filldir_t : ctype := CPtr.

Definition dir_context : ctype := CStruct 1 [("actor", filldir_t); ("pos", loff_t); ("count",
  c_int); ("dt_flags_mask", c_uint)].

Definition compat_uptr_t : ctype := u32_.

Definition compat_robust_list : ctype := CStruct 1 [("next", compat_uptr_t)].

Definition compat_long_t : ctype := s32.

Definition compat_robust_list_head : ctype := CStruct 1 [("list", compat_robust_list);
  ("futex_offset", compat_long_t); ("list_op_pending", compat_uptr_t)].

Definition in_addr : ctype := CStruct 1 [("s_addr", __be32)].

Definition cond_update_fn_t : ctype := CPtr.

Definition cond_snapshot : ctype := CStruct 1 [("cond_data", CPtr); ("update",
  cond_update_fn_t)].

Definition winsize : ctype := CStruct 1 [("ws_row", c_ushort); ("ws_col", c_ushort);
  ("ws_xpixel", c_ushort); ("ws_ypixel", c_ushort)].

Definition core_thread : ctype := CStruct 1 [("task", CPtr); ("next", CPtr)].

Definition core_state : ctype := CStruct 1 [("nr_threads", atomic_t); ("dumper", core_thread);
  ("startup", completion)].

Definition core_vma_metadata : ctype := CStruct 1 [("start", c_ulong); ("end", c_ulong);
  ("flags", vm_flags_t); ("dump_size", c_ulong); ("pgoff", c_ulong); ("file", CPtr)].

Definition coredump_params : ctype := CStruct 1 [("siginfo", CPtr); ("file", CPtr); ("limit",
  c_ulong); ("mm_flags", c_ulong); ("cpu", c_int); ("written", loff_t); ("pos", loff_t);
  ("to_skip", loff_t); ("vma_count", c_int); ("vma_data_size", CU64); ("vma_meta", CPtr);
  ("pid", CPtr)].

Definition perf_branch_stack : ctype := CStruct 1 [("nr", u64_); ("hw_idx", u64_); ("entries",
  __IncompleteArrayField perf_branch_entry)].

Definition cpu_rmap__bindgen_ty_1 : ctype := CStruct 1 [("index", u16_); ("dist", u16_)].

Definition cpu_rmap : ctype := CStruct 1 [("refcount", kref); ("size", u16_); ("obj", CPtr);
  ("near", __IncompleteArrayField cpu_rmap__bindgen_ty_1)].

Definition cpu_stop_done : ctype := CStruct 1 [("nr_todo", atomic_t); ("ret", c_int);
  ("completion", completion)].

Definition cpudl : ctype := CStruct 1 [("lock", raw_spinlock_t); ("size", c_int); ("free_cpus",
  cpumask_var_t); ("elements", CPtr)].

Definition cpudl_item : ctype := CStruct 1 [("dl", u64_); ("cpu", c_int); ("idx", c_int)].

Definition pm_qos_constraints : ctype := CStruct 1 [("list", plist_head); ("target_value", s32);
  ("default_value", s32); ("no_constraint_value", s32); ("type_", pm_qos_type__Type);
  ("notifiers", CPtr)].

Definition freq_constraints : ctype := CStruct 1 [("min_freq", pm_qos_constraints);
  ("min_freq_notifiers", blocking_notifier_head); ("max_freq", pm_qos_constraints);
  ("max_freq_notifiers", blocking_notifier_head)].

Definition cpuidle_driver_kobj : ctype := CStruct 1 [("_unused", CArray 0 CU8)].

Definition cpuidle_device_kobj : ctype := CStruct 1 [("dev", CPtr); ("kobj_unregister",
  completion); ("kobj", kobject)].

Definition cpuidle_state_kobj : ctype := CStruct 1 [("state", CPtr); ("state_usage", CPtr);
  ("kobj_unregister", completion); ("kobj", kobject); ("device", CPtr)].

Definition cpupri_vec : ctype := CStruct 1 [("count", atomic_t); ("mask", cpumask_var_t)].

Definition cpupri : ctype := CStruct 1 [("pri_to_cpu", CArray 101 cpupri_vec); ("cpu_to_pri",
  CPtr)].

Definition range : ctype := CStruct 1 [("start", u64_); ("end", u64_)].

Definition cred__bindgen_ty_1 : ctype := CUnion 1 [("non_rcu", c_int); ("rcu", callback_head)].

Definition cred : ctype := CStruct 1 [("usage", atomic_long_t); ("uid", kuid_t); ("gid",
  kgid_t); ("suid", kuid_t); ("sgid", kgid_t); ("euid", kuid_t); ("egid", kgid_t); ("fsuid",
  kuid_t); ("fsgid", kgid_t); ("securebits", c_uint); ("cap_inheritable", kernel_cap_t);
  ("cap_permitted", kernel_cap_t); ("cap_effective", kernel_cap_t); ("cap_bset", kernel_cap_t);
  ("cap_ambient", kernel_cap_t); ("jit_keyring", c_uchar); ("session_keyring", CPtr);
  ("process_keyring", CPtr); ("thread_keyring", CPtr); ("request_key_auth", CPtr); ("security",
  CPtr); ("user", CPtr); ("user_ns", CPtr); ("ucounts", CPtr); ("group_info", CPtr);
  ("__bindgen_anon_1", cred__bindgen_ty_1)].

Definition crypto_tfm : ctype := CStruct 1 [("refcnt", refcount_t); ("crt_flags", u32_);
  ("node", c_int); ("fb", CPtr); ("exit", CPtr); ("__crt_alg", CPtr); ("__crt_ctx",
  __IncompleteArrayField CPtr)].

Definition crypto_aead : ctype := CStruct 1 [("authsize", c_uint); ("reqsize", c_uint); ("base",
  crypto_tfm)].

Definition crypto_spawn__bindgen_ty_1 : ctype := CUnion 1 [("inst", CPtr); ("next", CPtr)].

Definition crypto_spawn : ctype := CStruct 1 [("list", list_head); ("alg", CPtr);
  ("__bindgen_anon_1", crypto_spawn__bindgen_ty_1); ("frontend", CPtr); ("mask", u32_); ("dead",
  bool_); ("registered", bool_)].

Definition crypto_template : ctype := CStruct 1 [("list", list_head); ("instances", hlist_head);
  ("dead", hlist_head); ("module", CPtr); ("free_work", work_struct); ("create", CPtr); ("name",
  CArray 128 c_char)].

Definition crypto_type : ctype := CStruct 1 [("ctxsize", CPtr); ("extsize", CPtr); ("init_tfm",
  CPtr); ("show", CPtr); ("report", CPtr); ("free", CPtr); ("destroy", CPtr); ("type_", c_uint);
  ("maskclear", c_uint); ("maskset", c_uint); ("tfmsize", c_uint); ("algsize", c_uint)].

Definition rtattr : ctype := CStruct 1 [("rta_len", c_ushort); ("rta_type", c_ushort)].

Definition css_rstat_cpu : ctype := CStruct 1 [("updated_children", CPtr); ("updated_next",
  CPtr); ("lnode", llist_node); ("owner", CPtr)].

Definition css_set : ctype := CStruct 1 [("subsys", CArray 15 CPtr); ("refcount", refcount_t);
  ("dom_cset", CPtr); ("dfl_cgrp", CPtr); ("nr_tasks", c_int); ("tasks", list_head);
  ("mg_tasks", list_head); ("dying_tasks", list_head); ("task_iters", list_head);
  ("e_cset_node", CArray 15 list_head); ("threaded_csets", list_head); ("threaded_csets_node",
  list_head); ("hlist", hlist_node); ("cgrp_links", list_head); ("mg_src_preload_node",
  list_head); ("mg_dst_preload_node", list_head); ("mg_node", list_head); ("mg_src_cgrp", CPtr);
  ("mg_dst_cgrp", CPtr); ("mg_dst_cset", CPtr); ("dead", bool_); ("callback_head",
  callback_head)].

Definition ctl_node : ctype := CStruct 1 [("node", rb_node); ("header", CPtr)].

Definition proc_handler : ctype := CPtr.

Definition ctl_table : ctype := CStruct 1 [("procname", CPtr); ("data", CPtr); ("maxlen",
  c_int); ("mode", umode_t); ("proc_handler", proc_handler); ("poll", CPtr); ("extra1", CPtr);
  ("extra2", CPtr)].

Definition ctl_table_poll : ctype := CStruct 1 [("event", atomic_t); ("wait",
  wait_queue_head_t)].

Definition ctl_table_root : ctype := CStruct 1 [("default_set", ctl_table_set); ("lookup",
  CPtr); ("set_ownership", CPtr); ("permissions", CPtr)].

Definition ctx_rq_wait : ctype := CStruct 1 [("comp", completion); ("count", atomic_t)].

Definition dax_device : ctype := CStruct 1 [("inode", inode); ("cdev", cdev); ("private", CPtr);
  ("flags", c_ulong); ("ops", CPtr); ("holder_data", CPtr); ("holder_ops", CPtr)].

Definition dax_holder_operations : ctype := CStruct 1 [("notify_failure", CPtr)].

Definition dax_operations : ctype := CStruct 1 [("direct_access", CPtr); ("zero_page_range",
  CPtr); ("recovery_write", CPtr)].

Definition kobj_type : ctype := CStruct 1 [("release", CPtr); ("sysfs_ops", CPtr);
  ("default_groups", CPtr); ("child_ns_type", CPtr); ("namespace", CPtr); ("get_ownership",
  CPtr)].

Definition dcb_app : ctype := CStruct 1 [("selector", __u8); ("priority", __u8); ("protocol",
  __u16)].

Definition dcb_peer_app_info : ctype := CStruct 1 [("willing", __u8); ("error", __u8)].

Definition dcbnl_buffer : ctype := CStruct 1 [("prio2buffer", CArray 8 __u8); ("buffer_size",
  CArray 8 __u32); ("total_size", __u32)].

Definition dcbnl_rtnl_ops : ctype := CStruct 1 [("ieee_getets", CPtr); ("ieee_setets", CPtr);
  ("ieee_getmaxrate", CPtr); ("ieee_setmaxrate", CPtr); ("ieee_getqcn", CPtr); ("ieee_setqcn",
  CPtr); ("ieee_getqcnstats", CPtr); ("ieee_getpfc", CPtr); ("ieee_setpfc", CPtr);
  ("ieee_getapp", CPtr); ("ieee_setapp", CPtr); ("ieee_delapp", CPtr); ("ieee_peer_getets",
  CPtr); ("ieee_peer_getpfc", CPtr); ("getstate", CPtr); ("setstate", CPtr); ("getpermhwaddr",
  CPtr); ("setpgtccfgtx", CPtr); ("setpgbwgcfgtx", CPtr); ("setpgtccfgrx", CPtr);
  ("setpgbwgcfgrx", CPtr); ("getpgtccfgtx", CPtr); ("getpgbwgcfgtx", CPtr); ("getpgtccfgrx",
  CPtr); ("getpgbwgcfgrx", CPtr); ("setpfccfg", CPtr); ("getpfccfg", CPtr); ("setall", CPtr);
  ("getcap", CPtr); ("getnumtcs", CPtr); ("setnumtcs", CPtr); ("getpfcstate", CPtr);
  ("setpfcstate", CPtr); ("getbcncfg", CPtr); ("setbcncfg", CPtr); ("getbcnrp", CPtr);
  ("setbcnrp", CPtr); ("setapp", CPtr); ("getapp", CPtr); ("getfeatcfg", CPtr); ("setfeatcfg",
  CPtr); ("getdcbx", CPtr); ("setdcbx", CPtr); ("peer_getappinfo", CPtr); ("peer_getapptable",
  CPtr); ("cee_peer_getpg", CPtr); ("cee_peer_getpfc", CPtr); ("dcbnl_getbuffer", CPtr);
  ("dcbnl_setbuffer", CPtr); ("dcbnl_setapptrust", CPtr); ("dcbnl_getapptrust", CPtr);
  ("dcbnl_setrewr", CPtr); ("dcbnl_delrewr", CPtr)].

Definition ddebug_class_map : ctype := CStruct 1 [("link", list_head); ("mod_", CPtr);
  ("mod_name", CPtr); ("class_names", CPtr); ("length", c_int); ("base", c_int); ("map_type",
  class_map_type__Type)].

Definition delayed_call : ctype := CStruct 1 [("fn_", CPtr); ("arg", CPtr)].

Definition hlist_bl_node : ctype := CStruct 1 [("next", CPtr); ("pprev", CPtr)].

Definition shortname_store : ctype := CUnion 1 [("string", CArray 40 c_uchar); ("words", CArray
  5 c_ulong)].

Definition lockref__bindgen_ty_1__bindgen_ty_1 : ctype := CStruct 1 [("lock", spinlock_t);
  ("count", c_int)].

Definition lockref__bindgen_ty_1 : ctype := CUnion 1 [("lock_count", __u64);
  ("__bindgen_anon_1", lockref__bindgen_ty_1__bindgen_ty_1)].

Definition lockref : ctype := CStruct 1 [("__bindgen_anon_1", lockref__bindgen_ty_1)].

Definition dentry__bindgen_ty_1 : ctype := CUnion 1 [("__d_name", qstr); ("d_name", qstr)].

Definition dentry__bindgen_ty_2 : ctype := CUnion 1 [("d_lru", list_head); ("d_wait", CPtr)].

Definition dentry__bindgen_ty_3 : ctype := CUnion 1 [("d_alias", hlist_node);
  ("d_in_lookup_hash", hlist_bl_node); ("d_rcu", callback_head)].

Definition dentry : ctype := CStruct 1 [("d_flags", c_uint); ("d_seq", seqcount_spinlock_t);
  ("d_hash", hlist_bl_node); ("d_parent", CPtr); ("__bindgen_anon_1", dentry__bindgen_ty_1);
  ("d_inode", CPtr); ("d_shortname", shortname_store); ("d_op", CPtr); ("d_sb", CPtr);
  ("d_time", c_ulong); ("d_fsdata", CPtr); ("d_lockref", lockref); ("__bindgen_anon_2",
  dentry__bindgen_ty_2); ("d_sib", hlist_node); ("d_children", hlist_head); ("d_u",
  dentry__bindgen_ty_3)].

Definition dev_ifalias : ctype := CStruct 1 [("rcuhead", callback_head); ("ifalias",
  __IncompleteArrayField c_char)].

Definition vmem_altmap : ctype := CStruct 1 [("base_pfn", c_ulong); ("end_pfn", c_ulong);
  ("reserve", c_ulong); ("free", c_ulong); ("align", c_ulong); ("alloc", c_ulong)].

Definition dev_pagemap__bindgen_ty_1__bindgen_ty_1__bindgen_ty_1 : ctype := CStruct 1 [].

Definition dev_pagemap__bindgen_ty_1__bindgen_ty_1 : ctype := CStruct 1 [("__empty_ranges",
  dev_pagemap__bindgen_ty_1__bindgen_ty_1__bindgen_ty_1); ("ranges", __IncompleteArrayField
  range)].

Definition dev_pagemap__bindgen_ty_1 : ctype := CStruct 1 [("range", __BindgenUnionField range);
  ("__bindgen_anon_1", __BindgenUnionField dev_pagemap__bindgen_ty_1__bindgen_ty_1);
  ("bindgen_union_field", CArray 2 CU64)].

Definition dev_pagemap : ctype := CStruct 1 [("altmap", vmem_altmap); ("ref_", percpu_ref);
  ("done", completion); ("type_", memory_type__Type); ("flags", c_uint); ("vmemmap_shift",
  c_ulong); ("ops", CPtr); ("owner", CPtr); ("nr_range", c_int); ("__bindgen_anon_1",
  dev_pagemap__bindgen_ty_1)].

Definition dev_pagemap_ops : ctype := CStruct 1 [("folio_free", CPtr); ("migrate_to_ram", CPtr);
  ("memory_failure", CPtr); ("folio_split", CPtr)].

Definition dev_pin_info : ctype := CStruct 1 [("p", CPtr); ("default_state", CPtr);
  ("init_state", CPtr); ("sleep_state", CPtr); ("idle_state", CPtr)].

Definition dev_pm_ops : ctype := CStruct 1 [("prepare", CPtr); ("complete", CPtr); ("suspend",
  CPtr); ("resume", CPtr); ("freeze", CPtr); ("thaw", CPtr); ("poweroff", CPtr); ("restore",
  CPtr); ("suspend_late", CPtr); ("resume_early", CPtr); ("freeze_late", CPtr); ("thaw_early",
  CPtr); ("poweroff_late", CPtr); ("restore_early", CPtr); ("suspend_noirq", CPtr);
  ("resume_noirq", CPtr); ("freeze_noirq", CPtr); ("thaw_noirq", CPtr); ("poweroff_noirq",
  CPtr); ("restore_noirq", CPtr); ("runtime_suspend", CPtr); ("runtime_resume", CPtr);
  ("runtime_idle", CPtr)].

Definition dev_pm_domain : ctype := CStruct 1 [("ops", dev_pm_ops); ("start", CPtr); ("detach",
  CPtr); ("activate", CPtr); ("sync", CPtr); ("dismiss", CPtr); ("set_performance_state",
  CPtr)].

Definition pm_qos_flags : ctype := CStruct 1 [("list", list_head); ("effective_flags", s32)].

Definition dev_pm_qos : ctype := CStruct 1 [("resume_latency", pm_qos_constraints);
  ("latency_tolerance", pm_qos_constraints); ("freq", freq_constraints); ("flags",
  pm_qos_flags); ("resume_latency_req", CPtr); ("latency_tolerance_req", CPtr); ("flags_req",
  CPtr)].

Definition pm_qos_flags_request : ctype := CStruct 1 [("node", list_head); ("flags", s32)].

Definition dev_pm_qos_request__bindgen_ty_1 : ctype := CUnion 1 [("pnode", plist_node); ("flr",
  pm_qos_flags_request); ("freq", freq_qos_request)].

Definition dev_pm_qos_request : ctype := CStruct 1 [("type_", dev_pm_qos_req_type__Type);
  ("data", dev_pm_qos_request__bindgen_ty_1); ("dev", CPtr)].

Definition device_dma_parameters : ctype := CStruct 1 [("max_segment_size", c_uint);
  ("min_align_mask", c_uint); ("segment_boundary_mask", c_ulong)].

Definition device_link : ctype := CStruct 1 [("supplier", CPtr); ("s_node", list_head);
  ("consumer", CPtr); ("c_node", list_head); ("link_dev", device); ("status",
  device_link_state__Type); ("flags", u32_); ("rpm_active", refcount_t); ("kref", kref);
  ("rm_work", work_struct); ("supplier_preactivated", bool_)].

Definition phandle : ctype := u32_.

Definition device_node : ctype := CStruct 1 [("name", CPtr); ("phandle", phandle); ("full_name",
  CPtr); ("fwnode", fwnode_handle); ("properties", CPtr); ("deadprops", CPtr); ("parent", CPtr);
  ("child", CPtr); ("sibling", CPtr); ("_flags", c_ulong); ("data", CPtr)].

Definition device_physical_location : ctype := CStruct 1 [("panel",
  device_physical_location_panel__Type); ("vertical_position",
  device_physical_location_vertical_position__Type); ("horizontal_position",
  device_physical_location_horizontal_position__Type); ("dock", bool_); ("lid", bool_)].

Definition device_type : ctype := CStruct 1 [("name", CPtr); ("groups", CPtr); ("uevent", CPtr);
  ("devnode", CPtr); ("release", CPtr); ("pm", CPtr)].

Definition devlink_dpipe_field : ctype := CStruct 1 [("name", CPtr); ("id", c_uint);
  ("bitwidth", c_uint); ("mapping_type", devlink_dpipe_field_mapping_type__Type)].

Definition devlink_dpipe_header : ctype := CStruct 1 [("name", CPtr); ("id", c_uint); ("fields",
  CPtr); ("fields_count", c_uint); ("global", bool_)].

Definition devlink_dpipe_headers : ctype := CStruct 1 [("headers", CPtr); ("headers_count",
  c_uint)].

Definition devlink_flash_update_params : ctype := CStruct 1 [("fw", CPtr); ("component", CPtr);
  ("overwrite_mask", u32_)].

Definition devlink_info_req : ctype := CStruct 1 [("msg", CPtr); ("version_cb", CPtr);
  ("version_cb_priv", CPtr)].

Definition devlink_linecard : ctype := CStruct 1 [("list", list_head); ("devlink", CPtr);
  ("index", c_uint); ("ops", CPtr); ("priv_", CPtr); ("state", devlink_linecard_state__Type);
  ("state_lock", mutex); ("type_", CPtr); ("types", CPtr); ("types_count", c_uint);
  ("rel_index", u32_)].

Definition devlink_linecard_ops : ctype := CStruct 1 [("provision", CPtr); ("unprovision",
  CPtr); ("same_provision", CPtr); ("types_count", CPtr); ("types_get", CPtr)].

Definition devlink_linecard_type : ctype := CStruct 1 [("type_", CPtr); ("priv_", CPtr)].

Definition devlink_ops : ctype := CStruct 1 [("supported_flash_update_params", u32_);
  ("reload_actions", c_ulong); ("reload_limits", c_ulong); ("reload_down", CPtr); ("reload_up",
  CPtr); ("sb_pool_get", CPtr); ("sb_pool_set", CPtr); ("sb_port_pool_get", CPtr);
  ("sb_port_pool_set", CPtr); ("sb_tc_pool_bind_get", CPtr); ("sb_tc_pool_bind_set", CPtr);
  ("sb_occ_snapshot", CPtr); ("sb_occ_max_clear", CPtr); ("sb_occ_port_pool_get", CPtr);
  ("sb_occ_tc_port_bind_get", CPtr); ("eswitch_mode_get", CPtr); ("eswitch_mode_set", CPtr);
  ("eswitch_inline_mode_get", CPtr); ("eswitch_inline_mode_set", CPtr);
  ("eswitch_encap_mode_get", CPtr); ("eswitch_encap_mode_set", CPtr); ("info_get", CPtr);
  ("flash_update", CPtr); ("trap_init", CPtr); ("trap_fini", CPtr); ("trap_action_set", CPtr);
  ("trap_group_init", CPtr); ("trap_group_set", CPtr); ("trap_group_action_set", CPtr);
  ("trap_drop_counter_get", CPtr); ("trap_policer_init", CPtr); ("trap_policer_fini", CPtr);
  ("trap_policer_set", CPtr); ("trap_policer_counter_get", CPtr); ("port_new", CPtr);
  ("rate_leaf_tx_share_set", CPtr); ("rate_leaf_tx_max_set", CPtr);
  ("rate_leaf_tx_priority_set", CPtr); ("rate_leaf_tx_weight_set", CPtr);
  ("rate_leaf_tc_bw_set", CPtr); ("rate_node_tx_share_set", CPtr); ("rate_node_tx_max_set",
  CPtr); ("rate_node_tx_priority_set", CPtr); ("rate_node_tx_weight_set", CPtr);
  ("rate_node_tc_bw_set", CPtr); ("rate_node_new", CPtr); ("rate_node_del", CPtr);
  ("rate_leaf_parent_set", CPtr); ("rate_node_parent_set", CPtr); ("selftest_check", CPtr);
  ("selftest_run", CPtr)].

Definition devlink_param_value : ctype := CUnion 1 [("vu8", u8_); ("vu16", u16_); ("vu32",
  u32_); ("vu64", u64_); ("vstr", CArray 32 c_char); ("vbool", bool_)].

Definition devlink_param_gset_ctx : ctype := CStruct 1 [("val", devlink_param_value); ("cmode",
  devlink_param_cmode__Type)].

Definition devlink_port_ops : ctype := CStruct 1 [("port_split", CPtr); ("port_unsplit", CPtr);
  ("port_type_set", CPtr); ("port_del", CPtr); ("port_fn_hw_addr_get", CPtr);
  ("port_fn_hw_addr_set", CPtr); ("port_fn_roce_get", CPtr); ("port_fn_roce_set", CPtr);
  ("port_fn_migratable_get", CPtr); ("port_fn_migratable_set", CPtr); ("port_fn_state_get",
  CPtr); ("port_fn_state_set", CPtr); ("port_fn_ipsec_crypto_get", CPtr);
  ("port_fn_ipsec_crypto_set", CPtr); ("port_fn_ipsec_packet_get", CPtr);
  ("port_fn_ipsec_packet_set", CPtr); ("port_fn_max_io_eqs_get", CPtr);
  ("port_fn_max_io_eqs_set", CPtr)].

Definition devlink_rate__bindgen_ty_1__bindgen_ty_1 : ctype := CStruct 1 [("name", CPtr);
  ("refcnt", refcount_t)].

Definition devlink_rate__bindgen_ty_1 : ctype := CUnion 1 [("devlink_port", CPtr);
  ("__bindgen_anon_1", devlink_rate__bindgen_ty_1__bindgen_ty_1)].

Definition devlink_rate : ctype := CStruct 1 [("list", list_head); ("type_",
  devlink_rate_type__Type); ("devlink", CPtr); ("priv_", CPtr); ("tx_share", u64_); ("tx_max",
  u64_); ("parent", CPtr); ("__bindgen_anon_1", devlink_rate__bindgen_ty_1); ("tx_priority",
  u32_); ("tx_weight", u32_); ("tc_bw", CArray 8 u32_)].

Definition devlink_rel_notify_cb_t : ctype := CPtr.

Definition devlink_rel_cleanup_cb_t : ctype := CPtr.

Definition devlink_rel__bindgen_ty_1 : ctype := CStruct 1 [("devlink_index", u32_);
  ("obj_index", u32_); ("notify_cb", devlink_rel_notify_cb_t); ("cleanup_cb",
  devlink_rel_cleanup_cb_t); ("notify_work", delayed_work)].

Definition devlink_rel : ctype := CStruct 1 [("index", u32_); ("refcount", refcount_t);
  ("devlink_index", u32_); ("nested_in", devlink_rel__bindgen_ty_1)].

Definition devlink_sb_pool_info : ctype := CStruct 1 [("pool_type", devlink_sb_pool_type__Type);
  ("size", u32_); ("threshold_type", devlink_sb_threshold_type__Type); ("cell_size", u32_)].

Definition devlink_trap : ctype := CStruct 1 [("type_", devlink_trap_type__Type);
  ("init_action", devlink_trap_action__Type); ("generic", bool_); ("id", u16_); ("name", CPtr);
  ("init_group_id", u16_); ("metadata_cap", u32_)].

Definition devlink_trap_group : ctype := CStruct 1 [("name", CPtr); ("id", u16_); ("generic",
  bool_); ("init_policer_id", u32_)].

Definition devlink_trap_policer : ctype := CStruct 1 [("id", u32_); ("init_rate", u64_);
  ("init_burst", u64_); ("max_rate", u64_); ("min_rate", u64_); ("max_burst", u64_);
  ("min_burst", u64_)].

Definition dim_stats : ctype := CStruct 1 [("ppms", c_int); ("bpms", c_int); ("epms", c_int);
  ("cpms", c_int); ("cpe_ratio", c_int)].

Definition dim_sample : ctype := CStruct 1 [("time", ktime_t); ("pkt_ctr", u32_); ("byte_ctr",
  u32_); ("event_ctr", u16_); ("comp_ctr", u32_)].

Definition dim : ctype := CStruct 1 [("state", u8_); ("prev_stats", dim_stats); ("start_sample",
  dim_sample); ("measuring_sample", dim_sample); ("work", work_struct); ("priv_", CPtr);
  ("profile_ix", u8_); ("mode", u8_); ("tune_state", u8_); ("steps_right", u8_); ("steps_left",
  u8_); ("tired", u8_)].

Definition dim_cq_moder : ctype := CStruct 1 [("usec", u16_); ("pkts", u16_); ("comps", u16_);
  ("cq_period_mode", u8_); ("rcu", callback_head)].

Definition dim_irq_moder : ctype := CStruct 1 [("profile_flags", u8_); ("coal_flags", u8_);
  ("dim_rx_mode", u8_); ("dim_tx_mode", u8_); ("rx_profile", CPtr); ("tx_profile", CPtr);
  ("rx_dim_work", CPtr); ("tx_dim_work", CPtr)].

Definition disk_events : ctype := CStruct 1 [("node", list_head); ("disk", CPtr); ("lock",
  spinlock_t); ("block_mutex", mutex); ("block", c_int); ("pending", c_uint); ("clearing",
  c_uint); ("poll_msecs", c_long); ("dwork", delayed_work)].

Definition disk_stats : ctype := CStruct 1 [("nsecs", CArray 4 u64_); ("sectors", CArray 4
  c_ulong); ("ios", CArray 4 c_ulong); ("merges", CArray 4 c_ulong); ("io_ticks", c_ulong);
  ("in_flight", CArray 2 local_t)].

Definition dl_bw : ctype := CStruct 1 [("lock", raw_spinlock_t); ("bw", u64_); ("total_bw",
  u64_)].

Definition dm_hw_stat_delta : ctype := CStruct 1 [("last_rx", c_ulong); ("last_drop_val",
  c_ulong); ("rcu", callback_head)].

Definition sg_table : ctype := CStruct 1 [("sgl", CPtr); ("nents", c_uint); ("orig_nents",
  c_uint)].

Definition dma_map_ops : ctype := CStruct 1 [("alloc", CPtr); ("free", CPtr); ("alloc_pages_op",
  CPtr); ("free_pages", CPtr); ("mmap", CPtr); ("get_sgtable", CPtr); ("map_phys", CPtr);
  ("unmap_phys", CPtr); ("map_sg", CPtr); ("unmap_sg", CPtr); ("sync_single_for_cpu", CPtr);
  ("sync_single_for_device", CPtr); ("sync_sg_for_cpu", CPtr); ("sync_sg_for_device", CPtr);
  ("cache_sync", CPtr); ("dma_supported", CPtr); ("get_required_mask", CPtr);
  ("max_mapping_size", CPtr); ("opt_mapping_size", CPtr); ("get_merge_boundary", CPtr)].

Definition iommu_domain_geometry : ctype := CStruct 1 [("aperture_start", dma_addr_t);
  ("aperture_end", dma_addr_t); ("force_aperture", bool_)].

Definition iommu_fault_handler_t : ctype := CPtr.

Definition iommu_domain__bindgen_ty_1__bindgen_ty_1 : ctype := CStruct 1 [("handler",
  iommu_fault_handler_t); ("handler_token", CPtr)].

Definition iommu_domain__bindgen_ty_1__bindgen_ty_2 : ctype := CStruct 1 [("mm", CPtr);
  ("users", c_int); ("next", list_head)].

Definition iommu_domain__bindgen_ty_1 : ctype := CUnion 1 [("iova_cookie", CPtr); ("msi_cookie",
  CPtr); ("iommufd_hwpt", CPtr); ("__bindgen_anon_1", iommu_domain__bindgen_ty_1__bindgen_ty_1);
  ("__bindgen_anon_2", iommu_domain__bindgen_ty_1__bindgen_ty_2)].

Definition iommu_domain : ctype := CStruct 1 [("type_", c_uint); ("cookie_type",
  iommu_domain_cookie_type__Type); ("ops", CPtr); ("dirty_ops", CPtr); ("owner", CPtr);
  ("pgsize_bitmap", c_ulong); ("geometry", iommu_domain_geometry); ("iopf_handler", CPtr);
  ("__bindgen_anon_1", iommu_domain__bindgen_ty_1)].

Definition dpll_pin_phase_adjust_range : ctype := CStruct 1 [("min", s32); ("max", s32)].

Definition dpll_pin_properties : ctype := CStruct 1 [("board_label", CPtr); ("panel_label",
  CPtr); ("package_label", CPtr); ("type_", dpll_pin_type__Type); ("capabilities", c_ulong);
  ("freq_supported_num", u32_); ("freq_supported", CPtr); ("phase_range",
  dpll_pin_phase_adjust_range); ("phase_gran", u32_)].

Definition dpll_pin : ctype := CStruct 1 [("id", u32_); ("pin_idx", u32_); ("clock_id", u64_);
  ("module", CPtr); ("fwnode", CPtr); ("dpll_refs", xarray); ("parent_refs", xarray);
  ("ref_sync_pins", xarray); ("prop", dpll_pin_properties); ("refcount", refcount_t);
  ("refcnt_tracker", ref_tracker_dir); ("rcu", callback_head)].

Definition dpll_pin_frequency : ctype := CStruct 1 [("min", u64_); ("max", u64_)].

Definition kqid__bindgen_ty_1 : ctype := CUnion 1 [("uid", kuid_t); ("gid", kgid_t); ("projid",
  kprojid_t)].

Definition kqid : ctype := CStruct 1 [("__bindgen_anon_1", kqid__bindgen_ty_1); ("type_",
  quota_type__Type)].

Definition mem_dqblk : ctype := CStruct 1 [("dqb_bhardlimit", qsize_t); ("dqb_bsoftlimit",
  qsize_t); ("dqb_curspace", qsize_t); ("dqb_rsvspace", qsize_t); ("dqb_ihardlimit", qsize_t);
  ("dqb_isoftlimit", qsize_t); ("dqb_curinodes", qsize_t); ("dqb_btime", time64_t);
  ("dqb_itime", time64_t)].

Definition dquot : ctype := CStruct 1 [("dq_hash", hlist_node); ("dq_inuse", list_head);
  ("dq_free", list_head); ("dq_dirty", list_head); ("dq_lock", mutex); ("dq_dqb_lock",
  spinlock_t); ("dq_count", atomic_t); ("dq_sb", CPtr); ("dq_id", kqid); ("dq_off", loff_t);
  ("dq_flags", c_ulong); ("dq_dqb", mem_dqblk)].

Definition dquot_operations : ctype := CStruct 1 [("write_dquot", CPtr); ("alloc_dquot", CPtr);
  ("destroy_dquot", CPtr); ("acquire_dquot", CPtr); ("release_dquot", CPtr); ("mark_dirty",
  CPtr); ("write_info", CPtr); ("get_reserved_space", CPtr); ("get_projid", CPtr);
  ("get_inode_usage", CPtr); ("get_next_id", CPtr)].

Definition driver_private : ctype := CStruct 1 [("kobj", kobject); ("klist_devices", klist);
  ("knode_bus", klist_node); ("mkobj", CPtr); ("driver", CPtr)].

Definition ww_acquire_ctx : ctype := CStruct 1 [("task", CPtr); ("stamp", c_ulong); ("acquired",
  c_uint); ("wounded", c_ushort); ("is_wait_die", c_ushort)].

Definition kthread_work_func_t : ctype := CPtr.

Definition kthread_work : ctype := CStruct 1 [("node", list_head); ("func",
  kthread_work_func_t); ("worker", CPtr); ("canceling", c_int)].

Definition dsa_bridge : ctype := CStruct 1 [("dev", CPtr); ("num", c_uint); ("tx_fwd_offload",
  bool_); ("refcount", refcount_t)].

Definition dsa_chip_data : ctype := CStruct 1 [("host_dev", CPtr); ("sw_addr", c_int);
  ("netdev", CArray 12 CPtr); ("eeprom_len", c_int); ("of_node", CPtr); ("port_names", CArray 12
  CPtr); ("port_dn", CArray 12 CPtr); ("rtable", CArray 4 s8)].

Definition dsa_lag : ctype := CStruct 1 [("dev", CPtr); ("id", c_uint); ("fdb_lock", mutex);
  ("fdbs", list_head); ("refcount", refcount_t)].

Definition dsa_db__bindgen_ty_1 : ctype := CUnion 1 [("dp", CPtr); ("lag", dsa_lag); ("bridge",
  dsa_bridge)].

Definition dsa_db : ctype := CStruct 1 [("type_", dsa_db_type__Type); ("__bindgen_anon_1",
  dsa_db__bindgen_ty_1)].

Definition dsa_device_ops : ctype := CStruct 1 [("xmit", CPtr); ("rcv", CPtr); ("flow_dissect",
  CPtr); ("connect", CPtr); ("disconnect", CPtr); ("needed_headroom", c_uint);
  ("needed_tailroom", c_uint); ("name", CPtr); ("proto", dsa_tag_protocol__Type);
  ("promisc_on_conduit", bool_)].

Definition dsa_mall_mirror_tc_entry : ctype := CStruct 1 [("to_local_port", u8_); ("ingress",
  bool_)].

Definition dsa_platform_data : ctype := CStruct 1 [("netdev", CPtr); ("of_netdev", CPtr);
  ("nr_chips", c_int); ("chip", CPtr)].

Definition phylink : ctype := CStruct 1 [("_unused", CArray 0 CU8)].

Definition dsa_8021q_context : ctype := CStruct 1 [("_unused", CArray 0 CU8)].

Definition dsa_switch_ops : ctype := CStruct 1 [("get_tag_protocol", CPtr);
  ("change_tag_protocol", CPtr); ("connect_tag_protocol", CPtr); ("port_change_conduit", CPtr);
  ("setup", CPtr); ("teardown", CPtr); ("port_setup", CPtr); ("port_teardown", CPtr);
  ("get_phy_flags", CPtr); ("phy_read", CPtr); ("phy_write", CPtr); ("phylink_get_caps", CPtr);
  ("phylink_fixed_state", CPtr); ("get_strings", CPtr); ("get_ethtool_stats", CPtr);
  ("get_sset_count", CPtr); ("get_ethtool_phy_stats", CPtr); ("get_eth_phy_stats", CPtr);
  ("get_eth_mac_stats", CPtr); ("get_eth_ctrl_stats", CPtr); ("get_rmon_stats", CPtr);
  ("get_ts_stats", CPtr); ("get_stats64", CPtr); ("get_pause_stats", CPtr); ("self_test", CPtr);
  ("get_wol", CPtr); ("set_wol", CPtr); ("get_ts_info", CPtr); ("get_mm", CPtr); ("set_mm",
  CPtr); ("get_mm_stats", CPtr); ("port_get_default_prio", CPtr); ("port_set_default_prio",
  CPtr); ("port_get_dscp_prio", CPtr); ("port_add_dscp_prio", CPtr); ("port_del_dscp_prio",
  CPtr); ("port_set_apptrust", CPtr); ("port_get_apptrust", CPtr); ("suspend", CPtr); ("resume",
  CPtr); ("port_enable", CPtr); ("port_disable", CPtr); ("port_set_mac_address", CPtr);
  ("preferred_default_local_cpu_port", CPtr); ("support_eee", CPtr); ("set_mac_eee", CPtr);
  ("get_eeprom_len", CPtr); ("get_eeprom", CPtr); ("set_eeprom", CPtr); ("get_regs_len", CPtr);
  ("get_regs", CPtr); ("port_prechangeupper", CPtr); ("set_ageing_time", CPtr);
  ("port_bridge_join", CPtr); ("port_bridge_leave", CPtr); ("port_stp_state_set", CPtr);
  ("port_mst_state_set", CPtr); ("port_fast_age", CPtr); ("port_vlan_fast_age", CPtr);
  ("port_pre_bridge_flags", CPtr); ("port_bridge_flags", CPtr); ("port_set_host_flood", CPtr);
  ("port_vlan_filtering", CPtr); ("port_vlan_add", CPtr); ("port_vlan_del", CPtr);
  ("vlan_msti_set", CPtr); ("port_fdb_add", CPtr); ("port_fdb_del", CPtr); ("port_fdb_dump",
  CPtr); ("lag_fdb_add", CPtr); ("lag_fdb_del", CPtr); ("port_mdb_add", CPtr); ("port_mdb_del",
  CPtr); ("get_rxnfc", CPtr); ("set_rxnfc", CPtr); ("cls_flower_add", CPtr); ("cls_flower_del",
  CPtr); ("cls_flower_stats", CPtr); ("port_mirror_add", CPtr); ("port_mirror_del", CPtr);
  ("port_policer_add", CPtr); ("port_policer_del", CPtr); ("port_setup_tc", CPtr);
  ("crosschip_bridge_join", CPtr); ("crosschip_bridge_leave", CPtr); ("crosschip_lag_change",
  CPtr); ("crosschip_lag_join", CPtr); ("crosschip_lag_leave", CPtr); ("port_hwtstamp_get",
  CPtr); ("port_hwtstamp_set", CPtr); ("port_txtstamp", CPtr); ("port_rxtstamp", CPtr);
  ("devlink_param_get", CPtr); ("devlink_param_set", CPtr); ("devlink_info_get", CPtr);
  ("devlink_sb_pool_get", CPtr); ("devlink_sb_pool_set", CPtr); ("devlink_sb_port_pool_get",
  CPtr); ("devlink_sb_port_pool_set", CPtr); ("devlink_sb_tc_pool_bind_get", CPtr);
  ("devlink_sb_tc_pool_bind_set", CPtr); ("devlink_sb_occ_snapshot", CPtr);
  ("devlink_sb_occ_max_clear", CPtr); ("devlink_sb_occ_port_pool_get", CPtr);
  ("devlink_sb_occ_tc_port_bind_get", CPtr); ("port_change_mtu", CPtr); ("port_max_mtu", CPtr);
  ("port_lag_change", CPtr); ("port_lag_join", CPtr); ("port_lag_leave", CPtr);
  ("port_hsr_join", CPtr); ("port_hsr_leave", CPtr); ("port_mrp_add", CPtr); ("port_mrp_del",
  CPtr); ("port_mrp_add_ring_role", CPtr); ("port_mrp_del_ring_role", CPtr);
  ("tag_8021q_vlan_add", CPtr); ("tag_8021q_vlan_del", CPtr); ("conduit_state_change", CPtr)].

Definition dsa_switch_tree : ctype := CStruct 1 [("list", list_head); ("ports", list_head);
  ("nh", raw_notifier_head); ("index", c_uint); ("refcount", kref); ("lags", CPtr); ("tag_ops",
  CPtr); ("default_proto", dsa_tag_protocol__Type); ("setup", bool_); ("pd", CPtr); ("rtable",
  list_head); ("lags_len", c_uint); ("last_switch", c_uint)].

Definition dst_cache : ctype := CStruct 1 [("cache", CPtr); ("reset_ts", c_ulong)].

Definition local_lock_t : ctype := local_lock.

Definition dst_cache_pcpu__bindgen_ty_1 : ctype := CUnion 1 [("in_saddr", in_addr);
  ("in6_saddr", in6_addr)].

Definition dst_cache_pcpu : ctype := CStruct 1 [("refresh_ts", c_ulong); ("dst", CPtr);
  ("bh_lock", local_lock_t); ("cookie", u32_); ("__bindgen_anon_1",
  dst_cache_pcpu__bindgen_ty_1)].

Definition dst_metrics : ctype := CStruct 1 [("metrics", CArray 17 u32_); ("refcnt",
  refcount_t)].

Definition rt_mutex_base : ctype := CStruct 1 [("wait_lock", raw_spinlock_t); ("waiters",
  rb_root_cached); ("owner", CPtr)].

Definition rt_mutex : ctype := CStruct 1 [("rtmutex", rt_mutex_base)].

Definition seq_buf : ctype := CStruct 1 [("buffer", CPtr); ("size", CU64); ("len", CU64)].

Definition ethtool_keee : ctype := CStruct 1 [("supported", CArray 2 c_ulong); ("advertised",
  CArray 2 c_ulong); ("lp_advertised", CArray 2 c_ulong); ("tx_lpi_timer", u32_);
  ("tx_lpi_enabled", bool_); ("eee_active", bool_); ("eee_enabled", bool_)].

Definition elevator_mq_ops : ctype := CStruct 1 [("init_sched", CPtr); ("exit_sched", CPtr);
  ("init_hctx", CPtr); ("exit_hctx", CPtr); ("depth_updated", CPtr); ("alloc_sched_data", CPtr);
  ("free_sched_data", CPtr); ("allow_merge", CPtr); ("bio_merge", CPtr); ("request_merge",
  CPtr); ("request_merged", CPtr); ("requests_merged", CPtr); ("limit_depth", CPtr);
  ("prepare_request", CPtr); ("finish_request", CPtr); ("insert_requests", CPtr);
  ("dispatch_request", CPtr); ("has_work", CPtr); ("completed_request", CPtr);
  ("requeue_request", CPtr); ("former_request", CPtr); ("next_request", CPtr); ("init_icq",
  CPtr); ("exit_icq", CPtr)].

Definition elevator_queue : ctype := CStruct 1 [("type_", CPtr); ("et", CPtr); ("elevator_data",
  CPtr); ("kobj", kobject); ("sysfs_lock", mutex); ("flags", c_ulong); ("hash", CArray 64
  hlist_head)].

Definition elevator_tags : ctype := CStruct 1 [("nr_hw_queues", c_uint); ("nr_requests",
  c_uint); ("tags", __IncompleteArrayField CPtr)].

Definition elevator_type : ctype := CStruct 1 [("icq_cache", CPtr); ("ops", elevator_mq_ops);
  ("icq_size", CU64); ("icq_align", CU64); ("elevator_attrs", CPtr); ("elevator_name", CPtr);
  ("elevator_alias", CPtr); ("elevator_owner", CPtr); ("queue_debugfs_attrs", CPtr);
  ("hctx_debugfs_attrs", CPtr); ("icq_cache_name", CArray 22 c_char); ("list", list_head)].

Definition Elf64_Word : ctype := __u32.

Definition Elf64_Half : ctype := __u16.

Definition Elf64_Addr : ctype := __u64.

Definition Elf64_Xword : ctype := __u64.

Definition elf64_sym : ctype := CStruct 1 [("st_name", Elf64_Word); ("st_info", c_uchar);
  ("st_other", c_uchar); ("st_shndx", Elf64_Half); ("st_value", Elf64_Addr); ("st_size",
  Elf64_Xword)].

Definition elv_fs_entry : ctype := CStruct 1 [("attr", attribute); ("show", CPtr); ("store",
  CPtr)].

Definition em_perf_domain : ctype := CStruct 1 [("em_table", CPtr); ("node", list_head); ("id",
  c_int); ("nr_perf_states", c_int); ("min_perf_state", c_int); ("max_perf_state", c_int);
  ("flags", c_ulong); ("cpus", __IncompleteArrayField c_ulong)].

Definition em_perf_state : ctype := CStruct 1 [("performance", c_ulong); ("frequency", c_ulong);
  ("power", c_ulong); ("cost", c_ulong); ("flags", c_ulong)].

Definition em_perf_table : ctype := CStruct 1 [("rcu", callback_head); ("kref", kref); ("state",
  __IncompleteArrayField em_perf_state)].

Definition error_injection_entry : ctype := CStruct 1 [("addr", c_ulong); ("etype", c_int)].

Definition ethtool_c33_pse_ext_state_info__bindgen_ty_1 : ctype := CUnion 1 [("error_condition",
  ethtool_c33_pse_ext_substate_error_condition__Type); ("mr_pse_enable",
  ethtool_c33_pse_ext_substate_mr_pse_enable__Type); ("option_detect_ted",
  ethtool_c33_pse_ext_substate_option_detect_ted__Type); ("option_vport_lim",
  ethtool_c33_pse_ext_substate_option_vport_lim__Type); ("ovld_detected",
  ethtool_c33_pse_ext_substate_ovld_detected__Type); ("power_not_available",
  ethtool_c33_pse_ext_substate_power_not_available__Type); ("short_detected",
  ethtool_c33_pse_ext_substate_short_detected__Type); ("__c33_pse_ext_substate", u32_)].

Definition ethtool_c33_pse_ext_state_info : ctype := CStruct 1 [("c33_pse_ext_state",
  ethtool_c33_pse_ext_state__Type); ("__bindgen_anon_1",
  ethtool_c33_pse_ext_state_info__bindgen_ty_1)].

Definition ethtool_c33_pse_pw_limit_range : ctype := CStruct 1 [("min", u32_); ("max", u32_)].

Definition ethtool_flash : ctype := CStruct 1 [("cmd", __u32); ("region", __u32); ("data",
  CArray 128 c_char)].

Definition ethtool_drvinfo : ctype := CStruct 1 [("cmd", __u32); ("driver", CArray 32 c_char);
  ("version", CArray 32 c_char); ("fw_version", CArray 32 c_char); ("bus_info", CArray 32
  c_char); ("erom_version", CArray 32 c_char); ("reserved2", CArray 12 c_char); ("n_priv_flags",
  __u32); ("n_stats", __u32); ("testinfo_len", __u32); ("eedump_len", __u32); ("regdump_len",
  __u32)].

Definition ethtool_dump : ctype := CStruct 1 [("cmd", __u32); ("version", __u32); ("flag",
  __u32); ("len", __u32); ("data", __IncompleteArrayField __u8)].

Definition ethtool_eeprom : ctype := CStruct 1 [("cmd", __u32); ("magic", __u32); ("offset",
  __u32); ("len", __u32); ("data", __IncompleteArrayField __u8)].

Definition ethtool_eth_ctrl_stats__bindgen_ty_1__bindgen_ty_1 : ctype := CStruct 1
  [("MACControlFramesTransmitted", u64_); ("MACControlFramesReceived", u64_);
  ("UnsupportedOpcodesReceived", u64_)].

Definition ethtool_eth_ctrl_stats__bindgen_ty_1__bindgen_ty_2 : ctype := CStruct 1
  [("MACControlFramesTransmitted", u64_); ("MACControlFramesReceived", u64_);
  ("UnsupportedOpcodesReceived", u64_)].

Definition ethtool_eth_ctrl_stats__bindgen_ty_1 : ctype := CUnion 1 [("__bindgen_anon_1",
  ethtool_eth_ctrl_stats__bindgen_ty_1__bindgen_ty_1); ("stats",
  ethtool_eth_ctrl_stats__bindgen_ty_1__bindgen_ty_2)].

Definition ethtool_eth_ctrl_stats : ctype := CStruct 1 [("src", ethtool_mac_stats_src__Type);
  ("__bindgen_anon_1", ethtool_eth_ctrl_stats__bindgen_ty_1)].

Definition ethtool_eth_mac_stats__bindgen_ty_1__bindgen_ty_1 : ctype := CStruct 1
  [("FramesTransmittedOK", u64_); ("SingleCollisionFrames", u64_); ("MultipleCollisionFrames",
  u64_); ("FramesReceivedOK", u64_); ("FrameCheckSequenceErrors", u64_); ("AlignmentErrors",
  u64_); ("OctetsTransmittedOK", u64_); ("FramesWithDeferredXmissions", u64_);
  ("LateCollisions", u64_); ("FramesAbortedDueToXSColls", u64_);
  ("FramesLostDueToIntMACXmitError", u64_); ("CarrierSenseErrors", u64_); ("OctetsReceivedOK",
  u64_); ("FramesLostDueToIntMACRcvError", u64_); ("MulticastFramesXmittedOK", u64_);
  ("BroadcastFramesXmittedOK", u64_); ("FramesWithExcessiveDeferral", u64_);
  ("MulticastFramesReceivedOK", u64_); ("BroadcastFramesReceivedOK", u64_);
  ("InRangeLengthErrors", u64_); ("OutOfRangeLengthField", u64_); ("FrameTooLongErrors", u64_)].

Definition ethtool_eth_mac_stats__bindgen_ty_1__bindgen_ty_2 : ctype := CStruct 1
  [("FramesTransmittedOK", u64_); ("SingleCollisionFrames", u64_); ("MultipleCollisionFrames",
  u64_); ("FramesReceivedOK", u64_); ("FrameCheckSequenceErrors", u64_); ("AlignmentErrors",
  u64_); ("OctetsTransmittedOK", u64_); ("FramesWithDeferredXmissions", u64_);
  ("LateCollisions", u64_); ("FramesAbortedDueToXSColls", u64_);
  ("FramesLostDueToIntMACXmitError", u64_); ("CarrierSenseErrors", u64_); ("OctetsReceivedOK",
  u64_); ("FramesLostDueToIntMACRcvError", u64_); ("MulticastFramesXmittedOK", u64_);
  ("BroadcastFramesXmittedOK", u64_); ("FramesWithExcessiveDeferral", u64_);
  ("MulticastFramesReceivedOK", u64_); ("BroadcastFramesReceivedOK", u64_);
  ("InRangeLengthErrors", u64_); ("OutOfRangeLengthField", u64_); ("FrameTooLongErrors", u64_)].

Definition ethtool_eth_mac_stats__bindgen_ty_1 : ctype := CUnion 1 [("__bindgen_anon_1",
  ethtool_eth_mac_stats__bindgen_ty_1__bindgen_ty_1); ("stats",
  ethtool_eth_mac_stats__bindgen_ty_1__bindgen_ty_2)].

Definition ethtool_eth_mac_stats : ctype := CStruct 1 [("src", ethtool_mac_stats_src__Type);
  ("__bindgen_anon_1", ethtool_eth_mac_stats__bindgen_ty_1)].

Definition ethtool_eth_phy_stats__bindgen_ty_1__bindgen_ty_1 : ctype := CStruct 1
  [("SymbolErrorDuringCarrier", u64_)].

Definition ethtool_eth_phy_stats__bindgen_ty_1__bindgen_ty_2 : ctype := CStruct 1
  [("SymbolErrorDuringCarrier", u64_)].

Definition ethtool_eth_phy_stats__bindgen_ty_1 : ctype := CUnion 1 [("__bindgen_anon_1",
  ethtool_eth_phy_stats__bindgen_ty_1__bindgen_ty_1); ("stats",
  ethtool_eth_phy_stats__bindgen_ty_1__bindgen_ty_2)].

Definition ethtool_eth_phy_stats : ctype := CStruct 1 [("src", ethtool_mac_stats_src__Type);
  ("__bindgen_anon_1", ethtool_eth_phy_stats__bindgen_ty_1)].

Definition ethtool_fec_hist_value : ctype := CStruct 1 [("sum", u64_); ("per_lane", CArray 8
  u64_)].

Definition ethtool_fec_hist : ctype := CStruct 1 [("values", CArray 17 ethtool_fec_hist_value);
  ("ranges", CPtr)].

Definition ethtool_fec_hist_range : ctype := CStruct 1 [("low", u16_); ("high", u16_)].

Definition ethtool_fec_stat : ctype := CStruct 1 [("total", u64_); ("lanes", CArray 8 u64_)].

Definition ethtool_fec_stats : ctype := CStruct 1 [("corrected_blocks", ethtool_fec_stat);
  ("uncorrectable_blocks", ethtool_fec_stat); ("corrected_bits", ethtool_fec_stat)].

Definition ethtool_fecparam : ctype := CStruct 1 [("cmd", __u32); ("active_fec", __u32); ("fec",
  __u32); ("reserved", __u32)].

Definition ethtool_link_ext_state_info__bindgen_ty_1 : ctype := CUnion 1 [("autoneg",
  ethtool_link_ext_substate_autoneg__Type); ("link_training",
  ethtool_link_ext_substate_link_training__Type); ("link_logical_mismatch",
  ethtool_link_ext_substate_link_logical_mismatch__Type); ("bad_signal_integrity",
  ethtool_link_ext_substate_bad_signal_integrity__Type); ("cable_issue",
  ethtool_link_ext_substate_cable_issue__Type); ("module",
  ethtool_link_ext_substate_module__Type); ("__link_ext_substate", u32_)].

Definition ethtool_link_ext_state_info : ctype := CStruct 1 [("link_ext_state",
  ethtool_link_ext_state__Type); ("__bindgen_anon_1",
  ethtool_link_ext_state_info__bindgen_ty_1)].

Definition ethtool_link_ext_stats : ctype := CStruct 1 [("link_down_events", u64_)].

Definition ethtool_link_settings : ctype := CStruct 1 [("cmd", __u32); ("speed", __u32);
  ("duplex", __u8); ("port", __u8); ("phy_address", __u8); ("autoneg", __u8); ("mdio_support",
  __u8); ("eth_tp_mdix", __u8); ("eth_tp_mdix_ctrl", __u8); ("link_mode_masks_nwords", __s8);
  ("transceiver", __u8); ("master_slave_cfg", __u8); ("master_slave_state", __u8);
  ("rate_matching", __u8); ("reserved", CArray 7 __u32)].

Definition ethtool_link_ksettings__bindgen_ty_1 : ctype := CStruct 1 [("supported", CArray 2
  c_ulong); ("advertising", CArray 2 c_ulong); ("lp_advertising", CArray 2 c_ulong)].

Definition ethtool_link_ksettings : ctype := CStruct 1 [("base", ethtool_link_settings);
  ("link_modes", ethtool_link_ksettings__bindgen_ty_1); ("lanes", u32_)].

Definition ethtool_mm_cfg : ctype := CStruct 1 [("verify_time", u32_); ("verify_enabled",
  bool_); ("tx_enabled", bool_); ("pmac_enabled", bool_); ("tx_min_frag_size", u32_)].

Definition ethtool_mm_state : ctype := CStruct 1 [("verify_time", u32_); ("max_verify_time",
  u32_); ("verify_status", ethtool_mm_verify_status__Type); ("tx_enabled", bool_); ("tx_active",
  bool_); ("pmac_enabled", bool_); ("verify_enabled", bool_); ("tx_min_frag_size", u32_);
  ("rx_min_frag_size", u32_)].

Definition ethtool_mm_stats : ctype := CStruct 1 [("MACMergeFrameAssErrorCount", u64_);
  ("MACMergeFrameSmdErrorCount", u64_); ("MACMergeFrameAssOkCount", u64_);
  ("MACMergeFragCountRx", u64_); ("MACMergeFragCountTx", u64_); ("MACMergeHoldCount", u64_)].

Definition ethtool_modinfo : ctype := CStruct 1 [("cmd", __u32); ("type_", __u32);
  ("eeprom_len", __u32); ("reserved", CArray 8 __u32)].

Definition ethtool_module_eeprom : ctype := CStruct 1 [("offset", u32_); ("length", u32_);
  ("page", u8_); ("bank", u8_); ("i2c_address", u8_); ("data", CPtr)].

Definition ethtool_module_power_mode_params : ctype := CStruct 1 [("policy",
  ethtool_module_power_mode_policy__Type); ("mode", ethtool_module_power_mode__Type)].

Definition ethtool_pause_stats__bindgen_ty_1__bindgen_ty_1 : ctype := CStruct 1
  [("tx_pause_frames", u64_); ("rx_pause_frames", u64_)].

Definition ethtool_pause_stats__bindgen_ty_1__bindgen_ty_2 : ctype := CStruct 1
  [("tx_pause_frames", u64_); ("rx_pause_frames", u64_)].

Definition ethtool_pause_stats__bindgen_ty_1 : ctype := CUnion 1 [("__bindgen_anon_1",
  ethtool_pause_stats__bindgen_ty_1__bindgen_ty_1); ("stats",
  ethtool_pause_stats__bindgen_ty_1__bindgen_ty_2)].

Definition ethtool_pause_stats : ctype := CStruct 1 [("src", ethtool_mac_stats_src__Type);
  ("__bindgen_anon_1", ethtool_pause_stats__bindgen_ty_1)].

Definition ethtool_pauseparam : ctype := CStruct 1 [("cmd", __u32); ("autoneg", __u32);
  ("rx_pause", __u32); ("tx_pause", __u32)].

Definition ethtool_phy_stats : ctype := CStruct 1 [("rx_packets", u64_); ("rx_bytes", u64_);
  ("rx_errors", u64_); ("tx_packets", u64_); ("tx_bytes", u64_); ("tx_errors", u64_)].

Definition ethtool_regs : ctype := CStruct 1 [("cmd", __u32); ("version", __u32); ("len",
  __u32); ("data", __IncompleteArrayField __u8)].

Definition ethtool_ringparam : ctype := CStruct 1 [("cmd", __u32); ("rx_max_pending", __u32);
  ("rx_mini_max_pending", __u32); ("rx_jumbo_max_pending", __u32); ("tx_max_pending", __u32);
  ("rx_pending", __u32); ("rx_mini_pending", __u32); ("rx_jumbo_pending", __u32); ("tx_pending",
  __u32)].

Definition ethtool_rmon_hist_range : ctype := CStruct 1 [("low", u16_); ("high", u16_)].

Definition ethtool_rmon_stats__bindgen_ty_1__bindgen_ty_1 : ctype := CStruct 1
  [("undersize_pkts", u64_); ("oversize_pkts", u64_); ("fragments", u64_); ("jabbers", u64_);
  ("hist", CArray 11 u64_); ("hist_tx", CArray 11 u64_)].

Definition ethtool_rmon_stats__bindgen_ty_1__bindgen_ty_2 : ctype := CStruct 1
  [("undersize_pkts", u64_); ("oversize_pkts", u64_); ("fragments", u64_); ("jabbers", u64_);
  ("hist", CArray 11 u64_); ("hist_tx", CArray 11 u64_)].

Definition ethtool_rmon_stats__bindgen_ty_1 : ctype := CUnion 1 [("__bindgen_anon_1",
  ethtool_rmon_stats__bindgen_ty_1__bindgen_ty_1); ("stats",
  ethtool_rmon_stats__bindgen_ty_1__bindgen_ty_2)].

Definition ethtool_rmon_stats : ctype := CStruct 1 [("src", ethtool_mac_stats_src__Type);
  ("__bindgen_anon_1", ethtool_rmon_stats__bindgen_ty_1)].

Definition flow_dissector : ctype := CStruct 1 [("used_keys", c_ulonglong); ("offset", CArray 33
  c_ushort)].

Definition ethtool_rx_flow_spec : ctype := CStruct 1 [("flow_type", __u32); ("h_u",
  ethtool_flow_union); ("h_ext", ethtool_flow_ext); ("m_u", ethtool_flow_union); ("m_ext",
  ethtool_flow_ext); ("ring_cookie", __u64); ("location", __u32)].

Definition ethtool_rxfh_fields : ctype := CStruct 1 [("data", u32_); ("flow_type", u32_);
  ("rss_context", u32_)].

Definition ethtool_rxfh_param : ctype := CStruct 1 [("hfunc", u8_); ("indir_size", u32_);
  ("indir", CPtr); ("key_size", u32_); ("key", CPtr); ("rss_context", u32_); ("rss_delete",
  u8_); ("input_xfrm", u8_)].

Definition ethtool_rxnfc__bindgen_ty_1 : ctype := CUnion 1 [("rule_cnt", __u32); ("rss_context",
  __u32)].

Definition ethtool_rxnfc : ctype := CStruct 1 [("cmd", __u32); ("flow_type", __u32); ("data",
  __u64); ("fs", ethtool_rx_flow_spec); ("__bindgen_anon_1", ethtool_rxnfc__bindgen_ty_1);
  ("rule_locs", __IncompleteArrayField __u32)].

Definition ethtool_stats : ctype := CStruct 1 [("cmd", __u32); ("n_stats", __u32); ("data",
  __IncompleteArrayField __u64)].

Definition ethtool_test : ctype := CStruct 1 [("cmd", __u32); ("flags", __u32); ("reserved",
  __u32); ("len", __u32); ("data", __IncompleteArrayField __u64)].

Definition ethtool_ts_stats__bindgen_ty_1__bindgen_ty_1 : ctype := CStruct 1 [("pkts", u64_);
  ("onestep_pkts_unconfirmed", u64_); ("lost", u64_); ("err", u64_)].

Definition ethtool_ts_stats__bindgen_ty_1__bindgen_ty_2 : ctype := CStruct 1 [("pkts", u64_);
  ("onestep_pkts_unconfirmed", u64_); ("lost", u64_); ("err", u64_)].

Definition ethtool_ts_stats__bindgen_ty_1 : ctype := CUnion 1 [("__bindgen_anon_1",
  ethtool_ts_stats__bindgen_ty_1__bindgen_ty_1); ("tx_stats",
  ethtool_ts_stats__bindgen_ty_1__bindgen_ty_2)].

Definition ethtool_ts_stats : ctype := CStruct 1 [("__bindgen_anon_1",
  ethtool_ts_stats__bindgen_ty_1)].

Definition ethtool_tunable : ctype := CStruct 1 [("cmd", __u32); ("id", __u32); ("type_id",
  __u32); ("len", __u32); ("data", __IncompleteArrayField CPtr)].

Definition ethtool_wolinfo : ctype := CStruct 1 [("cmd", __u32); ("supported", __u32);
  ("wolopts", __u32); ("sopass", CArray 6 __u8)].

Definition event_filter : ctype := CStruct 1 [("prog", CPtr); ("filter_string", CPtr)].

Definition event_subsystem : ctype := CStruct 1 [("list", list_head); ("name", CPtr); ("filter",
  CPtr); ("ref_count", c_int)].

Definition eventfd_ctx : ctype := CStruct 1 [("kref", kref); ("wqh", wait_queue_head_t);
  ("count", __u64); ("flags", c_uint); ("id", c_int)].

Definition eventfs_callback : ctype := CPtr.

Definition eventfs_release : ctype := CPtr.

Definition eventfs_entry : ctype := CStruct 1 [("name", CPtr); ("callback", eventfs_callback);
  ("release", eventfs_release)].

Definition exception_table_entry : ctype := CStruct 1 [("insn", c_int); ("fixup", c_int);
  ("data", c_int)].

Definition export_operations : ctype := CStruct 1 [("encode_fh", CPtr); ("fh_to_dentry", CPtr);
  ("fh_to_parent", CPtr); ("get_name", CPtr); ("get_parent", CPtr); ("commit_metadata", CPtr);
  ("get_uuid", CPtr); ("map_blocks", CPtr); ("commit_blocks", CPtr); ("permission", CPtr);
  ("open", CPtr); ("flags", c_ulong)].

Definition fsnotify_event : ctype := CStruct 1 [("list", list_head)].

Definition fanotify_group_private_data : ctype := CStruct 1 [("merge_hash", CPtr);
  ("access_list", list_head); ("access_waitq", wait_queue_head_t); ("flags", c_int); ("f_flags",
  c_int); ("ucounts", CPtr); ("error_events_pool", mempool_t); ("perm_grp_list", list_head)].

Definition fasync_struct : ctype := CStruct 1 [("fa_lock", rwlock_t); ("magic", c_int);
  ("fa_fd", c_int); ("fa_next", CPtr); ("fa_file", CPtr); ("fa_rcu", callback_head)].

Definition fc_log : ctype := CStruct 1 [("usage", refcount_t); ("head", u8_); ("tail", u8_);
  ("need_free", u8_); ("owner", CPtr); ("buffer", CArray 8 CPtr)].

Definition ftrace_graph_ent : ctype := CStruct 1 [("func", c_ulong); ("depth", c_long)].

Definition ftrace_graph_ret : ctype := CStruct 1 [("func", c_ulong); ("retval", c_ulong);
  ("depth", c_int); ("overrun", c_uint)].

Definition ftrace_ops_hash : ctype := CStruct 1 [("notrace_hash", CPtr); ("filter_hash", CPtr);
  ("regex_lock", mutex)].

Definition ftrace_func_t : ctype := CPtr.

Definition ftrace_ops_func_t : ctype := CPtr.

Definition ftrace_ops : ctype := CStruct 1 [("func", ftrace_func_t); ("next", CPtr); ("flags",
  c_ulong); ("private", CPtr); ("saved_func", ftrace_func_t); ("local_hash", ftrace_ops_hash);
  ("func_hash", CPtr); ("old_hash", ftrace_ops_hash); ("trampoline", c_ulong);
  ("trampoline_size", c_ulong); ("list", list_head); ("subop_list", list_head); ("ops_func",
  ftrace_ops_func_t); ("managed", CPtr); ("direct_call", c_ulong)].

Definition trace_func_graph_ent_t : ctype := CPtr.

Definition trace_func_graph_ret_t : ctype := CPtr.

Definition fgraph_ops : ctype := CStruct 1 [("entryfunc", trace_func_graph_ent_t); ("retfunc",
  trace_func_graph_ret_t); ("ops", ftrace_ops); ("private", CPtr); ("saved_func",
  trace_func_graph_ent_t); ("idx", c_int)].

Definition fib_kuid_range : ctype := CStruct 1 [("start", kuid_t); ("end", kuid_t)].

Definition fib_rule_port_range : ctype := CStruct 1 [("start", __u16); ("end", __u16)].

Definition fib_rule : ctype := CStruct 1 [("list", list_head); ("iifindex", c_int); ("oifindex",
  c_int); ("mark", u32_); ("mark_mask", u32_); ("flags", u32_); ("table", u32_); ("action",
  u8_); ("l3mdev", u8_); ("proto", u8_); ("ip_proto", u8_); ("target", u32_); ("tun_id",
  __be64); ("ctarget", CPtr); ("fr_net", CPtr); ("refcnt", refcount_t); ("pref", u32_);
  ("suppress_ifgroup", c_int); ("suppress_prefixlen", c_int); ("iifname", CArray 16 c_char);
  ("oifname", CArray 16 c_char); ("uid_range", fib_kuid_range); ("sport_range",
  fib_rule_port_range); ("dport_range", fib_rule_port_range); ("sport_mask", u16_);
  ("dport_mask", u16_); ("iif_is_l3_master", u8_); ("oif_is_l3_master", u8_); ("rcu",
  callback_head)].

Definition fib6_node : ctype := CStruct 1 [("parent", CPtr); ("left", CPtr); ("right", CPtr);
  ("subtree", CPtr); ("leaf", CPtr); ("fn_bit", __u16); ("fn_flags", __u16); ("fn_sernum",
  c_int); ("rr_ptr", CPtr); ("rcu", callback_head)].

Definition inet_peer_base : ctype := CStruct 1 [("rb_root", rb_root); ("lock", seqlock_t);
  ("total", c_int)].

Definition fib6_table : ctype := CStruct 1 [("tb6_hlist", hlist_node); ("tb6_id", u32_);
  ("tb6_lock", spinlock_t); ("tb6_root", fib6_node); ("tb6_peers", inet_peer_base); ("flags",
  c_uint); ("fib_seq", c_uint); ("tb6_gc_hlist", hlist_head)].

Definition fib_nh : ctype := CStruct 1 [("nh_common", fib_nh_common); ("nh_hash", hlist_node);
  ("nh_parent", CPtr); ("nh_tclassid", __u32); ("nh_saddr", __be32); ("nh_saddr_genid", c_int)].

Definition fib_info : ctype := CStruct 1 [("fib_hash", hlist_node); ("fib_lhash", hlist_node);
  ("nh_list", list_head); ("fib_net", CPtr); ("fib_treeref", refcount_t); ("fib_clntref",
  refcount_t); ("fib_flags", c_uint); ("fib_dead", c_uchar); ("fib_protocol", c_uchar);
  ("fib_scope", c_uchar); ("fib_type", c_uchar); ("fib_prefsrc", __be32); ("fib_tb_id", u32_);
  ("fib_priority", u32_); ("fib_metrics", CPtr); ("fib_nhs", c_int); ("fib_nh_is_v6", bool_);
  ("nh_updated", bool_); ("pfsrc_removed", bool_); ("nh", CPtr); ("rcu", callback_head);
  ("fib_nh", __IncompleteArrayField fib_nh)].

Definition fib_lookup_arg : ctype := CStruct 1 [("lookup_ptr", CPtr); ("lookup_data", CPtr);
  ("result", CPtr); ("rule", CPtr); ("table", u32_); ("flags", c_int)].

Definition fib_nh_exception : ctype := CStruct 1 [("fnhe_next", CPtr); ("fnhe_genid", c_int);
  ("fnhe_daddr", __be32); ("fnhe_pmtu", u32_); ("fnhe_mtu_locked", bool_); ("fnhe_gw", __be32);
  ("fnhe_expires", c_ulong); ("fnhe_rth_input", CPtr); ("fnhe_rth_output", CPtr); ("fnhe_stamp",
  c_ulong); ("rcu", callback_head)].

Definition fib_notifier_ops : ctype := CStruct 1 [("family", c_int); ("list", list_head);
  ("fib_seq_read", CPtr); ("fib_dump", CPtr); ("owner", CPtr); ("rcu", callback_head)].

Definition fib_rule_hdr : ctype := CStruct 1 [("family", __u8); ("dst_len", __u8); ("src_len",
  __u8); ("tos", __u8); ("table", __u8); ("res1", __u8); ("res2", __u8); ("action", __u8);
  ("flags", __u32)].

Definition fib_rules_ops : ctype := CStruct 1 [("family", c_int); ("list", list_head);
  ("rule_size", c_int); ("addr_size", c_int); ("unresolved_rules", c_int); ("nr_goto_rules",
  c_int); ("fib_rules_seq", c_uint); ("action", CPtr); ("suppress", CPtr); ("match_", CPtr);
  ("configure", CPtr); ("delete", CPtr); ("compare", CPtr); ("fill", CPtr); ("nlmsg_payload",
  CPtr); ("flush_cache", CPtr); ("nlgroup", c_int); ("rules_list", list_head); ("owner", CPtr);
  ("fro_net", CPtr); ("rcu", callback_head)].

Definition fib_table : ctype := CStruct 1 [("tb_hlist", hlist_node); ("tb_id", u32_);
  ("tb_num_default", c_int); ("rcu", callback_head); ("tb_data", CPtr); ("__data",
  __IncompleteArrayField c_ulong)].

Definition fid__bindgen_ty_1__bindgen_ty_1 : ctype := CStruct 1 [("ino", u32_); ("gen_", u32_);
  ("parent_ino", u32_); ("parent_gen", u32_)].

Definition fid__bindgen_ty_1__bindgen_ty_2 : ctype := CPacked [("ino", u64_); ("gen_", u32_)].

Definition fid__bindgen_ty_1__bindgen_ty_3 : ctype := CStruct 1 [("block", u32_); ("partref",
  u16_); ("parent_partref", u16_); ("generation", u32_); ("parent_block", u32_);
  ("parent_generation", u32_)].

Definition fid__bindgen_ty_1__bindgen_ty_4__bindgen_ty_1 : ctype := CStruct 1 [].

Definition fid__bindgen_ty_1__bindgen_ty_4 : ctype := CStruct 1 [("__empty_raw",
  fid__bindgen_ty_1__bindgen_ty_4__bindgen_ty_1); ("raw", __IncompleteArrayField __u32)].

Definition fid__bindgen_ty_1 : ctype := CStruct 1 [("i32_", __BindgenUnionField
  fid__bindgen_ty_1__bindgen_ty_1); ("i64_", __BindgenUnionField
  fid__bindgen_ty_1__bindgen_ty_2); ("udf", __BindgenUnionField
  fid__bindgen_ty_1__bindgen_ty_3); ("__bindgen_anon_1", __BindgenUnionField
  fid__bindgen_ty_1__bindgen_ty_4); ("bindgen_union_field", CArray 5 CU32)].

Definition fid : ctype := CStruct 1 [("__bindgen_anon_1", fid__bindgen_ty_1)].

Definition fiemap_extent : ctype := CStruct 1 [("fe_logical", __u64); ("fe_physical", __u64);
  ("fe_length", __u64); ("fe_reserved64", CArray 2 __u64); ("fe_flags", __u32); ("fe_reserved",
  CArray 3 __u32)].

Definition fiemap_extent_info : ctype := CStruct 1 [("fi_flags", c_uint); ("fi_extents_mapped",
  c_uint); ("fi_extents_max", c_uint); ("fi_extents_start", CPtr)].

Definition fl_owner_t : ctype := CPtr.

Definition file_lock_core : ctype := CStruct 1 [("flc_blocker", CPtr); ("flc_list", list_head);
  ("flc_link", hlist_node); ("flc_blocked_requests", list_head); ("flc_blocked_member",
  list_head); ("flc_owner", fl_owner_t); ("flc_flags", c_uint); ("flc_type", c_uchar);
  ("flc_pid", pid_t); ("flc_link_cpu", c_int); ("flc_wait", wait_queue_head_t); ("flc_file",
  CPtr)].

Definition file_lease : ctype := CStruct 1 [("c", file_lock_core); ("fl_fasync", CPtr);
  ("fl_break_time", c_ulong); ("fl_downgrade_time", c_ulong); ("fl_lmops", CPtr)].

Definition nlm_lockowner : ctype := CStruct 1 [("_unused", CArray 0 CU8)].

Definition nfs_lock_info : ctype := CStruct 1 [("state", u32_); ("owner", CPtr); ("list",
  list_head)].

Definition nfs4_lock_info : ctype := CStruct 1 [("owner", CPtr)].

Definition file_lock__bindgen_ty_1__bindgen_ty_1 : ctype := CStruct 1 [("link", list_head);
  ("state", c_int); ("debug_id", c_uint)].

Definition file_lock__bindgen_ty_1__bindgen_ty_2 : ctype := CStruct 1 [("inode", CPtr)].

Definition file_lock__bindgen_ty_1 : ctype := CUnion 1 [("nfs_fl", nfs_lock_info); ("nfs4_fl",
  nfs4_lock_info); ("afs", file_lock__bindgen_ty_1__bindgen_ty_1); ("ceph",
  file_lock__bindgen_ty_1__bindgen_ty_2)].

Definition file_lock : ctype := CStruct 1 [("c", file_lock_core); ("fl_start", loff_t);
  ("fl_end", loff_t); ("fl_ops", CPtr); ("fl_lmops", CPtr); ("fl_u", file_lock__bindgen_ty_1)].

Definition file_lock_context : ctype := CStruct 1 [("flc_lock", spinlock_t); ("flc_flock",
  list_head); ("flc_posix", list_head); ("flc_lease", list_head)].

Definition file_lock_operations : ctype := CStruct 1 [("fl_copy_lock", CPtr);
  ("fl_release_private", CPtr)].

Definition fop_flags_t : ctype := c_uint.

Definition file_operations : ctype := CStruct 1 [("owner", CPtr); ("fop_flags", fop_flags_t);
  ("llseek", CPtr); ("read", CPtr); ("write", CPtr); ("read_iter", CPtr); ("write_iter", CPtr);
  ("iopoll", CPtr); ("iterate_shared", CPtr); ("poll", CPtr); ("unlocked_ioctl", CPtr);
  ("compat_ioctl", CPtr); ("mmap", CPtr); ("open", CPtr); ("flush", CPtr); ("release", CPtr);
  ("fsync", CPtr); ("fasync", CPtr); ("lock", CPtr); ("get_unmapped_area", CPtr);
  ("check_flags", CPtr); ("flock", CPtr); ("splice_write", CPtr); ("splice_read", CPtr);
  ("splice_eof", CPtr); ("setlease", CPtr); ("fallocate", CPtr); ("show_fdinfo", CPtr);
  ("copy_file_range", CPtr); ("remap_file_range", CPtr); ("fadvise", CPtr); ("uring_cmd", CPtr);
  ("uring_cmd_iopoll", CPtr); ("mmap_prepare", CPtr)].

Definition file_system_type : ctype := CStruct 1 [("name", CPtr); ("fs_flags", c_int);
  ("init_fs_context", CPtr); ("parameters", CPtr); ("kill_sb", CPtr); ("owner", CPtr); ("next",
  CPtr); ("fs_supers", hlist_head); ("s_lock_key", lock_class_key); ("s_umount_key",
  lock_class_key); ("s_vfs_rename_key", lock_class_key); ("s_writers_key", CArray 3
  lock_class_key); ("i_lock_key", lock_class_key); ("i_mutex_key", lock_class_key);
  ("invalidate_lock_key", lock_class_key); ("i_mutex_dir_key", lock_class_key)].

Definition filename : ctype := CStruct 1 [("iname", CArray 168 c_char)].

Definition filter_pred : ctype := CStruct 1 [("regex", CPtr); ("mask", CPtr); ("ops", CPtr);
  ("field", CPtr); ("val", u64_); ("val2", u64_); ("fn_num", filter_pred_fn__Type); ("offset",
  c_int); ("not", c_int); ("op", c_int)].

Definition firmware : ctype := CStruct 1 [("size", CU64); ("data", CPtr); ("priv_", CPtr)].

Definition regulator_init_data : ctype := CStruct 1 [("supply_regulator", CPtr); ("constraints",
  regulation_constraints); ("num_consumer_supplies", c_int); ("consumer_supplies", CPtr);
  ("driver_data", CPtr)].

Definition flow_action_police__bindgen_ty_1 : ctype := CStruct 1 [("act_id",
  flow_action_id__Type); ("extval", u32_)].

Definition flow_action_police__bindgen_ty_2 : ctype := CStruct 1 [("act_id",
  flow_action_id__Type); ("extval", u32_)].

Definition flow_action_police : ctype := CStruct 1 [("burst", u32_); ("rate_bytes_ps", u64_);
  ("peakrate_bytes_ps", u64_); ("avrate", u32_); ("overhead", u16_); ("burst_pkt", u64_);
  ("rate_pkt_ps", u64_); ("mtu", u32_); ("exceed", flow_action_police__bindgen_ty_1);
  ("notexceed", flow_action_police__bindgen_ty_2)].

Definition nf_flowtable : ctype := CStruct 1 [("_unused", CArray 0 CU8)].

Definition action_destr : ctype := CPtr.

Definition flow_action_entry__bindgen_ty_1__bindgen_ty_1 : ctype := CStruct 1 [("vid", u16_);
  ("proto", __be16); ("prio", u8_)].

Definition flow_action_entry__bindgen_ty_1__bindgen_ty_2 : ctype := CStruct 1 [("dst", CArray 6
  c_uchar); ("src", CArray 6 c_uchar)].

Definition flow_action_entry__bindgen_ty_1__bindgen_ty_3 : ctype := CStruct 1 [("htype",
  flow_action_mangle_base__Type); ("offset", u32_); ("mask", u32_); ("val", u32_)].

Definition flow_action_entry__bindgen_ty_1__bindgen_ty_4 : ctype := CStruct 1 [("ctx", u32_);
  ("index", u32_); ("vf", u8_)].

Definition flow_action_entry__bindgen_ty_1__bindgen_ty_5 : ctype := CStruct 1 [("psample_group",
  CPtr); ("rate", u32_); ("trunc_size", u32_); ("truncate", bool_)].

Definition flow_action_entry__bindgen_ty_1__bindgen_ty_6 : ctype := CStruct 1 [("action",
  c_int); ("zone", u16_); ("flow_table", CPtr)].

Definition flow_action_entry__bindgen_ty_1__bindgen_ty_7 : ctype := CStruct 1 [("cookie",
  c_ulong); ("mark", u32_); ("labels", CArray 4 u32_); ("orig_dir", bool_)].

Definition flow_action_entry__bindgen_ty_1__bindgen_ty_8 : ctype := CStruct 1 [("label", u32_);
  ("proto", __be16); ("tc", u8_); ("bos", u8_); ("ttl", u8_)].

Definition flow_action_entry__bindgen_ty_1__bindgen_ty_9 : ctype := CStruct 1 [("proto",
  __be16)].

Definition flow_action_entry__bindgen_ty_1__bindgen_ty_10 : ctype := CStruct 1 [("label", u32_);
  ("tc", u8_); ("bos", u8_); ("ttl", u8_)].

Definition flow_action_entry__bindgen_ty_1__bindgen_ty_11 : ctype := CStruct 1 [("prio", s32);
  ("basetime", u64_); ("cycletime", u64_); ("cycletimeext", u64_); ("num_entries", u32_);
  ("entries", CPtr)].

Definition flow_action_entry__bindgen_ty_1__bindgen_ty_12 : ctype := CStruct 1 [("sid", u16_)].

Definition flow_action_entry__bindgen_ty_1 : ctype := CUnion 1 [("chain_index", u32_); ("dev",
  CPtr); ("vlan", flow_action_entry__bindgen_ty_1__bindgen_ty_1); ("vlan_push_eth",
  flow_action_entry__bindgen_ty_1__bindgen_ty_2); ("mangle",
  flow_action_entry__bindgen_ty_1__bindgen_ty_3); ("tunnel", CPtr); ("csum_flags", u32_);
  ("mark", u32_); ("ptype", u16_); ("rx_queue", u16_); ("priority", u32_); ("queue",
  flow_action_entry__bindgen_ty_1__bindgen_ty_4); ("sample",
  flow_action_entry__bindgen_ty_1__bindgen_ty_5); ("police", flow_action_police); ("ct",
  flow_action_entry__bindgen_ty_1__bindgen_ty_6); ("ct_metadata",
  flow_action_entry__bindgen_ty_1__bindgen_ty_7); ("mpls_push",
  flow_action_entry__bindgen_ty_1__bindgen_ty_8); ("mpls_pop",
  flow_action_entry__bindgen_ty_1__bindgen_ty_9); ("mpls_mangle",
  flow_action_entry__bindgen_ty_1__bindgen_ty_10); ("gate",
  flow_action_entry__bindgen_ty_1__bindgen_ty_11); ("pppoe",
  flow_action_entry__bindgen_ty_1__bindgen_ty_12)].

Definition flow_action_entry : ctype := CStruct 1 [("id", flow_action_id__Type); ("hw_index",
  u32_); ("cookie", c_ulong); ("miss_cookie", u64_); ("hw_stats", flow_action_hw_stats__Type);
  ("destructor", action_destr); ("destructor_priv", CPtr); ("__bindgen_anon_1",
  flow_action_entry__bindgen_ty_1); ("user_cookie", CPtr)].

Definition flow_action : ctype := CStruct 1 [("num_entries", c_uint); ("entries",
  __IncompleteArrayField flow_action_entry)].

Definition flow_action_cookie : ctype := CStruct 1 [("cookie_len", u32_); ("cookie",
  __IncompleteArrayField u8_)].

Definition flow_block : ctype := CStruct 1 [("cb_list", list_head)].

Definition flow_cls_common_offload : ctype := CStruct 1 [("chain_index", u32_); ("protocol",
  __be16); ("prio", u32_); ("skip_sw", bool_); ("extack", CPtr)].

Definition flow_stats : ctype := CStruct 1 [("pkts", u64_); ("bytes", u64_); ("drops", u64_);
  ("lastused", u64_); ("used_hw_stats", flow_action_hw_stats__Type); ("used_hw_stats_valid",
  bool_)].

Definition flow_cls_offload : ctype := CStruct 1 [("common", flow_cls_common_offload);
  ("command", flow_cls_command__Type); ("use_act_stats", bool_); ("cookie", c_ulong); ("rule",
  CPtr); ("stats", flow_stats); ("classid", u32_)].

Definition flow_match : ctype := CStruct 1 [("dissector", CPtr); ("mask", CPtr); ("key", CPtr)].

Definition flow_rule : ctype := CStruct 1 [("match_", flow_match); ("action", flow_action)].

Definition fnhe_hash_bucket : ctype := CStruct 1 [("chain", CPtr)].

Definition page__bindgen_ty_1__bindgen_ty_1__bindgen_ty_1 : ctype := CUnion 1 [("lru",
  list_head); ("buddy_list", list_head); ("pcp_list", list_head); ("pcp_llist", llist_node)].

Definition page__bindgen_ty_1__bindgen_ty_1__bindgen_ty_2 : ctype := CUnion 1 [("__folio_index",
  c_ulong); ("share", c_ulong)].

Definition page__bindgen_ty_1__bindgen_ty_1 : ctype := CStruct 1 [("__bindgen_anon_1",
  page__bindgen_ty_1__bindgen_ty_1__bindgen_ty_1); ("mapping", CPtr); ("__bindgen_anon_2",
  page__bindgen_ty_1__bindgen_ty_1__bindgen_ty_2); ("private", c_ulong)].

Definition page__bindgen_ty_1__bindgen_ty_2 : ctype := CStruct 1 [("pp_magic", c_ulong); ("pp",
  CPtr); ("_pp_mapping_pad", c_ulong); ("dma_addr", c_ulong); ("pp_ref_count", atomic_long_t)].

Definition page__bindgen_ty_1__bindgen_ty_3 : ctype := CStruct 1 [("compound_head", c_ulong)].

Definition page__bindgen_ty_1__bindgen_ty_4 : ctype := CStruct 1
  [("_unused_pgmap_compound_head", CPtr); ("zone_device_data", CPtr)].

Definition page__bindgen_ty_1 : ctype := CUnion 1 [("__bindgen_anon_1",
  page__bindgen_ty_1__bindgen_ty_1); ("__bindgen_anon_2", page__bindgen_ty_1__bindgen_ty_2);
  ("__bindgen_anon_3", page__bindgen_ty_1__bindgen_ty_3); ("__bindgen_anon_4",
  page__bindgen_ty_1__bindgen_ty_4); ("callback_head", callback_head)].

Definition page__bindgen_ty_2 : ctype := CUnion 1 [("page_type", c_uint); ("_mapcount",
  atomic_t)].

Definition page : ctype := CStruct 1 [("flags", memdesc_flags_t); ("__bindgen_anon_1",
  page__bindgen_ty_1); ("__bindgen_anon_2", page__bindgen_ty_2); ("_refcount", atomic_t);
  ("memcg_data", c_ulong)].

Definition folio__bindgen_ty_1__bindgen_ty_1__bindgen_ty_1__bindgen_ty_1 : ctype := CStruct 1
  [("__filler", CPtr); ("mlock_count", c_uint)].

Definition folio__bindgen_ty_1__bindgen_ty_1__bindgen_ty_1 : ctype := CUnion 1 [("lru",
  list_head); ("__bindgen_anon_1",
  folio__bindgen_ty_1__bindgen_ty_1__bindgen_ty_1__bindgen_ty_1); ("pgmap", CPtr)].

Definition folio__bindgen_ty_1__bindgen_ty_1__bindgen_ty_2 : ctype := CUnion 1 [("index",
  c_ulong); ("share", c_ulong)].

Definition folio__bindgen_ty_1__bindgen_ty_1__bindgen_ty_3 : ctype := CUnion 1 [("private",
  CPtr); ("swap", swp_entry_t)].

Definition folio__bindgen_ty_1__bindgen_ty_1 : ctype := CStruct 1 [("flags", memdesc_flags_t);
  ("__bindgen_anon_1", folio__bindgen_ty_1__bindgen_ty_1__bindgen_ty_1); ("mapping", CPtr);
  ("__bindgen_anon_2", folio__bindgen_ty_1__bindgen_ty_1__bindgen_ty_2); ("__bindgen_anon_3",
  folio__bindgen_ty_1__bindgen_ty_1__bindgen_ty_3); ("_mapcount", atomic_t); ("_refcount",
  atomic_t); ("memcg_data", c_ulong)].

Definition folio__bindgen_ty_1 : ctype := CUnion 1 [("__bindgen_anon_1",
  folio__bindgen_ty_1__bindgen_ty_1); ("page", page)].

Definition mm_id_mapcount_t : ctype := c_int.

Definition folio__bindgen_ty_2__bindgen_ty_1__bindgen_ty_1__bindgen_ty_1__bindgen_ty_1 : ctype
  := CUnion 1 [("_mm_id", CArray 2 mm_id_t); ("_mm_ids", c_ulong)].

Definition folio__bindgen_ty_2__bindgen_ty_1__bindgen_ty_1__bindgen_ty_1 : ctype := CStruct 1
  [("_large_mapcount", atomic_t); ("_nr_pages_mapped", atomic_t); ("_entire_mapcount",
  atomic_t); ("_pincount", atomic_t); ("_mm_id_mapcount", CArray 2 mm_id_mapcount_t);
  ("__bindgen_anon_1",
  folio__bindgen_ty_2__bindgen_ty_1__bindgen_ty_1__bindgen_ty_1__bindgen_ty_1)].

Definition folio__bindgen_ty_2__bindgen_ty_1__bindgen_ty_1 : ctype := CUnion 1
  [("__bindgen_anon_1", folio__bindgen_ty_2__bindgen_ty_1__bindgen_ty_1__bindgen_ty_1);
  ("_usable_1", CArray 4 c_ulong)].

Definition folio__bindgen_ty_2__bindgen_ty_1 : ctype := CStruct 1 [("_flags_1", c_ulong);
  ("_head_1", c_ulong); ("__bindgen_anon_1", folio__bindgen_ty_2__bindgen_ty_1__bindgen_ty_1);
  ("_mapcount_1", atomic_t); ("_refcount_1", atomic_t); ("_nr_pages", c_uint)].

Definition folio__bindgen_ty_2 : ctype := CUnion 1 [("__bindgen_anon_1",
  folio__bindgen_ty_2__bindgen_ty_1); ("__page_1", page)].

Definition folio__bindgen_ty_3__bindgen_ty_1 : ctype := CStruct 1 [("_flags_2", c_ulong);
  ("_head_2", c_ulong); ("_deferred_list", list_head)].

Definition folio__bindgen_ty_3 : ctype := CUnion 1 [("__bindgen_anon_1",
  folio__bindgen_ty_3__bindgen_ty_1); ("__page_2", page)].

Definition folio__bindgen_ty_4__bindgen_ty_1 : ctype := CStruct 1 [("_flags_3", c_ulong);
  ("_head_3", c_ulong); ("_hugetlb_subpool", CPtr); ("_hugetlb_cgroup", CPtr);
  ("_hugetlb_cgroup_rsvd", CPtr); ("_hugetlb_hwpoison", CPtr)].

Definition folio__bindgen_ty_4 : ctype := CUnion 1 [("__bindgen_anon_1",
  folio__bindgen_ty_4__bindgen_ty_1); ("__page_3", page)].

Definition folio : ctype := CStruct 1 [("__bindgen_anon_1", folio__bindgen_ty_1);
  ("__bindgen_anon_2", folio__bindgen_ty_2); ("__bindgen_anon_3", folio__bindgen_ty_3);
  ("__bindgen_anon_4", folio__bindgen_ty_4)].

Definition folio_queue : ctype := CStruct 1 [("vec", folio_batch); ("orders", CArray 31 u8_);
  ("next", CPtr); ("prev", CPtr); ("marks", c_ulong); ("marks2", c_ulong); ("rreq_id", c_uint);
  ("debug_id", c_uint)].

Definition fown_struct : ctype := CStruct 1 [("file", CPtr); ("lock", rwlock_t); ("pid", CPtr);
  ("pid_type", pid_type__Type); ("uid", kuid_t); ("euid", kuid_t); ("signum", c_int)].

Definition rhlist_head : ctype := CStruct 1 [("rhead", rhash_head); ("next", CPtr)].

Definition fprop_global : ctype := CStruct 1 [("events", percpu_counter); ("period", c_uint);
  ("sequence", seqcount_t)].

Definition frag_v4_compare_key : ctype := CStruct 1 [("saddr", __be32); ("daddr", __be32);
  ("user", u32_); ("vif", u32_); ("id", __be16); ("protocol", u16_)].

Definition frag_v6_compare_key : ctype := CStruct 1 [("saddr", in6_addr); ("daddr", in6_addr);
  ("user", u32_); ("id", __be32); ("iif", u32_)].

Definition inet_frag_queue__bindgen_ty_1 : ctype := CUnion 1 [("v4", frag_v4_compare_key);
  ("v6", frag_v6_compare_key)].

Definition inet_frag_queue : ctype := CStruct 1 [("node", rhash_head); ("key",
  inet_frag_queue__bindgen_ty_1); ("timer", timer_list); ("lock", spinlock_t); ("refcnt",
  refcount_t); ("rb_fragments", rb_root); ("fragments_tail", CPtr); ("last_run_head", CPtr);
  ("stamp", ktime_t); ("len", c_int); ("meat", c_int); ("tstamp_type", u8_); ("flags", __u8);
  ("max_size", u16_); ("fqdir", CPtr); ("rcu", callback_head)].

Definition fs_context_operations : ctype := CStruct 1 [("free", CPtr); ("dup", CPtr);
  ("parse_param", CPtr); ("parse_monolithic", CPtr); ("get_tree", CPtr); ("reconfigure", CPtr)].

Definition fs_param_type : ctype := CPtr.

Definition fs_parameter_spec : ctype := CStruct 1 [("name", CPtr); ("type_", fs_param_type);
  ("opt", u8_); ("flags", c_ushort); ("data", CPtr)].

Definition fs_parse_result__bindgen_ty_1 : ctype := CUnion 1 [("boolean", bool_); ("int_32",
  c_int); ("uint_32", c_uint); ("uint_64", u64_); ("uid", kuid_t); ("gid", kgid_t)].

Definition fs_parse_result : ctype := CStruct 1 [("negated", bool_); ("__bindgen_anon_1",
  fs_parse_result__bindgen_ty_1)].

Definition fs_struct : ctype := CStruct 1 [("users", c_int); ("seq", seqlock_t); ("umask",
  c_int); ("in_exec", c_int); ("root", path); ("pwd", path)].

Definition fscrypt_policy_v1 : ctype := CStruct 1 [("version", __u8);
  ("contents_encryption_mode", __u8); ("filenames_encryption_mode", __u8); ("flags", __u8);
  ("master_key_descriptor", CArray 8 __u8)].

Definition fscrypt_policy_v2 : ctype := CStruct 1 [("version", __u8);
  ("contents_encryption_mode", __u8); ("filenames_encryption_mode", __u8); ("flags", __u8);
  ("log2_data_unit_size", __u8); ("__reserved", CArray 3 __u8); ("master_key_identifier", CArray
  16 __u8)].

Definition fscrypt_policy : ctype := CUnion 1 [("version", u8_); ("v1", fscrypt_policy_v1);
  ("v2", fscrypt_policy_v2)].

Definition fscrypt_keyring : ctype := CStruct 1 [("lock", spinlock_t); ("key_hashtable", CArray
  128 hlist_head)].

Definition fserror_event : ctype := CStruct 1 [("work", work_struct); ("sb", CPtr); ("inode",
  CPtr); ("pos", loff_t); ("len", u64_); ("type_", fserror_type__Type); ("error", c_int)].

Definition inotify_group_private_data : ctype := CStruct 1 [("idr_lock", spinlock_t); ("idr",
  idr); ("ucounts", CPtr)].

Definition fsnotify_group__bindgen_ty_1 : ctype := CUnion 1 [("private", CPtr); ("inotify_data",
  inotify_group_private_data); ("fanotify_data", fanotify_group_private_data)].

Definition fsnotify_group : ctype := CStruct 1 [("ops", CPtr); ("refcnt", refcount_t);
  ("notification_lock", spinlock_t); ("notification_list", list_head); ("notification_waitq",
  wait_queue_head_t); ("q_len", c_uint); ("max_events", c_uint); ("priority",
  fsnotify_group_prio__Type); ("shutdown", bool_); ("flags", c_int); ("owner_flags", c_uint);
  ("mark_mutex", mutex); ("user_waits", atomic_t); ("marks_list", list_head); ("fsn_fa", CPtr);
  ("overflow_event", CPtr); ("memcg", CPtr); ("user_ns", CPtr); ("__bindgen_anon_1",
  fsnotify_group__bindgen_ty_1)].

Definition fsnotify_mark_connector__bindgen_ty_1 : ctype := CUnion 1 [("obj", CPtr);
  ("destroy_next", CPtr)].

Definition fsnotify_mark_connector : ctype := CStruct 1 [("lock", spinlock_t); ("type_",
  c_uchar); ("prio", c_uchar); ("flags", c_ushort); ("__bindgen_anon_1",
  fsnotify_mark_connector__bindgen_ty_1); ("list", hlist_head)].

Definition fsnotify_iter_info : ctype := CStruct 1 [("marks", CArray 6 CPtr); ("current_group",
  CPtr); ("report_mask", c_uint); ("srcu_idx", c_int)].

Definition fsnotify_ops : ctype := CStruct 1 [("handle_event", CPtr); ("handle_inode_event",
  CPtr); ("free_group_priv", CPtr); ("freeing_mark", CPtr); ("free_event", CPtr); ("free_mark",
  CPtr)].

Definition fsnotify_sb_info : ctype := CStruct 1 [("sb_marks", CPtr); ("inode_conn_list",
  list_head); ("list_lock", spinlock_t); ("watched_objects", CArray 3 atomic_long_t)].

Definition fsverity_operations : ctype := CStruct 1 [("begin_enable_verity", CPtr);
  ("end_enable_verity", CPtr); ("get_verity_descriptor", CPtr); ("read_merkle_tree_page", CPtr);
  ("readahead_merkle_tree", CPtr); ("write_merkle_tree_block", CPtr)].

Definition trace_seq : ctype := CStruct 1 [("seq", seq_buf); ("readpos", CU64); ("full", c_int);
  ("buffer", CArray 8156 c_char)].

Definition trace_iterator : ctype := CStruct 1 [("tr", CPtr); ("trace", CPtr); ("array_buffer",
  CPtr); ("private", CPtr); ("cpu_file", c_int); ("mutex", mutex); ("buffer_iter", CPtr);
  ("iter_flags", c_ulong); ("temp", CPtr); ("temp_size", c_uint); ("fmt", CPtr); ("fmt_size",
  c_uint); ("wait_index", atomic_t); ("tmp_seq", trace_seq); ("started", cpumask_var_t);
  ("closed", bool_); ("snapshot", bool_); ("seq", trace_seq); ("ent", CPtr); ("lost_events",
  c_ulong); ("leftover", c_int); ("ent_size", c_int); ("cpu", c_int); ("ts", u64_); ("pos",
  loff_t); ("idx", c_long)].

Definition ftrace_hash : ctype := CStruct 1 [("size_bits", c_ulong); ("buckets", CPtr);
  ("count", c_ulong); ("flags", c_ulong); ("rcu", callback_head)].

Definition ftrace_regs : ctype := CStruct 1 [].

Definition func_instance : ctype := CStruct 1 [("hl_node", hlist_node); ("callchain",
  callchain); ("insn_cnt", u32_); ("updated", bool_); ("must_write_dropped", bool_); ("frames",
  CArray 8 CPtr); ("must_write_set", CPtr)].

Definition futex_key__bindgen_ty_1 : ctype := CStruct 1 [("i_seq", u64_); ("pgoff", c_ulong);
  ("offset", c_uint)].

Definition futex_key__bindgen_ty_2__bindgen_ty_1 : ctype := CUnion 1 [("mm", CPtr); ("__tmp",
  u64_)].

Definition futex_key__bindgen_ty_2 : ctype := CStruct 1 [("__bindgen_anon_1",
  futex_key__bindgen_ty_2__bindgen_ty_1); ("address", c_ulong); ("offset", c_uint)].

Definition futex_key__bindgen_ty_3 : ctype := CStruct 1 [("ptr", u64_); ("word", c_ulong);
  ("offset", c_uint); ("node", c_uint)].

Definition futex_key : ctype := CUnion 1 [("shared", futex_key__bindgen_ty_1); ("private",
  futex_key__bindgen_ty_2); ("both", futex_key__bindgen_ty_3)].

Definition futex_pi_state : ctype := CStruct 1 [("list", list_head); ("pi_mutex",
  rt_mutex_base); ("owner", CPtr); ("refcount", refcount_t); ("key", futex_key)].

Definition fwnode_endpoint : ctype := CStruct 1 [("port", c_uint); ("id", c_uint);
  ("local_fwnode", CPtr)].

Definition fwnode_operations : ctype := CStruct 1 [("get", CPtr); ("put", CPtr);
  ("device_is_available", CPtr); ("device_get_match_data", CPtr); ("device_dma_supported",
  CPtr); ("device_get_dma_attr", CPtr); ("property_present", CPtr); ("property_read_bool",
  CPtr); ("property_read_int_array", CPtr); ("property_read_string_array", CPtr); ("get_name",
  CPtr); ("get_name_prefix", CPtr); ("get_parent", CPtr); ("get_next_child_node", CPtr);
  ("get_named_child_node", CPtr); ("get_reference_args", CPtr); ("graph_get_next_endpoint",
  CPtr); ("graph_get_remote_endpoint", CPtr); ("graph_get_port_parent", CPtr);
  ("graph_parse_endpoint", CPtr); ("iomap", CPtr); ("irq_get", CPtr); ("add_links", CPtr)].

Definition fwnode_reference_args : ctype := CStruct 1 [("fwnode", CPtr); ("nargs", c_uint);
  ("args", CArray 16 u64_)].

Definition blk_mode_t : ctype := c_uint.

Definition gendisk : ctype := CStruct 1 [("major", c_int); ("first_minor", c_int); ("minors",
  c_int); ("disk_name", CArray 32 c_char); ("events", c_ushort); ("event_flags", c_ushort);
  ("part_tbl", xarray); ("part0", CPtr); ("fops", CPtr); ("queue", CPtr); ("private_data",
  CPtr); ("bio_split", bio_set); ("flags", c_int); ("state", c_ulong); ("open_mutex", mutex);
  ("open_partitions", c_uint); ("bdi", CPtr); ("queue_kobj", kobject); ("slave_dir", CPtr);
  ("slave_bdevs", list_head); ("random", CPtr); ("ev", CPtr); ("nr_zones", c_uint);
  ("zone_capacity", c_uint); ("last_zone_capacity", c_uint); ("zones_cond", CPtr);
  ("zone_wplugs_hash_bits", c_uint); ("nr_zone_wplugs", atomic_t); ("zone_wplugs_lock",
  spinlock_t); ("zone_wplugs_pool", CPtr); ("zone_wplugs_hash", CPtr); ("zone_wplugs_wq", CPtr);
  ("cdi", CPtr); ("node_id", c_int); ("bb", CPtr); ("lockdep_map", lockdep_map); ("diskseq",
  u64_); ("open_mode", blk_mode_t); ("ia_ranges", CPtr); ("rqos_state_mutex", mutex)].

Definition pm_domain_data : ctype := CStruct 1 [("list_node", list_head); ("dev", CPtr)].

Definition tc_stats : ctype := CStruct 1 [("bytes", __u64); ("packets", __u32); ("drops",
  __u32); ("overlimits", __u32); ("bps", __u32); ("pps", __u32); ("qlen", __u32); ("backlog",
  __u32)].

Definition gnet_dump : ctype := CStruct 1 [("lock", CPtr); ("skb", CPtr); ("tail", CPtr);
  ("compat_tc_stats", c_int); ("compat_xstats", c_int); ("padattr", c_int); ("xstats", CPtr);
  ("xstats_len", c_int); ("tc_stats", tc_stats)].

Definition gpio_desc : ctype := CStruct 1 [("gdev", CPtr); ("flags", c_ulong); ("label", CPtr);
  ("name", CPtr); ("debounce_period_us", c_uint)].

Definition gpio_desc_label : ctype := CStruct 1 [("rh", callback_head); ("str_",
  __IncompleteArrayField c_char)].

Definition gpio_device : ctype := CStruct 1 [("dev", device); ("chrdev", cdev); ("id", c_int);
  ("owner", CPtr); ("chip", CPtr); ("descs", CPtr); ("valid_mask", CPtr); ("desc_srcu",
  srcu_struct); ("base", c_uint); ("ngpio", u16_); ("can_sleep", bool_); ("label", CPtr);
  ("data", CPtr); ("list", list_head); ("line_state_notifier", raw_notifier_head);
  ("line_state_lock", rwlock_t); ("line_state_wq", CPtr); ("device_notifier",
  blocking_notifier_head); ("srcu", srcu_struct); ("pin_ranges", list_head)].

Definition irq_fwspec : ctype := CStruct 1 [("fwnode", CPtr); ("param_count", c_int); ("param",
  CArray 16 u32_)].

Definition uv_alloc_info : ctype := CStruct 1 [("limit", c_int); ("blade", c_int); ("offset",
  c_ulong); ("name", CPtr)].

Definition irq_hw_number_t : ctype := c_ulong.

Definition irq_alloc_info__bindgen_ty_1 : ctype := CUnion 1 [("ioapic", ioapic_alloc_info);
  ("uv", uv_alloc_info)].

Definition irq_alloc_info : ctype := CStruct 1 [("type_", irq_alloc_type__Type); ("flags",
  u32_); ("devid", u32_); ("hwirq", irq_hw_number_t); ("mask", CPtr); ("desc", CPtr); ("data",
  CPtr); ("__bindgen_anon_1", irq_alloc_info__bindgen_ty_1)].

Definition msi_alloc_info_t : ctype := irq_alloc_info.

Definition gpio_irq_fwspec : ctype := CUnion 1 [("fwspec", irq_fwspec); ("msiinfo",
  msi_alloc_info_t)].

Definition irq_affinity_notify : ctype := CStruct 1 [("irq", c_uint); ("kref", kref); ("work",
  work_struct); ("notify", CPtr); ("release", CPtr)].

Definition napi_struct : ctype := CStruct 1 [("state", c_ulong); ("poll_list", list_head);
  ("weight", c_int); ("defer_hard_irqs_count", u32_); ("poll", CPtr); ("poll_owner", c_int);
  ("list_owner", c_int); ("dev", CPtr); ("skb", CPtr); ("gro", gro_node); ("timer", hrtimer);
  ("thread", CPtr); ("gro_flush_timeout", c_ulong); ("irq_suspend_timeout", c_ulong);
  ("defer_hard_irqs", u32_); ("napi_id", u32_); ("dev_list", list_head); ("napi_hash_node",
  hlist_node); ("irq", c_int); ("notify", irq_affinity_notify); ("napi_rmap_idx", c_int);
  ("index", c_int); ("config", CPtr)].

Definition group_info : ctype := CStruct 1 [("usage", refcount_t); ("ngroups", c_int); ("gid",
  __IncompleteArrayField kgid_t)].

Definition rpcsec_gss_oid : ctype := CStruct 1 [("len", c_uint); ("data", CArray 32 u8_)].

Definition gss_api_mech : ctype := CStruct 1 [("gm_list", list_head); ("gm_owner", CPtr);
  ("gm_oid", rpcsec_gss_oid); ("gm_name", CPtr); ("gm_ops", CPtr); ("gm_pf_num", c_int);
  ("gm_pfs", CPtr); ("gm_upcall_enctypes", CPtr)].

Definition gss_api_ops : ctype := CStruct 1 [("gss_import_sec_context", CPtr); ("gss_get_mic",
  CPtr); ("gss_verify_mic", CPtr); ("gss_wrap", CPtr); ("gss_unwrap", CPtr);
  ("gss_delete_sec_context", CPtr)].

Definition gss_ctx : ctype := CStruct 1 [("mech_type", CPtr); ("internal_ctx_id", CPtr);
  ("slack", c_uint); ("align", c_uint)].

Definition handle_to_path_ctx : ctype := CStruct 1 [("root", path); ("flags",
  handle_to_path_flags__Type); ("fh_flags", c_uint)].

Definition hd_geometry : ctype := CStruct 1 [("heads", c_uchar); ("sectors", c_uchar);
  ("cylinders", c_ushort); ("start", c_ulong)].

Definition header_ops : ctype := CStruct 1 [("create", CPtr); ("parse", CPtr); ("cache", CPtr);
  ("cache_update", CPtr); ("validate", CPtr); ("parse_protocol", CPtr)].

Definition hh_cache : ctype := CStruct 1 [("hh_len", c_uint); ("hh_lock", seqlock_t);
  ("hh_data", CArray 16 c_ulong)].

Definition hw_perf_event_extra : ctype := CStruct 1 [("config", u64_); ("reg", c_uint);
  ("alloc", c_int); ("idx", c_int)].

Definition hw_perf_event__bindgen_ty_1__bindgen_ty_1 : ctype := CStruct 1 [("config", u64_);
  ("config1", u64_); ("last_tag", u64_); ("dyn_constraint", u64_); ("config_base", c_ulong);
  ("event_base", c_ulong); ("event_base_rdpmc", c_int); ("idx", c_int); ("last_cpu", c_int);
  ("flags", c_int); ("extra_reg", hw_perf_event_extra); ("branch_reg", hw_perf_event_extra)].

Definition hw_perf_event__bindgen_ty_1__bindgen_ty_2 : ctype := CStruct 1 [("aux_config", u64_);
  ("aux_paused", c_uint)].

Definition hw_perf_event__bindgen_ty_1__bindgen_ty_3 : ctype := CStruct 1 [("hrtimer",
  hrtimer)].

Definition hw_perf_event__bindgen_ty_1__bindgen_ty_4 : ctype := CStruct 1 [("tp_list",
  list_head)].

Definition hw_perf_event__bindgen_ty_1__bindgen_ty_5 : ctype := CStruct 1 [("pwr_acc", u64_);
  ("ptsc", u64_)].

Definition hw_perf_event__bindgen_ty_1__bindgen_ty_6 : ctype := CStruct 1 [("info",
  arch_hw_breakpoint); ("bp_list", rhlist_head)].

Definition hw_perf_event__bindgen_ty_1__bindgen_ty_7 : ctype := CStruct 1 [("iommu_bank", u8_);
  ("iommu_cntr", u8_); ("padding", u16_); ("conf", u64_); ("conf1", u64_)].

Definition hw_perf_event__bindgen_ty_1 : ctype := CUnion 1 [("__bindgen_anon_1",
  hw_perf_event__bindgen_ty_1__bindgen_ty_1); ("__bindgen_anon_2",
  hw_perf_event__bindgen_ty_1__bindgen_ty_2); ("__bindgen_anon_3",
  hw_perf_event__bindgen_ty_1__bindgen_ty_3); ("__bindgen_anon_4",
  hw_perf_event__bindgen_ty_1__bindgen_ty_4); ("__bindgen_anon_5",
  hw_perf_event__bindgen_ty_1__bindgen_ty_5); ("__bindgen_anon_6",
  hw_perf_event__bindgen_ty_1__bindgen_ty_6); ("__bindgen_anon_7",
  hw_perf_event__bindgen_ty_1__bindgen_ty_7)].

Definition hw_perf_event__bindgen_ty_2__bindgen_ty_1 : ctype := CStruct 1 [("last_period",
  u64_); ("period_left", local64_t)].

Definition hw_perf_event__bindgen_ty_2__bindgen_ty_2 : ctype := CStruct 1 [("saved_metric",
  u64_); ("saved_slots", u64_)].

Definition hw_perf_event__bindgen_ty_2 : ctype := CUnion 1 [("__bindgen_anon_1",
  hw_perf_event__bindgen_ty_2__bindgen_ty_1); ("__bindgen_anon_2",
  hw_perf_event__bindgen_ty_2__bindgen_ty_2)].

Definition hw_perf_event : ctype := CStruct 1 [("__bindgen_anon_1",
  hw_perf_event__bindgen_ty_1); ("target", CPtr); ("addr_filters", CPtr); ("addr_filters_gen",
  c_ulong); ("state", c_int); ("prev_count", local64_t); ("sample_period", u64_);
  ("__bindgen_anon_2", hw_perf_event__bindgen_ty_2); ("interrupts_seq", u64_); ("interrupts",
  u64_); ("freq_time_stamp", u64_); ("freq_count_stamp", u64_)].

Definition hw_port_info : ctype := CStruct 1 [("lower_dev", CPtr); ("port_id", u32_)].

Definition hwspinlock : ctype := CStruct 1 [("bank", CPtr); ("lock", spinlock_t); ("priv_",
  CPtr)].

Definition hwspinlock_device : ctype := CStruct 1 [("dev", CPtr); ("ops", CPtr); ("base_id",
  c_int); ("num_locks", c_int); ("lock", __IncompleteArrayField hwspinlock)].

Definition hwspinlock_ops : ctype := CStruct 1 [("trylock", CPtr); ("unlock", CPtr); ("bust",
  CPtr); ("relax", CPtr)].

Definition hwtstamp_provider_desc : ctype := CStruct 1 [("index", c_int); ("qualifier",
  hwtstamp_provider_qualifier__Type)].

Definition hwtstamp_provider : ctype := CStruct 1 [("callback_head", callback_head); ("source",
  hwtstamp_source__Type); ("phydev", CPtr); ("desc", hwtstamp_provider_desc)].

Definition iattr__bindgen_ty_1 : ctype := CUnion 1 [("ia_uid", kuid_t); ("ia_vfsuid",
  vfsuid_t)].

Definition iattr__bindgen_ty_2 : ctype := CUnion 1 [("ia_gid", kgid_t); ("ia_vfsgid",
  vfsgid_t)].

Definition iattr : ctype := CStruct 1 [("ia_valid", c_uint); ("ia_mode", umode_t);
  ("__bindgen_anon_1", iattr__bindgen_ty_1); ("__bindgen_anon_2", iattr__bindgen_ty_2);
  ("ia_size", loff_t); ("ia_atime", timespec64); ("ia_mtime", timespec64); ("ia_ctime",
  timespec64); ("ia_file", CPtr)].

Definition ib_ah : ctype := CStruct 1 [("device", CPtr); ("pd", CPtr); ("uobject", CPtr);
  ("sgid_attr", CPtr); ("type_", rdma_ah_attr_type__Type)].

Definition ib_ah_attr : ctype := CStruct 1 [("dlid", u16_); ("src_path_bits", u8_)].

Definition ib_counters : ctype := CStruct 1 [("device", CPtr); ("uobject", CPtr); ("usecnt",
  atomic_t)].

Definition ib_counters_read_attr : ctype := CStruct 1 [("counters_buff", CPtr); ("ncounters",
  u32_); ("flags", u32_)].

Definition ib_ucq_object : ctype := CStruct 1 [("_unused", CArray 0 CU8)].

Definition ib_cq_init_attr : ctype := CStruct 1 [("cqe", c_uint); ("comp_vector", u32_);
  ("flags", u32_)].

Definition ib_cqe : ctype := CStruct 1 [("done", CPtr)].

Definition ib_mad : ctype := CStruct 1 [("_unused", CArray 0 CU8)].

Definition uverbs_attr_bundle : ctype := CStruct 1 [("_unused", CArray 0 CU8)].

Definition ib_umem : ctype := CStruct 1 [("_unused", CArray 0 CU8)].

Definition rdma_cm_id : ctype := CStruct 1 [("_unused", CArray 0 CU8)].

Definition iw_cm_id : ctype := CStruct 1 [("_unused", CArray 0 CU8)].

Definition iw_cm_conn_param : ctype := CStruct 1 [("_unused", CArray 0 CU8)].

Definition ib_uverbs_file : ctype := CStruct 1 [("_unused", CArray 0 CU8)].

Definition hw_stats_device_data : ctype := CStruct 1 [("_unused", CArray 0 CU8)].

Definition rdma_restrack_root : ctype := CStruct 1 [("_unused", CArray 0 CU8)].

Definition uapi_definition : ctype := CStruct 1 [("_unused", CArray 0 CU8)].

Definition ib_device_modify : ctype := CStruct 1 [("sys_image_guid", u64_); ("node_desc", CArray
  64 c_char)].

Definition ib_dm : ctype := CStruct 1 [("device", CPtr); ("length", u32_); ("flags", u32_);
  ("uobject", CPtr); ("usecnt", atomic_t)].

Definition ib_dm_alloc_attr : ctype := CStruct 1 [("length", u64_); ("alignment", u32_);
  ("flags", u32_)].

Definition ib_dm_mr_attr : ctype := CStruct 1 [("length", u64_); ("offset", u64_);
  ("access_flags", u32_)].

Definition ib_dmah : ctype := CStruct 1 [("device", CPtr); ("uobject", CPtr); ("res",
  rdma_restrack_entry); ("cpu_id", u32_); ("mem_type", tph_mem_type__Type); ("usecnt",
  atomic_t); ("ph", u8_); ("valid_fields", u8_)].

Definition ib_event__bindgen_ty_1 : ctype := CUnion 1 [("cq", CPtr); ("qp", CPtr); ("srq",
  CPtr); ("wq", CPtr); ("port_num", u32_)].

Definition ib_event : ctype := CStruct 1 [("device", CPtr); ("element", ib_event__bindgen_ty_1);
  ("event", ib_event_type__Type)].

Definition ib_flow : ctype := CStruct 1 [("qp", CPtr); ("device", CPtr); ("uobject", CPtr)].

Definition ib_flow_action : ctype := CStruct 1 [("device", CPtr); ("uobject", CPtr); ("type_",
  ib_flow_action_type__Type); ("usecnt", atomic_t)].

Definition ib_flow_eth_filter : ctype := CStruct 1 [("dst_mac", CArray 6 u8_); ("src_mac",
  CArray 6 u8_); ("ether_type", __be16); ("vlan_tag", __be16)].

Definition ib_flow_spec_eth : ctype := CStruct 1 [("type_", u32_); ("size", u16_); ("val",
  ib_flow_eth_filter); ("mask", ib_flow_eth_filter)].

Definition ib_flow_ib_filter : ctype := CStruct 1 [("dlid", __be16); ("sl", __u8)].

Definition ib_flow_spec_ib : ctype := CStruct 1 [("type_", u32_); ("size", u16_); ("val",
  ib_flow_ib_filter); ("mask", ib_flow_ib_filter)].

Definition ib_flow_ipv4_filter : ctype := CStruct 1 [("src_ip", __be32); ("dst_ip", __be32);
  ("proto", u8_); ("tos", u8_); ("ttl", u8_); ("flags", u8_)].

Definition ib_flow_spec_ipv4 : ctype := CStruct 1 [("type_", u32_); ("size", u16_); ("val",
  ib_flow_ipv4_filter); ("mask", ib_flow_ipv4_filter)].

Definition ib_flow_tcp_udp_filter : ctype := CStruct 1 [("dst_port", __be16); ("src_port",
  __be16)].

Definition ib_flow_spec_tcp_udp : ctype := CStruct 1 [("type_", u32_); ("size", u16_); ("val",
  ib_flow_tcp_udp_filter); ("mask", ib_flow_tcp_udp_filter)].

Definition ib_flow_ipv6_filter : ctype := CPacked [("src_ip", CArray 16 u8_); ("dst_ip", CArray
  16 u8_); ("flow_label", __be32); ("next_hdr", u8_); ("traffic_class", u8_); ("hop_limit",
  u8_)].

Definition ib_flow_spec_ipv6 : ctype := CStruct 1 [("type_", u32_); ("size", u16_); ("val",
  ib_flow_ipv6_filter); ("mask", ib_flow_ipv6_filter)].

Definition ib_flow_tunnel_filter : ctype := CStruct 1 [("tunnel_id", __be32)].

Definition ib_flow_spec_tunnel : ctype := CStruct 1 [("type_", u32_); ("size", u16_); ("val",
  ib_flow_tunnel_filter); ("mask", ib_flow_tunnel_filter)].

Definition ib_flow_esp_filter : ctype := CStruct 1 [("spi", __be32); ("seq", __be32)].

Definition ib_flow_spec_esp : ctype := CStruct 1 [("type_", u32_); ("size", u16_); ("val",
  ib_flow_esp_filter); ("mask", ib_flow_esp_filter)].

Definition ib_flow_gre_filter : ctype := CStruct 1 [("c_ks_res0_ver", __be16); ("protocol",
  __be16); ("key", __be32)].

Definition ib_flow_spec_gre : ctype := CStruct 1 [("type_", u32_); ("size", u16_); ("val",
  ib_flow_gre_filter); ("mask", ib_flow_gre_filter)].

Definition ib_flow_mpls_filter : ctype := CStruct 1 [("tag", __be32)].

Definition ib_flow_spec_mpls : ctype := CStruct 1 [("type_", u32_); ("size", u16_); ("val",
  ib_flow_mpls_filter); ("mask", ib_flow_mpls_filter)].

Definition ib_flow_spec_action_tag : ctype := CStruct 1 [("type_", ib_flow_spec_type__Type);
  ("size", u16_); ("tag_id", u32_)].

Definition ib_flow_spec_action_drop : ctype := CStruct 1 [("type_", ib_flow_spec_type__Type);
  ("size", u16_)].

Definition ib_flow_spec_action_handle : ctype := CStruct 1 [("type_", ib_flow_spec_type__Type);
  ("size", u16_); ("act", CPtr)].

Definition ib_flow_spec_action_count : ctype := CStruct 1 [("type_", ib_flow_spec_type__Type);
  ("size", u16_); ("counters", CPtr)].

Definition ib_flow_spec__bindgen_ty_1 : ctype := CStruct 1 [("type_", u32_); ("size", u16_)].

Definition ib_flow_spec : ctype := CUnion 1 [("__bindgen_anon_1", ib_flow_spec__bindgen_ty_1);
  ("eth", ib_flow_spec_eth); ("ib", ib_flow_spec_ib); ("ipv4", ib_flow_spec_ipv4); ("tcp_udp",
  ib_flow_spec_tcp_udp); ("ipv6", ib_flow_spec_ipv6); ("tunnel", ib_flow_spec_tunnel); ("esp",
  ib_flow_spec_esp); ("gre", ib_flow_spec_gre); ("mpls", ib_flow_spec_mpls); ("flow_tag",
  ib_flow_spec_action_tag); ("drop", ib_flow_spec_action_drop); ("action",
  ib_flow_spec_action_handle); ("flow_count", ib_flow_spec_action_count)].

Definition ib_flow_attr : ctype := CStruct 1 [("type_", ib_flow_attr_type__Type); ("size",
  u16_); ("priority", u16_); ("flags", u32_); ("num_of_specs", u8_); ("port", u32_); ("flows",
  __IncompleteArrayField ib_flow_spec)].

Definition ib_gid__bindgen_ty_1 : ctype := CStruct 1 [("subnet_prefix", __be64);
  ("interface_id", __be64)].

Definition ib_gid : ctype := CUnion 1 [("raw", CArray 16 u8_); ("global",
  ib_gid__bindgen_ty_1)].

Definition ib_gid_attr : ctype := CStruct 1 [("ndev", CPtr); ("device", CPtr); ("gid", ib_gid);
  ("gid_type", ib_gid_type__Type); ("index", u16_); ("port_num", u32_)].

Definition ib_global_route : ctype := CStruct 1 [("sgid_attr", CPtr); ("dgid", ib_gid);
  ("flow_label", u32_); ("sgid_index", u8_); ("hop_limit", u8_); ("traffic_class", u8_)].

Definition ib_grh : ctype := CStruct 1 [("version_tclass_flow", __be32); ("paylen", __be16);
  ("next_hdr", u8_); ("hop_limit", u8_); ("sgid", ib_gid); ("dgid", ib_gid)].

Definition ib_mr__bindgen_ty_1 : ctype := CUnion 1 [("uobject", CPtr); ("qp_entry", list_head)].

Definition ib_mr : ctype := CStruct 1 [("device", CPtr); ("pd", CPtr); ("lkey", u32_); ("rkey",
  u32_); ("iova", u64_); ("length", u64_); ("page_size", c_uint); ("type_", ib_mr_type__Type);
  ("need_inval", bool_); ("__bindgen_anon_1", ib_mr__bindgen_ty_1); ("dm", CPtr); ("sig_attrs",
  CPtr); ("dmah", CPtr); ("res", rdma_restrack_entry)].

Definition ib_sig_err : ctype := CStruct 1 [("err_type", ib_sig_err_type__Type); ("expected",
  u32_); ("actual", u32_); ("sig_err_offset", u64_); ("key", u32_)].

Definition ib_mr_status : ctype := CStruct 1 [("fail_status", u32_); ("sig_err", ib_sig_err)].

Definition ib_mw : ctype := CStruct 1 [("device", CPtr); ("pd", CPtr); ("uobject", CPtr);
  ("rkey", u32_); ("type_", ib_mw_type__Type)].

Definition ib_pd : ctype := CStruct 1 [("local_dma_lkey", u32_); ("flags", u32_); ("device",
  CPtr); ("uobject", CPtr); ("usecnt", atomic_t); ("unsafe_global_rkey", u32_);
  ("__internal_mr", CPtr); ("res", rdma_restrack_entry)].

Definition ib_pkey_cache : ctype := CStruct 1 [("_unused", CArray 0 CU8)].

Definition ib_gid_table : ctype := CStruct 1 [("_unused", CArray 0 CU8)].

Definition ib_port_cache : ctype := CStruct 1 [("subnet_prefix", u64_); ("pkey", CPtr); ("gid",
  CPtr); ("lmc", u8_); ("port_state", ib_port_state__Type); ("last_port_state",
  ib_port_state__Type)].

Definition ib_port_immutable : ctype := CStruct 1 [("pkey_tbl_len", c_int); ("gid_tbl_len",
  c_int); ("core_cap_flags", u32_); ("max_mad_size", u32_)].

Definition rdma_counter_mode : ctype := CStruct 1 [("mode", rdma_nl_counter_mode__Type);
  ("mask", rdma_nl_counter_mask__Type); ("param", auto_mode_param); ("bind_opcnt", bool_)].

Definition rdma_port_counter : ctype := CStruct 1 [("mode", rdma_counter_mode); ("hstats",
  CPtr); ("num_counters", c_uint); ("lock", mutex)].

Definition ib_port : ctype := CStruct 1 [("_unused", CArray 0 CU8)].

Definition ib_port_data : ctype := CStruct 1 [("ib_dev", CPtr); ("immutable",
  ib_port_immutable); ("pkey_list_lock", spinlock_t); ("netdev_lock", spinlock_t); ("pkey_list",
  list_head); ("cache", ib_port_cache); ("netdev", CPtr); ("netdev_tracker", netdevice_tracker);
  ("ndev_hash_link", hlist_node); ("port_counter", rdma_port_counter); ("sysfs", CPtr)].

Definition ib_port_modify : ctype := CStruct 1 [("set_port_cap_mask", u32_);
  ("clr_port_cap_mask", u32_); ("init_type", u8_)].

Definition ib_port_pkey : ctype := CStruct 1 [("state", port_pkey_state__Type); ("pkey_index",
  u16_); ("port_num", u32_); ("qp_list", list_head); ("to_error_list", list_head); ("sec",
  CPtr)].

Definition ib_ports_pkeys : ctype := CStruct 1 [("main", ib_port_pkey); ("alt", ib_port_pkey)].

Definition ib_uqp_object : ctype := CStruct 1 [("_unused", CArray 0 CU8)].

Definition ib_qp : ctype := CStruct 1 [("device", CPtr); ("pd", CPtr); ("send_cq", CPtr);
  ("recv_cq", CPtr); ("mr_lock", spinlock_t); ("mrs_used", c_int); ("rdma_mrs", list_head);
  ("sig_mrs", list_head); ("srq", CPtr); ("srq_completion", completion); ("xrcd", CPtr);
  ("xrcd_list", list_head); ("usecnt", atomic_t); ("open_list", list_head); ("real_qp", CPtr);
  ("uobject", CPtr); ("event_handler", CPtr); ("registered_event_handler", CPtr); ("qp_context",
  CPtr); ("av_sgid_attr", CPtr); ("alt_path_sgid_attr", CPtr); ("qp_num", u32_);
  ("max_write_sge", u32_); ("max_read_sge", u32_); ("qp_type", ib_qp_type__Type);
  ("rwq_ind_tbl", CPtr); ("qp_sec", CPtr); ("port", u32_); ("integrity_en", bool_); ("res",
  rdma_restrack_entry); ("counter", CPtr)].

Definition ib_qp_cap : ctype := CStruct 1 [("max_send_wr", u32_); ("max_recv_wr", u32_);
  ("max_send_sge", u32_); ("max_recv_sge", u32_); ("max_inline_data", u32_); ("max_rdma_ctxs",
  u32_)].

Definition roce_ah_attr : ctype := CStruct 1 [("dmac", CArray 6 u8_)].

Definition opa_ah_attr : ctype := CStruct 1 [("dlid", u32_); ("src_path_bits", u8_);
  ("make_grd", bool_)].

Definition rdma_ah_attr__bindgen_ty_1 : ctype := CUnion 1 [("ib", ib_ah_attr); ("roce",
  roce_ah_attr); ("opa", opa_ah_attr)].

Definition rdma_ah_attr : ctype := CStruct 1 [("grh", ib_global_route); ("sl", u8_);
  ("static_rate", u8_); ("port_num", u32_); ("ah_flags", u8_); ("type_",
  rdma_ah_attr_type__Type); ("__bindgen_anon_1", rdma_ah_attr__bindgen_ty_1)].

Definition ib_qp_attr : ctype := CStruct 1 [("qp_state", ib_qp_state__Type); ("cur_qp_state",
  ib_qp_state__Type); ("path_mtu", ib_mtu__Type); ("path_mig_state", ib_mig_state__Type);
  ("qkey", u32_); ("rq_psn", u32_); ("sq_psn", u32_); ("dest_qp_num", u32_); ("qp_access_flags",
  c_int); ("cap", ib_qp_cap); ("ah_attr", rdma_ah_attr); ("alt_ah_attr", rdma_ah_attr);
  ("pkey_index", u16_); ("alt_pkey_index", u16_); ("en_sqd_async_notify", u8_); ("sq_draining",
  u8_); ("max_rd_atomic", u8_); ("max_dest_rd_atomic", u8_); ("min_rnr_timer", u8_);
  ("port_num", u32_); ("timeout", u8_); ("retry_cnt", u8_); ("rnr_retry", u8_); ("alt_port_num",
  u32_); ("alt_timeout", u8_); ("rate_limit", u32_); ("xmit_slave", CPtr)].

Definition ib_qp_init_attr : ctype := CStruct 1 [("event_handler", CPtr); ("qp_context", CPtr);
  ("send_cq", CPtr); ("recv_cq", CPtr); ("srq", CPtr); ("xrcd", CPtr); ("cap", ib_qp_cap);
  ("sq_sig_type", ib_sig_type__Type); ("qp_type", ib_qp_type__Type); ("create_flags", u32_);
  ("port_num", u32_); ("rwq_ind_tbl", CPtr); ("source_qpn", u32_)].

Definition ib_qp_security : ctype := CStruct 1 [("qp", CPtr); ("dev", CPtr); ("mutex", mutex);
  ("ports_pkeys", CPtr); ("shared_qp_list", list_head); ("security", CPtr); ("destroying",
  bool_); ("error_list_count", atomic_t); ("error_complete", completion);
  ("error_comps_pending", c_int)].

Definition ib_rdmacg_object : ctype := CStruct 1 [("cg", CPtr)].

Definition ib_recv_wr__bindgen_ty_1 : ctype := CUnion 1 [("wr_id", u64_); ("wr_cqe", CPtr)].

Definition ib_recv_wr : ctype := CStruct 1 [("next", CPtr); ("__bindgen_anon_1",
  ib_recv_wr__bindgen_ty_1); ("sg_list", CPtr); ("num_sge", c_int)].

Definition ib_rwq_ind_table : ctype := CStruct 1 [("device", CPtr); ("uobject", CPtr);
  ("usecnt", atomic_t); ("ind_tbl_num", u32_); ("log_ind_tbl_size", u32_); ("ind_tbl", CPtr)].

Definition ib_rwq_ind_table_init_attr : ctype := CStruct 1 [("log_ind_tbl_size", u32_);
  ("ind_tbl", CPtr)].

Definition ib_send_wr__bindgen_ty_1 : ctype := CUnion 1 [("wr_id", u64_); ("wr_cqe", CPtr)].

Definition ib_send_wr__bindgen_ty_2 : ctype := CUnion 1 [("imm_data", __be32);
  ("invalidate_rkey", u32_)].

Definition ib_send_wr : ctype := CStruct 1 [("next", CPtr); ("__bindgen_anon_1",
  ib_send_wr__bindgen_ty_1); ("sg_list", CPtr); ("num_sge", c_int); ("opcode",
  ib_wr_opcode__Type); ("send_flags", c_int); ("ex", ib_send_wr__bindgen_ty_2)].

Definition ib_sge : ctype := CStruct 1 [("addr", u64_); ("length", u32_); ("lkey", u32_)].

Definition ib_t10_dif_domain : ctype := CStruct 1 [("bg_type", ib_t10_dif_bg_type__Type);
  ("pi_interval", u16_); ("bg", u16_); ("app_tag", u16_); ("ref_tag", u32_); ("ref_remap",
  bool_); ("app_escape", bool_); ("ref_escape", bool_); ("apptag_check_mask", u16_)].

Definition ib_sig_domain__bindgen_ty_1 : ctype := CUnion 1 [("dif", ib_t10_dif_domain)].

Definition ib_sig_domain : ctype := CStruct 1 [("sig_type", ib_signature_type__Type); ("sig",
  ib_sig_domain__bindgen_ty_1)].

Definition ib_sig_attrs : ctype := CStruct 1 [("check_mask", u8_); ("mem", ib_sig_domain);
  ("wire", ib_sig_domain); ("meta_length", c_int)].

Definition ib_usrq_object : ctype := CStruct 1 [("_unused", CArray 0 CU8)].

Definition ib_srq__bindgen_ty_1__bindgen_ty_1__bindgen_ty_1 : ctype := CStruct 1 [("xrcd",
  CPtr); ("srq_num", u32_)].

Definition ib_srq__bindgen_ty_1__bindgen_ty_1 : ctype := CUnion 1 [("xrc",
  ib_srq__bindgen_ty_1__bindgen_ty_1__bindgen_ty_1)].

Definition ib_srq__bindgen_ty_1 : ctype := CStruct 1 [("cq", CPtr); ("__bindgen_anon_1",
  ib_srq__bindgen_ty_1__bindgen_ty_1)].

Definition ib_srq : ctype := CStruct 1 [("device", CPtr); ("pd", CPtr); ("uobject", CPtr);
  ("event_handler", CPtr); ("srq_context", CPtr); ("srq_type", ib_srq_type__Type); ("usecnt",
  atomic_t); ("ext", ib_srq__bindgen_ty_1); ("res", rdma_restrack_entry)].

Definition ib_srq_attr : ctype := CStruct 1 [("max_wr", u32_); ("max_sge", u32_); ("srq_limit",
  u32_)].

Definition ib_srq_init_attr__bindgen_ty_1__bindgen_ty_1__bindgen_ty_1 : ctype := CStruct 1
  [("xrcd", CPtr)].

Definition ib_srq_init_attr__bindgen_ty_1__bindgen_ty_1__bindgen_ty_2 : ctype := CStruct 1
  [("max_num_tags", u32_)].

Definition ib_srq_init_attr__bindgen_ty_1__bindgen_ty_1 : ctype := CUnion 1 [("xrc",
  ib_srq_init_attr__bindgen_ty_1__bindgen_ty_1__bindgen_ty_1); ("tag_matching",
  ib_srq_init_attr__bindgen_ty_1__bindgen_ty_1__bindgen_ty_2)].

Definition ib_srq_init_attr__bindgen_ty_1 : ctype := CStruct 1 [("cq", CPtr);
  ("__bindgen_anon_1", ib_srq_init_attr__bindgen_ty_1__bindgen_ty_1)].

Definition ib_srq_init_attr : ctype := CStruct 1 [("event_handler", CPtr); ("srq_context",
  CPtr); ("attr", ib_srq_attr); ("srq_type", ib_srq_type__Type); ("ext",
  ib_srq_init_attr__bindgen_ty_1)].

Definition ib_ucontext : ctype := CStruct 1 [("device", CPtr); ("ufile", CPtr); ("cg_obj",
  ib_rdmacg_object); ("enabled_caps", u64_); ("res", rdma_restrack_entry); ("mmap_xa", xarray)].

Definition ib_udata : ctype := CStruct 1 [("inbuf", CPtr); ("outbuf", CPtr); ("inlen", CU64);
  ("outlen", CU64)].

Definition uverbs_api_object : ctype := CStruct 1 [("_unused", CArray 0 CU8)].

Definition ib_uobject : ctype := CStruct 1 [("user_handle", u64_); ("ufile", CPtr); ("context",
  CPtr); ("object", CPtr); ("list", list_head); ("cg_obj", ib_rdmacg_object); ("id", c_int);
  ("ref_", kref); ("usecnt", atomic_t); ("rcu", callback_head); ("uapi_object", CPtr)].

Definition ib_wc__bindgen_ty_1 : ctype := CUnion 1 [("wr_id", u64_); ("wr_cqe", CPtr)].

Definition ib_wc__bindgen_ty_2 : ctype := CUnion 1 [("imm_data", __be32); ("invalidate_rkey",
  u32_)].

Definition ib_wc : ctype := CStruct 1 [("__bindgen_anon_1", ib_wc__bindgen_ty_1); ("status",
  ib_wc_status__Type); ("opcode", ib_wc_opcode__Type); ("vendor_err", u32_); ("byte_len", u32_);
  ("qp", CPtr); ("ex", ib_wc__bindgen_ty_2); ("src_qp", u32_); ("slid", u32_); ("wc_flags",
  c_int); ("pkey_index", u16_); ("sl", u8_); ("dlid_path_bits", u8_); ("port_num", u32_);
  ("smac", CArray 6 u8_); ("vlan_id", u16_); ("network_hdr_type", u8_)].

Definition ib_uwq_object : ctype := CStruct 1 [("_unused", CArray 0 CU8)].

Definition ib_wq : ctype := CStruct 1 [("device", CPtr); ("uobject", CPtr); ("wq_context",
  CPtr); ("event_handler", CPtr); ("pd", CPtr); ("cq", CPtr); ("wq_num", u32_); ("state",
  ib_wq_state__Type); ("wq_type", ib_wq_type__Type); ("usecnt", atomic_t)].

Definition ib_wq_attr : ctype := CStruct 1 [("wq_state", ib_wq_state__Type); ("curr_wq_state",
  ib_wq_state__Type); ("flags", u32_); ("flags_mask", u32_)].

Definition ib_wq_init_attr : ctype := CStruct 1 [("wq_context", CPtr); ("wq_type",
  ib_wq_type__Type); ("max_wr", u32_); ("max_sge", u32_); ("cq", CPtr); ("event_handler", CPtr);
  ("create_flags", u32_)].

Definition ib_xrcd : ctype := CStruct 1 [("device", CPtr); ("usecnt", atomic_t); ("inode",
  CPtr); ("tgt_qps_rwsem", rw_semaphore); ("tgt_qps", xarray)].

Definition ip_options_rcu : ctype := CStruct 1 [("rcu", callback_head); ("opt", ip_options)].

Definition icmp_mib : ctype := CStruct 1 [("mibs", CArray 30 c_ulong)].

Definition icmpmsg_mib : ctype := CStruct 1 [("mibs", CArray 512 atomic_long_t)].

Definition icmpv6_mib : ctype := CStruct 1 [("mibs", CArray 7 c_ulong)].

Definition icmpv6_mib_device : ctype := CStruct 1 [("mibs", CArray 7 atomic_long_t)].

Definition icmpv6msg_mib : ctype := CStruct 1 [("mibs", CArray 512 atomic_long_t)].

Definition icmpv6msg_mib_device : ctype := CStruct 1 [("mibs", CArray 512 atomic_long_t)].

Definition ieee80211_channel : ctype := CStruct 1 [("band", nl80211_band__Type); ("center_freq",
  u32_); ("freq_offset", u16_); ("hw_value", u16_); ("flags", u32_); ("max_antenna_gain",
  c_int); ("max_power", c_int); ("max_reg_power", c_int); ("beacon_found", bool_);
  ("orig_flags", u32_); ("orig_mag", c_int); ("orig_mpwr", c_int); ("dfs_state",
  nl80211_dfs_state__Type); ("dfs_state_entered", c_ulong); ("dfs_cac_ms", c_uint); ("psd",
  s8)].

Definition ieee80211_eht_cap_elem_fixed : ctype := CStruct 1 [("mac_cap_info", CArray 2 u8_);
  ("phy_cap_info", CArray 9 u8_)].

Definition ieee80211_eht_mcs_nss_supp_20mhz_only__bindgen_ty_1__bindgen_ty_1 : ctype := CStruct
  1 [("rx_tx_mcs7_max_nss", u8_); ("rx_tx_mcs9_max_nss", u8_); ("rx_tx_mcs11_max_nss", u8_);
  ("rx_tx_mcs13_max_nss", u8_)].

Definition ieee80211_eht_mcs_nss_supp_20mhz_only__bindgen_ty_1 : ctype := CUnion 1
  [("__bindgen_anon_1", ieee80211_eht_mcs_nss_supp_20mhz_only__bindgen_ty_1__bindgen_ty_1);
  ("rx_tx_max_nss", CArray 4 u8_)].

Definition ieee80211_eht_mcs_nss_supp_20mhz_only : ctype := CStruct 1 [("__bindgen_anon_1",
  ieee80211_eht_mcs_nss_supp_20mhz_only__bindgen_ty_1)].

Definition ieee80211_eht_mcs_nss_supp_bw__bindgen_ty_1__bindgen_ty_1 : ctype := CStruct 1
  [("rx_tx_mcs9_max_nss", u8_); ("rx_tx_mcs11_max_nss", u8_); ("rx_tx_mcs13_max_nss", u8_)].

Definition ieee80211_eht_mcs_nss_supp_bw__bindgen_ty_1 : ctype := CUnion 1 [("__bindgen_anon_1",
  ieee80211_eht_mcs_nss_supp_bw__bindgen_ty_1__bindgen_ty_1); ("rx_tx_max_nss", CArray 3 u8_)].

Definition ieee80211_eht_mcs_nss_supp_bw : ctype := CStruct 1 [("__bindgen_anon_1",
  ieee80211_eht_mcs_nss_supp_bw__bindgen_ty_1)].

Definition ieee80211_eht_mcs_nss_supp__bindgen_ty_1__bindgen_ty_1 : ctype := CStruct 1 [("_80",
  ieee80211_eht_mcs_nss_supp_bw); ("_160", ieee80211_eht_mcs_nss_supp_bw); ("_320",
  ieee80211_eht_mcs_nss_supp_bw)].

Definition ieee80211_eht_mcs_nss_supp__bindgen_ty_1 : ctype := CUnion 1 [("only_20mhz",
  ieee80211_eht_mcs_nss_supp_20mhz_only); ("bw",
  ieee80211_eht_mcs_nss_supp__bindgen_ty_1__bindgen_ty_1)].

Definition ieee80211_eht_mcs_nss_supp : ctype := CStruct 1 [("__bindgen_anon_1",
  ieee80211_eht_mcs_nss_supp__bindgen_ty_1)].

Definition ieee80211_freq_range : ctype := CStruct 1 [("start_freq_khz", u32_); ("end_freq_khz",
  u32_); ("max_bandwidth_khz", u32_)].

Definition ieee80211_he_6ghz_capa : ctype := CStruct 1 [("capa", __le16)].

Definition ieee80211_he_cap_elem : ctype := CStruct 1 [("mac_cap_info", CArray 6 u8_);
  ("phy_cap_info", CArray 11 u8_)].

Definition ieee80211_he_mcs_nss_supp : ctype := CStruct 1 [("rx_mcs_80", __le16); ("tx_mcs_80",
  __le16); ("rx_mcs_160", __le16); ("tx_mcs_160", __le16); ("rx_mcs_80p80", __le16);
  ("tx_mcs_80p80", __le16)].

Definition ieee80211_iface_combination : ctype := CStruct 1 [("limits", CPtr);
  ("num_different_channels", u32_); ("max_interfaces", u16_); ("n_limits", u8_);
  ("beacon_int_infra_match", bool_); ("radar_detect_widths", u8_); ("radar_detect_regions",
  u8_); ("beacon_int_min_gcd", u32_)].

Definition ieee80211_iface_limit : ctype := CStruct 1 [("max", u16_); ("types", u16_)].

Definition ieee80211_power_rule : ctype := CStruct 1 [("max_antenna_gain", u32_); ("max_eirp",
  u32_)].

Definition ieee80211_rate : ctype := CStruct 1 [("flags", u32_); ("bitrate", u16_); ("hw_value",
  u16_); ("hw_value_short", u16_)].

Definition ieee80211_wmm_ac : ctype := CStruct 1 [("cw_min", u16_); ("cw_max", u16_); ("cot",
  u16_); ("aifsn", u8_)].

Definition ieee80211_wmm_rule : ctype := CStruct 1 [("client", CArray 4 ieee80211_wmm_ac);
  ("ap", CArray 4 ieee80211_wmm_ac)].

Definition ieee80211_reg_rule : ctype := CStruct 1 [("freq_range", ieee80211_freq_range);
  ("power_rule", ieee80211_power_rule); ("wmm_rule", ieee80211_wmm_rule); ("flags", u32_);
  ("dfs_cac_ms", u32_); ("has_wmm", bool_); ("psd", s8)].

Definition ieee80211_regdomain : ctype := CStruct 1 [("callback_head", callback_head);
  ("n_reg_rules", u32_); ("alpha2", CArray 3 c_char); ("dfs_region", nl80211_dfs_regions__Type);
  ("reg_rules", __IncompleteArrayField ieee80211_reg_rule)].

Definition ieee80211_sta_he_cap : ctype := CPacked [("has_he", bool_); ("he_cap_elem",
  ieee80211_he_cap_elem); ("he_mcs_nss_supp", ieee80211_he_mcs_nss_supp); ("ppe_thres", CArray
  25 u8_)].

Definition ieee80211_sta_eht_cap : ctype := CStruct 1 [("has_eht", bool_); ("eht_cap_elem",
  ieee80211_eht_cap_elem_fixed); ("eht_mcs_nss_supp", ieee80211_eht_mcs_nss_supp);
  ("eht_ppe_thres", CArray 32 u8_)].

Definition ieee80211_uhr_cap_mac : ctype := CStruct 1 [("mac_cap", CArray 5 u8_)].

Definition ieee80211_uhr_cap_phy : ctype := CStruct 1 [("cap", u8_)].

Definition ieee80211_sta_uhr_cap : ctype := CStruct 1 [("has_uhr", bool_); ("mac",
  ieee80211_uhr_cap_mac); ("phy", ieee80211_uhr_cap_phy)].

Definition ieee80211_sband_iftype_data__bindgen_ty_1 : ctype := CStruct 1 [("data", CPtr);
  ("len", c_uint)].

Definition ieee80211_sband_iftype_data : ctype := CPacked [("types_mask", u16_); ("he_cap",
  ieee80211_sta_he_cap); ("he_6ghz_capa", ieee80211_he_6ghz_capa); ("eht_cap",
  ieee80211_sta_eht_cap); ("uhr_cap", ieee80211_sta_uhr_cap); ("vendor_elems",
  ieee80211_sband_iftype_data__bindgen_ty_1)].

Definition ieee80211_sta_ht_cap : ctype := CPacked [("cap", u16_); ("ht_supported", bool_);
  ("ampdu_factor", u8_); ("ampdu_density", u8_); ("mcs", ieee80211_mcs_info);
  ("__bindgen_padding_0", CU8)].

Definition ieee80211_sta_s1g_cap : ctype := CStruct 1 [("s1g", bool_); ("cap", CArray 10 u8_);
  ("nss_mcs", CArray 5 u8_)].

Definition ieee80211_sta_vht_cap : ctype := CStruct 1 [("vht_supported", bool_); ("cap", u32_);
  ("vht_mcs", ieee80211_vht_mcs_info)].

Definition ieee80211_supported_band : ctype := CStruct 1 [("channels", CPtr); ("bitrates",
  CPtr); ("band", nl80211_band__Type); ("n_channels", c_int); ("n_bitrates", c_int); ("ht_cap",
  ieee80211_sta_ht_cap); ("vht_cap", ieee80211_sta_vht_cap); ("s1g_cap", ieee80211_sta_s1g_cap);
  ("edmg_cap", ieee80211_edmg); ("n_iftype_data", u16_); ("iftype_data", CPtr)].

Definition ieee80211_txrx_stypes : ctype := CStruct 1 [("tx", u16_); ("rx", u16_)].

Definition __le64 : ctype := __u64.

Definition ieee802154_addr__bindgen_ty_1 : ctype := CUnion 1 [("short_addr", __le16);
  ("extended_addr", __le64)].

Definition ieee802154_addr : ctype := CStruct 1 [("mode", u8_); ("pan_id", __le16);
  ("__bindgen_anon_1", ieee802154_addr__bindgen_ty_1)].

Definition ieee802154_pan_device : ctype := CStruct 1 [("pan_id", __le16); ("mode", u8_);
  ("short_addr", __le16); ("extended_addr", __le64); ("node", list_head)].

Definition ieee_ets : ctype := CStruct 1 [("willing", __u8); ("ets_cap", __u8); ("cbs", __u8);
  ("tc_tx_bw", CArray 8 __u8); ("tc_rx_bw", CArray 8 __u8); ("tc_tsa", CArray 8 __u8);
  ("prio_tc", CArray 8 __u8); ("tc_reco_bw", CArray 8 __u8); ("tc_reco_tsa", CArray 8 __u8);
  ("reco_prio_tc", CArray 8 __u8)].

Definition ieee_maxrate : ctype := CStruct 1 [("tc_maxrate", CArray 8 __u64)].

Definition ieee_pfc : ctype := CStruct 1 [("pfc_cap", __u8); ("pfc_en", __u8); ("mbc", __u8);
  ("delay", __u16); ("requests", CArray 8 __u64); ("indications", CArray 8 __u64)].

Definition ieee_qcn : ctype := CStruct 1 [("rpg_enable", CArray 8 __u8); ("rppp_max_rps", CArray
  8 __u32); ("rpg_time_reset", CArray 8 __u32); ("rpg_byte_reset", CArray 8 __u32);
  ("rpg_threshold", CArray 8 __u32); ("rpg_max_rate", CArray 8 __u32); ("rpg_ai_rate", CArray 8
  __u32); ("rpg_hai_rate", CArray 8 __u32); ("rpg_gd", CArray 8 __u32); ("rpg_min_dec_fac",
  CArray 8 __u32); ("rpg_min_rate", CArray 8 __u32); ("cndd_state_machine", CArray 8 __u32)].

Definition ieee_qcn_stats : ctype := CStruct 1 [("rppp_rp_centiseconds", CArray 8 __u64);
  ("rppp_created_rps", CArray 8 __u32)].

Definition if_settings__bindgen_ty_1 : ctype := CUnion 1 [("raw_hdlc", CPtr); ("cisco", CPtr);
  ("fr", CPtr); ("fr_pvc", CPtr); ("fr_pvc_info", CPtr); ("x25", CPtr); ("sync", CPtr); ("te1",
  CPtr)].

Definition if_settings : ctype := CStruct 1 [("type_", c_uint); ("size", c_uint); ("ifs_ifsu",
  if_settings__bindgen_ty_1)].

Definition ifacaddr6 : ctype := CStruct 1 [("aca_addr", in6_addr); ("aca_rt", CPtr);
  ("aca_next", CPtr); ("aca_addr_lst", hlist_node); ("aca_users", c_int); ("aca_refcnt",
  refcount_t); ("aca_cstamp", c_ulong); ("aca_tstamp", c_ulong); ("rcu", callback_head)].

Definition ifla_vf_guid : ctype := CStruct 1 [("vf", __u32); ("guid", __u64)].

Definition ifla_vf_info : ctype := CStruct 1 [("vf", __u32); ("mac", CArray 32 __u8); ("vlan",
  __u32); ("qos", __u32); ("spoofchk", __u32); ("linkstate", __u32); ("min_tx_rate", __u32);
  ("max_tx_rate", __u32); ("rss_query_en", __u32); ("trusted", __u32); ("vlan_proto", __be16)].

Definition ifla_vf_stats : ctype := CStruct 1 [("rx_packets", __u64); ("tx_packets", __u64);
  ("rx_bytes", __u64); ("tx_bytes", __u64); ("broadcast", __u64); ("multicast", __u64);
  ("rx_dropped", __u64); ("tx_dropped", __u64)].

Definition ifmap : ctype := CStruct 1 [("mem_start", c_ulong); ("mem_end", c_ulong);
  ("base_addr", c_ushort); ("irq", c_uchar); ("dma", c_uchar); ("port", c_uchar)].

Definition ifmcaddr6 : ctype := CStruct 1 [("mca_addr", in6_addr); ("idev", CPtr); ("next",
  CPtr); ("mca_sources", CPtr); ("mca_tomb", CPtr); ("mca_sfmode", c_uint); ("mca_crcount",
  c_uchar); ("mca_sfcount", CArray 2 c_ulong); ("mca_work", delayed_work); ("mca_flags",
  c_uint); ("mca_users", c_int); ("mca_refcnt", refcount_t); ("mca_cstamp", c_ulong);
  ("mca_tstamp", c_ulong); ("rcu", callback_head)].

Definition ifreq__bindgen_ty_1 : ctype := CUnion 1 [("ifrn_name", CArray 16 c_char)].

Definition ifreq__bindgen_ty_2 : ctype := CUnion 1 [("ifru_addr", sockaddr); ("ifru_dstaddr",
  sockaddr); ("ifru_broadaddr", sockaddr); ("ifru_netmask", sockaddr); ("ifru_hwaddr",
  sockaddr); ("ifru_flags", c_short); ("ifru_ivalue", c_int); ("ifru_mtu", c_int); ("ifru_map",
  ifmap); ("ifru_slave", CArray 16 c_char); ("ifru_newname", CArray 16 c_char); ("ifru_data",
  CPtr); ("ifru_settings", if_settings)].

Definition ifreq : ctype := CStruct 1 [("ifr_ifrn", ifreq__bindgen_ty_1); ("ifr_ifru",
  ifreq__bindgen_ty_2)].

Definition in6_pktinfo : ctype := CStruct 1 [("ipi6_addr", in6_addr); ("ipi6_ifindex", c_int)].

Definition ipv4_devconf : ctype := CStruct 1 [("sysctl", CPtr); ("data", CArray 33 c_int);
  ("state", CArray 1 c_ulong)].

Definition in_device : ctype := CStruct 1 [("dev", CPtr); ("dev_tracker", netdevice_tracker);
  ("refcnt", refcount_t); ("dead", c_int); ("ifa_list", CPtr); ("mc_list", CPtr); ("mc_hash",
  CPtr); ("mc_count", c_int); ("mc_tomb_lock", spinlock_t); ("mc_tomb", CPtr); ("mr_v1_seen",
  c_ulong); ("mr_v2_seen", c_ulong); ("mr_qi", c_ulong); ("mr_qri", c_ulong); ("mr_qrv",
  c_uchar); ("mr_gq_running", c_uchar); ("mr_maxdelay", u32_); ("mr_ifc_count", u32_);
  ("mr_gq_timer", timer_list); ("mr_ifc_timer", timer_list); ("arp_parms", CPtr); ("cnf",
  ipv4_devconf); ("callback_head", callback_head)].

Definition in_ifaddr : ctype := CStruct 1 [("addr_lst", hlist_node); ("ifa_next", CPtr);
  ("ifa_dev", CPtr); ("callback_head", callback_head); ("ifa_local", __be32); ("ifa_address",
  __be32); ("ifa_mask", __be32); ("ifa_rt_priority", __u32); ("ifa_broadcast", __be32);
  ("ifa_scope", c_uchar); ("ifa_prefixlen", c_uchar); ("ifa_proto", c_uchar); ("ifa_flags",
  __u32); ("ifa_label", CArray 16 c_char); ("ifa_valid_lft", __u32); ("ifa_preferred_lft",
  __u32); ("ifa_cstamp", c_ulong); ("ifa_tstamp", c_ulong)].

Definition ipv6_stable_secret : ctype := CStruct 1 [("initialized", bool_); ("secret",
  in6_addr)].

Definition ipv6_devconf : ctype := CStruct 1
  [("__cacheline_group_begin__ipv6_devconf_read_txrx", __IncompleteArrayField __u8);
  ("disable_ipv6", __s32); ("hop_limit", __s32); ("mtu6", __s32); ("forwarding", __s32);
  ("force_forwarding", __s32); ("disable_policy", __s32); ("proxy_ndp", __s32);
  ("__cacheline_group_end__ipv6_devconf_read_txrx", __IncompleteArrayField __u8); ("accept_ra",
  __s32); ("accept_redirects", __s32); ("autoconf", __s32); ("dad_transmits", __s32);
  ("rtr_solicits", __s32); ("rtr_solicit_interval", __s32); ("rtr_solicit_max_interval", __s32);
  ("rtr_solicit_delay", __s32); ("force_mld_version", __s32);
  ("mldv1_unsolicited_report_interval", __s32); ("mldv2_unsolicited_report_interval", __s32);
  ("use_tempaddr", __s32); ("temp_valid_lft", __s32); ("temp_prefered_lft", __s32);
  ("regen_min_advance", __s32); ("regen_max_retry", __s32); ("max_desync_factor", __s32);
  ("max_addresses", __s32); ("accept_ra_defrtr", __s32); ("ra_defrtr_metric", __u32);
  ("accept_ra_min_hop_limit", __s32); ("accept_ra_min_lft", __s32); ("accept_ra_pinfo", __s32);
  ("ignore_routes_with_linkdown", __s32); ("accept_ra_rtr_pref", __s32); ("rtr_probe_interval",
  __s32); ("accept_ra_rt_info_min_plen", __s32); ("accept_ra_rt_info_max_plen", __s32);
  ("accept_source_route", __s32); ("accept_ra_from_local", __s32); ("optimistic_dad", __s32);
  ("use_optimistic", __s32); ("mc_forwarding", atomic_t); ("drop_unicast_in_l2_multicast",
  __s32); ("accept_dad", __s32); ("force_tllao", __s32); ("ndisc_notify", __s32);
  ("suppress_frag_ndisc", __s32); ("accept_ra_mtu", __s32); ("drop_unsolicited_na", __s32);
  ("accept_untracked_na", __s32); ("stable_secret", ipv6_stable_secret); ("use_oif_addrs_only",
  __s32); ("keep_addr_on_down", __s32); ("seg6_enabled", __s32); ("seg6_require_hmac", __s32);
  ("enhanced_dad", __u32); ("addr_gen_mode", __u32); ("ndisc_tclass", __s32);
  ("rpl_seg_enabled", __s32); ("ioam6_id", __u32); ("ioam6_id_wide", __u32); ("ioam6_enabled",
  __u8); ("ndisc_evict_nocarrier", __u8); ("ra_honor_pio_life", __u8); ("ra_honor_pio_pflag",
  __u8); ("sysctl_header", CPtr)].

Definition ipv6_devstat : ctype := CStruct 1 [("proc_dir_entry", CPtr); ("ipv6", CPtr);
  ("icmpv6dev", CPtr); ("icmpv6msgdev", CPtr)].

Definition inet6_dev : ctype := CStruct 1 [("dev", CPtr); ("dev_tracker", netdevice_tracker);
  ("addr_list", list_head); ("mc_list", CPtr); ("mc_tomb", CPtr); ("mc_qrv", c_uchar);
  ("mc_gq_running", c_uchar); ("mc_ifc_count", c_uchar); ("mc_dad_count", c_uchar);
  ("mc_v1_seen", c_ulong); ("mc_qi", c_ulong); ("mc_qri", c_ulong); ("mc_maxdelay", c_ulong);
  ("mc_gq_work", delayed_work); ("mc_ifc_work", delayed_work); ("mc_dad_work", delayed_work);
  ("mc_query_work", delayed_work); ("mc_report_work", delayed_work); ("mc_query_queue",
  sk_buff_head); ("mc_report_queue", sk_buff_head); ("mc_query_lock", spinlock_t);
  ("mc_report_lock", spinlock_t); ("mc_lock", mutex); ("ac_list", CPtr); ("lock", rwlock_t);
  ("refcnt", refcount_t); ("if_flags", __u32); ("dead", c_int); ("desync_factor", u32_);
  ("tempaddr_list", list_head); ("token", in6_addr); ("nd_parms", CPtr); ("cnf", ipv6_devconf);
  ("stats", ipv6_devstat); ("rs_timer", timer_list); ("rs_interval", __s32); ("rs_probes",
  __u8); ("tstamp", c_ulong); ("rcu", callback_head); ("ra_mtu", c_uint)].

Definition inet_bind2_bucket : ctype := CStruct 1 [("ib_net", possible_net_t); ("l3mdev",
  c_int); ("port", c_ushort); ("addr_type", c_ushort); ("v6_rcv_saddr", in6_addr); ("node",
  hlist_node); ("bhash_node", hlist_node); ("owners", hlist_head); ("fastreuse", c_schar);
  ("fastreuseport", c_schar)].

Definition inet_bind_bucket : ctype := CStruct 1 [("ib_net", possible_net_t); ("l3mdev", c_int);
  ("port", c_ushort); ("fastreuse", c_schar); ("fastreuseport", c_schar); ("fastuid", kuid_t);
  ("fast_v6_rcv_saddr", in6_addr); ("fast_rcv_saddr", __be32); ("fast_sk_family", c_ushort);
  ("fast_ipv6_only", bool_); ("node", hlist_node); ("bhash2", hlist_head); ("rcu",
  callback_head)].

Definition inet_bind_hashbucket : ctype := CStruct 1 [("lock", spinlock_t); ("chain",
  hlist_head)].

Definition inet_connection_sock_af_ops : ctype := CStruct 1 [("queue_xmit", CPtr);
  ("send_check", CPtr); ("rebuild_header", CPtr); ("sk_rx_dst_set", CPtr); ("conn_request",
  CPtr); ("syn_recv_sock", CPtr); ("net_header_len", u16_); ("setsockopt", CPtr); ("getsockopt",
  CPtr); ("mtu_reduced", CPtr)].

Definition inet_ehash_bucket : ctype := CStruct 1 [("chain", hlist_nulls_head)].

Definition inet_frags : ctype := CStruct 1 [("qsize", c_uint); ("constructor", CPtr);
  ("destructor", CPtr); ("frag_expire", CPtr); ("frags_cachep", CPtr); ("frags_cache_name",
  CPtr); ("rhash_params", rhashtable_params); ("refcnt", refcount_t); ("completion",
  completion)].

Definition inet_hashinfo : ctype := CStruct 1 [("ehash", CPtr); ("ehash_locks", CPtr);
  ("ehash_mask", c_uint); ("ehash_locks_mask", c_uint); ("bind_bucket_cachep", CPtr); ("bhash",
  CPtr); ("bind2_bucket_cachep", CPtr); ("bhash2", CPtr); ("bhash_size", c_uint);
  ("lhash2_mask", c_uint); ("lhash2", CPtr); ("pernet", bool_); ("_bitfield_align_1", CArray 0
  CU8); ("_bitfield_1", __BindgenBitfieldUnit 48); ("__bindgen_padding_0", CArray 7 CU8)].

Definition inet_listen_hashbucket : ctype := CStruct 1 [("lock", spinlock_t); ("nulls_head",
  hlist_nulls_head)].

Definition inode_operations : ctype := CStruct 1 [("lookup", CPtr); ("get_link", CPtr);
  ("permission", CPtr); ("get_inode_acl", CPtr); ("readlink", CPtr); ("create", CPtr); ("link",
  CPtr); ("unlink", CPtr); ("symlink", CPtr); ("mkdir", CPtr); ("rmdir", CPtr); ("mknod", CPtr);
  ("rename", CPtr); ("setattr", CPtr); ("getattr", CPtr); ("listxattr", CPtr); ("fiemap", CPtr);
  ("update_time", CPtr); ("sync_lazytime", CPtr); ("atomic_open", CPtr); ("tmpfile", CPtr);
  ("get_acl", CPtr); ("set_acl", CPtr); ("fileattr_set", CPtr); ("fileattr_get", CPtr);
  ("get_offset_ctx", CPtr); ("_bitfield_align_1", CArray 0 CU8); ("_bitfield_1",
  __BindgenBitfieldUnit 48)].

Definition io_uring_sqe__bindgen_ty_1__bindgen_ty_1 : ctype := CStruct 1 [("cmd_op", __u32);
  ("__pad1", __u32)].

Definition io_uring_sqe__bindgen_ty_1 : ctype := CUnion 1 [("off", __u64); ("addr2", __u64);
  ("__bindgen_anon_1", io_uring_sqe__bindgen_ty_1__bindgen_ty_1)].

Definition io_uring_sqe__bindgen_ty_2__bindgen_ty_1 : ctype := CStruct 1 [("level", __u32);
  ("optname", __u32)].

Definition io_uring_sqe__bindgen_ty_2 : ctype := CUnion 1 [("addr", __u64); ("splice_off_in",
  __u64); ("__bindgen_anon_1", io_uring_sqe__bindgen_ty_2__bindgen_ty_1)].

Definition io_uring_sqe__bindgen_ty_3 : ctype := CUnion 1 [("rw_flags", __u32); ("fsync_flags",
  __u32); ("poll_events", __u16); ("poll32_events", __u32); ("sync_range_flags", __u32);
  ("msg_flags", __u32); ("timeout_flags", __u32); ("accept_flags", __u32); ("cancel_flags",
  __u32); ("open_flags", __u32); ("statx_flags", __u32); ("fadvise_advice", __u32);
  ("splice_flags", __u32); ("rename_flags", __u32); ("unlink_flags", __u32); ("hardlink_flags",
  __u32); ("xattr_flags", __u32); ("msg_ring_flags", __u32); ("uring_cmd_flags", __u32);
  ("waitid_flags", __u32); ("futex_flags", __u32); ("install_fd_flags", __u32); ("nop_flags",
  __u32); ("pipe_flags", __u32)].

Definition io_uring_sqe__bindgen_ty_4 : ctype := CUnion 1 [("buf_index", __u16); ("buf_group",
  __u16)].

Definition io_uring_sqe__bindgen_ty_5__bindgen_ty_1 : ctype := CStruct 1 [("addr_len", __u16);
  ("__pad3", CArray 1 __u16)].

Definition io_uring_sqe__bindgen_ty_5__bindgen_ty_2 : ctype := CStruct 1 [("write_stream",
  __u8); ("__pad4", CArray 3 __u8)].

Definition io_uring_sqe__bindgen_ty_5 : ctype := CUnion 1 [("splice_fd_in", __s32);
  ("file_index", __u32); ("zcrx_ifq_idx", __u32); ("optlen", __u32); ("__bindgen_anon_1",
  io_uring_sqe__bindgen_ty_5__bindgen_ty_1); ("__bindgen_anon_2",
  io_uring_sqe__bindgen_ty_5__bindgen_ty_2)].

Definition io_uring_sqe__bindgen_ty_6__bindgen_ty_1 : ctype := CStruct 1 [("addr3", __u64);
  ("__pad2", CArray 1 __u64)].

Definition io_uring_sqe__bindgen_ty_6__bindgen_ty_2 : ctype := CStruct 1 [("attr_ptr", __u64);
  ("attr_type_mask", __u64)].

Definition io_uring_sqe__bindgen_ty_6 : ctype := CStruct 1 [("__bindgen_anon_1",
  __BindgenUnionField io_uring_sqe__bindgen_ty_6__bindgen_ty_1); ("__bindgen_anon_2",
  __BindgenUnionField io_uring_sqe__bindgen_ty_6__bindgen_ty_2); ("optval", __BindgenUnionField
  __u64); ("cmd", __BindgenUnionField (CArray 0 __u8)); ("bindgen_union_field", CArray 2 CU64)].

Definition io_uring_sqe : ctype := CStruct 1 [("opcode", __u8); ("flags", __u8); ("ioprio",
  __u16); ("fd", __s32); ("__bindgen_anon_1", io_uring_sqe__bindgen_ty_1); ("__bindgen_anon_2",
  io_uring_sqe__bindgen_ty_2); ("len", __u32); ("__bindgen_anon_3", io_uring_sqe__bindgen_ty_3);
  ("user_data", __u64); ("__bindgen_anon_4", io_uring_sqe__bindgen_ty_4); ("personality",
  __u16); ("__bindgen_anon_5", io_uring_sqe__bindgen_ty_5); ("__bindgen_anon_6",
  io_uring_sqe__bindgen_ty_6)].

Definition wait_page_queue : ctype := CStruct 1 [("folio", CPtr); ("bit_nr", c_int); ("wait",
  wait_queue_entry_t)].

Definition io_big_cqe : ctype := CStruct 1 [("extra1", u64_); ("extra2", u64_)].

Definition io_bitmap : ctype := CStruct 1 [("sequence", u64_); ("refcnt", refcount_t); ("max",
  c_uint); ("bitmap", CArray 1024 c_ulong)].

Definition io_bpf_filter : ctype := CStruct 1 [("refs", refcount_t); ("prog", CPtr); ("next",
  CPtr)].

Definition io_bpf_filters : ctype := CStruct 1 [("refs", refcount_t); ("lock", spinlock_t);
  ("filters", CPtr); ("callback_head", callback_head)].

Definition io_buffer : ctype := CStruct 1 [("list", list_head); ("addr", __u64); ("len", __u32);
  ("bid", __u16); ("bgid", __u16)].

Definition io_mapped_region : ctype := CStruct 1 [("pages", CPtr); ("ptr", CPtr); ("nr_pages",
  c_uint); ("flags", c_uint)].

Definition io_cmd_data : ctype := CStruct 1 [("file", CPtr); ("data", CArray 56 __u8)].

Definition io_comp_batch : ctype := CStruct 1 [("req_list", rq_list); ("need_ts", bool_);
  ("complete", CPtr); ("poll_ctx", CPtr)].

Definition io_context : ctype := CStruct 1 [("refcount", atomic_long_t); ("active_ref",
  atomic_t); ("ioprio", c_ushort); ("lock", spinlock_t); ("icq_tree", xarray); ("icq_hint",
  CPtr); ("icq_list", hlist_head); ("release_work", work_struct)].

Definition io_cqe__bindgen_ty_1 : ctype := CUnion 1 [("flags", __u32); ("fd", c_int)].

Definition io_cqe : ctype := CStruct 1 [("user_data", __u64); ("res", __s32);
  ("__bindgen_anon_1", io_cqe__bindgen_ty_1)].

Definition io_ev_fd : ctype := CStruct 1 [("cq_ev_fd", CPtr); ("eventfd_async", c_uint);
  ("last_cq_tail", c_uint); ("refs", refcount_t); ("ops", atomic_t); ("rcu", callback_head)].

Definition io_hash_bucket : ctype := CStruct 1 [("list", hlist_head); ("_bitfield_align_1",
  CArray 0 CU8); ("_bitfield_1", __BindgenBitfieldUnit 56)].

Definition io_req_tw_func_t : ctype := CPtr.

Definition io_task_work : ctype := CStruct 1 [("node", llist_node); ("func", io_req_tw_func_t)].

Definition io_wq_work : ctype := CStruct 1 [("list", io_wq_work_node); ("flags", atomic_t);
  ("cancel_seq", c_int)].

Definition io_kiocb__bindgen_ty_1 : ctype := CUnion 1 [("file", CPtr); ("cmd", io_cmd_data)].

Definition io_req_flags_t : ctype := u64_.

Definition io_kiocb__bindgen_ty_2 : ctype := CUnion 1 [("kbuf", CPtr); ("buf_node", CPtr)].

Definition io_kiocb__bindgen_ty_3 : ctype := CUnion 1 [("comp_list", io_wq_work_node);
  ("apoll_events", __poll_t)].

Definition io_kiocb__bindgen_ty_4 : ctype := CUnion 1 [("io_task_work", io_task_work);
  ("iopoll_start", u64_)].

Definition io_kiocb__bindgen_ty_5 : ctype := CUnion 1 [("hash_node", hlist_node);
  ("iopoll_node", list_head); ("callback_head", callback_head)].

Definition io_kiocb : ctype := CStruct 1 [("__bindgen_anon_1", io_kiocb__bindgen_ty_1);
  ("opcode", u8_); ("iopoll_completed", u8_); ("buf_index", u16_); ("nr_tw", c_uint); ("flags",
  io_req_flags_t); ("cqe", io_cqe); ("ctx", CPtr); ("tctx", CPtr); ("__bindgen_anon_2",
  io_kiocb__bindgen_ty_2); ("__bindgen_anon_3", io_kiocb__bindgen_ty_3); ("file_node", CPtr);
  ("refs", atomic_t); ("cancel_seq_set", bool_); ("__bindgen_anon_4", io_kiocb__bindgen_ty_4);
  ("__bindgen_anon_5", io_kiocb__bindgen_ty_5); ("apoll", CPtr); ("async_data", CPtr);
  ("poll_refs", atomic_t); ("link", CPtr); ("creds", CPtr); ("work", io_wq_work); ("big_cqe",
  io_big_cqe)].

Definition io_mapped_ubuf : ctype := CStruct 1 [("ubuf", u64_); ("len", c_uint); ("nr_bvecs",
  c_uint); ("folio_shift", c_uint); ("refs", refcount_t); ("acct_pages", c_ulong); ("release",
  CPtr); ("priv_", CPtr); ("flags", u8_); ("dir", u8_); ("bvec", __IncompleteArrayField
  bio_vec)].

Definition ubuf_info : ctype := CStruct 1 [("ops", CPtr); ("refcnt", refcount_t); ("flags",
  u8_)].

Definition io_pagetable : ctype := CStruct 1 [("domains_rwsem", rw_semaphore); ("domains",
  xarray); ("access_list", xarray); ("next_domain_id", c_uint); ("iova_rwsem", rw_semaphore);
  ("area_itree", rb_root_cached); ("allowed_itree", rb_root_cached); ("reserved_itree",
  rb_root_cached); ("disable_large_pages", u8_); ("iova_alignment", c_ulong)].

Definition io_restriction : ctype := CStruct 1 [("register_op", CArray 1 c_ulong); ("sqe_op",
  CArray 2 c_ulong); ("bpf_filters", CPtr); ("bpf_filters_cow", bool_); ("sqe_flags_allowed",
  u8_); ("sqe_flags_required", u8_); ("op_registered", bool_); ("reg_registered", bool_)].

Definition io_ring_ctx__bindgen_ty_4 : ctype := CStruct 1 [("rings_rcu", CPtr); ("work_llist",
  llist_head); ("retry_llist", llist_head); ("check_cq", c_ulong); ("cq_wait_nr", atomic_t);
  ("cq_timeouts", atomic_t); ("cq_wait", wait_queue_head)].

Definition io_ring_ctx : ctype := CStruct 1 [("__bindgen_anon_1", io_ring_ctx__bindgen_ty_1);
  ("__bindgen_anon_2", io_ring_ctx__bindgen_ty_2); ("__bindgen_anon_3",
  io_ring_ctx__bindgen_ty_3); ("__bindgen_anon_4", io_ring_ctx__bindgen_ty_4);
  ("__bindgen_anon_5", io_ring_ctx__bindgen_ty_5); ("completion_lock", spinlock_t);
  ("cq_overflow_list", list_head); ("waitid_list", hlist_head); ("futex_list", hlist_head);
  ("futex_cache", io_alloc_cache); ("sq_creds", CPtr); ("sq_data", CPtr); ("sqo_sq_wait",
  wait_queue_head); ("sqd_list", list_head); ("file_alloc_start", c_uint); ("file_alloc_end",
  c_uint); ("poll_wq", wait_queue_head); ("restrictions", io_restriction); ("zcrx_ctxs",
  xarray); ("pers_next", u32_); ("personalities", xarray); ("hash_map", CPtr); ("user", CPtr);
  ("mm_account", CPtr); ("tctx_list", list_head); ("tctx_lock", mutex); ("fallback_llist",
  llist_head); ("fallback_work", delayed_work); ("exit_work", work_struct); ("ref_comp",
  completion); ("iowq_limits", CArray 2 u32_); ("poll_wq_task_work", callback_head);
  ("defer_list", list_head); ("nr_drained", c_uint); ("nr_req_allocated", c_uint); ("napi_list",
  list_head); ("napi_lock", spinlock_t); ("napi_busy_poll_dt", ktime_t);
  ("napi_prefer_busy_poll", bool_); ("napi_track_mode", u8_); ("napi_ht", CArray 16 hlist_head);
  ("mmap_lock", mutex); ("sq_region", io_mapped_region); ("ring_region", io_mapped_region);
  ("param_region", io_mapped_region); ("_bitfield_align_1", CArray 0 CU8); ("_bitfield_1",
  __BindgenBitfieldUnit 48)].

Definition io_rsrc_node__bindgen_ty_1 : ctype := CUnion 1 [("file_ptr", c_ulong); ("buf",
  CPtr)].

Definition io_rsrc_node : ctype := CStruct 1 [("type_", c_uchar); ("refs", c_int); ("tag",
  u64_); ("__bindgen_anon_1", io_rsrc_node__bindgen_ty_1)].

Definition io_sq_data : ctype := CStruct 1 [("refs", refcount_t); ("park_pending", atomic_t);
  ("lock", mutex); ("ctx_list", list_head); ("thread", CPtr); ("wait", wait_queue_head);
  ("sq_thread_idle", c_uint); ("sq_cpu", c_int); ("task_pid", pid_t); ("task_tgid", pid_t);
  ("work_time", u64_); ("state", c_ulong); ("exited", completion)].

Definition io_tlb_area : ctype := CStruct 1 [("used", c_ulong); ("index", c_uint); ("lock",
  spinlock_t)].

Definition io_tlb_pool : ctype := CStruct 1 [("start", phys_addr_t); ("end", phys_addr_t);
  ("vaddr", CPtr); ("nslabs", c_ulong); ("late_alloc", bool_); ("nareas", c_uint);
  ("area_nslabs", c_uint); ("areas", CPtr); ("slots", CPtr)].

Definition io_tlb_mem : ctype := CStruct 1 [("defpool", io_tlb_pool); ("nslabs", c_ulong);
  ("debugfs", CPtr); ("force_bounce", bool_); ("for_alloc", bool_); ("total_used",
  atomic_long_t); ("used_hiwater", atomic_long_t); ("transient_nslabs", atomic_long_t)].

Definition io_tlb_slot : ctype := CStruct 1 [("orig_addr", phys_addr_t); ("alloc_size", CU64);
  ("list", c_ushort); ("pad_slots", c_ushort)].

Definition io_tw_req : ctype := CStruct 1 [("req", CPtr)].

Definition io_tw_state : ctype := CStruct 1 [("cancel", bool_)].

Definition io_uring_cmd : ctype := CStruct 1 [("file", CPtr); ("sqe", CPtr); ("cmd_op", u32_);
  ("flags", u32_); ("pdu", CArray 32 u8_); ("unused", CArray 8 u8_)].

Definition io_wq_acct : ctype := CStruct 1 [("workers_lock", raw_spinlock_t); ("nr_workers",
  c_uint); ("max_workers", c_uint); ("nr_running", atomic_t); ("free_list", hlist_nulls_head);
  ("all_list", list_head); ("lock", raw_spinlock_t); ("work_list", io_wq_work_list); ("flags",
  c_ulong)].

Definition io_wq : ctype := CStruct 1 [("state", c_ulong); ("hash", CPtr); ("worker_refs",
  atomic_t); ("worker_done", completion); ("cpuhp_node", hlist_node); ("task", CPtr); ("acct",
  CArray 2 io_wq_acct); ("wait", wait_queue_entry); ("hash_tail", CArray 64 CPtr); ("cpu_mask",
  cpumask_var_t)].

Definition io_wq_hash : ctype := CStruct 1 [("refs", refcount_t); ("map", c_ulong); ("wait",
  wait_queue_head)].

Definition ipv6_opt_hdr : ctype := CStruct 1 [("nexthdr", __u8); ("hdrlen", __u8)].

Definition ioam6_pernet_data : ctype := CStruct 1 [("lock", mutex); ("namespaces", rhashtable);
  ("schemas", rhashtable)].

Definition iomap : ctype := CStruct 1 [("addr", u64_); ("offset", loff_t); ("length", u64_);
  ("type_", u16_); ("flags", u16_); ("bdev", CPtr); ("dax_dev", CPtr); ("inline_data", CPtr);
  ("private", CPtr); ("validity_cookie", u64_)].

Definition iommu_attach_handle : ctype := CStruct 1 [("domain", CPtr)].

Definition iommu_dirty_bitmap : ctype := CStruct 1 [("bitmap", CPtr); ("gather", CPtr)].

Definition iommu_dirty_ops : ctype := CStruct 1 [("set_dirty_tracking", CPtr);
  ("read_and_clear_dirty", CPtr)].

Definition iova : ctype := CStruct 1 [("node", rb_node); ("pfn_hi", c_ulong); ("pfn_lo",
  c_ulong)].

Definition iova_domain : ctype := CStruct 1 [("iova_rbtree_lock", spinlock_t); ("rbroot",
  rb_root); ("cached_node", CPtr); ("cached32_node", CPtr); ("granule", c_ulong); ("start_pfn",
  c_ulong); ("dma_32bit_pfn", c_ulong); ("max32_alloc_size", c_ulong); ("anchor", iova);
  ("rcaches", CPtr); ("cpuhp_dead", hlist_node)].

Definition iommu_dma_options : ctype := CStruct 1 [("qt", iommu_dma_queue_type__Type);
  ("fq_size", CU64); ("fq_timeout", c_uint)].

Definition iommu_dma_cookie__bindgen_ty_1 : ctype := CUnion 1 [("single_fq", CPtr);
  ("percpu_fq", CPtr)].

Definition iommu_dma_cookie : ctype := CStruct 1 [("iovad", iova_domain); ("msi_page_list",
  list_head); ("__bindgen_anon_1", iommu_dma_cookie__bindgen_ty_1); ("fq_flush_start_cnt",
  atomic64_t); ("fq_flush_finish_cnt", atomic64_t); ("fq_timer", timer_list); ("fq_timer_on",
  atomic_t); ("fq_domain", CPtr); ("options", iommu_dma_options)].

Definition iommu_dma_msi_cookie : ctype := CStruct 1 [("msi_iova", dma_addr_t);
  ("msi_page_list", list_head)].

Definition iommu_domain_ops : ctype := CStruct 1 [("attach_dev", CPtr); ("set_dev_pasid", CPtr);
  ("map_pages", CPtr); ("unmap_pages", CPtr); ("flush_iotlb_all", CPtr); ("iotlb_sync_map",
  CPtr); ("iotlb_sync", CPtr); ("cache_invalidate_user", CPtr); ("iova_to_phys", CPtr);
  ("enforce_cache_coherency", CPtr); ("set_pgtable_quirks", CPtr); ("free", CPtr)].

Definition iommu_fault_page_request : ctype := CStruct 1 [("flags", u32_); ("pasid", u32_);
  ("grpid", u32_); ("perm", u32_); ("addr", u64_); ("private_data", CArray 2 u64_)].

Definition iommu_fault : ctype := CStruct 1 [("type_", u32_); ("prm",
  iommu_fault_page_request)].

Definition iommu_fault_param : ctype := CStruct 1 [("lock", mutex); ("users", refcount_t);
  ("rcu", callback_head); ("dev", CPtr); ("queue", CPtr); ("queue_list", list_head); ("partial",
  list_head); ("faults", list_head)].

Definition iommu_fwspec : ctype := CStruct 1 [("iommu_fwnode", CPtr); ("flags", u32_);
  ("num_ids", c_uint); ("ids", __IncompleteArrayField u32_)].

Definition iommu_group : ctype := CStruct 1 [("kobj", kobject); ("devices_kobj", CPtr);
  ("devices", list_head); ("pasid_array", xarray); ("mutex", mutex); ("iommu_data", CPtr);
  ("iommu_data_release", CPtr); ("name", CPtr); ("id", c_int); ("default_domain", CPtr);
  ("blocking_domain", CPtr); ("domain", CPtr); ("entry", list_head); ("owner_cnt", c_uint);
  ("recovery_cnt", c_uint); ("owner", CPtr)].

Definition iommu_pages_list : ctype := CStruct 1 [("pages", list_head)].

Definition iommu_iotlb_gather : ctype := CStruct 1 [("start", c_ulong); ("end", c_ulong);
  ("pgsize", CU64); ("freelist", iommu_pages_list); ("queued", bool_)].

Definition iommu_mm_data : ctype := CStruct 1 [("pasid", u32_); ("mm", CPtr); ("sva_domains",
  list_head); ("mm_list_elm", list_head)].

Definition iommu_page_response : ctype := CStruct 1 [("pasid", u32_); ("grpid", u32_); ("code",
  u32_)].

Definition pmu : ctype := CStruct 1 [("entry", list_head); ("events_lock", spinlock_t);
  ("events", list_head); ("module", CPtr); ("dev", CPtr); ("parent", CPtr); ("attr_groups",
  CPtr); ("attr_update", CPtr); ("name", CPtr); ("type_", c_int); ("capabilities", c_int);
  ("scope", c_uint); ("cpu_pmu_context", CPtr); ("exclusive_cnt", atomic_t); ("task_ctx_nr",
  c_int); ("hrtimer_interval_ms", c_int); ("nr_addr_filters", c_uint); ("pmu_enable", CPtr);
  ("pmu_disable", CPtr); ("event_init", CPtr); ("event_mapped", CPtr); ("event_unmapped", CPtr);
  ("add", CPtr); ("del", CPtr); ("start", CPtr); ("stop", CPtr); ("read", CPtr); ("start_txn",
  CPtr); ("commit_txn", CPtr); ("cancel_txn", CPtr); ("event_idx", CPtr); ("sched_task", CPtr);
  ("task_ctx_cache", CPtr); ("setup_aux", CPtr); ("free_aux", CPtr); ("snapshot_aux", CPtr);
  ("addr_filters_validate", CPtr); ("addr_filters_sync", CPtr); ("aux_output_match", CPtr);
  ("filter", CPtr); ("check_period", CPtr)].

Definition iommu_user_data : ctype := CStruct 1 [("type_", c_uint); ("uptr", CPtr); ("len",
  CU64)].

Definition iommu_user_data_array : ctype := CStruct 1 [("type_", c_uint); ("uptr", CPtr);
  ("entry_len", CU64); ("entry_num", u32_)].

Definition iommufd_access : ctype := CStruct 1 [("obj", iommufd_object); ("ictx", CPtr);
  ("ioas", CPtr); ("ioas_unpin", CPtr); ("ioas_lock", mutex); ("ops", CPtr); ("data", CPtr);
  ("iova_alignment", c_ulong); ("iopt_access_list_id", u32_)].

Definition iommufd_ctx : ctype := CStruct 1 [("file", CPtr); ("objects", xarray); ("groups",
  xarray); ("destroy_wait", wait_queue_head_t); ("ioas_creation_lock", rw_semaphore);
  ("mt_mmap", maple_tree); ("sw_msi_lock", mutex); ("sw_msi_list", list_head); ("sw_msi_id",
  c_uint); ("account_mode", u8_); ("no_iommu_mode", u8_); ("vfio_ioas", CPtr)].

Definition iommufd_device : ctype := CStruct 1 [("obj", iommufd_object); ("ictx", CPtr);
  ("igroup", CPtr); ("group_item", list_head); ("dev", CPtr); ("enforce_cache_coherency",
  bool_); ("vdev", CPtr); ("destroying", bool_)].

Definition iommufd_eventq : ctype := CStruct 1 [("obj", iommufd_object); ("ictx", CPtr);
  ("filep", CPtr); ("lock", spinlock_t); ("deliver", list_head); ("wait_queue",
  wait_queue_head)].

Definition iommufd_fault : ctype := CStruct 1 [("common", iommufd_eventq); ("mutex", mutex);
  ("response", xarray)].

Definition iommufd_group : ctype := CStruct 1 [("ref_", kref); ("lock", mutex); ("ictx", CPtr);
  ("group", CPtr); ("pasid_attach", xarray); ("required_sw_msi", iommufd_sw_msi_maps);
  ("sw_msi_start", phys_addr_t)].

Definition iommufd_hw_queue : ctype := CStruct 1 [("obj", iommufd_object); ("viommu", CPtr);
  ("access", CPtr); ("base_addr", u64_); ("length", CU64); ("type_", iommu_hw_queue_type__Type);
  ("destroy", CPtr)].

Definition iommufd_ioas : ctype := CStruct 1 [("obj", iommufd_object); ("iopt", io_pagetable);
  ("mutex", mutex); ("hwpt_list", list_head)].

Definition iommufd_vdevice : ctype := CStruct 1 [("obj", iommufd_object); ("viommu", CPtr);
  ("idev", CPtr); ("virt_id", u64_); ("destroy", CPtr)].

Definition iommufd_viommu_ops : ctype := CStruct 1 [("destroy", CPtr); ("alloc_domain_nested",
  CPtr); ("cache_invalidate", CPtr); ("vdevice_size", CU64); ("vdevice_init", CPtr);
  ("get_hw_queue_size", CPtr); ("hw_queue_init_phys", CPtr)].

Definition iopf_fault : ctype := CStruct 1 [("fault", iommu_fault); ("list", list_head)].

Definition iopf_group : ctype := CStruct 1 [("last_fault", iopf_fault); ("faults", list_head);
  ("fault_count", CU64); ("pending_node", list_head); ("work", work_struct); ("attach_handle",
  CPtr); ("fault_param", CPtr); ("node", list_head); ("cookie", u32_)].

Definition iopf_queue : ctype := CStruct 1 [("wq", CPtr); ("devices", list_head); ("lock",
  mutex)].

Definition iova_bitmap_map : ctype := CStruct 1 [("iova", c_ulong); ("length", c_ulong);
  ("pgshift", c_ulong); ("pgoff", c_ulong); ("npages", c_ulong); ("pages", CPtr)].

Definition iova_bitmap : ctype := CStruct 1 [("mapped", iova_bitmap_map); ("bitmap", CPtr);
  ("mapped_base_index", c_ulong); ("mapped_total_index", c_ulong); ("iova", c_ulong); ("length",
  CU64)].

Definition iova_cpu_rcache : ctype := CStruct 1 [("lock", spinlock_t); ("loaded", CPtr);
  ("prev", CPtr)].

Definition iova_fq_entry : ctype := CStruct 1 [("iova_pfn", c_ulong); ("pages", c_ulong);
  ("freelist", iommu_pages_list); ("counter", u64_)].

Definition iova_fq : ctype := CStruct 1 [("lock", spinlock_t); ("head", c_uint); ("tail",
  c_uint); ("mod_mask", c_uint); ("entries", __IncompleteArrayField iova_fq_entry)].

Definition iova_magazine__bindgen_ty_1 : ctype := CUnion 1 [("size", c_ulong); ("next", CPtr)].

Definition iova_magazine : ctype := CStruct 1 [("__bindgen_anon_1",
  iova_magazine__bindgen_ty_1); ("pfns", CArray 127 c_ulong)].

Definition iova_rcache : ctype := CStruct 1 [("lock", spinlock_t); ("depot_size", c_uint);
  ("depot", CPtr); ("cpu_rcaches", CPtr); ("iovad", CPtr); ("work", delayed_work)].

Definition ip6_flowlabel__bindgen_ty_1 : ctype := CUnion 1 [("pid", CPtr); ("uid", kuid_t)].

Definition ip6_flowlabel : ctype := CStruct 1 [("next", CPtr); ("label", __be32); ("users",
  atomic_t); ("dst", in6_addr); ("opt", CPtr); ("linger", c_ulong); ("rcu", callback_head);
  ("share", u8_); ("owner", ip6_flowlabel__bindgen_ty_1); ("lastuse", c_ulong); ("expires",
  c_ulong); ("fl_net", CPtr)].

Definition ip6_sf_list : ctype := CStruct 1 [("sf_next", CPtr); ("sf_addr", in6_addr);
  ("sf_count", CArray 2 c_ulong); ("sf_gsresp", c_uchar); ("sf_oldin", c_uchar); ("sf_crcount",
  c_uchar); ("rcu", callback_head)].

Definition ip6_sf_socklist : ctype := CStruct 1 [("sl_max", c_uint); ("sl_count", c_uint);
  ("rcu", callback_head); ("sl_addr", __IncompleteArrayField in6_addr)].

Definition ip_tunnel_encap : ctype := CStruct 1 [("type_", u16_); ("flags", u16_); ("sport",
  __be16); ("dport", __be16)].

Definition ip_conntrack_stat : ctype := CStruct 1 [("found", c_uint); ("invalid", c_uint);
  ("insert", c_uint); ("insert_failed", c_uint); ("clash_resolve", c_uint); ("drop", c_uint);
  ("early_drop", c_uint); ("error", c_uint); ("expect_new", c_uint); ("expect_create", c_uint);
  ("expect_delete", c_uint); ("search_restart", c_uint); ("chaintoolong", c_uint)].

Definition ip_ct_sctp : ctype := CStruct 1 [("state", sctp_conntrack__Type); ("vtag", CArray 2
  __be32); ("init", CArray 2 u8_); ("last_dir", u8_); ("flags", u8_)].

Definition u_int32_t : ctype := u32_.

Definition u_int8_t : ctype := u8_.

Definition ip_ct_tcp_state : ctype := CStruct 1 [("td_end", u_int32_t); ("td_maxend",
  u_int32_t); ("td_maxwin", u_int32_t); ("td_maxack", u_int32_t); ("td_scale", u_int8_t);
  ("flags", u_int8_t)].

Definition u_int16_t : ctype := u16_.

Definition ip_ct_tcp : ctype := CStruct 1 [("seen", CArray 2 ip_ct_tcp_state); ("state",
  u_int8_t); ("last_dir", u_int8_t); ("retrans", u_int8_t); ("last_index", u_int8_t);
  ("last_seq", u_int32_t); ("last_ack", u_int32_t); ("last_end", u_int32_t); ("last_win",
  u_int16_t); ("last_wscale", u_int8_t); ("last_flags", u_int8_t)].

Definition ip_mc_list__bindgen_ty_1 : ctype := CUnion 1 [("next", CPtr); ("next_rcu", CPtr)].

Definition ip_mc_list : ctype := CStruct 1 [("interface", CPtr); ("multiaddr", __be32);
  ("sfmode", c_uint); ("sources", CPtr); ("tomb", CPtr); ("sfcount", CArray 2 c_ulong);
  ("__bindgen_anon_1", ip_mc_list__bindgen_ty_1); ("next_hash", CPtr); ("timer", timer_list);
  ("users", c_int); ("refcnt", refcount_t); ("lock", spinlock_t); ("tm_running", c_char);
  ("reporter", c_char); ("unsolicit_count", c_char); ("loaded", c_char); ("gsquery", c_uchar);
  ("crcount", c_uchar); ("mca_cstamp", c_ulong); ("mca_tstamp", c_ulong); ("rcu",
  callback_head)].

Definition ip_mreqn : ctype := CStruct 1 [("imr_multiaddr", in_addr); ("imr_address", in_addr);
  ("imr_ifindex", c_int)].

Definition ip_mc_socklist : ctype := CStruct 1 [("next_rcu", CPtr); ("multi", ip_mreqn);
  ("sfmode", c_uint); ("sflist", CPtr); ("rcu", callback_head)].

Definition ip_ra_chain__bindgen_ty_1 : ctype := CUnion 1 [("destructor", CPtr); ("saved_sk",
  CPtr)].

Definition ip_ra_chain : ctype := CStruct 1 [("next", CPtr); ("sk", CPtr); ("__bindgen_anon_1",
  ip_ra_chain__bindgen_ty_1); ("rcu", callback_head)].

Definition kvec : ctype := CStruct 1 [("iov_base", CPtr); ("iov_len", CU64)].

Definition ip_sf_list : ctype := CStruct 1 [("sf_next", CPtr); ("sf_count", CArray 2 c_ulong);
  ("sf_inaddr", __be32); ("sf_gsresp", c_uchar); ("sf_oldin", c_uchar); ("sf_crcount",
  c_uchar)].

Definition ip_sf_socklist : ctype := CStruct 1 [("sl_max", c_uint); ("sl_count", c_uint);
  ("rcu", callback_head); ("sl_addr", __IncompleteArrayField __be32)].

Definition ip_tunnel_parm_kern : ctype := CStruct 1 [("name", CArray 16 c_char); ("i_flags",
  CArray 1 c_ulong); ("o_flags", CArray 1 c_ulong); ("i_key", __be32); ("o_key", __be32);
  ("link", c_int); ("iph", iphdr)].

Definition ip_tunnel_key__bindgen_ty_1__bindgen_ty_1 : ctype := CStruct 1 [("src", __be32);
  ("dst", __be32)].

Definition ip_tunnel_key__bindgen_ty_1__bindgen_ty_2 : ctype := CStruct 1 [("src", in6_addr);
  ("dst", in6_addr)].

Definition ip_tunnel_key__bindgen_ty_1 : ctype := CUnion 1 [("ipv4",
  ip_tunnel_key__bindgen_ty_1__bindgen_ty_1); ("ipv6",
  ip_tunnel_key__bindgen_ty_1__bindgen_ty_2)].

Definition ip_tunnel_key : ctype := CStruct 1 [("tun_id", __be64); ("u",
  ip_tunnel_key__bindgen_ty_1); ("tun_flags", CArray 1 c_ulong); ("label", __be32); ("nhid",
  u32_); ("tos", u8_); ("ttl", u8_); ("tp_src", __be16); ("tp_dst", __be16); ("flow_flags",
  __u8)].

Definition ip_tunnel_info : ctype := CStruct 1 [("key", ip_tunnel_key); ("encap",
  ip_tunnel_encap); ("dst_cache", dst_cache); ("options_len", u8_); ("mode", u8_);
  ("__bindgen_padding_0", CArray 6 CU8); ("options", __IncompleteArrayField u8_)].

Definition ipstats_mib : ctype := CStruct 1 [("mibs", CArray 38 u64_); ("syncp",
  u64_stats_sync)].

Definition ipv6_ac_socklist : ctype := CStruct 1 [("acl_addr", in6_addr); ("acl_ifindex",
  c_int); ("acl_next", CPtr)].

Definition ipv6_fl_socklist : ctype := CStruct 1 [("next", CPtr); ("fl", CPtr); ("rcu",
  callback_head)].

Definition ipv6_mc_socklist : ctype := CStruct 1 [("addr", in6_addr); ("ifindex", c_int);
  ("sfmode", c_uint); ("next", CPtr); ("sflist", CPtr); ("rcu", callback_head)].

Definition ipv6_pinfo__bindgen_ty_1 : ctype := CUnion 1 [("daddr", in6_addr); ("final_",
  in6_addr)].

Definition ipv6_pinfo__bindgen_ty_2 : ctype := CUnion 1 [("bits",
  ipv6_pinfo__bindgen_ty_2__bindgen_ty_1); ("all", u16_)].

Definition ipv6_pinfo : ctype := CStruct 1 [("saddr", in6_addr); ("__bindgen_anon_1",
  ipv6_pinfo__bindgen_ty_1); ("flow_label", __be32); ("dst_cookie", u32_); ("opt", CPtr);
  ("hop_limit", s16); ("pmtudisc", u8_); ("tclass", u8_); ("saddr_cache", bool_);
  ("daddr_cache", bool_); ("mcast_hops", u8_); ("frag_size", u32_); ("ucast_oif", c_int);
  ("mcast_oif", c_int); ("rxopt", ipv6_pinfo__bindgen_ty_2); ("srcprefs", u8_); ("min_hopcount",
  u8_); ("rcv_flowinfo", __be32); ("sticky_pktinfo", in6_pktinfo); ("pktoptions", CPtr);
  ("rxpmtu", CPtr); ("ipv6_mc_list", CPtr); ("ipv6_ac_list", CPtr)].

Definition ipv6_rt_hdr : ctype := CStruct 1 [("nexthdr", __u8); ("hdrlen", __u8); ("type_",
  __u8); ("segments_left", __u8)].

Definition ipv6_txoptions : ctype := CStruct 1 [("refcnt", refcount_t); ("tot_len", c_int);
  ("opt_flen", __u16); ("opt_nflen", __u16); ("hopopt", CPtr); ("dst0opt", CPtr); ("srcrt",
  CPtr); ("dst1opt", CPtr); ("rcu", callback_head)].

Definition irq_chip : ctype := CStruct 1 [("name", CPtr); ("irq_startup", CPtr);
  ("irq_shutdown", CPtr); ("irq_enable", CPtr); ("irq_disable", CPtr); ("irq_ack", CPtr);
  ("irq_mask", CPtr); ("irq_mask_ack", CPtr); ("irq_unmask", CPtr); ("irq_eoi", CPtr);
  ("irq_set_affinity", CPtr); ("irq_pre_redirect", CPtr); ("irq_retrigger", CPtr);
  ("irq_set_type", CPtr); ("irq_set_wake", CPtr); ("irq_bus_lock", CPtr);
  ("irq_bus_sync_unlock", CPtr); ("irq_suspend", CPtr); ("irq_resume", CPtr);
  ("irq_pm_shutdown", CPtr); ("irq_calc_mask", CPtr); ("irq_print_chip", CPtr);
  ("irq_request_resources", CPtr); ("irq_release_resources", CPtr); ("irq_compose_msi_msg",
  CPtr); ("irq_write_msi_msg", CPtr); ("irq_get_irqchip_state", CPtr); ("irq_set_irqchip_state",
  CPtr); ("irq_set_vcpu_affinity", CPtr); ("ipi_send_single", CPtr); ("ipi_send_mask", CPtr);
  ("irq_nmi_setup", CPtr); ("irq_nmi_teardown", CPtr); ("irq_force_complete_move", CPtr);
  ("flags", c_ulong)].

Definition irq_chip_regs : ctype := CStruct 1 [("enable", c_ulong); ("disable", c_ulong);
  ("mask", c_ulong); ("ack", c_ulong); ("eoi", c_ulong); ("type_", c_ulong)].

Definition irq_chip_type : ctype := CStruct 1 [("chip", irq_chip); ("regs", irq_chip_regs);
  ("handler", irq_flow_handler_t); ("type_", u32_); ("mask_cache_priv", u32_); ("mask_cache",
  CPtr)].

Definition irq_chip_generic : ctype := CStruct 1 [("lock", raw_spinlock_t); ("reg_base", CPtr);
  ("reg_readl", CPtr); ("reg_writel", CPtr); ("suspend", CPtr); ("resume", CPtr); ("irq_base",
  c_uint); ("irq_cnt", c_uint); ("mask_cache", u32_); ("wake_enabled", u32_); ("wake_active",
  u32_); ("num_ct", c_uint); ("private", CPtr); ("installed", c_ulong); ("unused", c_ulong);
  ("domain", CPtr); ("list", list_head); ("chip_types", __IncompleteArrayField irq_chip_type)].

Definition irq_common_data : ctype := CStruct 1 [("state_use_accessors", c_uint); ("node",
  c_uint); ("handler_data", CPtr); ("msi_desc", CPtr); ("affinity", cpumask_var_t);
  ("effective_affinity", cpumask_var_t)].

Definition irq_data : ctype := CStruct 1 [("mask", u32_); ("irq", c_uint); ("hwirq",
  irq_hw_number_t); ("common", CPtr); ("chip", CPtr); ("domain", CPtr); ("parent_data", CPtr);
  ("chip_data", CPtr)].

Definition irq_redirect : ctype := CStruct 1 [("work", irq_work); ("target_cpu", c_uint)].

Definition irq_desc : ctype := CStruct 1 [("irq_common_data", irq_common_data); ("irq_data",
  irq_data); ("kstat_irqs", CPtr); ("handle_irq", irq_flow_handler_t); ("action", CPtr);
  ("status_use_accessors", c_uint); ("core_internal_state__do_not_mess_with_it", c_uint);
  ("depth", c_uint); ("wake_depth", c_uint); ("tot_count", c_uint); ("irq_count", c_uint);
  ("last_unhandled", c_ulong); ("irqs_unhandled", c_uint); ("threads_handled", atomic_t);
  ("threads_handled_last", c_int); ("lock", raw_spinlock_t); ("percpu_enabled", CPtr);
  ("redirect", irq_redirect); ("affinity_hint", CPtr); ("affinity_notify", CPtr);
  ("pending_mask", cpumask_var_t); ("threads_oneshot", c_ulong); ("threads_active", atomic_t);
  ("wait_for_threads", wait_queue_head_t); ("nr_actions", c_uint); ("no_suspend_depth", c_uint);
  ("cond_suspend_depth", c_uint); ("force_resume_depth", c_uint); ("dir", CPtr); ("rcu",
  callback_head); ("kobj", kobject); ("request_mutex", mutex); ("parent_irq", c_int); ("owner",
  CPtr); ("name", CPtr); ("resend_node", hlist_node); ("_bitfield_align_1", CArray 0 CU8);
  ("_bitfield_1", __BindgenBitfieldUnit 56)].

Definition irq_domain : ctype := CStruct 1 [("link", list_head); ("name", CPtr); ("ops", CPtr);
  ("host_data", CPtr); ("flags", c_uint); ("mapcount", c_uint); ("mutex", mutex); ("root",
  CPtr); ("fwnode", CPtr); ("bus_token", irq_domain_bus_token__Type); ("gc", CPtr); ("dev",
  CPtr); ("pm_dev", CPtr); ("parent", CPtr); ("msi_parent_ops", CPtr); ("exit", CPtr);
  ("hwirq_max", irq_hw_number_t); ("revmap_size", c_uint); ("revmap_tree", xarray); ("revmap",
  __IncompleteArrayField CPtr)].

Definition irq_domain_chip_generic : ctype := CStruct 1 [("irqs_per_chip", c_uint);
  ("num_chips", c_uint); ("irq_flags_to_clear", c_uint); ("irq_flags_to_set", c_uint);
  ("gc_flags", irq_gc_flags__Type); ("exit", CPtr); ("gc", __IncompleteArrayField CPtr)].

Definition irq_fwspec_info : ctype := CStruct 1 [("flags", c_ulong); ("affinity", CPtr)].

Definition irqstat : ctype := CStruct 1 [("cnt", c_uint); ("ref_", c_uint)].

Definition iw_discarded : ctype := CStruct 1 [("nwid", __u32); ("code", __u32); ("fragment",
  __u32); ("retries", __u32); ("misc", __u32)].

Definition iw_point : ctype := CStruct 1 [("pointer", CPtr); ("length", __u16); ("flags",
  __u16)].

Definition iw_param : ctype := CStruct 1 [("value", __s32); ("fixed", __u8); ("disabled", __u8);
  ("flags", __u16)].

Definition iw_freq : ctype := CStruct 1 [("m", __s32); ("e", __s16); ("i", __u8); ("flags",
  __u8)].

Definition iw_quality : ctype := CStruct 1 [("qual", __u8); ("level", __u8); ("noise", __u8);
  ("updated", __u8)].

Definition iwreq_data : ctype := CUnion 1 [("name", CArray 16 c_char); ("essid", iw_point);
  ("nwid", iw_param); ("freq", iw_freq); ("sens", iw_param); ("bitrate", iw_param); ("txpower",
  iw_param); ("rts", iw_param); ("frag", iw_param); ("mode", __u32); ("retry", iw_param);
  ("encoding", iw_point); ("power", iw_param); ("qual", iw_quality); ("ap_addr", sockaddr);
  ("addr", sockaddr); ("param", iw_param); ("data", iw_point)].

Definition iw_handler_def : ctype := CStruct 1 [("standard", CPtr); ("num_standard", __u16);
  ("num_private", __u16); ("num_private_args", __u16); ("private", CPtr); ("private_args",
  CPtr); ("get_wireless_stats", CPtr)].

Definition iw_missed : ctype := CStruct 1 [("beacon", __u32)].

Definition iw_priv_args : ctype := CStruct 1 [("cmd", __u32); ("set_args", __u16); ("get_args",
  __u16); ("name", CArray 16 c_char)].

Definition iw_request_info : ctype := CStruct 1 [("cmd", __u16); ("flags", __u16)].

Definition iw_statistics : ctype := CStruct 1 [("status", __u16); ("qual", iw_quality);
  ("discard", iw_discarded); ("miss", iw_missed)].

Definition jump_entry : ctype := CStruct 1 [("code", s32); ("target", s32); ("key", c_long)].

Definition kernel_siginfo__bindgen_ty_1 : ctype := CStruct 1 [("si_signo", c_int); ("si_errno",
  c_int); ("si_code", c_int); ("_sifields", __sifields)].

Definition kernel_siginfo : ctype := CStruct 1 [("__bindgen_anon_1",
  kernel_siginfo__bindgen_ty_1)].

Definition __signalfn_t : ctype := CPtr.

Definition __sighandler_t : ctype := __signalfn_t.

Definition __restorefn_t : ctype := CPtr.

Definition __sigrestore_t : ctype := __restorefn_t.

Definition sigaction : ctype := CStruct 1 [("sa_handler", __sighandler_t); ("sa_flags",
  c_ulong); ("sa_restorer", __sigrestore_t); ("sa_mask", sigset_t)].

Definition k_sigaction : ctype := CStruct 1 [("sa", sigaction)].

Definition kernel_ethtool_ringparam : ctype := CStruct 1 [("rx_buf_len", u32_);
  ("tcp_data_split", u8_); ("tx_push", u8_); ("rx_push", u8_); ("cqe_size", u32_);
  ("tx_push_buf_len", u32_); ("tx_push_buf_max_len", u32_); ("hds_thresh", u32_);
  ("hds_thresh_max", u32_)].

Definition kernel_ethtool_ts_info : ctype := CStruct 1 [("cmd", u32_); ("so_timestamping",
  u32_); ("phc_index", c_int); ("phc_qualifier", hwtstamp_provider_qualifier__Type);
  ("phc_source", hwtstamp_source__Type); ("phc_phyindex", c_int); ("tx_types", u32_);
  ("rx_filters", u32_)].

Definition kernel_hwtstamp_config : ctype := CStruct 1 [("flags", c_int); ("tx_type", c_int);
  ("rx_filter", c_int); ("ifr", CPtr); ("copied_to_user", bool_); ("source",
  hwtstamp_source__Type); ("qualifier", hwtstamp_provider_qualifier__Type)].

Definition kernel_param__bindgen_ty_1 : ctype := CUnion 1 [("arg", CPtr); ("str_", CPtr);
  ("arr", CPtr)].

Definition kernel_param : ctype := CStruct 1 [("name", CPtr); ("mod_", CPtr); ("ops", CPtr);
  ("perm", u16_); ("level", s8); ("flags", u8_); ("__bindgen_anon_1",
  kernel_param__bindgen_ty_1)].

Definition kernel_param_ops : ctype := CStruct 1 [("flags", c_uint); ("set", CPtr); ("get",
  CPtr); ("free", CPtr)].

Definition kernel_pkey_query : ctype := CStruct 1 [("supported_ops", __u32); ("key_size",
  __u32); ("max_data_size", __u16); ("max_sig_size", __u16); ("max_enc_size", __u16);
  ("max_dec_size", __u16)].

Definition kernel_symbol : ctype := CStruct 1 [("value_offset", c_int); ("name_offset", c_int);
  ("namespace_offset", c_int)].

Definition kernfs_elem_attr : ctype := CStruct 1 [("ops", CPtr); ("open", CPtr); ("size",
  loff_t); ("notify_next", CPtr)].

Definition kernfs_elem_dir : ctype := CStruct 1 [("subdirs", c_ulong); ("children", rb_root);
  ("root", CPtr); ("rev", c_ulong)].

Definition kernfs_elem_symlink : ctype := CStruct 1 [("target_kn", CPtr)].

Definition simple_xattrs : ctype := CStruct 1 [("rb_root", rb_root); ("lock", rwlock_t)].

Definition kernfs_iattrs : ctype := CStruct 1 [("ia_uid", kuid_t); ("ia_gid", kgid_t);
  ("ia_atime", timespec64); ("ia_mtime", timespec64); ("ia_ctime", timespec64); ("xattrs",
  simple_xattrs); ("nr_user_xattrs", atomic_t); ("user_xattr_size", atomic_t)].

Definition kernfs_node__bindgen_ty_1 : ctype := CUnion 1 [("dir", kernfs_elem_dir); ("symlink",
  kernfs_elem_symlink); ("attr", kernfs_elem_attr)].

Definition kernfs_node : ctype := CStruct 1 [("count", atomic_t); ("active", atomic_t);
  ("__parent", CPtr); ("name", CPtr); ("rb", rb_node); ("ns", CPtr); ("hash", c_uint); ("flags",
  c_ushort); ("mode", umode_t); ("__bindgen_anon_1", kernfs_node__bindgen_ty_1); ("id", u64_);
  ("priv_", CPtr); ("iattr", CPtr); ("rcu", callback_head)].

Definition kernfs_open_node : ctype := CStruct 1 [("callback_head", callback_head); ("event",
  atomic_t); ("poll", wait_queue_head_t); ("files", list_head); ("nr_mmapped", c_uint);
  ("nr_to_release", c_uint)].

Definition kernfs_ops : ctype := CStruct 1 [("open", CPtr); ("release", CPtr); ("seq_show",
  CPtr); ("seq_start", CPtr); ("seq_next", CPtr); ("seq_stop", CPtr); ("read", CPtr);
  ("atomic_write_len", CU64); ("prealloc", bool_); ("write", CPtr); ("poll", CPtr); ("mmap",
  CPtr); ("llseek", CPtr)].

Definition kernfs_root : ctype := CStruct 1 [("kn", CPtr); ("flags", c_uint); ("ino_idr", idr);
  ("kernfs_idr_lock", spinlock_t); ("last_id_lowbits", u32_); ("id_highbits", u32_);
  ("syscall_ops", CPtr); ("supers", list_head); ("deactivate_waitq", wait_queue_head_t);
  ("kernfs_rwsem", rw_semaphore); ("kernfs_iattr_rwsem", rw_semaphore); ("kernfs_supers_rwsem",
  rw_semaphore); ("kernfs_rename_lock", rwlock_t); ("rcu", callback_head)].

Definition kernfs_syscall_ops : ctype := CStruct 1 [("show_options", CPtr); ("mkdir", CPtr);
  ("rmdir", CPtr); ("rename", CPtr); ("show_path", CPtr)].

Definition keyring_index_key__bindgen_ty_1__bindgen_ty_1 : ctype := CStruct 1 [("desc_len",
  u16_); ("desc", CArray 6 c_char)].

Definition keyring_index_key__bindgen_ty_1 : ctype := CUnion 1 [("__bindgen_anon_1",
  keyring_index_key__bindgen_ty_1__bindgen_ty_1); ("x", c_ulong)].

Definition keyring_index_key : ctype := CStruct 1 [("hash", c_ulong); ("__bindgen_anon_1",
  keyring_index_key__bindgen_ty_1); ("type_", CPtr); ("domain_tag", CPtr); ("description",
  CPtr)].

Definition key_payload : ctype := CUnion 1 [("rcu_data0", CPtr); ("data", CArray 4 CPtr)].

Definition key__bindgen_ty_1 : ctype := CUnion 1 [("graveyard_link", list_head); ("serial_node",
  rb_node)].

Definition key__bindgen_ty_2 : ctype := CUnion 1 [("expiry", time64_t); ("revoked_at",
  time64_t)].

Definition key_perm_t : ctype := CU32.

Definition key__bindgen_ty_3__bindgen_ty_1 : ctype := CStruct 1 [("hash", c_ulong); ("len_desc",
  c_ulong); ("type_", CPtr); ("domain_tag", CPtr); ("description", CPtr)].

Definition key__bindgen_ty_3 : ctype := CUnion 1 [("index_key", keyring_index_key);
  ("__bindgen_anon_1", key__bindgen_ty_3__bindgen_ty_1)].

Definition key__bindgen_ty_4__bindgen_ty_1 : ctype := CStruct 1 [("name_link", list_head);
  ("keys", assoc_array)].

Definition key__bindgen_ty_4 : ctype := CUnion 1 [("payload", key_payload); ("__bindgen_anon_1",
  key__bindgen_ty_4__bindgen_ty_1)].

Definition key : ctype := CStruct 1 [("usage", refcount_t); ("serial", key_serial_t);
  ("__bindgen_anon_1", key__bindgen_ty_1); ("watchers", CPtr); ("sem", rw_semaphore); ("user",
  CPtr); ("security", CPtr); ("__bindgen_anon_2", key__bindgen_ty_2); ("last_used_at",
  time64_t); ("uid", kuid_t); ("gid", kgid_t); ("perm", key_perm_t); ("quotalen", c_ushort);
  ("datalen", c_ushort); ("state", c_short); ("flags", c_ulong); ("__bindgen_anon_3",
  key__bindgen_ty_3); ("__bindgen_anon_4", key__bindgen_ty_4); ("restrict_link", CPtr)].

Definition key_match_data : ctype := CStruct 1 [("cmp", CPtr); ("raw_data", CPtr); ("preparsed",
  CPtr); ("lookup_type", c_uint)].

Definition key_params : ctype := CStruct 1 [("key", CPtr); ("seq", CPtr); ("key_len", c_int);
  ("seq_len", c_int); ("vlan_id", u16_); ("cipher", u32_); ("mode", nl80211_key_mode__Type)].

Definition key_preparsed_payload : ctype := CStruct 1 [("orig_description", CPtr);
  ("description", CPtr); ("payload", key_payload); ("data", CPtr); ("datalen", CU64);
  ("quotalen", CU64); ("expiry", time64_t)].

Definition key_restrict_link_func_t : ctype := CPtr.

Definition key_restriction : ctype := CStruct 1 [("check", key_restrict_link_func_t); ("key",
  CPtr); ("keytype", CPtr)].

Definition key_tag : ctype := CStruct 1 [("rcu", callback_head); ("usage", refcount_t);
  ("removed", bool_)].

Definition request_key_actor_t : ctype := CPtr.

Definition key_type : ctype := CStruct 1 [("name", CPtr); ("def_datalen", CU64); ("flags",
  c_uint); ("vet_description", CPtr); ("preparse", CPtr); ("free_preparse", CPtr);
  ("instantiate", CPtr); ("update", CPtr); ("match_preparse", CPtr); ("match_free", CPtr);
  ("revoke", CPtr); ("destroy", CPtr); ("describe", CPtr); ("read", CPtr); ("request_key",
  request_key_actor_t); ("lookup_restriction", CPtr); ("asym_query", CPtr); ("asym_eds_op",
  CPtr); ("asym_verify_signature", CPtr); ("link", list_head); ("lock_class", lock_class_key)].

Definition key_user : ctype := CStruct 1 [("node", rb_node); ("cons_lock", mutex); ("lock",
  spinlock_t); ("usage", refcount_t); ("nkeys", atomic_t); ("nikeys", atomic_t); ("uid",
  kuid_t); ("qnkeys", c_int); ("qnbytes", c_int)].

Definition kioctx_cpu : ctype := CStruct 1 [("reqs_available", c_uint)].

Definition kioctx_table : ctype := CStruct 1 [("rcu", callback_head); ("nr", c_uint); ("table",
  __IncompleteArrayField CPtr)].

Definition reciprocal_value : ctype := CStruct 1 [("m", u32_); ("sh1", u8_); ("sh2", u8_)].

Definition kmem_cache_order_objects : ctype := CStruct 1 [("x", c_uint)].

Definition slab_flags_t : ctype := c_uint.

Definition kmem_cache : ctype := CStruct 1 [("cpu_sheaves", CPtr); ("flags", slab_flags_t);
  ("min_partial", c_ulong); ("size", c_uint); ("object_size", c_uint); ("reciprocal_size",
  reciprocal_value); ("offset", c_uint); ("sheaf_capacity", c_uint); ("oo",
  kmem_cache_order_objects); ("min", kmem_cache_order_objects); ("allocflags", gfp_t);
  ("refcount", c_int); ("ctor", CPtr); ("inuse", c_uint); ("align", c_uint); ("red_left_pad",
  c_uint); ("name", CPtr); ("list", list_head); ("kobj", kobject); ("random", c_ulong);
  ("remote_node_defrag_ratio", c_uint); ("random_seq", CPtr); ("useroffset", c_uint);
  ("usersize", c_uint); ("node", CArray 1024 CPtr)].

Definition kmem_cache_node : ctype := CStruct 1 [("list_lock", spinlock_t); ("nr_partial",
  c_ulong); ("partial", list_head); ("nr_slabs", atomic_long_t); ("total_objects",
  atomic_long_t); ("full", list_head); ("barn", CPtr)].

Definition kobj_ns_type_operations : ctype := CStruct 1 [("type_", kobj_ns_type__Type);
  ("current_may_mount", CPtr); ("grab_current_ns", CPtr); ("netlink_ns", CPtr); ("initial_ns",
  CPtr); ("drop_ns", CPtr)].

Definition kobj_uevent_env : ctype := CStruct 1 [("argv", CArray 3 CPtr); ("envp", CArray 64
  CPtr); ("envp_idx", c_int); ("buf", CArray 2048 c_char); ("buflen", c_int)].

Definition kparam_array : ctype := CStruct 1 [("max", c_uint); ("elemsize", c_uint); ("num",
  CPtr); ("ops", CPtr); ("elem", CPtr)].

Definition kparam_string : ctype := CStruct 1 [("maxlen", c_uint); ("string", CPtr)].

Definition kset : ctype := CStruct 1 [("list", list_head); ("list_lock", spinlock_t); ("kobj",
  kobject); ("uevent_ops", CPtr)].

Definition kset_uevent_ops : ctype := CStruct 1 [("filter", CPtr); ("name", CPtr); ("uevent",
  CPtr)].

Definition kstat : ctype := CStruct 1 [("result_mask", u32_); ("mode", umode_t); ("nlink",
  c_uint); ("blksize", CU32); ("attributes", u64_); ("attributes_mask", u64_); ("ino", u64_);
  ("dev", dev_t); ("rdev", dev_t); ("uid", kuid_t); ("gid", kgid_t); ("size", loff_t); ("atime",
  timespec64); ("mtime", timespec64); ("ctime", timespec64); ("btime", timespec64); ("blocks",
  u64_); ("mnt_id", u64_); ("change_cookie", u64_); ("subvol", u64_); ("dio_mem_align", u32_);
  ("dio_offset_align", u32_); ("dio_read_offset_align", u32_); ("atomic_write_unit_min", u32_);
  ("atomic_write_unit_max", u32_); ("atomic_write_unit_max_opt", u32_);
  ("atomic_write_segments_max", u32_)].

Definition kstatfs : ctype := CStruct 1 [("f_type", c_long); ("f_bsize", c_long); ("f_blocks",
  u64_); ("f_bfree", u64_); ("f_bavail", u64_); ("f_files", u64_); ("f_ffree", u64_); ("f_fsid",
  __kernel_fsid_t); ("f_namelen", c_long); ("f_frsize", c_long); ("f_flags", c_long);
  ("f_spare", CArray 4 c_long)].

Definition seq_file : ctype := CStruct 1 [("buf", CPtr); ("size", CU64); ("from", CU64);
  ("count", CU64); ("pad_until", CU64); ("index", loff_t); ("read_pos", loff_t); ("lock",
  mutex); ("op", CPtr); ("poll_event", c_int); ("file", CPtr); ("private", CPtr)].

Definition tcflag_t : ctype := c_uint.

Definition cc_t : ctype := c_uchar.

Definition speed_t : ctype := c_uint.

Definition ktermios : ctype := CStruct 1 [("c_iflag", tcflag_t); ("c_oflag", tcflag_t);
  ("c_cflag", tcflag_t); ("c_lflag", tcflag_t); ("c_line", cc_t); ("c_cc", CArray 19 cc_t);
  ("c_ispeed", speed_t); ("c_ospeed", speed_t)].

Definition kthread_worker : ctype := CStruct 1 [("flags", c_uint); ("lock", raw_spinlock_t);
  ("work_list", list_head); ("delayed_work_list", list_head); ("task", CPtr); ("current_work",
  CPtr)].

Definition l3mdev_ops : ctype := CStruct 1 [("l3mdev_fib_table", CPtr); ("l3mdev_l3_rcv", CPtr);
  ("l3mdev_l3_out", CPtr); ("l3mdev_link_scope_lookup", CPtr)].

Definition ld_semaphore : ctype := CStruct 1 [("count", atomic_long_t); ("wait_lock",
  raw_spinlock_t); ("wait_readers", c_uint); ("read_wait", list_head); ("write_wait",
  list_head)].

Definition ldt_struct : ctype := CStruct 1 [("entries", CPtr); ("nr_entries", c_uint); ("slot",
  c_int)].

Definition lease_manager_operations : ctype := CStruct 1 [("lm_break", CPtr); ("lm_change",
  CPtr); ("lm_setup", CPtr); ("lm_breaker_owns_lease", CPtr); ("lm_open_conflict", CPtr)].

Definition linear_range : ctype := CStruct 1 [("min", c_uint); ("min_sel", c_uint); ("max_sel",
  c_uint); ("step", c_uint)].

Definition linux_binfmt : ctype := CStruct 1 [("lh", list_head); ("module", CPtr);
  ("load_binary", CPtr); ("core_dump", CPtr); ("min_coredump", c_ulong)].

Definition linux_mib : ctype := CStruct 1 [("mibs", CArray 136 c_ulong)].

Definition linux_tls_mib : ctype := CStruct 1 [("mibs", CArray 18 c_ulong)].

Definition linux_xfrm_mib : ctype := CStruct 1 [("mibs", CArray 33 c_ulong)].

Definition local_trylock : ctype := CStruct 1 [("acquired", u8_)].

Definition lock_manager_operations : ctype := CStruct 1 [("lm_mod_owner", CPtr);
  ("lm_get_owner", CPtr); ("lm_put_owner", CPtr); ("lm_notify", CPtr); ("lm_grant", CPtr);
  ("lm_lock_expirable", CPtr); ("lm_expire_lock", CPtr)].

Definition lower_chunk : ctype := CUnion 1 [("next", CPtr); ("data", CArray 256 c_ulong)].

Definition lru_gen_mm_list : ctype := CStruct 1 [("fifo", list_head); ("lock", spinlock_t)].

Definition lruvec_stats : ctype := CStruct 1 [("state", CArray 33 c_long); ("state_local",
  CArray 33 c_long); ("state_pending", CArray 33 c_long)].

Definition lruvec_stats_percpu : ctype := CStruct 1 [("state", CArray 33 c_long); ("state_prev",
  CArray 33 c_long)].

Definition lwq : ctype := CStruct 1 [("lock", spinlock_t); ("ready", CPtr); ("new",
  llist_head)].

Definition lwq_node : ctype := CStruct 1 [("node", llist_node)].

Definition lwtunnel_state : ctype := CStruct 1 [("type_", __u16); ("flags", __u16); ("headroom",
  __u16); ("refcnt", atomic_t); ("orig_output", CPtr); ("orig_input", CPtr); ("rcu",
  callback_head); ("data", __IncompleteArrayField __u8)].

Definition mac_address : ctype := CStruct 1 [("addr", CArray 6 u8_)].

Definition macsec_context__bindgen_ty_1 : ctype := CUnion 1 [("netdev", CPtr); ("phydev",
  CPtr)].

Definition macsec_context__bindgen_ty_2__bindgen_ty_1 : ctype := CUnion 1 [("rx_sa", CPtr);
  ("tx_sa", CPtr)].

Definition macsec_context__bindgen_ty_2 : ctype := CStruct 1 [("update_pn", bool_);
  ("assoc_num", c_uchar); ("key", CArray 128 u8_); ("__bindgen_anon_1",
  macsec_context__bindgen_ty_2__bindgen_ty_1)].

Definition macsec_context__bindgen_ty_3 : ctype := CUnion 1 [("tx_sc_stats", CPtr);
  ("tx_sa_stats", CPtr); ("rx_sc_stats", CPtr); ("rx_sa_stats", CPtr); ("dev_stats", CPtr)].

Definition macsec_context : ctype := CStruct 1 [("__bindgen_anon_1",
  macsec_context__bindgen_ty_1); ("offload", macsec_offload__Type); ("secy", CPtr); ("rx_sc",
  CPtr); ("sa", macsec_context__bindgen_ty_2); ("stats", macsec_context__bindgen_ty_3)].

Definition macsec_dev_stats : ctype := CStruct 1 [("OutPktsUntagged", __u64); ("InPktsUntagged",
  __u64); ("OutPktsTooLong", __u64); ("InPktsNoTag", __u64); ("InPktsBadTag", __u64);
  ("InPktsUnknownSCI", __u64); ("InPktsNoSCI", __u64); ("InPktsOverrun", __u64)].

Definition sci_t : ctype := u64_.

Definition macsec_info : ctype := CStruct 1 [("sci", sci_t)].

Definition ssci_t : ctype := u32_.

Definition salt__bindgen_ty_1 : ctype := CPacked [("ssci", ssci_t); ("pn", __be64)].

Definition salt : ctype := CUnion 1 [("__bindgen_anon_1", salt__bindgen_ty_1); ("bytes", CArray
  12 u8_)].

Definition salt_t : ctype := salt.

Definition macsec_key : ctype := CStruct 1 [("id", CArray 16 u8_); ("tfm", CPtr); ("salt",
  salt_t)].

Definition macsec_ops : ctype := CStruct 1 [("mdo_dev_open", CPtr); ("mdo_dev_stop", CPtr);
  ("mdo_add_secy", CPtr); ("mdo_upd_secy", CPtr); ("mdo_del_secy", CPtr); ("mdo_add_rxsc",
  CPtr); ("mdo_upd_rxsc", CPtr); ("mdo_del_rxsc", CPtr); ("mdo_add_rxsa", CPtr);
  ("mdo_upd_rxsa", CPtr); ("mdo_del_rxsa", CPtr); ("mdo_add_txsa", CPtr); ("mdo_upd_txsa",
  CPtr); ("mdo_del_txsa", CPtr); ("mdo_get_dev_stats", CPtr); ("mdo_get_tx_sc_stats", CPtr);
  ("mdo_get_tx_sa_stats", CPtr); ("mdo_get_rx_sc_stats", CPtr); ("mdo_get_rx_sa_stats", CPtr);
  ("mdo_insert_tx_tag", CPtr); ("needed_headroom", c_uint); ("needed_tailroom", c_uint);
  ("rx_uses_md_dst", bool_)].

Definition pn__bindgen_ty_1 : ctype := CStruct 1 [("lower", u32_); ("upper", u32_)].

Definition pn : ctype := CUnion 1 [("__bindgen_anon_1", pn__bindgen_ty_1); ("full64", u64_)].

Definition pn_t : ctype := pn.

Definition macsec_rx_sa__bindgen_ty_1 : ctype := CUnion 1 [("next_pn_halves", pn_t); ("next_pn",
  u64_)].

Definition macsec_rx_sa : ctype := CStruct 1 [("key", macsec_key); ("ssci", ssci_t); ("lock",
  spinlock_t); ("__bindgen_anon_1", macsec_rx_sa__bindgen_ty_1); ("refcnt", refcount_t);
  ("active", bool_); ("stats", CPtr); ("sc", CPtr); ("rcu", callback_head)].

Definition macsec_rx_sa_stats : ctype := CStruct 1 [("InPktsOK", __u32); ("InPktsInvalid",
  __u32); ("InPktsNotValid", __u32); ("InPktsNotUsingSA", __u32); ("InPktsUnusedSA", __u32)].

Definition macsec_rx_sc : ctype := CStruct 1 [("next", CPtr); ("sci", sci_t); ("active", bool_);
  ("sa", CArray 4 CPtr); ("stats", CPtr); ("refcnt", refcount_t); ("callback_head",
  callback_head)].

Definition macsec_rx_sc_stats : ctype := CStruct 1 [("InOctetsValidated", __u64);
  ("InOctetsDecrypted", __u64); ("InPktsUnchecked", __u64); ("InPktsDelayed", __u64);
  ("InPktsOK", __u64); ("InPktsInvalid", __u64); ("InPktsLate", __u64); ("InPktsNotValid",
  __u64); ("InPktsNotUsingSA", __u64); ("InPktsUnusedSA", __u64)].

Definition macsec_tx_sc : ctype := CStruct 1 [("active", bool_); ("encoding_sa", u8_);
  ("encrypt", bool_); ("send_sci", bool_); ("end_station", bool_); ("scb", bool_); ("sa", CArray
  4 CPtr); ("stats", CPtr); ("md_dst", CPtr)].

Definition macsec_secy : ctype := CStruct 1 [("netdev", CPtr); ("n_rx_sc", c_uint); ("sci",
  sci_t); ("key_len", u16_); ("icv_len", u16_); ("validate_frames",
  macsec_validation_type__Type); ("xpn", bool_); ("operational", bool_); ("protect_frames",
  bool_); ("replay_protect", bool_); ("replay_window", u32_); ("tx_sc", macsec_tx_sc); ("rx_sc",
  CPtr)].

Definition macsec_tx_sa__bindgen_ty_1 : ctype := CUnion 1 [("next_pn_halves", pn_t); ("next_pn",
  u64_)].

Definition macsec_tx_sa : ctype := CStruct 1 [("key", macsec_key); ("ssci", ssci_t); ("lock",
  spinlock_t); ("__bindgen_anon_1", macsec_tx_sa__bindgen_ty_1); ("refcnt", refcount_t);
  ("active", bool_); ("stats", CPtr); ("rcu", callback_head)].

Definition macsec_tx_sa_stats : ctype := CStruct 1 [("OutPktsProtected", __u32);
  ("OutPktsEncrypted", __u32)].

Definition macsec_tx_sc_stats : ctype := CStruct 1 [("OutPktsProtected", __u64);
  ("OutPktsEncrypted", __u64); ("OutOctetsProtected", __u64); ("OutOctetsEncrypted", __u64)].

Definition mctp_dev : ctype := CStruct 1 [("dev", CPtr); ("refs", refcount_t); ("net", c_uint);
  ("binding", mctp_phys_binding__Type); ("ops", CPtr); ("addrs", CPtr); ("num_addrs", CU64);
  ("addrs_lock", spinlock_t); ("rcu", callback_head)].

Definition mctp_netdev_ops : ctype := CStruct 1 [("release_flow", CPtr)].

Definition mctp_eid_t : ctype := __u8.

Definition mctp_sk_key : ctype := CStruct 1 [("net", c_uint); ("peer_addr", mctp_eid_t);
  ("local_addr", mctp_eid_t); ("tag", __u8); ("sk", CPtr); ("hlist", hlist_node); ("sklist",
  hlist_node); ("lock", spinlock_t); ("refs", refcount_t); ("reasm_head", CPtr); ("reasm_tailp",
  CPtr); ("reasm_dead", bool_); ("last_seq", u8_); ("valid", bool_); ("expiry", c_ulong);
  ("dev_flow_state", c_ulong); ("dev", CPtr); ("manual_alloc", bool_)].

Definition mdio_bus_stats : ctype := CStruct 1 [("transfers", u64_stats_t); ("errors",
  u64_stats_t); ("writes", u64_stats_t); ("reads", u64_stats_t); ("syncp", u64_stats_sync)].

Definition mdio_driver_common : ctype := CStruct 1 [("driver", device_driver); ("flags",
  c_int)].

Definition mem_cgroup_private_id : ctype := CStruct 1 [("id", c_int); ("ref_", refcount_t)].

Definition vmpressure : ctype := CStruct 1 [("scanned", c_ulong); ("reclaimed", c_ulong);
  ("tree_scanned", c_ulong); ("tree_reclaimed", c_ulong); ("sr_lock", spinlock_t); ("events",
  list_head); ("events_lock", mutex); ("work", work_struct)].

Definition wb_domain : ctype := CStruct 1 [("lock", spinlock_t); ("completions", fprop_global);
  ("period_timer", timer_list); ("period_time", c_ulong); ("dirty_limit_tstamp", c_ulong);
  ("dirty_limit", c_ulong)].

Definition wb_completion : ctype := CStruct 1 [("cnt", atomic_t); ("waitq", CPtr);
  ("progress_stamp", c_ulong); ("wait_start", c_ulong)].

Definition memcg_cgwb_frn : ctype := CStruct 1 [("bdi_id", u64_); ("memcg_id", c_int); ("at",
  u64_); ("done", wb_completion)].

Definition mem_cgroup__bindgen_ty_1 : ctype := CStruct 1 [("swap", __BindgenUnionField
  page_counter); ("memsw", __BindgenUnionField page_counter); ("bindgen_union_field", CArray 24
  CU64)].

Definition mem_cgroup : ctype := CStruct 1 [("css", cgroup_subsys_state); ("id",
  mem_cgroup_private_id); ("_bitfield_align_1", CArray 0 CU8); ("_bitfield_1",
  __BindgenBitfieldUnit 40); ("memory", page_counter); ("__bindgen_anon_1",
  mem_cgroup__bindgen_ty_1); ("memory_peaks", list_head); ("swap_peaks", list_head);
  ("peaks_lock", spinlock_t); ("high_work", work_struct); ("zswap_max", c_ulong);
  ("zswap_writeback", bool_); ("vmpressure", vmpressure); ("oom_group", bool_); ("swappiness",
  c_int); ("events_file", cgroup_file); ("events_local_file", cgroup_file); ("swap_events_file",
  cgroup_file); ("vmstats", CPtr); ("memory_events", CArray 10 atomic_long_t);
  ("memory_events_local", CArray 10 atomic_long_t); ("socket_pressure", u64_); ("kmemcg_id",
  c_int); ("objcg", CPtr); ("orig_objcg", CPtr); ("objcg_list", list_head); ("vmstats_percpu",
  CPtr); ("cgwb_list", list_head); ("cgwb_domain", wb_domain); ("cgwb_frn", CArray 4
  memcg_cgwb_frn); ("deferred_split_queue", deferred_split); ("mm_list", lru_gen_mm_list);
  ("nodeinfo", __IncompleteArrayField CPtr)].

Definition memcg_vmstats : ctype := CStruct 1 [("state", CArray 40 c_long); ("events", CArray 29
  c_ulong); ("state_local", CArray 40 c_long); ("events_local", CArray 29 c_ulong);
  ("state_pending", CArray 40 c_long); ("events_pending", CArray 29 c_ulong); ("stats_updates",
  atomic_t)].

Definition memory_provider_ops : ctype := CStruct 1 [("alloc_netmems", CPtr); ("release_netmem",
  CPtr); ("init", CPtr); ("destroy", CPtr); ("nl_fill", CPtr); ("uninstall", CPtr)].

Definition memory_tier : ctype := CStruct 1 [("list", list_head); ("memory_types", list_head);
  ("adistance_start", c_int); ("dev", device); ("lower_tier_mask", nodemask_t)].

Definition mempolicy__bindgen_ty_1 : ctype := CUnion 1 [("cpuset_mems_allowed", nodemask_t);
  ("user_nodemask", nodemask_t)].

Definition mempolicy : ctype := CStruct 1 [("refcnt", atomic_t); ("mode", c_ushort); ("flags",
  c_ushort); ("nodes", nodemask_t); ("home_node", c_int); ("w", mempolicy__bindgen_ty_1);
  ("rcu", callback_head)].

Definition xfrm_md_info : ctype := CStruct 1 [("if_id", u32_); ("link", c_int); ("dst_orig",
  CPtr)].

Definition metadata_dst__bindgen_ty_1 : ctype := CStruct 1 [("tun_info", __BindgenUnionField
  ip_tunnel_info); ("port_info", __BindgenUnionField hw_port_info); ("macsec_info",
  __BindgenUnionField macsec_info); ("xfrm_info", __BindgenUnionField xfrm_md_info);
  ("bindgen_union_field", CArray 12 CU64)].

Definition metadata_dst : ctype := CStruct 1 [("dst", dst_entry); ("type_",
  metadata_type__Type); ("u", metadata_dst__bindgen_ty_1)].

Definition phy_package_shared : ctype := CStruct 1 [("_unused", CArray 0 CU8)].

Definition mii_bus : ctype := CStruct 1 [("owner", CPtr); ("name", CPtr); ("id", CArray 61
  c_char); ("priv_", CPtr); ("read", CPtr); ("write", CPtr); ("read_c45", CPtr); ("write_c45",
  CPtr); ("reset", CPtr); ("stats", CArray 32 mdio_bus_stats); ("mdio_lock", mutex); ("parent",
  CPtr); ("state", mii_bus__bindgen_ty_1__Type); ("dev", device); ("mdio_map", CArray 32 CPtr);
  ("phy_mask", u32_); ("phy_ignore_ta_mask", u32_); ("irq", CArray 32 c_int); ("reset_delay_us",
  c_int); ("reset_post_delay_us", c_int); ("reset_gpiod", CPtr); ("shared_lock", mutex);
  ("shared", CArray 32 CPtr)].

Definition mii_timestamper : ctype := CStruct 1 [("rxtstamp", CPtr); ("txtstamp", CPtr);
  ("hwtstamp_set", CPtr); ("hwtstamp_get", CPtr); ("link_state", CPtr); ("ts_info", CPtr);
  ("device", CPtr)].

Definition mm_cid_pcpu : ctype := CStruct 1 [("cid", c_uint); ("_bitfield_align_1", CArray 0
  CU8); ("_bitfield_1", __BindgenBitfieldUnit 56); ("__bindgen_padding_0", CU32)].

Definition mm_struct : ctype := CStruct 1 [("__bindgen_anon_1", mm_struct__bindgen_ty_1);
  ("flexible_array", __IncompleteArrayField c_char)].

Definition mmu_notifier_subscriptions : ctype := CStruct 1 [("list", hlist_head); ("has_itree",
  bool_); ("lock", spinlock_t); ("invalidate_seq", c_ulong); ("active_invalidate_ranges",
  c_ulong); ("itree", rb_root_cached); ("wq", wait_queue_head_t); ("deferred_list",
  hlist_head)].

Definition mnt_idmap : ctype := CStruct 1 [("uid_map", uid_gid_map); ("gid_map", uid_gid_map);
  ("count", refcount_t)].

Definition mnt_pcp : ctype := CStruct 1 [("mnt_count", c_int); ("mnt_writers", c_int)].

Definition module_attribute : ctype := CStruct 1 [("attr", attribute); ("show", CPtr); ("store",
  CPtr); ("setup", CPtr); ("test", CPtr); ("free", CPtr)].

Definition module_notes_attrs : ctype := CStruct 1 [("grp", attribute_group); ("attrs",
  __IncompleteArrayField bin_attribute)].

Definition param_attribute : ctype := CStruct 1 [("mattr", module_attribute); ("param", CPtr)].

Definition module_param_attrs : ctype := CStruct 1 [("num", c_uint); ("grp", attribute_group);
  ("attrs", __IncompleteArrayField param_attribute)].

Definition module_sect_attrs : ctype := CStruct 1 [("grp", attribute_group); ("attrs",
  __IncompleteArrayField bin_attribute)].

Definition vfsmount : ctype := CStruct 1 [("mnt_root", CPtr); ("mnt_sb", CPtr); ("mnt_flags",
  c_int); ("mnt_idmap", CPtr)].

Definition mount__bindgen_ty_1 : ctype := CUnion 1 [("mnt_node", rb_node); ("mnt_rcu",
  callback_head); ("mnt_llist", llist_node)].

Definition mount__bindgen_ty_2 : ctype := CUnion 1 [("mnt_mp_list", hlist_node); ("mnt_umount",
  hlist_node)].

Definition mount : ctype := CStruct 1 [("mnt_hash", hlist_node); ("mnt_parent", CPtr);
  ("mnt_mountpoint", CPtr); ("mnt", vfsmount); ("__bindgen_anon_1", mount__bindgen_ty_1);
  ("mnt_pcp", CPtr); ("mnt_mounts", list_head); ("mnt_child", list_head); ("mnt_next_for_sb",
  CPtr); ("mnt_pprev_for_sb", CPtr); ("mnt_devname", CPtr); ("mnt_list", list_head);
  ("mnt_expire", list_head); ("mnt_share", list_head); ("mnt_slave_list", hlist_head);
  ("mnt_slave", hlist_node); ("mnt_master", CPtr); ("mnt_ns", CPtr); ("mnt_mp", CPtr);
  ("__bindgen_anon_2", mount__bindgen_ty_2); ("mnt_fsnotify_marks", CPtr); ("mnt_fsnotify_mask",
  __u32); ("to_notify", list_head); ("prev_ns", CPtr); ("mnt_t_flags", c_int); ("mnt_id",
  c_int); ("mnt_id_unique", u64_); ("mnt_group_id", c_int); ("mnt_expiry_mark", c_int);
  ("mnt_pins", hlist_head); ("mnt_stuck_children", hlist_head); ("overmount", CPtr)].

Definition mountpoint : ctype := CStruct 1 [("m_hash", hlist_node); ("m_dentry", CPtr);
  ("m_list", hlist_head)].

Definition mptcp_mib : ctype := CStruct 1 [("mibs", CArray 77 c_ulong)].

Definition phy_mse_capability : ctype := CStruct 1 [("max_average_mse", u64_); ("max_peak_mse",
  u64_); ("refresh_rate_ps", u64_); ("num_symbols", u64_); ("supported_caps", u32_)].

Definition phy_mse_snapshot : ctype := CStruct 1 [("average_mse", u64_); ("peak_mse", u64_);
  ("worst_peak_mse", u64_)].

Definition pci_msi_desc__bindgen_ty_1 : ctype := CUnion 1 [("msi_mask", u32_); ("msix_ctrl",
  u32_)].

Definition pci_msi_desc__bindgen_ty_3 : ctype := CUnion 1 [("mask_pos", u8_); ("mask_base",
  CPtr)].

Definition pci_msi_desc : ctype := CStruct 1 [("__bindgen_anon_1", pci_msi_desc__bindgen_ty_1);
  ("msi_attrib", pci_msi_desc__bindgen_ty_2); ("__bindgen_anon_2", pci_msi_desc__bindgen_ty_3)].

Definition msi_domain_cookie : ctype := CUnion 1 [("value", u64_); ("ptr", CPtr); ("iobase",
  CPtr)].

Definition msi_instance_cookie : ctype := CUnion 1 [("value", u64_); ("ptr", CPtr)].

Definition msi_desc_data : ctype := CStruct 1 [("dcookie", msi_domain_cookie); ("icookie",
  msi_instance_cookie)].

Definition msi_desc__bindgen_ty_1 : ctype := CUnion 1 [("pci", pci_msi_desc); ("data",
  msi_desc_data)].

Definition msi_desc : ctype := CStruct 1 [("irq", c_uint); ("nvec_used", c_uint); ("dev", CPtr);
  ("msg", msi_msg); ("affinity", CPtr); ("sysfs_attrs", CPtr); ("write_msi_msg", CPtr);
  ("write_msi_msg_data", CPtr); ("msi_index", u16_); ("__bindgen_anon_1",
  msi_desc__bindgen_ty_1)].

Definition msi_dev_domain : ctype := CStruct 1 [("store", xarray); ("domain", CPtr)].

Definition msi_device_data : ctype := CStruct 1 [("properties", c_ulong); ("mutex", mutex);
  ("__domains", CArray 1 msi_dev_domain); ("__iter_idx", c_ulong)].

Definition msi_domain_info : ctype := CStruct 1 [("flags", u32_); ("bus_token",
  irq_domain_bus_token__Type); ("hwsize", c_uint); ("ops", CPtr); ("dev", CPtr); ("chip", CPtr);
  ("chip_data", CPtr); ("handler", irq_flow_handler_t); ("handler_data", CPtr); ("handler_name",
  CPtr); ("alloc_data", CPtr); ("data", CPtr)].

Definition msi_domain_ops : ctype := CStruct 1 [("get_hwirq", CPtr); ("msi_init", CPtr);
  ("msi_free", CPtr); ("msi_prepare", CPtr); ("msi_teardown", CPtr); ("prepare_desc", CPtr);
  ("set_desc", CPtr); ("domain_alloc_irqs", CPtr); ("domain_free_irqs", CPtr); ("msi_translate",
  CPtr)].

Definition msi_parent_ops : ctype := CStruct 1 [("supported_flags", u32_); ("required_flags",
  u32_); ("chip_flags", u32_); ("bus_select_token", u32_); ("bus_select_mask", u32_); ("prefix",
  CPtr); ("init_dev_msi_info", CPtr)].

Definition saved : ctype := CStruct 1 [("link", path); ("done", delayed_call); ("name", CPtr);
  ("seq", c_uint)].

Definition nameidata : ctype := CStruct 1 [("path", path); ("last", qstr); ("root", path);
  ("inode", CPtr); ("flags", c_uint); ("state", c_uint); ("seq", c_uint); ("next_seq", c_uint);
  ("m_seq", c_uint); ("r_seq", c_uint); ("last_type", c_int); ("depth", c_uint);
  ("total_link_count", c_int); ("stack", CPtr); ("internal", CArray 2 saved); ("name", CPtr);
  ("pathname", CPtr); ("saved", CPtr); ("root_seq", c_uint); ("dfd", c_int); ("dir_vfsuid",
  vfsuid_t); ("dir_mode", umode_t)].

Definition napi_config : ctype := CStruct 1 [("gro_flush_timeout", u64_);
  ("irq_suspend_timeout", u64_); ("defer_hard_irqs", u32_); ("affinity_mask", cpumask_t);
  ("threaded", u8_); ("napi_id", c_uint)].

Definition nlmsghdr : ctype := CStruct 1 [("nlmsg_len", __u32); ("nlmsg_type", __u16);
  ("nlmsg_flags", __u16); ("nlmsg_seq", __u32); ("nlmsg_pid", __u32)].

Definition nd_opt_hdr : ctype := CStruct 1 [("nd_opt_type", __u8); ("nd_opt_len", __u8)].

Definition ndisc_ops : ctype := CStruct 1 [("parse_options", CPtr); ("update", CPtr);
  ("opt_addr_space", CPtr); ("fill_addr_option", CPtr); ("prefix_rcv_add_addr", CPtr)].

Definition ndisc_options : ctype := CStruct 1 [("nd_opt_array", CArray 15 CPtr); ("nd_opts_ri",
  CPtr); ("nd_opts_ri_end", CPtr); ("nd_useropts", CPtr); ("nd_useropts_end", CPtr);
  ("nd_802154_opt_array", CArray 3 CPtr)].

Definition ndmsg : ctype := CStruct 1 [("ndm_family", __u8); ("ndm_pad1", __u8); ("ndm_pad2",
  __u16); ("ndm_ifindex", __s32); ("ndm_state", __u16); ("ndm_flags", __u8); ("ndm_type",
  __u8)].

Definition neigh_hash_table : ctype := CStruct 1 [("hash_heads", CPtr); ("hash_shift", c_uint);
  ("hash_rnd", CArray 4 __u32); ("rcu", callback_head)].

Definition neigh_ops : ctype := CStruct 1 [("family", c_int); ("solicit", CPtr);
  ("error_report", CPtr); ("output", CPtr); ("connected_output", CPtr)].

Definition neigh_parms : ctype := CStruct 1 [("net", possible_net_t); ("dev", CPtr);
  ("dev_tracker", netdevice_tracker); ("list", list_head); ("neigh_setup", CPtr); ("tbl", CPtr);
  ("sysctl_table", CPtr); ("dead", c_int); ("refcnt", refcount_t); ("callback_head",
  callback_head); ("reachable_time", c_int); ("qlen", u32_); ("data", CArray 14 c_int);
  ("data_state", CArray 1 c_ulong)].

Definition neigh_statistics : ctype := CStruct 1 [("allocs", c_ulong); ("destroys", c_ulong);
  ("hash_grows", c_ulong); ("res_failed", c_ulong); ("lookups", c_ulong); ("hits", c_ulong);
  ("rcv_probes_mcast", c_ulong); ("rcv_probes_ucast", c_ulong); ("periodic_gc_runs", c_ulong);
  ("forced_gc_runs", c_ulong); ("unres_discards", c_ulong); ("table_fulls", c_ulong)].

Definition neigh_table : ctype := CStruct 1 [("family", c_int); ("entry_size", c_uint);
  ("key_len", c_uint); ("protocol", __be16); ("hash", CPtr); ("key_eq", CPtr); ("constructor",
  CPtr); ("pconstructor", CPtr); ("pdestructor", CPtr); ("proxy_redo", CPtr); ("is_multicast",
  CPtr); ("allow_add", CPtr); ("id", CPtr); ("parms", neigh_parms); ("parms_list", list_head);
  ("gc_interval", c_int); ("gc_thresh1", c_int); ("gc_thresh2", c_int); ("gc_thresh3", c_int);
  ("last_flush", c_ulong); ("gc_work", delayed_work); ("managed_work", delayed_work);
  ("proxy_timer", timer_list); ("proxy_queue", sk_buff_head); ("entries", atomic_t);
  ("gc_entries", atomic_t); ("gc_list", list_head); ("managed_list", list_head); ("lock",
  spinlock_t); ("last_rand", c_ulong); ("stats", CPtr); ("nht", CPtr); ("phash_lock", mutex);
  ("phash_buckets", CPtr)].

Definition neighbour : ctype := CStruct 1 [("hash", hlist_node); ("dev_list", hlist_node);
  ("tbl", CPtr); ("parms", CPtr); ("confirmed", c_ulong); ("updated", c_ulong); ("lock",
  rwlock_t); ("refcnt", refcount_t); ("arp_queue_len_bytes", c_uint); ("arp_queue",
  sk_buff_head); ("timer", timer_list); ("used", c_ulong); ("probes", atomic_t); ("nud_state",
  u8_); ("type_", u8_); ("dead", u8_); ("protocol", u8_); ("flags", u32_); ("ha_lock",
  seqlock_t); ("__bindgen_padding_0", CArray 4 CU8); ("ha", CArray 32 c_uchar); ("hh",
  hh_cache); ("output", CPtr); ("ops", CPtr); ("gc_list", list_head); ("managed_list",
  list_head); ("rcu", callback_head); ("dev", CPtr); ("dev_tracker", netdevice_tracker);
  ("primary_key", __IncompleteArrayField u8_)].

Definition sctp_mib : ctype := CStruct 1 [("_unused", CArray 0 CU8)].

Definition netns_ipvs : ctype := CStruct 1 [("_unused", CArray 0 CU8)].

Definition mpls_route : ctype := CStruct 1 [("_unused", CArray 0 CU8)].

Definition can_dev_rcv_lists : ctype := CStruct 1 [("_unused", CArray 0 CU8)].

Definition can_pkg_stats : ctype := CStruct 1 [("_unused", CArray 0 CU8)].

Definition can_rcv_lists_stats : ctype := CStruct 1 [("_unused", CArray 0 CU8)].

Definition smc_stats : ctype := CStruct 1 [("_unused", CArray 0 CU8)].

Definition smc_stats_rsn : ctype := CStruct 1 [("_unused", CArray 0 CU8)].

Definition rt6_info : ctype := CStruct 1 [("dst", dst_entry); ("from", CPtr); ("sernum", c_int);
  ("rt6i_dst", rt6key); ("rt6i_src", rt6key); ("rt6i_gateway", in6_addr); ("rt6i_idev", CPtr);
  ("rt6i_flags", u32_); ("rt6i_nfheader_len", c_ushort)].

Definition tipc_bearer : ctype := CStruct 1 [("_unused", CArray 0 CU8)].

Definition mpls_dev : ctype := CStruct 1 [("_unused", CArray 0 CU8)].

Definition garp_port : ctype := CStruct 1 [("_unused", CArray 0 CU8)].

Definition mrp_port : ctype := CStruct 1 [("_unused", CArray 0 CU8)].

Definition udp_tunnel_nic : ctype := CStruct 1 [("_unused", CArray 0 CU8)].

Definition net_device_core_stats : ctype := CStruct 1 [("rx_dropped", c_ulong); ("tx_dropped",
  c_ulong); ("rx_nohandler", c_ulong); ("rx_otherhost_dropped", c_ulong)].

Definition net_device_ops : ctype := CStruct 1 [("ndo_init", CPtr); ("ndo_uninit", CPtr);
  ("ndo_open", CPtr); ("ndo_stop", CPtr); ("ndo_start_xmit", CPtr); ("ndo_features_check",
  CPtr); ("ndo_select_queue", CPtr); ("ndo_change_rx_flags", CPtr); ("ndo_set_rx_mode", CPtr);
  ("ndo_set_mac_address", CPtr); ("ndo_validate_addr", CPtr); ("ndo_do_ioctl", CPtr);
  ("ndo_eth_ioctl", CPtr); ("ndo_siocbond", CPtr); ("ndo_siocwandev", CPtr);
  ("ndo_siocdevprivate", CPtr); ("ndo_set_config", CPtr); ("ndo_change_mtu", CPtr);
  ("ndo_neigh_setup", CPtr); ("ndo_tx_timeout", CPtr); ("ndo_get_stats64", CPtr);
  ("ndo_has_offload_stats", CPtr); ("ndo_get_offload_stats", CPtr); ("ndo_get_stats", CPtr);
  ("ndo_vlan_rx_add_vid", CPtr); ("ndo_vlan_rx_kill_vid", CPtr); ("ndo_poll_controller", CPtr);
  ("ndo_netpoll_setup", CPtr); ("ndo_netpoll_cleanup", CPtr); ("ndo_set_vf_mac", CPtr);
  ("ndo_set_vf_vlan", CPtr); ("ndo_set_vf_rate", CPtr); ("ndo_set_vf_spoofchk", CPtr);
  ("ndo_set_vf_trust", CPtr); ("ndo_get_vf_config", CPtr); ("ndo_set_vf_link_state", CPtr);
  ("ndo_get_vf_stats", CPtr); ("ndo_set_vf_port", CPtr); ("ndo_get_vf_port", CPtr);
  ("ndo_get_vf_guid", CPtr); ("ndo_set_vf_guid", CPtr); ("ndo_set_vf_rss_query_en", CPtr);
  ("ndo_setup_tc", CPtr); ("ndo_fcoe_enable", CPtr); ("ndo_fcoe_disable", CPtr);
  ("ndo_fcoe_ddp_setup", CPtr); ("ndo_fcoe_ddp_done", CPtr); ("ndo_fcoe_ddp_target", CPtr);
  ("ndo_fcoe_get_hbainfo", CPtr); ("ndo_fcoe_get_wwn", CPtr); ("ndo_rx_flow_steer", CPtr);
  ("ndo_add_slave", CPtr); ("ndo_del_slave", CPtr); ("ndo_get_xmit_slave", CPtr);
  ("ndo_sk_get_lower_dev", CPtr); ("ndo_fix_features", CPtr); ("ndo_set_features", CPtr);
  ("ndo_neigh_construct", CPtr); ("ndo_neigh_destroy", CPtr); ("ndo_fdb_add", CPtr);
  ("ndo_fdb_del", CPtr); ("ndo_fdb_del_bulk", CPtr); ("ndo_fdb_dump", CPtr); ("ndo_fdb_get",
  CPtr); ("ndo_mdb_add", CPtr); ("ndo_mdb_del", CPtr); ("ndo_mdb_del_bulk", CPtr);
  ("ndo_mdb_dump", CPtr); ("ndo_mdb_get", CPtr); ("ndo_bridge_setlink", CPtr);
  ("ndo_bridge_getlink", CPtr); ("ndo_bridge_dellink", CPtr); ("ndo_change_carrier", CPtr);
  ("ndo_get_phys_port_id", CPtr); ("ndo_get_port_parent_id", CPtr); ("ndo_get_phys_port_name",
  CPtr); ("ndo_dfwd_add_station", CPtr); ("ndo_dfwd_del_station", CPtr); ("ndo_set_tx_maxrate",
  CPtr); ("ndo_get_iflink", CPtr); ("ndo_fill_metadata_dst", CPtr); ("ndo_set_rx_headroom",
  CPtr); ("ndo_bpf", CPtr); ("ndo_xdp_xmit", CPtr); ("ndo_xdp_get_xmit_slave", CPtr);
  ("ndo_xsk_wakeup", CPtr); ("ndo_tunnel_ctl", CPtr); ("ndo_get_peer_dev", CPtr);
  ("ndo_fill_forward_path", CPtr); ("ndo_get_tstamp", CPtr); ("ndo_hwtstamp_get", CPtr);
  ("ndo_hwtstamp_set", CPtr); ("net_shaper_ops", CPtr)].

Definition net_device_path__bindgen_ty_1__bindgen_ty_1 : ctype := CStruct 1 [("id", u16_);
  ("proto", __be16); ("h_dest", CArray 6 u8_)].

Definition net_device_path__bindgen_ty_1__bindgen_ty_2__bindgen_ty_1 : ctype := CUnion 1
  [("src_v4", in_addr); ("src_v6", in6_addr)].

Definition net_device_path__bindgen_ty_1__bindgen_ty_2__bindgen_ty_2 : ctype := CUnion 1
  [("dst_v4", in_addr); ("dst_v6", in6_addr)].

Definition net_device_path__bindgen_ty_1__bindgen_ty_2 : ctype := CStruct 1
  [("__bindgen_anon_1", net_device_path__bindgen_ty_1__bindgen_ty_2__bindgen_ty_1);
  ("__bindgen_anon_2", net_device_path__bindgen_ty_1__bindgen_ty_2__bindgen_ty_2); ("l3_proto",
  u8_)].

Definition net_device_path__bindgen_ty_1__bindgen_ty_3 : ctype := CStruct 1 [("vlan_mode",
  net_device_path__bindgen_ty_1__bindgen_ty_3__bindgen_ty_1__Type); ("vlan_id", u16_);
  ("vlan_proto", __be16)].

Definition net_device_path__bindgen_ty_1__bindgen_ty_4 : ctype := CStruct 1 [("port", c_int);
  ("proto", u16_)].

Definition net_device_path__bindgen_ty_1__bindgen_ty_5 : ctype := CStruct 1 [("wdma_idx", u8_);
  ("queue", u8_); ("wcid", u16_); ("bss", u8_); ("amsdu", u8_)].

Definition net_device_path__bindgen_ty_1 : ctype := CUnion 1 [("encap",
  net_device_path__bindgen_ty_1__bindgen_ty_1); ("tun",
  net_device_path__bindgen_ty_1__bindgen_ty_2); ("bridge",
  net_device_path__bindgen_ty_1__bindgen_ty_3); ("dsa",
  net_device_path__bindgen_ty_1__bindgen_ty_4); ("mtk_wdma",
  net_device_path__bindgen_ty_1__bindgen_ty_5)].

Definition net_device_path : ctype := CStruct 1 [("type_", net_device_path_type__Type); ("dev",
  CPtr); ("__bindgen_anon_1", net_device_path__bindgen_ty_1)].

Definition net_device_path_ctx__bindgen_ty_1 : ctype := CStruct 1 [("id", u16_); ("proto",
  __be16)].

Definition net_device_path_ctx : ctype := CStruct 1 [("dev", CPtr); ("daddr", CArray 6 u8_);
  ("num_vlans", c_int); ("vlan", CArray 2 net_device_path_ctx__bindgen_ty_1)].

Definition net_generic__bindgen_ty_1__bindgen_ty_1 : ctype := CStruct 1 [("len", c_uint);
  ("rcu", callback_head)].

Definition net_generic__bindgen_ty_1__bindgen_ty_2__bindgen_ty_1 : ctype := CStruct 1 [].

Definition net_generic__bindgen_ty_1__bindgen_ty_2 : ctype := CStruct 1 [("__empty_ptr",
  net_generic__bindgen_ty_1__bindgen_ty_2__bindgen_ty_1); ("ptr", __IncompleteArrayField CPtr)].

Definition net_generic__bindgen_ty_1 : ctype := CStruct 1 [("s", __BindgenUnionField
  net_generic__bindgen_ty_1__bindgen_ty_1); ("__bindgen_anon_1", __BindgenUnionField
  net_generic__bindgen_ty_1__bindgen_ty_2); ("bindgen_union_field", CArray 3 CU64)].

Definition net_generic : ctype := CStruct 1 [("__bindgen_anon_1", net_generic__bindgen_ty_1)].

Definition net_rate_estimator : ctype := CStruct 1 [("bstats", CPtr); ("stats_lock", CPtr);
  ("running", bool_); ("cpu_bstats", CPtr); ("ewma_log", u8_); ("intvl_log", u8_); ("seq",
  seqcount_t); ("last_packets", u64_); ("last_bytes", u64_); ("avpps", u64_); ("avbps", u64_);
  ("next_jiffies", c_ulong); ("timer", timer_list); ("rcu", callback_head)].

Definition net_shaper_handle : ctype := CStruct 1 [("scope", net_shaper_scope__Type); ("id",
  u32_)].

Definition net_shaper : ctype := CStruct 1 [("parent", net_shaper_handle); ("handle",
  net_shaper_handle); ("metric", net_shaper_metric__Type); ("bw_min", u64_); ("bw_max", u64_);
  ("burst", u64_); ("priority", u32_); ("weight", u32_); ("leaves", u32_); ("rcu",
  callback_head)].

Definition net_shaper_binding__bindgen_ty_1 : ctype := CUnion 1 [("netdev", CPtr); ("devlink",
  CPtr)].

Definition net_shaper_binding : ctype := CStruct 1 [("type_", net_shaper_binding_type__Type);
  ("__bindgen_anon_1", net_shaper_binding__bindgen_ty_1)].

Definition net_shaper_hierarchy : ctype := CStruct 1 [("shapers", xarray)].

Definition net_shaper_ops : ctype := CStruct 1 [("group", CPtr); ("set", CPtr); ("delete",
  CPtr); ("capabilities", CPtr)].

Definition netdev_bpf__bindgen_ty_1__bindgen_ty_1 : ctype := CStruct 1 [("flags", u32_);
  ("prog", CPtr); ("extack", CPtr)].

Definition netdev_bpf__bindgen_ty_1__bindgen_ty_2 : ctype := CStruct 1 [("offmap", CPtr)].

Definition netdev_bpf__bindgen_ty_1__bindgen_ty_3 : ctype := CStruct 1 [("pool", CPtr);
  ("queue_id", u16_)].

Definition netdev_bpf__bindgen_ty_1 : ctype := CUnion 1 [("__bindgen_anon_1",
  netdev_bpf__bindgen_ty_1__bindgen_ty_1); ("__bindgen_anon_2",
  netdev_bpf__bindgen_ty_1__bindgen_ty_2); ("xsk", netdev_bpf__bindgen_ty_1__bindgen_ty_3)].

Definition netdev_bpf : ctype := CStruct 1 [("command", bpf_netdev_command__Type);
  ("__bindgen_anon_1", netdev_bpf__bindgen_ty_1)].

Definition netdev_config : ctype := CStruct 1 [("hds_thresh", u32_); ("hds_config", u8_)].

Definition netdev_fcoe_hbainfo : ctype := CStruct 1 [("manufacturer", CArray 64 c_char);
  ("serial_number", CArray 64 c_char); ("hardware_version", CArray 64 c_char);
  ("driver_version", CArray 64 c_char); ("optionrom_version", CArray 64 c_char);
  ("firmware_version", CArray 64 c_char); ("model", CArray 256 c_char); ("model_description",
  CArray 256 c_char)].

Definition netdev_lag_upper_info : ctype := CStruct 1 [("tx_type", netdev_lag_tx_type__Type);
  ("hash_type", netdev_lag_hash__Type)].

Definition netdev_name_node : ctype := CStruct 1 [("hlist", hlist_node); ("list", list_head);
  ("dev", CPtr); ("name", CPtr); ("rcu", callback_head)].

Definition netdev_notifier_info : ctype := CStruct 1 [("dev", CPtr); ("extack", CPtr)].

Definition netdev_notifier_changeupper_info : ctype := CStruct 1 [("info",
  netdev_notifier_info); ("upper_dev", CPtr); ("master", bool_); ("linking", bool_);
  ("upper_info", CPtr)].

Definition rtnl_hw_stats64 : ctype := CStruct 1 [("rx_packets", __u64); ("tx_packets", __u64);
  ("rx_bytes", __u64); ("tx_bytes", __u64); ("rx_errors", __u64); ("tx_errors", __u64);
  ("rx_dropped", __u64); ("tx_dropped", __u64); ("multicast", __u64)].

Definition netdev_queue_config : ctype := CStruct 1 [("rx_page_size", u32_)].

Definition netdev_queue_mgmt_ops : ctype := CStruct 1 [("ndo_queue_mem_size", CU64);
  ("ndo_queue_mem_alloc", CPtr); ("ndo_queue_mem_free", CPtr); ("ndo_queue_start", CPtr);
  ("ndo_queue_stop", CPtr); ("ndo_default_qcfg", CPtr); ("ndo_validate_qcfg", CPtr);
  ("ndo_queue_get_dma_dev", CPtr); ("supported_params", c_uint)].

Definition netdev_queue_stats_rx : ctype := CStruct 1 [("bytes", u64_); ("packets", u64_);
  ("alloc_fail", u64_); ("hw_drops", u64_); ("hw_drop_overruns", u64_); ("csum_complete", u64_);
  ("csum_unnecessary", u64_); ("csum_none", u64_); ("csum_bad", u64_); ("hw_gro_packets", u64_);
  ("hw_gro_bytes", u64_); ("hw_gro_wire_packets", u64_); ("hw_gro_wire_bytes", u64_);
  ("hw_drop_ratelimits", u64_)].

Definition netdev_queue_stats_tx : ctype := CStruct 1 [("bytes", u64_); ("packets", u64_);
  ("hw_drops", u64_); ("hw_drop_errors", u64_); ("csum_none", u64_); ("needs_csum", u64_);
  ("hw_gso_packets", u64_); ("hw_gso_bytes", u64_); ("hw_gso_wire_packets", u64_);
  ("hw_gso_wire_bytes", u64_); ("hw_drop_ratelimits", u64_); ("stop", u64_); ("wake", u64_)].

Definition pp_memory_provider_params : ctype := CStruct 1 [("mp_priv", CPtr); ("mp_ops", CPtr);
  ("rx_page_size", u32_)].

Definition netdev_rx_queue : ctype := CStruct 1 [("xdp_rxq", xdp_rxq_info); ("rps_map", CPtr);
  ("rps_flow_table", CPtr); ("kobj", kobject); ("groups", CPtr); ("dev", CPtr); ("dev_tracker",
  netdevice_tracker); ("pool", CPtr); ("napi", CPtr); ("qcfg", netdev_queue_config);
  ("mp_params", pp_memory_provider_params); ("_bitfield_align_1", CArray 0 CU8); ("_bitfield_1",
  __BindgenBitfieldUnit 48)].

Definition netdev_stat_ops : ctype := CStruct 1 [("get_queue_stats_rx", CPtr);
  ("get_queue_stats_tx", CPtr); ("get_base_stats", CPtr)].

Definition netlbl_lsm_cache : ctype := CStruct 1 [("refcount", refcount_t); ("free", CPtr);
  ("data", CPtr)].

Definition netlbl_lsm_catmap : ctype := CStruct 1 [("startbit", u32_); ("bitmap", CArray 4
  u64_); ("next", CPtr)].

Definition netlbl_lsm_secattr__bindgen_ty_1__bindgen_ty_1 : ctype := CStruct 1 [("cat", CPtr);
  ("lvl", u32_)].

Definition netlbl_lsm_secattr__bindgen_ty_1 : ctype := CStruct 1 [("mls",
  netlbl_lsm_secattr__bindgen_ty_1__bindgen_ty_1); ("secid", u32_)].

Definition netlbl_lsm_secattr : ctype := CStruct 1 [("flags", u32_); ("type_", u32_); ("domain",
  CPtr); ("cache", CPtr); ("attr", netlbl_lsm_secattr__bindgen_ty_1)].

Definition netlink_callback__bindgen_ty_1 : ctype := CUnion 1 [("ctx", CArray 48 u8_); ("args",
  CArray 6 c_long)].

Definition netlink_callback : ctype := CStruct 1 [("skb", CPtr); ("nlh", CPtr); ("dump", CPtr);
  ("done", CPtr); ("data", CPtr); ("module", CPtr); ("extack", CPtr); ("family", u16_);
  ("answer_flags", u16_); ("min_dump_alloc", u32_); ("prev_seq", c_uint); ("seq", c_uint);
  ("flags", c_int); ("strict_check", bool_); ("__bindgen_anon_1",
  netlink_callback__bindgen_ty_1)].

Definition netlink_ext_ack : ctype := CStruct 1 [("_msg", CPtr); ("bad_attr", CPtr); ("policy",
  CPtr); ("miss_nest", CPtr); ("miss_type", u16_); ("cookie", CArray 8 u8_); ("cookie_len",
  u8_); ("_msg_buf", CArray 80 c_char)].

Definition netlink_range_validation : ctype := CStruct 1 [("min", u64_); ("max", u64_)].

Definition netlink_range_validation_signed : ctype := CStruct 1 [("min", s64); ("max", s64)].

Definition netpoll_info : ctype := CStruct 1 [("refcnt", refcount_t); ("dev_lock", semaphore);
  ("txq", sk_buff_head); ("tx_work", delayed_work); ("rcu", callback_head)].

Definition netprio_map : ctype := CStruct 1 [("rcu", callback_head); ("priomap_len", u32_);
  ("priomap", __IncompleteArrayField u32_)].

Definition new_utsname : ctype := CStruct 1 [("sysname", CArray 65 c_char); ("nodename", CArray
  65 c_char); ("release", CArray 65 c_char); ("version", CArray 65 c_char); ("machine", CArray
  65 c_char); ("domainname", CArray 65 c_char)].

Definition nexthop__bindgen_ty_1 : ctype := CUnion 1 [("nh_info", CPtr); ("nh_grp", CPtr)].

Definition nexthop : ctype := CStruct 1 [("rb_node", rb_node); ("fi_list", list_head);
  ("f6i_list", list_head); ("fdb_list", list_head); ("grp_list", list_head); ("net", CPtr);
  ("id", u32_); ("protocol", u8_); ("nh_flags", u8_); ("is_group", bool_); ("dead", bool_);
  ("lock", spinlock_t); ("refcnt", refcount_t); ("rcu", callback_head); ("__bindgen_anon_1",
  nexthop__bindgen_ty_1)].

Definition nf_conntrack : ctype := CStruct 1 [("use_", refcount_t)].

Definition nf_conntrack_zone : ctype := CStruct 1 [("id", u16_); ("flags", u8_); ("dir", u8_)].

Definition nf_inet_addr : ctype := CUnion 1 [("all", CArray 4 __u32); ("ip", __be32); ("ip6",
  CArray 4 __be32); ("in_", in_addr); ("in6", in6_addr)].

Definition nf_conntrack_man_proto__bindgen_ty_1 : ctype := CStruct 1 [("port", __be16)].

Definition nf_conntrack_man_proto__bindgen_ty_2 : ctype := CStruct 1 [("port", __be16)].

Definition nf_conntrack_man_proto__bindgen_ty_3 : ctype := CStruct 1 [("id", __be16)].

Definition nf_conntrack_man_proto__bindgen_ty_4 : ctype := CStruct 1 [("port", __be16)].

Definition nf_conntrack_man_proto__bindgen_ty_5 : ctype := CStruct 1 [("port", __be16)].

Definition nf_conntrack_man_proto__bindgen_ty_6 : ctype := CStruct 1 [("key", __be16)].

Definition nf_conntrack_man_proto : ctype := CUnion 1 [("all", __be16); ("tcp",
  nf_conntrack_man_proto__bindgen_ty_1); ("udp", nf_conntrack_man_proto__bindgen_ty_2); ("icmp",
  nf_conntrack_man_proto__bindgen_ty_3); ("dccp", nf_conntrack_man_proto__bindgen_ty_4);
  ("sctp", nf_conntrack_man_proto__bindgen_ty_5); ("gre",
  nf_conntrack_man_proto__bindgen_ty_6)].

Definition nf_conntrack_man : ctype := CStruct 1 [("u3", nf_inet_addr); ("u",
  nf_conntrack_man_proto); ("l3num", u_int16_t)].

Definition nf_conntrack_tuple__bindgen_ty_1__bindgen_ty_1__bindgen_ty_1 : ctype := CStruct 1
  [("port", __be16)].

Definition nf_conntrack_tuple__bindgen_ty_1__bindgen_ty_1__bindgen_ty_2 : ctype := CStruct 1
  [("port", __be16)].

Definition nf_conntrack_tuple__bindgen_ty_1__bindgen_ty_1__bindgen_ty_3 : ctype := CStruct 1
  [("type_", u_int8_t); ("code", u_int8_t)].

Definition nf_conntrack_tuple__bindgen_ty_1__bindgen_ty_1__bindgen_ty_4 : ctype := CStruct 1
  [("port", __be16)].

Definition nf_conntrack_tuple__bindgen_ty_1__bindgen_ty_1__bindgen_ty_5 : ctype := CStruct 1
  [("port", __be16)].

Definition nf_conntrack_tuple__bindgen_ty_1__bindgen_ty_1__bindgen_ty_6 : ctype := CStruct 1
  [("key", __be16)].

Definition nf_conntrack_tuple__bindgen_ty_1__bindgen_ty_1 : ctype := CUnion 1 [("all", __be16);
  ("tcp", nf_conntrack_tuple__bindgen_ty_1__bindgen_ty_1__bindgen_ty_1); ("udp",
  nf_conntrack_tuple__bindgen_ty_1__bindgen_ty_1__bindgen_ty_2); ("icmp",
  nf_conntrack_tuple__bindgen_ty_1__bindgen_ty_1__bindgen_ty_3); ("dccp",
  nf_conntrack_tuple__bindgen_ty_1__bindgen_ty_1__bindgen_ty_4); ("sctp",
  nf_conntrack_tuple__bindgen_ty_1__bindgen_ty_1__bindgen_ty_5); ("gre",
  nf_conntrack_tuple__bindgen_ty_1__bindgen_ty_1__bindgen_ty_6)].

Definition nf_conntrack_tuple__bindgen_ty_1__bindgen_ty_2 : ctype := CStruct 1 [].

Definition nf_conntrack_tuple__bindgen_ty_1 : ctype := CStruct 1 [("u3", nf_inet_addr); ("u",
  nf_conntrack_tuple__bindgen_ty_1__bindgen_ty_1); ("protonum", u_int8_t);
  ("__nfct_hash_offsetend", nf_conntrack_tuple__bindgen_ty_1__bindgen_ty_2); ("dir", u_int8_t)].

Definition nf_conntrack_tuple : ctype := CStruct 1 [("src", nf_conntrack_man); ("dst",
  nf_conntrack_tuple__bindgen_ty_1)].

Definition nf_conntrack_tuple_hash : ctype := CStruct 1 [("hnnode", hlist_nulls_node); ("tuple",
  nf_conntrack_tuple)].

Definition nf_ct_udp : ctype := CStruct 1 [("stream_ts", c_ulong)].

Definition nf_ct_gre : ctype := CStruct 1 [("stream_timeout", c_uint); ("timeout", c_uint)].

Definition nf_conntrack_proto : ctype := CUnion 1 [("sctp", ip_ct_sctp); ("tcp", ip_ct_tcp);
  ("udp", nf_ct_udp); ("gre", nf_ct_gre); ("tmpl_padto", c_uint)].

Definition nf_conn__bindgen_ty_1 : ctype := CStruct 1 [].

Definition nf_conn : ctype := CStruct 1 [("ct_general", nf_conntrack); ("lock", spinlock_t);
  ("timeout", u32_); ("zone", nf_conntrack_zone); ("tuplehash", CArray 2
  nf_conntrack_tuple_hash); ("status", c_ulong); ("ct_net", possible_net_t); ("nat_bysource",
  hlist_node); ("__nfct_init_offset", nf_conn__bindgen_ty_1); ("master", CPtr); ("mark",
  u_int32_t); ("secmark", u_int32_t); ("ext", CPtr); ("proto", nf_conntrack_proto)].

Definition nf_conntrack_tuple_mask__bindgen_ty_1 : ctype := CStruct 1 [("u3", nf_inet_addr);
  ("u", nf_conntrack_man_proto)].

Definition nf_conntrack_tuple_mask : ctype := CStruct 1 [("src",
  nf_conntrack_tuple_mask__bindgen_ty_1)].

Definition nf_conntrack_helper : ctype := CStruct 1 [("_unused", CArray 0 CU8)].

Definition nf_conntrack_expect : ctype := CStruct 1 [("lnode", hlist_node); ("hnode",
  hlist_node); ("net", possible_net_t); ("tuple", nf_conntrack_tuple); ("mask",
  nf_conntrack_tuple_mask); ("zone", nf_conntrack_zone); ("use_", refcount_t); ("flags",
  c_uint); ("class", c_uint); ("expectfn", CPtr); ("helper", CPtr); ("master", CPtr);
  ("timeout", timer_list); ("saved_addr", nf_inet_addr); ("saved_proto",
  nf_conntrack_man_proto); ("dir", ip_conntrack_dir__Type); ("rcu", callback_head)].

Definition nf_ct_event : ctype := CStruct 1 [("ct", CPtr); ("portid", u32_); ("report", c_int)].

Definition nf_ct_event_notifier : ctype := CStruct 1 [("ct_event", CPtr); ("exp_event", CPtr)].

Definition nf_ct_ext : ctype := CStruct 1 [("offset", CArray 10 u8_); ("len", u8_); ("gen_id",
  c_uint); ("data", __IncompleteArrayField c_char)].

Definition nf_exp_event : ctype := CStruct 1 [("exp", CPtr); ("portid", u32_); ("report",
  c_int)].

Definition nf_flow_table_stat : ctype := CStruct 1 [("count_wq_add", c_uint); ("count_wq_del",
  c_uint); ("count_wq_stats", c_uint)].

Definition nf_hookfn : ctype := CPtr.

Definition nf_hook_entry : ctype := CStruct 1 [("hook", nf_hookfn); ("priv_", CPtr)].

Definition nf_hook_entries : ctype := CStruct 1 [("num_hook_entries", u16_); ("hooks",
  __IncompleteArrayField nf_hook_entry)].

Definition nf_hook_state : ctype := CStruct 1 [("hook", u8_); ("pf", u8_); ("in_", CPtr);
  ("out", CPtr); ("sk", CPtr); ("net", CPtr); ("okfn", CPtr)].

Definition nf_logfn : ctype := CPtr.

Definition nf_logger : ctype := CStruct 1 [("name", CPtr); ("type_", nf_log_type__Type);
  ("logfn", nf_logfn); ("me", CPtr)].

Definition nf_loginfo__bindgen_ty_1__bindgen_ty_1 : ctype := CStruct 1 [("copy_len", u_int32_t);
  ("group", u_int16_t); ("qthreshold", u_int16_t); ("flags", u_int16_t)].

Definition nf_loginfo__bindgen_ty_1__bindgen_ty_2 : ctype := CStruct 1 [("level", u_int8_t);
  ("logflags", u_int8_t)].

Definition nf_loginfo__bindgen_ty_1 : ctype := CUnion 1 [("ulog",
  nf_loginfo__bindgen_ty_1__bindgen_ty_1); ("log", nf_loginfo__bindgen_ty_1__bindgen_ty_2)].

Definition nf_loginfo : ctype := CStruct 1 [("type_", u_int8_t); ("u",
  nf_loginfo__bindgen_ty_1)].

Definition nfstime4 : ctype := CStruct 1 [("seconds", CU64); ("nseconds", CU32)].

Definition nfs41_impl_id : ctype := CStruct 1 [("domain", CArray 1025 c_char); ("name", CArray
  1025 c_char); ("date", nfstime4)].

Definition nfs41_server_owner : ctype := CStruct 1 [("minor_id", CU64); ("major_id_sz", CU32);
  ("major_id", CArray 1024 c_char)].

Definition nfs41_server_scope : ctype := CStruct 1 [("server_scope_sz", CU32); ("server_scope",
  CArray 1024 c_char)].

Definition nfs4_change_info : ctype := CStruct 1 [("atomic", u32_); ("before", u64_); ("after",
  u64_)].

Definition nfs4_string : ctype := CStruct 1 [("len", c_uint); ("data", CPtr)].

Definition nfs4_pathname : ctype := CStruct 1 [("ncomponents", c_uint); ("components", CArray
  512 nfs4_string)].

Definition nfs4_fs_location : ctype := CStruct 1 [("nservers", c_uint); ("servers", CArray 10
  nfs4_string); ("rootpath", nfs4_pathname)].

Definition nfs4_fs_locations : ctype := CStruct 1 [("fattr", CPtr); ("server", CPtr);
  ("fs_path", nfs4_pathname); ("nlocations", c_int); ("locations", CArray 10 nfs4_fs_location)].

Definition nfs4_label : ctype := CStruct 1 [("lfs", CU32); ("pi", CU32); ("lsmid", u32_);
  ("len", u32_); ("label", CPtr)].

Definition nfs_seqid_counter : ctype := CStruct 1 [("create_time", ktime_t); ("owner_id", u64_);
  ("flags", c_int); ("counter", u32_); ("lock", spinlock_t); ("list", list_head); ("wait",
  rpc_wait_queue)].

Definition nfs4_stateid_struct__bindgen_ty_1__bindgen_ty_1 : ctype := CStruct 1 [("seqid",
  __be32); ("other", CArray 12 c_char)].

Definition nfs4_stateid_struct__bindgen_ty_1 : ctype := CUnion 1 [("data", CArray 16 c_char);
  ("__bindgen_anon_1", nfs4_stateid_struct__bindgen_ty_1__bindgen_ty_1)].

Definition nfs4_stateid_struct : ctype := CStruct 1 [("__bindgen_anon_1",
  nfs4_stateid_struct__bindgen_ty_1); ("type_", nfs4_stateid_struct__bindgen_ty_2__Type)].

Definition nfs4_stateid : ctype := nfs4_stateid_struct.

Definition nfs4_lock_state : ctype := CStruct 1 [("ls_locks", list_head); ("ls_state", CPtr);
  ("ls_flags", c_ulong); ("ls_seqid", nfs_seqid_counter); ("ls_stateid", nfs4_stateid);
  ("ls_count", refcount_t); ("ls_owner", fl_owner_t)].

Definition nfs4_mig_recovery_ops : ctype := CStruct 1 [("get_locations", CPtr); ("fsid_present",
  CPtr)].

Definition nfs4_minor_version_ops : ctype := CStruct 1 [("minor_version", u32_); ("init_caps",
  c_uint); ("init_client", CPtr); ("shutdown_client", CPtr); ("match_stateid", CPtr);
  ("find_root_sec", CPtr); ("free_lock_state", CPtr); ("test_and_free_expired", CPtr);
  ("alloc_seqid", CPtr); ("session_trunk", CPtr); ("call_sync_ops", CPtr); ("sequence_slot_ops",
  CPtr); ("reboot_recovery_ops", CPtr); ("nograce_recovery_ops", CPtr); ("state_renewal_ops",
  CPtr); ("mig_recovery_ops", CPtr)].

Definition nfs4_slot : ctype := CStruct 1 [("_unused", CArray 0 CU8)].

Definition nfs4_sequence_res : ctype := CStruct 1 [("sr_slot_ops", CPtr); ("sr_slot", CPtr);
  ("sr_timestamp", c_ulong); ("sr_status", c_int); ("sr_status_flags", u32_);
  ("sr_highest_slotid", u32_); ("sr_target_highest_slotid", u32_)].

Definition nfs4_sequence_slot_ops : ctype := CStruct 1 [("process", CPtr); ("done", CPtr);
  ("free_slot", CPtr)].

Definition nfs4_state : ctype := CStruct 1 [("open_states", list_head); ("inode_states",
  list_head); ("lock_states", list_head); ("owner", CPtr); ("inode", CPtr); ("flags", c_ulong);
  ("state_lock", spinlock_t); ("seqlock", seqlock_t); ("stateid", nfs4_stateid);
  ("open_stateid", nfs4_stateid); ("n_rdonly", c_uint); ("n_wronly", c_uint); ("n_rdwr",
  c_uint); ("state", fmode_t); ("count", refcount_t); ("waitq", wait_queue_head_t);
  ("callback_head", callback_head)].

Definition nfs4_state_maintenance_ops : ctype := CStruct 1 [("sched_state_renewal", CPtr);
  ("get_state_renewal_cred", CPtr); ("renew_lease", CPtr)].

Definition nfs4_state_owner : ctype := CStruct 1 [("so_server", CPtr); ("so_lru", list_head);
  ("so_expires", c_ulong); ("so_server_node", rb_node); ("so_cred", CPtr); ("so_lock",
  spinlock_t); ("so_count", atomic_t); ("so_flags", c_ulong); ("so_states", list_head);
  ("so_seqid", nfs_seqid_counter); ("so_delegreturn_mutex", mutex)].

Definition nfs4_state_recovery_ops : ctype := CStruct 1 [("owner_flag_bit", c_int);
  ("state_flag_bit", c_int); ("recover_open", CPtr); ("recover_lock", CPtr); ("establish_clid",
  CPtr); ("reclaim_complete", CPtr); ("detect_trunking", CPtr)].

Definition nfs4_threshold : ctype := CStruct 1 [("bm", __u32); ("l_type", __u32); ("rd_sz",
  __u64); ("wr_sz", __u64); ("rd_io_sz", __u64); ("wr_io_sz", __u64)].

Definition nfs_access_entry : ctype := CStruct 1 [("rb_node", rb_node); ("lru", list_head);
  ("fsuid", kuid_t); ("fsgid", kgid_t); ("group_info", CPtr); ("timestamp", u64_); ("mask",
  __u32); ("callback_head", callback_head)].

Definition rpc_authflavor_t : ctype := u32_.

Definition nfs_auth_info : ctype := CStruct 1 [("flavor_len", c_uint); ("flavors", CArray 12
  rpc_authflavor_t)].

Definition nfs_subversion : ctype := CStruct 1 [("_unused", CArray 0 CU8)].

Definition idmap : ctype := CStruct 1 [("_unused", CArray 0 CU8)].

Definition nfs4_slot_table : ctype := CStruct 1 [("_unused", CArray 0 CU8)].

Definition nfs4_session : ctype := CStruct 1 [("_unused", CArray 0 CU8)].

Definition nfs_page : ctype := CStruct 1 [("_unused", CArray 0 CU8)].

Definition nfs_commit_completion_ops : ctype := CStruct 1 [("completion", CPtr);
  ("resched_write", CPtr)].

Definition nfs_fsid : ctype := CStruct 1 [("major", CU64); ("minor", CU64)].

Definition nfs_fattr__bindgen_ty_1__bindgen_ty_1 : ctype := CStruct 1 [("blocksize", __u32);
  ("blocks", __u32)].

Definition nfs_fattr__bindgen_ty_1__bindgen_ty_2 : ctype := CStruct 1 [("used", __u64)].

Definition nfs_fattr__bindgen_ty_1 : ctype := CUnion 1 [("nfs2",
  nfs_fattr__bindgen_ty_1__bindgen_ty_1); ("nfs3", nfs_fattr__bindgen_ty_1__bindgen_ty_2)].

Definition nfs_fattr : ctype := CStruct 1 [("valid", __u64); ("mode", umode_t); ("nlink",
  __u32); ("uid", kuid_t); ("gid", kgid_t); ("rdev", dev_t); ("size", __u64); ("du",
  nfs_fattr__bindgen_ty_1); ("fsid", nfs_fsid); ("fileid", __u64); ("mounted_on_fileid", __u64);
  ("atime", timespec64); ("mtime", timespec64); ("ctime", timespec64); ("btime", timespec64);
  ("change_attr", __u64); ("pre_change_attr", __u64); ("pre_size", __u64); ("pre_mtime",
  timespec64); ("pre_ctime", timespec64); ("time_start", c_ulong); ("gencount", c_ulong);
  ("owner_name", CPtr); ("group_name", CPtr); ("mdsthreshold", CPtr); ("label", CPtr)].

Definition nfs_write_verifier : ctype := CStruct 1 [("data", CArray 8 c_char)].

Definition nfs_writeverf : ctype := CStruct 1 [("verifier", nfs_write_verifier); ("committed",
  nfs3_stable_how__Type)].

Definition nfs_direct_req : ctype := CStruct 1 [("_unused", CArray 0 CU8)].

Definition nfs_commitargs : ctype := CStruct 1 [("seq_args", nfs4_sequence_args); ("fh", CPtr);
  ("offset", __u64); ("count", __u32); ("bitmask", CPtr)].

Definition nfs_commitres : ctype := CStruct 1 [("seq_res", nfs4_sequence_res); ("op_status",
  __u32); ("fattr", CPtr); ("verf", CPtr); ("server", CPtr)].

Definition pnfs_layout_segment : ctype := CStruct 1 [("_unused", CArray 0 CU8)].

Definition nfs_commit_data : ctype := CStruct 1 [("task", rpc_task); ("inode", CPtr); ("cred",
  CPtr); ("fattr", nfs_fattr); ("verf", nfs_writeverf); ("pages", list_head); ("list",
  list_head); ("dreq", CPtr); ("args", nfs_commitargs); ("res", nfs_commitres); ("context",
  CPtr); ("lseg", CPtr); ("ds_clp", CPtr); ("ds_commit_index", c_int); ("lwb", loff_t);
  ("mds_ops", CPtr); ("completion_ops", CPtr); ("commit_done_cb", CPtr); ("flags", c_ulong)].

Definition nfs_commit_info : ctype := CStruct 1 [("inode", CPtr); ("mds", CPtr); ("ds", CPtr);
  ("dreq", CPtr); ("completion_ops", CPtr)].

Definition nfs_entry : ctype := CStruct 1 [("ino", __u64); ("cookie", __u64); ("name", CPtr);
  ("len", c_uint); ("eof", c_int); ("fh", CPtr); ("fattr", CPtr); ("d_type", c_uchar);
  ("server", CPtr)].

Definition nfs_fh : ctype := CStruct 1 [("size", c_ushort); ("data", CArray 128 c_uchar)].

Definition nfsd_file : ctype := CStruct 1 [("_unused", CArray 0 CU8)].

Definition nfs_file_localio : ctype := CStruct 1 [("ro_file", CPtr); ("rw_file", CPtr); ("list",
  list_head); ("nfs_uuid", CPtr)].

Definition nfs_fsinfo : ctype := CStruct 1 [("fattr", CPtr); ("rtmax", __u32); ("rtpref",
  __u32); ("rtmult", __u32); ("wtmax", __u32); ("wtpref", __u32); ("wtmult", __u32); ("dtpref",
  __u32); ("maxfilesize", __u64); ("time_delta", timespec64); ("lease_time", __u32);
  ("nlayouttypes", __u32); ("layouttype", CArray 8 __u32); ("blksize", __u32); ("clone_blksize",
  __u32); ("change_attr_type", nfs4_change_attr_type__Type); ("xattr_support", __u32)].

Definition nfs_fsstat : ctype := CStruct 1 [("fattr", CPtr); ("tbytes", __u64); ("fbytes",
  __u64); ("abytes", __u64); ("tfiles", __u64); ("ffiles", __u64); ("afiles", __u64)].

Definition nfs_lock_context : ctype := CStruct 1 [("count", refcount_t); ("list", list_head);
  ("open_context", CPtr); ("lockowner", fl_owner_t); ("io_count", atomic_t); ("callback_head",
  callback_head)].

Definition nfs_mds_commit_info : ctype := CStruct 1 [("rpcs_out", atomic_t); ("ncommit",
  atomic_long_t); ("list", list_head)].

Definition nfs_open_context : ctype := CStruct 1 [("lock_context", nfs_lock_context);
  ("flock_owner", fl_owner_t); ("dentry", CPtr); ("cred", CPtr); ("ll_cred", CPtr); ("state",
  CPtr); ("mode", fmode_t); ("error", c_int); ("flags", c_ulong); ("mdsthreshold", CPtr);
  ("list", list_head); ("callback_head", callback_head); ("nfl", nfs_file_localio)].

Definition nfs_page_array : ctype := CStruct 1 [("pagevec", CPtr); ("npages", c_uint);
  ("page_array", CArray 8 CPtr)].

Definition nfs_pathconf : ctype := CStruct 1 [("fattr", CPtr); ("max_link", __u32);
  ("max_namelen", __u32)].

Definition nfs_pgio_args__bindgen_ty_1__bindgen_ty_1 : ctype := CStruct 1 [("bitmask", CPtr);
  ("bitmask_store", CArray 3 u32_); ("stable", nfs3_stable_how__Type)].

Definition nfs_pgio_args__bindgen_ty_1 : ctype := CUnion 1 [("replen", c_uint);
  ("__bindgen_anon_1", nfs_pgio_args__bindgen_ty_1__bindgen_ty_1)].

Definition nfs_pgio_args : ctype := CStruct 1 [("seq_args", nfs4_sequence_args); ("fh", CPtr);
  ("context", CPtr); ("lock_context", CPtr); ("stateid", nfs4_stateid); ("offset", __u64);
  ("count", __u32); ("pgbase", c_uint); ("pages", CPtr); ("__bindgen_anon_1",
  nfs_pgio_args__bindgen_ty_1)].

Definition nfs_pgio_completion_ops : ctype := CStruct 1 [("error_cleanup", CPtr); ("init_hdr",
  CPtr); ("completion", CPtr); ("reschedule_io", CPtr)].

Definition nfs_rw_ops : ctype := CStruct 1 [("_unused", CArray 0 CU8)].

Definition nfs_io_completion : ctype := CStruct 1 [("_unused", CArray 0 CU8)].

Definition nfs_pgio_res__bindgen_ty_1__bindgen_ty_1 : ctype := CStruct 1 [("replen", c_uint);
  ("eof", c_int); ("scratch", CPtr)].

Definition nfs_pgio_res__bindgen_ty_1__bindgen_ty_2 : ctype := CStruct 1 [("verf", CPtr);
  ("server", CPtr)].

Definition nfs_pgio_res__bindgen_ty_1 : ctype := CUnion 1 [("__bindgen_anon_1",
  nfs_pgio_res__bindgen_ty_1__bindgen_ty_1); ("__bindgen_anon_2",
  nfs_pgio_res__bindgen_ty_1__bindgen_ty_2)].

Definition nfs_pgio_res : ctype := CStruct 1 [("seq_res", nfs4_sequence_res); ("fattr", CPtr);
  ("count", __u64); ("op_status", __u32); ("__bindgen_anon_1", nfs_pgio_res__bindgen_ty_1)].

Definition nfs_pgio_header : ctype := CStruct 1 [("inode", CPtr); ("cred", CPtr); ("pages",
  list_head); ("req", CPtr); ("verf", nfs_writeverf); ("rw_mode", fmode_t); ("lseg", CPtr);
  ("io_start", loff_t); ("mds_ops", CPtr); ("release", CPtr); ("completion_ops", CPtr);
  ("rw_ops", CPtr); ("io_completion", CPtr); ("dreq", CPtr); ("netfs", CPtr); ("retrans",
  c_ushort); ("pnfs_error", c_int); ("error", c_int); ("good_bytes", c_uint); ("flags",
  c_ulong); ("task", rpc_task); ("fattr", nfs_fattr); ("args", nfs_pgio_args); ("res",
  nfs_pgio_res); ("timestamp", c_ulong); ("pgio_done_cb", CPtr); ("mds_offset", __u64);
  ("page_array", nfs_page_array); ("ds_clp", CPtr); ("ds_commit_idx", u32_); ("pgio_mirror_idx",
  u32_)].

Definition nfs_readdir_arg : ctype := CStruct 1 [("dentry", CPtr); ("cred", CPtr); ("verf",
  CPtr); ("cookie", u64_); ("pages", CPtr); ("page_len", c_uint); ("plus", bool_)].

Definition nfs_readdir_res : ctype := CStruct 1 [("verf", CPtr)].

Definition nfs_removeargs : ctype := CStruct 1 [("seq_args", nfs4_sequence_args); ("fh", CPtr);
  ("name", qstr)].

Definition nfs_removeres : ctype := CStruct 1 [("seq_res", nfs4_sequence_res); ("server", CPtr);
  ("dir_attr", CPtr); ("cinfo", nfs4_change_info)].

Definition nfs_renameargs : ctype := CStruct 1 [("seq_args", nfs4_sequence_args); ("old_dir",
  CPtr); ("new_dir", CPtr); ("old_name", CPtr); ("new_name", CPtr)].

Definition nfs_renameres : ctype := CStruct 1 [("seq_res", nfs4_sequence_res); ("server", CPtr);
  ("old_cinfo", nfs4_change_info); ("old_fattr", CPtr); ("new_cinfo", nfs4_change_info);
  ("new_fattr", CPtr)].

Definition nfs_renamedata : ctype := CStruct 1 [("args", nfs_renameargs); ("res",
  nfs_renameres); ("task", rpc_task); ("cred", CPtr); ("old_dir", CPtr); ("old_dentry", CPtr);
  ("old_fattr", nfs_fattr); ("new_dir", CPtr); ("new_dentry", CPtr); ("new_fattr", nfs_fattr);
  ("complete", CPtr); ("timeout", c_long); ("cancelled", bool_)].

Definition nlmclnt_operations : ctype := CStruct 1 [("_unused", CArray 0 CU8)].

Definition nfs_client_initdata : ctype := CStruct 1 [("_unused", CArray 0 CU8)].

Definition nfs_rpc_ops : ctype := CStruct 1 [("version", u32_); ("dentry_ops", CPtr);
  ("dir_inode_ops", CPtr); ("file_inode_ops", CPtr); ("file_ops", CPtr); ("nlmclnt_ops", CPtr);
  ("getroot", CPtr); ("submount", CPtr); ("try_get_tree", CPtr); ("getattr", CPtr); ("setattr",
  CPtr); ("lookup", CPtr); ("lookupp", CPtr); ("access", CPtr); ("readlink", CPtr); ("create",
  CPtr); ("remove", CPtr); ("unlink_setup", CPtr); ("unlink_rpc_prepare", CPtr); ("unlink_done",
  CPtr); ("rename_setup", CPtr); ("rename_rpc_prepare", CPtr); ("rename_done", CPtr); ("link",
  CPtr); ("symlink", CPtr); ("mkdir", CPtr); ("rmdir", CPtr); ("readdir", CPtr); ("mknod",
  CPtr); ("statfs", CPtr); ("fsinfo", CPtr); ("pathconf", CPtr); ("set_capabilities", CPtr);
  ("decode_dirent", CPtr); ("pgio_rpc_prepare", CPtr); ("read_setup", CPtr); ("read_done",
  CPtr); ("write_setup", CPtr); ("write_done", CPtr); ("commit_setup", CPtr);
  ("commit_rpc_prepare", CPtr); ("commit_done", CPtr); ("lock", CPtr); ("lock_check_bounds",
  CPtr); ("clear_acl_cache", CPtr); ("close_context", CPtr); ("open_context", CPtr);
  ("have_delegation", CPtr); ("return_delegation", CPtr); ("alloc_client", CPtr);
  ("init_client", CPtr); ("free_client", CPtr); ("create_server", CPtr); ("clone_server", CPtr);
  ("discover_trunking", CPtr); ("enable_swap", CPtr); ("disable_swap", CPtr)].

Definition nfs_seqid : ctype := CStruct 1 [("sequence", CPtr); ("list", list_head); ("task",
  CPtr)].

Definition nlm_host : ctype := CStruct 1 [("_unused", CArray 0 CU8)].

Definition nfs_iostats : ctype := CStruct 1 [("_unused", CArray 0 CU8)].

Definition fscache_volume : ctype := CStruct 1 [("_unused", CArray 0 CU8)].

Definition pnfs_layoutdriver_type : ctype := CStruct 1 [("_unused", CArray 0 CU8)].

Definition nfs_server : ctype := CStruct 1 [("nfs_client", CPtr); ("client_link", list_head);
  ("master_link", list_head); ("client", CPtr); ("client_acl", CPtr); ("nlm_host", CPtr);
  ("io_stats", CPtr); ("write_congestion_wait", wait_queue_head_t); ("writeback",
  atomic_long_t); ("write_congested", c_uint); ("flags", c_uint); ("automount_inherit", c_uint);
  ("caps", c_uint); ("fattr_valid", __u64); ("rsize", c_uint); ("rpages", c_uint); ("wsize",
  c_uint); ("wtmult", c_uint); ("dtsize", c_uint); ("port", c_ushort); ("bsize", c_uint);
  ("gxasize", c_uint); ("sxasize", c_uint); ("lxasize", c_uint); ("acregmin", c_uint);
  ("acregmax", c_uint); ("acdirmin", c_uint); ("acdirmax", c_uint); ("namelen", c_uint);
  ("options", c_uint); ("clone_blksize", c_uint); ("change_attr_type",
  nfs4_change_attr_type__Type); ("fsid", nfs_fsid); ("s_sysfs_id", c_int); ("maxfilesize",
  __u64); ("mount_time", c_ulong); ("super_", CPtr); ("s_dev", dev_t); ("auth_info",
  nfs_auth_info); ("fscache", CPtr); ("fscache_uniq", CPtr); ("fh_expire_type", u32_);
  ("pnfs_blksize", u32_); ("attr_bitmask", CArray 3 u32_); ("attr_bitmask_nl", CArray 3 u32_);
  ("exclcreat_bitmask", CArray 3 u32_); ("cache_consistency_bitmask", CArray 3 u32_);
  ("acl_bitmask", u32_); ("pnfs_curr_ld", CPtr); ("roc_rpcwaitq", rpc_wait_queue);
  ("state_owners", rb_root); ("owner_ctr", atomic64_t); ("state_owners_lru", list_head);
  ("layouts", list_head); ("delegations", list_head); ("delegations_lock", spinlock_t);
  ("delegations_return", list_head); ("delegations_lru", list_head); ("delegations_delayed",
  list_head); ("nr_active_delegations", atomic_long_t); ("delegation_hash_mask", c_uint);
  ("delegation_hash_table", CPtr); ("ss_copies", list_head); ("ss_src_copies", list_head);
  ("delegation_flags", c_ulong); ("delegation_gen", c_ulong); ("mig_gen", c_ulong);
  ("mig_status", c_ulong); ("destroy", CPtr); ("active", atomic_t); ("mountd_address",
  __kernel_sockaddr_storage); ("mountd_addrlen", CU64); ("mountd_version", u32_);
  ("mountd_port", c_ushort); ("mountd_protocol", c_ushort); ("uoc_rpcwaitq", rpc_wait_queue);
  ("read_hdrsize", c_uint); ("cred", CPtr); ("has_sec_mnt_opts", bool_); ("kobj", kobject);
  ("rcu", callback_head)].

Definition nfs_unlinkdata : ctype := CStruct 1 [("args", nfs_removeargs); ("res",
  nfs_removeres); ("dentry", CPtr); ("wq", wait_queue_head_t); ("cred", CPtr); ("dir_attr",
  nfs_fattr); ("timeout", c_long)].

Definition nh_grp_entry__bindgen_ty_1__bindgen_ty_1 : ctype := CStruct 1 [("upper_bound",
  atomic_t)].

Definition nh_grp_entry__bindgen_ty_1__bindgen_ty_2 : ctype := CStruct 1 [("uw_nh_entry",
  list_head); ("count_buckets", u16_); ("wants_buckets", u16_)].

Definition nh_grp_entry__bindgen_ty_1 : ctype := CUnion 1 [("hthr",
  nh_grp_entry__bindgen_ty_1__bindgen_ty_1); ("res", nh_grp_entry__bindgen_ty_1__bindgen_ty_2)].

Definition nh_grp_entry : ctype := CStruct 1 [("nh", CPtr); ("stats", CPtr); ("weight", u16_);
  ("__bindgen_anon_1", nh_grp_entry__bindgen_ty_1); ("nh_list", list_head); ("nh_parent", CPtr);
  ("packets_hw", u64_)].

Definition nh_group : ctype := CStruct 1 [("spare", CPtr); ("num_nh", u16_); ("is_multipath",
  bool_); ("hash_threshold", bool_); ("resilient", bool_); ("fdb_nh", bool_); ("has_v4", bool_);
  ("hw_stats", bool_); ("res_table", CPtr); ("nh_entries", __IncompleteArrayField
  nh_grp_entry)].

Definition nh_grp_entry_stats : ctype := CStruct 1 [("packets", u64_stats_t); ("syncp",
  u64_stats_sync)].

Definition nh_info__bindgen_ty_1 : ctype := CUnion 1 [("fib_nhc", fib_nh_common); ("fib_nh",
  fib_nh); ("fib6_nh", fib6_nh)].

Definition nh_info : ctype := CStruct 1 [("dev_hash", hlist_node); ("nh_parent", CPtr);
  ("family", u8_); ("reject_nh", bool_); ("fdb_nh", bool_); ("__bindgen_anon_1",
  nh_info__bindgen_ty_1)].

Definition nh_res_bucket : ctype := CStruct 1 [("nh_entry", CPtr); ("used_time", atomic_long_t);
  ("migrated_time", c_ulong); ("occupied", bool_); ("nh_flags", u8_)].

Definition nh_res_table : ctype := CStruct 1 [("net", CPtr); ("nhg_id", u32_); ("upkeep_dw",
  delayed_work); ("uw_nh_entries", list_head); ("unbalanced_since", c_ulong); ("idle_timer",
  u32_); ("unbalanced_timer", u32_); ("num_nh_buckets", u16_); ("nh_buckets",
  __IncompleteArrayField nh_res_bucket)].

Definition nl80211_vendor_cmd_info : ctype := CStruct 1 [("vendor_id", __u32); ("subcmd",
  __u32)].

Definition nl80211_wowlan_tcp_data_token_feature : ctype := CStruct 1 [("min_len", __u32);
  ("max_len", __u32); ("bufsize", __u32)].

Definition nla_policy__bindgen_ty_1__bindgen_ty_1 : ctype := CStruct 1 [("min", s16); ("max",
  s16)].

Definition nla_policy__bindgen_ty_1 : ctype := CUnion 1 [("strict_start_type", u16_);
  ("bitfield32_valid", u32_); ("mask", u32_); ("reject_message", CPtr); ("nested_policy", CPtr);
  ("range", CPtr); ("range_signed", CPtr); ("__bindgen_anon_1",
  nla_policy__bindgen_ty_1__bindgen_ty_1); ("validate", CPtr)].

Definition nla_policy : ctype := CStruct 1 [("type_", u8_); ("validation_type", u8_); ("len",
  u16_); ("__bindgen_anon_1", nla_policy__bindgen_ty_1)].

Definition nlattr : ctype := CStruct 1 [("nla_len", __u16); ("nla_type", __u16)].

Definition node_barn : ctype := CStruct 1 [("lock", spinlock_t); ("sheaves_full", list_head);
  ("sheaves_empty", list_head); ("nr_full", c_uint); ("nr_empty", c_uint)].

Definition notification : ctype := CStruct 1 [("requests", atomic_t); ("flags", u32_);
  ("next_id", u64_); ("notifications", list_head)].

Definition nsproxy : ctype := CStruct 1 [("count", refcount_t); ("uts_ns", CPtr); ("ipc_ns",
  CPtr); ("mnt_ns", CPtr); ("pid_ns_for_children", CPtr); ("net_ns", CPtr); ("time_ns", CPtr);
  ("time_ns_for_children", CPtr); ("cgroup_ns", CPtr)].

Definition nsset : ctype := CStruct 1 [("flags", c_uint); ("nsproxy", CPtr); ("fs", CPtr);
  ("cred", CPtr)].

Definition numa_drop_counters : ctype := CStruct 1 [("drops0", atomic_t); ("_bitfield_align_1",
  CArray 0 CU8); ("_bitfield_1", __BindgenBitfieldUnit 56); ("__bindgen_padding_0", CU32);
  ("drops1", atomic_t); ("_bitfield_align_2", CArray 0 CU8); ("_bitfield_2",
  __BindgenBitfieldUnit 56); ("__bindgen_padding_1", CU32)].

Definition numa_group : ctype := CStruct 1 [("refcount", refcount_t); ("lock", spinlock_t);
  ("nr_tasks", c_int); ("gid", pid_t); ("active_nodes", c_int); ("rcu", callback_head);
  ("total_faults", c_ulong); ("max_faults_cpu", c_ulong); ("faults", __IncompleteArrayField
  c_ulong)].

Definition obj_cgroup__bindgen_ty_1 : ctype := CUnion 1 [("list", list_head); ("rcu",
  callback_head)].

Definition obj_cgroup : ctype := CStruct 1 [("refcnt", percpu_ref); ("memcg", CPtr);
  ("nr_charged_bytes", atomic_t); ("__bindgen_anon_1", obj_cgroup__bindgen_ty_1)].

Definition of_device_id : ctype := CStruct 1 [("name", CArray 32 c_char); ("type_", CArray 32
  c_char); ("compatible", CArray 128 c_char); ("data", CPtr)].

Definition of_phandle_args : ctype := CStruct 1 [("np", CPtr); ("args_count", c_int); ("args",
  CArray 16 CU32)].

Definition offset_ctx : ctype := CStruct 1 [("mt", maple_tree); ("next_offset", c_ulong)].

Definition old_time32_t : ctype := s32.

Definition old_timespec32 : ctype := CStruct 1 [("tv_sec", old_time32_t); ("tv_nsec", s32)].

Definition p2pdma_provider : ctype := CStruct 1 [("owner", CPtr); ("bus_offset", u64_)].

Definition packet_command : ctype := CStruct 1 [("cmd", CArray 12 c_uchar); ("buffer", CPtr);
  ("buflen", c_uint); ("stat", c_int); ("sshdr", CPtr); ("data_direction", c_uchar); ("quiet",
  c_int); ("timeout", c_int); ("reserved", CArray 1 CPtr)].

Definition page_pool_recycle_stats : ctype := CStruct 1 [("cached", u64_); ("cache_full", u64_);
  ("ring", u64_); ("ring_full", u64_); ("released_refcnt", u64_)].

Definition partition_meta_info : ctype := CStruct 1 [("uuid", CArray 37 c_char); ("volname",
  CArray 64 u8_)].

Definition pcpu_lstats : ctype := CStruct 1 [("packets", u64_stats_t); ("bytes", u64_stats_t);
  ("syncp", u64_stats_sync)].

Definition pcpu_rx_sc_stats : ctype := CStruct 1 [("stats", macsec_rx_sc_stats); ("syncp",
  u64_stats_sync)].

Definition pcpu_sw_netstats : ctype := CStruct 1 [("rx_packets", u64_stats_t); ("rx_bytes",
  u64_stats_t); ("tx_packets", u64_stats_t); ("tx_bytes", u64_stats_t); ("syncp",
  u64_stats_sync)].

Definition pcpu_tx_sc_stats : ctype := CStruct 1 [("stats", macsec_tx_sc_stats); ("syncp",
  u64_stats_sync)].

Definition per_cpu_nodestat : ctype := CStruct 1 [("stat_threshold", s8); ("vm_node_stat_diff",
  CArray 51 s8)].

Definition per_cpu_pages : ctype := CStruct 1 [("lock", spinlock_t); ("count", c_int); ("high",
  c_int); ("high_min", c_int); ("high_max", c_int); ("batch", c_int); ("flags", u8_);
  ("alloc_factor", u8_); ("expire", u8_); ("free_count", c_short); ("lists", CArray 14
  list_head)].

Definition per_cpu_zonestat : ctype := CStruct 1 [("vm_stat_diff", CArray 12 s8);
  ("stat_threshold", s8); ("vm_numa_event", CArray 6 c_ulong)].

Definition per_frame_masks : ctype := CStruct 1 [("may_read", u64_); ("must_write", u64_);
  ("must_write_acc", u64_); ("live_before", u64_)].

Definition perf_addr_filter_range : ctype := CStruct 1 [("start", c_ulong); ("size", c_ulong)].

Definition perf_addr_filters_head : ctype := CStruct 1 [("list", list_head); ("lock",
  raw_spinlock_t); ("nr_file_filters", c_uint)].

Definition perf_buffer : ctype := CStruct 1 [("refcount", refcount_t); ("callback_head",
  callback_head); ("nr_pages", c_int); ("overwrite", c_int); ("paused", c_int); ("poll",
  atomic_t); ("head", local_t); ("nest", c_uint); ("events", local_t); ("wakeup", local_t);
  ("lost", local_t); ("watermark", c_long); ("aux_watermark", c_long); ("event_lock",
  spinlock_t); ("event_list", list_head); ("mmap_count", refcount_t); ("mmap_locked", c_ulong);
  ("mmap_user", CPtr); ("aux_mutex", mutex); ("aux_head", c_long); ("aux_nest", c_uint);
  ("aux_wakeup", c_long); ("aux_pgoff", c_ulong); ("aux_nr_pages", c_int); ("aux_overwrite",
  c_int); ("aux_mmap_count", refcount_t); ("aux_mmap_locked", c_ulong); ("free_aux", CPtr);
  ("aux_refcount", refcount_t); ("aux_in_sampling", c_int); ("aux_in_pause_resume", c_int);
  ("aux_pages", CPtr); ("aux_priv", CPtr); ("user_page", CPtr); ("data_pages",
  __IncompleteArrayField CPtr)].

Definition perf_callchain_entry : ctype := CStruct 1 [("nr", u64_); ("ip",
  __IncompleteArrayField u64_)].

Definition perf_cgroup : ctype := CStruct 1 [("css", cgroup_subsys_state); ("info", CPtr)].

Definition perf_time_ctx : ctype := CStruct 1 [("time", u64_); ("stamp", u64_); ("offset",
  u64_)].

Definition perf_cgroup_info : ctype := CStruct 1 [("time", perf_time_ctx); ("timeguest",
  perf_time_ctx); ("active", c_int)].

Definition perf_event_groups : ctype := CStruct 1 [("tree", rb_root); ("index", u64_)].

Definition perf_event_context : ctype := CStruct 1 [("lock", raw_spinlock_t); ("mutex", mutex);
  ("pmu_ctx_list", list_head); ("pinned_groups", perf_event_groups); ("flexible_groups",
  perf_event_groups); ("event_list", list_head); ("nr_events", c_int); ("nr_user", c_int);
  ("is_active", c_int); ("nr_stat", c_int); ("nr_freq", c_int); ("rotate_disable", c_int);
  ("refcount", refcount_t); ("task", CPtr); ("time", perf_time_ctx); ("timeguest",
  perf_time_ctx); ("parent_ctx", CPtr); ("parent_gen", u64_); ("generation", u64_);
  ("pin_count", c_int); ("nr_cgroups", c_int); ("callback_head", callback_head);
  ("nr_no_switch_fast", local_t)].

Definition perf_cpu_pmu_context : ctype := CStruct 1 [("epc", perf_event_pmu_context);
  ("task_epc", CPtr); ("sched_cb_entry", list_head); ("sched_cb_usage", c_int); ("active_oncpu",
  c_int); ("exclusive", c_int); ("pmu_disable_count", c_int); ("hrtimer_lock", raw_spinlock_t);
  ("hrtimer", hrtimer); ("hrtimer_interval", ktime_t); ("hrtimer_active", c_uint)].

Definition perf_ctx_data : ctype := CStruct 1 [("callback_head", callback_head); ("refcount",
  refcount_t); ("global", c_int); ("ctx_cache", CPtr); ("data", CPtr)].

Definition perf_domain : ctype := CStruct 1 [("em_pd", CPtr); ("next", CPtr); ("rcu",
  callback_head)].

Definition perf_overflow_handler_t : ctype := CPtr.

Definition perf_event : ctype := CStruct 1 [("event_entry", list_head); ("sibling_list",
  list_head); ("active_list", list_head); ("group_node", rb_node); ("group_index", u64_);
  ("migrate_entry", list_head); ("hlist_entry", hlist_node); ("active_entry", list_head);
  ("nr_siblings", c_int); ("event_caps", c_int); ("group_caps", c_int); ("group_generation",
  c_uint); ("group_leader", CPtr); ("pmu", CPtr); ("pmu_private", CPtr); ("state",
  perf_event_state__Type); ("attach_state", c_uint); ("count", local64_t); ("child_count",
  atomic64_t); ("total_time_enabled", u64_); ("total_time_running", u64_); ("tstamp", u64_);
  ("attr", perf_event_attr); ("header_size", u16_); ("id_header_size", u16_); ("read_size",
  u16_); ("hw", hw_perf_event); ("ctx", CPtr); ("pmu_ctx", CPtr); ("refcount", atomic_long_t);
  ("child_total_time_enabled", atomic64_t); ("child_total_time_running", atomic64_t);
  ("child_mutex", mutex); ("child_list", list_head); ("parent", CPtr); ("oncpu", c_int); ("cpu",
  c_int); ("owner_entry", list_head); ("owner", CPtr); ("mmap_mutex", mutex); ("mmap_count",
  refcount_t); ("rb", CPtr); ("rb_entry", list_head); ("rcu_batches", c_ulong); ("rcu_pending",
  c_int); ("waitq", wait_queue_head_t); ("fasync", CPtr); ("pending_wakeup", c_uint);
  ("pending_kill", c_uint); ("pending_disable", c_uint); ("pending_addr", c_ulong);
  ("pending_irq", irq_work); ("pending_disable_irq", irq_work); ("pending_task", callback_head);
  ("pending_work", c_uint); ("event_limit", atomic_t); ("addr_filters", perf_addr_filters_head);
  ("addr_filter_ranges", CPtr); ("addr_filters_gen", c_ulong); ("aux_event", CPtr); ("destroy",
  CPtr); ("callback_head", callback_head); ("ns", CPtr); ("id", u64_); ("lost_samples",
  atomic64_t); ("clock", CPtr); ("overflow_handler", perf_overflow_handler_t);
  ("overflow_handler_context", CPtr); ("prog", CPtr); ("bpf_cookie", u64_); ("tp_event", CPtr);
  ("filter", CPtr); ("ftrace_ops", ftrace_ops); ("cgrp", CPtr); ("security", CPtr); ("sb_list",
  list_head); ("pmu_list", list_head); ("orig_type", u32_)].

Definition perf_event_mmap_page__bindgen_ty_1 : ctype := CUnion 1 [("capabilities", __u64);
  ("__bindgen_anon_1", perf_event_mmap_page__bindgen_ty_1__bindgen_ty_1)].

Definition perf_event_mmap_page : ctype := CStruct 1 [("version", __u32); ("compat_version",
  __u32); ("lock", __u32); ("index", __u32); ("offset", __s64); ("time_enabled", __u64);
  ("time_running", __u64); ("__bindgen_anon_1", perf_event_mmap_page__bindgen_ty_1);
  ("pmc_width", __u16); ("time_shift", __u16); ("time_mult", __u32); ("time_offset", __u64);
  ("time_zero", __u64); ("size", __u32); ("__reserved_1", __u32); ("time_cycles", __u64);
  ("time_mask", __u64); ("__reserved", CArray 928 __u8); ("data_head", __u64); ("data_tail",
  __u64); ("data_offset", __u64); ("data_size", __u64); ("aux_head", __u64); ("aux_tail",
  __u64); ("aux_offset", __u64); ("aux_size", __u64)].

Definition perf_raw_frag__bindgen_ty_1 : ctype := CUnion 1 [("next", CPtr); ("pad", c_ulong)].

Definition perf_copy_f : ctype := CPtr.

Definition perf_raw_frag : ctype := CPacked [("__bindgen_anon_1", perf_raw_frag__bindgen_ty_1);
  ("copy", perf_copy_f); ("data", CPtr); ("size", u32_)].

Definition perf_raw_record : ctype := CStruct 1 [("frag", perf_raw_frag); ("size", u32_)].

Definition pf_desc : ctype := CStruct 1 [("pseudoflavor", u32_); ("qop", u32_); ("service",
  u32_); ("name", CPtr); ("auth_domain_name", CPtr); ("domain", CPtr); ("datatouch", bool_)].

Definition pfnmap_track_ctx : ctype := CStruct 1 [("kref", kref); ("pfn", c_ulong); ("size",
  c_ulong)].

Definition phy_led_trigger : ctype := CStruct 1 [("_unused", CArray 0 CU8)].

Definition phy_port : ctype := CStruct 1 [("_unused", CArray 0 CU8)].

Definition phy_driver : ctype := CStruct 1 [("mdiodrv", mdio_driver_common); ("phy_id", u32_);
  ("name", CPtr); ("phy_id_mask", u32_); ("features", CPtr); ("flags", u32_); ("driver_data",
  CPtr); ("soft_reset", CPtr); ("config_init", CPtr); ("probe", CPtr); ("get_features", CPtr);
  ("inband_caps", CPtr); ("config_inband", CPtr); ("get_rate_matching", CPtr); ("suspend",
  CPtr); ("resume", CPtr); ("config_aneg", CPtr); ("aneg_done", CPtr); ("read_status", CPtr);
  ("config_intr", CPtr); ("handle_interrupt", CPtr); ("remove", CPtr); ("match_phy_device",
  CPtr); ("set_wol", CPtr); ("get_wol", CPtr); ("link_change_notify", CPtr); ("read_mmd", CPtr);
  ("write_mmd", CPtr); ("read_page", CPtr); ("write_page", CPtr); ("module_info", CPtr);
  ("module_eeprom", CPtr); ("cable_test_start", CPtr); ("cable_test_tdr_start", CPtr);
  ("cable_test_get_status", CPtr); ("get_phy_stats", CPtr); ("get_link_stats", CPtr);
  ("update_stats", CPtr); ("get_sset_count", CPtr); ("get_strings", CPtr); ("get_stats", CPtr);
  ("get_tunable", CPtr); ("set_tunable", CPtr); ("set_loopback", CPtr); ("get_sqi", CPtr);
  ("get_sqi_max", CPtr); ("get_mse_capability", CPtr); ("get_mse_snapshot", CPtr);
  ("get_plca_cfg", CPtr); ("set_plca_cfg", CPtr); ("get_plca_status", CPtr);
  ("led_brightness_set", CPtr); ("led_blink_set", CPtr); ("led_hw_is_supported", CPtr);
  ("led_hw_control_set", CPtr); ("led_hw_control_get", CPtr); ("led_polarity_set", CPtr);
  ("get_next_update_time", CPtr); ("attach_mii_port", CPtr); ("attach_mdi_port", CPtr)].

Definition phy_link_topology : ctype := CStruct 1 [("phys", xarray); ("next_phy_index", u32_)].

Definition phy_plca_cfg : ctype := CStruct 1 [("version", c_int); ("enabled", c_int);
  ("node_id", c_int); ("node_cnt", c_int); ("to_tmr", c_int); ("burst_cnt", c_int);
  ("burst_tmr", c_int)].

Definition phy_plca_status : ctype := CStruct 1 [("pst", bool_)].

Definition phy_tdr_config : ctype := CStruct 1 [("first", u32_); ("last", u32_); ("step", u32_);
  ("pair", s8)].

Definition phylink_mac_ops : ctype := CStruct 1 [("mac_get_caps", CPtr); ("mac_select_pcs",
  CPtr); ("mac_prepare", CPtr); ("mac_config", CPtr); ("mac_finish", CPtr); ("mac_link_down",
  CPtr); ("mac_link_up", CPtr); ("mac_disable_tx_lpi", CPtr); ("mac_enable_tx_lpi", CPtr);
  ("mac_wol_set", CPtr)].

Definition phylink_pcs : ctype := CStruct 1 [("supported_interfaces", CArray 1 c_ulong); ("ops",
  CPtr); ("phylink", CPtr); ("poll", bool_); ("rxc_always_on", bool_)].

Definition phylink_pcs_ops : ctype := CStruct 1 [("pcs_validate", CPtr); ("pcs_inband_caps",
  CPtr); ("pcs_enable", CPtr); ("pcs_disable", CPtr); ("pcs_pre_config", CPtr);
  ("pcs_post_config", CPtr); ("pcs_get_state", CPtr); ("pcs_config", CPtr); ("pcs_an_restart",
  CPtr); ("pcs_link_up", CPtr); ("pcs_disable_eee", CPtr); ("pcs_enable_eee", CPtr);
  ("pcs_pre_init", CPtr)].

Definition phys_vec : ctype := CStruct 1 [("paddr", phys_addr_t); ("len", CU64)].

Definition pi_entry : ctype := CPacked [("fmt", CPtr); ("func", CPtr); ("file", CPtr); ("line",
  c_uint); ("level", CPtr); ("subsys_fmt_prefix", CPtr)].

Definition upid : ctype := CStruct 1 [("nr", c_int); ("ns", CPtr)].

Definition pid__bindgen_ty_1 : ctype := CStruct 1 [("ino", u64_); ("pidfs_hash", rhash_head);
  ("stashed", CPtr); ("attr", CPtr)].

Definition pid : ctype := CStruct 1 [("count", refcount_t); ("level", c_uint); ("lock",
  spinlock_t); ("__bindgen_anon_1", pid__bindgen_ty_1); ("tasks", CArray 4 hlist_head);
  ("inodes", hlist_head); ("wait_pidfd", wait_queue_head_t); ("rcu", callback_head); ("numbers",
  __IncompleteArrayField upid)].

Definition pidfs_attr__bindgen_ty_1 : ctype := CStruct 1 [("cgroupid", __u64); ("exit_code",
  __s32)].

Definition pidfs_attr : ctype := CStruct 1 [("attr_mask", c_ulong); ("xattrs", CPtr);
  ("__bindgen_anon_1", pidfs_attr__bindgen_ty_1); ("coredump_mask", __u32); ("coredump_signal",
  __u32)].

Definition pinctrl : ctype := CStruct 1 [("node", list_head); ("dev", CPtr); ("states",
  list_head); ("state", CPtr); ("dt_maps", list_head); ("users", kref)].

Definition pinctrl_state : ctype := CStruct 1 [("node", list_head); ("name", CPtr); ("settings",
  list_head)].

Definition pipe_buf_operations : ctype := CStruct 1 [("confirm", CPtr); ("release", CPtr);
  ("try_steal", CPtr); ("get", CPtr)].

Definition pipe_buffer : ctype := CStruct 1 [("page", CPtr); ("offset", c_uint); ("len",
  c_uint); ("ops", CPtr); ("flags", c_uint); ("private", c_ulong)].

Definition pipe_inode_info : ctype := CStruct 1 [("mutex", mutex); ("rd_wait",
  wait_queue_head_t); ("wr_wait", wait_queue_head_t); ("max_usage", c_uint); ("ring_size",
  c_uint); ("nr_accounted", c_uint); ("readers", c_uint); ("writers", c_uint); ("files",
  c_uint); ("r_counter", c_uint); ("w_counter", c_uint); ("poll_usage", bool_); ("note_loss",
  bool_); ("tmp_page", CArray 2 CPtr); ("fasync_readers", CPtr); ("fasync_writers", CPtr);
  ("bufs", CPtr); ("user", CPtr); ("watch_queue", CPtr)].

Definition pm_subsys_data : ctype := CStruct 1 [("lock", spinlock_t); ("refcount", c_uint);
  ("clock_op_might_sleep", c_uint); ("clock_mutex", mutex); ("clock_list", list_head);
  ("domain_data", CPtr)].

Definition pneigh_entry__bindgen_ty_1 : ctype := CUnion 1 [("free_node", list_head); ("rcu",
  callback_head)].

Definition pneigh_entry : ctype := CStruct 1 [("next", CPtr); ("net", possible_net_t); ("dev",
  CPtr); ("dev_tracker", netdevice_tracker); ("__bindgen_anon_1", pneigh_entry__bindgen_ty_1);
  ("flags", u32_); ("protocol", u8_); ("permanent", bool_); ("key", __IncompleteArrayField
  u32_)].

Definition pnfs_commit_ops : ctype := CStruct 1 [("_unused", CArray 0 CU8)].

Definition pnfs_ds_commit_info : ctype := CStruct 1 [("commits", list_head); ("nwritten",
  c_uint); ("ncommitting", c_uint); ("ops", CPtr)].

Definition pollfd : ctype := CStruct 1 [("fd", c_int); ("events", c_short); ("revents",
  c_short)].

Definition pool_workqueue : ctype := CStruct 1 [("pool", CPtr); ("wq", CPtr); ("work_color",
  c_int); ("flush_color", c_int); ("refcnt", c_int); ("nr_in_flight", CArray 16 c_int);
  ("plugged", bool_); ("nr_active", c_int); ("inactive_works", list_head); ("pending_node",
  list_head); ("pwqs_node", list_head); ("mayday_node", list_head); ("mayday_cursor",
  work_struct); ("stats", CArray 8 u64_); ("release_work", kthread_work); ("rcu",
  callback_head); ("_bitfield_align_1", CArray 0 CU8); ("_bitfield_1", __BindgenBitfieldUnit
  192)].

Definition posix_acl_hdr : ctype := CStruct 1 [("a_refcount", refcount_t); ("a_count", c_uint);
  ("a_rcu", callback_head)].

Definition posix_acl_entry__bindgen_ty_1 : ctype := CUnion 1 [("e_uid", kuid_t); ("e_gid",
  kgid_t)].

Definition posix_acl_entry : ctype := CStruct 1 [("e_tag", c_short); ("e_perm", c_ushort);
  ("__bindgen_anon_1", posix_acl_entry__bindgen_ty_1)].

Definition posix_acl__bindgen_ty_1__bindgen_ty_1 : ctype := CStruct 1 [("a_refcount",
  refcount_t); ("a_count", c_uint); ("a_rcu", callback_head)].

Definition posix_acl__bindgen_ty_1 : ctype := CUnion 1 [("__bindgen_anon_1",
  posix_acl__bindgen_ty_1__bindgen_ty_1); ("hdr", posix_acl_hdr)].

Definition posix_acl : ctype := CStruct 1 [("__bindgen_anon_1", posix_acl__bindgen_ty_1);
  ("a_entries", __IncompleteArrayField posix_acl_entry)].

Definition pr_held_reservation : ctype := CStruct 1 [("key", u64_); ("generation", u32_);
  ("type_", pr_type__Type)].

Definition pr_keys : ctype := CStruct 1 [("generation", u32_); ("num_keys", u32_); ("keys",
  __IncompleteArrayField u64_)].

Definition pr_ops : ctype := CStruct 1 [("pr_register", CPtr); ("pr_reserve", CPtr);
  ("pr_release", CPtr); ("pr_preempt", CPtr); ("pr_clear", CPtr); ("pr_read_keys", CPtr);
  ("pr_read_reservation", CPtr)].

Definition prefix_info__bindgen_ty_1 : ctype := CUnion 1 [("flags", __u8); ("__bindgen_anon_1",
  prefix_info__bindgen_ty_1__bindgen_ty_1)].

Definition prefix_info : ctype := CStruct 1 [("type_", __u8); ("length", __u8); ("prefix_len",
  __u8); ("__bindgen_anon_1", prefix_info__bindgen_ty_1); ("valid", __be32); ("prefered",
  __be32); ("reserved2", __be32); ("prefix", in6_addr)].

Definition proc_dir_entry__bindgen_ty_1 : ctype := CUnion 1 [("proc_ops", CPtr);
  ("proc_dir_ops", CPtr)].

Definition proc_dir_entry__bindgen_ty_2 : ctype := CUnion 1 [("seq_ops", CPtr); ("single_show",
  CPtr)].

Definition proc_write_t : ctype := CPtr.

Definition nlink_t : ctype := u32_.

Definition proc_dir_entry : ctype := CStruct 1 [("in_use", atomic_t); ("refcnt", refcount_t);
  ("pde_openers", list_head); ("pde_unload_lock", spinlock_t); ("pde_unload_completion", CPtr);
  ("proc_iops", CPtr); ("__bindgen_anon_1", proc_dir_entry__bindgen_ty_1); ("__bindgen_anon_2",
  proc_dir_entry__bindgen_ty_2); ("write", proc_write_t); ("data", CPtr); ("state_size",
  c_uint); ("low_ino", c_uint); ("nlink", nlink_t); ("uid", kuid_t); ("gid", kgid_t); ("size",
  loff_t); ("parent", CPtr); ("subdir", rb_root); ("subdir_node", rb_node); ("name", CPtr);
  ("mode", umode_t); ("flags", u8_); ("namelen", u8_); ("inline_name", __IncompleteArrayField
  c_char)].

Definition proc_ns_operations : ctype := CStruct 1 [("name", CPtr); ("real_ns_name", CPtr);
  ("get", CPtr); ("put", CPtr); ("install", CPtr); ("owner", CPtr); ("get_parent", CPtr)].

Definition proc_ops : ctype := CStruct 1 [("proc_flags", c_uint); ("proc_open", CPtr);
  ("proc_read", CPtr); ("proc_read_iter", CPtr); ("proc_write", CPtr); ("proc_lseek", CPtr);
  ("proc_release", CPtr); ("proc_poll", CPtr); ("proc_ioctl", CPtr); ("proc_compat_ioctl",
  CPtr); ("proc_mmap", CPtr); ("proc_get_unmapped_area", CPtr)].

Definition prog_entry : ctype := CStruct 1 [("target", c_int); ("when_to_branch", c_int);
  ("pred", CPtr)].

Definition property : ctype := CStruct 1 [("name", CPtr); ("length", c_int); ("value", CPtr);
  ("next", CPtr)].

Definition prot_inuse : ctype := CStruct 1 [("all", c_int); ("val", CArray 64 c_int)].

Definition proto__bindgen_ty_1 : ctype := CUnion 1 [("hashinfo", CPtr); ("udp_table", CPtr);
  ("raw_hash", CPtr); ("smc_hash", CPtr)].

Definition proto : ctype := CStruct 1 [("close", CPtr); ("pre_connect", CPtr); ("connect",
  CPtr); ("disconnect", CPtr); ("accept", CPtr); ("ioctl", CPtr); ("init", CPtr); ("destroy",
  CPtr); ("shutdown", CPtr); ("setsockopt", CPtr); ("getsockopt", CPtr); ("keepalive", CPtr);
  ("compat_ioctl", CPtr); ("sendmsg", CPtr); ("recvmsg", CPtr); ("splice_eof", CPtr); ("bind",
  CPtr); ("bind_add", CPtr); ("backlog_rcv", CPtr); ("bpf_bypass_getsockopt", CPtr);
  ("release_cb", CPtr); ("hash", CPtr); ("unhash", CPtr); ("rehash", CPtr); ("get_port", CPtr);
  ("put_port", CPtr); ("psock_update_sk_prot", CPtr); ("inuse_idx", c_uint);
  ("stream_memory_free", CPtr); ("sock_is_readable", CPtr); ("enter_memory_pressure", CPtr);
  ("leave_memory_pressure", CPtr); ("memory_allocated", CPtr); ("per_cpu_fw_alloc", CPtr);
  ("sockets_allocated", CPtr); ("memory_pressure", CPtr); ("sysctl_mem", CPtr); ("sysctl_wmem",
  CPtr); ("sysctl_rmem", CPtr); ("sysctl_wmem_offset", u32_); ("sysctl_rmem_offset", u32_);
  ("max_header", c_int); ("no_autobind", bool_); ("slab", CPtr); ("obj_size", c_uint);
  ("freeptr_offset", c_uint); ("ipv6_pinfo_offset", c_uint); ("slab_flags", slab_flags_t);
  ("useroffset", c_uint); ("usersize", c_uint); ("rsk_prot", CPtr); ("twsk_prot", CPtr); ("h",
  proto__bindgen_ty_1); ("owner", CPtr); ("name", CArray 32 c_char); ("node", list_head);
  ("diag_destroy", CPtr)].

Definition proto_accept_arg : ctype := CStruct 1 [("flags", c_int); ("err", c_int); ("is_empty",
  c_int); ("kern", bool_)].

Definition proto_ops : ctype := CStruct 1 [("family", c_int); ("owner", CPtr); ("release",
  CPtr); ("bind", CPtr); ("connect", CPtr); ("socketpair", CPtr); ("accept", CPtr); ("getname",
  CPtr); ("poll", CPtr); ("ioctl", CPtr); ("compat_ioctl", CPtr); ("gettstamp", CPtr);
  ("listen", CPtr); ("shutdown", CPtr); ("setsockopt", CPtr); ("getsockopt", CPtr);
  ("show_fdinfo", CPtr); ("sendmsg", CPtr); ("recvmsg", CPtr); ("mmap", CPtr); ("splice_read",
  CPtr); ("splice_eof", CPtr); ("set_peek_off", CPtr); ("peek_len", CPtr); ("read_sock", CPtr);
  ("read_skb", CPtr); ("sendmsg_locked", CPtr); ("set_rcvlowat", CPtr)].

Definition psample_group : ctype := CStruct 1 [("list", list_head); ("net", CPtr); ("group_num",
  u32_); ("refcount", u32_); ("seq", u32_); ("rcu", callback_head)].

Definition pse_admin_state : ctype := CStruct 1 [("podl_admin_state",
  ethtool_podl_pse_admin_state__Type); ("c33_admin_state", ethtool_c33_pse_admin_state__Type)].

Definition pse_control : ctype := CStruct 1 [("pcdev", CPtr); ("ps", CPtr); ("list", list_head);
  ("id", c_uint); ("refcnt", kref); ("attached_phydev", CPtr)].

Definition pse_ntf : ctype := CStruct 1 [("id", c_int); ("notifs", c_ulong)].

Definition pse_controller_dev__bindgen_ty_1__bindgen_ty_1 : ctype := CUnion 1 [("kfifo",
  __kfifo); ("type_", CPtr); ("const_type", CPtr); ("rectype", CPtr); ("ptr", CPtr);
  ("ptr_const", CPtr)].

Definition pse_controller_dev__bindgen_ty_1 : ctype := CStruct 1 [("__bindgen_anon_1",
  pse_controller_dev__bindgen_ty_1__bindgen_ty_1); ("buf", __IncompleteArrayField pse_ntf)].

Definition pse_controller_dev : ctype := CStruct 1 [("ops", CPtr); ("owner", CPtr); ("list",
  list_head); ("pse_control_head", list_head); ("dev", CPtr); ("of_pse_n_cells", c_int);
  ("nr_lines", c_uint); ("lock", mutex); ("types", ethtool_pse_types__Type); ("pi", CPtr);
  ("no_of_pse_pi", bool_); ("irq", c_int); ("pis_prio_max", c_uint);
  ("supp_budget_eval_strategies", u32_); ("ntf_work", work_struct); ("ntf_fifo",
  pse_controller_dev__bindgen_ty_1); ("ntf_fifo_lock", spinlock_t)].

Definition pse_controller_ops : ctype := CStruct 1 [("setup_pi_matrix", CPtr);
  ("pi_get_admin_state", CPtr); ("pi_get_pw_status", CPtr); ("pi_get_ext_state", CPtr);
  ("pi_get_pw_class", CPtr); ("pi_get_actual_pw", CPtr); ("pi_enable", CPtr); ("pi_disable",
  CPtr); ("pi_get_voltage", CPtr); ("pi_get_pw_limit", CPtr); ("pi_set_pw_limit", CPtr);
  ("pi_get_pw_limit_ranges", CPtr); ("pi_get_prio", CPtr); ("pi_set_prio", CPtr);
  ("pi_get_pw_req", CPtr)].

Definition pse_ext_state_info : ctype := CStruct 1 [("c33_ext_state_info",
  ethtool_c33_pse_ext_state_info)].

Definition pse_pi_pairset : ctype := CStruct 1 [("pinout", pse_pi_pairset_pinout__Type); ("np",
  CPtr)].

Definition pse_pi : ctype := CStruct 1 [("pairset", CArray 2 pse_pi_pairset); ("np", CPtr);
  ("rdev", CPtr); ("admin_state_enabled", bool_); ("pw_d", CPtr); ("prio", c_int);
  ("isr_pd_detected", bool_); ("pw_allocated_mW", c_int)].

Definition pse_power_domain : ctype := CStruct 1 [("id", c_int); ("supply", CPtr); ("refcnt",
  kref); ("budget_eval_strategy", u32_)].

Definition pse_pw_limit_ranges : ctype := CStruct 1 [("c33_pw_limit_ranges", CPtr)].

Definition pse_pw_status : ctype := CStruct 1 [("podl_pw_status",
  ethtool_podl_pse_pw_d_status__Type); ("c33_pw_status", ethtool_c33_pse_pw_d_status__Type)].

Definition psi_group : ctype := CStruct 1 [("parent", CPtr); ("enabled", bool_); ("avgs_lock",
  mutex); ("pcpu", CPtr); ("avg_total", CArray 7 u64_); ("avg_last_update", u64_);
  ("avg_next_update", u64_); ("avgs_work", delayed_work); ("avg_triggers", list_head);
  ("avg_nr_triggers", CArray 7 u32_); ("total", CArray 14 u64_); ("avg", CArray 21 c_ulong);
  ("rtpoll_task", CPtr); ("rtpoll_timer", timer_list); ("rtpoll_wait", wait_queue_head_t);
  ("rtpoll_wakeup", atomic_t); ("rtpoll_scheduled", atomic_t); ("rtpoll_trigger_lock", mutex);
  ("rtpoll_triggers", list_head); ("rtpoll_nr_triggers", CArray 7 u32_); ("rtpoll_states",
  u32_); ("rtpoll_min_period", u64_); ("rtpoll_total", CArray 7 u64_); ("rtpoll_next_update",
  u64_); ("rtpoll_until", u64_)].

Definition psi_group_cpu : ctype := CStruct 1 [("tasks", CArray 4 c_uint); ("state_mask", u32_);
  ("times", CArray 8 u32_); ("state_start", u64_); ("times_prev", CArray 16 u32_)].

Definition psp_key_parsed : ctype := CStruct 1 [("spi", __be32); ("key", CArray 32 u8_)].

Definition psp_assoc : ctype := CStruct 1 [("psd", CPtr); ("dev_id", u16_); ("generation", u8_);
  ("version", u8_); ("peer_tx", u8_); ("upgrade_seq", u32_); ("tx", psp_key_parsed); ("rx",
  psp_key_parsed); ("refcnt", refcount_t); ("rcu", callback_head); ("work", work_struct);
  ("assocs_list", list_head); ("drv_data", __IncompleteArrayField u8_)].

Definition psp_dev_config : ctype := CStruct 1 [("versions", u32_)].

Definition psp_dev__bindgen_ty_1 : ctype := CStruct 1 [("rotations", c_ulong); ("stales",
  c_ulong)].

Definition psp_dev : ctype := CStruct 1 [("main_netdev", CPtr); ("ops", CPtr); ("caps", CPtr);
  ("drv_priv", CPtr); ("lock", mutex); ("refcnt", refcount_t); ("id", u32_); ("generation",
  u8_); ("config", psp_dev_config); ("active_assocs", list_head); ("prev_assocs", list_head);
  ("stale_assocs", list_head); ("stats", psp_dev__bindgen_ty_1); ("rcu", callback_head)].

Definition psp_dev_caps : ctype := CStruct 1 [("versions", u32_); ("assoc_drv_spc", u32_)].

Definition psp_dev_ops : ctype := CStruct 1 [("set_config", CPtr); ("key_rotate", CPtr);
  ("rx_spi_alloc", CPtr); ("tx_key_add", CPtr); ("tx_key_del", CPtr); ("get_stats", CPtr)].

Definition psp_dev_stats__bindgen_ty_1__bindgen_ty_1 : ctype := CStruct 1 [("rx_packets", u64_);
  ("rx_bytes", u64_); ("rx_auth_fail", u64_); ("rx_error", u64_); ("rx_bad", u64_);
  ("tx_packets", u64_); ("tx_bytes", u64_); ("tx_error", u64_)].

Definition psp_dev_stats__bindgen_ty_1__bindgen_ty_2__bindgen_ty_1 : ctype := CStruct 1 [].

Definition psp_dev_stats__bindgen_ty_1__bindgen_ty_2 : ctype := CStruct 1 [("__empty_required",
  psp_dev_stats__bindgen_ty_1__bindgen_ty_2__bindgen_ty_1); ("required", __IncompleteArrayField
  u64_)].

Definition psp_dev_stats__bindgen_ty_1 : ctype := CStruct 1 [("__bindgen_anon_1",
  __BindgenUnionField psp_dev_stats__bindgen_ty_1__bindgen_ty_1); ("__bindgen_anon_2",
  __BindgenUnionField psp_dev_stats__bindgen_ty_1__bindgen_ty_2); ("bindgen_union_field", CArray
  8 CU64)].

Definition psp_dev_stats : ctype := CStruct 1 [("__bindgen_anon_1",
  psp_dev_stats__bindgen_ty_1)].

Definition qc_dqblk : ctype := CStruct 1 [("d_fieldmask", c_int); ("d_spc_hardlimit", u64_);
  ("d_spc_softlimit", u64_); ("d_ino_hardlimit", u64_); ("d_ino_softlimit", u64_); ("d_space",
  u64_); ("d_ino_count", u64_); ("d_ino_timer", s64); ("d_spc_timer", s64); ("d_ino_warns",
  c_int); ("d_spc_warns", c_int); ("d_rt_spc_hardlimit", u64_); ("d_rt_spc_softlimit", u64_);
  ("d_rt_space", u64_); ("d_rt_spc_timer", s64); ("d_rt_spc_warns", c_int)].

Definition qc_info : ctype := CStruct 1 [("i_fieldmask", c_int); ("i_flags", c_uint);
  ("i_spc_timelimit", c_uint); ("i_ino_timelimit", c_uint); ("i_rt_spc_timelimit", c_uint);
  ("i_spc_warnlimit", c_uint); ("i_ino_warnlimit", c_uint); ("i_rt_spc_warnlimit", c_uint)].

Definition qc_type_state : ctype := CStruct 1 [("flags", c_uint); ("spc_timelimit", c_uint);
  ("ino_timelimit", c_uint); ("rt_spc_timelimit", c_uint); ("spc_warnlimit", c_uint);
  ("ino_warnlimit", c_uint); ("rt_spc_warnlimit", c_uint); ("ino", c_ulonglong); ("blocks",
  blkcnt_t); ("nextents", blkcnt_t)].

Definition qc_state : ctype := CStruct 1 [("s_incoredqs", c_uint); ("s_state", CArray 3
  qc_type_state)].

Definition tc_sizespec : ctype := CStruct 1 [("cell_log", c_uchar); ("size_log", c_uchar);
  ("cell_align", c_short); ("overhead", c_int); ("linklayer", c_uint); ("mpu", c_uint); ("mtu",
  c_uint); ("tsize", c_uint)].

Definition qdisc_size_table : ctype := CStruct 1 [("rcu", callback_head); ("list", list_head);
  ("szopts", tc_sizespec); ("refcnt", c_int); ("data", __IncompleteArrayField u16_)].

Definition quota_format_ops : ctype := CStruct 1 [("check_quota_file", CPtr); ("read_file_info",
  CPtr); ("write_file_info", CPtr); ("free_file_info", CPtr); ("read_dqblk", CPtr);
  ("commit_dqblk", CPtr); ("release_dqblk", CPtr); ("get_next_id", CPtr)].

Definition quota_format_type : ctype := CStruct 1 [("qf_fmt_id", c_int); ("qf_ops", CPtr);
  ("qf_owner", CPtr); ("qf_next", CPtr)].

Definition quotactl_ops : ctype := CStruct 1 [("quota_on", CPtr); ("quota_off", CPtr);
  ("quota_enable", CPtr); ("quota_disable", CPtr); ("quota_sync", CPtr); ("set_info", CPtr);
  ("get_dqblk", CPtr); ("get_nextdqblk", CPtr); ("set_dqblk", CPtr); ("get_state", CPtr);
  ("rm_xquota", CPtr)].

Definition rate_sample : ctype := CStruct 1 [("prior_mstamp", u64_); ("prior_delivered", u32_);
  ("prior_delivered_ce", u32_); ("delivered", s32); ("delivered_ce", s32); ("interval_us",
  c_long); ("snd_interval_us", u32_); ("rcv_interval_us", u32_); ("rtt_us", c_long); ("losses",
  c_int); ("acked_sacked", u32_); ("prior_in_flight", u32_); ("last_end_seq", u32_);
  ("is_app_limited", bool_); ("is_retrans", bool_); ("is_ack_delayed", bool_)].

Definition raw_hashinfo : ctype := CStruct 1 [("lock", spinlock_t); ("_bitfield_align_1", CArray
  0 CU8); ("_bitfield_1", __BindgenBitfieldUnit 56); ("ht", CArray 256 hlist_head)].

Definition rb_irq_work : ctype := CStruct 1 [("work", irq_work); ("waiters", wait_queue_head_t);
  ("full_waiters", wait_queue_head_t); ("seq", atomic_t); ("waiters_pending", bool_);
  ("full_waiters_pending", bool_); ("wakeup_full", bool_)].

Definition rb_time_struct : ctype := CStruct 1 [("time", local64_t)].

Definition rchan : ctype := CStruct 1 [("version", u32_); ("subbuf_size", CU64); ("n_subbufs",
  CU64); ("alloc_size", CU64); ("cb", CPtr); ("kref", kref); ("private_data", CPtr); ("buf",
  CPtr); ("is_global", c_int); ("list", list_head); ("parent", CPtr); ("has_base_filename",
  c_int); ("base_filename", CArray 255 c_char)].

Definition rchan_callbacks : ctype := CStruct 1 [("subbuf_start", CPtr); ("create_buf_file",
  CPtr); ("remove_buf_file", CPtr)].

Definition rcu_exp_work : ctype := CStruct 1 [("rew_s", c_ulong); ("rew_work", kthread_work)].

Definition rcu_node : ctype := CStruct 1 [("lock", raw_spinlock_t); ("gp_seq", c_ulong);
  ("gp_seq_needed", c_ulong); ("completedqs", c_ulong); ("qsmask", c_ulong);
  ("rcu_gp_init_mask", c_ulong); ("qsmaskinit", c_ulong); ("qsmaskinitnext", c_ulong);
  ("expmask", c_ulong); ("expmaskinit", c_ulong); ("expmaskinitnext", c_ulong); ("exp_kworker",
  CPtr); ("cbovldmask", c_ulong); ("ffmask", c_ulong); ("grpmask", c_ulong); ("grplo", c_int);
  ("grphi", c_int); ("grpnum", u8_); ("level", u8_); ("wait_blkd_tasks", bool_); ("parent",
  CPtr); ("blkd_tasks", list_head); ("gp_tasks", CPtr); ("exp_tasks", CPtr); ("boost_tasks",
  CPtr); ("boost_mtx", rt_mutex); ("boost_time", c_ulong); ("kthread_mutex", mutex);
  ("boost_kthread_task", CPtr); ("boost_kthread_status", c_uint); ("n_boosts", c_ulong);
  ("nocb_gp_wq", CArray 2 swait_queue_head); ("_bitfield_align_1", CArray 0 CU8);
  ("_bitfield_1", __BindgenBitfieldUnit 56); ("fqslock", raw_spinlock_t); ("_bitfield_align_2",
  CArray 0 CU8); ("_bitfield_2", __BindgenBitfieldUnit 56); ("__bindgen_padding_0", CU32);
  ("exp_lock", spinlock_t); ("exp_seq_rq", c_ulong); ("exp_wq", CArray 4 wait_queue_head_t);
  ("rew", rcu_exp_work); ("exp_need_flush", bool_); ("exp_poll_lock", raw_spinlock_t);
  ("exp_seq_poll_rq", c_ulong); ("exp_poll_wq", work_struct); ("_bitfield_align_3", CArray 0
  CU8); ("_bitfield_3", __BindgenBitfieldUnit 48)].

Definition rdma_ah_init_attr : ctype := CStruct 1 [("ah_attr", CPtr); ("flags", u32_);
  ("xmit_slave", CPtr)].

Definition rdma_cgroup : ctype := CStruct 1 [("css", cgroup_subsys_state); ("rpools",
  list_head)].

Definition rdma_counter : ctype := CStruct 1 [("res", rdma_restrack_entry); ("device", CPtr);
  ("id", CU32); ("kref", kref); ("mode", rdma_counter_mode); ("lock", mutex); ("stats", CPtr);
  ("port", u32_)].

Definition rdma_hw_stats : ctype := CStruct 1 [("lock", mutex); ("timestamp", c_ulong);
  ("lifespan", c_ulong); ("descs", CPtr); ("is_disabled", CPtr); ("num_counters", c_int);
  ("value", __IncompleteArrayField u64_)].

Definition rdma_link_ops : ctype := CStruct 1 [("list", list_head); ("type_", CPtr); ("newlink",
  CPtr)].

Definition rdma_netdev_alloc_params : ctype := CStruct 1 [("sizeof_priv", CU64); ("txqs",
  c_uint); ("rxqs", c_uint); ("param", CPtr); ("initialize_rdma_netdev", CPtr)].

Definition rdma_stat_desc : ctype := CStruct 1 [("name", CPtr); ("flags", c_uint); ("priv_",
  CPtr)].

Definition rdma_user_mmap_entry : ctype := CStruct 1 [("ref_", kref); ("ucontext", CPtr);
  ("start_pgoff", c_ulong); ("npages", CU64); ("driver_removed", bool_); ("dmabufs_lock",
  mutex); ("dmabufs", list_head)].

Definition readahead_control : ctype := CStruct 1 [("file", CPtr); ("mapping", CPtr); ("ra",
  CPtr); ("_index", c_ulong); ("_nr_pages", c_uint); ("_batch_count", c_uint); ("dropbehind",
  bool_); ("_workingset", bool_); ("_pflags", c_ulong)].

Definition reclaim_state : ctype := CStruct 1 [("reclaimed", c_ulong); ("mm_walk", CPtr)].

Definition reg_default : ctype := CStruct 1 [("reg", c_uint); ("def", c_uint)].

Definition reg_sequence : ctype := CStruct 1 [("reg", c_uint); ("def", c_uint); ("delay_us",
  c_uint)].

Definition regcache_ops : ctype := CStruct 1 [("name", CPtr); ("type_", regcache_type__Type);
  ("init", CPtr); ("exit", CPtr); ("populate", CPtr); ("debugfs_init", CPtr); ("read", CPtr);
  ("write", CPtr); ("sync", CPtr); ("drop", CPtr)].

Definition regex_match_func : ctype := CPtr.

Definition regex : ctype := CStruct 1 [("pattern", CArray 256 c_char); ("len", c_int);
  ("field_len", c_int); ("match_", regex_match_func)].

Definition regmap_format : ctype := CStruct 1 [("buf_size", CU64); ("reg_bytes", CU64);
  ("pad_bytes", CU64); ("val_bytes", CU64); ("reg_shift", s8); ("format_write", CPtr);
  ("format_reg", CPtr); ("format_val", CPtr); ("parse_val", CPtr); ("parse_inplace", CPtr)].

Definition regmap__bindgen_ty_1__bindgen_ty_1 : ctype := CStruct 1 [("spinlock", spinlock_t);
  ("spinlock_flags", c_ulong)].

Definition regmap__bindgen_ty_1__bindgen_ty_2 : ctype := CStruct 1 [("raw_spinlock",
  raw_spinlock_t); ("raw_spinlock_flags", c_ulong)].

Definition regmap__bindgen_ty_1 : ctype := CUnion 1 [("mutex", mutex); ("__bindgen_anon_1",
  regmap__bindgen_ty_1__bindgen_ty_1); ("__bindgen_anon_2",
  regmap__bindgen_ty_1__bindgen_ty_2)].

Definition regmap_lock : ctype := CPtr.

Definition regmap_unlock : ctype := CPtr.

Definition regmap : ctype := CStruct 1 [("__bindgen_anon_1", regmap__bindgen_ty_1); ("lock_key",
  CPtr); ("lock", regmap_lock); ("unlock", regmap_unlock); ("lock_arg", CPtr); ("alloc_flags",
  gfp_t); ("reg_base", c_uint); ("dev", CPtr); ("work_buf", CPtr); ("format", regmap_format);
  ("bus", CPtr); ("bus_context", CPtr); ("name", CPtr); ("async_lock", spinlock_t);
  ("async_waitq", wait_queue_head_t); ("async_list", list_head); ("async_free", list_head);
  ("async_ret", c_int); ("async_", bool_); ("debugfs_disable", bool_); ("debugfs", CPtr);
  ("debugfs_name", CPtr); ("debugfs_reg_len", c_uint); ("debugfs_val_len", c_uint);
  ("debugfs_tot_len", c_uint); ("debugfs_off_cache", list_head); ("cache_lock", mutex);
  ("max_register", c_uint); ("max_register_is_set", bool_); ("writeable_reg", CPtr);
  ("readable_reg", CPtr); ("volatile_reg", CPtr); ("precious_reg", CPtr);
  ("writeable_noinc_reg", CPtr); ("readable_noinc_reg", CPtr); ("wr_table", CPtr); ("rd_table",
  CPtr); ("volatile_table", CPtr); ("precious_table", CPtr); ("wr_noinc_table", CPtr);
  ("rd_noinc_table", CPtr); ("reg_read", CPtr); ("reg_write", CPtr); ("reg_update_bits", CPtr);
  ("read", CPtr); ("write", CPtr); ("reg_default_cb", CPtr); ("read_flag_mask", c_ulong);
  ("write_flag_mask", c_ulong); ("reg_shift", c_int); ("reg_stride", c_int);
  ("reg_stride_order", c_int); ("defer_caching", bool_); ("force_write_field", bool_);
  ("cache_ops", CPtr); ("cache_type", regcache_type__Type); ("cache_size_raw", c_uint);
  ("cache_word_size", c_uint); ("num_reg_defaults", c_uint); ("num_reg_defaults_raw", c_uint);
  ("cache_only", bool_); ("cache_bypass", bool_); ("cache_free", bool_); ("reg_defaults", CPtr);
  ("reg_defaults_raw", CPtr); ("cache", CPtr); ("cache_dirty", bool_); ("no_sync_defaults",
  bool_); ("patch", CPtr); ("patch_regs", c_int); ("can_sleep", bool_); ("use_single_read",
  bool_); ("use_single_write", bool_); ("can_multi_write", bool_); ("max_raw_read", CU64);
  ("max_raw_write", CU64); ("range_tree", rb_root); ("selector_work_buf", CPtr); ("hwlock",
  CPtr)].

Definition regmap_access_table : ctype := CStruct 1 [("yes_ranges", CPtr); ("n_yes_ranges",
  c_uint); ("no_ranges", CPtr); ("n_no_ranges", c_uint)].

Definition regmap_async : ctype := CStruct 1 [("list", list_head); ("map", CPtr); ("work_buf",
  CPtr)].

Definition regmap_hw_write : ctype := CPtr.

Definition regmap_hw_gather_write : ctype := CPtr.

Definition regmap_hw_async_write : ctype := CPtr.

Definition regmap_hw_reg_write : ctype := CPtr.

Definition regmap_hw_reg_noinc_write : ctype := CPtr.

Definition regmap_hw_reg_update_bits : ctype := CPtr.

Definition regmap_hw_read : ctype := CPtr.

Definition regmap_hw_reg_read : ctype := CPtr.

Definition regmap_hw_reg_noinc_read : ctype := CPtr.

Definition regmap_hw_free_context : ctype := CPtr.

Definition regmap_hw_async_alloc : ctype := CPtr.

Definition regmap_bus : ctype := CStruct 1 [("fast_io", bool_); ("free_on_exit", bool_);
  ("write", regmap_hw_write); ("gather_write", regmap_hw_gather_write); ("async_write",
  regmap_hw_async_write); ("reg_write", regmap_hw_reg_write); ("reg_noinc_write",
  regmap_hw_reg_noinc_write); ("reg_update_bits", regmap_hw_reg_update_bits); ("read",
  regmap_hw_read); ("reg_read", regmap_hw_reg_read); ("reg_noinc_read",
  regmap_hw_reg_noinc_read); ("free_context", regmap_hw_free_context); ("async_alloc",
  regmap_hw_async_alloc); ("read_flag_mask", u8_); ("reg_format_endian_default",
  regmap_endian__Type); ("val_format_endian_default", regmap_endian__Type); ("max_raw_read",
  CU64); ("max_raw_write", CU64)].

Definition regmap_range : ctype := CStruct 1 [("range_min", c_uint); ("range_max", c_uint)].

Definition regulator_config : ctype := CStruct 1 [("dev", CPtr); ("init_data", CPtr);
  ("driver_data", CPtr); ("of_node", CPtr); ("regmap", CPtr); ("ena_gpiod", CPtr)].

Definition regulator_consumer_supply : ctype := CStruct 1 [("dev_name", CPtr); ("supply",
  CPtr)].

Definition regulator_coupler : ctype := CStruct 1 [("list", list_head); ("attach_regulator",
  CPtr); ("detach_regulator", CPtr); ("balance_voltage", CPtr)].

Definition regulator_enable_gpio : ctype := CStruct 1 [("list", list_head); ("gpiod", CPtr);
  ("enable_count", u32_); ("request_count", u32_)].

Definition regulator_ops : ctype := CStruct 1 [("list_voltage", CPtr); ("set_voltage", CPtr);
  ("map_voltage", CPtr); ("set_voltage_sel", CPtr); ("get_voltage", CPtr); ("get_voltage_sel",
  CPtr); ("set_current_limit", CPtr); ("get_current_limit", CPtr); ("set_input_current_limit",
  CPtr); ("set_over_current_protection", CPtr); ("set_over_voltage_protection", CPtr);
  ("set_under_voltage_protection", CPtr); ("set_thermal_protection", CPtr);
  ("set_active_discharge", CPtr); ("enable", CPtr); ("disable", CPtr); ("is_enabled", CPtr);
  ("set_mode", CPtr); ("get_mode", CPtr); ("get_error_flags", CPtr); ("enable_time", CPtr);
  ("set_ramp_delay", CPtr); ("set_voltage_time", CPtr); ("set_voltage_time_sel", CPtr);
  ("set_soft_start", CPtr); ("get_status", CPtr); ("get_optimum_mode", CPtr); ("set_load",
  CPtr); ("set_bypass", CPtr); ("get_bypass", CPtr); ("set_suspend_voltage", CPtr);
  ("set_suspend_enable", CPtr); ("set_suspend_disable", CPtr); ("set_suspend_mode", CPtr);
  ("resume", CPtr); ("set_pull_down", CPtr)].

Definition regulatory_request : ctype := CStruct 1 [("callback_head", callback_head);
  ("wiphy_idx", c_int); ("initiator", nl80211_reg_initiator__Type); ("user_reg_hint_type",
  nl80211_user_reg_hint_type__Type); ("alpha2", CArray 3 c_char); ("dfs_region",
  nl80211_dfs_regions__Type); ("intersect", bool_); ("processed", bool_); ("country_ie_env",
  environment_cap__Type); ("list", list_head)].

Definition request__bindgen_ty_1 : ctype := CUnion 1 [("queuelist", list_head); ("rq_next",
  CPtr)].

Definition request__bindgen_ty_2 : ctype := CUnion 1 [("hash", hlist_node); ("ipi_list",
  llist_node)].

Definition request__bindgen_ty_3 : ctype := CUnion 1 [("rb_node", rb_node); ("special_vec",
  bio_vec)].

Definition request__bindgen_ty_4 : ctype := CStruct 1 [("icq", CPtr); ("priv_", CArray 2 CPtr)].

Definition rq_end_io_fn : ctype := CPtr.

Definition request__bindgen_ty_5 : ctype := CStruct 1 [("seq", c_uint); ("saved_end_io",
  rq_end_io_fn)].

Definition request : ctype := CStruct 1 [("q", CPtr); ("mq_ctx", CPtr); ("mq_hctx", CPtr);
  ("cmd_flags", blk_opf_t); ("rq_flags", req_flags_t); ("tag", c_int); ("internal_tag", c_int);
  ("timeout", c_uint); ("__data_len", c_uint); ("__sector", sector_t); ("bio", CPtr);
  ("biotail", CPtr); ("__bindgen_anon_1", request__bindgen_ty_1); ("part", CPtr);
  ("alloc_time_ns", u64_); ("start_time_ns", u64_); ("io_start_time_ns", u64_); ("wbt_flags",
  c_ushort); ("stats_sectors", c_ushort); ("nr_phys_segments", c_ushort);
  ("nr_integrity_segments", c_ushort); ("phys_gap_bit", c_uchar); ("crypt_ctx", CPtr);
  ("crypt_keyslot", CPtr); ("state", mq_rq_state__Type); ("ref_", atomic_t); ("deadline",
  c_ulong); ("__bindgen_anon_2", request__bindgen_ty_2); ("__bindgen_anon_3",
  request__bindgen_ty_3); ("elv", request__bindgen_ty_4); ("flush", request__bindgen_ty_5);
  ("fifo_time", u64_); ("end_io", rq_end_io_fn); ("end_io_data", CPtr)].

Definition request_queue : ctype := CStruct 1 [("queuedata", CPtr); ("elevator", CPtr);
  ("mq_ops", CPtr); ("queue_ctx", CPtr); ("queue_flags", c_ulong); ("rq_timeout", c_uint);
  ("queue_depth", c_uint); ("refs", refcount_t); ("nr_hw_queues", c_uint); ("queue_hw_ctx",
  CPtr); ("q_usage_counter", percpu_ref); ("io_lock_cls_key", lock_class_key);
  ("io_lockdep_map", lockdep_map); ("q_lock_cls_key", lock_class_key); ("q_lockdep_map",
  lockdep_map); ("last_merge", CPtr); ("queue_lock", spinlock_t); ("quiesce_depth", c_int);
  ("disk", CPtr); ("mq_kobj", CPtr); ("limits", queue_limits); ("dev", CPtr); ("rpm_status",
  rpm_status__Type); ("pm_only", atomic_t); ("stats", CPtr); ("rq_qos", CPtr); ("rq_qos_mutex",
  mutex); ("id", c_int); ("nr_requests", c_uint); ("async_depth", c_uint); ("crypto_profile",
  CPtr); ("crypto_kobject", CPtr); ("timeout", timer_list); ("timeout_work", work_struct);
  ("nr_active_requests_shared_tags", atomic_t); ("sched_shared_tags", CPtr); ("icq_list",
  list_head); ("blkcg_pols", CArray 1 c_ulong); ("root_blkg", CPtr); ("blkg_list", list_head);
  ("blkcg_mutex", mutex); ("node", c_int); ("requeue_lock", spinlock_t); ("requeue_list",
  list_head); ("requeue_work", delayed_work); ("blk_trace", CPtr); ("fq", CPtr); ("flush_list",
  list_head); ("elevator_lock", mutex); ("sysfs_lock", mutex); ("limits_lock", mutex);
  ("unused_hctx_list", list_head); ("unused_hctx_lock", spinlock_t); ("mq_freeze_depth", c_int);
  ("td", CPtr); ("callback_head", callback_head); ("mq_freeze_wq", wait_queue_head_t);
  ("mq_freeze_lock", mutex); ("tag_set", CPtr); ("tag_set_list", list_head); ("debugfs_dir",
  CPtr); ("sched_debugfs_dir", CPtr); ("rqos_debugfs_dir", CPtr); ("debugfs_mutex", mutex)].

Definition request_sock_ops : ctype := CStruct 1 [("family", c_int); ("obj_size", c_uint);
  ("slab", CPtr); ("slab_name", CPtr); ("send_ack", CPtr); ("send_reset", CPtr); ("destructor",
  CPtr)].

Definition reset_control : ctype := CStruct 1 [("rcdev", CPtr); ("list", list_head); ("id",
  c_uint); ("refcnt", kref); ("acquired", bool_); ("shared", bool_); ("array", bool_);
  ("deassert_count", atomic_t); ("triggered_count", atomic_t)].

Definition reset_control_ops : ctype := CStruct 1 [("reset", CPtr); ("assert", CPtr);
  ("deassert", CPtr); ("status", CPtr)].

Definition reset_controller_dev : ctype := CStruct 1 [("ops", CPtr); ("owner", CPtr); ("list",
  list_head); ("reset_control_head", list_head); ("dev", CPtr); ("of_node", CPtr); ("of_args",
  CPtr); ("of_reset_n_cells", c_int); ("of_xlate", CPtr); ("nr_resets", c_uint)].

Definition rhash_lock_head : ctype := CStruct 1 [].

Definition rhashtable_compare_arg : ctype := CStruct 1 [("ht", CPtr); ("key", CPtr)].

Definition ring_buffer_cpu_meta : ctype := CStruct 1 [("first_buffer", c_ulong); ("head_buffer",
  c_ulong); ("commit_buffer", c_ulong); ("subbuf_size", __u32); ("nr_subbufs", __u32);
  ("buffers", __IncompleteArrayField c_int)].

Definition ring_buffer_iter : ctype := CStruct 1 [("cpu_buffer", CPtr); ("head", c_ulong);
  ("next_event", c_ulong); ("head_page", CPtr); ("cache_reader_page", CPtr); ("cache_read",
  c_ulong); ("cache_pages_removed", c_ulong); ("read_stamp", u64_); ("page_stamp", u64_);
  ("event", CPtr); ("event_size", CU64); ("missed_events", c_int)].

Definition ring_buffer_meta : ctype := CStruct 1 [("magic", c_int); ("struct_sizes", c_int);
  ("total_size", c_ulong); ("buffers_offset", c_ulong)].

Definition rb_time_t : ctype := rb_time_struct.

Definition ring_buffer_per_cpu : ctype := CStruct 1 [("cpu", c_int); ("record_disabled",
  atomic_t); ("resize_disabled", atomic_t); ("buffer", CPtr); ("reader_lock", raw_spinlock_t);
  ("lock", arch_spinlock_t); ("lock_key", lock_class_key); ("free_page", CPtr); ("nr_pages",
  c_ulong); ("current_context", c_uint); ("pages", CPtr); ("cnt", c_ulong); ("head_page", CPtr);
  ("tail_page", CPtr); ("commit_page", CPtr); ("reader_page", CPtr); ("lost_events", c_ulong);
  ("last_overrun", c_ulong); ("nest", c_ulong); ("entries_bytes", local_t); ("entries",
  local_t); ("overrun", local_t); ("commit_overrun", local_t); ("dropped_events", local_t);
  ("committing", local_t); ("commits", local_t); ("pages_touched", local_t); ("pages_lost",
  local_t); ("pages_read", local_t); ("last_pages_touch", c_long); ("shortest_full", CU64);
  ("read", c_ulong); ("read_bytes", c_ulong); ("write_stamp", rb_time_t); ("before_stamp",
  rb_time_t); ("event_stamp", CArray 5 u64_); ("read_stamp", u64_); ("pages_removed", c_ulong);
  ("mapped", c_uint); ("user_mapped", c_uint); ("mapping_lock", mutex); ("subbuf_ids", CPtr);
  ("meta_page", CPtr); ("ring_meta", CPtr); ("nr_pages_to_update", c_long); ("new_pages",
  list_head); ("update_pages_work", work_struct); ("update_done", completion); ("irq_work",
  rb_irq_work)].

Definition robust_list : ctype := CStruct 1 [("next", CPtr)].

Definition robust_list_head : ctype := CStruct 1 [("list", robust_list); ("futex_offset",
  c_long); ("list_op_pending", CPtr)].

Definition root_domain : ctype := CStruct 1 [("refcount", atomic_t); ("rto_count", atomic_t);
  ("rcu", callback_head); ("span", cpumask_var_t); ("online", cpumask_var_t); ("overloaded",
  bool_); ("overutilized", bool_); ("dlo_mask", cpumask_var_t); ("dlo_count", atomic_t);
  ("dl_bw", dl_bw); ("cpudl", cpudl); ("visit_cookie", u64_); ("rto_push_work", irq_work);
  ("rto_lock", raw_spinlock_t); ("rto_loop", c_int); ("rto_cpu", c_int); ("rto_loop_next",
  atomic_t); ("rto_loop_start", atomic_t); ("rto_mask", cpumask_var_t); ("cpupri", cpupri);
  ("pd", CPtr)].

Definition rpc_cred_cache : ctype := CStruct 1 [("_unused", CArray 0 CU8)].

Definition rpc_auth : ctype := CStruct 1 [("au_cslack", c_uint); ("au_rslack", c_uint);
  ("au_verfsize", c_uint); ("au_ralign", c_uint); ("au_flags", c_ulong); ("au_ops", CPtr);
  ("au_flavor", rpc_authflavor_t); ("au_count", refcount_t); ("au_credcache", CPtr)].

Definition rpc_auth_create_args : ctype := CStruct 1 [("pseudoflavor", rpc_authflavor_t);
  ("target_name", CPtr)].

Definition rpc_authops : ctype := CStruct 1 [("owner", CPtr); ("au_flavor", rpc_authflavor_t);
  ("au_name", CPtr); ("create", CPtr); ("destroy", CPtr); ("hash_cred", CPtr); ("lookup_cred",
  CPtr); ("crcreate", CPtr); ("info2flavor", CPtr); ("flavor2info", CPtr); ("key_timeout",
  CPtr); ("ping", CPtr)].

Definition rpc_call_ops : ctype := CStruct 1 [("rpc_call_prepare", CPtr); ("rpc_call_done",
  CPtr); ("rpc_count_stats", CPtr); ("rpc_release", CPtr)].

Definition rpc_iostats : ctype := CStruct 1 [("_unused", CArray 0 CU8)].

Definition rpc_cred : ctype := CStruct 1 [("cr_hash", hlist_node); ("cr_lru", list_head);
  ("cr_rcu", callback_head); ("cr_auth", CPtr); ("cr_ops", CPtr); ("cr_expire", c_ulong);
  ("cr_flags", c_ulong); ("cr_count", refcount_t); ("cr_cred", CPtr)].

Definition rpc_credops : ctype := CStruct 1 [("cr_name", CPtr); ("cr_init", CPtr); ("crdestroy",
  CPtr); ("crmatch", CPtr); ("crmarshal", CPtr); ("crrefresh", CPtr); ("crvalidate", CPtr);
  ("crwrap_req", CPtr); ("crunwrap_resp", CPtr); ("crkey_timeout", CPtr);
  ("crstringify_acceptor", CPtr); ("crneed_reencode", CPtr)].

Definition kxdreproc_t : ctype := CPtr.

Definition kxdrdproc_t : ctype := CPtr.

Definition rpc_procinfo : ctype := CStruct 1 [("p_proc", u32_); ("p_encode", kxdreproc_t);
  ("p_decode", kxdrdproc_t); ("p_arglen", c_uint); ("p_replen", c_uint); ("p_timer", c_uint);
  ("p_statidx", u32_); ("p_name", CPtr)].

Definition rpc_program : ctype := CStruct 1 [("name", CPtr); ("number", u32_); ("nrvers",
  c_uint); ("version", CPtr); ("stats", CPtr); ("pipe_dir_name", CPtr)].

Definition xdr_buf : ctype := CStruct 1 [("head", CArray 1 kvec); ("tail", CArray 1 kvec);
  ("bvec", CPtr); ("pages", CPtr); ("page_base", c_uint); ("page_len", c_uint); ("flags",
  c_uint); ("buflen", c_uint); ("len", c_uint)].

Definition rpc_rqst__bindgen_ty_1 : ctype := CUnion 1 [("rq_list", list_head); ("rq_recv",
  rb_node)].

Definition rpc_rqst : ctype := CStruct 1 [("rq_xprt", CPtr); ("rq_snd_buf", xdr_buf);
  ("rq_rcv_buf", xdr_buf); ("rq_task", CPtr); ("rq_cred", CPtr); ("rq_xid", __be32); ("rq_cong",
  c_int); ("rq_seqnos", CArray 3 u32_); ("rq_seqno_count", c_uint); ("rq_enc_pages_num", c_int);
  ("rq_enc_pages", CPtr); ("rq_release_snd_buf", CPtr); ("__bindgen_anon_1",
  rpc_rqst__bindgen_ty_1); ("rq_xmit", list_head); ("rq_xmit2", list_head); ("rq_buffer", CPtr);
  ("rq_callsize", CU64); ("rq_rbuffer", CPtr); ("rq_rcvsize", CU64); ("rq_xmit_bytes_sent",
  CU64); ("rq_reply_bytes_recvd", CU64); ("rq_private_buf", xdr_buf); ("rq_majortimeo",
  c_ulong); ("rq_minortimeo", c_ulong); ("rq_timeout", c_ulong); ("rq_rtt", ktime_t);
  ("rq_retries", c_uint); ("rq_connect_cookie", c_uint); ("rq_pin", atomic_t); ("rq_bytes_sent",
  u32_); ("rq_xtime", ktime_t); ("rq_ntrans", c_int); ("rq_bc_list", lwq_node);
  ("rq_bc_pa_state", c_ulong); ("rq_bc_pa_list", list_head)].

Definition rpc_stat : ctype := CStruct 1 [("program", CPtr); ("netcnt", c_uint); ("netudpcnt",
  c_uint); ("nettcpcnt", c_uint); ("nettcpconn", c_uint); ("netreconn", c_uint); ("rpccnt",
  c_uint); ("rpcretrans", c_uint); ("rpcauthrefresh", c_uint); ("rpcgarbage", c_uint)].

Definition rpc_sysfs_client : ctype := CStruct 1 [("kobject", kobject); ("net", CPtr); ("clnt",
  CPtr); ("xprt_switch", CPtr)].

Definition rpc_version : ctype := CStruct 1 [("number", u32_); ("nrprocs", c_uint); ("procs",
  CPtr); ("counts", CPtr)].

Definition svc_xprt : ctype := CStruct 1 [("_unused", CArray 0 CU8)].

Definition rpc_sysfs_xprt : ctype := CStruct 1 [("_unused", CArray 0 CU8)].

Definition rpc_xprt_iter_ops : ctype := CStruct 1 [("xpi_rewind", CPtr); ("xpi_xprt", CPtr);
  ("xpi_next", CPtr)].

Definition rpc_xprt_ops : ctype := CStruct 1 [("set_buffer_size", CPtr); ("reserve_xprt", CPtr);
  ("release_xprt", CPtr); ("alloc_slot", CPtr); ("free_slot", CPtr); ("rpcbind", CPtr);
  ("set_port", CPtr); ("connect", CPtr); ("get_srcaddr", CPtr); ("get_srcport", CPtr);
  ("buf_alloc", CPtr); ("buf_free", CPtr); ("prepare_request", CPtr); ("send_request", CPtr);
  ("abort_send_request", CPtr); ("wait_for_reply_request", CPtr); ("timer", CPtr);
  ("release_request", CPtr); ("close", CPtr); ("destroy", CPtr); ("set_connect_timeout", CPtr);
  ("print_stats", CPtr); ("enable_swap", CPtr); ("disable_swap", CPtr); ("inject_disconnect",
  CPtr); ("bc_setup", CPtr); ("bc_maxpayload", CPtr); ("bc_num_slots", CPtr); ("bc_free_rqst",
  CPtr); ("bc_destroy", CPtr)].

Definition rpc_sysfs_xprt_switch : ctype := CStruct 1 [("_unused", CArray 0 CU8)].

Definition rpc_xprt_switch : ctype := CStruct 1 [("xps_lock", spinlock_t); ("xps_kref", kref);
  ("xps_id", c_uint); ("xps_nxprts", c_uint); ("xps_nactive", c_uint);
  ("xps_nunique_destaddr_xprts", c_uint); ("xps_queuelen", atomic_long_t); ("xps_xprt_list",
  list_head); ("xps_net", CPtr); ("xps_iter_ops", CPtr); ("xps_sysfs", CPtr); ("xps_rcu",
  callback_head)].

Definition rpcsec_gss_info : ctype := CStruct 1 [("oid", rpcsec_gss_oid); ("qop", u32_);
  ("service", u32_)].

Definition rps_dev_flow : ctype := CStruct 1 [("cpu", u16_); ("filter", u16_); ("last_qtail",
  c_uint); ("hash", u32_)].

Definition rps_dev_flow_table : ctype := CStruct 1 [("log", u8_); ("rcu", callback_head);
  ("flows", __IncompleteArrayField rps_dev_flow)].

Definition rps_map : ctype := CStruct 1 [("len", c_uint); ("rcu", callback_head); ("cpus",
  __IncompleteArrayField u16_)].

Definition rq_qos_ops : ctype := CStruct 1 [("throttle", CPtr); ("track", CPtr); ("merge",
  CPtr); ("issue", CPtr); ("requeue", CPtr); ("done", CPtr); ("done_bio", CPtr); ("cleanup",
  CPtr); ("queue_depth_changed", CPtr); ("exit", CPtr); ("debugfs_attrs", CPtr)].

Definition rt6_exception_bucket : ctype := CStruct 1 [("chain", hlist_head); ("depth", c_int)].

Definition rt6_statistics : ctype := CStruct 1 [("fib_nodes", __u32); ("fib_route_nodes",
  __u32); ("fib_rt_entries", __u32); ("fib_rt_cache", __u32); ("fib_discarded_routes", __u32);
  ("fib_rt_alloc", atomic_t)].

Definition rt_waiter_node : ctype := CStruct 1 [("entry", rb_node); ("prio", c_int);
  ("deadline", u64_)].

Definition rt_mutex_waiter : ctype := CStruct 1 [("tree", rt_waiter_node); ("pi_tree",
  rt_waiter_node); ("task", CPtr); ("lock", CPtr); ("wake_state", c_uint); ("ww_ctx", CPtr)].

Definition rtnl_link_ops : ctype := CStruct 1 [("list", list_head); ("srcu", srcu_struct);
  ("kind", CPtr); ("priv_size", CU64); ("alloc", CPtr); ("setup", CPtr); ("netns_refund",
  bool_); ("peer_type", u16_); ("maxtype", c_uint); ("policy", CPtr); ("validate", CPtr);
  ("newlink", CPtr); ("changelink", CPtr); ("dellink", CPtr); ("get_size", CPtr); ("fill_info",
  CPtr); ("get_xstats_size", CPtr); ("fill_xstats", CPtr); ("get_num_tx_queues", CPtr);
  ("get_num_rx_queues", CPtr); ("slave_maxtype", c_uint); ("slave_policy", CPtr);
  ("slave_changelink", CPtr); ("get_slave_size", CPtr); ("fill_slave_info", CPtr);
  ("get_link_net", CPtr); ("get_linkxstats_size", CPtr); ("fill_linkxstats", CPtr)].

Definition rtnl_link_stats64 : ctype := CStruct 1 [("rx_packets", __u64); ("tx_packets", __u64);
  ("rx_bytes", __u64); ("tx_bytes", __u64); ("rx_errors", __u64); ("tx_errors", __u64);
  ("rx_dropped", __u64); ("tx_dropped", __u64); ("multicast", __u64); ("collisions", __u64);
  ("rx_length_errors", __u64); ("rx_over_errors", __u64); ("rx_crc_errors", __u64);
  ("rx_frame_errors", __u64); ("rx_fifo_errors", __u64); ("rx_missed_errors", __u64);
  ("tx_aborted_errors", __u64); ("tx_carrier_errors", __u64); ("tx_fifo_errors", __u64);
  ("tx_heartbeat_errors", __u64); ("tx_window_errors", __u64); ("rx_compressed", __u64);
  ("tx_compressed", __u64); ("rx_nohandler", __u64); ("rx_otherhost_dropped", __u64)].

Definition rtnl_newlink_params : ctype := CStruct 1 [("src_net", CPtr); ("link_net", CPtr);
  ("peer_net", CPtr); ("tb", CPtr); ("data", CPtr)].

Definition saved_syn : ctype := CStruct 1 [("mac_hdrlen", u32_); ("network_hdrlen", u32_);
  ("tcp_hdrlen", u32_); ("data", __IncompleteArrayField u8_)].

Definition sbitmap_word : ctype := CStruct 1 [("word", c_ulong); ("_bitfield_align_1", CArray 0
  CU8); ("_bitfield_1", __BindgenBitfieldUnit 56); ("cleared", c_ulong); ("swap_lock",
  raw_spinlock_t); ("_bitfield_align_2", CArray 0 CU8); ("_bitfield_2", __BindgenBitfieldUnit
  48); ("__bindgen_padding_0", CU32)].

Definition sbq_wait_state : ctype := CStruct 1 [("wait", wait_queue_head_t);
  ("_bitfield_align_1", CArray 0 CU8); ("_bitfield_1", __BindgenBitfieldUnit 40)].

Definition sched_class : ctype := CStruct 1 [("uclamp_enabled", c_int); ("enqueue_task", CPtr);
  ("dequeue_task", CPtr); ("yield_task", CPtr); ("yield_to_task", CPtr); ("wakeup_preempt",
  CPtr); ("balance", CPtr); ("pick_task", CPtr); ("pick_next_task", CPtr); ("put_prev_task",
  CPtr); ("set_next_task", CPtr); ("select_task_rq", CPtr); ("migrate_task_rq", CPtr);
  ("task_woken", CPtr); ("set_cpus_allowed", CPtr); ("rq_online", CPtr); ("rq_offline", CPtr);
  ("find_lock_rq", CPtr); ("task_tick", CPtr); ("task_fork", CPtr); ("task_dead", CPtr);
  ("switching_from", CPtr); ("switched_from", CPtr); ("switching_to", CPtr); ("switched_to",
  CPtr); ("get_prio", CPtr); ("prio_changed", CPtr); ("reweight_task", CPtr);
  ("get_rr_interval", CPtr); ("update_curr", CPtr); ("task_change_group", CPtr);
  ("task_is_throttled", CPtr)].

Definition sched_domain__bindgen_ty_1 : ctype := CUnion 1 [("private", CPtr); ("rcu",
  callback_head)].

Definition sched_domain : ctype := CStruct 1 [("parent", CPtr); ("child", CPtr); ("groups",
  CPtr); ("min_interval", c_ulong); ("max_interval", c_ulong); ("busy_factor", c_uint);
  ("imbalance_pct", c_uint); ("cache_nice_tries", c_uint); ("imb_numa_nr", c_uint);
  ("nohz_idle", c_int); ("flags", c_int); ("level", c_int); ("last_balance", c_ulong);
  ("balance_interval", c_uint); ("nr_balance_failed", c_uint); ("newidle_call", c_uint);
  ("newidle_success", c_uint); ("newidle_ratio", c_uint); ("max_newidle_lb_cost", u64_);
  ("last_decay_max_lb_cost", c_ulong); ("lb_count", CArray 3 c_uint); ("lb_failed", CArray 3
  c_uint); ("lb_balanced", CArray 3 c_uint); ("lb_imbalance_load", CArray 3 c_uint);
  ("lb_imbalance_util", CArray 3 c_uint); ("lb_imbalance_task", CArray 3 c_uint);
  ("lb_imbalance_misfit", CArray 3 c_uint); ("lb_gained", CArray 3 c_uint); ("lb_hot_gained",
  CArray 3 c_uint); ("lb_nobusyg", CArray 3 c_uint); ("lb_nobusyq", CArray 3 c_uint);
  ("alb_count", c_uint); ("alb_failed", c_uint); ("alb_pushed", c_uint); ("sbe_count", c_uint);
  ("sbe_balanced", c_uint); ("sbe_pushed", c_uint); ("sbf_count", c_uint); ("sbf_balanced",
  c_uint); ("sbf_pushed", c_uint); ("ttwu_wake_remote", c_uint); ("ttwu_move_affine", c_uint);
  ("ttwu_move_balance", c_uint); ("name", CPtr); ("__bindgen_anon_1",
  sched_domain__bindgen_ty_1); ("shared", CPtr); ("span_weight", c_uint)].

Definition sched_domain_shared : ctype := CStruct 1 [("ref_", atomic_t); ("nr_busy_cpus",
  atomic_t); ("has_idle_cores", c_int); ("nr_idle_scan", c_int)].

Definition sched_group : ctype := CStruct 1 [("next", CPtr); ("ref_", atomic_t);
  ("group_weight", c_uint); ("cores", c_uint); ("sgc", CPtr); ("asym_prefer_cpu", c_int);
  ("flags", c_int); ("cpumask", __IncompleteArrayField c_ulong)].

Definition sched_group_capacity : ctype := CStruct 1 [("ref_", atomic_t); ("capacity", c_ulong);
  ("min_capacity", c_ulong); ("max_capacity", c_ulong); ("next_update", c_ulong); ("imbalance",
  c_int); ("id", c_int); ("cpumask", __IncompleteArrayField c_ulong)].

Definition scsi_sense_hdr : ctype := CStruct 1 [("response_code", u8_); ("sense_key", u8_);
  ("asc", u8_); ("ascq", u8_); ("byte4", u8_); ("byte5", u8_); ("byte6", u8_);
  ("additional_length", u8_)].

Definition seccomp_filter : ctype := CStruct 1 [("refs", refcount_t); ("users", refcount_t);
  ("log", bool_); ("wait_killable_recv", bool_); ("cache", action_cache); ("prev", CPtr);
  ("prog", CPtr); ("notif", CPtr); ("notify_lock", mutex); ("wqh", wait_queue_head_t)].

Definition seg6_pernet_data : ctype := CStruct 1 [("lock", mutex); ("tun_src", CPtr);
  ("hmac_infos", rhashtable)].

Definition sem_undo_list : ctype := CStruct 1 [("refcnt", refcount_t); ("lock", spinlock_t);
  ("list_proc", list_head)].

Definition seq_operations : ctype := CStruct 1 [("start", CPtr); ("stop", CPtr); ("next", CPtr);
  ("show", CPtr)].

Definition serial_icounter_struct : ctype := CStruct 1 [("cts", c_int); ("dsr", c_int); ("rng",
  c_int); ("dcd", c_int); ("rx", c_int); ("tx", c_int); ("frame", c_int); ("overrun", c_int);
  ("parity", c_int); ("brk", c_int); ("buf_overrun", c_int); ("reserved", CArray 9 c_int)].

Definition serial_struct : ctype := CStruct 1 [("type_", c_int); ("line", c_int); ("port",
  c_uint); ("irq", c_int); ("flags", c_int); ("xmit_fifo_size", c_int); ("custom_divisor",
  c_int); ("baud_base", c_int); ("close_delay", c_ushort); ("io_type", c_char);
  ("reserved_char", CArray 1 c_char); ("hub6", c_int); ("closing_wait", c_ushort);
  ("closing_wait2", c_ushort); ("iomem_base", CPtr); ("iomem_reg_shift", c_ushort);
  ("port_high", c_uint); ("iomap_base", c_ulong)].

Definition sfp : ctype := CStruct 1 [("_unused", CArray 0 CU8)].

Definition sfp_module_caps : ctype := CStruct 1 [("interfaces", CArray 1 c_ulong);
  ("link_modes", CArray 2 c_ulong); ("may_have_phy", bool_); ("port", u8_)].

Definition sfp_bus : ctype := CStruct 1 [("kref", kref); ("node", list_head); ("fwnode", CPtr);
  ("socket_ops", CPtr); ("sfp_dev", CPtr); ("sfp", CPtr); ("upstream_ops", CPtr); ("upstream",
  CPtr); ("phydev", CPtr); ("registered", bool_); ("started", bool_); ("caps",
  sfp_module_caps)].

Definition sfp_eeprom_ext : ctype := CStruct 1 [("options", __be16); ("br_max", u8_); ("br_min",
  u8_); ("vendor_sn", CArray 16 c_char); ("datecode", CArray 8 c_char); ("diagmon", u8_);
  ("enhopts", u8_); ("sff8472_compliance", u8_); ("cc_ext", u8_)].

Definition sfp_eeprom_id : ctype := CStruct 1 [("base", sfp_eeprom_base); ("ext",
  sfp_eeprom_ext)].

Definition sfp_socket_ops : ctype := CStruct 1 [("attach", CPtr); ("detach", CPtr); ("start",
  CPtr); ("stop", CPtr); ("set_signal_rate", CPtr); ("module_info", CPtr); ("module_eeprom",
  CPtr); ("module_eeprom_by_page", CPtr)].

Definition sfp_upstream_ops : ctype := CStruct 1 [("attach", CPtr); ("detach", CPtr);
  ("module_insert", CPtr); ("module_remove", CPtr); ("module_start", CPtr); ("module_stop",
  CPtr); ("link_down", CPtr); ("link_up", CPtr); ("connect_phy", CPtr); ("disconnect_phy",
  CPtr)].

Definition shrink_control : ctype := CStruct 1 [("gfp_mask", gfp_t); ("nid", c_int);
  ("nr_to_scan", c_ulong); ("nr_scanned", c_ulong); ("memcg", CPtr)].

Definition shrinker : ctype := CStruct 1 [("count_objects", CPtr); ("scan_objects", CPtr);
  ("batch", c_long); ("seeks", c_int); ("flags", c_uint); ("refcount", refcount_t); ("done",
  completion); ("rcu", callback_head); ("private_data", CPtr); ("list", list_head); ("id",
  c_int); ("debugfs_id", c_int); ("name", CPtr); ("debugfs_entry", CPtr); ("nr_deferred",
  CPtr)].

Definition shrinker_info : ctype := CStruct 1 [("rcu", callback_head); ("map_nr_max", c_int);
  ("unit", __IncompleteArrayField CPtr)].

Definition shrinker_info_unit : ctype := CStruct 1 [("nr_deferred", CArray 64 atomic_long_t);
  ("map", CArray 1 c_ulong)].

Definition sighand_struct : ctype := CStruct 1 [("siglock", spinlock_t); ("count", refcount_t);
  ("signalfd_wqh", wait_queue_head_t); ("action", CArray 64 k_sigaction)].

Definition sk_filter : ctype := CStruct 1 [("refcnt", refcount_t); ("rcu", callback_head);
  ("prog", CPtr)].

Definition sk_psock_work_state : ctype := CStruct 1 [("len", u32_); ("off", u32_)].

Definition sk_psock : ctype := CStruct 1 [("sk", CPtr); ("sk_redir", CPtr); ("apply_bytes",
  u32_); ("cork_bytes", u32_); ("eval", u32_); ("redir_ingress", bool_); ("cork", CPtr);
  ("progs", sk_psock_progs); ("strp", strparser); ("copied_seq", u32_); ("ingress_bytes", u32_);
  ("ingress_skb", sk_buff_head); ("ingress_msg", list_head); ("ingress_lock", spinlock_t);
  ("msg_tot_len", u32_); ("state", c_ulong); ("link", list_head); ("link_lock", spinlock_t);
  ("refcnt", refcount_t); ("saved_unhash", CPtr); ("saved_destroy", CPtr); ("saved_close",
  CPtr); ("saved_write_space", CPtr); ("saved_data_ready", CPtr); ("psock_update_sk_prot",
  CPtr); ("sk_proto", CPtr); ("work_mutex", mutex); ("work_state", sk_psock_work_state);
  ("work", delayed_work); ("sk_pair", CPtr); ("rwork", rcu_work)].

Definition skb_ext : ctype := CStruct 1 [("refcnt", refcount_t); ("offset", CArray 7 u8_);
  ("chunks", u8_); ("__bindgen_padding_0", CArray 4 CU8); ("data", __IncompleteArrayField
  c_char)].

Definition skb_shared_hwtstamps__bindgen_ty_1 : ctype := CUnion 1 [("hwtstamp", ktime_t);
  ("netdev_data", CPtr)].

Definition skb_shared_hwtstamps : ctype := CStruct 1 [("__bindgen_anon_1",
  skb_shared_hwtstamps__bindgen_ty_1)].

Definition slab_sheaf__bindgen_ty_1__bindgen_ty_1 : ctype := CStruct 1 [("capacity", c_uint);
  ("pfmemalloc", bool_)].

Definition slab_sheaf__bindgen_ty_1 : ctype := CUnion 1 [("callback_head", callback_head);
  ("barn_list", list_head); ("__bindgen_anon_1", slab_sheaf__bindgen_ty_1__bindgen_ty_1)].

Definition slab_sheaf : ctype := CStruct 1 [("__bindgen_anon_1", slab_sheaf__bindgen_ty_1);
  ("cache", CPtr); ("size", c_uint); ("node", c_int); ("objects", __IncompleteArrayField CPtr)].

Definition local_trylock_t : ctype := local_trylock.

Definition slub_percpu_sheaves : ctype := CStruct 1 [("lock", local_trylock_t); ("main", CPtr);
  ("spare", CPtr); ("rcu_free", CPtr)].

Definition smack_known : ctype := CStruct 1 [("list", list_head); ("smk_hashed", hlist_node);
  ("smk_known", CPtr); ("smk_secid", u32_); ("smk_netlabel", netlbl_lsm_secattr); ("smk_rules",
  list_head); ("smk_rules_lock", mutex)].

Definition smc_hashinfo : ctype := CStruct 1 [("lock", rwlock_t); ("ht", hlist_head)].

Definition smc_hs_ctrl : ctype := CStruct 1 [("list", list_head); ("owner", CPtr); ("name",
  CArray 16 c_char); ("flags", c_int); ("syn_option", CPtr); ("synack_option", CPtr)].

Definition sock_fprog_kern : ctype := CStruct 1 [("len", u16_); ("filter", CPtr)].

Definition sockaddr_unsized : ctype := CStruct 1 [("sa_family", __kernel_sa_family_t);
  ("sa_data", __IncompleteArrayField c_char)].

Definition srcu_node : ctype := CStruct 1 [("lock", raw_spinlock_t); ("srcu_have_cbs", CArray 4
  c_ulong); ("srcu_data_have_cbs", CArray 4 c_ulong); ("srcu_gp_seq_needed_exp", c_ulong);
  ("srcu_parent", CPtr); ("grplo", c_int); ("grphi", c_int)].

Definition static_call_key__bindgen_ty_1 : ctype := CUnion 1 [("type_", c_ulong); ("mods",
  CPtr); ("sites", CPtr)].

Definition static_call_key : ctype := CStruct 1 [("func", CPtr); ("__bindgen_anon_1",
  static_call_key__bindgen_ty_1)].

Definition static_call_mod : ctype := CStruct 1 [("next", CPtr); ("mod_", CPtr); ("sites",
  CPtr)].

Definition static_call_site : ctype := CStruct 1 [("addr", s32); ("key", s32)].

Definition static_key_mod : ctype := CStruct 1 [("next", CPtr); ("entries", CPtr); ("mod_",
  CPtr)].

Definition mtd_info : ctype := CStruct 1 [("_unused", CArray 0 CU8)].

Definition super_operations : ctype := CStruct 1 [("alloc_inode", CPtr); ("destroy_inode",
  CPtr); ("free_inode", CPtr); ("dirty_inode", CPtr); ("write_inode", CPtr); ("drop_inode",
  CPtr); ("evict_inode", CPtr); ("put_super", CPtr); ("sync_fs", CPtr); ("freeze_super", CPtr);
  ("freeze_fs", CPtr); ("thaw_super", CPtr); ("unfreeze_fs", CPtr); ("statfs", CPtr);
  ("umount_begin", CPtr); ("show_options", CPtr); ("show_devname", CPtr); ("show_path", CPtr);
  ("show_stats", CPtr); ("quota_read", CPtr); ("quota_write", CPtr); ("get_dquots", CPtr);
  ("nr_cached_objects", CPtr); ("free_cached_objects", CPtr); ("remove_bdev", CPtr);
  ("shutdown", CPtr); ("report_error", CPtr)].

Definition svc_cred : ctype := CStruct 1 [("cr_uid", kuid_t); ("cr_gid", kgid_t);
  ("cr_group_info", CPtr); ("cr_flavor", u32_); ("cr_raw_principal", CPtr); ("cr_principal",
  CPtr); ("cr_targ_princ", CPtr); ("cr_gss_mech", CPtr)].

Definition svc_deferred_req : ctype := CStruct 1 [("prot", u32_); ("xprt", CPtr); ("addr",
  __kernel_sockaddr_storage); ("addrlen", CU64); ("daddr", __kernel_sockaddr_storage);
  ("daddrlen", CU64); ("xprt_ctxt", CPtr); ("handle", cache_deferred_req); ("argslen", c_int);
  ("args", __IncompleteArrayField __be32)].

Definition svc_pool : ctype := CStruct 1 [("sp_id", c_uint); ("sp_nrthreads", c_uint);
  ("sp_nrthrmin", c_uint); ("sp_nrthrmax", c_uint); ("sp_xprts", lwq); ("sp_all_threads",
  list_head); ("sp_idle_threads", llist_head); ("sp_messages_arrived", percpu_counter);
  ("sp_sockets_queued", percpu_counter); ("sp_threads_woken", percpu_counter); ("sp_flags",
  c_ulong)].

Definition svc_procedure : ctype := CStruct 1 [("pc_func", CPtr); ("pc_decode", CPtr);
  ("pc_encode", CPtr); ("pc_release", CPtr); ("pc_argsize", c_uint); ("pc_argzero", c_uint);
  ("pc_ressize", c_uint); ("pc_cachetype", c_uint); ("pc_xdrressize", c_uint); ("pc_name",
  CPtr)].

Definition svc_process_info__bindgen_ty_1__bindgen_ty_1 : ctype := CStruct 1 [("lovers",
  c_uint); ("hivers", c_uint)].

Definition svc_process_info__bindgen_ty_1 : ctype := CUnion 1 [("dispatch", CPtr); ("mismatch",
  svc_process_info__bindgen_ty_1__bindgen_ty_1)].

Definition svc_process_info : ctype := CStruct 1 [("__bindgen_anon_1",
  svc_process_info__bindgen_ty_1)].

Definition svc_program : ctype := CStruct 1 [("pg_prog", u32_); ("pg_lovers", c_uint);
  ("pg_hivers", c_uint); ("pg_nvers", c_uint); ("pg_vers", CPtr); ("pg_name", CPtr);
  ("pg_class", CPtr); ("pg_authenticate", CPtr); ("pg_init_request", CPtr); ("pg_rpcbind_set",
  CPtr)].

Definition xdr_stream : ctype := CStruct 1 [("p", CPtr); ("buf", CPtr); ("end", CPtr); ("iov",
  CPtr); ("scratch", kvec); ("page_ptr", CPtr); ("page_kaddr", CPtr); ("nwords", c_uint);
  ("rqst", CPtr)].

Definition svc_rqst : ctype := CStruct 1 [("rq_all", list_head); ("rq_idle", llist_node);
  ("rq_rcu_head", callback_head); ("rq_xprt", CPtr); ("rq_addr", __kernel_sockaddr_storage);
  ("rq_addrlen", CU64); ("rq_daddr", __kernel_sockaddr_storage); ("rq_daddrlen", CU64);
  ("rq_server", CPtr); ("rq_pool", CPtr); ("rq_procinfo", CPtr); ("rq_authop", CPtr);
  ("rq_cred", svc_cred); ("rq_xprt_ctxt", CPtr); ("rq_deferred", CPtr); ("rq_arg", xdr_buf);
  ("rq_arg_stream", xdr_stream); ("rq_res_stream", xdr_stream); ("rq_scratch_folio", CPtr);
  ("rq_res", xdr_buf); ("rq_maxpages", c_ulong); ("rq_pages", CPtr); ("rq_respages", CPtr);
  ("rq_next_page", CPtr); ("rq_page_end", CPtr); ("rq_fbatch", folio_batch); ("rq_bvec", CPtr);
  ("rq_xid", __be32); ("rq_prog", u32_); ("rq_vers", u32_); ("rq_proc", u32_); ("rq_prot",
  u32_); ("rq_cachetype", c_int); ("rq_flags", c_ulong); ("rq_qtime", ktime_t); ("rq_argp",
  CPtr); ("rq_resp", CPtr); ("rq_accept_statp", CPtr); ("rq_auth_data", CPtr); ("rq_auth_stat",
  __be32); ("rq_auth_slack", c_int); ("rq_reserved", c_int); ("rq_stime", ktime_t);
  ("rq_chandle", cache_req); ("rq_client", CPtr); ("rq_gssclient", CPtr); ("rq_task", CPtr);
  ("rq_bc_net", CPtr); ("rq_err", c_int); ("bc_to_initval", c_ulong); ("bc_to_retries", c_uint);
  ("rq_status_counter", c_uint); ("rq_lease_breaker", CPtr)].

Definition svc_serv : ctype := CStruct 1 [("sv_programs", CPtr); ("sv_stats", CPtr); ("sv_lock",
  spinlock_t); ("sv_nprogs", c_uint); ("sv_nrthreads", c_uint); ("sv_max_payload", c_uint);
  ("sv_max_mesg", c_uint); ("sv_xdrsize", c_uint); ("sv_permsocks", list_head); ("sv_tempsocks",
  list_head); ("sv_tmpcnt", c_int); ("sv_temptimer", timer_list); ("sv_name", CPtr);
  ("sv_nrpools", c_uint); ("sv_is_pooled", bool_); ("sv_pools", CPtr); ("sv_threadfn", CPtr);
  ("sv_cb_list", lwq); ("sv_bc_enabled", bool_)].

Definition svc_stat : ctype := CStruct 1 [("program", CPtr); ("netcnt", c_uint); ("netudpcnt",
  c_uint); ("nettcpcnt", c_uint); ("nettcpconn", c_uint); ("rpccnt", c_uint); ("rpcbadfmt",
  c_uint); ("rpcbadauth", c_uint); ("rpcbadclnt", c_uint)].

Definition svc_version : ctype := CStruct 1 [("vs_vers", u32_); ("vs_nproc", u32_); ("vs_proc",
  CPtr); ("vs_count", CPtr); ("vs_xdrsize", u32_); ("vs_hidden", bool_); ("vs_rpcb_optnl",
  bool_); ("vs_need_cong_ctrl", bool_); ("vs_dispatch", CPtr)].

Definition swap_cluster_info : ctype := CStruct 1 [("lock", spinlock_t); ("count", u16_);
  ("flags", u8_); ("order", u8_); ("table", CPtr); ("list", list_head)].

Definition swap_info_struct : ctype := CStruct 1 [("users", percpu_ref); ("flags", c_ulong);
  ("prio", c_short); ("list", plist_node); ("type_", c_schar); ("max", c_uint); ("swap_map",
  CPtr); ("zeromap", CPtr); ("cluster_info", CPtr); ("free_clusters", list_head);
  ("full_clusters", list_head); ("nonfull_clusters", CArray 10 list_head); ("frag_clusters",
  CArray 10 list_head); ("pages", c_uint); ("inuse_pages", atomic_long_t); ("global_cluster",
  CPtr); ("global_cluster_lock", spinlock_t); ("swap_extent_root", rb_root); ("bdev", CPtr);
  ("swap_file", CPtr); ("comp", completion); ("lock", spinlock_t); ("cont_lock", spinlock_t);
  ("discard_work", work_struct); ("reclaim_work", work_struct); ("discard_clusters", list_head);
  ("avail_list", plist_node)].

Definition swap_sequential_cluster : ctype := CStruct 1 [("next", CArray 10 c_uint)].

Definition switchdev_mst_state : ctype := CStruct 1 [("msti", u16_); ("state", u8_)].

Definition switchdev_brport_flags : ctype := CStruct 1 [("val", c_ulong); ("mask", c_ulong)].

Definition switchdev_vlan_msti : ctype := CStruct 1 [("vid", u16_); ("msti", u16_)].

Definition switchdev_obj : ctype := CStruct 1 [("list", list_head); ("orig_dev", CPtr); ("id",
  switchdev_obj_id__Type); ("flags", u32_); ("complete_priv", CPtr); ("complete", CPtr)].

Definition switchdev_obj_mrp : ctype := CStruct 1 [("obj", switchdev_obj); ("p_port", CPtr);
  ("s_port", CPtr); ("ring_id", u32_); ("prio", u16_)].

Definition switchdev_obj_port_mdb : ctype := CStruct 1 [("obj", switchdev_obj); ("addr", CArray
  6 c_uchar); ("vid", u16_)].

Definition switchdev_obj_port_vlan : ctype := CStruct 1 [("obj", switchdev_obj); ("flags",
  u16_); ("vid", u16_); ("changed", bool_)].

Definition switchdev_obj_ring_role_mrp : ctype := CStruct 1 [("obj", switchdev_obj);
  ("ring_role", u8_); ("ring_id", u32_); ("sw_backup", u8_)].

Definition trace_event_class : ctype := CStruct 1 [("system", CPtr); ("probe", CPtr);
  ("perf_probe", CPtr); ("reg", CPtr); ("fields_array", CPtr); ("get_fields", CPtr); ("fields",
  list_head); ("raw_init", CPtr)].

Definition trace_event : ctype := CStruct 1 [("node", hlist_node); ("type_", c_int); ("funcs",
  CPtr)].

Definition trace_event_call__bindgen_ty_1 : ctype := CUnion 1 [("name", CPtr); ("tp", CPtr)].

Definition trace_event_call__bindgen_ty_2 : ctype := CUnion 1 [("module", CPtr); ("refcnt",
  atomic_t)].

Definition trace_event_call : ctype := CStruct 1 [("list", list_head); ("class", CPtr);
  ("__bindgen_anon_1", trace_event_call__bindgen_ty_1); ("event", trace_event); ("print_fmt",
  CPtr); ("__bindgen_anon_2", trace_event_call__bindgen_ty_2); ("data", CPtr); ("flags", c_int);
  ("perf_refcount", c_int); ("perf_events", CPtr); ("prog_array", CPtr); ("perf_perm", CPtr)].

Definition sysfs_ops : ctype := CStruct 1 [("show", CPtr); ("store", CPtr)].

Definition table_header : ctype := CStruct 1 [("td_id", u16_); ("td_flags", u16_); ("td_hilen",
  u32_); ("td_lolen", u32_); ("td_data", __IncompleteArrayField c_char)].

Definition task_delay_info : ctype := CStruct 1 [("lock", raw_spinlock_t); ("blkio_start",
  u64_); ("blkio_delay_max", u64_); ("blkio_delay_min", u64_); ("blkio_delay", u64_);
  ("swapin_start", u64_); ("swapin_delay_max", u64_); ("swapin_delay_min", u64_);
  ("swapin_delay", u64_); ("blkio_count", u32_); ("swapin_count", u32_); ("freepages_start",
  u64_); ("freepages_delay_max", u64_); ("freepages_delay_min", u64_); ("freepages_delay",
  u64_); ("thrashing_start", u64_); ("thrashing_delay_max", u64_); ("thrashing_delay_min",
  u64_); ("thrashing_delay", u64_); ("compact_start", u64_); ("compact_delay_max", u64_);
  ("compact_delay_min", u64_); ("compact_delay", u64_); ("wpcopy_start", u64_);
  ("wpcopy_delay_max", u64_); ("wpcopy_delay_min", u64_); ("wpcopy_delay", u64_);
  ("irq_delay_max", u64_); ("irq_delay_min", u64_); ("irq_delay", u64_); ("freepages_count",
  u32_); ("thrashing_count", u32_); ("compact_count", u32_); ("wpcopy_count", u32_);
  ("irq_count", u32_); ("blkio_delay_max_ts", timespec64); ("swapin_delay_max_ts", timespec64);
  ("freepages_delay_max_ts", timespec64); ("thrashing_delay_max_ts", timespec64);
  ("compact_delay_max_ts", timespec64); ("wpcopy_delay_max_ts", timespec64);
  ("irq_delay_max_ts", timespec64)].

Definition taskstats : ctype := CStruct 1 [("version", __u16); ("ac_exitcode", __u32);
  ("ac_flag", __u8); ("ac_nice", __u8); ("cpu_count", __u64); ("cpu_delay_total", __u64);
  ("blkio_count", __u64); ("blkio_delay_total", __u64); ("swapin_count", __u64);
  ("swapin_delay_total", __u64); ("cpu_run_real_total", __u64); ("cpu_run_virtual_total",
  __u64); ("ac_comm", CArray 32 c_char); ("ac_sched", __u8); ("ac_pad", CArray 3 __u8);
  ("__bindgen_padding_0", CU32); ("ac_uid", __u32); ("ac_gid", __u32); ("ac_pid", __u32);
  ("ac_ppid", __u32); ("ac_btime", __u32); ("ac_etime", __u64); ("ac_utime", __u64);
  ("ac_stime", __u64); ("ac_minflt", __u64); ("ac_majflt", __u64); ("coremem", __u64);
  ("virtmem", __u64); ("hiwater_rss", __u64); ("hiwater_vm", __u64); ("read_char", __u64);
  ("write_char", __u64); ("read_syscalls", __u64); ("write_syscalls", __u64); ("read_bytes",
  __u64); ("write_bytes", __u64); ("cancelled_write_bytes", __u64); ("nvcsw", __u64); ("nivcsw",
  __u64); ("ac_utimescaled", __u64); ("ac_stimescaled", __u64); ("cpu_scaled_run_real_total",
  __u64); ("freepages_count", __u64); ("freepages_delay_total", __u64); ("thrashing_count",
  __u64); ("thrashing_delay_total", __u64); ("ac_btime64", __u64); ("compact_count", __u64);
  ("compact_delay_total", __u64); ("ac_tgid", __u32); ("ac_tgetime", __u64); ("ac_exe_dev",
  __u64); ("ac_exe_inode", __u64); ("wpcopy_count", __u64); ("wpcopy_delay_total", __u64);
  ("irq_count", __u64); ("irq_delay_total", __u64); ("cpu_delay_max", __u64); ("cpu_delay_min",
  __u64); ("blkio_delay_max", __u64); ("blkio_delay_min", __u64); ("swapin_delay_max", __u64);
  ("swapin_delay_min", __u64); ("freepages_delay_max", __u64); ("freepages_delay_min", __u64);
  ("thrashing_delay_max", __u64); ("thrashing_delay_min", __u64); ("compact_delay_max", __u64);
  ("compact_delay_min", __u64); ("wpcopy_delay_max", __u64); ("wpcopy_delay_min", __u64);
  ("irq_delay_max", __u64); ("irq_delay_min", __u64); ("cpu_delay_max_ts", __kernel_timespec);
  ("blkio_delay_max_ts", __kernel_timespec); ("swapin_delay_max_ts", __kernel_timespec);
  ("freepages_delay_max_ts", __kernel_timespec); ("thrashing_delay_max_ts", __kernel_timespec);
  ("compact_delay_max_ts", __kernel_timespec); ("wpcopy_delay_max_ts", __kernel_timespec);
  ("irq_delay_max_ts", __kernel_timespec)].

Definition tc_action_ops : ctype := CStruct 1 [("head", list_head); ("kind", CArray 16 c_char);
  ("id", tca_id__Type); ("net_id", c_uint); ("size", CU64); ("owner", CPtr); ("act", CPtr);
  ("dump", CPtr); ("cleanup", CPtr); ("lookup", CPtr); ("init", CPtr); ("walk", CPtr);
  ("stats_update", CPtr); ("get_fill_size", CPtr); ("get_dev", CPtr); ("get_psample_group",
  CPtr); ("offload_act_setup", CPtr)].

Definition tc_cookie : ctype := CStruct 1 [("data", CPtr); ("len", u32_); ("rcu",
  callback_head)].

Definition tcf_walker : ctype := CStruct 1 [("stop", c_int); ("skip", c_int); ("count", c_int);
  ("nonempty", bool_); ("cookie", c_ulong); ("fn_", CPtr)].

Definition tcf_block__bindgen_ty_1 : ctype := CStruct 1 [("chain", CPtr); ("filter_chain_list",
  list_head)].

Definition tcf_block : ctype := CStruct 1 [("ports", xarray); ("lock", mutex); ("chain_list",
  list_head); ("index", u32_); ("classid", u32_); ("refcnt", refcount_t); ("net", CPtr); ("q",
  CPtr); ("cb_lock", rw_semaphore); ("flow_block", flow_block); ("owner_list", list_head);
  ("keep_dst", bool_); ("useswcnt", atomic_t); ("offloadcnt", atomic_t); ("nooffloaddevcnt",
  c_uint); ("lockeddevcnt", c_uint); ("chain0", tcf_block__bindgen_ty_1); ("rcu",
  callback_head); ("proto_destroy_ht", CArray 128 hlist_head); ("proto_destroy_lock", mutex)].

Definition tcf_chain : ctype := CStruct 1 [("filter_chain_lock", mutex); ("filter_chain", CPtr);
  ("list", list_head); ("block", CPtr); ("index", u32_); ("refcnt", c_uint); ("action_refcnt",
  c_uint); ("explicitly_created", bool_); ("flushing", bool_); ("tmplt_ops", CPtr);
  ("tmplt_priv", CPtr); ("rcu", callback_head)].

Definition tcf_exts : ctype := CStruct 1 [("type_", __u32); ("nr_actions", c_int); ("actions",
  CPtr); ("net", CPtr); ("ns_tracker", netns_tracker); ("miss_cookie_node", CPtr); ("action",
  c_int); ("police", c_int)].

Definition tcf_exts_miss_cookie_node : ctype := CStruct 1 [("chain", CPtr); ("tp", CPtr);
  ("exts", CPtr); ("chain_index", u32_); ("tp_prio", u32_); ("handle", u32_);
  ("miss_cookie_base", u32_); ("rcu", callback_head)].

Definition tcf_idrinfo : ctype := CStruct 1 [("lock", mutex); ("action_idr", idr); ("net",
  CPtr)].

Definition tcf_proto : ctype := CStruct 1 [("next", CPtr); ("root", CPtr); ("classify", CPtr);
  ("protocol", __be16); ("prio", u32_); ("data", CPtr); ("ops", CPtr); ("chain", CPtr); ("lock",
  spinlock_t); ("deleting", bool_); ("counted", bool_); ("usesw", bool_); ("refcnt",
  refcount_t); ("rcu", callback_head); ("destroy_ht_node", hlist_node)].

Definition tcf_proto_ops : ctype := CStruct 1 [("head", list_head); ("kind", CArray 16 c_char);
  ("classify", CPtr); ("init", CPtr); ("destroy", CPtr); ("get", CPtr); ("put", CPtr);
  ("change", CPtr); ("delete", CPtr); ("delete_empty", CPtr); ("walk", CPtr); ("reoffload",
  CPtr); ("hw_add", CPtr); ("hw_del", CPtr); ("bind_class", CPtr); ("tmplt_create", CPtr);
  ("tmplt_destroy", CPtr); ("tmplt_reoffload", CPtr); ("get_exts", CPtr); ("dump", CPtr);
  ("terse_dump", CPtr); ("tmplt_dump", CPtr); ("owner", CPtr); ("flags", c_int)].

Definition tcf_result__bindgen_ty_1__bindgen_ty_1 : ctype := CStruct 1 [("class", c_ulong);
  ("classid", u32_)].

Definition tcf_result__bindgen_ty_1 : ctype := CUnion 1 [("__bindgen_anon_1",
  tcf_result__bindgen_ty_1__bindgen_ty_1); ("goto_tp", CPtr)].

Definition tcf_result : ctype := CStruct 1 [("__bindgen_anon_1", tcf_result__bindgen_ty_1)].

Definition tcmsg : ctype := CStruct 1 [("tcm_family", c_uchar); ("tcm__pad1", c_uchar);
  ("tcm__pad2", c_ushort); ("tcm_ifindex", c_int); ("tcm_handle", __u32); ("tcm_parent", __u32);
  ("tcm_info", __u32)].

Definition tcp_ao_addr : ctype := CUnion 1 [("a4", in_addr); ("a6", in6_addr)].

Definition tcp_ao_key : ctype := CStruct 1 [("node", hlist_node); ("addr", tcp_ao_addr); ("key",
  CArray 80 u8_); ("tcp_sigpool_id", c_uint); ("digest_size", c_uint); ("l3index", c_int);
  ("prefixlen", u8_); ("family", u8_); ("keylen", u8_); ("keyflags", u8_); ("sndid", u8_);
  ("rcvid", u8_); ("maclen", u8_); ("rcu", callback_head); ("pkt_good", atomic64_t); ("pkt_bad",
  atomic64_t); ("traffic_keys", __IncompleteArrayField u8_)].

Definition tcp_bbr_info : ctype := CStruct 1 [("bbr_bw_lo", __u32); ("bbr_bw_hi", __u32);
  ("bbr_min_rtt", __u32); ("bbr_pacing_gain", __u32); ("bbr_cwnd_gain", __u32)].

Definition tcpvegas_info : ctype := CStruct 1 [("tcpv_enabled", __u32); ("tcpv_rttcnt", __u32);
  ("tcpv_rtt", __u32); ("tcpv_minrtt", __u32)].

Definition tcp_dctcp_info : ctype := CStruct 1 [("dctcp_enabled", __u16); ("dctcp_ce_state",
  __u16); ("dctcp_alpha", __u32); ("dctcp_ab_ecn", __u32); ("dctcp_ab_tot", __u32)].

Definition tcp_cc_info : ctype := CUnion 1 [("vegas", tcpvegas_info); ("dctcp", tcp_dctcp_info);
  ("bbr", tcp_bbr_info)].

Definition tcp_fastopen_context : ctype := CStruct 1 [("key", CArray 2 siphash_key_t); ("num",
  c_int); ("rcu", callback_head)].

Definition tcp_fastopen_cookie : ctype := CStruct 1 [("val", CArray 2 __le64); ("len", s8);
  ("exp", bool_)].

Definition tcp_fastopen_request : ctype := CStruct 1 [("cookie", tcp_fastopen_cookie); ("data",
  CPtr); ("size", CU64); ("copied", c_int); ("uarg", CPtr)].

Definition tcp_md5sig_info : ctype := CStruct 1 [("head", hlist_head); ("rcu", callback_head)].

Definition tcp_md5sig_key : ctype := CStruct 1 [("node", hlist_node); ("keylen", u8_);
  ("family", u8_); ("prefixlen", u8_); ("flags", u8_); ("addr", tcp_ao_addr); ("l3index",
  c_int); ("key", CArray 80 u8_); ("rcu", callback_head)].

Definition tcp_mib : ctype := CStruct 1 [("mibs", CArray 16 c_ulong)].

Definition tcp_sock_af_ops : ctype := CStruct 1 [("md5_lookup", CPtr); ("calc_md5_hash", CPtr);
  ("md5_parse", CPtr); ("ao_parse", CPtr); ("ao_lookup", CPtr); ("ao_calc_key_sk", CPtr);
  ("calc_ao_hash", CPtr)].

Definition tcp_ulp_ops : ctype := CStruct 1 [("list", list_head); ("init", CPtr); ("update",
  CPtr); ("release", CPtr); ("get_info", CPtr); ("get_info_size", CPtr); ("clone", CPtr);
  ("name", CArray 16 c_char); ("owner", CPtr)].

Definition throtl_service_queue : ctype := CStruct 1 [("parent_sq", CPtr); ("queued", CArray 2
  list_head); ("nr_queued_bps", CArray 2 c_uint); ("nr_queued_iops", CArray 2 c_uint);
  ("pending_tree", rb_root_cached); ("nr_pending", c_uint); ("first_pending_disptime", c_ulong);
  ("pending_timer", timer_list)].

Definition throtl_data : ctype := CStruct 1 [("service_queue", throtl_service_queue); ("queue",
  CPtr); ("nr_queued", CArray 2 c_uint); ("dispatch_work", work_struct)].

Definition timer_rand_state : ctype := CStruct 1 [("last_time", c_ulong); ("last_delta",
  c_long); ("last_delta2", c_long)].

Definition timewait_sock_ops : ctype := CStruct 1 [("twsk_slab", CPtr); ("twsk_slab_name",
  CPtr); ("twsk_obj_size", c_uint)].

Definition tlsdev_ops : ctype := CStruct 1 [("tls_dev_add", CPtr); ("tls_dev_del", CPtr);
  ("tls_dev_resync", CPtr)].

Definition tracepoint_func : ctype := CStruct 1 [("func", CPtr); ("data", CPtr); ("prio",
  c_int)].

Definition trace_array : ctype := CStruct 1 [("list", list_head); ("name", CPtr);
  ("array_buffer", array_buffer); ("snapshot_buffer", array_buffer); ("allocated_snapshot",
  bool_); ("snapshot_trigger_lock", spinlock_t); ("snapshot", c_uint); ("max_latency", c_ulong);
  ("d_max_latency", CPtr); ("fsnotify_work", work_struct); ("fsnotify_irqwork", irq_work);
  ("mapped", c_uint); ("range_addr_start", c_ulong); ("range_addr_size", c_ulong);
  ("range_name", CPtr); ("text_delta", c_long); ("module_delta", CPtr); ("scratch", CPtr);
  ("scratch_size", c_int); ("buffer_disabled", c_int); ("filtered_pids", CPtr);
  ("filtered_no_pids", CPtr); ("max_lock", arch_spinlock_t); ("sys_refcount_enter", c_int);
  ("sys_refcount_exit", c_int); ("enter_syscall_files", CArray 472 CPtr); ("exit_syscall_files",
  CArray 472 CPtr); ("stop_count", c_int); ("clock_id", c_int); ("nr_topts", c_int);
  ("clear_trace", bool_); ("buffer_percent", c_int); ("n_err_log_entries", c_uint);
  ("current_trace", CPtr); ("current_trace_flags", CPtr); ("trace_flags", u64_);
  ("trace_flags_index", CArray 64 c_uchar); ("flags", c_uint); ("start_lock", raw_spinlock_t);
  ("system_names", CPtr); ("err_log", list_head); ("dir", CPtr); ("options", CPtr);
  ("percpu_dir", CPtr); ("event_dir", CPtr); ("topts", CPtr); ("systems", list_head); ("events",
  list_head); ("marker_list", list_head); ("tracers", list_head); ("trace_marker_file", CPtr);
  ("tracing_cpumask", cpumask_var_t); ("pipe_cpumask", cpumask_var_t); ("ref_", c_int);
  ("trace_ref", c_int); ("mod_events", list_head); ("ops", CPtr); ("function_pids", CPtr);
  ("function_no_pids", CPtr); ("gops", CPtr); ("func_probes", list_head); ("mod_trace",
  list_head); ("mod_notrace", list_head); ("function_enabled", c_int);
  ("no_filter_buffering_ref", c_int); ("syscall_buf_sz", c_uint); ("hist_vars", list_head);
  ("cond_snapshot", CPtr); ("last_func_repeats", CPtr); ("ring_buffer_expanded", bool_)].

Definition trace_array_cpu : ctype := CStruct 1 [("disabled", local_t); ("entries", c_ulong);
  ("saved_latency", c_ulong); ("critical_start", c_ulong); ("critical_end", c_ulong);
  ("critical_sequence", c_ulong); ("nice", c_ulong); ("policy", c_ulong); ("rt_priority",
  c_ulong); ("skipped_entries", c_ulong); ("preempt_timestamp", u64_); ("pid", pid_t); ("uid",
  kuid_t); ("comm", CArray 16 c_char); ("ftrace_ignore_pid", c_int); ("ignore_pid", bool_)].

Definition trace_buffer : ctype := CStruct 1 [("flags", c_uint); ("cpus", c_int);
  ("record_disabled", atomic_t); ("resizing", atomic_t); ("cpumask", cpumask_var_t);
  ("reader_lock_key", CPtr); ("mutex", mutex); ("buffers", CPtr); ("node", hlist_node);
  ("clock", CPtr); ("irq_work", rb_irq_work); ("time_stamp_abs", bool_); ("range_addr_start",
  c_ulong); ("range_addr_end", c_ulong); ("meta", CPtr); ("subbuf_size", c_uint);
  ("subbuf_order", c_uint); ("max_data_size", c_uint)].

Definition trace_buffer_meta__bindgen_ty_1 : ctype := CStruct 1 [("lost_events", __u64); ("id",
  __u32); ("read", __u32)].

Definition trace_buffer_meta : ctype := CStruct 1 [("meta_page_size", __u32);
  ("meta_struct_len", __u32); ("subbuf_size", __u32); ("nr_subbufs", __u32); ("reader",
  trace_buffer_meta__bindgen_ty_1); ("flags", __u64); ("entries", __u64); ("overrun", __u64);
  ("read", __u64); ("Reserved1", __u64); ("Reserved2", __u64)].

Definition trace_eval_map : ctype := CStruct 1 [("system", CPtr); ("eval_string", CPtr);
  ("eval_value", c_ulong)].

Definition trace_event_fields__bindgen_ty_1 : ctype := CUnion 1 [("__bindgen_anon_1",
  trace_event_fields__bindgen_ty_1__bindgen_ty_1); ("define_fields", CPtr)].

Definition trace_event_fields : ctype := CStruct 1 [("type_", CPtr); ("__bindgen_anon_1",
  trace_event_fields__bindgen_ty_1)].

Definition trace_event_file : ctype := CStruct 1 [("list", list_head); ("event_call", CPtr);
  ("filter", CPtr); ("ei", CPtr); ("tr", CPtr); ("system", CPtr); ("triggers", list_head);
  ("flags", c_ulong); ("ref_", refcount_t); ("sm_ref", atomic_t); ("tm_ref", atomic_t)].

Definition trace_print_func : ctype := CPtr.

Definition trace_event_functions : ctype := CStruct 1 [("trace", trace_print_func); ("raw",
  trace_print_func); ("hex", trace_print_func); ("binary", trace_print_func)].

Definition trace_func_repeats : ctype := CStruct 1 [("ip", c_ulong); ("parent_ip", c_ulong);
  ("count", c_ulong); ("ts_last_call", u64_)].

Definition trace_module_delta : ctype := CStruct 1 [("rcu", callback_head); ("delta",
  __IncompleteArrayField c_long)].

Definition trace_option_dentry : ctype := CStruct 1 [("opt", CPtr); ("flags", CPtr); ("tr",
  CPtr); ("entry", CPtr)].

Definition trace_options : ctype := CStruct 1 [("tracer", CPtr); ("topts", CPtr)].

Definition trace_pid_list : ctype := CStruct 1 [("seqcount", seqcount_raw_spinlock_t); ("lock",
  raw_spinlock_t); ("refill_irqwork", irq_work); ("upper", CArray 256 CPtr); ("upper_list",
  CPtr); ("lower_list", CPtr); ("free_upper_chunks", c_int); ("free_lower_chunks", c_int)].

Definition trace_subsystem_dir : ctype := CStruct 1 [("list", list_head); ("subsystem", CPtr);
  ("tr", CPtr); ("ei", CPtr); ("ref_count", c_int); ("nr_events", c_int)].

Definition tracepoint : ctype := CStruct 1 [("name", CPtr); ("key", static_key_false);
  ("static_call_key", CPtr); ("static_call_tramp", CPtr); ("iterator", CPtr); ("probestub",
  CPtr); ("funcs", CPtr); ("ext", CPtr)].

Definition tracer : ctype := CStruct 1 [("name", CPtr); ("init", CPtr); ("reset", CPtr);
  ("start", CPtr); ("stop", CPtr); ("update_thresh", CPtr); ("open", CPtr); ("pipe_open", CPtr);
  ("close", CPtr); ("pipe_close", CPtr); ("read", CPtr); ("splice_read", CPtr); ("print_header",
  CPtr); ("print_line", CPtr); ("set_flag", CPtr); ("flag_changed", CPtr); ("next", CPtr);
  ("flags", CPtr); ("default_flags", CPtr); ("enabled", c_int); ("print_max", bool_);
  ("allow_instances", bool_); ("use_max_tr", bool_); ("noboot", bool_)].

Definition tracer_flags : ctype := CStruct 1 [("val", u32_); ("opts", CPtr); ("trace", CPtr)].

Definition tracer_opt : ctype := CStruct 1 [("name", CPtr); ("bit", u32_)].

Definition tty_audit_buf : ctype := CStruct 1 [("mutex", mutex); ("dev", dev_t); ("icanon",
  bool_); ("valid", CU64); ("data", CPtr)].

Definition tty_driver : ctype := CStruct 1 [("kref", kref); ("cdevs", CPtr); ("owner", CPtr);
  ("driver_name", CPtr); ("name", CPtr); ("name_base", c_int); ("major", c_int); ("minor_start",
  c_int); ("num", c_uint); ("type_", tty_driver_type__Type); ("subtype",
  tty_driver_subtype__Type); ("init_termios", ktermios); ("flags", c_ulong); ("proc_entry",
  CPtr); ("other", CPtr); ("ttys", CPtr); ("ports", CPtr); ("termios", CPtr); ("driver_state",
  CPtr); ("ops", CPtr); ("tty_drivers", list_head)].

Definition tty_ldisc : ctype := CStruct 1 [("ops", CPtr); ("tty", CPtr)].

Definition tty_ldisc_ops : ctype := CStruct 1 [("name", CPtr); ("num", c_int); ("open", CPtr);
  ("close", CPtr); ("flush_buffer", CPtr); ("read", CPtr); ("write", CPtr); ("ioctl", CPtr);
  ("compat_ioctl", CPtr); ("set_termios", CPtr); ("poll", CPtr); ("hangup", CPtr);
  ("receive_buf", CPtr); ("write_wakeup", CPtr); ("dcd_change", CPtr); ("receive_buf2", CPtr);
  ("lookahead_buf", CPtr); ("owner", CPtr)].

Definition tty_operations : ctype := CStruct 1 [("lookup", CPtr); ("install", CPtr); ("remove",
  CPtr); ("open", CPtr); ("close", CPtr); ("shutdown", CPtr); ("cleanup", CPtr); ("write",
  CPtr); ("put_char", CPtr); ("flush_chars", CPtr); ("write_room", CPtr); ("chars_in_buffer",
  CPtr); ("ioctl", CPtr); ("compat_ioctl", CPtr); ("set_termios", CPtr); ("throttle", CPtr);
  ("unthrottle", CPtr); ("stop", CPtr); ("start", CPtr); ("hangup", CPtr); ("break_ctl", CPtr);
  ("flush_buffer", CPtr); ("ldisc_ok", CPtr); ("set_ldisc", CPtr); ("wait_until_sent", CPtr);
  ("send_xchar", CPtr); ("tiocmget", CPtr); ("tiocmset", CPtr); ("resize", CPtr); ("get_icount",
  CPtr); ("get_serial", CPtr); ("set_serial", CPtr); ("show_fdinfo", CPtr); ("proc_show",
  CPtr)].

Definition tty_port_client_operations : ctype := CStruct 1 [("receive_buf", CPtr);
  ("lookahead_buf", CPtr); ("write_wakeup", CPtr)].

Definition tty_port_operations : ctype := CStruct 1 [("carrier_raised", CPtr); ("dtr_rts",
  CPtr); ("shutdown", CPtr); ("activate", CPtr); ("destruct", CPtr)].

Definition tty_struct__bindgen_ty_1 : ctype := CStruct 1 [("lock", spinlock_t); ("stopped",
  bool_); ("tco_stopped", bool_)].

Definition tty_struct__bindgen_ty_2 : ctype := CStruct 1 [("pgrp", CPtr); ("session", CPtr);
  ("lock", spinlock_t); ("pktstatus", c_uchar); ("packet", bool_)].

Definition tty_struct : ctype := CStruct 1 [("kref", kref); ("index", c_int); ("dev", CPtr);
  ("driver", CPtr); ("port", CPtr); ("ops", CPtr); ("ldisc", CPtr); ("ldisc_sem", ld_semaphore);
  ("atomic_write_lock", mutex); ("legacy_mutex", mutex); ("throttle_mutex", mutex);
  ("termios_rwsem", rw_semaphore); ("winsize_mutex", mutex); ("termios", ktermios);
  ("termios_locked", ktermios); ("name", CArray 64 c_char); ("flags", c_ulong); ("count",
  c_int); ("receive_room", c_uint); ("winsize", winsize); ("flow", tty_struct__bindgen_ty_1);
  ("ctrl", tty_struct__bindgen_ty_2); ("hw_stopped", bool_); ("closing", bool_); ("flow_change",
  c_int); ("link", CPtr); ("fasync", CPtr); ("write_wait", wait_queue_head_t); ("read_wait",
  wait_queue_head_t); ("hangup_work", work_struct); ("disc_data", CPtr); ("driver_data", CPtr);
  ("files_lock", spinlock_t); ("write_cnt", c_int); ("write_buf", CPtr); ("tty_files",
  list_head); ("SAK_work", work_struct)].

Definition ubuf_info_ops : ctype := CStruct 1 [("complete", CPtr); ("link_skb", CPtr)].

Definition ucounts : ctype := CStruct 1 [("node", hlist_nulls_node); ("ns", CPtr); ("uid",
  kuid_t); ("rcu", callback_head); ("count", rcuref_t); ("ucount", CArray 12 atomic_long_t);
  ("rlimit", CArray 4 atomic_long_t)].

Definition udp_mib : ctype := CStruct 1 [("mibs", CArray 10 c_ulong)].

Definition udp_table : ctype := CStruct 1 [("hash", CPtr); ("hash2", CPtr); ("hash4", CPtr);
  ("mask", c_uint); ("log", c_uint)].

Definition udp_tunnel_info : ctype := CStruct 1 [("type_", c_ushort); ("sa_family",
  sa_family_t); ("port", __be16); ("hw_priv", u8_)].

Definition udp_tunnel_nic_table_info : ctype := CStruct 1 [("n_entries", c_uint);
  ("tunnel_types", c_uint)].

Definition udp_tunnel_nic_info : ctype := CStruct 1 [("set_port", CPtr); ("unset_port", CPtr);
  ("sync_table", CPtr); ("shared", CPtr); ("flags", c_uint); ("tables", CArray 4
  udp_tunnel_nic_table_info)].

Definition udp_tunnel_nic_shared : ctype := CStruct 1 [("udp_tunnel_nic_info", CPtr);
  ("devices", list_head)].

Definition uevent_sock : ctype := CStruct 1 [("list", list_head); ("sk", CPtr)].

Definition uncached_list : ctype := CStruct 1 [("lock", spinlock_t); ("head", list_head)].

Definition unicode_map : ctype := CStruct 1 [("version", c_uint); ("ntab", CArray 2 CPtr);
  ("tables", CPtr)].

Definition unwind_cache : ctype := CStruct 1 [("unwind_completed", c_ulong); ("nr_entries",
  c_uint); ("entries", __IncompleteArrayField c_ulong)].

Definition upper_chunk : ctype := CUnion 1 [("next", CPtr); ("data", CArray 256 CPtr)].

Definition uprobe__bindgen_ty_1 : ctype := CUnion 1 [("rcu", callback_head); ("work",
  work_struct)].

Definition uprobe : ctype := CStruct 1 [("rb_node", rb_node); ("ref_", refcount_t);
  ("register_rwsem", rw_semaphore); ("consumer_rwsem", rw_semaphore); ("pending_list",
  list_head); ("consumers", list_head); ("inode", CPtr); ("__bindgen_anon_1",
  uprobe__bindgen_ty_1); ("offset", loff_t); ("ref_ctr_offset", loff_t); ("flags", c_ulong);
  ("arch", arch_uprobe)].

Definition uprobe_task__bindgen_ty_1__bindgen_ty_1 : ctype := CStruct 1 [("autask",
  arch_uprobe_task); ("vaddr", c_ulong)].

Definition uprobe_task__bindgen_ty_1__bindgen_ty_2 : ctype := CStruct 1 [("dup_xol_work",
  callback_head); ("dup_xol_addr", c_ulong)].

Definition uprobe_task__bindgen_ty_1 : ctype := CUnion 1 [("__bindgen_anon_1",
  uprobe_task__bindgen_ty_1__bindgen_ty_1); ("__bindgen_anon_2",
  uprobe_task__bindgen_ty_1__bindgen_ty_2)].

Definition uprobe_task : ctype := CStruct 1 [("state", uprobe_task_state__Type); ("depth",
  c_uint); ("return_instances", CPtr); ("ri_pool", CPtr); ("ri_timer", timer_list);
  ("ri_seqcount", seqcount_t); ("__bindgen_anon_1", uprobe_task__bindgen_ty_1);
  ("active_uprobe", CPtr); ("xol_vaddr", c_ulong); ("signal_denied", bool_); ("auprobe", CPtr)].

Definition uprobe_xol_ops : ctype := CStruct 1 [("emulate", CPtr); ("pre_xol", CPtr);
  ("post_xol", CPtr); ("abort", CPtr)].

Definition user_event_mm : ctype := CStruct 1 [("mms_link", list_head); ("enablers", list_head);
  ("mm", CPtr); ("next", CPtr); ("refcnt", refcount_t); ("tasks", refcount_t); ("put_rwork",
  rcu_work)].

Definition user_struct : ctype := CStruct 1 [("__count", refcount_t); ("epoll_watches",
  percpu_counter); ("unix_inflight", c_ulong); ("pipe_bufs", atomic_long_t); ("uidhash_node",
  hlist_node); ("uid", kuid_t); ("locked_vm", atomic_long_t); ("nr_watches", atomic_t);
  ("ratelimit", ratelimit_state)].

Definition userfaultfd_ctx : ctype := CStruct 1 [("fault_pending_wqh", wait_queue_head_t);
  ("fault_wqh", wait_queue_head_t); ("fd_wqh", wait_queue_head_t); ("event_wqh",
  wait_queue_head_t); ("refile_seq", seqcount_spinlock_t); ("refcount", refcount_t); ("flags",
  c_uint); ("features", c_uint); ("released", bool_); ("map_changing_lock", rw_semaphore);
  ("mmap_changing", atomic_t); ("mm", CPtr)].

Definition utf8data : ctype := CStruct 1 [("maxage", c_uint); ("offset", c_uint)].

Definition utf8data_table : ctype := CStruct 1 [("utf8agetab", CPtr); ("utf8agetab_size",
  c_int); ("utf8nfdicfdata", CPtr); ("utf8nfdicfdata_size", c_int); ("utf8nfdidata", CPtr);
  ("utf8nfdidata_size", c_int); ("utf8data", CPtr)].

Definition uts_namespace : ctype := CStruct 1 [("name", new_utsname); ("user_ns", CPtr);
  ("ucounts", CPtr); ("_bitfield_align_1", CArray 0 CU8); ("_bitfield_1", __BindgenBitfieldUnit
  40); ("ns", ns_common)].

Definition vdso_image : ctype := CStruct 1 [("data", CPtr); ("size", c_ulong); ("alt", c_ulong);
  ("alt_len", c_ulong); ("extable_base", c_ulong); ("extable_len", c_ulong); ("extable", CPtr);
  ("sym___kernel_sigreturn", c_long); ("sym___kernel_rt_sigreturn", c_long);
  ("sym___kernel_vsyscall", c_long); ("sym_int80_landing_pad", c_long);
  ("sym_vdso32_sigreturn_landing_pad", c_long); ("sym_vdso32_rt_sigreturn_landing_pad",
  c_long)].

Definition vlan_group : ctype := CStruct 1 [("nr_vlan_devs", c_uint); ("hlist", hlist_node);
  ("vlan_devices_arrays", CArray 16 CPtr)].

Definition vlan_info : ctype := CStruct 1 [("real_dev", CPtr); ("grp", vlan_group); ("vid_list",
  list_head); ("nr_vids", c_uint); ("auto_vid0", bool_); ("rcu", callback_head)].

Definition vm_area_desc : ctype := CStruct 1 [("mm", CPtr); ("file", CPtr); ("start", c_ulong);
  ("end", c_ulong); ("pgoff", c_ulong); ("vm_file", CPtr); ("vma_flags", vma_flags_t);
  ("page_prot", pgprot_t); ("vm_ops", CPtr); ("private_data", CPtr); ("action", mmap_action)].

Definition vm_fault__bindgen_ty_1 : ctype := CStruct 1 [("vma", CPtr); ("gfp_mask", gfp_t);
  ("pgoff", c_ulong); ("address", c_ulong); ("real_address", c_ulong)].

Definition vm_fault__bindgen_ty_2 : ctype := CUnion 1 [("orig_pte", pte_t); ("orig_pmd",
  pmd_t)].

Definition pgtable_t : ctype := CPtr.

Definition vm_fault : ctype := CStruct 1 [("__bindgen_anon_1", vm_fault__bindgen_ty_1);
  ("flags", fault_flag__Type); ("pmd", CPtr); ("pud", CPtr); ("__bindgen_anon_2",
  vm_fault__bindgen_ty_2); ("cow_page", CPtr); ("page", CPtr); ("pte", CPtr); ("ptl", CPtr);
  ("prealloc_pte", pgtable_t)].

Definition vm_operations_struct : ctype := CStruct 1 [("open", CPtr); ("close", CPtr);
  ("may_split", CPtr); ("mremap", CPtr); ("mprotect", CPtr); ("fault", CPtr); ("huge_fault",
  CPtr); ("map_pages", CPtr); ("pagesize", CPtr); ("page_mkwrite", CPtr); ("pfn_mkwrite", CPtr);
  ("access", CPtr); ("name", CPtr); ("set_policy", CPtr); ("get_policy", CPtr);
  ("find_normal_page", CPtr)].

Definition vm_struct__bindgen_ty_1 : ctype := CUnion 1 [("next", CPtr); ("llnode", llist_node)].

Definition vm_struct : ctype := CStruct 1 [("__bindgen_anon_1", vm_struct__bindgen_ty_1);
  ("addr", CPtr); ("size", c_ulong); ("flags", c_ulong); ("pages", CPtr); ("page_order",
  c_uint); ("nr_pages", c_uint); ("phys_addr", phys_addr_t); ("caller", CPtr);
  ("requested_size", c_ulong)].

Definition vma_numab_state : ctype := CStruct 1 [("next_scan", c_ulong); ("pids_active_reset",
  c_ulong); ("pids_active", CArray 2 c_ulong); ("start_scan_seq", c_int); ("prev_scan_seq",
  c_int)].

Definition wake_irq : ctype := CStruct 1 [("dev", CPtr); ("status", c_uint); ("irq", c_int);
  ("name", CPtr)].

Definition watch__bindgen_ty_1 : ctype := CUnion 1 [("rcu", callback_head); ("info_id", u32_)].

Definition watch : ctype := CStruct 1 [("__bindgen_anon_1", watch__bindgen_ty_1); ("queue",
  CPtr); ("queue_node", hlist_node); ("watch_list", CPtr); ("list_node", hlist_node); ("cred",
  CPtr); ("private", CPtr); ("id", u64_); ("usage", kref)].

Definition watch_type_filter : ctype := CStruct 1 [("type_", watch_notification_type__Type);
  ("subtype_filter", CArray 1 __u32); ("info_filter", __u32); ("info_mask", __u32)].

Definition watch_filter__bindgen_ty_1 : ctype := CUnion 1 [("rcu", callback_head);
  ("type_filter", CArray 1 c_ulong)].

Definition watch_filter : ctype := CStruct 1 [("__bindgen_anon_1", watch_filter__bindgen_ty_1);
  ("nr_filters", u32_); ("filters", __IncompleteArrayField watch_type_filter)].

Definition watch_list : ctype := CStruct 1 [("rcu", callback_head); ("watchers", hlist_head);
  ("release_watch", CPtr); ("lock", spinlock_t)].

Definition watch_queue : ctype := CStruct 1 [("rcu", callback_head); ("filter", CPtr); ("pipe",
  CPtr); ("watches", hlist_head); ("notes", CPtr); ("notes_bitmap", CPtr); ("usage", kref);
  ("lock", spinlock_t); ("nr_notes", c_uint); ("nr_pages", c_uint)].

Definition rfkill : ctype := CStruct 1 [("_unused", CArray 0 CU8)].

Definition wiphy_coalesce_support : ctype := CStruct 1 [("n_rules", c_int); ("max_delay",
  c_int); ("n_patterns", c_int); ("pattern_max_len", c_int); ("pattern_min_len", c_int);
  ("max_pkt_offset", c_int)].

Definition wiphy_iftype_akm_suites : ctype := CStruct 1 [("iftypes_mask", u16_); ("akm_suites",
  CPtr); ("n_akm_suites", c_int)].

Definition wiphy_iftype_ext_capab : ctype := CStruct 1 [("iftype", nl80211_iftype__Type);
  ("extended_capabilities", CPtr); ("extended_capabilities_mask", CPtr);
  ("extended_capabilities_len", u8_); ("eml_capabilities", u16_); ("mld_capa_and_ops", u16_)].

Definition wiphy_radio : ctype := CStruct 1 [("freq_range", CPtr); ("n_freq_range", c_int);
  ("iface_combinations", CPtr); ("n_iface_combinations", c_int); ("antenna_mask", u32_)].

Definition wiphy_radio_cfg : ctype := CStruct 1 [("rts_threshold", u32_); ("radio_debugfsdir",
  CPtr)].

Definition wiphy_radio_freq_range : ctype := CStruct 1 [("start_freq", u32_); ("end_freq",
  u32_)].

Definition wiphy_vendor_command : ctype := CStruct 1 [("info", nl80211_vendor_cmd_info);
  ("flags", u32_); ("doit", CPtr); ("dumpit", CPtr); ("policy", CPtr); ("maxattr", c_uint)].

Definition wiphy_wowlan_support : ctype := CStruct 1 [("flags", u32_); ("n_patterns", c_int);
  ("pattern_max_len", c_int); ("pattern_min_len", c_int); ("max_pkt_offset", c_int);
  ("max_nd_match_sets", c_int); ("tcp", CPtr)].

Definition wiphy_wowlan_tcp_support : ctype := CStruct 1 [("tok", CPtr); ("data_payload_max",
  u32_); ("data_interval_max", u32_); ("wake_payload_max", u32_); ("seq", bool_)].

Definition cfg80211_conn : ctype := CStruct 1 [("_unused", CArray 0 CU8)].

Definition cfg80211_cached_keys : ctype := CStruct 1 [("_unused", CArray 0 CU8)].

Definition cfg80211_cqm_config : ctype := CStruct 1 [("_unused", CArray 0 CU8)].

Definition cfg80211_internal_bss : ctype := CStruct 1 [("_unused", CArray 0 CU8)].

Definition worker__bindgen_ty_1 : ctype := CUnion 1 [("entry", list_head); ("hentry",
  hlist_node)].

Definition worker : ctype := CStruct 1 [("__bindgen_anon_1", worker__bindgen_ty_1);
  ("current_work", CPtr); ("current_func", work_func_t); ("current_pwq", CPtr); ("current_at",
  u64_); ("current_start", c_ulong); ("current_color", c_uint); ("sleeping", c_int);
  ("last_func", work_func_t); ("scheduled", list_head); ("task", CPtr); ("pool", CPtr); ("node",
  list_head); ("last_active", c_ulong); ("flags", c_uint); ("id", c_int); ("desc", CArray 32
  c_char); ("rescue_wq", CPtr)].

Definition worker_pool : ctype := CStruct 1 [("lock", raw_spinlock_t); ("cpu", c_int); ("node",
  c_int); ("id", c_int); ("flags", c_uint); ("last_progress_ts", c_ulong); ("cpu_stall", bool_);
  ("nr_running", c_int); ("worklist", list_head); ("nr_workers", c_int); ("nr_idle", c_int);
  ("idle_list", list_head); ("idle_timer", timer_list); ("idle_cull_work", work_struct);
  ("mayday_timer", timer_list); ("busy_hash", CArray 64 hlist_head); ("manager", CPtr);
  ("workers", list_head); ("worker_ida", ida); ("attrs", CPtr); ("hash_node", hlist_node);
  ("refcnt", c_int); ("rcu", callback_head)].

Definition workqueue_attrs : ctype := CStruct 1 [("nice", c_int); ("cpumask", cpumask_var_t);
  ("__pod_cpumask", cpumask_var_t); ("affn_strict", bool_); ("affn_scope", wq_affn_scope__Type);
  ("ordered", bool_)].

Definition wpan_dev : ctype := CStruct 1 [("wpan_phy", CPtr); ("iftype", c_int); ("list",
  list_head); ("netdev", CPtr); ("header_ops", CPtr); ("lowpan_dev", CPtr); ("identifier",
  u32_); ("pan_id", __le16); ("short_addr", __le16); ("extended_addr", __le64); ("bsn",
  atomic_t); ("dsn", atomic_t); ("min_be", u8_); ("max_be", u8_); ("csma_retries", u8_);
  ("frame_retries", s8); ("lbt", bool_); ("ackreq", bool_); ("association_lock", mutex);
  ("parent", CPtr); ("children", list_head); ("max_associations", c_uint); ("nchildren",
  c_uint)].

Definition wpan_dev_header_ops : ctype := CStruct 1 [("create", CPtr)].

Definition wpan_phy_supported : ctype := CStruct 1 [("channels", CArray 32 u32_); ("cca_modes",
  u32_); ("cca_opts", u32_); ("iftypes", u32_); ("lbt", nl802154_supported_bool_states__Type);
  ("min_minbe", u8_); ("max_minbe", u8_); ("min_maxbe", u8_); ("max_maxbe", u8_);
  ("min_csma_backoffs", u8_); ("max_csma_backoffs", u8_); ("min_frame_retries", s8);
  ("max_frame_retries", s8); ("tx_powers_size", CU64); ("cca_ed_levels_size", CU64);
  ("tx_powers", CPtr); ("cca_ed_levels", CPtr)].

Definition wpan_phy_cca : ctype := CStruct 1 [("mode", nl802154_cca_modes__Type); ("opt",
  nl802154_cca_opts__Type)].

Definition wpan_phy : ctype := CStruct 1 [("privid", CPtr); ("flags", c_ulong);
  ("current_channel", u8_); ("current_page", u8_); ("supported", wpan_phy_supported);
  ("transmit_power", s32); ("cca", wpan_phy_cca); ("perm_extended_addr", __le64);
  ("cca_ed_level", s32); ("symbol_duration", u32_); ("lifs_period", u16_); ("sifs_period",
  u16_); ("dev", device); ("_net", possible_net_t); ("queue_lock", spinlock_t); ("ongoing_txs",
  atomic_t); ("hold_txs", atomic_t); ("sync_txq", wait_queue_head_t); ("filtering",
  ieee802154_filtering_level__Type); ("__bindgen_padding_0", CArray 4 CU8); ("priv_",
  __IncompleteArrayField c_char)].

Definition wq_device : ctype := CStruct 1 [("wq", CPtr); ("dev", device)].

Definition wq_flusher : ctype := CStruct 1 [("list", list_head); ("flush_color", c_int);
  ("done", completion)].

Definition wq_node_nr_active : ctype := CStruct 1 [("max", c_int); ("nr", atomic_t); ("lock",
  raw_spinlock_t); ("pending_pwqs", list_head)].

Definition xattr_handler : ctype := CStruct 1 [("name", CPtr); ("prefix", CPtr); ("flags",
  c_int); ("list", CPtr); ("get", CPtr); ("set", CPtr)].

Definition xdp_desc : ctype := CStruct 1 [("addr", __u64); ("len", __u32); ("options", __u32)].

Definition xdp_dev_bulk_queue : ctype := CStruct 1 [("q", CArray 16 CPtr); ("flush_node",
  list_head); ("dev", CPtr); ("dev_rx", CPtr); ("xdp_prog", CPtr); ("count", c_uint);
  ("bq_lock", local_lock_t)].

Definition xdp_metadata_ops : ctype := CStruct 1 [("xmo_rx_timestamp", CPtr); ("xmo_rx_hash",
  CPtr); ("xmo_rx_vlan_tag", CPtr)].

Definition xdp_ring : ctype := CStruct 1 [("producer", u32_); ("_bitfield_align_1", CArray 0
  CU8); ("_bitfield_1", __BindgenBitfieldUnit 56); ("__bindgen_padding_0", CU32); ("pad1",
  u32_); ("_bitfield_align_2", CArray 0 CU8); ("_bitfield_2", __BindgenBitfieldUnit 56);
  ("__bindgen_padding_1", CU32); ("consumer", u32_); ("_bitfield_align_3", CArray 0 CU8);
  ("_bitfield_3", __BindgenBitfieldUnit 56); ("__bindgen_padding_2", CU32); ("pad2", u32_);
  ("flags", u32_); ("_bitfield_align_4", CArray 0 CU8); ("_bitfield_4", __BindgenBitfieldUnit
  56); ("pad3", u32_); ("_bitfield_align_5", CArray 0 CU8); ("_bitfield_5",
  __BindgenBitfieldUnit 56); ("__bindgen_padding_3", CU32)].

Definition xdp_txq_info : ctype := CStruct 1 [("dev", CPtr)].

Definition xdp_umem : ctype := CStruct 1 [("addrs", CPtr); ("size", u64_); ("headroom", u32_);
  ("chunk_size", u32_); ("chunks", u32_); ("npgs", u32_); ("user", CPtr); ("users", refcount_t);
  ("flags", u8_); ("tx_metadata_len", u8_); ("zc", bool_); ("pgs", CPtr); ("id", c_int);
  ("xsk_dma_list", list_head); ("work", work_struct)].

Definition xdr_netobj : ctype := CStruct 1 [("len", c_uint); ("data", CPtr)].

Definition xfrm_address_filter : ctype := CStruct 1 [("saddr", xfrm_address_t); ("daddr",
  xfrm_address_t); ("family", __u16); ("splen", __u8); ("dplen", __u8)].

Definition xfrm_algo : ctype := CStruct 1 [("alg_name", CArray 64 c_char); ("alg_key_len",
  c_uint); ("alg_key", __IncompleteArrayField c_char)].

Definition xfrm_algo_aead : ctype := CStruct 1 [("alg_name", CArray 64 c_char); ("alg_key_len",
  c_uint); ("alg_icv_len", c_uint); ("alg_key", __IncompleteArrayField c_char)].

Definition xfrm_algo_auth : ctype := CStruct 1 [("alg_name", CArray 64 c_char); ("alg_key_len",
  c_uint); ("alg_trunc_len", c_uint); ("alg_key", __IncompleteArrayField c_char)].

Definition xfrm_encap_tmpl : ctype := CStruct 1 [("encap_type", __u16); ("encap_sport", __be16);
  ("encap_dport", __be16); ("encap_oa", xfrm_address_t)].

Definition xfrm_id : ctype := CStruct 1 [("daddr", xfrm_address_t); ("spi", __be32); ("proto",
  __u8)].

Definition xfrm_lifetime_cfg : ctype := CStruct 1 [("soft_byte_limit", __u64);
  ("hard_byte_limit", __u64); ("soft_packet_limit", __u64); ("hard_packet_limit", __u64);
  ("soft_add_expires_seconds", __u64); ("hard_add_expires_seconds", __u64);
  ("soft_use_expires_seconds", __u64); ("hard_use_expires_seconds", __u64)].

Definition xfrm_lifetime_cur : ctype := CStruct 1 [("bytes", __u64); ("packets", __u64);
  ("add_time", __u64); ("use_time", __u64)].

Definition xfrm_mark : ctype := CStruct 1 [("v", __u32); ("m", __u32)].

Definition xfrm_mode : ctype := CStruct 1 [("encap", u8_); ("family", u8_); ("flags", u8_)].

Definition xfrm_mode_cbs : ctype := CStruct 1 [("owner", CPtr); ("init_state", CPtr);
  ("clone_state", CPtr); ("destroy_state", CPtr); ("user_init", CPtr); ("copy_to_user", CPtr);
  ("sa_len", CPtr); ("get_inner_mtu", CPtr); ("input", CPtr); ("output", CPtr);
  ("prepare_output", CPtr)].

Definition xfrm_selector : ctype := CStruct 1 [("daddr", xfrm_address_t); ("saddr",
  xfrm_address_t); ("dport", __be16); ("dport_mask", __be16); ("sport", __be16); ("sport_mask",
  __be16); ("family", __u16); ("prefixlen_d", __u8); ("prefixlen_s", __u8); ("proto", __u8);
  ("ifindex", c_int); ("user", __kernel_uid32_t)].

Definition xfrm_policy_walk_entry : ctype := CStruct 1 [("all", list_head); ("dead", u8_)].

Definition xfrm_policy_queue : ctype := CStruct 1 [("hold_queue", sk_buff_head); ("hold_timer",
  timer_list); ("timeout", c_ulong)].

Definition xfrm_tmpl : ctype := CStruct 1 [("id", xfrm_id); ("saddr", xfrm_address_t);
  ("encap_family", c_ushort); ("reqid", u32_); ("mode", u8_); ("share", u8_); ("optional", u8_);
  ("allalgs", u8_); ("aalgos", u32_); ("ealgos", u32_); ("calgos", u32_)].

Definition xfrm_policy : ctype := CStruct 1 [("xp_net", possible_net_t); ("bydst", hlist_node);
  ("byidx", hlist_node); ("state_cache_list", hlist_head); ("lock", rwlock_t); ("refcnt",
  refcount_t); ("pos", u32_); ("timer", timer_list); ("genid", atomic_t); ("priority", u32_);
  ("index", u32_); ("if_id", u32_); ("mark", xfrm_mark); ("selector", xfrm_selector); ("lft",
  xfrm_lifetime_cfg); ("curlft", xfrm_lifetime_cur); ("walk", xfrm_policy_walk_entry); ("polq",
  xfrm_policy_queue); ("bydst_reinsert", bool_); ("type_", u8_); ("action", u8_); ("flags",
  u8_); ("xfrm_nr", u8_); ("family", u16_); ("security", CPtr); ("xfrm_vec", CArray 6
  xfrm_tmpl); ("rcu", callback_head); ("xdo", xfrm_dev_offload)].

Definition xfrm_replay_state : ctype := CStruct 1 [("oseq", __u32); ("seq", __u32); ("bitmap",
  __u32)].

Definition xfrm_replay_state_esn : ctype := CStruct 1 [("bmp_len", c_uint); ("oseq", __u32);
  ("seq", __u32); ("oseq_hi", __u32); ("seq_hi", __u32); ("replay_window", __u32); ("bmp",
  __IncompleteArrayField __u32)].

Definition xfrm_sec_ctx : ctype := CStruct 1 [("ctx_doi", __u8); ("ctx_alg", __u8); ("ctx_len",
  __u16); ("ctx_sid", __u32); ("ctx_str", __IncompleteArrayField c_char)].

Definition xfrm_state_walk : ctype := CStruct 1 [("all", list_head); ("state", u8_); ("dying",
  u8_); ("proto", u8_); ("seq", u32_); ("filter", CPtr)].

Definition xfrm_stats : ctype := CStruct 1 [("replay_window", __u32); ("replay", __u32);
  ("integrity_failed", __u32)].

Definition xfrm_state__bindgen_ty_1 : ctype := CUnion 1 [("gclist", hlist_node); ("bydst",
  hlist_node)].

Definition xfrm_state__bindgen_ty_2 : ctype := CUnion 1 [("dev_gclist", hlist_node); ("bysrc",
  hlist_node)].

Definition xfrm_state__bindgen_ty_3 : ctype := CStruct 1 [("reqid", u32_); ("mode", u8_);
  ("replay_window", u8_); ("aalgo", u8_); ("ealgo", u8_); ("calgo", u8_); ("flags", u8_);
  ("family", u16_); ("saddr", xfrm_address_t); ("header_len", c_int); ("enc_hdr_len", c_int);
  ("trailer_len", c_int); ("extra_flags", u32_); ("smark", xfrm_mark)].

Definition xfrm_state : ctype := CStruct 1 [("xs_net", possible_net_t); ("__bindgen_anon_1",
  xfrm_state__bindgen_ty_1); ("__bindgen_anon_2", xfrm_state__bindgen_ty_2); ("byspi",
  hlist_node); ("byseq", hlist_node); ("state_cache", hlist_node); ("state_cache_input",
  hlist_node); ("refcnt", refcount_t); ("lock", spinlock_t); ("pcpu_num", u32_); ("id",
  xfrm_id); ("sel", xfrm_selector); ("mark", xfrm_mark); ("if_id", u32_); ("tfcpad", u32_);
  ("genid", u32_); ("km", xfrm_state_walk); ("props", xfrm_state__bindgen_ty_3); ("lft",
  xfrm_lifetime_cfg); ("aalg", CPtr); ("ealg", CPtr); ("calg", CPtr); ("aead", CPtr); ("geniv",
  CPtr); ("new_mapping_sport", __be16); ("new_mapping", u32_); ("mapping_maxage", u32_);
  ("encap", CPtr); ("nat_keepalive_interval", u32_); ("nat_keepalive_expiration", time64_t);
  ("coaddr", CPtr); ("tunnel", CPtr); ("tunnel_users", atomic_t); ("replay", xfrm_replay_state);
  ("replay_esn", CPtr); ("preplay", xfrm_replay_state); ("preplay_esn", CPtr); ("repl_mode",
  xfrm_replay_mode__Type); ("xflags", u32_); ("replay_maxage", u32_); ("replay_maxdiff", u32_);
  ("rtimer", timer_list); ("stats", xfrm_stats); ("curlft", xfrm_lifetime_cur); ("mtimer",
  hrtimer); ("xso", xfrm_dev_offload); ("saved_tmo", c_long); ("lastused", time64_t); ("xfrag",
  page_frag); ("type_", CPtr); ("inner_mode", xfrm_mode); ("inner_mode_iaf", xfrm_mode);
  ("outer_mode", xfrm_mode); ("type_offload", CPtr); ("security", CPtr); ("data", CPtr); ("dir",
  u8_); ("mode_cbs", CPtr); ("mode_data", CPtr)].

Definition xfrm_type : ctype := CStruct 1 [("owner", CPtr); ("proto", u8_); ("flags", u8_);
  ("init_state", CPtr); ("destructor", CPtr); ("input", CPtr); ("output", CPtr); ("reject",
  CPtr)].

Definition xfrm_type_offload : ctype := CStruct 1 [("owner", CPtr); ("proto", u8_); ("encap",
  CPtr); ("input_tail", CPtr); ("xmit", CPtr)].

Definition xfrmdev_ops : ctype := CStruct 1 [("xdo_dev_state_add", CPtr);
  ("xdo_dev_state_delete", CPtr); ("xdo_dev_state_free", CPtr); ("xdo_dev_offload_ok", CPtr);
  ("xdo_dev_state_advance_esn", CPtr); ("xdo_dev_state_update_stats", CPtr);
  ("xdo_dev_policy_add", CPtr); ("xdo_dev_policy_delete", CPtr); ("xdo_dev_policy_free", CPtr)].

Definition xol_area : ctype := CStruct 1 [("wq", wait_queue_head_t); ("bitmap", CPtr); ("page",
  CPtr); ("vaddr", c_ulong)].

Definition xprt_class : ctype := CStruct 1 [("list", list_head); ("ident", c_int); ("setup",
  CPtr); ("owner", CPtr); ("name", CArray 32 c_char); ("netid", __IncompleteArrayField CPtr)].

Definition xprt_create : ctype := CStruct 1 [("ident", c_int); ("net", CPtr); ("srcaddr", CPtr);
  ("dstaddr", CPtr); ("addrlen", CU64); ("servername", CPtr); ("bc_xprt", CPtr); ("bc_xps",
  CPtr); ("flags", c_uint); ("xprtsec", xprtsec_parms); ("connect_timeout", c_ulong);
  ("reconnect_timeout", c_ulong)].

Definition xps_dev_maps : ctype := CStruct 1 [("rcu", callback_head); ("nr_ids", c_uint);
  ("num_tc", s16); ("attr_map", __IncompleteArrayField CPtr)].

Definition xps_map : ctype := CStruct 1 [("len", c_uint); ("alloc_len", c_uint); ("rcu",
  callback_head); ("queues", __IncompleteArrayField u16_)].

Definition xsk_queue : ctype := CStruct 1 [("ring_mask", u32_); ("nentries", u32_);
  ("cached_prod", u32_); ("cached_cons", u32_); ("ring", CPtr); ("invalid_descs", u64_);
  ("queue_empty_descs", u64_); ("ring_vmalloc_size", CU64); ("cq_cached_prod_lock",
  spinlock_t)].

Definition xsk_tx_metadata_ops : ctype := CStruct 1 [("tmo_request_timestamp", CPtr);
  ("tmo_fill_timestamp", CPtr); ("tmo_request_checksum", CPtr); ("tmo_request_launch_time",
  CPtr)].

Definition __kernel_off_t : ctype := __kernel_long_t.

Definition off_t : ctype := __kernel_off_t.

Definition blk_insert_t : ctype := c_uint.

Definition ioasid_t : ctype := c_uint.

Definition vm_fault_t : ctype := c_uint.

Definition bpf_callback_t : ctype := CPtr.

Definition kernel_siginfo_t : ctype := kernel_siginfo.

Definition dsa_fdb_dump_cb_t : ctype := CPtr.

Definition Elf64_Sym : ctype := elf64_sym.

Definition sk_read_actor_t : ctype := CPtr.

Definition flow_setup_cb_t : ctype := CPtr.

Definition io_tw_token_t : ctype := io_tw_state.

Definition iw_handler : ctype := CPtr.

Definition skb_read_actor_t : ctype := CPtr.

Definition tc_action_priv_destructor : ctype := CPtr.

(** The structures and unions above. *)
Definition kernel_data : list (string * ctype) := [
  ("__kernel_fsid_t", __kernel_fsid_t);
  ("ax25_dama_info", ax25_dama_info);
  ("cisco_proto", cisco_proto);
  ("pin_cookie", pin_cookie);
  ("rq_flags", rq_flags);
  ("file_ref_t", file_ref_t);
  ("fr_proto", fr_proto);
  ("fr_proto_pvc", fr_proto_pvc);
  ("fr_proto_pvc_info", fr_proto_pvc_info);
  ("kernel_cap_t", kernel_cap_t);
  ("kprojid_t", kprojid_t);
  ("memdesc_flags_t", memdesc_flags_t);
  ("pgd_t", pgd_t);
  ("pmd_t", pmd_t);
  ("pte_t", pte_t);
  ("pud_t", pud_t);
  ("raw_hdlc_proto", raw_hdlc_proto);
  ("read_descriptor_t__bindgen_ty_1", read_descriptor_t__bindgen_ty_1);
  ("read_descriptor_t", read_descriptor_t);
  ("swp_entry_t", swp_entry_t);
  ("sync_serial_settings", sync_serial_settings);
  ("te1_settings", te1_settings);
  ("vfsgid_t", vfsgid_t);
  ("vfsuid_t", vfsuid_t);
  ("vma_flags_t", vma_flags_t);
  ("x25_hdlc_proto", x25_hdlc_proto);
  ("xfrm_address_t", xfrm_address_t);
  ("Qdisc_class_ops", Qdisc_class_ops);
  ("Qdisc_ops", Qdisc_ops);
  ("blk_mq_queue_map", blk_mq_queue_map);
  ("srcu_struct", srcu_struct);
  ("blk_mq_tag_set", blk_mq_tag_set);
  ("pt_regs__bindgen_ty_1", pt_regs__bindgen_ty_1);
  ("pt_regs__bindgen_ty_2", pt_regs__bindgen_ty_2);
  ("pt_regs", pt_regs);
  ("__kernel_timespec", __kernel_timespec);
  ("sigval", sigval);
  ("__sifields__bindgen_ty_1", __sifields__bindgen_ty_1);
  ("__sifields__bindgen_ty_2", __sifields__bindgen_ty_2);
  ("__sifields__bindgen_ty_3", __sifields__bindgen_ty_3);
  ("__sifields__bindgen_ty_4", __sifields__bindgen_ty_4);
  ("__sifields__bindgen_ty_5__bindgen_ty_1__bindgen_ty_1", __sifields__bindgen_ty_5__bindgen_ty_1__bindgen_ty_1);
  ("__sifields__bindgen_ty_5__bindgen_ty_1__bindgen_ty_2", __sifields__bindgen_ty_5__bindgen_ty_1__bindgen_ty_2);
  ("__sifields__bindgen_ty_5__bindgen_ty_1__bindgen_ty_3", __sifields__bindgen_ty_5__bindgen_ty_1__bindgen_ty_3);
  ("__sifields__bindgen_ty_5__bindgen_ty_1", __sifields__bindgen_ty_5__bindgen_ty_1);
  ("__sifields__bindgen_ty_5", __sifields__bindgen_ty_5);
  ("__sifields__bindgen_ty_6", __sifields__bindgen_ty_6);
  ("__sifields__bindgen_ty_7", __sifields__bindgen_ty_7);
  ("__sifields", __sifields);
  ("aa_attachment", aa_attachment);
  ("aa_caps", aa_caps);
  ("aa_common_ref", aa_common_ref);
  ("aa_dfa", aa_dfa);
  ("aa_label__bindgen_ty_1__bindgen_ty_1__bindgen_ty_1__bindgen_ty_1", aa_label__bindgen_ty_1__bindgen_ty_1__bindgen_ty_1__bindgen_ty_1);
  ("aa_label__bindgen_ty_1__bindgen_ty_1__bindgen_ty_1", aa_label__bindgen_ty_1__bindgen_ty_1__bindgen_ty_1);
  ("aa_label__bindgen_ty_1__bindgen_ty_1", aa_label__bindgen_ty_1__bindgen_ty_1);
  ("aa_label__bindgen_ty_1__bindgen_ty_2__bindgen_ty_1", aa_label__bindgen_ty_1__bindgen_ty_2__bindgen_ty_1);
  ("aa_label__bindgen_ty_1__bindgen_ty_2", aa_label__bindgen_ty_1__bindgen_ty_2);
  ("aa_label__bindgen_ty_1", aa_label__bindgen_ty_1);
  ("aa_label", aa_label);
  ("aa_labelset", aa_labelset);
  ("aa_loaddata", aa_loaddata);
  ("aa_policy", aa_policy);
  ("aa_ns_acct", aa_ns_acct);
  ("aa_ns", aa_ns);
  ("aa_perms", aa_perms);
  ("aa_str_table", aa_str_table);
  ("aa_tags_struct__bindgen_ty_1", aa_tags_struct__bindgen_ty_1);
  ("aa_tags_struct__bindgen_ty_2", aa_tags_struct__bindgen_ty_2);
  ("aa_tags_struct", aa_tags_struct);
  ("aa_policydb__bindgen_ty_1", aa_policydb__bindgen_ty_1);
  ("aa_policydb", aa_policydb);
  ("aa_profile", aa_profile);
  ("aa_proxy", aa_proxy);
  ("aa_rlimit", aa_rlimit);
  ("aa_ruleset", aa_ruleset);
  ("aa_secmark", aa_secmark);
  ("aa_str_table_ent", aa_str_table_ent);
  ("aa_tags_header", aa_tags_header);
  ("ack_sample", ack_sample);
  ("cipher_alg", cipher_alg);
  ("crypto_alg__bindgen_ty_1", crypto_alg__bindgen_ty_1);
  ("crypto_alg", crypto_alg);
  ("scatterlist", scatterlist);
  ("bin_attribute", bin_attribute);
  ("fwnode_handle", fwnode_handle);
  ("acpi_device_id", acpi_device_id);
  ("ida", ida);
  ("device_driver__bindgen_ty_1", device_driver__bindgen_ty_1);
  ("device_driver", device_driver);
  ("freq_qos_request", freq_qos_request);
  ("action_cache", action_cache);
  ("action_gate_entry", action_gate_entry);
  ("address_space", address_space);
  ("address_space_operations", address_space_operations);
  ("audit_ntp_val", audit_ntp_val);
  ("audit_ntp_data", audit_ntp_data);
  ("crypto_instance__bindgen_ty_1", crypto_instance__bindgen_ty_1);
  ("crypto_instance", crypto_instance);
  ("ratelimit_state", ratelimit_state);
  ("affinity_context", affinity_context);
  ("kiocb", kiocb);
  ("poll_table_struct", poll_table_struct);
  ("irq_domain_ops", irq_domain_ops);
  ("gpio_irq_chip__bindgen_ty_1", gpio_irq_chip__bindgen_ty_1);
  ("gpio_irq_chip", gpio_irq_chip);
  ("gpio_chip", gpio_chip);
  ("iommu_device", iommu_device);
  ("iommufd_viommu", iommufd_viommu);
  ("x86_msi_addr_lo__bindgen_ty_1", x86_msi_addr_lo__bindgen_ty_1);
  ("x86_msi_addr_lo", x86_msi_addr_lo);
  ("x86_msi_data__bindgen_ty_1", x86_msi_data__bindgen_ty_1);
  ("x86_msi_data", x86_msi_data);
  ("msi_msg__bindgen_ty_1", msi_msg__bindgen_ty_1);
  ("msi_msg__bindgen_ty_2", msi_msg__bindgen_ty_2);
  ("msi_msg__bindgen_ty_3", msi_msg__bindgen_ty_3);
  ("msi_msg", msi_msg);
  ("class", class);
  ("anon_vma", anon_vma);
  ("anon_vma_name", anon_vma_name);
  ("path", path);
  ("arch_hw_breakpoint", arch_hw_breakpoint);
  ("arch_uprobe__bindgen_ty_1", arch_uprobe__bindgen_ty_1);
  ("arch_uprobe__bindgen_ty_2__bindgen_ty_1", arch_uprobe__bindgen_ty_2__bindgen_ty_1);
  ("arch_uprobe__bindgen_ty_2__bindgen_ty_2", arch_uprobe__bindgen_ty_2__bindgen_ty_2);
  ("arch_uprobe__bindgen_ty_2__bindgen_ty_3", arch_uprobe__bindgen_ty_2__bindgen_ty_3);
  ("arch_uprobe__bindgen_ty_2", arch_uprobe__bindgen_ty_2);
  ("arch_uprobe", arch_uprobe);
  ("arch_uprobe_task", arch_uprobe_task);
  ("sockaddr", sockaddr);
  ("array_buffer", array_buffer);
  ("assoc_array_ptr", assoc_array_ptr);
  ("assoc_array", assoc_array);
  ("io_poll", io_poll);
  ("async_poll", async_poll);
  ("attribute_group__bindgen_ty_1", attribute_group__bindgen_ty_1);
  ("attribute_group__bindgen_ty_2", attribute_group__bindgen_ty_2);
  ("attribute_group", attribute_group);
  ("audit_aux_data", audit_aux_data);
  ("audit_cap_data__bindgen_ty_1", audit_cap_data__bindgen_ty_1);
  ("audit_cap_data", audit_cap_data);
  ("lsm_prop_selinux", lsm_prop_selinux);
  ("lsm_prop_smack", lsm_prop_smack);
  ("lsm_prop_apparmor", lsm_prop_apparmor);
  ("lsm_prop_bpf", lsm_prop_bpf);
  ("lsm_prop", lsm_prop);
  ("audit_stamp", audit_stamp);
  ("audit_node", audit_node);
  ("audit_chunk", audit_chunk);
  ("audit_names", audit_names);
  ("mq_attr", mq_attr);
  ("open_how", open_how);
  ("audit_proctitle", audit_proctitle);
  ("audit_context__bindgen_ty_2__bindgen_ty_1", audit_context__bindgen_ty_2__bindgen_ty_1);
  ("audit_context__bindgen_ty_2__bindgen_ty_2", audit_context__bindgen_ty_2__bindgen_ty_2);
  ("audit_context__bindgen_ty_2__bindgen_ty_3", audit_context__bindgen_ty_2__bindgen_ty_3);
  ("audit_context__bindgen_ty_2__bindgen_ty_4", audit_context__bindgen_ty_2__bindgen_ty_4);
  ("audit_context__bindgen_ty_2__bindgen_ty_5", audit_context__bindgen_ty_2__bindgen_ty_5);
  ("audit_context__bindgen_ty_2__bindgen_ty_6", audit_context__bindgen_ty_2__bindgen_ty_6);
  ("audit_context__bindgen_ty_2__bindgen_ty_7", audit_context__bindgen_ty_2__bindgen_ty_7);
  ("audit_context__bindgen_ty_2__bindgen_ty_8", audit_context__bindgen_ty_2__bindgen_ty_8);
  ("audit_context__bindgen_ty_2__bindgen_ty_9", audit_context__bindgen_ty_2__bindgen_ty_9);
  ("audit_context__bindgen_ty_2__bindgen_ty_10", audit_context__bindgen_ty_2__bindgen_ty_10);
  ("audit_context__bindgen_ty_2__bindgen_ty_11", audit_context__bindgen_ty_2__bindgen_ty_11);
  ("audit_context__bindgen_ty_2", audit_context__bindgen_ty_2);
  ("audit_context", audit_context);
  ("fsnotify_mark", fsnotify_mark);
  ("audit_tree", audit_tree);
  ("audit_tree_refs", audit_tree_refs);
  ("auth_cred", auth_cred);
  ("auth_domain", auth_domain);
  ("auth_ops", auth_ops);
  ("auto_mode_param", auto_mode_param);
  ("qstr__bindgen_ty_1__bindgen_ty_1", qstr__bindgen_ty_1__bindgen_ty_1);
  ("qstr__bindgen_ty_1", qstr__bindgen_ty_1);
  ("qstr", qstr);
  ("autogroup", autogroup);
  ("ax25_dev", ax25_dev);
  ("fprop_local_percpu", fprop_local_percpu);
  ("bdi_writeback__bindgen_ty_1", bdi_writeback__bindgen_ty_1);
  ("bdi_writeback", bdi_writeback);
  ("backing_dev_info", backing_dev_info);
  ("file_ra_state", file_ra_state);
  ("file__bindgen_ty_1", file__bindgen_ty_1);
  ("file__bindgen_ty_2", file__bindgen_ty_2);
  ("file__bindgen_ty_3", file__bindgen_ty_3);
  ("file", file);
  ("backtrack_state", backtrack_state);
  ("badblocks", badblocks);
  ("local_lock", local_lock);
  ("block_device", block_device);
  ("inode_state_flags", inode_state_flags);
  ("inode__bindgen_ty_1", inode__bindgen_ty_1);
  ("inode__bindgen_ty_2", inode__bindgen_ty_2);
  ("inode__bindgen_ty_3", inode__bindgen_ty_3);
  ("inode__bindgen_ty_4", inode__bindgen_ty_4);
  ("inode__bindgen_ty_5", inode__bindgen_ty_5);
  ("inode", inode);
  ("blk_independent_access_range", blk_independent_access_range);
  ("blkg_policy_data", blkg_policy_data);
  ("blkcg_policy_data", blkcg_policy_data);
  ("io_cq__bindgen_ty_1", io_cq__bindgen_ty_1);
  ("io_cq__bindgen_ty_2", io_cq__bindgen_ty_2);
  ("io_cq", io_cq);
  ("binfmt_misc", binfmt_misc);
  ("bvec_iter", bvec_iter);
  ("bio__bindgen_ty_1", bio__bindgen_ty_1);
  ("bio", bio);
  ("bio_alloc_cache", bio_alloc_cache);
  ("bio_crypt_ctx", bio_crypt_ctx);
  ("bio_integrity_payload", bio_integrity_payload);
  ("bio_vec", bio_vec);
  ("bio_list", bio_list);
  ("mempool", mempool);
  ("bio_set", bio_set);
  ("blk_crypto_config", blk_crypto_config);
  ("blk_crypto_key", blk_crypto_key);
  ("blk_crypto_keyslot", blk_crypto_keyslot);
  ("blk_crypto_ll_ops", blk_crypto_ll_ops);
  ("blk_crypto_profile", blk_crypto_profile);
  ("blk_holder_ops", blk_holder_ops);
  ("blk_independent_access_ranges", blk_independent_access_ranges);
  ("blk_integrity", blk_integrity);
  ("rq_qos", rq_qos);
  ("blk_mq_alloc_data", blk_mq_alloc_data);
  ("blk_mq_ctxs", blk_mq_ctxs);
  ("blk_mq_debugfs_attr", blk_mq_debugfs_attr);
  ("blk_mq_ops", blk_mq_ops);
  ("blk_mq_queue_data", blk_mq_queue_data);
  ("sbitmap_queue", sbitmap_queue);
  ("blk_mq_tags", blk_mq_tags);
  ("blk_queue_stats", blk_queue_stats);
  ("blk_report_zones_args", blk_report_zones_args);
  ("blk_trace", blk_trace);
  ("blk_zone", blk_zone);
  ("blkcg", blkcg);
  ("blkg_iostat", blkg_iostat);
  ("blkg_iostat_set", blkg_iostat_set);
  ("blkcg_gq__bindgen_ty_1", blkcg_gq__bindgen_ty_1);
  ("blkcg_gq", blkcg_gq);
  ("block_device_operations", block_device_operations);
  ("bpf_map__bindgen_ty_1", bpf_map__bindgen_ty_1);
  ("bpf_map", bpf_map);
  ("range_tree", range_tree);
  ("bpf_arena", bpf_arena);
  ("btf_func_model", btf_func_model);
  ("bpf_attr__bindgen_ty_1", bpf_attr__bindgen_ty_1);
  ("bpf_attr__bindgen_ty_2__bindgen_ty_1", bpf_attr__bindgen_ty_2__bindgen_ty_1);
  ("bpf_attr__bindgen_ty_2", bpf_attr__bindgen_ty_2);
  ("bpf_attr__bindgen_ty_3", bpf_attr__bindgen_ty_3);
  ("bpf_attr__bindgen_ty_4__bindgen_ty_1", bpf_attr__bindgen_ty_4__bindgen_ty_1);
  ("bpf_attr__bindgen_ty_4", bpf_attr__bindgen_ty_4);
  ("bpf_attr__bindgen_ty_5", bpf_attr__bindgen_ty_5);
  ("bpf_attr__bindgen_ty_6__bindgen_ty_1", bpf_attr__bindgen_ty_6__bindgen_ty_1);
  ("bpf_attr__bindgen_ty_6__bindgen_ty_2", bpf_attr__bindgen_ty_6__bindgen_ty_2);
  ("bpf_attr__bindgen_ty_6", bpf_attr__bindgen_ty_6);
  ("bpf_attr__bindgen_ty_7", bpf_attr__bindgen_ty_7);
  ("bpf_attr__bindgen_ty_8__bindgen_ty_1", bpf_attr__bindgen_ty_8__bindgen_ty_1);
  ("bpf_attr__bindgen_ty_8", bpf_attr__bindgen_ty_8);
  ("bpf_attr__bindgen_ty_9", bpf_attr__bindgen_ty_9);
  ("bpf_attr__bindgen_ty_10__bindgen_ty_1", bpf_attr__bindgen_ty_10__bindgen_ty_1);
  ("bpf_attr__bindgen_ty_10__bindgen_ty_2", bpf_attr__bindgen_ty_10__bindgen_ty_2);
  ("bpf_attr__bindgen_ty_10", bpf_attr__bindgen_ty_10);
  ("bpf_attr__bindgen_ty_11", bpf_attr__bindgen_ty_11);
  ("bpf_attr__bindgen_ty_12", bpf_attr__bindgen_ty_12);
  ("bpf_attr__bindgen_ty_13", bpf_attr__bindgen_ty_13);
  ("bpf_attr__bindgen_ty_14__bindgen_ty_1", bpf_attr__bindgen_ty_14__bindgen_ty_1);
  ("bpf_attr__bindgen_ty_14__bindgen_ty_2", bpf_attr__bindgen_ty_14__bindgen_ty_2);
  ("bpf_attr__bindgen_ty_14__bindgen_ty_3__bindgen_ty_1", bpf_attr__bindgen_ty_14__bindgen_ty_3__bindgen_ty_1);
  ("bpf_attr__bindgen_ty_14__bindgen_ty_3__bindgen_ty_2", bpf_attr__bindgen_ty_14__bindgen_ty_3__bindgen_ty_2);
  ("bpf_attr__bindgen_ty_14__bindgen_ty_3__bindgen_ty_3", bpf_attr__bindgen_ty_14__bindgen_ty_3__bindgen_ty_3);
  ("bpf_attr__bindgen_ty_14__bindgen_ty_3__bindgen_ty_4", bpf_attr__bindgen_ty_14__bindgen_ty_3__bindgen_ty_4);
  ("bpf_attr__bindgen_ty_14__bindgen_ty_3__bindgen_ty_5", bpf_attr__bindgen_ty_14__bindgen_ty_3__bindgen_ty_5);
  ("bpf_attr__bindgen_ty_14__bindgen_ty_3__bindgen_ty_6__bindgen_ty_1", bpf_attr__bindgen_ty_14__bindgen_ty_3__bindgen_ty_6__bindgen_ty_1);
  ("bpf_attr__bindgen_ty_14__bindgen_ty_3__bindgen_ty_6", bpf_attr__bindgen_ty_14__bindgen_ty_3__bindgen_ty_6);
  ("bpf_attr__bindgen_ty_14__bindgen_ty_3__bindgen_ty_7", bpf_attr__bindgen_ty_14__bindgen_ty_3__bindgen_ty_7);
  ("bpf_attr__bindgen_ty_14__bindgen_ty_3__bindgen_ty_8__bindgen_ty_1", bpf_attr__bindgen_ty_14__bindgen_ty_3__bindgen_ty_8__bindgen_ty_1);
  ("bpf_attr__bindgen_ty_14__bindgen_ty_3__bindgen_ty_8", bpf_attr__bindgen_ty_14__bindgen_ty_3__bindgen_ty_8);
  ("bpf_attr__bindgen_ty_14__bindgen_ty_3__bindgen_ty_9__bindgen_ty_1", bpf_attr__bindgen_ty_14__bindgen_ty_3__bindgen_ty_9__bindgen_ty_1);
  ("bpf_attr__bindgen_ty_14__bindgen_ty_3__bindgen_ty_9", bpf_attr__bindgen_ty_14__bindgen_ty_3__bindgen_ty_9);
  ("bpf_attr__bindgen_ty_14__bindgen_ty_3", bpf_attr__bindgen_ty_14__bindgen_ty_3);
  ("bpf_attr__bindgen_ty_14", bpf_attr__bindgen_ty_14);
  ("bpf_attr__bindgen_ty_15__bindgen_ty_1", bpf_attr__bindgen_ty_15__bindgen_ty_1);
  ("bpf_attr__bindgen_ty_15__bindgen_ty_2", bpf_attr__bindgen_ty_15__bindgen_ty_2);
  ("bpf_attr__bindgen_ty_15", bpf_attr__bindgen_ty_15);
  ("bpf_attr__bindgen_ty_16", bpf_attr__bindgen_ty_16);
  ("bpf_attr__bindgen_ty_17", bpf_attr__bindgen_ty_17);
  ("bpf_attr__bindgen_ty_18", bpf_attr__bindgen_ty_18);
  ("bpf_attr__bindgen_ty_19", bpf_attr__bindgen_ty_19);
  ("bpf_attr__bindgen_ty_20", bpf_attr__bindgen_ty_20);
  ("bpf_attr__bindgen_ty_21", bpf_attr__bindgen_ty_21);
  ("bpf_attr__bindgen_ty_22", bpf_attr__bindgen_ty_22);
  ("bpf_attr", bpf_attr);
  ("bpf_run_ctx", bpf_run_ctx);
  ("bpf_link__bindgen_ty_1", bpf_link__bindgen_ty_1);
  ("bpf_link", bpf_link);
  ("bpf_cgroup_storage_key", bpf_cgroup_storage_key);
  ("bpf_cgroup_storage__bindgen_ty_1", bpf_cgroup_storage__bindgen_ty_1);
  ("bpf_cgroup_storage", bpf_cgroup_storage);
  ("bpf_cgroup_storage_map", bpf_cgroup_storage_map);
  ("gro_list", gro_list);
  ("gro_node", gro_node);
  ("bpf_ctx_arg_aux", bpf_ctx_arg_aux);
  ("xdp_md", xdp_md);
  ("sk_msg_sg", sk_msg_sg);
  ("sk_msg", sk_msg);
  ("bpf_ksym", bpf_ksym);
  ("bpf_prog_array_item__bindgen_ty_1", bpf_prog_array_item__bindgen_ty_1);
  ("bpf_prog_array_item", bpf_prog_array_item);
  ("bpf_prog_array", bpf_prog_array);
  ("bpf_func_info", bpf_func_info);
  ("bpf_func_proto__bindgen_ty_1__bindgen_ty_1", bpf_func_proto__bindgen_ty_1__bindgen_ty_1);
  ("bpf_func_proto__bindgen_ty_1", bpf_func_proto__bindgen_ty_1);
  ("bpf_func_proto__bindgen_ty_2__bindgen_ty_1", bpf_func_proto__bindgen_ty_2__bindgen_ty_1);
  ("bpf_func_proto__bindgen_ty_2__bindgen_ty_2", bpf_func_proto__bindgen_ty_2__bindgen_ty_2);
  ("bpf_func_proto__bindgen_ty_2", bpf_func_proto__bindgen_ty_2);
  ("bpf_func_proto", bpf_func_proto);
  ("tnum", tnum);
  ("bpf_reg_state__bindgen_ty_1__bindgen_ty_1", bpf_reg_state__bindgen_ty_1__bindgen_ty_1);
  ("bpf_reg_state__bindgen_ty_1__bindgen_ty_2", bpf_reg_state__bindgen_ty_1__bindgen_ty_2);
  ("bpf_reg_state__bindgen_ty_1__bindgen_ty_3", bpf_reg_state__bindgen_ty_1__bindgen_ty_3);
  ("bpf_reg_state__bindgen_ty_1__bindgen_ty_4", bpf_reg_state__bindgen_ty_1__bindgen_ty_4);
  ("bpf_reg_state__bindgen_ty_1__bindgen_ty_6", bpf_reg_state__bindgen_ty_1__bindgen_ty_6);
  ("bpf_reg_state__bindgen_ty_1__bindgen_ty_7", bpf_reg_state__bindgen_ty_1__bindgen_ty_7);
  ("bpf_reg_state__bindgen_ty_1", bpf_reg_state__bindgen_ty_1);
  ("bpf_reg_state", bpf_reg_state);
  ("bpf_retval_range", bpf_retval_range);
  ("bpf_func_state", bpf_func_state);
  ("bpf_iarray", bpf_iarray);
  ("bpf_id_pair", bpf_id_pair);
  ("bpf_idmap", bpf_idmap);
  ("bpf_idset__bindgen_ty_1", bpf_idset__bindgen_ty_1);
  ("bpf_idset", bpf_idset);
  ("bpf_insn_access_aux__bindgen_ty_1__bindgen_ty_1", bpf_insn_access_aux__bindgen_ty_1__bindgen_ty_1);
  ("bpf_insn_access_aux__bindgen_ty_1", bpf_insn_access_aux__bindgen_ty_1);
  ("bpf_insn_access_aux", bpf_insn_access_aux);
  ("bpf_iter_aux_info__bindgen_ty_1", bpf_iter_aux_info__bindgen_ty_1);
  ("bpf_iter_aux_info__bindgen_ty_2", bpf_iter_aux_info__bindgen_ty_2);
  ("bpf_iter_aux_info", bpf_iter_aux_info);
  ("bpf_iter_seq_info", bpf_iter_seq_info);
  ("vm_userfaultfd_ctx", vm_userfaultfd_ctx);
  ("vm_area_struct__bindgen_ty_1__bindgen_ty_1", vm_area_struct__bindgen_ty_1__bindgen_ty_1);
  ("vm_area_struct__bindgen_ty_1", vm_area_struct__bindgen_ty_1);
  ("vm_area_struct__bindgen_ty_2", vm_area_struct__bindgen_ty_2);
  ("vm_area_struct__bindgen_ty_3", vm_area_struct__bindgen_ty_3);
  ("vm_area_struct", vm_area_struct);
  ("bpf_jit_poke_descriptor__bindgen_ty_1__bindgen_ty_1", bpf_jit_poke_descriptor__bindgen_ty_1__bindgen_ty_1);
  ("bpf_jit_poke_descriptor__bindgen_ty_1", bpf_jit_poke_descriptor__bindgen_ty_1);
  ("bpf_jit_poke_descriptor", bpf_jit_poke_descriptor);
  ("bpf_kfunc_btf", bpf_kfunc_btf);
  ("bpf_kfunc_btf_tab", bpf_kfunc_btf_tab);
  ("bpf_kfunc_desc", bpf_kfunc_desc);
  ("bpf_kfunc_desc_tab", bpf_kfunc_desc_tab);
  ("bpf_line_info", bpf_line_info);
  ("bpf_link_info__bindgen_ty_1__bindgen_ty_1", bpf_link_info__bindgen_ty_1__bindgen_ty_1);
  ("bpf_link_info__bindgen_ty_1__bindgen_ty_2", bpf_link_info__bindgen_ty_1__bindgen_ty_2);
  ("bpf_link_info__bindgen_ty_1__bindgen_ty_3", bpf_link_info__bindgen_ty_1__bindgen_ty_3);
  ("bpf_link_info__bindgen_ty_1__bindgen_ty_4__bindgen_ty_1__bindgen_ty_1", bpf_link_info__bindgen_ty_1__bindgen_ty_4__bindgen_ty_1__bindgen_ty_1);
  ("bpf_link_info__bindgen_ty_1__bindgen_ty_4__bindgen_ty_1", bpf_link_info__bindgen_ty_1__bindgen_ty_4__bindgen_ty_1);
  ("bpf_link_info__bindgen_ty_1__bindgen_ty_4__bindgen_ty_2__bindgen_ty_1", bpf_link_info__bindgen_ty_1__bindgen_ty_4__bindgen_ty_2__bindgen_ty_1);
  ("bpf_link_info__bindgen_ty_1__bindgen_ty_4__bindgen_ty_2__bindgen_ty_2", bpf_link_info__bindgen_ty_1__bindgen_ty_4__bindgen_ty_2__bindgen_ty_2);
  ("bpf_link_info__bindgen_ty_1__bindgen_ty_4__bindgen_ty_2", bpf_link_info__bindgen_ty_1__bindgen_ty_4__bindgen_ty_2);
  ("bpf_link_info__bindgen_ty_1__bindgen_ty_4", bpf_link_info__bindgen_ty_1__bindgen_ty_4);
  ("bpf_link_info__bindgen_ty_1__bindgen_ty_5", bpf_link_info__bindgen_ty_1__bindgen_ty_5);
  ("bpf_link_info__bindgen_ty_1__bindgen_ty_6", bpf_link_info__bindgen_ty_1__bindgen_ty_6);
  ("bpf_link_info__bindgen_ty_1__bindgen_ty_7", bpf_link_info__bindgen_ty_1__bindgen_ty_7);
  ("bpf_link_info__bindgen_ty_1__bindgen_ty_8", bpf_link_info__bindgen_ty_1__bindgen_ty_8);
  ("bpf_link_info__bindgen_ty_1__bindgen_ty_9", bpf_link_info__bindgen_ty_1__bindgen_ty_9);
  ("bpf_link_info__bindgen_ty_1__bindgen_ty_10", bpf_link_info__bindgen_ty_1__bindgen_ty_10);
  ("bpf_link_info__bindgen_ty_1__bindgen_ty_11__bindgen_ty_1__bindgen_ty_1", bpf_link_info__bindgen_ty_1__bindgen_ty_11__bindgen_ty_1__bindgen_ty_1);
  ("bpf_link_info__bindgen_ty_1__bindgen_ty_11__bindgen_ty_1__bindgen_ty_2", bpf_link_info__bindgen_ty_1__bindgen_ty_11__bindgen_ty_1__bindgen_ty_2);
  ("bpf_link_info__bindgen_ty_1__bindgen_ty_11__bindgen_ty_1__bindgen_ty_3", bpf_link_info__bindgen_ty_1__bindgen_ty_11__bindgen_ty_1__bindgen_ty_3);
  ("bpf_link_info__bindgen_ty_1__bindgen_ty_11__bindgen_ty_1__bindgen_ty_4", bpf_link_info__bindgen_ty_1__bindgen_ty_11__bindgen_ty_1__bindgen_ty_4);
  ("bpf_link_info__bindgen_ty_1__bindgen_ty_11__bindgen_ty_1", bpf_link_info__bindgen_ty_1__bindgen_ty_11__bindgen_ty_1);
  ("bpf_link_info__bindgen_ty_1__bindgen_ty_11", bpf_link_info__bindgen_ty_1__bindgen_ty_11);
  ("bpf_link_info__bindgen_ty_1__bindgen_ty_12", bpf_link_info__bindgen_ty_1__bindgen_ty_12);
  ("bpf_link_info__bindgen_ty_1__bindgen_ty_13", bpf_link_info__bindgen_ty_1__bindgen_ty_13);
  ("bpf_link_info__bindgen_ty_1__bindgen_ty_14", bpf_link_info__bindgen_ty_1__bindgen_ty_14);
  ("bpf_link_info__bindgen_ty_1", bpf_link_info__bindgen_ty_1);
  ("bpf_link_info", bpf_link_info);
  ("bpf_link_ops", bpf_link_ops);
  ("live_stack_query", live_stack_query);
  ("bpf_liveness", bpf_liveness);
  ("bpf_local_storage", bpf_local_storage);
  ("bpf_local_storage_data", bpf_local_storage_data);
  ("bpf_local_storage_map", bpf_local_storage_map);
  ("bpf_local_storage_map_bucket", bpf_local_storage_map_bucket);
  ("bpf_map_dev_ops", bpf_map_dev_ops);
  ("bpf_map_ops", bpf_map_ops);
  ("bpf_map_owner", bpf_map_owner);
  ("bpf_mprog_fp", bpf_mprog_fp);
  ("bpf_mprog_entry", bpf_mprog_entry);
  ("bpf_mprog_cp", bpf_mprog_cp);
  ("bpf_mprog_bundle", bpf_mprog_bundle);
  ("bpf_nh_params__bindgen_ty_1", bpf_nh_params__bindgen_ty_1);
  ("bpf_nh_params", bpf_nh_params);
  ("bpf_redirect_info", bpf_redirect_info);
  ("bpf_net_context", bpf_net_context);
  ("bpf_offload_dev", bpf_offload_dev);
  ("bpf_offloaded_map", bpf_offloaded_map);
  ("bpf_stream", bpf_stream);
  ("bpf_prog_aux__bindgen_ty_1", bpf_prog_aux__bindgen_ty_1);
  ("bpf_prog_aux", bpf_prog_aux);
  ("bpf_prog_offload", bpf_prog_offload);
  ("bpf_prog_offload_ops", bpf_prog_offload_ops);
  ("bpf_prog_ops", bpf_prog_ops);
  ("bpf_reference_state", bpf_reference_state);
  ("bpf_verifier_state", bpf_verifier_state);
  ("bpf_scc_backedge", bpf_scc_backedge);
  ("bpf_scc_callchain", bpf_scc_callchain);
  ("bpf_scc_visit", bpf_scc_visit);
  ("bpf_scc_info", bpf_scc_info);
  ("sk_psock_progs", sk_psock_progs);
  ("bpf_stack_state", bpf_stack_state);
  ("bpf_storage_buffer", bpf_storage_buffer);
  ("bpf_struct_ops", bpf_struct_ops);
  ("bpf_struct_ops_arg_info", bpf_struct_ops_arg_info);
  ("bpf_struct_ops_desc", bpf_struct_ops_desc);
  ("tcp_congestion_ops", tcp_congestion_ops);
  ("bpf_token", bpf_token);
  ("bpf_tramp_image__bindgen_ty_1", bpf_tramp_image__bindgen_ty_1);
  ("bpf_tramp_image", bpf_tramp_image);
  ("bpf_trampoline__bindgen_ty_1", bpf_trampoline__bindgen_ty_1);
  ("bpf_trampoline", bpf_trampoline);
  ("btf_mod_pair", btf_mod_pair);
  ("bpf_verifier_log", bpf_verifier_log);
  ("bpf_verifier_env__bindgen_ty_1", bpf_verifier_env__bindgen_ty_1);
  ("bpf_verifier_env__bindgen_ty_2", bpf_verifier_env__bindgen_ty_2);
  ("bpf_verifier_env", bpf_verifier_env);
  ("bpf_verifier_ops", bpf_verifier_ops);
  ("bpf_verifier_stack_elem", bpf_verifier_stack_elem);
  ("bpf_xdp_link", bpf_xdp_link);
  ("trace_entry", trace_entry);
  ("fs_pin", fs_pin);
  ("cdev", cdev);
  ("btf_header", btf_header);
  ("btf", btf);
  ("btf_field_kptr", btf_field_kptr);
  ("btf_field_graph_root", btf_field_graph_root);
  ("btf_field__bindgen_ty_1", btf_field__bindgen_ty_1);
  ("btf_field", btf_field);
  ("btf_id_dtor_kfunc", btf_id_dtor_kfunc);
  ("btf_id_dtor_kfunc_tab", btf_id_dtor_kfunc_tab);
  ("btf_id_set8__bindgen_ty_1", btf_id_set8__bindgen_ty_1);
  ("btf_id_set8", btf_id_set8);
  ("btf_kfunc_hook_filter", btf_kfunc_hook_filter);
  ("btf_kfunc_set_tab", btf_kfunc_set_tab);
  ("btf_member", btf_member);
  ("btf_record", btf_record);
  ("btf_struct_meta", btf_struct_meta);
  ("btf_struct_metas", btf_struct_metas);
  ("btf_struct_ops_tab", btf_struct_ops_tab);
  ("btf_type__bindgen_ty_1", btf_type__bindgen_ty_1);
  ("btf_type", btf_type);
  ("semaphore", semaphore);
  ("queue_limits", queue_limits);
  ("perf_output_handle__bindgen_ty_1", perf_output_handle__bindgen_ty_1);
  ("perf_output_handle__bindgen_ty_2", perf_output_handle__bindgen_ty_2);
  ("perf_output_handle", perf_output_handle);
  ("buffer_data_page", buffer_data_page);
  ("bug_entry", bug_entry);
  ("bus_dma_region", bus_dma_region);
  ("bus_type", bus_type);
  ("cache_deferred_req", cache_deferred_req);
  ("cache_head", cache_head);
  ("cache_req", cache_req);
  ("callchain", callchain);
  ("capture_control", capture_control);
  ("cdrom_msf0", cdrom_msf0);
  ("cdrom_addr", cdrom_addr);
  ("cdrom_device_ops", cdrom_device_ops);
  ("cdrom_mcn", cdrom_mcn);
  ("cdrom_multisession", cdrom_multisession);
  ("cee_pfc", cee_pfc);
  ("cee_pg", cee_pg);
  ("cfg80211_ssid", cfg80211_ssid);
  ("cfg80211_match_set", cfg80211_match_set);
  ("cfg80211_pkt_pattern", cfg80211_pkt_pattern);
  ("cfg80211_sar_capa", cfg80211_sar_capa);
  ("cfg80211_sar_freq_ranges", cfg80211_sar_freq_ranges);
  ("cfg80211_sched_scan_plan", cfg80211_sched_scan_plan);
  ("cfg80211_sched_scan_request", cfg80211_sched_scan_request);
  ("cfg80211_wowlan", cfg80211_wowlan);
  ("nl80211_wowlan_tcp_data_seq", nl80211_wowlan_tcp_data_seq);
  ("nl80211_wowlan_tcp_data_token", nl80211_wowlan_tcp_data_token);
  ("cfg80211_wowlan_tcp", cfg80211_wowlan_tcp);
  ("cftype", cftype);
  ("cgroup_taskset", cgroup_taskset);
  ("cgroup_namespace", cgroup_namespace);
  ("cgroup_rstat_base_cpu", cgroup_rstat_base_cpu);
  ("ethtool_channels", ethtool_channels);
  ("qdisc_walker", qdisc_walker);
  ("srcu_usage", srcu_usage);
  ("debugfs_u32_array", debugfs_u32_array);
  ("cma_memrange__bindgen_ty_1", cma_memrange__bindgen_ty_1);
  ("cma_memrange", cma_memrange);
  ("cma", cma);
  ("cma_kobject", cma_kobject);
  ("ethtool_coalesce", ethtool_coalesce);
  ("kernel_ethtool_coalesce", kernel_ethtool_coalesce);
  ("compact_control", compact_control);
  ("ethtool_tcpip4_spec", ethtool_tcpip4_spec);
  ("ethtool_ah_espip4_spec", ethtool_ah_espip4_spec);
  ("ethtool_usrip4_spec", ethtool_usrip4_spec);
  ("ethtool_tcpip6_spec", ethtool_tcpip6_spec);
  ("ethtool_ah_espip6_spec", ethtool_ah_espip6_spec);
  ("ethtool_usrip6_spec", ethtool_usrip6_spec);
  ("ethtool_flow_union", ethtool_flow_union);
  ("ethtool_flow_ext", ethtool_flow_ext);
  ("dir_context", dir_context);
  ("compat_robust_list", compat_robust_list);
  ("compat_robust_list_head", compat_robust_list_head);
  ("in_addr", in_addr);
  ("cond_snapshot", cond_snapshot);
  ("winsize", winsize);
  ("core_thread", core_thread);
  ("core_state", core_state);
  ("core_vma_metadata", core_vma_metadata);
  ("coredump_params", coredump_params);
  ("perf_branch_stack", perf_branch_stack);
  ("cpu_rmap__bindgen_ty_1", cpu_rmap__bindgen_ty_1);
  ("cpu_rmap", cpu_rmap);
  ("cpu_stop_done", cpu_stop_done);
  ("cpudl", cpudl);
  ("cpudl_item", cpudl_item);
  ("pm_qos_constraints", pm_qos_constraints);
  ("freq_constraints", freq_constraints);
  ("cpuidle_driver_kobj", cpuidle_driver_kobj);
  ("cpuidle_device_kobj", cpuidle_device_kobj);
  ("cpuidle_state_kobj", cpuidle_state_kobj);
  ("cpupri_vec", cpupri_vec);
  ("cpupri", cpupri);
  ("range", range);
  ("cred__bindgen_ty_1", cred__bindgen_ty_1);
  ("cred", cred);
  ("crypto_tfm", crypto_tfm);
  ("crypto_aead", crypto_aead);
  ("crypto_spawn__bindgen_ty_1", crypto_spawn__bindgen_ty_1);
  ("crypto_spawn", crypto_spawn);
  ("crypto_template", crypto_template);
  ("crypto_type", crypto_type);
  ("rtattr", rtattr);
  ("css_rstat_cpu", css_rstat_cpu);
  ("css_set", css_set);
  ("ctl_node", ctl_node);
  ("ctl_table", ctl_table);
  ("ctl_table_poll", ctl_table_poll);
  ("ctl_table_root", ctl_table_root);
  ("ctx_rq_wait", ctx_rq_wait);
  ("dax_device", dax_device);
  ("dax_holder_operations", dax_holder_operations);
  ("dax_operations", dax_operations);
  ("kobj_type", kobj_type);
  ("dcb_app", dcb_app);
  ("dcb_peer_app_info", dcb_peer_app_info);
  ("dcbnl_buffer", dcbnl_buffer);
  ("dcbnl_rtnl_ops", dcbnl_rtnl_ops);
  ("ddebug_class_map", ddebug_class_map);
  ("delayed_call", delayed_call);
  ("hlist_bl_node", hlist_bl_node);
  ("shortname_store", shortname_store);
  ("lockref__bindgen_ty_1__bindgen_ty_1", lockref__bindgen_ty_1__bindgen_ty_1);
  ("lockref__bindgen_ty_1", lockref__bindgen_ty_1);
  ("lockref", lockref);
  ("dentry__bindgen_ty_1", dentry__bindgen_ty_1);
  ("dentry__bindgen_ty_2", dentry__bindgen_ty_2);
  ("dentry__bindgen_ty_3", dentry__bindgen_ty_3);
  ("dentry", dentry);
  ("dev_ifalias", dev_ifalias);
  ("vmem_altmap", vmem_altmap);
  ("dev_pagemap__bindgen_ty_1__bindgen_ty_1__bindgen_ty_1", dev_pagemap__bindgen_ty_1__bindgen_ty_1__bindgen_ty_1);
  ("dev_pagemap__bindgen_ty_1__bindgen_ty_1", dev_pagemap__bindgen_ty_1__bindgen_ty_1);
  ("dev_pagemap__bindgen_ty_1", dev_pagemap__bindgen_ty_1);
  ("dev_pagemap", dev_pagemap);
  ("dev_pagemap_ops", dev_pagemap_ops);
  ("dev_pin_info", dev_pin_info);
  ("dev_pm_ops", dev_pm_ops);
  ("dev_pm_domain", dev_pm_domain);
  ("pm_qos_flags", pm_qos_flags);
  ("dev_pm_qos", dev_pm_qos);
  ("pm_qos_flags_request", pm_qos_flags_request);
  ("dev_pm_qos_request__bindgen_ty_1", dev_pm_qos_request__bindgen_ty_1);
  ("dev_pm_qos_request", dev_pm_qos_request);
  ("device_dma_parameters", device_dma_parameters);
  ("device_link", device_link);
  ("device_node", device_node);
  ("device_physical_location", device_physical_location);
  ("device_type", device_type);
  ("devlink_dpipe_field", devlink_dpipe_field);
  ("devlink_dpipe_header", devlink_dpipe_header);
  ("devlink_dpipe_headers", devlink_dpipe_headers);
  ("devlink_flash_update_params", devlink_flash_update_params);
  ("devlink_info_req", devlink_info_req);
  ("devlink_linecard", devlink_linecard);
  ("devlink_linecard_ops", devlink_linecard_ops);
  ("devlink_linecard_type", devlink_linecard_type);
  ("devlink_ops", devlink_ops);
  ("devlink_param_value", devlink_param_value);
  ("devlink_param_gset_ctx", devlink_param_gset_ctx);
  ("devlink_port_ops", devlink_port_ops);
  ("devlink_rate__bindgen_ty_1__bindgen_ty_1", devlink_rate__bindgen_ty_1__bindgen_ty_1);
  ("devlink_rate__bindgen_ty_1", devlink_rate__bindgen_ty_1);
  ("devlink_rate", devlink_rate);
  ("devlink_rel__bindgen_ty_1", devlink_rel__bindgen_ty_1);
  ("devlink_rel", devlink_rel);
  ("devlink_sb_pool_info", devlink_sb_pool_info);
  ("devlink_trap", devlink_trap);
  ("devlink_trap_group", devlink_trap_group);
  ("devlink_trap_policer", devlink_trap_policer);
  ("dim_stats", dim_stats);
  ("dim_sample", dim_sample);
  ("dim", dim);
  ("dim_cq_moder", dim_cq_moder);
  ("dim_irq_moder", dim_irq_moder);
  ("disk_events", disk_events);
  ("disk_stats", disk_stats);
  ("dl_bw", dl_bw);
  ("dm_hw_stat_delta", dm_hw_stat_delta);
  ("sg_table", sg_table);
  ("dma_map_ops", dma_map_ops);
  ("iommu_domain_geometry", iommu_domain_geometry);
  ("iommu_domain__bindgen_ty_1__bindgen_ty_1", iommu_domain__bindgen_ty_1__bindgen_ty_1);
  ("iommu_domain__bindgen_ty_1__bindgen_ty_2", iommu_domain__bindgen_ty_1__bindgen_ty_2);
  ("iommu_domain__bindgen_ty_1", iommu_domain__bindgen_ty_1);
  ("iommu_domain", iommu_domain);
  ("dpll_pin_phase_adjust_range", dpll_pin_phase_adjust_range);
  ("dpll_pin_properties", dpll_pin_properties);
  ("dpll_pin", dpll_pin);
  ("dpll_pin_frequency", dpll_pin_frequency);
  ("kqid__bindgen_ty_1", kqid__bindgen_ty_1);
  ("kqid", kqid);
  ("mem_dqblk", mem_dqblk);
  ("dquot", dquot);
  ("dquot_operations", dquot_operations);
  ("driver_private", driver_private);
  ("ww_acquire_ctx", ww_acquire_ctx);
  ("kthread_work", kthread_work);
  ("dsa_bridge", dsa_bridge);
  ("dsa_chip_data", dsa_chip_data);
  ("dsa_lag", dsa_lag);
  ("dsa_db__bindgen_ty_1", dsa_db__bindgen_ty_1);
  ("dsa_db", dsa_db);
  ("dsa_device_ops", dsa_device_ops);
  ("dsa_mall_mirror_tc_entry", dsa_mall_mirror_tc_entry);
  ("dsa_platform_data", dsa_platform_data);
  ("phylink", phylink);
  ("dsa_8021q_context", dsa_8021q_context);
  ("dsa_switch_ops", dsa_switch_ops);
  ("dsa_switch_tree", dsa_switch_tree);
  ("dst_cache", dst_cache);
  ("dst_cache_pcpu__bindgen_ty_1", dst_cache_pcpu__bindgen_ty_1);
  ("dst_cache_pcpu", dst_cache_pcpu);
  ("dst_metrics", dst_metrics);
  ("rt_mutex_base", rt_mutex_base);
  ("rt_mutex", rt_mutex);
  ("seq_buf", seq_buf);
  ("ethtool_keee", ethtool_keee);
  ("elevator_mq_ops", elevator_mq_ops);
  ("elevator_queue", elevator_queue);
  ("elevator_tags", elevator_tags);
  ("elevator_type", elevator_type);
  ("elf64_sym", elf64_sym);
  ("elv_fs_entry", elv_fs_entry);
  ("em_perf_domain", em_perf_domain);
  ("em_perf_state", em_perf_state);
  ("em_perf_table", em_perf_table);
  ("error_injection_entry", error_injection_entry);
  ("ethtool_c33_pse_ext_state_info__bindgen_ty_1", ethtool_c33_pse_ext_state_info__bindgen_ty_1);
  ("ethtool_c33_pse_ext_state_info", ethtool_c33_pse_ext_state_info);
  ("ethtool_c33_pse_pw_limit_range", ethtool_c33_pse_pw_limit_range);
  ("ethtool_flash", ethtool_flash);
  ("ethtool_drvinfo", ethtool_drvinfo);
  ("ethtool_dump", ethtool_dump);
  ("ethtool_eeprom", ethtool_eeprom);
  ("ethtool_eth_ctrl_stats__bindgen_ty_1__bindgen_ty_1", ethtool_eth_ctrl_stats__bindgen_ty_1__bindgen_ty_1);
  ("ethtool_eth_ctrl_stats__bindgen_ty_1__bindgen_ty_2", ethtool_eth_ctrl_stats__bindgen_ty_1__bindgen_ty_2);
  ("ethtool_eth_ctrl_stats__bindgen_ty_1", ethtool_eth_ctrl_stats__bindgen_ty_1);
  ("ethtool_eth_ctrl_stats", ethtool_eth_ctrl_stats);
  ("ethtool_eth_mac_stats__bindgen_ty_1__bindgen_ty_1", ethtool_eth_mac_stats__bindgen_ty_1__bindgen_ty_1);
  ("ethtool_eth_mac_stats__bindgen_ty_1__bindgen_ty_2", ethtool_eth_mac_stats__bindgen_ty_1__bindgen_ty_2);
  ("ethtool_eth_mac_stats__bindgen_ty_1", ethtool_eth_mac_stats__bindgen_ty_1);
  ("ethtool_eth_mac_stats", ethtool_eth_mac_stats);
  ("ethtool_eth_phy_stats__bindgen_ty_1__bindgen_ty_1", ethtool_eth_phy_stats__bindgen_ty_1__bindgen_ty_1);
  ("ethtool_eth_phy_stats__bindgen_ty_1__bindgen_ty_2", ethtool_eth_phy_stats__bindgen_ty_1__bindgen_ty_2);
  ("ethtool_eth_phy_stats__bindgen_ty_1", ethtool_eth_phy_stats__bindgen_ty_1);
  ("ethtool_eth_phy_stats", ethtool_eth_phy_stats);
  ("ethtool_fec_hist_value", ethtool_fec_hist_value);
  ("ethtool_fec_hist", ethtool_fec_hist);
  ("ethtool_fec_hist_range", ethtool_fec_hist_range);
  ("ethtool_fec_stat", ethtool_fec_stat);
  ("ethtool_fec_stats", ethtool_fec_stats);
  ("ethtool_fecparam", ethtool_fecparam);
  ("ethtool_link_ext_state_info__bindgen_ty_1", ethtool_link_ext_state_info__bindgen_ty_1);
  ("ethtool_link_ext_state_info", ethtool_link_ext_state_info);
  ("ethtool_link_ext_stats", ethtool_link_ext_stats);
  ("ethtool_link_settings", ethtool_link_settings);
  ("ethtool_link_ksettings__bindgen_ty_1", ethtool_link_ksettings__bindgen_ty_1);
  ("ethtool_link_ksettings", ethtool_link_ksettings);
  ("ethtool_mm_cfg", ethtool_mm_cfg);
  ("ethtool_mm_state", ethtool_mm_state);
  ("ethtool_mm_stats", ethtool_mm_stats);
  ("ethtool_modinfo", ethtool_modinfo);
  ("ethtool_module_eeprom", ethtool_module_eeprom);
  ("ethtool_module_power_mode_params", ethtool_module_power_mode_params);
  ("ethtool_pause_stats__bindgen_ty_1__bindgen_ty_1", ethtool_pause_stats__bindgen_ty_1__bindgen_ty_1);
  ("ethtool_pause_stats__bindgen_ty_1__bindgen_ty_2", ethtool_pause_stats__bindgen_ty_1__bindgen_ty_2);
  ("ethtool_pause_stats__bindgen_ty_1", ethtool_pause_stats__bindgen_ty_1);
  ("ethtool_pause_stats", ethtool_pause_stats);
  ("ethtool_pauseparam", ethtool_pauseparam);
  ("ethtool_phy_stats", ethtool_phy_stats);
  ("ethtool_regs", ethtool_regs);
  ("ethtool_ringparam", ethtool_ringparam);
  ("ethtool_rmon_hist_range", ethtool_rmon_hist_range);
  ("ethtool_rmon_stats__bindgen_ty_1__bindgen_ty_1", ethtool_rmon_stats__bindgen_ty_1__bindgen_ty_1);
  ("ethtool_rmon_stats__bindgen_ty_1__bindgen_ty_2", ethtool_rmon_stats__bindgen_ty_1__bindgen_ty_2);
  ("ethtool_rmon_stats__bindgen_ty_1", ethtool_rmon_stats__bindgen_ty_1);
  ("ethtool_rmon_stats", ethtool_rmon_stats);
  ("flow_dissector", flow_dissector);
  ("ethtool_rx_flow_spec", ethtool_rx_flow_spec);
  ("ethtool_rxfh_fields", ethtool_rxfh_fields);
  ("ethtool_rxfh_param", ethtool_rxfh_param);
  ("ethtool_rxnfc__bindgen_ty_1", ethtool_rxnfc__bindgen_ty_1);
  ("ethtool_rxnfc", ethtool_rxnfc);
  ("ethtool_stats", ethtool_stats);
  ("ethtool_test", ethtool_test);
  ("ethtool_ts_stats__bindgen_ty_1__bindgen_ty_1", ethtool_ts_stats__bindgen_ty_1__bindgen_ty_1);
  ("ethtool_ts_stats__bindgen_ty_1__bindgen_ty_2", ethtool_ts_stats__bindgen_ty_1__bindgen_ty_2);
  ("ethtool_ts_stats__bindgen_ty_1", ethtool_ts_stats__bindgen_ty_1);
  ("ethtool_ts_stats", ethtool_ts_stats);
  ("ethtool_tunable", ethtool_tunable);
  ("ethtool_wolinfo", ethtool_wolinfo);
  ("event_filter", event_filter);
  ("event_subsystem", event_subsystem);
  ("eventfd_ctx", eventfd_ctx);
  ("eventfs_entry", eventfs_entry);
  ("exception_table_entry", exception_table_entry);
  ("export_operations", export_operations);
  ("fsnotify_event", fsnotify_event);
  ("fanotify_group_private_data", fanotify_group_private_data);
  ("fasync_struct", fasync_struct);
  ("fc_log", fc_log);
  ("ftrace_graph_ent", ftrace_graph_ent);
  ("ftrace_graph_ret", ftrace_graph_ret);
  ("ftrace_ops_hash", ftrace_ops_hash);
  ("ftrace_ops", ftrace_ops);
  ("fgraph_ops", fgraph_ops);
  ("fib_kuid_range", fib_kuid_range);
  ("fib_rule_port_range", fib_rule_port_range);
  ("fib_rule", fib_rule);
  ("fib6_node", fib6_node);
  ("inet_peer_base", inet_peer_base);
  ("fib6_table", fib6_table);
  ("fib_nh", fib_nh);
  ("fib_info", fib_info);
  ("fib_lookup_arg", fib_lookup_arg);
  ("fib_nh_exception", fib_nh_exception);
  ("fib_notifier_ops", fib_notifier_ops);
  ("fib_rule_hdr", fib_rule_hdr);
  ("fib_rules_ops", fib_rules_ops);
  ("fib_table", fib_table);
  ("fid__bindgen_ty_1__bindgen_ty_1", fid__bindgen_ty_1__bindgen_ty_1);
  ("fid__bindgen_ty_1__bindgen_ty_2", fid__bindgen_ty_1__bindgen_ty_2);
  ("fid__bindgen_ty_1__bindgen_ty_3", fid__bindgen_ty_1__bindgen_ty_3);
  ("fid__bindgen_ty_1__bindgen_ty_4__bindgen_ty_1", fid__bindgen_ty_1__bindgen_ty_4__bindgen_ty_1);
  ("fid__bindgen_ty_1__bindgen_ty_4", fid__bindgen_ty_1__bindgen_ty_4);
  ("fid__bindgen_ty_1", fid__bindgen_ty_1);
  ("fid", fid);
  ("fiemap_extent", fiemap_extent);
  ("fiemap_extent_info", fiemap_extent_info);
  ("file_lock_core", file_lock_core);
  ("file_lease", file_lease);
  ("nlm_lockowner", nlm_lockowner);
  ("nfs_lock_info", nfs_lock_info);
  ("nfs4_lock_info", nfs4_lock_info);
  ("file_lock__bindgen_ty_1__bindgen_ty_1", file_lock__bindgen_ty_1__bindgen_ty_1);
  ("file_lock__bindgen_ty_1__bindgen_ty_2", file_lock__bindgen_ty_1__bindgen_ty_2);
  ("file_lock__bindgen_ty_1", file_lock__bindgen_ty_1);
  ("file_lock", file_lock);
  ("file_lock_context", file_lock_context);
  ("file_lock_operations", file_lock_operations);
  ("file_operations", file_operations);
  ("file_system_type", file_system_type);
  ("filename", filename);
  ("filter_pred", filter_pred);
  ("firmware", firmware);
  ("regulator_init_data", regulator_init_data);
  ("flow_action_police__bindgen_ty_1", flow_action_police__bindgen_ty_1);
  ("flow_action_police__bindgen_ty_2", flow_action_police__bindgen_ty_2);
  ("flow_action_police", flow_action_police);
  ("nf_flowtable", nf_flowtable);
  ("flow_action_entry__bindgen_ty_1__bindgen_ty_1", flow_action_entry__bindgen_ty_1__bindgen_ty_1);
  ("flow_action_entry__bindgen_ty_1__bindgen_ty_2", flow_action_entry__bindgen_ty_1__bindgen_ty_2);
  ("flow_action_entry__bindgen_ty_1__bindgen_ty_3", flow_action_entry__bindgen_ty_1__bindgen_ty_3);
  ("flow_action_entry__bindgen_ty_1__bindgen_ty_4", flow_action_entry__bindgen_ty_1__bindgen_ty_4);
  ("flow_action_entry__bindgen_ty_1__bindgen_ty_5", flow_action_entry__bindgen_ty_1__bindgen_ty_5);
  ("flow_action_entry__bindgen_ty_1__bindgen_ty_6", flow_action_entry__bindgen_ty_1__bindgen_ty_6);
  ("flow_action_entry__bindgen_ty_1__bindgen_ty_7", flow_action_entry__bindgen_ty_1__bindgen_ty_7);
  ("flow_action_entry__bindgen_ty_1__bindgen_ty_8", flow_action_entry__bindgen_ty_1__bindgen_ty_8);
  ("flow_action_entry__bindgen_ty_1__bindgen_ty_9", flow_action_entry__bindgen_ty_1__bindgen_ty_9);
  ("flow_action_entry__bindgen_ty_1__bindgen_ty_10", flow_action_entry__bindgen_ty_1__bindgen_ty_10);
  ("flow_action_entry__bindgen_ty_1__bindgen_ty_11", flow_action_entry__bindgen_ty_1__bindgen_ty_11);
  ("flow_action_entry__bindgen_ty_1__bindgen_ty_12", flow_action_entry__bindgen_ty_1__bindgen_ty_12);
  ("flow_action_entry__bindgen_ty_1", flow_action_entry__bindgen_ty_1);
  ("flow_action_entry", flow_action_entry);
  ("flow_action", flow_action);
  ("flow_action_cookie", flow_action_cookie);
  ("flow_block", flow_block);
  ("flow_cls_common_offload", flow_cls_common_offload);
  ("flow_stats", flow_stats);
  ("flow_cls_offload", flow_cls_offload);
  ("flow_match", flow_match);
  ("flow_rule", flow_rule);
  ("fnhe_hash_bucket", fnhe_hash_bucket);
  ("page__bindgen_ty_1__bindgen_ty_1__bindgen_ty_1", page__bindgen_ty_1__bindgen_ty_1__bindgen_ty_1);
  ("page__bindgen_ty_1__bindgen_ty_1__bindgen_ty_2", page__bindgen_ty_1__bindgen_ty_1__bindgen_ty_2);
  ("page__bindgen_ty_1__bindgen_ty_1", page__bindgen_ty_1__bindgen_ty_1);
  ("page__bindgen_ty_1__bindgen_ty_2", page__bindgen_ty_1__bindgen_ty_2);
  ("page__bindgen_ty_1__bindgen_ty_3", page__bindgen_ty_1__bindgen_ty_3);
  ("page__bindgen_ty_1__bindgen_ty_4", page__bindgen_ty_1__bindgen_ty_4);
  ("page__bindgen_ty_1", page__bindgen_ty_1);
  ("page__bindgen_ty_2", page__bindgen_ty_2);
  ("page", page);
  ("folio__bindgen_ty_1__bindgen_ty_1__bindgen_ty_1__bindgen_ty_1", folio__bindgen_ty_1__bindgen_ty_1__bindgen_ty_1__bindgen_ty_1);
  ("folio__bindgen_ty_1__bindgen_ty_1__bindgen_ty_1", folio__bindgen_ty_1__bindgen_ty_1__bindgen_ty_1);
  ("folio__bindgen_ty_1__bindgen_ty_1__bindgen_ty_2", folio__bindgen_ty_1__bindgen_ty_1__bindgen_ty_2);
  ("folio__bindgen_ty_1__bindgen_ty_1__bindgen_ty_3", folio__bindgen_ty_1__bindgen_ty_1__bindgen_ty_3);
  ("folio__bindgen_ty_1__bindgen_ty_1", folio__bindgen_ty_1__bindgen_ty_1);
  ("folio__bindgen_ty_1", folio__bindgen_ty_1);
  ("folio__bindgen_ty_2__bindgen_ty_1__bindgen_ty_1__bindgen_ty_1__bindgen_ty_1", folio__bindgen_ty_2__bindgen_ty_1__bindgen_ty_1__bindgen_ty_1__bindgen_ty_1);
  ("folio__bindgen_ty_2__bindgen_ty_1__bindgen_ty_1__bindgen_ty_1", folio__bindgen_ty_2__bindgen_ty_1__bindgen_ty_1__bindgen_ty_1);
  ("folio__bindgen_ty_2__bindgen_ty_1__bindgen_ty_1", folio__bindgen_ty_2__bindgen_ty_1__bindgen_ty_1);
  ("folio__bindgen_ty_2__bindgen_ty_1", folio__bindgen_ty_2__bindgen_ty_1);
  ("folio__bindgen_ty_2", folio__bindgen_ty_2);
  ("folio__bindgen_ty_3__bindgen_ty_1", folio__bindgen_ty_3__bindgen_ty_1);
  ("folio__bindgen_ty_3", folio__bindgen_ty_3);
  ("folio__bindgen_ty_4__bindgen_ty_1", folio__bindgen_ty_4__bindgen_ty_1);
  ("folio__bindgen_ty_4", folio__bindgen_ty_4);
  ("folio", folio);
  ("folio_queue", folio_queue);
  ("fown_struct", fown_struct);
  ("rhlist_head", rhlist_head);
  ("fprop_global", fprop_global);
  ("frag_v4_compare_key", frag_v4_compare_key);
  ("frag_v6_compare_key", frag_v6_compare_key);
  ("inet_frag_queue__bindgen_ty_1", inet_frag_queue__bindgen_ty_1);
  ("inet_frag_queue", inet_frag_queue);
  ("fs_context_operations", fs_context_operations);
  ("fs_parameter_spec", fs_parameter_spec);
  ("fs_parse_result__bindgen_ty_1", fs_parse_result__bindgen_ty_1);
  ("fs_parse_result", fs_parse_result);
  ("fs_struct", fs_struct);
  ("fscrypt_policy_v1", fscrypt_policy_v1);
  ("fscrypt_policy_v2", fscrypt_policy_v2);
  ("fscrypt_policy", fscrypt_policy);
  ("fscrypt_keyring", fscrypt_keyring);
  ("fserror_event", fserror_event);
  ("inotify_group_private_data", inotify_group_private_data);
  ("fsnotify_group__bindgen_ty_1", fsnotify_group__bindgen_ty_1);
  ("fsnotify_group", fsnotify_group);
  ("fsnotify_mark_connector__bindgen_ty_1", fsnotify_mark_connector__bindgen_ty_1);
  ("fsnotify_mark_connector", fsnotify_mark_connector);
  ("fsnotify_iter_info", fsnotify_iter_info);
  ("fsnotify_ops", fsnotify_ops);
  ("fsnotify_sb_info", fsnotify_sb_info);
  ("fsverity_operations", fsverity_operations);
  ("trace_seq", trace_seq);
  ("trace_iterator", trace_iterator);
  ("ftrace_hash", ftrace_hash);
  ("ftrace_regs", ftrace_regs);
  ("func_instance", func_instance);
  ("futex_key__bindgen_ty_1", futex_key__bindgen_ty_1);
  ("futex_key__bindgen_ty_2__bindgen_ty_1", futex_key__bindgen_ty_2__bindgen_ty_1);
  ("futex_key__bindgen_ty_2", futex_key__bindgen_ty_2);
  ("futex_key__bindgen_ty_3", futex_key__bindgen_ty_3);
  ("futex_key", futex_key);
  ("futex_pi_state", futex_pi_state);
  ("fwnode_endpoint", fwnode_endpoint);
  ("fwnode_operations", fwnode_operations);
  ("fwnode_reference_args", fwnode_reference_args);
  ("gendisk", gendisk);
  ("pm_domain_data", pm_domain_data);
  ("tc_stats", tc_stats);
  ("gnet_dump", gnet_dump);
  ("gpio_desc", gpio_desc);
  ("gpio_desc_label", gpio_desc_label);
  ("gpio_device", gpio_device);
  ("irq_fwspec", irq_fwspec);
  ("uv_alloc_info", uv_alloc_info);
  ("irq_alloc_info__bindgen_ty_1", irq_alloc_info__bindgen_ty_1);
  ("irq_alloc_info", irq_alloc_info);
  ("gpio_irq_fwspec", gpio_irq_fwspec);
  ("irq_affinity_notify", irq_affinity_notify);
  ("napi_struct", napi_struct);
  ("group_info", group_info);
  ("rpcsec_gss_oid", rpcsec_gss_oid);
  ("gss_api_mech", gss_api_mech);
  ("gss_api_ops", gss_api_ops);
  ("gss_ctx", gss_ctx);
  ("handle_to_path_ctx", handle_to_path_ctx);
  ("hd_geometry", hd_geometry);
  ("header_ops", header_ops);
  ("hh_cache", hh_cache);
  ("hw_perf_event_extra", hw_perf_event_extra);
  ("hw_perf_event__bindgen_ty_1__bindgen_ty_1", hw_perf_event__bindgen_ty_1__bindgen_ty_1);
  ("hw_perf_event__bindgen_ty_1__bindgen_ty_2", hw_perf_event__bindgen_ty_1__bindgen_ty_2);
  ("hw_perf_event__bindgen_ty_1__bindgen_ty_3", hw_perf_event__bindgen_ty_1__bindgen_ty_3);
  ("hw_perf_event__bindgen_ty_1__bindgen_ty_4", hw_perf_event__bindgen_ty_1__bindgen_ty_4);
  ("hw_perf_event__bindgen_ty_1__bindgen_ty_5", hw_perf_event__bindgen_ty_1__bindgen_ty_5);
  ("hw_perf_event__bindgen_ty_1__bindgen_ty_6", hw_perf_event__bindgen_ty_1__bindgen_ty_6);
  ("hw_perf_event__bindgen_ty_1__bindgen_ty_7", hw_perf_event__bindgen_ty_1__bindgen_ty_7);
  ("hw_perf_event__bindgen_ty_1", hw_perf_event__bindgen_ty_1);
  ("hw_perf_event__bindgen_ty_2__bindgen_ty_1", hw_perf_event__bindgen_ty_2__bindgen_ty_1);
  ("hw_perf_event__bindgen_ty_2__bindgen_ty_2", hw_perf_event__bindgen_ty_2__bindgen_ty_2);
  ("hw_perf_event__bindgen_ty_2", hw_perf_event__bindgen_ty_2);
  ("hw_perf_event", hw_perf_event);
  ("hw_port_info", hw_port_info);
  ("hwspinlock", hwspinlock);
  ("hwspinlock_device", hwspinlock_device);
  ("hwspinlock_ops", hwspinlock_ops);
  ("hwtstamp_provider_desc", hwtstamp_provider_desc);
  ("hwtstamp_provider", hwtstamp_provider);
  ("iattr__bindgen_ty_1", iattr__bindgen_ty_1);
  ("iattr__bindgen_ty_2", iattr__bindgen_ty_2);
  ("iattr", iattr);
  ("ib_ah", ib_ah);
  ("ib_ah_attr", ib_ah_attr);
  ("ib_counters", ib_counters);
  ("ib_counters_read_attr", ib_counters_read_attr);
  ("ib_ucq_object", ib_ucq_object);
  ("ib_cq_init_attr", ib_cq_init_attr);
  ("ib_cqe", ib_cqe);
  ("ib_mad", ib_mad);
  ("uverbs_attr_bundle", uverbs_attr_bundle);
  ("ib_umem", ib_umem);
  ("rdma_cm_id", rdma_cm_id);
  ("iw_cm_id", iw_cm_id);
  ("iw_cm_conn_param", iw_cm_conn_param);
  ("ib_uverbs_file", ib_uverbs_file);
  ("hw_stats_device_data", hw_stats_device_data);
  ("rdma_restrack_root", rdma_restrack_root);
  ("uapi_definition", uapi_definition);
  ("ib_device_modify", ib_device_modify);
  ("ib_dm", ib_dm);
  ("ib_dm_alloc_attr", ib_dm_alloc_attr);
  ("ib_dm_mr_attr", ib_dm_mr_attr);
  ("ib_dmah", ib_dmah);
  ("ib_event__bindgen_ty_1", ib_event__bindgen_ty_1);
  ("ib_event", ib_event);
  ("ib_flow", ib_flow);
  ("ib_flow_action", ib_flow_action);
  ("ib_flow_eth_filter", ib_flow_eth_filter);
  ("ib_flow_spec_eth", ib_flow_spec_eth);
  ("ib_flow_ib_filter", ib_flow_ib_filter);
  ("ib_flow_spec_ib", ib_flow_spec_ib);
  ("ib_flow_ipv4_filter", ib_flow_ipv4_filter);
  ("ib_flow_spec_ipv4", ib_flow_spec_ipv4);
  ("ib_flow_tcp_udp_filter", ib_flow_tcp_udp_filter);
  ("ib_flow_spec_tcp_udp", ib_flow_spec_tcp_udp);
  ("ib_flow_ipv6_filter", ib_flow_ipv6_filter);
  ("ib_flow_spec_ipv6", ib_flow_spec_ipv6);
  ("ib_flow_tunnel_filter", ib_flow_tunnel_filter);
  ("ib_flow_spec_tunnel", ib_flow_spec_tunnel);
  ("ib_flow_esp_filter", ib_flow_esp_filter);
  ("ib_flow_spec_esp", ib_flow_spec_esp);
  ("ib_flow_gre_filter", ib_flow_gre_filter);
  ("ib_flow_spec_gre", ib_flow_spec_gre);
  ("ib_flow_mpls_filter", ib_flow_mpls_filter);
  ("ib_flow_spec_mpls", ib_flow_spec_mpls);
  ("ib_flow_spec_action_tag", ib_flow_spec_action_tag);
  ("ib_flow_spec_action_drop", ib_flow_spec_action_drop);
  ("ib_flow_spec_action_handle", ib_flow_spec_action_handle);
  ("ib_flow_spec_action_count", ib_flow_spec_action_count);
  ("ib_flow_spec__bindgen_ty_1", ib_flow_spec__bindgen_ty_1);
  ("ib_flow_spec", ib_flow_spec);
  ("ib_flow_attr", ib_flow_attr);
  ("ib_gid__bindgen_ty_1", ib_gid__bindgen_ty_1);
  ("ib_gid", ib_gid);
  ("ib_gid_attr", ib_gid_attr);
  ("ib_global_route", ib_global_route);
  ("ib_grh", ib_grh);
  ("ib_mr__bindgen_ty_1", ib_mr__bindgen_ty_1);
  ("ib_mr", ib_mr);
  ("ib_sig_err", ib_sig_err);
  ("ib_mr_status", ib_mr_status);
  ("ib_mw", ib_mw);
  ("ib_pd", ib_pd);
  ("ib_pkey_cache", ib_pkey_cache);
  ("ib_gid_table", ib_gid_table);
  ("ib_port_cache", ib_port_cache);
  ("ib_port_immutable", ib_port_immutable);
  ("rdma_counter_mode", rdma_counter_mode);
  ("rdma_port_counter", rdma_port_counter);
  ("ib_port", ib_port);
  ("ib_port_data", ib_port_data);
  ("ib_port_modify", ib_port_modify);
  ("ib_port_pkey", ib_port_pkey);
  ("ib_ports_pkeys", ib_ports_pkeys);
  ("ib_uqp_object", ib_uqp_object);
  ("ib_qp", ib_qp);
  ("ib_qp_cap", ib_qp_cap);
  ("roce_ah_attr", roce_ah_attr);
  ("opa_ah_attr", opa_ah_attr);
  ("rdma_ah_attr__bindgen_ty_1", rdma_ah_attr__bindgen_ty_1);
  ("rdma_ah_attr", rdma_ah_attr);
  ("ib_qp_attr", ib_qp_attr);
  ("ib_qp_init_attr", ib_qp_init_attr);
  ("ib_qp_security", ib_qp_security);
  ("ib_rdmacg_object", ib_rdmacg_object);
  ("ib_recv_wr__bindgen_ty_1", ib_recv_wr__bindgen_ty_1);
  ("ib_recv_wr", ib_recv_wr);
  ("ib_rwq_ind_table", ib_rwq_ind_table);
  ("ib_rwq_ind_table_init_attr", ib_rwq_ind_table_init_attr);
  ("ib_send_wr__bindgen_ty_1", ib_send_wr__bindgen_ty_1);
  ("ib_send_wr__bindgen_ty_2", ib_send_wr__bindgen_ty_2);
  ("ib_send_wr", ib_send_wr);
  ("ib_sge", ib_sge);
  ("ib_t10_dif_domain", ib_t10_dif_domain);
  ("ib_sig_domain__bindgen_ty_1", ib_sig_domain__bindgen_ty_1);
  ("ib_sig_domain", ib_sig_domain);
  ("ib_sig_attrs", ib_sig_attrs);
  ("ib_usrq_object", ib_usrq_object);
  ("ib_srq__bindgen_ty_1__bindgen_ty_1__bindgen_ty_1", ib_srq__bindgen_ty_1__bindgen_ty_1__bindgen_ty_1);
  ("ib_srq__bindgen_ty_1__bindgen_ty_1", ib_srq__bindgen_ty_1__bindgen_ty_1);
  ("ib_srq__bindgen_ty_1", ib_srq__bindgen_ty_1);
  ("ib_srq", ib_srq);
  ("ib_srq_attr", ib_srq_attr);
  ("ib_srq_init_attr__bindgen_ty_1__bindgen_ty_1__bindgen_ty_1", ib_srq_init_attr__bindgen_ty_1__bindgen_ty_1__bindgen_ty_1);
  ("ib_srq_init_attr__bindgen_ty_1__bindgen_ty_1__bindgen_ty_2", ib_srq_init_attr__bindgen_ty_1__bindgen_ty_1__bindgen_ty_2);
  ("ib_srq_init_attr__bindgen_ty_1__bindgen_ty_1", ib_srq_init_attr__bindgen_ty_1__bindgen_ty_1);
  ("ib_srq_init_attr__bindgen_ty_1", ib_srq_init_attr__bindgen_ty_1);
  ("ib_srq_init_attr", ib_srq_init_attr);
  ("ib_ucontext", ib_ucontext);
  ("ib_udata", ib_udata);
  ("uverbs_api_object", uverbs_api_object);
  ("ib_uobject", ib_uobject);
  ("ib_wc__bindgen_ty_1", ib_wc__bindgen_ty_1);
  ("ib_wc__bindgen_ty_2", ib_wc__bindgen_ty_2);
  ("ib_wc", ib_wc);
  ("ib_uwq_object", ib_uwq_object);
  ("ib_wq", ib_wq);
  ("ib_wq_attr", ib_wq_attr);
  ("ib_wq_init_attr", ib_wq_init_attr);
  ("ib_xrcd", ib_xrcd);
  ("ip_options_rcu", ip_options_rcu);
  ("icmp_mib", icmp_mib);
  ("icmpmsg_mib", icmpmsg_mib);
  ("icmpv6_mib", icmpv6_mib);
  ("icmpv6_mib_device", icmpv6_mib_device);
  ("icmpv6msg_mib", icmpv6msg_mib);
  ("icmpv6msg_mib_device", icmpv6msg_mib_device);
  ("ieee80211_channel", ieee80211_channel);
  ("ieee80211_eht_cap_elem_fixed", ieee80211_eht_cap_elem_fixed);
  ("ieee80211_eht_mcs_nss_supp_20mhz_only__bindgen_ty_1__bindgen_ty_1", ieee80211_eht_mcs_nss_supp_20mhz_only__bindgen_ty_1__bindgen_ty_1);
  ("ieee80211_eht_mcs_nss_supp_20mhz_only__bindgen_ty_1", ieee80211_eht_mcs_nss_supp_20mhz_only__bindgen_ty_1);
  ("ieee80211_eht_mcs_nss_supp_20mhz_only", ieee80211_eht_mcs_nss_supp_20mhz_only);
  ("ieee80211_eht_mcs_nss_supp_bw__bindgen_ty_1__bindgen_ty_1", ieee80211_eht_mcs_nss_supp_bw__bindgen_ty_1__bindgen_ty_1);
  ("ieee80211_eht_mcs_nss_supp_bw__bindgen_ty_1", ieee80211_eht_mcs_nss_supp_bw__bindgen_ty_1);
  ("ieee80211_eht_mcs_nss_supp_bw", ieee80211_eht_mcs_nss_supp_bw);
  ("ieee80211_eht_mcs_nss_supp__bindgen_ty_1__bindgen_ty_1", ieee80211_eht_mcs_nss_supp__bindgen_ty_1__bindgen_ty_1);
  ("ieee80211_eht_mcs_nss_supp__bindgen_ty_1", ieee80211_eht_mcs_nss_supp__bindgen_ty_1);
  ("ieee80211_eht_mcs_nss_supp", ieee80211_eht_mcs_nss_supp);
  ("ieee80211_freq_range", ieee80211_freq_range);
  ("ieee80211_he_6ghz_capa", ieee80211_he_6ghz_capa);
  ("ieee80211_he_cap_elem", ieee80211_he_cap_elem);
  ("ieee80211_he_mcs_nss_supp", ieee80211_he_mcs_nss_supp);
  ("ieee80211_iface_combination", ieee80211_iface_combination);
  ("ieee80211_iface_limit", ieee80211_iface_limit);
  ("ieee80211_power_rule", ieee80211_power_rule);
  ("ieee80211_rate", ieee80211_rate);
  ("ieee80211_wmm_ac", ieee80211_wmm_ac);
  ("ieee80211_wmm_rule", ieee80211_wmm_rule);
  ("ieee80211_reg_rule", ieee80211_reg_rule);
  ("ieee80211_regdomain", ieee80211_regdomain);
  ("ieee80211_sta_he_cap", ieee80211_sta_he_cap);
  ("ieee80211_sta_eht_cap", ieee80211_sta_eht_cap);
  ("ieee80211_uhr_cap_mac", ieee80211_uhr_cap_mac);
  ("ieee80211_uhr_cap_phy", ieee80211_uhr_cap_phy);
  ("ieee80211_sta_uhr_cap", ieee80211_sta_uhr_cap);
  ("ieee80211_sband_iftype_data__bindgen_ty_1", ieee80211_sband_iftype_data__bindgen_ty_1);
  ("ieee80211_sband_iftype_data", ieee80211_sband_iftype_data);
  ("ieee80211_sta_ht_cap", ieee80211_sta_ht_cap);
  ("ieee80211_sta_s1g_cap", ieee80211_sta_s1g_cap);
  ("ieee80211_sta_vht_cap", ieee80211_sta_vht_cap);
  ("ieee80211_supported_band", ieee80211_supported_band);
  ("ieee80211_txrx_stypes", ieee80211_txrx_stypes);
  ("ieee802154_addr__bindgen_ty_1", ieee802154_addr__bindgen_ty_1);
  ("ieee802154_addr", ieee802154_addr);
  ("ieee802154_pan_device", ieee802154_pan_device);
  ("ieee_ets", ieee_ets);
  ("ieee_maxrate", ieee_maxrate);
  ("ieee_pfc", ieee_pfc);
  ("ieee_qcn", ieee_qcn);
  ("ieee_qcn_stats", ieee_qcn_stats);
  ("if_settings__bindgen_ty_1", if_settings__bindgen_ty_1);
  ("if_settings", if_settings);
  ("ifacaddr6", ifacaddr6);
  ("ifla_vf_guid", ifla_vf_guid);
  ("ifla_vf_info", ifla_vf_info);
  ("ifla_vf_stats", ifla_vf_stats);
  ("ifmap", ifmap);
  ("ifmcaddr6", ifmcaddr6);
  ("ifreq__bindgen_ty_1", ifreq__bindgen_ty_1);
  ("ifreq__bindgen_ty_2", ifreq__bindgen_ty_2);
  ("ifreq", ifreq);
  ("in6_pktinfo", in6_pktinfo);
  ("ipv4_devconf", ipv4_devconf);
  ("in_device", in_device);
  ("in_ifaddr", in_ifaddr);
  ("ipv6_stable_secret", ipv6_stable_secret);
  ("ipv6_devconf", ipv6_devconf);
  ("ipv6_devstat", ipv6_devstat);
  ("inet6_dev", inet6_dev);
  ("inet_bind2_bucket", inet_bind2_bucket);
  ("inet_bind_bucket", inet_bind_bucket);
  ("inet_bind_hashbucket", inet_bind_hashbucket);
  ("inet_connection_sock_af_ops", inet_connection_sock_af_ops);
  ("inet_ehash_bucket", inet_ehash_bucket);
  ("inet_frags", inet_frags);
  ("inet_hashinfo", inet_hashinfo);
  ("inet_listen_hashbucket", inet_listen_hashbucket);
  ("inode_operations", inode_operations);
  ("io_uring_sqe__bindgen_ty_1__bindgen_ty_1", io_uring_sqe__bindgen_ty_1__bindgen_ty_1);
  ("io_uring_sqe__bindgen_ty_1", io_uring_sqe__bindgen_ty_1);
  ("io_uring_sqe__bindgen_ty_2__bindgen_ty_1", io_uring_sqe__bindgen_ty_2__bindgen_ty_1);
  ("io_uring_sqe__bindgen_ty_2", io_uring_sqe__bindgen_ty_2);
  ("io_uring_sqe__bindgen_ty_3", io_uring_sqe__bindgen_ty_3);
  ("io_uring_sqe__bindgen_ty_4", io_uring_sqe__bindgen_ty_4);
  ("io_uring_sqe__bindgen_ty_5__bindgen_ty_1", io_uring_sqe__bindgen_ty_5__bindgen_ty_1);
  ("io_uring_sqe__bindgen_ty_5__bindgen_ty_2", io_uring_sqe__bindgen_ty_5__bindgen_ty_2);
  ("io_uring_sqe__bindgen_ty_5", io_uring_sqe__bindgen_ty_5);
  ("io_uring_sqe__bindgen_ty_6__bindgen_ty_1", io_uring_sqe__bindgen_ty_6__bindgen_ty_1);
  ("io_uring_sqe__bindgen_ty_6__bindgen_ty_2", io_uring_sqe__bindgen_ty_6__bindgen_ty_2);
  ("io_uring_sqe__bindgen_ty_6", io_uring_sqe__bindgen_ty_6);
  ("io_uring_sqe", io_uring_sqe);
  ("wait_page_queue", wait_page_queue);
  ("io_big_cqe", io_big_cqe);
  ("io_bitmap", io_bitmap);
  ("io_bpf_filter", io_bpf_filter);
  ("io_bpf_filters", io_bpf_filters);
  ("io_buffer", io_buffer);
  ("io_mapped_region", io_mapped_region);
  ("io_cmd_data", io_cmd_data);
  ("io_comp_batch", io_comp_batch);
  ("io_context", io_context);
  ("io_cqe__bindgen_ty_1", io_cqe__bindgen_ty_1);
  ("io_cqe", io_cqe);
  ("io_ev_fd", io_ev_fd);
  ("io_hash_bucket", io_hash_bucket);
  ("io_task_work", io_task_work);
  ("io_wq_work", io_wq_work);
  ("io_kiocb__bindgen_ty_1", io_kiocb__bindgen_ty_1);
  ("io_kiocb__bindgen_ty_2", io_kiocb__bindgen_ty_2);
  ("io_kiocb__bindgen_ty_3", io_kiocb__bindgen_ty_3);
  ("io_kiocb__bindgen_ty_4", io_kiocb__bindgen_ty_4);
  ("io_kiocb__bindgen_ty_5", io_kiocb__bindgen_ty_5);
  ("io_kiocb", io_kiocb);
  ("io_mapped_ubuf", io_mapped_ubuf);
  ("ubuf_info", ubuf_info);
  ("io_pagetable", io_pagetable);
  ("io_restriction", io_restriction);
  ("io_ring_ctx__bindgen_ty_4", io_ring_ctx__bindgen_ty_4);
  ("io_ring_ctx", io_ring_ctx);
  ("io_rsrc_node__bindgen_ty_1", io_rsrc_node__bindgen_ty_1);
  ("io_rsrc_node", io_rsrc_node);
  ("io_sq_data", io_sq_data);
  ("io_tlb_area", io_tlb_area);
  ("io_tlb_pool", io_tlb_pool);
  ("io_tlb_mem", io_tlb_mem);
  ("io_tlb_slot", io_tlb_slot);
  ("io_tw_req", io_tw_req);
  ("io_tw_state", io_tw_state);
  ("io_uring_cmd", io_uring_cmd);
  ("io_wq_acct", io_wq_acct);
  ("io_wq", io_wq);
  ("io_wq_hash", io_wq_hash);
  ("ipv6_opt_hdr", ipv6_opt_hdr);
  ("ioam6_pernet_data", ioam6_pernet_data);
  ("iomap", iomap);
  ("iommu_attach_handle", iommu_attach_handle);
  ("iommu_dirty_bitmap", iommu_dirty_bitmap);
  ("iommu_dirty_ops", iommu_dirty_ops);
  ("iova", iova);
  ("iova_domain", iova_domain);
  ("iommu_dma_options", iommu_dma_options);
  ("iommu_dma_cookie__bindgen_ty_1", iommu_dma_cookie__bindgen_ty_1);
  ("iommu_dma_cookie", iommu_dma_cookie);
  ("iommu_dma_msi_cookie", iommu_dma_msi_cookie);
  ("iommu_domain_ops", iommu_domain_ops);
  ("iommu_fault_page_request", iommu_fault_page_request);
  ("iommu_fault", iommu_fault);
  ("iommu_fault_param", iommu_fault_param);
  ("iommu_fwspec", iommu_fwspec);
  ("iommu_group", iommu_group);
  ("iommu_pages_list", iommu_pages_list);
  ("iommu_iotlb_gather", iommu_iotlb_gather);
  ("iommu_mm_data", iommu_mm_data);
  ("iommu_page_response", iommu_page_response);
  ("pmu", pmu);
  ("iommu_user_data", iommu_user_data);
  ("iommu_user_data_array", iommu_user_data_array);
  ("iommufd_access", iommufd_access);
  ("iommufd_ctx", iommufd_ctx);
  ("iommufd_device", iommufd_device);
  ("iommufd_eventq", iommufd_eventq);
  ("iommufd_fault", iommufd_fault);
  ("iommufd_group", iommufd_group);
  ("iommufd_hw_queue", iommufd_hw_queue);
  ("iommufd_ioas", iommufd_ioas);
  ("iommufd_vdevice", iommufd_vdevice);
  ("iommufd_viommu_ops", iommufd_viommu_ops);
  ("iopf_fault", iopf_fault);
  ("iopf_group", iopf_group);
  ("iopf_queue", iopf_queue);
  ("iova_bitmap_map", iova_bitmap_map);
  ("iova_bitmap", iova_bitmap);
  ("iova_cpu_rcache", iova_cpu_rcache);
  ("iova_fq_entry", iova_fq_entry);
  ("iova_fq", iova_fq);
  ("iova_magazine__bindgen_ty_1", iova_magazine__bindgen_ty_1);
  ("iova_magazine", iova_magazine);
  ("iova_rcache", iova_rcache);
  ("ip6_flowlabel__bindgen_ty_1", ip6_flowlabel__bindgen_ty_1);
  ("ip6_flowlabel", ip6_flowlabel);
  ("ip6_sf_list", ip6_sf_list);
  ("ip6_sf_socklist", ip6_sf_socklist);
  ("ip_tunnel_encap", ip_tunnel_encap);
  ("ip_conntrack_stat", ip_conntrack_stat);
  ("ip_ct_sctp", ip_ct_sctp);
  ("ip_ct_tcp_state", ip_ct_tcp_state);
  ("ip_ct_tcp", ip_ct_tcp);
  ("ip_mc_list__bindgen_ty_1", ip_mc_list__bindgen_ty_1);
  ("ip_mc_list", ip_mc_list);
  ("ip_mreqn", ip_mreqn);
  ("ip_mc_socklist", ip_mc_socklist);
  ("ip_ra_chain__bindgen_ty_1", ip_ra_chain__bindgen_ty_1);
  ("ip_ra_chain", ip_ra_chain);
  ("kvec", kvec);
  ("ip_sf_list", ip_sf_list);
  ("ip_sf_socklist", ip_sf_socklist);
  ("ip_tunnel_parm_kern", ip_tunnel_parm_kern);
  ("ip_tunnel_key__bindgen_ty_1__bindgen_ty_1", ip_tunnel_key__bindgen_ty_1__bindgen_ty_1);
  ("ip_tunnel_key__bindgen_ty_1__bindgen_ty_2", ip_tunnel_key__bindgen_ty_1__bindgen_ty_2);
  ("ip_tunnel_key__bindgen_ty_1", ip_tunnel_key__bindgen_ty_1);
  ("ip_tunnel_key", ip_tunnel_key);
  ("ip_tunnel_info", ip_tunnel_info);
  ("ipstats_mib", ipstats_mib);
  ("ipv6_ac_socklist", ipv6_ac_socklist);
  ("ipv6_fl_socklist", ipv6_fl_socklist);
  ("ipv6_mc_socklist", ipv6_mc_socklist);
  ("ipv6_pinfo__bindgen_ty_1", ipv6_pinfo__bindgen_ty_1);
  ("ipv6_pinfo__bindgen_ty_2", ipv6_pinfo__bindgen_ty_2);
  ("ipv6_pinfo", ipv6_pinfo);
  ("ipv6_rt_hdr", ipv6_rt_hdr);
  ("ipv6_txoptions", ipv6_txoptions);
  ("irq_chip", irq_chip);
  ("irq_chip_regs", irq_chip_regs);
  ("irq_chip_type", irq_chip_type);
  ("irq_chip_generic", irq_chip_generic);
  ("irq_common_data", irq_common_data);
  ("irq_data", irq_data);
  ("irq_redirect", irq_redirect);
  ("irq_desc", irq_desc);
  ("irq_domain", irq_domain);
  ("irq_domain_chip_generic", irq_domain_chip_generic);
  ("irq_fwspec_info", irq_fwspec_info);
  ("irqstat", irqstat);
  ("iw_discarded", iw_discarded);
  ("iw_point", iw_point);
  ("iw_param", iw_param);
  ("iw_freq", iw_freq);
  ("iw_quality", iw_quality);
  ("iwreq_data", iwreq_data);
  ("iw_handler_def", iw_handler_def);
  ("iw_missed", iw_missed);
  ("iw_priv_args", iw_priv_args);
  ("iw_request_info", iw_request_info);
  ("iw_statistics", iw_statistics);
  ("jump_entry", jump_entry);
  ("kernel_siginfo__bindgen_ty_1", kernel_siginfo__bindgen_ty_1);
  ("kernel_siginfo", kernel_siginfo);
  ("sigaction", sigaction);
  ("k_sigaction", k_sigaction);
  ("kernel_ethtool_ringparam", kernel_ethtool_ringparam);
  ("kernel_ethtool_ts_info", kernel_ethtool_ts_info);
  ("kernel_hwtstamp_config", kernel_hwtstamp_config);
  ("kernel_param__bindgen_ty_1", kernel_param__bindgen_ty_1);
  ("kernel_param", kernel_param);
  ("kernel_param_ops", kernel_param_ops);
  ("kernel_pkey_query", kernel_pkey_query);
  ("kernel_symbol", kernel_symbol);
  ("kernfs_elem_attr", kernfs_elem_attr);
  ("kernfs_elem_dir", kernfs_elem_dir);
  ("kernfs_elem_symlink", kernfs_elem_symlink);
  ("simple_xattrs", simple_xattrs);
  ("kernfs_iattrs", kernfs_iattrs);
  ("kernfs_node__bindgen_ty_1", kernfs_node__bindgen_ty_1);
  ("kernfs_node", kernfs_node);
  ("kernfs_open_node", kernfs_open_node);
  ("kernfs_ops", kernfs_ops);
  ("kernfs_root", kernfs_root);
  ("kernfs_syscall_ops", kernfs_syscall_ops);
  ("keyring_index_key__bindgen_ty_1__bindgen_ty_1", keyring_index_key__bindgen_ty_1__bindgen_ty_1);
  ("keyring_index_key__bindgen_ty_1", keyring_index_key__bindgen_ty_1);
  ("keyring_index_key", keyring_index_key);
  ("key_payload", key_payload);
  ("key__bindgen_ty_1", key__bindgen_ty_1);
  ("key__bindgen_ty_2", key__bindgen_ty_2);
  ("key__bindgen_ty_3__bindgen_ty_1", key__bindgen_ty_3__bindgen_ty_1);
  ("key__bindgen_ty_3", key__bindgen_ty_3);
  ("key__bindgen_ty_4__bindgen_ty_1", key__bindgen_ty_4__bindgen_ty_1);
  ("key__bindgen_ty_4", key__bindgen_ty_4);
  ("key", key);
  ("key_match_data", key_match_data);
  ("key_params", key_params);
  ("key_preparsed_payload", key_preparsed_payload);
  ("key_restriction", key_restriction);
  ("key_tag", key_tag);
  ("key_type", key_type);
  ("key_user", key_user);
  ("kioctx_cpu", kioctx_cpu);
  ("kioctx_table", kioctx_table);
  ("reciprocal_value", reciprocal_value);
  ("kmem_cache_order_objects", kmem_cache_order_objects);
  ("kmem_cache", kmem_cache);
  ("kmem_cache_node", kmem_cache_node);
  ("kobj_ns_type_operations", kobj_ns_type_operations);
  ("kobj_uevent_env", kobj_uevent_env);
  ("kparam_array", kparam_array);
  ("kparam_string", kparam_string);
  ("kset", kset);
  ("kset_uevent_ops", kset_uevent_ops);
  ("kstat", kstat);
  ("kstatfs", kstatfs);
  ("seq_file", seq_file);
  ("ktermios", ktermios);
  ("kthread_worker", kthread_worker);
  ("l3mdev_ops", l3mdev_ops);
  ("ld_semaphore", ld_semaphore);
  ("ldt_struct", ldt_struct);
  ("lease_manager_operations", lease_manager_operations);
  ("linear_range", linear_range);
  ("linux_binfmt", linux_binfmt);
  ("linux_mib", linux_mib);
  ("linux_tls_mib", linux_tls_mib);
  ("linux_xfrm_mib", linux_xfrm_mib);
  ("local_trylock", local_trylock);
  ("lock_manager_operations", lock_manager_operations);
  ("lower_chunk", lower_chunk);
  ("lru_gen_mm_list", lru_gen_mm_list);
  ("lruvec_stats", lruvec_stats);
  ("lruvec_stats_percpu", lruvec_stats_percpu);
  ("lwq", lwq);
  ("lwq_node", lwq_node);
  ("lwtunnel_state", lwtunnel_state);
  ("mac_address", mac_address);
  ("macsec_context__bindgen_ty_1", macsec_context__bindgen_ty_1);
  ("macsec_context__bindgen_ty_2__bindgen_ty_1", macsec_context__bindgen_ty_2__bindgen_ty_1);
  ("macsec_context__bindgen_ty_2", macsec_context__bindgen_ty_2);
  ("macsec_context__bindgen_ty_3", macsec_context__bindgen_ty_3);
  ("macsec_context", macsec_context);
  ("macsec_dev_stats", macsec_dev_stats);
  ("macsec_info", macsec_info);
  ("salt__bindgen_ty_1", salt__bindgen_ty_1);
  ("salt", salt);
  ("macsec_key", macsec_key);
  ("macsec_ops", macsec_ops);
  ("pn__bindgen_ty_1", pn__bindgen_ty_1);
  ("pn", pn);
  ("macsec_rx_sa__bindgen_ty_1", macsec_rx_sa__bindgen_ty_1);
  ("macsec_rx_sa", macsec_rx_sa);
  ("macsec_rx_sa_stats", macsec_rx_sa_stats);
  ("macsec_rx_sc", macsec_rx_sc);
  ("macsec_rx_sc_stats", macsec_rx_sc_stats);
  ("macsec_tx_sc", macsec_tx_sc);
  ("macsec_secy", macsec_secy);
  ("macsec_tx_sa__bindgen_ty_1", macsec_tx_sa__bindgen_ty_1);
  ("macsec_tx_sa", macsec_tx_sa);
  ("macsec_tx_sa_stats", macsec_tx_sa_stats);
  ("macsec_tx_sc_stats", macsec_tx_sc_stats);
  ("mctp_dev", mctp_dev);
  ("mctp_netdev_ops", mctp_netdev_ops);
  ("mctp_sk_key", mctp_sk_key);
  ("mdio_bus_stats", mdio_bus_stats);
  ("mdio_driver_common", mdio_driver_common);
  ("mem_cgroup_private_id", mem_cgroup_private_id);
  ("vmpressure", vmpressure);
  ("wb_domain", wb_domain);
  ("wb_completion", wb_completion);
  ("memcg_cgwb_frn", memcg_cgwb_frn);
  ("mem_cgroup__bindgen_ty_1", mem_cgroup__bindgen_ty_1);
  ("mem_cgroup", mem_cgroup);
  ("memcg_vmstats", memcg_vmstats);
  ("memory_provider_ops", memory_provider_ops);
  ("memory_tier", memory_tier);
  ("mempolicy__bindgen_ty_1", mempolicy__bindgen_ty_1);
  ("mempolicy", mempolicy);
  ("xfrm_md_info", xfrm_md_info);
  ("metadata_dst__bindgen_ty_1", metadata_dst__bindgen_ty_1);
  ("metadata_dst", metadata_dst);
  ("phy_package_shared", phy_package_shared);
  ("mii_bus", mii_bus);
  ("mii_timestamper", mii_timestamper);
  ("mm_cid_pcpu", mm_cid_pcpu);
  ("mm_struct", mm_struct);
  ("mmu_notifier_subscriptions", mmu_notifier_subscriptions);
  ("mnt_idmap", mnt_idmap);
  ("mnt_pcp", mnt_pcp);
  ("module_attribute", module_attribute);
  ("module_notes_attrs", module_notes_attrs);
  ("param_attribute", param_attribute);
  ("module_param_attrs", module_param_attrs);
  ("module_sect_attrs", module_sect_attrs);
  ("vfsmount", vfsmount);
  ("mount__bindgen_ty_1", mount__bindgen_ty_1);
  ("mount__bindgen_ty_2", mount__bindgen_ty_2);
  ("mount", mount);
  ("mountpoint", mountpoint);
  ("mptcp_mib", mptcp_mib);
  ("phy_mse_capability", phy_mse_capability);
  ("phy_mse_snapshot", phy_mse_snapshot);
  ("pci_msi_desc__bindgen_ty_1", pci_msi_desc__bindgen_ty_1);
  ("pci_msi_desc__bindgen_ty_3", pci_msi_desc__bindgen_ty_3);
  ("pci_msi_desc", pci_msi_desc);
  ("msi_domain_cookie", msi_domain_cookie);
  ("msi_instance_cookie", msi_instance_cookie);
  ("msi_desc_data", msi_desc_data);
  ("msi_desc__bindgen_ty_1", msi_desc__bindgen_ty_1);
  ("msi_desc", msi_desc);
  ("msi_dev_domain", msi_dev_domain);
  ("msi_device_data", msi_device_data);
  ("msi_domain_info", msi_domain_info);
  ("msi_domain_ops", msi_domain_ops);
  ("msi_parent_ops", msi_parent_ops);
  ("saved", saved);
  ("nameidata", nameidata);
  ("napi_config", napi_config);
  ("nlmsghdr", nlmsghdr);
  ("nd_opt_hdr", nd_opt_hdr);
  ("ndisc_ops", ndisc_ops);
  ("ndisc_options", ndisc_options);
  ("ndmsg", ndmsg);
  ("neigh_hash_table", neigh_hash_table);
  ("neigh_ops", neigh_ops);
  ("neigh_parms", neigh_parms);
  ("neigh_statistics", neigh_statistics);
  ("neigh_table", neigh_table);
  ("neighbour", neighbour);
  ("sctp_mib", sctp_mib);
  ("netns_ipvs", netns_ipvs);
  ("mpls_route", mpls_route);
  ("can_dev_rcv_lists", can_dev_rcv_lists);
  ("can_pkg_stats", can_pkg_stats);
  ("can_rcv_lists_stats", can_rcv_lists_stats);
  ("smc_stats", smc_stats);
  ("smc_stats_rsn", smc_stats_rsn);
  ("rt6_info", rt6_info);
  ("tipc_bearer", tipc_bearer);
  ("mpls_dev", mpls_dev);
  ("garp_port", garp_port);
  ("mrp_port", mrp_port);
  ("udp_tunnel_nic", udp_tunnel_nic);
  ("net_device_core_stats", net_device_core_stats);
  ("net_device_ops", net_device_ops);
  ("net_device_path__bindgen_ty_1__bindgen_ty_1", net_device_path__bindgen_ty_1__bindgen_ty_1);
  ("net_device_path__bindgen_ty_1__bindgen_ty_2__bindgen_ty_1", net_device_path__bindgen_ty_1__bindgen_ty_2__bindgen_ty_1);
  ("net_device_path__bindgen_ty_1__bindgen_ty_2__bindgen_ty_2", net_device_path__bindgen_ty_1__bindgen_ty_2__bindgen_ty_2);
  ("net_device_path__bindgen_ty_1__bindgen_ty_2", net_device_path__bindgen_ty_1__bindgen_ty_2);
  ("net_device_path__bindgen_ty_1__bindgen_ty_3", net_device_path__bindgen_ty_1__bindgen_ty_3);
  ("net_device_path__bindgen_ty_1__bindgen_ty_4", net_device_path__bindgen_ty_1__bindgen_ty_4);
  ("net_device_path__bindgen_ty_1__bindgen_ty_5", net_device_path__bindgen_ty_1__bindgen_ty_5);
  ("net_device_path__bindgen_ty_1", net_device_path__bindgen_ty_1);
  ("net_device_path", net_device_path);
  ("net_device_path_ctx__bindgen_ty_1", net_device_path_ctx__bindgen_ty_1);
  ("net_device_path_ctx", net_device_path_ctx);
  ("net_generic__bindgen_ty_1__bindgen_ty_1", net_generic__bindgen_ty_1__bindgen_ty_1);
  ("net_generic__bindgen_ty_1__bindgen_ty_2__bindgen_ty_1", net_generic__bindgen_ty_1__bindgen_ty_2__bindgen_ty_1);
  ("net_generic__bindgen_ty_1__bindgen_ty_2", net_generic__bindgen_ty_1__bindgen_ty_2);
  ("net_generic__bindgen_ty_1", net_generic__bindgen_ty_1);
  ("net_generic", net_generic);
  ("net_rate_estimator", net_rate_estimator);
  ("net_shaper_handle", net_shaper_handle);
  ("net_shaper", net_shaper);
  ("net_shaper_binding__bindgen_ty_1", net_shaper_binding__bindgen_ty_1);
  ("net_shaper_binding", net_shaper_binding);
  ("net_shaper_hierarchy", net_shaper_hierarchy);
  ("net_shaper_ops", net_shaper_ops);
  ("netdev_bpf__bindgen_ty_1__bindgen_ty_1", netdev_bpf__bindgen_ty_1__bindgen_ty_1);
  ("netdev_bpf__bindgen_ty_1__bindgen_ty_2", netdev_bpf__bindgen_ty_1__bindgen_ty_2);
  ("netdev_bpf__bindgen_ty_1__bindgen_ty_3", netdev_bpf__bindgen_ty_1__bindgen_ty_3);
  ("netdev_bpf__bindgen_ty_1", netdev_bpf__bindgen_ty_1);
  ("netdev_bpf", netdev_bpf);
  ("netdev_config", netdev_config);
  ("netdev_fcoe_hbainfo", netdev_fcoe_hbainfo);
  ("netdev_lag_upper_info", netdev_lag_upper_info);
  ("netdev_name_node", netdev_name_node);
  ("netdev_notifier_info", netdev_notifier_info);
  ("netdev_notifier_changeupper_info", netdev_notifier_changeupper_info);
  ("rtnl_hw_stats64", rtnl_hw_stats64);
  ("netdev_queue_config", netdev_queue_config);
  ("netdev_queue_mgmt_ops", netdev_queue_mgmt_ops);
  ("netdev_queue_stats_rx", netdev_queue_stats_rx);
  ("netdev_queue_stats_tx", netdev_queue_stats_tx);
  ("pp_memory_provider_params", pp_memory_provider_params);
  ("netdev_rx_queue", netdev_rx_queue);
  ("netdev_stat_ops", netdev_stat_ops);
  ("netlbl_lsm_cache", netlbl_lsm_cache);
  ("netlbl_lsm_catmap", netlbl_lsm_catmap);
  ("netlbl_lsm_secattr__bindgen_ty_1__bindgen_ty_1", netlbl_lsm_secattr__bindgen_ty_1__bindgen_ty_1);
  ("netlbl_lsm_secattr__bindgen_ty_1", netlbl_lsm_secattr__bindgen_ty_1);
  ("netlbl_lsm_secattr", netlbl_lsm_secattr);
  ("netlink_callback__bindgen_ty_1", netlink_callback__bindgen_ty_1);
  ("netlink_callback", netlink_callback);
  ("netlink_ext_ack", netlink_ext_ack);
  ("netlink_range_validation", netlink_range_validation);
  ("netlink_range_validation_signed", netlink_range_validation_signed);
  ("netpoll_info", netpoll_info);
  ("netprio_map", netprio_map);
  ("new_utsname", new_utsname);
  ("nexthop__bindgen_ty_1", nexthop__bindgen_ty_1);
  ("nexthop", nexthop);
  ("nf_conntrack", nf_conntrack);
  ("nf_conntrack_zone", nf_conntrack_zone);
  ("nf_inet_addr", nf_inet_addr);
  ("nf_conntrack_man_proto__bindgen_ty_1", nf_conntrack_man_proto__bindgen_ty_1);
  ("nf_conntrack_man_proto__bindgen_ty_2", nf_conntrack_man_proto__bindgen_ty_2);
  ("nf_conntrack_man_proto__bindgen_ty_3", nf_conntrack_man_proto__bindgen_ty_3);
  ("nf_conntrack_man_proto__bindgen_ty_4", nf_conntrack_man_proto__bindgen_ty_4);
  ("nf_conntrack_man_proto__bindgen_ty_5", nf_conntrack_man_proto__bindgen_ty_5);
  ("nf_conntrack_man_proto__bindgen_ty_6", nf_conntrack_man_proto__bindgen_ty_6);
  ("nf_conntrack_man_proto", nf_conntrack_man_proto);
  ("nf_conntrack_man", nf_conntrack_man);
  ("nf_conntrack_tuple__bindgen_ty_1__bindgen_ty_1__bindgen_ty_1", nf_conntrack_tuple__bindgen_ty_1__bindgen_ty_1__bindgen_ty_1);
  ("nf_conntrack_tuple__bindgen_ty_1__bindgen_ty_1__bindgen_ty_2", nf_conntrack_tuple__bindgen_ty_1__bindgen_ty_1__bindgen_ty_2);
  ("nf_conntrack_tuple__bindgen_ty_1__bindgen_ty_1__bindgen_ty_3", nf_conntrack_tuple__bindgen_ty_1__bindgen_ty_1__bindgen_ty_3);
  ("nf_conntrack_tuple__bindgen_ty_1__bindgen_ty_1__bindgen_ty_4", nf_conntrack_tuple__bindgen_ty_1__bindgen_ty_1__bindgen_ty_4);
  ("nf_conntrack_tuple__bindgen_ty_1__bindgen_ty_1__bindgen_ty_5", nf_conntrack_tuple__bindgen_ty_1__bindgen_ty_1__bindgen_ty_5);
  ("nf_conntrack_tuple__bindgen_ty_1__bindgen_ty_1__bindgen_ty_6", nf_conntrack_tuple__bindgen_ty_1__bindgen_ty_1__bindgen_ty_6);
  ("nf_conntrack_tuple__bindgen_ty_1__bindgen_ty_1", nf_conntrack_tuple__bindgen_ty_1__bindgen_ty_1);
  ("nf_conntrack_tuple__bindgen_ty_1__bindgen_ty_2", nf_conntrack_tuple__bindgen_ty_1__bindgen_ty_2);
  ("nf_conntrack_tuple__bindgen_ty_1", nf_conntrack_tuple__bindgen_ty_1);
  ("nf_conntrack_tuple", nf_conntrack_tuple);
  ("nf_conntrack_tuple_hash", nf_conntrack_tuple_hash);
  ("nf_ct_udp", nf_ct_udp);
  ("nf_ct_gre", nf_ct_gre);
  ("nf_conntrack_proto", nf_conntrack_proto);
  ("nf_conn__bindgen_ty_1", nf_conn__bindgen_ty_1);
  ("nf_conn", nf_conn);
  ("nf_conntrack_tuple_mask__bindgen_ty_1", nf_conntrack_tuple_mask__bindgen_ty_1);
  ("nf_conntrack_tuple_mask", nf_conntrack_tuple_mask);
  ("nf_conntrack_helper", nf_conntrack_helper);
  ("nf_conntrack_expect", nf_conntrack_expect);
  ("nf_ct_event", nf_ct_event);
  ("nf_ct_event_notifier", nf_ct_event_notifier);
  ("nf_ct_ext", nf_ct_ext);
  ("nf_exp_event", nf_exp_event);
  ("nf_flow_table_stat", nf_flow_table_stat);
  ("nf_hook_entry", nf_hook_entry);
  ("nf_hook_entries", nf_hook_entries);
  ("nf_hook_state", nf_hook_state);
  ("nf_logger", nf_logger);
  ("nf_loginfo__bindgen_ty_1__bindgen_ty_1", nf_loginfo__bindgen_ty_1__bindgen_ty_1);
  ("nf_loginfo__bindgen_ty_1__bindgen_ty_2", nf_loginfo__bindgen_ty_1__bindgen_ty_2);
  ("nf_loginfo__bindgen_ty_1", nf_loginfo__bindgen_ty_1);
  ("nf_loginfo", nf_loginfo);
  ("nfstime4", nfstime4);
  ("nfs41_impl_id", nfs41_impl_id);
  ("nfs41_server_owner", nfs41_server_owner);
  ("nfs41_server_scope", nfs41_server_scope);
  ("nfs4_change_info", nfs4_change_info);
  ("nfs4_string", nfs4_string);
  ("nfs4_pathname", nfs4_pathname);
  ("nfs4_fs_location", nfs4_fs_location);
  ("nfs4_fs_locations", nfs4_fs_locations);
  ("nfs4_label", nfs4_label);
  ("nfs_seqid_counter", nfs_seqid_counter);
  ("nfs4_stateid_struct__bindgen_ty_1__bindgen_ty_1", nfs4_stateid_struct__bindgen_ty_1__bindgen_ty_1);
  ("nfs4_stateid_struct__bindgen_ty_1", nfs4_stateid_struct__bindgen_ty_1);
  ("nfs4_stateid_struct", nfs4_stateid_struct);
  ("nfs4_lock_state", nfs4_lock_state);
  ("nfs4_mig_recovery_ops", nfs4_mig_recovery_ops);
  ("nfs4_minor_version_ops", nfs4_minor_version_ops);
  ("nfs4_slot", nfs4_slot);
  ("nfs4_sequence_res", nfs4_sequence_res);
  ("nfs4_sequence_slot_ops", nfs4_sequence_slot_ops);
  ("nfs4_state", nfs4_state);
  ("nfs4_state_maintenance_ops", nfs4_state_maintenance_ops);
  ("nfs4_state_owner", nfs4_state_owner);
  ("nfs4_state_recovery_ops", nfs4_state_recovery_ops);
  ("nfs4_threshold", nfs4_threshold);
  ("nfs_access_entry", nfs_access_entry);
  ("nfs_auth_info", nfs_auth_info);
  ("nfs_subversion", nfs_subversion);
  ("idmap", idmap);
  ("nfs4_slot_table", nfs4_slot_table);
  ("nfs4_session", nfs4_session);
  ("nfs_page", nfs_page);
  ("nfs_commit_completion_ops", nfs_commit_completion_ops);
  ("nfs_fsid", nfs_fsid);
  ("nfs_fattr__bindgen_ty_1__bindgen_ty_1", nfs_fattr__bindgen_ty_1__bindgen_ty_1);
  ("nfs_fattr__bindgen_ty_1__bindgen_ty_2", nfs_fattr__bindgen_ty_1__bindgen_ty_2);
  ("nfs_fattr__bindgen_ty_1", nfs_fattr__bindgen_ty_1);
  ("nfs_fattr", nfs_fattr);
  ("nfs_write_verifier", nfs_write_verifier);
  ("nfs_writeverf", nfs_writeverf);
  ("nfs_direct_req", nfs_direct_req);
  ("nfs_commitargs", nfs_commitargs);
  ("nfs_commitres", nfs_commitres);
  ("pnfs_layout_segment", pnfs_layout_segment);
  ("nfs_commit_data", nfs_commit_data);
  ("nfs_commit_info", nfs_commit_info);
  ("nfs_entry", nfs_entry);
  ("nfs_fh", nfs_fh);
  ("nfsd_file", nfsd_file);
  ("nfs_file_localio", nfs_file_localio);
  ("nfs_fsinfo", nfs_fsinfo);
  ("nfs_fsstat", nfs_fsstat);
  ("nfs_lock_context", nfs_lock_context);
  ("nfs_mds_commit_info", nfs_mds_commit_info);
  ("nfs_open_context", nfs_open_context);
  ("nfs_page_array", nfs_page_array);
  ("nfs_pathconf", nfs_pathconf);
  ("nfs_pgio_args__bindgen_ty_1__bindgen_ty_1", nfs_pgio_args__bindgen_ty_1__bindgen_ty_1);
  ("nfs_pgio_args__bindgen_ty_1", nfs_pgio_args__bindgen_ty_1);
  ("nfs_pgio_args", nfs_pgio_args);
  ("nfs_pgio_completion_ops", nfs_pgio_completion_ops);
  ("nfs_rw_ops", nfs_rw_ops);
  ("nfs_io_completion", nfs_io_completion);
  ("nfs_pgio_res__bindgen_ty_1__bindgen_ty_1", nfs_pgio_res__bindgen_ty_1__bindgen_ty_1);
  ("nfs_pgio_res__bindgen_ty_1__bindgen_ty_2", nfs_pgio_res__bindgen_ty_1__bindgen_ty_2);
  ("nfs_pgio_res__bindgen_ty_1", nfs_pgio_res__bindgen_ty_1);
  ("nfs_pgio_res", nfs_pgio_res);
  ("nfs_pgio_header", nfs_pgio_header);
  ("nfs_readdir_arg", nfs_readdir_arg);
  ("nfs_readdir_res", nfs_readdir_res);
  ("nfs_removeargs", nfs_removeargs);
  ("nfs_removeres", nfs_removeres);
  ("nfs_renameargs", nfs_renameargs);
  ("nfs_renameres", nfs_renameres);
  ("nfs_renamedata", nfs_renamedata);
  ("nlmclnt_operations", nlmclnt_operations);
  ("nfs_client_initdata", nfs_client_initdata);
  ("nfs_rpc_ops", nfs_rpc_ops);
  ("nfs_seqid", nfs_seqid);
  ("nlm_host", nlm_host);
  ("nfs_iostats", nfs_iostats);
  ("fscache_volume", fscache_volume);
  ("pnfs_layoutdriver_type", pnfs_layoutdriver_type);
  ("nfs_server", nfs_server);
  ("nfs_unlinkdata", nfs_unlinkdata);
  ("nh_grp_entry__bindgen_ty_1__bindgen_ty_1", nh_grp_entry__bindgen_ty_1__bindgen_ty_1);
  ("nh_grp_entry__bindgen_ty_1__bindgen_ty_2", nh_grp_entry__bindgen_ty_1__bindgen_ty_2);
  ("nh_grp_entry__bindgen_ty_1", nh_grp_entry__bindgen_ty_1);
  ("nh_grp_entry", nh_grp_entry);
  ("nh_group", nh_group);
  ("nh_grp_entry_stats", nh_grp_entry_stats);
  ("nh_info__bindgen_ty_1", nh_info__bindgen_ty_1);
  ("nh_info", nh_info);
  ("nh_res_bucket", nh_res_bucket);
  ("nh_res_table", nh_res_table);
  ("nl80211_vendor_cmd_info", nl80211_vendor_cmd_info);
  ("nl80211_wowlan_tcp_data_token_feature", nl80211_wowlan_tcp_data_token_feature);
  ("nla_policy__bindgen_ty_1__bindgen_ty_1", nla_policy__bindgen_ty_1__bindgen_ty_1);
  ("nla_policy__bindgen_ty_1", nla_policy__bindgen_ty_1);
  ("nla_policy", nla_policy);
  ("nlattr", nlattr);
  ("node_barn", node_barn);
  ("notification", notification);
  ("nsproxy", nsproxy);
  ("nsset", nsset);
  ("numa_drop_counters", numa_drop_counters);
  ("numa_group", numa_group);
  ("obj_cgroup__bindgen_ty_1", obj_cgroup__bindgen_ty_1);
  ("obj_cgroup", obj_cgroup);
  ("of_device_id", of_device_id);
  ("of_phandle_args", of_phandle_args);
  ("offset_ctx", offset_ctx);
  ("old_timespec32", old_timespec32);
  ("p2pdma_provider", p2pdma_provider);
  ("packet_command", packet_command);
  ("page_pool_recycle_stats", page_pool_recycle_stats);
  ("partition_meta_info", partition_meta_info);
  ("pcpu_lstats", pcpu_lstats);
  ("pcpu_rx_sc_stats", pcpu_rx_sc_stats);
  ("pcpu_sw_netstats", pcpu_sw_netstats);
  ("pcpu_tx_sc_stats", pcpu_tx_sc_stats);
  ("per_cpu_nodestat", per_cpu_nodestat);
  ("per_cpu_pages", per_cpu_pages);
  ("per_cpu_zonestat", per_cpu_zonestat);
  ("per_frame_masks", per_frame_masks);
  ("perf_addr_filter_range", perf_addr_filter_range);
  ("perf_addr_filters_head", perf_addr_filters_head);
  ("perf_buffer", perf_buffer);
  ("perf_callchain_entry", perf_callchain_entry);
  ("perf_cgroup", perf_cgroup);
  ("perf_time_ctx", perf_time_ctx);
  ("perf_cgroup_info", perf_cgroup_info);
  ("perf_event_groups", perf_event_groups);
  ("perf_event_context", perf_event_context);
  ("perf_cpu_pmu_context", perf_cpu_pmu_context);
  ("perf_ctx_data", perf_ctx_data);
  ("perf_domain", perf_domain);
  ("perf_event", perf_event);
  ("perf_event_mmap_page__bindgen_ty_1", perf_event_mmap_page__bindgen_ty_1);
  ("perf_event_mmap_page", perf_event_mmap_page);
  ("perf_raw_frag__bindgen_ty_1", perf_raw_frag__bindgen_ty_1);
  ("perf_raw_frag", perf_raw_frag);
  ("perf_raw_record", perf_raw_record);
  ("pf_desc", pf_desc);
  ("pfnmap_track_ctx", pfnmap_track_ctx);
  ("phy_led_trigger", phy_led_trigger);
  ("phy_port", phy_port);
  ("phy_driver", phy_driver);
  ("phy_link_topology", phy_link_topology);
  ("phy_plca_cfg", phy_plca_cfg);
  ("phy_plca_status", phy_plca_status);
  ("phy_tdr_config", phy_tdr_config);
  ("phylink_mac_ops", phylink_mac_ops);
  ("phylink_pcs", phylink_pcs);
  ("phylink_pcs_ops", phylink_pcs_ops);
  ("phys_vec", phys_vec);
  ("pi_entry", pi_entry);
  ("upid", upid);
  ("pid__bindgen_ty_1", pid__bindgen_ty_1);
  ("pid", pid);
  ("pidfs_attr__bindgen_ty_1", pidfs_attr__bindgen_ty_1);
  ("pidfs_attr", pidfs_attr);
  ("pinctrl", pinctrl);
  ("pinctrl_state", pinctrl_state);
  ("pipe_buf_operations", pipe_buf_operations);
  ("pipe_buffer", pipe_buffer);
  ("pipe_inode_info", pipe_inode_info);
  ("pm_subsys_data", pm_subsys_data);
  ("pneigh_entry__bindgen_ty_1", pneigh_entry__bindgen_ty_1);
  ("pneigh_entry", pneigh_entry);
  ("pnfs_commit_ops", pnfs_commit_ops);
  ("pnfs_ds_commit_info", pnfs_ds_commit_info);
  ("pollfd", pollfd);
  ("pool_workqueue", pool_workqueue);
  ("posix_acl_hdr", posix_acl_hdr);
  ("posix_acl_entry__bindgen_ty_1", posix_acl_entry__bindgen_ty_1);
  ("posix_acl_entry", posix_acl_entry);
  ("posix_acl__bindgen_ty_1__bindgen_ty_1", posix_acl__bindgen_ty_1__bindgen_ty_1);
  ("posix_acl__bindgen_ty_1", posix_acl__bindgen_ty_1);
  ("posix_acl", posix_acl);
  ("pr_held_reservation", pr_held_reservation);
  ("pr_keys", pr_keys);
  ("pr_ops", pr_ops);
  ("prefix_info__bindgen_ty_1", prefix_info__bindgen_ty_1);
  ("prefix_info", prefix_info);
  ("proc_dir_entry__bindgen_ty_1", proc_dir_entry__bindgen_ty_1);
  ("proc_dir_entry__bindgen_ty_2", proc_dir_entry__bindgen_ty_2);
  ("proc_dir_entry", proc_dir_entry);
  ("proc_ns_operations", proc_ns_operations);
  ("proc_ops", proc_ops);
  ("prog_entry", prog_entry);
  ("property", property);
  ("prot_inuse", prot_inuse);
  ("proto__bindgen_ty_1", proto__bindgen_ty_1);
  ("proto", proto);
  ("proto_accept_arg", proto_accept_arg);
  ("proto_ops", proto_ops);
  ("psample_group", psample_group);
  ("pse_admin_state", pse_admin_state);
  ("pse_control", pse_control);
  ("pse_ntf", pse_ntf);
  ("pse_controller_dev__bindgen_ty_1__bindgen_ty_1", pse_controller_dev__bindgen_ty_1__bindgen_ty_1);
  ("pse_controller_dev__bindgen_ty_1", pse_controller_dev__bindgen_ty_1);
  ("pse_controller_dev", pse_controller_dev);
  ("pse_controller_ops", pse_controller_ops);
  ("pse_ext_state_info", pse_ext_state_info);
  ("pse_pi_pairset", pse_pi_pairset);
  ("pse_pi", pse_pi);
  ("pse_power_domain", pse_power_domain);
  ("pse_pw_limit_ranges", pse_pw_limit_ranges);
  ("pse_pw_status", pse_pw_status);
  ("psi_group", psi_group);
  ("psi_group_cpu", psi_group_cpu);
  ("psp_key_parsed", psp_key_parsed);
  ("psp_assoc", psp_assoc);
  ("psp_dev_config", psp_dev_config);
  ("psp_dev__bindgen_ty_1", psp_dev__bindgen_ty_1);
  ("psp_dev", psp_dev);
  ("psp_dev_caps", psp_dev_caps);
  ("psp_dev_ops", psp_dev_ops);
  ("psp_dev_stats__bindgen_ty_1__bindgen_ty_1", psp_dev_stats__bindgen_ty_1__bindgen_ty_1);
  ("psp_dev_stats__bindgen_ty_1__bindgen_ty_2__bindgen_ty_1", psp_dev_stats__bindgen_ty_1__bindgen_ty_2__bindgen_ty_1);
  ("psp_dev_stats__bindgen_ty_1__bindgen_ty_2", psp_dev_stats__bindgen_ty_1__bindgen_ty_2);
  ("psp_dev_stats__bindgen_ty_1", psp_dev_stats__bindgen_ty_1);
  ("psp_dev_stats", psp_dev_stats);
  ("qc_dqblk", qc_dqblk);
  ("qc_info", qc_info);
  ("qc_type_state", qc_type_state);
  ("qc_state", qc_state);
  ("tc_sizespec", tc_sizespec);
  ("qdisc_size_table", qdisc_size_table);
  ("quota_format_ops", quota_format_ops);
  ("quota_format_type", quota_format_type);
  ("quotactl_ops", quotactl_ops);
  ("rate_sample", rate_sample);
  ("raw_hashinfo", raw_hashinfo);
  ("rb_irq_work", rb_irq_work);
  ("rb_time_struct", rb_time_struct);
  ("rchan", rchan);
  ("rchan_callbacks", rchan_callbacks);
  ("rcu_exp_work", rcu_exp_work);
  ("rcu_node", rcu_node);
  ("rdma_ah_init_attr", rdma_ah_init_attr);
  ("rdma_cgroup", rdma_cgroup);
  ("rdma_counter", rdma_counter);
  ("rdma_hw_stats", rdma_hw_stats);
  ("rdma_link_ops", rdma_link_ops);
  ("rdma_netdev_alloc_params", rdma_netdev_alloc_params);
  ("rdma_stat_desc", rdma_stat_desc);
  ("rdma_user_mmap_entry", rdma_user_mmap_entry);
  ("readahead_control", readahead_control);
  ("reclaim_state", reclaim_state);
  ("reg_default", reg_default);
  ("reg_sequence", reg_sequence);
  ("regcache_ops", regcache_ops);
  ("regex", regex);
  ("regmap_format", regmap_format);
  ("regmap__bindgen_ty_1__bindgen_ty_1", regmap__bindgen_ty_1__bindgen_ty_1);
  ("regmap__bindgen_ty_1__bindgen_ty_2", regmap__bindgen_ty_1__bindgen_ty_2);
  ("regmap__bindgen_ty_1", regmap__bindgen_ty_1);
  ("regmap", regmap);
  ("regmap_access_table", regmap_access_table);
  ("regmap_async", regmap_async);
  ("regmap_bus", regmap_bus);
  ("regmap_range", regmap_range);
  ("regulator_config", regulator_config);
  ("regulator_consumer_supply", regulator_consumer_supply);
  ("regulator_coupler", regulator_coupler);
  ("regulator_enable_gpio", regulator_enable_gpio);
  ("regulator_ops", regulator_ops);
  ("regulatory_request", regulatory_request);
  ("request__bindgen_ty_1", request__bindgen_ty_1);
  ("request__bindgen_ty_2", request__bindgen_ty_2);
  ("request__bindgen_ty_3", request__bindgen_ty_3);
  ("request__bindgen_ty_4", request__bindgen_ty_4);
  ("request__bindgen_ty_5", request__bindgen_ty_5);
  ("request", request);
  ("request_queue", request_queue);
  ("request_sock_ops", request_sock_ops);
  ("reset_control", reset_control);
  ("reset_control_ops", reset_control_ops);
  ("reset_controller_dev", reset_controller_dev);
  ("rhash_lock_head", rhash_lock_head);
  ("rhashtable_compare_arg", rhashtable_compare_arg);
  ("ring_buffer_cpu_meta", ring_buffer_cpu_meta);
  ("ring_buffer_iter", ring_buffer_iter);
  ("ring_buffer_meta", ring_buffer_meta);
  ("ring_buffer_per_cpu", ring_buffer_per_cpu);
  ("robust_list", robust_list);
  ("robust_list_head", robust_list_head);
  ("root_domain", root_domain);
  ("rpc_cred_cache", rpc_cred_cache);
  ("rpc_auth", rpc_auth);
  ("rpc_auth_create_args", rpc_auth_create_args);
  ("rpc_authops", rpc_authops);
  ("rpc_call_ops", rpc_call_ops);
  ("rpc_iostats", rpc_iostats);
  ("rpc_cred", rpc_cred);
  ("rpc_credops", rpc_credops);
  ("rpc_procinfo", rpc_procinfo);
  ("rpc_program", rpc_program);
  ("xdr_buf", xdr_buf);
  ("rpc_rqst__bindgen_ty_1", rpc_rqst__bindgen_ty_1);
  ("rpc_rqst", rpc_rqst);
  ("rpc_stat", rpc_stat);
  ("rpc_sysfs_client", rpc_sysfs_client);
  ("rpc_version", rpc_version);
  ("svc_xprt", svc_xprt);
  ("rpc_sysfs_xprt", rpc_sysfs_xprt);
  ("rpc_xprt_iter_ops", rpc_xprt_iter_ops);
  ("rpc_xprt_ops", rpc_xprt_ops);
  ("rpc_sysfs_xprt_switch", rpc_sysfs_xprt_switch);
  ("rpc_xprt_switch", rpc_xprt_switch);
  ("rpcsec_gss_info", rpcsec_gss_info);
  ("rps_dev_flow", rps_dev_flow);
  ("rps_dev_flow_table", rps_dev_flow_table);
  ("rps_map", rps_map);
  ("rq_qos_ops", rq_qos_ops);
  ("rt6_exception_bucket", rt6_exception_bucket);
  ("rt6_statistics", rt6_statistics);
  ("rt_waiter_node", rt_waiter_node);
  ("rt_mutex_waiter", rt_mutex_waiter);
  ("rtnl_link_ops", rtnl_link_ops);
  ("rtnl_link_stats64", rtnl_link_stats64);
  ("rtnl_newlink_params", rtnl_newlink_params);
  ("saved_syn", saved_syn);
  ("sbitmap_word", sbitmap_word);
  ("sbq_wait_state", sbq_wait_state);
  ("sched_class", sched_class);
  ("sched_domain__bindgen_ty_1", sched_domain__bindgen_ty_1);
  ("sched_domain", sched_domain);
  ("sched_domain_shared", sched_domain_shared);
  ("sched_group", sched_group);
  ("sched_group_capacity", sched_group_capacity);
  ("scsi_sense_hdr", scsi_sense_hdr);
  ("seccomp_filter", seccomp_filter);
  ("seg6_pernet_data", seg6_pernet_data);
  ("sem_undo_list", sem_undo_list);
  ("seq_operations", seq_operations);
  ("serial_icounter_struct", serial_icounter_struct);
  ("serial_struct", serial_struct);
  ("sfp", sfp);
  ("sfp_module_caps", sfp_module_caps);
  ("sfp_bus", sfp_bus);
  ("sfp_eeprom_ext", sfp_eeprom_ext);
  ("sfp_eeprom_id", sfp_eeprom_id);
  ("sfp_socket_ops", sfp_socket_ops);
  ("sfp_upstream_ops", sfp_upstream_ops);
  ("shrink_control", shrink_control);
  ("shrinker", shrinker);
  ("shrinker_info", shrinker_info);
  ("shrinker_info_unit", shrinker_info_unit);
  ("sighand_struct", sighand_struct);
  ("sk_filter", sk_filter);
  ("sk_psock_work_state", sk_psock_work_state);
  ("sk_psock", sk_psock);
  ("skb_ext", skb_ext);
  ("skb_shared_hwtstamps__bindgen_ty_1", skb_shared_hwtstamps__bindgen_ty_1);
  ("skb_shared_hwtstamps", skb_shared_hwtstamps);
  ("slab_sheaf__bindgen_ty_1__bindgen_ty_1", slab_sheaf__bindgen_ty_1__bindgen_ty_1);
  ("slab_sheaf__bindgen_ty_1", slab_sheaf__bindgen_ty_1);
  ("slab_sheaf", slab_sheaf);
  ("slub_percpu_sheaves", slub_percpu_sheaves);
  ("smack_known", smack_known);
  ("smc_hashinfo", smc_hashinfo);
  ("smc_hs_ctrl", smc_hs_ctrl);
  ("sock_fprog_kern", sock_fprog_kern);
  ("sockaddr_unsized", sockaddr_unsized);
  ("srcu_node", srcu_node);
  ("static_call_key__bindgen_ty_1", static_call_key__bindgen_ty_1);
  ("static_call_key", static_call_key);
  ("static_call_mod", static_call_mod);
  ("static_call_site", static_call_site);
  ("static_key_mod", static_key_mod);
  ("mtd_info", mtd_info);
  ("super_operations", super_operations);
  ("svc_cred", svc_cred);
  ("svc_deferred_req", svc_deferred_req);
  ("svc_pool", svc_pool);
  ("svc_procedure", svc_procedure);
  ("svc_process_info__bindgen_ty_1__bindgen_ty_1", svc_process_info__bindgen_ty_1__bindgen_ty_1);
  ("svc_process_info__bindgen_ty_1", svc_process_info__bindgen_ty_1);
  ("svc_process_info", svc_process_info);
  ("svc_program", svc_program);
  ("xdr_stream", xdr_stream);
  ("svc_rqst", svc_rqst);
  ("svc_serv", svc_serv);
  ("svc_stat", svc_stat);
  ("svc_version", svc_version);
  ("swap_cluster_info", swap_cluster_info);
  ("swap_info_struct", swap_info_struct);
  ("swap_sequential_cluster", swap_sequential_cluster);
  ("switchdev_mst_state", switchdev_mst_state);
  ("switchdev_brport_flags", switchdev_brport_flags);
  ("switchdev_vlan_msti", switchdev_vlan_msti);
  ("switchdev_obj", switchdev_obj);
  ("switchdev_obj_mrp", switchdev_obj_mrp);
  ("switchdev_obj_port_mdb", switchdev_obj_port_mdb);
  ("switchdev_obj_port_vlan", switchdev_obj_port_vlan);
  ("switchdev_obj_ring_role_mrp", switchdev_obj_ring_role_mrp);
  ("trace_event_class", trace_event_class);
  ("trace_event", trace_event);
  ("trace_event_call__bindgen_ty_1", trace_event_call__bindgen_ty_1);
  ("trace_event_call__bindgen_ty_2", trace_event_call__bindgen_ty_2);
  ("trace_event_call", trace_event_call);
  ("sysfs_ops", sysfs_ops);
  ("table_header", table_header);
  ("task_delay_info", task_delay_info);
  ("taskstats", taskstats);
  ("tc_action_ops", tc_action_ops);
  ("tc_cookie", tc_cookie);
  ("tcf_walker", tcf_walker);
  ("tcf_block__bindgen_ty_1", tcf_block__bindgen_ty_1);
  ("tcf_block", tcf_block);
  ("tcf_chain", tcf_chain);
  ("tcf_exts", tcf_exts);
  ("tcf_exts_miss_cookie_node", tcf_exts_miss_cookie_node);
  ("tcf_idrinfo", tcf_idrinfo);
  ("tcf_proto", tcf_proto);
  ("tcf_proto_ops", tcf_proto_ops);
  ("tcf_result__bindgen_ty_1__bindgen_ty_1", tcf_result__bindgen_ty_1__bindgen_ty_1);
  ("tcf_result__bindgen_ty_1", tcf_result__bindgen_ty_1);
  ("tcf_result", tcf_result);
  ("tcmsg", tcmsg);
  ("tcp_ao_addr", tcp_ao_addr);
  ("tcp_ao_key", tcp_ao_key);
  ("tcp_bbr_info", tcp_bbr_info);
  ("tcpvegas_info", tcpvegas_info);
  ("tcp_dctcp_info", tcp_dctcp_info);
  ("tcp_cc_info", tcp_cc_info);
  ("tcp_fastopen_context", tcp_fastopen_context);
  ("tcp_fastopen_cookie", tcp_fastopen_cookie);
  ("tcp_fastopen_request", tcp_fastopen_request);
  ("tcp_md5sig_info", tcp_md5sig_info);
  ("tcp_md5sig_key", tcp_md5sig_key);
  ("tcp_mib", tcp_mib);
  ("tcp_sock_af_ops", tcp_sock_af_ops);
  ("tcp_ulp_ops", tcp_ulp_ops);
  ("throtl_service_queue", throtl_service_queue);
  ("throtl_data", throtl_data);
  ("timer_rand_state", timer_rand_state);
  ("timewait_sock_ops", timewait_sock_ops);
  ("tlsdev_ops", tlsdev_ops);
  ("tracepoint_func", tracepoint_func);
  ("trace_array", trace_array);
  ("trace_array_cpu", trace_array_cpu);
  ("trace_buffer", trace_buffer);
  ("trace_buffer_meta__bindgen_ty_1", trace_buffer_meta__bindgen_ty_1);
  ("trace_buffer_meta", trace_buffer_meta);
  ("trace_eval_map", trace_eval_map);
  ("trace_event_fields__bindgen_ty_1", trace_event_fields__bindgen_ty_1);
  ("trace_event_fields", trace_event_fields);
  ("trace_event_file", trace_event_file);
  ("trace_event_functions", trace_event_functions);
  ("trace_func_repeats", trace_func_repeats);
  ("trace_module_delta", trace_module_delta);
  ("trace_option_dentry", trace_option_dentry);
  ("trace_options", trace_options);
  ("trace_pid_list", trace_pid_list);
  ("trace_subsystem_dir", trace_subsystem_dir);
  ("tracepoint", tracepoint);
  ("tracer", tracer);
  ("tracer_flags", tracer_flags);
  ("tracer_opt", tracer_opt);
  ("tty_audit_buf", tty_audit_buf);
  ("tty_driver", tty_driver);
  ("tty_ldisc", tty_ldisc);
  ("tty_ldisc_ops", tty_ldisc_ops);
  ("tty_operations", tty_operations);
  ("tty_port_client_operations", tty_port_client_operations);
  ("tty_port_operations", tty_port_operations);
  ("tty_struct__bindgen_ty_1", tty_struct__bindgen_ty_1);
  ("tty_struct__bindgen_ty_2", tty_struct__bindgen_ty_2);
  ("tty_struct", tty_struct);
  ("ubuf_info_ops", ubuf_info_ops);
  ("ucounts", ucounts);
  ("udp_mib", udp_mib);
  ("udp_table", udp_table);
  ("udp_tunnel_info", udp_tunnel_info);
  ("udp_tunnel_nic_table_info", udp_tunnel_nic_table_info);
  ("udp_tunnel_nic_info", udp_tunnel_nic_info);
  ("udp_tunnel_nic_shared", udp_tunnel_nic_shared);
  ("uevent_sock", uevent_sock);
  ("uncached_list", uncached_list);
  ("unicode_map", unicode_map);
  ("unwind_cache", unwind_cache);
  ("upper_chunk", upper_chunk);
  ("uprobe__bindgen_ty_1", uprobe__bindgen_ty_1);
  ("uprobe", uprobe);
  ("uprobe_task__bindgen_ty_1__bindgen_ty_1", uprobe_task__bindgen_ty_1__bindgen_ty_1);
  ("uprobe_task__bindgen_ty_1__bindgen_ty_2", uprobe_task__bindgen_ty_1__bindgen_ty_2);
  ("uprobe_task__bindgen_ty_1", uprobe_task__bindgen_ty_1);
  ("uprobe_task", uprobe_task);
  ("uprobe_xol_ops", uprobe_xol_ops);
  ("user_event_mm", user_event_mm);
  ("user_struct", user_struct);
  ("userfaultfd_ctx", userfaultfd_ctx);
  ("utf8data", utf8data);
  ("utf8data_table", utf8data_table);
  ("uts_namespace", uts_namespace);
  ("vdso_image", vdso_image);
  ("vlan_group", vlan_group);
  ("vlan_info", vlan_info);
  ("vm_area_desc", vm_area_desc);
  ("vm_fault__bindgen_ty_1", vm_fault__bindgen_ty_1);
  ("vm_fault__bindgen_ty_2", vm_fault__bindgen_ty_2);
  ("vm_fault", vm_fault);
  ("vm_operations_struct", vm_operations_struct);
  ("vm_struct__bindgen_ty_1", vm_struct__bindgen_ty_1);
  ("vm_struct", vm_struct);
  ("vma_numab_state", vma_numab_state);
  ("wake_irq", wake_irq);
  ("watch__bindgen_ty_1", watch__bindgen_ty_1);
  ("watch", watch);
  ("watch_type_filter", watch_type_filter);
  ("watch_filter__bindgen_ty_1", watch_filter__bindgen_ty_1);
  ("watch_filter", watch_filter);
  ("watch_list", watch_list);
  ("watch_queue", watch_queue);
  ("rfkill", rfkill);
  ("wiphy_coalesce_support", wiphy_coalesce_support);
  ("wiphy_iftype_akm_suites", wiphy_iftype_akm_suites);
  ("wiphy_iftype_ext_capab", wiphy_iftype_ext_capab);
  ("wiphy_radio", wiphy_radio);
  ("wiphy_radio_cfg", wiphy_radio_cfg);
  ("wiphy_radio_freq_range", wiphy_radio_freq_range);
  ("wiphy_vendor_command", wiphy_vendor_command);
  ("wiphy_wowlan_support", wiphy_wowlan_support);
  ("wiphy_wowlan_tcp_support", wiphy_wowlan_tcp_support);
  ("cfg80211_conn", cfg80211_conn);
  ("cfg80211_cached_keys", cfg80211_cached_keys);
  ("cfg80211_cqm_config", cfg80211_cqm_config);
  ("cfg80211_internal_bss", cfg80211_internal_bss);
  ("worker__bindgen_ty_1", worker__bindgen_ty_1);
  ("worker", worker);
  ("worker_pool", worker_pool);
  ("workqueue_attrs", workqueue_attrs);
  ("wpan_dev", wpan_dev);
  ("wpan_dev_header_ops", wpan_dev_header_ops);
  ("wpan_phy_supported", wpan_phy_supported);
  ("wpan_phy_cca", wpan_phy_cca);
  ("wpan_phy", wpan_phy);
  ("wq_device", wq_device);
  ("wq_flusher", wq_flusher);
  ("wq_node_nr_active", wq_node_nr_active);
  ("xattr_handler", xattr_handler);
  ("xdp_desc", xdp_desc);
  ("xdp_dev_bulk_queue", xdp_dev_bulk_queue);
  ("xdp_metadata_ops", xdp_metadata_ops);
  ("xdp_ring", xdp_ring);
  ("xdp_txq_info", xdp_txq_info);
  ("xdp_umem", xdp_umem);
  ("xdr_netobj", xdr_netobj);
  ("xfrm_address_filter", xfrm_address_filter);
  ("xfrm_algo", xfrm_algo);
  ("xfrm_algo_aead", xfrm_algo_aead);
  ("xfrm_algo_auth", xfrm_algo_auth);
  ("xfrm_encap_tmpl", xfrm_encap_tmpl);
  ("xfrm_id", xfrm_id);
  ("xfrm_lifetime_cfg", xfrm_lifetime_cfg);
  ("xfrm_lifetime_cur", xfrm_lifetime_cur);
  ("xfrm_mark", xfrm_mark);
  ("xfrm_mode", xfrm_mode);
  ("xfrm_mode_cbs", xfrm_mode_cbs);
  ("xfrm_selector", xfrm_selector);
  ("xfrm_policy_walk_entry", xfrm_policy_walk_entry);
  ("xfrm_policy_queue", xfrm_policy_queue);
  ("xfrm_tmpl", xfrm_tmpl);
  ("xfrm_policy", xfrm_policy);
  ("xfrm_replay_state", xfrm_replay_state);
  ("xfrm_replay_state_esn", xfrm_replay_state_esn);
  ("xfrm_sec_ctx", xfrm_sec_ctx);
  ("xfrm_state_walk", xfrm_state_walk);
  ("xfrm_stats", xfrm_stats);
  ("xfrm_state__bindgen_ty_1", xfrm_state__bindgen_ty_1);
  ("xfrm_state__bindgen_ty_2", xfrm_state__bindgen_ty_2);
  ("xfrm_state__bindgen_ty_3", xfrm_state__bindgen_ty_3);
  ("xfrm_state", xfrm_state);
  ("xfrm_type", xfrm_type);
  ("xfrm_type_offload", xfrm_type_offload);
  ("xfrmdev_ops", xfrmdev_ops);
  ("xol_area", xol_area);
  ("xprt_class", xprt_class);
  ("xprt_create", xprt_create);
  ("xps_dev_maps", xps_dev_maps);
  ("xps_map", xps_map);
  ("xsk_queue", xsk_queue);
  ("xsk_tx_metadata_ops", xsk_tx_metadata_ops)].
