(* ===== verification/Vmlinux.v ===== *)
(** * The kernel structures with bit fields

    [src/cilium-mini-ebpf/src/vmlinux.rs]: for every structure with bit fields
    the accessors and the units bindgen generated, in the order of the file.  One
    definition per field stands for its getter, its setter and their raw
    variants, which all use the same offset, width and integer type and
    transmute between that integer and the field's type; a unit lists its
    fields in the order in which its constructor sets them, and a unit that is
    padding only has none.  The theorems say that the tables are layouts and
    what follows for every accessor of every unit. *)

From Stdlib Require Import Strings.Byte NArith ZArith Lia.
From stdpp Require Import base tactics numbers list strings.
From S2P Require Import Prelude Layout KernelEnums KernelTypes KernelData Common Bitfield Ebpf Capture.

Local Open Scope Z_scope.

(** The type of a field, into which [transmute] turns the integer. *)
Inductive value_type := VInt (T : ctype) | VBool.

Record Accessor := { acc_field : Bitfield; acc_type : value_type }.
Coercion acc_field : Accessor >-> Bitfield.

(** A field: name, offset, width, the bits of the integer and the type. *)
Definition fld (name : string) (offset width bits : nat) (T : value_type) : Accessor :=
  {| acc_field := {| bf_name := name; bf_offset := offset; bf_width := width; bf_bits := bits |};
     acc_type := T |}.

Record KernelUnit := { ku_size : nat; ku_accessors : list Accessor }.

Definition ku_unit (u : KernelUnit) : BitUnit :=
  {| bu_size := ku_size u; bu_fields := acc_field <$> ku_accessors u |}.
Coercion ku_unit : KernelUnit >-> BitUnit.

Definition unit_of (size : nat) (accessors : list Accessor) : KernelUnit :=
  {| ku_size := size; ku_accessors := accessors |}.

Local Open Scope nat_scope.

(** ** The fields and units *)

Definition sockptr_t_bitfield_1_is_kernel : Accessor := fld "is_kernel" 0 1 8 VBool.
Definition sockptr_t_bitfield_1 : KernelUnit := unit_of 1 [sockptr_t_bitfield_1_is_kernel].

Definition Qdisc_bitfield_1 : KernelUnit := unit_of 24 [].

Definition Qdisc_bitfield_2 : KernelUnit := unit_of 8 [].

Definition Qdisc_bitfield_4 : KernelUnit := unit_of 24 [].

Definition kobject_bitfield_1_state_initialized : Accessor := fld "state_initialized" 0 1 32
  (VInt c_uint).
Definition kobject_bitfield_1_state_in_sysfs : Accessor := fld "state_in_sysfs" 1 1 32 (VInt
  c_uint).
Definition kobject_bitfield_1_state_add_uevent_sent : Accessor := fld "state_add_uevent_sent" 2
  1 32 (VInt c_uint).
Definition kobject_bitfield_1_state_remove_uevent_sent : Accessor := fld
  "state_remove_uevent_sent" 3 1 32 (VInt c_uint).
Definition kobject_bitfield_1_uevent_suppress : Accessor := fld "uevent_suppress" 4 1 32 (VInt
  c_uint).
Definition kobject_bitfield_1 : KernelUnit := unit_of 1 [kobject_bitfield_1_state_initialized;
  kobject_bitfield_1_state_in_sysfs; kobject_bitfield_1_state_add_uevent_sent;
  kobject_bitfield_1_state_remove_uevent_sent; kobject_bitfield_1_uevent_suppress].

Definition dev_pm_info_bitfield_1_can_wakeup : Accessor := fld "can_wakeup" 0 1 8 VBool.
Definition dev_pm_info_bitfield_1_async_suspend : Accessor := fld "async_suspend" 1 1 8 VBool.
Definition dev_pm_info_bitfield_1_in_dpm_list : Accessor := fld "in_dpm_list" 2 1 8 VBool.
Definition dev_pm_info_bitfield_1_is_prepared : Accessor := fld "is_prepared" 3 1 8 VBool.
Definition dev_pm_info_bitfield_1_is_suspended : Accessor := fld "is_suspended" 4 1 8 VBool.
Definition dev_pm_info_bitfield_1_is_noirq_suspended : Accessor := fld "is_noirq_suspended" 5 1
  8 VBool.
Definition dev_pm_info_bitfield_1_is_late_suspended : Accessor := fld "is_late_suspended" 6 1 8
  VBool.
Definition dev_pm_info_bitfield_1_no_pm : Accessor := fld "no_pm" 7 1 8 VBool.
Definition dev_pm_info_bitfield_1_early_init : Accessor := fld "early_init" 8 1 8 VBool.
Definition dev_pm_info_bitfield_1_direct_complete : Accessor := fld "direct_complete" 9 1 8
  VBool.
Definition dev_pm_info_bitfield_1 : KernelUnit := unit_of 2 [dev_pm_info_bitfield_1_can_wakeup;
  dev_pm_info_bitfield_1_async_suspend; dev_pm_info_bitfield_1_in_dpm_list;
  dev_pm_info_bitfield_1_is_prepared; dev_pm_info_bitfield_1_is_suspended;
  dev_pm_info_bitfield_1_is_noirq_suspended; dev_pm_info_bitfield_1_is_late_suspended;
  dev_pm_info_bitfield_1_no_pm; dev_pm_info_bitfield_1_early_init;
  dev_pm_info_bitfield_1_direct_complete].

Definition dev_pm_info_bitfield_2_wakeup_path : Accessor := fld "wakeup_path" 0 1 8 VBool.
Definition dev_pm_info_bitfield_2_syscore : Accessor := fld "syscore" 1 1 8 VBool.
Definition dev_pm_info_bitfield_2_no_pm_callbacks : Accessor := fld "no_pm_callbacks" 2 1 8
  VBool.
Definition dev_pm_info_bitfield_2_smart_suspend : Accessor := fld "smart_suspend" 3 1 8 VBool.
Definition dev_pm_info_bitfield_2_must_resume : Accessor := fld "must_resume" 4 1 8 VBool.
Definition dev_pm_info_bitfield_2_may_skip_resume : Accessor := fld "may_skip_resume" 5 1 8
  VBool.
Definition dev_pm_info_bitfield_2_out_band_wakeup : Accessor := fld "out_band_wakeup" 6 1 8
  VBool.
Definition dev_pm_info_bitfield_2_strict_midlayer : Accessor := fld "strict_midlayer" 7 1 8
  VBool.
Definition dev_pm_info_bitfield_2 : KernelUnit := unit_of 1 [dev_pm_info_bitfield_2_wakeup_path;
  dev_pm_info_bitfield_2_syscore; dev_pm_info_bitfield_2_no_pm_callbacks;
  dev_pm_info_bitfield_2_smart_suspend; dev_pm_info_bitfield_2_must_resume;
  dev_pm_info_bitfield_2_may_skip_resume; dev_pm_info_bitfield_2_out_band_wakeup;
  dev_pm_info_bitfield_2_strict_midlayer].

Definition dev_pm_info_bitfield_3_disable_depth : Accessor := fld "disable_depth" 0 3 32 (VInt
  c_uint).
Definition dev_pm_info_bitfield_3_idle_notification : Accessor := fld "idle_notification" 3 1 8
  VBool.
Definition dev_pm_info_bitfield_3_request_pending : Accessor := fld "request_pending" 4 1 8
  VBool.
Definition dev_pm_info_bitfield_3_deferred_resume : Accessor := fld "deferred_resume" 5 1 8
  VBool.
Definition dev_pm_info_bitfield_3_needs_force_resume : Accessor := fld "needs_force_resume" 6 1
  8 VBool.
Definition dev_pm_info_bitfield_3_runtime_auto : Accessor := fld "runtime_auto" 7 1 8 VBool.
Definition dev_pm_info_bitfield_3_ignore_children : Accessor := fld "ignore_children" 8 1 8
  VBool.
Definition dev_pm_info_bitfield_3_no_callbacks : Accessor := fld "no_callbacks" 9 1 8 VBool.
Definition dev_pm_info_bitfield_3_irq_safe : Accessor := fld "irq_safe" 10 1 8 VBool.
Definition dev_pm_info_bitfield_3_use_autosuspend : Accessor := fld "use_autosuspend" 11 1 8
  VBool.
Definition dev_pm_info_bitfield_3_timer_autosuspends : Accessor := fld "timer_autosuspends" 12 1
  8 VBool.
Definition dev_pm_info_bitfield_3_memalloc_noio : Accessor := fld "memalloc_noio" 13 1 8 VBool.
Definition dev_pm_info_bitfield_3 : KernelUnit := unit_of 2
  [dev_pm_info_bitfield_3_disable_depth; dev_pm_info_bitfield_3_idle_notification;
  dev_pm_info_bitfield_3_request_pending; dev_pm_info_bitfield_3_deferred_resume;
  dev_pm_info_bitfield_3_needs_force_resume; dev_pm_info_bitfield_3_runtime_auto;
  dev_pm_info_bitfield_3_ignore_children; dev_pm_info_bitfield_3_no_callbacks;
  dev_pm_info_bitfield_3_irq_safe; dev_pm_info_bitfield_3_use_autosuspend;
  dev_pm_info_bitfield_3_timer_autosuspends; dev_pm_info_bitfield_3_memalloc_noio].

Definition dev_pm_info_bitfield_4_detach_power_off : Accessor := fld "detach_power_off" 0 1 8
  VBool.
Definition dev_pm_info_bitfield_4 : KernelUnit := unit_of 1
  [dev_pm_info_bitfield_4_detach_power_off].

Definition device_bitfield_1_offline_disabled : Accessor := fld "offline_disabled" 0 1 8 VBool.
Definition device_bitfield_1_offline : Accessor := fld "offline" 1 1 8 VBool.
Definition device_bitfield_1_of_node_reused : Accessor := fld "of_node_reused" 2 1 8 VBool.
Definition device_bitfield_1_state_synced : Accessor := fld "state_synced" 3 1 8 VBool.
Definition device_bitfield_1_can_match : Accessor := fld "can_match" 4 1 8 VBool.
Definition device_bitfield_1_dma_skip_sync : Accessor := fld "dma_skip_sync" 5 1 8 VBool.
Definition device_bitfield_1_dma_iommu : Accessor := fld "dma_iommu" 6 1 8 VBool.
Definition device_bitfield_1 : KernelUnit := unit_of 1 [device_bitfield_1_offline_disabled;
  device_bitfield_1_offline; device_bitfield_1_of_node_reused; device_bitfield_1_state_synced;
  device_bitfield_1_can_match; device_bitfield_1_dma_skip_sync; device_bitfield_1_dma_iommu].

Definition fred_cs_bitfield_1_cs : Accessor := fld "cs" 0 16 64 (VInt u64_).
Definition fred_cs_bitfield_1_sl : Accessor := fld "sl" 16 2 64 (VInt u64_).
Definition fred_cs_bitfield_1_wfe : Accessor := fld "wfe" 18 1 64 (VInt u64_).
Definition fred_cs_bitfield_1 : KernelUnit := unit_of 3 [fred_cs_bitfield_1_cs;
  fred_cs_bitfield_1_sl; fred_cs_bitfield_1_wfe].

Definition fred_ss_bitfield_1_ss : Accessor := fld "ss" 0 16 64 (VInt u64_).
Definition fred_ss_bitfield_1_sti : Accessor := fld "sti" 16 1 64 (VInt u64_).
Definition fred_ss_bitfield_1_swevent : Accessor := fld "swevent" 17 1 64 (VInt u64_).
Definition fred_ss_bitfield_1_nmi : Accessor := fld "nmi" 18 1 64 (VInt u64_).
Definition fred_ss_bitfield_1_vector : Accessor := fld "vector" 32 8 64 (VInt u64_).
Definition fred_ss_bitfield_1_type_ : Accessor := fld "type_" 48 4 64 (VInt u64_).
Definition fred_ss_bitfield_1_enclave : Accessor := fld "enclave" 56 1 64 (VInt u64_).
Definition fred_ss_bitfield_1_l : Accessor := fld "l" 57 1 64 (VInt u64_).
Definition fred_ss_bitfield_1_nested : Accessor := fld "nested" 58 1 64 (VInt u64_).
Definition fred_ss_bitfield_1_insnlen : Accessor := fld "insnlen" 60 4 64 (VInt u64_).
Definition fred_ss_bitfield_1 : KernelUnit := unit_of 8 [fred_ss_bitfield_1_ss;
  fred_ss_bitfield_1_sti; fred_ss_bitfield_1_swevent; fred_ss_bitfield_1_nmi;
  fred_ss_bitfield_1_vector; fred_ss_bitfield_1_type_; fred_ss_bitfield_1_enclave;
  fred_ss_bitfield_1_l; fred_ss_bitfield_1_nested; fred_ss_bitfield_1_insnlen].

Definition _ddebug_bitfield_1_lineno : Accessor := fld "lineno" 0 18 32 (VInt c_uint).
Definition _ddebug_bitfield_1_class_id : Accessor := fld "class_id" 18 6 32 (VInt c_uint).
Definition _ddebug_bitfield_1_flags : Accessor := fld "flags" 24 8 32 (VInt c_uint).
Definition _ddebug_bitfield_1 : KernelUnit := unit_of 4 [_ddebug_bitfield_1_lineno;
  _ddebug_bitfield_1_class_id; _ddebug_bitfield_1_flags].

Definition x86_msi_addr_lo__bindgen_ty_1__bindgen_ty_1_bitfield_1_reserved_0 : Accessor := fld
  "reserved_0" 0 2 32 (VInt u32_).
Definition x86_msi_addr_lo__bindgen_ty_1__bindgen_ty_1_bitfield_1_dest_mode_logical : Accessor
  := fld "dest_mode_logical" 2 1 32 (VInt u32_).
Definition x86_msi_addr_lo__bindgen_ty_1__bindgen_ty_1_bitfield_1_redirect_hint : Accessor :=
  fld "redirect_hint" 3 1 32 (VInt u32_).
Definition x86_msi_addr_lo__bindgen_ty_1__bindgen_ty_1_bitfield_1_reserved_1 : Accessor := fld
  "reserved_1" 4 1 32 (VInt u32_).
Definition x86_msi_addr_lo__bindgen_ty_1__bindgen_ty_1_bitfield_1_virt_destid_8_14 : Accessor :=
  fld "virt_destid_8_14" 5 7 32 (VInt u32_).
Definition x86_msi_addr_lo__bindgen_ty_1__bindgen_ty_1_bitfield_1_destid_0_7 : Accessor := fld
  "destid_0_7" 12 8 32 (VInt u32_).
Definition x86_msi_addr_lo__bindgen_ty_1__bindgen_ty_1_bitfield_1_base_address : Accessor := fld
  "base_address" 20 12 32 (VInt u32_).
Definition x86_msi_addr_lo__bindgen_ty_1__bindgen_ty_1_bitfield_1 : KernelUnit := unit_of 4
  [x86_msi_addr_lo__bindgen_ty_1__bindgen_ty_1_bitfield_1_reserved_0;
  x86_msi_addr_lo__bindgen_ty_1__bindgen_ty_1_bitfield_1_dest_mode_logical;
  x86_msi_addr_lo__bindgen_ty_1__bindgen_ty_1_bitfield_1_redirect_hint;
  x86_msi_addr_lo__bindgen_ty_1__bindgen_ty_1_bitfield_1_reserved_1;
  x86_msi_addr_lo__bindgen_ty_1__bindgen_ty_1_bitfield_1_virt_destid_8_14;
  x86_msi_addr_lo__bindgen_ty_1__bindgen_ty_1_bitfield_1_destid_0_7;
  x86_msi_addr_lo__bindgen_ty_1__bindgen_ty_1_bitfield_1_base_address].

Definition x86_msi_addr_lo__bindgen_ty_1__bindgen_ty_2_bitfield_1_dmar_reserved_0 : Accessor :=
  fld "dmar_reserved_0" 0 2 32 (VInt u32_).
Definition x86_msi_addr_lo__bindgen_ty_1__bindgen_ty_2_bitfield_1_dmar_index_15 : Accessor :=
  fld "dmar_index_15" 2 1 32 (VInt u32_).
Definition x86_msi_addr_lo__bindgen_ty_1__bindgen_ty_2_bitfield_1_dmar_subhandle_valid :
  Accessor := fld "dmar_subhandle_valid" 3 1 32 (VInt u32_).
Definition x86_msi_addr_lo__bindgen_ty_1__bindgen_ty_2_bitfield_1_dmar_format : Accessor := fld
  "dmar_format" 4 1 32 (VInt u32_).
Definition x86_msi_addr_lo__bindgen_ty_1__bindgen_ty_2_bitfield_1_dmar_index_0_14 : Accessor :=
  fld "dmar_index_0_14" 5 15 32 (VInt u32_).
Definition x86_msi_addr_lo__bindgen_ty_1__bindgen_ty_2_bitfield_1_dmar_base_address : Accessor
  := fld "dmar_base_address" 20 12 32 (VInt u32_).
Definition x86_msi_addr_lo__bindgen_ty_1__bindgen_ty_2_bitfield_1 : KernelUnit := unit_of 4
  [x86_msi_addr_lo__bindgen_ty_1__bindgen_ty_2_bitfield_1_dmar_reserved_0;
  x86_msi_addr_lo__bindgen_ty_1__bindgen_ty_2_bitfield_1_dmar_index_15;
  x86_msi_addr_lo__bindgen_ty_1__bindgen_ty_2_bitfield_1_dmar_subhandle_valid;
  x86_msi_addr_lo__bindgen_ty_1__bindgen_ty_2_bitfield_1_dmar_format;
  x86_msi_addr_lo__bindgen_ty_1__bindgen_ty_2_bitfield_1_dmar_index_0_14;
  x86_msi_addr_lo__bindgen_ty_1__bindgen_ty_2_bitfield_1_dmar_base_address].

Definition x86_msi_addr_hi_bitfield_1_reserved : Accessor := fld "reserved" 0 8 32 (VInt u32_).
Definition x86_msi_addr_hi_bitfield_1_destid_8_31 : Accessor := fld "destid_8_31" 8 24 32 (VInt
  u32_).
Definition x86_msi_addr_hi_bitfield_1 : KernelUnit := unit_of 4
  [x86_msi_addr_hi_bitfield_1_reserved; x86_msi_addr_hi_bitfield_1_destid_8_31].

Definition x86_msi_data__bindgen_ty_1__bindgen_ty_1_bitfield_1_vector : Accessor := fld "vector"
  0 8 32 (VInt u32_).
Definition x86_msi_data__bindgen_ty_1__bindgen_ty_1_bitfield_1_delivery_mode : Accessor := fld
  "delivery_mode" 8 3 32 (VInt u32_).
Definition x86_msi_data__bindgen_ty_1__bindgen_ty_1_bitfield_1_dest_mode_logical : Accessor :=
  fld "dest_mode_logical" 11 1 32 (VInt u32_).
Definition x86_msi_data__bindgen_ty_1__bindgen_ty_1_bitfield_1_reserved : Accessor := fld
  "reserved" 12 2 32 (VInt u32_).
Definition x86_msi_data__bindgen_ty_1__bindgen_ty_1_bitfield_1_active_low : Accessor := fld
  "active_low" 14 1 32 (VInt u32_).
Definition x86_msi_data__bindgen_ty_1__bindgen_ty_1_bitfield_1_is_level : Accessor := fld
  "is_level" 15 1 32 (VInt u32_).
Definition x86_msi_data__bindgen_ty_1__bindgen_ty_1_bitfield_1 : KernelUnit := unit_of 2
  [x86_msi_data__bindgen_ty_1__bindgen_ty_1_bitfield_1_vector;
  x86_msi_data__bindgen_ty_1__bindgen_ty_1_bitfield_1_delivery_mode;
  x86_msi_data__bindgen_ty_1__bindgen_ty_1_bitfield_1_dest_mode_logical;
  x86_msi_data__bindgen_ty_1__bindgen_ty_1_bitfield_1_reserved;
  x86_msi_data__bindgen_ty_1__bindgen_ty_1_bitfield_1_active_low;
  x86_msi_data__bindgen_ty_1__bindgen_ty_1_bitfield_1_is_level].

Definition blk_flush_queue_bitfield_1_flush_pending_idx : Accessor := fld "flush_pending_idx" 0
  1 32 (VInt c_uint).
Definition blk_flush_queue_bitfield_1_flush_running_idx : Accessor := fld "flush_running_idx" 1
  1 32 (VInt c_uint).
Definition blk_flush_queue_bitfield_1 : KernelUnit := unit_of 1
  [blk_flush_queue_bitfield_1_flush_pending_idx; blk_flush_queue_bitfield_1_flush_running_idx].

Definition blk_mq_ctx__bindgen_ty_1_bitfield_1 : KernelUnit := unit_of 8 [].

Definition blk_mq_ctx_bitfield_1 : KernelUnit := unit_of 8 [].

Definition blk_mq_hw_ctx__bindgen_ty_1_bitfield_1 : KernelUnit := unit_of 32 [].

Definition blk_mq_hw_ctx_bitfield_1 : KernelUnit := unit_of 32 [].

Definition sk_buff__bindgen_ty_4__bindgen_ty_1_bitfield_1_pkt_type : Accessor := fld "pkt_type"
  0 3 8 (VInt __u8).
Definition sk_buff__bindgen_ty_4__bindgen_ty_1_bitfield_1_ignore_df : Accessor := fld
  "ignore_df" 3 1 8 (VInt __u8).
Definition sk_buff__bindgen_ty_4__bindgen_ty_1_bitfield_1_dst_pending_confirm : Accessor := fld
  "dst_pending_confirm" 4 1 8 (VInt __u8).
Definition sk_buff__bindgen_ty_4__bindgen_ty_1_bitfield_1_ip_summed : Accessor := fld
  "ip_summed" 5 2 8 (VInt __u8).
Definition sk_buff__bindgen_ty_4__bindgen_ty_1_bitfield_1_ooo_okay : Accessor := fld "ooo_okay"
  7 1 8 (VInt __u8).
Definition sk_buff__bindgen_ty_4__bindgen_ty_1_bitfield_1 : KernelUnit := unit_of 1
  [sk_buff__bindgen_ty_4__bindgen_ty_1_bitfield_1_pkt_type;
  sk_buff__bindgen_ty_4__bindgen_ty_1_bitfield_1_ignore_df;
  sk_buff__bindgen_ty_4__bindgen_ty_1_bitfield_1_dst_pending_confirm;
  sk_buff__bindgen_ty_4__bindgen_ty_1_bitfield_1_ip_summed;
  sk_buff__bindgen_ty_4__bindgen_ty_1_bitfield_1_ooo_okay].

Definition sk_buff__bindgen_ty_4__bindgen_ty_1_bitfield_2_tstamp_type : Accessor := fld
  "tstamp_type" 0 2 8 (VInt __u8).
Definition sk_buff__bindgen_ty_4__bindgen_ty_1_bitfield_2_tc_at_ingress : Accessor := fld
  "tc_at_ingress" 2 1 8 (VInt __u8).
Definition sk_buff__bindgen_ty_4__bindgen_ty_1_bitfield_2_tc_skip_classify : Accessor := fld
  "tc_skip_classify" 3 1 8 (VInt __u8).
Definition sk_buff__bindgen_ty_4__bindgen_ty_1_bitfield_2_remcsum_offload : Accessor := fld
  "remcsum_offload" 4 1 8 (VInt __u8).
Definition sk_buff__bindgen_ty_4__bindgen_ty_1_bitfield_2_csum_complete_sw : Accessor := fld
  "csum_complete_sw" 5 1 8 (VInt __u8).
Definition sk_buff__bindgen_ty_4__bindgen_ty_1_bitfield_2_csum_level : Accessor := fld
  "csum_level" 6 2 8 (VInt __u8).
Definition sk_buff__bindgen_ty_4__bindgen_ty_1_bitfield_2_inner_protocol_type : Accessor := fld
  "inner_protocol_type" 8 1 8 (VInt __u8).
Definition sk_buff__bindgen_ty_4__bindgen_ty_1_bitfield_2_l4_hash : Accessor := fld "l4_hash" 9
  1 8 (VInt __u8).
Definition sk_buff__bindgen_ty_4__bindgen_ty_1_bitfield_2_sw_hash : Accessor := fld "sw_hash" 10
  1 8 (VInt __u8).
Definition sk_buff__bindgen_ty_4__bindgen_ty_1_bitfield_2_wifi_acked_valid : Accessor := fld
  "wifi_acked_valid" 11 1 8 (VInt __u8).
Definition sk_buff__bindgen_ty_4__bindgen_ty_1_bitfield_2_wifi_acked : Accessor := fld
  "wifi_acked" 12 1 8 (VInt __u8).
Definition sk_buff__bindgen_ty_4__bindgen_ty_1_bitfield_2_no_fcs : Accessor := fld "no_fcs" 13 1
  8 (VInt __u8).
Definition sk_buff__bindgen_ty_4__bindgen_ty_1_bitfield_2_encapsulation : Accessor := fld
  "encapsulation" 14 1 8 (VInt __u8).
Definition sk_buff__bindgen_ty_4__bindgen_ty_1_bitfield_2_encap_hdr_csum : Accessor := fld
  "encap_hdr_csum" 15 1 8 (VInt __u8).
Definition sk_buff__bindgen_ty_4__bindgen_ty_1_bitfield_2_csum_valid : Accessor := fld
  "csum_valid" 16 1 8 (VInt __u8).
Definition sk_buff__bindgen_ty_4__bindgen_ty_1_bitfield_2_ndisc_nodetype : Accessor := fld
  "ndisc_nodetype" 17 2 8 (VInt __u8).
Definition sk_buff__bindgen_ty_4__bindgen_ty_1_bitfield_2_ipvs_property : Accessor := fld
  "ipvs_property" 19 1 8 (VInt __u8).
Definition sk_buff__bindgen_ty_4__bindgen_ty_1_bitfield_2_nf_trace : Accessor := fld "nf_trace"
  20 1 8 (VInt __u8).
Definition sk_buff__bindgen_ty_4__bindgen_ty_1_bitfield_2_offload_fwd_mark : Accessor := fld
  "offload_fwd_mark" 21 1 8 (VInt __u8).
Definition sk_buff__bindgen_ty_4__bindgen_ty_1_bitfield_2_offload_l3_fwd_mark : Accessor := fld
  "offload_l3_fwd_mark" 22 1 8 (VInt __u8).
Definition sk_buff__bindgen_ty_4__bindgen_ty_1_bitfield_2_redirected : Accessor := fld
  "redirected" 23 1 8 (VInt __u8).
Definition sk_buff__bindgen_ty_4__bindgen_ty_1_bitfield_2_from_ingress : Accessor := fld
  "from_ingress" 24 1 8 (VInt __u8).
Definition sk_buff__bindgen_ty_4__bindgen_ty_1_bitfield_2_nf_skip_egress : Accessor := fld
  "nf_skip_egress" 25 1 8 (VInt __u8).
Definition sk_buff__bindgen_ty_4__bindgen_ty_1_bitfield_2_decrypted : Accessor := fld
  "decrypted" 26 1 8 (VInt __u8).
Definition sk_buff__bindgen_ty_4__bindgen_ty_1_bitfield_2_slow_gro : Accessor := fld "slow_gro"
  27 1 8 (VInt __u8).
Definition sk_buff__bindgen_ty_4__bindgen_ty_1_bitfield_2_csum_not_inet : Accessor := fld
  "csum_not_inet" 28 1 8 (VInt __u8).
Definition sk_buff__bindgen_ty_4__bindgen_ty_1_bitfield_2_unreadable : Accessor := fld
  "unreadable" 29 1 8 (VInt __u8).
Definition sk_buff__bindgen_ty_4__bindgen_ty_1_bitfield_2 : KernelUnit := unit_of 4
  [sk_buff__bindgen_ty_4__bindgen_ty_1_bitfield_2_tstamp_type;
  sk_buff__bindgen_ty_4__bindgen_ty_1_bitfield_2_tc_at_ingress;
  sk_buff__bindgen_ty_4__bindgen_ty_1_bitfield_2_tc_skip_classify;
  sk_buff__bindgen_ty_4__bindgen_ty_1_bitfield_2_remcsum_offload;
  sk_buff__bindgen_ty_4__bindgen_ty_1_bitfield_2_csum_complete_sw;
  sk_buff__bindgen_ty_4__bindgen_ty_1_bitfield_2_csum_level;
  sk_buff__bindgen_ty_4__bindgen_ty_1_bitfield_2_inner_protocol_type;
  sk_buff__bindgen_ty_4__bindgen_ty_1_bitfield_2_l4_hash;
  sk_buff__bindgen_ty_4__bindgen_ty_1_bitfield_2_sw_hash;
  sk_buff__bindgen_ty_4__bindgen_ty_1_bitfield_2_wifi_acked_valid;
  sk_buff__bindgen_ty_4__bindgen_ty_1_bitfield_2_wifi_acked;
  sk_buff__bindgen_ty_4__bindgen_ty_1_bitfield_2_no_fcs;
  sk_buff__bindgen_ty_4__bindgen_ty_1_bitfield_2_encapsulation;
  sk_buff__bindgen_ty_4__bindgen_ty_1_bitfield_2_encap_hdr_csum;
  sk_buff__bindgen_ty_4__bindgen_ty_1_bitfield_2_csum_valid;
  sk_buff__bindgen_ty_4__bindgen_ty_1_bitfield_2_ndisc_nodetype;
  sk_buff__bindgen_ty_4__bindgen_ty_1_bitfield_2_ipvs_property;
  sk_buff__bindgen_ty_4__bindgen_ty_1_bitfield_2_nf_trace;
  sk_buff__bindgen_ty_4__bindgen_ty_1_bitfield_2_offload_fwd_mark;
  sk_buff__bindgen_ty_4__bindgen_ty_1_bitfield_2_offload_l3_fwd_mark;
  sk_buff__bindgen_ty_4__bindgen_ty_1_bitfield_2_redirected;
  sk_buff__bindgen_ty_4__bindgen_ty_1_bitfield_2_from_ingress;
  sk_buff__bindgen_ty_4__bindgen_ty_1_bitfield_2_nf_skip_egress;
  sk_buff__bindgen_ty_4__bindgen_ty_1_bitfield_2_decrypted;
  sk_buff__bindgen_ty_4__bindgen_ty_1_bitfield_2_slow_gro;
  sk_buff__bindgen_ty_4__bindgen_ty_1_bitfield_2_csum_not_inet;
  sk_buff__bindgen_ty_4__bindgen_ty_1_bitfield_2_unreadable].

Definition sk_buff__bindgen_ty_4__bindgen_ty_2_bitfield_1_pkt_type : Accessor := fld "pkt_type"
  0 3 8 (VInt __u8).
Definition sk_buff__bindgen_ty_4__bindgen_ty_2_bitfield_1_ignore_df : Accessor := fld
  "ignore_df" 3 1 8 (VInt __u8).
Definition sk_buff__bindgen_ty_4__bindgen_ty_2_bitfield_1_dst_pending_confirm : Accessor := fld
  "dst_pending_confirm" 4 1 8 (VInt __u8).
Definition sk_buff__bindgen_ty_4__bindgen_ty_2_bitfield_1_ip_summed : Accessor := fld
  "ip_summed" 5 2 8 (VInt __u8).
Definition sk_buff__bindgen_ty_4__bindgen_ty_2_bitfield_1_ooo_okay : Accessor := fld "ooo_okay"
  7 1 8 (VInt __u8).
Definition sk_buff__bindgen_ty_4__bindgen_ty_2_bitfield_1 : KernelUnit := unit_of 1
  [sk_buff__bindgen_ty_4__bindgen_ty_2_bitfield_1_pkt_type;
  sk_buff__bindgen_ty_4__bindgen_ty_2_bitfield_1_ignore_df;
  sk_buff__bindgen_ty_4__bindgen_ty_2_bitfield_1_dst_pending_confirm;
  sk_buff__bindgen_ty_4__bindgen_ty_2_bitfield_1_ip_summed;
  sk_buff__bindgen_ty_4__bindgen_ty_2_bitfield_1_ooo_okay].

Definition sk_buff__bindgen_ty_4__bindgen_ty_2_bitfield_2_tstamp_type : Accessor := fld
  "tstamp_type" 0 2 8 (VInt __u8).
Definition sk_buff__bindgen_ty_4__bindgen_ty_2_bitfield_2_tc_at_ingress : Accessor := fld
  "tc_at_ingress" 2 1 8 (VInt __u8).
Definition sk_buff__bindgen_ty_4__bindgen_ty_2_bitfield_2_tc_skip_classify : Accessor := fld
  "tc_skip_classify" 3 1 8 (VInt __u8).
Definition sk_buff__bindgen_ty_4__bindgen_ty_2_bitfield_2_remcsum_offload : Accessor := fld
  "remcsum_offload" 4 1 8 (VInt __u8).
Definition sk_buff__bindgen_ty_4__bindgen_ty_2_bitfield_2_csum_complete_sw : Accessor := fld
  "csum_complete_sw" 5 1 8 (VInt __u8).
Definition sk_buff__bindgen_ty_4__bindgen_ty_2_bitfield_2_csum_level : Accessor := fld
  "csum_level" 6 2 8 (VInt __u8).
Definition sk_buff__bindgen_ty_4__bindgen_ty_2_bitfield_2_inner_protocol_type : Accessor := fld
  "inner_protocol_type" 8 1 8 (VInt __u8).
Definition sk_buff__bindgen_ty_4__bindgen_ty_2_bitfield_2_l4_hash : Accessor := fld "l4_hash" 9
  1 8 (VInt __u8).
Definition sk_buff__bindgen_ty_4__bindgen_ty_2_bitfield_2_sw_hash : Accessor := fld "sw_hash" 10
  1 8 (VInt __u8).
Definition sk_buff__bindgen_ty_4__bindgen_ty_2_bitfield_2_wifi_acked_valid : Accessor := fld
  "wifi_acked_valid" 11 1 8 (VInt __u8).
Definition sk_buff__bindgen_ty_4__bindgen_ty_2_bitfield_2_wifi_acked : Accessor := fld
  "wifi_acked" 12 1 8 (VInt __u8).
Definition sk_buff__bindgen_ty_4__bindgen_ty_2_bitfield_2_no_fcs : Accessor := fld "no_fcs" 13 1
  8 (VInt __u8).
Definition sk_buff__bindgen_ty_4__bindgen_ty_2_bitfield_2_encapsulation : Accessor := fld
  "encapsulation" 14 1 8 (VInt __u8).
Definition sk_buff__bindgen_ty_4__bindgen_ty_2_bitfield_2_encap_hdr_csum : Accessor := fld
  "encap_hdr_csum" 15 1 8 (VInt __u8).
Definition sk_buff__bindgen_ty_4__bindgen_ty_2_bitfield_2_csum_valid : Accessor := fld
  "csum_valid" 16 1 8 (VInt __u8).
Definition sk_buff__bindgen_ty_4__bindgen_ty_2_bitfield_2_ndisc_nodetype : Accessor := fld
  "ndisc_nodetype" 17 2 8 (VInt __u8).
Definition sk_buff__bindgen_ty_4__bindgen_ty_2_bitfield_2_ipvs_property : Accessor := fld
  "ipvs_property" 19 1 8 (VInt __u8).
Definition sk_buff__bindgen_ty_4__bindgen_ty_2_bitfield_2_nf_trace : Accessor := fld "nf_trace"
  20 1 8 (VInt __u8).
Definition sk_buff__bindgen_ty_4__bindgen_ty_2_bitfield_2_offload_fwd_mark : Accessor := fld
  "offload_fwd_mark" 21 1 8 (VInt __u8).
Definition sk_buff__bindgen_ty_4__bindgen_ty_2_bitfield_2_offload_l3_fwd_mark : Accessor := fld
  "offload_l3_fwd_mark" 22 1 8 (VInt __u8).
Definition sk_buff__bindgen_ty_4__bindgen_ty_2_bitfield_2_redirected : Accessor := fld
  "redirected" 23 1 8 (VInt __u8).
Definition sk_buff__bindgen_ty_4__bindgen_ty_2_bitfield_2_from_ingress : Accessor := fld
  "from_ingress" 24 1 8 (VInt __u8).
Definition sk_buff__bindgen_ty_4__bindgen_ty_2_bitfield_2_nf_skip_egress : Accessor := fld
  "nf_skip_egress" 25 1 8 (VInt __u8).
Definition sk_buff__bindgen_ty_4__bindgen_ty_2_bitfield_2_decrypted : Accessor := fld
  "decrypted" 26 1 8 (VInt __u8).
Definition sk_buff__bindgen_ty_4__bindgen_ty_2_bitfield_2_slow_gro : Accessor := fld "slow_gro"
  27 1 8 (VInt __u8).
Definition sk_buff__bindgen_ty_4__bindgen_ty_2_bitfield_2_csum_not_inet : Accessor := fld
  "csum_not_inet" 28 1 8 (VInt __u8).
Definition sk_buff__bindgen_ty_4__bindgen_ty_2_bitfield_2_unreadable : Accessor := fld
  "unreadable" 29 1 8 (VInt __u8).
Definition sk_buff__bindgen_ty_4__bindgen_ty_2_bitfield_2 : KernelUnit := unit_of 4
  [sk_buff__bindgen_ty_4__bindgen_ty_2_bitfield_2_tstamp_type;
  sk_buff__bindgen_ty_4__bindgen_ty_2_bitfield_2_tc_at_ingress;
  sk_buff__bindgen_ty_4__bindgen_ty_2_bitfield_2_tc_skip_classify;
  sk_buff__bindgen_ty_4__bindgen_ty_2_bitfield_2_remcsum_offload;
  sk_buff__bindgen_ty_4__bindgen_ty_2_bitfield_2_csum_complete_sw;
  sk_buff__bindgen_ty_4__bindgen_ty_2_bitfield_2_csum_level;
  sk_buff__bindgen_ty_4__bindgen_ty_2_bitfield_2_inner_protocol_type;
  sk_buff__bindgen_ty_4__bindgen_ty_2_bitfield_2_l4_hash;
  sk_buff__bindgen_ty_4__bindgen_ty_2_bitfield_2_sw_hash;
  sk_buff__bindgen_ty_4__bindgen_ty_2_bitfield_2_wifi_acked_valid;
  sk_buff__bindgen_ty_4__bindgen_ty_2_bitfield_2_wifi_acked;
  sk_buff__bindgen_ty_4__bindgen_ty_2_bitfield_2_no_fcs;
  sk_buff__bindgen_ty_4__bindgen_ty_2_bitfield_2_encapsulation;
  sk_buff__bindgen_ty_4__bindgen_ty_2_bitfield_2_encap_hdr_csum;
  sk_buff__bindgen_ty_4__bindgen_ty_2_bitfield_2_csum_valid;
  sk_buff__bindgen_ty_4__bindgen_ty_2_bitfield_2_ndisc_nodetype;
  sk_buff__bindgen_ty_4__bindgen_ty_2_bitfield_2_ipvs_property;
  sk_buff__bindgen_ty_4__bindgen_ty_2_bitfield_2_nf_trace;
  sk_buff__bindgen_ty_4__bindgen_ty_2_bitfield_2_offload_fwd_mark;
  sk_buff__bindgen_ty_4__bindgen_ty_2_bitfield_2_offload_l3_fwd_mark;
  sk_buff__bindgen_ty_4__bindgen_ty_2_bitfield_2_redirected;
  sk_buff__bindgen_ty_4__bindgen_ty_2_bitfield_2_from_ingress;
  sk_buff__bindgen_ty_4__bindgen_ty_2_bitfield_2_nf_skip_egress;
  sk_buff__bindgen_ty_4__bindgen_ty_2_bitfield_2_decrypted;
  sk_buff__bindgen_ty_4__bindgen_ty_2_bitfield_2_slow_gro;
  sk_buff__bindgen_ty_4__bindgen_ty_2_bitfield_2_csum_not_inet;
  sk_buff__bindgen_ty_4__bindgen_ty_2_bitfield_2_unreadable].

Definition sk_buff_bitfield_1_cloned : Accessor := fld "cloned" 0 1 8 (VInt __u8).
Definition sk_buff_bitfield_1_nohdr : Accessor := fld "nohdr" 1 1 8 (VInt __u8).
Definition sk_buff_bitfield_1_fclone : Accessor := fld "fclone" 2 2 8 (VInt __u8).
Definition sk_buff_bitfield_1_peeked : Accessor := fld "peeked" 4 1 8 (VInt __u8).
Definition sk_buff_bitfield_1_head_frag : Accessor := fld "head_frag" 5 1 8 (VInt __u8).
Definition sk_buff_bitfield_1_pfmemalloc : Accessor := fld "pfmemalloc" 6 1 8 (VInt __u8).
Definition sk_buff_bitfield_1_pp_recycle : Accessor := fld "pp_recycle" 7 1 8 (VInt __u8).
Definition sk_buff_bitfield_1 : KernelUnit := unit_of 1 [sk_buff_bitfield_1_cloned;
  sk_buff_bitfield_1_nohdr; sk_buff_bitfield_1_fclone; sk_buff_bitfield_1_peeked;
  sk_buff_bitfield_1_head_frag; sk_buff_bitfield_1_pfmemalloc; sk_buff_bitfield_1_pp_recycle].

Definition sock_common_bitfield_1_skc_reuse : Accessor := fld "skc_reuse" 0 4 8 (VInt c_uchar).
Definition sock_common_bitfield_1_skc_reuseport : Accessor := fld "skc_reuseport" 4 1 8 (VInt
  c_uchar).
Definition sock_common_bitfield_1_skc_ipv6only : Accessor := fld "skc_ipv6only" 5 1 8 (VInt
  c_uchar).
Definition sock_common_bitfield_1_skc_net_refcnt : Accessor := fld "skc_net_refcnt" 6 1 8 (VInt
  c_uchar).
Definition sock_common_bitfield_1_skc_bypass_prot_mem : Accessor := fld "skc_bypass_prot_mem" 7
  1 8 (VInt c_uchar).
Definition sock_common_bitfield_1 : KernelUnit := unit_of 1 [sock_common_bitfield_1_skc_reuse;
  sock_common_bitfield_1_skc_reuseport; sock_common_bitfield_1_skc_ipv6only;
  sock_common_bitfield_1_skc_net_refcnt; sock_common_bitfield_1_skc_bypass_prot_mem].

Definition sock__bindgen_ty_5__bindgen_ty_1_bitfield_1_sk_scm_credentials : Accessor := fld
  "sk_scm_credentials" 0 1 8 (VInt u8_).
Definition sock__bindgen_ty_5__bindgen_ty_1_bitfield_1_sk_scm_security : Accessor := fld
  "sk_scm_security" 1 1 8 (VInt u8_).
Definition sock__bindgen_ty_5__bindgen_ty_1_bitfield_1_sk_scm_pidfd : Accessor := fld
  "sk_scm_pidfd" 2 1 8 (VInt u8_).
Definition sock__bindgen_ty_5__bindgen_ty_1_bitfield_1_sk_scm_rights : Accessor := fld
  "sk_scm_rights" 3 1 8 (VInt u8_).
Definition sock__bindgen_ty_5__bindgen_ty_1_bitfield_1_sk_scm_unused : Accessor := fld
  "sk_scm_unused" 4 4 8 (VInt u8_).
Definition sock__bindgen_ty_5__bindgen_ty_1_bitfield_1 : KernelUnit := unit_of 1
  [sock__bindgen_ty_5__bindgen_ty_1_bitfield_1_sk_scm_credentials;
  sock__bindgen_ty_5__bindgen_ty_1_bitfield_1_sk_scm_security;
  sock__bindgen_ty_5__bindgen_ty_1_bitfield_1_sk_scm_pidfd;
  sock__bindgen_ty_5__bindgen_ty_1_bitfield_1_sk_scm_rights;
  sock__bindgen_ty_5__bindgen_ty_1_bitfield_1_sk_scm_unused].

Definition sock_bitfield_1_sk_gso_disabled : Accessor := fld "sk_gso_disabled" 0 1 8 (VInt u8_).
Definition sock_bitfield_1_sk_kern_sock : Accessor := fld "sk_kern_sock" 1 1 8 (VInt u8_).
Definition sock_bitfield_1_sk_no_check_tx : Accessor := fld "sk_no_check_tx" 2 1 8 (VInt u8_).
Definition sock_bitfield_1_sk_no_check_rx : Accessor := fld "sk_no_check_rx" 3 1 8 (VInt u8_).
Definition sock_bitfield_1 : KernelUnit := unit_of 1 [sock_bitfield_1_sk_gso_disabled;
  sock_bitfield_1_sk_kern_sock; sock_bitfield_1_sk_no_check_tx; sock_bitfield_1_sk_no_check_rx].

Definition sock_bitfield_2_sk_txtime_deadline_mode : Accessor := fld "sk_txtime_deadline_mode" 0
  1 8 (VInt u8_).
Definition sock_bitfield_2_sk_txtime_report_errors : Accessor := fld "sk_txtime_report_errors" 1
  1 8 (VInt u8_).
Definition sock_bitfield_2_sk_txtime_unused : Accessor := fld "sk_txtime_unused" 2 6 8 (VInt
  u8_).
Definition sock_bitfield_2 : KernelUnit := unit_of 1 [sock_bitfield_2_sk_txtime_deadline_mode;
  sock_bitfield_2_sk_txtime_report_errors; sock_bitfield_2_sk_txtime_unused].

Definition bpf_func_info_aux_bitfield_1_called : Accessor := fld "called" 0 1 8 VBool.
Definition bpf_func_info_aux_bitfield_1_verified : Accessor := fld "verified" 1 1 8 VBool.
Definition bpf_func_info_aux_bitfield_1 : KernelUnit := unit_of 1
  [bpf_func_info_aux_bitfield_1_called; bpf_func_info_aux_bitfield_1_verified].

Definition bpf_reg_state__bindgen_ty_1__bindgen_ty_5_bitfield_1_state : Accessor := fld "state"
  0 2 32 (VInt bpf_iter_state__Type).
Definition bpf_reg_state__bindgen_ty_1__bindgen_ty_5_bitfield_1_depth : Accessor := fld "depth"
  2 30 32 (VInt c_int).
Definition bpf_reg_state__bindgen_ty_1__bindgen_ty_5_bitfield_1 : KernelUnit := unit_of 4
  [bpf_reg_state__bindgen_ty_1__bindgen_ty_5_bitfield_1_state;
  bpf_reg_state__bindgen_ty_1__bindgen_ty_5_bitfield_1_depth].

Definition bpf_insn_bitfield_1_dst_reg : Accessor := fld "dst_reg" 0 4 8 (VInt __u8).
Definition bpf_insn_bitfield_1_src_reg : Accessor := fld "src_reg" 4 4 8 (VInt __u8).
Definition bpf_insn_bitfield_1 : KernelUnit := unit_of 1 [bpf_insn_bitfield_1_dst_reg;
  bpf_insn_bitfield_1_src_reg].

Definition bpf_loop_inline_state_bitfield_1_initialized : Accessor := fld "initialized" 0 1 32
  (VInt c_uint).
Definition bpf_loop_inline_state_bitfield_1_fit_for_inline : Accessor := fld "fit_for_inline" 1
  1 32 (VInt c_uint).
Definition bpf_loop_inline_state_bitfield_1 : KernelUnit := unit_of 1
  [bpf_loop_inline_state_bitfield_1_initialized;
  bpf_loop_inline_state_bitfield_1_fit_for_inline].

Definition bpf_insn_aux_data_bitfield_1_fastcall_pattern : Accessor := fld "fastcall_pattern" 0
  1 8 (VInt u8_).
Definition bpf_insn_aux_data_bitfield_1_fastcall_spills_num : Accessor := fld
  "fastcall_spills_num" 1 3 8 (VInt u8_).
Definition bpf_insn_aux_data_bitfield_1_arg_prog : Accessor := fld "arg_prog" 4 4 8 (VInt u8_).
Definition bpf_insn_aux_data_bitfield_1 : KernelUnit := unit_of 1
  [bpf_insn_aux_data_bitfield_1_fastcall_pattern;
  bpf_insn_aux_data_bitfield_1_fastcall_spills_num; bpf_insn_aux_data_bitfield_1_arg_prog].

Definition bpf_jmp_history_entry_bitfield_1_prev_idx : Accessor := fld "prev_idx" 0 20 32 (VInt
  u32_).
Definition bpf_jmp_history_entry_bitfield_1_flags : Accessor := fld "flags" 20 12 32 (VInt
  u32_).
Definition bpf_jmp_history_entry_bitfield_1 : KernelUnit := unit_of 4
  [bpf_jmp_history_entry_bitfield_1_prev_idx; bpf_jmp_history_entry_bitfield_1_flags].

Definition bpf_prog_bitfield_1_jited : Accessor := fld "jited" 0 1 16 (VInt u16_).
Definition bpf_prog_bitfield_1_jit_requested : Accessor := fld "jit_requested" 1 1 16 (VInt
  u16_).
Definition bpf_prog_bitfield_1_gpl_compatible : Accessor := fld "gpl_compatible" 2 1 16 (VInt
  u16_).
Definition bpf_prog_bitfield_1_cb_access : Accessor := fld "cb_access" 3 1 16 (VInt u16_).
Definition bpf_prog_bitfield_1_dst_needed : Accessor := fld "dst_needed" 4 1 16 (VInt u16_).
Definition bpf_prog_bitfield_1_blinding_requested : Accessor := fld "blinding_requested" 5 1 16
  (VInt u16_).
Definition bpf_prog_bitfield_1_blinded : Accessor := fld "blinded" 6 1 16 (VInt u16_).
Definition bpf_prog_bitfield_1_is_func : Accessor := fld "is_func" 7 1 16 (VInt u16_).
Definition bpf_prog_bitfield_1_kprobe_override : Accessor := fld "kprobe_override" 8 1 16 (VInt
  u16_).
Definition bpf_prog_bitfield_1_has_callchain_buf : Accessor := fld "has_callchain_buf" 9 1 16
  (VInt u16_).
Definition bpf_prog_bitfield_1_enforce_expected_attach_type : Accessor := fld
  "enforce_expected_attach_type" 10 1 16 (VInt u16_).
Definition bpf_prog_bitfield_1_call_get_stack : Accessor := fld "call_get_stack" 11 1 16 (VInt
  u16_).
Definition bpf_prog_bitfield_1_call_get_func_ip : Accessor := fld "call_get_func_ip" 12 1 16
  (VInt u16_).
Definition bpf_prog_bitfield_1_call_session_cookie : Accessor := fld "call_session_cookie" 13 1
  16 (VInt u16_).
Definition bpf_prog_bitfield_1_tstamp_type_access : Accessor := fld "tstamp_type_access" 14 1 16
  (VInt u16_).
Definition bpf_prog_bitfield_1_sleepable : Accessor := fld "sleepable" 15 1 16 (VInt u16_).
Definition bpf_prog_bitfield_1 : KernelUnit := unit_of 2 [bpf_prog_bitfield_1_jited;
  bpf_prog_bitfield_1_jit_requested; bpf_prog_bitfield_1_gpl_compatible;
  bpf_prog_bitfield_1_cb_access; bpf_prog_bitfield_1_dst_needed;
  bpf_prog_bitfield_1_blinding_requested; bpf_prog_bitfield_1_blinded;
  bpf_prog_bitfield_1_is_func; bpf_prog_bitfield_1_kprobe_override;
  bpf_prog_bitfield_1_has_callchain_buf; bpf_prog_bitfield_1_enforce_expected_attach_type;
  bpf_prog_bitfield_1_call_get_stack; bpf_prog_bitfield_1_call_get_func_ip;
  bpf_prog_bitfield_1_call_session_cookie; bpf_prog_bitfield_1_tstamp_type_access;
  bpf_prog_bitfield_1_sleepable].

Definition bpf_prog_stats_bitfield_1 : KernelUnit := unit_of 8 [].

Definition bpf_raw_event_map_bitfield_1 : KernelUnit := unit_of 8 [].

Definition bpf_subprog_info_bitfield_1_has_tail_call : Accessor := fld "has_tail_call" 0 1 8
  VBool.
Definition bpf_subprog_info_bitfield_1_tail_call_reachable : Accessor := fld
  "tail_call_reachable" 1 1 8 VBool.
Definition bpf_subprog_info_bitfield_1_has_ld_abs : Accessor := fld "has_ld_abs" 2 1 8 VBool.
Definition bpf_subprog_info_bitfield_1_is_cb : Accessor := fld "is_cb" 3 1 8 VBool.
Definition bpf_subprog_info_bitfield_1_is_async_cb : Accessor := fld "is_async_cb" 4 1 8 VBool.
Definition bpf_subprog_info_bitfield_1_is_exception_cb : Accessor := fld "is_exception_cb" 5 1 8
  VBool.
Definition bpf_subprog_info_bitfield_1_args_cached : Accessor := fld "args_cached" 6 1 8 VBool.
Definition bpf_subprog_info_bitfield_1_keep_fastcall_stack : Accessor := fld
  "keep_fastcall_stack" 7 1 8 VBool.
Definition bpf_subprog_info_bitfield_1_changes_pkt_data : Accessor := fld "changes_pkt_data" 8 1
  8 VBool.
Definition bpf_subprog_info_bitfield_1_might_sleep : Accessor := fld "might_sleep" 9 1 8 VBool.
Definition bpf_subprog_info_bitfield_1_arg_cnt : Accessor := fld "arg_cnt" 10 3 8 (VInt u8_).
Definition bpf_subprog_info_bitfield_1 : KernelUnit := unit_of 2
  [bpf_subprog_info_bitfield_1_has_tail_call; bpf_subprog_info_bitfield_1_tail_call_reachable;
  bpf_subprog_info_bitfield_1_has_ld_abs; bpf_subprog_info_bitfield_1_is_cb;
  bpf_subprog_info_bitfield_1_is_async_cb; bpf_subprog_info_bitfield_1_is_exception_cb;
  bpf_subprog_info_bitfield_1_args_cached; bpf_subprog_info_bitfield_1_keep_fastcall_stack;
  bpf_subprog_info_bitfield_1_changes_pkt_data; bpf_subprog_info_bitfield_1_might_sleep;
  bpf_subprog_info_bitfield_1_arg_cnt].

Definition perf_mem_data_src__bindgen_ty_1_bitfield_1_mem_op : Accessor := fld "mem_op" 0 5 64
  (VInt __u64).
Definition perf_mem_data_src__bindgen_ty_1_bitfield_1_mem_lvl : Accessor := fld "mem_lvl" 5 14
  64 (VInt __u64).
Definition perf_mem_data_src__bindgen_ty_1_bitfield_1_mem_snoop : Accessor := fld "mem_snoop" 19
  5 64 (VInt __u64).
Definition perf_mem_data_src__bindgen_ty_1_bitfield_1_mem_lock : Accessor := fld "mem_lock" 24 2
  64 (VInt __u64).
Definition perf_mem_data_src__bindgen_ty_1_bitfield_1_mem_dtlb : Accessor := fld "mem_dtlb" 26 7
  64 (VInt __u64).
Definition perf_mem_data_src__bindgen_ty_1_bitfield_1_mem_lvl_num : Accessor := fld
  "mem_lvl_num" 33 4 64 (VInt __u64).
Definition perf_mem_data_src__bindgen_ty_1_bitfield_1_mem_remote : Accessor := fld "mem_remote"
  37 1 64 (VInt __u64).
Definition perf_mem_data_src__bindgen_ty_1_bitfield_1_mem_snoopx : Accessor := fld "mem_snoopx"
  38 2 64 (VInt __u64).
Definition perf_mem_data_src__bindgen_ty_1_bitfield_1_mem_blk : Accessor := fld "mem_blk" 40 3
  64 (VInt __u64).
Definition perf_mem_data_src__bindgen_ty_1_bitfield_1_mem_hops : Accessor := fld "mem_hops" 43 3
  64 (VInt __u64).
Definition perf_mem_data_src__bindgen_ty_1_bitfield_1_mem_region : Accessor := fld "mem_region"
  46 5 64 (VInt __u64).
Definition perf_mem_data_src__bindgen_ty_1_bitfield_1_mem_rsvd : Accessor := fld "mem_rsvd" 51
  13 64 (VInt __u64).
Definition perf_mem_data_src__bindgen_ty_1_bitfield_1 : KernelUnit := unit_of 8
  [perf_mem_data_src__bindgen_ty_1_bitfield_1_mem_op;
  perf_mem_data_src__bindgen_ty_1_bitfield_1_mem_lvl;
  perf_mem_data_src__bindgen_ty_1_bitfield_1_mem_snoop;
  perf_mem_data_src__bindgen_ty_1_bitfield_1_mem_lock;
  perf_mem_data_src__bindgen_ty_1_bitfield_1_mem_dtlb;
  perf_mem_data_src__bindgen_ty_1_bitfield_1_mem_lvl_num;
  perf_mem_data_src__bindgen_ty_1_bitfield_1_mem_remote;
  perf_mem_data_src__bindgen_ty_1_bitfield_1_mem_snoopx;
  perf_mem_data_src__bindgen_ty_1_bitfield_1_mem_blk;
  perf_mem_data_src__bindgen_ty_1_bitfield_1_mem_hops;
  perf_mem_data_src__bindgen_ty_1_bitfield_1_mem_region;
  perf_mem_data_src__bindgen_ty_1_bitfield_1_mem_rsvd].

Definition perf_sample_data_bitfield_1 : KernelUnit := unit_of 32 [].

Definition perf_output_handle__bindgen_ty_1__bindgen_ty_1_bitfield_1_skip_read : Accessor := fld
  "skip_read" 0 1 64 (VInt u64_).
Definition perf_output_handle__bindgen_ty_1__bindgen_ty_1_bitfield_1 : KernelUnit := unit_of 1
  [perf_output_handle__bindgen_ty_1__bindgen_ty_1_bitfield_1_skip_read].

Definition bucket_table_bitfield_1 : KernelUnit := unit_of 8 [].

Definition buffer_page_bitfield_1_id : Accessor := fld "id" 0 30 32 (VInt u32_).
Definition buffer_page_bitfield_1_range : Accessor := fld "range" 30 1 32 (VInt u32_).
Definition buffer_page_bitfield_1 : KernelUnit := unit_of 4 [buffer_page_bitfield_1_id;
  buffer_page_bitfield_1_range].

Definition cdrom_device_info_bitfield_1_options : Accessor := fld "options" 0 30 32 (VInt
  c_uint).
Definition cdrom_device_info_bitfield_1_mc_flags : Accessor := fld "mc_flags" 30 2 32 (VInt
  c_uint).
Definition cdrom_device_info_bitfield_1 : KernelUnit := unit_of 4
  [cdrom_device_info_bitfield_1_options; cdrom_device_info_bitfield_1_mc_flags].

Definition cdrom_device_info_bitfield_2_sanyo_slot : Accessor := fld "sanyo_slot" 0 2 8 (VInt
  __u8).
Definition cdrom_device_info_bitfield_2_keeplocked : Accessor := fld "keeplocked" 2 1 8 (VInt
  __u8).
Definition cdrom_device_info_bitfield_2_reserved : Accessor := fld "reserved" 3 5 8 (VInt __u8).
Definition cdrom_device_info_bitfield_2 : KernelUnit := unit_of 1
  [cdrom_device_info_bitfield_2_sanyo_slot; cdrom_device_info_bitfield_2_keeplocked;
  cdrom_device_info_bitfield_2_reserved].

Definition cfg80211_pmsr_capabilities__bindgen_ty_1_bitfield_1_supported : Accessor := fld
  "supported" 0 1 8 (VInt u8_).
Definition cfg80211_pmsr_capabilities__bindgen_ty_1_bitfield_1_asap : Accessor := fld "asap" 1 1
  8 (VInt u8_).
Definition cfg80211_pmsr_capabilities__bindgen_ty_1_bitfield_1_non_asap : Accessor := fld
  "non_asap" 2 1 8 (VInt u8_).
Definition cfg80211_pmsr_capabilities__bindgen_ty_1_bitfield_1_request_lci : Accessor := fld
  "request_lci" 3 1 8 (VInt u8_).
Definition cfg80211_pmsr_capabilities__bindgen_ty_1_bitfield_1_request_civicloc : Accessor :=
  fld "request_civicloc" 4 1 8 (VInt u8_).
Definition cfg80211_pmsr_capabilities__bindgen_ty_1_bitfield_1_trigger_based : Accessor := fld
  "trigger_based" 5 1 8 (VInt u8_).
Definition cfg80211_pmsr_capabilities__bindgen_ty_1_bitfield_1_non_trigger_based : Accessor :=
  fld "non_trigger_based" 6 1 8 (VInt u8_).
Definition cfg80211_pmsr_capabilities__bindgen_ty_1_bitfield_1_support_6ghz : Accessor := fld
  "support_6ghz" 7 1 8 (VInt u8_).
Definition cfg80211_pmsr_capabilities__bindgen_ty_1_bitfield_1 : KernelUnit := unit_of 1
  [cfg80211_pmsr_capabilities__bindgen_ty_1_bitfield_1_supported;
  cfg80211_pmsr_capabilities__bindgen_ty_1_bitfield_1_asap;
  cfg80211_pmsr_capabilities__bindgen_ty_1_bitfield_1_non_asap;
  cfg80211_pmsr_capabilities__bindgen_ty_1_bitfield_1_request_lci;
  cfg80211_pmsr_capabilities__bindgen_ty_1_bitfield_1_request_civicloc;
  cfg80211_pmsr_capabilities__bindgen_ty_1_bitfield_1_trigger_based;
  cfg80211_pmsr_capabilities__bindgen_ty_1_bitfield_1_non_trigger_based;
  cfg80211_pmsr_capabilities__bindgen_ty_1_bitfield_1_support_6ghz].

Definition cfg80211_pmsr_capabilities__bindgen_ty_1_bitfield_2_support_rsta : Accessor := fld
  "support_rsta" 0 1 8 (VInt u8_).
Definition cfg80211_pmsr_capabilities__bindgen_ty_1_bitfield_2 : KernelUnit := unit_of 1
  [cfg80211_pmsr_capabilities__bindgen_ty_1_bitfield_2_support_rsta].

Definition cfg80211_pmsr_capabilities_bitfield_1_report_ap_tsf : Accessor := fld "report_ap_tsf"
  0 1 8 (VInt u8_).
Definition cfg80211_pmsr_capabilities_bitfield_1_randomize_mac_addr : Accessor := fld
  "randomize_mac_addr" 1 1 8 (VInt u8_).
Definition cfg80211_pmsr_capabilities_bitfield_1 : KernelUnit := unit_of 1
  [cfg80211_pmsr_capabilities_bitfield_1_report_ap_tsf;
  cfg80211_pmsr_capabilities_bitfield_1_randomize_mac_addr].

Definition cfs_rq__bindgen_ty_1_bitfield_1 : KernelUnit := unit_of 32 [].

Definition cfs_rq_bitfield_1 : KernelUnit := unit_of 24 [].

Definition cfs_rq_bitfield_2_throttled : Accessor := fld "throttled" 0 1 8 VBool.
Definition cfs_rq_bitfield_2_pelt_clock_throttled : Accessor := fld "pelt_clock_throttled" 1 1 8
  VBool.
Definition cfs_rq_bitfield_2 : KernelUnit := unit_of 1 [cfs_rq_bitfield_2_throttled;
  cfs_rq_bitfield_2_pelt_clock_throttled].

Definition cgroup_bitfield_1 : KernelUnit := unit_of 24 [].

Definition cgroup_root_bitfield_1 : KernelUnit := unit_of 8 [].

Definition cgroup_subsys_bitfield_1_early_init : Accessor := fld "early_init" 0 1 8 VBool.
Definition cgroup_subsys_bitfield_1_implicit_on_dfl : Accessor := fld "implicit_on_dfl" 1 1 8
  VBool.
Definition cgroup_subsys_bitfield_1_threaded : Accessor := fld "threaded" 2 1 8 VBool.
Definition cgroup_subsys_bitfield_1 : KernelUnit := unit_of 1
  [cgroup_subsys_bitfield_1_early_init; cgroup_subsys_bitfield_1_implicit_on_dfl;
  cgroup_subsys_bitfield_1_threaded].

Definition perf_branch_entry_bitfield_1_mispred : Accessor := fld "mispred" 0 1 64 (VInt __u64).
Definition perf_branch_entry_bitfield_1_predicted : Accessor := fld "predicted" 1 1 64 (VInt
  __u64).
Definition perf_branch_entry_bitfield_1_in_tx : Accessor := fld "in_tx" 2 1 64 (VInt __u64).
Definition perf_branch_entry_bitfield_1_abort : Accessor := fld "abort" 3 1 64 (VInt __u64).
Definition perf_branch_entry_bitfield_1_cycles : Accessor := fld "cycles" 4 16 64 (VInt __u64).
Definition perf_branch_entry_bitfield_1_type_ : Accessor := fld "type_" 20 4 64 (VInt __u64).
Definition perf_branch_entry_bitfield_1_spec : Accessor := fld "spec" 24 2 64 (VInt __u64).
Definition perf_branch_entry_bitfield_1_new_type : Accessor := fld "new_type" 26 4 64 (VInt
  __u64).
Definition perf_branch_entry_bitfield_1_priv_ : Accessor := fld "priv_" 30 3 64 (VInt __u64).
Definition perf_branch_entry_bitfield_1_reserved : Accessor := fld "reserved" 33 31 64 (VInt
  __u64).
Definition perf_branch_entry_bitfield_1 : KernelUnit := unit_of 8
  [perf_branch_entry_bitfield_1_mispred; perf_branch_entry_bitfield_1_predicted;
  perf_branch_entry_bitfield_1_in_tx; perf_branch_entry_bitfield_1_abort;
  perf_branch_entry_bitfield_1_cycles; perf_branch_entry_bitfield_1_type_;
  perf_branch_entry_bitfield_1_spec; perf_branch_entry_bitfield_1_new_type;
  perf_branch_entry_bitfield_1_priv_; perf_branch_entry_bitfield_1_reserved].

Definition cpuidle_device_bitfield_1_registered : Accessor := fld "registered" 0 1 32 (VInt
  c_uint).
Definition cpuidle_device_bitfield_1_enabled : Accessor := fld "enabled" 1 1 32 (VInt c_uint).
Definition cpuidle_device_bitfield_1_poll_time_limit : Accessor := fld "poll_time_limit" 2 1 32
  (VInt c_uint).
Definition cpuidle_device_bitfield_1 : KernelUnit := unit_of 1
  [cpuidle_device_bitfield_1_registered; cpuidle_device_bitfield_1_enabled;
  cpuidle_device_bitfield_1_poll_time_limit].

Definition cpuidle_driver_bitfield_1_bctimer : Accessor := fld "bctimer" 0 1 32 (VInt c_uint).
Definition cpuidle_driver_bitfield_1 : KernelUnit := unit_of 1
  [cpuidle_driver_bitfield_1_bctimer].

Definition tty_port_bitfield_1_console : Accessor := fld "console" 0 1 8 (VInt c_uchar).
Definition tty_port_bitfield_1 : KernelUnit := unit_of 1 [tty_port_bitfield_1_console].

Definition dentry_operations_bitfield_1 : KernelUnit := unit_of 8 [].

Definition desc_struct_bitfield_1_base1 : Accessor := fld "base1" 0 8 16 (VInt u16_).
Definition desc_struct_bitfield_1_type_ : Accessor := fld "type_" 8 4 16 (VInt u16_).
Definition desc_struct_bitfield_1_s : Accessor := fld "s" 12 1 16 (VInt u16_).
Definition desc_struct_bitfield_1_dpl : Accessor := fld "dpl" 13 2 16 (VInt u16_).
Definition desc_struct_bitfield_1_p : Accessor := fld "p" 15 1 16 (VInt u16_).
Definition desc_struct_bitfield_1_limit1 : Accessor := fld "limit1" 16 4 16 (VInt u16_).
Definition desc_struct_bitfield_1_avl : Accessor := fld "avl" 20 1 16 (VInt u16_).
Definition desc_struct_bitfield_1_l : Accessor := fld "l" 21 1 16 (VInt u16_).
Definition desc_struct_bitfield_1_d : Accessor := fld "d" 22 1 16 (VInt u16_).
Definition desc_struct_bitfield_1_g : Accessor := fld "g" 23 1 16 (VInt u16_).
Definition desc_struct_bitfield_1_base2 : Accessor := fld "base2" 24 8 16 (VInt u16_).
Definition desc_struct_bitfield_1 : KernelUnit := unit_of 4 [desc_struct_bitfield_1_base1;
  desc_struct_bitfield_1_type_; desc_struct_bitfield_1_s; desc_struct_bitfield_1_dpl;
  desc_struct_bitfield_1_p; desc_struct_bitfield_1_limit1; desc_struct_bitfield_1_avl;
  desc_struct_bitfield_1_l; desc_struct_bitfield_1_d; desc_struct_bitfield_1_g;
  desc_struct_bitfield_1_base2].

Definition dev_iommu_bitfield_1_attach_deferred : Accessor := fld "attach_deferred" 0 1 32 (VInt
  u32_).
Definition dev_iommu_bitfield_1_pci_32bit_workaround : Accessor := fld "pci_32bit_workaround" 1
  1 32 (VInt u32_).
Definition dev_iommu_bitfield_1_require_direct : Accessor := fld "require_direct" 2 1 32 (VInt
  u32_).
Definition dev_iommu_bitfield_1_shadow_on_flush : Accessor := fld "shadow_on_flush" 3 1 32 (VInt
  u32_).
Definition dev_iommu_bitfield_1 : KernelUnit := unit_of 1 [dev_iommu_bitfield_1_attach_deferred;
  dev_iommu_bitfield_1_pci_32bit_workaround; dev_iommu_bitfield_1_require_direct;
  dev_iommu_bitfield_1_shadow_on_flush].

Definition device_private_bitfield_1_dead : Accessor := fld "dead" 0 1 8 (VInt u8_).
Definition device_private_bitfield_1 : KernelUnit := unit_of 1 [device_private_bitfield_1_dead].

Definition devlink_bitfield_1_reload_failed : Accessor := fld "reload_failed" 0 1 8 (VInt u8_).
Definition devlink_bitfield_1 : KernelUnit := unit_of 1 [devlink_bitfield_1_reload_failed].

Definition devlink_port_pci_pf_attrs_bitfield_1_external : Accessor := fld "external" 0 1 8
  (VInt u8_).
Definition devlink_port_pci_pf_attrs_bitfield_1 : KernelUnit := unit_of 1
  [devlink_port_pci_pf_attrs_bitfield_1_external].

Definition devlink_port_pci_vf_attrs_bitfield_1_external : Accessor := fld "external" 0 1 8
  (VInt u8_).
Definition devlink_port_pci_vf_attrs_bitfield_1 : KernelUnit := unit_of 1
  [devlink_port_pci_vf_attrs_bitfield_1_external].

Definition devlink_port_pci_sf_attrs_bitfield_1_external : Accessor := fld "external" 0 1 8
  (VInt u8_).
Definition devlink_port_pci_sf_attrs_bitfield_1 : KernelUnit := unit_of 1
  [devlink_port_pci_sf_attrs_bitfield_1_external].

Definition devlink_port_attrs_bitfield_1_split : Accessor := fld "split" 0 1 8 (VInt u8_).
Definition devlink_port_attrs_bitfield_1_splittable : Accessor := fld "splittable" 1 1 8 (VInt
  u8_).
Definition devlink_port_attrs_bitfield_1_no_phys_port_name : Accessor := fld "no_phys_port_name"
  2 1 8 (VInt u8_).
Definition devlink_port_attrs_bitfield_1 : KernelUnit := unit_of 1
  [devlink_port_attrs_bitfield_1_split; devlink_port_attrs_bitfield_1_splittable;
  devlink_port_attrs_bitfield_1_no_phys_port_name].

Definition devlink_port_bitfield_1_attrs_set : Accessor := fld "attrs_set" 0 1 8 (VInt u8_).
Definition devlink_port_bitfield_1_switch_port : Accessor := fld "switch_port" 1 1 8 (VInt u8_).
Definition devlink_port_bitfield_1_registered : Accessor := fld "registered" 2 1 8 (VInt u8_).
Definition devlink_port_bitfield_1_initialized : Accessor := fld "initialized" 3 1 8 (VInt u8_).
Definition devlink_port_bitfield_1 : KernelUnit := unit_of 1 [devlink_port_bitfield_1_attrs_set;
  devlink_port_bitfield_1_switch_port; devlink_port_bitfield_1_registered;
  devlink_port_bitfield_1_initialized].

Definition devlink_port_new_attrs_bitfield_1_port_index_valid : Accessor := fld
  "port_index_valid" 0 1 8 (VInt u8_).
Definition devlink_port_new_attrs_bitfield_1_controller_valid : Accessor := fld
  "controller_valid" 1 1 8 (VInt u8_).
Definition devlink_port_new_attrs_bitfield_1_sfnum_valid : Accessor := fld "sfnum_valid" 2 1 8
  (VInt u8_).
Definition devlink_port_new_attrs_bitfield_1 : KernelUnit := unit_of 1
  [devlink_port_new_attrs_bitfield_1_port_index_valid;
  devlink_port_new_attrs_bitfield_1_controller_valid;
  devlink_port_new_attrs_bitfield_1_sfnum_valid].

Definition page_counter_bitfield_2 : KernelUnit := unit_of 16 [].

Definition dql_bitfield_1 : KernelUnit := unit_of 8 [].

Definition dsa_port_bitfield_1_vlan_filtering : Accessor := fld "vlan_filtering" 0 1 8 (VInt
  u8_).
Definition dsa_port_bitfield_1_learning : Accessor := fld "learning" 1 1 8 (VInt u8_).
Definition dsa_port_bitfield_1_lag_tx_enabled : Accessor := fld "lag_tx_enabled" 2 1 8 (VInt
  u8_).
Definition dsa_port_bitfield_1_conduit_admin_up : Accessor := fld "conduit_admin_up" 3 1 8 (VInt
  u8_).
Definition dsa_port_bitfield_1_conduit_oper_up : Accessor := fld "conduit_oper_up" 4 1 8 (VInt
  u8_).
Definition dsa_port_bitfield_1_cpu_port_in_lag : Accessor := fld "cpu_port_in_lag" 5 1 8 (VInt
  u8_).
Definition dsa_port_bitfield_1_setup : Accessor := fld "setup" 6 1 8 (VInt u8_).
Definition dsa_port_bitfield_1 : KernelUnit := unit_of 1 [dsa_port_bitfield_1_vlan_filtering;
  dsa_port_bitfield_1_learning; dsa_port_bitfield_1_lag_tx_enabled;
  dsa_port_bitfield_1_conduit_admin_up; dsa_port_bitfield_1_conduit_oper_up;
  dsa_port_bitfield_1_cpu_port_in_lag; dsa_port_bitfield_1_setup].

Definition dsa_switch_bitfield_1_setup : Accessor := fld "setup" 0 1 32 (VInt u32_).
Definition dsa_switch_bitfield_1_vlan_filtering_is_global : Accessor := fld
  "vlan_filtering_is_global" 1 1 32 (VInt u32_).
Definition dsa_switch_bitfield_1_needs_standalone_vlan_filtering : Accessor := fld
  "needs_standalone_vlan_filtering" 2 1 32 (VInt u32_).
Definition dsa_switch_bitfield_1_configure_vlan_while_not_filtering : Accessor := fld
  "configure_vlan_while_not_filtering" 3 1 32 (VInt u32_).
Definition dsa_switch_bitfield_1_untag_bridge_pvid : Accessor := fld "untag_bridge_pvid" 4 1 32
  (VInt u32_).
Definition dsa_switch_bitfield_1_untag_vlan_aware_bridge_pvid : Accessor := fld
  "untag_vlan_aware_bridge_pvid" 5 1 32 (VInt u32_).
Definition dsa_switch_bitfield_1_assisted_learning_on_cpu_port : Accessor := fld
  "assisted_learning_on_cpu_port" 6 1 32 (VInt u32_).
Definition dsa_switch_bitfield_1_vlan_filtering : Accessor := fld "vlan_filtering" 7 1 32 (VInt
  u32_).
Definition dsa_switch_bitfield_1_mtu_enforcement_ingress : Accessor := fld
  "mtu_enforcement_ingress" 8 1 32 (VInt u32_).
Definition dsa_switch_bitfield_1_fdb_isolation : Accessor := fld "fdb_isolation" 9 1 32 (VInt
  u32_).
Definition dsa_switch_bitfield_1_dscp_prio_mapping_is_global : Accessor := fld
  "dscp_prio_mapping_is_global" 10 1 32 (VInt u32_).
Definition dsa_switch_bitfield_1 : KernelUnit := unit_of 2 [dsa_switch_bitfield_1_setup;
  dsa_switch_bitfield_1_vlan_filtering_is_global;
  dsa_switch_bitfield_1_needs_standalone_vlan_filtering;
  dsa_switch_bitfield_1_configure_vlan_while_not_filtering;
  dsa_switch_bitfield_1_untag_bridge_pvid; dsa_switch_bitfield_1_untag_vlan_aware_bridge_pvid;
  dsa_switch_bitfield_1_assisted_learning_on_cpu_port; dsa_switch_bitfield_1_vlan_filtering;
  dsa_switch_bitfield_1_mtu_enforcement_ingress; dsa_switch_bitfield_1_fdb_isolation;
  dsa_switch_bitfield_1_dscp_prio_mapping_is_global].

Definition dst_ops_bitfield_1 : KernelUnit := unit_of 24 [].

Definition strparser_bitfield_1_stopped : Accessor := fld "stopped" 0 1 32 (VInt u32_).
Definition strparser_bitfield_1_paused : Accessor := fld "paused" 1 1 32 (VInt u32_).
Definition strparser_bitfield_1_aborted : Accessor := fld "aborted" 2 1 32 (VInt u32_).
Definition strparser_bitfield_1_interrupted : Accessor := fld "interrupted" 3 1 32 (VInt u32_).
Definition strparser_bitfield_1_unrecov_intr : Accessor := fld "unrecov_intr" 4 1 32 (VInt
  u32_).
Definition strparser_bitfield_1 : KernelUnit := unit_of 1 [strparser_bitfield_1_stopped;
  strparser_bitfield_1_paused; strparser_bitfield_1_aborted; strparser_bitfield_1_interrupted;
  strparser_bitfield_1_unrecov_intr].

Definition ethtool_netdev_state_bitfield_1_wol_enabled : Accessor := fld "wol_enabled" 0 1 32
  (VInt c_uint).
Definition ethtool_netdev_state_bitfield_1_module_fw_flash_in_progress : Accessor := fld
  "module_fw_flash_in_progress" 1 1 32 (VInt c_uint).
Definition ethtool_netdev_state_bitfield_1 : KernelUnit := unit_of 1
  [ethtool_netdev_state_bitfield_1_wol_enabled;
  ethtool_netdev_state_bitfield_1_module_fw_flash_in_progress].

Definition ethtool_ops_bitfield_1_supported_input_xfrm : Accessor := fld "supported_input_xfrm"
  0 8 32 (VInt u32_).
Definition ethtool_ops_bitfield_1_cap_link_lanes_supported : Accessor := fld
  "cap_link_lanes_supported" 8 1 32 (VInt u32_).
Definition ethtool_ops_bitfield_1_rxfh_per_ctx_fields : Accessor := fld "rxfh_per_ctx_fields" 9
  1 32 (VInt u32_).
Definition ethtool_ops_bitfield_1_rxfh_per_ctx_key : Accessor := fld "rxfh_per_ctx_key" 10 1 32
  (VInt u32_).
Definition ethtool_ops_bitfield_1_cap_rss_rxnfc_adds : Accessor := fld "cap_rss_rxnfc_adds" 11 1
  32 (VInt u32_).
Definition ethtool_ops_bitfield_1 : KernelUnit := unit_of 2
  [ethtool_ops_bitfield_1_supported_input_xfrm; ethtool_ops_bitfield_1_cap_link_lanes_supported;
  ethtool_ops_bitfield_1_rxfh_per_ctx_fields; ethtool_ops_bitfield_1_rxfh_per_ctx_key;
  ethtool_ops_bitfield_1_cap_rss_rxnfc_adds].

Definition ethtool_rxfh_context_bitfield_1_indir_configured : Accessor := fld "indir_configured"
  0 1 8 (VInt u8_).
Definition ethtool_rxfh_context_bitfield_1_key_configured : Accessor := fld "key_configured" 1 1
  8 (VInt u8_).
Definition ethtool_rxfh_context_bitfield_1 : KernelUnit := unit_of 1
  [ethtool_rxfh_context_bitfield_1_indir_configured;
  ethtool_rxfh_context_bitfield_1_key_configured].

Definition eventfs_inode_bitfield_1_is_freed : Accessor := fld "is_freed" 0 1 32 (VInt c_uint).
Definition eventfs_inode_bitfield_1_is_events : Accessor := fld "is_events" 1 1 32 (VInt
  c_uint).
Definition eventfs_inode_bitfield_1_nr_entries : Accessor := fld "nr_entries" 2 30 32 (VInt
  c_uint).
Definition eventfs_inode_bitfield_1 : KernelUnit := unit_of 4
  [eventfs_inode_bitfield_1_is_freed; eventfs_inode_bitfield_1_is_events;
  eventfs_inode_bitfield_1_nr_entries].

Definition fib6_info_bitfield_1_should_flush : Accessor := fld "should_flush" 0 1 8 (VInt u8_).
Definition fib6_info_bitfield_1_dst_nocount : Accessor := fld "dst_nocount" 1 1 8 (VInt u8_).
Definition fib6_info_bitfield_1_dst_nopolicy : Accessor := fld "dst_nopolicy" 2 1 8 (VInt u8_).
Definition fib6_info_bitfield_1_fib6_destroying : Accessor := fld "fib6_destroying" 3 1 8 (VInt
  u8_).
Definition fib6_info_bitfield_1_unused : Accessor := fld "unused" 4 4 8 (VInt u8_).
Definition fib6_info_bitfield_1 : KernelUnit := unit_of 1 [fib6_info_bitfield_1_should_flush;
  fib6_info_bitfield_1_dst_nocount; fib6_info_bitfield_1_dst_nopolicy;
  fib6_info_bitfield_1_fib6_destroying; fib6_info_bitfield_1_unused].

Definition file_kattr_bitfield_1_flags_valid : Accessor := fld "flags_valid" 0 1 8 VBool.
Definition file_kattr_bitfield_1_fsx_valid : Accessor := fld "fsx_valid" 1 1 8 VBool.
Definition file_kattr_bitfield_1 : KernelUnit := unit_of 1 [file_kattr_bitfield_1_flags_valid;
  file_kattr_bitfield_1_fsx_valid].

Definition files_struct_bitfield_1 : KernelUnit := unit_of 32 [].

Definition files_struct_bitfield_2 : KernelUnit := unit_of 32 [].

Definition regulation_constraints_bitfield_1_always_on : Accessor := fld "always_on" 0 1 32
  (VInt c_uint).
Definition regulation_constraints_bitfield_1_boot_on : Accessor := fld "boot_on" 1 1 32 (VInt
  c_uint).
Definition regulation_constraints_bitfield_1_apply_uV : Accessor := fld "apply_uV" 2 1 32 (VInt
  c_uint).
Definition regulation_constraints_bitfield_1_ramp_disable : Accessor := fld "ramp_disable" 3 1
  32 (VInt c_uint).
Definition regulation_constraints_bitfield_1_soft_start : Accessor := fld "soft_start" 4 1 32
  (VInt c_uint).
Definition regulation_constraints_bitfield_1_pull_down : Accessor := fld "pull_down" 5 1 32
  (VInt c_uint).
Definition regulation_constraints_bitfield_1_system_critical : Accessor := fld "system_critical"
  6 1 32 (VInt c_uint).
Definition regulation_constraints_bitfield_1_over_current_protection : Accessor := fld
  "over_current_protection" 7 1 32 (VInt c_uint).
Definition regulation_constraints_bitfield_1_over_current_detection : Accessor := fld
  "over_current_detection" 8 1 32 (VInt c_uint).
Definition regulation_constraints_bitfield_1_over_voltage_detection : Accessor := fld
  "over_voltage_detection" 9 1 32 (VInt c_uint).
Definition regulation_constraints_bitfield_1_under_voltage_detection : Accessor := fld
  "under_voltage_detection" 10 1 32 (VInt c_uint).
Definition regulation_constraints_bitfield_1_over_temp_detection : Accessor := fld
  "over_temp_detection" 11 1 32 (VInt c_uint).
Definition regulation_constraints_bitfield_1 : KernelUnit := unit_of 2
  [regulation_constraints_bitfield_1_always_on; regulation_constraints_bitfield_1_boot_on;
  regulation_constraints_bitfield_1_apply_uV; regulation_constraints_bitfield_1_ramp_disable;
  regulation_constraints_bitfield_1_soft_start; regulation_constraints_bitfield_1_pull_down;
  regulation_constraints_bitfield_1_system_critical;
  regulation_constraints_bitfield_1_over_current_protection;
  regulation_constraints_bitfield_1_over_current_detection;
  regulation_constraints_bitfield_1_over_voltage_detection;
  regulation_constraints_bitfield_1_under_voltage_detection;
  regulation_constraints_bitfield_1_over_temp_detection].

Definition fqdir_bitfield_1 : KernelUnit := unit_of 16 [].

Definition fqdir_bitfield_3 : KernelUnit := unit_of 16 [].

Definition fs_context_bitfield_1_purpose : Accessor := fld "purpose" 0 8 32 (VInt
  fs_context_purpose__Type).
Definition fs_context_bitfield_1_phase : Accessor := fld "phase" 8 8 32 (VInt
  fs_context_phase__Type).
Definition fs_context_bitfield_1_need_free : Accessor := fld "need_free" 16 1 8 VBool.
Definition fs_context_bitfield_1_global : Accessor := fld "global" 17 1 8 VBool.
Definition fs_context_bitfield_1_oldapi : Accessor := fld "oldapi" 18 1 8 VBool.
Definition fs_context_bitfield_1_exclusive : Accessor := fld "exclusive" 19 1 8 VBool.
Definition fs_context_bitfield_1 : KernelUnit := unit_of 3 [fs_context_bitfield_1_purpose;
  fs_context_bitfield_1_phase; fs_context_bitfield_1_need_free; fs_context_bitfield_1_global;
  fs_context_bitfield_1_oldapi; fs_context_bitfield_1_exclusive].

Definition fs_parameter_bitfield_1_type_ : Accessor := fld "type_" 0 8 32 (VInt
  fs_value_type__Type).
Definition fs_parameter_bitfield_1 : KernelUnit := unit_of 1 [fs_parameter_bitfield_1_type_].

Definition fscrypt_operations_bitfield_1_needs_bounce_pages : Accessor := fld
  "needs_bounce_pages" 0 1 32 (VInt c_uint).
Definition fscrypt_operations_bitfield_1_has_32bit_inodes : Accessor := fld "has_32bit_inodes" 1
  1 32 (VInt c_uint).
Definition fscrypt_operations_bitfield_1_supports_subblock_data_units : Accessor := fld
  "supports_subblock_data_units" 2 1 32 (VInt c_uint).
Definition fscrypt_operations_bitfield_1 : KernelUnit := unit_of 1
  [fscrypt_operations_bitfield_1_needs_bounce_pages;
  fscrypt_operations_bitfield_1_has_32bit_inodes;
  fscrypt_operations_bitfield_1_supports_subblock_data_units].

Definition ftrace_event_field_bitfield_1_is_signed : Accessor := fld "is_signed" 0 1 32 (VInt
  c_uint).
Definition ftrace_event_field_bitfield_1_needs_test : Accessor := fld "needs_test" 1 1 32 (VInt
  c_uint).
Definition ftrace_event_field_bitfield_1 : KernelUnit := unit_of 1
  [ftrace_event_field_bitfield_1_is_signed; ftrace_event_field_bitfield_1_needs_test].

Definition futex_hash_bucket_bitfield_1 : KernelUnit := unit_of 32 [].

Definition futex_private_hash_bitfield_1 : KernelUnit := unit_of 24 [].

Definition ioapic_alloc_info_bitfield_1_is_level : Accessor := fld "is_level" 0 1 32 (VInt
  u32_).
Definition ioapic_alloc_info_bitfield_1_active_low : Accessor := fld "active_low" 1 1 32 (VInt
  u32_).
Definition ioapic_alloc_info_bitfield_1_valid : Accessor := fld "valid" 2 1 32 (VInt u32_).
Definition ioapic_alloc_info_bitfield_1 : KernelUnit := unit_of 1
  [ioapic_alloc_info_bitfield_1_is_level; ioapic_alloc_info_bitfield_1_active_low;
  ioapic_alloc_info_bitfield_1_valid].

Definition hrtimer_clock_base_bitfield_1 : KernelUnit := unit_of 8 [].

Definition hrtimer_cpu_base_bitfield_1_hres_active : Accessor := fld "hres_active" 0 1 32 (VInt
  c_uint).
Definition hrtimer_cpu_base_bitfield_1_in_hrtirq : Accessor := fld "in_hrtirq" 1 1 32 (VInt
  c_uint).
Definition hrtimer_cpu_base_bitfield_1_hang_detected : Accessor := fld "hang_detected" 2 1 32
  (VInt c_uint).
Definition hrtimer_cpu_base_bitfield_1_softirq_activated : Accessor := fld "softirq_activated" 3
  1 32 (VInt c_uint).
Definition hrtimer_cpu_base_bitfield_1_online : Accessor := fld "online" 4 1 32 (VInt c_uint).
Definition hrtimer_cpu_base_bitfield_1 : KernelUnit := unit_of 1
  [hrtimer_cpu_base_bitfield_1_hres_active; hrtimer_cpu_base_bitfield_1_in_hrtirq;
  hrtimer_cpu_base_bitfield_1_hang_detected; hrtimer_cpu_base_bitfield_1_softirq_activated;
  hrtimer_cpu_base_bitfield_1_online].

Definition hrtimer_cpu_base_bitfield_2 : KernelUnit := unit_of 32 [].

Definition rdma_restrack_entry_bitfield_1_no_track : Accessor := fld "no_track" 0 1 8 (VInt
  u8_).
Definition rdma_restrack_entry_bitfield_1 : KernelUnit := unit_of 1
  [rdma_restrack_entry_bitfield_1_no_track].

Definition ib_cq_bitfield_1_interrupt : Accessor := fld "interrupt" 0 1 8 (VInt u8_).
Definition ib_cq_bitfield_1_shared : Accessor := fld "shared" 1 1 8 (VInt u8_).
Definition ib_cq_bitfield_1 : KernelUnit := unit_of 1 [ib_cq_bitfield_1_interrupt;
  ib_cq_bitfield_1_shared].

Definition ib_device_ops_bitfield_1_uverbs_no_driver_id_binding : Accessor := fld
  "uverbs_no_driver_id_binding" 0 1 32 (VInt c_uint).
Definition ib_device_ops_bitfield_1 : KernelUnit := unit_of 1
  [ib_device_ops_bitfield_1_uverbs_no_driver_id_binding].

Definition ib_device_bitfield_1_is_switch : Accessor := fld "is_switch" 0 1 16 (VInt u16_).
Definition ib_device_bitfield_1_kverbs_provider : Accessor := fld "kverbs_provider" 1 1 16 (VInt
  u16_).
Definition ib_device_bitfield_1_use_cq_dim : Accessor := fld "use_cq_dim" 2 1 16 (VInt u16_).
Definition ib_device_bitfield_1 : KernelUnit := unit_of 1 [ib_device_bitfield_1_is_switch;
  ib_device_bitfield_1_kverbs_provider; ib_device_bitfield_1_use_cq_dim].

Definition ib_port_attr_bitfield_1_ip_gids : Accessor := fld "ip_gids" 0 1 32 (VInt c_uint).
Definition ib_port_attr_bitfield_1 : KernelUnit := unit_of 1 [ib_port_attr_bitfield_1_ip_gids].

Definition ip_options_bitfield_1_is_strictroute : Accessor := fld "is_strictroute" 0 1 8 (VInt
  c_uchar).
Definition ip_options_bitfield_1_srr_is_hit : Accessor := fld "srr_is_hit" 1 1 8 (VInt c_uchar).
Definition ip_options_bitfield_1_is_changed : Accessor := fld "is_changed" 2 1 8 (VInt c_uchar).
Definition ip_options_bitfield_1_rr_needaddr : Accessor := fld "rr_needaddr" 3 1 8 (VInt
  c_uchar).
Definition ip_options_bitfield_1_ts_needtime : Accessor := fld "ts_needtime" 4 1 8 (VInt
  c_uchar).
Definition ip_options_bitfield_1_ts_needaddr : Accessor := fld "ts_needaddr" 5 1 8 (VInt
  c_uchar).
Definition ip_options_bitfield_1 : KernelUnit := unit_of 1
  [ip_options_bitfield_1_is_strictroute; ip_options_bitfield_1_srr_is_hit;
  ip_options_bitfield_1_is_changed; ip_options_bitfield_1_rr_needaddr;
  ip_options_bitfield_1_ts_needtime; ip_options_bitfield_1_ts_needaddr].

Definition inet6_cork_bitfield_1_dontfrag : Accessor := fld "dontfrag" 0 1 8 (VInt u8_).
Definition inet6_cork_bitfield_1 : KernelUnit := unit_of 1 [inet6_cork_bitfield_1_dontfrag].

Definition inet_connection_sock__bindgen_ty_2_bitfield_1_ato : Accessor := fld "ato" 0 8 32
  (VInt __u32).
Definition inet_connection_sock__bindgen_ty_2_bitfield_1_lrcv_flowlabel : Accessor := fld
  "lrcv_flowlabel" 8 20 32 (VInt __u32).
Definition inet_connection_sock__bindgen_ty_2_bitfield_1_dst_quick_ack : Accessor := fld
  "dst_quick_ack" 28 1 32 (VInt __u32).
Definition inet_connection_sock__bindgen_ty_2_bitfield_1_unused : Accessor := fld "unused" 29 3
  32 (VInt __u32).
Definition inet_connection_sock__bindgen_ty_2_bitfield_1 : KernelUnit := unit_of 4
  [inet_connection_sock__bindgen_ty_2_bitfield_1_ato;
  inet_connection_sock__bindgen_ty_2_bitfield_1_lrcv_flowlabel;
  inet_connection_sock__bindgen_ty_2_bitfield_1_dst_quick_ack;
  inet_connection_sock__bindgen_ty_2_bitfield_1_unused].

Definition inet_connection_sock__bindgen_ty_3_bitfield_1_probe_size : Accessor := fld
  "probe_size" 0 31 32 (VInt u32_).
Definition inet_connection_sock__bindgen_ty_3_bitfield_1_enabled : Accessor := fld "enabled" 31
  1 32 (VInt u32_).
Definition inet_connection_sock__bindgen_ty_3_bitfield_1 : KernelUnit := unit_of 4
  [inet_connection_sock__bindgen_ty_3_bitfield_1_probe_size;
  inet_connection_sock__bindgen_ty_3_bitfield_1_enabled].

Definition inet_connection_sock_bitfield_1_icsk_ca_state : Accessor := fld "icsk_ca_state" 0 5 8
  (VInt __u8).
Definition inet_connection_sock_bitfield_1_icsk_ca_initialized : Accessor := fld
  "icsk_ca_initialized" 5 1 8 (VInt __u8).
Definition inet_connection_sock_bitfield_1_icsk_ca_setsockopt : Accessor := fld
  "icsk_ca_setsockopt" 6 1 8 (VInt __u8).
Definition inet_connection_sock_bitfield_1_icsk_ca_dst_locked : Accessor := fld
  "icsk_ca_dst_locked" 7 1 8 (VInt __u8).
Definition inet_connection_sock_bitfield_1 : KernelUnit := unit_of 1
  [inet_connection_sock_bitfield_1_icsk_ca_state;
  inet_connection_sock_bitfield_1_icsk_ca_initialized;
  inet_connection_sock_bitfield_1_icsk_ca_setsockopt;
  inet_connection_sock_bitfield_1_icsk_ca_dst_locked].

Definition request_sock_bitfield_1_syncookie : Accessor := fld "syncookie" 0 1 8 (VInt u8_).
Definition request_sock_bitfield_1_num_timeout : Accessor := fld "num_timeout" 1 7 8 (VInt u8_).
Definition request_sock_bitfield_1 : KernelUnit := unit_of 1 [request_sock_bitfield_1_syncookie;
  request_sock_bitfield_1_num_timeout].

Definition inet_request_sock_bitfield_1_snd_wscale : Accessor := fld "snd_wscale" 0 4 16 (VInt
  u16_).
Definition inet_request_sock_bitfield_1_rcv_wscale : Accessor := fld "rcv_wscale" 4 4 16 (VInt
  u16_).
Definition inet_request_sock_bitfield_1_tstamp_ok : Accessor := fld "tstamp_ok" 8 1 16 (VInt
  u16_).
Definition inet_request_sock_bitfield_1_sack_ok : Accessor := fld "sack_ok" 9 1 16 (VInt u16_).
Definition inet_request_sock_bitfield_1_wscale_ok : Accessor := fld "wscale_ok" 10 1 16 (VInt
  u16_).
Definition inet_request_sock_bitfield_1_ecn_ok : Accessor := fld "ecn_ok" 11 1 16 (VInt u16_).
Definition inet_request_sock_bitfield_1_acked : Accessor := fld "acked" 12 1 16 (VInt u16_).
Definition inet_request_sock_bitfield_1_no_srccheck : Accessor := fld "no_srccheck" 13 1 16
  (VInt u16_).
Definition inet_request_sock_bitfield_1_smc_ok : Accessor := fld "smc_ok" 14 1 16 (VInt u16_).
Definition inet_request_sock_bitfield_1 : KernelUnit := unit_of 2
  [inet_request_sock_bitfield_1_snd_wscale; inet_request_sock_bitfield_1_rcv_wscale;
  inet_request_sock_bitfield_1_tstamp_ok; inet_request_sock_bitfield_1_sack_ok;
  inet_request_sock_bitfield_1_wscale_ok; inet_request_sock_bitfield_1_ecn_ok;
  inet_request_sock_bitfield_1_acked; inet_request_sock_bitfield_1_no_srccheck;
  inet_request_sock_bitfield_1_smc_ok].

Definition msghdr_bitfield_1_msg_control_is_user : Accessor := fld "msg_control_is_user" 0 1 8
  VBool.
Definition msghdr_bitfield_1_msg_get_inq : Accessor := fld "msg_get_inq" 1 1 8 VBool.
Definition msghdr_bitfield_1 : KernelUnit := unit_of 1 [msghdr_bitfield_1_msg_control_is_user;
  msghdr_bitfield_1_msg_get_inq].

Definition io_ring_ctx__bindgen_ty_1_bitfield_1_drain_next : Accessor := fld "drain_next" 0 1 32
  (VInt c_uint).
Definition io_ring_ctx__bindgen_ty_1_bitfield_1_op_restricted : Accessor := fld "op_restricted"
  1 1 32 (VInt c_uint).
Definition io_ring_ctx__bindgen_ty_1_bitfield_1_reg_restricted : Accessor := fld
  "reg_restricted" 2 1 32 (VInt c_uint).
Definition io_ring_ctx__bindgen_ty_1_bitfield_1_off_timeout_used : Accessor := fld
  "off_timeout_used" 3 1 32 (VInt c_uint).
Definition io_ring_ctx__bindgen_ty_1_bitfield_1_drain_active : Accessor := fld "drain_active" 4
  1 32 (VInt c_uint).
Definition io_ring_ctx__bindgen_ty_1_bitfield_1_has_evfd : Accessor := fld "has_evfd" 5 1 32
  (VInt c_uint).
Definition io_ring_ctx__bindgen_ty_1_bitfield_1_task_complete : Accessor := fld "task_complete"
  6 1 32 (VInt c_uint).
Definition io_ring_ctx__bindgen_ty_1_bitfield_1_lockless_cq : Accessor := fld "lockless_cq" 7 1
  32 (VInt c_uint).
Definition io_ring_ctx__bindgen_ty_1_bitfield_1_syscall_iopoll : Accessor := fld
  "syscall_iopoll" 8 1 32 (VInt c_uint).
Definition io_ring_ctx__bindgen_ty_1_bitfield_1_poll_activated : Accessor := fld
  "poll_activated" 9 1 32 (VInt c_uint).
Definition io_ring_ctx__bindgen_ty_1_bitfield_1_drain_disabled : Accessor := fld
  "drain_disabled" 10 1 32 (VInt c_uint).
Definition io_ring_ctx__bindgen_ty_1_bitfield_1_compat : Accessor := fld "compat" 11 1 32 (VInt
  c_uint).
Definition io_ring_ctx__bindgen_ty_1_bitfield_1_iowq_limits_set : Accessor := fld
  "iowq_limits_set" 12 1 32 (VInt c_uint).
Definition io_ring_ctx__bindgen_ty_1_bitfield_1 : KernelUnit := unit_of 2
  [io_ring_ctx__bindgen_ty_1_bitfield_1_drain_next;
  io_ring_ctx__bindgen_ty_1_bitfield_1_op_restricted;
  io_ring_ctx__bindgen_ty_1_bitfield_1_reg_restricted;
  io_ring_ctx__bindgen_ty_1_bitfield_1_off_timeout_used;
  io_ring_ctx__bindgen_ty_1_bitfield_1_drain_active;
  io_ring_ctx__bindgen_ty_1_bitfield_1_has_evfd;
  io_ring_ctx__bindgen_ty_1_bitfield_1_task_complete;
  io_ring_ctx__bindgen_ty_1_bitfield_1_lockless_cq;
  io_ring_ctx__bindgen_ty_1_bitfield_1_syscall_iopoll;
  io_ring_ctx__bindgen_ty_1_bitfield_1_poll_activated;
  io_ring_ctx__bindgen_ty_1_bitfield_1_drain_disabled;
  io_ring_ctx__bindgen_ty_1_bitfield_1_compat;
  io_ring_ctx__bindgen_ty_1_bitfield_1_iowq_limits_set].

Definition io_ring_ctx__bindgen_ty_2_bitfield_1 : KernelUnit := unit_of 16 [].

Definition io_ring_ctx__bindgen_ty_3_bitfield_1 : KernelUnit := unit_of 16 [].

Definition io_ring_ctx__bindgen_ty_5_bitfield_1 : KernelUnit := unit_of 16 [].

Definition io_rings_bitfield_1 : KernelUnit := unit_of 16 [].

Definition io_uring_task_bitfield_1 : KernelUnit := unit_of 8 [].

Definition iommu_ops_bitfield_1_user_pasid_table : Accessor := fld "user_pasid_table" 0 1 8
  (VInt u8_).
Definition iommu_ops_bitfield_1 : KernelUnit := unit_of 1
  [iommu_ops_bitfield_1_user_pasid_table].

Definition iommufd_access_ops_bitfield_1_needs_pin_pages : Accessor := fld "needs_pin_pages" 0 1
  8 (VInt u8_).
Definition iommufd_access_ops_bitfield_1 : KernelUnit := unit_of 1
  [iommufd_access_ops_bitfield_1_needs_pin_pages].

Definition iommufd_hw_pagetable_bitfield_1_pasid_compat : Accessor := fld "pasid_compat" 0 1 8
  VBool.
Definition iommufd_hw_pagetable_bitfield_1 : KernelUnit := unit_of 1
  [iommufd_hw_pagetable_bitfield_1_pasid_compat].

Definition iommufd_hwpt_paging_bitfield_1_auto_domain : Accessor := fld "auto_domain" 0 1 8
  VBool.
Definition iommufd_hwpt_paging_bitfield_1_enforce_cache_coherency : Accessor := fld
  "enforce_cache_coherency" 1 1 8 VBool.
Definition iommufd_hwpt_paging_bitfield_1_nest_parent : Accessor := fld "nest_parent" 2 1 8
  VBool.
Definition iommufd_hwpt_paging_bitfield_1 : KernelUnit := unit_of 1
  [iommufd_hwpt_paging_bitfield_1_auto_domain;
  iommufd_hwpt_paging_bitfield_1_enforce_cache_coherency;
  iommufd_hwpt_paging_bitfield_1_nest_parent].

Definition iphdr_bitfield_1_ihl : Accessor := fld "ihl" 0 4 8 (VInt __u8).
Definition iphdr_bitfield_1_version : Accessor := fld "version" 4 4 8 (VInt __u8).
Definition iphdr_bitfield_1 : KernelUnit := unit_of 1 [iphdr_bitfield_1_ihl;
  iphdr_bitfield_1_version].

Definition ipc_namespace_bitfield_1 : KernelUnit := unit_of 32 [].

Definition ipv6_pinfo__bindgen_ty_2__bindgen_ty_1_bitfield_1_srcrt : Accessor := fld "srcrt" 0 1
  16 (VInt u16_).
Definition ipv6_pinfo__bindgen_ty_2__bindgen_ty_1_bitfield_1_osrcrt : Accessor := fld "osrcrt" 1
  1 16 (VInt u16_).
Definition ipv6_pinfo__bindgen_ty_2__bindgen_ty_1_bitfield_1_rxinfo : Accessor := fld "rxinfo" 2
  1 16 (VInt u16_).
Definition ipv6_pinfo__bindgen_ty_2__bindgen_ty_1_bitfield_1_rxoinfo : Accessor := fld "rxoinfo"
  3 1 16 (VInt u16_).
Definition ipv6_pinfo__bindgen_ty_2__bindgen_ty_1_bitfield_1_rxhlim : Accessor := fld "rxhlim" 4
  1 16 (VInt u16_).
Definition ipv6_pinfo__bindgen_ty_2__bindgen_ty_1_bitfield_1_rxohlim : Accessor := fld "rxohlim"
  5 1 16 (VInt u16_).
Definition ipv6_pinfo__bindgen_ty_2__bindgen_ty_1_bitfield_1_hopopts : Accessor := fld "hopopts"
  6 1 16 (VInt u16_).
Definition ipv6_pinfo__bindgen_ty_2__bindgen_ty_1_bitfield_1_ohopopts : Accessor := fld
  "ohopopts" 7 1 16 (VInt u16_).
Definition ipv6_pinfo__bindgen_ty_2__bindgen_ty_1_bitfield_1_dstopts : Accessor := fld "dstopts"
  8 1 16 (VInt u16_).
Definition ipv6_pinfo__bindgen_ty_2__bindgen_ty_1_bitfield_1_odstopts : Accessor := fld
  "odstopts" 9 1 16 (VInt u16_).
Definition ipv6_pinfo__bindgen_ty_2__bindgen_ty_1_bitfield_1_rxflow : Accessor := fld "rxflow"
  10 1 16 (VInt u16_).
Definition ipv6_pinfo__bindgen_ty_2__bindgen_ty_1_bitfield_1_rxtclass : Accessor := fld
  "rxtclass" 11 1 16 (VInt u16_).
Definition ipv6_pinfo__bindgen_ty_2__bindgen_ty_1_bitfield_1_rxpmtu : Accessor := fld "rxpmtu"
  12 1 16 (VInt u16_).
Definition ipv6_pinfo__bindgen_ty_2__bindgen_ty_1_bitfield_1_rxorigdstaddr : Accessor := fld
  "rxorigdstaddr" 13 1 16 (VInt u16_).
Definition ipv6_pinfo__bindgen_ty_2__bindgen_ty_1_bitfield_1_recvfragsize : Accessor := fld
  "recvfragsize" 14 1 16 (VInt u16_).
Definition ipv6_pinfo__bindgen_ty_2__bindgen_ty_1_bitfield_1 : KernelUnit := unit_of 2
  [ipv6_pinfo__bindgen_ty_2__bindgen_ty_1_bitfield_1_srcrt;
  ipv6_pinfo__bindgen_ty_2__bindgen_ty_1_bitfield_1_osrcrt;
  ipv6_pinfo__bindgen_ty_2__bindgen_ty_1_bitfield_1_rxinfo;
  ipv6_pinfo__bindgen_ty_2__bindgen_ty_1_bitfield_1_rxoinfo;
  ipv6_pinfo__bindgen_ty_2__bindgen_ty_1_bitfield_1_rxhlim;
  ipv6_pinfo__bindgen_ty_2__bindgen_ty_1_bitfield_1_rxohlim;
  ipv6_pinfo__bindgen_ty_2__bindgen_ty_1_bitfield_1_hopopts;
  ipv6_pinfo__bindgen_ty_2__bindgen_ty_1_bitfield_1_ohopopts;
  ipv6_pinfo__bindgen_ty_2__bindgen_ty_1_bitfield_1_dstopts;
  ipv6_pinfo__bindgen_ty_2__bindgen_ty_1_bitfield_1_odstopts;
  ipv6_pinfo__bindgen_ty_2__bindgen_ty_1_bitfield_1_rxflow;
  ipv6_pinfo__bindgen_ty_2__bindgen_ty_1_bitfield_1_rxtclass;
  ipv6_pinfo__bindgen_ty_2__bindgen_ty_1_bitfield_1_rxpmtu;
  ipv6_pinfo__bindgen_ty_2__bindgen_ty_1_bitfield_1_rxorigdstaddr;
  ipv6_pinfo__bindgen_ty_2__bindgen_ty_1_bitfield_1_recvfragsize].

Definition irq_affinity_desc_bitfield_1_is_managed : Accessor := fld "is_managed" 0 1 32 (VInt
  c_uint).
Definition irq_affinity_desc_bitfield_1 : KernelUnit := unit_of 1
  [irq_affinity_desc_bitfield_1_is_managed].

Definition irqaction_bitfield_1 : KernelUnit := unit_of 32 [].

Definition kernel_pkey_params_bitfield_1_op : Accessor := fld "op" 0 8 32 (VInt
  kernel_pkey_operation__Type).
Definition kernel_pkey_params_bitfield_1 : KernelUnit := unit_of 1
  [kernel_pkey_params_bitfield_1_op].

Definition kernfs_open_file_bitfield_1_mmapped : Accessor := fld "mmapped" 0 1 8 VBool.
Definition kernfs_open_file_bitfield_1_released : Accessor := fld "released" 1 1 8 VBool.
Definition kernfs_open_file_bitfield_1 : KernelUnit := unit_of 1
  [kernfs_open_file_bitfield_1_mmapped; kernfs_open_file_bitfield_1_released].

Definition kioctx__bindgen_ty_3_bitfield_1 : KernelUnit := unit_of 8 [].

Definition kioctx_bitfield_1 : KernelUnit := unit_of 24 [].

Definition linux_binprm_bitfield_1_have_execfd : Accessor := fld "have_execfd" 0 1 32 (VInt
  c_uint).
Definition linux_binprm_bitfield_1_execfd_creds : Accessor := fld "execfd_creds" 1 1 32 (VInt
  c_uint).
Definition linux_binprm_bitfield_1_secureexec : Accessor := fld "secureexec" 2 1 32 (VInt
  c_uint).
Definition linux_binprm_bitfield_1_point_of_no_return : Accessor := fld "point_of_no_return" 3 1
  32 (VInt c_uint).
Definition linux_binprm_bitfield_1_comm_from_dentry : Accessor := fld "comm_from_dentry" 4 1 32
  (VInt c_uint).
Definition linux_binprm_bitfield_1_is_check : Accessor := fld "is_check" 5 1 32 (VInt c_uint).
Definition linux_binprm_bitfield_1 : KernelUnit := unit_of 1
  [linux_binprm_bitfield_1_have_execfd; linux_binprm_bitfield_1_execfd_creds;
  linux_binprm_bitfield_1_secureexec; linux_binprm_bitfield_1_point_of_no_return;
  linux_binprm_bitfield_1_comm_from_dentry; linux_binprm_bitfield_1_is_check].

Definition list_lru_node_bitfield_1 : KernelUnit := unit_of 24 [].

Definition mem_cgroup_per_node_bitfield_1 : KernelUnit := unit_of 32 [].

Definition mem_cgroup_per_node_bitfield_2 : KernelUnit := unit_of 16 [].

Definition memcg_vmstats_percpu_bitfield_1 : KernelUnit := unit_of 24 [].

Definition mm_struct__bindgen_ty_1_bitfield_2 : KernelUnit := unit_of 24 [].

Definition mmap_action_bitfield_1_hide_from_rmap_until_complete : Accessor := fld
  "hide_from_rmap_until_complete" 0 1 8 VBool.
Definition mmap_action_bitfield_1 : KernelUnit := unit_of 1
  [mmap_action_bitfield_1_hide_from_rmap_until_complete].

Definition mnt_namespace_bitfield_1 : KernelUnit := unit_of 8 [].

Definition module_bitfield_2 : KernelUnit := unit_of 8 [].

Definition pci_msi_desc__bindgen_ty_2_bitfield_1_is_msix : Accessor := fld "is_msix" 0 1 8 (VInt
  u8_).
Definition pci_msi_desc__bindgen_ty_2_bitfield_1_multiple : Accessor := fld "multiple" 1 3 8
  (VInt u8_).
Definition pci_msi_desc__bindgen_ty_2_bitfield_1_multi_cap : Accessor := fld "multi_cap" 4 3 8
  (VInt u8_).
Definition pci_msi_desc__bindgen_ty_2_bitfield_1_can_mask : Accessor := fld "can_mask" 7 1 8
  (VInt u8_).
Definition pci_msi_desc__bindgen_ty_2_bitfield_1_is_64 : Accessor := fld "is_64" 8 1 8 (VInt
  u8_).
Definition pci_msi_desc__bindgen_ty_2_bitfield_1_is_virtual : Accessor := fld "is_virtual" 9 1 8
  (VInt u8_).
Definition pci_msi_desc__bindgen_ty_2_bitfield_1 : KernelUnit := unit_of 2
  [pci_msi_desc__bindgen_ty_2_bitfield_1_is_msix;
  pci_msi_desc__bindgen_ty_2_bitfield_1_multiple;
  pci_msi_desc__bindgen_ty_2_bitfield_1_multi_cap;
  pci_msi_desc__bindgen_ty_2_bitfield_1_can_mask; pci_msi_desc__bindgen_ty_2_bitfield_1_is_64;
  pci_msi_desc__bindgen_ty_2_bitfield_1_is_virtual].

Definition netns_ipv6_bitfield_1 : KernelUnit := unit_of 24 [].

Definition net_bitfield_2 : KernelUnit := unit_of 32 [].

Definition net_bitfield_3 : KernelUnit := unit_of 24 [].

Definition net_bitfield_4 : KernelUnit := unit_of 16 [].

Definition rtable_bitfield_1_rt_mtu_locked : Accessor := fld "rt_mtu_locked" 0 1 32 (VInt u32_).
Definition rtable_bitfield_1_rt_pmtu : Accessor := fld "rt_pmtu" 1 31 32 (VInt u32_).
Definition rtable_bitfield_1 : KernelUnit := unit_of 4 [rtable_bitfield_1_rt_mtu_locked;
  rtable_bitfield_1_rt_pmtu].

Definition net_device__bindgen_ty_1__bindgen_ty_1_bitfield_1_priv_flags : Accessor := fld
  "priv_flags" 0 32 64 (VInt c_ulong).
Definition net_device__bindgen_ty_1__bindgen_ty_1_bitfield_1_lltx : Accessor := fld "lltx" 32 1
  64 (VInt c_ulong).
Definition net_device__bindgen_ty_1__bindgen_ty_1_bitfield_1_netmem_tx : Accessor := fld
  "netmem_tx" 33 1 64 (VInt c_ulong).
Definition net_device__bindgen_ty_1__bindgen_ty_1_bitfield_1 : KernelUnit := unit_of 5
  [net_device__bindgen_ty_1__bindgen_ty_1_bitfield_1_priv_flags;
  net_device__bindgen_ty_1__bindgen_ty_1_bitfield_1_lltx;
  net_device__bindgen_ty_1__bindgen_ty_1_bitfield_1_netmem_tx].

Definition net_device__bindgen_ty_1__bindgen_ty_2_bitfield_1_priv_flags : Accessor := fld
  "priv_flags" 0 32 64 (VInt c_ulong).
Definition net_device__bindgen_ty_1__bindgen_ty_2_bitfield_1_lltx : Accessor := fld "lltx" 32 1
  64 (VInt c_ulong).
Definition net_device__bindgen_ty_1__bindgen_ty_2_bitfield_1_netmem_tx : Accessor := fld
  "netmem_tx" 33 1 64 (VInt c_ulong).
Definition net_device__bindgen_ty_1__bindgen_ty_2_bitfield_1 : KernelUnit := unit_of 5
  [net_device__bindgen_ty_1__bindgen_ty_2_bitfield_1_priv_flags;
  net_device__bindgen_ty_1__bindgen_ty_2_bitfield_1_lltx;
  net_device__bindgen_ty_1__bindgen_ty_2_bitfield_1_netmem_tx].

Definition net_device_bitfield_1_pcpu_stat_type : Accessor := fld "pcpu_stat_type" 0 8 32 (VInt
  netdev_stat_type__Type).
Definition net_device_bitfield_1 : KernelUnit := unit_of 1
  [net_device_bitfield_1_pcpu_stat_type].

Definition net_device_bitfield_2_see_all_hwtstamp_requests : Accessor := fld
  "see_all_hwtstamp_requests" 0 1 64 (VInt c_ulong).
Definition net_device_bitfield_2_change_proto_down : Accessor := fld "change_proto_down" 1 1 64
  (VInt c_ulong).
Definition net_device_bitfield_2_netns_immutable : Accessor := fld "netns_immutable" 2 1 64
  (VInt c_ulong).
Definition net_device_bitfield_2_fcoe_mtu : Accessor := fld "fcoe_mtu" 3 1 64 (VInt c_ulong).
Definition net_device_bitfield_2 : KernelUnit := unit_of 1
  [net_device_bitfield_2_see_all_hwtstamp_requests; net_device_bitfield_2_change_proto_down;
  net_device_bitfield_2_netns_immutable; net_device_bitfield_2_fcoe_mtu].

Definition netdev_queue_bitfield_1 : KernelUnit := unit_of 24 [].

Definition xdp_rxq_info_bitfield_1 : KernelUnit := unit_of 32 [].

Definition nfs4_sequence_args_bitfield_1_sa_cache_this : Accessor := fld "sa_cache_this" 0 1 8
  (VInt u8_).
Definition nfs4_sequence_args_bitfield_1_sa_privileged : Accessor := fld "sa_privileged" 1 1 8
  (VInt u8_).
Definition nfs4_sequence_args_bitfield_1 : KernelUnit := unit_of 1
  [nfs4_sequence_args_bitfield_1_sa_cache_this; nfs4_sequence_args_bitfield_1_sa_privileged].

Definition nfs_client_bitfield_1 : KernelUnit := unit_of 16 [].

Definition nfs_client_bitfield_2 : KernelUnit := unit_of 32 [].

Definition rpc_task_bitfield_1_tk_priority : Accessor := fld "tk_priority" 0 2 8 (VInt c_uchar).
Definition rpc_task_bitfield_1_tk_garb_retry : Accessor := fld "tk_garb_retry" 2 2 8 (VInt
  c_uchar).
Definition rpc_task_bitfield_1_tk_cred_retry : Accessor := fld "tk_cred_retry" 4 2 8 (VInt
  c_uchar).
Definition rpc_task_bitfield_1 : KernelUnit := unit_of 1 [rpc_task_bitfield_1_tk_priority;
  rpc_task_bitfield_1_tk_garb_retry; rpc_task_bitfield_1_tk_cred_retry].

Definition orc_entry_bitfield_1_sp_reg : Accessor := fld "sp_reg" 0 4 32 (VInt c_uint).
Definition orc_entry_bitfield_1_bp_reg : Accessor := fld "bp_reg" 4 4 32 (VInt c_uint).
Definition orc_entry_bitfield_1_type_ : Accessor := fld "type_" 8 3 32 (VInt c_uint).
Definition orc_entry_bitfield_1_signal : Accessor := fld "signal" 11 1 32 (VInt c_uint).
Definition orc_entry_bitfield_1 : KernelUnit := unit_of 2 [orc_entry_bitfield_1_sp_reg;
  orc_entry_bitfield_1_bp_reg; orc_entry_bitfield_1_type_; orc_entry_bitfield_1_signal].

Definition page_pool_bitfield_1_has_init_callback : Accessor := fld "has_init_callback" 0 1 8
  VBool.
Definition page_pool_bitfield_1_dma_map : Accessor := fld "dma_map" 1 1 8 VBool.
Definition page_pool_bitfield_1_dma_sync : Accessor := fld "dma_sync" 2 1 8 VBool.
Definition page_pool_bitfield_1_dma_sync_for_cpu : Accessor := fld "dma_sync_for_cpu" 3 1 8
  VBool.
Definition page_pool_bitfield_1_system : Accessor := fld "system" 4 1 8 VBool.
Definition page_pool_bitfield_1 : KernelUnit := unit_of 8
  [page_pool_bitfield_1_has_init_callback; page_pool_bitfield_1_dma_map;
  page_pool_bitfield_1_dma_sync; page_pool_bitfield_1_dma_sync_for_cpu;
  page_pool_bitfield_1_system].

Definition page_pool_bitfield_2 : KernelUnit := unit_of 8 [].

Definition page_pool_bitfield_5 : KernelUnit := unit_of 8 [].

Definition pcpu_dstats_bitfield_1 : KernelUnit := unit_of 16 [].

Definition percpu_ref_data_bitfield_1_force_atomic : Accessor := fld "force_atomic" 0 1 8 VBool.
Definition percpu_ref_data_bitfield_1_allow_reinit : Accessor := fld "allow_reinit" 1 1 8 VBool.
Definition percpu_ref_data_bitfield_1 : KernelUnit := unit_of 1
  [percpu_ref_data_bitfield_1_force_atomic; percpu_ref_data_bitfield_1_allow_reinit].

Definition perf_event_pmu_context_bitfield_1_embedded : Accessor := fld "embedded" 0 1 32 (VInt
  c_uint).
Definition perf_event_pmu_context_bitfield_1 : KernelUnit := unit_of 1
  [perf_event_pmu_context_bitfield_1_embedded].

Definition perf_event_attr__bindgen_ty_5__bindgen_ty_1_bitfield_1_aux_start_paused : Accessor :=
  fld "aux_start_paused" 0 1 32 (VInt __u32).
Definition perf_event_attr__bindgen_ty_5__bindgen_ty_1_bitfield_1_aux_pause : Accessor := fld
  "aux_pause" 1 1 32 (VInt __u32).
Definition perf_event_attr__bindgen_ty_5__bindgen_ty_1_bitfield_1_aux_resume : Accessor := fld
  "aux_resume" 2 1 32 (VInt __u32).
Definition perf_event_attr__bindgen_ty_5__bindgen_ty_1_bitfield_1___reserved_3 : Accessor := fld
  "__reserved_3" 3 29 32 (VInt __u32).
Definition perf_event_attr__bindgen_ty_5__bindgen_ty_1_bitfield_1 : KernelUnit := unit_of 4
  [perf_event_attr__bindgen_ty_5__bindgen_ty_1_bitfield_1_aux_start_paused;
  perf_event_attr__bindgen_ty_5__bindgen_ty_1_bitfield_1_aux_pause;
  perf_event_attr__bindgen_ty_5__bindgen_ty_1_bitfield_1_aux_resume;
  perf_event_attr__bindgen_ty_5__bindgen_ty_1_bitfield_1___reserved_3].

Definition perf_event_attr_bitfield_1_disabled : Accessor := fld "disabled" 0 1 64 (VInt __u64).
Definition perf_event_attr_bitfield_1_inherit : Accessor := fld "inherit" 1 1 64 (VInt __u64).
Definition perf_event_attr_bitfield_1_pinned : Accessor := fld "pinned" 2 1 64 (VInt __u64).
Definition perf_event_attr_bitfield_1_exclusive : Accessor := fld "exclusive" 3 1 64 (VInt
  __u64).
Definition perf_event_attr_bitfield_1_exclude_user : Accessor := fld "exclude_user" 4 1 64 (VInt
  __u64).
Definition perf_event_attr_bitfield_1_exclude_kernel : Accessor := fld "exclude_kernel" 5 1 64
  (VInt __u64).
Definition perf_event_attr_bitfield_1_exclude_hv : Accessor := fld "exclude_hv" 6 1 64 (VInt
  __u64).
Definition perf_event_attr_bitfield_1_exclude_idle : Accessor := fld "exclude_idle" 7 1 64 (VInt
  __u64).
Definition perf_event_attr_bitfield_1_mmap : Accessor := fld "mmap" 8 1 64 (VInt __u64).
Definition perf_event_attr_bitfield_1_comm : Accessor := fld "comm" 9 1 64 (VInt __u64).
Definition perf_event_attr_bitfield_1_freq : Accessor := fld "freq" 10 1 64 (VInt __u64).
Definition perf_event_attr_bitfield_1_inherit_stat : Accessor := fld "inherit_stat" 11 1 64
  (VInt __u64).
Definition perf_event_attr_bitfield_1_enable_on_exec : Accessor := fld "enable_on_exec" 12 1 64
  (VInt __u64).
Definition perf_event_attr_bitfield_1_task : Accessor := fld "task" 13 1 64 (VInt __u64).
Definition perf_event_attr_bitfield_1_watermark : Accessor := fld "watermark" 14 1 64 (VInt
  __u64).
Definition perf_event_attr_bitfield_1_precise_ip : Accessor := fld "precise_ip" 15 2 64 (VInt
  __u64).
Definition perf_event_attr_bitfield_1_mmap_data : Accessor := fld "mmap_data" 17 1 64 (VInt
  __u64).
Definition perf_event_attr_bitfield_1_sample_id_all : Accessor := fld "sample_id_all" 18 1 64
  (VInt __u64).
Definition perf_event_attr_bitfield_1_exclude_host : Accessor := fld "exclude_host" 19 1 64
  (VInt __u64).
Definition perf_event_attr_bitfield_1_exclude_guest : Accessor := fld "exclude_guest" 20 1 64
  (VInt __u64).
Definition perf_event_attr_bitfield_1_exclude_callchain_kernel : Accessor := fld
  "exclude_callchain_kernel" 21 1 64 (VInt __u64).
Definition perf_event_attr_bitfield_1_exclude_callchain_user : Accessor := fld
  "exclude_callchain_user" 22 1 64 (VInt __u64).
Definition perf_event_attr_bitfield_1_mmap2 : Accessor := fld "mmap2" 23 1 64 (VInt __u64).
Definition perf_event_attr_bitfield_1_comm_exec : Accessor := fld "comm_exec" 24 1 64 (VInt
  __u64).
Definition perf_event_attr_bitfield_1_use_clockid : Accessor := fld "use_clockid" 25 1 64 (VInt
  __u64).
Definition perf_event_attr_bitfield_1_context_switch : Accessor := fld "context_switch" 26 1 64
  (VInt __u64).
Definition perf_event_attr_bitfield_1_write_backward : Accessor := fld "write_backward" 27 1 64
  (VInt __u64).
Definition perf_event_attr_bitfield_1_namespaces : Accessor := fld "namespaces" 28 1 64 (VInt
  __u64).
Definition perf_event_attr_bitfield_1_ksymbol : Accessor := fld "ksymbol" 29 1 64 (VInt __u64).
Definition perf_event_attr_bitfield_1_bpf_event : Accessor := fld "bpf_event" 30 1 64 (VInt
  __u64).
Definition perf_event_attr_bitfield_1_aux_output : Accessor := fld "aux_output" 31 1 64 (VInt
  __u64).
Definition perf_event_attr_bitfield_1_cgroup : Accessor := fld "cgroup" 32 1 64 (VInt __u64).
Definition perf_event_attr_bitfield_1_text_poke : Accessor := fld "text_poke" 33 1 64 (VInt
  __u64).
Definition perf_event_attr_bitfield_1_build_id : Accessor := fld "build_id" 34 1 64 (VInt
  __u64).
Definition perf_event_attr_bitfield_1_inherit_thread : Accessor := fld "inherit_thread" 35 1 64
  (VInt __u64).
Definition perf_event_attr_bitfield_1_remove_on_exec : Accessor := fld "remove_on_exec" 36 1 64
  (VInt __u64).
Definition perf_event_attr_bitfield_1_sigtrap : Accessor := fld "sigtrap" 37 1 64 (VInt __u64).
Definition perf_event_attr_bitfield_1_defer_callchain : Accessor := fld "defer_callchain" 38 1
  64 (VInt __u64).
Definition perf_event_attr_bitfield_1_defer_output : Accessor := fld "defer_output" 39 1 64
  (VInt __u64).
Definition perf_event_attr_bitfield_1___reserved_1 : Accessor := fld "__reserved_1" 40 24 64
  (VInt __u64).
Definition perf_event_attr_bitfield_1 : KernelUnit := unit_of 8
  [perf_event_attr_bitfield_1_disabled; perf_event_attr_bitfield_1_inherit;
  perf_event_attr_bitfield_1_pinned; perf_event_attr_bitfield_1_exclusive;
  perf_event_attr_bitfield_1_exclude_user; perf_event_attr_bitfield_1_exclude_kernel;
  perf_event_attr_bitfield_1_exclude_hv; perf_event_attr_bitfield_1_exclude_idle;
  perf_event_attr_bitfield_1_mmap; perf_event_attr_bitfield_1_comm;
  perf_event_attr_bitfield_1_freq; perf_event_attr_bitfield_1_inherit_stat;
  perf_event_attr_bitfield_1_enable_on_exec; perf_event_attr_bitfield_1_task;
  perf_event_attr_bitfield_1_watermark; perf_event_attr_bitfield_1_precise_ip;
  perf_event_attr_bitfield_1_mmap_data; perf_event_attr_bitfield_1_sample_id_all;
  perf_event_attr_bitfield_1_exclude_host; perf_event_attr_bitfield_1_exclude_guest;
  perf_event_attr_bitfield_1_exclude_callchain_kernel;
  perf_event_attr_bitfield_1_exclude_callchain_user; perf_event_attr_bitfield_1_mmap2;
  perf_event_attr_bitfield_1_comm_exec; perf_event_attr_bitfield_1_use_clockid;
  perf_event_attr_bitfield_1_context_switch; perf_event_attr_bitfield_1_write_backward;
  perf_event_attr_bitfield_1_namespaces; perf_event_attr_bitfield_1_ksymbol;
  perf_event_attr_bitfield_1_bpf_event; perf_event_attr_bitfield_1_aux_output;
  perf_event_attr_bitfield_1_cgroup; perf_event_attr_bitfield_1_text_poke;
  perf_event_attr_bitfield_1_build_id; perf_event_attr_bitfield_1_inherit_thread;
  perf_event_attr_bitfield_1_remove_on_exec; perf_event_attr_bitfield_1_sigtrap;
  perf_event_attr_bitfield_1_defer_callchain; perf_event_attr_bitfield_1_defer_output;
  perf_event_attr_bitfield_1___reserved_1].

Definition perf_event_mmap_page__bindgen_ty_1__bindgen_ty_1_bitfield_1_cap_bit0 : Accessor :=
  fld "cap_bit0" 0 1 64 (VInt __u64).
Definition perf_event_mmap_page__bindgen_ty_1__bindgen_ty_1_bitfield_1_cap_bit0_is_deprecated :
  Accessor := fld "cap_bit0_is_deprecated" 1 1 64 (VInt __u64).
Definition perf_event_mmap_page__bindgen_ty_1__bindgen_ty_1_bitfield_1_cap_user_rdpmc : Accessor
  := fld "cap_user_rdpmc" 2 1 64 (VInt __u64).
Definition perf_event_mmap_page__bindgen_ty_1__bindgen_ty_1_bitfield_1_cap_user_time : Accessor
  := fld "cap_user_time" 3 1 64 (VInt __u64).
Definition perf_event_mmap_page__bindgen_ty_1__bindgen_ty_1_bitfield_1_cap_user_time_zero :
  Accessor := fld "cap_user_time_zero" 4 1 64 (VInt __u64).
Definition perf_event_mmap_page__bindgen_ty_1__bindgen_ty_1_bitfield_1_cap_user_time_short :
  Accessor := fld "cap_user_time_short" 5 1 64 (VInt __u64).
Definition perf_event_mmap_page__bindgen_ty_1__bindgen_ty_1_bitfield_1_cap_____res : Accessor :=
  fld "cap_____res" 6 58 64 (VInt __u64).
Definition perf_event_mmap_page__bindgen_ty_1__bindgen_ty_1_bitfield_1 : KernelUnit := unit_of 8
  [perf_event_mmap_page__bindgen_ty_1__bindgen_ty_1_bitfield_1_cap_bit0;
  perf_event_mmap_page__bindgen_ty_1__bindgen_ty_1_bitfield_1_cap_bit0_is_deprecated;
  perf_event_mmap_page__bindgen_ty_1__bindgen_ty_1_bitfield_1_cap_user_rdpmc;
  perf_event_mmap_page__bindgen_ty_1__bindgen_ty_1_bitfield_1_cap_user_time;
  perf_event_mmap_page__bindgen_ty_1__bindgen_ty_1_bitfield_1_cap_user_time_zero;
  perf_event_mmap_page__bindgen_ty_1__bindgen_ty_1_bitfield_1_cap_user_time_short;
  perf_event_mmap_page__bindgen_ty_1__bindgen_ty_1_bitfield_1_cap_____res].

Definition zone_bitfield_1 : KernelUnit := unit_of 32 [].

Definition pglist_data_bitfield_1 : KernelUnit := unit_of 24 [].

Definition pglist_data_bitfield_2 : KernelUnit := unit_of 8 [].

Definition phy_device_bitfield_1_is_c45 : Accessor := fld "is_c45" 0 1 32 (VInt c_uint).
Definition phy_device_bitfield_1_is_internal : Accessor := fld "is_internal" 1 1 32 (VInt
  c_uint).
Definition phy_device_bitfield_1_is_pseudo_fixed_link : Accessor := fld "is_pseudo_fixed_link" 2
  1 32 (VInt c_uint).
Definition phy_device_bitfield_1_is_gigabit_capable : Accessor := fld "is_gigabit_capable" 3 1
  32 (VInt c_uint).
Definition phy_device_bitfield_1_has_fixups : Accessor := fld "has_fixups" 4 1 32 (VInt c_uint).
Definition phy_device_bitfield_1_suspended : Accessor := fld "suspended" 5 1 32 (VInt c_uint).
Definition phy_device_bitfield_1_suspended_by_mdio_bus : Accessor := fld "suspended_by_mdio_bus"
  6 1 32 (VInt c_uint).
Definition phy_device_bitfield_1_sysfs_links : Accessor := fld "sysfs_links" 7 1 32 (VInt
  c_uint).
Definition phy_device_bitfield_1_loopback_enabled : Accessor := fld "loopback_enabled" 8 1 32
  (VInt c_uint).
Definition phy_device_bitfield_1_downshifted_rate : Accessor := fld "downshifted_rate" 9 1 32
  (VInt c_uint).
Definition phy_device_bitfield_1_is_on_sfp_module : Accessor := fld "is_on_sfp_module" 10 1 32
  (VInt c_uint).
Definition phy_device_bitfield_1_mac_managed_pm : Accessor := fld "mac_managed_pm" 11 1 32 (VInt
  c_uint).
Definition phy_device_bitfield_1_wol_enabled : Accessor := fld "wol_enabled" 12 1 32 (VInt
  c_uint).
Definition phy_device_bitfield_1_is_genphy_driven : Accessor := fld "is_genphy_driven" 13 1 32
  (VInt c_uint).
Definition phy_device_bitfield_1_autoneg : Accessor := fld "autoneg" 14 1 32 (VInt c_uint).
Definition phy_device_bitfield_1_link : Accessor := fld "link" 15 1 32 (VInt c_uint).
Definition phy_device_bitfield_1_autoneg_complete : Accessor := fld "autoneg_complete" 16 1 32
  (VInt c_uint).
Definition phy_device_bitfield_1_pause : Accessor := fld "pause" 17 1 8 VBool.
Definition phy_device_bitfield_1_asym_pause : Accessor := fld "asym_pause" 18 1 8 VBool.
Definition phy_device_bitfield_1_interrupts : Accessor := fld "interrupts" 19 1 32 (VInt
  c_uint).
Definition phy_device_bitfield_1_irq_suspended : Accessor := fld "irq_suspended" 20 1 32 (VInt
  c_uint).
Definition phy_device_bitfield_1_irq_rerun : Accessor := fld "irq_rerun" 21 1 32 (VInt c_uint).
Definition phy_device_bitfield_1_default_timestamp : Accessor := fld "default_timestamp" 22 1 32
  (VInt c_uint).
Definition phy_device_bitfield_1 : KernelUnit := unit_of 3 [phy_device_bitfield_1_is_c45;
  phy_device_bitfield_1_is_internal; phy_device_bitfield_1_is_pseudo_fixed_link;
  phy_device_bitfield_1_is_gigabit_capable; phy_device_bitfield_1_has_fixups;
  phy_device_bitfield_1_suspended; phy_device_bitfield_1_suspended_by_mdio_bus;
  phy_device_bitfield_1_sysfs_links; phy_device_bitfield_1_loopback_enabled;
  phy_device_bitfield_1_downshifted_rate; phy_device_bitfield_1_is_on_sfp_module;
  phy_device_bitfield_1_mac_managed_pm; phy_device_bitfield_1_wol_enabled;
  phy_device_bitfield_1_is_genphy_driven; phy_device_bitfield_1_autoneg;
  phy_device_bitfield_1_link; phy_device_bitfield_1_autoneg_complete;
  phy_device_bitfield_1_pause; phy_device_bitfield_1_asym_pause;
  phy_device_bitfield_1_interrupts; phy_device_bitfield_1_irq_suspended;
  phy_device_bitfield_1_irq_rerun; phy_device_bitfield_1_default_timestamp].

Definition phylink_link_state_bitfield_1_link : Accessor := fld "link" 0 1 32 (VInt c_uint).
Definition phylink_link_state_bitfield_1_an_complete : Accessor := fld "an_complete" 1 1 32
  (VInt c_uint).
Definition phylink_link_state_bitfield_1 : KernelUnit := unit_of 1
  [phylink_link_state_bitfield_1_link; phylink_link_state_bitfield_1_an_complete].

Definition pid_namespace_bitfield_1 : KernelUnit := unit_of 32 [].

Definition pid_namespace_bitfield_2 : KernelUnit := unit_of 32 [].

Definition prefix_info__bindgen_ty_1__bindgen_ty_1_bitfield_1_reserved : Accessor := fld
  "reserved" 0 4 8 (VInt __u8).
Definition prefix_info__bindgen_ty_1__bindgen_ty_1_bitfield_1_preferpd : Accessor := fld
  "preferpd" 4 1 8 (VInt __u8).
Definition prefix_info__bindgen_ty_1__bindgen_ty_1_bitfield_1_routeraddr : Accessor := fld
  "routeraddr" 5 1 8 (VInt __u8).
Definition prefix_info__bindgen_ty_1__bindgen_ty_1_bitfield_1_autoconf : Accessor := fld
  "autoconf" 6 1 8 (VInt __u8).
Definition prefix_info__bindgen_ty_1__bindgen_ty_1_bitfield_1_onlink : Accessor := fld "onlink"
  7 1 8 (VInt __u8).
Definition prefix_info__bindgen_ty_1__bindgen_ty_1_bitfield_1 : KernelUnit := unit_of 1
  [prefix_info__bindgen_ty_1__bindgen_ty_1_bitfield_1_reserved;
  prefix_info__bindgen_ty_1__bindgen_ty_1_bitfield_1_preferpd;
  prefix_info__bindgen_ty_1__bindgen_ty_1_bitfield_1_routeraddr;
  prefix_info__bindgen_ty_1__bindgen_ty_1_bitfield_1_autoconf;
  prefix_info__bindgen_ty_1__bindgen_ty_1_bitfield_1_onlink].

Definition rchan_buf_bitfield_1 : KernelUnit := unit_of 16 [].

Definition regulator_bitfield_1_always_on : Accessor := fld "always_on" 0 1 32 (VInt c_uint).
Definition regulator_bitfield_1_bypass : Accessor := fld "bypass" 1 1 32 (VInt c_uint).
Definition regulator_bitfield_1_device_link : Accessor := fld "device_link" 2 1 32 (VInt
  c_uint).
Definition regulator_bitfield_1 : KernelUnit := unit_of 1 [regulator_bitfield_1_always_on;
  regulator_bitfield_1_bypass; regulator_bitfield_1_device_link].

Definition regulator_desc_bitfield_1_continuous_voltage_range : Accessor := fld
  "continuous_voltage_range" 0 1 32 (VInt c_uint).
Definition regulator_desc_bitfield_1 : KernelUnit := unit_of 1
  [regulator_desc_bitfield_1_continuous_voltage_range].

Definition regulator_dev_bitfield_1_ena_gpio_state : Accessor := fld "ena_gpio_state" 0 1 32
  (VInt c_uint).
Definition regulator_dev_bitfield_1_constraints_pending : Accessor := fld "constraints_pending"
  1 1 32 (VInt c_uint).
Definition regulator_dev_bitfield_1_is_switch : Accessor := fld "is_switch" 2 1 32 (VInt
  c_uint).
Definition regulator_dev_bitfield_1 : KernelUnit := unit_of 1
  [regulator_dev_bitfield_1_ena_gpio_state; regulator_dev_bitfield_1_constraints_pending;
  regulator_dev_bitfield_1_is_switch].

Definition return_instance_bitfield_1 : KernelUnit := unit_of 32 [].

Definition ring_buffer_event_bitfield_1_type_len : Accessor := fld "type_len" 0 5 32 (VInt
  u32_).
Definition ring_buffer_event_bitfield_1_time_delta : Accessor := fld "time_delta" 5 27 32 (VInt
  u32_).
Definition ring_buffer_event_bitfield_1 : KernelUnit := unit_of 4
  [ring_buffer_event_bitfield_1_type_len; ring_buffer_event_bitfield_1_time_delta].

Definition rpc_clnt_bitfield_1_cl_softrtry : Accessor := fld "cl_softrtry" 0 1 32 (VInt c_uint).
Definition rpc_clnt_bitfield_1_cl_softerr : Accessor := fld "cl_softerr" 1 1 32 (VInt c_uint).
Definition rpc_clnt_bitfield_1_cl_discrtry : Accessor := fld "cl_discrtry" 2 1 32 (VInt c_uint).
Definition rpc_clnt_bitfield_1_cl_noretranstimeo : Accessor := fld "cl_noretranstimeo" 3 1 32
  (VInt c_uint).
Definition rpc_clnt_bitfield_1_cl_autobind : Accessor := fld "cl_autobind" 4 1 32 (VInt c_uint).
Definition rpc_clnt_bitfield_1_cl_chatty : Accessor := fld "cl_chatty" 5 1 32 (VInt c_uint).
Definition rpc_clnt_bitfield_1_cl_shutdown : Accessor := fld "cl_shutdown" 6 1 32 (VInt c_uint).
Definition rpc_clnt_bitfield_1_cl_netunreach_fatal : Accessor := fld "cl_netunreach_fatal" 7 1
  32 (VInt c_uint).
Definition rpc_clnt_bitfield_1 : KernelUnit := unit_of 1 [rpc_clnt_bitfield_1_cl_softrtry;
  rpc_clnt_bitfield_1_cl_softerr; rpc_clnt_bitfield_1_cl_discrtry;
  rpc_clnt_bitfield_1_cl_noretranstimeo; rpc_clnt_bitfield_1_cl_autobind;
  rpc_clnt_bitfield_1_cl_chatty; rpc_clnt_bitfield_1_cl_shutdown;
  rpc_clnt_bitfield_1_cl_netunreach_fatal].

Definition rpc_xprt_bitfield_1_resvport : Accessor := fld "resvport" 0 1 8 (VInt c_uchar).
Definition rpc_xprt_bitfield_1_reuseport : Accessor := fld "reuseport" 1 1 8 (VInt c_uchar).
Definition rpc_xprt_bitfield_1 : KernelUnit := unit_of 1 [rpc_xprt_bitfield_1_resvport;
  rpc_xprt_bitfield_1_reuseport].

Definition uclamp_bucket_bitfield_1_value : Accessor := fld "value" 0 11 64 (VInt c_ulong).
Definition uclamp_bucket_bitfield_1_tasks : Accessor := fld "tasks" 11 53 64 (VInt c_ulong).
Definition uclamp_bucket_bitfield_1 : KernelUnit := unit_of 8 [uclamp_bucket_bitfield_1_value;
  uclamp_bucket_bitfield_1_tasks].

Definition sched_dl_entity_bitfield_1_dl_throttled : Accessor := fld "dl_throttled" 0 1 32 (VInt
  c_uint).
Definition sched_dl_entity_bitfield_1_dl_yielded : Accessor := fld "dl_yielded" 1 1 32 (VInt
  c_uint).
Definition sched_dl_entity_bitfield_1_dl_non_contending : Accessor := fld "dl_non_contending" 2
  1 32 (VInt c_uint).
Definition sched_dl_entity_bitfield_1_dl_overrun : Accessor := fld "dl_overrun" 3 1 32 (VInt
  c_uint).
Definition sched_dl_entity_bitfield_1_dl_server : Accessor := fld "dl_server" 4 1 32 (VInt
  c_uint).
Definition sched_dl_entity_bitfield_1_dl_server_active : Accessor := fld "dl_server_active" 5 1
  32 (VInt c_uint).
Definition sched_dl_entity_bitfield_1_dl_defer : Accessor := fld "dl_defer" 6 1 32 (VInt
  c_uint).
Definition sched_dl_entity_bitfield_1_dl_defer_armed : Accessor := fld "dl_defer_armed" 7 1 32
  (VInt c_uint).
Definition sched_dl_entity_bitfield_1_dl_defer_running : Accessor := fld "dl_defer_running" 8 1
  32 (VInt c_uint).
Definition sched_dl_entity_bitfield_1_dl_defer_idle : Accessor := fld "dl_defer_idle" 9 1 32
  (VInt c_uint).
Definition sched_dl_entity_bitfield_1 : KernelUnit := unit_of 2
  [sched_dl_entity_bitfield_1_dl_throttled; sched_dl_entity_bitfield_1_dl_yielded;
  sched_dl_entity_bitfield_1_dl_non_contending; sched_dl_entity_bitfield_1_dl_overrun;
  sched_dl_entity_bitfield_1_dl_server; sched_dl_entity_bitfield_1_dl_server_active;
  sched_dl_entity_bitfield_1_dl_defer; sched_dl_entity_bitfield_1_dl_defer_armed;
  sched_dl_entity_bitfield_1_dl_defer_running; sched_dl_entity_bitfield_1_dl_defer_idle].

Definition rq_bitfield_1 : KernelUnit := unit_of 24 [].

Definition rq_bitfield_2 : KernelUnit := unit_of 24 [].

Definition rq_bitfield_3 : KernelUnit := unit_of 8 [].

Definition rq_bitfield_4 : KernelUnit := unit_of 16 [].

Definition rq_bitfield_5 : KernelUnit := unit_of 8 [].

Definition rseq_bitfield_1 : KernelUnit := unit_of 24 [].

Definition sched_statistics_bitfield_1 : KernelUnit := unit_of 24 [].

Definition sfp_eeprom_base__bindgen_ty_1__bindgen_ty_1_bitfield_1_sff8431_app_e : Accessor :=
  fld "sff8431_app_e" 0 1 8 (VInt u8_).
Definition sfp_eeprom_base__bindgen_ty_1__bindgen_ty_1_bitfield_1_fc_pi_4_app_h : Accessor :=
  fld "fc_pi_4_app_h" 1 1 8 (VInt u8_).
Definition sfp_eeprom_base__bindgen_ty_1__bindgen_ty_1_bitfield_1_reserved60_2 : Accessor := fld
  "reserved60_2" 2 6 8 (VInt u8_).
Definition sfp_eeprom_base__bindgen_ty_1__bindgen_ty_1_bitfield_1_reserved61 : Accessor := fld
  "reserved61" 8 8 8 (VInt u8_).
Definition sfp_eeprom_base__bindgen_ty_1__bindgen_ty_1_bitfield_1 : KernelUnit := unit_of 2
  [sfp_eeprom_base__bindgen_ty_1__bindgen_ty_1_bitfield_1_sff8431_app_e;
  sfp_eeprom_base__bindgen_ty_1__bindgen_ty_1_bitfield_1_fc_pi_4_app_h;
  sfp_eeprom_base__bindgen_ty_1__bindgen_ty_1_bitfield_1_reserved60_2;
  sfp_eeprom_base__bindgen_ty_1__bindgen_ty_1_bitfield_1_reserved61].

Definition sfp_eeprom_base__bindgen_ty_1__bindgen_ty_2_bitfield_1_sff8431_app_e : Accessor :=
  fld "sff8431_app_e" 0 1 8 (VInt u8_).
Definition sfp_eeprom_base__bindgen_ty_1__bindgen_ty_2_bitfield_1_fc_pi_4_app_h : Accessor :=
  fld "fc_pi_4_app_h" 1 1 8 (VInt u8_).
Definition sfp_eeprom_base__bindgen_ty_1__bindgen_ty_2_bitfield_1_sff8431_lim : Accessor := fld
  "sff8431_lim" 2 1 8 (VInt u8_).
Definition sfp_eeprom_base__bindgen_ty_1__bindgen_ty_2_bitfield_1_fc_pi_4_lim : Accessor := fld
  "fc_pi_4_lim" 3 1 8 (VInt u8_).
Definition sfp_eeprom_base__bindgen_ty_1__bindgen_ty_2_bitfield_1_reserved60_4 : Accessor := fld
  "reserved60_4" 4 4 8 (VInt u8_).
Definition sfp_eeprom_base__bindgen_ty_1__bindgen_ty_2_bitfield_1_reserved61 : Accessor := fld
  "reserved61" 8 8 8 (VInt u8_).
Definition sfp_eeprom_base__bindgen_ty_1__bindgen_ty_2_bitfield_1 : KernelUnit := unit_of 2
  [sfp_eeprom_base__bindgen_ty_1__bindgen_ty_2_bitfield_1_sff8431_app_e;
  sfp_eeprom_base__bindgen_ty_1__bindgen_ty_2_bitfield_1_fc_pi_4_app_h;
  sfp_eeprom_base__bindgen_ty_1__bindgen_ty_2_bitfield_1_sff8431_lim;
  sfp_eeprom_base__bindgen_ty_1__bindgen_ty_2_bitfield_1_fc_pi_4_lim;
  sfp_eeprom_base__bindgen_ty_1__bindgen_ty_2_bitfield_1_reserved60_4;
  sfp_eeprom_base__bindgen_ty_1__bindgen_ty_2_bitfield_1_reserved61].

Definition sfp_eeprom_base_bitfield_1_if_1x_copper_passive : Accessor := fld
  "if_1x_copper_passive" 0 1 8 (VInt u8_).
Definition sfp_eeprom_base_bitfield_1_if_1x_copper_active : Accessor := fld
  "if_1x_copper_active" 1 1 8 (VInt u8_).
Definition sfp_eeprom_base_bitfield_1_if_1x_lx : Accessor := fld "if_1x_lx" 2 1 8 (VInt u8_).
Definition sfp_eeprom_base_bitfield_1_if_1x_sx : Accessor := fld "if_1x_sx" 3 1 8 (VInt u8_).
Definition sfp_eeprom_base_bitfield_1_e10g_base_sr : Accessor := fld "e10g_base_sr" 4 1 8 (VInt
  u8_).
Definition sfp_eeprom_base_bitfield_1_e10g_base_lr : Accessor := fld "e10g_base_lr" 5 1 8 (VInt
  u8_).
Definition sfp_eeprom_base_bitfield_1_e10g_base_lrm : Accessor := fld "e10g_base_lrm" 6 1 8
  (VInt u8_).
Definition sfp_eeprom_base_bitfield_1_e10g_base_er : Accessor := fld "e10g_base_er" 7 1 8 (VInt
  u8_).
Definition sfp_eeprom_base_bitfield_1_sonet_oc3_short_reach : Accessor := fld
  "sonet_oc3_short_reach" 8 1 8 (VInt u8_).
Definition sfp_eeprom_base_bitfield_1_sonet_oc3_smf_intermediate_reach : Accessor := fld
  "sonet_oc3_smf_intermediate_reach" 9 1 8 (VInt u8_).
Definition sfp_eeprom_base_bitfield_1_sonet_oc3_smf_long_reach : Accessor := fld
  "sonet_oc3_smf_long_reach" 10 1 8 (VInt u8_).
Definition sfp_eeprom_base_bitfield_1_unallocated_5_3 : Accessor := fld "unallocated_5_3" 11 1 8
  (VInt u8_).
Definition sfp_eeprom_base_bitfield_1_sonet_oc12_short_reach : Accessor := fld
  "sonet_oc12_short_reach" 12 1 8 (VInt u8_).
Definition sfp_eeprom_base_bitfield_1_sonet_oc12_smf_intermediate_reach : Accessor := fld
  "sonet_oc12_smf_intermediate_reach" 13 1 8 (VInt u8_).
Definition sfp_eeprom_base_bitfield_1_sonet_oc12_smf_long_reach : Accessor := fld
  "sonet_oc12_smf_long_reach" 14 1 8 (VInt u8_).
Definition sfp_eeprom_base_bitfield_1_unallocated_5_7 : Accessor := fld "unallocated_5_7" 15 1 8
  (VInt u8_).
Definition sfp_eeprom_base_bitfield_1_sonet_oc48_short_reach : Accessor := fld
  "sonet_oc48_short_reach" 16 1 8 (VInt u8_).
Definition sfp_eeprom_base_bitfield_1_sonet_oc48_intermediate_reach : Accessor := fld
  "sonet_oc48_intermediate_reach" 17 1 8 (VInt u8_).
Definition sfp_eeprom_base_bitfield_1_sonet_oc48_long_reach : Accessor := fld
  "sonet_oc48_long_reach" 18 1 8 (VInt u8_).
Definition sfp_eeprom_base_bitfield_1_sonet_reach_bit2 : Accessor := fld "sonet_reach_bit2" 19 1
  8 (VInt u8_).
Definition sfp_eeprom_base_bitfield_1_sonet_reach_bit1 : Accessor := fld "sonet_reach_bit1" 20 1
  8 (VInt u8_).
Definition sfp_eeprom_base_bitfield_1_sonet_oc192_short_reach : Accessor := fld
  "sonet_oc192_short_reach" 21 1 8 (VInt u8_).
Definition sfp_eeprom_base_bitfield_1_escon_smf_1310_laser : Accessor := fld
  "escon_smf_1310_laser" 22 1 8 (VInt u8_).
Definition sfp_eeprom_base_bitfield_1_escon_mmf_1310_led : Accessor := fld "escon_mmf_1310_led"
  23 1 8 (VInt u8_).
Definition sfp_eeprom_base_bitfield_1_e1000_base_sx : Accessor := fld "e1000_base_sx" 24 1 8
  (VInt u8_).
Definition sfp_eeprom_base_bitfield_1_e1000_base_lx : Accessor := fld "e1000_base_lx" 25 1 8
  (VInt u8_).
Definition sfp_eeprom_base_bitfield_1_e1000_base_cx : Accessor := fld "e1000_base_cx" 26 1 8
  (VInt u8_).
Definition sfp_eeprom_base_bitfield_1_e1000_base_t : Accessor := fld "e1000_base_t" 27 1 8 (VInt
  u8_).
Definition sfp_eeprom_base_bitfield_1_e100_base_lx : Accessor := fld "e100_base_lx" 28 1 8 (VInt
  u8_).
Definition sfp_eeprom_base_bitfield_1_e100_base_fx : Accessor := fld "e100_base_fx" 29 1 8 (VInt
  u8_).
Definition sfp_eeprom_base_bitfield_1_e_base_bx10 : Accessor := fld "e_base_bx10" 30 1 8 (VInt
  u8_).
Definition sfp_eeprom_base_bitfield_1_e_base_px : Accessor := fld "e_base_px" 31 1 8 (VInt u8_).
Definition sfp_eeprom_base_bitfield_1_fc_tech_electrical_inter_enclosure : Accessor := fld
  "fc_tech_electrical_inter_enclosure" 32 1 8 (VInt u8_).
Definition sfp_eeprom_base_bitfield_1_fc_tech_lc : Accessor := fld "fc_tech_lc" 33 1 8 (VInt
  u8_).
Definition sfp_eeprom_base_bitfield_1_fc_tech_sa : Accessor := fld "fc_tech_sa" 34 1 8 (VInt
  u8_).
Definition sfp_eeprom_base_bitfield_1_fc_ll_m : Accessor := fld "fc_ll_m" 35 1 8 (VInt u8_).
Definition sfp_eeprom_base_bitfield_1_fc_ll_l : Accessor := fld "fc_ll_l" 36 1 8 (VInt u8_).
Definition sfp_eeprom_base_bitfield_1_fc_ll_i : Accessor := fld "fc_ll_i" 37 1 8 (VInt u8_).
Definition sfp_eeprom_base_bitfield_1_fc_ll_s : Accessor := fld "fc_ll_s" 38 1 8 (VInt u8_).
Definition sfp_eeprom_base_bitfield_1_fc_ll_v : Accessor := fld "fc_ll_v" 39 1 8 (VInt u8_).
Definition sfp_eeprom_base_bitfield_1_unallocated_8_0 : Accessor := fld "unallocated_8_0" 40 1 8
  (VInt u8_).
Definition sfp_eeprom_base_bitfield_1_unallocated_8_1 : Accessor := fld "unallocated_8_1" 41 1 8
  (VInt u8_).
Definition sfp_eeprom_base_bitfield_1_sfp_ct_passive : Accessor := fld "sfp_ct_passive" 42 1 8
  (VInt u8_).
Definition sfp_eeprom_base_bitfield_1_sfp_ct_active : Accessor := fld "sfp_ct_active" 43 1 8
  (VInt u8_).
Definition sfp_eeprom_base_bitfield_1_fc_tech_ll : Accessor := fld "fc_tech_ll" 44 1 8 (VInt
  u8_).
Definition sfp_eeprom_base_bitfield_1_fc_tech_sl : Accessor := fld "fc_tech_sl" 45 1 8 (VInt
  u8_).
Definition sfp_eeprom_base_bitfield_1_fc_tech_sn : Accessor := fld "fc_tech_sn" 46 1 8 (VInt
  u8_).
Definition sfp_eeprom_base_bitfield_1_fc_tech_electrical_intra_enclosure : Accessor := fld
  "fc_tech_electrical_intra_enclosure" 47 1 8 (VInt u8_).
Definition sfp_eeprom_base_bitfield_1_fc_media_sm : Accessor := fld "fc_media_sm" 48 1 8 (VInt
  u8_).
Definition sfp_eeprom_base_bitfield_1_unallocated_9_1 : Accessor := fld "unallocated_9_1" 49 1 8
  (VInt u8_).
Definition sfp_eeprom_base_bitfield_1_fc_media_m5 : Accessor := fld "fc_media_m5" 50 1 8 (VInt
  u8_).
Definition sfp_eeprom_base_bitfield_1_fc_media_m6 : Accessor := fld "fc_media_m6" 51 1 8 (VInt
  u8_).
Definition sfp_eeprom_base_bitfield_1_fc_media_tv : Accessor := fld "fc_media_tv" 52 1 8 (VInt
  u8_).
Definition sfp_eeprom_base_bitfield_1_fc_media_mi : Accessor := fld "fc_media_mi" 53 1 8 (VInt
  u8_).
Definition sfp_eeprom_base_bitfield_1_fc_media_tp : Accessor := fld "fc_media_tp" 54 1 8 (VInt
  u8_).
Definition sfp_eeprom_base_bitfield_1_fc_media_tw : Accessor := fld "fc_media_tw" 55 1 8 (VInt
  u8_).
Definition sfp_eeprom_base_bitfield_1_fc_speed_100 : Accessor := fld "fc_speed_100" 56 1 8 (VInt
  u8_).
Definition sfp_eeprom_base_bitfield_1_unallocated_10_1 : Accessor := fld "unallocated_10_1" 57 1
  8 (VInt u8_).
Definition sfp_eeprom_base_bitfield_1_fc_speed_200 : Accessor := fld "fc_speed_200" 58 1 8 (VInt
  u8_).
Definition sfp_eeprom_base_bitfield_1_fc_speed_3200 : Accessor := fld "fc_speed_3200" 59 1 8
  (VInt u8_).
Definition sfp_eeprom_base_bitfield_1_fc_speed_400 : Accessor := fld "fc_speed_400" 60 1 8 (VInt
  u8_).
Definition sfp_eeprom_base_bitfield_1_fc_speed_1600 : Accessor := fld "fc_speed_1600" 61 1 8
  (VInt u8_).
Definition sfp_eeprom_base_bitfield_1_fc_speed_800 : Accessor := fld "fc_speed_800" 62 1 8 (VInt
  u8_).
Definition sfp_eeprom_base_bitfield_1_fc_speed_1200 : Accessor := fld "fc_speed_1200" 63 1 8
  (VInt u8_).
Definition sfp_eeprom_base_bitfield_1 : KernelUnit := unit_of 8
  [sfp_eeprom_base_bitfield_1_if_1x_copper_passive;
  sfp_eeprom_base_bitfield_1_if_1x_copper_active; sfp_eeprom_base_bitfield_1_if_1x_lx;
  sfp_eeprom_base_bitfield_1_if_1x_sx; sfp_eeprom_base_bitfield_1_e10g_base_sr;
  sfp_eeprom_base_bitfield_1_e10g_base_lr; sfp_eeprom_base_bitfield_1_e10g_base_lrm;
  sfp_eeprom_base_bitfield_1_e10g_base_er; sfp_eeprom_base_bitfield_1_sonet_oc3_short_reach;
  sfp_eeprom_base_bitfield_1_sonet_oc3_smf_intermediate_reach;
  sfp_eeprom_base_bitfield_1_sonet_oc3_smf_long_reach;
  sfp_eeprom_base_bitfield_1_unallocated_5_3; sfp_eeprom_base_bitfield_1_sonet_oc12_short_reach;
  sfp_eeprom_base_bitfield_1_sonet_oc12_smf_intermediate_reach;
  sfp_eeprom_base_bitfield_1_sonet_oc12_smf_long_reach;
  sfp_eeprom_base_bitfield_1_unallocated_5_7; sfp_eeprom_base_bitfield_1_sonet_oc48_short_reach;
  sfp_eeprom_base_bitfield_1_sonet_oc48_intermediate_reach;
  sfp_eeprom_base_bitfield_1_sonet_oc48_long_reach; sfp_eeprom_base_bitfield_1_sonet_reach_bit2;
  sfp_eeprom_base_bitfield_1_sonet_reach_bit1;
  sfp_eeprom_base_bitfield_1_sonet_oc192_short_reach;
  sfp_eeprom_base_bitfield_1_escon_smf_1310_laser;
  sfp_eeprom_base_bitfield_1_escon_mmf_1310_led; sfp_eeprom_base_bitfield_1_e1000_base_sx;
  sfp_eeprom_base_bitfield_1_e1000_base_lx; sfp_eeprom_base_bitfield_1_e1000_base_cx;
  sfp_eeprom_base_bitfield_1_e1000_base_t; sfp_eeprom_base_bitfield_1_e100_base_lx;
  sfp_eeprom_base_bitfield_1_e100_base_fx; sfp_eeprom_base_bitfield_1_e_base_bx10;
  sfp_eeprom_base_bitfield_1_e_base_px;
  sfp_eeprom_base_bitfield_1_fc_tech_electrical_inter_enclosure;
  sfp_eeprom_base_bitfield_1_fc_tech_lc; sfp_eeprom_base_bitfield_1_fc_tech_sa;
  sfp_eeprom_base_bitfield_1_fc_ll_m; sfp_eeprom_base_bitfield_1_fc_ll_l;
  sfp_eeprom_base_bitfield_1_fc_ll_i; sfp_eeprom_base_bitfield_1_fc_ll_s;
  sfp_eeprom_base_bitfield_1_fc_ll_v; sfp_eeprom_base_bitfield_1_unallocated_8_0;
  sfp_eeprom_base_bitfield_1_unallocated_8_1; sfp_eeprom_base_bitfield_1_sfp_ct_passive;
  sfp_eeprom_base_bitfield_1_sfp_ct_active; sfp_eeprom_base_bitfield_1_fc_tech_ll;
  sfp_eeprom_base_bitfield_1_fc_tech_sl; sfp_eeprom_base_bitfield_1_fc_tech_sn;
  sfp_eeprom_base_bitfield_1_fc_tech_electrical_intra_enclosure;
  sfp_eeprom_base_bitfield_1_fc_media_sm; sfp_eeprom_base_bitfield_1_unallocated_9_1;
  sfp_eeprom_base_bitfield_1_fc_media_m5; sfp_eeprom_base_bitfield_1_fc_media_m6;
  sfp_eeprom_base_bitfield_1_fc_media_tv; sfp_eeprom_base_bitfield_1_fc_media_mi;
  sfp_eeprom_base_bitfield_1_fc_media_tp; sfp_eeprom_base_bitfield_1_fc_media_tw;
  sfp_eeprom_base_bitfield_1_fc_speed_100; sfp_eeprom_base_bitfield_1_unallocated_10_1;
  sfp_eeprom_base_bitfield_1_fc_speed_200; sfp_eeprom_base_bitfield_1_fc_speed_3200;
  sfp_eeprom_base_bitfield_1_fc_speed_400; sfp_eeprom_base_bitfield_1_fc_speed_1600;
  sfp_eeprom_base_bitfield_1_fc_speed_800; sfp_eeprom_base_bitfield_1_fc_speed_1200].

Definition signal_struct_bitfield_1_is_child_subreaper : Accessor := fld "is_child_subreaper" 0
  1 32 (VInt c_uint).
Definition signal_struct_bitfield_1_has_child_subreaper : Accessor := fld "has_child_subreaper"
  1 1 32 (VInt c_uint).
Definition signal_struct_bitfield_1_timer_create_restore_ids : Accessor := fld
  "timer_create_restore_ids" 2 1 32 (VInt c_uint).
Definition signal_struct_bitfield_1 : KernelUnit := unit_of 1
  [signal_struct_bitfield_1_is_child_subreaper; signal_struct_bitfield_1_has_child_subreaper;
  signal_struct_bitfield_1_timer_create_restore_ids].

Definition sock_reuseport_bitfield_1_bind_inany : Accessor := fld "bind_inany" 0 1 32 (VInt
  c_uint).
Definition sock_reuseport_bitfield_1_has_conns : Accessor := fld "has_conns" 1 1 32 (VInt
  c_uint).
Definition sock_reuseport_bitfield_1 : KernelUnit := unit_of 1
  [sock_reuseport_bitfield_1_bind_inany; sock_reuseport_bitfield_1_has_conns].

Definition socket_wq_bitfield_1 : KernelUnit := unit_of 8 [].

Definition socket_bitfield_1 : KernelUnit := unit_of 24 [].

Definition srcu_data_bitfield_1 : KernelUnit := unit_of 24 [].

Definition srcu_data_bitfield_2 : KernelUnit := unit_of 24 [].

Definition super_block_bitfield_1 : KernelUnit := unit_of 8 [].

Definition uclamp_se_bitfield_1_value : Accessor := fld "value" 0 11 32 (VInt c_uint).
Definition uclamp_se_bitfield_1_bucket_id : Accessor := fld "bucket_id" 11 3 32 (VInt c_uint).
Definition uclamp_se_bitfield_1_active : Accessor := fld "active" 14 1 32 (VInt c_uint).
Definition uclamp_se_bitfield_1_user_defined : Accessor := fld "user_defined" 15 1 32 (VInt
  c_uint).
Definition uclamp_se_bitfield_1 : KernelUnit := unit_of 2 [uclamp_se_bitfield_1_value;
  uclamp_se_bitfield_1_bucket_id; uclamp_se_bitfield_1_active;
  uclamp_se_bitfield_1_user_defined].

Definition task_group_bitfield_1 : KernelUnit := unit_of 16 [].

Definition thread_struct_bitfield_1_iopl_warn : Accessor := fld "iopl_warn" 0 1 32 (VInt
  c_uint).
Definition thread_struct_bitfield_1 : KernelUnit := unit_of 1
  [thread_struct_bitfield_1_iopl_warn].

Definition task_struct_bitfield_1 : KernelUnit := unit_of 24 [].

Definition task_struct_bitfield_2_sched_reset_on_fork : Accessor := fld "sched_reset_on_fork" 0
  1 32 (VInt c_uint).
Definition task_struct_bitfield_2_sched_contributes_to_load : Accessor := fld
  "sched_contributes_to_load" 1 1 32 (VInt c_uint).
Definition task_struct_bitfield_2_sched_migrated : Accessor := fld "sched_migrated" 2 1 32 (VInt
  c_uint).
Definition task_struct_bitfield_2_sched_task_hot : Accessor := fld "sched_task_hot" 3 1 32 (VInt
  c_uint).
Definition task_struct_bitfield_2_sched_remote_wakeup : Accessor := fld "sched_remote_wakeup" 32
  1 32 (VInt c_uint).
Definition task_struct_bitfield_2_sched_rt_mutex : Accessor := fld "sched_rt_mutex" 33 1 32
  (VInt c_uint).
Definition task_struct_bitfield_2_user_dumpable : Accessor := fld "user_dumpable" 34 1 32 (VInt
  c_uint).
Definition task_struct_bitfield_2_in_execve : Accessor := fld "in_execve" 35 1 32 (VInt c_uint).
Definition task_struct_bitfield_2_in_iowait : Accessor := fld "in_iowait" 36 1 32 (VInt c_uint).
Definition task_struct_bitfield_2_restore_sigmask : Accessor := fld "restore_sigmask" 37 1 32
  (VInt c_uint).
Definition task_struct_bitfield_2_in_lru_fault : Accessor := fld "in_lru_fault" 38 1 32 (VInt
  c_uint).
Definition task_struct_bitfield_2_no_cgroup_migration : Accessor := fld "no_cgroup_migration" 39
  1 32 (VInt c_uint).
Definition task_struct_bitfield_2_frozen : Accessor := fld "frozen" 40 1 32 (VInt c_uint).
Definition task_struct_bitfield_2_use_memdelay : Accessor := fld "use_memdelay" 41 1 32 (VInt
  c_uint).
Definition task_struct_bitfield_2_in_memstall : Accessor := fld "in_memstall" 42 1 32 (VInt
  c_uint).
Definition task_struct_bitfield_2_in_eventfd : Accessor := fld "in_eventfd" 43 1 32 (VInt
  c_uint).
Definition task_struct_bitfield_2_pasid_activated : Accessor := fld "pasid_activated" 44 1 32
  (VInt c_uint).
Definition task_struct_bitfield_2_reported_split_lock : Accessor := fld "reported_split_lock" 45
  1 32 (VInt c_uint).
Definition task_struct_bitfield_2_in_thrashing : Accessor := fld "in_thrashing" 46 1 32 (VInt
  c_uint).
Definition task_struct_bitfield_2_in_nf_duplicate : Accessor := fld "in_nf_duplicate" 47 1 32
  (VInt c_uint).
Definition task_struct_bitfield_2 : KernelUnit := unit_of 6
  [task_struct_bitfield_2_sched_reset_on_fork; task_struct_bitfield_2_sched_contributes_to_load;
  task_struct_bitfield_2_sched_migrated; task_struct_bitfield_2_sched_task_hot;
  task_struct_bitfield_2_sched_remote_wakeup; task_struct_bitfield_2_sched_rt_mutex;
  task_struct_bitfield_2_user_dumpable; task_struct_bitfield_2_in_execve;
  task_struct_bitfield_2_in_iowait; task_struct_bitfield_2_restore_sigmask;
  task_struct_bitfield_2_in_lru_fault; task_struct_bitfield_2_no_cgroup_migration;
  task_struct_bitfield_2_frozen; task_struct_bitfield_2_use_memdelay;
  task_struct_bitfield_2_in_memstall; task_struct_bitfield_2_in_eventfd;
  task_struct_bitfield_2_pasid_activated; task_struct_bitfield_2_reported_split_lock;
  task_struct_bitfield_2_in_thrashing; task_struct_bitfield_2_in_nf_duplicate].

Definition task_struct_bitfield_3_mce_ripv : Accessor := fld "mce_ripv" 0 1 64 (VInt __u64).
Definition task_struct_bitfield_3_mce_whole_page : Accessor := fld "mce_whole_page" 1 1 64 (VInt
  __u64).
Definition task_struct_bitfield_3___mce_reserved : Accessor := fld "__mce_reserved" 2 62 64
  (VInt __u64).
Definition task_struct_bitfield_3 : KernelUnit := unit_of 8 [task_struct_bitfield_3_mce_ripv;
  task_struct_bitfield_3_mce_whole_page; task_struct_bitfield_3___mce_reserved].

Definition tc_action_bitfield_1 : KernelUnit := unit_of 8 [].

Definition tcp_options_received_bitfield_1_saw_tstamp : Accessor := fld "saw_tstamp" 0 1 16
  (VInt u16_).
Definition tcp_options_received_bitfield_1_tstamp_ok : Accessor := fld "tstamp_ok" 1 1 16 (VInt
  u16_).
Definition tcp_options_received_bitfield_1_dsack : Accessor := fld "dsack" 2 1 16 (VInt u16_).
Definition tcp_options_received_bitfield_1_wscale_ok : Accessor := fld "wscale_ok" 3 1 16 (VInt
  u16_).
Definition tcp_options_received_bitfield_1_sack_ok : Accessor := fld "sack_ok" 4 3 16 (VInt
  u16_).
Definition tcp_options_received_bitfield_1_smc_ok : Accessor := fld "smc_ok" 7 1 16 (VInt u16_).
Definition tcp_options_received_bitfield_1_snd_wscale : Accessor := fld "snd_wscale" 8 4 16
  (VInt u16_).
Definition tcp_options_received_bitfield_1_rcv_wscale : Accessor := fld "rcv_wscale" 12 4 16
  (VInt u16_).
Definition tcp_options_received_bitfield_1_accecn : Accessor := fld "accecn" 16 6 8 (VInt u8_).
Definition tcp_options_received_bitfield_1_saw_unknown : Accessor := fld "saw_unknown" 22 1 8
  (VInt u8_).
Definition tcp_options_received_bitfield_1_unused : Accessor := fld "unused" 23 1 8 (VInt u8_).
Definition tcp_options_received_bitfield_1 : KernelUnit := unit_of 3
  [tcp_options_received_bitfield_1_saw_tstamp; tcp_options_received_bitfield_1_tstamp_ok;
  tcp_options_received_bitfield_1_dsack; tcp_options_received_bitfield_1_wscale_ok;
  tcp_options_received_bitfield_1_sack_ok; tcp_options_received_bitfield_1_smc_ok;
  tcp_options_received_bitfield_1_snd_wscale; tcp_options_received_bitfield_1_rcv_wscale;
  tcp_options_received_bitfield_1_accecn; tcp_options_received_bitfield_1_saw_unknown;
  tcp_options_received_bitfield_1_unused].

Definition tcp_rack_bitfield_1_reo_wnd_persist : Accessor := fld "reo_wnd_persist" 0 5 8 (VInt
  u8_).
Definition tcp_rack_bitfield_1_dsack_seen : Accessor := fld "dsack_seen" 5 1 8 (VInt u8_).
Definition tcp_rack_bitfield_1_advanced : Accessor := fld "advanced" 6 1 8 (VInt u8_).
Definition tcp_rack_bitfield_1 : KernelUnit := unit_of 1 [tcp_rack_bitfield_1_reo_wnd_persist;
  tcp_rack_bitfield_1_dsack_seen; tcp_rack_bitfield_1_advanced].

Definition tcp_sock_bitfield_1_repair : Accessor := fld "repair" 0 1 8 (VInt u8_).
Definition tcp_sock_bitfield_1_tcp_usec_ts : Accessor := fld "tcp_usec_ts" 1 1 8 (VInt u8_).
Definition tcp_sock_bitfield_1_is_sack_reneg : Accessor := fld "is_sack_reneg" 2 1 8 (VInt u8_).
Definition tcp_sock_bitfield_1_is_cwnd_limited : Accessor := fld "is_cwnd_limited" 3 1 8 (VInt
  u8_).
Definition tcp_sock_bitfield_1_recvmsg_inq : Accessor := fld "recvmsg_inq" 4 1 8 (VInt u8_).
Definition tcp_sock_bitfield_1 : KernelUnit := unit_of 1 [tcp_sock_bitfield_1_repair;
  tcp_sock_bitfield_1_tcp_usec_ts; tcp_sock_bitfield_1_is_sack_reneg;
  tcp_sock_bitfield_1_is_cwnd_limited; tcp_sock_bitfield_1_recvmsg_inq].

Definition tcp_sock_bitfield_2 : KernelUnit := unit_of 24 [].

Definition tcp_sock_bitfield_3_nonagle : Accessor := fld "nonagle" 0 4 8 (VInt u8_).
Definition tcp_sock_bitfield_3_rate_app_limited : Accessor := fld "rate_app_limited" 4 1 8 (VInt
  u8_).
Definition tcp_sock_bitfield_3_received_ce_pending : Accessor := fld "received_ce_pending" 8 4 8
  (VInt u8_).
Definition tcp_sock_bitfield_3_accecn_opt_sent_w_dsack : Accessor := fld
  "accecn_opt_sent_w_dsack" 12 1 8 (VInt u8_).
Definition tcp_sock_bitfield_3_unused2 : Accessor := fld "unused2" 13 3 8 (VInt u8_).
Definition tcp_sock_bitfield_3_accecn_minlen : Accessor := fld "accecn_minlen" 16 2 8 (VInt
  u8_).
Definition tcp_sock_bitfield_3_est_ecnfield : Accessor := fld "est_ecnfield" 18 2 8 (VInt u8_).
Definition tcp_sock_bitfield_3_accecn_opt_demand : Accessor := fld "accecn_opt_demand" 20 2 8
  (VInt u8_).
Definition tcp_sock_bitfield_3_prev_ecnfield : Accessor := fld "prev_ecnfield" 22 2 8 (VInt
  u8_).
Definition tcp_sock_bitfield_3 : KernelUnit := unit_of 3 [tcp_sock_bitfield_3_nonagle;
  tcp_sock_bitfield_3_rate_app_limited; tcp_sock_bitfield_3_received_ce_pending;
  tcp_sock_bitfield_3_accecn_opt_sent_w_dsack; tcp_sock_bitfield_3_unused2;
  tcp_sock_bitfield_3_accecn_minlen; tcp_sock_bitfield_3_est_ecnfield;
  tcp_sock_bitfield_3_accecn_opt_demand; tcp_sock_bitfield_3_prev_ecnfield].

Definition tcp_sock_bitfield_4_dup_ack_counter : Accessor := fld "dup_ack_counter" 0 2 8 (VInt
  u8_).
Definition tcp_sock_bitfield_4_tlp_retrans : Accessor := fld "tlp_retrans" 2 1 8 (VInt u8_).
Definition tcp_sock_bitfield_4_syn_ect_snt : Accessor := fld "syn_ect_snt" 3 2 8 (VInt u8_).
Definition tcp_sock_bitfield_4_syn_ect_rcv : Accessor := fld "syn_ect_rcv" 5 2 8 (VInt u8_).
Definition tcp_sock_bitfield_4_thin_lto : Accessor := fld "thin_lto" 7 1 8 (VInt u8_).
Definition tcp_sock_bitfield_4_fastopen_connect : Accessor := fld "fastopen_connect" 8 1 8 (VInt
  u8_).
Definition tcp_sock_bitfield_4_fastopen_no_cookie : Accessor := fld "fastopen_no_cookie" 9 1 8
  (VInt u8_).
Definition tcp_sock_bitfield_4_fastopen_client_fail : Accessor := fld "fastopen_client_fail" 10
  2 8 (VInt u8_).
Definition tcp_sock_bitfield_4_frto : Accessor := fld "frto" 12 1 8 (VInt u8_).
Definition tcp_sock_bitfield_4 : KernelUnit := unit_of 2 [tcp_sock_bitfield_4_dup_ack_counter;
  tcp_sock_bitfield_4_tlp_retrans; tcp_sock_bitfield_4_syn_ect_snt;
  tcp_sock_bitfield_4_syn_ect_rcv; tcp_sock_bitfield_4_thin_lto;
  tcp_sock_bitfield_4_fastopen_connect; tcp_sock_bitfield_4_fastopen_no_cookie;
  tcp_sock_bitfield_4_fastopen_client_fail; tcp_sock_bitfield_4_frto].

Definition tcp_sock_bitfield_5_save_syn : Accessor := fld "save_syn" 0 2 8 (VInt u8_).
Definition tcp_sock_bitfield_5_syn_data : Accessor := fld "syn_data" 2 1 8 (VInt u8_).
Definition tcp_sock_bitfield_5_syn_fastopen : Accessor := fld "syn_fastopen" 3 1 8 (VInt u8_).
Definition tcp_sock_bitfield_5_syn_fastopen_exp : Accessor := fld "syn_fastopen_exp" 4 1 8 (VInt
  u8_).
Definition tcp_sock_bitfield_5_syn_fastopen_ch : Accessor := fld "syn_fastopen_ch" 5 1 8 (VInt
  u8_).
Definition tcp_sock_bitfield_5_syn_data_acked : Accessor := fld "syn_data_acked" 6 1 8 (VInt
  u8_).
Definition tcp_sock_bitfield_5_syn_fastopen_child : Accessor := fld "syn_fastopen_child" 7 1 8
  (VInt u8_).
Definition tcp_sock_bitfield_5 : KernelUnit := unit_of 1 [tcp_sock_bitfield_5_save_syn;
  tcp_sock_bitfield_5_syn_data; tcp_sock_bitfield_5_syn_fastopen;
  tcp_sock_bitfield_5_syn_fastopen_exp; tcp_sock_bitfield_5_syn_fastopen_ch;
  tcp_sock_bitfield_5_syn_data_acked; tcp_sock_bitfield_5_syn_fastopen_child].

Definition tcp_sock_bitfield_6_accecn_fail_mode : Accessor := fld "accecn_fail_mode" 0 4 8 (VInt
  u8_).
Definition tcp_sock_bitfield_6_saw_accecn_opt : Accessor := fld "saw_accecn_opt" 4 2 8 (VInt
  u8_).
Definition tcp_sock_bitfield_6 : KernelUnit := unit_of 1 [tcp_sock_bitfield_6_accecn_fail_mode;
  tcp_sock_bitfield_6_saw_accecn_opt].

Definition tcp_sock_bitfield_7_bpf_chg_cc_inprogress : Accessor := fld "bpf_chg_cc_inprogress" 0
  1 8 (VInt u8_).
Definition tcp_sock_bitfield_7 : KernelUnit := unit_of 1
  [tcp_sock_bitfield_7_bpf_chg_cc_inprogress].

Definition tcp_ao_info_bitfield_1_ao_required : Accessor := fld "ao_required" 0 1 32 (VInt
  u32_).
Definition tcp_ao_info_bitfield_1_accept_icmps : Accessor := fld "accept_icmps" 1 1 32 (VInt
  u32_).
Definition tcp_ao_info_bitfield_1___unused : Accessor := fld "__unused" 2 30 32 (VInt u32_).
Definition tcp_ao_info_bitfield_1 : KernelUnit := unit_of 4 [tcp_ao_info_bitfield_1_ao_required;
  tcp_ao_info_bitfield_1_accept_icmps; tcp_ao_info_bitfield_1___unused].

Definition time_namespace_bitfield_2 : KernelUnit := unit_of 16 [].

Definition tls_context_bitfield_1_tx_conf : Accessor := fld "tx_conf" 0 3 8 (VInt u8_).
Definition tls_context_bitfield_1_rx_conf : Accessor := fld "rx_conf" 3 3 8 (VInt u8_).
Definition tls_context_bitfield_1_zerocopy_sendfile : Accessor := fld "zerocopy_sendfile" 6 1 8
  (VInt u8_).
Definition tls_context_bitfield_1_rx_no_pad : Accessor := fld "rx_no_pad" 7 1 8 (VInt u8_).
Definition tls_context_bitfield_1 : KernelUnit := unit_of 1 [tls_context_bitfield_1_tx_conf;
  tls_context_bitfield_1_rx_conf; tls_context_bitfield_1_zerocopy_sendfile;
  tls_context_bitfield_1_rx_no_pad].

Definition trace_event_fields__bindgen_ty_1__bindgen_ty_1_bitfield_1_is_signed : Accessor := fld
  "is_signed" 0 1 32 (VInt c_uint).
Definition trace_event_fields__bindgen_ty_1__bindgen_ty_1_bitfield_1_needs_test : Accessor :=
  fld "needs_test" 1 1 32 (VInt c_uint).
Definition trace_event_fields__bindgen_ty_1__bindgen_ty_1_bitfield_1 : KernelUnit := unit_of 1
  [trace_event_fields__bindgen_ty_1__bindgen_ty_1_bitfield_1_is_signed;
  trace_event_fields__bindgen_ty_1__bindgen_ty_1_bitfield_1_needs_test].

Definition tracepoint_ext_bitfield_1_faultable : Accessor := fld "faultable" 0 1 32 (VInt
  c_uint).
Definition tracepoint_ext_bitfield_1 : KernelUnit := unit_of 1
  [tracepoint_ext_bitfield_1_faultable].

Definition udp_hslot_main_bitfield_1 : KernelUnit := unit_of 8 [].

Definition user_namespace_bitfield_2 : KernelUnit := unit_of 8 [].

Definition wakeup_source_bitfield_1_active : Accessor := fld "active" 0 1 8 VBool.
Definition wakeup_source_bitfield_1_autosleep_enabled : Accessor := fld "autosleep_enabled" 1 1
  8 VBool.
Definition wakeup_source_bitfield_1 : KernelUnit := unit_of 1 [wakeup_source_bitfield_1_active;
  wakeup_source_bitfield_1_autosleep_enabled].

Definition wiphy_bitfield_1_support_mbssid : Accessor := fld "support_mbssid" 0 1 8 (VInt u8_).
Definition wiphy_bitfield_1_support_only_he_mbssid : Accessor := fld "support_only_he_mbssid" 1
  1 8 (VInt u8_).
Definition wiphy_bitfield_1 : KernelUnit := unit_of 1 [wiphy_bitfield_1_support_mbssid;
  wiphy_bitfield_1_support_only_he_mbssid].

Definition wiphy_bitfield_2 : KernelUnit := unit_of 8 [].

Definition wireless_dev_bitfield_1_mgmt_registrations_need_update : Accessor := fld
  "mgmt_registrations_need_update" 0 1 8 (VInt u8_).
Definition wireless_dev_bitfield_1 : KernelUnit := unit_of 1
  [wireless_dev_bitfield_1_mgmt_registrations_need_update].

Definition wireless_dev_bitfield_2_connected : Accessor := fld "connected" 0 1 8 (VInt u8_).
Definition wireless_dev_bitfield_2 : KernelUnit := unit_of 1
  [wireless_dev_bitfield_2_connected].

Definition workqueue_struct_bitfield_1 : KernelUnit := unit_of 16 [].

Definition writeback_control_bitfield_1_for_kupdate : Accessor := fld "for_kupdate" 0 1 32 (VInt
  c_uint).
Definition writeback_control_bitfield_1_for_background : Accessor := fld "for_background" 1 1 32
  (VInt c_uint).
Definition writeback_control_bitfield_1_tagged_writepages : Accessor := fld "tagged_writepages"
  2 1 32 (VInt c_uint).
Definition writeback_control_bitfield_1_range_cyclic : Accessor := fld "range_cyclic" 3 1 32
  (VInt c_uint).
Definition writeback_control_bitfield_1_for_sync : Accessor := fld "for_sync" 4 1 32 (VInt
  c_uint).
Definition writeback_control_bitfield_1_unpinned_netfs_wb : Accessor := fld "unpinned_netfs_wb"
  5 1 32 (VInt c_uint).
Definition writeback_control_bitfield_1_no_cgroup_owner : Accessor := fld "no_cgroup_owner" 6 1
  32 (VInt c_uint).
Definition writeback_control_bitfield_1 : KernelUnit := unit_of 1
  [writeback_control_bitfield_1_for_kupdate; writeback_control_bitfield_1_for_background;
  writeback_control_bitfield_1_tagged_writepages; writeback_control_bitfield_1_range_cyclic;
  writeback_control_bitfield_1_for_sync; writeback_control_bitfield_1_unpinned_netfs_wb;
  writeback_control_bitfield_1_no_cgroup_owner].

Definition xdp_buff_xsk_bitfield_1 : KernelUnit := unit_of 8 [].

Definition xdp_frame_bitfield_1_mem_type : Accessor := fld "mem_type" 0 32 32 (VInt
  xdp_mem_type__Type).
Definition xdp_frame_bitfield_1 : KernelUnit := unit_of 4 [xdp_frame_bitfield_1_mem_type].

Definition xfrm_dev_offload_bitfield_1_dir : Accessor := fld "dir" 0 2 8 (VInt u8_).
Definition xfrm_dev_offload_bitfield_1_type_ : Accessor := fld "type_" 2 2 8 (VInt u8_).
Definition xfrm_dev_offload_bitfield_1_flags : Accessor := fld "flags" 4 2 8 (VInt u8_).
Definition xfrm_dev_offload_bitfield_1 : KernelUnit := unit_of 1
  [xfrm_dev_offload_bitfield_1_dir; xfrm_dev_offload_bitfield_1_type_;
  xfrm_dev_offload_bitfield_1_flags].

Definition xsk_buff_pool_bitfield_1 : KernelUnit := unit_of 16 [].

(** Every unit, with the structure and the field it is. *)
Definition units : list (string * string * KernelUnit) := [
  ("sockptr_t"%string, "_bitfield_1"%string, sockptr_t_bitfield_1);
  ("Qdisc"%string, "_bitfield_1"%string, Qdisc_bitfield_1);
  ("Qdisc"%string, "_bitfield_2"%string, Qdisc_bitfield_2);
  ("Qdisc"%string, "_bitfield_4"%string, Qdisc_bitfield_4);
  ("kobject"%string, "_bitfield_1"%string, kobject_bitfield_1);
  ("dev_pm_info"%string, "_bitfield_1"%string, dev_pm_info_bitfield_1);
  ("dev_pm_info"%string, "_bitfield_2"%string, dev_pm_info_bitfield_2);
  ("dev_pm_info"%string, "_bitfield_3"%string, dev_pm_info_bitfield_3);
  ("dev_pm_info"%string, "_bitfield_4"%string, dev_pm_info_bitfield_4);
  ("device"%string, "_bitfield_1"%string, device_bitfield_1);
  ("fred_cs"%string, "_bitfield_1"%string, fred_cs_bitfield_1);
  ("fred_ss"%string, "_bitfield_1"%string, fred_ss_bitfield_1);
  ("_ddebug"%string, "_bitfield_1"%string, _ddebug_bitfield_1);
  ("x86_msi_addr_lo__bindgen_ty_1__bindgen_ty_1"%string, "_bitfield_1"%string, x86_msi_addr_lo__bindgen_ty_1__bindgen_ty_1_bitfield_1);
  ("x86_msi_addr_lo__bindgen_ty_1__bindgen_ty_2"%string, "_bitfield_1"%string, x86_msi_addr_lo__bindgen_ty_1__bindgen_ty_2_bitfield_1);
  ("x86_msi_addr_hi"%string, "_bitfield_1"%string, x86_msi_addr_hi_bitfield_1);
  ("x86_msi_data__bindgen_ty_1__bindgen_ty_1"%string, "_bitfield_1"%string, x86_msi_data__bindgen_ty_1__bindgen_ty_1_bitfield_1);
  ("blk_flush_queue"%string, "_bitfield_1"%string, blk_flush_queue_bitfield_1);
  ("blk_mq_ctx__bindgen_ty_1"%string, "_bitfield_1"%string, blk_mq_ctx__bindgen_ty_1_bitfield_1);
  ("blk_mq_ctx"%string, "_bitfield_1"%string, blk_mq_ctx_bitfield_1);
  ("blk_mq_hw_ctx__bindgen_ty_1"%string, "_bitfield_1"%string, blk_mq_hw_ctx__bindgen_ty_1_bitfield_1);
  ("blk_mq_hw_ctx"%string, "_bitfield_1"%string, blk_mq_hw_ctx_bitfield_1);
  ("sk_buff__bindgen_ty_4__bindgen_ty_1"%string, "_bitfield_1"%string, sk_buff__bindgen_ty_4__bindgen_ty_1_bitfield_1);
  ("sk_buff__bindgen_ty_4__bindgen_ty_1"%string, "_bitfield_2"%string, sk_buff__bindgen_ty_4__bindgen_ty_1_bitfield_2);
  ("sk_buff__bindgen_ty_4__bindgen_ty_2"%string, "_bitfield_1"%string, sk_buff__bindgen_ty_4__bindgen_ty_2_bitfield_1);
  ("sk_buff__bindgen_ty_4__bindgen_ty_2"%string, "_bitfield_2"%string, sk_buff__bindgen_ty_4__bindgen_ty_2_bitfield_2);
  ("sk_buff"%string, "_bitfield_1"%string, sk_buff_bitfield_1);
  ("sock_common"%string, "_bitfield_1"%string, sock_common_bitfield_1);
  ("sock__bindgen_ty_5__bindgen_ty_1"%string, "_bitfield_1"%string, sock__bindgen_ty_5__bindgen_ty_1_bitfield_1);
  ("sock"%string, "_bitfield_1"%string, sock_bitfield_1);
  ("sock"%string, "_bitfield_2"%string, sock_bitfield_2);
  ("bpf_func_info_aux"%string, "_bitfield_1"%string, bpf_func_info_aux_bitfield_1);
  ("bpf_reg_state__bindgen_ty_1__bindgen_ty_5"%string, "_bitfield_1"%string, bpf_reg_state__bindgen_ty_1__bindgen_ty_5_bitfield_1);
  ("bpf_insn"%string, "_bitfield_1"%string, bpf_insn_bitfield_1);
  ("bpf_loop_inline_state"%string, "_bitfield_1"%string, bpf_loop_inline_state_bitfield_1);
  ("bpf_insn_aux_data"%string, "_bitfield_1"%string, bpf_insn_aux_data_bitfield_1);
  ("bpf_jmp_history_entry"%string, "_bitfield_1"%string, bpf_jmp_history_entry_bitfield_1);
  ("bpf_prog"%string, "_bitfield_1"%string, bpf_prog_bitfield_1);
  ("bpf_prog_stats"%string, "_bitfield_1"%string, bpf_prog_stats_bitfield_1);
  ("bpf_raw_event_map"%string, "_bitfield_1"%string, bpf_raw_event_map_bitfield_1);
  ("bpf_subprog_info"%string, "_bitfield_1"%string, bpf_subprog_info_bitfield_1);
  ("perf_mem_data_src__bindgen_ty_1"%string, "_bitfield_1"%string, perf_mem_data_src__bindgen_ty_1_bitfield_1);
  ("perf_sample_data"%string, "_bitfield_1"%string, perf_sample_data_bitfield_1);
  ("perf_output_handle__bindgen_ty_1__bindgen_ty_1"%string, "_bitfield_1"%string, perf_output_handle__bindgen_ty_1__bindgen_ty_1_bitfield_1);
  ("bucket_table"%string, "_bitfield_1"%string, bucket_table_bitfield_1);
  ("buffer_page"%string, "_bitfield_1"%string, buffer_page_bitfield_1);
  ("cdrom_device_info"%string, "_bitfield_1"%string, cdrom_device_info_bitfield_1);
  ("cdrom_device_info"%string, "_bitfield_2"%string, cdrom_device_info_bitfield_2);
  ("cfg80211_pmsr_capabilities__bindgen_ty_1"%string, "_bitfield_1"%string, cfg80211_pmsr_capabilities__bindgen_ty_1_bitfield_1);
  ("cfg80211_pmsr_capabilities__bindgen_ty_1"%string, "_bitfield_2"%string, cfg80211_pmsr_capabilities__bindgen_ty_1_bitfield_2);
  ("cfg80211_pmsr_capabilities"%string, "_bitfield_1"%string, cfg80211_pmsr_capabilities_bitfield_1);
  ("cfs_rq__bindgen_ty_1"%string, "_bitfield_1"%string, cfs_rq__bindgen_ty_1_bitfield_1);
  ("cfs_rq"%string, "_bitfield_1"%string, cfs_rq_bitfield_1);
  ("cfs_rq"%string, "_bitfield_2"%string, cfs_rq_bitfield_2);
  ("cgroup"%string, "_bitfield_1"%string, cgroup_bitfield_1);
  ("cgroup_root"%string, "_bitfield_1"%string, cgroup_root_bitfield_1);
  ("cgroup_subsys"%string, "_bitfield_1"%string, cgroup_subsys_bitfield_1);
  ("perf_branch_entry"%string, "_bitfield_1"%string, perf_branch_entry_bitfield_1);
  ("cpuidle_device"%string, "_bitfield_1"%string, cpuidle_device_bitfield_1);
  ("cpuidle_driver"%string, "_bitfield_1"%string, cpuidle_driver_bitfield_1);
  ("tty_port"%string, "_bitfield_1"%string, tty_port_bitfield_1);
  ("dentry_operations"%string, "_bitfield_1"%string, dentry_operations_bitfield_1);
  ("desc_struct"%string, "_bitfield_1"%string, desc_struct_bitfield_1);
  ("dev_iommu"%string, "_bitfield_1"%string, dev_iommu_bitfield_1);
  ("device_private"%string, "_bitfield_1"%string, device_private_bitfield_1);
  ("devlink"%string, "_bitfield_1"%string, devlink_bitfield_1);
  ("devlink_port_pci_pf_attrs"%string, "_bitfield_1"%string, devlink_port_pci_pf_attrs_bitfield_1);
  ("devlink_port_pci_vf_attrs"%string, "_bitfield_1"%string, devlink_port_pci_vf_attrs_bitfield_1);
  ("devlink_port_pci_sf_attrs"%string, "_bitfield_1"%string, devlink_port_pci_sf_attrs_bitfield_1);
  ("devlink_port_attrs"%string, "_bitfield_1"%string, devlink_port_attrs_bitfield_1);
  ("devlink_port"%string, "_bitfield_1"%string, devlink_port_bitfield_1);
  ("devlink_port_new_attrs"%string, "_bitfield_1"%string, devlink_port_new_attrs_bitfield_1);
  ("page_counter"%string, "_bitfield_2"%string, page_counter_bitfield_2);
  ("dql"%string, "_bitfield_1"%string, dql_bitfield_1);
  ("dsa_port"%string, "_bitfield_1"%string, dsa_port_bitfield_1);
  ("dsa_switch"%string, "_bitfield_1"%string, dsa_switch_bitfield_1);
  ("dst_ops"%string, "_bitfield_1"%string, dst_ops_bitfield_1);
  ("strparser"%string, "_bitfield_1"%string, strparser_bitfield_1);
  ("ethtool_netdev_state"%string, "_bitfield_1"%string, ethtool_netdev_state_bitfield_1);
  ("ethtool_ops"%string, "_bitfield_1"%string, ethtool_ops_bitfield_1);
  ("ethtool_rxfh_context"%string, "_bitfield_1"%string, ethtool_rxfh_context_bitfield_1);
  ("eventfs_inode"%string, "_bitfield_1"%string, eventfs_inode_bitfield_1);
  ("fib6_info"%string, "_bitfield_1"%string, fib6_info_bitfield_1);
  ("file_kattr"%string, "_bitfield_1"%string, file_kattr_bitfield_1);
  ("files_struct"%string, "_bitfield_1"%string, files_struct_bitfield_1);
  ("files_struct"%string, "_bitfield_2"%string, files_struct_bitfield_2);
  ("regulation_constraints"%string, "_bitfield_1"%string, regulation_constraints_bitfield_1);
  ("fqdir"%string, "_bitfield_1"%string, fqdir_bitfield_1);
  ("fqdir"%string, "_bitfield_3"%string, fqdir_bitfield_3);
  ("fs_context"%string, "_bitfield_1"%string, fs_context_bitfield_1);
  ("fs_parameter"%string, "_bitfield_1"%string, fs_parameter_bitfield_1);
  ("fscrypt_operations"%string, "_bitfield_1"%string, fscrypt_operations_bitfield_1);
  ("ftrace_event_field"%string, "_bitfield_1"%string, ftrace_event_field_bitfield_1);
  ("futex_hash_bucket"%string, "_bitfield_1"%string, futex_hash_bucket_bitfield_1);
  ("futex_private_hash"%string, "_bitfield_1"%string, futex_private_hash_bitfield_1);
  ("ioapic_alloc_info"%string, "_bitfield_1"%string, ioapic_alloc_info_bitfield_1);
  ("hrtimer_clock_base"%string, "_bitfield_1"%string, hrtimer_clock_base_bitfield_1);
  ("hrtimer_cpu_base"%string, "_bitfield_1"%string, hrtimer_cpu_base_bitfield_1);
  ("hrtimer_cpu_base"%string, "_bitfield_2"%string, hrtimer_cpu_base_bitfield_2);
  ("rdma_restrack_entry"%string, "_bitfield_1"%string, rdma_restrack_entry_bitfield_1);
  ("ib_cq"%string, "_bitfield_1"%string, ib_cq_bitfield_1);
  ("ib_device_ops"%string, "_bitfield_1"%string, ib_device_ops_bitfield_1);
  ("ib_device"%string, "_bitfield_1"%string, ib_device_bitfield_1);
  ("ib_port_attr"%string, "_bitfield_1"%string, ib_port_attr_bitfield_1);
  ("ip_options"%string, "_bitfield_1"%string, ip_options_bitfield_1);
  ("inet6_cork"%string, "_bitfield_1"%string, inet6_cork_bitfield_1);
  ("inet_connection_sock__bindgen_ty_2"%string, "_bitfield_1"%string, inet_connection_sock__bindgen_ty_2_bitfield_1);
  ("inet_connection_sock__bindgen_ty_3"%string, "_bitfield_1"%string, inet_connection_sock__bindgen_ty_3_bitfield_1);
  ("inet_connection_sock"%string, "_bitfield_1"%string, inet_connection_sock_bitfield_1);
  ("request_sock"%string, "_bitfield_1"%string, request_sock_bitfield_1);
  ("inet_request_sock"%string, "_bitfield_1"%string, inet_request_sock_bitfield_1);
  ("msghdr"%string, "_bitfield_1"%string, msghdr_bitfield_1);
  ("io_ring_ctx__bindgen_ty_1"%string, "_bitfield_1"%string, io_ring_ctx__bindgen_ty_1_bitfield_1);
  ("io_ring_ctx__bindgen_ty_2"%string, "_bitfield_1"%string, io_ring_ctx__bindgen_ty_2_bitfield_1);
  ("io_ring_ctx__bindgen_ty_3"%string, "_bitfield_1"%string, io_ring_ctx__bindgen_ty_3_bitfield_1);
  ("io_ring_ctx__bindgen_ty_5"%string, "_bitfield_1"%string, io_ring_ctx__bindgen_ty_5_bitfield_1);
  ("io_rings"%string, "_bitfield_1"%string, io_rings_bitfield_1);
  ("io_uring_task"%string, "_bitfield_1"%string, io_uring_task_bitfield_1);
  ("iommu_ops"%string, "_bitfield_1"%string, iommu_ops_bitfield_1);
  ("iommufd_access_ops"%string, "_bitfield_1"%string, iommufd_access_ops_bitfield_1);
  ("iommufd_hw_pagetable"%string, "_bitfield_1"%string, iommufd_hw_pagetable_bitfield_1);
  ("iommufd_hwpt_paging"%string, "_bitfield_1"%string, iommufd_hwpt_paging_bitfield_1);
  ("iphdr"%string, "_bitfield_1"%string, iphdr_bitfield_1);
  ("ipc_namespace"%string, "_bitfield_1"%string, ipc_namespace_bitfield_1);
  ("ipv6_pinfo__bindgen_ty_2__bindgen_ty_1"%string, "_bitfield_1"%string, ipv6_pinfo__bindgen_ty_2__bindgen_ty_1_bitfield_1);
  ("irq_affinity_desc"%string, "_bitfield_1"%string, irq_affinity_desc_bitfield_1);
  ("irqaction"%string, "_bitfield_1"%string, irqaction_bitfield_1);
  ("kernel_pkey_params"%string, "_bitfield_1"%string, kernel_pkey_params_bitfield_1);
  ("kernfs_open_file"%string, "_bitfield_1"%string, kernfs_open_file_bitfield_1);
  ("kioctx__bindgen_ty_3"%string, "_bitfield_1"%string, kioctx__bindgen_ty_3_bitfield_1);
  ("kioctx"%string, "_bitfield_1"%string, kioctx_bitfield_1);
  ("linux_binprm"%string, "_bitfield_1"%string, linux_binprm_bitfield_1);
  ("list_lru_node"%string, "_bitfield_1"%string, list_lru_node_bitfield_1);
  ("mem_cgroup_per_node"%string, "_bitfield_1"%string, mem_cgroup_per_node_bitfield_1);
  ("mem_cgroup_per_node"%string, "_bitfield_2"%string, mem_cgroup_per_node_bitfield_2);
  ("memcg_vmstats_percpu"%string, "_bitfield_1"%string, memcg_vmstats_percpu_bitfield_1);
  ("mm_struct__bindgen_ty_1"%string, "_bitfield_2"%string, mm_struct__bindgen_ty_1_bitfield_2);
  ("mmap_action"%string, "_bitfield_1"%string, mmap_action_bitfield_1);
  ("mnt_namespace"%string, "_bitfield_1"%string, mnt_namespace_bitfield_1);
  ("module"%string, "_bitfield_2"%string, module_bitfield_2);
  ("pci_msi_desc__bindgen_ty_2"%string, "_bitfield_1"%string, pci_msi_desc__bindgen_ty_2_bitfield_1);
  ("netns_ipv6"%string, "_bitfield_1"%string, netns_ipv6_bitfield_1);
  ("net"%string, "_bitfield_2"%string, net_bitfield_2);
  ("net"%string, "_bitfield_3"%string, net_bitfield_3);
  ("net"%string, "_bitfield_4"%string, net_bitfield_4);
  ("rtable"%string, "_bitfield_1"%string, rtable_bitfield_1);
  ("net_device__bindgen_ty_1__bindgen_ty_1"%string, "_bitfield_1"%string, net_device__bindgen_ty_1__bindgen_ty_1_bitfield_1);
  ("net_device__bindgen_ty_1__bindgen_ty_2"%string, "_bitfield_1"%string, net_device__bindgen_ty_1__bindgen_ty_2_bitfield_1);
  ("net_device"%string, "_bitfield_1"%string, net_device_bitfield_1);
  ("net_device"%string, "_bitfield_2"%string, net_device_bitfield_2);
  ("netdev_queue"%string, "_bitfield_1"%string, netdev_queue_bitfield_1);
  ("xdp_rxq_info"%string, "_bitfield_1"%string, xdp_rxq_info_bitfield_1);
  ("nfs4_sequence_args"%string, "_bitfield_1"%string, nfs4_sequence_args_bitfield_1);
  ("nfs_client"%string, "_bitfield_1"%string, nfs_client_bitfield_1);
  ("nfs_client"%string, "_bitfield_2"%string, nfs_client_bitfield_2);
  ("rpc_task"%string, "_bitfield_1"%string, rpc_task_bitfield_1);
  ("orc_entry"%string, "_bitfield_1"%string, orc_entry_bitfield_1);
  ("page_pool"%string, "_bitfield_1"%string, page_pool_bitfield_1);
  ("page_pool"%string, "_bitfield_2"%string, page_pool_bitfield_2);
  ("page_pool"%string, "_bitfield_5"%string, page_pool_bitfield_5);
  ("pcpu_dstats"%string, "_bitfield_1"%string, pcpu_dstats_bitfield_1);
  ("percpu_ref_data"%string, "_bitfield_1"%string, percpu_ref_data_bitfield_1);
  ("perf_event_pmu_context"%string, "_bitfield_1"%string, perf_event_pmu_context_bitfield_1);
  ("perf_event_attr__bindgen_ty_5__bindgen_ty_1"%string, "_bitfield_1"%string, perf_event_attr__bindgen_ty_5__bindgen_ty_1_bitfield_1);
  ("perf_event_attr"%string, "_bitfield_1"%string, perf_event_attr_bitfield_1);
  ("perf_event_mmap_page__bindgen_ty_1__bindgen_ty_1"%string, "_bitfield_1"%string, perf_event_mmap_page__bindgen_ty_1__bindgen_ty_1_bitfield_1);
  ("zone"%string, "_bitfield_1"%string, zone_bitfield_1);
  ("pglist_data"%string, "_bitfield_1"%string, pglist_data_bitfield_1);
  ("pglist_data"%string, "_bitfield_2"%string, pglist_data_bitfield_2);
  ("phy_device"%string, "_bitfield_1"%string, phy_device_bitfield_1);
  ("phylink_link_state"%string, "_bitfield_1"%string, phylink_link_state_bitfield_1);
  ("pid_namespace"%string, "_bitfield_1"%string, pid_namespace_bitfield_1);
  ("pid_namespace"%string, "_bitfield_2"%string, pid_namespace_bitfield_2);
  ("prefix_info__bindgen_ty_1__bindgen_ty_1"%string, "_bitfield_1"%string, prefix_info__bindgen_ty_1__bindgen_ty_1_bitfield_1);
  ("rchan_buf"%string, "_bitfield_1"%string, rchan_buf_bitfield_1);
  ("regulator"%string, "_bitfield_1"%string, regulator_bitfield_1);
  ("regulator_desc"%string, "_bitfield_1"%string, regulator_desc_bitfield_1);
  ("regulator_dev"%string, "_bitfield_1"%string, regulator_dev_bitfield_1);
  ("return_instance"%string, "_bitfield_1"%string, return_instance_bitfield_1);
  ("ring_buffer_event"%string, "_bitfield_1"%string, ring_buffer_event_bitfield_1);
  ("rpc_clnt"%string, "_bitfield_1"%string, rpc_clnt_bitfield_1);
  ("rpc_xprt"%string, "_bitfield_1"%string, rpc_xprt_bitfield_1);
  ("uclamp_bucket"%string, "_bitfield_1"%string, uclamp_bucket_bitfield_1);
  ("sched_dl_entity"%string, "_bitfield_1"%string, sched_dl_entity_bitfield_1);
  ("rq"%string, "_bitfield_1"%string, rq_bitfield_1);
  ("rq"%string, "_bitfield_2"%string, rq_bitfield_2);
  ("rq"%string, "_bitfield_3"%string, rq_bitfield_3);
  ("rq"%string, "_bitfield_4"%string, rq_bitfield_4);
  ("rq"%string, "_bitfield_5"%string, rq_bitfield_5);
  ("rseq"%string, "_bitfield_1"%string, rseq_bitfield_1);
  ("sched_statistics"%string, "_bitfield_1"%string, sched_statistics_bitfield_1);
  ("sfp_eeprom_base__bindgen_ty_1__bindgen_ty_1"%string, "_bitfield_1"%string, sfp_eeprom_base__bindgen_ty_1__bindgen_ty_1_bitfield_1);
  ("sfp_eeprom_base__bindgen_ty_1__bindgen_ty_2"%string, "_bitfield_1"%string, sfp_eeprom_base__bindgen_ty_1__bindgen_ty_2_bitfield_1);
  ("sfp_eeprom_base"%string, "_bitfield_1"%string, sfp_eeprom_base_bitfield_1);
  ("signal_struct"%string, "_bitfield_1"%string, signal_struct_bitfield_1);
  ("sock_reuseport"%string, "_bitfield_1"%string, sock_reuseport_bitfield_1);
  ("socket_wq"%string, "_bitfield_1"%string, socket_wq_bitfield_1);
  ("socket"%string, "_bitfield_1"%string, socket_bitfield_1);
  ("srcu_data"%string, "_bitfield_1"%string, srcu_data_bitfield_1);
  ("srcu_data"%string, "_bitfield_2"%string, srcu_data_bitfield_2);
  ("super_block"%string, "_bitfield_1"%string, super_block_bitfield_1);
  ("uclamp_se"%string, "_bitfield_1"%string, uclamp_se_bitfield_1);
  ("task_group"%string, "_bitfield_1"%string, task_group_bitfield_1);
  ("thread_struct"%string, "_bitfield_1"%string, thread_struct_bitfield_1);
  ("task_struct"%string, "_bitfield_1"%string, task_struct_bitfield_1);
  ("task_struct"%string, "_bitfield_2"%string, task_struct_bitfield_2);
  ("task_struct"%string, "_bitfield_3"%string, task_struct_bitfield_3);
  ("tc_action"%string, "_bitfield_1"%string, tc_action_bitfield_1);
  ("tcp_options_received"%string, "_bitfield_1"%string, tcp_options_received_bitfield_1);
  ("tcp_rack"%string, "_bitfield_1"%string, tcp_rack_bitfield_1);
  ("tcp_sock"%string, "_bitfield_1"%string, tcp_sock_bitfield_1);
  ("tcp_sock"%string, "_bitfield_2"%string, tcp_sock_bitfield_2);
  ("tcp_sock"%string, "_bitfield_3"%string, tcp_sock_bitfield_3);
  ("tcp_sock"%string, "_bitfield_4"%string, tcp_sock_bitfield_4);
  ("tcp_sock"%string, "_bitfield_5"%string, tcp_sock_bitfield_5);
  ("tcp_sock"%string, "_bitfield_6"%string, tcp_sock_bitfield_6);
  ("tcp_sock"%string, "_bitfield_7"%string, tcp_sock_bitfield_7);
  ("tcp_ao_info"%string, "_bitfield_1"%string, tcp_ao_info_bitfield_1);
  ("time_namespace"%string, "_bitfield_2"%string, time_namespace_bitfield_2);
  ("tls_context"%string, "_bitfield_1"%string, tls_context_bitfield_1);
  ("trace_event_fields__bindgen_ty_1__bindgen_ty_1"%string, "_bitfield_1"%string, trace_event_fields__bindgen_ty_1__bindgen_ty_1_bitfield_1);
  ("tracepoint_ext"%string, "_bitfield_1"%string, tracepoint_ext_bitfield_1);
  ("udp_hslot_main"%string, "_bitfield_1"%string, udp_hslot_main_bitfield_1);
  ("user_namespace"%string, "_bitfield_2"%string, user_namespace_bitfield_2);
  ("wakeup_source"%string, "_bitfield_1"%string, wakeup_source_bitfield_1);
  ("wiphy"%string, "_bitfield_1"%string, wiphy_bitfield_1);
  ("wiphy"%string, "_bitfield_2"%string, wiphy_bitfield_2);
  ("wireless_dev"%string, "_bitfield_1"%string, wireless_dev_bitfield_1);
  ("wireless_dev"%string, "_bitfield_2"%string, wireless_dev_bitfield_2);
  ("workqueue_struct"%string, "_bitfield_1"%string, workqueue_struct_bitfield_1);
  ("writeback_control"%string, "_bitfield_1"%string, writeback_control_bitfield_1);
  ("xdp_buff_xsk"%string, "_bitfield_1"%string, xdp_buff_xsk_bitfield_1);
  ("xdp_frame"%string, "_bitfield_1"%string, xdp_frame_bitfield_1);
  ("xfrm_dev_offload"%string, "_bitfield_1"%string, xfrm_dev_offload_bitfield_1);
  ("xsk_buff_pool"%string, "_bitfield_1"%string, xsk_buff_pool_bitfield_1)].

Local Open Scope Z_scope.

(** ** Every unit of the file *)

Lemma units_ok : forallb (fun u => unit_ok (ku_unit u.2)) units = true.
Proof. vm_compute. reflexivity. Qed.

Lemma unit_in_ok n (u : KernelUnit) : (n, u) ∈ units -> unit_ok u = true.
Proof.
  intros Hu. pose proof units_ok as Hok. rewrite forallb_forall in Hok.
  apply (Hok (n, u)). by apply list_elem_of_In.
Qed.

(** The tables are layouts: in every unit the fields are in ascending
    order, share no bit, lie in the unit's bytes and are no wider than the
    integers that carry them, and no accessor is generated twice. *)
Theorem units_are_layouts :
  Forall (fun nu => unit_ok (ku_unit nu.2) = true /\ NoDup (bf_name <$> bu_fields (ku_unit nu.2))) units.
Proof.
  apply Forall_forall. intros [n u] Hu. split; [by eapply unit_in_ok|].
  assert (Hd : forallb (fun nu => bool_decide (NoDup (bf_name <$> bu_fields (ku_unit nu.2)))) units = true)
    by (vm_compute; reflexivity).
  rewrite forallb_forall in Hd. apply list_elem_of_In, Hd in Hu. by apply bool_decide_eq_true in Hu.
Qed.

(** C38: for every unit of every structure, and both byte orders, a value
    built by the constructor is read back by the getters, and any setter
    changes its own field only. *)
Theorem units_accessors big_endian {E} n (u : KernelUnit) vals :
  (n, u) ∈ units -> length vals = length (bu_fields u) ->
  exists st, new_bitfield big_endian (E := E) u vals = Ok st /\
    forall i f v, bu_fields u !! i = Some f -> vals !! i = Some v ->
      bf_get big_endian (E := E) f st = Ok (v mod 2 ^ Z.of_nat (bf_width f)) /\
      forall x, exists st', bf_set big_endian (E := E) f x st = (st', Ok tt) /\
        bf_get big_endian (E := E) f st' = Ok (x mod 2 ^ Z.of_nat (bf_width f)) /\
        forall j g w, i <> j -> bu_fields u !! j = Some g -> vals !! j = Some w ->
          bf_get big_endian (E := E) g st' = Ok (w mod 2 ^ Z.of_nat (bf_width g)).
Proof.
  intros Hin Hlen. pose proof (unit_in_ok _ _ Hin) as Hu.
  destruct (new_bitfield_values big_endian (E := E) u vals Hu Hlen) as (st & Hs & Hl & Hget).
  exists st. split; [exact Hs|]. intros i f v Hf Hv. split; [by apply (Hget i)|]. intros x.
  pose proof (unit_field_ok u i f Hu Hf) as Hfok.
  destruct (bf_set_spec big_endian (E := E) f f x st) as (st' & Hx & _ & Hfx & _);
    [by rewrite Hl..|].
  exists st'. split; [exact Hx|]. split; [exact Hfx|]. intros j g w Hij Hg Hw.
  pose proof (unit_field_ok u j g Hu Hg) as Hgok.
  destruct (bf_set_spec big_endian (E := E) f g x st) as (st2 & Hx2 & _ & _ & Hother);
    [by rewrite Hl..|].
  rewrite Hx in Hx2. injection Hx2 as <-. rewrite Hother by (by eapply unit_disjoint).
  by apply (Hget j).
Qed.

(** ** The types of the accessors *)

Definition value_size (T : value_type) : nat :=
  match T with VInt T => size_of T | VBool => 1 end.

(** The integers that are the bytes of a value of the type. *)
Definition valid_value (T : value_type) (v : Z) : Prop :=
  match T with
  | VInt T => 0 <= v < 2 ^ (8 * Z.of_nat (size_of T))
  | VBool => v = 0 \/ v = 1
  end.

(** The integer has the size of the type, and a [bool] is one bit wide. *)
Definition typed_ok (a : Accessor) : bool :=
  (bf_bits a =? 8 * value_size (acc_type a))%nat &&
  match acc_type a with VInt _ => true | VBool => (bf_width a =? 1)%nat end.

Lemma accessors_typed_ok :
  forallb (fun u => forallb typed_ok (ku_accessors u.2)) units = true.
Proof. vm_compute. reflexivity. Qed.

Lemma accessor_typed_ok n u (a : Accessor) : (n, u) ∈ units -> a ∈ ku_accessors u -> typed_ok a = true.
Proof.
  intros Hu Ha. pose proof accessors_typed_ok as Hok. rewrite forallb_forall in Hok.
  apply list_elem_of_In, Hok in Hu. cbn [snd] in Hu. rewrite forallb_forall in Hu.
  by apply Hu, list_elem_of_In.
Qed.

Lemma accessor_field_ok n u (a : Accessor) :
  (n, u) ∈ units -> a ∈ ku_accessors u -> field_ok (ku_size u) a.
Proof.
  intros Hu (i & Hi)%list_elem_of_lookup.
  apply (unit_field_ok (ku_unit u) i); [by eapply unit_in_ok|].
  cbn [ku_unit bu_fields]. by rewrite list_lookup_fmap, Hi.
Qed.

(** A field as wide as its type allows holds valid values only. *)
Lemma typed_valid (a : Accessor) v :
  typed_ok a = true -> (bf_width a <= bf_bits a)%nat -> 0 <= v < 2 ^ Z.of_nat (bf_width a) ->
  valid_value (acc_type a) v.
Proof.
  unfold typed_ok, valid_value, value_size. intros [Hb%Nat.eqb_eq Ht]%andb_true_iff Hw Hv.
  destruct (acc_type a) as [T|].
  - split; [lia|]. eapply Z.lt_le_trans; [apply Hv|]. apply Z.pow_le_mono_r; lia.
  - apply Nat.eqb_eq in Ht. rewrite Ht in Hv. change (2 ^ Z.of_nat 1) with 2 in Hv. lia.
Qed.

(** C39: the transmutes of the accessors are sound.  For every field of every
    unit the integer and the field's type have the same size; whatever bytes the
    unit holds, also ones no setter wrote, the getter reads a valid value of
    that type, for a [bool] 0 or 1; and a [bool] that is set is read back. *)
Theorem accessors_transmute big_endian {E} n u (a : Accessor) st :
  (n, u) ∈ units -> a ∈ ku_accessors u -> length st = ku_size u ->
  bf_bits a = (8 * value_size (acc_type a))%nat /\
  (exists v, bf_get big_endian (E := E) a st = Ok v /\ valid_value (acc_type a) v) /\
  forall x, acc_type a = VBool -> valid_value VBool x ->
    exists st', bf_set big_endian (E := E) a x st = (st', Ok tt) /\
      bf_get big_endian (E := E) a st' = Ok x.
Proof.
  intros Hu Ha Hl. pose proof (accessor_typed_ok _ _ _ Hu Ha) as Hty.
  pose proof (accessor_field_ok _ _ _ Hu Ha) as Hok. rewrite <-Hl in Hok.
  pose proof Hty as [Hb%Nat.eqb_eq Hbool]%andb_true_iff. split; [exact Hb|]. split.
  - eexists. split; [by apply bf_get_ok|]. apply typed_valid; [done|apply Hok|].
    apply of_bits_range.
  - intros x Hx Hv. destruct (bf_set_spec big_endian (E := E) a a x st Hok Hok)
      as (st' & Hs & _ & Hg & _).
    exists st'. split; [exact Hs|]. rewrite Hg. rewrite Hx in Hbool. apply Nat.eqb_eq in Hbool.
    rewrite Hbool. change (2 ^ Z.of_nat 1) with 2. destruct Hv as [-> | ->]; reflexivity.
Qed.

(** ** The IPv4 header *)

(** Four bits of the first byte. *)
Definition nibble (offset : nat) : Bitfield :=
  {| bf_name := ""; bf_offset := offset; bf_width := 4; bf_bits := 8 |}.

(** The kernel's [iphdr] and the program agree on the header length: the
    getter [ihl] of the first byte, in words of four bytes, is the length the
    program computes with, which it rejects exactly when it is below five
    words; its upper limit of 60 bytes never rejects anything. *)
Theorem iphdr_header_length {E} (b : byte) (rest : list byte) :
  bu_fields iphdr_bitfield_1 = [iphdr_bitfield_1_ihl : Bitfield; iphdr_bitfield_1_version : Bitfield] /\
  bf_get false (E := E) iphdr_bitfield_1_version [b] = Ok (u8 b / 16) /\
  exists ihl : nat, bf_get false (E := E) iphdr_bitfield_1_ihl [b] = Ok (Z.of_nat ihl) /\
    get_ipv4_header_len (b :: rest) = if (ihl <? 5)%nat then Err tt else Ok (4 * ihl)%nat.
Proof.
  split; [reflexivity|].
  assert (Hf : forall off : nat, (off = 0 \/ off = 4)%nat ->
    bf_get false (E := E) (nibble off) [b] = Ok (u8 b / 2 ^ Z.of_nat off mod 2 ^ 4)).
  { intros off Hoff. rewrite bf_get_ok; [rewrite field_bits_le|].
    - cbn [le_Z nibble bf_offset bf_width]. by rewrite Z.mul_0_r, Z.add_0_r.
    - unfold field_ok, in_unit, usize_max. cbn [nibble bf_offset bf_width bf_bits length].
      destruct Hoff as [-> | ->]; lia. }
  pose proof (u8_range b) as Hb. split.
  - change (bf_get false (iphdr_bitfield_1_version : Bitfield) [b]) with (bf_get false (E := E) (nibble 4) [b]).
    rewrite Hf by by right. f_equal. change (2 ^ Z.of_nat 4) with 16. change (2 ^ 4) with 16.
    apply Z.mod_small. split; [apply Z.div_pos|apply Z.div_lt_upper_bound]; lia.
  - exists (Z.to_nat (u8 b mod 16)). pose proof (Z.mod_pos_bound (u8 b) 16 eq_refl) as Hm. split.
    + change (bf_get false (iphdr_bitfield_1_ihl : Bitfield) [b]) with (bf_get false (E := E) (nibble 0) [b]).
      rewrite Hf by by left. rewrite Z.div_1_r, Z2Nat.id by lia. done.
    + unfold get_ipv4_header_len, IPV4_MIN_HDR_LEN, IPV4_MAX_HDR_LEN.
      cbn [ipv4_ihl wire_headers wire_ihl].
      change 15 with (Z.ones 4). rewrite Z.land_ones by lia. change (2 ^ 4) with 16.
      rewrite (proj2 (Nat.ltb_ge 60 _)) by lia. rewrite orb_false_r.
      destruct (Nat.ltb_spec (4 * Z.to_nat (u8 b mod 16)) 20),
        (Nat.ltb_spec (Z.to_nat (u8 b mod 16)) 5); done || lia.
Qed.

(** ** Witnesses *)

(** A byte with every bit set holds a valid flag. *)
Lemma accessors_transmute_witness :
  exists v, bf_get false (E := unit) sockptr_t_bitfield_1_is_kernel [xff] = Ok v /\
    (v = 0 \/ v = 1).
Proof.
  destruct (accessors_transmute false (E := unit) ("sockptr_t", "_bitfield_1")%string
    sockptr_t_bitfield_1 sockptr_t_bitfield_1_is_kernel [xff]) as (_ & Hv & _).
  - left.
  - left.
  - reflexivity.
  - exact Hv.
Defined.

Lemma units_accessors_witness :
  exists st, new_bitfield false (E := unit) iphdr_bitfield_1 [5; 4] = Ok st /\
    bf_get false (E := unit) iphdr_bitfield_1_ihl st = Ok 5.
Proof.
  destruct (units_accessors false (E := unit) ("iphdr", "_bitfield_1")%string iphdr_bitfield_1 [5; 4])
    as (st & Hs & Hg).
  - apply (list_elem_of_lookup_2 units 122). reflexivity.
  - reflexivity.
  - exists st. split; [exact Hs|]. exact (proj1 (Hg 0%nat _ 5 eq_refl eq_refl)).
Defined.
