(* ===== verification/KernelLayout.v ===== *)
(** * Kernel structures in memory

    What the declarations in KernelTypes.v and KernelData.v and the accessors in
    Vmlinux.v have to do with one another and with the program: the accessors
    that reach a bit field through a raw pointer to its structure stay inside
    the structure and touch nothing but their field, and the kernel's headers
    have the sizes and offsets with which the classifier reads packets. *)

From Stdlib Require Import Strings.Byte NArith ZArith Lia.
From stdpp Require Import base tactics numbers list strings.
From S2P Require Import Prelude Layout Common Bitfield RingBuffer Ebpf Capture.
From S2P Require Import KernelEnums KernelTypes KernelData Vmlinux.

Local Open Scope nat_scope.

(** ** Layout *)

Lemma kernel_types_well_formed :
  forallb (fun d => well_formed d.2) (kernel_types ++ kernel_data) = true.
Proof. vm_compute. reflexivity. Qed.

(** No declared alignment makes the layout unsound: in every structure and
    union of the bindings the scalars lie inside the value, apart from one
    another outside unions and aligned outside packed parts. *)
Lemma kernel_types_laid_out : Forall (fun d => laid_out d.2) (kernel_types ++ kernel_data).
Proof.
  eapply forallb_Forall'; [|exact kernel_types_well_formed].
  apply Forall_forall. intros d _. apply well_formed_laid_out.
Qed.

(** ** Units in their structures *)

Fixpoint find_type (name : string) (l : list (string * ctype)) : option ctype :=
  match l with
  | [] => None
  | (n, t) :: l => if String.eqb n name then Some t else find_type name l
  end.

(** The fields of a packed structure follow each other without padding. *)
Fixpoint packed_offsets (off : nat) (fields : list (string * ctype)) : list (string * nat) :=
  match fields with
  | [] => []
  | (name, t) :: fields => (name, off) :: packed_offsets (off + size_of t) fields
  end.

(** The offset [addr_of!] adds to the pointer to a structure for a field. *)
Definition member_offset (t : ctype) (name : string) : nat :=
  match t with
  | CPacked fields => find_offset name (packed_offsets 0 fields)
  | _ => field_offset t name
  end.

Section Raw.
Context (big_endian : bool) {E : Type} (T : ctype) (u : string * string * KernelUnit).

(** [f_raw(this)] and [set_f_raw(this, val)] of a structure [T] whose unit [u]
    holds the field. *)
Definition f_raw (a : Accessor) (mem : list byte) (this : nat) : outcome E Z :=
  bf_get_raw big_endian a (ku_size u.2) mem (this + member_offset T u.1.2).

Definition set_f_raw (a : Accessor) (this : nat) (val : Z) : prog (list byte) E unit :=
  bf_set_raw big_endian a (ku_size u.2) (this + member_offset T u.1.2) val.
End Raw.

(** The unit lies inside its structure. *)
Definition unit_inside (u : string * string * KernelUnit) : bool :=
  match find_type u.1.1 kernel_types with
  | Some t => member_offset t u.1.2 + ku_size u.2 <=? size_of t
  | None => false
  end.

Lemma units_inside : forallb unit_inside units = true.
Proof. vm_compute. reflexivity. Qed.

Lemma unit_in_structure u :
  u ∈ units ->
  exists T, find_type u.1.1 kernel_types = Some T /\
    member_offset T u.1.2 + ku_size u.2 <= size_of T.
Proof.
  intros Hu. pose proof units_inside as Hall. rewrite forallb_forall in Hall.
  apply list_elem_of_In, Hall in Hu. unfold unit_inside in Hu.
  destruct (find_type u.1.1 kernel_types) as [T|]; [|done]. exists T. split; [done|].
  by apply Nat.leb_le.
Qed.

(** Bytes outside a range that is overwritten stay. *)
Lemma lookup_put_outside off (l mem : list byte) i :
  off + length l <= length mem -> i < off \/ off + length l <= i -> put off l mem !! i = mem !! i.
Proof.
  intros Hm Hi. unfold put. destruct Hi as [Hi|Hi].
  - rewrite lookup_app_l by (rewrite length_take; lia). by rewrite lookup_take_lt.
  - rewrite !lookup_app_r; rewrite ?length_take, ?Nat.min_l; try lia.
    rewrite lookup_drop. f_equal. lia.
Qed.

(** C37: the accessors through raw pointers are memory safe.  For every bit
    field of the bindings, with [this] pointing to a value of its structure
    anywhere in memory, the unit lies inside the value; the raw getter reads
    inside it and, whatever bytes are there, returns a valid value of the
    field's type; the raw setter succeeds, the getter then reads the low bits
    of what was set, every other field of the unit keeps its value and every
    byte outside the unit is left alone. *)
Theorem raw_accessors_safe big_endian {E} u (a : Accessor) :
  u ∈ units -> a ∈ ku_accessors u.2 ->
  exists T, find_type u.1.1 kernel_types = Some T /\
    forall mem this val, this + size_of T <= length mem ->
      let at_ := this + member_offset T u.1.2 in
      at_ + ku_size u.2 <= this + size_of T /\
      (exists v, f_raw big_endian (E := E) T u a mem this = Ok v /\ valid_value (acc_type a) v) /\
      exists mem', set_f_raw big_endian (E := E) T u a this val mem = (mem', Ok tt) /\
        f_raw big_endian (E := E) T u a mem' this = Ok (val mod 2 ^ Z.of_nat (bf_width a))%Z /\
        (forall b : Accessor, b ∈ ku_accessors u.2 ->
           disjoint_fields (bf_offset a) (bf_width a) (bf_offset b) (bf_width b) ->
           f_raw big_endian (E := E) T u b mem' this = f_raw big_endian (E := E) T u b mem this) /\
        length mem' = length mem /\
        forall i, i < at_ \/ at_ + ku_size u.2 <= i -> mem' !! i = mem !! i.
Proof.
  intros Hu Ha. destruct (unit_in_structure u Hu) as (T & HT & Hin). exists T. split; [exact HT|].
  intros mem this val Hmem at_. set (size := ku_size u.2) in *.
  assert (Hat : at_ + size <= length mem) by (unfold at_, size; lia).
  split; [unfold at_; lia|]. destruct u as [n u]. cbn [fst snd] in *.
  pose proof (accessor_field_ok _ _ _ Hu Ha) as Hok. fold size in Hok.
  assert (Hl : length (read at_ size mem) = size) by by apply length_read.
  assert (Hget : forall (b : Accessor) m, at_ + size <= length m ->
    f_raw big_endian (E := E) T (n, u) b m this = bf_get big_endian b (read at_ size m)).
  { intros b m Hm. unfold f_raw, bf_get_raw, bf_get. cbn [fst snd]. fold at_ size.
    by rewrite raw_get_eq. }
  split.
  - rewrite Hget by done. eexists. split; [apply bf_get_ok; by rewrite Hl|].
    apply typed_valid; [by eapply accessor_typed_ok|apply Hok|apply of_bits_range].
  - destruct (bf_set_spec big_endian (E := E) a a val (read at_ size mem))
      as (st & Hs & Hls & Hg & _); [by rewrite Hl..|]. rewrite Hl in Hls.
    exists (put at_ st mem). split_and!.
    + unfold set_f_raw, bf_set_raw. cbn [fst snd]. fold at_ size. rewrite raw_set_eq by done.
      unfold bf_set in Hs. by rewrite Hs.
    + rewrite Hget by (rewrite length_put; lia). rewrite <-Hls at 1.
      by rewrite read_put_same by lia.
    + intros b Hb Hd. pose proof (accessor_field_ok _ _ _ Hu Hb) as Hbok. fold size in Hbok.
      rewrite !Hget by (rewrite ?length_put; lia). rewrite <-Hls at 1.
      rewrite read_put_same by lia.
      destruct (bf_set_spec big_endian (E := E) a b val (read at_ size mem))
        as (st2 & Hs2 & _ & _ & Hother); [by rewrite Hl..|].
      rewrite Hs in Hs2. injection Hs2 as <-. by apply Hother.
    + by rewrite length_put by lia.
    + intros i Hi. apply lookup_put_outside; lia.
Qed.

(** ** The headers of a packet *)

Section Headers.
Context `{!NetworkTypes} `{!NetworkTypesLaws}.

(** The program reads packets the way the kernel lays them out.  The header
    sizes behind which the classifier looks for the next header are the sizes
    of the kernel's structures, neither of which has padding, and the fields
    it reads through network_types are, in the wire format, at the offsets of
    the kernel's fields. *)
Theorem kernel_headers :
  EthHdr_LEN = size_of ethhdr /\ Ipv4Hdr_LEN = size_of iphdr /\
  (forall h, wire_ether h =
     match be_Z (read (field_offset ethhdr "h_proto") (size_of __be16) h) with
     | 2048%Z => Some EtherIpv4
     | 34525%Z => Some EtherIpv6
     | _ => Some EtherOther
     end) /\
  (forall h, @ipv4_proto wire_headers h =
     wire_proto (read (field_offset iphdr "protocol") (size_of __u8) h)) /\
  (forall h, @ipv4_src_addr wire_headers h =
     read (field_offset iphdr "__bindgen_anon_1" +
           field_offset iphdr__bindgen_ty_1__bindgen_ty_1 "saddr") (size_of __be32) h) /\
  (forall h, @ipv4_dst_addr wire_headers h =
     read (field_offset iphdr "__bindgen_anon_1" +
           field_offset iphdr__bindgen_ty_1__bindgen_ty_1 "daddr") (size_of __be32) h).
Proof. rewrite EthHdr_size, Ipv4Hdr_size. by split_and!. Qed.
End Headers.

(** ** Witnesses *)

(** The header length of an IPv4 header that starts at the third byte. *)
Lemma raw_accessors_safe_witness :
  exists T mem', find_type "iphdr" kernel_types = Some T /\
    set_f_raw false (E := unit) T ("iphdr", "_bitfield_1", iphdr_bitfield_1)%string
      iphdr_bitfield_1_ihl 2 5 (replicate 30 xff) = (mem', Ok tt) /\
    f_raw false (E := unit) T ("iphdr", "_bitfield_1", iphdr_bitfield_1)%string
      iphdr_bitfield_1_ihl mem' 2 = Ok 5%Z /\ mem' !! 1 = Some xff.
Proof.
  destruct (raw_accessors_safe false (E := unit)
    ("iphdr", "_bitfield_1", iphdr_bitfield_1)%string iphdr_bitfield_1_ihl) as (T & HT & H).
  - apply (list_elem_of_lookup_2 units 122). reflexivity.
  - left.
  - assert (Hi : find_type "iphdr" kernel_types = Some iphdr) by (vm_compute; reflexivity).
    assert (HeqT : Some T = Some iphdr) by (rewrite <-HT; exact Hi).
    apply (inj Some) in HeqT.
    destruct (H (replicate 30 xff) 2 5%Z) as (_ & _ & mem' & Hs & Hg & _ & _ & Ho).
    + rewrite HeqT, length_replicate. apply Nat.leb_le. vm_compute. reflexivity.
    + exists T, mem'. split; [exact HT|]. split; [exact Hs|]. split; [exact Hg|].
      rewrite Ho by (left; lia). reflexivity.
Defined.

Lemma kernel_headers_witness : @EthHdr_LEN wire_headers = 14.
Proof. destruct kernel_headers as [H _]. rewrite H. reflexivity. Defined.
